(* ===== verification/_CoqProject ===== *)
-Q . S2P
Prelude.v
Pmm.v
Vmm.v
Heap.v
CString.v
Sched.v
UserTask.v
Ipc.v
IpcFacts.v
Bytes.v
Buffer.v
Ata.v
Disk.v
Ext2.v
Ext2Demo.v
Ext2Facts.v
Ext2Alloc.v
Ext2Dir.v
Vfs.v
VfsFacts.v
NetState.v
Rtl8139.v
Net.v
NetDemo.v
NetFacts.v
RtlFacts.v
ArpFacts.v
AddrFacts.v
DnsFacts.v
TcpFacts.v
Fbcon.v
Term.v
TermFacts.v
Printk.v
PrintkFacts.v
Keyboard.v
Readline.v
ReadlineFacts.v
Text.v
Words.v
Paths.v
PathFacts.v
TextBuf.v
TextFacts.v
FlatText.v
ViState.v
ViEdit.v
SearchFacts.v
SubstFacts.v
UndoFacts.v
Descriptors.v
Machine.v
MachineDemo.v
SayFacts.v
HistoryFacts.v
Commands.v
FileCommands.v
Nano.v
NanoFacts.v
ViFiles.v
ViScreen.v
Vi.v
ViFacts.v
InsertFacts.v
Acpi.v
Interrupts.v
InterruptFacts.v
Usb.v
UsbFacts.v
UserProgram.v
UserFacts.v
Shell.v
ShellFacts.v
UserShellFacts.v
Boot.v
