(* ===== verification/Prelude.v ===== *)
(** * rtjn-kernel2: a verification library for the kernel

    The library models the C code of the kernel (all of [src/kernel], the
    headers it uses and the programs of [src/user]) as executable functions and
    proves what its parts promise to each other and to the user.  This file is
    the root: it describes the whole development and holds what all files share.

    ** How the code is read

    A C function is a function in the state monad [M S A] below: it returns
    with a new state, or it is [Stuck] with the reason, an access outside an
    object, a value never set, an unmapped page, a division by zero, a halted
    processor or a loop that used up its fuel.  "[f] terminates and does X" is
    a theorem of the form [exists s', f s = Ok v s' /\ X]: it says at once that
    no access is out of bounds, that every loop ends and what the result is.
    Proofs go through the weakest precondition [wp] and the tactic [wp_step].

    Integers are [Z] with the wrap-around of their type written out ([u8], [u16],
    [u32], [u64], [s8], [s32]); a packed structure that the code overlays on a
    buffer is the list of its bytes (Bytes.v); the static variables of a source
    file are one record; a pointer into an array is an offset.  A local array
    that the code does not initialise holds arbitrary bytes, the parameter
    [Locals].  Functions keep their names in the source; where one
    definition stands for a part of a function, the name says which part.

    ** The parts, and the files that model them

    - Memory: Pmm.v (mm/pmm.c: bitmap of frames), Vmm.v (mm/vmm.c: page tables in
      a physical memory behind the two-level walk of the processor), Heap.v
      (mm/heap.c).  Vmm.v calls Pmm.v, Heap.v calls Vmm.v.
    - Tasks: Sched.v (task/sched.c, task/syscall.c, timer_int), UserTask.v
      (task/usertask.c, over Vmm.v and Sched.v), Ipc.v and IpcFacts.v
      (task/ipc.c).
    - Processor: Descriptors.v (arch/gdt.c, arch/idt.c, arch/tss.c),
      Interrupts.v (arch/install_irq.c, irq_handler.c, exception_handler.c and
      the stubs of src/boot), InterruptFacts.v; Boot.v (kernel.c) starts
      everything.
    - Disk and files: Ata.v (dev/ata.c), Disk.v (the laws of a disk), Ext2.v with
      Ext2Facts.v, Ext2Alloc.v and Ext2Dir.v (fs/ext2.c), Vfs.v and VfsFacts.v
      (fs/vfs.c); Ext2Demo.v is a small image for the examples.
    - Network: NetState.v, Rtl8139.v and RtlFacts.v (dev/pci.c, dev/rtl8139.c),
      Net.v (net/network.c) with NetFacts.v, ArpFacts.v, AddrFacts.v,
      DnsFacts.v and TcpFacts.v; NetDemo.v is a configured host.
    - Console: CString.v (lib/string.c), Fbcon.v (dev/fbcon.c, dev/font.c), Term.v
      and TermFacts.v, Printk.v and PrintkFacts.v (lib/term.c), Keyboard.v
      (dev/keyboard.c), Readline.v and ReadlineFacts.v (shell/readline.c).
    - Shell: Machine.v joins the states above in one record and lifts their
      operations; SayFacts.v is [printk] seen from it, MachineDemo.v an example.
      Paths.v and PathFacts.v, HistoryFacts.v, Commands.v and FileCommands.v
      (shell/commands.c), Shell.v and ShellFacts.v (shell/shell.c), Acpi.v
      (arch/acpi.c, lib/demos.c, lib/print_stack.c), Usb.v and UsbFacts.v
      (dev/usb.c).
    - Editors (shell/editors.c): TextBuf.v, TextFacts.v and FlatText.v (the rows,
      and the flat text they stand for), Nano.v and NanoFacts.v, ViState.v,
      ViEdit.v, ViFiles.v, ViScreen.v, Vi.v, and for the theorems SearchFacts.v,
      SubstFacts.v, UndoFacts.v, InsertFacts.v and ViFacts.v.
    - Programs of ring 3: UserProgram.v (user/user.c, user/shell.c) with
      UserFacts.v and UserShellFacts.v.
    - Shared by several: Bytes.v (fields in byte arrays), Buffer.v (strings in
      arrays), Text.v (literals), Words.v (words of a text).

    ** How they interact

    The kernel of Interrupts.v is the machine of the shell with the descriptor
    tables.  An interrupt enters through a stub ([irq_common_stub],
    [isr_common_stub], [sys_common_stub]), which gets the address of the frame
    it has pushed and returns the address it restores from; a context switch is
    that the two differ.  The C code runs with interrupts off in handlers and
    on in [kernel_main] after [boot].  Where the code waits for an interrupt
    (the line editor, the editors, the commands that sleep) the model takes a
    pending one at each read of a variable the handler sets.  The network
    waits by polling, and a frame received then may be handled inside the
    handling of another: [net_poll] closes that recursion with a bound on the
    depth.

    What is below the kernel is a class, instantiated by a concrete device in
    the examples: [Ports] (port instructions), [KbdHw] (the keyboard
    controller), [NicHw] (ports, DMA buffers and the counters of the network),
    [Cpu] (cpuid, the table registers, the stack), [BlockDevice] and
    [DiskLaws] (a disk that keeps its contents; Ata.v gives the driver as an
    instance of the first, Disk.v an image that satisfies the laws),
    [DriveTable].  What the linker decides is a class too: [KernelLayout]
    (where the first page table is), [SchedLayout], [KernelText], [UsbLayout],
    [UserBinary].  [KernelHeap] is what the file system asks of the heap,
    [Syscalls] with [SyscallLaws] and [ConsoleLaws] what a program of ring 3
    asks of the kernel.  [cancel_input] and the ticks appear twice: the
    keyboard driver and the scheduler own them, the network reads them through
    [NicHw].

    ** What the theorems show

    - Start and interrupts: what [kernel_main] has established when it enables
      interrupts ([Boot.boot_establishes]); the gates, and that ring 3 enters
      only by the system call; a timer interrupt as a whole, from stub to stub;
      a fault of ring 3 kills its task and nothing else; a fault of the kernel
      is reported before the halt.
    - Memory: the allocators refine a pool of free frames and [vmalloc] returns
      fresh mapped memory on the first run of unmapped pages; paging is the identity below 8 MiB after [vm_init].
    - Tasks: the scheduler's invariant over every sequence of events, its
      fairness; messages; the first instruction of a user task that pushes
      faults.
    - Files: allocation of a block, reading what was written, an inode, a lookup
      in a directory, and the walk of a path, each against a description of the
      bytes of the disk; the ATA loops end on every hardware.
    - Network: the bytes of a packet, the ARP cache as a table, the TCP receiver
      against an abstract connection together with the acknowledgement frame it
      hands to the card, safety of the DNS parser, which reads nothing behind
      the reply, and of the receive ring, and the length underflow of the IPv4
      layer, which overruns the buffer of the connection.
    - Console: [term_write] against an unbounded document, [printk] against the
      text of its format, [readline] against an abstract editor for every pace
      of typing, the history as a list.
    - Shell: normal paths, splitting and dispatch.
    - Editors: each key of nano and each run of typing in vi is an edit of one
      flat text; search finds the nearest match; [:s] is the replacement of the
      non-overlapping occurrences; undo and redo.
    - Programs of ring 3: the text the demonstration task writes whatever the
      other tasks do, the editor of the user shell against a reference editor,
      and a round of that shell with the line it records in its history.
    Where the code does something else than it means to, the theorem states
    what it does (for example [IpcFacts.ipc_recv_never_waits],
    [ViFacts.vi_undo_loses_row], [UserTask.utask_first_push_faults]).

    ** Fuel and bounds

    A loop over an array or a string has its length plus one as fuel, and the
    theorems show that it is never used up.  Fixed fuels: 64 and 65 for the
    digits of a number (a 64-bit power of the base at least 2), 8 for a tab, 32
    for folding a checksum (each round shortens the sum), 65 for a line of the
    history, [DIR_FUEL] = 65536 entries of a directory, [2 * MAX_COL + 1] for a
    substitution (each round advances one of two indices, except for an empty
    pattern and replacement, where the code never ends either).  Loops that wait
    for hardware take their fuel as an argument ([fuel]); the theorems that use
    one say how much is enough, or are for every fuel.  The infinite loop of
    a shell is a number of rounds.

    ** Not modelled

    - Assembly before [kernel_main] (multiboot header, the switch to the stack),
      the linker scripts, and the instructions of the stubs one by one: a stub
      is the function from frame to frame it computes.
    - The caching and timing of the processor; what a USB controller or the
      display does with the memory it is given; delay loops.
    - Console messages of the memory managers, the disk, the file system and
      the network: they write on the terminal and change nothing else.
    - Tables of constants in headers that no function reads.
    - Code that no header declares is a parameter: the state [S_BLOCKED_IPC]
      that ipc.c names, the call that returns a key to the shell of ring 3. *)
From Stdlib Require Import ZArith Lia List.
From stdpp Require Import base tactics numbers list gmap strings option.
Open Scope Z_scope.

(** * Machine integers

    A C object of an unsigned type is a [Z] in range; every operation whose
    result can leave the range is wrapped with the function of its type. *)

Definition u8 (x : Z) : Z := x mod 256.
Definition u16 (x : Z) : Z := x mod 65536.
Definition u32 (x : Z) : Z := x mod 4294967296.
Definition u64 (x : Z) : Z := x mod 18446744073709551616.
Definition s8 (x : Z) : Z := if u8 x <? 128 then u8 x else u8 x - 256.
Definition s32 (x : Z) : Z :=
  if u32 x <? 2147483648 then u32 x else u32 x - 4294967296.

(** * Outcomes and the state monad

    A C function is a state transformer that either returns or gets stuck.
    [Stuck] names what the C program did there: an access outside an object,
    a read of a value that was never set, a dereference of a null or unmapped
    pointer, a division by zero, the processor parked for ever, or a loop that
    did not finish within the fuel of the model. *)

Inductive fault : Type :=
  | OutOfBounds
  | Indeterminate
  | NullDeref
  | PageFault
  | Unaligned
  | DivByZero
  | Halted
  | OutOfFuel.

#[export] Instance fault_eq_dec : EqDecision fault.
Proof. solve_decision. Defined.

Inductive result (S A : Type) : Type :=
  | Ok (a : A) (s : S)
  | Stuck (f : fault) (s : S).
Arguments Ok {S A} a s.
Arguments Stuck {S A} f s.

Definition M (S A : Type) : Type := S -> result S A.

#[export] Instance M_ret {S} : MRet (M S) := fun A a s => Ok a s.
#[export] Instance M_bind {S} : MBind (M S) := fun A B f m s =>
  match m s with
  | Ok a s' => f a s'
  | Stuck e s' => Stuck e s'
  end.

Section Primitives.
Context {S : Type}.

Definition gets {A} (f : S -> A) : M S A := fun s => Ok (f s) s.
Definition modify (f : S -> S) : M S unit := fun s => Ok tt (f s).
Definition stuck {A} (e : fault) : M S A := fun s => Stuck e s.
Definition guard_or (e : fault) (P : Prop) `{Decision P} : M S unit :=
  if decide P then mret tt else stuck e.
End Primitives.

(** Run an operation on a part of a larger state. *)
Definition zoom {S T A} (get : S -> T) (set : T -> S -> S) (m : M T A) : M S A :=
  fun s =>
    match m (get s) with
    | Ok a t => Ok a (set t s)
    | Stuck e t => Stuck e (set t s)
    end.

(** * Loops

    [for_ n i l body] runs [body] for the indices [i], [i+1], ..., [i+n-1];
    [l] holds the locals the loop assigns.  The body continues, breaks, or
    returns from the enclosing function.  [while_] is the same for a loop
    without a bound on its iterations and runs on fuel. *)

Inductive ctl (L R : Type) : Type :=
  | Cont (l : L)
  | Brk (l : L)
  | Ret (r : R).
Arguments Cont {L R} l.
Arguments Brk {L R} l.
Arguments Ret {L R} r.

Section Loops.
Context {S L R : Type}.

Fixpoint for_ (n : nat) (i : Z) (l : L) (body : Z -> L -> M S (ctl L R))
    : M S (L + R) :=
  match n with
  | O => mret (inl l)
  | Datatypes.S n' =>
      c ← body i l;
      match c with
      | Cont l' => for_ n' (i + 1) l' body
      | Brk l' => mret (inl l')
      | Ret r => mret (inr r)
      end
  end.

Fixpoint while_ (fuel : nat) (l : L) (body : L -> M S (ctl L R))
    : M S (L + R) :=
  match fuel with
  | O => stuck OutOfFuel
  | Datatypes.S fuel' =>
      c ← body l;
      match c with
      | Cont l' => while_ fuel' l' body
      | Brk l' => mret (inl l')
      | Ret r => mret (inr r)
      end
  end.
End Loops.

(** Iterations of [for (i = lo; i < hi; i++)]. *)
Definition span (lo hi : Z) : nat := Z.to_nat (hi - lo).

(** A loop that never returns from the function: keep the locals. *)
Definition locals {S L} (m : M S (L + Empty_set)) : M S L :=
  r ← m; match r with inl l => mret l | inr e => Empty_set_rect (fun _ => M S L) e end.

(** * Arrays

    An array is the list of its elements.  [rd] and [wr] are the total
    accessors of the proofs; the C accesses are [aget] and [aset], which get
    stuck outside the object. *)

Definition lenZ {A} (l : list A) : Z := Z.of_nat (length l).
Definition rd (a : list Z) (i : Z) : Z := nth (Z.to_nat i) a 0.
Definition wr (a : list Z) (i v : Z) : list Z := <[Z.to_nat i := v]> a.

Section ArrayAccess.
Context {S : Type}.

Definition aget (a : list Z) (i : Z) : M S Z :=
  if decide (0 <= i < lenZ a) then mret (rd a i) else stuck OutOfBounds.
Definition aset (a : list Z) (i v : Z) : M S (list Z) :=
  if decide (0 <= i < lenZ a) then mret (wr a i v) else stuck OutOfBounds.
End ArrayAccess.

(** * Weakest preconditions

    [wp m Q s]: run from [s], [m] returns (it neither gets stuck nor runs out
    of fuel) and its result satisfies [Q]. *)

Definition wp {S A} (m : M S A) (Q : A -> S -> Prop) (s : S) : Prop :=
  match m s with Ok a s' => Q a s' | Stuck _ _ => False end.

Section Wp.
Context {S : Type}.
Implicit Types s : S.

Lemma wp_ok {A} (m : M S A) Q s :
  wp m Q s <-> exists a s', m s = Ok a s' /\ Q a s'.
Proof.
  unfold wp. destruct (m s) as [a s'|e s'].
  - split; [eauto | intros (?&?&[= <- <-]&?); done].
  - split; [done | intros (?&?&?&?); done].
Qed.

Lemma wp_unit (m : M S unit) (P : S -> Prop) s :
  wp m (fun _ s' => P s') s -> exists s', m s = Ok tt s' /\ P s'.
Proof. intros ([] & s' & ? & ?)%wp_ok. eauto. Qed.

Lemma wp_run {A} (m : M S A) Q s a s' : m s = Ok a s' -> Q a s' -> wp m Q s.
Proof. unfold wp. by intros ->. Qed.

Lemma wp_elim {A} (m : M S A) Q s a s' : wp m Q s -> m s = Ok a s' -> Q a s'.
Proof. unfold wp. intros Hw Heq. by rewrite Heq in Hw. Qed.

Lemma wp_ret {A} (a : A) (Q : A -> S -> Prop) s : Q a s -> wp (mret a) Q s.
Proof. done. Qed.

Lemma wp_bind {A B} (m : M S A) (f : A -> M S B) Q s :
  wp m (fun a => wp (f a) Q) s -> wp (m ≫= f) Q s.
Proof. unfold wp, mbind, M_bind. destruct (m s); exact id. Qed.

Lemma wp_unbind {A B} (m : M S A) (f : A -> M S B) Q s :
  wp (m ≫= f) Q s -> wp m (fun a => wp (f a) Q) s.
Proof. unfold wp, mbind, M_bind. destruct (m s); exact id. Qed.

Lemma wp_gets {A} (f : S -> A) (Q : A -> S -> Prop) s : Q (f s) s -> wp (gets f) Q s.
Proof. done. Qed.

Lemma wp_modify (f : S -> S) (Q : unit -> S -> Prop) s : Q tt (f s) -> wp (modify f) Q s.
Proof. done. Qed.

Lemma wp_guard e P `{Decision P} (Q : unit -> S -> Prop) s :
  P -> Q tt s -> wp (guard_or e P) Q s.
Proof. unfold guard_or. intros HP ?. by rewrite decide_True. Qed.

Lemma wp_mono {A} (m : M S A) (Q Q' : A -> S -> Prop) s :
  (forall a s', Q a s' -> Q' a s') -> wp m Q s -> wp m Q' s.
Proof. unfold wp. destruct (m s); auto. Qed.

Lemma wp_aget a i (Q : Z -> S -> Prop) s :
  0 <= i < lenZ a -> Q (rd a i) s -> wp (aget a i) Q s.
Proof. unfold aget. intros ??. by rewrite decide_True. Qed.

Lemma wp_aset a i v (Q : list Z -> S -> Prop) s :
  0 <= i < lenZ a -> Q (wr a i v) s -> wp (aset a i v) Q s.
Proof. unfold aset. intros ??. by rewrite decide_True. Qed.

Lemma wp_zoom {T A} (get : S -> T) (set : T -> S -> S) (m : M T A)
    (Q : A -> S -> Prop) s :
  wp m (fun a t => Q a (set t s)) (get s) -> wp (zoom get set m) Q s.
Proof. unfold wp, zoom. destruct (m (get s)); exact id. Qed.

(** The rule of the bounded loop: an invariant over the index. *)
Lemma wp_for {L R} (I : Z -> L -> S -> Prop) n i l
    (body : Z -> L -> M S (ctl L R)) Q s :
  I i l s ->
  (forall j l s, i <= j < i + Z.of_nat n -> I j l s ->
     wp (body j l) (fun c s' =>
       match c with
       | Cont l' => I (j + 1) l' s'
       | Brk l' => Q (inl l') s'
       | Ret r => Q (inr r) s'
       end) s) ->
  (forall l s, I (i + Z.of_nat n) l s -> Q (inl l) s) ->
  wp (for_ n i l body) Q s.
Proof.
  revert i l s. induction n as [|n IH]; intros i l s HI Hb HQ; simpl.
  - apply wp_ret, HQ. by rewrite Z.add_0_r.
  - apply wp_bind. eapply wp_mono; [| apply Hb; [lia | exact HI]].
    intros [l'|l'|r] s' Hs'; simpl.
    + apply IH; [exact Hs' | |].
      * intros j l2 s2 ? ?. apply Hb; [lia | done].
      * intros l2 s2 ?. apply HQ.
        by replace (i + Z.of_nat (Datatypes.S n)) with (i + 1 + Z.of_nat n) by lia.
    + done.
    + done.
Qed.

(** The rule of the unbounded loop: an invariant and a measure below the
    fuel that decreases with every iteration that continues. *)
Lemma wp_while {L R} (I : L -> S -> Prop) (meas : L -> S -> nat) fuel l
    (body : L -> M S (ctl L R)) Q s :
  I l s ->
  (meas l s < fuel)%nat ->
  (forall l s, I l s ->
     wp (body l) (fun c s' =>
       match c with
       | Cont l' => I l' s' /\ (meas l' s' < meas l s)%nat
       | Brk l' => Q (inl l') s'
       | Ret r => Q (inr r) s'
       end) s) ->
  wp (while_ fuel l body) Q s.
Proof.
  revert l s. induction fuel as [|fuel IH]; intros l s HI Hm Hb; [lia|]. simpl.
  apply wp_bind. eapply wp_mono; [| apply Hb, HI].
  intros [l'|l'|r] s'; simpl; [|done|done].
  intros [HI' Hlt]. apply IH; [done | lia | done].
Qed.

Lemma wp_locals {L} (m : M S (L + Empty_set)) (Q : L -> S -> Prop) s :
  wp m (fun r s' => match r with inl l => Q l s' | inr _ => True end) s ->
  wp (locals m) Q s.
Proof.
  intros H. unfold locals. apply wp_bind. eapply wp_mono; [| exact H].
  by intros [l|[]] s' ?.
Qed.
End Wp.

(** Loops with pointwise equal bodies are equal. *)
Lemma while_ext {S L R} fuel (b1 b2 : L -> M S (ctl L R)) l (s : S) :
  (forall l s, b1 l s = b2 l s) -> while_ fuel l b1 s = while_ fuel l b2 s.
Proof.
  intros Hb. revert l s. induction fuel as [|fuel IH]; intros l s; [done|].
  cbn [while_]. unfold mbind, M_bind. rewrite Hb. destruct (b2 l s) as [[l'|l'|r] s'|]; [apply IH | done..].
Qed.

Lemma bind_ok {S A B} (m : M S A) (f : A -> M S B) s a s' : m s = Ok a s' -> (m ≫= f) s = f a s'.
Proof. unfold mbind, M_bind. by intros ->. Qed.
Lemma bind_stuck {S A B} (m : M S A) (f : A -> M S B) s e s' : m s = Stuck e s' -> (m ≫= f) s = Stuck e s'.
Proof. unfold mbind, M_bind. by intros ->. Qed.
Lemma bind_ext {S A B} (m1 m2 : M S A) (f1 f2 : A -> M S B) s :
  m1 s = m2 s -> (forall a s', f1 a s' = f2 a s') -> (m1 ≫= f1) s = (m2 ≫= f2) s.
Proof. unfold mbind, M_bind. intros -> Hf. destruct (m2 s); [apply Hf | done]. Qed.

(** [wpe e m Q s]: as [wp], but [m] may also get stuck with the fault [e]. *)
Definition wpe {S A} (e : fault) (m : M S A) (Q : A -> S -> Prop) (s : S) : Prop :=
  match m s with Ok a s' => Q a s' | Stuck e' _ => e' = e end.

Section Wpe.
Context {S : Type}.
Implicit Types s : S.

Lemma wpe_of_wp {A} e (m : M S A) Q s : wp m Q s -> wpe e m Q s.
Proof. unfold wp, wpe. by destruct (m s). Qed.

Lemma wpe_mono {A} e (m : M S A) (Q Q' : A -> S -> Prop) s :
  (forall a s', Q a s' -> Q' a s') -> wpe e m Q s -> wpe e m Q' s.
Proof. unfold wpe. destruct (m s); auto. Qed.

Lemma wpe_bind {A B} e (m : M S A) (f : A -> M S B) Q s :
  wpe e m (fun a => wpe e (f a) Q) s -> wpe e (m ≫= f) Q s.
Proof. unfold wpe, mbind, M_bind. destruct (m s); exact id. Qed.

(** Run a part that does not get stuck. *)
Lemma wpe_wp_bind {A B} e (m : M S A) (f : A -> M S B) Q s :
  wp m (fun a => wpe e (f a) Q) s -> wpe e (m ≫= f) Q s.
Proof. intros. by apply wpe_bind, wpe_of_wp. Qed.

Lemma wpe_stuck {A} e (m : M S A) Q s s' : m s = Stuck e s' -> wpe e m Q s.
Proof. unfold wpe. by intros ->. Qed.

Lemma wpe_elim {A} e (m : M S A) Q s : wpe e m Q s -> (forall a s', Q a s' -> False) ->
  exists s', m s = Stuck e s'.
Proof. unfold wpe. intros Hw HQ. destruct (m s); [by destruct (HQ _ _ Hw) | subst; eauto]. Qed.

Lemma wpe_for {L R} e (I : Z -> L -> S -> Prop) n i l (body : Z -> L -> M S (ctl L R)) Q s :
  I i l s ->
  (forall j l s, i <= j < i + Z.of_nat n -> I j l s ->
     wpe e (body j l) (fun c s' =>
       match c with
       | Cont l' => I (j + 1) l' s'
       | Brk l' => Q (inl l') s'
       | Ret r => Q (inr r) s'
       end) s) ->
  (forall l s, I (i + Z.of_nat n) l s -> Q (inl l) s) ->
  wpe e (for_ n i l body) Q s.
Proof.
  revert i l s. induction n as [|n IH]; intros i l s HI Hb HQ; cbn [for_].
  - apply wpe_of_wp, wp_ret, HQ. by rewrite Z.add_0_r.
  - apply wpe_bind. eapply wpe_mono; [| apply Hb; [lia | exact HI]].
    intros [l'|l'|r] s' Hs'; [| done..]. apply IH; [exact Hs' | |].
    + intros j l2 s2 ? ?. apply Hb; [lia | done].
    + intros l2 s2 ?. apply HQ.
      by replace (i + Z.of_nat (Datatypes.S n)) with (i + 1 + Z.of_nat n) by lia.
Qed.

(** A loop that may not end: an invariant alone. *)
Lemma wpe_while {L R} (I : L -> S -> Prop) fuel l (body : L -> M S (ctl L R)) Q s :
  I l s ->
  (forall l s, I l s -> wpe OutOfFuel (body l) (fun c s' =>
     match c with Cont l' => I l' s' | Brk l' => Q (inl l') s' | Ret r => Q (inr r) s' end) s) ->
  wpe OutOfFuel (while_ fuel l body) Q s.
Proof.
  revert l s. induction fuel as [|fuel IH]; intros l s HI Hb; [done|]. cbn [while_]. apply wpe_bind.
  eapply wpe_mono; [|by apply Hb]. intros [l'|l'|r] s' Hs'; [by apply IH | done..].
Qed.
End Wpe.

(** One step of symbolic execution; the array bounds are left to [lia]. *)
Ltac wp_step :=
  lazymatch goal with
  | |- wp (mbind _ _) _ _ => apply wp_bind
  | |- wp (mret _) _ _ => apply wp_ret
  | |- wp (gets _) _ _ => apply wp_gets
  | |- wp (modify _) _ _ => apply wp_modify
  | |- wp (guard_or _ _) _ _ => apply wp_guard
  | |- wp (aget _ _) _ _ => apply wp_aget
  | |- wp (aset _ _ _) _ _ => apply wp_aset
  | |- wp (zoom _ _ _) _ _ => apply wp_zoom
  | |- wp (if ?b then _ else _) _ _ => destruct b eqn:?
  | |- wp (match ?x with inl _ => _ | inr _ => _ end) _ _ => destruct x
  end; cbv beta.
Ltac wp_side :=
  lazymatch goal with
  | |- wp _ _ _ => try match goal with H : _ = _ :> bool |- _ => discriminate H end
  | |- _ => try done
  end.
Ltac wp_steps := repeat (wp_step; wp_side).

(** Turn boolean comparisons of the context into propositions. *)
Ltac bprop :=
  repeat match goal with
  | H : (_ =? _) = true |- _ => apply Z.eqb_eq in H
  | H : (_ =? _) = false |- _ => apply Z.eqb_neq in H
  | H : (_ <? _) = true |- _ => apply Z.ltb_lt in H
  | H : (_ <? _) = false |- _ => apply Z.ltb_ge in H
  | H : (_ <=? _) = true |- _ => apply Z.leb_le in H
  | H : (_ <=? _) = false |- _ => apply Z.leb_gt in H
  | H : negb _ = true |- _ => apply negb_true_iff in H
  | H : negb _ = false |- _ => apply negb_false_iff in H
  | H : _ && _ = true |- _ => apply andb_true_iff in H; destruct H
  | H : _ || _ = false |- _ => apply orb_false_iff in H; destruct H
  | H : bool_decide _ = true |- _ => apply bool_decide_eq_true in H
  | H : bool_decide _ = false |- _ => apply bool_decide_eq_false in H
  end.

(** Linear arithmetic with division, modulus and the word wrap-arounds. *)
Ltac word_lia :=
  unfold u8, u16, u32, u64, span, lenZ in *; Z.div_mod_to_equations; lia.

(** * Lemmas on arrays *)

Section Arrays.
Implicit Types a : list Z.

Lemma rd_lookup a i : 0 <= i < lenZ a -> a !! Z.to_nat i = Some (rd a i).
Proof.
  unfold lenZ, rd. intros Hi.
  destruct (lookup_lt_is_Some_2 a (Z.to_nat i)) as [x Hx]; [lia|].
  rewrite Hx. f_equal. symmetry. by apply nth_lookup_Some.
Qed.

Lemma lenZ_wr a i v : lenZ (wr a i v) = lenZ a.
Proof. unfold lenZ, wr. by rewrite length_insert. Qed.

Lemma rd_wr_eq a i v : 0 <= i < lenZ a -> rd (wr a i v) i = v.
Proof.
  unfold lenZ, rd, wr. intros Hi. apply nth_lookup_Some.
  apply list_lookup_insert_eq. lia.
Qed.

Lemma rd_wr_ne a i j v : 0 <= i -> 0 <= j -> i <> j -> rd (wr a i v) j = rd a j.
Proof.
  unfold rd, wr. intros Hi Hj Hne. rewrite !nth_lookup.
  rewrite list_lookup_insert_ne; [done | lia].
Qed.

Lemma rd_wr a i j v : 0 <= i < lenZ a -> 0 <= j ->
  rd (wr a i v) j = if i =? j then v else rd a j.
Proof.
  intros Hi Hj. destruct (Z.eqb_spec i j) as [<-|Hne].
  - by apply rd_wr_eq.
  - apply rd_wr_ne; lia.
Qed.

Lemma wr_rd a i : wr a i (rd a i) = a.
Proof.
  unfold wr, rd. destruct (decide (Z.to_nat i < length a)%nat) as [Hlt|Hge].
  - apply list_insert_id. destruct (lookup_lt_is_Some_2 a _ Hlt) as [x Hx].
    rewrite Hx. f_equal. symmetry. by apply nth_lookup_Some.
  - apply list_insert_ge. lia.
Qed.

Lemma wr_wr a i u v : wr (wr a i u) i v = wr a i v.
Proof. apply list_insert_insert_eq. Qed.

Lemma rd_ext a b :
  lenZ a = lenZ b -> (forall i, 0 <= i < lenZ a -> rd a i = rd b i) -> a = b.
Proof.
  intros Hlen Heq. apply (list_eq_same_length _ _ (length a)); [unfold lenZ in *; lia | done |].
  intros i x y Hi Hx Hy. specialize (Heq (Z.of_nat i)).
  unfold rd in Heq. rewrite !Nat2Z.id in Heq.
  rewrite (nth_lookup_Some _ _ _ _ Hx), (nth_lookup_Some _ _ _ _ Hy) in Heq.
  apply Heq. unfold lenZ. lia.
Qed.

Lemma rd_replicate n v i : 0 <= i < Z.of_nat n -> rd (replicate n v) i = v.
Proof.
  intros Hi. unfold rd. apply nth_lookup_Some, lookup_replicate. split; [done|lia].
Qed.

Lemma lenZ_replicate n (v : Z) : lenZ (replicate n v) = Z.of_nat n.
Proof. unfold lenZ. by rewrite length_replicate. Qed.

Lemma rd_map_seqZ g n i : 0 <= i < n -> rd (map g (seqZ 0 n)) i = g i.
Proof.
  intros Hi. unfold rd. apply nth_lookup_Some. rewrite list_lookup_fmap.
  rewrite lookup_seqZ_lt by lia. simpl. f_equal. f_equal. lia.
Qed.

Lemma lenZ_map_seqZ {A} (g : Z -> A) n : 0 <= n -> lenZ (map g (seqZ 0 n)) = n.
Proof. intros Hn. unfold lenZ. rewrite length_map, length_seqZ. lia. Qed.

Lemma lenZ_nonneg {A} (l : list A) : 0 <= lenZ l.
Proof. unfold lenZ. lia. Qed.
End Arrays.

(** * Lemmas on bits *)

Section Bits.
Lemma u32_range x : 0 <= u32 x < 4294967296.
Proof. apply Z.mod_pos_bound. lia. Qed.

Lemma u32_small x : 0 <= x < 4294967296 -> u32 x = x.
Proof. apply Z.mod_small. Qed.

Lemma u32_testbit x k : 0 <= k -> Z.testbit (u32 x) k = (k <? 32) && Z.testbit x k.
Proof.
  intros Hk. change (u32 x) with (x mod 2 ^ 32). rewrite Z.testbit_mod_pow2 by lia.
  done.
Qed.

Lemma shl1_testbit k j : 0 <= k -> Z.testbit (Z.shiftl 1 k) j = bool_decide (k = j).
Proof.
  intros Hk. rewrite Z.shiftl_1_l. rewrite Z.pow2_bits_eqb by done.
  rewrite bool_decide_decide. destruct (Z.eqb_spec k j); case_decide; congruence.
Qed.

(** Testing one bit of a word through a mask. *)
Lemma land_shl1 w k : 0 <= k < 32 ->
  (Z.land w (u32 (Z.shiftl 1 k)) =? 0) = negb (Z.testbit w k).
Proof.
  intros Hk. rewrite u32_small.
  2:{ rewrite Z.shiftl_1_l. split; [lia|].
      apply (Z.pow_lt_mono_r 2 k 32); lia. }
  rewrite Z.shiftl_1_l. destruct (Z.testbit w k) eqn:Hb; simpl.
  - apply Z.eqb_neq. intros H0. assert (Hc : Z.testbit (Z.land w (2 ^ k)) k = false)
      by (rewrite H0; apply Z.bits_0).
    rewrite Z.land_spec, Hb, Z.pow2_bits_true in Hc by lia. done.
  - apply Z.eqb_eq. apply Z.bits_inj'. intros j Hj.
    rewrite Z.land_spec, Z.pow2_bits_eqb, Z.bits_0 by lia.
    destruct (Z.eqb_spec k j) as [<-|]; [by rewrite Hb | by rewrite andb_false_r].
Qed.

Lemma word_full w : 0 <= w < 4294967296 ->
  (w = 4294967295 <-> forall k, 0 <= k < 32 -> Z.testbit w k = true).
Proof.
  intros Hw. split.
  - intros -> k Hk. change 4294967295 with (Z.ones 32). apply Z.ones_spec_low. lia.
  - intros Hall. change 4294967295 with (Z.ones 32). apply Z.bits_inj'. intros k Hk.
    destruct (decide (k < 32)).
    + rewrite Hall, Z.ones_spec_low by lia. done.
    + rewrite Z.ones_spec_high by lia.
      rewrite <- (u32_small w), u32_testbit by lia.
      replace (k <? 32) with false; [done|]. symmetry. apply Z.ltb_ge. lia.
Qed.
Lemma testbit_small b k j : 0 <= k <= j -> 0 <= b < 2 ^ k -> Z.testbit b j = false.
Proof.
  intros Hk Hb. rewrite <- (Z.mod_small b (2 ^ k)) by done.
  apply Z.mod_pow2_bits_high. lia.
Qed.

(** A word split at bit [k]: the flags below, the frame above. *)
Lemma lor_low a b k : 0 <= k -> 0 <= b < 2 ^ k -> Z.lor (a * 2 ^ k) b = a * 2 ^ k + b.
Proof.
  intros Hk Hb. rewrite <- Z.lxor_lor, <- Z.add_nocarry_lxor; [done| |];
    apply Z.bits_inj'; intros j Hj; rewrite Z.land_spec, Z.bits_0;
    (destruct (decide (j < k));
     [by rewrite Z.mul_pow2_bits_low by lia |
      by rewrite (testbit_small b k j) by lia; rewrite andb_false_r]).
Qed.

(** Masking the bits below [k], or from [k] to [n - 1]. *)
Lemma land_high x k n : 0 <= k <= n -> 0 <= x ->
  Z.land x (Z.ones n - Z.ones k) = (x mod 2 ^ n) / 2 ^ k * 2 ^ k.
Proof.
  intros Hk Hx. rewrite <- (Z.shiftl_mul_pow2 _ k), <- Z.shiftr_div_pow2 by lia.
  replace (Z.ones n - Z.ones k) with (Z.shiftl (Z.ones (n - k)) k).
  2:{ rewrite Z.shiftl_mul_pow2, !Z.ones_equiv by lia. 
      replace (2 ^ n) with (2 ^ (n - k) * 2 ^ k) by (rewrite <- Z.pow_add_r by lia; f_equal; lia).
      lia. }
  apply Z.bits_inj'. intros j Hj. rewrite Z.land_spec, !Z.shiftl_spec by lia.
  destruct (decide (j < k)).
  - rewrite !(Z.testbit_neg_r _ (j - k)) by lia. by rewrite andb_false_r.
  - rewrite Z.shiftr_spec by lia. replace (j - k + k) with j by lia.
    rewrite Z.testbit_mod_pow2 by lia. rewrite andb_comm. f_equal.
    rewrite Z.testbit_ones_nonneg by lia.
    destruct (Z.ltb_spec (j - k) (n - k)), (Z.ltb_spec j n); lia || done.
Qed.
End Bits.

Create Rewrite HintDb arr.
#[export] Hint Rewrite lenZ_wr lenZ_replicate wr_wr wr_rd : arr.

(** * Labelled transition systems *)

Section Traces.
Context {St Lb : Type}.

Inductive trace (step : St -> Lb -> St -> Prop) : St -> list Lb -> St -> Prop :=
  | trace_nil s : trace step s [] s
  | trace_cons s l s' ls s'' :
      step s l s' -> trace step s' ls s'' -> trace step s (l :: ls) s''.

(** An invariant of the steps is an invariant of the reachable states. *)
Lemma trace_invariant (step : St -> Lb -> St -> Prop) (I : St -> Prop) :
  (forall s l s', I s -> step s l s' -> I s') ->
  forall s ls s', trace step s ls s' -> I s -> I s'.
Proof. intros Hstep. induction 1; eauto. Qed.
End Traces.

(** Forward simulation with equal labels. *)
Lemma trace_simulation {C A Lb} (cstep : C -> Lb -> C -> Prop) (astep : A -> Lb -> A -> Prop)
    (R : C -> A -> Prop) :
  (forall c a l c', R c a -> cstep c l c' -> exists a', astep a l a' /\ R c' a') ->
  forall c ls c', trace cstep c ls c' ->
  forall a, R c a -> exists a', trace astep a ls a' /\ R c' a'.
Proof.
  intros Hsim. induction 1 as [c|c l c' ls c'' Hs Ht IH]; intros a HR.
  - exists a. split; [constructor | done].
  - destruct (Hsim _ _ _ _ HR Hs) as (a' & Ha & HR').
    destruct (IH _ HR') as (a'' & Hta & HR''). exists a''. split; [by econstructor | done].
Qed.

(** * Scanning for a run of clear entries

    Both the frame bitmap and the page tables are searched for the first run
    of [n] consecutive clear entries by one pass that counts the clear entries
    ending at the current position. *)

Section RunScan.
Variable busy : Z -> bool.
Variable N : Z.

Definition clear_run (f n : Z) : Prop :=
  0 <= f /\ f + n <= N /\ forall g, f <= g < f + n -> busy g = false.

Definition first_clear_run (f n : Z) : Prop :=
  clear_run f n /\ forall g, g < f -> ~ clear_run g n.

(** Before position [j]: [c] clear entries end there, the one before them is
    busy, and no run of [n] entries lies below. *)
Definition scan_inv (n j c : Z) : Prop :=
  0 <= c < n /\ c <= j /\
  (forall g, j - c <= g < j -> busy g = false) /\
  (c < j -> busy (j - c - 1) = true) /\
  (forall g, g + n <= j -> ~ clear_run g n).

Lemma scan_start n : 1 <= n -> scan_inv n 0 0.
Proof.
  intros Hn. split; [lia|]. split; [lia|]. split; [intros; lia|]. split; [lia|].
  intros g Hg (? & _ & _). lia.
Qed.

Lemma scan_busy n j c : scan_inv n j c -> 0 <= j -> busy j = true ->
  scan_inv n (j + 1) 0.
Proof.
  intros (Hc & Hcj & Hfree & Hmax & Hno) Hj Hu.
  split; [lia|]. split; [lia|]. split; [intros; lia|].
  split; [intros _; by replace (j + 1 - 0 - 1) with j by lia|].
  intros g Hg Hrun. destruct (decide (g + n <= j)) as [?|?]; [by apply (Hno g)|].
  destruct Hrun as (_ & _ & Hr). rewrite Hr in Hu; [done | lia].
Qed.

Lemma scan_clear n j c : scan_inv n j c -> 0 <= j < N -> busy j = false ->
  (c + 1 = n -> first_clear_run (j - c) n) /\
  (c + 1 <> n -> scan_inv n (j + 1) (c + 1)).
Proof.
  intros (Hc & Hcj & Hfree & Hmax & Hno) Hj Hu.
  assert (Hext : forall g, j - c <= g < j + 1 -> busy g = false).
  { intros g Hg. destruct (decide (g = j)) as [->|]; [done|]. apply Hfree. lia. }
  split; intros Hn.
  - split; [split; [lia|]; split; [lia|]; intros g Hg; apply Hext; lia|].
    intros g Hg Hrun. destruct (decide (g + n <= j)); [by apply (Hno g)|]. lia.
  - split; [lia|]. split; [lia|]. split; [intros g Hg; apply Hext; lia|].
    split; [intros ?; replace (j + 1 - (c + 1) - 1) with (j - c - 1) by lia; apply Hmax; lia|].
    intros g Hg Hrun. destruct (decide (g + n <= j)); [by apply (Hno g)|].
    destruct (decide (c < j)) as [Hlt|]; [|destruct Hrun; lia].
    destruct Hrun as (_ & _ & Hr). rewrite Hr in Hmax; [by specialize (Hmax Hlt) | lia].
Qed.

(** Skipping a stretch of busy entries whose predecessors are all busy. *)
Lemma scan_skip n j j' c : 1 <= n -> 0 <= j < j' -> (forall g, 0 <= g < j' -> busy g = true) ->
  scan_inv n j c -> scan_inv n j' c.
Proof.
  intros Hn Hj Hall (Hc & Hcj & Hfree & Hmax & Hno).
  assert (c = 0) as ->.
  { destruct (decide (c = 0)); [done|]. specialize (Hfree (j - 1) ltac:(lia)).
    rewrite Hall in Hfree by lia. done. }
  split; [done|]. split; [lia|]. split; [intros; lia|].
  split; [intros _; apply Hall; lia|].
  intros g Hg (Hg0 & _ & Hr). specialize (Hr g ltac:(lia)). rewrite Hall in Hr by lia. done.
Qed.

Lemma scan_end n c : scan_inv n N c -> forall f, ~ clear_run f n.
Proof. intros (_ & _ & _ & _ & Hno) f Hrun. apply (Hno f); [|done]. by destruct Hrun as (_ & ? & _). Qed.
End RunScan.
