(* ===== verification/Pmm.v ===== *)
(** Physical memory manager: [src/kernel/mm/pmm.c], the bitmap helpers of
    [src/include/memory.h] and [src/kernel/mm/get_mem_max_addr.c].

    The state is the bitmap [_pm_map] with the three counters; one bit per
    4 KiB frame, set when the frame is in use. *)
From Stdlib Require Import ZArith Lia List.
From stdpp Require Import base tactics numbers list gmap strings option.
From S2P Require Import Prelude.
Open Scope Z_scope.

Definition PM_BLOCK_SIZE : Z := 4096.
Definition PM_BITMAP_SIZE : Z := 32768.
Definition MULTIBOOT_BOOTLOADER_MAGIC : Z := 0x2BADB002.
Definition MULTIBOOT_MEMORY_AVAILABLE : Z := 1.
Definition FULL_WORD : Z := 0xFFFFFFFF.

(** * State *)

Record pmm : Type := mkPmm {
  pm_map : list Z;
  pm_size : Z;
  pm_blocks : Z;
  pm_used : Z
}.

Definition set_pm_map (m : list Z) (p : pmm) : pmm :=
  mkPmm m (pm_size p) (pm_blocks p) (pm_used p).
Definition set_pm_size (v : Z) (p : pmm) : pmm :=
  mkPmm (pm_map p) v (pm_blocks p) (pm_used p).
Definition set_pm_blocks (v : Z) (p : pmm) : pmm :=
  mkPmm (pm_map p) (pm_size p) v (pm_used p).
Definition set_pm_used (v : Z) (p : pmm) : pmm :=
  mkPmm (pm_map p) (pm_size p) (pm_blocks p) v.

(** The zero-initialised static storage of the kernel image. *)
Definition pmm_bss : pmm := mkPmm (replicate (Z.to_nat PM_BITMAP_SIZE) 0) 0 0 0.

(** * Multiboot memory map *)

Record multiboot_memory_map_t : Type := mkMmap {
  mm_size : Z; addr_low : Z; addr_high : Z;
  len_low : Z; len_high : Z; mm_type : Z
}.

(** [mmap_at i] is the entry stored [i] bytes after [mmap_addr]. *)
Record multiboot_info_t : Type := mkMbi {
  mb_flags : Z;
  mmap_length : Z;
  mmap_at : Z -> multiboot_memory_map_t
}.

(** [ram_max]: the two error messages are console output only. *)
Definition ram_max {S} (mbd : multiboot_info_t) (magic : Z) : M S Z :=
  l ← locals (while_ (Z.to_nat (mmap_length mbd) + 1) (0, 0xFFFFFFFF, 0)
    (fun '(i, addr_min, addr_max) =>
       if i <? mmap_length mbd then
         let mmmt := mmap_at mbd i in
         mret (Cont (if mm_type mmmt =? MULTIBOOT_MEMORY_AVAILABLE then
                  let addr_min' := if addr_low mmmt <? addr_min then addr_low mmmt else addr_min in
                  let tmp := u32 (addr_low mmmt + len_low mmmt) in
                  (u32 (i + 24), addr_min', if addr_max <? tmp then tmp else addr_max)
                else (u32 (i + 24), addr_min, addr_max)))
       else mret (Brk (i, addr_min, addr_max))));
  let '(_, _, addr_max) := l in mret addr_max.

(** * Bitmap helpers ([memory.h]) *)

Definition mmap_set (bit : Z) : M pmm unit :=
  m ← gets pm_map;
  w ← aget m (bit / 32);
  m' ← aset m (bit / 32) (Z.lor w (u32 (Z.shiftl 1 (Z.land bit 31))));
  modify (set_pm_map m').

Definition mmap_unset (bit : Z) : M pmm unit :=
  m ← gets pm_map;
  w ← aget m (bit / 32);
  m' ← aset m (bit / 32) (Z.land w (u32 (Z.lnot (Z.shiftl 1 (bit mod 32)))));
  modify (set_pm_map m').

Definition mmap_test (bit : Z) : M pmm Z :=
  m ← gets pm_map;
  w ← aget m (bit / 32);
  mret (Z.land w (u32 (Z.shiftl 1 (Z.land bit 31)))).

Definition pm_free_count : M pmm Z :=
  b ← gets pm_blocks;
  u ← gets pm_used;
  mret (u32 (b - u)).

(** * Operations ([pmm.c]) *)

Definition pm_init (mbd : multiboot_info_t) (magic : Z) : M pmm unit :=
  r ← ram_max mbd magic;
  modify (set_pm_size (Z.land (u32 (r + PM_BLOCK_SIZE - 1)) (u32 (Z.lnot (PM_BLOCK_SIZE - 1)))));;
  modify (set_pm_used 1024);;
  sz ← gets pm_size;
  modify (set_pm_blocks (sz / PM_BLOCK_SIZE));;
  locals (for_ (span 0 32) 0 tt (fun i _ =>
    m ← gets pm_map;
    m' ← aset m i FULL_WORD;
    modify (set_pm_map m');;
    mret (Cont tt)));;
  b ← gets pm_blocks;
  locals (for_ (span 32 (b / 32)) 32 tt (fun i _ =>
    m ← gets pm_map;
    m' ← aset m i 0;
    modify (set_pm_map m');;
    mret (Cont tt))).

Definition mmap_get_first_free : M pmm Z :=
  b ← gets pm_blocks;
  r ← for_ (span 0 (b / 32)) 0 tt (fun i _ =>
    m ← gets pm_map;
    w ← aget m i;
    if w =? FULL_WORD then mret (Cont tt)
    else
      q ← for_ (span (i * 32) ((i + 1) * 32)) (i * 32) tt (fun block _ =>
        t ← mmap_test block;
        if t =? 0 then mret (Ret (s32 block)) else mret (Cont tt));
      match q with
      | inl _ => mret (Cont tt)
      | inr v => mret (Ret v)
      end);
  match r with
  | inl _ => mret (-1)
  | inr v => mret v
  end.

Definition mmap_get_free_consecutives (n : Z) : M pmm Z :=
  b ← gets pm_blocks;
  r ← for_ (span 0 (b / 32)) 0 (0, 0) (fun i '(c, first_block) =>
    m ← gets pm_map;
    w ← aget m i;
    if w =? FULL_WORD then mret (Cont (c, first_block))
    else
      q ← for_ (span (i * 32) ((i + 1) * 32)) (i * 32) (c, first_block)
        (fun block '(c, first_block) =>
          t ← mmap_test block;
          if t =? 0 then
            let c := u32 (c + 1) in
            let first_block := if first_block =? 0 then block else first_block in
            if c =? n then mret (Ret (s32 first_block))
            else mret (Cont (c, first_block))
          else mret (Cont (0, 0)));
      match q with
      | inl l => mret (Cont l)
      | inr v => mret (Ret v)
      end);
  match r with
  | inl _ => mret (-1)
  | inr v => mret v
  end.

Definition pm_alloc_blocks (n : Z) : M pmm Z :=
  fc ← pm_free_count;
  if fc <? n then mret 0
  else
    frame ← mmap_get_free_consecutives n;
    if frame =? -1 then mret 0
    else
      let physical_addr := u32 (frame * PM_BLOCK_SIZE) in
      locals (for_ (span (u32 frame) (u32 (frame + n))) (u32 frame) tt (fun i _ =>
        mmap_set i;;
        mret (Cont tt)));;
      u ← gets pm_used;
      modify (set_pm_used (u32 (u + n)));;
      mret physical_addr.

Definition pm_alloc : M pmm Z :=
  fc ← pm_free_count;
  if fc =? 0 then mret 0
  else
    frame ← mmap_get_first_free;
    if frame =? -1 then mret 0
    else
      mmap_set frame;;
      let physical_addr := u32 (frame * PM_BLOCK_SIZE) in
      u ← gets pm_used;
      modify (set_pm_used (u32 (u + 1)));;
      mret physical_addr.

Definition pm_free (block_paddr : Z) : M pmm unit :=
  let frame := block_paddr / PM_BLOCK_SIZE in
  mmap_unset frame;;
  u ← gets pm_used;
  modify (set_pm_used (u32 (u - 1))).

Definition MAX_MAP_HEIGHT : Z := 8.
Definition MAX_MAP_WIDTH : Z := 80.

Definition count_positive_bits (m : Z) : Z :=
  fold_left (fun c i => c + Z.land (Z.shiftr m (Z.of_nat i)) 1) (seq 0 32) 0.

(** The map printed by the shell: the strings given to [puts], in order. *)
Definition print_physical_memory : M pmm (list string) :=
  b ← gets pm_blocks;
  let pp0 := u32 (b / (MAX_MAP_HEIGHT * MAX_MAP_WIDTH) + 1) in
  let pp_char := u32 (pp0 + (32 - pp0 mod 32)) in
  r ← for_ (span 0 MAX_MAP_HEIGHT) 0 (0, []) (fun i l =>
    q ← for_ (span 0 MAX_MAP_WIDTH) 0 l (fun j '(cur_page, out) =>
      tc ← locals (for_ (Z.to_nat (pp_char / 32)) 0 (0, cur_page) (fun k '(t, cur) =>
        m ← gets pm_map;
        w ← aget m (u32 (cur + k * 32) / 32);
        mret (Cont (t + count_positive_bits w, u32 (cur + 32)))));
      let '(t, cur_page) := tc in
      let out := out ++ [if t =? 0 then "."%string else
                         if t <? pp_char / 2 then "*"%string else "#"%string] in
      if b <=? cur_page then mret (Ret (out ++ [String (Ascii.ascii_of_nat 10) ""%string]))
      else mret (Cont (cur_page, out)));
    match q with
    | inl l => mret (Cont l)
    | inr out => mret (Ret out)
    end);
  match r with
  | inl (_, out) => mret out
  | inr out => mret out
  end.

(** * Well-formed states and the frames in use *)

(** [used p f]: the bit of frame [f] is set. *)
Definition used (p : pmm) (f : Z) : bool :=
  Z.testbit (rd (pm_map p) (f / 32)) (f mod 32).

(** The frames the allocator hands out: those of the whole words below
    [_pm_blocks]. *)
Definition nframes (p : pmm) : Z := 32 * (pm_blocks p / 32).

Record pm_wf (p : pmm) : Prop := {
  wf_len : lenZ (pm_map p) = PM_BITMAP_SIZE;
  wf_word : forall i, 0 <= i < PM_BITMAP_SIZE -> 0 <= rd (pm_map p) i < 4294967296;
  wf_blocks : 0 <= pm_blocks p <= 1048576;
  wf_used : 0 <= pm_used p < 4294967296
}.

Definition max_frame : Z := 1048576.

Definition mark (f : Z) (p : pmm) : pmm :=
  set_pm_map (wr (pm_map p) (f / 32)
    (Z.lor (rd (pm_map p) (f / 32)) (u32 (Z.shiftl 1 (Z.land f 31))))) p.
Definition unmark (f : Z) (p : pmm) : pmm :=
  set_pm_map (wr (pm_map p) (f / 32)
    (Z.land (rd (pm_map p) (f / 32)) (u32 (Z.lnot (Z.shiftl 1 (f mod 32)))))) p.

Section Bitmap.
Implicit Types p : pmm.

Lemma land31 f : Z.land f 31 = f mod 32.
Proof. change 31 with (Z.ones 5). by rewrite Z.land_ones. Qed.

Lemma frame_index f : 0 <= f < max_frame -> 0 <= f / 32 < PM_BITMAP_SIZE.
Proof. unfold max_frame, PM_BITMAP_SIZE. intros. Z.div_mod_to_equations. lia. Qed.

Lemma frame_bit f : 0 <= f mod 32 < 32.
Proof. apply Z.mod_pos_bound. lia. Qed.

Lemma nframes_bound p : pm_wf p -> 0 <= nframes p <= max_frame.
Proof. intros [_ _ ? _]. unfold nframes, max_frame. Z.div_mod_to_equations. lia. Qed.

Lemma wp_mmap_set f p (Q : unit -> pmm -> Prop) :
  pm_wf p -> 0 <= f < max_frame -> Q tt (mark f p) -> wp (mmap_set f) Q p.
Proof.
  intros [Hl _ _ _] Hf HQ. pose proof (frame_index f Hf).
  unfold mmap_set. wp_steps; rewrite Hl; done.
Qed.

Lemma wp_mmap_unset f p (Q : unit -> pmm -> Prop) :
  pm_wf p -> 0 <= f < max_frame -> Q tt (unmark f p) -> wp (mmap_unset f) Q p.
Proof.
  intros [Hl _ _ _] Hf HQ. pose proof (frame_index f Hf).
  unfold mmap_unset. wp_steps; rewrite Hl; done.
Qed.

Lemma wp_mmap_test f p (Q : Z -> pmm -> Prop) :
  pm_wf p -> 0 <= f < max_frame ->
  (forall t, (t =? 0) = negb (used p f) -> Q t p) -> wp (mmap_test f) Q p.
Proof.
  intros [Hl _ _ _] Hf HQ. pose proof (frame_index f Hf).
  unfold mmap_test. wp_steps; [by rewrite Hl|].
  apply HQ. unfold used. rewrite land31. apply land_shl1, frame_bit.
Qed.

Lemma lor_range a b : 0 <= a < 4294967296 -> 0 <= b < 4294967296 ->
  0 <= Z.lor a b < 4294967296.
Proof.
  intros Ha Hb. split; [apply Z.lor_nonneg; lia|].
  rewrite <- (u32_small a), <- (u32_small b) by lia. unfold u32.
  change 4294967296 with (2 ^ 32). rewrite <- !Z.land_ones by lia.
  rewrite <- Z.land_lor_distr_l, Z.land_ones by lia. apply Z.mod_pos_bound. lia.
Qed.

Lemma land_range_l a b : 0 <= a < 4294967296 -> 0 <= Z.land a b < 4294967296.
Proof.
  intros Ha. split; [apply Z.land_nonneg; lia|].
  rewrite <- (u32_small a) by lia. unfold u32. change 4294967296 with (2 ^ 32).
  rewrite <- Z.land_ones, <- Z.land_assoc, (Z.land_comm (Z.ones 32)), Z.land_assoc,
    Z.land_ones by lia.
  apply Z.mod_pos_bound. lia.
Qed.

Lemma wf_set_word p i v : pm_wf p -> 0 <= i < PM_BITMAP_SIZE ->
  0 <= v < 4294967296 -> pm_wf (set_pm_map (wr (pm_map p) i v) p).
Proof.
  intros [Hl Hw Hb Hu] Hi Hv. split; simpl; [by autorewrite with arr| |done|done].
  intros j Hj. rewrite rd_wr by lia. destruct (i =? j); auto.
Qed.

Lemma mark_wf f p : pm_wf p -> 0 <= f < max_frame -> pm_wf (mark f p).
Proof.
  intros Hp Hf. pose proof (frame_index f Hf). apply wf_set_word; [done|done|].
  apply lor_range; [by apply wf_word | apply u32_range].
Qed.

Lemma unmark_wf f p : pm_wf p -> 0 <= f < max_frame -> pm_wf (unmark f p).
Proof.
  intros Hp Hf. pose proof (frame_index f Hf). apply wf_set_word; [done|done|].
  apply land_range_l. by apply wf_word.
Qed.

Lemma frame_split f g : f / 32 = g / 32 -> f mod 32 = g mod 32 -> f = g.
Proof. intros. Z.div_mod_to_equations. lia. Qed.

Lemma used_mark f g p : pm_wf p -> 0 <= f < max_frame -> 0 <= g < max_frame ->
  used (mark f p) g = bool_decide (f = g) || used p g.
Proof.
  intros [Hl _ _ _] Hf Hg. unfold used, mark. simpl.
  pose proof (frame_index f Hf). pose proof (frame_index g Hg).
  pose proof (frame_bit f). pose proof (frame_bit g).
  rewrite rd_wr by (rewrite ?Hl; lia). destruct (Z.eqb_spec (f / 32) (g / 32)) as [He|Hne].
  - rewrite land31, Z.lor_spec, u32_testbit, shl1_testbit by lia. rewrite He.
    rewrite orb_comm. f_equal. destruct (Z.ltb_spec (g mod 32) 32); [|lia]. simpl.
    apply bool_decide_ext. split; [intros; by apply frame_split | by intros ->].
  - rewrite bool_decide_false; [done | congruence].
Qed.

Lemma used_unmark f g p : pm_wf p -> 0 <= f < max_frame -> 0 <= g < max_frame ->
  used (unmark f p) g = negb (bool_decide (f = g)) && used p g.
Proof.
  intros [Hl _ _ _] Hf Hg. unfold used, unmark. simpl.
  pose proof (frame_index f Hf). pose proof (frame_index g Hg).
  pose proof (frame_bit f). pose proof (frame_bit g).
  rewrite rd_wr by (rewrite ?Hl; lia). destruct (Z.eqb_spec (f / 32) (g / 32)) as [He|Hne].
  - rewrite Z.land_spec, u32_testbit, Z.lnot_spec, shl1_testbit by lia. rewrite He.
    rewrite andb_comm. f_equal. destruct (Z.ltb_spec (g mod 32) 32); [|lia]. simpl.
    f_equal. apply bool_decide_ext. split; [intros; by apply frame_split | by intros ->].
  - rewrite bool_decide_false; [done | congruence].
Qed.

(** A word is full exactly when its 32 frames are in use. *)
Lemma word_full_used p i : pm_wf p -> 0 <= i < PM_BITMAP_SIZE ->
  rd (pm_map p) i = FULL_WORD <-> forall f, i * 32 <= f < i * 32 + 32 -> used p f = true.
Proof.
  intros Hp Hi. rewrite (word_full _ (wf_word p Hp i Hi)). unfold used. split.
  - intros Hall f Hf. replace (f / 32) with i by (Z.div_mod_to_equations; lia).
    apply Hall, frame_bit.
  - intros Hall k Hk. specialize (Hall (i * 32 + k)).
    replace ((i * 32 + k) / 32) with i in Hall by (Z.div_mod_to_equations; lia).
    replace ((i * 32 + k) mod 32) with k in Hall by (Z.div_mod_to_equations; lia).
    apply Hall. lia.
Qed.
End Bitmap.

Create HintDb pmm discriminated.
#[export] Hint Resolve mark_wf unmark_wf : pmm.

(** * The single-frame allocator *)

(** The frame first-fit search is meant to find. *)
Definition least_free (p : pmm) (f : Z) : Prop :=
  0 <= f < nframes p /\ used p f = false /\ forall g, 0 <= g < f -> used p g = true.
Definition all_used (p : pmm) : Prop := forall g, 0 <= g < nframes p -> used p g = true.

Section Alloc.
Implicit Types p : pmm.

Lemma s32_frame f : 0 <= f < max_frame -> s32 f = f.
Proof.
  unfold s32, max_frame. intros. rewrite u32_small by lia.
  destruct (Z.ltb_spec f 2147483648); lia.
Qed.

Lemma wp_first_free p (Q : Z -> pmm -> Prop) :
  pm_wf p ->
  (forall f, least_free p f -> Q f p) ->
  (all_used p -> Q (-1) p) ->
  wp mmap_get_first_free Q p.
Proof.
  intros Hp Hfree Hfull. pose proof (nframes_bound p Hp) as Hnf. unfold nframes, max_frame in Hnf.
  unfold mmap_get_first_free. wp_steps.
  apply (wp_for (fun i _ s => s = p /\ forall f, 0 <= f < i * 32 -> used p f = true)).
  - split; [done | lia].
  - intros i [] s Hi [-> Hall]. unfold span in Hi.
    assert (Hii : 0 <= i < PM_BITMAP_SIZE) by (unfold PM_BITMAP_SIZE; lia).
    wp_steps; [by rewrite wf_len | |]; bprop.
    + split; [done|]. intros f Hf. destruct (decide (f < i * 32)); [apply Hall; lia|].
      apply (proj1 (word_full_used p i Hp Hii)); [done | lia].
    + apply (wp_for (fun j _ s => s = p /\ forall f, 0 <= f < j -> used p f = true)).
      * done.
      * intros j [] s Hj [-> Hall']. unfold span in Hj. wp_steps.
        apply wp_mmap_test; [done | unfold max_frame; lia |]. intros t Ht.
        rewrite Ht. destruct (used p j) eqn:Hu; simpl; apply wp_ret.
        -- split; [done|]. intros f Hf. destruct (decide (f = j)) as [->|]; [done|].
           apply Hall'. lia.
        -- rewrite s32_frame by (unfold max_frame; lia). apply Hfree.
           split; [unfold nframes; lia|]. done.
      * intros [] s [-> Hall']. apply wp_ret. split; [done|].
        unfold span in Hall'. intros f Hf. apply Hall'. lia.
  - intros [] s [-> Hall]. apply wp_ret, Hfull. intros g Hg.
    apply Hall. unfold nframes, span in *. lia.
Qed.

Definition take_frame (f : Z) (p : pmm) : pmm :=
  set_pm_used (u32 (pm_used p + 1)) (mark f p).
Definition release_frame (f : Z) (p : pmm) : pmm :=
  set_pm_used (u32 (pm_used p - 1)) (unmark f p).

Lemma frame_paddr f : 0 <= f < max_frame -> u32 (f * PM_BLOCK_SIZE) = f * PM_BLOCK_SIZE.
Proof. unfold max_frame, PM_BLOCK_SIZE. intros. apply u32_small. lia. Qed.

(** What [pm_alloc] does on each branch. *)
Lemma wp_pm_alloc p (Q : Z -> pmm -> Prop) :
  pm_wf p ->
  (u32 (pm_blocks p - pm_used p) = 0 \/ all_used p -> Q 0 p) ->
  (forall f, u32 (pm_blocks p - pm_used p) <> 0 -> least_free p f ->
     Q (f * PM_BLOCK_SIZE) (take_frame f p)) ->
  wp pm_alloc Q p.
Proof.
  intros Hp Hno Hyes. pose proof (nframes_bound p Hp) as Hnf.
  unfold pm_alloc, pm_free_count. wp_steps; bprop; [by apply Hno; left|].
  apply wp_first_free; [done| |].
  - intros f [Hf Hl]. wp_steps; bprop; [lia|].
    apply wp_mmap_set; [done | lia|]. wp_steps.
    rewrite frame_paddr by lia. by apply Hyes.
  - intros Hall. wp_steps. by apply Hno; right.
Qed.

Lemma wp_pm_free f p (Q : unit -> pmm -> Prop) :
  pm_wf p -> 0 <= f < max_frame -> Q tt (release_frame f p) ->
  wp (pm_free (f * PM_BLOCK_SIZE)) Q p.
Proof.
  intros Hp Hf HQ. unfold pm_free.
  replace (f * PM_BLOCK_SIZE / PM_BLOCK_SIZE) with f
    by (unfold PM_BLOCK_SIZE; rewrite Z.div_mul; lia).
  wp_steps. apply wp_mmap_unset; [done..|]. wp_steps.
Qed.

Lemma take_frame_wf f p : pm_wf p -> 0 <= f < max_frame -> pm_wf (take_frame f p).
Proof.
  intros Hp Hf. destruct (mark_wf f p Hp Hf) as [? ? ? ?].
  split; simpl in *; try done. apply u32_range.
Qed.

Lemma release_frame_wf f p : pm_wf p -> 0 <= f < max_frame -> pm_wf (release_frame f p).
Proof.
  intros Hp Hf. destruct (unmark_wf f p Hp Hf) as [? ? ? ?].
  split; simpl in *; try done. apply u32_range.
Qed.

(** Setting a clear bit and clearing it again gives the same word. *)
Lemma unmark_mark f p : pm_wf p -> 0 <= f < max_frame -> used p f = false ->
  unmark f (mark f p) = p.
Proof.
  intros Hp Hf Hu. pose proof (frame_index f Hf) as Hi. pose proof (frame_bit f) as Hb.
  assert (Hlen := wf_len p Hp). destruct p as [m sz b u]. unfold unmark, mark, set_pm_map.
  simpl in *. f_equal. rewrite rd_wr_eq by lia. autorewrite with arr.
  etransitivity; [| apply (wr_rd m (f / 32))]. f_equal.
  pose proof (wf_word _ Hp _ Hi) as Hw. simpl in Hw.
  apply Z.bits_inj'. intros k Hk. rewrite Z.land_spec, Z.lor_spec, land31, !u32_testbit, Z.lnot_spec,
    !shl1_testbit by lia.
  destruct (Z.ltb_spec k 32) as [Hk32|Hk32]; simpl.
  - case_bool_decide as Heq; simpl; [|by rewrite orb_false_r, andb_true_r].
    rewrite andb_false_r. subst k. unfold used in Hu. by rewrite <- Hu.
  - rewrite andb_false_r. rewrite <- (u32_small (rd m (f / 32))), u32_testbit by lia.
    by replace (k <? 32) with false by (symmetry; apply Z.ltb_ge; lia).
Qed.

Lemma release_take f p : pm_wf p -> 0 <= f < max_frame -> used p f = false ->
  release_frame f (take_frame f p) = p.
Proof.
  intros Hp Hf Hu. unfold release_frame, take_frame. simpl.
  change (unmark f (set_pm_used ?u (mark f p))) with (set_pm_used u (unmark f (mark f p))).
  rewrite unmark_mark by done. pose proof (wf_used p Hp) as Hr. destruct p as [m sz b u]; simpl in *.
  unfold set_pm_used; simpl. f_equal. unfold u32 in *. rewrite Zminus_mod_idemp_l.
  replace (u + 1 - 1) with u by lia. apply Z.mod_small. lia.
Qed.
End Alloc.

#[export] Hint Resolve take_frame_wf release_frame_wf : pmm.

(** * The set of frames in use *)

Definition used_set (p : pmm) : gset Z :=
  list_to_set (filter (fun f => used p f = true) (seqZ 0 (nframes p))).

(** The accounting invariant: [_pm_used] counts the frames in use, and the
    4 MiB of the kernel stay reserved. *)
Record pm_inv (p : pmm) : Prop := {
  inv_wf : pm_wf p;
  inv_count : pm_used p = Z.of_nat (size (used_set p));
  inv_kernel : forall f, 0 <= f < 1024 -> f ∈ used_set p
}.

Section UsedSet.
Implicit Types p : pmm.

Lemma elem_used_set p f : f ∈ used_set p <-> 0 <= f < nframes p /\ used p f = true.
Proof.
  unfold used_set. rewrite elem_of_list_to_set, list_elem_of_filter, elem_of_seqZ. naive_solver lia.
Qed.

Lemma nframes_take f p : nframes (take_frame f p) = nframes p.
Proof. done. Qed.
Lemma nframes_release f p : nframes (release_frame f p) = nframes p.
Proof. done. Qed.

Lemma used_set_take f p : pm_wf p -> 0 <= f < nframes p ->
  used_set (take_frame f p) = {[f]} ∪ used_set p.
Proof.
  intros Hp Hf. pose proof (nframes_bound p Hp). apply set_eq. intros g.
  rewrite elem_of_union, elem_of_singleton, !elem_used_set, nframes_take.
  change (used (take_frame f p) g) with (used (mark f p) g).
  destruct (decide (0 <= g < nframes p)) as [Hg|Hg].
  - rewrite used_mark by (try done; lia). case_bool_decide; simpl; naive_solver.
  - naive_solver lia.
Qed.

Lemma used_set_release f p : pm_wf p -> 0 <= f < nframes p ->
  used_set (release_frame f p) = used_set p ∖ {[f]}.
Proof.
  intros Hp Hf. pose proof (nframes_bound p Hp). apply set_eq. intros g.
  rewrite elem_of_difference, elem_of_singleton, !elem_used_set, nframes_release.
  change (used (release_frame f p) g) with (used (unmark f p) g).
  destruct (decide (0 <= g < nframes p)) as [Hg|Hg].
  - rewrite used_unmark by (try done; lia). case_bool_decide; simpl; naive_solver.
  - naive_solver lia.
Qed.

Definition frame_range (n : Z) : gset Z := list_to_set (seqZ 0 n).

Lemma used_set_range p : used_set p ⊆ frame_range (nframes p).
Proof.
  intros f. rewrite elem_used_set. unfold frame_range. rewrite elem_of_list_to_set, elem_of_seqZ. lia.
Qed.

Lemma size_frame_range n : 0 <= n -> Z.of_nat (size (frame_range n)) = n.
Proof.
  intros Hn. unfold frame_range. rewrite size_list_to_set by apply NoDup_seqZ.
  rewrite length_seqZ. lia.
Qed.

Lemma used_count_bound p : pm_wf p -> Z.of_nat (size (used_set p)) <= nframes p.
Proof.
  intros Hp. rewrite <- (size_frame_range (nframes p)) by apply nframes_bound, Hp.
  pose proof (subseteq_size _ _ (used_set_range p)). lia.
Qed.

(** Under the accounting invariant a zero free count means a full map. *)
Lemma free_count_zero p : pm_inv p -> u32 (pm_blocks p - pm_used p) = 0 -> all_used p.
Proof.
  intros [Hp Hc _] H0. pose proof (used_count_bound p Hp) as Hb.
  pose proof (wf_blocks p Hp). pose proof (nframes_bound p Hp).
  assert (Hn : nframes p <= pm_blocks p) by (unfold nframes; Z.div_mod_to_equations; lia).
  rewrite u32_small in H0 by lia.
  assert (Heq : used_set p = frame_range (nframes p)).
  { apply leibniz_equiv. apply set_subseteq_size_equiv; [apply used_set_range|].
    pose proof (size_frame_range (nframes p)). lia. }
  intros g Hg. assert (Hin : g ∈ used_set p).
  { rewrite Heq. unfold frame_range. rewrite elem_of_list_to_set, elem_of_seqZ. lia. }
  by apply elem_used_set in Hin as [_ ?].
Qed.

Lemma take_inv f p : pm_inv p -> least_free p f -> pm_inv (take_frame f p).
Proof.
  intros [Hp Hc Hk] (Hf & Hu & _). pose proof (nframes_bound p Hp) as Hn.
  assert (Hnin : f ∉ used_set p) by (rewrite elem_used_set; intros [_ ?]; congruence).
  split; [apply take_frame_wf; [done | lia] | |].
  - rewrite used_set_take by done. rewrite size_union by set_solver. rewrite size_singleton.
    simpl. rewrite Hc. pose proof (used_count_bound p Hp). unfold max_frame in Hn.
    rewrite u32_small; lia.
  - intros g Hg. rewrite used_set_take by done. set_solver.
Qed.

Lemma release_inv f p : pm_inv p -> 1024 <= f -> f ∈ used_set p -> pm_inv (release_frame f p).
Proof.
  intros [Hp Hc Hk] Hf Hin. pose proof (nframes_bound p Hp) as Hn.
  pose proof (proj1 (elem_used_set p f) Hin) as [Hr _].
  split; [apply release_frame_wf; [done | lia] | |].
  - rewrite used_set_release by done. rewrite size_difference by set_solver.
    rewrite size_singleton. simpl. rewrite Hc.
    assert (size (used_set p) <> 0)%nat by (intros ?%size_empty_inv; set_solver).
    pose proof (used_count_bound p Hp). unfold max_frame in Hn. rewrite u32_small; lia.
  - intros g Hg. rewrite used_set_release by done. apply elem_of_difference. split; [auto|].
    rewrite elem_of_singleton. lia.
Qed.
End UsedSet.

(** * Specification: a pool of frames

    The abstract allocator is the set of frames in use; it serves the lowest
    free frame of the pool. *)

Inductive pm_event : Type :=
  | EvAlloc (paddr : Z)
  | EvFree (paddr : Z).

Inductive pool_step (n : Z) : gset Z -> pm_event -> gset Z -> Prop :=
  | pool_alloc U f :
      0 <= f < n -> f ∉ U -> (forall g, 0 <= g < f -> g ∈ U) ->
      pool_step n U (EvAlloc (f * PM_BLOCK_SIZE)) ({[f]} ∪ U)
  | pool_exhausted U :
      (forall g, 0 <= g < n -> g ∈ U) -> pool_step n U (EvAlloc 0) U
  | pool_free U f :
      1024 <= f -> f ∈ U -> pool_step n U (EvFree (f * PM_BLOCK_SIZE)) (U ∖ {[f]}).

(** The code: a call of [pm_alloc], or of [pm_free] on a frame that is in use
    and outside the kernel's 4 MiB. *)
Inductive pm_step : pmm -> pm_event -> pmm -> Prop :=
  | step_alloc p a p' : pm_alloc p = Ok a p' -> pm_step p (EvAlloc a) p'
  | step_free p f p' :
      1024 <= f -> f ∈ used_set p ->
      pm_free (f * PM_BLOCK_SIZE) p = Ok tt p' ->
      pm_step p (EvFree (f * PM_BLOCK_SIZE)) p'.

Definition pool_rel (n : Z) (p : pmm) (U : gset Z) : Prop :=
  pm_inv p /\ nframes p = n /\ U = used_set p.

Lemma pm_step_refines n p U l p' :
  pool_rel n p U -> pm_step p l p' -> exists U', pool_step n U l U' /\ pool_rel n p' U'.
Proof.
  intros (Hi & Hn & ->) Hs. pose proof (inv_wf _ Hi) as Hp.
  inversion Hs as [? a ? He | ? f ? Hf Hin He]; subst.
  - pattern a, p'. apply (wp_elim pm_alloc _ p); [|exact He].
    apply wp_pm_alloc; [done| |].
    + intros [H0|Hall]; exists (used_set p); (split; [|done]); apply pool_exhausted;
        intros g Hg; apply elem_used_set; (split; [done|]).
      * by apply (free_count_zero p Hi H0).
      * by apply Hall.
    + intros f _ Hl. exists ({[f]} ∪ used_set p). destruct Hl as (Hf & Hu & Hlow) eqn:E.
      split.
      * apply pool_alloc; [done | rewrite elem_used_set; intros [_ ?]; congruence |].
        intros g Hg. apply elem_used_set. split; [lia | auto].
      * split; [by apply take_inv|]. by rewrite used_set_take.
  - pose proof (proj1 (elem_used_set p f) Hin) as [Hr _].
    exists (used_set p ∖ {[f]}). split; [by apply pool_free|].
    pose proof (nframes_bound p Hp). unfold max_frame in *.
    pattern p'. apply (wp_elim (pm_free (f * PM_BLOCK_SIZE)) (fun _ s => _ s) p tt); [|exact He].
    apply wp_pm_free; [done | unfold max_frame; lia|].
    split; [by apply release_inv|]. by rewrite used_set_release.
Qed.

(** C1: the bitmap allocator implements the pool of frames.  From a
    well-accounted state, every sequence of [pm_alloc] and [pm_free] calls is
    a sequence of the abstract pool on the set of frames in use: an
    allocation returns the address of the lowest free frame and never one in
    use, it returns NULL exactly when no frame of the pool is free, and a
    release returns that frame alone. *)
Theorem pm_refines_pool n p ls p' :
  pm_inv p -> nframes p = n -> trace pm_step p ls p' ->
  trace (pool_step n) (used_set p) ls (used_set p') /\ pm_inv p'.
Proof.
  intros Hi Hn Ht.
  destruct (trace_simulation pm_step (pool_step n) (pool_rel n)) with (2 := Ht) (a := used_set p)
    as (U' & Htr & Hi' & _ & ->); [|done|done].
  intros c a l c' HR Hs. by eapply pm_step_refines.
Qed.

(** releasing the frame just allocated restores the allocator exactly. *)
Theorem pm_free_alloc p a p' :
  pm_inv p -> pm_alloc p = Ok a p' -> a <> 0 -> pm_free a p' = Ok tt p.
Proof.
  intros Hi He Hne. pose proof (inv_wf _ Hi) as Hp. pose proof (nframes_bound p Hp).
  revert Hne. pattern a, p'. apply (wp_elim pm_alloc _ p); [|exact He].
  apply wp_pm_alloc; [done|done|]. intros f _ (Hf & Hu & _) _.
  assert (Hw : wp (pm_free (f * PM_BLOCK_SIZE)) (fun _ s => s = p) (take_frame f p)).
  { apply wp_pm_free; [apply take_frame_wf; [done|lia] | lia |]. by apply release_take; [|lia|]. }
  apply wp_ok in Hw as ([] & s & -> & ->). done.
Qed.

(** * Initialisation *)

(** The entries [ram_max] visits: one every 24 bytes below [mmap_length]. *)
Definition mmap_entries (mbd : multiboot_info_t) : list multiboot_memory_map_t :=
  map (fun k => mmap_at mbd (24 * k)) (seqZ 0 ((mmap_length mbd + 23) / 24)).
Definition usable_end (e : multiboot_memory_map_t) : Z :=
  if mm_type e =? MULTIBOOT_MEMORY_AVAILABLE then u32 (addr_low e + len_low e) else 0.
Definition highest_end (es : list multiboot_memory_map_t) : Z :=
  fold_left (fun acc e => Z.max acc (usable_end e)) es 0.

Section Init.
Implicit Types mbd : multiboot_info_t.

Lemma usable_end_range e : 0 <= usable_end e < 4294967296.
Proof. unfold usable_end. destruct (_ =? _); [apply u32_range | lia]. Qed.

Lemma highest_end_snoc es e :
  highest_end (es ++ [e]) = Z.max (highest_end es) (usable_end e).
Proof. unfold highest_end. by rewrite fold_left_app. Qed.

Lemma highest_end_range es : 0 <= highest_end es < 4294967296.
Proof.
  induction es as [|e es IH] using rev_ind; [done|]. rewrite highest_end_snoc.
  pose proof (usable_end_range e). lia.
Qed.

Lemma seqZ_snoc n : 0 <= n -> seqZ 0 (n + 1) = seqZ 0 n ++ [n].
Proof. intros Hn. rewrite seqZ_app by lia. f_equal. Qed.

Lemma wp_ram_max {S} mbd magic (Q : Z -> S -> Prop) s :
  0 <= mmap_length mbd -> mmap_length mbd + 24 <= 4294967296 ->
  Q (highest_end (mmap_entries mbd)) s -> wp (ram_max mbd magic) Q s.
Proof.
  intros Hl Hl' HQ. unfold ram_max. wp_steps. apply wp_locals.
  apply (wp_while (fun '(i, _, mx) s' => s' = s /\ exists k, i = 24 * k /\ 0 <= k /\
      24 * (k - 1) < mmap_length mbd /\
      mx = highest_end (map (fun k => mmap_at mbd (24 * k)) (seqZ 0 k)))
    (fun '(i, _, _) _ => Z.to_nat (mmap_length mbd - i))).
  - split; [done|]. exists 0. rewrite seqZ_nil by lia. naive_solver lia.
  - lia.
  - intros [[i mn] mx] s' (-> & k & -> & Hk & Hk' & ->). wp_steps; bprop.
    + set (e := mmap_at mbd (24 * k)). set (t := map _ (seqZ 0 k)).
      assert (Hs : map (fun k => mmap_at mbd (24 * k)) (seqZ 0 (k + 1)) = t ++ [e])
        by (rewrite seqZ_snoc, map_app by done; done).
      assert (Hi : u32 (24 * k + 24) = 24 * (k + 1)) by (rewrite u32_small; lia).
      destruct (mm_type e =? MULTIBOOT_MEMORY_AVAILABLE) eqn:Ht; (split; [split; [done|]; exists (k + 1)|]);
        rewrite ?Hs, ?highest_end_snoc, ?Hi; unfold usable_end; rewrite ?Ht; [|lia| |lia].
      * repeat split; try lia. destruct (Z.ltb_spec (highest_end t) (u32 (addr_low e + len_low e))); lia.
      * pose proof (highest_end_range t). repeat split; lia.
    + apply wp_ret. unfold mmap_entries in HQ.
      replace ((mmap_length mbd + 23) / 24) with k in HQ; [done|].
      Z.div_mod_to_equations. lia.
Qed.

Lemma mask_align x : 0 <= x < 4294967296 ->
  Z.land x (u32 (Z.lnot (PM_BLOCK_SIZE - 1))) = x - x mod 4096.
Proof.
  intros Hx. change (u32 (Z.lnot (PM_BLOCK_SIZE - 1))) with (Z.shiftl (Z.ones 20) 12).
  change 4096 with (2 ^ 12). rewrite <- Z.land_ones by lia.
  rewrite Z.sub_nocarry_ldiff.
  - apply Z.bits_inj'. intros k Hk. rewrite Z.land_spec, Z.ldiff_spec, Z.land_spec.
    rewrite Z.shiftl_spec by lia. destruct (decide (k < 12)).
    + rewrite (Z.ones_spec_low 12), (Z.testbit_neg_r _ (k - 12)) by lia.
      destruct (Z.testbit x k); done.
    + rewrite (Z.ones_spec_high 12) by lia. destruct (decide (k < 32)).
      * rewrite (Z.ones_spec_low 20) by lia. destruct (Z.testbit x k); done.
      * rewrite <- (u32_small x), u32_testbit by lia.
        replace (k <? 32) with false; [done|]. symmetry. apply Z.ltb_ge. lia.
  - apply Z.bits_inj'. intros k Hk. rewrite Z.ldiff_spec, Z.land_spec, Z.bits_0.
    destruct (Z.testbit x k), (Z.testbit (Z.ones 12) k); done.
Qed.

(** The state [pm_init] builds: 32 reserved words, then clear words up to
    the last whole word, the rest of the bitmap as it was. *)
Definition init_map (m : list Z) (blocks : Z) (m' : list Z) : Prop :=
  lenZ m' = lenZ m /\
  forall i, 0 <= i < lenZ m ->
    rd m' i = if i <? 32 then FULL_WORD else if i <? blocks / 32 then 0 else rd m i.

Definition init_blocks (mbd : multiboot_info_t) : Z :=
  u32 (highest_end (mmap_entries mbd) + 4095) / 4096.

(** The two loops of [pm_init]: words [lo] to [hi - 1] set to [v]. *)
Definition fill_words (lo hi v : Z) : M pmm unit :=
  locals (for_ (span lo hi) lo tt (fun i _ =>
    m ← gets pm_map;
    m' ← aset m i v;
    modify (set_pm_map m');;
    mret (Cont tt))).

Lemma wp_fill_words lo hi v p (Q : unit -> pmm -> Prop) :
  0 <= lo -> hi <= lenZ (pm_map p) ->
  (forall m, lenZ m = lenZ (pm_map p) ->
     (forall j, 0 <= j < lenZ m ->
        rd m j = if (lo <=? j) && (j <? hi) then v else rd (pm_map p) j) ->
     Q tt (set_pm_map m p)) ->
  wp (fill_words lo hi v) Q p.
Proof.
  intros Hlo Hhi HQ. unfold fill_words. apply wp_locals.
  apply (wp_for (fun i _ s => exists m, s = set_pm_map m p /\ lenZ m = lenZ (pm_map p) /\
    forall j, 0 <= j < lenZ m ->
      rd m j = if (lo <=? j) && (j <? i) then v else rd (pm_map p) j)).
  - exists (pm_map p). split; [by destruct p|]. split; [done|]. intros j Hj.
    destruct (Z.leb_spec lo j), (Z.ltb_spec j lo); try lia; done.
  - intros i [] s Hi (m & -> & Hm & Hr). unfold span in Hi. wp_steps; simpl; [lia|].
    exists (wr m i v). autorewrite with arr. split; [done|]. split; [done|].
    intros j Hj. rewrite rd_wr, Hr by lia.
    destruct (Z.eqb_spec i j), (Z.leb_spec lo j), (Z.ltb_spec j i), (Z.ltb_spec j (i + 1));
      try lia; done.
  - intros [] s (m & -> & Hm & Hr). apply HQ; [done|]. intros j Hj. rewrite Hr by done.
    unfold span. destruct (Z.leb_spec lo j); [|done].
    destruct (Z.ltb_spec j (lo + Z.of_nat (Z.to_nat (hi - lo)))), (Z.ltb_spec j hi); try lia; done.
Qed.

Lemma init_blocks_range mbd : 0 <= init_blocks mbd <= 1048576.
Proof.
  unfold init_blocks. pose proof (u32_range (highest_end (mmap_entries mbd) + 4095)).
  Z.div_mod_to_equations. lia.
Qed.

Lemma init_blocks_eq mbd :
  Z.land (u32 (highest_end (mmap_entries mbd) + PM_BLOCK_SIZE - 1))
    (u32 (Z.lnot (PM_BLOCK_SIZE - 1))) / PM_BLOCK_SIZE = init_blocks mbd.
Proof.
  rewrite mask_align by apply u32_range. unfold init_blocks.
  replace (highest_end (mmap_entries mbd) + PM_BLOCK_SIZE - 1)
    with (highest_end (mmap_entries mbd) + 4095) by (unfold PM_BLOCK_SIZE; lia).
  pose proof (u32_range (highest_end (mmap_entries mbd) + 4095)).
  unfold PM_BLOCK_SIZE. Z.div_mod_to_equations. lia.
Qed.

Lemma wp_pm_init mbd magic p (Q : unit -> pmm -> Prop) :
  pm_wf p -> 0 <= mmap_length mbd -> mmap_length mbd + 24 <= 4294967296 ->
  (forall p', pm_wf p' -> pm_used p' = 1024 -> pm_blocks p' = init_blocks mbd ->
     init_map (pm_map p) (init_blocks mbd) (pm_map p') -> Q tt p') ->
  wp (pm_init mbd magic) Q p.
Proof.
  intros Hp Hl Hl' HQ. pose proof (wf_len p Hp) as Hlen. unfold PM_BITMAP_SIZE in Hlen.
  pose proof (init_blocks_range mbd) as Hb.
  unfold pm_init. wp_step. apply wp_ram_max; [done..|]. wp_steps.
  apply wp_fill_words; simpl; [lia..|]. intros m Hm Hr. wp_steps.
  apply wp_fill_words; simpl; [lia| |]; rewrite init_blocks_eq.
  { Z.div_mod_to_equations. lia. }
  intros m' Hm' Hr'. apply HQ; simpl; try done; rewrite ?init_blocks_eq; try done.
  - split; simpl; rewrite ?init_blocks_eq; unfold PM_BITMAP_SIZE; try lia. intros i Hi.
    rewrite Hr', Hr by lia. pose proof (wf_word p Hp i Hi).
    destruct (_ && _); [lia|]. destruct (_ && _); unfold FULL_WORD; lia.
  - split; [lia|]. intros i Hi. rewrite Hr', Hr by lia.
    destruct (Z.leb_spec 32 i), (Z.ltb_spec i 32), (Z.leb_spec 0 i); try lia; try done.
Qed.

Lemma init_used p p' : pm_wf p' -> lenZ (pm_map p) = PM_BITMAP_SIZE ->
  init_map (pm_map p) (pm_blocks p') (pm_map p') ->
  forall f, 0 <= f < nframes p' -> used p' f = bool_decide (f < 1024).
Proof.
  intros Hp' Hlen [_ Hr] f Hf. pose proof (nframes_bound p' Hp').
  pose proof (frame_index f ltac:(unfold max_frame in *; lia)) as Hi.
  pose proof (frame_bit f) as Hb. unfold used. rewrite Hr by lia. unfold nframes in Hf.
  destruct (Z.ltb_spec (f / 32) 32) as [Hlt|Hge].
  - rewrite bool_decide_true by (Z.div_mod_to_equations; lia).
    apply (proj1 (word_full FULL_WORD ltac:(unfold FULL_WORD; lia)) eq_refl). done.
  - rewrite bool_decide_false by (Z.div_mod_to_equations; lia).
    destruct (Z.ltb_spec (f / 32) (pm_blocks p' / 32)) as [_|?]; [apply Z.bits_0|].
    Z.div_mod_to_equations; lia.
Qed.
End Init.

(** [pm_init] establishes the accounting invariant: with at least 4 MiB of
    RAM the frames in use are exactly the 1024 frames of the kernel, the pool
    is the whole words of the highest usable address, and [_pm_used] counts
    them. *)
Theorem pm_init_inv mbd magic p :
  pm_wf p -> 0 <= mmap_length mbd -> mmap_length mbd + 24 <= 4294967296 ->
  1024 <= init_blocks mbd ->
  exists p', pm_init mbd magic p = Ok tt p' /\ pm_inv p' /\
    used_set p' = frame_range 1024 /\ nframes p' = 32 * (init_blocks mbd / 32).
Proof.
  intros Hp Hl Hl' Hb.
  assert (Hw : wp (pm_init mbd magic) (fun _ p' => pm_inv p' /\ used_set p' = frame_range 1024 /\
    nframes p' = 32 * (init_blocks mbd / 32)) p).
  { apply wp_pm_init; [done..|]. intros p' Hp' Hu Hbl Him.
    assert (Hset : used_set p' = frame_range 1024).
    { apply set_eq. intros f. rewrite elem_used_set. unfold frame_range.
      rewrite elem_of_list_to_set, elem_of_seqZ. rewrite <- Hbl in Him.
      pose proof (init_used p p' Hp' (wf_len p Hp) Him f) as Hf. unfold nframes in *. split.
      - intros [Hr Ht]. rewrite Hf in Ht by done. apply bool_decide_eq_true in Ht. lia.
      - intros Hr. assert (0 <= f < 32 * (pm_blocks p' / 32)) by (Z.div_mod_to_equations; lia).
        rewrite Hf by done. split; [done|]. apply bool_decide_eq_true. lia. }
    split; [|split; [done | unfold nframes; by rewrite Hbl]]. split; [done| |].
    - rewrite Hset, size_frame_range, Hu by lia. done.
    - intros f Hf. rewrite Hset. unfold frame_range. rewrite elem_of_list_to_set, elem_of_seqZ. lia. }
  apply wp_ok in Hw as ([] & p' & ? & ?). eauto.
Qed.

(** * Runs of frames *)

(** Frames [f] to [f + n - 1] are frames of the pool and free. *)
Definition run_free (p : pmm) : Z -> Z -> Prop := clear_run (used p) (nframes p).
Definition first_run (p : pmm) : Z -> Z -> Prop := first_clear_run (used p) (nframes p).

(** No full word of the bitmap lies behind a word that is not full. *)
Definition full_prefix (p : pmm) : Prop :=
  forall i j, 0 <= i <= j -> j < pm_blocks p / 32 ->
    rd (pm_map p) j = FULL_WORD -> rd (pm_map p) i = FULL_WORD.

Definition run_range (f n : Z) : gset Z := list_to_set (seqZ f n).

Section Runs.
Implicit Types p : pmm.

Lemma elem_run_range f n g : g ∈ run_range f n <-> f <= g < f + n.
Proof. unfold run_range. rewrite elem_of_list_to_set, elem_of_seqZ. done. Qed.

Lemma size_run_range f n : 0 <= n -> Z.of_nat (size (run_range f n)) = n.
Proof.
  intros Hn. unfold run_range. rewrite size_list_to_set by apply NoDup_seqZ.
  rewrite length_seqZ. lia.
Qed.

(** The scan of [mmap_get_free_consecutives] before block [j]; [first_block]
    is 0 while no free frame is counted, which is unambiguous because frame
    0 is in use. *)
Definition fscan p (n j c fb : Z) : Prop :=
  scan_inv (used p) (nframes p) n j c /\ (c < j \/ j = 0) /\
  fb = if c =? 0 then 0 else j - c.

Lemma fscan_skip p n i c fb : pm_wf p -> full_prefix p -> 1 <= n ->
  0 <= i < pm_blocks p / 32 -> rd (pm_map p) i = FULL_WORD ->
  fscan p n (i * 32) c fb -> fscan p n ((i + 1) * 32) c fb.
Proof.
  intros Hp Hpre Hn Hi Hw (Hs & Hc & Hfb).
  assert (Hall : forall g, 0 <= g < (i + 1) * 32 -> used p g = true).
  { intros g Hg. pose proof (wf_blocks p Hp).
    apply (proj1 (word_full_used p (g / 32) Hp ltac:(unfold PM_BITMAP_SIZE; Z.div_mod_to_equations; lia))).
    - apply (Hpre (g / 32) i); [Z.div_mod_to_equations; lia | lia | done].
    - Z.div_mod_to_equations; lia. }
  pose proof Hs as (? & ? & Hfree & _ & _).
  split; [by apply (scan_skip _ _ n (i * 32)); [| lia | | ]|]. split; [lia|].
  destruct (Z.eqb_spec c 0); [done|]. specialize (Hfree (i * 32 - 1) ltac:(lia)).
  rewrite Hall in Hfree by lia. done.
Qed.

Lemma fscan_step p n j c fb : fscan p n j c fb -> 0 < j < nframes p -> used p j = false ->
  let fb' := if fb =? 0 then j else fb in
  (c + 1 = n -> first_run p fb' n) /\ (c + 1 <> n -> fscan p n (j + 1) (c + 1) fb').
Proof.
  intros (Hs & Hc & Hfb) Hj Hu fb'.
  assert (Hfb' : fb' = j - c).
  { subst fb' fb. destruct (Z.eqb_spec c 0); simpl; [lia|].
    destruct Hs as (? & ? & _). destruct (Z.eqb_spec (j - c) 0); lia. }
  clearbody fb'. subst fb'. pose proof Hs as (? & ? & _).
  destruct (scan_clear _ _ n j c Hs ltac:(lia) Hu) as [Hend Hcont]. split; [done|].
  intros Hn. split; [by apply Hcont|]. split; [lia|]. destruct (Z.eqb_spec (c + 1) 0); lia.
Qed.

Lemma wp_get_free_consecutives n p (Q : Z -> pmm -> Prop) :
  pm_wf p -> full_prefix p -> (0 < nframes p -> used p 0 = true) -> 1 <= n < 4294967296 ->
  (forall f, first_run p f n -> Q f p) ->
  ((forall f, ~ run_free p f n) -> Q (-1) p) ->
  wp (mmap_get_free_consecutives n) Q p.
Proof.
  intros Hp Hpre H0 Hn Hyes Hno. pose proof (nframes_bound p Hp) as Hnf. unfold nframes, max_frame in Hnf.
  unfold mmap_get_free_consecutives. wp_steps.
  apply (wp_for (fun i '(c, fb) s => s = p /\ fscan p n (i * 32) c fb)).
  - split; [done|]. split; [apply scan_start; lia|]. split; [lia | done].
  - intros i [c fb] s Hi [-> Hs]. unfold span in Hi.
    assert (Hii : 0 <= i < PM_BITMAP_SIZE) by (unfold PM_BITMAP_SIZE; lia).
    wp_steps; [by rewrite wf_len | |]; bprop.
    + split; [done|]. eapply fscan_skip; eauto; lia.
    + apply (wp_for (fun j '(c, fb) s => s = p /\ fscan p n j c fb)); [done| |].
      * intros j [c' fb'] s Hj [-> Hs']. unfold span in Hj. wp_steps.
        apply wp_mmap_test; [done | unfold max_frame; lia |]. intros t Ht. rewrite Ht.
        assert (Hjn : j < nframes p) by (unfold nframes; lia).
        destruct (used p j) eqn:Hu; simpl.
        { apply wp_ret. split; [done|]. split; [|split; [lia | done]].
          destruct Hs' as (Hs' & _ & _). eapply scan_busy; eauto. lia. }
        assert (0 < j) by (destruct (decide (j = 0)) as [->|]; [rewrite H0 in Hu; [done|lia] | lia]).
        destruct (fscan_step p n j c' fb' Hs' ltac:(lia) Hu) as [Hend Hcont].
        assert (Hc' : u32 (c' + 1) = c' + 1) by (destruct Hs' as ((? & ? & _) & _); apply u32_small; lia).
        rewrite Hc'. wp_steps; bprop.
        -- destruct (Hend ltac:(done)) as [[Hf0 [Hf1 Hf2]] Hlow] eqn:E. clear E.
           rewrite s32_frame by (unfold max_frame, nframes in *; lia).
           by apply Hyes.
        -- split; [done|]. by apply Hcont.
      * intros [c' fb'] s [-> Hs']. apply wp_ret. split; [done|]. unfold span in Hs'.
        by replace (i * 32 + Z.of_nat (Z.to_nat ((i + 1) * 32 - i * 32))) with ((i + 1) * 32) in Hs' by lia.
  - intros [c fb] s [-> (Hs & _ & _)]. apply wp_ret, Hno. eapply scan_end.
    unfold span in Hs. unfold nframes at 2.
    replace (32 * (pm_blocks p / 32)) with ((0 + Z.of_nat (Z.to_nat (pm_blocks p / 32 - 0))) * 32) by lia.
    exact Hs.
Qed.

(** Marking a run, frame by frame. *)
Definition take_run (f n : Z) p : pmm := fold_left (fun q g => mark g q) (seqZ f n) p.

Lemma take_run_snoc f n p : 0 <= n -> take_run f (n + 1) p = mark (f + n) (take_run f n p).
Proof. intros. unfold take_run. rewrite seqZ_app, fold_left_app by lia. done. Qed.

Lemma take_run_spec f n p : pm_wf p -> 0 <= f -> 0 <= n -> f + n <= max_frame ->
  pm_wf (take_run f n p) /\ pm_blocks (take_run f n p) = pm_blocks p /\
  pm_used (take_run f n p) = pm_used p /\
  forall g, 0 <= g < max_frame ->
    used (take_run f n p) g = bool_decide (f <= g < f + n) || used p g.
Proof.
  intros Hp Hf Hn. pattern n. revert n Hn. apply natlike_ind.
  - intros _. unfold take_run. rewrite seqZ_nil by lia. simpl. split; [exact Hp|].
    do 2 (split; [done|]). intros g Hg. rewrite bool_decide_false by lia. done.
  - intros n Hn IH Hle. rewrite <- Z.add_1_r in *. rewrite take_run_snoc by done.
    destruct IH as (Hw & Hb & Hu & Hs); [lia|]. split; [apply mark_wf; [done | lia]|].
    split; [done|]. split; [done|]. intros g Hg.
    rewrite used_mark, Hs by (done || lia). rewrite orb_assoc. f_equal.
    rewrite <- bool_decide_or. apply bool_decide_ext. lia.
Qed.

Lemma wp_mark_run f n p (Q : unit -> pmm -> Prop) :
  pm_wf p -> 0 <= f -> 0 <= n -> f + n <= max_frame -> Q tt (take_run f n p) ->
  wp (locals (for_ (span f (f + n)) f tt (fun i _ => mmap_set i;; mret (Cont tt)))) Q p.
Proof.
  intros Hp Hf Hn Hle HQ. apply wp_locals.
  apply (wp_for (fun i _ s => s = take_run f (i - f) p)).
  - rewrite Z.sub_diag. done.
  - intros i [] s Hi ->. unfold span in Hi. wp_steps.
    destruct (take_run_spec f (i - f) p) as (Hw & _); [done|lia..|].
    apply wp_mmap_set; [done | lia|]. wp_steps.
    replace (i + 1 - f) with (i - f + 1) by lia. rewrite take_run_snoc by lia.
    by replace (f + (i - f)) with i by lia.
  - intros [] s ->. unfold span.
    by replace (f + Z.of_nat (Z.to_nat (f + n - f)) - f) with n by lia.
Qed.
End Runs.

Section AllocBlocks.
Implicit Types p : pmm.

Definition take_frames (f n : Z) (p : pmm) : pmm :=
  set_pm_used (u32 (pm_used p + n)) (take_run f n p).

Lemma used_set_take_frames f n p : pm_wf p -> 0 <= f -> 0 <= n -> f + n <= nframes p ->
  used_set (take_frames f n p) = run_range f n ∪ used_set p.
Proof.
  intros Hp Hf Hn Hle. pose proof (nframes_bound p Hp).
  destruct (take_run_spec f n p) as (_ & Hb & _ & Hs); [done|lia..|].
  apply set_eq. intros g. rewrite elem_of_union, elem_run_range, !elem_used_set.
  change (used (take_frames f n p) g) with (used (take_run f n p) g).
  assert (nframes (take_frames f n p) = nframes p) as -> by (unfold nframes; simpl; by rewrite Hb).
  destruct (decide (0 <= g < nframes p)) as [Hg|Hg].
  - rewrite Hs by lia. case_bool_decide; simpl; naive_solver.
  - naive_solver lia.
Qed.

Lemma run_room f n p : pm_inv p -> run_free p f n -> 0 <= n ->
  n <= u32 (pm_blocks p - pm_used p).
Proof.
  intros [Hp Hc _] (Hf & Hle & Hr) Hn. pose proof (wf_blocks p Hp). pose proof (nframes_bound p Hp).
  assert (nframes p <= pm_blocks p) by (unfold nframes; Z.div_mod_to_equations; lia).
  assert (Hsub : run_range f n ∪ used_set p ⊆ frame_range (nframes p)).
  { apply union_subseteq. split; [|apply used_set_range]. intros g.
    rewrite elem_run_range. unfold frame_range. rewrite elem_of_list_to_set, elem_of_seqZ. lia. }
  apply subseteq_size in Hsub. rewrite size_union in Hsub.
  2:{ intros g. rewrite elem_run_range, elem_used_set. intros Hg [_ Hu].
      rewrite Hr in Hu by done. done. }
  pose proof (size_run_range f n Hn). pose proof (size_frame_range (nframes p)).
  rewrite u32_small; lia.
Qed.

Lemma take_frames_inv f n p : pm_inv p -> run_free p f n -> 1 <= n -> pm_inv (take_frames f n p).
Proof.
  intros Hi Hrun Hn. pose proof (run_room f n p Hi Hrun ltac:(lia)) as Hroom.
  destruct Hi as [Hp Hc Hk]. destruct Hrun as (Hf & Hle & Hr).
  pose proof (wf_blocks p Hp). pose proof (nframes_bound p Hp) as Hnf.
  destruct (take_run_spec f n p) as (Hw & Hb & Hu & Hs); [done|lia..|].
  assert (Hdis : run_range f n ## used_set p).
  { intros g. rewrite elem_run_range, elem_used_set. intros Hg [_ Hus].
    rewrite Hr in Hus by done. done. }
  split.
  - destruct Hw. split; simpl; try done. apply u32_range.
  - rewrite used_set_take_frames, size_union by (done || lia). simpl. rewrite Hc.
    pose proof (size_run_range f n ltac:(lia)). pose proof (used_count_bound p Hp).
    unfold max_frame in Hnf. rewrite u32_small; lia.
  - intros g Hg. rewrite used_set_take_frames by (done || lia). set_solver.
Qed.
End AllocBlocks.

Lemma wp_pm_alloc_blocks p n (Q : Z -> pmm -> Prop) :
  pm_inv p -> full_prefix p -> 1 <= n < 4294967296 ->
  (forall f, first_run p f n -> Q (f * PM_BLOCK_SIZE) (take_frames f n p)) ->
  ((forall f, ~ run_free p f n) -> Q 0 p) ->
  wp (pm_alloc_blocks n) Q p.
Proof.
  intros Hi Hpre Hn Hyes Hno. pose proof (inv_wf _ Hi) as Hp. pose proof (nframes_bound p Hp) as Hnf.
  unfold pm_alloc_blocks, pm_free_count. wp_steps; bprop.
  { apply Hno. intros f Hrun. pose proof (run_room f n p Hi Hrun). lia. }
  apply wp_get_free_consecutives; [done|done| |done| |].
  - intros H0. by apply (elem_used_set p 0), inv_kernel.
  - intros f Hrun. pose proof Hrun as [(Hf & Hle & Hr) _]. wp_steps; bprop; [lia|].
    unfold max_frame in Hnf. rewrite !u32_small by lia.
    apply (wp_mark_run f n p); [done | lia | lia | unfold max_frame; lia |]. wp_steps.
    rewrite (proj1 (proj2 (proj2 (take_run_spec f n p Hp Hf ltac:(lia) ltac:(unfold max_frame; lia))))).
    rewrite frame_paddr by (unfold max_frame; lia). by apply Hyes.
  - intros Hno'. wp_steps. by apply Hno.
Qed.

(** Contiguous allocation.  When the full words of the bitmap are a prefix
    of it, [pm_alloc_blocks n] returns the first run of [n] free frames, marks
    exactly that run and keeps the count of used frames; it returns NULL and
    changes nothing exactly when the pool has no run of [n] free frames. *)
Theorem pm_alloc_blocks_first_run p n :
  pm_inv p -> full_prefix p -> 1 <= n < 4294967296 ->
  exists a p', pm_alloc_blocks n p = Ok a p' /\ pm_inv p' /\
    ((exists f, first_run p f n /\ a = f * PM_BLOCK_SIZE /\
        used_set p' = run_range f n ∪ used_set p) \/
     ((forall f, ~ run_free p f n) /\ a = 0 /\ p' = p)).
Proof.
  intros Hi Hpre Hn. apply wp_ok. apply wp_pm_alloc_blocks; [done..| |].
  - intros f Hrun. pose proof Hrun as [Hr _]. split; [apply take_frames_inv; done || lia|].
    left. exists f. split; [done|]. split; [done|].
    destruct Hr as (? & ? & _). apply used_set_take_frames; [apply Hi | lia..].
  - intros Hno. split; [done|]. by right.
Qed.

(** A bitmap with one free frame, a full word, and free frames behind it. *)
Definition hole_pmm : pmm :=
  mkPmm (replicate 32 FULL_WORD ++ [0x7FFFFFFF; FULL_WORD] ++ replicate (Z.to_nat 32734) 0)
    (1120 * 4096) 1120 1087.

Lemma hole_pmm_inv : pm_inv hole_pmm.
Proof.
  split.
  - split; [vm_compute; done | | simpl; lia | simpl; lia]. intros i Hi.
    assert (Hall : Forall (fun w => 0 <= w < 4294967296) (pm_map hole_pmm)).
    { repeat (apply Forall_app; split); [apply Forall_replicate; unfold FULL_WORD; lia | |
        apply Forall_replicate; lia]. repeat constructor; unfold FULL_WORD; lia. }
    rewrite Forall_lookup in Hall. apply (Hall (Z.to_nat i)), rd_lookup.
    replace (lenZ _) with PM_BITMAP_SIZE by (vm_compute; done). done.
  - vm_compute. done.
  - intros f Hf. apply elem_used_set. 
    replace (nframes hole_pmm) with 1120 by (vm_compute; done). split; [lia|].
    unfold used. replace (rd (pm_map hole_pmm) (f / 32)) with FULL_WORD.
    { apply (proj1 (word_full FULL_WORD ltac:(unfold FULL_WORD; lia)) eq_refl), frame_bit. }
    symmetry. unfold rd, hole_pmm, pm_map. rewrite app_nth1.
    2:{ rewrite length_replicate. Z.div_mod_to_equations; lia. }
    apply rd_replicate. Z.div_mod_to_equations; lia.
Qed.

(** contiguous allocation does not skip over a full word correctly: the
    scan keeps its count across a word equal to 0xFFFFFFFF, so a request for
    two frames can return a run whose second frame is already in use, after
    which the count of used frames is wrong. *)
Theorem pm_alloc_blocks_returns_used_frame :
  exists p a p', pm_inv p /\ pm_alloc_blocks 2 p = Ok a p' /\ a = 1055 * PM_BLOCK_SIZE /\
    1056 ∈ used_set p /\ ~ pm_inv p'.
Proof.
  assert (H : match pm_alloc_blocks 2 hole_pmm with
    | Ok a p' => (a =? 1055 * PM_BLOCK_SIZE) &&
        negb (pm_used p' =? Z.of_nat (size (used_set p'))) && used hole_pmm 1056
    | Stuck _ _ => false
    end = true) by (vm_compute; reflexivity).
  exists hole_pmm. destruct (pm_alloc_blocks 2 hole_pmm) as [a p'|]; [|done].
  exists a, p'. split; [apply hole_pmm_inv|]. bprop. split; [done|]. split; [done|]. split.
  - apply elem_used_set. replace (nframes hole_pmm) with 1120 by (vm_compute; done). by split.
  - by intros [_ Hc _].
Qed.

(** * A concrete allocator

    16 MiB of memory with the first [32 * k] frames in use: the state after
    [pm_init] for [k = 32], after [vm_init] for [k = 64]. *)

Definition reserved_pmm (k : Z) : pmm :=
  mkPmm (replicate (Z.to_nat k) FULL_WORD ++ replicate (Z.to_nat (PM_BITMAP_SIZE - k)) 0)
    (4096 * 4096) 4096 (32 * k).

Section Reserved.
Lemma rd_reserved k i : 0 <= k <= PM_BITMAP_SIZE -> 0 <= i < PM_BITMAP_SIZE ->
  rd (pm_map (reserved_pmm k)) i = if i <? k then FULL_WORD else 0.
Proof.
  intros Hk Hi. unfold reserved_pmm, pm_map, rd. destruct (Z.ltb_spec i k).
  - rewrite app_nth1 by (rewrite length_replicate; lia). apply rd_replicate. lia.
  - rewrite app_nth2 by (rewrite length_replicate; lia). rewrite length_replicate.
    replace (Z.to_nat i - Z.to_nat k)%nat with (Z.to_nat (i - k)) by lia. apply rd_replicate. lia.
Qed.

Lemma reserved_wf k : 0 <= k <= 128 -> pm_wf (reserved_pmm k).
Proof.
  intros Hk. split.
  - unfold lenZ, reserved_pmm, pm_map. rewrite length_app, !length_replicate. unfold PM_BITMAP_SIZE. lia.
  - intros i Hi. rewrite rd_reserved by (unfold PM_BITMAP_SIZE in *; lia).
    destruct (i <? k); unfold FULL_WORD; lia.
  - simpl. lia.
  - simpl. lia.
Qed.

Lemma reserved_nframes k : nframes (reserved_pmm k) = 4096.
Proof. done. Qed.

Lemma reserved_used k f : 0 <= k <= 128 -> 0 <= f < 4096 ->
  used (reserved_pmm k) f = bool_decide (f < 32 * k).
Proof.
  intros Hk Hf. unfold used. rewrite rd_reserved by (unfold PM_BITMAP_SIZE; Z.div_mod_to_equations; lia).
  destruct (Z.ltb_spec (f / 32) k).
  - rewrite bool_decide_true by (Z.div_mod_to_equations; lia).
    apply (proj1 (word_full FULL_WORD ltac:(unfold FULL_WORD; lia)) eq_refl), frame_bit.
  - rewrite bool_decide_false by (Z.div_mod_to_equations; lia). apply Z.bits_0.
Qed.

Lemma reserved_used_set k : 0 <= k <= 128 -> used_set (reserved_pmm k) = frame_range (32 * k).
Proof.
  intros Hk. apply set_eq. intros f. unfold frame_range.
  rewrite elem_used_set, elem_of_list_to_set, elem_of_seqZ, reserved_nframes.
  split.
  - intros [Hf Hu]. rewrite reserved_used in Hu by done. bprop. lia.
  - intros Hf. split; [lia|]. rewrite reserved_used by lia. apply bool_decide_eq_true. lia.
Qed.

Lemma reserved_inv k : 32 <= k <= 128 -> pm_inv (reserved_pmm k).
Proof.
  intros Hk. split; [apply reserved_wf; lia | |].
  - rewrite reserved_used_set, size_frame_range by lia. done.
  - intros f Hf. rewrite reserved_used_set by lia. unfold frame_range.
    rewrite elem_of_list_to_set, elem_of_seqZ. lia.
Qed.

Lemma reserved_full_prefix k : 0 <= k <= 128 -> full_prefix (reserved_pmm k).
Proof.
  intros Hk i j Hij Hj. change (pm_blocks (reserved_pmm k) / 32) with 128 in Hj.
  rewrite !rd_reserved by (unfold PM_BITMAP_SIZE; lia).
  destruct (Z.ltb_spec j k), (Z.ltb_spec i k); try lia; done.
Qed.
End Reserved.

(** The first allocation returns frame 1024. *)
Lemma reserved_alloc : exists p', pm_alloc (reserved_pmm 32) = Ok (1024 * PM_BLOCK_SIZE) p' /\
  1024 ∈ used_set p'.
Proof.
  assert (H : match pm_alloc (reserved_pmm 32) with
    | Ok a p' => (a =? 1024 * PM_BLOCK_SIZE) && (nframes p' =? 4096) && used p' 1024
    | Stuck _ _ => false end = true) by (vm_compute; reflexivity).
  destruct (pm_alloc (reserved_pmm 32)) as [a p'|]; [|done]. bprop. subst a. exists p'.
  split; [done|]. apply elem_used_set. split; [lia | done].
Qed.

Lemma pm_refines_pool_witness :
  exists p', trace (pool_step 4096) (used_set (reserved_pmm 32))
      [EvAlloc (1024 * PM_BLOCK_SIZE)] (used_set p') /\ pm_inv p'.
Proof.
  destruct reserved_alloc as (p' & Ha & _). exists p'.
  apply (pm_refines_pool 4096 (reserved_pmm 32)); [apply reserved_inv; lia | done |].
  eapply trace_cons; [by apply step_alloc | apply trace_nil].
Defined.

Lemma pm_free_alloc_witness :
  exists p', pm_free (1024 * PM_BLOCK_SIZE) p' = Ok tt (reserved_pmm 32).
Proof.
  destruct reserved_alloc as (p' & Ha & _). exists p'.
  apply pm_free_alloc; [apply reserved_inv; lia | exact Ha | unfold PM_BLOCK_SIZE; lia].
Defined.

(** A multiboot map with one usable region, from 1 MiB to 16 MiB. *)
Definition demo_mbi : multiboot_info_t :=
  mkMbi 64 24 (fun _ => mkMmap 20 0x100000 0 0xF00000 0 1).

Lemma pmm_bss_wf : pm_wf pmm_bss.
Proof.
  split.
  - unfold pmm_bss, pm_map. rewrite lenZ_replicate. reflexivity.
  - intros i Hi. unfold pmm_bss, pm_map.
    rewrite rd_replicate by (unfold PM_BITMAP_SIZE in *; lia). lia.
  - cbv [pmm_bss pm_blocks]. lia.
  - cbv [pmm_bss pm_used]. lia.
Qed.

Lemma pm_init_inv_witness :
  exists p', pm_init demo_mbi MULTIBOOT_BOOTLOADER_MAGIC pmm_bss = Ok tt p' /\ pm_inv p' /\
    used_set p' = frame_range 1024.
Proof.
  destruct (pm_init_inv demo_mbi MULTIBOOT_BOOTLOADER_MAGIC pmm_bss) as (p' & H1 & H2 & H3 & _).
  - exact pmm_bss_wf.
  - cbv [demo_mbi mmap_length]. lia.
  - cbv [demo_mbi mmap_length]. lia.
  - vm_compute. discriminate.
  - exists p'. split; [exact H1|]. split; [exact H2 | exact H3].
Defined.

Lemma pm_alloc_blocks_first_run_witness :
  exists a p', pm_alloc_blocks 3 (reserved_pmm 32) = Ok a p' /\ pm_inv p'.
Proof.
  destruct (pm_alloc_blocks_first_run (reserved_pmm 32) 3) as (a & p' & He & Hi & _);
    [apply reserved_inv; lia | apply reserved_full_prefix; lia | lia |]. eauto.
Defined.
