(* ===== verification/Vmm.v ===== *)
(** Virtual memory manager: [src/kernel/mm/vmm.c], the paging part of
    [src/include/memory.h] and [map_ident] of [src/kernel/kernel.c].

    Page tables live in physical memory, which is a finite map from frame
    numbers to the 1024 words of the frame.  Once [enable_paging] has run, every
    access the kernel makes through a pointer goes through the two-level walk
    of the processor; a page that is not present is a [PageFault]. *)
From Stdlib Require Import ZArith Lia List.
From stdpp Require Import base tactics numbers list gmap strings option.
From S2P Require Import Prelude Pmm.
Open Scope Z_scope.

Definition PAGES_PER_TABLE : Z := 1024.
Definition PAGES_PER_DIR : Z := 1024.
Definition PAGE_SIZE : Z := 4096.
Definition I86_PTE_PRESENT : Z := 1.
Definition I86_PTE_WRITABLE : Z := 2.
Definition I86_PTE_USER : Z := 4.
Definition I86_PTE_FRAME : Z := 0x7FFFF000.
Definition I86_PDE_PRESENT : Z := 1.
Definition I86_PDE_WRITABLE : Z := 2.
Definition I86_PDE_USER : Z := 4.
Definition I86_PDE_FRAME : Z := 0x7FFFF000.

(** * Entries ([memory.h]) *)

Definition PAGE_DIR_INDEX (x : Z) : Z := Z.land (Z.shiftr x 22) 0x3ff.
Definition PAGE_TABLE_INDEX (x : Z) : Z := Z.land (Z.shiftr x 12) 0x3ff.
(** [PAGE_PHYSICAL_ADDR(e)] of the entry value. *)
Definition PAGE_PHYSICAL_ADDR (e : Z) : Z := Z.land e (u32 (Z.lnot 0xfff)).

Definition pt_entry_add_attrib (e attribute : Z) : Z := Z.lor e attribute.
Definition pt_entry_del_attrib (e attribute : Z) : Z := Z.lxor e attribute.
Definition pt_entry_pfn (e : Z) : Z := Z.land e I86_PTE_FRAME.
Definition pt_entry_set_frame (e addr : Z) : Z :=
  Z.lor (Z.land e (u32 (Z.lnot I86_PTE_FRAME))) addr.
Definition pd_entry_add_attrib (e attribute : Z) : Z := Z.lor e attribute.
Definition pd_entry_set_frame (e addr : Z) : Z :=
  Z.lor (Z.land e (u32 (Z.lnot I86_PTE_FRAME))) addr.

Definition present (e : Z) : bool := Z.land e I86_PTE_PRESENT =? I86_PTE_PRESENT.

(** * State *)

Record vmm : Type := mkVmm {
  vpm : pmm;
  page_directory : list Z;
  mem : gmap Z (list Z);
  paging : bool;
  flushed : list Z
}.

Definition set_vpm (p : pmm) (s : vmm) : vmm :=
  mkVmm p (page_directory s) (mem s) (paging s) (flushed s).
Definition set_page_directory (d : list Z) (s : vmm) : vmm :=
  mkVmm (vpm s) d (mem s) (paging s) (flushed s).
Definition set_mem (m : gmap Z (list Z)) (s : vmm) : vmm :=
  mkVmm (vpm s) (page_directory s) m (paging s) (flushed s).
Definition set_paging (b : bool) (s : vmm) : vmm :=
  mkVmm (vpm s) (page_directory s) (mem s) b (flushed s).
Definition set_flushed (l : list Z) (s : vmm) : vmm :=
  mkVmm (vpm s) (page_directory s) (mem s) (paging s) l.

Definition pm {A} (m : M pmm A) : M vmm A := zoom vpm set_vpm m.

(** * Memory accesses

    [frame_words] is the content of a frame; a frame that was never written
    reads as zero. *)

Definition frame_words (m : gmap Z (list Z)) (fr : Z) : list Z :=
  default (replicate 1024 0) (m !! fr).

Definition phys_read (pa : Z) (s : vmm) : Z :=
  rd (frame_words (mem s) (pa / PAGE_SIZE)) (pa mod PAGE_SIZE / 4).
Definition phys_write (pa v : Z) (s : vmm) : vmm :=
  set_mem (<[pa / PAGE_SIZE := wr (frame_words (mem s) (pa / PAGE_SIZE)) (pa mod PAGE_SIZE / 4) v]>
    (mem s)) s.

(** The walk of the processor: directory entry, table entry, offset. *)
Definition walk (s : vmm) (va : Z) : option Z :=
  let pde := rd (page_directory s) (PAGE_DIR_INDEX va) in
  if present pde then
    let pte := rd (frame_words (mem s) (PAGE_PHYSICAL_ADDR pde / PAGE_SIZE)) (PAGE_TABLE_INDEX va) in
    if present pte then Some (PAGE_PHYSICAL_ADDR pte + va mod PAGE_SIZE) else None
  else None.

Definition translate (s : vmm) (va : Z) : option Z :=
  if paging s then walk s va else Some va.

(** A 32-bit access through a kernel pointer. *)
Definition load32 (va : Z) : M vmm Z := fun s =>
  if va mod 4 =? 0 then
    match translate s va with
    | Some pa => Ok (phys_read pa s) s
    | None => Stuck PageFault s
    end
  else Stuck Unaligned s.

Definition store32 (va v : Z) : M vmm unit := fun s =>
  if va mod 4 =? 0 then
    match translate s va with
    | Some pa => Ok tt (phys_write pa v s)
    | None => Stuck PageFault s
    end
  else Stuck Unaligned s.

(** [table->m_entries[i]] *)
Definition entry_addr (table i : Z) : Z := u32 (table + 4 * i).

(** [bzero(table, sizeof(ptable))], word by word. *)
Definition bzero_table (table : Z) : M vmm unit :=
  locals (for_ (span 0 PAGES_PER_TABLE) 0 tt (fun i _ =>
    store32 (entry_addr table i) 0;;
    mret (Cont tt))).

Definition native_flush_tlb_single (addr : Z) : M vmm unit :=
  modify (fun s => set_flushed (addr :: flushed s) s).

(** * Operations ([vmm.c]) *)

(** The linker chooses where [first_page_table] is: page aligned, inside the
    4 MiB of the kernel image. *)
Class KernelLayout := {
  first_page_table : Z;
  fpt_aligned : first_page_table mod 4096 = 0;
  fpt_low : 0 < first_page_table < 4194304
}.

Section Operations.
Context {layout : KernelLayout}.

Definition pde_get (i : Z) : M vmm Z := d ← gets page_directory; aget d i.
Definition pde_set (i v : Z) : M vmm unit :=
  d ← gets page_directory;
  d' ← aset d i v;
  modify (set_page_directory d').

Definition vm_init : M vmm unit :=
  locals (for_ (span 0 1024) 0 tt (fun i _ =>
    new_table ← pm pm_alloc;
    bzero_table new_table;;
    pde_set i (Z.lor new_table (Z.lor I86_PDE_WRITABLE I86_PDE_PRESENT));;
    mret (Cont tt)));;
  locals (for_ (span 0 1024) 0 tt (fun i _ =>
    store32 (entry_addr first_page_table i)
      (Z.lor (i * 0x1000) (Z.lor I86_PTE_WRITABLE I86_PTE_PRESENT));;
    mret (Cont tt)));;
  e1 ← pde_get 1;
  let pages := Z.land e1 I86_PDE_FRAME in
  locals (for_ (span 0 PAGES_PER_TABLE) 0 tt (fun i _ =>
    e ← pde_get i;
    store32 (entry_addr pages i)
      (Z.lor (Z.land e I86_PDE_FRAME) (Z.lor I86_PTE_WRITABLE I86_PTE_PRESENT));;
    mret (Cont tt)));;
  pde_set 0 (Z.lor first_page_table (Z.lor I86_PDE_WRITABLE I86_PDE_PRESENT));;
  modify (set_paging true).

(** [vm_alloc_page] and [vm_free_page]; [e] is the address of the entry. *)
Definition vm_alloc_page (e : Z) : M vmm Z :=
  p ← pm pm_alloc;
  if p =? 0 then mret 1
  else
    v ← load32 e;
    store32 e (pt_entry_set_frame v p);;
    v ← load32 e;
    store32 e (pt_entry_add_attrib v I86_PTE_PRESENT);;
    mret 0.

Definition vm_free_page (e : Z) : M vmm unit :=
  v ← load32 e;
  let p := pt_entry_pfn v in
  (if p =? 0 then mret tt else pm (pm_free p));;
  v ← load32 e;
  store32 e (pt_entry_del_attrib v I86_PDE_PRESENT).

Definition vm_map_page (phys virt : Z) : M vmm unit :=
  let i := PAGE_DIR_INDEX virt in
  e ← pde_get i;
  ok ← (if negb (Z.land e I86_PDE_PRESENT =? I86_PDE_PRESENT) then
          table ← pm pm_alloc;
          if table =? 0 then mret false
          else
            bzero_table table;;
            e ← pde_get i;
            pde_set i (pd_entry_add_attrib e I86_PDE_PRESENT);;
            e ← pde_get i;
            pde_set i (pd_entry_add_attrib e I86_PDE_WRITABLE);;
            e ← pde_get i;
            pde_set i (pd_entry_set_frame e table);;
            mret true
        else mret true);
  if (ok : bool) then
    e ← pde_get i;
    let table := PAGE_PHYSICAL_ADDR e in
    let page := entry_addr table (PAGE_TABLE_INDEX virt) in
    v ← load32 page;
    store32 page (pt_entry_set_frame v phys);;
    v ← load32 page;
    store32 page (pt_entry_add_attrib v I86_PTE_PRESENT)
  else mret tt.

Definition get_available_page_table : M vmm Z :=
  r ← for_ (span 0 PAGES_PER_DIR) 0 tt (fun i _ =>
    e ← pde_get i;
    if negb (Z.land e I86_PDE_PRESENT =? I86_PDE_PRESENT)
    then mret (Ret (u32 (i * PAGES_PER_TABLE * PAGE_SIZE)))
    else mret (Cont tt));
  match r with inl _ => mret 0 | inr v => mret v end.

(** [vaddr] is not set before the first free page; its value is used only
    after one is found. *)
Definition vm_find_free (nbr : Z) : M vmm Z :=
  r ← for_ (span 0 PAGES_PER_DIR) 0 (0, None) (fun i '(count, vaddr) =>
    e ← pde_get i;
    if Z.land e I86_PDE_PRESENT =? I86_PDE_PRESENT then
      let table := Z.land e I86_PDE_FRAME in
      q ← for_ (span 0 PAGES_PER_TABLE) 0 (count, vaddr) (fun j '(count, vaddr) =>
        v ← load32 (entry_addr table j);
        if negb (Z.land v I86_PTE_PRESENT =? I86_PTE_PRESENT) then
          let vaddr := if count =? 0
            then Some (u32 (i * PAGES_PER_TABLE * PAGE_SIZE + j * PAGE_SIZE)) else vaddr in
          let count := u32 (count + 1) in
          if count =? nbr then mret (Ret vaddr) else mret (Cont (count, vaddr))
        else mret (Cont (0, vaddr)));
      match q with
      | inl l => mret (Cont l)
      | inr v => mret (Ret v)
      end
    else mret (Cont (0, vaddr)));
  match r with
  | inr (Some v) => mret v
  | inr None => stuck Indeterminate
  | inl _ => get_available_page_table
  end.

Definition vm_alloc_size (addr : Z) : M vmm Z :=
  let vaddr := u32 (addr - 16) in
  load32 (u32 (vaddr + 4)).

Definition vm_alloc_free (addr : Z) : M vmm unit :=
  let vaddr := u32 (addr - 16) in
  pages_to_free ← load32 vaddr;
  locals (for_ (span 0 pages_to_free) 0 vaddr (fun i vaddr =>
    e ← pde_get (PAGE_DIR_INDEX vaddr);
    let t := Z.land e I86_PDE_FRAME in
    vm_free_page (entry_addr t (PAGE_TABLE_INDEX vaddr));;
    native_flush_tlb_single vaddr;;
    mret (Cont (u32 (vaddr + 0x1000)))));;
  mret tt.

(** The (virtual, physical) pairs [vm_dump_alloc] prints, in order. *)
Definition vm_dump_alloc (addr : Z) : M vmm (list (Z * Z)) :=
  let vaddr := u32 (addr - 16) in
  pages_to_read ← load32 vaddr;
  l ← locals (for_ (span 0 pages_to_read) 0 (vaddr, []) (fun i '(vaddr, out) =>
    e ← pde_get (PAGE_DIR_INDEX vaddr);
    let t := Z.land e I86_PDE_FRAME in
    v ← load32 (entry_addr t (PAGE_TABLE_INDEX vaddr));
    mret (Cont (u32 (vaddr + 0x1000), out ++ [(vaddr, pt_entry_pfn v)]))));
  mret (snd l).

(** [map_ident] of [kernel.c]; [base + len] is computed in 32 bits. *)
Definition map_ident (base len : Z) : M vmm unit :=
  let page := Z.land base (u32 (Z.lnot 0xFFF)) in
  locals (while_ (Z.to_nat (len / PAGE_SIZE) + 3) page (fun page =>
    if page <? u32 (base + len) then
      vm_map_page page page;;
      native_flush_tlb_single page;;
      mret (Cont (u32 (page + PAGE_SIZE)))
    else mret (Brk page)));;
  mret tt.
End Operations.

(** * Entries as arithmetic *)

Section Entries.
Lemma dir_index va : 0 <= va < 4294967296 -> PAGE_DIR_INDEX va = va / 4096 / 1024.
Proof.
  intros Hv. unfold PAGE_DIR_INDEX. change 0x3ff with (Z.ones 10).
  rewrite Z.land_ones, Z.shiftr_div_pow2 by lia. change (2 ^ 22) with 4194304.
  change (2 ^ 10) with 1024. Z.div_mod_to_equations. lia.
Qed.

Lemma table_index va : PAGE_TABLE_INDEX va = (va / 4096) mod 1024.
Proof.
  unfold PAGE_TABLE_INDEX. change 0x3ff with (Z.ones 10).
  by rewrite Z.land_ones, Z.shiftr_div_pow2 by lia.
Qed.

Lemma page_phys e : 0 <= e < 4294967296 -> PAGE_PHYSICAL_ADDR e = e / 4096 * 4096.
Proof.
  intros He. unfold PAGE_PHYSICAL_ADDR.
  change (u32 (Z.lnot 0xfff)) with (Z.ones 32 - Z.ones 12). rewrite land_high by lia.
  change (2 ^ 32) with 4294967296. change (2 ^ 12) with 4096. rewrite Z.mod_small by lia. done.
Qed.

Lemma land_frame e : 0 <= e -> Z.land e I86_PTE_FRAME = e mod 2147483648 / 4096 * 4096.
Proof.
  intros He. change I86_PTE_FRAME with (Z.ones 31 - Z.ones 12). by rewrite land_high by lia.
Qed.

Lemma present_odd e : present e = (e mod 2 =? 1).
Proof.
  unfold present, I86_PTE_PRESENT. change 1 with (Z.ones 1) at 1. by rewrite Z.land_ones.
Qed.

Lemma lor_one e : Z.lor e 1 = e + (1 - e mod 2).
Proof.
  pose proof (Z.div_mod e 2 ltac:(lia)) as He. pose proof (Z.mod_pos_bound e 2 ltac:(lia)).
  assert (He2 : e = Z.lor (e / 2 * 2 ^ 1) (e mod 2))
    by (rewrite lor_low by lia; lia).
  rewrite He2 at 1. rewrite <- Z.lor_assoc.
  assert (Z.lor (e mod 2) 1 = 1) as ->.
  { assert (Hc : e mod 2 = 0 \/ e mod 2 = 1) by lia. by destruct Hc as [-> | ->]. }
  rewrite lor_low by lia. lia.
Qed.

(** [pt_entry_set_frame] keeps the flags and, because the frame mask stops
    at bit 30, the top bit of the old entry. *)
Lemma set_frame_arith e f : 0 <= e < 4294967296 -> 0 <= f < 1048576 ->
  pt_entry_set_frame e (f * 4096) =
    f * 4096 + e mod 4096 +
    (if (2147483648 <=? e) && (f * 4096 <? 2147483648) then 2147483648 else 0).
Proof.
  intros He Hf. unfold pt_entry_set_frame.
  assert (Hm : Z.land e (u32 (Z.lnot I86_PTE_FRAME)) =
      Z.lor (e / 2147483648 * 2 ^ 31) (e mod 4096)).
  { change (u32 (Z.lnot I86_PTE_FRAME)) with (Z.lor (Z.ones 32 - Z.ones 31) (Z.ones 12)).
    rewrite Z.land_lor_distr_r, land_high, Z.land_ones by lia.
    change (2 ^ 32) with 4294967296. rewrite Z.mod_small by lia. done. }
  rewrite Hm. clear Hm. rewrite (Z.lor_comm _ (e mod 4096)), <- Z.lor_assoc, Z.lor_comm.
  assert (Hlo : 0 <= e mod 4096 < 2 ^ 12) by (apply Z.mod_pos_bound; lia).
  assert (Hbit : e / 2147483648 = 0 \/ e / 2147483648 = 1) by (Z.div_mod_to_equations; lia).
  destruct Hbit as [Hb|Hb]; rewrite Hb.
  - rewrite Z.mul_0_l, Z.lor_0_l. change 4096 with (2 ^ 12) at 1. rewrite lor_low by lia.
    destruct (Z.leb_spec 2147483648 e); [Z.div_mod_to_equations; lia | simpl; lia].
  - destruct (Z.leb_spec 2147483648 e); [|Z.div_mod_to_equations; lia].
    assert (Hh : Z.lor (1 * 2 ^ 31) (f * 4096) = 2147483648 + f * 4096 mod 2147483648).
    { destruct (Z.ltb_spec (f * 4096) 2147483648).
      - rewrite lor_low by lia. rewrite Z.mod_small by lia. done.
      - assert (f * 4096 = Z.lor (1 * 2 ^ 31) (f * 4096 - 2147483648)) as Hs
          by (rewrite lor_low by lia; lia).
        rewrite Hs at 1. rewrite Z.lor_assoc, Z.lor_diag, lor_low by lia.
        Z.div_mod_to_equations. lia. }
    rewrite Hh. assert (Hd : 2147483648 + f * 4096 mod 2147483648 =
      (2147483648 / 4096 + f mod 524288) * 2 ^ 12) by (Z.div_mod_to_equations; lia).
    rewrite Hd, lor_low by lia. rewrite <- Hd.
    destruct (Z.ltb_spec (f * 4096) 2147483648); simpl; Z.div_mod_to_equations; lia.
Qed.
End Entries.

(** * The invariant of the paging structures *)

Definition NPAGES : Z := 1048576.
(** The pages below 8 MiB, mapped to themselves by [vm_init]. *)
Definition IDENT_PAGES : Z := 2048.

(** Every frame of physical memory has 1024 words. *)
Definition mem_wf (m : gmap Z (list Z)) : Prop := forall f, lenZ (frame_words m f) = 1024.

Section Invariant.
Context {layout : KernelLayout}.
Implicit Types s : vmm.

(** The frame of the [i]-th page table. *)
Definition table_frame (i : Z) : Z :=
  if i =? 0 then first_page_table / PAGE_SIZE else 1024 + i.

(** The table entry of virtual page [vp]. *)
Definition pte s (vp : Z) : Z :=
  rd (frame_words (mem s) (table_frame (vp / 1024))) (vp mod 1024).
Definition mapped s (vp : Z) : bool := present (pte s vp).

(** A directory entry: the frame of the table, present and writable, and
    accessible to ring 3 once a user page is mapped below it. *)
Definition pde_ok (i e : Z) : Prop := e = table_frame i * 4096 + 3 \/ e = table_frame i * 4096 + 7.

Record vm_inv s : Prop := {
  vi_pm : pm_inv (vpm s);
  vi_reserved : forall f, 0 <= f < IDENT_PAGES -> f ∈ used_set (vpm s);
  vi_paging : paging s = true;
  vi_dirlen : lenZ (page_directory s) = 1024;
  vi_dir : forall i, 0 <= i < 1024 -> pde_ok i (rd (page_directory s) i);
  vi_len : mem_wf (mem s);
  vi_word : forall vp, 0 <= vp < NPAGES -> 0 <= pte s vp < 4294967296;
  vi_ident : forall vp, 0 <= vp < IDENT_PAGES -> pte s vp = vp * 4096 + 3
}.

Lemma table_frame_range i : 0 <= i < 1024 -> 0 < table_frame i < IDENT_PAGES.
Proof.
  unfold table_frame, IDENT_PAGES, PAGE_SIZE. pose proof fpt_low. pose proof fpt_aligned.
  destruct (Z.eqb_spec i 0); Z.div_mod_to_equations; lia.
Qed.

Lemma table_frame_inj i j : 0 <= i < 1024 -> 0 <= j < 1024 ->
  table_frame i = table_frame j -> i = j.
Proof.
  unfold table_frame, PAGE_SIZE. pose proof fpt_low.
  destruct (Z.eqb_spec i 0), (Z.eqb_spec j 0); Z.div_mod_to_equations; lia.
Qed.

(** A directory entry is present and both masks give its table. *)
Lemma pde_facts i e : 0 <= i < 1024 -> pde_ok i e ->
  (Z.land e I86_PDE_PRESENT =? I86_PDE_PRESENT) = true /\
  PAGE_PHYSICAL_ADDR e = table_frame i * 4096 /\ Z.land e I86_PDE_FRAME = table_frame i * 4096.
Proof.
  intros Hi He. pose proof (table_frame_range i Hi). unfold IDENT_PAGES in *.
  assert (Hr : 0 <= e < 4294967296) by (destruct He; lia).
  change (Z.land e I86_PDE_PRESENT =? I86_PDE_PRESENT) with (present e).
  change I86_PDE_FRAME with I86_PTE_FRAME. rewrite present_odd, Z.eqb_eq, page_phys, land_frame by lia.
  destruct He as [-> | ->]; split_and!; Z.div_mod_to_equations; lia.
Qed.

Lemma page_index vp : 0 <= vp < NPAGES -> 0 <= vp / 1024 < 1024 /\ 0 <= vp mod 1024 < 1024.
Proof. unfold NPAGES. intros. Z.div_mod_to_equations. lia. Qed.

(** What the processor finds behind a virtual address. *)
Lemma translate_pte s va : vm_inv s -> 0 <= va < 4294967296 ->
  translate s va =
    if mapped s (va / 4096) then Some (pte s (va / 4096) / 4096 * 4096 + va mod 4096) else None.
Proof.
  intros Hi Hva. destruct (page_index (va / 4096)) as [Hd Ht];
    [unfold NPAGES; Z.div_mod_to_equations; lia|].
  pose proof (table_frame_range _ Hd) as Hf. unfold IDENT_PAGES in Hf.
  unfold translate, walk, mapped, PAGE_SIZE. rewrite (vi_paging s Hi).
  rewrite dir_index, table_index by done.
  destruct (pde_facts (va / 4096 / 1024) _ Hd (vi_dir s Hi _ Hd)) as (Hpr & Hph & _).
  unfold present at 1. change I86_PTE_PRESENT with I86_PDE_PRESENT. rewrite Hpr, Hph, Z.div_mul by lia.
  fold (pte s (va / 4096)). rewrite page_phys; [done|].
  apply (vi_word s Hi). unfold NPAGES. Z.div_mod_to_equations; lia.
Qed.

Lemma mapped_ident s vp : vm_inv s -> 0 <= vp < IDENT_PAGES -> mapped s vp = true.
Proof.
  intros Hi Hv. unfold mapped. rewrite (vi_ident s Hi) by done. rewrite present_odd.
  apply Z.eqb_eq. Z.div_mod_to_equations; lia.
Qed.

Lemma translate_ident s va : vm_inv s -> 0 <= va < IDENT_PAGES * 4096 -> translate s va = Some va.
Proof.
  unfold IDENT_PAGES. intros Hi Hva. rewrite translate_pte by (done || lia).
  assert (0 <= va / 4096 < IDENT_PAGES) by (unfold IDENT_PAGES; Z.div_mod_to_equations; lia).
  rewrite mapped_ident, (vi_ident s Hi) by done. f_equal. Z.div_mod_to_equations; lia.
Qed.

(** The state with another entry for page [vp]. *)
Definition set_pte (vp v : Z) s : vmm :=
  set_mem (<[table_frame (vp / 1024) :=
    wr (frame_words (mem s) (table_frame (vp / 1024))) (vp mod 1024) v]> (mem s)) s.

Lemma frame_words_insert m f l g :
  frame_words (<[f := l]> m) g = if f =? g then l else frame_words m g.
Proof.
  unfold frame_words. destruct (Z.eqb_spec f g) as [->|Hne].
  - by rewrite lookup_insert_eq.
  - by rewrite lookup_insert_ne.
Qed.

Lemma pte_set_pte s vp vq v : vm_inv s -> 0 <= vp < NPAGES -> 0 <= vq < NPAGES ->
  pte (set_pte vp v s) vq = if vp =? vq then v else pte s vq.
Proof.
  intros Hi Hp Hq. destruct (page_index vp Hp) as [Hp1 Hp2], (page_index vq Hq) as [Hq1 Hq2].
  unfold pte at 1, set_pte. simpl. rewrite frame_words_insert.
  destruct (Z.eqb_spec (table_frame (vp / 1024)) (table_frame (vq / 1024))) as [He|He].
  - apply table_frame_inj in He; [|done..].
    rewrite rd_wr by (rewrite ?(vi_len s Hi); lia). unfold pte. rewrite He.
    destruct (Z.eqb_spec (vp mod 1024) (vq mod 1024)), (Z.eqb_spec vp vq); try done;
      Z.div_mod_to_equations; lia.
  - destruct (Z.eqb_spec vp vq) as [->|]; done.
Qed.

Lemma mapped_set_pte s vp vq v : vm_inv s -> 0 <= vp < NPAGES -> 0 <= vq < NPAGES ->
  mapped (set_pte vp v s) vq = if vp =? vq then present v else mapped s vq.
Proof. intros. unfold mapped. rewrite pte_set_pte by done. by destruct (vp =? vq). Qed.

Lemma set_pte_inv s vp v : vm_inv s -> IDENT_PAGES <= vp < NPAGES -> 0 <= v < 4294967296 ->
  vm_inv (set_pte vp v s).
Proof.
  intros Hi Hp Hv. assert (0 <= vp) by (unfold IDENT_PAGES in *; lia). split; try apply Hi.
  - intros g. simpl. rewrite frame_words_insert. destruct (_ =? _) eqn:He; [|by apply (vi_len s Hi)].
    rewrite lenZ_wr. apply (vi_len s Hi).
  - intros vq Hq. rewrite pte_set_pte by (done || lia). destruct (vp =? vq); [done|].
    by apply (vi_word s Hi).
  - intros vq Hq. rewrite pte_set_pte by (unfold IDENT_PAGES, NPAGES in *; done || lia).
    destruct (Z.eqb_spec vp vq); [lia|]. by apply (vi_ident s Hi).
Qed.

Lemma set_pte_set_pte s vp u v : set_pte vp v (set_pte vp u s) = set_pte vp v s.
Proof.
  unfold set_pte. unfold set_mem. simpl. f_equal. rewrite frame_words_insert, Z.eqb_refl, wr_wr.
  apply insert_insert_eq.
Qed.

(** Entries are read and written through the identity mapping. *)
Lemma entry_addr_table s i j : vm_inv s -> 0 <= i < 1024 -> 0 <= j < 1024 ->
  entry_addr (table_frame i * 4096) j = table_frame i * 4096 + 4 * j /\
  translate s (table_frame i * 4096 + 4 * j) = Some (table_frame i * 4096 + 4 * j).
Proof.
  intros Hs Hi Hj. pose proof (table_frame_range i Hi). unfold IDENT_PAGES in *. split.
  - apply u32_small. lia.
  - apply translate_ident; [done|]. unfold IDENT_PAGES. lia.
Qed.

Lemma wp_load_entry s vp (Q : Z -> vmm -> Prop) :
  vm_inv s -> 0 <= vp < NPAGES -> Q (pte s vp) s ->
  wp (load32 (entry_addr (table_frame (vp / 1024) * 4096) (vp mod 1024))) Q s.
Proof.
  intros Hi Hp HQ. destruct (page_index vp Hp) as [H1 H2].
  destruct (entry_addr_table s _ _ Hi H1 H2) as [-> Ht].
  unfold wp, load32, phys_read, PAGE_SIZE. rewrite Ht.
  replace (_ mod 4 =? 0) with true by (symmetry; apply Z.eqb_eq; Z.div_mod_to_equations; lia).
  replace ((table_frame (vp / 1024) * 4096 + 4 * (vp mod 1024)) / 4096)
    with (table_frame (vp / 1024)) by (Z.div_mod_to_equations; lia).
  replace ((table_frame (vp / 1024) * 4096 + 4 * (vp mod 1024)) mod 4096 / 4)
    with (vp mod 1024) by (Z.div_mod_to_equations; lia).
  exact HQ.
Qed.

Lemma wp_store_entry s vp v (Q : unit -> vmm -> Prop) :
  vm_inv s -> 0 <= vp < NPAGES -> Q tt (set_pte vp v s) ->
  wp (store32 (entry_addr (table_frame (vp / 1024) * 4096) (vp mod 1024)) v) Q s.
Proof.
  intros Hi Hp HQ. destruct (page_index vp Hp) as [H1 H2].
  destruct (entry_addr_table s _ _ Hi H1 H2) as [-> Ht].
  unfold wp, store32, phys_write, PAGE_SIZE. rewrite Ht.
  replace (_ mod 4 =? 0) with true by (symmetry; apply Z.eqb_eq; Z.div_mod_to_equations; lia).
  replace ((table_frame (vp / 1024) * 4096 + 4 * (vp mod 1024)) / 4096)
    with (table_frame (vp / 1024)) by (Z.div_mod_to_equations; lia).
  replace ((table_frame (vp / 1024) * 4096 + 4 * (vp mod 1024)) mod 4096 / 4)
    with (vp mod 1024) by (Z.div_mod_to_equations; lia).
  exact HQ.
Qed.

Lemma wp_pde_get s i (Q : Z -> vmm -> Prop) :
  vm_inv s -> 0 <= i < 1024 ->
  (forall e, pde_ok i e -> (Z.land e I86_PDE_PRESENT =? I86_PDE_PRESENT) = true ->
     PAGE_PHYSICAL_ADDR e = table_frame i * 4096 -> Z.land e I86_PDE_FRAME = table_frame i * 4096 ->
     Q e s) ->
  wp (pde_get i) Q s.
Proof.
  intros Hs Hi HQ. unfold pde_get. wp_steps; [by rewrite (vi_dirlen s Hs)|].
  pose proof (vi_dir s Hs i Hi) as He. destruct (pde_facts i _ Hi He) as (? & ? & ?). by apply HQ.
Qed.
End Invariant.

(** * Mapping a page *)

Section Mapping.
Context {layout : KernelLayout}.
Implicit Types s : vmm.

(** The old entry has bit 31 set and the new frame does not. *)
Definition stale_top (e phys : Z) : bool := (2147483648 <=? e) && (phys <? 2147483648).

(** The entry [vm_map_page] leaves behind. *)
Definition new_entry (e phys : Z) : Z := Z.lor (pt_entry_set_frame e phys) I86_PTE_PRESENT.

Lemma new_entry_facts e f : 0 <= e < 4294967296 -> 0 <= f < NPAGES ->
  0 <= new_entry e (f * 4096) < 4294967296 /\ present (new_entry e (f * 4096)) = true /\
  new_entry e (f * 4096) / 4096 = f + if stale_top e (f * 4096) then 524288 else 0.
Proof.
  intros He Hf. unfold NPAGES in Hf. rewrite present_odd. unfold new_entry, I86_PTE_PRESENT.
  rewrite lor_one, set_frame_arith by done. unfold stale_top.
  destruct (Z.leb_spec 2147483648 e), (Z.ltb_spec (f * 4096) 2147483648); simpl;
    (split; [|split]); rewrite ?Z.eqb_eq; Z.div_mod_to_equations; lia.
Qed.

Definition map_pte (vp phys : Z) s : vmm := set_pte vp (new_entry (pte s vp) phys) s.

Lemma map_pte_inv s vp f : vm_inv s -> IDENT_PAGES <= vp < NPAGES -> 0 <= f < NPAGES ->
  vm_inv (map_pte vp (f * 4096) s).
Proof.
  intros Hi Hp Hf. apply set_pte_inv; [done..|].
  apply new_entry_facts; [|done]. apply (vi_word s Hi). unfold IDENT_PAGES in *. lia.
Qed.

Lemma wp_vm_map_page s f va (Q : unit -> vmm -> Prop) :
  vm_inv s -> 0 <= f < NPAGES -> IDENT_PAGES <= va / 4096 -> 0 <= va < 4294967296 ->
  Q tt (map_pte (va / 4096) (f * 4096) s) -> wp (vm_map_page (f * 4096) va) Q s.
Proof.
  intros Hi Hf Hp Hva HQ.
  assert (Hvp : IDENT_PAGES <= va / 4096 < NPAGES) by (unfold NPAGES; Z.div_mod_to_equations; lia).
  assert (Hvp0 : 0 <= va / 4096 < NPAGES) by (unfold IDENT_PAGES in *; lia).
  destruct (page_index _ Hvp0) as [H1 H2].
  assert (He : 0 <= pt_entry_set_frame (pte s (va / 4096)) (f * 4096) < 4294967296).
  { rewrite set_frame_arith by (done || by apply (vi_word s Hi)). pose proof (vi_word s Hi _ Hvp0).
    unfold NPAGES in Hf. destruct (2147483648 <=? _), (Z.ltb_spec (f * 4096) 2147483648); simpl;
      Z.div_mod_to_equations; lia. }
  unfold vm_map_page. rewrite dir_index, table_index by done. wp_steps.
  apply wp_pde_get; [done..|]. intros e _ -> _ _. wp_steps.
  apply wp_pde_get; [done..|]. intros e' _ _ -> _. wp_steps.
  apply wp_load_entry; [done..|]. wp_steps. apply wp_store_entry; [done..|].
  assert (Hi' := set_pte_inv s _ _ Hi Hvp He). wp_steps.
  apply wp_load_entry; [done..|]. apply wp_store_entry; [done..|].
  rewrite set_pte_set_pte, pte_set_pte, Z.eqb_refl by done. exact HQ.
Qed.

Lemma translate_map_pte s f vp a : vm_inv s -> 0 <= f < NPAGES -> IDENT_PAGES <= vp < NPAGES ->
  0 <= a < 4294967296 ->
  translate (map_pte vp (f * 4096) s) a =
    if a / 4096 =? vp
    then Some ((f + if stale_top (pte s vp) (f * 4096) then 524288 else 0) * 4096 + a mod 4096)
    else translate s a.
Proof.
  intros Hi Hf Hvp Ha. unfold IDENT_PAGES in Hvp.
  assert (Hw := vi_word s Hi vp ltac:(lia)). destruct (new_entry_facts _ f Hw Hf) as (Hr & Hpr & Hd).
  assert (0 <= a / 4096 < NPAGES) by (unfold NPAGES; Z.div_mod_to_equations; lia).
  rewrite translate_pte by (done || by apply map_pte_inv). unfold map_pte.
  rewrite mapped_set_pte, pte_set_pte, Z.eqb_sym by (done || lia).
  destruct (Z.eqb_spec vp (a / 4096)) as [<-|Hne].
  - rewrite Z.eqb_refl. by rewrite Hpr, Hd.
  - destruct (Z.eqb_spec (a / 4096) vp); [lia|]. by rewrite translate_pte.
Qed.
End Mapping.

(** [vm_map_page] gives the page of [virt] the frame [phys] and changes no
    other translation and no allocation, for any page above the identity map
    (unless the old entry has bit 31 set and [phys] does not). *)
Theorem vm_map_page_maps {layout : KernelLayout} s f va :
  vm_inv s -> 0 <= f < NPAGES -> IDENT_PAGES * 4096 <= va < 4294967296 ->
  stale_top (pte s (va / 4096)) (f * 4096) = false ->
  exists s', vm_map_page (f * 4096) va s = Ok tt s' /\ vm_inv s' /\ vpm s' = vpm s /\
    forall a, 0 <= a < 4294967296 ->
      translate s' a = if a / 4096 =? va / 4096 then Some (f * 4096 + a mod 4096) else translate s a.
Proof.
  intros Hi Hf Hva Hst. unfold IDENT_PAGES in Hva.
  assert (IDENT_PAGES <= va / 4096 < NPAGES) by (unfold IDENT_PAGES, NPAGES; Z.div_mod_to_equations; lia).
  assert (Hw : wp (vm_map_page (f * 4096) va) (fun _ s' => s' = map_pte (va / 4096) (f * 4096) s) s)
    by (apply wp_vm_map_page; done || lia).
  apply wp_ok in Hw as ([] & s' & He & ->). eexists. split; [exact He|].
  split; [by apply map_pte_inv|]. split; [done|]. intros a Ha.
  rewrite translate_map_pte, Hst, Z.add_0_r by done. done.
Qed.

(** the frame mask of the entries stops at bit 30, so mapping a frame of
    the lower 2 GiB over a page that had a frame of the upper 2 GiB leaves the
    page 2 GiB above the requested frame. *)
Theorem vm_map_page_keeps_top_bit {layout : KernelLayout} s f va :
  vm_inv s -> 0 <= f < NPAGES -> IDENT_PAGES * 4096 <= va < 4294967296 ->
  stale_top (pte s (va / 4096)) (f * 4096) = true ->
  exists s', vm_map_page (f * 4096) va s = Ok tt s' /\
    translate s' va = Some (2147483648 + f * 4096 + va mod 4096).
Proof.
  intros Hi Hf Hva Hst. unfold IDENT_PAGES in Hva.
  assert (IDENT_PAGES <= va / 4096 < NPAGES) by (unfold IDENT_PAGES, NPAGES; Z.div_mod_to_equations; lia).
  assert (Hw : wp (vm_map_page (f * 4096) va) (fun _ s' => s' = map_pte (va / 4096) (f * 4096) s) s)
    by (apply wp_vm_map_page; done || lia).
  apply wp_ok in Hw as ([] & s' & He & ->). eexists. split; [exact He|].
  rewrite translate_map_pte, Hst, Z.eqb_refl by (done || lia). f_equal. lia.
Qed.

(** * Searching for free pages *)

Section FindFree.
Context {layout : KernelLayout}.
Implicit Types s : vmm.

Definition pages_free s : Z -> Z -> Prop := clear_run (mapped s) NPAGES.
Definition first_pages_free s : Z -> Z -> Prop := first_clear_run (mapped s) NPAGES.

(** [vaddr] is the page where the counted run starts. *)
Definition vscan s n j (l : Z * option Z) : Prop :=
  scan_inv (mapped s) NPAGES n j l.1 /\ (l.1 <> 0 -> l.2 = Some ((j - l.1) * 4096)).

Lemma vscan_page s n vp c v : vm_inv s -> vscan s n vp (c, v) -> 0 <= vp < NPAGES ->
  n < 4294967296 ->
  let v' := if c =? 0 then Some (u32 (vp / 1024 * PAGES_PER_TABLE * PAGE_SIZE
                                      + vp mod 1024 * PAGE_SIZE)) else v in
  if mapped s vp then vscan s n (vp + 1) (0, v)
  else if u32 (c + 1) =? n
    then exists f, first_pages_free s f n /\ v' = Some (f * 4096)
    else vscan s n (vp + 1) (u32 (c + 1), v').
Proof.
  intros Hi [Hs Hv] Hvp Hn v'. simpl in *.
  destruct (mapped s vp) eqn:Hm.
  { split; [|done]. eapply scan_busy; eauto. lia. }
  pose proof Hs as (Hc & _).
  rewrite u32_small by lia.
  assert (Hv' : v' = Some ((vp - c) * 4096)).
  { subst v'. destruct (Z.eqb_spec c 0) as [->|]; [|auto]. f_equal.
    unfold PAGES_PER_TABLE, PAGE_SIZE, NPAGES in *. rewrite u32_small; Z.div_mod_to_equations; lia. }
  destruct (scan_clear _ _ _ _ _ Hs Hvp Hm) as [Hend Hcont].
  destruct (Z.eqb_spec (c + 1) n).
  - exists (vp - c). split; [by apply Hend | done].
  - split; [by apply Hcont|]. simpl. intros _. rewrite Hv'. f_equal. lia.
Qed.

Lemma wp_vm_find_free s n (Q : Z -> vmm -> Prop) :
  vm_inv s -> 1 <= n < 4294967296 ->
  (forall f, first_pages_free s f n -> Q (f * 4096) s) ->
  ((forall f, ~ pages_free s f n) -> Q 0 s) ->
  wp (vm_find_free n) Q s.
Proof.
  intros Hi Hn Hyes Hno. unfold vm_find_free. wp_steps.
  apply (wp_for (fun i l s' => s' = s /\ vscan s n (i * 1024) l)).
  - split; [done|]. split; [apply scan_start; lia | done].
  - intros i [c v] s' Hii [-> Hs]. unfold span in Hii. change (Z.of_nat _) with 1024 in Hii.
    wp_steps. apply wp_pde_get; [done | lia|]. intros e _ -> _ ->. cbv iota. wp_steps.
    apply (wp_for (fun j l s' => s' = s /\ vscan s n (i * 1024 + j) l)).
    + split; [done|]. by rewrite Z.add_0_r.
    + intros j [c' v'] s' Hj [-> Hs']. unfold span in Hj. change (Z.of_nat _) with 1024 in Hj.
      assert (Hvp : 0 <= i * 1024 + j < NPAGES) by (unfold NPAGES; lia).
      pose proof (vscan_page s n _ c' v' Hi Hs' Hvp ltac:(lia)) as Hst. cbv zeta in Hst.
      replace ((i * 1024 + j) / 1024) with i in Hst by (Z.div_mod_to_equations; lia).
      replace ((i * 1024 + j) mod 1024) with j in Hst by (Z.div_mod_to_equations; lia).
      wp_steps. pose proof (wp_load_entry s (i * 1024 + j)) as Hld.
      replace ((i * 1024 + j) / 1024) with i in Hld by (Z.div_mod_to_equations; lia).
      replace ((i * 1024 + j) mod 1024) with j in Hld by (Z.div_mod_to_equations; lia).
      apply Hld; [done..|]. clear Hld.
      change (Z.land (pte s (i * 1024 + j)) I86_PTE_PRESENT =? I86_PTE_PRESENT)
        with (mapped s (i * 1024 + j)).
      destruct (mapped s (i * 1024 + j)); simpl.
      * wp_steps. split; [done|]. by rewrite Z.add_assoc.
      * destruct (u32 (c' + 1) =? n); wp_steps.
        -- destruct Hst as (f & Hf & ->). by apply Hyes.
        -- split; [done|]. by rewrite Z.add_assoc.
    + intros l s' [-> Hs']. apply wp_ret. split; [done|]. unfold span in Hs'.
      change (0 + Z.of_nat _) with 1024 in Hs'.
      by replace ((i + 1) * 1024) with (i * 1024 + 1024) by lia.
  - intros [c v] s' [-> [Hs _]]. unfold span in Hs. simpl in Hs.
    unfold get_available_page_table. wp_steps.
    apply (wp_for (fun _ _ s' => s' = s)); [done| |].
    + intros i [] s' Hii ->. unfold span in Hii. change (Z.of_nat _) with 1024 in Hii. wp_steps.
      apply wp_pde_get; [done | lia|]. intros e _ -> _ _. simpl. wp_steps.
    + intros [] s' ->. apply wp_ret, Hno. eapply scan_end. exact Hs.
Qed.
End FindFree.

(** [vm_find_free] returns the address of the first run of [n] consecutive
    unmapped pages of the 4 GiB address space, crossing page tables where the
    run does, and 0 exactly when there is none; it changes nothing. *)
Theorem vm_find_free_first {layout : KernelLayout} s n :
  vm_inv s -> 1 <= n < 4294967296 ->
  exists v, vm_find_free n s = Ok v s /\
    ((exists f, first_pages_free s f n /\ v = f * 4096) \/
     ((forall f, ~ pages_free s f n) /\ v = 0)).
Proof.
  intros Hi Hn.
  assert (Hw : wp (vm_find_free n) (fun v s' => s' = s /\
    ((exists f, first_pages_free s f n /\ v = f * 4096) \/
     ((forall f, ~ pages_free s f n) /\ v = 0))) s).
  { apply wp_vm_find_free; eauto 10. }
  apply wp_ok in Hw as (v & s' & He & -> & H). eauto.
Qed.

(** * Building the identity map *)

(** The state at the call of [vm_init]: [pm_init] has run, with at least
    8 MiB of memory, and the processor does not translate yet. *)
Record boot_ready (s : vmm) : Prop := {
  br_pm : pm_inv (vpm s);
  br_used : used_set (vpm s) = frame_range 1024;
  br_size : IDENT_PAGES <= nframes (vpm s);
  br_paging : paging s = false;
  br_dirlen : lenZ (page_directory s) = 1024;
  br_mem : mem_wf (mem s)
}.

Section Init.
Context {layout : KernelLayout}.
Implicit Types s : vmm.

Lemma elem_frame_range n f : f ∈ frame_range n <-> 0 <= f < n.
Proof. unfold frame_range. rewrite elem_of_list_to_set, elem_of_seqZ. lia. Qed.

Definition set_word (f j v : Z) s : vmm :=
  set_mem (<[f := wr (frame_words (mem s) f) j v]> (mem s)) s.

Lemma wp_store_phys s f j v (Q : unit -> vmm -> Prop) :
  paging s = false -> 0 <= f < NPAGES -> 0 <= j < 1024 -> Q tt (set_word f j v s) ->
  wp (store32 (entry_addr (f * 4096) j) v) Q s.
Proof.
  unfold NPAGES. intros Hp Hf Hj HQ. unfold wp, store32, translate, entry_addr. rewrite Hp.
  rewrite u32_small by lia.
  replace (_ mod 4 =? 0) with true by (symmetry; apply Z.eqb_eq; Z.div_mod_to_equations; lia).
  unfold phys_write, PAGE_SIZE.
  replace ((f * 4096 + 4 * j) / 4096) with f by (Z.div_mod_to_equations; lia).
  replace ((f * 4096 + 4 * j) mod 4096 / 4) with j by (Z.div_mod_to_equations; lia).
  exact HQ.
Qed.

(** Memory [m'] is [m] with the words [g 0 ... g (k - 1)] in frame [f]. *)
Definition frame_filled (m : gmap Z (list Z)) (f k : Z) (g : Z -> Z) (m' : gmap Z (list Z)) : Prop :=
  (forall h, h <> f -> frame_words m' h = frame_words m h) /\
  lenZ (frame_words m' f) = 1024 /\
  forall j, 0 <= j < k -> rd (frame_words m' f) j = g j.

(** A loop that writes [g j] to word [j] of frame [f]. *)
Lemma wp_fill_frame s f (g : Z -> Z) (body : Z -> unit -> M vmm (ctl unit Empty_set))
    (Q : unit -> vmm -> Prop) :
  (forall j s' Q', 0 <= j < 1024 -> paging s' = paging s ->
     page_directory s' = page_directory s ->
     Q' (Cont tt) (set_word f j (g j) s') -> wp (body j tt) Q' s') ->
  lenZ (frame_words (mem s) f) = 1024 ->
  (forall m, frame_filled (mem s) f 1024 g m -> Q tt (set_mem m s)) ->
  wp (locals (for_ (span 0 1024) 0 tt body)) Q s.
Proof.
  intros Hb Hl HQ. apply wp_locals.
  apply (wp_for (fun i _ s' => exists m, s' = set_mem m s /\ frame_filled (mem s) f i g m)).
  - exists (mem s). split; [by destruct s|]. split; [done|]. split; [done | lia].
  - intros i [] s' Hi (m & -> & Ho & Hlm & Hr). unfold span in Hi.
    change (Z.of_nat _) with 1024 in Hi. apply Hb; [lia | done | done |].
    eexists. split; [unfold set_word, set_mem; simpl; reflexivity|].
    split; [|split].
    + intros h Hh. rewrite frame_words_insert. destruct (Z.eqb_spec f h); [by subst | by apply Ho].
    + by rewrite frame_words_insert, Z.eqb_refl, lenZ_wr.
    + intros j Hj. rewrite frame_words_insert, Z.eqb_refl, rd_wr by lia.
      destruct (Z.eqb_spec i j) as [->|]; [done | apply Hr; lia].
  - intros [] s' (m & -> & Hm). by apply HQ.
Qed.

Lemma frame_filled_wf m f g m' : mem_wf m -> frame_filled m f 1024 g m' -> mem_wf m'.
Proof.
  intros Hm (Ho & Hl & _) h. destruct (decide (h = f)) as [->|]; [done|]. by rewrite Ho.
Qed.

(** The first loop of [vm_init] before iteration [i]: frames 1024 to
    [1024 + i - 1] are taken and zeroed, and entered in the directory. *)
Record init_tables (N i : Z) s : Prop := {
  it_pm : pm_inv (vpm s);
  it_used : used_set (vpm s) = frame_range (1024 + i);
  it_size : nframes (vpm s) = N;
  it_paging : paging s = false;
  it_dirlen : lenZ (page_directory s) = 1024;
  it_mem : mem_wf (mem s);
  it_dir : forall j, 0 <= j < i -> rd (page_directory s) j = (1024 + j) * 4096 + 3;
  it_zero : forall j k, 0 <= j < i -> 0 <= k < 1024 -> rd (frame_words (mem s) (1024 + j)) k = 0
}.

Lemma lor_flags3 f : Z.lor (f * 4096) 3 = f * 4096 + 3.
Proof. change 4096 with (2 ^ 12). apply lor_low; lia. Qed.

Lemma wp_bzero_table s f (Q : unit -> vmm -> Prop) :
  paging s = false -> 0 <= f < NPAGES -> lenZ (frame_words (mem s) f) = 1024 ->
  (forall m, frame_filled (mem s) f 1024 (fun _ => 0) m -> Q tt (set_mem m s)) ->
  wp (bzero_table (f * 4096)) Q s.
Proof.
  intros Hp Hf Hl HQ. apply (wp_fill_frame s f (fun _ => 0)); [|done..].
  intros j s' Q' Hj Hp' _ HQ'. wp_steps. apply wp_store_phys; [congruence | done..|]. wp_steps.
Qed.

Lemma wp_init_table N s i (Q : ctl unit Empty_set -> vmm -> Prop) :
  IDENT_PAGES <= N -> init_tables N i s -> 0 <= i < 1024 ->
  (forall s', init_tables N (i + 1) s' -> Q (Cont tt) s') ->
  wp (new_table ← pm pm_alloc;
      bzero_table new_table;;
      pde_set i (Z.lor new_table (Z.lor I86_PDE_WRITABLE I86_PDE_PRESENT));;
      mret (Cont tt)) Q s.
Proof.
  intros HN [Hpm Hu Hsz Hpg Hdl Hm Hd Hz] Hi HQ. unfold pm. wp_steps.
  apply wp_pm_alloc; [apply Hpm| |].
  { intros H0. exfalso. assert (Hall : all_used (vpm s))
      by (destruct H0; [by apply free_count_zero | done]).
    specialize (Hall (1024 + i)). assert (1024 + i ∈ used_set (vpm s)) as Hin
      by (apply elem_used_set; unfold IDENT_PAGES in *; split; [lia | apply Hall; lia]).
    rewrite Hu, elem_frame_range in Hin. lia. }
  intros f _ Hlf. assert (f = 1024 + i) as ->.
  { destruct Hlf as (Hf & Hfu & Hlow). assert (Hin := elem_used_set (vpm s)).
    destruct (Z.lt_trichotomy f (1024 + i)) as [Hlt|[?|Hgt]]; [|done|].
    - assert (f ∈ used_set (vpm s)) as Hin' by (rewrite Hu, elem_frame_range; lia).
      apply Hin in Hin' as [_ ?]. congruence.
    - assert (1024 + i ∈ used_set (vpm s)) as Hin' by (apply Hin; split; [lia | apply Hlow; lia]).
      rewrite Hu, elem_frame_range in Hin'. lia. }
  change PM_BLOCK_SIZE with 4096.
  assert (Hn : 0 <= 1024 + i < nframes (vpm s)) by (unfold IDENT_PAGES in *; lia).
  wp_steps. apply wp_bzero_table; [done | unfold NPAGES; lia | apply Hm |]. intros m Hfm.
  unfold pde_set. wp_steps; [simpl; rewrite Hdl; lia|]. apply HQ.
  change (Z.lor I86_PDE_WRITABLE I86_PDE_PRESENT) with 3. rewrite lor_flags3.
  split; simpl.
  - by apply take_inv.
  - rewrite used_set_take by (done || apply Hpm). rewrite Hu. apply set_eq. intros g.
    rewrite elem_of_union, elem_of_singleton, !elem_frame_range. lia.
  - done.
  - done.
  - by rewrite lenZ_wr.
  - by eapply frame_filled_wf.
  - intros j Hj. rewrite rd_wr by lia. destruct (Z.eqb_spec i j) as [->|]; [done | apply Hd; lia].
  - intros j k Hj Hk. destruct Hfm as (Ho & _ & Hr). destruct (decide (j = i)) as [->|].
    + by apply Hr.
    + rewrite Ho by lia. apply Hz; lia.
Qed.

(** The words the last two loops write. *)
Lemma ident_words i : 0 <= i < 1024 ->
  Z.lor (i * 0x1000) (Z.lor I86_PTE_WRITABLE I86_PTE_PRESENT) = i * 4096 + 3 /\
  Z.lor (Z.land ((1024 + i) * 4096 + 3) I86_PDE_FRAME) (Z.lor I86_PTE_WRITABLE I86_PTE_PRESENT)
    = (1024 + i) * 4096 + 3.
Proof.
  intros Hi. change (Z.lor I86_PTE_WRITABLE I86_PTE_PRESENT) with 3.
  change I86_PDE_FRAME with I86_PTE_FRAME. rewrite land_frame, lor_flags3 by lia.
  split; [done|]. rewrite lor_flags3. Z.div_mod_to_equations; lia.
Qed.

Lemma page_table_cases vp : 0 <= vp < NPAGES ->
  (vp / 1024 = 0 /\ 0 <= vp < 1024 /\ vp mod 1024 = vp) \/
  (vp / 1024 = 1 /\ 1024 <= vp < IDENT_PAGES /\ vp mod 1024 = vp - 1024) \/
  (2 <= vp / 1024 < 1024 /\ IDENT_PAGES <= vp).
Proof. unfold NPAGES, IDENT_PAGES. intros. Z.div_mod_to_equations; lia. Qed.

(** What the four loops and the final assignment build. *)
Lemma init_done N s m1 m2 : IDENT_PAGES <= N -> init_tables N 1024 s ->
  frame_filled (mem s) (first_page_table / PAGE_SIZE) 1024 (fun i => i * 4096 + 3) m1 ->
  frame_filled m1 1025 1024 (fun i => (1024 + i) * 4096 + 3) m2 ->
  let s' := set_paging true (set_page_directory
              (wr (page_directory s) 0 (first_page_table + 3)) (set_mem m2 s)) in
  vm_inv s' /\ forall vp, IDENT_PAGES <= vp < NPAGES -> pte s' vp = 0.
Proof.
  intros HN [Hpm Hu Hsz Hpg Hdl Hm Hd Hz] Hf1 Hf2 s'.
  pose proof (frame_filled_wf _ _ _ _ Hm Hf1) as Hm1.
  pose proof (frame_filled_wf _ _ _ _ Hm1 Hf2) as Hm2.
  destruct Hf1 as (Ho1 & _ & Hr1), Hf2 as (Ho2 & _ & Hr2).
  pose proof fpt_low. pose proof fpt_aligned.
  assert (Hfpt : first_page_table / PAGE_SIZE < 1024) by (unfold PAGE_SIZE; Z.div_mod_to_equations; lia).
  assert (Hpte : forall vp, 0 <= vp < NPAGES ->
    pte s' vp = if vp <? IDENT_PAGES then vp * 4096 + 3 else 0).
  { intros vp Hvp. unfold pte, s', IDENT_PAGES. simpl.
    destruct (page_table_cases vp Hvp) as [(Hq & Hb & Hr)|[(Hq & Hb & Hr)|(Hq & Hb)]];
      unfold IDENT_PAGES in *; destruct (Z.ltb_spec vp 2048); try lia; rewrite ?Hq, ?Hr.
    - unfold table_frame. simpl. rewrite Ho2, Hr1 by lia. done.
    - unfold table_frame. simpl. rewrite Hr2 by lia. lia.
    - unfold table_frame. destruct (Z.eqb_spec (vp / 1024) 0); [lia|].
      rewrite Ho2, Ho1, Hz by (try apply Z.mod_pos_bound; lia). done. }
  split.
  - split; [done | | done | | | done | |].
    + intros f Hf. simpl. rewrite Hu, elem_frame_range. unfold IDENT_PAGES in Hf. lia.
    + simpl. by rewrite lenZ_wr.
    + intros i Hi. left. simpl. rewrite rd_wr by lia. unfold table_frame.
      destruct (Z.eqb_spec 0 i) as [<-|]; simpl.
      * unfold PAGE_SIZE. Z.div_mod_to_equations; lia.
      * destruct (Z.eqb_spec i 0); [lia | by apply Hd].
    + intros vp Hvp. rewrite Hpte by done. unfold NPAGES in Hvp. destruct (vp <? IDENT_PAGES); lia.
    + intros vp Hvp. rewrite Hpte by (unfold NPAGES, IDENT_PAGES in *; lia).
      destruct (Z.ltb_spec vp IDENT_PAGES); [done | lia].
  - intros vp Hvp. rewrite Hpte by (unfold IDENT_PAGES in *; lia).
    destruct (Z.ltb_spec vp IDENT_PAGES); [lia | done].
Qed.

Lemma wp_vm_init s (Q : unit -> vmm -> Prop) :
  boot_ready s ->
  (forall s', vm_inv s' -> used_set (vpm s') = frame_range IDENT_PAGES ->
     nframes (vpm s') = nframes (vpm s) ->
     (forall vp, IDENT_PAGES <= vp < NPAGES -> pte s' vp = 0) -> Q tt s') ->
  wp vm_init Q s.
Proof.
  intros [Hpm Hu Hsz Hpg Hdl Hm] HQ. unfold vm_init.
  pose proof fpt_low. pose proof fpt_aligned.
  assert (Hfpt : first_page_table = first_page_table / PAGE_SIZE * 4096)
    by (unfold PAGE_SIZE; Z.div_mod_to_equations; lia).
  apply wp_bind, wp_locals, (wp_for (fun i _ s' => init_tables (nframes (vpm s)) i s')).
  { split; try done; lia. }
  { intros i [] s' Hi Ht. unfold span in Hi. change (Z.of_nat _) with 1024 in Hi.
    by apply (wp_init_table (nframes (vpm s))). }
  intros [] s1 Ht. change (0 + Z.of_nat _) with 1024 in Ht. cbv beta iota.
  pose proof Ht as [Hpm1 Hu1 Hsz1 Hpg1 Hdl1 Hm1 Hd1 Hz1].
  apply wp_bind, (wp_fill_frame s1 (first_page_table / PAGE_SIZE) (fun i => i * 4096 + 3)); [|done|].
  { intros j s' Q' Hj Hp' _ HQ'. rewrite (proj1 (ident_words j Hj)). wp_steps.
    rewrite Hfpt. apply wp_store_phys; [congruence | | done | by wp_steps].
    unfold NPAGES, PAGE_SIZE. Z.div_mod_to_equations; lia. }
  intros m1 Hf1. cbv beta. wp_step. unfold pde_get at 1. wp_steps; [simpl; lia|].
  change (page_directory (set_mem m1 s1)) with (page_directory s1). rewrite Hd1 by lia.
  change (Z.land ((1024 + 1) * 4096 + 3) I86_PDE_FRAME) with (1025 * 4096).
  change PAGES_PER_TABLE with 1024.
  apply (wp_fill_frame _ 1025 (fun i => (1024 + i) * 4096 + 3)).
  { intros j s' Q' Hj Hp' Hpd HQ'. unfold pde_get. wp_steps; [rewrite Hpd; simpl; lia|].
    rewrite Hpd. simpl. rewrite Hd1, (proj2 (ident_words j Hj)) by lia.
    apply wp_store_phys; [by rewrite Hp' | unfold NPAGES; lia | done | by wp_steps]. }
  { by apply (frame_filled_wf _ _ _ _ Hm1 Hf1). }
  intros m2 Hf2. unfold pde_set. wp_steps; [simpl; lia|].
  change (Z.lor I86_PDE_WRITABLE I86_PDE_PRESENT) with 3.
  rewrite Hfpt, lor_flags3, <- Hfpt.
  destruct (init_done (nframes (vpm s)) s1 m1 m2) as [Hi Hz]; [done..|].
  apply HQ; done.
Qed.
End Init.

(** [vm_init] builds the identity map.  From the state [pm_init] leaves,
    with at least 8 MiB of memory, it terminates with paging on, the frames
    below 8 MiB reserved and the paging structures well formed; every address
    below 8 MiB translates to itself and no other address is mapped. *)
Theorem vm_init_identity {layout : KernelLayout} s :
  boot_ready s ->
  exists s', vm_init s = Ok tt s' /\ vm_inv s' /\ used_set (vpm s') = frame_range IDENT_PAGES /\
    forall va, 0 <= va < 4294967296 ->
      translate s' va = if va <? IDENT_PAGES * 4096 then Some va else None.
Proof.
  intros Hb.
  assert (Hw : wp vm_init (fun _ s' => vm_inv s' /\ used_set (vpm s') = frame_range IDENT_PAGES /\
    forall vp, IDENT_PAGES <= vp < NPAGES -> pte s' vp = 0) s)
    by (apply wp_vm_init; auto).
  apply wp_ok in Hw as ([] & s' & He & Hi & Hu & Hz). exists s'. split_and!; try done.
  intros va Hva. destruct (Z.ltb_spec va (IDENT_PAGES * 4096)).
  - apply translate_ident; [done | lia].
  - rewrite translate_pte by done. unfold mapped.
    rewrite Hz by (unfold IDENT_PAGES, NPAGES in *; Z.div_mod_to_equations; lia). done.
Qed.

(** * Identity-mapping a region *)

Section MapIdent.
Context {layout : KernelLayout}.
Implicit Types s : vmm.

Lemma flush_inv s l : vm_inv s -> vm_inv (set_flushed l s).
Proof. intros [? ? ? ? ? ? ? ?]. by split. Qed.

(** Pages [b] to [c - 1] of [s] have been mapped to themselves in [s']. *)
Definition ident_mapped s b c s' : Prop :=
  vm_inv s' /\ vpm s' = vpm s /\
  forall vp, 0 <= vp < NPAGES ->
    pte s' vp = if (b <=? vp) && (vp <? c) then new_entry (pte s vp) (vp * 4096) else pte s vp.

Lemma ident_mapped_step s b c s' : ident_mapped s b c s' -> IDENT_PAGES <= b <= c -> c < NPAGES ->
  ident_mapped s b (c + 1) (set_flushed (c * 4096 :: flushed s') (map_pte c (c * 4096) s')).
Proof.
  unfold IDENT_PAGES. intros (Hi & Hv & Hp) Hb Hc. split; [|split].
  - apply flush_inv, map_pte_inv; [done | unfold IDENT_PAGES; lia | lia].
  - done.
  - intros vp Hvp. change (pte (set_flushed ?l ?x) vp) with (pte x vp). unfold map_pte.
    rewrite pte_set_pte by (done || lia). rewrite !Hp by lia.
    destruct (Z.eqb_spec c vp) as [->|].
    + destruct (Z.leb_spec b vp), (Z.ltb_spec vp (vp + 1)), (Z.ltb_spec vp vp); try lia; done.
    + destruct (Z.leb_spec b vp), (Z.ltb_spec vp (c + 1)), (Z.ltb_spec vp c); try lia; done.
Qed.

Lemma wp_map_ident s base len (Q : unit -> vmm -> Prop) :
  vm_inv s -> IDENT_PAGES * 4096 <= base -> 0 <= len -> base + len <= 4294963200 ->
  (forall s', ident_mapped s (base / 4096) ((base + len + 4095) / 4096) s' -> Q tt s') ->
  wp (map_ident base len) Q s.
Proof.
  unfold IDENT_PAGES. intros Hi Hb Hl Hle HQ. unfold map_ident. apply wp_bind, wp_locals.
  change (Z.land base (u32 (Z.lnot 0xFFF))) with (PAGE_PHYSICAL_ADDR base).
  rewrite page_phys by lia.
  apply (wp_while (fun page s' => exists c, page = c * 4096 /\ base / 4096 <= c /\
      (c = base / 4096 \/ (c - 1) * 4096 < base + len) /\
      ident_mapped s (base / 4096) c s')
    (fun page _ => Z.to_nat ((base + len + 4095) / 4096 - page / 4096))).
  - exists (base / 4096). split; [done|]. split; [lia|]. split; [auto|].
    split; [done|]. split; [done|]. intros vp Hvp.
    destruct (Z.leb_spec (base / 4096) vp), (Z.ltb_spec vp (base / 4096)); simpl; lia || done.
  - unfold PAGE_SIZE. Z.div_mod_to_equations. lia.
  - intros page s' (c & -> & Hc & Hend & Hm). pose proof Hm as (Hi' & Hv & Hp).
    rewrite (u32_small (base + len)) by lia. wp_steps; bprop.
    + assert (Hcp : c * 4096 / 4096 = c) by (Z.div_mod_to_equations; lia).
      assert (Hcn : IDENT_PAGES <= c < NPAGES)
        by (unfold IDENT_PAGES, NPAGES; Z.div_mod_to_equations; lia).
      unfold IDENT_PAGES in Hcn.
      apply wp_vm_map_page; rewrite ?Hcp; [done | lia | unfold IDENT_PAGES; lia | lia |].
      unfold native_flush_tlb_single. wp_steps.
      assert (Hu : u32 (c * 4096 + PAGE_SIZE) = (c + 1) * 4096)
        by (unfold PAGE_SIZE; rewrite u32_small; Z.div_mod_to_equations; lia).
      rewrite Hu. split.
      * exists (c + 1). split; [done|]. split; [lia|]. split; [right; lia|].
        apply (ident_mapped_step s _ c s'); [done | | lia].
        unfold IDENT_PAGES; Z.div_mod_to_equations; lia.
      * Z.div_mod_to_equations. lia.
    + apply HQ.
      replace ((base + len + 4095) / 4096) with c by (Z.div_mod_to_equations; lia). done.
Qed.
End MapIdent.

(** [map_ident base len], the mapping of device memory, terminates and
    makes every address of the pages that meet [base, base + len) translate to
    itself, leaving every other translation and the frame allocator alone. *)
Theorem map_ident_maps {layout : KernelLayout} s base len :
  vm_inv s -> IDENT_PAGES * 4096 <= base -> 0 <= len -> base + len <= 4294963200 ->
  (forall vp, base / 4096 <= vp -> vp * 4096 < base + len -> stale_top (pte s vp) (vp * 4096) = false) ->
  exists s', map_ident base len s = Ok tt s' /\ vm_inv s' /\ vpm s' = vpm s /\
    forall a, 0 <= a < 4294967296 ->
      translate s' a =
        if (base / 4096 <=? a / 4096) && (a / 4096 * 4096 <? base + len) then Some a
        else translate s a.
Proof.
  intros Hi Hb Hl Hle Hst.
  assert (Hw : wp (map_ident base len)
    (fun _ => ident_mapped s (base / 4096) ((base + len + 4095) / 4096)) s)
    by (apply wp_map_ident; auto).
  apply wp_ok in Hw as ([] & s' & He & Hi' & Hv & Hp). exists s'. split_and!; try done.
  intros a Ha. assert (Ha' : 0 <= a / 4096 < NPAGES) by (unfold NPAGES; Z.div_mod_to_equations; lia).
  rewrite !translate_pte by done. unfold mapped. rewrite Hp by done.
  assert (Hlt : (a / 4096 <? (base + len + 4095) / 4096) = (a / 4096 * 4096 <? base + len)).
  { destruct (Z.ltb_spec (a / 4096) ((base + len + 4095) / 4096)),
      (Z.ltb_spec (a / 4096 * 4096) (base + len)); try done; Z.div_mod_to_equations; lia. }
  rewrite Hlt. destruct (_ && _) eqn:Hc; [|done]. bprop.
  destruct (new_entry_facts (pte s (a / 4096)) (a / 4096)) as (_ & Hpr & Hd);
    [by apply (vi_word s Hi) | done |].
  rewrite Hpr, Hd, Hst by lia. f_equal. Z.div_mod_to_equations; lia.
Qed.

(** * A concrete kernel

    [first_page_table] at 2 MiB, 16 MiB of memory, before and after
    [vm_init]. *)

#[export, program] Instance demo_layout : KernelLayout := {| first_page_table := 0x200000 |}.
Next Obligation. reflexivity. Qed.
Next Obligation. lia. Qed.

Definition boot_vmm : vmm :=
  mkVmm (reserved_pmm 32) (replicate (Z.to_nat 1024) 0) ∅ false [].

Definition ident_vmm : vmm :=
  mkVmm (reserved_pmm 64)
    (map (fun i => table_frame i * 4096 + 3) (seqZ 0 1024))
    (<[512 := map (fun j => j * 4096 + 3) (seqZ 0 1024)]>
      (<[1025 := map (fun j => (1024 + j) * 4096 + 3) (seqZ 0 1024)]> ∅))
    true [].

Section Concrete.
Lemma boot_vmm_ready : boot_ready boot_vmm.
Proof.
  split.
  - apply reserved_inv. lia.
  - apply (reserved_used_set 32). lia.
  - unfold IDENT_PAGES. change (nframes (vpm boot_vmm)) with 4096. lia.
  - done.
  - unfold boot_vmm, page_directory. by rewrite lenZ_replicate.
  - intros f. unfold boot_vmm, mem, frame_words. rewrite lookup_empty. reflexivity.
Qed.

Lemma ident_frame f : frame_words (mem ident_vmm) f =
  if 512 =? f then map (fun j => j * 4096 + 3) (seqZ 0 1024)
  else if 1025 =? f then map (fun j => (1024 + j) * 4096 + 3) (seqZ 0 1024)
  else replicate 1024 0.
Proof. unfold ident_vmm, mem. by rewrite !frame_words_insert. Qed.

Lemma ident_pte vp : 0 <= vp < NPAGES ->
  pte ident_vmm vp = if vp <? IDENT_PAGES then vp * 4096 + 3 else 0.
Proof.
  intros Hvp. unfold pte. rewrite ident_frame. unfold IDENT_PAGES.
  change (table_frame (vp / 1024)) with (if vp / 1024 =? 0 then 512 else 1024 + vp / 1024).
  destruct (page_table_cases vp Hvp) as [(Hq & Hb & Hr)|[(Hq & Hb & Hr)|(Hq & Hb)]];
    unfold IDENT_PAGES in *; destruct (Z.ltb_spec vp 2048); try lia.
  - rewrite Hq, Hr. change (512 =? (if 0 =? 0 then 512 else 1024 + 0)) with true. cbv iota. rewrite rd_map_seqZ by lia. done.
  - rewrite Hq, Hr. change (512 =? (if 1 =? 0 then 512 else 1024 + 1)) with false.
    change (1025 =? (if 1 =? 0 then 512 else 1024 + 1)) with true. cbv iota.
    rewrite rd_map_seqZ by lia. lia.
  - destruct (Z.eqb_spec (vp / 1024) 0); [lia|].
    destruct (Z.eqb_spec 512 (1024 + vp / 1024)); [lia|].
    destruct (Z.eqb_spec 1025 (1024 + vp / 1024)); [lia|].
    apply rd_replicate. split; [apply Z.mod_pos_bound; lia|].
    change (Z.of_nat 1024) with 1024. apply Z.mod_pos_bound. lia.
Qed.

Lemma ident_vmm_inv : vm_inv ident_vmm.
Proof.
  split.
  - apply reserved_inv. lia.
  - intros f Hf. unfold ident_vmm, vpm. rewrite reserved_used_set, elem_frame_range by lia.
    unfold IDENT_PAGES in Hf. lia.
  - done.
  - unfold ident_vmm, page_directory. by rewrite lenZ_map_seqZ.
  - intros i Hi. left. unfold ident_vmm, page_directory. by rewrite rd_map_seqZ.
  - intros f. rewrite ident_frame. destruct (512 =? f); [by rewrite lenZ_map_seqZ|].
    destruct (1025 =? f); [by rewrite lenZ_map_seqZ|]. by rewrite lenZ_replicate.
  - intros vp Hvp. rewrite ident_pte by done. unfold NPAGES in Hvp. destruct (vp <? IDENT_PAGES); lia.
  - intros vp Hvp. rewrite ident_pte by (unfold NPAGES, IDENT_PAGES in *; lia).
    destruct (Z.ltb_spec vp IDENT_PAGES); [done | lia].
Qed.

Lemma ident_unmapped vp : IDENT_PAGES <= vp < NPAGES -> pte ident_vmm vp = 0.
Proof.
  intros Hvp. rewrite ident_pte by (unfold IDENT_PAGES in *; lia).
  destruct (Z.ltb_spec vp IDENT_PAGES); [lia | done].
Qed.

(** A frame buffer mapped above 2 GiB. *)
Definition high_vmm : vmm := set_pte 4096 0xFD000003 ident_vmm.

Lemma high_vmm_inv : vm_inv high_vmm /\ pte high_vmm 4096 = 0xFD000003.
Proof.
  split.
  - apply set_pte_inv; [apply ident_vmm_inv | unfold IDENT_PAGES, NPAGES; lia | lia].
  - unfold high_vmm. rewrite pte_set_pte; [done | apply ident_vmm_inv | unfold NPAGES; lia..].
Qed.
End Concrete.

Lemma vm_init_identity_witness :
  exists s', vm_init boot_vmm = Ok tt s' /\ vm_inv s'.
Proof. destruct (vm_init_identity boot_vmm boot_vmm_ready) as (s' & H1 & H2 & _). eauto. Defined.

Lemma vm_map_page_maps_witness :
  exists s', vm_map_page (3000 * 4096) 0x2000000 ident_vmm = Ok tt s' /\
    translate s' 0x2000000 = Some (3000 * 4096).
Proof.
  destruct (vm_map_page_maps ident_vmm 3000 0x2000000) as (s' & H1 & _ & _ & H2).
  - apply ident_vmm_inv.
  - unfold NPAGES. lia.
  - unfold IDENT_PAGES. lia.
  - change (0x2000000 / 4096) with 8192. rewrite ident_unmapped; [reflexivity | unfold IDENT_PAGES, NPAGES; lia].
  - exists s'. split; [exact H1|]. rewrite H2 by lia. reflexivity.
Defined.

Lemma vm_map_page_keeps_top_bit_witness :
  exists s', vm_map_page (3000 * 4096) 0x1000000 high_vmm = Ok tt s' /\
    translate s' 0x1000000 = Some (2147483648 + 3000 * 4096).
Proof.
  destruct (vm_map_page_keeps_top_bit high_vmm 3000 0x1000000) as (s' & H1 & H2).
  - apply high_vmm_inv.
  - unfold NPAGES. lia.
  - unfold IDENT_PAGES. lia.
  - change (0x1000000 / 4096) with 4096. rewrite (proj2 high_vmm_inv). reflexivity.
  - exists s'. split; [exact H1|]. rewrite H2. reflexivity.
Defined.

Lemma vm_find_free_first_witness :
  exists v, vm_find_free 3 ident_vmm = Ok v ident_vmm.
Proof.
  destruct (vm_find_free_first ident_vmm 3) as (v & H & _); [apply ident_vmm_inv | lia|]. eauto.
Defined.

Lemma map_ident_maps_witness :
  exists s', map_ident 0xFD000000 0x300000 ident_vmm = Ok tt s' /\ translate s' 0xFD000010 = Some 0xFD000010.
Proof.
  destruct (map_ident_maps ident_vmm 0xFD000000 0x300000) as (s' & H1 & _ & _ & H2).
  - apply ident_vmm_inv.
  - unfold IDENT_PAGES. lia.
  - lia.
  - lia.
  - intros vp Hvp Hlt. change (0xFD000000 / 4096) with 1036288 in Hvp.
    rewrite ident_unmapped; [reflexivity | unfold IDENT_PAGES, NPAGES; lia].
  - exists s'. split; [exact H1|]. rewrite H2 by lia. reflexivity.
Defined.
