(* ===== verification/Heap.v ===== *)
(** Kernel heap: [src/kernel/mm/heap.c].

    A block is a run of whole pages; its first 16 bytes hold the number of
    pages and the requested size.  [vmalloc] takes its frames one by one,
    [kmalloc] takes a contiguous run of frames. *)
From Stdlib Require Import ZArith Lia List.
From stdpp Require Import base tactics numbers list gmap strings option.
From S2P Require Import Prelude Pmm Vmm.
Open Scope Z_scope.

Section Operations.
Context {layout : KernelLayout}.

Definition vsize (addr : Z) : M vmm Z := vm_alloc_size addr.
Definition vfree (addr : Z) : M vmm unit := vm_alloc_free addr.

Definition vmalloc (size : Z) : M vmm Z :=
  let size := u32 (size + 16) in
  let pages_needed := size / PAGE_SIZE + (if size mod PAGE_SIZE =? 0 then 0 else 1) in
  if negb (size =? 0) then
    vaddr_begin ← vm_find_free pages_needed;
    if vaddr_begin =? 0 then mret 0
    else
      locals (for_ (span 0 pages_needed) 0 vaddr_begin (fun i vaddr =>
        paddr ← pm pm_alloc;
        vm_map_page paddr vaddr;;
        mret (Cont (u32 (vaddr + PAGE_SIZE)))));;
      store32 vaddr_begin pages_needed;;
      store32 (u32 (vaddr_begin + 4)) (u32 (size - 16));;
      mret (u32 (vaddr_begin + 16))
  else mret 0.

Definition ksize (addr : Z) : M vmm Z := vm_alloc_size addr.
Definition kfree (addr : Z) : M vmm unit := vm_alloc_free addr.

Definition kmalloc (size : Z) : M vmm Z :=
  let size := u32 (size + 16) in
  let pages_needed := size / PAGE_SIZE + (if size mod PAGE_SIZE =? 0 then 0 else 1) in
  if negb (size =? 0) then
    vaddr_begin ← vm_find_free pages_needed;
    if vaddr_begin =? 0 then mret 0
    else
      paddr ← pm (pm_alloc_blocks pages_needed);
      locals (for_ (span 0 pages_needed) 0 (vaddr_begin, paddr) (fun i '(vaddr, paddr) =>
        vm_map_page paddr vaddr;;
        mret (Cont (u32 (vaddr + PAGE_SIZE), u32 (paddr + PAGE_SIZE)))));;
      store32 vaddr_begin pages_needed;;
      store32 (u32 (vaddr_begin + 4)) (u32 (size - 16));;
      mret (u32 (vaddr_begin + 16))
  else mret 0.
End Operations.

(** * Blocks *)

(** The pages of a block for a request of [size] bytes. *)
Definition block_pages (size : Z) : Z := (size + 16 + 4095) / 4096.

(** Frames below 2 GiB, where the frame mask of the entries is exact. *)
Definition LOW_FRAMES : Z := 524288.

Section Blocks.
Context {layout : KernelLayout}.
Implicit Types s : vmm.

(** Page [f] starts a block of [n] pages for [size] bytes, whose frames are
    [fr 0, ..., fr (n - 1)]. *)
Record vm_block s (f n size : Z) (fr : Z -> Z) : Prop := {
  vb_range : IDENT_PAGES <= f /\ 1 <= n /\ f + n <= NPAGES;
  vb_map : forall i, 0 <= i < n -> mapped s (f + i) = true /\ pte s (f + i) / 4096 = fr i;
  vb_frame : forall i, 0 <= i < n ->
    IDENT_PAGES <= fr i < LOW_FRAMES /\ fr i ∈ used_set (vpm s);
  vb_inj : forall i j, 0 <= i < n -> 0 <= j < n -> fr i = fr j -> i = j;
  vb_pages : rd (frame_words (mem s) (fr 0)) 0 = n;
  vb_size : rd (frame_words (mem s) (fr 0)) 1 = size
}.

(** Entries of unmapped pages never carry a frame of the upper 2 GiB. *)
Definition top_clear s : Prop :=
  forall vp, 0 <= vp < NPAGES -> mapped s vp = false -> pte s vp < 2147483648.

Record heap_inv s : Prop := {
  hi_vm : vm_inv s;
  hi_low : nframes (vpm s) <= LOW_FRAMES;
  hi_clear : top_clear s
}.

Definition frames_of (fr : Z -> Z) (n : Z) : gset Z := list_to_set (map fr (seqZ 0 n)).

Lemma elem_frames_of fr n g : g ∈ frames_of fr n <-> exists i, 0 <= i < n /\ fr i = g.
Proof.
  unfold frames_of. rewrite elem_of_list_to_set, list_elem_of_fmap.
  setoid_rewrite elem_of_seqZ. naive_solver lia.
Qed.

Lemma frames_of_succ fr n : 0 <= n -> frames_of fr (n + 1) = {[fr n]} ∪ frames_of fr n.
Proof.
  intros Hn. apply set_eq. intros g. rewrite elem_of_union, elem_of_singleton, !elem_frames_of.
  split.
  - intros (i & Hi & <-). destruct (decide (i = n)) as [->|]; [by left|].
    right. exists i. split; [lia | done].
  - intros [->|(i & Hi & <-)]; [exists n | exists i]; (split; [lia | done]).
Qed.

Lemma frames_of_ext fr gr n : (forall i, 0 <= i < n -> fr i = gr i) -> frames_of fr n = frames_of gr n.
Proof.
  intros He. apply set_eq. intros g. rewrite !elem_frames_of.
  split; intros (i & Hi & <-); exists i; (split; [done|]); by rewrite He.
Qed.

Lemma size_frames_of fr n : 0 <= n ->
  (forall i j, 0 <= i < n -> 0 <= j < n -> fr i = fr j -> i = j) ->
  Z.of_nat (size (frames_of fr n)) = n.
Proof.
  intros Hn. pattern n. revert n Hn. apply natlike_ind; [done|].
  intros n Hn IH Hinj. rewrite <- Z.add_1_r in *. rewrite frames_of_succ by done.
  rewrite size_union.
  - rewrite size_singleton. specialize (IH ltac:(intros; apply Hinj; lia || done)). lia.
  - intros g. rewrite elem_of_singleton, elem_frames_of. intros -> (i & Hi & He).
    apply Hinj in He; lia.
Qed.

(** ** Changes of state that keep the paging invariant *)

Lemma set_vpm_inv s p : vm_inv s -> pm_inv p ->
  (forall f, 0 <= f < IDENT_PAGES -> f ∈ used_set p) -> vm_inv (set_vpm p s).
Proof. intros [? ? ? ? ? ? ? ?] ? ?. by split. Qed.

(** A frame that is not one of the page tables. *)
Definition data_frame (fr : Z) : Prop := forall i, 0 <= i < 1024 -> fr <> table_frame i.

Lemma data_frame_high fr : IDENT_PAGES <= fr \/ fr = 0 -> data_frame fr.
Proof. intros Hfr i Hi. pose proof (table_frame_range i Hi). unfold IDENT_PAGES in *. lia. Qed.

Lemma pte_set_word s fr j v vp : 0 <= vp < NPAGES -> data_frame fr ->
  pte (set_word fr j v s) vp = pte s vp.
Proof.
  intros Hvp Hfr. destruct (page_index vp Hvp) as [H1 _].
  specialize (Hfr _ H1). unfold pte, set_word. simpl. rewrite frame_words_insert.
  destruct (Z.eqb_spec fr (table_frame (vp / 1024))); [lia | done].
Qed.

Lemma set_word_inv s fr j v : vm_inv s -> data_frame fr -> vm_inv (set_word fr j v s).
Proof.
  intros Hi Hfr. split; try apply Hi.
  - intros g. unfold set_word. simpl. rewrite frame_words_insert.
    destruct (_ =? _); [rewrite lenZ_wr|]; apply (vi_len s Hi).
  - intros vp Hvp. rewrite pte_set_word by done. by apply (vi_word s Hi).
  - intros vp Hvp. rewrite pte_set_word by (unfold IDENT_PAGES, NPAGES in *; done || lia).
    by apply (vi_ident s Hi).
Qed.

(** Accesses to a mapped page. *)
Lemma translate_page s f fr o : vm_inv s -> 0 <= f < NPAGES -> mapped s f = true ->
  pte s f / 4096 = fr -> 0 <= o < 4096 -> translate s (f * 4096 + o) = Some (fr * 4096 + o).
Proof.
  unfold NPAGES. intros Hi Hf Hm Hp Ho. rewrite translate_pte by (done || lia).
  replace ((f * 4096 + o) / 4096) with f by (Z.div_mod_to_equations; lia).
  replace ((f * 4096 + o) mod 4096) with o by (Z.div_mod_to_equations; lia).
  by rewrite Hm, Hp.
Qed.

Lemma wp_load_page s f fr j (Q : Z -> vmm -> Prop) :
  vm_inv s -> 0 <= f < NPAGES -> mapped s f = true -> pte s f / 4096 = fr -> 0 <= j < 1024 ->
  Q (rd (frame_words (mem s) fr) j) s -> wp (load32 (f * 4096 + 4 * j)) Q s.
Proof.
  intros Hi Hf Hm Hp Hj HQ. unfold wp, load32, phys_read, PAGE_SIZE.
  rewrite (translate_page s f fr) by (done || lia).
  replace (_ mod 4 =? 0) with true by (symmetry; apply Z.eqb_eq; Z.div_mod_to_equations; lia).
  replace ((fr * 4096 + 4 * j) / 4096) with fr by (Z.div_mod_to_equations; lia).
  replace ((fr * 4096 + 4 * j) mod 4096 / 4) with j by (Z.div_mod_to_equations; lia).
  exact HQ.
Qed.

Lemma wp_store_page s f fr j v (Q : unit -> vmm -> Prop) :
  vm_inv s -> 0 <= f < NPAGES -> mapped s f = true -> pte s f / 4096 = fr -> 0 <= j < 1024 ->
  Q tt (set_word fr j v s) -> wp (store32 (f * 4096 + 4 * j) v) Q s.
Proof.
  intros Hi Hf Hm Hp Hj HQ. unfold wp, store32, phys_write, PAGE_SIZE.
  rewrite (translate_page s f fr) by (done || lia).
  replace (_ mod 4 =? 0) with true by (symmetry; apply Z.eqb_eq; Z.div_mod_to_equations; lia).
  replace ((fr * 4096 + 4 * j) / 4096) with fr by (Z.div_mod_to_equations; lia).
  replace ((fr * 4096 + 4 * j) mod 4096 / 4) with j by (Z.div_mod_to_equations; lia).
  exact HQ.
Qed.
End Blocks.

(** * Allocation *)

Section Alloc.
Context {layout : KernelLayout}.
Implicit Types s : vmm.

(** [fr 0, ..., fr (n - 1)] went from free in [p] to used in [p']. *)
Definition frames_taken (p : pmm) (n : Z) (fr : Z -> Z) (p' : pmm) : Prop :=
  pm_inv p' /\ nframes p' = nframes p /\ used_set p' = frames_of fr n ∪ used_set p /\
  (forall i, 0 <= i < n -> 0 <= fr i < nframes p /\ fr i ∉ used_set p) /\
  (forall i j, 0 <= i < n -> 0 <= j < n -> fr i = fr j -> i = j).

(** Pages [f, ..., f + n - 1] of [s] are given those frames in [s']. *)
Definition pages_mapped s (f n : Z) (fr : Z -> Z) s' : Prop :=
  vm_inv s' /\
  (forall g, IDENT_PAGES <= g -> frame_words (mem s') g = frame_words (mem s) g) /\
  forall vp, 0 <= vp < NPAGES ->
    pte s' vp = if (f <=? vp) && (vp <? f + n)
                then new_entry (pte s vp) (fr (vp - f) * 4096) else pte s vp.

(** What an allocation of [n] pages at page [f] promises. *)
Record allocated s (f n size : Z) (fr : Z -> Z) s' : Prop := {
  al_inv : heap_inv s';
  al_block : vm_block s' f n size fr;
  al_used : used_set (vpm s') = frames_of fr n ∪ used_set (vpm s);
  al_fresh : forall i, 0 <= i < n -> fr i ∉ used_set (vpm s);
  al_other : forall vp, 0 <= vp < NPAGES -> ~ f <= vp < f + n -> pte s' vp = pte s vp;
  al_mem : forall g, IDENT_PAGES <= g -> g <> fr 0 -> frame_words (mem s') g = frame_words (mem s) g
}.

Lemma frames_taken_room p n fr p' : pm_inv p -> 0 <= n -> frames_taken p n fr p' ->
  Z.of_nat (size (used_set p')) = Z.of_nat (size (used_set p)) + n.
Proof.
  intros Hp Hn (_ & _ & Hu & Hfr & Hinj). rewrite Hu, size_union.
  - pose proof (size_frames_of fr n Hn Hinj). lia.
  - intros g. rewrite elem_frames_of. intros (i & Hi & <-). by apply Hfr.
Qed.

(** With a free frame in the pool, [pm_alloc] does not fail. *)
Lemma not_full p : pm_inv p -> Z.of_nat (size (used_set p)) < nframes p ->
  ~ (u32 (pm_blocks p - pm_used p) = 0 \/ all_used p).
Proof.
  intros Hi Hlt Hor. assert (Hall : all_used p) by (destruct Hor; [by apply free_count_zero | done]).
  assert (Hsub : frame_range (nframes p) ⊆ used_set p).
  { intros g. unfold frame_range. rewrite elem_of_list_to_set, elem_of_seqZ, elem_used_set.
    intros ?. split; [lia | apply Hall; lia]. }
  apply subseteq_size in Hsub.
  pose proof (size_frame_range (nframes p) ltac:(apply nframes_bound, Hi)). lia.
Qed.

Lemma frames_taken_succ p n fr p' g : 0 <= n -> frames_taken p n fr p' -> least_free p' g ->
  frames_taken p (n + 1) (fun i => if i =? n then g else fr i) (take_frame g p').
Proof.
  intros Hn (Hi & Hnf & Hu & Hfr & Hinj) Hl. pose proof Hl as (Hg & Hgu & _).
  assert (Hgn : g ∉ used_set p') by (rewrite elem_used_set; intros [_ ?]; congruence).
  rewrite Hu, elem_of_union, elem_frames_of in Hgn.
  split; [by apply take_inv|]. split; [done|]. split; [|split].
  - rewrite used_set_take, Hu by (done || apply Hi). rewrite frames_of_succ by done.
    rewrite Z.eqb_refl, <- assoc_L by apply _. do 2 f_equal. apply frames_of_ext.
    intros i Hin. destruct (Z.eqb_spec i n); [lia | done].
  - intros i Hin. destruct (Z.eqb_spec i n) as [->|]; [|apply Hfr; lia].
    rewrite <- Hnf. split; [done|]. intros ?. apply Hgn. by right.
  - intros i j Hin Hjn. destruct (Z.eqb_spec i n) as [->|], (Z.eqb_spec j n) as [->|]; try done.
    + intros ->. exfalso. apply Hgn. left. exists j. split; [lia | done].
    + intros <-. exfalso. apply Hgn. left. exists i. split; [lia | done].
    + apply Hinj; lia.
Qed.

Lemma pages_mapped_start s f fr : vm_inv s -> pages_mapped s f 0 fr s.
Proof.
  intros Hi. split; [done|]. split; [done|]. intros vp Hvp.
  destruct (Z.leb_spec f vp), (Z.ltb_spec vp (f + 0)); simpl; lia || done.
Qed.

Lemma pages_mapped_succ s f n fr s' g : pages_mapped s f n fr s' -> 0 <= n ->
  IDENT_PAGES <= f -> f + n < NPAGES -> 0 <= g < NPAGES ->
  pages_mapped s f (n + 1) (fun i => if i =? n then g else fr i) (map_pte (f + n) (g * 4096) s').
Proof.
  unfold IDENT_PAGES. intros (Hi & Hmem & Hp) Hn Hf Hfn Hg.
  split; [apply map_pte_inv; unfold IDENT_PAGES; done || lia|]. split.
  { intros h Hh. destruct (page_index (f + n) ltac:(lia)) as [H1 _].
    pose proof (table_frame_range _ H1). unfold IDENT_PAGES in *.
    simpl. rewrite frame_words_insert. destruct (Z.eqb_spec (table_frame ((f + n) / 1024)) h); [lia|].
    by apply Hmem. }
  intros vp Hvp.
  unfold map_pte. rewrite pte_set_pte, !Hp by (done || lia).
  destruct (Z.eqb_spec (f + n) vp) as [<-|Hne].
  - replace (f + n - f) with n by lia. rewrite Z.eqb_refl.
    destruct (Z.leb_spec f (f + n)), (Z.ltb_spec (f + n) (f + (n + 1))), (Z.ltb_spec (f + n) (f + n));
      simpl; lia || done.
  - destruct (Z.eqb_spec (vp - f) n); [lia|].
    destruct (Z.leb_spec f vp), (Z.ltb_spec vp (f + (n + 1))), (Z.ltb_spec vp (f + n));
      simpl; lia || done.
Qed.

Lemma pages_free_above s f n : vm_inv s -> 1 <= n -> pages_free s f n -> IDENT_PAGES <= f.
Proof.
  intros Hi Hn (Hf & _ & Hr). destruct (Z.lt_ge_cases f IDENT_PAGES); [|done].
  specialize (Hr f ltac:(lia)). rewrite mapped_ident in Hr by done. done.
Qed.

(** The entry of a freshly mapped page. *)
Lemma fresh_entry s vp f : top_clear s -> vm_inv s -> 0 <= vp < NPAGES -> mapped s vp = false ->
  0 <= f < NPAGES ->
  present (new_entry (pte s vp) (f * 4096)) = true /\ new_entry (pte s vp) (f * 4096) / 4096 = f.
Proof.
  intros Ht Hi Hvp Hm Hf. destruct (new_entry_facts (pte s vp) f) as (_ & Hpr & Hd);
    [by apply (vi_word s Hi) | done |]. split; [done|]. rewrite Hd.
  unfold stale_top. specialize (Ht vp Hvp Hm).
  destruct (Z.leb_spec 2147483648 (pte s vp)); simpl; lia.
Qed.

(** The header of a block. *)
Definition set_header (fr0 n size : Z) s : vmm := set_word fr0 1 size (set_word fr0 0 n s).

Lemma rd_set_word s fr j v k : lenZ (frame_words (mem s) fr) = 1024 -> 0 <= j < 1024 -> 0 <= k ->
  rd (frame_words (mem (set_word fr j v s)) fr) k =
    if j =? k then v else rd (frame_words (mem s) fr) k.
Proof.
  intros Hl Hj Hk. unfold set_word. simpl. rewrite frame_words_insert, Z.eqb_refl.
  apply rd_wr; lia.
Qed.

Lemma alloc_done s s' f n size fr :
  heap_inv s -> 1 <= n -> pages_free s f n ->
  frames_taken (vpm s) n fr (vpm s') -> pages_mapped s f n fr s' ->
  allocated s f n size fr (set_header (fr 0) n size s').
Proof.
  intros [Hi Hlow Hclr] Hn Hrun (Hpm & Hnf & Hu & Hfr & Hinj) (Hi' & Hmem & Hp).
  pose proof (pages_free_above s f n Hi Hn Hrun) as Hf. destruct Hrun as (_ & Hle & Hrun).
  assert (Hfr' : forall i, 0 <= i < n -> IDENT_PAGES <= fr i < LOW_FRAMES).
  { intros i Hin. destruct (Hfr i Hin) as [Hb Hnin].
    destruct (Z.lt_ge_cases (fr i) IDENT_PAGES); [|unfold LOW_FRAMES in *; lia].
    exfalso. apply Hnin, (vi_reserved s Hi). lia. }
  assert (Hfr0 : IDENT_PAGES <= fr 0) by (apply Hfr'; lia).
  assert (Hdf : data_frame (fr 0)) by (apply data_frame_high; auto).
  assert (Hpte : forall vp, 0 <= vp < NPAGES -> pte (set_header (fr 0) n size s') vp = pte s' vp)
    by (intros; unfold set_header; rewrite !pte_set_word by done; done).
  assert (Hin : forall i, 0 <= i < n ->
    present (pte s' (f + i)) = true /\ pte s' (f + i) / 4096 = fr i).
  { intros i Hii. unfold IDENT_PAGES in Hf. rewrite Hp by lia.
    destruct (Z.leb_spec f (f + i)); [|lia]. destruct (Z.ltb_spec (f + i) (f + n)); [|lia]. simpl.
    replace (f + i - f) with i by lia. specialize (Hfr' i Hii). unfold LOW_FRAMES, IDENT_PAGES in Hfr'.
    apply fresh_entry; [done | done | lia | apply Hrun; lia | unfold NPAGES; lia]. }
  assert (Hout : forall vp, 0 <= vp < NPAGES -> ~ f <= vp < f + n -> pte s' vp = pte s vp).
  { intros vp Hvp Hno. rewrite Hp by done.
    destruct (Z.leb_spec f vp), (Z.ltb_spec vp (f + n)); simpl; lia || done. }
  split.
  - split.
    + apply set_word_inv; [by apply set_word_inv | done].
    + simpl. by rewrite Hnf.
    + intros vp Hvp. unfold mapped. rewrite Hpte by done. intros Hm.
      destruct (decide (f <= vp < f + n)).
      * replace vp with (f + (vp - f)) in Hm by lia. rewrite (proj1 (Hin (vp - f) ltac:(lia))) in Hm. done.
      * rewrite Hout in * by done. by apply Hclr.
  - split.
    + done.
    + intros i Hii. unfold mapped. unfold IDENT_PAGES in Hf. rewrite Hpte by lia. by apply Hin.
    + intros i Hii. split; [by apply Hfr'|]. simpl. rewrite Hu, elem_of_union, elem_frames_of. eauto.
    + done.
    + unfold set_header. rewrite !rd_set_word; try lia; try apply (vi_len s' Hi').
      * done.
      * by apply (set_word_inv s' (fr 0) 0 n).
    + unfold set_header. rewrite rd_set_word; try lia; [done|].
      by apply (set_word_inv s' (fr 0) 0 n).
  - done.
  - intros i Hii. by apply Hfr.
  - intros vp Hvp Hno. rewrite Hpte by done. by apply Hout.
  - intros g Hg Hne. unfold set_header, set_word. simpl. rewrite !frame_words_insert.
    destruct (Z.eqb_spec (fr 0) g); [by subst | by apply Hmem].
Qed.
End Alloc.

Section AllocWp.
Context {layout : KernelLayout}.
Implicit Types s : vmm.

Lemma block_pages_eq size : 0 <= size -> size + 16 < 4294967296 ->
  u32 (size + 16) / PAGE_SIZE + (if u32 (size + 16) mod PAGE_SIZE =? 0 then 0 else 1)
    = block_pages size /\ 1 <= block_pages size <= NPAGES /\
  (u32 (size + 16) =? 0) = false /\ u32 (u32 (size + 16) - 16) = size.
Proof.
  intros H0 Hs. unfold block_pages, PAGE_SIZE, NPAGES. rewrite !(u32_small (size + 16)) by lia.
  rewrite u32_small by lia. split_and!; try lia; try (Z.div_mod_to_equations; lia).
  destruct (Z.eqb_spec ((size + 16) mod 4096) 0); Z.div_mod_to_equations; lia.
Qed.

Lemma page_addr_small f : 0 <= f < NPAGES ->
  u32 (f * 4096 + 4) = f * 4096 + 4 /\ u32 (f * 4096 + 16) = f * 4096 + 16.
Proof. unfold NPAGES. intros. rewrite !u32_small by lia. done. Qed.

(** The end of both allocators: the header is written through the new
    mapping. *)
Lemma wp_write_header s f n size fr (Q : Z -> vmm -> Prop) :
  vm_inv s -> 0 <= f < NPAGES -> mapped s f = true -> pte s f / 4096 = fr -> data_frame fr ->
  Q (f * 4096 + 16) (set_header fr n size s) ->
  wp (store32 (f * 4096) n;; store32 (u32 (f * 4096 + 4)) size;; mret (u32 (f * 4096 + 16))) Q s.
Proof.
  intros Hi Hf Hm Hp Hfr HQ. destruct (page_addr_small f Hf) as [-> ->].
  pose proof (wp_store_page s f fr 0 n) as H0. rewrite Z.mul_0_r, Z.add_0_r in H0.
  apply wp_bind, H0; [done..|].
  apply wp_bind, (wp_store_page _ f fr 1 size); try done.
  - by apply set_word_inv.
  - unfold mapped. by rewrite pte_set_word.
  - by rewrite pte_set_word.
Qed.

Lemma first_page_mapped s f n fr s' :
  heap_inv s -> 1 <= n -> pages_free s f n -> pages_mapped s f n fr s' -> 0 <= fr 0 < NPAGES ->
  mapped s' f = true /\ pte s' f / 4096 = fr 0.
Proof.
  intros [Hi _ Hclr] Hn Hrun (Hi' & _ & Hp) Hfr.
  pose proof (pages_free_above s f n Hi Hn Hrun) as Hf. destruct Hrun as (Hf0 & Hle & Hrun).
  unfold mapped. rewrite Hp by lia.
  destruct (Z.leb_spec f f); [|lia]. destruct (Z.ltb_spec f (f + n)); [|lia]. simpl.
  rewrite Z.sub_diag. apply fresh_entry; [done | done | lia | apply Hrun; lia | done].
Qed.

Lemma frames_taken_start p fr : pm_inv p -> frames_taken p 0 fr p.
Proof.
  intros Hi. split; [done|]. split; [done|]. split; [|split; intros; lia].
  unfold frames_of. rewrite seqZ_nil by lia. simpl. by rewrite union_empty_l_L.
Qed.

Lemma taken_reserved s n fr p : vm_inv s -> frames_taken (vpm s) n fr p ->
  forall f, 0 <= f < IDENT_PAGES -> f ∈ used_set p.
Proof. intros Hi (_ & _ & -> & _) f Hf. apply elem_of_union. right. by apply vi_reserved. Qed.

Lemma frame_page p g : pm_wf p -> 0 <= g < nframes p -> 0 <= g < NPAGES.
Proof. intros Hp Hg. pose proof (nframes_bound p Hp). unfold max_frame, NPAGES in *. lia. Qed.

Lemma pages_mapped_vpm s f n fr s' p : pages_mapped s f n fr s' -> pm_inv p ->
  (forall g, 0 <= g < IDENT_PAGES -> g ∈ used_set p) -> pages_mapped s f n fr (set_vpm p s').
Proof. intros [Hi [Hm Hp]] ? ?. split; [by apply set_vpm_inv | done]. Qed.

(** The loop of [vmalloc] before page [i]. *)
Definition vmalloc_loop s (f i : Z) (vaddr : Z) s' : Prop :=
  (vaddr = u32 ((f + i) * 4096)) /\
  exists fr, frames_taken (vpm s) i fr (vpm s') /\ pages_mapped s f i fr s'.

Lemma wp_vmalloc_step s f i n vaddr s' (Q : ctl Z Empty_set -> vmm -> Prop) :
  heap_inv s -> Z.of_nat (size (used_set (vpm s))) + n <= nframes (vpm s) ->
  IDENT_PAGES <= f -> f + n <= NPAGES -> 0 <= i < n -> vmalloc_loop s f i vaddr s' ->
  (forall vaddr' s'', vmalloc_loop s f (i + 1) vaddr' s'' -> Q (Cont vaddr') s'') ->
  wp (paddr ← pm pm_alloc;
      vm_map_page paddr vaddr;;
      mret (Cont (u32 (vaddr + PAGE_SIZE)))) Q s'.
Proof.
  intros [Hi Hlow _] Hroom Hf Hfn Hin (-> & fr & Ht & Hm) HQ.
  pose proof (frames_taken_room (vpm s) i fr (vpm s') (vi_pm s Hi) ltac:(lia) Ht) as Hsz.
  pose proof Ht as (Hpm & Hnf & _). unfold pm. wp_steps.
  apply wp_pm_alloc; [apply Hpm | intros Hno; exfalso; apply (not_full (vpm s')); lia || done |].
  intros g _ Hl. pose proof Hl as (Hg & _ & _).
  apply (frame_page _ _ (inv_wf _ Hpm)) in Hg.
  pose proof (frames_taken_succ (vpm s) i fr (vpm s') g ltac:(lia) Ht Hl) as Ht'.
  pose proof (taken_reserved _ _ _ _ Hi Ht') as Hres.
  pose proof (pages_mapped_vpm _ _ _ _ _ _ Hm (proj1 Ht') Hres) as Hm'.
  unfold IDENT_PAGES, NPAGES in Hf, Hfn.
  rewrite (u32_small ((f + i) * 4096)) by lia. wp_steps.
  assert (Hd : (f + i) * 4096 / 4096 = f + i) by (Z.div_mod_to_equations; lia).
  change PM_BLOCK_SIZE with 4096. apply wp_vm_map_page; rewrite ?Hd;
    [apply Hm' | done | unfold IDENT_PAGES; lia | lia |].
  wp_steps. apply HQ. split.
  - unfold PAGE_SIZE. f_equal. lia.
  - eexists. split; [exact Ht'|]. apply pages_mapped_succ; unfold IDENT_PAGES, NPAGES in *; done || lia.
Qed.

Lemma wp_vmalloc s size (Q : Z -> vmm -> Prop) :
  heap_inv s -> 0 <= size -> size + 16 < 4294967296 ->
  Z.of_nat (base.size (used_set (vpm s))) + block_pages size <= nframes (vpm s) ->
  (forall f fr s', first_pages_free s f (block_pages size) ->
     allocated s f (block_pages size) size fr s' -> Q (f * 4096 + 16) s') ->
  ((forall f, ~ pages_free s f (block_pages size)) -> Q 0 s) ->
  wp (vmalloc size) Q s.
Proof.
  intros Hh H0 Hsz Hroom Hyes Hno. pose proof (hi_vm s Hh) as Hi.
  destruct (block_pages_eq size H0 Hsz) as (Hn & Hn1 & Hnz & Hback).
  unfold vmalloc. cbv zeta. rewrite Hn, Hnz, Hback. set (n := block_pages size) in *.
  cbv [negb]. cbv iota. wp_step.
  assert (1 <= n < 4294967296) by (unfold NPAGES in *; lia).
  apply wp_vm_find_free; [done | done | |]; [|by intros; wp_steps; auto].
  intros f Hrun. pose proof (proj1 Hrun) as Hfree. pose proof Hfree as (_ & Hle & _).
  pose proof (pages_free_above s f n Hi ltac:(lia) Hfree) as Hf.
  wp_step; [bprop; unfold IDENT_PAGES in Hf; lia|]. apply wp_bind, wp_locals.
  apply (wp_for (fun i vaddr s' => vmalloc_loop s f i vaddr s')).
  { split; [rewrite Z.add_0_r, u32_small; unfold IDENT_PAGES, NPAGES in *; lia|].
    exists id. split; [apply frames_taken_start, Hi | by apply pages_mapped_start]. }
  { intros i va s' Hii Hl. unfold span in Hii.
    apply (wp_vmalloc_step s f i n); try done; lia. }
  intros va s' (_ & fr & Ht & Hm).
  replace (0 + Z.of_nat (span 0 n)) with n in Ht, Hm by (unfold span; lia).
  destruct (proj1 (proj2 (proj2 (proj2 Ht))) 0 ltac:(lia)) as [Hfr0 Hnin].
  assert (Hfr0' := frame_page _ _ (inv_wf _ (vi_pm s Hi)) Hfr0).
  destruct (first_page_mapped s f n fr s' Hh ltac:(lia) Hfree Hm Hfr0') as [Hm0 Hp0].
  pose proof (proj1 Hm) as Hi'.
  eapply wp_write_header; [done | unfold IDENT_PAGES in Hf; lia | done | exact Hp0 | |].
  { apply data_frame_high. left. destruct (Z.lt_ge_cases (fr 0) IDENT_PAGES); [|done]. exfalso. apply Hnin, (vi_reserved s Hi). lia. }
  apply (Hyes f fr); [done|]. apply alloc_done; done || lia.
Qed.
End AllocWp.

Section KmallocWp.
Context {layout : KernelLayout}.
Implicit Types s : vmm.

Lemma pages_mapped_ext s f n fr gr s' : (forall i, 0 <= i < n -> fr i = gr i) ->
  pages_mapped s f n fr s' -> pages_mapped s f n gr s'.
Proof.
  intros He (Hi & Hm & Hp). split; [done|]. split; [done|]. intros vp Hvp. rewrite Hp by done.
  destruct (Z.leb_spec f vp), (Z.ltb_spec vp (f + n)); simpl; try done. by rewrite He by lia.
Qed.

Lemma run_frames g n : run_range g n = frames_of (fun i => g + i) n.
Proof.
  apply set_eq. intros h. rewrite elem_run_range, elem_frames_of. split.
  - intros Hh. exists (h - g). lia.
  - intros (i & Hi & <-). lia.
Qed.

Lemma frames_taken_run p g n : pm_inv p -> 1 <= n -> run_free p g n ->
  frames_taken p n (fun i => g + i) (take_frames g n p).
Proof.
  intros Hi Hn Hrun. pose proof Hrun as (Hg & Hle & Hfree). pose proof (inv_wf _ Hi) as Hp.
  pose proof (nframes_bound p Hp).
  destruct (take_run_spec g n p) as (_ & Hb & _); [done | lia..|].
  split; [by apply take_frames_inv|]. split; [unfold nframes; simpl; by rewrite Hb|]. split; [|split].
  - rewrite used_set_take_frames by (done || lia). by rewrite run_frames.
  - intros i Hii. split; [lia|]. rewrite elem_used_set. intros [_ Hu].
    rewrite Hfree in Hu by lia. done.
  - intros. lia.
Qed.

Definition kmalloc_loop s (f g n i : Z) (l : Z * Z) s' : Prop :=
  l = (u32 ((f + i) * 4096), u32 ((g + i) * 4096)) /\ vpm s' = take_frames g n (vpm s) /\
  pages_mapped s f i (fun j => g + j) s'.

Lemma wp_kmalloc_step s f g n i l s' (Q : ctl (Z * Z) Empty_set -> vmm -> Prop) :
  IDENT_PAGES <= f -> f + n <= NPAGES -> 0 <= g -> g + n <= NPAGES -> 0 <= i < n ->
  kmalloc_loop s f g n i l s' ->
  (forall l' s'', kmalloc_loop s f g n (i + 1) l' s'' -> Q (Cont l') s'') ->
  wp ((fun '(vaddr, paddr) =>
        vm_map_page paddr vaddr;;
        mret (Cont (u32 (vaddr + PAGE_SIZE), u32 (paddr + PAGE_SIZE)))) l) Q s'.
Proof.
  unfold IDENT_PAGES, NPAGES. intros Hf Hfn Hg Hgn Hin (-> & Hv & Hm) HQ.
  rewrite !(u32_small ((_ + i) * 4096)) by lia. wp_steps.
  assert (Hd : (f + i) * 4096 / 4096 = f + i) by (Z.div_mod_to_equations; lia).
  apply wp_vm_map_page; rewrite ?Hd;
    [apply Hm | unfold NPAGES; lia | unfold IDENT_PAGES; lia | lia |].
  wp_steps. apply HQ. split; [unfold PAGE_SIZE; repeat f_equal; lia|]. split; [done|].
  eapply pages_mapped_ext; [|apply (pages_mapped_succ s f i (fun j => g + j) s' (g + i));
    unfold IDENT_PAGES, NPAGES; done || lia].
  intros j Hj. cbv beta. destruct (Z.eqb_spec j i) as [->|]; done.
Qed.

Lemma wp_kmalloc s size (Q : Z -> vmm -> Prop) :
  heap_inv s -> 0 <= size -> size + 16 < 4294967296 ->
  full_prefix (vpm s) -> (exists g, run_free (vpm s) g (block_pages size)) ->
  (forall f g s', first_pages_free s f (block_pages size) ->
     first_run (vpm s) g (block_pages size) ->
     allocated s f (block_pages size) size (fun i => g + i) s' -> Q (f * 4096 + 16) s') ->
  ((forall f, ~ pages_free s f (block_pages size)) -> Q 0 s) ->
  wp (kmalloc size) Q s.
Proof.
  intros Hh H0 Hsz Hpre [g0 Hg0] Hyes Hno. pose proof (hi_vm s Hh) as Hi.
  pose proof (vi_pm s Hi) as Hpm. pose proof (nframes_bound _ (inv_wf _ Hpm)) as Hnf.
  destruct (block_pages_eq size H0 Hsz) as (Hn & Hn1 & Hnz & Hback).
  unfold kmalloc. cbv zeta. rewrite Hn, Hnz, Hback. set (n := block_pages size) in *.
  cbv [negb]. cbv iota. wp_step.
  assert (1 <= n < 4294967296) by (unfold NPAGES in *; lia).
  apply wp_vm_find_free; [done | done | |]; [|by intros; wp_steps; auto].
  intros f Hrun. pose proof (proj1 Hrun) as Hfree. pose proof Hfree as (_ & Hle & _).
  pose proof (pages_free_above s f n Hi ltac:(lia) Hfree) as Hf.
  wp_step; [bprop; unfold IDENT_PAGES in Hf; lia|]. apply wp_bind. unfold pm. wp_step.
  apply wp_pm_alloc_blocks; [done | done | done | |by intros Hc; case (Hc g0)].
  intros g Hg. pose proof (proj1 Hg) as Hgf. pose proof Hgf as (Hg0' & Hgn & _).
  pose proof (frames_taken_run _ g n Hpm ltac:(lia) Hgf) as Ht.
  apply wp_bind, wp_locals.
  apply (wp_for (fun i l s' => kmalloc_loop s f g n i l s')).
  { split; [|split; [done|]].
    - rewrite !Z.add_0_r, !u32_small; unfold IDENT_PAGES, NPAGES, max_frame in *; done || lia.
    - eapply pages_mapped_vpm; [by apply pages_mapped_start | apply Ht |].
      by apply (taken_reserved s n (fun i => g + i)). }
  { intros i l s' Hii Hl. unfold span in Hii. unfold max_frame, NPAGES in *.
    apply (wp_kmalloc_step s f g n i); unfold NPAGES; try done; lia. }
  intros l s' (_ & Hv & Hm).
  replace (0 + Z.of_nat (span 0 n)) with n in Hm by (unfold span; lia).
  rewrite <- Hv in Ht. destruct (proj1 (proj2 (proj2 (proj2 Ht))) 0 ltac:(lia)) as [Hfr0 Hnin].
  assert (Hfr0' := frame_page _ _ (inv_wf _ Hpm) Hfr0).
  destruct (first_page_mapped s f n _ s' Hh ltac:(lia) Hfree Hm Hfr0') as [Hm0 Hp0].
  pose proof (proj1 Hm) as Hi'.
  eapply wp_write_header; [done | unfold IDENT_PAGES in Hf; lia | done | exact Hp0 | |].
  { apply data_frame_high. left. destruct (Z.lt_ge_cases (g + 0) IDENT_PAGES); [|done]. exfalso. apply Hnin, (vi_reserved s Hi). lia. }
  apply (Hyes f g); [done | done|]. apply (alloc_done s s' f n size (fun i => g + i)); done || lia.
Qed.
End KmallocWp.

(** * Release *)

Section Free.
Context {layout : KernelLayout}.
Implicit Types s : vmm.

Lemma lxor_one_odd v : 0 <= v -> present v = true ->
  Z.lxor v 1 = v - 1 /\ present (v - 1) = false.
Proof.
  rewrite !present_odd. intros Hv Ho. apply Z.eqb_eq in Ho. split.
  - assert (Hv' : v = Z.lor (v / 2 * 2 ^ 1) 1) by (rewrite lor_low by lia; Z.div_mod_to_equations; lia).
    rewrite Hv' at 1. rewrite <- Z.lxor_lor.
    + rewrite Z.lxor_assoc, Z.lxor_nilpotent, Z.lxor_0_r. Z.div_mod_to_equations; lia.
    + apply Z.bits_inj'. intros j Hj. rewrite Z.land_spec, Z.bits_0.
      destruct (decide (j = 0)) as [->|]; [by rewrite Z.mul_pow2_bits_low by lia|].
      rewrite (testbit_small 1 1 j) by lia. by rewrite andb_false_r.
  - apply Z.eqb_neq. Z.div_mod_to_equations; lia.
Qed.

(** The first [i] pages of a block have been released. *)
Definition released s (f i : Z) (fr : Z -> Z) s' : Prop :=
  vm_inv s' /\ nframes (vpm s') = nframes (vpm s) /\
  used_set (vpm s') = used_set (vpm s) ∖ frames_of fr i /\
  forall vp, 0 <= vp < NPAGES ->
    pte s' vp = if (f <=? vp) && (vp <? f + i) then pte s vp - 1 else pte s vp.

Lemma wp_vm_free_page s vp fr (Q : unit -> vmm -> Prop) :
  vm_inv s -> IDENT_PAGES <= vp < NPAGES -> mapped s vp = true -> pte s vp / 4096 = fr ->
  IDENT_PAGES <= fr < LOW_FRAMES -> fr ∈ used_set (vpm s) ->
  Q tt (set_pte vp (pte s vp - 1) (set_vpm (release_frame fr (vpm s)) s)) ->
  wp (vm_free_page (entry_addr (table_frame (vp / 1024) * 4096) (vp mod 1024))) Q s.
Proof.
  intros Hi Hvp Hm Hp Hfr Hu HQ. assert (Hvp0 : 0 <= vp < NPAGES) by (unfold IDENT_PAGES in *; lia).
  pose proof (vi_word s Hi vp Hvp0) as Hw. destruct (lxor_one_odd _ (proj1 Hw) Hm) as [Hx _].
  assert (Hpfn : pt_entry_pfn (pte s vp) = fr * 4096).
  { unfold pt_entry_pfn. rewrite land_frame by lia. unfold LOW_FRAMES in Hfr.
    Z.div_mod_to_equations; lia. }
  pose proof (vi_pm s Hi) as Hpm. pose proof (proj1 (elem_used_set _ _) Hu) as [Hr _].
  pose proof (nframes_bound _ (inv_wf _ Hpm)).
  unfold vm_free_page. wp_steps. apply wp_load_entry; [done..|]. rewrite Hpfn. unfold IDENT_PAGES in *.
  wp_step. destruct (Z.eqb_spec (fr * 4096) 0); [lia|]. unfold pm. wp_step.
  apply wp_pm_free; [apply Hpm | unfold max_frame in *; lia |].
  assert (Hi' : vm_inv (set_vpm (release_frame fr (vpm s)) s)).
  { apply set_vpm_inv; [done | apply release_inv; done || lia |]. intros g Hg.
    rewrite used_set_release by (done || apply Hpm). apply elem_of_difference.
    rewrite elem_of_singleton. split; [by apply (vi_reserved s Hi) | unfold IDENT_PAGES in Hg; lia]. }
  wp_step. apply wp_load_entry; [done..|]. apply wp_store_entry; [done..|].
  unfold pt_entry_del_attrib. change I86_PDE_PRESENT with 1.
  change (pte (set_vpm ?p s) vp) with (pte s vp). by rewrite Hx.
Qed.

Lemma released_succ s f n i size fr s' : vm_block s f n size fr -> 0 <= i < n ->
  released s f i fr s' ->
  released s f (i + 1) fr
    (set_pte (f + i) (pte s' (f + i) - 1) (set_vpm (release_frame (fr i) (vpm s')) s')) /\
  fr i ∈ used_set (vpm s') /\ mapped s' (f + i) = true /\ pte s' (f + i) / 4096 = fr i.
Proof.
  intros [(Hf & Hn & Hfn) Hmap Hfr Hinj _ _] Hi (Hvi & Hnf & Hu & Hp).
  unfold IDENT_PAGES in Hf. destruct (Hmap i Hi) as [Hm Hd]. destruct (Hfr i Hi) as [Hb Hin].
  assert (Hpi : pte s' (f + i) = pte s (f + i)).
  { rewrite Hp by lia. destruct (Z.leb_spec f (f + i)), (Z.ltb_spec (f + i) (f + i)); simpl; lia || done. }
  assert (Hin' : fr i ∈ used_set (vpm s')).
  { rewrite Hu, elem_of_difference, elem_frames_of. split; [done|]. intros (j & Hj & He).
    apply Hinj in He; lia. }
  pose proof (vi_pm s' Hvi) as Hpm. pose proof (proj1 (elem_used_set _ _) Hin') as [Hr _].
  unfold IDENT_PAGES in Hb.
  assert (Hvi' : vm_inv (set_vpm (release_frame (fr i) (vpm s')) s')).
  { apply set_vpm_inv; [done | apply release_inv; done || lia |]. intros g Hg.
    rewrite used_set_release by (done || apply Hpm). apply elem_of_difference.
    rewrite elem_of_singleton. split; [by apply (vi_reserved s' Hvi) | unfold IDENT_PAGES in Hg; lia]. }
  pose proof (vi_word s' Hvi (f + i) ltac:(lia)) as Hw.
  assert (Hodd : present (pte s' (f + i)) = true) by (rewrite Hpi; done).
  rewrite present_odd in Hodd. apply Z.eqb_eq in Hodd.
  split; [|split; [done | unfold mapped; by rewrite Hpi]].
  split; [|split; [done | split]].
  - apply set_pte_inv; [done | unfold IDENT_PAGES; lia | Z.div_mod_to_equations; lia].
  - simpl. rewrite used_set_release, Hu by (done || apply Hpm). rewrite frames_of_succ by lia. set_solver.
  - intros vp Hvp. rewrite pte_set_pte by (done || lia).
    change (pte (set_vpm ?p s') vp) with (pte s' vp). rewrite Hpi.
    destruct (Z.eqb_spec (f + i) vp) as [<-|].
    + destruct (Z.leb_spec f (f + i)), (Z.ltb_spec (f + i) (f + (i + 1))); simpl; lia || done.
    + rewrite Hp by done.
      destruct (Z.leb_spec f vp), (Z.ltb_spec vp (f + (i + 1))), (Z.ltb_spec vp (f + i)); simpl; lia || done.
Qed.

Lemma wp_vm_alloc_free s f n size fr (Q : unit -> vmm -> Prop) :
  vm_inv s -> vm_block s f n size fr -> (forall s', released s f n fr s' -> Q tt s') ->
  wp (vm_alloc_free (f * 4096 + 16)) Q s.
Proof.
  intros Hi Hb HQ. pose proof Hb as [(Hf & Hn & Hfn) Hmap Hfr _ Hhdr _].
  unfold IDENT_PAGES, NPAGES in Hf, Hfn. unfold vm_alloc_free.
  rewrite (u32_small (_ - 16)) by lia. replace (f * 4096 + 16 - 16) with (f * 4096 + 4 * 0) by lia.
  destruct (Hmap 0 ltac:(lia)) as [Hm0 Hd0]. rewrite Z.add_0_r in Hm0, Hd0.
  apply wp_bind, (wp_load_page s f (fr 0) 0); [done | unfold NPAGES; lia | done | done | lia |].
  rewrite Hhdr, Z.mul_0_r, Z.add_0_r. apply wp_bind, wp_locals.
  apply (wp_for (fun i va s' => va = u32 ((f + i) * 4096) /\ released s f i fr s')).
  { rewrite Z.add_0_r, u32_small by lia. split; [done|]. split; [done|]. split; [done|]. split.
    - unfold frames_of. rewrite seqZ_nil by lia. simpl. by rewrite difference_empty_L.
    - intros vp Hvp. destruct (Z.leb_spec f vp), (Z.ltb_spec vp (f + 0)); simpl; lia || done. }
  - intros i va s' Hii [-> Hr]. unfold span in Hii.
    destruct (released_succ s f n i size fr s' Hb ltac:(lia) Hr) as (Hr' & Hin & Hm & Hd).
    pose proof (proj1 Hr) as Hi'. rewrite (u32_small ((f + i) * 4096)) by lia.
    assert (Hp : (f + i) * 4096 / 4096 = f + i) by (Z.div_mod_to_equations; lia).
    rewrite dir_index, table_index, Hp by lia.
    destruct (page_index (f + i) ltac:(unfold NPAGES; lia)) as [H1 H2].
    wp_steps. apply wp_pde_get; [done..|]. intros e _ _ _ ->.
    wp_steps. apply (wp_vm_free_page s' (f + i) (fr i)); try done.
    { unfold IDENT_PAGES, NPAGES. lia. }
    { apply Hfr. lia. }
    unfold native_flush_tlb_single. wp_steps. split; [f_equal; lia|].
    destruct Hr' as (Hv' & Hrest). split; [by apply flush_inv | exact Hrest].
  - intros va s' [_ Hr]. apply HQ.
    by replace (0 + Z.of_nat (span 0 n)) with n in Hr by (unfold span; lia).
Qed.

(** A released block: what [released] says of the heap. *)
Lemma released_heap s f n size fr s' : heap_inv s -> vm_block s f n size fr ->
  released s f n fr s' -> heap_inv s' /\
  (forall vp, 0 <= vp < NPAGES ->
    mapped s' vp = if (f <=? vp) && (vp <? f + n) then false else mapped s vp).
Proof.
  intros [Hi Hlow Hclr] [(Hf & Hn & Hfn) Hmap Hfr _ _ _] (Hi' & Hnf & _ & Hp).
  assert (Hm : forall vp, 0 <= vp < NPAGES ->
    mapped s' vp = if (f <=? vp) && (vp <? f + n) then false else mapped s vp).
  { intros vp Hvp. unfold mapped. rewrite Hp by done.
    destruct (Z.leb_spec f vp), (Z.ltb_spec vp (f + n)); simpl; try done.
    destruct (Hmap (vp - f) ltac:(lia)) as [Hpr _]. replace (f + (vp - f)) with vp in Hpr by lia.
    apply lxor_one_odd; [|done]. by apply (vi_word s Hi). }
  split; [|done]. split; [done | by rewrite Hnf |]. intros vp Hvp Hmf. rewrite Hp by done.
  rewrite Hm in Hmf by done.
  destruct (Z.leb_spec f vp), (Z.ltb_spec vp (f + n)); simpl in *; try by apply Hclr.
  destruct (Hmap (vp - f) ltac:(lia)) as [_ Hd]. destruct (Hfr (vp - f) ltac:(lia)) as [Hb _].
  replace (f + (vp - f)) with vp in * by lia. unfold LOW_FRAMES in Hb. Z.div_mod_to_equations; lia.
Qed.
End Free.

(** * Properties *)

Section Facts.
Context {layout : KernelLayout}.
Implicit Types s : vmm.

Lemma wp_vsize s f n size fr (Q : Z -> vmm -> Prop) :
  vm_inv s -> vm_block s f n size fr -> Q size s -> wp (vm_alloc_size (f * 4096 + 16)) Q s.
Proof.
  intros Hi [(Hf & Hn & Hfn) Hmap _ _ _ Hsz] HQ. unfold IDENT_PAGES, NPAGES in *.
  unfold vm_alloc_size. rewrite !u32_small by (try rewrite u32_small; lia).
  replace (f * 4096 + 16 - 16 + 4) with (f * 4096 + 4 * 1) by lia.
  destruct (Hmap 0 ltac:(lia)) as [Hm0 Hd0]. rewrite Z.add_0_r in Hm0, Hd0.
  apply (wp_load_page s f (fr 0) 1); try done; unfold NPAGES; try lia. by rewrite Hsz.
Qed.

(** A block is contiguous in virtual memory; its frames appear in order. *)
Lemma block_translate s f n size fr a : vm_inv s -> vm_block s f n size fr ->
  0 <= a < n * 4096 -> translate s (f * 4096 + a) = Some (fr (a / 4096) * 4096 + a mod 4096).
Proof.
  intros Hi [(Hf & Hn & Hfn) Hmap _ _ _ _] Ha. unfold IDENT_PAGES in Hf.
  destruct (Hmap (a / 4096)) as [Hm Hd]; [Z.div_mod_to_equations; lia|].
  replace (f * 4096 + a) with ((f + a / 4096) * 4096 + a mod 4096) by (Z.div_mod_to_equations; lia).
  apply translate_page; [done | Z.div_mod_to_equations; lia | done | done | apply Z.mod_pos_bound; lia].
Qed.

(** Blocks that were live keep their pages, frames and header. *)
Lemma block_preserved s f n size fr s' f0 n0 size0 fr0 :
  allocated s f n size fr s' -> pages_free s f n -> vm_block s f0 n0 size0 fr0 ->
  vm_block s' f0 n0 size0 fr0 /\
  forall i j, 0 <= i < n -> 0 <= j < n0 -> f + i <> f0 + j /\ fr i <> fr0 j.
Proof.
  intros [_ [(Hf & Hn & Hfn) _ _ _ _ _] Hu Hfresh Hother Hmem] (_ & _ & Hfree)
    [(Hf0 & Hn0 & Hfn0) Hmap0 Hfr0 Hinj0 Hp0 Hs0].
  assert (Hdis : forall j, 0 <= j < n0 -> ~ f <= f0 + j < f + n).
  { intros j Hj Hin. destruct (Hmap0 j Hj) as [Hm _]. rewrite Hfree in Hm by done. done. }
  assert (Hne : forall i j, 0 <= i < n -> 0 <= j < n0 -> fr i <> fr0 j).
  { intros i j Hi Hj He. apply (Hfresh i Hi). rewrite He. by apply Hfr0. }
  unfold IDENT_PAGES in Hf0. split.
  - assert (Hfw : frame_words (mem s') (fr0 0) = frame_words (mem s) (fr0 0)).
    { apply Hmem; [apply Hfr0; lia|]. intros He. apply (Hne 0 0); lia || done. }
    split; rewrite ?Hfw; try done.
    + intros j Hj. unfold mapped. rewrite Hother by (try apply Hdis; lia || done). by apply Hmap0.
    + intros j Hj. destruct (Hfr0 j Hj). rewrite Hu. set_solver.
  - intros i j Hi Hj. split; [specialize (Hdis j Hj); lia | by apply Hne].
Qed.
End Facts.

(** C6: [vmalloc size], with enough free frames and a run of unmapped pages,
    returns a block: it lies on the first run of unmapped pages of its length
    (every page of the run was unmapped, and no run starts at a lower page),
    backed by distinct frames that were free, with its size recorded; every live
    block keeps its pages, frames and header and shares none of them with the
    new one. *)
Theorem vmalloc_fresh {layout : KernelLayout} s size :
  heap_inv s -> 0 <= size -> size + 16 < 4294967296 ->
  Z.of_nat (base.size (used_set (vpm s))) + block_pages size <= nframes (vpm s) ->
  (exists f, pages_free s f (block_pages size)) ->
  exists f fr s', vmalloc size s = Ok (f * 4096 + 16) s' /\ heap_inv s' /\
    pages_free s f (block_pages size) /\ (forall g, g < f -> ~ pages_free s g (block_pages size)) /\
    vm_block s' f (block_pages size) size fr /\
    vsize (f * 4096 + 16) s' = Ok size s' /\
    (forall i, 0 <= i < block_pages size -> fr i ∉ used_set (vpm s)) /\
    forall f0 n0 size0 fr0, vm_block s f0 n0 size0 fr0 ->
      vm_block s' f0 n0 size0 fr0 /\
      forall i j, 0 <= i < block_pages size -> 0 <= j < n0 -> f + i <> f0 + j /\ fr i <> fr0 j.
Proof.
  intros Hh H0 Hs Hroom [f0 Hf0].
  assert (Hw : wp (vmalloc size) (fun a s' => exists f fr, a = f * 4096 + 16 /\
    first_pages_free s f (block_pages size) /\ allocated s f (block_pages size) size fr s') s).
  { apply wp_vmalloc; try done.
    - intros f fr s' Hrun Ha. exists f, fr. done.
    - intros Hno. by case (Hno f0). }
  apply wp_ok in Hw as (a & s' & He & f & fr & -> & [Hrun Hfirst] & Ha). pose proof Ha as [Hi Hb _ Hfr _ _].
  exists f, fr, s'. do 5 (split; [done|]). split; [|split; [done|]].
  - assert (Hv : wp (vsize (f * 4096 + 16)) (fun z t => z = size /\ t = s') s')
      by (eapply wp_vsize; [apply Hi | done | done]).
    apply wp_ok in Hv as (? & ? & -> & -> & ->). done.
  - intros f1 n1 size1 fr1 Hb1. by eapply block_preserved.
Qed.

(** [kmalloc size] backs its block by physically contiguous frames: when
    the full words of the bitmap are a prefix of it and a run of free frames
    exists, the [k]-th byte of the block is the [k]-th byte after the start of
    the first such run. *)
Theorem kmalloc_contiguous {layout : KernelLayout} s size :
  heap_inv s -> 0 <= size -> size + 16 < 4294967296 -> full_prefix (vpm s) ->
  (exists g, run_free (vpm s) g (block_pages size)) ->
  (exists f, pages_free s f (block_pages size)) ->
  exists f g s', kmalloc size s = Ok (f * 4096 + 16) s' /\ heap_inv s' /\
    first_run (vpm s) g (block_pages size) /\
    used_set (vpm s') = run_range g (block_pages size) ∪ used_set (vpm s) /\
    (forall k, 0 <= k < block_pages size * 4096 ->
       translate s (f * 4096 + k) = None /\ translate s' (f * 4096 + k) = Some (g * 4096 + k)) /\
    ksize (f * 4096 + 16) s' = Ok size s'.
Proof.
  intros Hh H0 Hs Hpre Hg [f0 Hf0].
  assert (Hw : wp (kmalloc size) (fun a s' => exists f g, a = f * 4096 + 16 /\
    pages_free s f (block_pages size) /\ first_run (vpm s) g (block_pages size) /\
    allocated s f (block_pages size) size (fun i => g + i) s') s).
  { apply wp_kmalloc; try done.
    - intros f g s' [Hrun _] Hg' Ha. exists f, g. done.
    - intros Hno. by case (Hno f0). }
  apply wp_ok in Hw as (a & s' & He & f & g & -> & Hrun & Hg' & Ha).
  pose proof Ha as [Hi Hb Hu _ _ _]. pose proof (hi_vm _ Hi) as Hvi.
  exists f, g, s'. do 3 (split; [done|]). split; [by rewrite run_frames|]. split.
  - intros k Hk. split.
    + destruct Hrun as (? & ? & Hfree). unfold NPAGES in *. rewrite translate_pte by (apply Hh || lia).
      rewrite Hfree by (Z.div_mod_to_equations; lia). done.
    + rewrite (block_translate _ _ _ _ _ _ Hvi Hb) by done. f_equal. Z.div_mod_to_equations; lia.
  - assert (Hv : wp (ksize (f * 4096 + 16)) (fun z t => z = size /\ t = s') s')
      by (eapply wp_vsize; done).
    apply wp_ok in Hv as (? & ? & -> & -> & ->). done.
Qed.

(** [vfree] releases a block: its frames return to the pool, its pages are
    unmapped, and no other page or frame is touched. *)
Theorem vfree_releases {layout : KernelLayout} s f n size fr :
  heap_inv s -> vm_block s f n size fr ->
  exists s', vfree (f * 4096 + 16) s = Ok tt s' /\ heap_inv s' /\
    used_set (vpm s') = used_set (vpm s) ∖ frames_of fr n /\
    forall a, 0 <= a < 4294967296 ->
      translate s' a = if (f <=? a / 4096) && (a / 4096 <? f + n) then None else translate s a.
Proof.
  intros Hh Hb.
  assert (Hw : wp (vfree (f * 4096 + 16)) (fun _ s' => released s f n fr s') s)
    by (eapply wp_vm_alloc_free; [apply Hh | done | done]).
  apply wp_ok in Hw as ([] & s' & He & Hr). destruct (released_heap _ _ _ _ _ _ Hh Hb Hr) as [Hh' Hm].
  exists s'. split; [done|]. split; [done|]. destruct Hr as (Hi' & _ & Hu & Hp). split; [done|].
  intros a Ha. assert (Hvp : 0 <= a / 4096 < NPAGES) by (unfold NPAGES; Z.div_mod_to_equations; lia).
  rewrite !translate_pte, Hm by (done || apply Hh). destruct (_ && _) eqn:Hc; [done|].
  by rewrite Hp, Hc by done.
Qed.

(** Freeing the block just allocated restores the heap: the frames in use
    and every translation are those before the allocation. *)
Theorem vfree_vmalloc {layout : KernelLayout} s size a s' :
  heap_inv s -> 0 <= size -> size + 16 < 4294967296 ->
  Z.of_nat (base.size (used_set (vpm s))) + block_pages size <= nframes (vpm s) ->
  vmalloc size s = Ok a s' -> a <> 0 ->
  exists s'', vfree a s' = Ok tt s'' /\ heap_inv s'' /\ used_set (vpm s'') = used_set (vpm s) /\
    forall va, 0 <= va < 4294967296 -> translate s'' va = translate s va.
Proof.
  intros Hh H0 Hs Hroom He. pattern a, s'. apply (wp_elim (vmalloc size) _ s); [|exact He].
  apply wp_vmalloc; try done. intros f fr s1 [Hrun _] [Hh1 Hb Hu Hfr Ho _] _.
  assert (Hw : wp (vfree (f * 4096 + 16)) (fun _ s' => released s1 f (block_pages size) fr s') s1)
    by (eapply wp_vm_alloc_free; [apply Hh1 | done | done]).
  apply wp_ok in Hw as ([] & s2 & He2 & Hr). destruct (released_heap _ _ _ _ _ _ Hh1 Hb Hr) as [Hh2 Hm].
  exists s2. split; [done|]. split; [done|]. destruct Hr as (_ & _ & Hu2 & Hp). split.
  - rewrite Hu2, Hu. apply set_eq. intros g. rewrite elem_of_difference, elem_of_union.
    split; [naive_solver|]. intros Hg. split; [by right|]. rewrite elem_frames_of.
    intros (i & Hi & <-). by apply (Hfr i Hi).
  - intros va Hva. assert (Hvp : 0 <= va / 4096 < NPAGES) by (unfold NPAGES; Z.div_mod_to_equations; lia).
    rewrite !translate_pte, Hm by (done || apply Hh2 || apply Hh).
    destruct Hrun as (_ & _ & Hfree). destruct (_ && _) eqn:Hc.
    + rewrite Hfree by (apply andb_true_iff in Hc; bprop; lia). done.
    + assert (Hn : ~ f <= va / 4096 < f + block_pages size)
        by (intros Hn; apply andb_false_iff in Hc as [Hc|Hc]; bprop; lia).
      rewrite Hp, Hc by done. unfold mapped. by rewrite Ho.
Qed.

(** the result of [pm_alloc] is not checked.  When no frame is left,
    [vmalloc] does not return NULL: it maps the new page to physical address 0
    and writes the header there. *)
Theorem vmalloc_out_of_memory {layout : KernelLayout} s f :
  heap_inv s -> all_used (vpm s) -> first_pages_free s f 1 ->
  exists s', vmalloc 16 s = Ok (f * 4096 + 16) s' /\ vpm s' = vpm s /\
    (forall o, 0 <= o < 4096 -> translate s' (f * 4096 + o) = Some o) /\
    phys_read 0 s' = 1 /\ phys_read 4 s' = 16.
Proof.
  intros [Hi Hlow Hclr] Hall Hrun. pose proof (vi_pm s Hi) as Hpm.
  pose proof (proj1 Hrun) as Hfree. pose proof Hfree as (Hf0 & Hle & Hunm).
  pose proof (pages_free_above s f 1 Hi ltac:(lia) Hfree) as Hf. unfold IDENT_PAGES, NPAGES in *.
  assert (Hd : f * 4096 / 4096 = f) by (Z.div_mod_to_equations; lia).
  destruct (fresh_entry s f 0) as [Hpr Hz];
    [done | done | unfold NPAGES; lia | apply Hunm; lia | unfold NPAGES; lia |].
  set (s1 := map_pte f 0 s).
  assert (Hi1 : vm_inv s1) by (apply (map_pte_inv s f 0); unfold IDENT_PAGES, NPAGES; done || lia).
  assert (Hp1 : pte s1 f = new_entry (pte s f) 0)
    by (unfold s1, map_pte; by rewrite pte_set_pte, Z.eqb_refl by (unfold NPAGES; done || lia)).
  assert (Hm1 : mapped s1 f = true /\ pte s1 f / 4096 = 0) by (unfold mapped; by rewrite Hp1).
  destruct Hm1 as [Hm1 Hd1]. assert (H0 : data_frame 0) by (apply data_frame_high; auto).
  assert (Hi2 : vm_inv (set_header 0 1 16 s1)) by (apply set_word_inv; [by apply set_word_inv | done]).
  assert (Hw : wp (vmalloc 16) (fun a s' => a = f * 4096 + 16 /\ s' = set_header 0 1 16 s1) s).
  { unfold vmalloc. change (u32 (16 + 16)) with 32. cbv zeta.
    change (32 / PAGE_SIZE + _) with 1. change (negb (32 =? 0)) with true. cbv iota. wp_step.
    apply wp_vm_find_free; [done | lia | |by intros Hno; case (Hno f)].
    intros f' Hrun'. assert (f' = f) as ->.
    { destruct Hrun as [Hr Hl], Hrun' as [Hr' Hl'].
      destruct (Z.lt_trichotomy f f') as [Hlt|[?|Hgt]]; [by case (Hl' f) | done | by case (Hl f')]. }
    wp_step; [bprop; lia|]. apply wp_bind, wp_locals. change (span 0 1) with 1%nat. simpl.
    unfold pm. wp_steps. apply wp_pm_alloc; [apply Hpm | |].
    - intros _. assert (Hsv : set_vpm (vpm s) s = s) by (by destruct s). rewrite Hsv. wp_steps.
      apply (wp_vm_map_page s 0 (f * 4096)); rewrite ?Hd; unfold IDENT_PAGES, NPAGES; try done; try lia.
      wp_steps. change (u32 (32 - 16)) with 16. change (map_pte f (0 * 4096) s) with s1. 
      apply (wp_unbind (store32 (f * 4096) 1)
        (fun _ => store32 (u32 (f * 4096 + 4)) 16;; mret (u32 (f * 4096 + 16)))).
      eapply wp_write_header; [done | unfold NPAGES; lia | done | done | done |]. by split.
    - intros g _ (Hg & Hgu & _). rewrite (Hall g Hg) in Hgu. discriminate Hgu. }
  apply wp_ok in Hw as (a & s' & He & -> & ->). exists (set_header 0 1 16 s1).
  split; [done|]. split; [done|]. split.
  - intros o Ho. assert (Hps : pte (set_header 0 1 16 s1) f = pte s1 f)
      by (unfold set_header; rewrite !pte_set_word; (exact H0 || unfold NPAGES; lia || reflexivity)).
    rewrite (translate_page _ f 0); unfold mapped; rewrite ?Hps; try assumption;
      [f_equal; lia | unfold NPAGES; lia].
  - assert (Hl : lenZ (frame_words (mem s1) 0) = 1024) by apply (vi_len _ Hi1).
    unfold phys_read, set_header. change (0 / PAGE_SIZE) with 0. change (4 / PAGE_SIZE) with 0.
    change (0 mod PAGE_SIZE / 4) with 0. change (4 mod PAGE_SIZE / 4) with 1.
    rewrite !rd_set_word; try lia; try done; by apply (set_word_inv s1 0 0 1).
Qed.

(** * Concrete instances *)

Section Concrete.
Lemma ident_heap_inv : heap_inv ident_vmm.
Proof.
  split; [apply ident_vmm_inv | |].
  - change (nframes (vpm ident_vmm)) with 4096. unfold LOW_FRAMES. lia.
  - intros vp Hvp _. rewrite ident_pte by done. unfold IDENT_PAGES.
    destruct (Z.ltb_spec vp 2048); lia.
Qed.

Lemma ident_room : Z.of_nat (base.size (used_set (vpm ident_vmm))) + 2 <= nframes (vpm ident_vmm).
Proof.
  change (nframes (vpm ident_vmm)) with 4096. unfold ident_vmm, vpm.
  rewrite reserved_used_set, size_frame_range by lia. lia.
Qed.

Lemma ident_pages_free : pages_free ident_vmm 2048 2.
Proof.
  split; [lia|]. split; [unfold NPAGES; lia|]. intros g Hg. unfold mapped.
  rewrite ident_unmapped; [reflexivity | unfold IDENT_PAGES, NPAGES; lia].
Qed.

(** The same kernel without a free frame. *)
Definition full_vmm : vmm := set_vpm (reserved_pmm 128) ident_vmm.

Lemma full_vmm_inv : heap_inv full_vmm.
Proof.
  split.
  - apply set_vpm_inv; [apply ident_vmm_inv | apply reserved_inv; lia|].
    intros f Hf. rewrite reserved_used_set, elem_frame_range by lia. unfold IDENT_PAGES in Hf. lia.
  - change (nframes (vpm full_vmm)) with 4096. unfold LOW_FRAMES. lia.
  - apply ident_heap_inv.
Qed.
End Concrete.

Lemma vmalloc_fresh_witness :
  exists f s', vmalloc 5000 ident_vmm = Ok (f * 4096 + 16) s' /\ heap_inv s' /\
    pages_free ident_vmm f 2 /\ forall g, g < f -> ~ pages_free ident_vmm g 2.
Proof.
  destruct (vmalloc_fresh ident_vmm 5000) as (f & fr & s' & H1 & H2 & H3 & H4 & _).
  - apply ident_heap_inv.
  - lia.
  - lia.
  - apply ident_room.
  - exists 2048. apply ident_pages_free.
  - exists f, s'. exact (conj H1 (conj H2 (conj H3 H4))).
Defined.

Lemma kmalloc_contiguous_witness :
  exists f s', kmalloc 5000 ident_vmm = Ok (f * 4096 + 16) s' /\ heap_inv s'.
Proof.
  destruct (kmalloc_contiguous ident_vmm 5000) as (f & g & s' & H1 & H2 & _).
  - apply ident_heap_inv.
  - lia.
  - lia.
  - apply (reserved_full_prefix 64). lia.
  - exists 2048. split; [lia|]. split; [vm_compute; discriminate|]. intros g Hg.
    change (block_pages 5000) with 2 in Hg. unfold ident_vmm, vpm. rewrite reserved_used by lia.
    apply bool_decide_eq_false. lia.
  - exists 2048. apply ident_pages_free.
  - eauto.
Defined.

(** The block a [vmalloc] of 5000 bytes returns, taken as the input of
    [vfree]. *)
Lemma live_block : exists s f n size fr, heap_inv s /\ vm_block s f n size fr.
Proof.
  assert (Hw : wp (vmalloc 5000) (fun _ s' => exists f fr, allocated ident_vmm f 2 5000 fr s') ident_vmm).
  { apply wp_vmalloc; [apply ident_heap_inv | lia | lia | apply ident_room | |].
    - intros f fr s' _ Ha. exists f, fr. exact Ha.
    - intros Hno. case (Hno 2048). apply ident_pages_free. }
  destruct (proj1 (wp_ok _ _ _) Hw) as (a & s' & _ & f & fr & [Hi Hb _ _ _ _]).
  exists s', f, 2, 5000, fr. split; [exact Hi | exact Hb].
Qed.

Lemma vfree_releases_witness :
  exists s f s', vfree (f * 4096 + 16) s = Ok tt s' /\ heap_inv s'.
Proof.
  destruct live_block as (s & f & n & size & fr & Hi & Hb).
  destruct (vfree_releases s f n size fr Hi Hb) as (s' & H1 & H2 & _). eauto.
Defined.

Lemma vfree_vmalloc_witness :
  exists a s' s'', vmalloc 5000 ident_vmm = Ok a s' /\ vfree a s' = Ok tt s'' /\
    used_set (vpm s'') = used_set (vpm ident_vmm).
Proof.
  assert (Hw : wp (vmalloc 5000) (fun a _ => a <> 0) ident_vmm).
  { apply wp_vmalloc; [apply ident_heap_inv | lia | lia | apply ident_room | |].
    - intros f fr s' [Hr _] _. destruct Hr as (Hf & _). lia.
    - intros Hno. case (Hno 2048). apply ident_pages_free. }
  destruct (proj1 (wp_ok _ _ _) Hw) as (a & s' & He & Ha).
  destruct (vfree_vmalloc ident_vmm 5000 a s') as (s'' & H1 & _ & H2 & _);
    [apply ident_heap_inv | lia | lia | apply ident_room | exact He | exact Ha |].
  exists a, s', s''. split; [exact He|]. split; [exact H1 | exact H2].
Defined.

Lemma vmalloc_out_of_memory_witness :
  exists s', vmalloc 16 full_vmm = Ok (2048 * 4096 + 16) s' /\ phys_read 4 s' = 16.
Proof.
  destruct (vmalloc_out_of_memory full_vmm 2048) as (s' & H1 & _ & _ & _ & H2).
  - apply full_vmm_inv.
  - intros g Hg. change (nframes (vpm full_vmm)) with 4096 in Hg. unfold full_vmm. simpl.
    rewrite reserved_used by lia. apply bool_decide_eq_true. lia.
  - split.
    + split; [lia|]. split; [unfold NPAGES; lia|]. intros g Hg.
      replace g with 2048 by lia. apply ident_pages_free. lia.
    + intros g Hg (Hg0 & _ & Hr). specialize (Hr g ltac:(lia)).
      change (mapped full_vmm g) with (mapped ident_vmm g) in Hr.
      rewrite mapped_ident in Hr; [discriminate Hr | apply ident_vmm_inv | unfold IDENT_PAGES; lia].
  - eauto.
Defined.
