(* ===== verification/CString.v ===== *)
(** Strings and memory blocks: [src/kernel/lib/string.c].

    A [char] array is the list of its bytes (0 to 255); a pointer into it is
    an offset.  Every access is checked against the array.  An index of type
    [size_t] stays below the size of an object and is not wrapped. *)
From Stdlib Require Import ZArith Lia List.
From stdpp Require Import base tactics numbers list gmap strings option.
From S2P Require Import Prelude.
Open Scope Z_scope.

(** * Operations *)

Section Operations.
Context {S : Type}.

Definition strlen (str : list Z) : M S Z :=
  locals (while_ (length str + 1) 0 (fun len =>
    c ← aget str len;
    if negb (c =? 0) then mret (Cont (len + 1)) else mret (Brk len))).

(** [memcpy(dest + d, src + s, n)]; [dest] and [src] are distinct objects. *)
Definition memcpy (dest : list Z) (d : Z) (src : list Z) (s n : Z) : M S (list Z) :=
  locals (for_ (span 0 n) 0 dest (fun i dest =>
    c ← aget src (s + i);
    dest ← aset dest (d + i) c;
    mret (Cont dest))).

Definition strcpy (dst src : list Z) : M S (list Z) :=
  l ← locals (while_ (length src + 1) (0, dst) (fun '(i, dst) =>
    c ← aget src i;
    if negb (c =? 0) then
      dst ← aset dst i c;
      mret (Cont (i + 1, dst))
    else mret (Brk (i, dst))));
  let '(i, dst) := l in
  aset dst i 0.

Definition strncpy (dst src : list Z) (n : Z) : M S (list Z) :=
  l ← locals (while_ (length src + 1) (0, dst) (fun '(i, dst) =>
    if i <? n then
      c ← aget src i;
      if negb (c =? 0) then
        dst ← aset dst i c;
        mret (Cont (i + 1, dst))
      else mret (Brk (i, dst))
    else mret (Brk (i, dst))));
  let '(i, dst) := l in
  locals (for_ (span i n) i dst (fun i dst =>
    dst ← aset dst i 0;
    mret (Cont dst))).

Definition memcmp (s1 s2 : list Z) (n : Z) : M S Z :=
  r ← for_ (span 0 n) 0 tt (fun i _ =>
    a ← aget s1 i;
    b ← aget s2 i;
    if negb (a =? b) then mret (Ret (a - b)) else mret (Cont tt));
  match r with inl _ => mret 0 | inr v => mret v end.

(** [memmove(buf + d, buf + s, n)] inside one object. *)
Definition memmove (buf : list Z) (d s n : Z) : M S (list Z) :=
  if d <? s then
    locals (for_ (span 0 n) 0 buf (fun i buf =>
      c ← aget buf (s + i);
      buf ← aset buf (d + i) c;
      mret (Cont buf)))
  else
    locals (for_ (span 0 n) 0 buf (fun k buf =>
      let i := n - k in
      c ← aget buf (s + (i - 1));
      buf ← aset buf (d + (i - 1)) c;
      mret (Cont buf))).

(** [bzero(s + off, n)] *)
Definition bzero (s : list Z) (off n : Z) : M S (list Z) :=
  locals (for_ (span 0 n) 0 s (fun i s =>
    s ← aset s (off + i) 0;
    mret (Cont s))).

Definition strcat (s1 s2 : list Z) : M S (list Z) :=
  i ← locals (while_ (length s1 + 1) 0 (fun i =>
    c ← aget s1 i;
    if negb (c =? 0) then mret (Cont (i + 1)) else mret (Brk i)));
  l ← locals (while_ (length s2 + 1) (i, 0, s1) (fun '(i, j, s1) =>
    c ← aget s2 j;
    if negb (c =? 0) then
      s1 ← aset s1 i c;
      mret (Cont (i + 1, j + 1, s1))
    else mret (Brk (i, j, s1))));
  let '(i, _, s1) := l in
  aset s1 i 0.

(** [rem / length] is a digit except when [length] is 0, which the loops
    exclude; 64 iterations cover every 64-bit [length]. *)
Definition itoa_buf (nbr : Z) (buf : list Z) : M S (list Z) :=
  let rem := u64 nbr in
  l ← (if nbr <? 0 then buf ← aset buf 0 45; mret (u64 (- rem), 1, buf)
       else mret (rem, 0, buf));
  let '(rem, i, buf) := l in
  length ← locals (while_ 64 1 (fun length =>
    if u64 (length * 10) <=? rem then mret (Cont (u64 (length * 10)))
    else mret (Brk length)));
  l ← locals (while_ 65 (length, rem, i, buf) (fun '(length, rem, i, buf) =>
    if 0 <? length then
      buf ← aset buf i (u8 (rem / length + 48));
      mret (Cont (length / 10, rem mod length, i + 1, buf))
    else mret (Brk (length, rem, i, buf))));
  let '(_, _, i, buf) := l in
  aset buf i 0.

Definition hex_digits : list Z :=
  [48; 49; 50; 51; 52; 53; 54; 55; 56; 57; 97; 98; 99; 100; 101; 102; 0].

(** The parameter [nbr] is a [uint32_t]; [base] is converted to [uint64_t] in the
    products and quotients. *)
Definition itoa_base_buf (nbr base : Z) (buf : list Z) : M S (list Z) :=
  let nbr := u32 nbr in
  let base := u64 base in
  length ← locals (while_ 64 1 (fun length =>
    if u64 (length * base) <=? nbr then mret (Cont (u64 (length * base)))
    else mret (Brk length)));
  l ← locals (while_ 65 (length, nbr, 0, buf) (fun '(length, nbr, i, buf) =>
    if 0 <? length then
      c ← aget hex_digits (nbr / length);
      buf ← aset buf i c;
      guard_or DivByZero (base <> 0);;
      mret (Cont (length / base, nbr mod length, i + 1, buf))
    else mret (Brk (length, nbr, i, buf))));
  let '(_, _, i, buf) := l in
  aset buf i 0.

(** [char] is signed. *)
Definition strcmp (s1 s2 : list Z) : M S Z :=
  i ← locals (while_ (length s1 + 1) 0 (fun i =>
    a ← aget s1 i;
    if negb (a =? 0) then
      b ← aget s2 i;
      if a =? b then mret (Cont (i + 1)) else mret (Brk i)
    else mret (Brk i)));
  a ← aget s1 i;
  b ← aget s2 i;
  mret (s8 a - s8 b).

Definition strncmp (s1 s2 : list Z) (n : Z) : M S Z :=
  i ← locals (while_ (length s1 + 1) 0 (fun i =>
    if i <? n then
      a ← aget s1 i;
      if negb (a =? 0) then
        b ← aget s2 i;
        if a =? b then mret (Cont (i + 1)) else mret (Brk i)
      else mret (Brk i)
    else mret (Brk i)));
  if i =? n then mret 0
  else
    a ← aget s1 i;
    b ← aget s2 i;
    mret (a - b).

(** A signed sum or product that overflows wraps, as the generated code
    does. *)
Definition atoi (str : list Z) : M S Z :=
  p ← locals (while_ (length str + 1) 0 (fun p =>
    c ← aget str p;
    if (c =? 32) || (c =? 9) then mret (Cont (p + 1)) else mret (Brk p)));
  c ← aget str p;
  let '(sign, p) := if c =? 45 then (-1, p + 1) else if c =? 43 then (1, p + 1) else (1, p) in
  l ← locals (while_ (length str + 1) (0, p) (fun '(n, p) =>
    c ← aget str p;
    if (48 <=? c) && (c <=? 57) then mret (Cont (s32 (n * 10 + (c - 48)), p + 1))
    else mret (Brk (n, p))));
  mret (s32 (sign * fst l)).

Definition isspace (c : Z) : bool :=
  (c =? 32) || (c =? 9) || (c =? 10) || (c =? 13) || (c =? 11) || (c =? 12).

(** The tokens are offsets into [str]; the array [tokens] has [max] slots. *)
Definition split (str : list Z) (sep max : Z) : M S (list Z * list Z) :=
  l ← locals (while_ (length str + 1) (0, str, []) (fun '(cur, str, tokens) =>
    c ← aget str cur;
    if negb (c =? 0) && (lenZ tokens <? max) then
      cur ← locals (while_ (length str + 1) cur (fun cur =>
        c ← aget str cur;
        if c =? sep then mret (Cont (cur + 1)) else mret (Brk cur)));
      c ← aget str cur;
      if c =? 0 then mret (Brk (cur, str, tokens))
      else
        let tokens := tokens ++ [cur] in
        cur ← locals (while_ (length str + 1) cur (fun cur =>
          c ← aget str cur;
          if negb (c =? 0) && negb (c =? sep) then mret (Cont (cur + 1))
          else mret (Brk cur)));
        c ← aget str cur;
        if negb (c =? 0) then
          str ← aset str cur 0;
          mret (Cont (cur + 1, str, tokens))
        else mret (Cont (cur, str, tokens))
    else mret (Brk (cur, str, tokens))));
  let '(_, str, tokens) := l in mret (str, tokens).

(** The variable arguments of [snprintf]. *)
Inductive fmt_arg : Type :=
  | ArgStr (s : list Z)
  | ArgInt (n : Z).

(** [va_arg]: no argument left, or one of the wrong type, is indeterminate. *)
Definition va_str (ap : list fmt_arg) : M S (list Z * list fmt_arg) :=
  match ap with ArgStr s :: ap => mret (s, ap) | _ => stuck Indeterminate end.
Definition va_int (ap : list fmt_arg) : M S (Z * list fmt_arg) :=
  match ap with ArgInt n :: ap => mret (n, ap) | _ => stuck Indeterminate end.

(** Append the string [s], cut to what fits below the last byte. *)
Definition snprintf_put (str : list Z) (o size : Z) (s : list Z) : M S (list Z * Z) :=
  tl ← strlen s;
  let tl := if size <=? o + tl then size - o - 1 else tl in
  str ← memcpy str o s 0 tl;
  mret (str, o + tl).

Definition snprintf (str : list Z) (size : Z) (format : list Z) (ap : list fmt_arg)
    : M S (list Z * Z) :=
  l ← locals (while_ (length format + 1) (0, 0, str, ap) (fun '(i, o, str, ap) =>
    f ← aget format i;
    if negb (f =? 0) && (o + 1 <? size) then
      spec ← (if f =? 37 then c ← aget format (i + 1); mret (negb (c =? 0)) else mret false);
      if (spec : bool) then
        c ← aget format (i + 1);
        l ← (if c =? 115 then
               a ← va_str ap;
               r ← snprintf_put str o size (fst a);
               mret (snd r, fst r, snd a)
             else if c =? 99 then
               a ← va_int ap;
               str ← aset str o (u8 (fst a));
               mret (o + 1, str, snd a)
             else if (c =? 100) || (c =? 117) then
               a ← va_int ap;
               tmp ← itoa_buf (s32 (fst a)) (replicate 64 0);
               r ← snprintf_put str o size tmp;
               mret (snd r, fst r, snd a)
             else
               str ← aset str o 37;
               str ← aset str (o + 1) c;
               mret (o + 2, str, ap));
        let '(o, str, ap) := l in
        mret (Cont (i + 2, o, str, ap))
      else
        str ← aset str o f;
        mret (Cont (i + 1, o + 1, str, ap))
    else mret (Brk (i, o, str, ap))));
  let '(_, o, str, _) := l in
  str ← (if o <? size then aset str o 0 else mret str);
  mret (str, o).
End Operations.

(** * Strings as lists *)

(** The characters before the terminator. *)
Fixpoint cstr (l : list Z) : list Z :=
  match l with
  | [] => []
  | c :: l' => if c =? 0 then [] else c :: cstr l'
  end.
Definition terminated (l : list Z) : Prop := lenZ (cstr l) < lenZ l.

(** The length of the longest prefix whose characters satisfy [P]. *)
Fixpoint prefix_len (P : Z -> bool) (l : list Z) : Z :=
  match l with
  | [] => 0
  | c :: l' => if P c then 1 + prefix_len P l' else 0
  end.

Section Scan.
Context {S : Type}.

Lemma prefix_len_bound P l : 0 <= prefix_len P l <= lenZ l.
Proof.
  induction l as [|c l IH]; unfold lenZ in *; simpl; [lia|]. destruct (P c); lia.
Qed.

Lemma prefix_len_end P l : prefix_len P l < lenZ l -> P (rd l (prefix_len P l)) = false.
Proof.
  induction l as [|c l IH]; unfold lenZ in *; simpl; [lia|]. pose proof (prefix_len_bound P l).
  destruct (P c) eqn:Hc; [|done]. intros Hlt. unfold rd in *.
  replace (Z.to_nat (1 + prefix_len P l)) with (Datatypes.S (Z.to_nat (prefix_len P l))) by lia.
  apply IH. lia.
Qed.

Lemma prefix_len_in P l i : 0 <= i < prefix_len P l -> P (rd l i) = true.
Proof.
  revert i. induction l as [|c l IH]; simpl; [lia|]. intros i. destruct (P c) eqn:Hc; [|lia].
  intros Hi. unfold rd in *. destruct (decide (i = 0)) as [->|]; [done|].
  replace (Z.to_nat i) with (Datatypes.S (Z.to_nat (i - 1))) by lia. apply IH. lia.
Qed.

Lemma rd_drop l n i : 0 <= n -> 0 <= i -> rd (drop (Z.to_nat n) l) i = rd l (n + i).
Proof.
  intros Hn Hi. unfold rd. rewrite !nth_lookup, lookup_drop. do 2 f_equal. lia.
Qed.

Lemma rd_take l n i : 0 <= i < n -> rd (take (Z.to_nat n) l) i = rd l i.
Proof. intros Hi. unfold rd. rewrite !nth_lookup, lookup_take_lt by lia. done. Qed.

Lemma lenZ_drop {A} (l : list A) n : 0 <= n <= lenZ l -> lenZ (drop (Z.to_nat n) l) = lenZ l - n.
Proof. unfold lenZ. rewrite length_drop. lia. Qed.

Lemma lenZ_take {A} (l : list A) n : 0 <= n <= lenZ l -> lenZ (take (Z.to_nat n) l) = n.
Proof. unfold lenZ. rewrite length_take. lia. Qed.

(** The loops that move a pointer while the character satisfies [P]. *)
Lemma wp_scan (P : Z -> bool) (str : list Z) cur fuel (Q : Z + Empty_set -> S -> Prop) s :
  0 <= cur -> cur + prefix_len P (drop (Z.to_nat cur) str) < lenZ str ->
  lenZ str < Z.of_nat fuel ->
  Q (inl (cur + prefix_len P (drop (Z.to_nat cur) str))) s ->
  wp (while_ fuel cur (fun p =>
        c ← aget str p;
        if P c then mret (Cont (p + 1)) else mret (Brk p))) Q s.
Proof.
  intros Hc He Hf HQ. set (k := prefix_len P (drop (Z.to_nat cur) str)) in *.
  pose proof (prefix_len_bound P (drop (Z.to_nat cur) str)) as Hk. fold k in Hk.
  rewrite lenZ_drop in Hk by lia.
  apply (wp_while (fun p s' => s' = s /\ cur <= p <= cur + k) (fun p _ => Z.to_nat (cur + k - p))).
  - split; [done | lia].
  - lia.
  - intros p s' [-> Hp]. wp_step. apply wp_aget; [lia|].
    destruct (decide (p < cur + k)).
    + assert (HP : P (rd str p) = true).
      { replace p with (cur + (p - cur)) by lia. rewrite <- rd_drop by lia.
        apply prefix_len_in. fold k. lia. }
      rewrite HP. apply wp_ret. split; [|lia]. split; [done | lia].
    + assert (p = cur + k) as -> by lia.
      assert (HP : P (rd str (cur + k)) = false).
      { rewrite <- rd_drop by lia. apply prefix_len_end. fold k. rewrite lenZ_drop by lia. lia. }
      rewrite HP. by apply wp_ret.
Qed.

Definition nonzero (c : Z) : bool := negb (c =? 0).

Lemma cstr_len l : lenZ (cstr l) = prefix_len nonzero l.
Proof.
  induction l as [|c l IH]; [done|]. simpl. unfold nonzero at 1. destruct (c =? 0); [done|].
  simpl. unfold lenZ in *. simpl. lia.
Qed.

Lemma cstr_take l : cstr l = take (Z.to_nat (lenZ (cstr l))) l.
Proof.
  unfold lenZ. rewrite Nat2Z.id. induction l as [|c l IH]; [done|]. simpl.
  destruct (c =? 0); [done|]. simpl. by f_equal.
Qed.

Lemma cstr_end l : terminated l -> rd l (lenZ (cstr l)) = 0.
Proof.
  unfold terminated. rewrite cstr_len. intros Ht. apply prefix_len_end in Ht.
  unfold nonzero in Ht. by bprop.
Qed.

Lemma cstr_nonzero l i : 0 <= i < lenZ (cstr l) -> rd l i <> 0.
Proof.
  rewrite cstr_len. intros Hi. apply prefix_len_in in Hi. unfold nonzero in Hi. by bprop.
Qed.

Lemma rd_cstr l i : 0 <= i < lenZ (cstr l) -> rd (cstr l) i = rd l i.
Proof. intros Hi. rewrite cstr_take at 1. by apply rd_take. Qed.

(** The string an array holds is determined by its first zero. *)
Lemma cstr_unique l w : 0 <= lenZ w < lenZ l -> (forall i, 0 <= i < lenZ w -> rd l i = rd w i /\ rd w i <> 0) ->
  rd l (lenZ w) = 0 -> cstr l = w.
Proof.
  revert w. induction l as [|c l IH]; intros w Hl Hw Hz; [unfold lenZ in *; simpl in *; lia|].
  destruct w as [|d w].
  - simpl. unfold rd in Hz. simpl in Hz. by rewrite Hz.
  - destruct (Hw 0) as [H0 Hnz]; [unfold lenZ; simpl; lia|]. unfold rd in H0, Hnz. simpl in H0, Hnz.
    subst c. simpl. destruct (Z.eqb_spec d 0); [done|]. f_equal. apply IH.
    + unfold lenZ in *. simpl in *. lia.
    + intros i Hi. specialize (Hw (i + 1)). unfold rd, lenZ in *. simpl in *.
      replace (Z.to_nat (i + 1)) with (Datatypes.S (Z.to_nat i)) in Hw by lia. apply Hw. lia.
    + revert Hz. unfold rd, lenZ. rewrite !Nat2Z.id. done.
Qed.

Lemma wp_strlen str (Q : Z -> S -> Prop) s :
  terminated str -> Q (lenZ (cstr str)) s -> wp (strlen str) Q s.
Proof.
  intros Ht HQ. unfold strlen. apply wp_locals. apply (wp_scan nonzero).
  - done.
  - simpl. rewrite <- cstr_len. exact Ht.
  - unfold lenZ. lia.
  - simpl. by rewrite <- cstr_len.
Qed.
End Scan.

(** * Copying *)

(** [r] is [dest] with the [n] bytes of [src] from [s] at [d]. *)
Definition copied (dest : list Z) (d : Z) (src : list Z) (s n : Z) (r : list Z) : Prop :=
  lenZ r = lenZ dest /\
  forall j, 0 <= j < lenZ dest ->
    rd r j = if (d <=? j) && (j <? d + n) then rd src (s + (j - d)) else rd dest j.

Ltac case_range :=
  repeat match goal with
  | |- context [?a <=? ?b] => destruct (Z.leb_spec a b)
  | |- context [?a <? ?b] => destruct (Z.ltb_spec a b)
  | |- context [?a =? ?b] => destruct (Z.eqb_spec a b)
  end; simpl.

Section Copy.
Context {S : Type}.

Lemma wp_memcpy dest d src s n (Q : list Z -> S -> Prop) st :
  0 <= d -> 0 <= n -> d + n <= lenZ dest -> 0 <= s -> s + n <= lenZ src ->
  (forall r, copied dest d src s n r -> Q r st) -> wp (memcpy dest d src s n) Q st.
Proof.
  intros Hd Hn Hdl Hs Hsl HQ. unfold memcpy. apply wp_locals.
  apply (wp_for (fun i r st' => st' = st /\ copied dest d src s i r)).
  - split; [done|]. split; [done|]. intros j Hj. case_range; lia || done.
  - intros i r st' Hi (-> & Hl & Hr). unfold span in Hi. wp_step. apply wp_aget; [lia|].
    wp_step. apply wp_aset; [lia|]. apply wp_ret. split; [done|]. split; [by rewrite lenZ_wr|].
    intros j Hj. rewrite rd_wr, Hr by lia. case_range; try lia; try done. f_equal. lia.
  - intros r st' [-> Hr]. apply HQ. by replace (0 + Z.of_nat (span 0 n)) with n in Hr by (unfold span; lia).
Qed.

Lemma wp_memmove buf d s n (Q : list Z -> S -> Prop) st :
  0 <= d -> 0 <= n -> d + n <= lenZ buf -> 0 <= s -> s + n <= lenZ buf ->
  (forall r, copied buf d buf s n r -> Q r st) -> wp (memmove buf d s n) Q st.
Proof.
  intros Hd Hn Hdl Hs Hsl HQ. unfold memmove. wp_step; bprop; apply wp_locals.
  - apply (wp_for (fun i r st' => st' = st /\ copied buf d buf s i r)).
    + split; [done|]. split; [done|]. intros j Hj. case_range; lia || done.
    + intros i r st' Hi (-> & Hl & Hr). unfold span in Hi. wp_step. apply wp_aget; [lia|].
      wp_step. apply wp_aset; [lia|]. apply wp_ret. split; [done|]. split; [by rewrite lenZ_wr|].
      intros j Hj. rewrite rd_wr, !Hr by lia. case_range; try lia; try done. f_equal. lia.
    + intros r st' [-> Hr]. apply HQ.
      by replace (0 + Z.of_nat (span 0 n)) with n in Hr by (unfold span; lia).
  - apply (wp_for (fun k r st' => st' = st /\ lenZ r = lenZ buf /\ forall j, 0 <= j < lenZ buf ->
      rd r j = if (d + n - k <=? j) && (j <? d + n) then rd buf (s + (j - d)) else rd buf j)).
    + split; [done|]. split; [done|]. intros j Hj. case_range; lia || done.
    + intros k r st' Hk (-> & Hl & Hr). unfold span in Hk. cbv zeta. wp_step. apply wp_aget; [lia|].
      wp_step. apply wp_aset; [lia|]. apply wp_ret. split; [done|]. split; [by rewrite lenZ_wr|].
      intros j Hj. rewrite rd_wr, !Hr by lia. case_range; try lia; try done. f_equal. lia.
    + intros r st' (-> & Hl & Hr). apply HQ. split; [done|]. intros j Hj. rewrite Hr by done.
      unfold span. case_range; lia || done.
Qed.

Lemma wp_bzero buf off n (Q : list Z -> S -> Prop) st :
  0 <= off -> 0 <= n -> off + n <= lenZ buf ->
  (forall r, lenZ r = lenZ buf -> (forall j, 0 <= j < lenZ buf ->
     rd r j = if (off <=? j) && (j <? off + n) then 0 else rd buf j) -> Q r st) ->
  wp (bzero buf off n) Q st.
Proof.
  intros Ho Hn Hl HQ. unfold bzero. apply wp_locals.
  apply (wp_for (fun i r st' => st' = st /\ lenZ r = lenZ buf /\ forall j, 0 <= j < lenZ buf ->
     rd r j = if (off <=? j) && (j <? off + i) then 0 else rd buf j)).
  - split; [done|]. split; [done|]. intros j Hj. case_range; lia || done.
  - intros i r st' Hi (-> & Hlr & Hr). unfold span in Hi. wp_step. apply wp_aset; [lia|].
    apply wp_ret. split; [done|]. split; [by rewrite lenZ_wr|].
    intros j Hj. rewrite rd_wr, Hr by lia. case_range; lia || done.
  - intros r st' (-> & Hlr & Hr). apply HQ; [done|]. intros j Hj. rewrite Hr by done.
    unfold span. case_range; lia || done.
Qed.

(** [strncpy] copies the string, then pads with zeros up to [n]; without
    room for the terminator the result is not terminated. *)
Lemma wp_strncpy dst src n (Q : list Z -> S -> Prop) st :
  0 <= n <= lenZ dst -> terminated src ->
  (forall r, lenZ r = lenZ dst -> (forall j, 0 <= j < lenZ dst ->
     rd r j = if j <? n then if j <? lenZ (cstr src) then rd src j else 0 else rd dst j) -> Q r st) ->
  wp (strncpy dst src n) Q st.
Proof.
  intros Hn Ht HQ. unfold strncpy. set (k := Z.min n (lenZ (cstr src))).
  pose proof (lenZ_nonneg (cstr src)) as Hk0. unfold terminated in Ht.
  apply wp_bind, wp_locals.
  apply (wp_while (fun '(i, r) st' => st' = st /\ 0 <= i <= k /\ copied dst 0 src 0 i r)
    (fun '(i, _) _ => Z.to_nat (k - i))).
  - split; [done|]. split; [lia|]. split; [done|]. intros j Hj. case_range; lia || done.
  - unfold lenZ in *. lia.
  - intros [i r] st' (-> & Hi & Hl & Hr).
    assert (Hdone : i = k -> wp (locals (for_ (span i n) i r (fun i dst =>
      dst ← aset dst i 0; mret (Cont dst)))) Q st).
    { intros ->. apply wp_locals.
      apply (wp_for (fun i r' st' => st' = st /\ lenZ r' = lenZ dst /\ forall j, 0 <= j < lenZ dst ->
        rd r' j = if j <? i then if j <? k then rd src j else 0 else rd dst j)).
      - split; [done|]. split; [done|]. intros j Hj. rewrite Hr by done. case_range; try lia; try done; f_equal; lia.
      - intros i r' st' Hii (-> & Hl' & Hr'). unfold span in Hii. wp_step. apply wp_aset; [lia|].
        apply wp_ret. split; [done|]. split; [by rewrite lenZ_wr|].
        intros j Hj. rewrite rd_wr, Hr' by lia. case_range; lia || done.
      - intros r' st' (-> & Hl' & Hr'). apply HQ; [done|]. intros j Hj. rewrite Hr' by done.
        unfold span. case_range; lia || done. }
    wp_step; bprop; [|wp_step; apply Hdone; lia].
    wp_step. apply wp_aget; [lia|]. destruct (decide (i < lenZ (cstr src))) as [Hlt|Hge].
    + pose proof (cstr_nonzero src i ltac:(lia)) as Hnz. destruct (Z.eqb_spec (rd src i) 0); [done|].
      simpl. wp_step. apply wp_aset; [lia|]. apply wp_ret. split; [|lia]. split; [done|].
      split; [lia|]. split; [by rewrite lenZ_wr|]. intros j Hj. rewrite rd_wr, Hr by lia.
      case_range; try lia; try done. subst. f_equal. lia.
    + assert (Hz : rd src i = 0) by (replace i with (lenZ (cstr src)) by lia; by apply cstr_end).
      rewrite Hz. simpl. wp_step. apply Hdone. lia.
Qed.

(** The index where [strcmp] stops. *)
Lemma wp_strcmp s1 s2 (Q : Z -> S -> Prop) st :
  terminated s1 -> terminated s2 ->
  (forall v, (v = 0 <-> cstr s1 = cstr s2) -> Q v st) ->
  (forall l, l ∈ [s1; s2] -> forall j, 0 <= rd l j < 256) ->
  wp (strcmp s1 s2) Q st.
Proof.
  intros H1 H2 HQ Hb. unfold strcmp.
  pose proof (lenZ_nonneg (cstr s1)). pose proof (lenZ_nonneg (cstr s2)).
  assert (Hs8 : forall a b, 0 <= a < 256 -> 0 <= b < 256 -> (s8 a - s8 b = 0 <-> a = b)).
  { intros a b Ha Hb'. unfold s8, u8. rewrite !Z.mod_small by lia. case_range; lia. }
  assert (Hb1 : forall j, 0 <= rd s1 j < 256) by (apply Hb; set_solver).
  assert (Hb2 : forall j, 0 <= rd s2 j < 256) by (apply Hb; set_solver).
  assert (Hend : forall i, 0 <= i <= lenZ (cstr s1) -> i <= lenZ (cstr s2) ->
    (forall j, 0 <= j < i -> rd s1 j = rd s2 j) -> rd s1 i = 0 \/ rd s1 i <> rd s2 i ->
    (s8 (rd s1 i) - s8 (rd s2 i) = 0 <-> cstr s1 = cstr s2)).
  { intros i Hi Hi2 Heq Hst. rewrite Hs8 by done. split.
    - intros He. destruct Hst as [Hz|]; [|done]. rewrite Hz in He.
      assert (i = lenZ (cstr s1)) as ->.
      { destruct (decide (i < lenZ (cstr s1))); [|lia]. exfalso. apply (cstr_nonzero s1 i); lia || done. }
      assert (Hl : lenZ (cstr s2) = lenZ (cstr s1)).
      { destruct (decide (lenZ (cstr s1) < lenZ (cstr s2))); [|lia].
        by destruct (cstr_nonzero s2 (lenZ (cstr s1))). }
      apply rd_ext; [lia|]. intros j Hj. rewrite !rd_cstr by lia. by apply Heq.
    - intros He. destruct (decide (i < lenZ (cstr s1))).
      + assert (Hc : rd (cstr s1) i = rd (cstr s2) i) by (by rewrite He).
        rewrite !rd_cstr in Hc by (rewrite <- ?He; lia). done.
      + assert (i = lenZ (cstr s1)) as -> by lia. rewrite (cstr_end s1) by done. rewrite He.
        by rewrite cstr_end. }
  apply wp_bind, wp_locals.
  apply (wp_while (fun i st' => st' = st /\ 0 <= i <= lenZ (cstr s1) /\ i <= lenZ (cstr s2) /\
    forall j, 0 <= j < i -> rd s1 j = rd s2 j) (fun i _ => Z.to_nat (lenZ (cstr s1) - i))).
  - split; [done|]. split; [lia|]. split; [lia|]. intros. lia.
  - unfold terminated, lenZ in *. lia.
  - intros i st' (-> & Hi & Hi2 & Heq). unfold terminated in *. wp_step. apply wp_aget; [lia|].
    assert (Hstop : rd s1 i = 0 \/ rd s1 i <> rd s2 i ->
      wp (a ← aget s1 i; b ← aget s2 i; mret (s8 a - s8 b)) Q st).
    { intros Hst. wp_step. apply wp_aget; [lia|]. wp_step. apply wp_aget; [lia|].
      apply wp_ret, HQ, Hend; done || lia. }
    destruct (Z.eqb_spec (rd s1 i) 0) as [Hz|Hnz]; simpl.
    + wp_step. apply Hstop. by left.
    + wp_step. apply wp_aget; [lia|]. wp_step; bprop; [|wp_step; apply Hstop; by right].
      wp_step. assert (i < lenZ (cstr s1)).
      { destruct (decide (i < lenZ (cstr s1))); [done|]. destruct Hnz.
        replace i with (lenZ (cstr s1)) by lia. by apply cstr_end. }
      assert (i < lenZ (cstr s2)).
      { destruct (decide (i < lenZ (cstr s2))); [done|]. destruct Hnz. rewrite Heqb.
        replace i with (lenZ (cstr s2)) by lia. by apply cstr_end. }
      split; [|lia]. split; [done|]. split; [lia|]. split; [lia|]. intros j Hj.
      destruct (decide (j = i)) as [->|]; [done | apply Heq; lia].
Qed.

(** [strcmp] looks at its second argument up to the terminator only. *)
Lemma strcmp_ext a b1 b2 (st : S) : terminated b1 -> terminated b2 -> cstr b1 = cstr b2 ->
  strcmp a b1 st = strcmp a b2 st.
Proof.
  intros H1 H2 He. set (L := lenZ (cstr b1)).
  assert (Hrd : forall i, 0 <= i <= L -> @aget S b1 i = aget b2 i).
  { intros i Hi. unfold aget, terminated in *. rewrite He in H1. unfold L in Hi. rewrite He in Hi.
    rewrite !decide_True by lia. f_equal. destruct (decide (i = lenZ (cstr b2))) as [->|].
    - rewrite <- He at 1. rewrite cstr_end by (unfold terminated; by rewrite He). by rewrite cstr_end.
    - rewrite <- (rd_cstr b1), <- (rd_cstr b2) by (rewrite ?He; lia). by rewrite He. }
  assert (Hend : rd b1 L = 0) by (by apply cstr_end).
  set (body := fun (b : list Z) (i : Z) => (a0 ← aget a i;
    if negb (a0 =? 0) then b0 ← aget b i; if a0 =? b0 then mret (Cont (i + 1)) else mret (Brk i)
    else mret (Brk i)) : M S (ctl Z Empty_set)).
  assert (Hloop : forall fuel i, 0 <= i <= L ->
    @while_ S Z Empty_set fuel i (body b1) st = while_ fuel i (body b2) st /\
    forall j s', @while_ S Z Empty_set fuel i (body b1) st = Ok (inl j) s' -> 0 <= j <= L).
  { induction fuel as [|fuel IH]; intros i Hi; [done|]. cbn [while_]. unfold mbind, M_bind, body at 1 3 5.
    unfold mbind, M_bind. destruct (aget a i st) as [c s1|] eqn:Ha; [|done].
    assert (s1 = st) as -> by (unfold aget in Ha; destruct (decide _); [by injection Ha | done]).
    destruct (Z.eqb_spec c 0); cbn [negb]; [split; [done|]; by intros j s' [= <- <-]|].
    rewrite <- Hrd by done. destruct (aget b1 i st) as [d s2|] eqn:Hb; [|done].
    unfold aget in Hb. destruct (decide _); [|done]. injection Hb as <- <-.
    destruct (Z.eqb_spec c (rd b1 i)); cbn; [|split; [done|]; by intros j s' [= <- <-]].
    apply IH. destruct (decide (i = L)) as [->|]; [congruence | lia]. }
  set (fin := fun (b : list Z) (i : Z) =>
    (a0 ← aget a i; b0 ← aget b i; mret (s8 a0 - s8 b0)) : M S Z).
  change ((i ← locals (while_ (length a + 1) 0 (body b1)); fin b1 i) st =
          (i ← locals (while_ (length a + 1) 0 (body b2)); fin b2 i) st).
  destruct (Hloop (length a + 1)%nat 0) as [Heq Hj]; [unfold L, lenZ; lia|].
  unfold mbind, M_bind, locals. unfold mbind, M_bind. rewrite <- Heq.
  destruct (while_ (length a + 1) 0 (body b1) st) as [[j|[]] s'|] eqn:Hw; [|done].
  cbn. unfold fin. by rewrite Hrd by (by eapply Hj).
Qed.
Lemma wp_memcmp s1 s2 n (Q : Z -> S -> Prop) s :
  0 <= n <= lenZ s1 -> n <= lenZ s2 ->
  (forall v, (v = 0 <-> take (Z.to_nat n) s1 = take (Z.to_nat n) s2) -> Q v s) ->
  wp (memcmp s1 s2 n) Q s.
Proof.
  intros H1 H2 HQ. unfold memcmp. apply wp_bind.
  apply (wp_for (fun i _ s' => s' = s /\ forall j, 0 <= j < i -> rd s1 j = rd s2 j)).
  - split; [done|]. lia.
  - intros i l s' Hi (-> & Heq). unfold span in Hi. wp_step. apply wp_aget; [lia|]. wp_step. apply wp_aget; [lia|].
    destruct (Z.eqb_spec (rd s1 i) (rd s2 i)) as [He|Hne]; cbn [negb]; apply wp_ret.
    + split; [done|]. intros j Hj. destruct (decide (j = i)) as [->|]; [done | apply Heq; lia].
    + apply wp_ret, HQ. split; [lia|]. intros Ht. exfalso. apply Hne.
      rewrite <- (rd_take s1 n i), <- (rd_take s2 n i) by lia. by rewrite Ht.
  - intros l s' (-> & Heq). apply wp_ret, HQ. split; [|done]. intros _.
    apply rd_ext; [rewrite !lenZ_take by lia; done|]. intros j Hj. rewrite lenZ_take in Hj by lia.
    rewrite !rd_take by lia. apply Heq. unfold span. lia.
Qed.
End Copy.

(** * Decimal numbers *)

Definition digit (c : Z) : Prop := 48 <= c <= 57.
Definition dec_value (ds : list Z) : Z := fold_left (fun n c => n * 10 + (c - 48)) ds 0.

(** The text of an integer: an optional minus sign and its decimal digits. *)
Definition dec_text (nbr : Z) (w : list Z) : Prop :=
  exists ds, w = (if nbr <? 0 then [45] else []) ++ ds /\ ds <> [] /\ Forall digit ds /\
    dec_value ds = Z.abs nbr /\ lenZ ds <= 10.

Section Decimal.
Context {S : Type}.

Lemma dec_value_snoc ds c : dec_value (ds ++ [c]) = dec_value ds * 10 + (c - 48).
Proof. unfold dec_value. by rewrite fold_left_app. Qed.

Lemma dec_value_nonneg ds : Forall digit ds -> 0 <= dec_value ds.
Proof.
  induction ds as [|c ds IH] using rev_ind; [done|]. intros [H1 H2]%Forall_app.
  rewrite Forall_singleton in H2. unfold digit in H2. rewrite dec_value_snoc. specialize (IH H1). lia.
Qed.

(** The value of a prefix is bounded by the value of the whole. *)
Lemma dec_value_prefix ds es : Forall digit (ds ++ es) -> dec_value ds <= dec_value (ds ++ es).
Proof.
  induction es as [|c es IH] using rev_ind; [rewrite app_nil_r; lia|].
  rewrite app_assoc. intros H. rewrite dec_value_snoc. apply Forall_app in H as [H1 H2].
  rewrite Forall_singleton in H2. unfold digit in H2. pose proof (dec_value_nonneg _ H1).
  specialize (IH H1). lia.
Qed.

(** The largest power of ten that does not exceed [rem]. *)
Definition top_power (rem m : Z) : Prop := 0 <= m /\ 10 ^ m <= Z.max rem 1 /\ rem < 10 ^ (m + 1).

Lemma pow10_bound m : 0 <= m -> 10 ^ m <= 4294967295 -> m <= 9.
Proof.
  intros Hm Hp. destruct (decide (m <= 9)); [done|].
  assert (10 ^ 10 <= 10 ^ m) by (apply Z.pow_le_mono_r; lia). lia.
Qed.

Lemma wp_top_power rem (Q : Z + Empty_set -> S -> Prop) st :
  0 <= rem < 4294967296 -> (forall m, top_power rem m -> Q (inl (10 ^ m)) st) ->
  wp (while_ 64 1 (fun length =>
    if u64 (length * 10) <=? rem then mret (Cont (u64 (length * 10))) else mret (Brk length))) Q st.
Proof.
  intros Hr HQ.
  apply (wp_while (fun l st' => st' = st /\ exists m, 0 <= m /\ l = 10 ^ m /\ 10 ^ m <= Z.max rem 1)
    (fun l _ => Z.to_nat (40 - Z.log2 l))).
  - split; [done|]. exists 0. lia.
  - change (Z.log2 1) with 0. simpl. lia.
  - intros l st' (-> & m & Hm & -> & Hle).
    pose proof (pow10_bound m Hm ltac:(lia)) as Hm9.
    assert (Hs : 10 ^ m * 10 = 10 ^ (m + 1)) by (rewrite Z.pow_add_r by lia; lia).
    assert (H1 : 1 <= 10 ^ m) by (apply (Z.pow_le_mono_r 10 0 m); lia).
    rewrite Hs. unfold u64. rewrite Z.mod_small by lia.
    destruct (Z.leb_spec (10 ^ (m + 1)) rem).
    + apply wp_ret. split; [split; [done|]; exists (m + 1); split; [lia|]; split; [done | lia]|].
      assert (0 <= m < 9) as Hc by (split; [lia|]; apply Z.nle_gt; intros ?;
        pose proof (Z.pow_le_mono_r 10 10 (m + 1) ltac:(lia) ltac:(lia)); lia).
      assert (Hcase : m = 0 \/ m = 1 \/ m = 2 \/ m = 3 \/ m = 4 \/ m = 5 \/ m = 6 \/ m = 7 \/ m = 8) by lia.
      destruct Hcase as [->|[->|[->|[->|[->|[->|[->|[->| ->]]]]]]]]; vm_compute; lia.
    + apply wp_ret, HQ. split; [done|]. split; [done | lia].
Qed.
End Decimal.

Section Itoa.
Context {S : Type}.

(** The digit loop: [length] is the weight of the next digit, [ds] the
    digits written. *)
Definition itoa_loop (R i0 : Z) (buf0 : list Z) (length rem i : Z) (buf ds : list Z) : Prop :=
  i = i0 + lenZ ds /\ Forall digit ds /\ lenZ buf = lenZ buf0 /\
  (forall j, 0 <= j < lenZ buf0 -> rd buf j =
     if (i0 <=? j) && (j <? i) then rd ds (j - i0) else rd buf0 j) /\
  ((exists m, 0 <= m /\ length = 10 ^ m /\ rem = R mod 10 ^ (m + 1) /\
      dec_value ds = R / 10 ^ (m + 1) /\ (m + 1 + lenZ ds <= 10)) \/
   (length = 0 /\ dec_value ds = R /\ ds <> [] /\ lenZ ds <= 10)).

Lemma rd_app_l (a b : list Z) j : 0 <= j < lenZ a -> rd (a ++ b) j = rd a j.
Proof. unfold rd, lenZ. intros. apply app_nth1. lia. Qed.

Lemma rd_app_r (a b : list Z) j : lenZ a <= j -> rd (a ++ b) j = rd b (j - lenZ a).
Proof. unfold rd, lenZ. intros. rewrite app_nth2 by lia. f_equal. lia. Qed.

Lemma lenZ_app {A} (a b : list A) : lenZ (a ++ b) = lenZ a + lenZ b.
Proof. unfold lenZ. rewrite length_app. lia. Qed.

Lemma itoa_step R i0 buf0 length rem i buf ds :
  0 <= R < 4294967296 -> 0 <= i0 -> i0 + 10 < lenZ buf0 ->
  itoa_loop R i0 buf0 length rem i buf ds -> 0 < length ->
  0 <= i < lenZ buf /\
  itoa_loop R i0 buf0 (length / 10) (rem mod length) (i + 1)
    (wr buf i (u8 (rem / length + 48))) (ds ++ [rem / length + 48]) /\
  0 <= length / 10 < length.
Proof.
  intros HR Hi0 Hl (Hi & Hds & Hlb & Hb & [(m & Hm & -> & -> & Hv & Hle)|(-> & _)]) Hpos; [|lia].
  pose proof (lenZ_nonneg ds) as Hd0. set (P := 10 ^ m) in *.
  assert (HP : 10 ^ (m + 1) = P * 10) by (unfold P; rewrite Z.pow_add_r by lia; lia).
  rewrite HP in *. assert (Hrem : 0 <= R mod (P * 10) < P * 10) by (apply Z.mod_pos_bound; lia).
  set (q := R mod (P * 10) / P).
  assert (Hq : 0 <= q <= 9).
  { unfold q. split; [apply Z.div_pos; lia|]. assert (R mod (P * 10) / P < 10); [|lia].
    apply Z.div_lt_upper_bound; lia. }
  assert (Hval : R / P = R / (P * 10) * 10 + q).
  { unfold q. rewrite Z.rem_mul_r by lia. rewrite (Z.mul_comm P (R / P mod 10)), Z.div_add by lia.
    rewrite (Z.div_small (R mod P) P) by (apply Z.mod_pos_bound; lia).
    rewrite <- Z.div_div by lia. pose proof (Z.div_mod (R / P) 10). lia. }
  assert (Hmod : R mod (P * 10) mod P = R mod P).
  { rewrite Z.rem_mul_r by lia. rewrite (Z.mul_comm P (R / P mod 10)), Z.mod_add by lia. apply Z.mod_mod. lia. }
  assert (H8 : u8 (q + 48) = q + 48) by (unfold u8; apply Z.mod_small; lia).
  split; [lia|]. rewrite H8. split; [|split; [apply Z.div_pos; lia | apply Z.div_lt; lia]].
  split; [rewrite lenZ_app; unfold lenZ at 2; simpl; lia|].
  split; [apply Forall_app; split; [done|]; rewrite Forall_singleton; unfold digit; lia|].
  split; [by rewrite lenZ_wr|]. split.
  { intros j Hj. rewrite rd_wr, Hb by lia. case_range; try lia; try done.
    - by rewrite rd_app_l by lia.
    - replace (j - i0) with (lenZ ds) by lia. rewrite rd_app_r, Z.sub_diag by lia. done. }
  rewrite dec_value_snoc, Hv, lenZ_app, Hmod. unfold lenZ at 2 4. simpl.
  destruct (decide (m = 0)) as [->|Hm0].
  - right. unfold P in *. simpl in *. split; [done|]. rewrite Z.div_1_r in Hval.
    split; [lia|]. split; [by destruct ds | lia].
  - left. exists (m - 1). replace (m - 1 + 1) with m by lia. fold P. split; [lia|].
    split; [|split; [done | lia]].
    unfold P. replace m with (m - 1 + 1) at 1 by lia. rewrite Z.pow_add_r by lia.
    change (10 ^ 1) with 10. by rewrite Z.div_mul.
Qed.

Lemma wp_itoa_digits R i0 buf0 m (Q : list Z -> S -> Prop) st :
  0 <= R < 4294967296 -> 0 <= i0 -> i0 + 10 < lenZ buf0 -> top_power R m ->
  (forall ds r, ds <> [] -> Forall digit ds -> dec_value ds = R -> lenZ ds <= 10 -> lenZ r = lenZ buf0 ->
     (forall j, 0 <= j < i0 + lenZ ds -> rd r j = if j <? i0 then rd buf0 j else rd ds (j - i0)) ->
     rd r (i0 + lenZ ds) = 0 -> Q r st) ->
  wp (l ← locals (while_ 65 (10 ^ m, R, i0, buf0) (fun '(length, rem, i, buf) =>
        if 0 <? length then
          buf ← aset buf i (u8 (rem / length + 48));
          mret (Cont (length / 10, rem mod length, i + 1, buf))
        else mret (Brk (length, rem, i, buf))));
      let '(_, _, i, buf) := l in aset buf i 0) Q st.
Proof.
  intros HR Hi0 Hl (Hm & Hle & Hlt) HQ. pose proof (pow10_bound m Hm ltac:(lia)) as Hm9.
  assert (H1 : 1 <= 10 ^ m) by (apply (Z.pow_le_mono_r 10 0 m); lia).
  apply wp_bind, wp_locals.
  apply (wp_while (fun '(length, rem, i, buf) st' => st' = st /\ 0 <= length <= 4294967295 /\
      exists ds, itoa_loop R i0 buf0 length rem i buf ds)
    (fun '(length, _, _, _) _ => Z.to_nat (Z.log2 (2 * length)))).
  - split; [done|]. split; [lia|]. exists []. split; [unfold lenZ; simpl; lia|]. split; [done|].
    split; [done|]. split; [intros j Hj; case_range; lia || done|]. left. exists m.
    split; [done|]. split; [done|]. rewrite Z.mod_small, Z.div_small by lia.
    split; [done|]. split; [done|]. unfold lenZ. simpl. lia.
  - assert (Z.log2 (2 * 10 ^ m) <= Z.log2 8589934590) by (apply Z.log2_le_mono; lia).
    change (Z.log2 8589934590) with 32 in *. lia.
  - intros [[[length rem] i] buf] st' (-> & Hlb & ds & Hloop). destruct (Z.ltb_spec 0 length).
    + destruct (itoa_step R i0 buf0 length rem i buf ds) as (Hi & Hnext & Hdec); [done..|].
      wp_step. apply wp_aset; [done|]. apply wp_ret. split.
      * split; [done|]. split; [lia|]. eauto.
      * assert (Hlg : Z.log2 (2 * (length / 10)) < Z.log2 (2 * length)).
        { destruct (decide (length / 10 = 0)) as [->|]; [apply Z.log2_pos; lia|].
          apply Z.log2_lt_pow2; [lia|]. 
          assert (2 * (length / 10) * 2 <= 2 * length) by (Z.div_mod_to_equations; lia).
          rewrite Z.log2_double by lia. rewrite Z.pow_succ_r by apply Z.log2_nonneg.
          pose proof (Z.log2_spec length ltac:(lia)) as [_ Hs].
          rewrite Z.pow_succ_r in Hs by apply Z.log2_nonneg. lia. }
        pose proof (Z.log2_nonneg (2 * (length / 10))). lia.
    + assert (length = 0) as -> by lia. wp_step.
      destruct Hloop as (Hi & Hds & Hlen & Hb & [(m' & ? & Hz & _)|(_ & Hv & Hne & Hl10)]).
      { assert (0 < 10 ^ m') by (apply Z.pow_pos_nonneg; lia). lia. }
      pose proof (lenZ_nonneg ds).
      apply wp_aset; [lia|]. apply (HQ ds); try done.
      * by rewrite lenZ_wr.
      * intros j Hj. rewrite rd_wr, Hb by lia. case_range; lia || done.
      * rewrite rd_wr by lia. case_range; lia || done.
Qed.

Lemma wp_itoa nbr buf (Q : list Z -> S -> Prop) st :
  -2147483648 <= nbr < 2147483648 -> 12 <= lenZ buf ->
  (forall r, lenZ r = lenZ buf -> terminated r -> dec_text nbr (cstr r) -> Q r st) ->
  wp (itoa_buf nbr buf) Q st.
Proof.
  intros Hn Hl HQ. unfold itoa_buf. cbv zeta. 
  assert (Hfin : forall ds r, ds <> [] -> Forall digit ds -> dec_value ds = Z.abs nbr -> lenZ ds <= 10 ->
    lenZ r = lenZ buf -> let p := if nbr <? 0 then [45] else [] in
    (forall j, 0 <= j < lenZ (p ++ ds) -> rd r j = rd (p ++ ds) j) -> rd r (lenZ (p ++ ds)) = 0 -> Q r st).
  { intros ds r Hne Hds Hv Hlds Hlr p Hj Hz.
    assert (Hlp : lenZ (p ++ ds) < lenZ r) by (rewrite lenZ_app; subst p; destruct (nbr <? 0); unfold lenZ in *; simpl; lia).
    assert (Hnz : forall j, 0 <= j < lenZ (p ++ ds) -> rd (p ++ ds) j <> 0).
    { intros j Hj0. assert (Hf : Forall (fun c => c <> 0) (p ++ ds)).
      { apply Forall_app. split; [subst p; destruct (nbr <? 0); by repeat constructor|].
        eapply Forall_impl; [|exact Hds]. unfold digit. simpl. lia. }
      rewrite Forall_lookup in Hf. apply (Hf (Z.to_nat j)), rd_lookup. done. }
    assert (Hc : cstr r = p ++ ds).
    { apply cstr_unique; [pose proof (lenZ_nonneg (p ++ ds)); lia | | done]. intros i Hi. auto. }
    apply HQ; [done | unfold terminated; by rewrite Hc |]. rewrite Hc. exists ds. done. }
  assert (Hu : u64 nbr = if nbr <? 0 then 18446744073709551616 + nbr else nbr).
  { unfold u64. destruct (Z.ltb_spec nbr 0); [|apply Z.mod_small; lia].
    rewrite <- (Z.mod_add nbr 1) by lia. rewrite Z.mod_small by lia. lia. }
  destruct (Z.ltb_spec nbr 0).
  - wp_step. wp_step. apply wp_aset; [lia|]. wp_step. cbv beta iota.
    assert (Hneg : u64 (- u64 nbr) = - nbr).
    { rewrite Hu. unfold u64. rewrite <- (Z.mod_add _ 1) by lia. rewrite Z.mod_small by lia. lia. }
    rewrite Hneg. apply wp_bind, wp_locals, wp_top_power; [lia|]. intros m Hm.
    apply wp_itoa_digits; try rewrite lenZ_wr; try lia; [done|].
    intros ds r Hne Hds Hv Hl10 Hlr Hr Hz. apply (Hfin ds); try done; try lia.
    + rewrite lenZ_app. unfold lenZ at 1. simpl. intros j Hj. rewrite Hr by lia. case_range; try lia.
      * assert (j = 0) as -> by lia. rewrite rd_wr_eq by lia. done.
      * change (45 :: ds) with ([45] ++ ds). rewrite rd_app_r by (unfold lenZ; simpl; lia). done.
    + by rewrite lenZ_app.
  - wp_step. wp_step. cbv beta iota. rewrite Hu.
    apply wp_bind, wp_locals, wp_top_power; [lia|]. intros m Hm.
    apply wp_itoa_digits; try lia; [done|].
    intros ds r Hne Hds Hv Hl10 Hlr Hr Hz. apply (Hfin ds); try done; try lia.
    intros j Hj. rewrite Hr by (simpl in Hj; lia). case_range; try lia. simpl. f_equal. lia.
Qed.
End Itoa.

Section Atoi.
Context {S : Type}.

Lemma take_succ_Z (ds : list Z) k : 0 <= k < lenZ ds ->
  take (Z.to_nat (k + 1)) ds = take (Z.to_nat k) ds ++ [rd ds k].
Proof.
  intros Hk. replace (Z.to_nat (k + 1)) with (Datatypes.S (Z.to_nat k)) by lia.
  apply take_S_r, rd_lookup. done.
Qed.

Lemma Forall_rd (P : Z -> Prop) ds k : Forall P ds -> 0 <= k < lenZ ds -> P (rd ds k).
Proof. rewrite Forall_lookup. intros Hf Hk. eapply Hf, rd_lookup, Hk. Qed.

Lemma prefix_value_bound ds k : Forall digit ds -> 0 <= k <= lenZ ds ->
  0 <= dec_value (take (Z.to_nat k) ds) <= dec_value ds.
Proof.
  intros Hds Hk. split.
  - apply dec_value_nonneg. by apply Forall_take.
  - pose proof (dec_value_prefix (take (Z.to_nat k) ds) (drop (Z.to_nat k) ds)) as H.
    rewrite take_drop in H. auto.
Qed.

(** The digit loop of [atoi] on a text [p0] characters into the string. *)
Lemma wp_atoi_digits str p0 ds (Q : Z * Z + Empty_set -> S -> Prop) st :
  0 <= p0 -> p0 + lenZ ds < lenZ str -> Forall digit ds -> dec_value ds < 2147483648 ->
  (forall j, 0 <= j < lenZ ds -> rd str (p0 + j) = rd ds j) -> rd str (p0 + lenZ ds) = 0 ->
  Q (inl (dec_value ds, p0 + lenZ ds)) st ->
  wp (while_ (length str + 1) (0, p0) (fun '(n, p) =>
    c ← aget str p;
    if (48 <=? c) && (c <=? 57) then mret (Cont (s32 (n * 10 + (c - 48)), p + 1))
    else mret (Brk (n, p)))) Q st.
Proof.
  intros Hp Hl Hds Hv Hr Hz HQ. pose proof (lenZ_nonneg ds).
  apply (wp_while (fun '(n, p) st' => st' = st /\ p0 <= p <= p0 + lenZ ds /\
      n = dec_value (take (Z.to_nat (p - p0)) ds)) (fun '(_, p) _ => Z.to_nat (p0 + lenZ ds - p))).
  - rewrite Z.sub_diag. split; [done|]. split; [lia | done].
  - unfold lenZ in *. lia.
  - intros [n p] st' (-> & Hpr & ->). wp_step. apply wp_aget; [lia|].
    destruct (decide (p < p0 + lenZ ds)) as [Hlt|].
    + pose proof (Hr (p - p0) ltac:(lia)) as Hc. replace (p0 + (p - p0)) with p in Hc by lia.
      pose proof (Forall_rd digit ds (p - p0) Hds ltac:(lia)) as Hd. unfold digit in Hd. rewrite Hc.
      destruct (Z.leb_spec 48 (rd ds (p - p0))), (Z.leb_spec (rd ds (p - p0)) 57); try lia. simpl.
      apply wp_ret. split; [|lia]. split; [done|]. split; [lia|].
      replace (p + 1 - p0) with (p - p0 + 1) by lia. rewrite take_succ_Z, dec_value_snoc by lia.
      pose proof (prefix_value_bound ds (p - p0 + 1) Hds ltac:(lia)) as Hb.
      rewrite take_succ_Z, dec_value_snoc in Hb by lia.
      unfold s32. rewrite u32_small by lia. destruct (Z.ltb_spec (dec_value (take (Z.to_nat (p - p0)) ds) * 10 + (rd ds (p - p0) - 48)) 2147483648); lia.
    + assert (p = p0 + lenZ ds) as -> by lia. rewrite Hz. simpl. apply wp_ret.
      replace (p0 + lenZ ds - p0) with (lenZ ds) by lia. unfold lenZ at 1. rewrite Nat2Z.id, firstn_all.
      exact HQ.
Qed.

Lemma wp_atoi str nbr (Q : Z -> S -> Prop) st :
  terminated str -> dec_text nbr (cstr str) -> -2147483648 < nbr < 2147483648 -> Q nbr st ->
  wp (atoi str) Q st.
Proof.
  intros Ht (ds & Hw & Hne & Hds & Hv & _) Hn HQ. unfold atoi.
  pose proof (lenZ_nonneg ds). assert (Hl1 : 1 <= lenZ ds) by (destruct ds; [done | unfold lenZ; simpl; lia]).
  pose proof (cstr_end str Ht) as Hz. unfold terminated in Ht.
  assert (Hr : forall j, 0 <= j < lenZ (cstr str) -> rd str j = rd (cstr str) j)
    by (intros; by rewrite rd_cstr).
  rewrite Hw in Hz, Hr, Ht. rewrite lenZ_app in Hz, Hr, Ht.
  pose proof (Forall_rd digit ds 0 Hds ltac:(lia)) as Hd0. unfold digit in Hd0.
  assert (Hfin : forall sign p0, p0 = (if nbr <? 0 then 1 else 0) -> sign = (if nbr <? 0 then -1 else 1) ->
    wp (l ← locals (while_ (length str + 1) (0, p0) (fun '(n, p) =>
      c ← aget str p;
      if (48 <=? c) && (c <=? 57) then mret (Cont (s32 (n * 10 + (c - 48)), p + 1))
      else mret (Brk (n, p)))); mret (s32 (sign * fst l))) Q st).
  { intros sign p0 -> ->. apply wp_bind, wp_locals.
    assert (Hp0 : lenZ (if nbr <? 0 then [45] else []) = if nbr <? 0 then 1 else 0)
      by (by destruct (nbr <? 0)).
    rewrite Hp0 in *. apply (wp_atoi_digits str _ ds); try lia; try done.
    - destruct (nbr <? 0); lia.
    - intros j Hj. rewrite Hr by (destruct (nbr <? 0); lia). rewrite rd_app_r by (rewrite Hp0; lia).
      f_equal. rewrite Hp0. lia.
    - apply wp_ret. simpl. rewrite Hv. 
      replace (s32 ((if nbr <? 0 then -1 else 1) * Z.abs nbr)) with nbr; [done|].
      unfold s32, u32. destruct (Z.ltb_spec nbr 0).
      + replace (-1 * Z.abs nbr) with nbr by lia. rewrite <- (Z.mod_add nbr 1), Z.mod_small by lia.
        destruct (Z.ltb_spec (nbr + 1 * 4294967296) 2147483648); lia.
      + replace (1 * Z.abs nbr) with nbr by lia. rewrite Z.mod_small by lia.
        destruct (Z.ltb_spec nbr 2147483648); lia. }
  assert (H0 : rd str 0 = if nbr <? 0 then 45 else rd ds 0).
  { rewrite Hr by (destruct (nbr <? 0); unfold lenZ in *; simpl; lia). by destruct (nbr <? 0). }
  assert (Hk : prefix_len (fun c => (c =? 32) || (c =? 9)) (drop (Z.to_nat 0) str) = 0).
  { clear Hw Hz Hr Hfin. destruct str as [|c0 str]; [done|].
    unfold rd at 1 in H0. simpl in H0. simpl.
    destruct (Z.eqb_spec c0 32), (Z.eqb_spec c0 9); simpl; destruct (nbr <? 0); lia. }
  assert (Hls : 0 < lenZ str) by (pose proof (lenZ_nonneg (if nbr <? 0 then [45] else [])); lia).
  apply wp_bind, wp_locals.
  apply (wp_scan (fun c => (c =? 32) || (c =? 9))); rewrite ?Hk; try lia.
  { unfold lenZ. lia. }
  simpl. wp_step. apply wp_aget; [lia|].
  change (0 + 0) with 0. rewrite H0. destruct (Z.ltb_spec nbr 0); simpl.
  - by apply Hfin.
  - destruct (Z.eqb_spec (rd ds 0) 45); [lia|]. destruct (Z.eqb_spec (rd ds 0) 43); [lia|]. by apply Hfin.
Qed.
End Atoi.

(** C36: the decimal conversions are inverse.  For every [int] above INT_MIN and
    a buffer of at least 12 bytes, [itoa_buf] writes a terminated text inside
    the buffer and [atoi] reads the same number back from it. *)
Theorem atoi_itoa {S} (st : S) nbr buf :
  -2147483648 < nbr < 2147483648 -> 12 <= lenZ buf ->
  exists r, itoa_buf nbr buf st = Ok r st /\ lenZ r = lenZ buf /\ terminated r /\ atoi r st = Ok nbr st.
Proof.
  intros Hn Hl.
  assert (Hw : wp (itoa_buf nbr buf) (fun r st' => st' = st /\ lenZ r = lenZ buf /\ terminated r /\
    dec_text nbr (cstr r)) st) by (apply wp_itoa; auto; lia).
  apply wp_ok in Hw as (r & ? & He & -> & Hlr & Ht & Hd). exists r. split_and!; try done.
  assert (Ha : wp (atoi r) (fun n st' => n = nbr /\ st' = st) st) by (by apply (wp_atoi r nbr)).
  apply wp_ok in Ha as (? & ? & -> & -> & ->). done.
Qed.

(** [memmove] copies as if through a temporary buffer, whichever way the
    two ranges overlap, and touches nothing else. *)
Theorem memmove_overlap {S} (st : S) buf d s n :
  0 <= d -> 0 <= s -> 0 <= n -> d + n <= lenZ buf -> s + n <= lenZ buf ->
  exists r, memmove buf d s n st = Ok r st /\ copied buf d buf s n r.
Proof.
  intros. assert (Hw : wp (memmove buf d s n) (fun r st' => st' = st /\ copied buf d buf s n r) st)
    by (apply wp_memmove; auto).
  apply wp_ok in Hw as (r & ? & He & -> & Hc). eauto.
Qed.

(** * Formatted output *)

(** The arguments a format consumes have the right types, and its strings are
    terminated. *)
Fixpoint fmt_ok (f : list Z) (ap : list fmt_arg) : Prop :=
  match f with
  | [] => True
  | a :: rest =>
      if a =? 37 then
        match rest with
        | [] => True
        | c :: r =>
            if c =? 0 then True
            else if c =? 115 then
              match ap with ArgStr s :: ap' => terminated s /\ fmt_ok r ap' | _ => False end
            else if (c =? 99) || ((c =? 100) || (c =? 117)) then
              match ap with ArgInt _ :: ap' => fmt_ok r ap' | _ => False end
            else fmt_ok r ap
        end
      else if a =? 0 then True else fmt_ok rest ap
  end.

Section Snprintf.
Context {S : Type}.

Lemma drop_rd (l : list Z) i : 0 <= i < lenZ l ->
  drop (Z.to_nat i) l = rd l i :: drop (Z.to_nat (i + 1)) l.
Proof.
  intros Hi. replace (Z.to_nat (i + 1)) with (Datatypes.S (Z.to_nat i)) by lia.
  apply drop_S, rd_lookup. done.
Qed.

Lemma fmt_ok_step f i ap : 0 <= i -> i + 1 < lenZ f -> fmt_ok (drop (Z.to_nat i) f) ap ->
  rd f i <> 0 ->
  (rd f i <> 37 -> fmt_ok (drop (Z.to_nat (i + 1)) f) ap) /\
  (rd f i = 37 -> rd f (i + 1) = 0 -> fmt_ok (drop (Z.to_nat (i + 1)) f) ap) /\
  (rd f i = 37 -> rd f (i + 1) <> 0 ->
     if rd f (i + 1) =? 115 then
       match ap with ArgStr s :: ap' => terminated s /\ fmt_ok (drop (Z.to_nat (i + 2)) f) ap' | _ => False end
     else if (rd f (i + 1) =? 99) || ((rd f (i + 1) =? 100) || (rd f (i + 1) =? 117)) then
       match ap with ArgInt _ :: ap' => fmt_ok (drop (Z.to_nat (i + 2)) f) ap' | _ => False end
     else fmt_ok (drop (Z.to_nat (i + 2)) f) ap).
Proof.
  intros Hi Hl. rewrite (drop_rd f i), (drop_rd f (i + 1)) by lia.
  replace (i + 1 + 1) with (i + 2) by lia. simpl. intros H Hnz.
  destruct (Z.eqb_spec (rd f i) 37) as [->|]; [|destruct (Z.eqb_spec (rd f i) 0); [done|]; split_and!; done].
  split; [done|]. destruct (Z.eqb_spec (rd f (i + 1)) 0) as [->|]; split_and!; done.
Qed.

(** What an append leaves: the output grows but stays below [size]. *)
Definition put_ok (str0 : list Z) (size : Z) (str : list Z) (o : Z) : Prop :=
  0 <= o <= size /\ lenZ str = lenZ str0 /\ forall j, size <= j < lenZ str0 -> rd str j = rd str0 j.

Lemma put_ok_aset str0 size str o v (Q : list Z -> S -> Prop) st :
  put_ok str0 size str o -> o < size -> size <= lenZ str0 ->
  (put_ok str0 size (wr str o v) (o + 1) -> Q (wr str o v) st) -> wp (aset str o v) Q st.
Proof.
  intros (Ho & Hl & Hr) Hlt Hs HQ. apply wp_aset; [lia|]. apply HQ.
  split; [lia|]. split; [by rewrite lenZ_wr|]. intros j Hj. rewrite rd_wr_ne by lia. by apply Hr.
Qed.

Lemma wp_snprintf_put str0 size str o s (Q : list Z * Z -> S -> Prop) st :
  put_ok str0 size str o -> o + 1 < size -> size <= lenZ str0 -> terminated s ->
  (forall r o', put_ok str0 size r o' -> Q (r, o') st) -> wp (snprintf_put str o size s) Q st.
Proof.
  intros (Ho & Hl & Hr) Hlt Hs Ht HQ. unfold snprintf_put. wp_step. apply wp_strlen; [done|].
  pose proof (lenZ_nonneg (cstr s)). unfold terminated in Ht. cbv zeta.
  set (tl := if size <=? o + lenZ (cstr s) then size - o - 1 else lenZ (cstr s)).
  assert (Htl : 0 <= tl /\ o + tl < size /\ tl <= lenZ s)
    by (subst tl; destruct (Z.leb_spec size (o + lenZ (cstr s))); lia).
  wp_step. apply wp_memcpy; try lia. intros r [Hlr Hcr]. apply wp_ret. apply HQ.
  split; [lia|]. split; [lia|]. intros j Hj. rewrite Hcr by lia. case_range; try lia. by apply Hr.
Qed.

Definition snprintf_inv (str0 : list Z) (size : Z) (format : list Z)
    (l : Z * Z * list Z * list fmt_arg) : Prop :=
  let '(i, o, str, ap) := l in
  0 <= i <= lenZ (cstr format) /\ put_ok str0 size str o /\ fmt_ok (drop (Z.to_nat i) format) ap.

(** One conversion. *)
Lemma wp_snprintf_conv str0 size format i o str ap (Q : Z * list Z * list fmt_arg -> S -> Prop) st :
  put_ok str0 size str o -> o + 1 < size -> size <= lenZ str0 -> rd format (i + 1) <> 0 ->
  (if rd format (i + 1) =? 115 then
     match ap with ArgStr s :: ap' => terminated s /\ fmt_ok (drop (Z.to_nat (i + 2)) format) ap' | _ => False end
   else if (rd format (i + 1) =? 99) || ((rd format (i + 1) =? 100) || (rd format (i + 1) =? 117)) then
     match ap with ArgInt _ :: ap' => fmt_ok (drop (Z.to_nat (i + 2)) format) ap' | _ => False end
   else fmt_ok (drop (Z.to_nat (i + 2)) format) ap) ->
  (forall o' str' ap', put_ok str0 size str' o' -> fmt_ok (drop (Z.to_nat (i + 2)) format) ap' ->
     Q (o', str', ap') st) ->
  wp (if rd format (i + 1) =? 115 then
        a ← va_str ap;
        r ← snprintf_put str o size (fst a);
        mret (snd r, fst r, snd a)
      else if rd format (i + 1) =? 99 then
        a ← va_int ap;
        str ← aset str o (u8 (fst a));
        mret (o + 1, str, snd a)
      else if (rd format (i + 1) =? 100) || (rd format (i + 1) =? 117) then
        a ← va_int ap;
        tmp ← itoa_buf (s32 (fst a)) (replicate 64 0);
        r ← snprintf_put str o size tmp;
        mret (snd r, fst r, snd a)
      else
        str ← aset str o 37;
        str ← aset str (o + 1) (rd format (i + 1));
        mret (o + 2, str, ap)) Q st.
Proof.
  intros Hp Hlt Hs Hnz Hf HQ. pose proof Hp as (Ho & _ & _).
  destruct (rd format (i + 1) =? 115).
  { destruct ap as [|[s|n] ap']; try done. destruct Hf as [Ht Hf]. wp_step. unfold va_str. wp_step.
    wp_step. apply (wp_snprintf_put str0); try done. intros r o' Hp'. wp_step. by apply HQ. }
  destruct (rd format (i + 1) =? 99).
  { destruct ap as [|[s|n] ap']; try done. wp_step. unfold va_int. wp_step. wp_step.
    apply (put_ok_aset str0 size); [done | lia | done |]. intros Hp'. wp_step. by apply HQ. }
  destruct (_ || _).
  { destruct ap as [|[s|n] ap']; try done. wp_step. unfold va_int. wp_step. wp_step.
    apply wp_itoa; [|by vm_compute|].
    { unfold s32. pose proof (u32_range n). simpl. destruct (Z.ltb_spec (u32 n) 2147483648); lia. }
    intros tmp _ Ht _. wp_step. apply (wp_snprintf_put str0); try done.
    intros r o' Hp'. wp_step. by apply HQ. }
  wp_step. apply (put_ok_aset str0 size); [done | lia | done |]. intros Hp1. wp_step.
  apply (put_ok_aset str0 size); [done | lia | done |]. intros Hp2. wp_step.
  replace (o + 1 + 1) with (o + 2) in Hp2 by lia. by apply HQ.
Qed.

Lemma wp_snprintf str size format ap (Q : list Z * Z -> S -> Prop) st :
  0 <= size <= lenZ str -> terminated format -> fmt_ok format ap ->
  (forall r o, put_ok str size r o -> (o < size -> rd r o = 0) -> Q (r, o) st) ->
  wp (snprintf str size format ap) Q st.
Proof.
  intros Hs Ht Hf HQ. unfold snprintf. pose proof (lenZ_nonneg (cstr format)).
  apply wp_bind, wp_locals.
  apply (wp_while (fun l st' => st' = st /\ snprintf_inv str size format l)
    (fun '(i, _, _, _) _ => Z.to_nat (lenZ (cstr format) - i))).
  - split; [done|]. split; [lia|]. split; [|done]. split; [lia | done].
  - unfold terminated, lenZ in *. lia.
  - intros [[[i o] r] ap'] st' (-> & Hi & Hp & Hf'). pose proof Hp as (Ho & Hl & Hr).
    pose proof Ht as Ht'. unfold terminated in Ht'. wp_step. apply wp_aget; [lia|].
    assert (Hend : wp (str0 ← (if o <? size then aset r o 0 else mret r); mret (str0, o)) Q st).
    { wp_step. destruct (Z.ltb_spec o size).
      - apply wp_aset; [lia|]. wp_step. apply HQ; [|intros _; apply rd_wr_eq; lia].
        split; [lia|]. split; [by rewrite lenZ_wr|]. intros j Hj. rewrite rd_wr_ne by lia. by apply Hr.
      - wp_step. wp_step. apply HQ; [done | lia]. }
    destruct (Z.eqb_spec (rd format i) 0) as [Hz|Hnz]; simpl; [by wp_step|].
    assert (Hil : i < lenZ (cstr format)).
    { destruct (decide (i < lenZ (cstr format))); [done|]. destruct Hnz.
      replace i with (lenZ (cstr format)) by lia. by apply cstr_end. }
    destruct (Z.ltb_spec (o + 1) size); simpl; [|by wp_step].
    destruct (fmt_ok_step format i ap' ltac:(lia) ltac:(lia) Hf' Hnz) as (Hlit & Hend37 & Hconv).
    assert (Hplain : forall Q' : ctl (Z * Z * list Z * list fmt_arg) Empty_set -> S -> Prop,
      (forall r', put_ok str size r' (o + 1) -> Q' (Cont (i + 1, o + 1, r', ap')) st) ->
      wp (str0 ← aset r o (rd format i); mret (Cont (i + 1, o + 1, str0, ap'))) Q' st).
    { intros Q' HQ'. wp_step. apply (put_ok_aset str size); [done | lia | lia |]. intros Hp'.
      wp_step. by apply HQ'. }
    wp_step. destruct (Z.eqb_spec (rd format i) 37) as [H37|].
    2:{ wp_step. apply Hplain. intros r' Hp'. split; [|lia]. split; [done|].
        split; [lia|]. split; [done | by apply Hlit]. }
    wp_step. apply wp_aget; [lia|]. wp_step.
    destruct (Z.eqb_spec (rd format (i + 1)) 0) as [Hz1|Hnz1]; simpl.
    { apply Hplain. intros r' Hp'. split; [|lia]. split; [done|].
      split; [lia|]. split; [done | by apply Hend37]. }
    assert (i + 1 < lenZ (cstr format)).
    { destruct (decide (i + 1 < lenZ (cstr format))); [done|]. destruct Hnz1.
      replace (i + 1) with (lenZ (cstr format)) by lia. by apply cstr_end. }
    wp_step. apply wp_aget; [lia|]. wp_step.
    apply (wp_snprintf_conv str size); try done; try lia; [by apply Hconv|].
    intros o' str' ap'' Hp' Hok. wp_step. split; [|lia]. split; [done|]. split; [lia | by split].
Qed.
End Snprintf.

(** C40: [snprintf str size] writes only below [size] (and below the end of
    [str]) and returns an offset of at most [size]; the output is terminated
    at that offset whenever the offset is below [size]. *)
Theorem snprintf_in_bounds {S} (st : S) str size format ap :
  0 <= size <= lenZ str -> terminated format -> fmt_ok format ap ->
  exists r o, snprintf str size format ap st = Ok (r, o) st /\ 0 <= o <= size /\ lenZ r = lenZ str /\
    (forall j, size <= j < lenZ str -> rd r j = rd str j) /\ (o < size -> rd r o = 0).
Proof.
  intros Hs Ht Hf.
  assert (Hw : wp (snprintf str size format ap) (fun '(r, o) st' => st' = st /\
    put_ok str size r o /\ (o < size -> rd r o = 0)) st) by (apply wp_snprintf; auto).
  apply wp_ok in Hw as ([r o] & ? & He & -> & (Ho & Hl & Hr) & Hz). exists r, o. auto.
Qed.

(** an unknown conversion is copied with its percent sign without a second
    check of the room left, so [snprintf] can fill the buffer to its last byte
    and return it without a terminator. *)
Theorem snprintf_unterminated {S} (st : S) :
  exists r, snprintf [1; 1] 2 [37; 120; 0] [] st = Ok (r, 2) st /\ ~ terminated r.
Proof. exists [37; 120]. split; [reflexivity|]. unfold terminated, lenZ. simpl. lia. Qed.

Lemma atoi_itoa_witness :
  exists r, itoa_buf (-2048) (replicate 16 7) tt = Ok r tt /\ atoi r tt = Ok (-2048) tt.
Proof.
  destruct (atoi_itoa tt (-2048) (replicate 16 7)) as (r & H1 & _ & _ & H2);
    [lia | vm_compute; discriminate |]. eauto.
Defined.

Lemma memmove_overlap_witness :
  exists r, memmove [1; 2; 3; 4; 5; 6] 2 0 4 tt = Ok r tt /\ rd r 5 = 4.
Proof.
  destruct (memmove_overlap tt [1; 2; 3; 4; 5; 6] 2 0 4) as (r & H1 & _ & H2);
    [lia | lia | lia | vm_compute; discriminate | vm_compute; discriminate |].
  exists r. split; [exact H1|]. rewrite H2; [reflexivity | vm_compute; split; [discriminate | reflexivity]].
Defined.

(** The format "[%d %s]" with a number and a string. *)
Lemma snprintf_in_bounds_witness :
  exists r o, snprintf (replicate 20 1) 12 [91; 37; 100; 32; 37; 115; 93; 0]
    [ArgInt 1234567; ArgStr [97; 98; 99; 0]] tt = Ok (r, o) tt /\ o <= 12.
Proof.
  destruct (snprintf_in_bounds tt (replicate 20 1) 12 [91; 37; 100; 32; 37; 115; 93; 0]
    [ArgInt 1234567; ArgStr [97; 98; 99; 0]]) as (r & o & H1 & [_ H2] & _).
  - vm_compute. split; discriminate.
  - vm_compute. reflexivity.
  - repeat (split || (vm_compute; reflexivity)).
  - eauto.
Defined.
