(* ===== verification/Sched.v ===== *)
(** Scheduler: [src/kernel/task/sched.c], [timer_int] of
    [src/kernel/arch/system_timer.c], [tss_set_kernel_esp0] of
    [src/kernel/arch/tss.c] and [src/kernel/task/syscall.c].

    The static variables of these files are one state record.  A kernel stack
    is the list of its 1024 words; only the resume frames are written by the C
    code.  A context switch is the value left in [sched_next_esp], which the
    interrupt stubs load. *)
From Stdlib Require Import ZArith Lia List.
From stdpp Require Import base tactics numbers list gmap strings option.
From S2P Require Import Prelude CString.
Open Scope Z_scope.

Definition SCHED_MAX_TASKS : Z := 8.
Definition SCHED_KSTACK_SIZE : Z := 4096.
Definition GDT_SEL_USER_CODE : Z := 0x23.
Definition GDT_SEL_USER_DATA : Z := 0x2B.

(** The anonymous enum of [sched.h]. *)
Definition S_EMPTY : Z := 0.
Definition S_RUNNABLE : Z := 1.
Definition S_RUNNING : Z := 2.
Definition S_ZOMBIE : Z := 3.

(** * State *)

Record task_t : Type := mkTask {
  pid : Z;
  name : list Z;
  state : Z;
  saved_esp : Z;
  kstack_top : Z;
  kstack_bot : Z;
  entry : Z;
  user_esp : Z
}.

(** [bzero] of a task. *)
Definition task0 : task_t := mkTask 0 (replicate 16 0) 0 0 0 0 0 0.

Definition set_pid v t := mkTask v (name t) (state t) (saved_esp t) (kstack_top t) (kstack_bot t) (entry t) (user_esp t).
Definition set_name v t := mkTask (pid t) v (state t) (saved_esp t) (kstack_top t) (kstack_bot t) (entry t) (user_esp t).
Definition set_state v t := mkTask (pid t) (name t) v (saved_esp t) (kstack_top t) (kstack_bot t) (entry t) (user_esp t).
Definition set_saved_esp v t := mkTask (pid t) (name t) (state t) v (kstack_top t) (kstack_bot t) (entry t) (user_esp t).
Definition set_kstack top bot t := mkTask (pid t) (name t) (state t) (saved_esp t) top bot (entry t) (user_esp t).
Definition set_entry v t := mkTask (pid t) (name t) (state t) (saved_esp t) (kstack_top t) (kstack_bot t) v (user_esp t).
Definition set_user_esp v t := mkTask (pid t) (name t) (state t) (saved_esp t) (kstack_top t) (kstack_bot t) (entry t) v.

Record sched : Type := mkSched {
  g_tasks : list task_t;
  g_kstacks : list (list Z);
  g_cur : Z;
  g_rr : Z;
  g_enabled : Z;
  g_next_pid : Z;
  sched_cur_esp : Z;
  sched_next_esp : Z;
  sched_force_switch : Z;
  sched_active : Z;
  tss_esp0 : Z;
  timer_ticks : Z
}.

Definition set_g_tasks v s := mkSched v (g_kstacks s) (g_cur s) (g_rr s) (g_enabled s) (g_next_pid s)
  (sched_cur_esp s) (sched_next_esp s) (sched_force_switch s) (sched_active s) (tss_esp0 s) (timer_ticks s).
Definition set_g_kstacks v s := mkSched (g_tasks s) v (g_cur s) (g_rr s) (g_enabled s) (g_next_pid s)
  (sched_cur_esp s) (sched_next_esp s) (sched_force_switch s) (sched_active s) (tss_esp0 s) (timer_ticks s).
Definition set_g_cur v s := mkSched (g_tasks s) (g_kstacks s) v (g_rr s) (g_enabled s) (g_next_pid s)
  (sched_cur_esp s) (sched_next_esp s) (sched_force_switch s) (sched_active s) (tss_esp0 s) (timer_ticks s).
Definition set_g_rr v s := mkSched (g_tasks s) (g_kstacks s) (g_cur s) v (g_enabled s) (g_next_pid s)
  (sched_cur_esp s) (sched_next_esp s) (sched_force_switch s) (sched_active s) (tss_esp0 s) (timer_ticks s).
Definition set_g_enabled v s := mkSched (g_tasks s) (g_kstacks s) (g_cur s) (g_rr s) v (g_next_pid s)
  (sched_cur_esp s) (sched_next_esp s) (sched_force_switch s) (sched_active s) (tss_esp0 s) (timer_ticks s).
Definition set_g_next_pid v s := mkSched (g_tasks s) (g_kstacks s) (g_cur s) (g_rr s) (g_enabled s) v
  (sched_cur_esp s) (sched_next_esp s) (sched_force_switch s) (sched_active s) (tss_esp0 s) (timer_ticks s).
Definition set_cur_esp v s := mkSched (g_tasks s) (g_kstacks s) (g_cur s) (g_rr s) (g_enabled s) (g_next_pid s)
  v (sched_next_esp s) (sched_force_switch s) (sched_active s) (tss_esp0 s) (timer_ticks s).
Definition set_next_esp v s := mkSched (g_tasks s) (g_kstacks s) (g_cur s) (g_rr s) (g_enabled s) (g_next_pid s)
  (sched_cur_esp s) v (sched_force_switch s) (sched_active s) (tss_esp0 s) (timer_ticks s).
Definition set_force_switch v s := mkSched (g_tasks s) (g_kstacks s) (g_cur s) (g_rr s) (g_enabled s) (g_next_pid s)
  (sched_cur_esp s) (sched_next_esp s) v (sched_active s) (tss_esp0 s) (timer_ticks s).
Definition set_active v s := mkSched (g_tasks s) (g_kstacks s) (g_cur s) (g_rr s) (g_enabled s) (g_next_pid s)
  (sched_cur_esp s) (sched_next_esp s) (sched_force_switch s) v (tss_esp0 s) (timer_ticks s).
Definition set_esp0 v s := mkSched (g_tasks s) (g_kstacks s) (g_cur s) (g_rr s) (g_enabled s) (g_next_pid s)
  (sched_cur_esp s) (sched_next_esp s) (sched_force_switch s) (sched_active s) v (timer_ticks s).
Definition set_ticks v s := mkSched (g_tasks s) (g_kstacks s) (g_cur s) (g_rr s) (g_enabled s) (g_next_pid s)
  (sched_cur_esp s) (sched_next_esp s) (sched_force_switch s) (sched_active s) (tss_esp0 s) v.

(** The zero-initialised image; [g_rr] and [g_next_pid] start at 1. *)
Definition sched_bss : sched :=
  mkSched (replicate 8 task0) (replicate 8 (replicate 1024 0)) 0 1 0 1 0 0 0 0 0 0.

(** The address the linker gives to [g_kstacks]. *)
Class SchedLayout := {
  kstacks_addr : Z;
  kstacks_aligned : kstacks_addr mod 16 = 0;
  kstacks_range : 0 < kstacks_addr /\ kstacks_addr + 32768 < 4294967296
}.

(** * Operations ([sched.c]) *)

Definition task_at (i : Z) : M sched task_t := fun s =>
  if decide (0 <= i) then
    match g_tasks s !! Z.to_nat i with
    | Some t => Ok t s
    | None => Stuck OutOfBounds s
    end
  else Stuck OutOfBounds s.

(** Assign to fields of [g_tasks[i]]. *)
Definition task_upd (i : Z) (f : task_t -> task_t) : M sched unit :=
  t ← task_at i;
  modify (fun s => set_g_tasks (<[Z.to_nat i := f t]> (g_tasks s)) s).

Definition tss_set_kernel_esp0 (esp : Z) : M sched unit := modify (set_esp0 esp).

Definition sched_pick : M sched Z :=
  r ← for_ (span 0 SCHED_MAX_TASKS) 0 tt (fun step _ =>
    rr ← gets g_rr;
    let i := (rr + step) mod SCHED_MAX_TASKS in
    t ← task_at i;
    if state t =? S_RUNNABLE then
      modify (set_g_rr ((i + 1) mod SCHED_MAX_TASKS));;
      mret (Ret i)
    else mret (Cont tt));
  match r with
  | inr i => mret i
  | inl _ =>
      r ← for_ (span 0 SCHED_MAX_TASKS) 0 tt (fun step _ =>
        rr ← gets g_rr;
        let i := (rr + step) mod SCHED_MAX_TASKS in
        t ← task_at i;
        if negb (state t =? S_EMPTY) && negb (state t =? S_ZOMBIE) then mret (Ret i)
        else mret (Cont tt));
      match r with
      | inr i => mret i
      | inl _ => gets g_cur
      end
  end.

Section Operations.
Context {layout : SchedLayout}.

(** The word of [g_kstacks] at address [a]. *)
Definition kstack_store (a v : Z) : M sched unit :=
  let off := a - kstacks_addr in
  ks ← gets g_kstacks;
  if decide (0 <= off < 32768) then
    match ks !! Z.to_nat (off / SCHED_KSTACK_SIZE) with
    | Some k =>
        k' ← aset k (off mod SCHED_KSTACK_SIZE / 4) v;
        modify (set_g_kstacks (<[Z.to_nat (off / SCHED_KSTACK_SIZE) := k']> ks))
    | None => stuck OutOfBounds
    end
  else stuck OutOfBounds.

(** [sizeof(regs_t)] and the offsets of its fields, in bytes. *)
Definition sizeof_regs_t : Z := 76.

Definition sched_build_initial_frame (i : Z) : M sched unit :=
  t ← task_at i;
  let fr := u32 (kstack_top t - sizeof_regs_t) in
  locals (for_ (span 0 19) 0 tt (fun k _ => kstack_store (fr + 4 * k) 0;; mret (Cont tt)));;
  kstack_store (fr + 12) GDT_SEL_USER_DATA;;
  kstack_store (fr + 8) GDT_SEL_USER_DATA;;
  kstack_store (fr + 4) GDT_SEL_USER_DATA;;
  kstack_store fr GDT_SEL_USER_DATA;;
  kstack_store (fr + 56) (entry t);;
  kstack_store (fr + 60) GDT_SEL_USER_CODE;;
  kstack_store (fr + 64) 0x202;;
  kstack_store (fr + 68) (user_esp t);;
  kstack_store (fr + 72) GDT_SEL_USER_DATA;;
  kstack_store (fr + 28) (user_esp t);;
  task_upd i (set_saved_esp fr).

(** The string literal "kernel". *)
Definition kernel_name : list Z := [107; 101; 114; 110; 101; 108; 0].

Definition sched_init : M sched Z :=
  modify (set_g_tasks (replicate 8 task0));;
  task_upd 0 (set_pid 0);;
  t ← task_at 0;
  nm ← strcpy (name t) kernel_name;
  task_upd 0 (set_name nm);;
  task_upd 0 (set_state S_RUNNING);;
  task_upd 0 (set_saved_esp 0);;
  task_upd 0 (set_kstack 0 0);;
  task_upd 0 (set_entry 0);;
  task_upd 0 (set_user_esp 0);;
  modify (set_g_cur 0);;
  modify (set_g_rr 1);;
  modify (set_g_enabled 1);;
  modify (set_active 1);;
  tss_set_kernel_esp0 (u32 (kstacks_addr + SCHED_KSTACK_SIZE));;
  mret 0.

Definition sched_add (nm : list Z) (ent uesp : Z) : M sched Z :=
  r ← for_ (span 0 SCHED_MAX_TASKS) 0 (-1) (fun i slot =>
    t ← task_at i;
    if (state t =? S_EMPTY) || (state t =? S_ZOMBIE) then mret (Brk i) else mret (Cont slot));
  match r with
  | inr v => mret v
  | inl slot =>
      if slot <? 0 then mret (-1)
      else
        task_upd slot (fun _ => task0);;
        p ← gets g_next_pid;
        modify (set_g_next_pid (u32 (p + 1)));;
        task_upd slot (set_pid p);;
        t ← task_at slot;
        buf ← strncpy (name t) nm 15;
        buf ← aset buf 15 0;
        task_upd slot (set_name buf);;
        task_upd slot (set_state S_RUNNABLE);;
        let bot := u32 (kstacks_addr + slot * SCHED_KSTACK_SIZE) in
        task_upd slot (set_kstack (u32 (bot + SCHED_KSTACK_SIZE)) bot);;
        task_upd slot (set_entry ent);;
        task_upd slot (set_user_esp uesp);;
        sched_build_initial_frame slot;;
        mret (s32 p)
  end.
End Operations.

(** The common end of [sched_tick], [sched_yield] and [sched_exit]. *)
Definition switch_to (next_i : Z) : M sched unit :=
  task_upd next_i (set_state S_RUNNING);;
  next ← task_at next_i;
  (if negb (kstack_top next =? 0) then tss_set_kernel_esp0 (kstack_top next) else mret tt);;
  modify (set_next_esp (saved_esp next));;
  modify (set_g_cur next_i).

Definition sched_tick : M sched unit :=
  en ← gets g_enabled;
  esp ← gets sched_cur_esp;
  if en =? 0 then modify (set_next_esp esp)
  else
    cur_i ← gets g_cur;
    task_upd cur_i (set_saved_esp esp);;
    next_i ← sched_pick;
    cur ← task_at cur_i;
    if (next_i =? cur_i) && (state cur =? S_RUNNING) then modify (set_next_esp (saved_esp cur))
    else
      (if state cur =? S_RUNNING then task_upd cur_i (set_state S_RUNNABLE) else mret tt);;
      switch_to next_i.

Definition sched_yield : M sched unit :=
  en ← gets g_enabled;
  if en =? 0 then mret tt
  else
    next_i ← sched_pick;
    cur_i ← gets g_cur;
    if next_i =? cur_i then mret tt
    else
      esp ← gets sched_cur_esp;
      task_upd cur_i (set_saved_esp esp);;
      task_upd cur_i (set_state S_RUNNABLE);;
      switch_to next_i;;
      modify (set_force_switch 1).

(** Without another task the processor halts for ever. *)
Definition sched_exit (status : Z) : M sched unit :=
  en ← gets g_enabled;
  if en =? 0 then mret tt
  else
    cur_i ← gets g_cur;
    task_upd cur_i (set_state S_ZOMBIE);;
    next_i ← sched_pick;
    if next_i =? cur_i then stuck Halted
    else
      switch_to next_i;;
      modify (set_force_switch 1).

Definition sched_pid : M sched Z :=
  c ← gets g_cur;
  t ← task_at c;
  mret (pid t).

Definition sched_count : M sched Z :=
  locals (for_ (span 0 SCHED_MAX_TASKS) 0 0 (fun i n =>
    t ← task_at i;
    mret (Cont (if negb (state t =? S_EMPTY) then n + 1 else n)))).

Definition sched_alive (p : Z) : M sched Z :=
  r ← for_ (span 0 SCHED_MAX_TASKS) 0 tt (fun i _ =>
    t ← task_at i;
    if (pid t =? p) && negb (state t =? S_EMPTY) && negb (state t =? S_ZOMBIE) then mret (Ret 1)
    else mret (Cont tt));
  match r with inl _ => mret 0 | inr v => mret v end.

(** The lines printed: pid, state and name. *)
Definition sched_list : M sched (list (Z * string * list Z)) :=
  let st := ["empty"%string; "ready"%string; "running"%string; "zombie"%string] in
  locals (for_ (span 0 SCHED_MAX_TASKS) 0 [] (fun i out =>
    t ← task_at i;
    if state t =? S_EMPTY then mret (Cont out)
    else mret (Cont (out ++ [(pid t, nth (Z.to_nat (Z.land (state t) 3)) st ""%string, name t)])))).

(** * Timer and system calls ([system_timer.c], [syscall.c]) *)

Definition timer_int : M sched unit :=
  t ← gets timer_ticks;
  modify (set_ticks (u32 (t + 1)));;
  sched_tick.

(** The registers [syscall_handler] uses. *)
Record regs : Type := mkRegs { eax : Z; ebx : Z; ecx : Z; edx : Z }.
Definition set_eax (v : Z) (r : regs) : regs := mkRegs v (ebx r) (ecx r) (edx r).

Definition SYS_WRITE : Z := 1.
Definition SYS_EXIT : Z := 2.
Definition SYS_GETPID : Z := 3.
Definition SYS_YIELD : Z := 4.
Definition SYS_TICKS : Z := 5.

(** [term_write] is recorded with its arguments. *)
Record sys : Type := mkSys { sys_sched : sched; term_writes : list (Z * Z) }.
Definition set_sys_sched (v : sched) (s : sys) : sys := mkSys v (term_writes s).
Definition on_sched {A} (m : M sched A) : M sys A := zoom sys_sched set_sys_sched m.

Definition sys_write (fd buf len : Z) : M sys Z :=
  modify (fun s => mkSys (sys_sched s) (term_writes s ++ [(buf, len)]));;
  mret len.

Definition syscall_handler (re : regs) : M sys regs :=
  let n := eax re in
  on_sched (modify (set_force_switch 0));;
  let re := set_eax 0 re in
  if n =? SYS_WRITE then
    r ← sys_write (s32 (ebx re)) (ecx re) (edx re);
    mret (set_eax (u32 r) re)
  else if n =? SYS_EXIT then
    on_sched (sched_exit (s32 (ebx re)));;
    mret re
  else if n =? SYS_GETPID then
    p ← on_sched sched_pid;
    mret (set_eax p re)
  else if n =? SYS_YIELD then
    on_sched sched_yield;;
    mret re
  else if n =? SYS_TICKS then
    t ← on_sched (gets timer_ticks);
    mret (set_eax t re)
  else mret (set_eax 0xFFFFFFFF re).

(** * Invariant *)

Definition task (s : sched) (i : Z) : task_t := default task0 (g_tasks s !! Z.to_nat i).
Definition st (s : sched) (i : Z) : Z := state (task s i).

(** [upd i f s]: [f] applied to task [i]. *)
Definition upd (i : Z) (f : task_t -> task_t) (s : sched) : sched :=
  set_g_tasks (<[Z.to_nat i := f (task s i)]> (g_tasks s)) s.

Section Tasks.
Implicit Types s : sched.

Lemma wp_task_at s i (Q : task_t -> sched -> Prop) :
  0 <= i < lenZ (g_tasks s) -> Q (task s i) s -> wp (task_at i) Q s.
Proof.
  unfold lenZ, task. intros Hi HQ. unfold wp, task_at. rewrite decide_True by lia.
  destruct (lookup_lt_is_Some_2 (g_tasks s) (Z.to_nat i)) as [t Ht]; [lia|].
  by rewrite Ht in *.
Qed.

Lemma wp_task_upd s i f (Q : unit -> sched -> Prop) :
  0 <= i < lenZ (g_tasks s) -> Q tt (upd i f s) -> wp (task_upd i f) Q s.
Proof. intros Hi HQ. unfold task_upd. wp_step. apply wp_task_at; [done|]. by wp_step. Qed.

Lemma task_upd_eq s i j f : 0 <= i < lenZ (g_tasks s) -> 0 <= j ->
  task (upd i f s) j = if i =? j then f (task s i) else task s j.
Proof.
  unfold lenZ. intros Hi Hj. unfold task at 1, upd. simpl. destruct (Z.eqb_spec i j) as [<-|].
  - rewrite list_lookup_insert_eq by lia. done.
  - rewrite list_lookup_insert_ne by lia. done.
Qed.

Lemma lenZ_upd s i f : lenZ (g_tasks (upd i f s)) = lenZ (g_tasks s).
Proof. unfold lenZ, upd. simpl. by rewrite length_insert. Qed.
End Tasks.

#[export] Hint Rewrite lenZ_upd : arr.

Section Invariant.
Context {layout : SchedLayout}.
Implicit Types s : sched.

(** The kernel stack of slot [i]. *)
Definition kstack_of (i : Z) : Z := kstacks_addr + (i + 1) * 4096.

Record sched_inv s : Prop := {
  si_len : lenZ (g_tasks s) = 8;
  si_cur : 0 <= g_cur s < 8;
  si_rr : 0 <= g_rr s < 8;
  si_enabled : g_enabled s <> 0;
  si_running : forall i, 0 <= i < 8 -> (st s i = S_RUNNING <-> i = g_cur s);
  si_states : forall i, 0 <= i < 8 -> 0 <= st s i <= 3;
  si_kernel : st s 0 = S_RUNNING \/ st s 0 = S_RUNNABLE;
  si_stack : forall i, 1 <= i < 8 -> st s i <> S_EMPTY -> kstack_top (task s i) = kstack_of i;
  si_kstacks : length (g_kstacks s) = 8%nat /\ Forall (fun k => lenZ k = 1024) (g_kstacks s)
}.

Definition runnable s (i : Z) : Prop := st s i = S_RUNNABLE.

(** The slot [d] places after [g_rr]. *)
Definition slot s (d : Z) : Z := (g_rr s + d) mod 8.

Lemma slot_range s d : 0 <= slot s d < 8.
Proof. unfold slot. apply Z.mod_pos_bound. lia. Qed.

(** Every slot is met once in a round. *)
Lemma slot_cover s i : 0 <= g_rr s < 8 -> 0 <= i < 8 -> exists d, 0 <= d < 8 /\ slot s d = i.
Proof.
  intros Hr Hi. exists ((i - g_rr s) mod 8). unfold slot. split; [apply Z.mod_pos_bound; lia|].
  Z.div_mod_to_equations; lia.
Qed.

(** [sched_pick]: the first runnable task from [g_rr] on; without one, a
    task that is neither empty nor a zombie, or the current one. *)
Lemma wp_sched_pick s (Q : Z -> sched -> Prop) :
  lenZ (g_tasks s) = 8 -> 0 <= g_rr s < 8 ->
  (forall d, 0 <= d < 8 -> runnable s (slot s d) ->
     (forall e, 0 <= e < d -> ~ runnable s (slot s e)) ->
     Q (slot s d) (set_g_rr ((slot s d + 1) mod 8) s)) ->
  ((forall i, 0 <= i < 8 -> ~ runnable s i) ->
     forall i, (0 <= i < 8 /\ st s i <> S_EMPTY /\ st s i <> S_ZOMBIE) \/
       (i = g_cur s /\ forall j, 0 <= j < 8 -> st s j = S_EMPTY \/ st s j = S_ZOMBIE) -> Q i s) ->
  wp sched_pick Q s.
Proof.
  intros Hl Hrr Hyes Hno. unfold sched_pick. wp_step.
  apply (wp_for (fun d _ s' => s' = s /\ forall e, 0 <= e < d -> ~ runnable s (slot s e))).
  - split; [done | lia].
  - intros d [] s' Hd [-> Hnone]. change (0 + Z.of_nat _) with 8 in Hd. wp_steps.
    change SCHED_MAX_TASKS with 8. fold (slot s d). pose proof (slot_range s d).
    apply wp_task_at; [lia|]. fold (st s (slot s d)).
    destruct (Z.eqb_spec (st s (slot s d)) S_RUNNABLE) as [He|Hne]; wp_steps.
    + by apply Hyes.
    + split; [done|]. intros e He. destruct (decide (e = d)) as [->|]; [done | apply Hnone; lia].
  - intros [] s' [-> Hnone]. change (0 + Z.of_nat _) with 8 in Hnone.
    assert (Hall : forall i, 0 <= i < 8 -> ~ runnable s i).
    { intros i Hi. destruct (slot_cover s i Hrr Hi) as (d & Hd & <-). by apply Hnone. }
    wp_step.
    apply (wp_for (fun d _ s' => s' = s /\ forall e, 0 <= e < d ->
      st s (slot s e) = S_EMPTY \/ st s (slot s e) = S_ZOMBIE)).
    + split; [done | lia].
    + intros d [] s' Hd [-> Hdead]. change (0 + Z.of_nat _) with 8 in Hd. wp_steps.
      change SCHED_MAX_TASKS with 8. fold (slot s d). pose proof (slot_range s d).
      apply wp_task_at; [lia|]. fold (st s (slot s d)).
      destruct (Z.eqb_spec (st s (slot s d)) S_EMPTY), (Z.eqb_spec (st s (slot s d)) S_ZOMBIE);
        simpl; wp_steps.
      4: apply Hno; auto.
      all: split; [done|]; intros e' He'; destruct (decide (e' = d)) as [->|];
        [by auto | apply Hdead; lia].
    + intros [] s' [-> Hdead]. change (0 + Z.of_nat _) with 8 in Hdead. wp_steps.
      apply Hno; [done|]. right. split; [done|]. intros j Hj.
      destruct (slot_cover s j Hrr Hj) as (d & Hd & <-). by apply Hdead.
Qed.

(** The state [switch_to i] leaves. *)
Definition switched (i : Z) s : sched :=
  set_g_cur i (set_next_esp (saved_esp (task s i))
    (set_esp0 (if kstack_top (task s i) =? 0 then tss_esp0 s else kstack_top (task s i))
      (upd i (set_state S_RUNNING) s))).

Lemma wp_switch_to s i (Q : unit -> sched -> Prop) :
  0 <= i < lenZ (g_tasks s) -> Q tt (switched i s) -> wp (switch_to i) Q s.
Proof.
  intros Hi HQ. unfold switch_to. wp_step. apply wp_task_upd; [done|]. wp_step.
  apply wp_task_at; [by autorewrite with arr|]. rewrite task_upd_eq, Z.eqb_refl by lia.
  change (kstack_top (set_state S_RUNNING (task s i))) with (kstack_top (task s i)).
  change (saved_esp (set_state S_RUNNING (task s i))) with (saved_esp (task s i)).
  unfold switched in HQ. wp_step.
  destruct (kstack_top (task s i) =? 0); simpl; unfold tss_set_kernel_esp0; by wp_steps.
Qed.

(** Changing the tasks: what is left to prove of the invariant. *)
Lemma switch_inv s s1 i :
  sched_inv s -> lenZ (g_tasks s1) = 8 -> 0 <= i < 8 -> 0 <= g_rr s1 < 8 -> g_enabled s1 <> 0 ->
  (forall j, 0 <= j < 8 -> st s1 j <> S_RUNNING \/ j = i) -> 
  (forall j, 0 <= j < 8 -> 0 <= st s1 j <= 3) ->
  (st s1 0 = S_RUNNABLE \/ i = 0) ->
  (forall j, 1 <= j < 8 -> st s1 j <> S_EMPTY \/ j = i -> kstack_top (task s1 j) = kstack_of j) ->
  g_kstacks s1 = g_kstacks s -> sched_inv (switched i s1).
Proof.
  intros Hs Hl Hi Hrr Hen Hrun Hst H0 Hks Hk.
  assert (Hsw : forall j, 0 <= j -> st (switched i s1) j = if i =? j then S_RUNNING else st s1 j).
  { intros j Hj. unfold st at 1, switched. change (task (set_g_cur ?a (set_next_esp ?b (set_esp0 ?c ?d))) j)
      with (task d j). rewrite task_upd_eq by lia. by destruct (i =? j). }
  split; try done.
  - change (lenZ (g_tasks (upd i (set_state S_RUNNING) s1)) = 8). by rewrite lenZ_upd.
  - intros j Hj. rewrite Hsw by lia. destruct (Z.eqb_spec i j) as [->|]; [done|].
    destruct (Hrun j Hj); [|done]. split; [done | intros He; simpl in He; congruence].
  - intros j Hj. rewrite Hsw by lia. destruct (i =? j); [unfold S_RUNNING; lia | by apply Hst].
  - rewrite Hsw by lia. destruct (Z.eqb_spec i 0); [by left|]. destruct H0; [by right | lia].
  - intros j Hj Hne. change (task (switched i s1) j) with (task (upd i (set_state S_RUNNING) s1) j).
    rewrite task_upd_eq by lia. rewrite Hsw in Hne by lia.
    destruct (Z.eqb_spec i j) as [->|]; [simpl; apply Hks; auto | apply Hks; auto].
  - change (g_kstacks (switched i s1)) with (g_kstacks s1). rewrite Hk. apply Hs.
Qed.
End Invariant.

(** * The operations under the invariant *)

(** The number of slots of a modified state. *)
Ltac len_tasks :=
  repeat progress (cbn [g_tasks set_g_rr]; rewrite ?lenZ_upd); lia.

Section Steps.
Context {layout : SchedLayout}.
Implicit Types s : sched.

(** [d] is the distance from [g_rr] to the first runnable task. *)
Definition first_runnable s (d : Z) : Prop :=
  0 <= d < 8 /\ runnable s (slot s d) /\ forall e, 0 <= e < d -> ~ runnable s (slot s e).

(** The current task is preempted by the task in slot [i]. *)
Definition preempted (i : Z) s : sched :=
  switched i (upd (g_cur s) (set_state S_RUNNABLE)
    (set_g_rr ((i + 1) mod 8) (upd (g_cur s) (set_saved_esp (sched_cur_esp s)) s))).

(** The current task leaves for the task in slot [i]. *)
Definition exited (i : Z) s : sched :=
  set_force_switch 1 (switched i
    (set_g_rr ((i + 1) mod 8) (upd (g_cur s) (set_state S_ZOMBIE) s))).

Lemma st_upd s i j f : 0 <= i < lenZ (g_tasks s) -> 0 <= j ->
  st (upd i f s) j = if i =? j then state (f (task s i)) else st s j.
Proof. intros Hi Hj. unfold st. rewrite task_upd_eq by done. by destruct (i =? j). Qed.

Lemma runnable_not_cur s i : sched_inv s -> 0 <= i < 8 -> runnable s i -> i <> g_cur s.
Proof.
  intros Hs Hi Hr ->. pose proof (proj2 (si_running s Hs _ Hi) eq_refl) as He.
  unfold runnable in Hr. rewrite He in Hr. done.
Qed.

(** Without a runnable task, a live one is the current one. *)
Lemma live_is_cur s i : sched_inv s -> (forall j, 0 <= j < 8 -> ~ runnable s j) ->
  0 <= i < 8 -> st s i <> S_EMPTY -> st s i <> S_ZOMBIE -> i = g_cur s.
Proof.
  intros Hs Hno Hi He Hz. apply (si_running s Hs); [done|].
  pose proof (si_states s Hs i Hi). specialize (Hno i Hi).
  unfold runnable, S_EMPTY, S_RUNNABLE, S_RUNNING, S_ZOMBIE in *. lia.
Qed.

Lemma wp_sched_tick s (Q : unit -> sched -> Prop) :
  sched_inv s ->
  ((forall i, 0 <= i < 8 -> ~ runnable s i) ->
     Q tt (set_next_esp (sched_cur_esp s) (upd (g_cur s) (set_saved_esp (sched_cur_esp s)) s))) ->
  (forall d, first_runnable s d -> Q tt (preempted (slot s d) s)) ->
  wp sched_tick Q s.
Proof.
  intros Hs Hstay Hgo. pose proof (si_len s Hs) as Hl. pose proof (si_cur s Hs) as Hc.
  pose proof (si_rr s Hs) as Hr. pose proof (proj2 (si_running s Hs _ Hc) eq_refl) as Hrun.
  unfold sched_tick. wp_step. wp_step. wp_step. wp_step.
  destruct (Z.eqb_spec (g_enabled s) 0) as [H0|_]; [by case (si_enabled s Hs)|].
  wp_step. wp_step. wp_step. apply wp_task_upd; [lia|].
  set (s1 := upd (g_cur s) (set_saved_esp (sched_cur_esp s)) s).
  assert (Hl1 : lenZ (g_tasks s1) = 8) by (subst s1; by autorewrite with arr).
  assert (Hst : forall j, 0 <= j -> st s1 j = st s j).
  { intros j Hj. subst s1. rewrite st_upd by lia. destruct (Z.eqb_spec (g_cur s) j) as [<-|]; done. }
  assert (Hslot : forall d, slot s1 d = slot s d) by done.
  wp_step. apply wp_sched_pick; [done | done | |].
  - intros d Hd Hrd Hfirst. rewrite Hslot in *. pose proof (slot_range s d) as Hi.
    assert (Hfr : first_runnable s d).
    { split; [done|]. unfold runnable in *. rewrite Hst in Hrd by lia. split; [done|].
      intros e He Hre. apply (Hfirst e He). rewrite Hslot. pose proof (slot_range s e).
      rewrite Hst by lia. done. }
    wp_step. apply wp_task_at; [len_tasks|].
    change (task (set_g_rr ?r s1) (g_cur s)) with (task s1 (g_cur s)).
    fold (st s1 (g_cur s)). rewrite Hst, Hrun by lia.
    pose proof (runnable_not_cur s _ Hs Hi (proj1 (proj2 Hfr))).
    destruct (Z.eqb_spec (slot s d) (g_cur s)); [done|]. simpl. wp_step.
    apply wp_task_upd; [len_tasks|]. apply wp_switch_to.
    + len_tasks.
    + by apply Hgo.
  - intros Hno i Hi. assert (Hno' : forall j, 0 <= j < 8 -> ~ runnable s j).
    { intros j Hj Hrj. apply (Hno j Hj). unfold runnable. rewrite Hst by lia. done. }
    assert (i = g_cur s) as ->.
    { destruct Hi as [(Hi & He & Hz)|[Hi _]]; [|done]. rewrite Hst in He, Hz by lia.
      by apply live_is_cur. }
    wp_step. apply wp_task_at; [lia|]. fold (st s1 (g_cur s)). rewrite Hst, Hrun, Z.eqb_refl by lia.
    simpl. wp_step. replace (saved_esp (task s1 (g_cur s))) with (sched_cur_esp s); [by apply Hstay|].
    subst s1. rewrite task_upd_eq, Z.eqb_refl by lia. done.
Qed.

Lemma wp_sched_yield s (Q : unit -> sched -> Prop) :
  sched_inv s ->
  ((forall i, 0 <= i < 8 -> ~ runnable s i) -> Q tt s) ->
  (forall d, first_runnable s d -> Q tt (set_force_switch 1 (switched (slot s d)
     (upd (g_cur s) (set_state S_RUNNABLE) (upd (g_cur s) (set_saved_esp (sched_cur_esp s))
       (set_g_rr ((slot s d + 1) mod 8) s)))))) ->
  wp sched_yield Q s.
Proof.
  intros Hs Hstay Hgo. pose proof (si_len s Hs) as Hl. pose proof (si_cur s Hs) as Hc.
  pose proof (si_rr s Hs) as Hr. unfold sched_yield. wp_step. wp_step.
  destruct (Z.eqb_spec (g_enabled s) 0) as [H0|_]; [by case (si_enabled s Hs)|].
  wp_step. apply wp_sched_pick; [done | done | |].
  - intros d Hd Hrd Hfirst. pose proof (slot_range s d) as Hi.
    pose proof (runnable_not_cur s _ Hs Hi Hrd). wp_step. wp_step.
    change (g_cur (set_g_rr ?r s)) with (g_cur s).
    destruct (Z.eqb_spec (slot s d) (g_cur s)); [done|].
    wp_step. wp_step. wp_step. apply wp_task_upd; [len_tasks|]. wp_step.
    apply wp_task_upd; [len_tasks|]. wp_step.
    apply wp_switch_to; [len_tasks|]. wp_step. by apply Hgo.
  - intros Hno i Hi. assert (i = g_cur s) as ->.
    { destruct Hi as [(Hi & He & Hz)|[Hi _]]; [by apply live_is_cur | done]. }
    wp_step. wp_step. rewrite Z.eqb_refl. wp_step. by apply Hstay.
Qed.

Lemma wp_sched_exit s status (Q : unit -> sched -> Prop) :
  sched_inv s -> g_cur s <> 0 ->
  (forall d, first_runnable s d -> Q tt (exited (slot s d) s)) ->
  wp (sched_exit status) Q s.
Proof.
  intros Hs Hc0 Hgo. pose proof (si_len s Hs) as Hl. pose proof (si_cur s Hs) as Hc.
  pose proof (si_rr s Hs) as Hr. unfold sched_exit. wp_step. wp_step.
  destruct (Z.eqb_spec (g_enabled s) 0) as [H0|_]; [by case (si_enabled s Hs)|].
  wp_step. wp_step. wp_step. apply wp_task_upd; [lia|].
  set (s1 := upd (g_cur s) (set_state S_ZOMBIE) s).
  assert (Hl1 : lenZ (g_tasks s1) = 8) by (subst s1; by autorewrite with arr).
  assert (Hrn : forall j, 0 <= j < 8 -> runnable s1 j <-> runnable s j).
  { intros j Hj. unfold runnable. subst s1. rewrite st_upd by lia.
    destruct (Z.eqb_spec (g_cur s) j) as [<-|]; [|done]. simpl.
    rewrite (proj2 (si_running s Hs _ Hc) eq_refl). done. }
  wp_step. apply wp_sched_pick; [done | done | |].
  - intros d Hd Hrd Hfirst. change (slot s1 d) with (slot s d) in *. pose proof (slot_range s d) as Hi.
    rewrite Hrn in Hrd by done. pose proof (runnable_not_cur s _ Hs Hi Hrd).
    destruct (Z.eqb_spec (slot s d) (g_cur s)); [done|].
    wp_step. apply wp_switch_to; [len_tasks|]. wp_step. apply Hgo.
    split; [done|]. split; [done|]. intros e He Hre. apply (Hfirst e He).
    change (slot s1 e) with (slot s e). apply Hrn; [apply slot_range | done].
  - intros Hno i Hi. exfalso.
    (* the kernel task is runnable, since it is live and not the current one *)
    assert (Hk : runnable s 0).
    { destruct (si_kernel s Hs) as [Hk|Hk]; [|done]. apply (si_running s Hs) in Hk; lia. }
    apply (Hno 0); [lia|]. by apply Hrn.
Qed.

(** ** Preservation *)

Lemma preempted_inv s d : sched_inv s -> first_runnable s d -> sched_inv (preempted (slot s d) s).
Proof.
  intros Hs (Hd & Hrd & _). pose proof (slot_range s d) as Hi. pose proof (si_cur s Hs) as Hc.
  pose proof (si_len s Hs) as Hl. set (i := slot s d) in *.
  pose proof (runnable_not_cur s i Hs Hi Hrd) as Hne. unfold preempted.
  set (s1 := upd (g_cur s) _ (set_g_rr _ _)).
  assert (Hst : forall j, 0 <= j -> st s1 j = if g_cur s =? j then S_RUNNABLE else st s j).
  { intros j Hj. subst s1. rewrite st_upd by len_tasks.
    destruct (Z.eqb_spec (g_cur s) j); [done|].
    change (st (set_g_rr ?r ?x) j) with (st x j). rewrite st_upd by lia.
    by destruct (Z.eqb_spec (g_cur s) j). }
  assert (Hks : forall j, 0 <= j -> kstack_top (task s1 j) = kstack_top (task s j)).
  { intros j Hj. subst s1. rewrite task_upd_eq by len_tasks.
    change (task (set_g_rr ?r ?x) ?k) with (task x k). rewrite !task_upd_eq by lia. rewrite Z.eqb_refl.
    destruct (Z.eqb_spec (g_cur s) j) as [<-|]; done. }
  apply (switch_inv s); try done.
  - subst s1. len_tasks.
  - simpl. apply Z.mod_pos_bound. lia.
  - apply Hs.
  - intros j Hj. rewrite Hst by lia. destruct (Z.eqb_spec (g_cur s) j) as [<-|Hnj]; [by left|].
    left. intros Hr. apply (si_running s Hs) in Hr; [congruence | done].
  - intros j Hj. rewrite Hst by lia. destruct (_ =? _); [unfold S_RUNNABLE; lia | by apply (si_states s Hs)].
  - rewrite Hst by lia. destruct (Z.eqb_spec (g_cur s) 0); [by left|].
    destruct (si_kernel s Hs) as [Hk|Hk]; [|by left]. apply (si_running s Hs) in Hk; lia.
  - intros j Hj Hor. rewrite Hks by lia. apply (si_stack s Hs); [done|].
    destruct Hor as [Hne'| ->].
    + rewrite Hst in Hne' by lia. destruct (Z.eqb_spec (g_cur s) j) as [<-|]; [|done].
      rewrite (proj2 (si_running s Hs _ Hc) eq_refl). done.
    + unfold runnable in Hrd. rewrite Hrd. done.
Qed.

Lemma exited_inv s d : sched_inv s -> g_cur s <> 0 -> first_runnable s d ->
  sched_inv (exited (slot s d) s).
Proof.
  intros Hs Hc0 (Hd & Hrd & _). pose proof (slot_range s d) as Hi. pose proof (si_cur s Hs) as Hc.
  pose proof (si_len s Hs) as Hl. set (i := slot s d) in *.
  pose proof (runnable_not_cur s i Hs Hi Hrd) as Hne. unfold exited.
  set (s1 := set_g_rr _ (upd _ _ _)).
  assert (Hst : forall j, 0 <= j -> st s1 j = if g_cur s =? j then S_ZOMBIE else st s j).
  { intros j Hj. subst s1. change (st (set_g_rr ?r ?x) j) with (st x j). rewrite st_upd by lia.
    by destruct (Z.eqb_spec (g_cur s) j). }
  assert (Hks : forall j, 0 <= j -> kstack_top (task s1 j) = kstack_top (task s j)).
  { intros j Hj. subst s1. change (task (set_g_rr ?r ?x) ?k) with (task x k).
    rewrite task_upd_eq by lia. destruct (Z.eqb_spec (g_cur s) j) as [<-|]; done. }
  assert (Hsw : sched_inv (switched i s1)).
  { apply (switch_inv s); try done.
    - subst s1. len_tasks.
    - simpl. apply Z.mod_pos_bound. lia.
    - apply Hs.
    - intros j Hj. rewrite Hst by lia. destruct (Z.eqb_spec (g_cur s) j) as [<-|Hnj]; [by left|].
      left. intros Hr. apply (si_running s Hs) in Hr; [congruence | done].
    - intros j Hj. rewrite Hst by lia. destruct (_ =? _); [unfold S_ZOMBIE; lia | by apply (si_states s Hs)].
    - rewrite Hst by lia. destruct (Z.eqb_spec (g_cur s) 0); [done|].
      destruct (si_kernel s Hs) as [Hk|Hk]; [|by left]. apply (si_running s Hs) in Hk; lia.
    - intros j Hj Hor. rewrite Hks by lia. apply (si_stack s Hs); [done|].
      destruct Hor as [Hne'| ->].
      + rewrite Hst in Hne' by lia. destruct (Z.eqb_spec (g_cur s) j) as [<-|]; [|done].
        rewrite (proj2 (si_running s Hs _ Hc) eq_refl). done.
      + unfold runnable in Hrd. rewrite Hrd. done. }
  destruct Hsw. by split.
Qed.
End Steps.

(** * Adding a task *)

Section Add.
Context {layout : SchedLayout}.
Implicit Types s : sched.

Definition kstack s (i : Z) : list Z := default [] (g_kstacks s !! Z.to_nat i).
Definition kset (i : Z) (k : list Z) s : sched :=
  set_g_kstacks (<[Z.to_nat i := k]> (g_kstacks s)) s.

Definition kstacks_ok s : Prop :=
  length (g_kstacks s) = 8%nat /\ Forall (fun k => lenZ k = 1024) (g_kstacks s).

Lemma kstack_len s i : kstacks_ok s -> 0 <= i < 8 -> lenZ (kstack s i) = 1024.
Proof.
  intros [Hl Hf] Hi. unfold kstack.
  destruct (lookup_lt_is_Some_2 (g_kstacks s) (Z.to_nat i)) as [k Hk]; [lia|]. rewrite Hk. simpl.
  rewrite Forall_lookup in Hf. by apply (Hf (Z.to_nat i)).
Qed.

Lemma kset_ok s i k : kstacks_ok s -> lenZ k = 1024 -> kstacks_ok (kset i k s).
Proof.
  intros [Hl Hf] Hk. split; simpl; [by rewrite length_insert|].
  by apply Forall_insert.
Qed.

Lemma kstack_kset s i j k : kstacks_ok s -> 0 <= i < 8 -> 0 <= j ->
  kstack (kset i k s) j = if i =? j then k else kstack s j.
Proof.
  intros [Hl _] Hi Hj. unfold kstack, kset. simpl. destruct (Z.eqb_spec i j) as [<-|].
  - by rewrite list_lookup_insert_eq by lia.
  - by rewrite list_lookup_insert_ne by lia.
Qed.

Lemma kset_kset s i k l : kset i k (kset i l s) = kset i k s.
Proof. unfold kset, set_g_kstacks. simpl. by rewrite list_insert_insert_eq. Qed.

(** Word [j] of the initial frame of slot [i] is word [1005 + j] of its
    stack. *)
Lemma wp_kstack_store s i j v (Q : unit -> sched -> Prop) :
  kstacks_ok s -> 0 <= i < 8 -> 0 <= j < 19 ->
  Q tt (kset i (wr (kstack s i) (1005 + j) v) s) ->
  wp (kstack_store (kstack_of i - 76 + 4 * j) v) Q s.
Proof.
  intros Hk Hi Hj HQ. pose proof (kstack_len s i Hk Hi) as Hlen. unfold kstack_store, kstack_of.
  replace (kstacks_addr + (i + 1) * 4096 - 76 + 4 * j - kstacks_addr) with (i * 4096 + (4020 + 4 * j)) by lia.
  cbv zeta. wp_step. wp_step. rewrite decide_True by lia. unfold SCHED_KSTACK_SIZE.
  replace ((i * 4096 + (4020 + 4 * j)) / 4096) with i by (Z.div_mod_to_equations; lia).
  replace ((i * 4096 + (4020 + 4 * j)) mod 4096 / 4) with (1005 + j) by (Z.div_mod_to_equations; lia).
  unfold kset, kstack in *. destruct (g_kstacks s !! Z.to_nat i) as [k|] eqn:Hki; simpl in *.
  - wp_step. apply wp_aset; [lia|]. by wp_step.
  - apply lookup_ge_None_1 in Hki. destruct Hk. lia.
Qed.

(** The frame [irq_common_stub] resumes from, lowest word first. *)
Definition initial_frame (ent uesp : Z) : list Z :=
  [GDT_SEL_USER_DATA; GDT_SEL_USER_DATA; GDT_SEL_USER_DATA; GDT_SEL_USER_DATA;
   0; 0; 0; uesp; 0; 0; 0; 0; 0; 0;
   ent; GDT_SEL_USER_CODE; 0x202; uesp; GDT_SEL_USER_DATA].

Lemma kstack_range i : 0 <= i < 8 -> 76 < kstack_of i < 4294967296 /\
  u32 (kstack_of i - 76) = kstack_of i - 76 /\ u32 (kstacks_addr + i * 4096) = kstack_of i - 4096 /\
  u32 (kstack_of i - 4096 + 4096) = kstack_of i.
Proof.
  intros Hi. unfold kstack_of. pose proof kstacks_range. rewrite !u32_small by lia. lia.
Qed.

Lemma wp_build_frame s i (Q : unit -> sched -> Prop) :
  0 <= i < lenZ (g_tasks s) -> i < 8 -> kstacks_ok s -> kstack_top (task s i) = kstack_of i ->
  (forall k, lenZ k = 1024 ->
     (forall j, 0 <= j < 19 -> rd k (1005 + j) = rd (initial_frame (entry (task s i)) (user_esp (task s i))) j) ->
     Q tt (upd i (set_saved_esp (kstack_of i - 76)) (kset i k s))) ->
  wp (sched_build_initial_frame i) Q s.
Proof.
  intros Hi Hi8 Hk Htop HQ. unfold sched_build_initial_frame. wp_step. apply wp_task_at; [done|].
  rewrite Htop. unfold sizeof_regs_t. destruct (kstack_range i ltac:(lia)) as (_ & Hfr & _ & _).
  rewrite Hfr. cbv zeta. apply wp_bind, wp_locals.
  apply (wp_for (fun n _ s' => exists k, s' = kset i k s /\ lenZ k = 1024 /\
    forall j, 0 <= j < n -> rd k (1005 + j) = 0)).
  { exists (kstack s i). split; [|split; [by apply kstack_len; [|lia] | lia]].
    unfold kset, kstack. destruct (g_kstacks s !! Z.to_nat i) as [k|] eqn:Hki.
    - simpl. rewrite list_insert_id by done. by destruct s.
    - apply lookup_ge_None_1 in Hki. destruct Hk. lia. }
  { intros n [] s' Hn (k & -> & Hlk & Hz). change (0 + Z.of_nat _) with 19 in Hn. wp_step.
    apply wp_kstack_store; [by apply kset_ok | lia | lia |].
    rewrite kset_kset, kstack_kset, Z.eqb_refl by (done || lia). wp_step.
    eexists. split; [done|]. split; [by rewrite lenZ_wr|]. intros j Hj. rewrite rd_wr by lia.
    destruct (Z.eqb_spec (1005 + n) (1005 + j)); [done | apply Hz; lia]. }
  intros [] s' (k & -> & Hlk & Hz). change (0 + Z.of_nat _) with 19 in Hz.
  set (base := kstack_of i - 76).
  assert (Hst : forall j v k' (R : unit -> sched -> Prop), 0 <= j < 19 -> lenZ k' = 1024 ->
    R tt (kset i (wr k' (1005 + j) v) s) -> wp (kstack_store (base + 4 * j) v) R (kset i k' s)).
  { intros j v k' R Hj Hl' HR. apply wp_kstack_store; [by apply kset_ok | lia | lia |].
    by rewrite kset_kset, kstack_kset, Z.eqb_refl by (done || lia). }
  apply wp_bind, (Hst 3); [lia | done |]. apply wp_bind, (Hst 2); [lia | by autorewrite with arr |].
  apply wp_bind, (Hst 1); [lia | by autorewrite with arr |].
  apply wp_bind. replace (kstack_store base) with (kstack_store (base + 4 * 0)) by (f_equal; lia).
  apply (Hst 0); [lia | by autorewrite with arr |].
  apply wp_bind, (Hst 14); [lia | by autorewrite with arr |].
  apply wp_bind, (Hst 15); [lia | by autorewrite with arr |].
  apply wp_bind, (Hst 16); [lia | by autorewrite with arr |].
  apply wp_bind, (Hst 17); [lia | by autorewrite with arr |].
  apply wp_bind, (Hst 18); [lia | by autorewrite with arr |].
  apply wp_bind, (Hst 7); [lia | by autorewrite with arr |].
  apply wp_task_upd; [done|]. apply HQ; [by autorewrite with arr|].
  intros j Hj. rewrite !rd_wr by (autorewrite with arr; lia). specialize (Hz j Hj).
  assert (Hc : j = 0 \/ j = 1 \/ j = 2 \/ j = 3 \/ j = 4 \/ j = 5 \/ j = 6 \/ j = 7 \/ j = 8 \/ j = 9 \/
    j = 10 \/ j = 11 \/ j = 12 \/ j = 13 \/ j = 14 \/ j = 15 \/ j = 16 \/ j = 17 \/ j = 18) by lia.
  repeat destruct Hc as [-> | Hc]; [done..|]. subst j. done.
Qed.
End Add.

Section AddWp.
Context {layout : SchedLayout}.
Implicit Types s : sched.

Definition free_slot s (i : Z) : Prop := st s i = S_EMPTY \/ st s i = S_ZOMBIE.

(** What [sched_add] does to slot [i]. *)
Record added s (i : Z) (nm : list Z) (ent uesp : Z) s' : Prop := {
  ad_len : lenZ (g_tasks s') = lenZ (g_tasks s);
  ad_task : pid (task s' i) = g_next_pid s /\ st s' i = S_RUNNABLE /\
    kstack_top (task s' i) = kstack_of i /\ entry (task s' i) = ent /\ user_esp (task s' i) = uesp /\
    saved_esp (task s' i) = kstack_of i - 76;
  ad_name : lenZ (name (task s' i)) = 16 /\ cstr (name (task s' i)) = take 15 (cstr nm);
  ad_other : forall j, 0 <= j -> j <> i -> task s' j = task s j;
  ad_frame : forall j, 0 <= j < 19 -> rd (kstack s' i) (1005 + j) = rd (initial_frame ent uesp) j;
  ad_kstacks : kstacks_ok s';
  ad_kother : forall j, 0 <= j -> j <> i -> kstack s' j = kstack s j;
  ad_globals : g_cur s' = g_cur s /\ g_rr s' = g_rr s /\ g_enabled s' = g_enabled s /\
    g_next_pid s' = u32 (g_next_pid s + 1)
}.

(** A name of up to 15 characters and its terminator in a zeroed array. *)
Lemma task_name (nm r : list Z) : terminated nm -> lenZ r = 16 ->
  (forall j, 0 <= j < 16 ->
    rd r j = if j <? 15 then if j <? lenZ (cstr nm) then rd nm j else 0 else 0) ->
  cstr (wr r 15 0) = take 15 (cstr nm).
Proof.
  intros Ht Hl Hr. pose proof (lenZ_nonneg (cstr nm)).
  assert (Hlen : lenZ (take 15 (cstr nm)) = Z.min 15 (lenZ (cstr nm)))
    by (unfold lenZ; rewrite length_take; lia).
  apply cstr_unique; rewrite ?lenZ_wr, ?Hlen; [lia | |].
  - intros i Hi. change 15%nat with (Z.to_nat 15). rewrite rd_take, rd_cstr by lia.
    rewrite rd_wr, Hr by lia. split; [case_range; lia || done|]. apply cstr_nonzero; lia.
  - rewrite rd_wr, Hr by lia. case_range; try lia; done.
Qed.

Lemma wp_sched_add s nm ent uesp (Q : Z -> sched -> Prop) :
  lenZ (g_tasks s) = 8 -> kstacks_ok s -> terminated nm ->
  ((forall i, 0 <= i < 8 -> ~ free_slot s i) -> Q (-1) s) ->
  (forall i s', 0 <= i < 8 -> free_slot s i -> (forall j, 0 <= j < i -> ~ free_slot s j) ->
     added s i nm ent uesp s' -> Q (s32 (g_next_pid s)) s') ->
  wp (sched_add nm ent uesp) Q s.
Proof.
  intros Hl Hk Ht Hno Hyes. unfold sched_add. apply wp_bind.
  assert (Hfs : forall i, (state (task s i) =? S_EMPTY) || (state (task s i) =? S_ZOMBIE) = true <-> free_slot s i).
  { intros i. unfold free_slot, st. rewrite orb_true_iff, !Z.eqb_eq. done. }
  apply (wp_for (fun i r s' => s' = s /\ r = -1 /\ forall j, 0 <= j < i -> ~ free_slot s j)).
  { split; [done|]. split; [done | lia]. }
  2:{ intros r s' (-> & -> & Hnone). change (0 + Z.of_nat _) with 8 in Hnone. change (-1 <? 0) with true. cbv iota. wp_step. by apply Hno. }
  intros i r s' Hi (-> & -> & Hnone). change (0 + Z.of_nat _) with 8 in Hi. wp_step.
  apply wp_task_at; [lia|]. specialize (Hfs i). destruct (_ || _).
  2:{ wp_step. split; [done|]. split; [done|]. intros j Hj. destruct (decide (j = i)) as [->|]; [|apply Hnone; lia].
      intros Hf. by apply Hfs in Hf. }
  assert (Hfree : free_slot s i) by (by apply Hfs). clear Hfs. wp_step.
  destruct (Z.ltb_spec i 0); [lia|].
  apply wp_bind, wp_task_upd; [lia|]. wp_step. wp_step. wp_step. wp_step. wp_step.
  set (s1 := set_g_next_pid _ _). assert (Hl1 : lenZ (g_tasks s1) = 8)
    by (change (lenZ (g_tasks (upd i (fun _ => task0) s)) = 8); by rewrite lenZ_upd).
  assert (Ht1 : forall j, 0 <= j -> task s1 j = if i =? j then task0 else task s j)
    by (intros j Hj; apply task_upd_eq; lia).
  apply wp_task_upd; [lia|]. wp_step. apply wp_task_at; [len_tasks|].
  rewrite task_upd_eq, Z.eqb_refl, Ht1, Z.eqb_refl by lia. change (name (set_pid _ task0)) with (replicate 16 0).
  wp_step. apply wp_strncpy; [split; [lia | rewrite lenZ_replicate; lia] | done|].
  intros buf Hlb Hbuf. rewrite lenZ_replicate in Hlb, Hbuf. wp_step. apply wp_aset; [lia|].
  assert (Hname : cstr (wr buf 15 0) = take 15 (cstr nm)).
  { apply task_name; [done | done |]. intros j Hj. rewrite Hbuf by lia. rewrite rd_replicate by lia. done. }
  destruct (kstack_range i ltac:(lia)) as (_ & _ & Hbot & Htop).
  wp_step. apply wp_task_upd; [len_tasks|]. wp_step. apply wp_task_upd; [len_tasks|]. cbv zeta.
  unfold SCHED_KSTACK_SIZE. rewrite Hbot, Htop.
  wp_step. apply wp_task_upd; [len_tasks|]. wp_step. apply wp_task_upd; [len_tasks|].
  wp_step. apply wp_task_upd; [len_tasks|].
  set (s2 := upd i (set_user_esp uesp) _).
  assert (Hl2 : lenZ (g_tasks s2) = 8) by (subst s2; len_tasks).
  assert (Ht2 : task s2 i = mkTask (g_next_pid s) (wr buf 15 0) S_RUNNABLE 0 (kstack_of i) (kstack_of i - 4096) ent uesp).
  { subst s2. repeat (rewrite task_upd_eq, Z.eqb_refl by len_tasks). rewrite Ht1, Z.eqb_refl by lia. done. }
  assert (Ho2 : forall j, 0 <= j -> j <> i -> task s2 j = task s j).
  { intros j Hj Hne. subst s2. repeat (rewrite task_upd_eq by len_tasks;
      destruct (Z.eqb_spec i j); [lia|]). rewrite Ht1 by done. destruct (Z.eqb_spec i j); [lia | done]. }
  wp_step. apply wp_build_frame; [lia | lia | done | by rewrite Ht2 |]. rewrite Ht2. cbn [entry user_esp].
  intros k Hlk Hfr. wp_step.
  apply (Hyes i); [lia | done | done |].
  set (s3 := kset i k s2). assert (Hl3 : lenZ (g_tasks s3) = 8) by exact Hl2.
  assert (Ht3 : forall j, 0 <= j -> task (upd i (set_saved_esp (kstack_of i - 76)) s3) j =
    if i =? j then set_saved_esp (kstack_of i - 76) (task s2 i) else task s2 j)
    by (intros j Hj; by rewrite task_upd_eq by lia).
  split.
  - by rewrite lenZ_upd, Hl3.
  - unfold st. rewrite Ht3, Z.eqb_refl, Ht2 by lia. done.
  - rewrite Ht3, Z.eqb_refl, Ht2 by lia. simpl. rewrite lenZ_wr. done.
  - intros j Hj Hne. rewrite Ht3 by done. destruct (Z.eqb_spec i j); [lia | by apply Ho2].
  - intros j Hj. change (kstack (upd i ?f s3) i) with (kstack s3 i). subst s3.
    rewrite kstack_kset, Z.eqb_refl by (done || lia). by apply Hfr.
  - by apply (kset_ok s2 i k).
  - intros j Hj Hne. change (kstack (upd i ?f s3) j) with (kstack s3 j). subst s3.
    rewrite kstack_kset by (done || lia). destruct (Z.eqb_spec i j); [lia | done].
  - done.
Qed.

Lemma added_inv s i nm ent uesp s' : sched_inv s -> 0 <= i < 8 -> free_slot s i ->
  added s i nm ent uesp s' -> sched_inv s'.
Proof.
  intros Hs Hi Hfree [Hl (Hp & Hst & Htop & _) _ Ho _ Hk _ (Hc & Hr & He & _)].
  assert (Hsto : forall j, 0 <= j -> j <> i -> st s' j = st s j) by (intros; unfold st; by rewrite Ho).
  assert (Hnc : i <> g_cur s).
  { intros ->. pose proof (proj2 (si_running s Hs _ (si_cur s Hs)) eq_refl) as Hrun.
    unfold free_slot in Hfree. rewrite Hrun in Hfree. by destruct Hfree. }
  assert (Hi0 : i <> 0).
  { intros ->. unfold free_slot in Hfree. destruct (si_kernel s Hs) as [H0|H0]; rewrite H0 in Hfree;
      by destruct Hfree. }
  split; rewrite ?Hc, ?Hr, ?He; try apply Hs; try done.
  - rewrite Hl. apply Hs.
  - intros j Hj. destruct (decide (j = i)) as [->|].
    + rewrite Hst. split; [done | by intros ->].
    + rewrite Hsto by lia. by apply Hs.
  - intros j Hj. destruct (decide (j = i)) as [->|]; [rewrite Hst; unfold S_RUNNABLE; lia|].
    rewrite Hsto by lia. by apply Hs.
  - rewrite Hsto by lia. apply Hs.
  - intros j Hj Hne. destruct (decide (j = i)) as [->|]; [done|]. rewrite Ho by lia.
    apply (si_stack s Hs); [done|]. by rewrite <- Hsto by lia.
Qed.

Lemma kernel_name_copy :
  strcpy (replicate 16 0) kernel_name =@{M sched (list Z)} mret (kernel_name ++ replicate 9 0).
Proof. reflexivity. Qed.

Lemma wp_sched_init s (Q : Z -> sched -> Prop) :
  kstacks_ok s ->
  (forall s', sched_inv s' -> g_cur s' = 0 -> (forall i, 1 <= i < 8 -> st s' i = S_EMPTY) -> Q 0 s') ->
  wp sched_init Q s.
Proof.
  intros Hk HQ. unfold sched_init.
  wp_step. wp_step. set (s0 := set_g_tasks _ s). assert (Hl0 : lenZ (g_tasks s0) = 8) by done.
  assert (Ht0 : forall i, 0 <= i < 8 -> task s0 i = task0).
  { intros i Hi. unfold task. change (g_tasks s0) with (replicate 8 task0).
    rewrite lookup_replicate_2 by lia. done. }
  wp_step. apply wp_task_upd; [lia|]. wp_step. apply wp_task_at; [len_tasks|].
  rewrite task_upd_eq, Z.eqb_refl, Ht0 by lia. change (name (set_pid 0 task0)) with (replicate 16 0).
  wp_step. rewrite kernel_name_copy. wp_step.
  do 6 (wp_step; apply wp_task_upd; [len_tasks|]). unfold tss_set_kernel_esp0. repeat wp_step.
  match goal with |- Q 0 ?x => set (s' := x) end.
  set (s1 := upd 0 (set_user_esp 0) _) in s'.
  assert (Hts : forall i, 0 <= i < 8 -> task s' i =
    if i =? 0 then mkTask 0 (kernel_name ++ replicate 9 0) S_RUNNING 0 0 0 0 0 else task0).
  { intros i Hi. change (task s' i) with (task s1 i). subst s1.
    repeat (rewrite (task_upd_eq _ 0) by len_tasks). rewrite (Z.eqb_sym i 0), !Z.eqb_refl, !Ht0 by lia.
    by destruct (0 =? i). }
  assert (Hst : forall i, 0 <= i < 8 -> st s' i = if i =? 0 then S_RUNNING else S_EMPTY)
    by (intros i Hi; unfold st; rewrite Hts by done; by destruct (i =? 0)).
  assert (Hc : g_cur s' = 0) by done. assert (Hrr : g_rr s' = 1) by done.
  assert (Hen : g_enabled s' = 1) by done. assert (Hks : g_kstacks s' = g_kstacks s) by done.
  assert (Hl : lenZ (g_tasks s') = 8)
    by (change (lenZ (g_tasks s1) = 8); subst s1; len_tasks).
  clearbody s'.
  apply HQ; [|done|].
  - split; rewrite ?Hc, ?Hrr, ?Hen, ?Hks; try done.
    + intros i Hi. rewrite Hst by done. destruct (Z.eqb_spec i 0); [by subst|]. done.
    + intros i Hi. rewrite Hst by done. destruct (i =? 0); unfold S_RUNNING, S_EMPTY; lia.
    + left. by rewrite Hst.
    + intros i Hi Hne. rewrite Hst in Hne by lia. destruct (Z.eqb_spec i 0); [lia | done].
  - intros i Hi. rewrite Hst by lia. destruct (Z.eqb_spec i 0); [lia | done].
Qed.
End AddWp.

(** * Events

    What reaches the scheduler: the timer interrupt, the system calls and a
    fault of a ring-3 task, each with the stack pointer the stub saved, and
    the creation of a task.  Only ring-3 tasks exit, so the kernel task of slot
    0 never does. *)

Inductive sched_event : Type :=
  | EvTick (esp : Z)
  | EvYield (esp : Z)
  | EvExit (esp status : Z)
  | EvAdd (nm : list Z) (ent uesp : Z).

Section Events.
Context {layout : SchedLayout}.
Implicit Types s : sched.

Definition run_event (e : sched_event) : M sched unit :=
  match e with
  | EvTick esp => modify (set_cur_esp esp);; timer_int
  | EvYield esp => modify (set_cur_esp esp);; sched_yield
  | EvExit esp status => modify (set_cur_esp esp);; sched_exit status
  | EvAdd nm ent uesp => sched_add nm ent uesp;; mret tt
  end.

Definition enabled s (e : sched_event) : Prop :=
  match e with
  | EvExit _ _ => g_cur s <> 0
  | EvAdd nm _ _ => terminated nm
  | _ => True
  end.

Definition sched_step s (e : sched_event) s' : Prop := enabled s e /\ run_event e s = Ok tt s'.

Lemma set_cur_esp_inv s esp : sched_inv s -> sched_inv (set_cur_esp esp s).
Proof. intros []. by split. Qed.
Lemma set_ticks_inv s t : sched_inv s -> sched_inv (set_ticks t s).
Proof. intros []. by split. Qed.
Lemma set_force_switch_inv s v : sched_inv s -> sched_inv (set_force_switch v s).
Proof. intros []. by split. Qed.

Lemma first_runnable_ext s s' d : g_tasks s' = g_tasks s -> g_rr s' = g_rr s ->
  first_runnable s' d -> first_runnable s d.
Proof. unfold first_runnable, runnable, slot, st, task. intros -> ->. done. Qed.

(** [sched_tick] keeps the current task when no other is runnable. *)
Lemma stay_inv s : sched_inv s ->
  sched_inv (set_next_esp (sched_cur_esp s) (upd (g_cur s) (set_saved_esp (sched_cur_esp s)) s)).
Proof.
  intros Hs. pose proof (si_len s Hs) as Hl. pose proof (si_cur s Hs) as Hc.
  set (s' := set_next_esp _ _).
  assert (Hst : forall j, 0 <= j -> st s' j = st s j).
  { intros j Hj. change (st s' j) with (st (upd (g_cur s) (set_saved_esp (sched_cur_esp s)) s) j).
    rewrite st_upd by lia. by destruct (Z.eqb_spec (g_cur s) j) as [<-|]. }
  assert (Hks : forall j, 0 <= j -> kstack_top (task s' j) = kstack_top (task s j)).
  { intros j Hj. change (task s' j) with (task (upd (g_cur s) (set_saved_esp (sched_cur_esp s)) s) j).
    rewrite task_upd_eq by lia. by destruct (Z.eqb_spec (g_cur s) j) as [<-|]. }
  split; try apply Hs.
  - change (lenZ (g_tasks (upd (g_cur s) (set_saved_esp (sched_cur_esp s)) s)) = 8). by rewrite lenZ_upd.
  - intros i Hi. rewrite Hst by lia. by apply Hs.
  - intros i Hi. rewrite Hst by lia. by apply Hs.
  - rewrite Hst by lia. apply Hs.
  - intros i Hi. rewrite Hst, Hks by lia. by apply Hs.
Qed.

Lemma yielded_inv s d : sched_inv s -> first_runnable s d ->
  sched_inv (set_force_switch 1 (switched (slot s d)
     (upd (g_cur s) (set_state S_RUNNABLE) (upd (g_cur s) (set_saved_esp (sched_cur_esp s))
       (set_g_rr ((slot s d + 1) mod 8) s))))).
Proof.
  intros Hs Hd. apply set_force_switch_inv. exact (preempted_inv s d Hs Hd).
Qed.

Lemma wp_run_event s e (Q : unit -> sched -> Prop) :
  sched_inv s -> enabled s e -> (forall s', sched_inv s' -> Q tt s') -> wp (run_event e) Q s.
Proof.
  intros Hs He HQ. pose proof (si_kstacks s Hs) as Hk. destruct e as [esp|esp|esp status|nm ent uesp];
    simpl in *.
  - unfold timer_int. repeat wp_step.
    assert (Hs' : sched_inv (set_ticks (u32 (timer_ticks (set_cur_esp esp s) + 1)) (set_cur_esp esp s)))
      by (by apply set_ticks_inv, set_cur_esp_inv).
    apply wp_sched_tick; [done | |].
    + intros _. by apply HQ, stay_inv.
    + intros d Hd. by apply HQ, preempted_inv.
  - do 2 wp_step. assert (Hs' : sched_inv (set_cur_esp esp s)) by (by apply set_cur_esp_inv).
    apply wp_sched_yield; [done | |].
    + intros _. by apply HQ.
    + intros d Hd. by apply HQ, yielded_inv.
  - do 2 wp_step. assert (Hs' : sched_inv (set_cur_esp esp s)) by (by apply set_cur_esp_inv).
    apply wp_sched_exit; [done | done |]. intros d Hd. by apply HQ, exited_inv.
  - wp_step. apply wp_sched_add; [apply Hs | done | done | |].
    + intros _. wp_step. by apply HQ.
    + intros i s' Hi Hf _ Ha. wp_step. apply HQ. by eapply added_inv.
Qed.

(** ** Round robin *)

(** The distance from [g_rr] to slot [i]. *)
Definition distance s (i : Z) : Z := (i - g_rr s) mod 8.

Fixpoint run_ticks (esps : list Z) : M sched unit :=
  match esps with
  | [] => mret tt
  | esp :: rest => run_event (EvTick esp);; run_ticks rest
  end.

Lemma slot_distance s i : 0 <= g_rr s < 8 -> 0 <= i < 8 ->
  slot s (distance s i) = i /\ 0 <= distance s i < 8.
Proof. unfold slot, distance. intros. split; Z.div_mod_to_equations; lia. Qed.

Lemma tick_progress s i esp : sched_inv s -> 0 <= i < 8 -> runnable s i ->
  exists s', run_event (EvTick esp) s = Ok tt s' /\ sched_inv s' /\
    (g_cur s' = i \/ runnable s' i /\ distance s' i < distance s i).
Proof.
  intros Hs Hi Hr. apply wp_unit. simpl. unfold timer_int. repeat wp_step.
  set (s0 := set_ticks _ _). assert (Hs0 : sched_inv s0) by (by apply set_ticks_inv, set_cur_esp_inv).
  pose proof (si_rr s0 Hs0) as Hrr. pose proof (si_len s0 Hs0) as Hl. pose proof (si_cur s0 Hs0) as Hc.
  destruct (slot_distance s0 i Hrr Hi) as [Hsi Hdi].
  assert (Hri : runnable s0 i) by done.
  apply wp_sched_tick; [done | by intros Hno; case (Hno i) |]. intros d Hd.
  split; [by apply preempted_inv|]. pose proof Hd as (Hd8 & Hrd & Hfirst).
  change (distance s i) with (distance s0 i).
  destruct (decide (d = distance s0 i)) as [->|Hne]; [by left|]. right.
  assert (Hlt : d < distance s0 i).
  { destruct (decide (d < distance s0 i)); [done|]. case (Hfirst (distance s0 i)); [lia|]. by rewrite Hsi. }
  pose proof (runnable_not_cur s0 i Hs0 Hi Hri) as Hic. pose proof (slot_range s0 d) as Hsd.
  assert (Hnd : slot s0 d <> i).
  { intros He. unfold slot, distance in *. Z.div_mod_to_equations; lia. }
  split.
  - unfold runnable, preempted. change (st (switched (slot s0 d) ?x) i) with
      (st (upd (slot s0 d) (set_state S_RUNNING) x) i).
    rewrite st_upd by len_tasks. destruct (Z.eqb_spec (slot s0 d) i); [done|].
    rewrite st_upd by len_tasks. destruct (Z.eqb_spec (g_cur s0) i); [congruence|].
    change (st (set_g_rr ?r ?x) i) with (st x i). rewrite st_upd by lia.
    destruct (Z.eqb_spec (g_cur s0) i); [congruence | done].
  - change (distance (preempted (slot s0 d) s0) i) with ((i - (slot s0 d + 1) mod 8) mod 8).
    unfold distance, slot in *. Z.div_mod_to_equations; lia.
Qed.
End Events.

(** C2: from [sched_init] on, whatever the order of timer ticks, yields, exits
    and new tasks, exactly one task is running and it is the current one, the
    kernel task stays alive, and every live task has its own kernel stack;
    moreover no event gets stuck: no slot is out of range and an exit always
    finds another task to run instead of halting the machine. *)
Theorem sched_safe {layout : SchedLayout} s0 es s :
  sched_init sched_bss = Ok 0 s0 -> trace sched_step s0 es s ->
  sched_inv s /\ forall e, enabled s e -> exists s', run_event e s = Ok tt s' /\ sched_inv s'.
Proof.
  intros Hinit Ht.
  assert (H0 : sched_inv s0).
  { apply (wp_elim sched_init (fun _ s => sched_inv s) sched_bss 0 s0); [|done].
    apply wp_sched_init; [|done]. split; [done|]. by repeat constructor. }
  assert (Hs : sched_inv s).
  { revert H0. apply (trace_invariant sched_step sched_inv) with (ls := es); [|done].
    intros s1 e s2 Hs1 [Hen Hr].
    apply (wp_elim (run_event e) (fun _ s => sched_inv s) s1 tt s2); [|done]. by apply wp_run_event. }
  split; [done|]. intros e He.
  assert (Hw : wp (run_event e) (fun _ s' => sched_inv s') s) by (by apply wp_run_event).
  apply wp_ok in Hw as ([] & s' & Hr & Hi). eauto.
Qed.

(** C26: round robin is fair: a runnable task becomes the running one within
    eight timer ticks, whatever the stack pointers saved meanwhile. *)
Theorem sched_fair {layout : SchedLayout} s i esps :
  sched_inv s -> 0 <= i < 8 -> runnable s i -> length esps = 8%nat ->
  exists k s', (1 <= k <= 8)%nat /\ run_ticks (take k esps) s = Ok tt s' /\ g_cur s' = i.
Proof.
  intros Hs Hi Hr Hl.
  assert (Hgen : forall n s esps, sched_inv s -> runnable s i -> distance s i < Z.of_nat n ->
    length esps = n -> exists k s', (1 <= k <= n)%nat /\ run_ticks (take k esps) s = Ok tt s' /\ g_cur s' = i).
  { induction n as [|n IH]; intros s1 es Hs1 Hr1 Hd Hle.
    - destruct (slot_distance s1 i (si_rr s1 Hs1) Hi). lia.
    - destruct es as [|esp es]; [done|]. destruct (tick_progress s1 i esp Hs1 Hi Hr1) as (s2 & Hrun & Hs2 & Hor).
      destruct Hor as [Hc|[Hr2 Hd2]].
      + exists 1%nat, s2. split; [lia|]. split; [|done]. cbn [take run_ticks].
        unfold mbind, M_bind. by rewrite Hrun.
      + destruct (IH s2 es Hs2 Hr2 ltac:(lia) ltac:(simpl in Hle; lia)) as (k & s3 & Hk & Hrun3 & Hc3).
        exists (S k), s3. split; [lia|]. split; [|done]. cbn [take run_ticks].
        unfold mbind, M_bind. by rewrite Hrun. }
  destruct (slot_distance s i (si_rr s Hs) Hi) as [_ Hd]. apply (Hgen 8%nat); done || lia.
Qed.

(** What [timer_int] does, from any state of the invariant. *)
Lemma timer_int_switch {layout : SchedLayout} s :
  sched_inv s ->
  exists s', timer_int s = Ok tt s' /\ sched_inv s' /\ timer_ticks s' = u32 (timer_ticks s + 1) /\
    sched_active s' = sched_active s /\
    saved_esp (task s' (g_cur s)) = sched_cur_esp s /\
    (forall j, 0 <= j < 8 -> j <> g_cur s -> saved_esp (task s' j) = saved_esp (task s j)) /\
    sched_next_esp s' = saved_esp (task s' (g_cur s')) /\
    (g_cur s' <> g_cur s -> kstack_top (task s (g_cur s')) <> 0 ->
       tss_esp0 s' = kstack_top (task s (g_cur s'))) /\
    (g_cur s' = g_cur s <-> forall i, 0 <= i < 8 -> ~ runnable s i).
Proof.
  intros Hs. pose proof (si_len s Hs) as Hl. pose proof (si_cur s Hs) as Hc.
  apply wp_unit. unfold timer_int. repeat wp_step.
  set (s0 := set_ticks _ _). assert (Hs0 : sched_inv s0) by (by apply set_ticks_inv).
  assert (Hl0 : lenZ (g_tasks s0) = 8) by exact Hl.
  assert (Hc0 : 0 <= g_cur s0 < 8) by exact Hc. set (esp := sched_cur_esp s).
  apply wp_sched_tick; [done| |].
  - intros Hno. pose proof (stay_inv s0 Hs0) as Hinv. set (s1 := upd _ _ _) in *.
    assert (Ht1 : forall j, 0 <= j -> task s1 j = if g_cur s =? j then set_saved_esp esp (task s j) else task s j).
    { intros j Hj. subst s1. rewrite task_upd_eq by lia.
      change (g_cur s0) with (g_cur s). destruct (Z.eqb_spec (g_cur s) j) as [<-|]; done. }
    change (task (set_next_esp ?e s1)) with (task s1). split; [exact Hinv|]. split; [done|]. split; [done|].
    split; [rewrite Ht1, Z.eqb_refl by lia; done|]. split; [|split; [|split]].
    + intros j Hj Hne. rewrite Ht1 by lia. destruct (Z.eqb_spec (g_cur s) j); [congruence | done].
    + change (g_cur (set_next_esp (sched_cur_esp s0) s1)) with (g_cur s). rewrite Ht1, Z.eqb_refl by lia. done.
    + intros Hne. by case Hne.
    + split; [intros _; exact Hno | done].
  - intros d Hd. pose proof (preempted_inv s0 d Hs0 Hd) as Hinv. pose proof (slot_range s0 d) as Hi. set (i := slot s0 d) in *.
    pose proof (runnable_not_cur s0 i Hs0 Hi (proj1 (proj2 Hd))) as Hne. change (g_cur s0) with (g_cur s) in Hne.
    unfold preempted. set (s1 := upd (g_cur s0) (set_state S_RUNNABLE) _).
    assert (Ht1 : forall j, 0 <= j -> task s1 j =
      if g_cur s =? j then set_state S_RUNNABLE (set_saved_esp esp (task s j)) else task s j).
    { intros j Hj. subst s1. rewrite task_upd_eq by len_tasks. change (g_cur s0) with (g_cur s).
      change (task (set_g_rr ?r ?x) ?k) with (task x k). rewrite !task_upd_eq by lia.
      rewrite Z.eqb_refl. destruct (Z.eqb_spec (g_cur s) j) as [<-|]; done. }
    assert (Ht2 : forall j, 0 <= j -> task (switched i s1) j =
      if i =? j then set_state S_RUNNING (task s1 j) else task s1 j).
    { intros j Hj. change (task (switched i s1) j) with (task (upd i (set_state S_RUNNING) s1) j).
      rewrite task_upd_eq by (subst s1; len_tasks). by destruct (Z.eqb_spec i j) as [->|]. }
    assert (Hti : task s1 i = task s i)
      by (rewrite Ht1 by lia; destruct (Z.eqb_spec (g_cur s) i); [congruence | done]).
    split; [exact Hinv|]. split; [done|]. split; [done|]. split; [|split; [|split; [|split]]].
    + rewrite Ht2, Ht1, Z.eqb_refl by lia. destruct (Z.eqb_spec i (g_cur s)); done.
    + intros j Hj Hnj. rewrite Ht2, Ht1 by lia. destruct (Z.eqb_spec (g_cur s) j); [congruence|].
      by destruct (i =? j).
    + change (sched_next_esp (switched i s1)) with (saved_esp (task s1 i)).
      change (g_cur (switched i s1)) with i. rewrite Ht2, Z.eqb_refl by lia. done.
    + intros _ Hk. change (g_cur (switched i s1)) with i in *.
      change (tss_esp0 (switched i s1)) with
        (if kstack_top (task s1 i) =? 0 then tss_esp0 s1 else kstack_top (task s1 i)).
      rewrite Hti. by destruct (Z.eqb_spec (kstack_top (task s i)) 0).
    + split; [by intros He; case Hne|]. intros Hno. by case (Hno i Hi (proj1 (proj2 Hd))).
Qed.

(** A timer tick switches contexts correctly.  The stack pointer of the
    interrupted task is saved with it and no other task's is changed; the stub
    is told to load the saved pointer of the task that is now current; when
    that task has a kernel stack the TSS points to it; and the task keeps the
    processor only if no other is runnable. *)
Theorem timer_context_switch {layout : SchedLayout} s esp :
  sched_inv s ->
  exists s', run_event (EvTick esp) s = Ok tt s' /\ timer_ticks s' = u32 (timer_ticks s + 1) /\
    saved_esp (task s' (g_cur s)) = esp /\
    (forall j, 0 <= j < 8 -> j <> g_cur s -> saved_esp (task s' j) = saved_esp (task s j)) /\
    sched_next_esp s' = saved_esp (task s' (g_cur s')) /\
    (g_cur s' <> g_cur s -> kstack_top (task s (g_cur s')) <> 0 ->
       tss_esp0 s' = kstack_top (task s (g_cur s'))) /\
    (g_cur s' = g_cur s <-> forall i, 0 <= i < 8 -> ~ runnable s i).
Proof.
  intros Hs. destruct (timer_int_switch (set_cur_esp esp s)) as (s' & Hrun & _ & Ht & _ & Hrest); [by apply set_cur_esp_inv|].
  exists s'. split; [by unfold run_event, mbind, M_bind, modify|]. by split.
Qed.

(** [sched_add] takes the first slot that is empty or a zombie and leaves
    there a runnable task whose name is the first 15 characters of [nm] and
    whose saved stack pointer addresses, in the slot's own kernel stack, the
    frame that [iret] turns into ring 3 at the entry point with the user
    stack and interrupts enabled; every other task and stack is untouched.  It
    returns -1 and changes nothing exactly when all eight slots are live. *)
Theorem sched_add_spec {layout : SchedLayout} s nm ent uesp :
  sched_inv s -> terminated nm ->
  exists r s', sched_add nm ent uesp s = Ok r s' /\ sched_inv s' /\
    ((r = -1 /\ s' = s /\ forall i, 0 <= i < 8 -> ~ free_slot s i) \/
     (r = s32 (g_next_pid s) /\ exists i, 1 <= i < 8 /\ free_slot s i /\
        (forall j, 0 <= j < i -> ~ free_slot s j) /\ added s i nm ent uesp s')).
Proof.
  intros Hs Ht. apply wp_ok. apply wp_sched_add; [apply Hs | apply (si_kstacks s Hs) | done | |].
  - intros Hno. split; [done|]. by left.
  - intros i s' Hi Hf Hfirst Ha. split; [by eapply added_inv|]. right. split; [done|].
    exists i. split; [|done]. destruct (decide (i = 0)) as [->|]; [|lia].
    unfold free_slot in Hf. destruct (si_kernel s Hs) as [H0|H0]; rewrite H0 in Hf; by destruct Hf.
Qed.

(** * Concrete instances *)

#[export, program] Instance demo_sched_layout : SchedLayout := {| kstacks_addr := 0x180000 |}.
Next Obligation. reflexivity. Qed.
Next Obligation. lia. Qed.

(** Two user tasks added after [sched_init]. *)
Definition demo_name : list Z := [117; 115; 101; 114; 0].
Definition two_tasks : sched :=
  match (sched_init;; sched_add demo_name 0x40000000 0x40017ff0;;
         sched_add demo_name 0x40000000 0x4001fff0) sched_bss with
  | Ok _ s => s
  | Stuck _ s => s
  end.

Section ConcreteSched.
Lemma demo_terminated : terminated demo_name.
Proof. unfold terminated, lenZ. simpl. lia. Qed.

Lemma two_tasks_inv : sched_inv two_tasks.
Proof.
  assert (Hw : wp (sched_init;; sched_add demo_name 0x40000000 0x40017ff0;;
       sched_add demo_name 0x40000000 0x4001fff0) (fun _ s => sched_inv s) sched_bss).
  { wp_step. apply wp_sched_init; [split; [done | by repeat constructor]|]. intros s Hs _ _.
    wp_step. apply wp_sched_add; [apply Hs | apply (si_kstacks s Hs) | apply demo_terminated | |].
    - intros _. apply wp_sched_add; [apply Hs | apply (si_kstacks s Hs) | apply demo_terminated | done |].
      intros. by eapply added_inv.
    - intros i s' Hi Hf _ Ha. assert (Hs' : sched_inv s') by (by eapply added_inv).
      apply wp_sched_add; [apply Hs' | apply (si_kstacks s' Hs') | apply demo_terminated | done |].
      intros. by eapply added_inv. }
  destruct (proj1 (wp_ok _ _ _) Hw) as (a & s' & He & Hi). unfold two_tasks. rewrite He. exact Hi.
Qed.
End ConcreteSched.

Lemma sched_init_runs : exists s0, sched_init sched_bss = Ok 0 s0.
Proof.
  assert (Hw : wp sched_init (fun r _ => r = 0) sched_bss)
    by (apply wp_sched_init; [split; [done | by repeat constructor] | done]).
  destruct (proj1 (wp_ok _ _ _) Hw) as (r & s0 & He & ->). by exists s0.
Qed.

Lemma sched_safe_witness :
  exists s0, sched_init sched_bss = Ok 0 s0 /\ sched_inv s0.
Proof.
  destruct sched_init_runs as [s0 Hr]. exists s0. split; [exact Hr|].
  apply (sched_safe s0 [] s0 Hr). apply trace_nil.
Defined.

Lemma sched_fair_witness :
  exists k s', (1 <= k <= 8)%nat /\ run_ticks (take k (replicate 8 0)) two_tasks = Ok tt s' /\ g_cur s' = 2.
Proof.
  apply (sched_fair two_tasks 2 (replicate 8 0)); [apply two_tasks_inv | lia | vm_compute; reflexivity | reflexivity].
Defined.

Lemma timer_context_switch_witness :
  exists s', run_event (EvTick 0x90000) two_tasks = Ok tt s' /\ saved_esp (task s' 0) = 0x90000.
Proof.
  destruct (timer_context_switch two_tasks 0x90000 two_tasks_inv) as (s' & H1 & _ & H2 & _).
  exists s'. split; [exact H1|].
  assert (Hc : g_cur two_tasks = 0) by (vm_compute; reflexivity). rewrite Hc in H2. exact H2.
Defined.

Lemma sched_add_spec_witness :
  exists r s', sched_add demo_name 0x40000000 0x40027ff0 two_tasks = Ok r s' /\ sched_inv s'.
Proof.
  destruct (sched_add_spec two_tasks demo_name 0x40000000 0x40027ff0 two_tasks_inv demo_terminated)
    as (r & s' & H1 & H2 & _). eauto.
Defined.
