(* ===== verification/UserTask.v ===== *)
(** Ring-3 tasks: [src/kernel/task/usertask.c].

    The state joins the paging structures, the scheduler and the two static
    variables of the file.  The user program is the byte image that the build
    links between [_binary_user_bin_start] and [_binary_user_bin_end]. *)
From Stdlib Require Import ZArith Lia List.
From stdpp Require Import base tactics numbers list gmap strings option.
From S2P Require Import Prelude Pmm Vmm Heap CString Sched.
Open Scope Z_scope.

Definition USER_ENTRY : Z := 0x40000000.
Definition USER_STACK_BASE : Z := 0x40010000.
Definition USER_STACK_SIZE : Z := 0x8000.
Definition USER_MAX_TASKS : Z := 6.

Record utask : Type := mkUtask {
  u_vmm : vmm;
  u_sched : sched;
  g_code_mapped : Z;
  g_user_slots : list Z
}.
Definition set_u_vmm (v : vmm) (u : utask) : utask :=
  mkUtask v (u_sched u) (g_code_mapped u) (g_user_slots u).
Definition set_u_sched (v : sched) (u : utask) : utask :=
  mkUtask (u_vmm u) v (g_code_mapped u) (g_user_slots u).
Definition set_code_mapped (v : Z) (u : utask) : utask :=
  mkUtask (u_vmm u) (u_sched u) v (g_user_slots u).
Definition set_user_slots (v : list Z) (u : utask) : utask :=
  mkUtask (u_vmm u) (u_sched u) (g_code_mapped u) v.

Definition vm {A} (m : M vmm A) : M utask A := zoom u_vmm set_u_vmm m.
Definition sc {A} (m : M sched A) : M utask A := zoom u_sched set_u_sched m.

(** A byte store through the page tables: byte [pa mod 4] of a word. *)
Definition set_byte (w k b : Z) : Z :=
  Z.lor (Z.land w (u32 (Z.lnot (Z.shiftl 255 (8 * k))))) (Z.shiftl b (8 * k)).
Definition store8 (va b : Z) : M vmm unit := fun s =>
  match translate s va with
  | Some pa => Ok tt (phys_write (pa - pa mod 4) (set_byte (phys_read (pa - pa mod 4) s) (pa mod 4) b) s)
  | None => Stuck PageFault s
  end.

(** The user program. *)
Class UserBinary := { user_bin : list Z }.

Section Operations.
Context {klayout : KernelLayout} {slayout : SchedLayout} {binary : UserBinary}.

Definition map_user_page (virt phys : Z) : M vmm Z :=
  let i := PAGE_DIR_INDEX virt in
  e ← pde_get i;
  ok ← (if Z.land e I86_PDE_PRESENT =? 0 then
          table ← pm pm_alloc;
          if table =? 0 then mret false
          else
            bzero_table table;;
            e ← pde_get i;
            pde_set i (pd_entry_set_frame e table);;
            mret true
        else mret true);
  if (ok : bool) then
    e ← pde_get i;
    pde_set i (pd_entry_add_attrib e (Z.lor I86_PDE_PRESENT (Z.lor I86_PDE_WRITABLE I86_PDE_USER)));;
    e ← pde_get i;
    let table := PAGE_PHYSICAL_ADDR e in
    let pg := entry_addr table (PAGE_TABLE_INDEX virt) in
    v ← load32 pg;
    store32 pg (pt_entry_set_frame v phys);;
    v ← load32 pg;
    store32 pg (pt_entry_add_attrib v (Z.lor I86_PTE_PRESENT (Z.lor I86_PTE_WRITABLE I86_PTE_USER)));;
    native_flush_tlb_single virt;;
    mret 0
  else mret (-1).

Definition unmap_user_page (virt : Z) : M vmm unit :=
  let i := PAGE_DIR_INDEX virt in
  e ← pde_get i;
  if Z.land e I86_PDE_PRESENT =? 0 then mret tt
  else
    let table := PAGE_PHYSICAL_ADDR e in
    let pg := entry_addr table (PAGE_TABLE_INDEX virt) in
    v ← load32 pg;
    if Z.land v I86_PTE_PRESENT =? 0 then mret tt
    else
      pm (pm_free (pt_entry_pfn v));;
      store32 pg 0;;
      native_flush_tlb_single virt.

Definition usertask_ensure_code : M utask Z :=
  mapped ← gets g_code_mapped;
  if negb (mapped =? 0) then mret 0
  else
    let len := lenZ user_bin in
    if (len =? 0) || (PAGE_SIZE <? len) then mret (-1)
    else
      phys ← vm (pm pm_alloc);
      if phys =? 0 then mret (-1)
      else
        r ← vm (map_user_page USER_ENTRY phys);
        if r <? 0 then
          vm (pm (pm_free phys));;
          mret (-1)
        else
          vm (locals (for_ (span 0 len) 0 tt (fun i _ =>
            b ← aget user_bin i;
            store8 (USER_ENTRY + i) b;;
            mret (Cont tt))));;
          modify (set_code_mapped 1);;
          mret 0.

Definition utask_spawn (nm : list Z) : M utask Z :=
  r ← for_ (span 0 USER_MAX_TASKS) 0 (-1) (fun i slot =>
    slots ← gets g_user_slots;
    v ← aget slots i;
    if v =? 0 then mret (Brk i)
    else
      alive ← sc (sched_alive (u32 v));
      if alive =? 0 then mret (Brk i) else mret (@Cont _ Z slot));
  match r with
  | inr v => mret v
  | inl slot =>
      if slot <? 0 then mret (-1)
      else
        c ← usertask_ensure_code;
        if c <? 0 then mret (-1)
        else
          let stack_virt := u32 (USER_STACK_BASE + slot * USER_STACK_SIZE) in
          phys ← vm (pm pm_alloc);
          if phys =? 0 then mret (-1)
          else
            slots ← gets g_user_slots;
            v ← aget slots slot;
            (if negb (v =? 0) then vm (unmap_user_page stack_virt) else mret tt);;
            r ← vm (map_user_page stack_virt phys);
            if r <? 0 then
              vm (pm (pm_free phys));;
              mret (-1)
            else
              p ← sc (sched_add nm USER_ENTRY (u32 (stack_virt + USER_STACK_SIZE - 16)));
              if p <? 0 then
                vm (unmap_user_page stack_virt);;
                mret (-1)
              else
                slots ← gets g_user_slots;
                slots' ← aset slots slot p;
                modify (set_user_slots slots');;
                mret p
  end.
End Operations.

(** * Mapping a user page *)

Section MapUser.
Context {klayout : KernelLayout}.
Implicit Types s : vmm.

Definition user_entry (e phys : Z) : Z := Z.lor (pt_entry_set_frame e phys) 7.

(** The state after [map_user_page]: the directory entry has all three
    attributes, the table entry the new frame. *)
Definition user_mapped (va phys : Z) s : vmm :=
  set_flushed (va :: flushed s)
    (set_pte (va / 4096) (user_entry (pte s (va / 4096)) phys)
      (set_page_directory
        (wr (page_directory s) (va / 4096 / 1024) (table_frame (va / 4096 / 1024) * 4096 + 7)) s)).

Lemma lor_4096 a b : 0 <= b < 4096 -> Z.lor (a * 4096) b = a * 4096 + b.
Proof. intros Hb. change 4096 with (2 ^ 12). by apply lor_low. Qed.

Lemma user_entry_facts e f : 0 <= e < 2147483648 -> 0 <= f < LOW_FRAMES ->
  0 <= user_entry e (f * 4096) < 4294967296 /\ present (user_entry e (f * 4096)) = true /\
  user_entry e (f * 4096) / 4096 = f.
Proof.
  unfold LOW_FRAMES, user_entry. intros He Hf. rewrite set_frame_arith by lia.
  destruct (Z.leb_spec 2147483648 e); [lia|]. simpl. rewrite Z.add_0_r.
  set (r := e mod 4096). assert (Hm : 0 <= r < 4096) by (apply Z.mod_pos_bound; lia).
  assert (Hl : 0 <= Z.lor r 7 < 4096 /\ Z.lor r 7 mod 2 = 1).
  { split; [split; [apply Z.lor_nonneg; lia|]|].
    - apply Z.log2_lt_cancel. rewrite Z.log2_lor by lia. change (Z.log2 4096) with 12.
      apply Z.max_lub_lt; [|reflexivity].
      destruct (Z.eq_dec r 0) as [->|]; [reflexivity|]. apply Z.log2_lt_pow2; lia.
    - rewrite <- Z.bit0_mod, Z.lor_spec. by rewrite orb_true_r. }
  destruct Hl as [Hl Ho].
  rewrite <- (lor_4096 f r), <- Z.lor_assoc, lor_4096 by lia. rewrite present_odd, Z.eqb_eq.
  split_and!; Z.div_mod_to_equations; lia.
Qed.

Lemma dir_set_inv s i : vm_inv s -> 0 <= i < 1024 ->
  vm_inv (set_page_directory (wr (page_directory s) i (table_frame i * 4096 + 7)) s).
Proof.
  intros [? ? ? Hl Hd ? ? ?] Hi. split; try done.
  - simpl. by rewrite lenZ_wr.
  - intros j Hj. simpl. rewrite rd_wr by lia. destruct (Z.eqb_spec i j) as [->|]; [by right | by apply Hd].
Qed.

Lemma lor_pde i e : 0 <= i < 1024 -> pde_ok i e ->
  pd_entry_add_attrib e (Z.lor I86_PDE_PRESENT (Z.lor I86_PDE_WRITABLE I86_PDE_USER)) = table_frame i * 4096 + 7.
Proof.
  intros Hi He. unfold pd_entry_add_attrib. change (Z.lor I86_PDE_PRESENT _) with 7.
  unfold pde_ok in He. rewrite <- !lor_4096 in * by lia.
  destruct He as [-> | ->]; rewrite <- Z.lor_assoc; done.
Qed.

Lemma wp_map_user_page s va f (Q : Z -> vmm -> Prop) :
  vm_inv s -> IDENT_PAGES <= va / 4096 -> 0 <= va < 4294967296 -> 0 <= f < LOW_FRAMES ->
  pte s (va / 4096) < 2147483648 ->
  Q 0 (user_mapped va (f * 4096) s) -> wp (map_user_page va (f * 4096)) Q s.
Proof.
  intros Hi Hp Hva Hf Hlow HQ.
  assert (Hvp : IDENT_PAGES <= va / 4096 < NPAGES) by (unfold NPAGES; Z.div_mod_to_equations; lia).
  assert (Hvp0 : 0 <= va / 4096 < NPAGES) by (unfold IDENT_PAGES in *; lia).
  destruct (page_index _ Hvp0) as [H1 H2]. pose proof (vi_word s Hi _ Hvp0) as Hw.
  set (i := va / 4096 / 1024) in *. pose proof (vi_dirlen s Hi) as Hdl.
  unfold map_user_page. rewrite dir_index, table_index by done. fold i. wp_step.
  apply wp_pde_get; [done..|]. intros e _ Hpr _ _.
  assert (Hz : (Z.land e I86_PDE_PRESENT =? 0) = false) by (apply Z.eqb_eq in Hpr; rewrite Hpr; done).
  rewrite Hz. wp_step. wp_step. wp_step. apply wp_pde_get; [done..|]. intros e1 He1 _ _ _.
  rewrite (lor_pde i e1 H1 He1). unfold pde_set at 1. wp_step. wp_step. wp_step. wp_step.
  apply wp_aset; [lia|]. wp_step. set (s1 := set_page_directory _ s).
  assert (Hi1 : vm_inv s1) by (by apply dir_set_inv).
  wp_step. apply wp_pde_get; [done..|]. intros e2 _ _ -> _. cbv zeta. wp_step.
  apply wp_load_entry; [done..|]. wp_step. apply wp_store_entry; [done..|].
  change (pte s1 (va / 4096)) with (pte s (va / 4096)).
  set (v := pt_entry_set_frame (pte s (va / 4096)) (f * 4096)).
  assert (Hv : 0 <= v < 4294967296).
  { subst v. unfold LOW_FRAMES in Hf. rewrite set_frame_arith by lia.
    destruct (2147483648 <=? _), (f * 4096 <? 2147483648); simpl; Z.div_mod_to_equations; lia. }
  assert (Hi2 : vm_inv (set_pte (va / 4096) v s1)) by (by apply set_pte_inv).
  wp_step. apply wp_load_entry; [done..|]. wp_step. apply wp_store_entry; [done..|].
  rewrite set_pte_set_pte, pte_set_pte, Z.eqb_refl by done.
  unfold native_flush_tlb_single. wp_step. wp_step. wp_step. exact HQ.
Qed.

Lemma user_mapped_inv s va f : vm_inv s -> IDENT_PAGES <= va / 4096 -> 0 <= va < 4294967296 ->
  0 <= f < LOW_FRAMES -> pte s (va / 4096) < 2147483648 ->
  vm_inv (user_mapped va (f * 4096) s) /\
  forall vp, 0 <= vp < NPAGES -> pte (user_mapped va (f * 4096) s) vp =
    if va / 4096 =? vp then user_entry (pte s vp) (f * 4096) else pte s vp.
Proof.
  intros Hi Hp Hva Hf Hlow.
  assert (Hvp : IDENT_PAGES <= va / 4096 < NPAGES) by (unfold NPAGES; Z.div_mod_to_equations; lia).
  assert (Hvp0 : 0 <= va / 4096 < NPAGES) by (unfold IDENT_PAGES in *; lia).
  destruct (page_index _ Hvp0) as [H1 _]. pose proof (vi_word s Hi _ Hvp0) as Hw.
  set (s1 := set_page_directory (wr (page_directory s) (va / 4096 / 1024)
    (table_frame (va / 4096 / 1024) * 4096 + 7)) s).
  assert (Hi1 : vm_inv s1) by (by apply dir_set_inv).
  destruct (user_entry_facts (pte s (va / 4096)) f (conj (proj1 Hw) Hlow) Hf) as (Hr & _).
  split.
  - unfold user_mapped. apply flush_inv, set_pte_inv; [done | done |]. exact Hr.
  - intros vq Hq. change (pte (user_mapped va (f * 4096) s) vq) with
      (pte (set_pte (va / 4096) (user_entry (pte s (va / 4096)) (f * 4096)) s1) vq).
    rewrite pte_set_pte by done. by destruct (Z.eqb_spec (va / 4096) vq) as [->|].
Qed.
End MapUser.

(** * The first task *)

Section Spawn.
Context {klayout : KernelLayout} {slayout : SchedLayout} {binary : UserBinary}.
Implicit Types s : vmm.

(** [s'] has the paging of [s]: same entries, same allocator. *)
Definition same_paging s s' : Prop :=
  vm_inv s' /\ vpm s' = vpm s /\ forall vp, 0 <= vp < NPAGES -> pte s' vp = pte s vp.

Lemma wp_store8 s f fr o b (Q : unit -> vmm -> Prop) :
  vm_inv s -> 0 <= f < NPAGES -> mapped s f = true -> pte s f / 4096 = fr -> IDENT_PAGES <= fr ->
  0 <= o < 4096 -> (forall s', same_paging s s' -> Q tt s') -> wp (store8 (f * 4096 + o) b) Q s.
Proof.
  intros Hi Hf Hm Hp Hfr Ho HQ. unfold wp, store8. rewrite (translate_page s f fr) by (done || lia).
  set (pa := fr * 4096 + o - (fr * 4096 + o) mod 4).
  set (w := set_byte _ _ _).
  assert (He : phys_write pa w s = set_word fr (o / 4) w s).
  { unfold phys_write, set_word, PAGE_SIZE.
    replace (pa / 4096) with fr by (subst pa; Z.div_mod_to_equations; lia).
    replace (pa mod 4096 / 4) with (o / 4) by (subst pa; Z.div_mod_to_equations; lia). done. }
  rewrite He. assert (Hd : data_frame fr) by (apply data_frame_high; auto).
  apply HQ. split; [by apply set_word_inv|]. split; [done|]. intros vp Hvp. by apply pte_set_word.
Qed.

Lemma same_paging_trans s s1 s2 : same_paging s s1 -> same_paging s1 s2 -> same_paging s s2.
Proof.
  intros (_ & Hv1 & Hp1) (Hi & Hv2 & Hp2). split; [done|]. split; [congruence|].
  intros vp Hvp. by rewrite Hp2, Hp1.
Qed.

(** Copying the program into its page. *)
Lemma wp_copy_code s fr (Q : unit -> vmm -> Prop) :
  vm_inv s -> mapped s (USER_ENTRY / 4096) = true -> pte s (USER_ENTRY / 4096) / 4096 = fr ->
  IDENT_PAGES <= fr -> lenZ user_bin <= 4096 -> (forall s', same_paging s s' -> Q tt s') ->
  wp (locals (for_ (span 0 (lenZ user_bin)) 0 tt (fun i _ =>
        b ← aget user_bin i;
        store8 (USER_ENTRY + i) b;;
        mret (Cont tt)))) Q s.
Proof.
  intros Hi Hm Hp Hfr Hl HQ. apply wp_locals.
  apply (wp_for (fun _ _ s' => same_paging s s')).
  - by split.
  - intros i [] s' Hii Hsp. unfold span in Hii. wp_step. apply wp_aget; [lia|]. wp_step.
    pose proof Hsp as (Hi' & _ & Hpt).
    change (USER_ENTRY + i) with (USER_ENTRY / 4096 * 4096 + i).
    assert (Hr : 0 <= USER_ENTRY / 4096 < NPAGES) by (vm_compute; split; discriminate || reflexivity).
    apply (wp_store8 s' _ fr); try done; try lia.
    + unfold mapped. by rewrite Hpt.
    + by rewrite Hpt.
    + intros s'' Hs''. wp_step. by eapply same_paging_trans.
  - intros [] s' Hs'. by apply HQ.
Qed.

(** [s'] keeps the entries of [s] and has taken frame [f]. *)
Definition frame_allocated s (f : Z) s' : Prop :=
  heap_inv s' /\ used_set (vpm s') = {[f]} ∪ used_set (vpm s) /\ nframes (vpm s') = nframes (vpm s) /\
  forall vp, 0 <= vp < NPAGES -> pte s' vp = pte s vp.

Lemma wp_alloc_frame s (Q : Z -> vmm -> Prop) :
  heap_inv s -> Z.of_nat (size (used_set (vpm s))) < nframes (vpm s) ->
  (forall f s', IDENT_PAGES <= f < LOW_FRAMES -> f ∉ used_set (vpm s) -> frame_allocated s f s' ->
     Q (f * 4096) s') ->
  wp (pm pm_alloc) Q s.
Proof.
  intros [Hi Hlow Hclr] Hroom HQ. pose proof (vi_pm s Hi) as Hpm. unfold pm. wp_step.
  apply wp_pm_alloc; [apply Hpm | intros Hno; by case (not_full _ Hpm Hroom)|].
  intros f _ Hl. pose proof Hl as (Hf & Hfu & _). pose proof (take_inv f _ Hpm Hl) as Hpm'.
  assert (Hnin : f ∉ used_set (vpm s)) by (rewrite elem_used_set; intros [_ ?]; congruence).
  assert (Hus : used_set (take_frame f (vpm s)) = {[f]} ∪ used_set (vpm s))
    by (apply used_set_take; [apply Hpm | done]).
  apply HQ; [|done|].
  - split; [|lia]. destruct (Z.lt_ge_cases f IDENT_PAGES); [|done]. case Hnin. apply (vi_reserved s Hi). lia.
  - split; [|done]. split; [|done|done]. apply set_vpm_inv; [done | done |].
    intros g Hg. rewrite Hus. apply elem_of_union. right. by apply (vi_reserved s Hi).
Qed.

(** [s'] maps page [vp] to frame [f] and is otherwise as [s]. *)
Definition page_mapped s (vp f : Z) s' : Prop :=
  heap_inv s' /\ vpm s' = vpm s /\ mapped s' vp = true /\ pte s' vp / 4096 = f /\
  forall vq, 0 <= vq < NPAGES -> vq <> vp -> pte s' vq = pte s vq.

Lemma wp_map_free_page s va f (Q : Z -> vmm -> Prop) :
  heap_inv s -> IDENT_PAGES <= va / 4096 -> 0 <= va < 4294967296 -> mapped s (va / 4096) = false ->
  0 <= f < LOW_FRAMES -> (forall s', page_mapped s (va / 4096) f s' -> Q 0 s') ->
  wp (map_user_page va (f * 4096)) Q s.
Proof.
  intros [Hi Hlow Hclr] Hp Hva Hun Hf HQ.
  assert (Hvp : 0 <= va / 4096 < NPAGES) by (unfold NPAGES, IDENT_PAGES in *; Z.div_mod_to_equations; lia).
  pose proof (Hclr _ Hvp Hun) as Hlow1. apply wp_map_user_page; try done.
  destruct (user_mapped_inv s va f Hi Hp Hva Hf Hlow1) as [Hi2 Hp2].
  destruct (user_entry_facts (pte s (va / 4096)) f) as (_ & Hpr & Hdiv);
    [pose proof (vi_word s Hi _ Hvp) as H; split; [apply H | exact Hlow1] | done |].
  apply HQ. split; [|split; [done | split; [|split]]].
  - split; [done | done |]. intros vp Hv Hm. unfold mapped in Hm. rewrite Hp2 in * by done.
    destruct (Z.eqb_spec (va / 4096) vp) as [<-|]; [|by apply Hclr].
    rewrite Hpr in Hm. done.
  - unfold mapped. by rewrite Hp2, Z.eqb_refl by done.
  - by rewrite Hp2, Z.eqb_refl by done.
  - intros vp Hv Hne. rewrite Hp2 by done. destruct (Z.eqb_spec (va / 4096) vp); [congruence | done].
Qed.

(** The state before the first [utask_spawn]: no user page is mapped yet. *)
Record spawn_ready (u : utask) : Prop := {
  sr_heap : heap_inv (u_vmm u);
  sr_sched : sched_inv (u_sched u);
  sr_slots : lenZ (g_user_slots u) = 6 /\ rd (g_user_slots u) 0 = 0;
  sr_code : g_code_mapped u = 0;
  sr_room : Z.of_nat (size (used_set (vpm (u_vmm u)))) + 2 <= nframes (vpm (u_vmm u));
  sr_pages : forall vp, 0x40000 <= vp <= 0x40017 -> mapped (u_vmm u) vp = false;
  sr_free : exists i, 0 <= i < 8 /\ free_slot (u_sched u) i;
  sr_pid : 0 < g_next_pid (u_sched u) < 2147483648
}.

(** What the first spawn leaves. *)
Record first_spawned (u : utask) (p : Z) (u' : utask) : Prop := {
  fs_pid : p = g_next_pid (u_sched u);
  fs_task : exists i, st (u_sched u') i = S_RUNNABLE /\ entry (task (u_sched u') i) = USER_ENTRY /\
    user_esp (task (u_sched u') i) = 0x40017FF0;
  fs_vm : heap_inv (u_vmm u');
  fs_pages : exists f g, f <> g /\ f ∉ used_set (vpm (u_vmm u)) /\ g ∉ used_set (vpm (u_vmm u)) /\
    translate (u_vmm u') USER_ENTRY = Some (f * 4096) /\
    translate (u_vmm u') USER_STACK_BASE = Some (g * 4096);
  fs_other : forall vp, 0 <= vp < NPAGES -> vp <> 0x40000 -> vp <> 0x40010 ->
    mapped (u_vmm u') vp = mapped (u_vmm u) vp
}.

(** [usertask_ensure_code] on its first call. *)
Lemma wp_ensure_code u (Q : Z -> utask -> Prop) :
  spawn_ready u -> 1 <= lenZ user_bin <= 4096 ->
  (forall f s', IDENT_PAGES <= f < LOW_FRAMES -> f ∉ used_set (vpm (u_vmm u)) -> heap_inv s' ->
     used_set (vpm s') = {[f]} ∪ used_set (vpm (u_vmm u)) -> nframes (vpm s') = nframes (vpm (u_vmm u)) ->
     mapped s' 0x40000 = true -> pte s' 0x40000 / 4096 = f ->
     (forall vp, 0 <= vp < NPAGES -> vp <> 0x40000 -> pte s' vp = pte (u_vmm u) vp) ->
     Q 0 (set_code_mapped 1 (set_u_vmm s' u))) ->
  wp usertask_ensure_code Q u.
Proof.
  intros [Hh _ _ Hc Hroom Hpg _ _] Hb HQ. unfold usertask_ensure_code. wp_step. wp_step.
  rewrite Hc. change (negb (0 =? 0)) with false. cbv iota zeta.
  destruct (Z.eqb_spec (lenZ user_bin) 0); [lia|]. unfold PAGE_SIZE.
  destruct (Z.ltb_spec 4096 (lenZ user_bin)); [lia|]. simpl orb. cbv iota.
  unfold vm. wp_step. wp_step. apply wp_alloc_frame; [done | lia|].
  intros f s1 Hf Hfn (Hh1 & Hu1 & Hn1 & Hp1). unfold IDENT_PAGES in Hf.
  wp_step; [bprop; lia|]. wp_step. wp_step.
  apply wp_map_free_page; [done | unfold IDENT_PAGES, USER_ENTRY; vm_compute; discriminate |
    unfold USER_ENTRY; lia | | lia |].
  { change (USER_ENTRY / 4096) with 0x40000. unfold mapped. rewrite Hp1 by (unfold NPAGES; lia).
    apply Hpg. lia. }
  intros s2 (Hh2 & Hv2 & Hm2 & Hf2 & Hp2). change (0 <? 0) with false. cbv iota.
  change (u_vmm (set_u_vmm s1 u)) with s1 in *.
  wp_step. wp_step. apply (wp_copy_code _ f); [apply Hh2 | done | done | unfold IDENT_PAGES; lia | lia |].
  intros s3 (Hi3 & Hv3 & Hp3). repeat wp_step.
  change (u_vmm (set_u_vmm s2 (set_u_vmm s1 u))) with s2 in *. change (USER_ENTRY / 4096) with 0x40000 in *.
  assert (H40 : 0 <= 0x40000 < NPAGES) by (unfold NPAGES; lia).
  apply (HQ f s3); try done.
  - split; [done | by rewrite Hv3, Hv2, Hn1; apply Hh|]. intros vp Hvp Hm.
    unfold mapped in Hm. rewrite Hp3 in * by done. by apply Hh2.
  - by rewrite Hv3, Hv2.
  - by rewrite Hv3, Hv2.
  - unfold mapped. by rewrite Hp3.
  - by rewrite Hp3.
  - intros vp Hvp Hne. by rewrite Hp3, Hp2, Hp1.
Qed.

Lemma wp_utask_spawn u nm (Q : Z -> utask -> Prop) :
  spawn_ready u -> 1 <= lenZ user_bin <= 4096 -> terminated nm ->
  (forall p u', first_spawned u p u' -> Q p u') -> wp (utask_spawn nm) Q u.
Proof.
  intros Hr Hb Ht HQ. pose proof Hr as [Hh Hs [Hsl Hs0] Hc Hroom Hpg (i & Hi & Hfree) Hpid].
  unfold utask_spawn. wp_step. change (span 0 USER_MAX_TASKS) with 6%nat. cbn [for_].
  wp_step. wp_step. wp_step. wp_step. apply wp_aget; [lia|]. rewrite Hs0.
  change (0 =? 0) with true. cbv iota. wp_step. wp_step. cbv iota. change (0 <? 0) with false. cbv iota. wp_step. apply wp_ensure_code; [done | done |].
  intros f s1 Hf Hfn Hh1 Hu1 Hn1 Hm1 Hf1 Hp1. change (0 <? 0) with false. cbv iota zeta.
  assert (Hsz : Z.of_nat (size (used_set (vpm s1))) = Z.of_nat (size (used_set (vpm (u_vmm u)))) + 1).
  { rewrite Hu1, size_union, size_singleton; [lia | set_solver]. }
  unfold vm. wp_step. wp_step. apply wp_alloc_frame; [done | simpl; lia |].
  change (u_vmm (set_code_mapped 1 (set_u_vmm s1 u))) with s1.
  intros g s2 Hg Hgn (Hh2 & Hu2 & Hn2 & Hp2). unfold IDENT_PAGES in Hg.
  wp_step; [bprop; lia|]. wp_step. wp_step. wp_step. simpl (g_user_slots _).
  apply wp_aget; [lia|]. rewrite Hs0. change (negb (0 =? 0)) with false. cbv iota. repeat wp_step.
  change (u32 (USER_STACK_BASE + 0 * USER_STACK_SIZE)) with (0x40010 * 4096).
  assert (H10 : 0x40010 * 4096 / 4096 = 0x40010) by reflexivity.
  apply wp_map_free_page; rewrite ?H10; [done | unfold IDENT_PAGES; lia | lia | | lia |].
  { change (u_vmm _) with s2. unfold mapped. rewrite Hp2, Hp1 by (unfold NPAGES; lia). apply Hpg. lia. }
  change (u_vmm (set_u_vmm s2 _)) with s2.
  intros s3 (Hh3 & Hv3 & Hm3 & Hg3 & Hp3). change (0 <? 0) with false. cbv iota.
  unfold sc. wp_step. wp_step.
  apply wp_sched_add; [apply Hs | apply (si_kstacks _ Hs) | done | |].
  { intros Hno. by case (Hno i Hi). }
  intros j t Hj _ _ [_ (_ & Hst & _ & Hent & Hue & _) _ _ _ _ _ _].
  change (u_sched (set_u_vmm s3 _)) with (u_sched u) in *.
  assert (Hs32 : s32 (g_next_pid (u_sched u)) = g_next_pid (u_sched u)).
  { unfold s32. rewrite u32_small by lia. destruct (Z.ltb_spec (g_next_pid (u_sched u)) 2147483648); lia. }
  rewrite Hs32. wp_step; [bprop; lia|]. wp_step. wp_step. wp_step. simpl (g_user_slots _).
  apply wp_aset; [lia|]. repeat wp_step. apply HQ.
  assert (H40 : 0 <= 0x40000 < NPAGES /\ 0 <= 0x40010 < NPAGES) by (unfold NPAGES; lia).
  assert (Hpt : pte s3 0x40000 = pte s1 0x40000).
  { rewrite Hp3, Hp2; [done | apply H40 | apply H40 | lia]. }
  split; simpl; try done.
  - exists j. split; [done|]. by split.
  - exists f, g. assert (Hne : f <> g) by (intros ->; apply Hgn; rewrite Hu1; set_solver).
    split; [done|]. split; [done|]. split; [intros Hin; apply Hgn; rewrite Hu1; set_solver|].
    change USER_ENTRY with (0x40000 * 4096 + 0). change USER_STACK_BASE with (0x40010 * 4096 + 0).
    rewrite (translate_page s3 0x40000 f 0), (translate_page s3 0x40010 g 0);
      rewrite ?Z.add_0_r; try apply Hh3; try apply H40; try done; try lia; [|by rewrite Hpt].
    unfold mapped. by rewrite Hpt.
  - intros vp Hvp Hn40 Hn10. unfold mapped. by rewrite Hp3, Hp2, Hp1.
Qed.
End Spawn.

(** C39: the first [utask_spawn] creates a runnable ring-3 task: the program
    page and the page at the bottom of the stack area get two distinct frames
    that were free, and no other page is mapped or unmapped.  But the stack
    pointer given to the task is 16 bytes below the end of the 32 KiB area, in
    its eighth page, which stays unmapped: the task's first push faults. *)
Theorem utask_first_push_faults {klayout : KernelLayout} {slayout : SchedLayout} {binary : UserBinary} u nm :
  spawn_ready u -> 1 <= lenZ user_bin <= 4096 -> terminated nm ->
  exists p u', utask_spawn nm u = Ok p u' /\ first_spawned u p u' /\
    exists i, st (u_sched u') i = S_RUNNABLE /\
      translate (u_vmm u') (user_esp (task (u_sched u') i) - 4) = None.
Proof.
  intros Hr Hb Ht. apply wp_ok. apply wp_utask_spawn; [done..|]. intros p u' Hf. split; [done|].
  destruct Hf as [_ (i & Hst & _ & Hesp) Hh _ Ho]. exists i. split; [done|]. rewrite Hesp.
  rewrite translate_pte; [|apply Hh | lia]. change ((0x40017FF0 - 4) / 4096) with 0x40017.
  rewrite Ho; [|unfold NPAGES; lia | lia | lia]. rewrite (sr_pages u Hr) by lia. done.
Qed.

(** * A concrete instance *)

#[export] Instance demo_binary : UserBinary := {| user_bin := [0x55; 0x89; 0xE5; 0xEB; 0xFE] |}.

Definition demo_utask : utask := mkUtask ident_vmm two_tasks 0 (replicate 6 0).

Lemma demo_spawn_ready : spawn_ready demo_utask.
Proof.
  split.
  - apply ident_heap_inv.
  - apply two_tasks_inv.
  - split; reflexivity.
  - reflexivity.
  - apply ident_room.
  - intros vp Hvp. change (u_vmm demo_utask) with ident_vmm. unfold mapped.
    rewrite ident_unmapped; [reflexivity | unfold IDENT_PAGES, NPAGES; lia].
  - exists 3. split; [lia|]. left. vm_compute. reflexivity.
  - vm_compute. split; reflexivity.
Qed.

Lemma utask_first_push_faults_witness :
  exists p u', utask_spawn demo_name demo_utask = Ok p u' /\
    exists i, translate (u_vmm u') (user_esp (task (u_sched u') i) - 4) = None.
Proof.
  destruct (utask_first_push_faults demo_utask demo_name) as (p & u' & H1 & _ & i & _ & H2).
  - exact demo_spawn_ready.
  - vm_compute. split; discriminate.
  - exact demo_terminated.
  - exists p, u'. split; [exact H1|]. exists i. exact H2.
Defined.
