(* ===== verification/Ipc.v ===== *)
(** Messages between tasks: [src/kernel/task/ipc.c] and [src/include/ipc.h].

    The file uses a member [ipc] of [task_t] and a state [S_BLOCKED_IPC] that
    [sched.h] does not declare, and the build leaves it out.  Here the members
    are a list beside the task table and the state is a parameter. *)
From Stdlib Require Import ZArith Lia List.
From stdpp Require Import base tactics numbers list gmap strings option.
From S2P Require Import Prelude CString Sched.
Open Scope Z_scope.

Definition IPC_MSG_SIZE : Z := 128.
Definition IPC_IDLE : Z := 0.
Definition IPC_SENDING : Z := 1.
Definition IPC_RECEIVING : Z := 2.

Record ipc_msg_t : Type := mkMsg { m_type : Z; m_from : Z; m_data : list Z }.
Definition set_m_from (v : Z) (m : ipc_msg_t) : ipc_msg_t := mkMsg (m_type m) v (m_data m).
(** [bzero] of a message. *)
Definition msg0 : ipc_msg_t := mkMsg 0 0 (replicate (Z.to_nat (IPC_MSG_SIZE / 4 - 2)) 0).

Record ipc_slot_t : Type := mkSlot { s_state : Z; s_partner : Z; s_msg : ipc_msg_t }.
Definition set_s_state (v : Z) (x : ipc_slot_t) : ipc_slot_t := mkSlot v (s_partner x) (s_msg x).
Definition set_s_partner (v : Z) (x : ipc_slot_t) : ipc_slot_t := mkSlot (s_state x) v (s_msg x).
Definition set_s_msg (v : ipc_msg_t) (x : ipc_slot_t) : ipc_slot_t := mkSlot (s_state x) (s_partner x) v.
Definition slot0 : ipc_slot_t := mkSlot IPC_IDLE 0 msg0.

(** The tasks and their [ipc] members. *)
Record ipcs : Type := mkIpcs { i_sched : sched; i_slots : list ipc_slot_t }.
Definition set_i_sched (v : sched) (s : ipcs) : ipcs := mkIpcs v (i_slots s).
Definition set_i_slots (v : list ipc_slot_t) (s : ipcs) : ipcs := mkIpcs (i_sched s) v.

Section Operations.
Variable S_BLOCKED_IPC : Z.
Notation I := (M ipcs).

Definition tsk {A} (m : M sched A) : I A := zoom i_sched set_i_sched m.
Definition slot_at (i : Z) : I ipc_slot_t := fun s =>
  match i_slots s !! Z.to_nat i with Some x => Ok x s | None => Stuck OutOfBounds s end.
Definition slot_upd (i : Z) (f : ipc_slot_t -> ipc_slot_t) : I unit :=
  x ← slot_at i;
  modify (fun s => set_i_slots (<[Z.to_nat i := f x]> (i_slots s)) s).

Definition ipc_init : I Z := mret 0.

(** The index of the task, or [None] for the null pointer. *)
Definition find_task (p : Z) : I (option Z) :=
  r ← for_ (span 0 SCHED_MAX_TASKS) 0 tt (fun i _ =>
    t ← tsk (task_at i);
    if (pid t =? p) && negb (state t =? S_EMPTY) && negb (state t =? S_ZOMBIE) then mret (Ret i)
    else mret (Cont tt));
  match r with inl _ => mret None | inr i => mret (Some i) end.

(** The message is what the pointer addresses, [None] for the null pointer. *)
Definition ipc_send (dest : Z) (msg : option ipc_msg_t) : I Z :=
  match msg with
  | None => mret (-1)
  | Some m =>
      p ← tsk sched_pid;
      self ← find_task p;
      match self with
      | None => mret (-1)
      | Some self =>
          target ← find_task dest;
          match target with
          | None => mret (-1)
          | Some target =>
              x ← slot_at target;
              if negb (s_state x =? IPC_IDLE) then
                tsk (task_upd self (set_state S_BLOCKED_IPC));;
                slot_upd self (set_s_state IPC_SENDING);;
                slot_upd self (set_s_partner dest);;
                slot_upd self (set_s_msg m);;
                tsk sched_yield;;
                mret 0
              else
                slot_upd target (set_s_state IPC_IDLE);;
                t ← tsk (task_at self);
                slot_upd target (set_s_partner (pid t));;
                slot_upd target (set_s_msg m);;
                slot_upd target (fun x => set_s_msg (set_m_from (pid t) (s_msg x)) x);;
                tt' ← tsk (task_at target);
                (if state tt' =? S_BLOCKED_IPC then tsk (task_upd target (set_state S_RUNNABLE)) else mret tt);;
                mret 0
          end
      end
  end.

(** The result and what the pointer addresses afterwards. *)
Definition ipc_recv (src : Z) (msg : option ipc_msg_t) : I (Z * option ipc_msg_t) :=
  match msg with
  | None => mret (-1, None)
  | Some m =>
      p ← tsk sched_pid;
      self ← find_task p;
      match self with
      | None => mret (-1, Some m)
      | Some self =>
          x ← slot_at self;
          if (s_state x =? IPC_IDLE) && negb (m_type (s_msg x) =? 0) then
            slot_upd self (set_s_msg msg0);;
            mret (0, Some (s_msg x))
          else
            tsk (task_upd self (set_state S_BLOCKED_IPC));;
            slot_upd self (set_s_state IPC_RECEIVING);;
            slot_upd self (set_s_partner src);;
            tsk sched_yield;;
            x ← slot_at self;
            slot_upd self (set_s_msg msg0);;
            slot_upd self (set_s_state IPC_IDLE);;
            mret (0, Some (s_msg x))
      end
  end.

Definition ipc_reply (dest : Z) (msg : option ipc_msg_t) : I Z :=
  match msg with
  | None => mret (-1)
  | Some m =>
      target ← find_task dest;
      match target with
      | None => mret (-1)
      | Some target =>
          slot_upd target (set_s_msg m);;
          p ← tsk sched_pid;
          slot_upd target (fun x => set_s_msg (set_m_from p (s_msg x)) x);;
          t ← tsk (task_at target);
          x ← slot_at target;
          (if (state t =? S_BLOCKED_IPC) && (s_state x =? IPC_SENDING) then
             tsk (task_upd target (set_state S_RUNNABLE));;
             slot_upd target (set_s_state IPC_IDLE)
           else mret tt);;
          mret 0
      end
  end.
End Operations.
