(* ===== verification/IpcFacts.v ===== *)
(** What the message operations promise and what they do not: a message
    delivered to a task is received with the sender's number, a second one
    erases the first, and a receiver without a message does not wait. *)
From Stdlib Require Import ZArith Lia List.
From stdpp Require Import base tactics numbers list gmap strings option.
From S2P Require Import Prelude CString Sched Ipc.
Open Scope Z_scope.

Section Facts.
Variable S_BLOCKED_IPC : Z.
Hypothesis blocked_new : ~ 0 <= S_BLOCKED_IPC <= 3.
Implicit Types s : ipcs.

Definition live (v : sched) (i : Z) : Prop := st v i <> S_EMPTY /\ st v i <> S_ZOMBIE.
Definition islot s (i : Z) : ipc_slot_t := default slot0 (i_slots s !! Z.to_nat i).

(** The tables have their size, a live task runs, and no two live tasks have
    the same number. *)
Record ipc_ok s : Prop := {
  io_tasks : lenZ (g_tasks (i_sched s)) = 8;
  io_slots : length (i_slots s) = 8%nat;
  io_cur : 0 <= g_cur (i_sched s) < 8;
  io_live : live (i_sched s) (g_cur (i_sched s));
  io_pids : forall i j, 0 <= i < 8 -> 0 <= j < 8 -> live (i_sched s) i -> live (i_sched s) j ->
    pid (task (i_sched s) i) = pid (task (i_sched s) j) -> i = j
}.

Lemma wp_tsk {A} (m : M sched A) (Q : A -> ipcs -> Prop) s :
  wp m (fun a v => Q a (set_i_sched v s)) (i_sched s) -> wp (tsk m) Q s.
Proof. intros Hm. unfold tsk. wp_step. exact Hm. Qed.

Lemma set_i_sched_id s : set_i_sched (i_sched s) s = s.
Proof. by destruct s. Qed.

Lemma wp_slot_at i (Q : ipc_slot_t -> ipcs -> Prop) s :
  0 <= i < 8 -> length (i_slots s) = 8%nat -> Q (islot s i) s -> wp (slot_at i) Q s.
Proof.
  intros Hi Hl HQ. unfold wp, slot_at, islot in *. destruct (lookup_lt_is_Some_2 (i_slots s) (Z.to_nat i)) as [x Hx]; [lia|].
  by rewrite Hx in *.
Qed.

Definition supd (i : Z) (f : ipc_slot_t -> ipc_slot_t) s : ipcs := set_i_slots (<[Z.to_nat i := f (islot s i)]> (i_slots s)) s.
Lemma wp_slot_upd i f (Q : unit -> ipcs -> Prop) s :
  0 <= i < 8 -> length (i_slots s) = 8%nat -> Q tt (supd i f s) -> wp (slot_upd i f) Q s.
Proof. intros Hi Hl HQ. unfold slot_upd. wp_step. apply wp_slot_at; [done..|]. by wp_step. Qed.
Lemma length_supd i f s : length (i_slots (supd i f s)) = length (i_slots s).
Proof. simpl. by rewrite length_insert. Qed.
Lemma islot_supd i f s : 0 <= i < 8 -> length (i_slots s) = 8%nat -> islot (supd i f s) i = f (islot s i).
Proof. intros Hi Hl. unfold islot at 1. simpl. rewrite list_lookup_insert_eq by lia. done. Qed.
Lemma supd_supd i f g s : 0 <= i < 8 -> length (i_slots s) = 8%nat -> supd i g (supd i f s) = supd i (fun x => g (f x)) s.
Proof. intros Hi Hl. unfold supd at 1. rewrite islot_supd by done. unfold supd. simpl. by rewrite list_insert_insert_eq. Qed.

(** ** Looking a task up *)

Lemma wp_find_task p (Q : option Z -> ipcs -> Prop) s :
  lenZ (g_tasks (i_sched s)) = 8 ->
  (forall i, 0 <= i < 8 -> live (i_sched s) i -> pid (task (i_sched s) i) = p -> Q (Some i) s) ->
  ((forall i, 0 <= i < 8 -> live (i_sched s) i -> pid (task (i_sched s) i) <> p) -> Q None s) ->
  wp (find_task p) Q s.
Proof.
  intros Hl Hyes Hno. unfold find_task. wp_step.
  apply (wp_for (fun i _ s' => s' = s /\ forall j, 0 <= j < i -> live (i_sched s) j -> pid (task (i_sched s) j) <> p)).
  - split; [done | lia].
  - intros i [] s' Hi [-> Hn]. unfold span, SCHED_MAX_TASKS in Hi. wp_step. apply wp_tsk, wp_task_at; [lia|].
    rewrite set_i_sched_id. fold (st (i_sched s) i).
    destruct (Z.eqb_spec (pid (task (i_sched s) i)) p), (Z.eqb_spec (st (i_sched s) i) S_EMPTY),
      (Z.eqb_spec (st (i_sched s) i) S_ZOMBIE); cbn [andb negb]; wp_step.
    4: { wp_step. apply Hyes; [lia | by split | done]. }
    all: split; [done|]; intros j Hj Hlj; destruct (decide (j = i)) as [->|]; [by destruct Hlj | apply Hn; [lia | done]].
  - intros [] s' [-> Hn]. unfold span, SCHED_MAX_TASKS in Hn. wp_step. apply Hno. intros i Hi. apply Hn. lia.
Qed.

Lemma wp_find_pid i (Q : option Z -> ipcs -> Prop) s :
  ipc_ok s -> 0 <= i < 8 -> live (i_sched s) i -> Q (Some i) s -> wp (find_task (pid (task (i_sched s) i))) Q s.
Proof.
  intros Hs Hi Hl HQ. apply wp_find_task; [apply Hs | |].
  - intros j Hj Hlj Hp. by rewrite (io_pids s Hs j i) by done.
  - intros Hno. by case (Hno i Hi Hl).
Qed.

(** Both operations begin with the caller's own entry. *)
Lemma wp_self {A} (f : option Z -> M ipcs A) (Q : A -> ipcs -> Prop) s :
  ipc_ok s -> wp (f (Some (g_cur (i_sched s)))) Q s -> wp (p ← tsk sched_pid; x ← find_task p; f x) Q s.
Proof.
  intros Hs Hf. pose proof (io_cur s Hs). wp_step. apply wp_tsk. unfold sched_pid. wp_step. wp_step. wp_step.
  apply wp_task_at; [rewrite (io_tasks s Hs); done|]. wp_step. rewrite set_i_sched_id. wp_step.
  by apply wp_find_pid; [| | apply Hs |].
Qed.

(** ** Delivery *)

(** A task that waits is made runnable. *)
Definition woken (i : Z) (v : sched) : sched := if st v i =? S_BLOCKED_IPC then upd i (set_state S_RUNNABLE) v else v.

Lemma woken_fields i j v : 0 <= i < lenZ (g_tasks v) -> 0 <= j ->
  pid (task (woken i v) j) = pid (task v j) /\ (live (woken i v) j <-> live v j) /\ lenZ (g_tasks (woken i v)) = lenZ (g_tasks v) /\
  g_cur (woken i v) = g_cur v.
Proof.
  intros Hi Hj. unfold woken. destruct (Z.eqb_spec (st v i) S_BLOCKED_IPC) as [He|]; [|done].
  unfold live, st in *. rewrite task_upd_eq, lenZ_upd by done. destruct (Z.eqb_spec i j) as [<-|]; [|done].
  split_and!; try done. cbn [state set_state]. unfold S_RUNNABLE, S_EMPTY, S_ZOMBIE in *. split; [lia | done].
Qed.

Lemma woken_twice i v : 0 <= i < lenZ (g_tasks v) -> woken i (woken i v) = woken i v.
Proof.
  intros Hi. unfold woken at 2 3. destruct (Z.eqb_spec (st v i) S_BLOCKED_IPC) as [He|Hne].
  - unfold woken, st. rewrite task_upd_eq, Z.eqb_refl by lia. cbn [state set_state].
    destruct (Z.eqb_spec S_RUNNABLE S_BLOCKED_IPC); [unfold S_RUNNABLE in *; lia | done].
  - unfold woken. by destruct (Z.eqb_spec (st v i) S_BLOCKED_IPC).
Qed.

(** What an idle target is left with. *)
Definition delivered (p : Z) (m : ipc_msg_t) (i : Z) s : ipcs :=
  set_i_sched (woken i (i_sched s)) (supd i (fun _ => mkSlot IPC_IDLE p (set_m_from p m)) s).

Lemma wp_ipc_send m i (Q : Z -> ipcs -> Prop) s :
  ipc_ok s -> 0 <= i < 8 -> live (i_sched s) i -> s_state (islot s i) = IPC_IDLE ->
  Q 0 (delivered (pid (task (i_sched s) (g_cur (i_sched s)))) m i s) ->
  wp (ipc_send S_BLOCKED_IPC (pid (task (i_sched s) i)) (Some m)) Q s.
Proof.
  intros Hs Hi Hl Hidle HQ. unfold ipc_send. apply wp_self; [done|]. cbv beta iota. pose proof (io_slots s Hs) as Hsl.
  pose proof (io_tasks s Hs) as Htl. pose proof (io_cur s Hs) as Hc.
  wp_step. apply wp_find_pid; [done..|]. cbv iota. wp_step. apply wp_slot_at; [done..|]. rewrite Hidle, Z.eqb_refl. cbn [negb].
  wp_step. apply wp_slot_upd; [done..|]. wp_step. apply wp_tsk, wp_task_at; [cbn; lia|]. rewrite set_i_sched_id.
  change (i_sched (supd i ?f s)) with (i_sched s).
  wp_step. apply wp_slot_upd; [done | by rewrite length_supd |]. wp_step.
  apply wp_slot_upd; [done | by rewrite !length_supd |]. wp_step. apply wp_slot_upd; [done | by rewrite !length_supd |].
  rewrite !supd_supd by (done || by rewrite !length_supd). cbn [set_s_msg set_s_state set_s_partner s_state s_partner s_msg].
  wp_step. apply wp_tsk, wp_task_at; [cbn; lia|]. rewrite set_i_sched_id. fold (st (i_sched s) i).
  change (state (task (i_sched (supd i ?f s)) i)) with (st (i_sched s) i). unfold delivered, woken in HQ.
  wp_step. destruct (st (i_sched s) i =? S_BLOCKED_IPC).
  - apply wp_tsk, wp_task_upd; [cbn; lia|]. wp_step. exact HQ.
  - wp_step. wp_step. exact HQ.
Qed.

Lemma delivered_ok p m i s : ipc_ok s -> 0 <= i < 8 -> ipc_ok (delivered p m i s).
Proof.
  intros Hs Hi. pose proof (io_tasks s Hs) as Htl. pose proof (io_cur s Hs) as Hc.
  assert (Hw : forall j, 0 <= j -> pid (task (woken i (i_sched s)) j) = pid (task (i_sched s) j) /\
    (live (woken i (i_sched s)) j <-> live (i_sched s) j) /\ lenZ (g_tasks (woken i (i_sched s))) = lenZ (g_tasks (i_sched s)) /\
    g_cur (woken i (i_sched s)) = g_cur (i_sched s)) by (intros j Hj; apply woken_fields; lia).
  destruct (Hw 0 ltac:(lia)) as (_ & _ & Hlen & Hcur). split; cbn [i_sched delivered set_i_sched].
  - by rewrite Hlen.
  - change (length (i_slots (supd i (fun _ => mkSlot IPC_IDLE p (set_m_from p m)) s)) = 8%nat). rewrite length_supd. apply Hs.
  - by rewrite Hcur.
  - rewrite Hcur. apply Hw; [lia | apply Hs].
  - intros j k Hj Hk Hlj Hlk. destruct (Hw j ltac:(lia)) as (-> & Hij & _). destruct (Hw k ltac:(lia)) as (-> & Hik & _).
    apply (io_pids s Hs); tauto.
Qed.

Lemma wp_ipc_recv_pending src junk (Q : Z * option ipc_msg_t -> ipcs -> Prop) s :
  ipc_ok s -> let x := islot s (g_cur (i_sched s)) in s_state x = IPC_IDLE -> m_type (s_msg x) <> 0 ->
  Q (0, Some (s_msg x)) (supd (g_cur (i_sched s)) (set_s_msg msg0) s) ->
  wp (ipc_recv S_BLOCKED_IPC src (Some junk)) Q s.
Proof.
  intros Hs x Hidle Ht HQ. unfold ipc_recv. apply wp_self; [done|]. cbv iota. pose proof (io_slots s Hs) as Hsl.
  pose proof (io_cur s Hs) as Hc. wp_step. apply wp_slot_at; [done..|]. fold x. rewrite Hidle, Z.eqb_refl.
  destruct (Z.eqb_spec (m_type (s_msg x)) 0); [done|]. cbn [andb negb]. wp_step. apply wp_slot_upd; [done..|]. by wp_step.
Qed.
(** C22: a message whose type is not 0 (a type of 0 marks an empty entry) sent
    to a live task that has none is received by it: the send returns 0, and when the task is the one that runs, its next receive
    returns 0 with the message, the number of the sender in it, and leaves its
    entry empty. *)
Theorem ipc_roundtrip m i s :
  ipc_ok s -> 0 <= i < 8 -> live (i_sched s) i -> s_state (islot s i) = IPC_IDLE -> m_type m <> 0 ->
  exists s', ipc_send S_BLOCKED_IPC (pid (task (i_sched s) i)) (Some m) s = Ok 0 s' /\
    forall src junk, exists s'',
      ipc_recv S_BLOCKED_IPC src (Some junk) (set_i_sched (set_g_cur i (i_sched s')) s') =
        Ok (0, Some (set_m_from (pid (task (i_sched s) (g_cur (i_sched s)))) m)) s'' /\
      s_msg (islot s'' i) = msg0.
Proof.
  intros Hs Hi Hl Hidle Ht. set (p := pid (task (i_sched s) (g_cur (i_sched s)))). pose proof (io_slots s Hs) as Hsl.
  pose proof (io_tasks s Hs) as Htl.
  exists (delivered p m i s). split.
  { cut (wp (ipc_send S_BLOCKED_IPC (pid (task (i_sched s) i)) (Some m)) (fun r s' => r = 0 /\ s' = delivered p m i s) s);
      [by intros (r & s' & -> & -> & ->)%wp_ok | by apply wp_ipc_send]. }
  intros src junk. pose proof (delivered_ok p m i s Hs Hi) as Hd. set (s1 := delivered p m i s) in *.
  set (s2 := set_i_sched (set_g_cur i (i_sched s1)) s1).
  assert (Hslot : islot s2 i = mkSlot IPC_IDLE p (set_m_from p m)) by (exact (islot_supd i _ s Hi Hsl)).
  assert (Hlive : live (i_sched s1) i) by (by apply (woken_fields i i (i_sched s)); [lia.. |]).
  assert (H2 : ipc_ok s2) by (destruct Hd; by split).
  set (s3 := supd i (set_s_msg msg0) s2). exists s3.
  cut (wp (ipc_recv S_BLOCKED_IPC src (Some junk)) (fun r s' => r = (0, Some (set_m_from p m)) /\ s' = s3) s2).
  - intros (r & s' & -> & -> & ->)%wp_ok. split; [done|]. unfold s3. rewrite islot_supd; [done | done | apply H2].
  - apply wp_ipc_recv_pending; [done | ..]; change (g_cur (i_sched s2)) with i; by rewrite Hslot.
Qed.

(** A message that has not been received is erased by the next one: to
    send two messages to the same task has the result of sending the second
    alone, though the operation is written to make the second sender wait. *)
Theorem ipc_send_erases m1 m2 i s :
  ipc_ok s -> 0 <= i < 8 -> live (i_sched s) i -> s_state (islot s i) = IPC_IDLE ->
  (ipc_send S_BLOCKED_IPC (pid (task (i_sched s) i)) (Some m1);;
   ipc_send S_BLOCKED_IPC (pid (task (i_sched s) i)) (Some m2)) s =
  ipc_send S_BLOCKED_IPC (pid (task (i_sched s) i)) (Some m2) s.
Proof.
  intros Hs Hi Hl Hidle. set (p := pid (task (i_sched s) (g_cur (i_sched s)))). pose proof (io_slots s Hs) as Hsl.
  pose proof (io_tasks s Hs) as Htl. pose proof (io_cur s Hs) as Hc.
  assert (Hone : forall m s', ipc_ok s' -> live (i_sched s') i -> s_state (islot s' i) = IPC_IDLE ->
    ipc_send S_BLOCKED_IPC (pid (task (i_sched s') i)) (Some m) s' =
    Ok 0 (delivered (pid (task (i_sched s') (g_cur (i_sched s')))) m i s')).
  { intros m s' Hs' Hl' Hi'. cut (wp (ipc_send S_BLOCKED_IPC (pid (task (i_sched s') i)) (Some m)) (fun r s'' => r = 0 /\
      s'' = delivered (pid (task (i_sched s') (g_cur (i_sched s')))) m i s') s');
      [by intros (r & s'' & -> & -> & ->)%wp_ok | by apply wp_ipc_send]. }
  rewrite (bind_ok _ _ _ _ _ (Hone m1 s Hs Hl Hidle)), (Hone m2 s Hs Hl Hidle). fold p.
  set (s1 := delivered p m1 i s). pose proof (delivered_ok p m1 i s Hs Hi) as H1. fold s1 in H1.
  pose proof (woken_fields i i (i_sched s) ltac:(lia) ltac:(lia)) as (Hp & Hlv & _ & Hcur).
  pose proof (woken_fields i (g_cur (i_sched s)) (i_sched s) ltac:(lia) ltac:(lia)) as (Hpc & _).
  change (woken i (i_sched s)) with (i_sched s1) in *.
  rewrite <- Hp. rewrite (Hone m2 s1 H1); [|by apply Hlv | exact (f_equal s_state (islot_supd i (fun _ => mkSlot IPC_IDLE p (set_m_from p m1)) s Hi Hsl))].
  rewrite Hcur, Hpc. fold p. f_equal. unfold s1, delivered. change (i_sched (set_i_sched ?v ?x)) with v.
  rewrite woken_twice by lia. unfold supd. cbn [set_i_sched set_i_slots i_slots i_sched]. by rewrite list_insert_insert_eq.
Qed.

(** ** Waiting *)

Lemma upd_upd c f g (v : sched) : 0 <= c < lenZ (g_tasks v) -> upd c f (upd c g v) = upd c (fun t => f (g t)) v.
Proof.
  intros Hc. unfold upd at 1. rewrite task_upd_eq, Z.eqb_refl by lia. unfold upd. cbn [g_tasks set_g_tasks].
  by rewrite list_insert_insert_eq.
Qed.
Lemma upd_set_rr c f r (v : sched) : upd c f (set_g_rr r v) = set_g_rr r (upd c f v).
Proof. done. Qed.

(** Where [sched_yield] leaves the scheduler. *)
Definition after_yield (d : Z) (v : sched) : sched :=
  set_force_switch 1 (switched (Sched.slot v d) (upd (g_cur v) (set_state S_RUNNABLE)
    (upd (g_cur v) (set_saved_esp (sched_cur_esp v)) (set_g_rr ((Sched.slot v d + 1) mod 8) v)))).

Lemma first_runnable_unique v d e : first_runnable v d -> first_runnable v e -> d = e.
Proof.
  intros (Hd & Hrd & Hfd) (He & Hre & Hfe). destruct (Z.lt_trichotomy d e) as [Hlt|[->|Hgt]]; [|done|].
  - by case (Hfe d ltac:(lia)).
  - by case (Hfd e ltac:(lia)).
Qed.

Lemma yield_result v d : sched_inv v -> first_runnable v d -> sched_yield v = Ok tt (after_yield d v).
Proof.
  intros Hv Hd. cut (wp sched_yield (fun _ v' => v' = after_yield d v) v); [by intros (v' & -> & ->)%wp_unit|].
  apply wp_sched_yield; [done | |].
  - intros Hno. case (Hno _ (slot_range v d) (proj1 (proj2 Hd))).
  - intros e He. by rewrite (first_runnable_unique v d e Hd He).
Qed.

(** The state a task is given before it yields is lost: [sched_yield] makes it
    runnable. *)
Lemma yield_unblocks v d : sched_inv v -> first_runnable v d ->
  sched_yield (upd (g_cur v) (set_state S_BLOCKED_IPC) v) = Ok tt (after_yield d v).
Proof.
  intros Hv Hd. pose proof (si_len v Hv) as Hl. pose proof (si_cur v Hv) as Hc. pose proof (si_rr v Hv) as Hr.
  set (c := g_cur v) in *. set (v1 := upd c (set_state S_BLOCKED_IPC) v).
  assert (Hl1 : lenZ (g_tasks v1) = 8) by (subst v1; by autorewrite with arr).
  assert (Hrun : forall i, 0 <= i < 8 -> runnable v1 i <-> runnable v i).
  { intros i Hi. unfold runnable, v1. rewrite st_upd by lia. destruct (Z.eqb_spec c i) as [<-|]; [|done].
    rewrite (proj2 (si_running v Hv c Hc) eq_refl). cbn [state set_state]. unfold S_RUNNABLE, S_RUNNING. split; lia. }
  cut (wp sched_yield (fun _ v' => v' = after_yield d v) v1); [by intros (v' & -> & ->)%wp_unit|].
  unfold sched_yield. wp_step. wp_step. change (g_enabled v1) with (g_enabled v).
  destruct (Z.eqb_spec (g_enabled v) 0) as [H0|_]; [by case (si_enabled v Hv)|].
  wp_step. apply wp_sched_pick; [done | done | |].
  - intros e He Hre Hfe. change (Sched.slot v1 e) with (Sched.slot v e) in *. pose proof (slot_range v e) as Hi.
    assert (He' : first_runnable v e).
    { split; [done|]. split; [by apply Hrun|]. intros k Hk Hrk. apply (Hfe k Hk). apply Hrun; [apply slot_range | done]. }
    rewrite (first_runnable_unique v e d He' Hd) in *. set (i := Sched.slot v d) in *.
    pose proof (runnable_not_cur v i Hv Hi (proj1 (proj2 Hd))) as Hne. fold c in Hne.
    wp_step. wp_step. change (g_cur (set_g_rr ?r v1)) with c. destruct (Z.eqb_spec i c); [done|].
    wp_step. wp_step. wp_step. apply wp_task_upd; [len_tasks|]. wp_step. apply wp_task_upd; [len_tasks|]. wp_step.
    apply wp_switch_to; [len_tasks|]. wp_step. unfold after_yield. fold c i. f_equal. f_equal.
    set (r := (i + 1) mod 8). change (sched_cur_esp (set_g_rr r v1)) with (sched_cur_esp v).
    unfold v1. rewrite !upd_set_rr, !upd_upd by (rewrite ?lenZ_upd; lia). done.
  - intros Hno. case (Hno _ (slot_range v d)). apply Hrun; [apply slot_range | apply Hd].
Qed.

(** A task that receives with no message does not wait for one, though the
    operation is written to block it: it returns 0 at once with the empty
    entry as the message, and what it does to the scheduler is exactly what
    [sched_yield] does, so the task is runnable and not blocked. *)
Theorem ipc_recv_never_waits src junk d s :
  ipc_ok s -> sched_inv (i_sched s) -> first_runnable (i_sched s) d ->
  m_type (s_msg (islot s (g_cur (i_sched s)))) = 0 ->
  exists s', ipc_recv S_BLOCKED_IPC src (Some junk) s = Ok (0, Some (s_msg (islot s (g_cur (i_sched s))))) s' /\
    sched_yield (i_sched s) = Ok tt (i_sched s') /\ st (i_sched s') (g_cur (i_sched s)) = S_RUNNABLE /\
    islot s' (g_cur (i_sched s)) = mkSlot IPC_IDLE src msg0.
Proof.
  intros Hs Hv Hd Ht. set (c := g_cur (i_sched s)) in *. pose proof (io_slots s Hs) as Hsl. pose proof (io_tasks s Hs) as Htl.
  pose proof (io_cur s Hs) as Hc. fold c in Hc. set (x := islot s c) in *.
  set (s' := set_i_sched (after_yield d (i_sched s)) (supd c (fun _ => mkSlot IPC_IDLE src msg0) s)).
  exists s'. split; [|split; [by apply yield_result | split]].
  - cut (wp (ipc_recv S_BLOCKED_IPC src (Some junk)) (fun r s2 => r = (0, Some (s_msg x)) /\ s2 = s') s);
      [by intros (r & s2 & -> & -> & ->)%wp_ok|].
    unfold ipc_recv. apply wp_self; [done|]. cbv iota. fold c. wp_step. apply wp_slot_at; [done..|]. fold x. rewrite Ht.
    change (negb (0 =? 0)) with false. rewrite andb_false_r. wp_step. apply wp_tsk, wp_task_upd; [lia|].
    set (v1 := upd c (set_state S_BLOCKED_IPC) (i_sched s)). wp_step. apply wp_slot_upd; [done..|]. wp_step.
    apply wp_slot_upd; [done | by rewrite length_supd |]. rewrite supd_supd by done. wp_step. apply wp_tsk.
    change (i_sched (supd c _ _)) with v1. eapply wp_run; [by apply yield_unblocks|]. cbv beta.
    set (f := fun x0 : ipc_slot_t => set_s_partner src (set_s_state IPC_RECEIVING x0)).
    set (v2 := after_yield d (i_sched s)).
    change (set_i_sched v2 (supd c f (set_i_sched v1 s))) with (set_i_sched v2 (supd c f s)).
    assert (Hc2 : islot (set_i_sched v2 (supd c f s)) c = f x) by exact (islot_supd c f s Hc Hsl).
    assert (Hl2 : length (i_slots (set_i_sched v2 (supd c f s))) = 8%nat) by (exact (eq_trans (length_supd c f s) Hsl)).
    wp_step. apply wp_slot_at; [done..|]. rewrite Hc2. wp_step. apply wp_slot_upd; [done..|]. wp_step.
    apply wp_slot_upd; [done | by rewrite length_supd |]. rewrite supd_supd by done. wp_step. split; [done|].
    unfold supd at 1. rewrite Hc2. unfold s', supd. cbn [set_i_sched set_i_slots i_slots i_sched]. by rewrite list_insert_insert_eq.
  - change (i_sched s') with (after_yield d (i_sched s)). pose proof (slot_range (i_sched s) d) as Hi.
    pose proof (runnable_not_cur _ _ Hv Hi (proj1 (proj2 Hd))) as Hne. unfold after_yield. fold c.
    change (st (set_force_switch 1 (switched ?i ?v)) c) with (st (upd i (set_state S_RUNNING) v) c).
    rewrite st_upd by len_tasks. destruct (Z.eqb_spec (Sched.slot (i_sched s) d) c); [done|].
    rewrite st_upd, Z.eqb_refl by len_tasks. done.
  - exact (islot_supd c _ s Hc Hsl).
Qed.
End Facts.

(** * Examples *)

Definition demo_ipcs : ipcs := mkIpcs two_tasks (replicate 8 slot0).
Definition hello : ipc_msg_t := mkMsg 7 0 (replicate 30 42).

Lemma demo_ipc_ok : ipc_ok demo_ipcs.
Proof.
  split; [by vm_compute | done | by vm_compute | split; by vm_compute |].
  intros i j Hi Hj. assert (i = 0 \/ i = 1 \/ i = 2 \/ 3 <= i) as [-> |[-> |[-> | Hbig]]] by lia;
    (assert (j = 0 \/ j = 1 \/ j = 2 \/ 3 <= j) as [-> |[-> |[-> | Hbigj]]] by lia); try (intros _ _; by vm_compute).
  all: assert (Hdead : forall k, 3 <= k < 8 -> st two_tasks k = S_EMPTY)
    by (intros k Hk; assert (k = 3 \/ k = 4 \/ k = 5 \/ k = 6 \/ k = 7) as Hcase by lia;
        repeat destruct Hcase as [->|Hcase]; subst; by vm_compute).
  all: intros [Hl1 _] [Hl2 _]; exfalso; try (apply Hl1, Hdead; lia); apply Hl2, Hdead; lia.
Qed.

Lemma ipc_roundtrip_witness : exists s', ipc_send 4 1 (Some hello) demo_ipcs = Ok 0 s' /\
  exists s'', ipc_recv 4 0 (Some msg0) (set_i_sched (set_g_cur 1 (i_sched s')) s') = Ok (0, Some hello) s''.
Proof.
  assert (Hl : live (i_sched demo_ipcs) 1) by (split; by vm_compute).
  assert (Hp1 : pid (task (i_sched demo_ipcs) 1) = 1) by (by vm_compute).
  assert (Hp0 : pid (task (i_sched demo_ipcs) (g_cur (i_sched demo_ipcs))) = 0) by (by vm_compute).
  destruct (ipc_roundtrip 4 ltac:(lia) hello 1 demo_ipcs demo_ipc_ok ltac:(lia) Hl eq_refl ltac:(done)) as (s' & Hr & Hrecv).
  rewrite Hp1 in Hr. exists s'. split; [exact Hr|]. destruct (Hrecv 0 msg0) as (s'' & Hr2 & _). rewrite Hp0 in Hr2.
  exists s''. exact Hr2.
Defined.

Lemma ipc_send_erases_witness :
  (ipc_send 4 1 (Some hello);; ipc_send 4 1 (Some msg0)) demo_ipcs = ipc_send 4 1 (Some msg0) demo_ipcs.
Proof.
  assert (Hl : live (i_sched demo_ipcs) 1) by (split; by vm_compute).
  assert (Hp1 : pid (task (i_sched demo_ipcs) 1) = 1) by (by vm_compute).
  pose proof (ipc_send_erases 4 ltac:(lia) hello msg0 1 demo_ipcs demo_ipc_ok ltac:(lia) Hl eq_refl) as He.
  rewrite Hp1 in He. exact He.
Defined.

Lemma ipc_recv_never_waits_witness : exists s', ipc_recv 4 2 (Some hello) demo_ipcs = Ok (0, Some msg0) s' /\
  sched_yield (i_sched demo_ipcs) = Ok tt (i_sched s').
Proof.
  assert (Hd : first_runnable (i_sched demo_ipcs) 0) by (split; [lia|]; split; [by vm_compute | intros; lia]).
  destruct (ipc_recv_never_waits 4 ltac:(lia) 2 hello 0 demo_ipcs demo_ipc_ok two_tasks_inv Hd ltac:(by vm_compute))
    as (s' & Hr & Hy & _).
  exists s'. split; [|exact Hy]. assert (Hm : s_msg (islot demo_ipcs (g_cur (i_sched demo_ipcs))) = msg0) by (by vm_compute).
  rewrite Hm in Hr. exact Hr.
Defined.
