(* ===== verification/Bytes.v ===== *)
(** Little-endian fields in byte arrays.

    The file systems and drivers overlay packed C structs on byte buffers; a
    struct is modelled as the list of its bytes, and a field by its offset and
    width.  [ldN] and [stN] are checked against the buffer; [leN] and [putN]
    are the total accessors for objects of a fixed size. *)
From Stdlib Require Import ZArith Lia List.
From stdpp Require Import base tactics numbers list gmap strings option.
From S2P Require Import Prelude CString.
Open Scope Z_scope.

Definition le16 (l : list Z) (o : Z) : Z := rd l o + 256 * rd l (o + 1).
Definition le32 (l : list Z) (o : Z) : Z :=
  rd l o + 256 * rd l (o + 1) + 65536 * rd l (o + 2) + 16777216 * rd l (o + 3).
Definition put16 (l : list Z) (o v : Z) : list Z :=
  wr (wr l o (v mod 256)) (o + 1) (v / 256 mod 256).
Definition put32 (l : list Z) (o v : Z) : list Z :=
  wr (wr (wr (wr l o (v mod 256)) (o + 1) (v / 256 mod 256)) (o + 2) (v / 65536 mod 256))
    (o + 3) (v / 16777216 mod 256).

(** The object has the bytes [o] to [o + n - 1]. *)
Definition has (l : list Z) (o n : Z) : Prop := 0 <= o /\ o + n <= lenZ l.

Section Access.
Context {S : Type}.

Definition ld8 (l : list Z) (o : Z) : M S Z := aget l o.
Definition ld16 (l : list Z) (o : Z) : M S Z :=
  if decide (0 <= o /\ o + 2 <= lenZ l) then mret (le16 l o) else stuck OutOfBounds.
Definition ld32 (l : list Z) (o : Z) : M S Z :=
  if decide (0 <= o /\ o + 4 <= lenZ l) then mret (le32 l o) else stuck OutOfBounds.
Definition st8 (l : list Z) (o v : Z) : M S (list Z) := aset l o (u8 v).
Definition st16 (l : list Z) (o v : Z) : M S (list Z) :=
  if decide (0 <= o /\ o + 2 <= lenZ l) then mret (put16 l o v) else stuck OutOfBounds.
Definition st32 (l : list Z) (o v : Z) : M S (list Z) :=
  if decide (0 <= o /\ o + 4 <= lenZ l) then mret (put32 l o v) else stuck OutOfBounds.

(** Unsigned division and remainder by a value that may be zero. *)
Definition udiv (a b : Z) : M S Z := guard_or DivByZero (b <> 0);; mret (a / b).
Definition umod (a b : Z) : M S Z := guard_or DivByZero (b <> 0);; mret (a mod b).

Lemma wp_ld16 l o (Q : Z -> S -> Prop) s : has l o 2 -> Q (le16 l o) s -> wp (ld16 l o) Q s.
Proof. intros [? ?] ?. unfold ld16. by rewrite decide_True. Qed.
Lemma wp_ld32 l o (Q : Z -> S -> Prop) s : has l o 4 -> Q (le32 l o) s -> wp (ld32 l o) Q s.
Proof. intros [? ?] ?. unfold ld32. by rewrite decide_True. Qed.
Lemma wp_st8 l o v (Q : list Z -> S -> Prop) s : has l o 1 -> Q (wr l o (u8 v)) s -> wp (st8 l o v) Q s.
Proof. intros [? ?] ?. apply wp_aset; [lia | done]. Qed.
Lemma wp_st16 l o v (Q : list Z -> S -> Prop) s : has l o 2 -> Q (put16 l o v) s -> wp (st16 l o v) Q s.
Proof. intros [? ?] ?. unfold st16. by rewrite decide_True. Qed.
Lemma wp_st32 l o v (Q : list Z -> S -> Prop) s : has l o 4 -> Q (put32 l o v) s -> wp (st32 l o v) Q s.
Proof. intros [? ?] ?. unfold st32. by rewrite decide_True. Qed.
Lemma wp_udiv a b (Q : Z -> S -> Prop) s : b <> 0 -> Q (a / b) s -> wp (udiv a b) Q s.
Proof. intros. unfold udiv. apply wp_bind, wp_guard; done. Qed.
Lemma wp_umod a b (Q : Z -> S -> Prop) s : b <> 0 -> Q (a mod b) s -> wp (umod a b) Q s.
Proof. intros. unfold umod. apply wp_bind, wp_guard; done. Qed.
End Access.

Section Fields.
Implicit Types l : list Z.

Definition bytes (l : list Z) : Prop := forall j, 0 <= rd l j < 256.

Lemma lenZ_put16 l o v : lenZ (put16 l o v) = lenZ l.
Proof. unfold put16. by rewrite !lenZ_wr. Qed.
Lemma lenZ_put32 l o v : lenZ (put32 l o v) = lenZ l.
Proof. unfold put32. by rewrite !lenZ_wr. Qed.

Lemma bytes_of l : (forall j, 0 <= j < lenZ l -> 0 <= rd l j < 256) -> bytes l.
Proof.
  intros H j. destruct (decide (0 <= j < lenZ l)) as [Hj|Hj]; [by apply H|].
  unfold rd. destruct (decide (j < 0)).
  - destruct (decide (0 < lenZ l)) as [Hl|Hl].
    + replace (Z.to_nat j) with (Z.to_nat 0) by lia. apply (H 0). lia.
    + rewrite nth_overflow; [lia|]. unfold lenZ in Hl. lia.
  - rewrite nth_overflow; [lia|]. unfold lenZ in *. lia.
Qed.

Lemma le16_range l o : bytes l -> 0 <= le16 l o < 65536.
Proof. intros Hb. unfold le16. pose proof (Hb o). pose proof (Hb (o + 1)). lia. Qed.
Lemma le32_range l o : bytes l -> 0 <= le32 l o < 4294967296.
Proof.
  intros Hb. unfold le32. pose proof (Hb o). pose proof (Hb (o + 1)). pose proof (Hb (o + 2)).
  pose proof (Hb (o + 3)). lia.
Qed.

Lemma rd_put16 l o v j : has l o 2 -> 0 <= j ->
  rd (put16 l o v) j = if j =? o then v mod 256 else if j =? o + 1 then v / 256 mod 256 else rd l j.
Proof.
  intros [Ho Hl] Hj. unfold put16. rewrite !rd_wr by (rewrite ?lenZ_wr; lia). case_range; lia || done.
Qed.

Lemma rd_put32 l o v j : has l o 4 -> 0 <= j ->
  rd (put32 l o v) j = if j =? o then v mod 256 else if j =? o + 1 then v / 256 mod 256
    else if j =? o + 2 then v / 65536 mod 256 else if j =? o + 3 then v / 16777216 mod 256 else rd l j.
Proof.
  intros [Ho Hl] Hj. unfold put32. rewrite !rd_wr by (rewrite ?lenZ_wr; lia). case_range; lia || done.
Qed.

Lemma le16_put16 l o v : has l o 2 -> 0 <= v < 65536 -> le16 (put16 l o v) o = v.
Proof.
  intros H Hv. pose proof H as [? ?]. unfold le16. rewrite !rd_put16 by (done || lia).
  case_range; try lia. Z.div_mod_to_equations; lia.
Qed.

Lemma le32_put32 l o v : has l o 4 -> 0 <= v < 4294967296 -> le32 (put32 l o v) o = v.
Proof.
  intros H Hv. pose proof H as [? ?]. unfold le32. rewrite !rd_put32 by (done || lia).
  case_range; try lia. Z.div_mod_to_equations; lia.
Qed.

Lemma le16_put16_ne l o o' v : has l o 2 -> 0 <= o' -> o' + 2 <= o \/ o + 2 <= o' ->
  le16 (put16 l o v) o' = le16 l o'.
Proof. intros H Ho' Hd. unfold le16. rewrite !rd_put16 by (done || lia). case_range; lia || done. Qed.
Lemma le32_put16_ne l o o' v : has l o 2 -> 0 <= o' -> o' + 4 <= o \/ o + 2 <= o' ->
  le32 (put16 l o v) o' = le32 l o'.
Proof. intros H Ho' Hd. unfold le32. rewrite !rd_put16 by (done || lia). case_range; lia || done. Qed.
Lemma le16_put32_ne l o o' v : has l o 4 -> 0 <= o' -> o' + 2 <= o \/ o + 4 <= o' ->
  le16 (put32 l o v) o' = le16 l o'.
Proof. intros H Ho' Hd. unfold le16. rewrite !rd_put32 by (done || lia). case_range; lia || done. Qed.
Lemma le32_put32_ne l o o' v : has l o 4 -> 0 <= o' -> o' + 4 <= o \/ o + 4 <= o' ->
  le32 (put32 l o v) o' = le32 l o'.
Proof. intros H Ho' Hd. unfold le32. rewrite !rd_put32 by (done || lia). case_range; lia || done. Qed.

Lemma bytes_wr l o v : bytes l -> 0 <= v < 256 -> bytes (wr l o v).
Proof.
  intros Hb Hv j. specialize (Hb j). unfold rd, wr in *. rewrite nth_lookup in *.
  destruct (decide (Z.to_nat o = Z.to_nat j)) as [->|].
  - destruct (decide (Z.to_nat j < Datatypes.length l)%nat).
    + by rewrite list_lookup_insert_eq.
    + by rewrite list_insert_ge by lia.
  - by rewrite list_lookup_insert_ne.
Qed.
Lemma bytes_put16 l o v : bytes l -> bytes (put16 l o v).
Proof. intros Hb. unfold put16. repeat apply bytes_wr; try done; apply Z.mod_pos_bound; lia. Qed.
Lemma bytes_put32 l o v : bytes l -> bytes (put32 l o v).
Proof. intros Hb. unfold put32. repeat apply bytes_wr; try done; apply Z.mod_pos_bound; lia. Qed.

(** Two objects that agree on the bytes of a field agree on the field. *)
Lemma le16_ext l l' o o' : (forall k, 0 <= k < 2 -> rd l (o + k) = rd l' (o' + k)) -> le16 l o = le16 l' o'.
Proof.
  intros H. unfold le16. pose proof (H 0 ltac:(lia)) as H0. rewrite !Z.add_0_r in H0.
  by rewrite H0, (H 1) by lia.
Qed.
Lemma le32_ext l l' o o' : (forall k, 0 <= k < 4 -> rd l (o + k) = rd l' (o' + k)) -> le32 l o = le32 l' o'.
Proof.
  intros H. unfold le32. pose proof (H 0 ltac:(lia)) as H0. rewrite !Z.add_0_r in H0.
  by rewrite H0, (H 1), (H 2), (H 3) by lia.
Qed.
End Fields.
#[export] Hint Rewrite lenZ_put16 lenZ_put32 : arr.

(** * Uninitialised memory *)

(** The bytes an uninitialised local array happens to hold. *)
Class Locals := {
  junk : Z -> Z;
  junk_byte : forall k, 0 <= junk k < 256
}.
Definition local_array `{Locals} (n : Z) : list Z := map junk (seqZ 0 n).

Section LocalArrays.
Context `{Locals}.

Lemma lenZ_local n : 0 <= n -> lenZ (local_array n) = n.
Proof. apply lenZ_map_seqZ. Qed.
Lemma bytes_local n : 0 <= n -> bytes (local_array n).
Proof.
  intros Hn. apply bytes_of. intros j Hj. rewrite lenZ_local in Hj by done.
  unfold local_array. rewrite rd_map_seqZ by done. apply junk_byte.
Qed.
End LocalArrays.

(** * Examples *)

(** Locals that start with zeroes. *)
#[export] Instance demo_locals : Locals.
Proof. refine {| junk := fun _ => 0 |}. done. Defined.

(** A property of every byte of a concrete array. *)
Lemma bytes_by_compute l : forallb (fun v => (0 <=? v) && (v <? 256)) l = true -> bytes l.
Proof.
  intros Hl. apply bytes_of. intros j Hj. rewrite forallb_forall in Hl.
  assert (Hin : In (rd l j) l).
  { unfold rd. apply nth_In. unfold lenZ in Hj. lia. }
  apply Hl in Hin. bprop. lia.
Qed.

(** What a run returns. *)
Definition returns {S A} (m : M S A) (s : S) (v : A) : Prop := exists s', m s = Ok v s'.

Lemma returns_by_compute {S A} (m : M S A) s v :
  match m s with Ok a _ => Some a | Stuck _ _ => None end = Some v -> returns m s v.
Proof. unfold returns. destruct (m s); [|done]. intros [= ->]. eauto. Qed.
