(* ===== verification/Buffer.v ===== *)
(** Editing a string in an array: insertion, deletion, and the array that holds
    the string. *)
From Stdlib Require Import ZArith Lia List.
From stdpp Require Import base tactics numbers list.
From S2P Require Import Prelude CString Bytes.
Open Scope Z_scope.

(** No character of the string is the terminator. *)
Definition nonzeros (w : list Z) : Prop := Forall (fun c => c <> 0) w.

Lemma cstr_app w l : nonzeros w -> cstr (w ++ l) = w ++ cstr l.
Proof.
  intros Hw. induction Hw as [|c w Hc _ IH]; [done|]. simpl. destruct (Z.eqb_spec c 0); [done|]. by rewrite IH.
Qed.

Lemma nonzeros_cstr l : nonzeros (cstr l).
Proof. induction l as [|c l IH]; [constructor|]. simpl. destruct (Z.eqb_spec c 0); by constructor. Qed.

Definition ins (p : Z) (c : Z) (t : list Z) : list Z := take (Z.to_nat p) t ++ c :: drop (Z.to_nat p) t.
Definition del (p q : Z) (t : list Z) : list Z := take (Z.to_nat p) t ++ drop (Z.to_nat q) t.

Section Buffer.

(** The buffer holds the string [t]. *)
Definition holds (buf t : list Z) : Prop :=
  lenZ t < lenZ buf /\ nonzeros t /\ (forall i, 0 <= i < lenZ t -> rd buf i = rd t i) /\ rd buf (lenZ t) = 0.

Lemma holds_cstr buf t : holds buf t -> cstr buf = t /\ terminated buf.
Proof.
  intros (Hl & Hn & Hr & Hz). pose proof (lenZ_nonneg t). assert (Hc : cstr buf = t).
  { apply cstr_unique; [lia | | done]. intros i Hi. split; [by apply Hr|].
    pose proof (Forall_rd _ _ _ Hn Hi). done. }
  split; [done|]. unfold terminated. by rewrite Hc.
Qed.

Lemma lenZ_ins p c t : 0 <= p <= lenZ t -> lenZ (ins p c t) = lenZ t + 1.
Proof. intros Hp. unfold ins. rewrite lenZ_app, lenZ_take by lia. unfold lenZ. simpl. rewrite length_drop. unfold lenZ in Hp. lia. Qed.

Lemma lenZ_del p q t : 0 <= p <= q -> q <= lenZ t -> lenZ (del p q t) = lenZ t - (q - p).
Proof. intros Hp Hq. unfold del. rewrite lenZ_app, lenZ_take, lenZ_drop by lia. lia. Qed.

Lemma rd_ins p c t i : 0 <= p <= lenZ t -> 0 <= i <= lenZ t ->
  rd (ins p c t) i = if i <? p then rd t i else if i =? p then c else rd t (i - 1).
Proof.
  intros Hp Hi. unfold ins. case_range.
  - rewrite rd_app_l by (rewrite lenZ_take; lia). by rewrite rd_take by lia.
  - subst. rewrite rd_app_r by (rewrite lenZ_take; lia). rewrite lenZ_take, Z.sub_diag by lia. done.
  - rewrite rd_app_r by (rewrite lenZ_take; lia). rewrite lenZ_take by lia.
    replace (i - p) with (1 + (i - 1 - p)) by lia. unfold rd at 1.
    replace (Z.to_nat (1 + (i - 1 - p))) with (S (Z.to_nat (i - 1 - p))) by lia. cbn [nth].
    change (rd (drop (Z.to_nat p) t) (i - 1 - p) = rd t (i - 1)). rewrite rd_drop by lia. f_equal. lia.
Qed.

Lemma rd_del p q t i : 0 <= p <= q -> q <= lenZ t -> 0 <= i ->
  rd (del p q t) i = if i <? p then rd t i else rd t (i + (q - p)).
Proof.
  intros Hp Hq Hi. unfold del. case_range.
  - rewrite rd_app_l by (rewrite lenZ_take; lia). by rewrite rd_take by lia.
  - rewrite rd_app_r by (rewrite lenZ_take; lia). rewrite lenZ_take, rd_drop by lia. f_equal. lia.
Qed.

Lemma nonzeros_ins p c t : c <> 0 -> nonzeros t -> nonzeros (ins p c t).
Proof. intros Hc Ht. apply Forall_app. split; [by apply Forall_take|]. constructor; [done | by apply Forall_drop]. Qed.
Lemma nonzeros_del p q t : nonzeros t -> nonzeros (del p q t).
Proof. intros Ht. apply Forall_app. split; [by apply Forall_take | by apply Forall_drop]. Qed.

Lemma holds_of_app t l : nonzeros t -> holds (t ++ 0 :: l) t.
Proof.
  intros Hn. pose proof (lenZ_nonneg t). assert (lenZ (0 :: l) = 1 + lenZ l) by (unfold lenZ; simpl; lia). pose proof (lenZ_nonneg l).
  split; [rewrite lenZ_app; lia|]. split; [done|]. split; [intros i Hi; apply rd_app_l; lia|].
  by rewrite rd_app_r, Z.sub_diag by lia.
Qed.

(** Making room for a character, and closing a gap. *)
Lemma holds_ins buf t p c r : holds buf t -> 0 <= p <= lenZ t -> lenZ t + 1 < lenZ buf -> c <> 0 ->
  copied buf (p + 1) buf p (lenZ t - p + 1) r -> holds (wr r p c) (ins p c t).
Proof.
  intros (Hl & Hn & Hr & Hz) Hp Hroom Hc [Hlr Hrr]. unfold holds. rewrite lenZ_wr, lenZ_ins by lia.
  split; [lia|]. split; [by apply nonzeros_ins|]. split.
  - intros i Hi. rewrite rd_ins, rd_wr by lia. rewrite (Z.eqb_sym p i).
    rewrite Hrr by lia. case_range; try lia; try done; [|by apply Hr; lia].
    replace (p + (i - (p + 1))) with (i - 1) by lia. apply Hr. lia.
  - rewrite rd_wr, Hrr by lia. case_range; try lia. replace (p + (lenZ t + 1 - (p + 1))) with (lenZ t) by lia. done.
Qed.

Lemma holds_del buf t p q r : holds buf t -> 0 <= p <= q -> q <= lenZ t ->
  copied buf p buf q (lenZ t - q + 1) r -> holds r (del p q t).
Proof.
  intros (Hl & Hn & Hr & Hz) Hp Hq [Hlr Hrr]. unfold holds. rewrite lenZ_del by lia.
  split; [lia|]. split; [by apply nonzeros_del|]. split.
  - intros i Hi. rewrite rd_del, Hrr by lia. case_range; try lia; [|by apply Hr; lia].
    replace (q + (i - p)) with (i + (q - p)) by lia. apply Hr. lia.
  - rewrite Hrr by lia. case_range; try lia. replace (q + (lenZ t - (q - p) - p)) with (lenZ t) by lia. done.
Qed.

Lemma take_holds buf t p : holds buf t -> 0 <= p <= lenZ t -> take (Z.to_nat p) buf = take (Z.to_nat p) t.
Proof.
  intros (Hl & _ & Hr & _) Hp. apply rd_ext; [rewrite !lenZ_take by lia; done|].
  intros i Hi. rewrite lenZ_take in Hi by lia. rewrite !rd_take by lia. apply Hr. lia.
Qed.
End Buffer.

Lemma holds_cut l t p : holds l t -> 0 <= p <= lenZ t -> holds (wr l p 0) (take (Z.to_nat p) t).
Proof.
  intros (Hl & Hn & Hr & Hz) Hp. unfold holds. rewrite lenZ_wr, lenZ_take by lia. split; [lia|].
  split; [by apply Forall_take|]. split; [|apply rd_wr_eq; lia].
  intros i Hi. rewrite rd_wr, rd_take by lia. case_range; [lia | apply Hr; lia].
Qed.

(** * The string functions, on the strings the arrays hold *)

Section Strings.
Context {S : Type}.
Implicit Types s : S.

Lemma wp_strlen_holds l t (Q : Z -> S -> Prop) s : holds l t -> Q (lenZ t) s -> wp (strlen l) Q s.
Proof. intros Ht HQ. destruct (holds_cstr _ _ Ht) as [Hc Hterm]. apply wp_strlen; [done | by rewrite Hc]. Qed.

Lemma wp_strcmp_holds l1 t1 l2 t2 (Q : Z -> S -> Prop) s : holds l1 t1 -> holds l2 t2 -> bytes l1 -> bytes l2 ->
  (forall v, (v = 0 <-> t1 = t2) -> Q v s) -> wp (strcmp l1 l2) Q s.
Proof.
  intros H1 H2 Hb1 Hb2 HQ. destruct (holds_cstr _ _ H1) as [Hc1 Ht1], (holds_cstr _ _ H2) as [Hc2 Ht2].
  apply wp_strcmp; [done | done | by rewrite Hc1, Hc2 |].
  intros l Hl. apply list_elem_of_In in Hl as [<-|[<-|[]]]; assumption.
Qed.

Lemma wp_strcpy dst src t (Q : list Z -> S -> Prop) s : holds src t -> lenZ t < lenZ dst ->
  (forall r, lenZ r = lenZ dst -> holds r t -> (bytes dst -> bytes t -> bytes r) -> Q r s) -> wp (strcpy dst src) Q s.
Proof.
  intros Hs Hd HQ. pose proof Hs as (Hl & Hn & Hr & Hz). pose proof (lenZ_nonneg t). unfold strcpy. apply wp_bind, wp_locals.
  apply (wp_while (fun '(i, r) s' => s' = s /\ 0 <= i <= lenZ t /\ lenZ r = lenZ dst /\
      (forall j, 0 <= j < i -> rd r j = rd t j) /\ (bytes dst -> bytes t -> bytes r))
    (fun '(i, _) _ => Z.to_nat (lenZ t - i))).
  - split; [done|]. split; [lia|]. split; [done|]. split; [lia | done].
  - unfold lenZ in *. lia.
  - intros [i r] s' (-> & Hi & Hlr & Hrr & Hb). wp_step. apply wp_aget; [lia|].
    destruct (decide (i = lenZ t)) as [->|].
    + rewrite Hz. simpl. wp_step. apply wp_aset; [lia|]. apply HQ; [by rewrite lenZ_wr | | intros; apply bytes_wr; [by apply Hb | lia]].
      split; [rewrite lenZ_wr; lia|]. split; [done|]. split; [|apply rd_wr_eq; lia].
      intros j Hj. rewrite rd_wr_ne by lia. apply Hrr. lia.
    + rewrite Hr by lia. pose proof (Forall_rd _ _ i Hn ltac:(lia)) as Hnz. simpl in Hnz.
      destruct (Z.eqb_spec (rd t i) 0); [done|]. simpl. wp_step. apply wp_aset; [lia|]. wp_step.
      split; [|lia]. split; [done|]. split; [lia|]. split; [by rewrite lenZ_wr|]. split.
      * intros j Hj. rewrite rd_wr by lia. case_range; [by subst | apply Hrr; lia].
      * intros Hbd Hbt. apply bytes_wr; [by apply Hb | apply Hbt].
Qed.

(** [strncpy(dst, src, n - 1); dst[n - 1] = 0;] keeps what fits. *)
Lemma wp_strncpy_cut dst src t n (Q : list Z -> S -> Prop) s : holds src t -> 0 < n <= lenZ dst ->
  (forall r, lenZ r = lenZ dst -> holds r (take (Z.to_nat (n - 1)) t) -> (bytes dst -> bytes src -> bytes r) -> Q r s) ->
  wp (r ← strncpy dst src (n - 1); aset r (n - 1) 0) Q s.
Proof.
  intros Hs Hn HQ. destruct (holds_cstr _ _ Hs) as [Hc Ht]. pose proof Hs as (Hl & Hnz & Hr & Hz). pose proof (lenZ_nonneg t).
  wp_step. apply wp_strncpy; [lia | done|]. rewrite Hc. intros r Hlr Hrr. apply wp_aset; [lia|].
  assert (Hbytes : bytes dst -> bytes src -> bytes (wr r (n - 1) 0)).
  { intros Hbd Hbs. apply bytes_wr; [|lia]. apply bytes_of. intros j Hj. rewrite Hrr by lia.
    case_range; [apply Hbs | lia | apply Hbd]. }
  apply HQ; [by rewrite lenZ_wr | | done].
  assert (Htk : lenZ (take (Z.to_nat (n - 1)) t) = Z.min (n - 1) (lenZ t)) by (unfold lenZ in *; rewrite length_take; lia).
  split; [rewrite lenZ_wr; lia|]. split; [by apply Forall_take|]. rewrite Htk. split.
  - intros i Hi. rewrite rd_wr_ne, Hrr, rd_take by lia. case_range; try lia. apply Hr. lia.
  - rewrite rd_wr by lia. case_range; [done|]. rewrite Hrr by lia. case_range; lia.
Qed.

(** * [snprintf] with strings *)

(** The text of a format whose only conversions are "%s". *)
Fixpoint fmt_text (f : list Z) (ap : list fmt_arg) : option (list Z) :=
  match f with
  | [] => Some []
  | a :: rest =>
      if a =? 37 then
        match rest, ap with
        | c :: r, ArgStr l :: ap' => if c =? 115 then app (cstr l) <$> fmt_text r ap' else None
        | _, _ => None
        end
      else if a =? 0 then Some [] else cons a <$> fmt_text rest ap
  end.

Definition byte_args (ap : list fmt_arg) : Prop := Forall (fun a => match a with ArgStr l => bytes l /\ terminated l | ArgInt _ => True end) ap.

(** What the array holds after [o] characters of the text [u]. *)
Definition printed (str0 : list Z) (u r : list Z) (o : Z) : Prop :=
  lenZ r = lenZ str0 /\ 0 <= o <= lenZ u /\ (forall j, 0 <= j < o -> rd r j = rd u j) /\ bytes r.

Lemma wp_snprintf_text str size format u ap (Q : list Z * Z -> S -> Prop) s :
  0 < size <= lenZ str -> terminated format -> fmt_text format ap = Some u -> nonzeros u ->
  bytes str -> bytes format -> byte_args ap ->
  (forall r, lenZ r = lenZ str -> holds r (take (Z.to_nat (size - 1)) u) -> bytes r -> Q (r, Z.min (size - 1) (lenZ u)) s) ->
  wp (snprintf str size format ap) Q s.
Proof.
  intros Hsz Ht Hu Hnz Hbs Hbf Hba HQ. unfold snprintf. pose proof (lenZ_nonneg u) as Hu0. apply wp_bind, wp_locals.
  assert (Hend : forall r o, printed str u r o -> o = Z.min (size - 1) (lenZ u) ->
    wp (r ← (if o <? size then aset r o 0 else mret r); mret (r, o)) Q s).
  { intros r o (Hlr & Ho & Hrr & Hb) ->. destruct (Z.ltb_spec (Z.min (size - 1) (lenZ u)) size); [|lia].
    wp_step. apply wp_aset; [lia|]. wp_step. apply HQ; [by rewrite lenZ_wr | | by apply bytes_wr].
    assert (Htk : lenZ (take (Z.to_nat (size - 1)) u) = Z.min (size - 1) (lenZ u)) by (unfold lenZ in *; rewrite length_take; lia).
    split; [rewrite lenZ_wr; lia|]. split; [by apply Forall_take|]. rewrite Htk. split; [|apply rd_wr_eq; lia].
    intros i Hi. rewrite rd_wr_ne, rd_take by lia. apply Hrr. lia. }
  apply (wp_while (fun '(i, o, r, ap) s' => s' = s /\ 0 <= i <= lenZ (cstr format) /\ printed str u r o /\ o <= size - 1 /\ byte_args ap /\
      (o < size - 1 -> fmt_text (drop (Z.to_nat i) format) ap = Some (drop (Z.to_nat o) u)))
    (fun '(i, _, _, _) _ => Z.to_nat (lenZ (cstr format) - i))).
  - split; [done|]. split; [pose proof (lenZ_nonneg (cstr format)); lia|]. split; [split; [done|]; split; [lia|]; split; [lia | done]|].
    split; [lia|]. split; [done|]. intros _. exact Hu.
  - unfold terminated, lenZ in *. lia.
  - intros [[[i o] r] ap'] s' (-> & Hi & Hp & Hos & Hba' & Hf). pose proof Hp as (Hlr & Ho & Hrr & Hb).
    pose proof Ht as Ht'. unfold terminated in Ht'. wp_step. apply wp_aget; [lia|].
    destruct (Z.ltb_spec (o + 1) size) as [Hroom|]; [|rewrite andb_false_r; wp_step; apply Hend; [done | lia]].
    rewrite andb_true_r. specialize (Hf ltac:(lia)). rewrite (drop_rd format i) in Hf by lia. cbn [fmt_text] in Hf.
    destruct (Z.eqb_spec (rd format i) 37) as [H37|].
    + rewrite H37. simpl. destruct (drop (Z.to_nat (i + 1)) format) as [|x rest] eqn:Hd; [done|].
      destruct ap' as [|[l|n] ap']; try done. destruct (Z.eqb_spec x 115) as [->|]; [|done].
      assert (Hil : i + 1 < lenZ format) by (apply (f_equal lenZ) in Hd; rewrite lenZ_drop in Hd by lia; unfold lenZ in *; simpl in Hd; lia).
      pose proof Hd as Hd2. rewrite (drop_rd format (i + 1)) in Hd2 by lia. injection Hd2 as H115 Hrest.
      destruct (Forall_inv Hba') as [Hbl Htl]. apply fmap_Some in Hf as (u2 & Hf & Hu2).
      assert (Hi2 : i + 2 <= lenZ (cstr format)).
      { destruct (decide (i + 1 < lenZ (cstr format))); [lia|]. assert (i = lenZ (cstr format) \/ i + 1 = lenZ (cstr format)) as [He|He] by lia.
        - rewrite He, cstr_end in H37; [done | done].
        - rewrite He, cstr_end in H115; [done | done]. }
      do 2 wp_step. apply wp_aget; [lia|]. rewrite H115. simpl. wp_step. wp_step. apply wp_aget; [lia|]. rewrite H115. simpl.
      do 2 wp_step. unfold va_str. wp_step. wp_step. unfold snprintf_put. wp_step. apply wp_strlen; [done|]. cbv zeta. cbn [fst snd].
      assert (Hlu : lenZ u - o = lenZ (cstr l) + lenZ u2) by (rewrite <- (lenZ_drop u o), Hu2, lenZ_app by lia; done).
      pose proof (lenZ_nonneg (cstr l)). pose proof (lenZ_nonneg u2). unfold terminated in Htl.
      set (tl := if size <=? o + lenZ (cstr l) then size - o - 1 else lenZ (cstr l)).
      assert (Htl2 : 0 <= tl <= lenZ (cstr l) /\ o + tl <= size - 1 /\ (o + tl < size - 1 -> tl = lenZ (cstr l)))
        by (subst tl; destruct (Z.leb_spec size (o + lenZ (cstr l))); lia).
      wp_step. apply wp_memcpy; try lia. intros r' [Hlr' Hcr]. do 3 wp_step. cbn [fst snd].
      split; [|lia]. split; [done|]. split; [lia|]. split; [|split; [lia|]; split; [by apply Forall_inv_tail in Hba'|]].
      * split; [lia|]. split; [lia|]. split.
        -- intros j Hj. rewrite Hcr by lia. destruct (Z.leb_spec o j); simpl; [|apply Hrr; lia].
           destruct (Z.ltb_spec j (o + tl)); [|lia]. rewrite <- rd_cstr by lia.
           replace (rd u j) with (rd (drop (Z.to_nat o) u) (j - o)) by (rewrite rd_drop by lia; f_equal; lia).
           rewrite Hu2, rd_app_l by lia. done.
        -- apply bytes_of. intros j Hj. rewrite Hcr by lia. destruct (_ && _); [apply Hbl | apply Hb].
      * intros Hlt. replace (Z.to_nat (i + 2)) with (Z.to_nat (i + 1) + 1)%nat by lia. rewrite <- drop_drop, Hd. simpl. rewrite drop_0, Hf.
        destruct Htl2 as (_ & _ & ->); [|lia]. replace (Z.to_nat (o + lenZ (cstr l))) with (Z.to_nat o + Datatypes.length (cstr l))%nat by (unfold lenZ; lia).
        by rewrite <- drop_drop, Hu2, drop_app_length.
    + destruct (Z.eqb_spec (rd format i) 0) as [H0|Hn0]; simpl.
      { wp_step. apply Hend; [done|]. injection Hf as Hf. apply (f_equal lenZ) in Hf. rewrite lenZ_drop in Hf by lia.
        change (lenZ []) with 0 in Hf. lia. }
      apply fmap_Some in Hf as (u2 & Hf & Hu2).
      assert (Hlu : o < lenZ u) by (apply (f_equal lenZ) in Hu2; rewrite lenZ_drop in Hu2 by lia; unfold lenZ in *; simpl in Hu2; lia).
      rewrite (drop_rd u o) in Hu2 by lia. injection Hu2 as Hc Hu2.
      assert (Hil : i < lenZ (cstr format)).
      { destruct (decide (i < lenZ (cstr format))); [done|]. destruct Hn0. replace i with (lenZ (cstr format)) by lia. by apply cstr_end. }
      do 3 wp_step. apply wp_aset; [lia|]. wp_step. split; [|lia]. split; [done|]. split; [lia|].
      split; [|split; [lia|]; split; [done | intros _; by rewrite Hf, Hu2]].
      split; [by rewrite lenZ_wr|]. split; [lia|]. split; [|apply bytes_wr; [done | apply Hbf]].
      intros j Hj. rewrite rd_wr by lia. case_range; [by subst | apply Hrr; lia].
Qed.
End Strings.
