(* ===== verification/Ata.v ===== *)
(** ATA disks in PIO mode: [src/kernel/dev/ata.c].

    The controller is behind its I/O ports, which are a parameter of the
    model: reading or writing a port may change the state [P] of the hardware
    in any way.  [BlockDevice] is what the file systems see of the driver. *)
From Stdlib Require Import ZArith Lia List.
From stdpp Require Import base tactics numbers list gmap strings option.
From S2P Require Import Prelude CString.
Open Scope Z_scope.

(** The port instructions of [io.h] on the hardware. *)
Class Ports (P : Type) := {
  port_inb : Z -> P -> Z * P;
  port_outb : Z -> Z -> P -> P;
  port_inw : Z -> P -> Z * P;
  port_outw : Z -> Z -> P -> P
}.

(** What a file system uses of a disk driver: [read_sectors drive lba count
    buf off] fills [buf] from [off] and returns 0 or -1 with the buffer;
    [write_sectors drive lba count buf off] returns 0 or -1. *)
Class BlockDevice (D : Type) := {
  read_sectors : Z -> Z -> Z -> list Z -> Z -> M D (Z * list Z);
  write_sectors : Z -> Z -> Z -> list Z -> Z -> M D Z
}.

Definition ATA_PRIMARY_IO : Z := 0x1F0.
Definition ATA_PRIMARY_CTRL : Z := 0x3F6.
Definition ATA_PRIMARY_IRQ : Z := 14.
Definition ATA_SECONDARY_IO : Z := 0x170.
Definition ATA_SECONDARY_CTRL : Z := 0x376.
Definition ATA_SECONDARY_IRQ : Z := 15.
Definition ATA_REG_DATA : Z := 0.
Definition ATA_REG_SECCOUNT : Z := 2.
Definition ATA_REG_LBA_LO : Z := 3.
Definition ATA_REG_LBA_MID : Z := 4.
Definition ATA_REG_LBA_HI : Z := 5.
Definition ATA_REG_DRIVE_HEAD : Z := 6.
Definition ATA_REG_STATUS : Z := 7.
Definition ATA_REG_COMMAND : Z := 7.
Definition ATA_SR_BSY : Z := 0x80.
Definition ATA_SR_DRDY : Z := 0x40.
Definition ATA_SR_DRQ : Z := 0x08.
Definition ATA_SR_ERR : Z := 0x01.
Definition ATA_CMD_READ_PIO : Z := 0x20.
Definition ATA_CMD_WRITE_PIO : Z := 0x30.
Definition ATA_CMD_IDENTIFY : Z := 0xEC.
Definition ATA_SECTOR_SIZE : Z := 512.

Record ata_device_t : Type := mkAtaDevice {
  present : Z;
  is_master : Z;
  base : Z;
  ctrl : Z;
  irq : Z;
  signature : list Z;
  model : list Z;
  capacity_sectors : Z;
  drive_type : Z
}.

Definition zero_device : ata_device_t :=
  mkAtaDevice 0 0 0 0 0 (replicate 2 0) (replicate 41 0) 0 0.

Record ata (P : Type) : Type := mkAta {
  ports : P;
  ata_devices : list ata_device_t;
  ata_initialized : Z
}.
Arguments mkAta {P} _ _ _.
Arguments ports {P} _.
Arguments ata_devices {P} _.
Arguments ata_initialized {P} _.

Definition set_ports {P} (p : P) (s : ata P) : ata P := mkAta p (ata_devices s) (ata_initialized s).
Definition set_ata_devices {P} (l : list ata_device_t) (s : ata P) : ata P :=
  mkAta (ports s) l (ata_initialized s).
Definition set_ata_initialized {P} (v : Z) (s : ata P) : ata P := mkAta (ports s) (ata_devices s) v.

(** [ata_devices[i]] with [0 <= i < 4]. *)
Definition device (l : list ata_device_t) (i : Z) : ata_device_t :=
  nth (Z.to_nat i) l zero_device.

Section Operations.
Context {P : Type} `{Ports P}.

Definition inb (port : Z) : M (ata P) Z := fun s =>
  let '(v, p) := port_inb (u16 port) (ports s) in Ok (u8 v) (set_ports p s).
Definition outb (port v : Z) : M (ata P) unit :=
  modify (fun s => set_ports (port_outb (u16 port) (u8 v) (ports s)) s).
Definition inw (port : Z) : M (ata P) Z := fun s =>
  let '(v, p) := port_inw (u16 port) (ports s) in Ok (u16 v) (set_ports p s).
Definition outw (port v : Z) : M (ata P) unit :=
  modify (fun s => set_ports (port_outw (u16 port) (u16 v) (ports s)) s).

(** The words are stored with the low byte first. *)
Definition ata_insw (port : Z) (buf : list Z) (off count : Z) : M (ata P) (list Z) :=
  locals (for_ (span 0 count) 0 buf (fun i buf =>
    v ← inw port;
    buf ← aset buf (off + 2 * i) (v mod 256);
    buf ← aset buf (off + 2 * i + 1) (v / 256);
    mret (Cont buf))).

Definition ata_outsw (port : Z) (buf : list Z) (off count : Z) : M (ata P) unit :=
  locals (for_ (span 0 count) 0 tt (fun i _ =>
    lo ← aget buf (off + 2 * i);
    hi ← aget buf (off + 2 * i + 1);
    outw port (lo + 256 * hi);;
    mret (Cont tt))).

Definition ata_wait (base mask expected timeout : Z) : M (ata P) Z :=
  r ← for_ (span 0 timeout) 0 tt (fun tries _ =>
    status ← inb (base + ATA_REG_STATUS);
    if negb (Z.land status ATA_SR_ERR =? 0) then mret (Ret (-1))
    else if Z.land status mask =? expected then mret (Ret 0)
    else mret (Cont tt));
  match r with inl _ => mret (-1) | inr v => mret v end.

Definition ata_detect_drive (base drive : Z) : M (ata P) Z :=
  outb (base + ATA_REG_DRIVE_HEAD) (Z.lor 0xA0 (Z.shiftl drive 4));;
  ata_wait base ATA_SR_DRDY ATA_SR_DRDY 1000;;
  outb (base + ATA_REG_COMMAND) ATA_CMD_IDENTIFY;;
  status ← inb (base + ATA_REG_STATUS);
  if status =? 0 then mret 0
  else if negb (Z.land status ATA_SR_ERR =? 0) then mret 0
  else
    w ← ata_wait base ATA_SR_DRQ ATA_SR_DRQ 100000;
    if negb (w =? 0) then mret 0
    else
      lba_mid ← inb (base + ATA_REG_LBA_MID);
      lba_hi ← inb (base + ATA_REG_LBA_HI);
      if negb (lba_mid =? 0) && negb (lba_hi =? 0) then mret 0
      else
        buf ← ata_insw (base + ATA_REG_DATA) (replicate 512 0) 0 256;
        b0 ← aget buf 120;
        b1 ← aget buf 121;
        b2 ← aget buf 122;
        b3 ← aget buf 123;
        let lba28_sectors :=
          Z.lor (Z.lor (Z.lor b0 (Z.shiftl b1 8)) (Z.shiftl b2 16)) (u32 (Z.shiftl b3 24)) in
        mret (if 0 <? lba28_sectors then s32 lba28_sectors else 0).

Definition ata_get_model (base drive : Z) (model : list Z) (max_len : Z) : M (ata P) (list Z) :=
  model ← locals (for_ (span 0 max_len) 0 model (fun i model =>
    model ← aset model i 32;
    mret (Cont model)));
  model ← aset model (max_len - 1) 0;
  if max_len <? 40 then mret model
  else
    outb (base + ATA_REG_DRIVE_HEAD) (Z.lor 0xA0 (Z.shiftl drive 4));;
    ata_wait base ATA_SR_DRDY ATA_SR_DRDY 1000;;
    outb (base + ATA_REG_COMMAND) ATA_CMD_IDENTIFY;;
    status ← inb (base + ATA_REG_STATUS);
    if status =? 0 then mret model
    else
      w ← ata_wait base ATA_SR_DRQ ATA_SR_DRQ 100000;
      if negb (w =? 0) then mret model
      else
        buf ← ata_insw (base + ATA_REG_DATA) (replicate 512 0) 0 256;
        model ← locals (for_ (span 0 40) 0 model (fun i model =>
          c ← aget buf (54 + i);
          model ← aset model i c;
          mret (Cont model)));
        l ← locals (while_ 40 (39, model) (fun '(i, model) =>
          if 0 <? i then
            c ← aget model i;
            if c =? 32 then
              model ← aset model i 0;
              mret (Cont (i - 1, model))
            else mret (Brk (i, model))
          else mret (Brk (i, model))));
        let '(_, model) := l in
        model ← locals (for_ 20 0 model (fun k model =>
          let i := 2 * k in
          tmp ← aget model i;
          c ← aget model (i + 1);
          model ← aset model i c;
          model ← aset model (i + 1) tmp;
          mret (Cont model)));
        aset model 40 0.

Definition ata_init : M (ata P) unit :=
  modify (set_ata_devices (replicate 4 zero_device));;
  locals (for_ (span 0 4) 0 tt (fun i _ =>
    let base := if i <? 2 then ATA_PRIMARY_IO else ATA_SECONDARY_IO in
    let drive := i mod 2 in
    let irq := if i <? 2 then ATA_PRIMARY_IRQ else ATA_SECONDARY_IRQ in
    let ctrl := if i <? 2 then ATA_PRIMARY_CTRL else ATA_SECONDARY_CTRL in
    let master := if drive =? 0 then 1 else 0 in
    let d := mkAtaDevice 0 master base ctrl irq [drive; 0] (replicate 41 0) 0 0 in
    modify (fun s => set_ata_devices (<[Z.to_nat i := d]> (ata_devices s)) s);;
    cap ← ata_detect_drive base drive;
    if 0 <? cap then
      name ← ata_get_model base drive (replicate 41 0) 41;
      let d := mkAtaDevice 1 master base ctrl irq [drive; 0] name (u32 cap) 0 in
      modify (fun s => set_ata_devices (<[Z.to_nat i := d]> (ata_devices s)) s);;
      mret (Cont tt)
    else mret (Cont tt)));;
  modify (set_ata_initialized 1).

Definition ata_get_index (drive : Z) : Z := if 4 <=? drive then -1 else drive.

(** [while ((inb(status) & BSY) && tries++ < max)]: the value of [tries]
    after the loop. *)
Definition wait_not_busy (base tries max : Z) : M (ata P) Z :=
  locals (while_ (Z.to_nat max + 2) tries (fun tries =>
    status ← inb (base + ATA_REG_STATUS);
    if negb (Z.land status ATA_SR_BSY =? 0) then
      if tries <? max then mret (Cont (tries + 1)) else mret (Brk (tries + 1))
    else mret (Brk tries))).

(** [while (!(inb(status) & ERR) && tries++ < max)] *)
Definition wait_error (base tries max : Z) : M (ata P) Z :=
  locals (while_ (Z.to_nat max + 2) tries (fun tries =>
    status ← inb (base + ATA_REG_STATUS);
    if Z.land status ATA_SR_ERR =? 0 then
      if tries <? max then mret (Cont (tries + 1)) else mret (Brk (tries + 1))
    else mret (Brk tries))).

(** The task file of a one-sector LBA28 command. *)
Definition send_command (base drv lba cmd : Z) : M (ata P) unit :=
  outb (base + ATA_REG_DRIVE_HEAD)
    (Z.lor (Z.lor 0xE0 (Z.shiftl drv 4)) (Z.land (Z.shiftr lba 24) 0x0F));;
  outb (base + ATA_REG_SECCOUNT) 1;;
  outb (base + ATA_REG_LBA_LO) (Z.land lba 0xFF);;
  outb (base + ATA_REG_LBA_MID) (Z.land (Z.shiftr lba 8) 0xFF);;
  outb (base + ATA_REG_LBA_HI) (Z.land (Z.shiftr lba 16) 0xFF);;
  outb (base + ATA_REG_COMMAND) cmd.

Definition ata_read_sector_lba28 (base drv lba : Z) (buf : list Z) (off : Z)
    : M (ata P) (Z * list Z) :=
  wait_not_busy base 0 10000;;
  send_command base drv lba ATA_CMD_READ_PIO;;
  w ← ata_wait base ATA_SR_DRQ ATA_SR_DRQ 100000;
  if negb (w =? 0) then mret (-1, buf)
  else
    buf ← ata_insw (base + ATA_REG_DATA) buf off 256;
    mret (0, buf).

Definition ata_write_sector_lba28 (base drv lba : Z) (buf : list Z) (off : Z) : M (ata P) Z :=
  wait_not_busy base 0 10000;;
  send_command base drv lba ATA_CMD_WRITE_PIO;;
  w ← ata_wait base ATA_SR_DRQ ATA_SR_DRQ 100000;
  if negb (w =? 0) then mret (-1)
  else
    ata_outsw (base + ATA_REG_DATA) buf off 256;;
    tries ← wait_error base 0 10;
    outb (base + ATA_REG_COMMAND) 0xE7;;
    wait_not_busy base tries 10000;;
    mret 0.

Definition ata_read_sectors (drive lba count : Z) (buf : list Z) (off : Z)
    : M (ata P) (Z * list Z) :=
  let idx := ata_get_index drive in
  if idx <? 0 then mret (-1, buf)
  else
    devs ← gets ata_devices;
    let dev := device devs idx in
    if present dev =? 0 then mret (-1, buf)
    else if capacity_sectors dev <? u32 (lba + count) then mret (-1, buf)
    else
      r ← for_ (span 0 count) 0 buf (fun i buf =>
        r ← ata_read_sector_lba28 (base dev) (if negb (is_master dev =? 0) then 0 else 1)
              (u32 (lba + i)) buf (off + i * ATA_SECTOR_SIZE);
        let '(st, buf) := r in
        if negb (st =? 0) then mret (Ret (-1, buf)) else mret (Cont buf));
      match r with inl buf => mret (0, buf) | inr e => mret e end.

Definition ata_write_sectors (drive lba count : Z) (buf : list Z) (off : Z) : M (ata P) Z :=
  let idx := ata_get_index drive in
  if idx <? 0 then mret (-1)
  else
    devs ← gets ata_devices;
    let dev := device devs idx in
    if present dev =? 0 then mret (-1)
    else if capacity_sectors dev <? u32 (lba + count) then mret (-1)
    else
      r ← for_ (span 0 count) 0 tt (fun i _ =>
        st ← ata_write_sector_lba28 (base dev) (if negb (is_master dev =? 0) then 0 else 1)
               (u32 (lba + i)) buf (off + i * ATA_SECTOR_SIZE);
        if negb (st =? 0) then mret (Ret (-1)) else mret (Cont tt));
      match r with inl _ => mret 0 | inr e => mret e end.

(** The index of the device, or [None] for the null pointer. *)
Definition ata_get_device (drive : Z) : option Z :=
  let idx := ata_get_index drive in
  if idx <? 0 then None else Some idx.

#[export] Instance ata_block_device : BlockDevice (ata P) := {
  read_sectors := ata_read_sectors;
  write_sectors := ata_write_sectors
}.
End Operations.

(** * The driver on arbitrary hardware

    The lemmas below hold whatever the ports answer: an operation of the
    driver changes nothing but the hardware, and every polling loop ends. *)

Section Facts.
Context {P : Type} `{Ports P}.
Implicit Types s : ata P.

Lemma set_ports_set p q s : set_ports p (set_ports q s) = set_ports p s.
Proof. done. Qed.
Lemma set_ports_id s : set_ports (ports s) s = s.
Proof. by destruct s. Qed.

Lemma wp_inb port (Q : Z -> ata P -> Prop) s :
  (forall v p, 0 <= v < 256 -> Q v (set_ports p s)) -> wp (inb port) Q s.
Proof.
  intros HQ. unfold wp, inb. destruct (port_inb _ _) as [v p]. apply HQ. apply Z.mod_pos_bound. lia.
Qed.

Lemma wp_inw port (Q : Z -> ata P -> Prop) s :
  (forall v p, 0 <= v < 65536 -> Q v (set_ports p s)) -> wp (inw port) Q s.
Proof.
  intros HQ. unfold wp, inw. destruct (port_inw _ _) as [v p]. apply HQ. apply Z.mod_pos_bound. lia.
Qed.

Lemma wp_outb port v (Q : unit -> ata P -> Prop) s :
  (forall p, Q tt (set_ports p s)) -> wp (outb port v) Q s.
Proof. intros HQ. apply wp_modify, HQ. Qed.

Lemma wp_outw port v (Q : unit -> ata P -> Prop) s :
  (forall p, Q tt (set_ports p s)) -> wp (outw port v) Q s.
Proof. intros HQ. apply wp_modify, HQ. Qed.

(** [r] differs from [buf] in the [n] bytes from [off] only, and these are
    bytes. *)
Definition filled (buf : list Z) (off n : Z) (r : list Z) : Prop :=
  lenZ r = lenZ buf /\
  (forall j, 0 <= j -> j < off \/ off + n <= j -> rd r j = rd buf j) /\
  (forall j, off <= j < off + n -> 0 <= rd r j < 256).

Lemma wp_ata_insw port buf off count (Q : list Z -> ata P -> Prop) s :
  0 <= off -> 0 <= count -> off + 2 * count <= lenZ buf ->
  (forall r p, filled buf off (2 * count) r -> Q r (set_ports p s)) ->
  wp (ata_insw port buf off count) Q s.
Proof.
  intros Ho Hc Hl HQ. unfold ata_insw. apply wp_locals.
  apply (wp_for (fun i r s' => (exists p, s' = set_ports p s) /\ filled buf off (2 * i) r)).
  - split; [exists (ports s); by rewrite set_ports_id|]. split; [done|]. split; [done|]. lia.
  - intros i r s' Hi [[p ->] (Hlr & Hout & Hin)]. unfold span in Hi. wp_step. apply wp_inw.
    intros v p' Hv. wp_step. apply wp_aset; [lia|]. wp_step. apply wp_aset; [rewrite lenZ_wr; lia|].
    apply wp_ret. split; [by exists p'|]. split; [by rewrite !lenZ_wr|]. split.
    + intros j Hj Hr. rewrite !rd_wr_ne by lia. apply Hout; lia.
    + intros j Hj. rewrite !rd_wr by (rewrite ?lenZ_wr; lia). case_range.
      * Z.div_mod_to_equations; lia.
      * Z.div_mod_to_equations; lia.
      * apply Hin. lia.
  - intros r s' [[p ->] Hf]. apply HQ.
    by replace (2 * (0 + Z.of_nat (span 0 count))) with (2 * count) in Hf by (unfold span; lia).
Qed.

Lemma wp_ata_outsw port buf off count (Q : unit -> ata P -> Prop) s :
  0 <= off -> 0 <= count -> off + 2 * count <= lenZ buf ->
  (forall p, Q tt (set_ports p s)) -> wp (ata_outsw port buf off count) Q s.
Proof.
  intros Ho Hc Hl HQ. unfold ata_outsw. apply wp_locals.
  apply (wp_for (fun i _ s' => exists p, s' = set_ports p s)).
  - exists (ports s). by rewrite set_ports_id.
  - intros i r s' Hi [p ->]. unfold span in Hi. wp_step. apply wp_aget; [lia|].
    wp_step. apply wp_aget; [lia|]. wp_step. apply wp_outw. intros p'. apply wp_ret. by exists p'.
  - intros [] s' [p ->]. apply HQ.
Qed.

Lemma wp_ata_wait base mask expected timeout (Q : Z -> ata P -> Prop) s :
  (forall v p, v = 0 \/ v = -1 -> Q v (set_ports p s)) ->
  wp (ata_wait base mask expected timeout) Q s.
Proof.
  intros HQ. unfold ata_wait. apply wp_bind.
  apply (wp_for (fun i _ s' => exists p, s' = set_ports p s)).
  - exists (ports s). by rewrite set_ports_id.
  - intros i r s' Hi [p ->]. wp_step. apply wp_inb. intros v p' Hv. rewrite set_ports_set.
    repeat wp_step; eauto.
  - intros [] s' [p ->]. apply wp_ret. auto.
Qed.

Lemma wp_poll (stop : Z -> bool) base tries max (Q : Z -> ata P -> Prop) s :
  0 <= tries -> (forall v p, 0 <= v -> Q v (set_ports p s)) ->
  wp (locals (while_ (Z.to_nat max + 2) tries (fun tries =>
    status ← inb (base + ATA_REG_STATUS);
    if stop status then
      if tries <? max then mret (Cont (tries + 1)) else mret (Brk (tries + 1))
    else mret (Brk tries)))) Q s.
Proof.
  intros Ht HQ. apply wp_locals.
  apply (wp_while (fun i s' => 0 <= i /\ exists p, s' = set_ports p s)
    (fun i _ => Z.to_nat (max + 1 - i))).
  - split; [done|]. exists (ports s). by rewrite set_ports_id.
  - lia.
  - intros i s' [Hi [p ->]]. wp_step. apply wp_inb. intros v p' Hv. rewrite set_ports_set.
    repeat wp_step; bprop; [|apply HQ; lia..]. split; [|lia]. split; [lia | by exists p'].
Qed.

Lemma wp_wait_not_busy base tries max (Q : Z -> ata P -> Prop) s :
  0 <= tries -> (forall v p, 0 <= v -> Q v (set_ports p s)) -> wp (wait_not_busy base tries max) Q s.
Proof. apply (wp_poll (fun status => negb (Z.land status ATA_SR_BSY =? 0))). Qed.

Lemma wp_wait_error base tries max (Q : Z -> ata P -> Prop) s :
  0 <= tries -> (forall v p, 0 <= v -> Q v (set_ports p s)) -> wp (wait_error base tries max) Q s.
Proof. apply (wp_poll (fun status => Z.land status ATA_SR_ERR =? 0)). Qed.

Lemma wp_send_command base drv lba cmd (Q : unit -> ata P -> Prop) s :
  (forall p, Q tt (set_ports p s)) -> wp (send_command base drv lba cmd) Q s.
Proof.
  intros HQ. unfold send_command.
  do 5 (wp_step; apply wp_outb; intros ?). apply wp_outb. intros ?. apply HQ.
Qed.

Lemma wp_read_lba28 base drv lba buf off (Q : Z * list Z -> ata P -> Prop) s :
  0 <= off -> off + 512 <= lenZ buf ->
  (forall p, Q (-1, buf) (set_ports p s)) ->
  (forall r p, filled buf off 512 r -> Q (0, r) (set_ports p s)) ->
  wp (ata_read_sector_lba28 base drv lba buf off) Q s.
Proof.
  intros Ho Hl Herr HQ. unfold ata_read_sector_lba28.
  wp_step. apply wp_wait_not_busy; [done|]. intros _ p1 _. wp_step. apply wp_send_command.
  intros p2. wp_step. apply wp_ata_wait. intros v p3 [-> | ->]; cbn [Z.eqb negb].
  - wp_step. apply wp_ata_insw; [done | done | lia |]. intros r p4 Hf. apply wp_ret. by apply HQ.
  - apply wp_ret. apply Herr.
Qed.

Lemma wp_write_lba28 base drv lba buf off (Q : Z -> ata P -> Prop) s :
  0 <= off -> off + 512 <= lenZ buf ->
  (forall v p, v = 0 \/ v = -1 -> Q v (set_ports p s)) ->
  wp (ata_write_sector_lba28 base drv lba buf off) Q s.
Proof.
  intros Ho Hl HQ. unfold ata_write_sector_lba28.
  wp_step. apply wp_wait_not_busy; [done|]. intros _ p1 _. wp_step. apply wp_send_command.
  intros p2. wp_step. apply wp_ata_wait. intros v p3 [-> | ->]; cbn [Z.eqb negb].
  - wp_step. apply wp_ata_outsw; [done | done | lia |]. intros p4.
    wp_step. apply wp_wait_error; [done|]. intros t p5 Ht. wp_step. apply wp_outb. intros p6.
    wp_step. apply wp_wait_not_busy; [done|]. intros _ p7 _. apply wp_ret. apply HQ. by left.
  - apply wp_ret. apply HQ. by right.
Qed.

Lemma filled_refl buf off : filled buf off 0 buf.
Proof. split; [done|]. split; [done|]. lia. Qed.

Lemma filled_extend buf off n r r' :
  0 <= off -> 0 <= n -> filled buf off n r -> filled r (off + n) 512 r' -> filled buf off (n + 512) r'.
Proof.
  intros Ho Hn (Hl & Hout & Hin) (Hl' & Hout' & Hin'). split; [congruence|]. split.
  - intros j Hj Hr. rewrite Hout' by lia. apply Hout; lia.
  - intros j Hj. destruct (decide (j < off + n)).
    + rewrite Hout' by lia. apply Hin. lia.
    + apply Hin'. lia.
Qed.
End Facts.

(** C31: Whatever the hardware answers, a read of [count] sectors into a buffer
    with room for them returns 0 or -1 (every polling loop is bounded); it
    changes no byte of the buffer outside the sectors and, of the driver's
    state, nothing.  When it returns 0, every byte of the sectors was set. *)
Theorem ata_read_sectors_total {P} `{Ports P} (s : ata P) drive lba count buf off :
  0 <= off -> 0 <= count -> off + 512 * count <= lenZ buf ->
  exists v r p, ata_read_sectors drive lba count buf off s = Ok (v, r) (set_ports p s) /\
    (v = 0 \/ v = -1) /\ lenZ r = lenZ buf /\
    (forall j, 0 <= j -> j < off \/ off + 512 * count <= j -> rd r j = rd buf j) /\
    (v = 0 -> forall j, off <= j < off + 512 * count -> 0 <= rd r j < 256).
Proof.
  intros Ho Hc Hl.
  set (good v r := (v = 0 \/ v = -1) /\ lenZ r = lenZ buf /\
    (forall j, 0 <= j -> j < off \/ off + 512 * count <= j -> rd r j = rd buf j) /\
    (v = 0 -> forall j, off <= j < off + 512 * count -> 0 <= rd r j < 256)).
  assert (Hw : wp (ata_read_sectors drive lba count buf off)
    (fun vr s' => exists p, s' = set_ports p s /\ good (fst vr) (snd vr)) s).
  { assert (Hbad : good (-1) buf) by (unfold good; split; [by right | done]).
    unfold ata_read_sectors.
    repeat (wp_step; [exists (ports s); by rewrite set_ports_id|] || wp_step).
    all: try (exists (ports s); by rewrite set_ports_id).
    set (dev := device _ _).
    apply (wp_for (fun i r s' => (exists p, s' = set_ports p s) /\ filled buf off (512 * i) r)).
    - split; [exists (ports s); by rewrite set_ports_id | apply filled_refl].
    - intros i r s' Hi [[p ->] Hf]. unfold span in Hi. wp_step. unfold ATA_SECTOR_SIZE.
      pose proof Hf as (Hlr & Hout & Hin).
      apply wp_read_lba28; [lia | lia | |].
      + intros p'. cbn [negb Z.eqb]. apply wp_ret, wp_ret. exists p'. split; [done|].
        split; [by right|]. split; [done|]. split; [|done]. intros j Hj Hr. apply Hout; lia.
      + intros r' p' Hf'. cbn [negb Z.eqb]. apply wp_ret. split; [by exists p'|].
        replace (512 * (i + 1)) with (512 * i + 512) by lia. eapply filled_extend; [lia.. | exact Hf |].
        by replace (off + 512 * i) with (off + i * 512) by lia.
    - intros r s' [[p ->] Hf]. apply wp_ret. exists p. split; [done|].
      replace (512 * (0 + Z.of_nat (span 0 count))) with (512 * count) in Hf by (unfold span; lia).
      destruct Hf as (? & ? & ?). split; [by left | done]. }
  apply wp_ok in Hw as ([v r] & s' & He & p & -> & Hg). exists v, r, p. done.
Qed.

(** The range check of a request.  A request that ends beyond the capacity
    of the drive, to an absent drive or to a drive number above 3 is refused
    before any port is touched, reading and writing alike; but the end of the
    request is computed modulo 2^32, so a request for the last sector number,
    2^32 - 1, passes the check of every drive and is sent to the hardware. *)
Theorem ata_range_check {P} `{Ports P} (s : ata P) drive lba count buf off :
  0 <= drive ->
  let dev := device (ata_devices s) drive in
  (4 <= drive \/ present dev = 0 \/
     0 <= lba + count < 4294967296 /\ capacity_sectors dev < lba + count ->
   ata_read_sectors drive lba count buf off s = Ok (-1, buf) s /\
   ata_write_sectors drive lba count buf off s = Ok (-1) s) /\
  (drive < 4 -> present dev <> 0 -> 0 <= capacity_sectors dev ->
   forall v r s', ata_read_sector_lba28 (base dev) (if negb (is_master dev =? 0) then 0 else 1)
       4294967295 buf off s = Ok (v, r) s' ->
   ata_read_sectors drive 4294967295 1 buf off s =
     Ok (if negb (v =? 0) then -1 else 0, r) s').
Proof.
  intros Hd dev. split.
  - intros Hr. unfold ata_read_sectors, ata_write_sectors, ata_get_index.
    destruct (Z.leb_spec 4 drive); [done|].
    destruct (Z.ltb_spec drive 0); [lia|]. unfold mbind, M_bind, gets. fold dev.
    destruct (Z.eqb_spec (present dev) 0); [done|].
    assert (Hc : capacity_sectors dev < u32 (lba + count)) by (rewrite u32_small; lia).
    apply Z.ltb_lt in Hc. by rewrite Hc.
  - intros Hd4 Hp Hc v r s' He. unfold ata_read_sectors, ata_get_index.
    destruct (Z.leb_spec 4 drive); [lia|]. destruct (Z.ltb_spec drive 0); [lia|].
    unfold mbind, M_bind, gets. fold dev. destruct (Z.eqb_spec (present dev) 0); [done|].
    change (u32 (4294967295 + 1)) with 0. destruct (Z.ltb_spec (capacity_sectors dev) 0); [lia|].
    change (span 0 1) with 1%nat. cbn [for_]. unfold mbind, M_bind.
    change (u32 (4294967295 + 0)) with 4294967295. replace (off + 0 * ATA_SECTOR_SIZE) with off by lia.
    rewrite He. by destruct (negb (v =? 0)).
Qed.

Section InitFacts.
Context {P : Type} `{Ports P}.
Implicit Types s : ata P.

Lemma wp_detect base drive (Q : Z -> ata P -> Prop) s :
  (forall v p, -2147483648 <= v < 2147483648 -> Q v (set_ports p s)) ->
  wp (ata_detect_drive base drive) Q s.
Proof.
  intros HQ. unfold ata_detect_drive.
  wp_step. apply wp_outb; intros p1. wp_step. apply wp_ata_wait; intros _ p2 _.
  wp_step. apply wp_outb; intros p3. wp_step. apply wp_inb; intros st p4 _.
  wp_step; [apply wp_ret, HQ; lia|]. wp_step; [apply wp_ret, HQ; lia|].
  wp_step. apply wp_ata_wait; intros w p5 _. wp_step; [apply wp_ret, HQ; lia|].
  wp_step. apply wp_inb; intros lm p6 _. wp_step. apply wp_inb; intros lh p7 _.
  wp_step; [apply wp_ret, HQ; lia|]. wp_step.
  apply wp_ata_insw; [done | done | by rewrite lenZ_replicate |]. intros r p8 (Hl & _).
  rewrite lenZ_replicate in Hl.
  do 4 (wp_step; apply wp_aget; [rewrite Hl; done|]).
  apply wp_ret. apply HQ. destruct (0 <? _); [|lia]. unfold s32, u32.
  destruct (Z.ltb_spec (Z.lor (Z.lor (Z.lor (rd r 120) (Z.shiftl (rd r 121) 8)) (Z.shiftl (rd r 122) 16))
    (Z.shiftl (rd r 123) 24 mod 4294967296) mod 4294967296) 2147483648); Z.div_mod_to_equations; lia.
Qed.

Lemma wp_get_model base drive m (Q : list Z -> ata P -> Prop) s :
  lenZ m = 41 -> (forall r p, lenZ r = 41 -> Q r (set_ports p s)) ->
  wp (ata_get_model base drive m 41) Q s.
Proof.
  intros Hm HQ. unfold ata_get_model.
  wp_step. apply wp_locals. apply (wp_for (fun i r s' => s' = s /\ lenZ r = 41)); [done| |].
  { intros i r s' Hi [-> Hr]. wp_step. apply wp_aset; [unfold span in Hi; lia|]. apply wp_ret.
    by rewrite lenZ_wr. }
  intros r1 s' [-> Hr1]. wp_step. apply wp_aset; [lia|]. change (41 <? 40) with false. cbv iota.
  wp_step. apply wp_outb; intros p1. wp_step. apply wp_ata_wait; intros _ p2 _.
  wp_step. apply wp_outb; intros p3. wp_step. apply wp_inb; intros st p4 _.
  wp_step; [apply wp_ret, HQ; by rewrite lenZ_wr|].
  wp_step. apply wp_ata_wait; intros w p5 _. wp_step; [apply wp_ret, HQ; by rewrite lenZ_wr|].
  wp_step. apply wp_ata_insw; [done | done | by rewrite lenZ_replicate |]. intros b p6 (Hb & _).
  rewrite lenZ_replicate in Hb. rewrite !set_ports_set.
  assert (Hloop : forall n (body : Z -> list Z -> M (ata P) (ctl (list Z) Empty_set)) r (Q' : list Z -> ata P -> Prop),
    (forall j r s', 0 <= j < Z.of_nat n -> lenZ r = 41 -> wp (body j r) (fun c s'' => exists r', c = Cont r' /\
      s'' = s' /\ lenZ r' = 41) s') ->
    lenZ r = 41 -> (forall r, lenZ r = 41 -> Q' r (set_ports p6 s)) ->
    wp (locals (for_ n 0 r body)) Q' (set_ports p6 s)).
  { intros n body r Q' Hb' Hr HQ'. apply wp_locals.
    apply (wp_for (fun i r s' => s' = set_ports p6 s /\ lenZ r = 41)); [done| |].
    - intros j r2 s' Hj [-> Hr2]. eapply wp_mono; [|apply Hb'; [lia | done]].
      by intros ? ? (r' & -> & -> & Hr').
    - intros r2 s' [-> Hr2]. by apply HQ'. }
  wp_step. apply Hloop; [| by rewrite lenZ_wr |].
  { intros j r s' Hj Hr. change (Z.of_nat (span 0 40)) with 40 in Hj.
    wp_step. apply wp_aget; [change (Z.of_nat 512) with 512 in Hb; lia|].
    wp_step. apply wp_aset; [lia|]. apply wp_ret. eexists. split; [done|]. by rewrite lenZ_wr. }
  intros r2 Hr2. wp_step. apply wp_locals.
  apply (wp_while (fun '(i, r) s' => s' = set_ports p6 s /\ 0 <= i <= 39 /\ lenZ r = 41)
    (fun '(i, _) _ => Z.to_nat i)); [done | simpl; lia |].
  intros [i r3] s' (-> & Hi & Hr3).
  assert (Hrest : forall r, lenZ r = 41 -> wp (model ← locals (for_ 20 0 r (fun k model =>
          let i := 2 * k in
          tmp ← aget model i;
          c ← aget model (i + 1);
          model ← aset model i c;
          model ← aset model (i + 1) tmp;
          mret (Cont model)));
        aset model 40 0) Q (set_ports p6 s)).
  { intros r Hr. wp_step. apply Hloop; [| done |].
    - intros j r' s' Hj Hr'. cbv zeta. wp_step. apply wp_aget; [lia|]. wp_step. apply wp_aget; [lia|].
      wp_step. apply wp_aset; [lia|]. wp_step. apply wp_aset; [rewrite lenZ_wr; lia|]. apply wp_ret.
      eexists. split; [done|]. by rewrite !lenZ_wr.
    - intros r' Hr'. apply wp_aset; [lia|]. apply HQ. by rewrite lenZ_wr. }
  wp_step; bprop; [|apply wp_ret; by apply Hrest].
  wp_step. apply wp_aget; [lia|]. wp_step; bprop; [|apply wp_ret; by apply Hrest].
  wp_step. apply wp_aset; [lia|]. apply wp_ret. split; [|lia]. rewrite lenZ_wr. repeat split; lia || done.
Qed.
End InitFacts.

(** * Detection *)

(** The entry of drive [i]: the registers of its channel, and present exactly
    when the drive reported a positive capacity. *)
Definition device_ok (i : Z) (d : ata_device_t) : Prop :=
  base d = (if i <? 2 then ATA_PRIMARY_IO else ATA_SECONDARY_IO) /\
  ctrl d = (if i <? 2 then ATA_PRIMARY_CTRL else ATA_SECONDARY_CTRL) /\
  irq d = (if i <? 2 then ATA_PRIMARY_IRQ else ATA_SECONDARY_IRQ) /\
  is_master d = (if i mod 2 =? 0 then 1 else 0) /\
  lenZ (model d) = 41 /\
  (present d = 0 /\ capacity_sectors d = 0 \/
   present d = 1 /\ 0 < capacity_sectors d < 2147483648).

(** [ata_init] ends whatever the hardware answers.  It leaves the four
    entries with the registers of their channels, and an entry is present
    exactly when its drive reported a capacity, which is positive and below
    2^31 sectors. *)
Theorem ata_init_devices {P} `{Ports P} (s : ata P) :
  exists s', ata_init s = Ok tt s' /\ ata_initialized s' = 1 /\ lenZ (ata_devices s') = 4 /\
    forall i, 0 <= i < 4 -> device_ok i (device (ata_devices s') i).
Proof.
  assert (Hw : wp ata_init (fun _ s' => ata_initialized s' = 1 /\ lenZ (ata_devices s') = 4 /\
    forall i, 0 <= i < 4 -> device_ok i (device (ata_devices s') i)) s).
  2:{ apply wp_ok in Hw as ([] & s' & ? & ?). eauto. }
  unfold ata_init. wp_step. wp_step. wp_step. apply wp_locals.
  apply (wp_for (fun i _ s' => lenZ (ata_devices s') = 4 /\
    forall k, 0 <= k < i -> device_ok k (device (ata_devices s') k))).
  - split; [done|]. lia.
  - intros i [] s1 Hi [Hl Hall]. change (Z.of_nat (span 0 4)) with 4 in Hi.
    assert (Hset : forall d l, lenZ l = 4 -> (forall k, 0 <= k < i -> device_ok k (device l k)) ->
      device_ok i d -> lenZ (<[Z.to_nat i := d]> l) = 4 /\
        forall k, 0 <= k < i + 1 -> device_ok k (device (<[Z.to_nat i := d]> l) k)).
    { intros d l Hl4 Hk Hd. split; [unfold lenZ in *; by rewrite length_insert|].
      intros k Hk1. unfold device in *. rewrite nth_lookup. destruct (decide (k = i)) as [->|].
      - rewrite list_lookup_insert_eq by (unfold lenZ in *; lia). done.
      - rewrite list_lookup_insert_ne by lia. rewrite <- nth_lookup. apply Hk. lia. }
    cbv zeta. wp_step. wp_step. wp_step. apply wp_detect. intros cap p Hcap.
    wp_step; bprop.
    + wp_step. apply wp_get_model; [done|]. intros r p' Hr. wp_step. wp_step. wp_step.
      cbn [ata_devices set_ata_devices set_ports]. rewrite list_insert_insert_eq.
      apply Hset; [done..|]. repeat split; [done|]. right. cbn [present capacity_sectors].
      rewrite u32_small; lia.
    + wp_step. cbn [ata_devices set_ata_devices set_ports]. apply Hset; [done..|].
      repeat split. by left.
  - intros [] s1 [Hl Hall]. wp_step. split; [done|]. split; [done|]. exact Hall.
Qed.

(** * A controller for the examples

    Every status reads as data requested and every word as 0x1234. *)
#[export] Instance ready_ports : Ports unit := {
  port_inb := fun _ p => (ATA_SR_DRQ, p);
  port_outb := fun _ _ p => p;
  port_inw := fun _ p => (0x1234, p);
  port_outw := fun _ _ p => p
}.

Definition demo_drive : ata_device_t := mkAtaDevice 1 1 ATA_SECONDARY_IO ATA_SECONDARY_CTRL
  ATA_SECONDARY_IRQ [0; 0] (replicate 41 0) 100 0.
Definition demo_ata : ata unit := mkAta tt [zero_device; zero_device; demo_drive; zero_device] 1.

Lemma ata_read_sectors_total_witness :
  exists v r p, ata_read_sectors 2 7 2 (replicate 1024 0) 0 demo_ata = Ok (v, r) (set_ports p demo_ata) /\
    (v = 0 \/ v = -1) /\ lenZ r = lenZ (replicate 1024 0) /\
    (forall j, 0 <= j -> j < 0 \/ 0 + 512 * 2 <= j -> rd r j = rd (replicate 1024 0) j) /\
    (v = 0 -> forall j, 0 <= j < 0 + 512 * 2 -> 0 <= rd r j < 256).
Proof. apply (ata_read_sectors_total demo_ata 2 7 2 (replicate 1024 0) 0); vm_compute; congruence. Defined.

Lemma ata_range_check_witness :
  ata_read_sectors 2 99 2 (replicate 1024 0) 0 demo_ata = Ok (-1, replicate 1024 0) demo_ata /\
  ata_write_sectors 2 99 2 (replicate 1024 0) 0 demo_ata = Ok (-1) demo_ata.
Proof.
  apply (proj1 (ata_range_check demo_ata 2 99 2 (replicate 1024 0) 0 ltac:(vm_compute; congruence))).
  right. right. split; [split|]; vm_compute; congruence.
Defined.
