(* ===== verification/Disk.v ===== *)
(** Block devices that keep their contents: the laws of [BlockDevice] and the
    disk image in memory that satisfies them.

    [DiskLaws] is what the ext2 theorems assume of the disk: sectors of 512
    bytes, transfers inside the capacity succeed, a read returns the contents
    and changes none of them, a write changes the bytes of its sectors and no
    others, and a request beyond the capacity is refused. *)
From Stdlib Require Import ZArith Lia List.
From stdpp Require Import base tactics numbers list gmap strings option.
From S2P Require Import Prelude CString Bytes Ata.
Open Scope Z_scope.

(** The bytes [off], ..., [off + n - 1] of [r] are [f 0], ..., [f (n - 1)] and
    the others are those of [buf]. *)
Definition filled_with (buf : list Z) (off n : Z) (f : Z -> Z) (r : list Z) : Prop :=
  lenZ r = lenZ buf /\
  forall j, 0 <= j < lenZ buf ->
    rd r j = if (off <=? j) && (j <? off + n) then f (j - off) else rd buf j.

Class DiskLaws (D : Type) `{BlockDevice D} (drive : Z) := {
  dk_cap : D -> Z;
  dk_byte : D -> Z -> Z;
  dk_byte_range : forall d a, 0 <= dk_byte d a < 256;
  dk_read : forall d lba count buf off,
    0 <= lba -> 0 <= count -> lba + count <= dk_cap d -> 0 <= off -> off + 512 * count <= lenZ buf ->
    exists r d', read_sectors drive lba count buf off d = Ok (0, r) d' /\
      filled_with buf off (512 * count) (fun k => dk_byte d (512 * lba + k)) r /\
      dk_cap d' = dk_cap d /\ forall a, dk_byte d' a = dk_byte d a;
  dk_write : forall d lba count buf off,
    0 <= lba -> 0 <= count -> lba + count <= dk_cap d -> 0 <= off -> off + 512 * count <= lenZ buf ->
    (forall j, off <= j < off + 512 * count -> 0 <= rd buf j < 256) ->
    exists d', write_sectors drive lba count buf off d = Ok 0 d' /\ dk_cap d' = dk_cap d /\
      forall a, dk_byte d' a =
        if (512 * lba <=? a) && (a <? 512 * (lba + count)) then rd buf (off + (a - 512 * lba))
        else dk_byte d a;
  dk_read_refused : forall d lba count buf off,
    0 <= lba -> 0 <= count -> dk_cap d < lba + count < 4294967296 ->
    read_sectors drive lba count buf off d = Ok (-1, buf) d;
  dk_write_refused : forall d lba count buf off,
    0 <= lba -> 0 <= count -> dk_cap d < lba + count < 4294967296 ->
    write_sectors drive lba count buf off d = Ok (-1) d;
  dk_read_overflow : forall d lba count buf off,
    0 <= lba -> 0 < count -> lba + count <= dk_cap d -> 0 <= off -> lenZ buf < off + 512 * count ->
    exists d', read_sectors drive lba count buf off d = Stuck OutOfBounds d'
}.

(** Two states of the disk with the same contents. *)
Definition dk_same {D} `{DiskLaws D drive} (d d' : D) : Prop :=
  dk_cap d' = dk_cap d /\ forall a, dk_byte d' a = dk_byte d a.

#[export] Instance dk_same_equiv {D} `{DiskLaws D drive} : Equivalence (dk_same (D := D)).
Proof.
  split.
  - done.
  - intros d d' [H1 H2]. split; congruence.
  - intros d1 d2 d3 [H1 H2] [H3 H4]. split; congruence.
Qed.

(** * A disk in memory

    The image is a map from sector numbers to sectors of 512 bytes; a sector
    that was never written is zero.  The drive number is not looked at. *)

Record ramdisk : Type := mkRam { image : gmap Z (list Z); ram_sectors : Z }.

Definition ram_sector (d : ramdisk) (n : Z) : list Z := default (replicate 512 0) (image d !! n).
Definition ram_byte (d : ramdisk) (a : Z) : Z := u8 (rd (ram_sector d (a / 512)) (a mod 512)).

(** [buf] with [l] from [off]. *)
Definition splice (buf : list Z) (off : Z) (l : list Z) : list Z :=
  take (Z.to_nat off) buf ++ l ++ drop (Z.to_nat (off + lenZ l)) buf.

Definition ram_read_one (n : Z) (buf : list Z) (off : Z) : M ramdisk (list Z) :=
  d ← gets (fun d : ramdisk => d);
  if decide (0 <= off /\ off + 512 <= lenZ buf)
  then mret (splice buf off (map (fun k => ram_byte d (512 * n + k)) (seqZ 0 512)))
  else stuck OutOfBounds.
Definition ram_write_one (n : Z) (buf : list Z) (off : Z) : M ramdisk unit :=
  if decide (0 <= off /\ off + 512 <= lenZ buf)
  then modify (fun d => mkRam (<[n := take 512 (drop (Z.to_nat off) buf)]> (image d)) (ram_sectors d))
  else stuck OutOfBounds.

Definition ram_read (drive lba count : Z) (buf : list Z) (off : Z) : M ramdisk (Z * list Z) :=
  d ← gets (fun d : ramdisk => d);
  if ram_sectors d <? u32 (lba + count) then mret (-1, buf)
  else
    buf ← locals (for_ (span 0 count) 0 buf (fun i buf =>
      buf ← ram_read_one (lba + i) buf (off + 512 * i);
      mret (Cont buf)));
    mret (0, buf).
Definition ram_write (drive lba count : Z) (buf : list Z) (off : Z) : M ramdisk Z :=
  d ← gets (fun d : ramdisk => d);
  if ram_sectors d <? u32 (lba + count) then mret (-1)
  else
    locals (for_ (span 0 count) 0 tt (fun i _ =>
      ram_write_one (lba + i) buf (off + 512 * i);;
      mret (Cont tt)));;
    mret 0.

#[export] Instance ram_block_device : BlockDevice ramdisk := {
  read_sectors := ram_read;
  write_sectors := ram_write
}.

(** The disk in memory satisfies the laws. *)

Section RamLaws.

Lemma lenZ_splice buf off l : 0 <= off -> off + lenZ l <= lenZ buf -> lenZ (splice buf off l) = lenZ buf.
Proof. unfold splice, lenZ. intros. rewrite !length_app, length_take, length_drop. lia. Qed.

Lemma rd_splice buf off l j : 0 <= off -> off + lenZ l <= lenZ buf -> 0 <= j < lenZ buf ->
  rd (splice buf off l) j = if (off <=? j) && (j <? off + lenZ l) then rd l (j - off) else rd buf j.
Proof.
  unfold splice. intros Ho Hl Hj. unfold lenZ in *. unfold rd. rewrite !nth_lookup.
  destruct (Z.leb_spec off j); simpl.
  - rewrite lookup_app_r by (rewrite length_take; lia). rewrite length_take.
    destruct (Z.ltb_spec j (off + Z.of_nat (length l))).
    + rewrite lookup_app_l by lia. do 2 f_equal. lia.
    + rewrite lookup_app_r by lia. rewrite lookup_drop. do 2 f_equal. lia.
  - rewrite lookup_app_l by (rewrite length_take; lia). rewrite lookup_take_lt by lia. done.
Qed.

Lemma wp_ram_read_one n buf off (Q : list Z -> ramdisk -> Prop) d :
  0 <= off -> off + 512 <= lenZ buf ->
  (forall r, filled_with buf off 512 (fun k => ram_byte d (512 * n + k)) r -> Q r d) ->
  wp (ram_read_one n buf off) Q d.
Proof.
  intros Ho Hl HQ. unfold ram_read_one. wp_step. wp_step. rewrite decide_True by done.
  apply wp_ret, HQ. set (l := map _ _). assert (Hll : lenZ l = 512) by (by apply lenZ_map_seqZ).
  split; [by rewrite lenZ_splice by lia|]. intros j Hj. rewrite rd_splice by lia. rewrite Hll.
  case_range; try done. unfold l. rewrite rd_map_seqZ by lia. done.
Qed.

Lemma ram_sector_insert d n l m :
  ram_sector (mkRam (<[n := l]> (image d)) (ram_sectors d)) m = if n =? m then l else ram_sector d m.
Proof.
  unfold ram_sector. simpl. destruct (Z.eqb_spec n m) as [->|].
  - by rewrite lookup_insert_eq.
  - by rewrite lookup_insert_ne.
Qed.

Lemma wp_ram_write_one n buf off (Q : unit -> ramdisk -> Prop) d :
  0 <= n -> 0 <= off -> off + 512 <= lenZ buf -> (forall j, off <= j < off + 512 -> 0 <= rd buf j < 256) ->
  (forall d', ram_sectors d' = ram_sectors d -> (forall a, ram_byte d' a =
     if (512 * n <=? a) && (a <? 512 * n + 512) then rd buf (off + (a - 512 * n)) else ram_byte d a) -> Q tt d') ->
  wp (ram_write_one n buf off) Q d.
Proof.
  intros Hn Ho Hl Hb HQ. unfold ram_write_one. rewrite decide_True by done. apply wp_modify.
  apply HQ; [done|]. intros a. unfold ram_byte. rewrite ram_sector_insert.
  pose proof (Z.div_mod a 512 ltac:(lia)). pose proof (Z.mod_pos_bound a 512 ltac:(lia)).
  destruct (Z.eqb_spec n (a / 512)) as [->|].
  - destruct (Z.leb_spec (512 * (a / 512)) a); [|lia].
    destruct (Z.ltb_spec a (512 * (a / 512) + 512)); [|lia]. simpl.
    change 512%nat with (Z.to_nat 512). rewrite rd_take by lia.
    rewrite rd_drop by lia. replace (off + a mod 512) with (off + (a - 512 * (a / 512))) by lia.
    apply Z.mod_small, Hb. lia.
  - destruct (Z.leb_spec (512 * n) a), (Z.ltb_spec a (512 * n + 512)); simpl; try done. lia.
Qed.

Lemma wp_ram_read drive lba count buf off (Q : Z * list Z -> ramdisk -> Prop) d :
  0 <= lba -> 0 <= count -> lba + count <= ram_sectors d -> lba + count < 4294967296 ->
  0 <= off -> off + 512 * count <= lenZ buf ->
  (forall r, filled_with buf off (512 * count) (fun k => ram_byte d (512 * lba + k)) r -> Q (0, r) d) ->
  wp (ram_read drive lba count buf off) Q d.
Proof.
  intros H0 Hc Hcap Hs Ho Hl HQ. unfold ram_read. wp_step. wp_step. wp_step; bprop.
  { rewrite u32_small in Heqb; lia. }
  wp_step. apply wp_locals.
  apply (wp_for (fun i r d' => d' = d /\ filled_with buf off (512 * i) (fun k => ram_byte d (512 * lba + k)) r)).
  - split; [done|]. split; [done|]. intros j Hj. case_range; done || lia.
  - intros i r d' Hi (-> & Hlr & Hr). unfold span in Hi. wp_step.
    apply wp_ram_read_one; [lia | lia |]. intros r' [Hl' Hr']. apply wp_ret. split; [done|].
    split; [congruence|]. intros j Hj. rewrite Hr', Hr by lia. case_range; try lia; try done. f_equal. lia.
  - intros r d' [-> Hf]. apply wp_ret, HQ.
    by replace (512 * (0 + Z.of_nat (span 0 count))) with (512 * count) in Hf by (unfold span; lia).
Qed.

Lemma wp_ram_write drive lba count buf off (Q : Z -> ramdisk -> Prop) d :
  0 <= lba -> 0 <= count -> lba + count <= ram_sectors d -> lba + count < 4294967296 ->
  0 <= off -> off + 512 * count <= lenZ buf ->
  (forall j, off <= j < off + 512 * count -> 0 <= rd buf j < 256) ->
  (forall d', ram_sectors d' = ram_sectors d -> (forall a, ram_byte d' a =
     if (512 * lba <=? a) && (a <? 512 * (lba + count)) then rd buf (off + (a - 512 * lba))
     else ram_byte d a) -> Q 0 d') ->
  wp (ram_write drive lba count buf off) Q d.
Proof.
  intros H0 Hc Hcap Hs Ho Hl Hb HQ. unfold ram_write. wp_step. wp_step. wp_step; bprop.
  { rewrite u32_small in Heqb; lia. }
  wp_step. apply wp_locals.
  apply (wp_for (fun i _ d' => ram_sectors d' = ram_sectors d /\ forall a, ram_byte d' a =
     if (512 * lba <=? a) && (a <? 512 * (lba + i)) then rd buf (off + (a - 512 * lba)) else ram_byte d a)).
  - split; [done|]. intros a. case_range; done || lia.
  - intros i r d' Hi [Hs' Hr]. unfold span in Hi. wp_step.
    apply wp_ram_write_one; [lia | lia | lia | intros; apply Hb; lia |].
    intros d2 Hs2 Hd2. apply wp_ret. split; [congruence|]. intros a. rewrite Hd2, Hr.
    case_range; try lia; try done. f_equal. lia.
  - intros r d' [Hs' Hf]. apply wp_ret, HQ; [done|].
    by replace (0 + Z.of_nat (span 0 count)) with count in Hf by (unfold span; lia).
Qed.
End RamLaws.

(** The number of sectors fits in the 32 bits of a sector number. *)
Definition ram_cap (d : ramdisk) : Z :=
  if ram_sectors d <? 4294967296 then ram_sectors d else 4294967295.

Section RamInstance.

Lemma ram_laws_cap d lba count : lba + count <= ram_cap d ->
  lba + count <= ram_sectors d /\ lba + count < 4294967296.
Proof. unfold ram_cap. destruct (Z.ltb_spec (ram_sectors d) 4294967296); lia. Qed.

Lemma ram_refused d lba count : 0 <= lba + count -> ram_cap d < lba + count < 4294967296 ->
  (ram_sectors d <? u32 (lba + count)) = true.
Proof.
  unfold ram_cap. intros H0 H. apply Z.ltb_lt. rewrite u32_small by lia.
  destruct (Z.ltb_spec (ram_sectors d) 4294967296); lia.
Qed.

(** A transfer that does not fit in the buffer stops at the first sector that
    does not. *)
Lemma ram_read_overflow drive d lba count buf off :
  0 <= lba -> 0 < count -> lba + count <= ram_cap d -> 0 <= off -> lenZ buf < off + 512 * count ->
  exists d', ram_read drive lba count buf off d = Stuck OutOfBounds d'.
Proof.
  intros H0 Hc Hcap Ho Hl. apply ram_laws_cap in Hcap as [H1 H2]. exists d.
  unfold ram_read, mbind, M_bind, gets. destruct (Z.ltb_spec (ram_sectors d) (u32 (lba + count))).
  { rewrite u32_small in H; lia. }
  unfold locals, mbind, M_bind. set (body := fun i buf => _).
  assert (Hgen : forall n i b, Z.of_nat n + i = count -> 0 <= i -> lenZ b = lenZ buf ->
    for_ n i b body d = Stuck OutOfBounds d \/ (Z.of_nat n = 0)).
  { induction n as [|n IH]; intros i b Hn Hi Hb; [by right|]. left. cbn [for_].
    unfold mbind, M_bind. unfold body at 1. unfold mbind, M_bind, ram_read_one, gets.
    unfold mbind, M_bind. destruct (decide _) as [[? ?]|]; [|done]. cbn [mret M_ret].
    destruct (IH (i + 1) (splice b (off + 512 * i)
      (map (fun k => ram_byte d (512 * (lba + i) + k)) (seqZ 0 512))) ltac:(lia) ltac:(lia)) as [He|Hz].
    - rewrite lenZ_splice; [done | lia |]. rewrite lenZ_map_seqZ by done. lia.
    - exact He.
    - exfalso. lia. }
  destruct (Hgen (span 0 count) 0 buf) as [He|Hz].
  - unfold span. lia.
  - done.
  - done.
  - by rewrite He.
  - unfold span in Hz. pose proof (lenZ_nonneg buf). lia.
Qed.
End RamInstance.

#[export] Instance ram_laws drive : DiskLaws ramdisk drive.
Proof.
  refine {| dk_cap := ram_cap; dk_byte := ram_byte |}.
  - intros d a. apply Z.mod_pos_bound. lia.
  - intros d lba count buf off H0 Hc Hcap Ho Hl. apply ram_laws_cap in Hcap as [H1 H2].
    assert (Hw : wp (ram_read drive lba count buf off) (fun r d' => d' = d /\ fst r = 0 /\
      filled_with buf off (512 * count) (fun k => ram_byte d (512 * lba + k)) (snd r)) d).
    { apply wp_ram_read; try done. }
    apply wp_ok in Hw as ([v r] & d' & He & -> & Hv & Hf). simpl in *. subst v. by exists r, d.
  - intros d lba count buf off H0 Hc Hcap Ho Hl Hb. pose proof (ram_laws_cap _ _ _ Hcap) as [H1 H2].
    assert (Hw : wp (ram_write drive lba count buf off) (fun v d' => v = 0 /\ ram_cap d' = ram_cap d /\
      forall a, ram_byte d' a = if (512 * lba <=? a) && (a <? 512 * (lba + count))
        then rd buf (off + (a - 512 * lba)) else ram_byte d a) d).
    { apply wp_ram_write; try done. intros d' Hs Hd. unfold ram_cap. rewrite Hs. done. }
    apply wp_ok in Hw as (v & d' & He & -> & Hf). by exists d'.
  - intros d lba count buf off H0 Hc Hcap. simpl. unfold ram_read, mbind, M_bind, gets.
    by rewrite ram_refused by lia.
  - intros d lba count buf off H0 Hc Hcap. simpl. unfold ram_write, mbind, M_bind, gets.
    by rewrite ram_refused by lia.
  - intros d lba count buf off. apply ram_read_overflow.
Defined.
