(* ===== verification/Ext2.v ===== *)
(** The ext2 file system: [src/kernel/fs/ext2.c], the operations.

    The driver works on byte images: the superblock, the group descriptors,
    inodes, directory entries and blocks are lists of bytes with the field
    offsets of [src/include/ext2.h].  The disk is any [BlockDevice].  A local
    array of the C code that is not initialised holds arbitrary bytes, the
    parameter [junk].  [fs] is the object [ext2_fs] in every call. *)
From Stdlib Require Import ZArith Lia List.
From stdpp Require Import base tactics numbers list gmap strings option.
From S2P Require Import Prelude CString Bytes Ata.
Open Scope Z_scope.

Definition EXT2_SUPERBLOCK_OFFSET : Z := 1024.
Definition EXT2_SECTOR_SIZE : Z := 512.
Definition EXT2_MAGIC : Z := 0xEF53.
Definition EXT2_ROOT_INO : Z := 2.
Definition EXT2_DRIVE : Z := 2.
Definition EXT2_S_IFREG : Z := 0x8000.
Definition EXT2_S_IFDIR : Z := 0x4000.
Definition EXT2_S_ISDIR (m : Z) : bool := Z.land m 0xF000 =? EXT2_S_IFDIR.
Definition EXT2_S_ISREG (m : Z) : bool := Z.land m 0xF000 =? EXT2_S_IFREG.

Definition VFS_OK : Z := 0.
Definition VFS_ERR : Z := -1.
Definition VFS_ERR_NOT_FOUND : Z := -2.
Definition VFS_ERR_IS_DIR : Z := -3.
Definition VFS_ERR_IS_FILE : Z := -4.
Definition VFS_ERR_NO_SPACE : Z := -5.
Definition VFS_FT_FILE : Z := 1.
Definition VFS_FT_DIR : Z := 2.

(** * Structs ([ext2.h], [vfs.h]) *)

Definition SB_SIZE : Z := 204.
Definition sb_inodes_count (sb : list Z) : Z := le32 sb 0.
Definition sb_blocks_count (sb : list Z) : Z := le32 sb 4.
Definition SB_FREE_BLOCKS : Z := 12.
Definition SB_FREE_INODES : Z := 16.
Definition sb_first_data_block (sb : list Z) : Z := le32 sb 20.
Definition sb_log_block_size (sb : list Z) : Z := le32 sb 24.
Definition sb_blocks_per_group (sb : list Z) : Z := le32 sb 32.
Definition sb_inodes_per_group (sb : list Z) : Z := le32 sb 40.
Definition sb_magic (sb : list Z) : Z := le16 sb 56.
Definition sb_inode_size (sb : list Z) : Z := le16 sb 88.

(** [EXT2_BLOCK_SIZE(sb)]; the processor takes the shift count modulo 32. *)
Definition EXT2_BLOCK_SIZE (sb : list Z) : Z :=
  u32 (Z.shiftl 1024 (sb_log_block_size sb mod 32)).

Definition GD_SIZE : Z := 32.
Definition gd_block_bitmap (g : Z) : Z := GD_SIZE * g.
Definition gd_inode_bitmap (g : Z) : Z := GD_SIZE * g + 4.
Definition gd_inode_table (g : Z) : Z := GD_SIZE * g + 8.
Definition gd_free_blocks (g : Z) : Z := GD_SIZE * g + 12.
Definition gd_free_inodes (g : Z) : Z := GD_SIZE * g + 14.

Definition INODE_SIZE : Z := 128.
Definition i_mode (i : list Z) : Z := le16 i 0.
Definition i_size (i : list Z) : Z := le32 i 4.
Definition i_links (i : list Z) : Z := le16 i 26.
Definition i_blocks (i : list Z) : Z := le32 i 28.
Definition i_block (i : list Z) (k : Z) : Z := le32 i (40 + 4 * k).
Definition set_mode (v : Z) (i : list Z) : list Z := put16 i 0 v.
Definition set_size (v : Z) (i : list Z) : list Z := put32 i 4 (u32 v).
Definition set_dtime (v : Z) (i : list Z) : list Z := put32 i 20 (u32 v).
Definition set_links (v : Z) (i : list Z) : list Z := put16 i 26 (u16 v).
Definition set_blocks (v : Z) (i : list Z) : list Z := put32 i 28 (u32 v).
Definition set_block (k v : Z) (i : list Z) : list Z := put32 i (40 + 4 * k) (u32 v).

(** Directory entries: inode, record length, name length, type, name. *)
Section DirEntry.
Context {S : Type}.
Definition e_inode (buf : list Z) (e : Z) : M S Z := ld32 buf e.
Definition e_rec_len (buf : list Z) (e : Z) : M S Z := ld16 buf (e + 4).
Definition e_name_len (buf : list Z) (e : Z) : M S Z := ld8 buf (e + 6).
Definition e_file_type (buf : list Z) (e : Z) : M S Z := ld8 buf (e + 7).

(** Fill the entry at [e]. *)
Definition put_entry (buf : list Z) (e ino rec_len name_len file_type : Z) (name : list Z)
    : M S (list Z) :=
  buf ← st32 buf e ino;
  buf ← st16 buf (e + 4) rec_len;
  buf ← st8 buf (e + 6) name_len;
  buf ← st8 buf (e + 7) file_type;
  memcpy buf (e + 8) name 0 name_len.

(** [memcmp(e->name, name, n)] *)
Definition name_cmp (buf : list Z) (e : Z) (name : list Z) (n : Z) : M S Z :=
  memcmp (drop (Z.to_nat (e + 8)) buf) name n.
End DirEntry.

(** A function pointer of a node: null, or the function of the ext2 driver
    for that slot. *)
Inductive fn : Type := fn_null | fn_ext2.
#[export] Instance fn_eq_dec : EqDecision fn.
Proof. solve_decision. Defined.

Record vfs_node_t : Type := mkNode {
  name : list Z;
  length : Z;
  flags : Z;
  inode : Z;
  read : fn;
  write : fn;
  readdir : fn;
  finddir : fn
}.
Definition zero_node : vfs_node_t := mkNode (replicate 64 0) 0 0 0 fn_null fn_null fn_null fn_null.
Definition set_length (v : Z) (n : vfs_node_t) : vfs_node_t :=
  mkNode (name n) v (flags n) (inode n) (read n) (write n) (readdir n) (finddir n).

(** * State: [ext2_fs], [ext2_mounted], the disk and the static nodes

    [superblock] and [group_desc] are pointers to heap blocks; [sb_bytes] and
    [gd_bytes] are the contents of the blocks. *)

Record ext2 (D : Type) : Type := mkExt2 {
  disk : D;
  superblock : Z;
  sb_bytes : list Z;
  group_desc : Z;
  gd_bytes : list Z;
  block_size : Z;
  blocks_per_group : Z;
  inodes_per_group : Z;
  group_count : Z;
  ext2_mounted : Z;
  nodes : list vfs_node_t;
  next : Z
}.
Arguments mkExt2 {D} _ _ _ _ _ _ _ _ _ _ _ _.
Arguments disk {D} _.
Arguments superblock {D} _.
Arguments sb_bytes {D} _.
Arguments group_desc {D} _.
Arguments gd_bytes {D} _.
Arguments block_size {D} _.
Arguments blocks_per_group {D} _.
Arguments inodes_per_group {D} _.
Arguments group_count {D} _.
Arguments ext2_mounted {D} _.
Arguments nodes {D} _.
Arguments next {D} _.

Definition set_disk {D} (d : D) (s : ext2 D) : ext2 D :=
  mkExt2 d (superblock s) (sb_bytes s) (group_desc s) (gd_bytes s) (block_size s)
    (blocks_per_group s) (inodes_per_group s) (group_count s) (ext2_mounted s) (nodes s) (next s).
Definition set_sb_bytes {D} (l : list Z) (s : ext2 D) : ext2 D :=
  mkExt2 (disk s) (superblock s) l (group_desc s) (gd_bytes s) (block_size s)
    (blocks_per_group s) (inodes_per_group s) (group_count s) (ext2_mounted s) (nodes s) (next s).
Definition set_gd_bytes {D} (l : list Z) (s : ext2 D) : ext2 D :=
  mkExt2 (disk s) (superblock s) (sb_bytes s) (group_desc s) l (block_size s)
    (blocks_per_group s) (inodes_per_group s) (group_count s) (ext2_mounted s) (nodes s) (next s).
Definition set_nodes {D} (l : list vfs_node_t) (n : Z) (s : ext2 D) : ext2 D :=
  mkExt2 (disk s) (superblock s) (sb_bytes s) (group_desc s) (gd_bytes s) (block_size s)
    (blocks_per_group s) (inodes_per_group s) (group_count s) (ext2_mounted s) l n.

(** The largest number of entries the model searches in one directory. *)
Definition DIR_FUEL : nat := Z.to_nat 65536.

Section Operations.
Context {D : Type} `{BlockDevice D} `{Locals}.
Notation E := (M (ext2 D)).

Definition dev {A} (m : M D A) : E A := zoom disk set_disk m.

(** [!fs->superblock || !fs->group_desc] *)
Definition no_metadata (s : ext2 D) : bool := (superblock s =? 0) || (group_desc s =? 0).

Definition ext2_off_to_sectors (byte_off byte_len : Z) : Z :=
  let start := byte_off / EXT2_SECTOR_SIZE in
  let end_ := u32 (byte_off + byte_len + EXT2_SECTOR_SIZE - 1) / EXT2_SECTOR_SIZE in
  if byte_len =? 0 then 0 else u32 (end_ - start).

Definition ext2_gd_sector : E Z :=
  bs ← gets block_size;
  q ← udiv EXT2_SUPERBLOCK_OFFSET bs;
  mret (u32 ((q + 1) * (bs / EXT2_SECTOR_SIZE))).

Definition ext2_read_superblock (drive : Z) : E (option (list Z)) :=
  let sector := EXT2_SUPERBLOCK_OFFSET / EXT2_SECTOR_SIZE in
  let offset := EXT2_SUPERBLOCK_OFFSET mod EXT2_SECTOR_SIZE in
  r ← dev (read_sectors drive sector 1 (local_array EXT2_SECTOR_SIZE) 0);
  if negb (fst r =? 0) then mret None
  else
    sb ← memcpy (local_array SB_SIZE) 0 (snd r) offset SB_SIZE;
    mret (Some sb).

(** Where the inode lies: the sector and the offset in it. *)
Definition inode_location (inode_num : Z) : E (option (Z * Z)) :=
  sb ← gets sb_bytes;
  group ← udiv (u32 (inode_num - 1)) (sb_inodes_per_group sb);
  index ← umod (u32 (inode_num - 1)) (sb_inodes_per_group sb);
  gc ← gets group_count;
  if gc <=? group then mret None
  else
    let inode_size := if sb_inode_size sb =? 0 then 128 else sb_inode_size sb in
    gd ← gets gd_bytes;
    inode_table_block ← ld32 gd (gd_inode_table group);
    bs ← gets block_size;
    let byte_off := u32 (inode_table_block * bs + index * inode_size) in
    mret (Some (byte_off / EXT2_SECTOR_SIZE, byte_off mod EXT2_SECTOR_SIZE)).

(** [Some inode] for the return value 0, [None] for -1. *)
Definition ext2_read_inode (inode_num : Z) : E (option (list Z)) :=
  nm ← gets no_metadata;
  sb ← gets sb_bytes;
  if (nm : bool) then mret None
  else if (inode_num <? 1) || (sb_inodes_count sb <? inode_num) then mret None
  else
    l ← inode_location inode_num;
    match l with
    | None => mret None
    | Some (sector, off_in_sector) =>
        r ← dev (read_sectors EXT2_DRIVE sector 1 (local_array EXT2_SECTOR_SIZE) 0);
        if negb (fst r =? 0) then mret None
        else
          inode ← memcpy (local_array INODE_SIZE) 0 (snd r) off_in_sector INODE_SIZE;
          mret (Some inode)
    end.

Definition ext2_write_inode (inode_num : Z) (inode : list Z) : E Z :=
  nm ← gets no_metadata;
  if (nm : bool) then mret (-1)
  else
    l ← inode_location inode_num;
    match l with
    | None => mret (-1)
    | Some (sector, off_in_sector) =>
        r ← dev (read_sectors EXT2_DRIVE sector 1 (local_array EXT2_SECTOR_SIZE) 0);
        if negb (fst r =? 0) then mret (-1)
        else
          buf ← memcpy (snd r) off_in_sector inode 0 INODE_SIZE;
          w ← dev (write_sectors EXT2_DRIVE sector 1 buf 0);
          mret (if w =? 0 then 0 else -1)
    end.

(** Sector and sector count of a block transfer, and the length it reports. *)
Definition block_extent (bs block_num len : Z) : Z * Z * Z :=
  let sector := u32 (block_num * (bs / EXT2_SECTOR_SIZE)) in
  let sectors := bs / EXT2_SECTOR_SIZE in
  let len := if (bs <? len) || (EXT2_SECTOR_SIZE * 4 <? bs) then bs else len in
  let break_sectors := u32 (len + EXT2_SECTOR_SIZE - 1) / EXT2_SECTOR_SIZE in
  (sector, if sectors <? break_sectors then sectors else break_sectors, len).

(** The buffer is [buf + off]. *)
Definition ext2_read_block (block_num : Z) (buf : list Z) (off len : Z) : E (Z * list Z) :=
  if block_num =? 0 then mret (0, buf)
  else
    bs ← gets block_size;
    let '(sector, count, len) := block_extent bs block_num len in
    r ← dev (read_sectors EXT2_DRIVE sector count buf off);
    mret (if fst r =? 0 then len else 0, snd r).

Definition ext2_write_block (block_num : Z) (buf : list Z) (off len : Z) : E Z :=
  if block_num =? 0 then mret 0
  else
    bs ← gets block_size;
    let '(sector, count, len) := block_extent bs block_num len in
    w ← dev (write_sectors EXT2_DRIVE sector count buf off);
    mret (if w =? 0 then len else 0).

Fixpoint ext2_get_block_from_ptr (block index_capacity target : Z) (level : nat) : E Z :=
  bs ← gets block_size;
  let ptr_per_block := bs / 4 in
  match level with
  | O => mret block
  | Datatypes.S below =>
      r ← ext2_read_block block (local_array 4096) 0 bs;
      let '(n, contents) := r in
      if n =? 0 then mret 0
      else
        match below with
        | O =>
            if ptr_per_block <=? target then mret 0 else ld32 contents (4 * target)
        | Datatypes.S O =>
            first ← udiv target ptr_per_block;
            second ← umod target ptr_per_block;
            if ptr_per_block <=? first then mret 0
            else
              b ← ld32 contents (4 * first);
              ext2_get_block_from_ptr b ptr_per_block second below
        | _ => mret 0
        end
  end.

Definition ext2_block_lookup (inode : list Z) (logical : Z) : E Z :=
  bs ← gets block_size;
  let ptr_per_block := bs / 4 in
  let direct_count := 12 in
  if logical <? direct_count then mret (i_block inode logical)
  else
    let logical := logical - direct_count in
    if logical <? ptr_per_block then
      ext2_get_block_from_ptr (i_block inode 12) ptr_per_block logical 1
    else
      let logical := logical - ptr_per_block in
      if logical <? u32 (ptr_per_block * ptr_per_block) then
        ext2_get_block_from_ptr (i_block inode 13) ptr_per_block logical 2
      else mret 0.

(** The result and the buffer; [buf] is not null. *)
Definition ext2_read_data (inode : list Z) (offset size : Z) (buf : list Z) : E (Z * list Z) :=
  if i_size inode <=? offset then mret (0, buf)
  else
    let size := if i_size inode <? u32 (offset + size) then i_size inode - offset else size in
    r ← while_ (Z.to_nat size + 1) (0, buf) (fun '(done, buf) =>
      if done <? size then
        bs ← gets block_size;
        let byte_off := u32 (offset + done) in
        block_idx ← udiv byte_off bs;
        in_block ← umod byte_off bs;
        let chunk := if bs - in_block <? size - done then bs - in_block else size - done in
        phys_block ← ext2_block_lookup inode block_idx;
        if phys_block =? 0 then mret (Ret (done, buf))
        else if (in_block =? 0) && (chunk =? bs) then
          r ← ext2_read_block phys_block buf done chunk;
          let '(n, buf) := r in
          if negb (n =? chunk) then mret (Ret (done, buf)) else mret (Cont (done + chunk, buf))
        else
          r ← ext2_read_block phys_block (local_array 4096) 0 bs;
          let '(n, block_buf) := r in
          if negb (n =? bs) then mret (Ret (done, buf))
          else
            buf ← memcpy buf done block_buf in_block chunk;
            mret (Cont (done + chunk, buf))
      else mret (Brk (done, buf)));
    match r with
    | inl (done, buf) => mret (s32 done, buf)
    | inr (done, buf) => mret (s32 done, buf)
    end.

(** * Bitmaps and allocation *)

(** The bitmap of a group; a failed transfer leaves the buffer unnoticed. *)
Definition ext2_read_bbitmap (group : Z) (buf : list Z) : E (list Z) :=
  gd ← gets gd_bytes;
  bs ← gets block_size;
  b ← ld32 gd (gd_block_bitmap group);
  r ← dev (read_sectors EXT2_DRIVE (u32 (b * (bs / EXT2_SECTOR_SIZE))) (bs / EXT2_SECTOR_SIZE) buf 0);
  mret (snd r).

Definition ext2_write_bbitmap (group : Z) (buf : list Z) : E unit :=
  gd ← gets gd_bytes;
  bs ← gets block_size;
  b ← ld32 gd (gd_block_bitmap group);
  dev (write_sectors EXT2_DRIVE (u32 (b * (bs / EXT2_SECTOR_SIZE))) (bs / EXT2_SECTOR_SIZE) buf 0);;
  mret tt.

Definition ext2_read_ibitmap (group : Z) (buf : list Z) : E (list Z) :=
  gd ← gets gd_bytes;
  bs ← gets block_size;
  b ← ld32 gd (gd_inode_bitmap group);
  r ← dev (read_sectors EXT2_DRIVE (u32 (b * (bs / EXT2_SECTOR_SIZE))) (bs / EXT2_SECTOR_SIZE) buf 0);
  mret (snd r).

Definition ext2_write_ibitmap (group : Z) (buf : list Z) : E unit :=
  gd ← gets gd_bytes;
  bs ← gets block_size;
  b ← ld32 gd (gd_inode_bitmap group);
  dev (write_sectors EXT2_DRIVE (u32 (b * (bs / EXT2_SECTOR_SIZE))) (bs / EXT2_SECTOR_SIZE) buf 0);;
  mret tt.

(** Add [d] to a counter of the group descriptors (16 bits) or of the
    superblock (32 bits). *)
Definition gd_add (o d : Z) : E unit :=
  gd ← gets gd_bytes;
  v ← ld16 gd o;
  gd ← st16 gd o (u16 (v + d));
  modify (set_gd_bytes gd).
Definition sb_add (o d : Z) : E unit :=
  sb ← gets sb_bytes;
  v ← ld32 sb o;
  sb ← st32 sb o (u32 (v + d));
  modify (set_sb_bytes sb).

(** Write the superblock and the group descriptors back to the disk. *)
Definition persist_superblock : E unit :=
  let sb_sector := EXT2_SUPERBLOCK_OFFSET / EXT2_SECTOR_SIZE in
  r ← dev (read_sectors EXT2_DRIVE sb_sector 1 (local_array EXT2_SECTOR_SIZE) 0);
  sb ← gets sb_bytes;
  sb_buf ← memcpy (snd r) (EXT2_SUPERBLOCK_OFFSET mod EXT2_SECTOR_SIZE) sb 0 SB_SIZE;
  dev (write_sectors EXT2_DRIVE sb_sector 1 sb_buf 0);;
  mret tt.
Definition persist_group_desc : E unit :=
  gd_sector ← ext2_gd_sector;
  bs ← gets block_size;
  r ← dev (read_sectors EXT2_DRIVE gd_sector (bs / EXT2_SECTOR_SIZE)
             (local_array (EXT2_SECTOR_SIZE * 4)) 0);
  gd ← gets gd_bytes;
  gc ← gets group_count;
  gd_buf ← memcpy (snd r) 0 gd 0 (u32 (GD_SIZE * gc));
  dev (write_sectors EXT2_DRIVE gd_sector (bs / EXT2_SECTOR_SIZE) gd_buf 0);;
  mret tt.

(** The byte and the mask of entry [b] of a bitmap. *)
Definition bit_byte (b : Z) : Z := b / 32 * 4 + b mod 32 / 8.
Definition bit_mask (b : Z) : Z := Z.shiftl 1 (b mod 32 mod 8).

Definition ext2_alloc_block : E (option Z) :=
  nm ← gets no_metadata;
  gc ← gets group_count;
  if (nm : bool) then mret None
  else
    r ← for_ (span 0 gc) 0 (local_array 4096) (fun g bitmap =>
      gd ← gets gd_bytes;
      free ← ld16 gd (gd_free_blocks g);
      if free =? 0 then mret (Cont bitmap)
      else
        bitmap ← ext2_read_bbitmap g bitmap;
        bpg ← gets blocks_per_group;
        r ← for_ (span 0 bpg) 0 bitmap (fun b bitmap =>
          v ← aget bitmap (bit_byte b);
          if Z.land v (bit_mask b) =? 0 then
            bitmap ← aset bitmap (bit_byte b) (Z.lor v (bit_mask b));
            ext2_write_bbitmap g bitmap;;
            gd_add (gd_free_blocks g) (-1);;
            sb_add SB_FREE_BLOCKS (-1);;
            persist_superblock;;
            persist_group_desc;;
            sb ← gets sb_bytes;
            mret (Ret (u32 (g * bpg + b + sb_first_data_block sb)))
          else mret (Cont bitmap));
        match r with
        | inl bitmap => mret (Cont bitmap)
        | inr blk => mret (Ret blk)
        end);
    match r with inl _ => mret None | inr blk => mret (Some blk) end.

Definition ext2_free_block (block : Z) : E unit :=
  if block =? 0 then mret tt
  else
    sb ← gets sb_bytes;
    bpg ← gets blocks_per_group;
    group ← udiv (u32 (block - sb_first_data_block sb)) bpg;
    index ← umod (u32 (block - sb_first_data_block sb)) bpg;
    bitmap ← ext2_read_bbitmap group (local_array 4096);
    v ← aget bitmap (bit_byte index);
    bitmap ← aset bitmap (bit_byte index) (u8 (Z.land v (Z.lnot (bit_mask index))));
    ext2_write_bbitmap group bitmap;;
    gd_add (gd_free_blocks group) 1;;
    sb_add SB_FREE_BLOCKS 1.

(** The physical block, 0 when there is none, and the inode. *)
Definition ext2_file_alloc_block (inode : list Z) (logical : Z) : E (Z * list Z) :=
  bs ← gets block_size;
  let ppb := if 1024 <? bs / 4 then 1024 else bs / 4 in
  let finish phys inode :=
    mret (phys, set_blocks (i_blocks inode + bs / EXT2_SECTOR_SIZE) inode) : E (Z * list Z) in
  if logical <? 12 then
    if negb (i_block inode logical =? 0) then mret (i_block inode logical, inode)
    else
      a ← ext2_alloc_block;
      match a with
      | None => mret (0, inode)
      | Some phys => finish phys (set_block logical phys inode)
      end
  else if logical <? 12 + ppb then
    let idx := logical - 12 in
    r ← (if i_block inode 12 =? 0 then
           a ← ext2_alloc_block;
           match a with
           | None => mret None
           | Some phys =>
               ind ← bzero (local_array 4096) 0 bs;
               ext2_write_block phys ind 0 bs;;
               mret (Some (ind, set_block 12 phys inode))
           end
         else mret (Some (local_array 4096, inode)));
    match r with
    | None => mret (0, inode)
    | Some (ind, inode) =>
        r ← ext2_read_block (i_block inode 12) ind 0 bs;
        let '(n, ind) := r in
        if negb (n =? bs) then mret (0, inode)
        else
          p ← ld32 ind (4 * idx);
          if negb (p =? 0) then
            ext2_write_block (i_block inode 12) ind 0 bs;;
            mret (p, inode)
          else
            a ← ext2_alloc_block;
            match a with
            | None => mret (0, inode)
            | Some phys =>
                ind ← st32 ind (4 * idx) phys;
                ext2_write_block (i_block inode 12) ind 0 bs;;
                finish phys inode
            end
    end
  else mret (0, inode).

Definition ext2_alloc_inode : E (option Z) :=
  nm ← gets no_metadata;
  gc ← gets group_count;
  if (nm : bool) then mret None
  else
    r ← for_ (span 0 gc) 0 (local_array 4096) (fun g bitmap =>
      gd ← gets gd_bytes;
      free ← ld16 gd (gd_free_inodes g);
      if free =? 0 then mret (Cont bitmap)
      else
        bitmap ← ext2_read_ibitmap g bitmap;
        sb ← gets sb_bytes;
        let ipg := sb_inodes_per_group sb in
        r ← for_ (span 0 ipg) 0 bitmap (fun i bitmap =>
          v ← aget bitmap (bit_byte i);
          if Z.land v (bit_mask i) =? 0 then
            bitmap ← aset bitmap (bit_byte i) (Z.lor v (bit_mask i));
            ext2_write_ibitmap g bitmap;;
            gd_add (gd_free_inodes g) (-1);;
            sb_add SB_FREE_INODES (-1);;
            persist_superblock;;
            persist_group_desc;;
            mret (Ret (u32 (g * ipg + i + 1)))
          else mret (Cont bitmap));
        match r with
        | inl bitmap => mret (Cont bitmap)
        | inr ino => mret (Ret ino)
        end);
    match r with inl _ => mret None | inr ino => mret (Some ino) end.

Definition ext2_free_inode (ino : Z) : E unit :=
  if ino <? 1 then mret tt
  else
    sb ← gets sb_bytes;
    group ← udiv (ino - 1) (sb_inodes_per_group sb);
    index ← umod (ino - 1) (sb_inodes_per_group sb);
    bitmap ← ext2_read_ibitmap group (local_array 4096);
    v ← aget bitmap (bit_byte index);
    bitmap ← aset bitmap (bit_byte index) (u8 (Z.land v (Z.lnot (bit_mask index))));
    ext2_write_ibitmap group bitmap;;
    gd_add (gd_free_inodes group) 1;;
    sb_add SB_FREE_INODES 1.

(** The result and the inode; [buf] is not null. *)
Definition ext2_write_data (inode : list Z) (offset size : Z) (buf : list Z) : E (Z * list Z) :=
  r ← while_ (Z.to_nat size + 1) (0, inode) (fun '(done, inode) =>
    if done <? size then
      bs ← gets block_size;
      let byte_off := u32 (offset + done) in
      block_idx ← udiv byte_off bs;
      in_block ← umod byte_off bs;
      let chunk := if bs - in_block <? size - done then bs - in_block else size - done in
      phys_block ← ext2_block_lookup inode block_idx;
      r ← (if (phys_block =? 0) && (i_size inode <=? byte_off) then
             ext2_file_alloc_block inode block_idx
           else mret (phys_block, inode));
      let '(phys_block, inode) := r in
      if phys_block =? 0 then mret (Ret (done, inode))
      else
        let inode :=
          if i_size inode <=? byte_off then set_size (byte_off + (size - done)) inode else inode in
        if (in_block =? 0) && (chunk =? bs) then
          n ← ext2_write_block phys_block buf done chunk;
          if negb (n =? chunk) then mret (Ret (done, inode)) else mret (Cont (done + chunk, inode))
        else
          r ← ext2_read_block phys_block (local_array 4096) 0 bs;
          let '(n, block_buf) := r in
          if negb (n =? bs) then mret (Ret (done, inode))
          else
            block_buf ← memcpy block_buf in_block buf done chunk;
            n ← ext2_write_block phys_block block_buf 0 bs;
            if negb (n =? bs) then mret (Ret (done, inode)) else mret (Cont (done + chunk, inode))
    else mret (Brk (done, inode)));
  match r with
  | inr (done, inode) => mret (s32 done, inode)
  | inl (done, inode) =>
      mret (s32 done, if i_size inode <? u32 (offset + size) then set_size (offset + size) inode
                      else inode)
  end.

(** * Directories *)

(** Length of an entry for a name of [n] bytes, in [uint16_t]. *)
Definition entry_len (n : Z) : Z :=
  let l := u16 (8 + n) in
  if l mod 4 =? 0 then l else u16 (l + (4 - l mod 4)).

(** Append [child_ino] in a new block of the directory. *)
Definition dir_append_block (dir_ino : Z) (dir_inode name : list Z)
    (child_ino file_type name_len offs : Z) (block_buf : list Z) : E Z :=
  bs ← gets block_size;
  q ← udiv offs bs;
  m ← umod offs bs;
  let offs := if negb (m =? 0) then u32 ((q + 1) * bs) else offs in
  a ← ext2_alloc_block;
  match a with
  | None => mret (-1)
  | Some new_block =>
      block_buf ← bzero block_buf 0 bs;
      block_buf ← put_entry block_buf 0 child_ino (u16 bs) name_len file_type name;
      ext2_write_block new_block block_buf 0 bs;;
      existing_blocks ← udiv (i_blocks dir_inode) (bs / EXT2_SECTOR_SIZE);
      let grow inode :=
        set_size (offs + bs) (set_blocks (i_blocks inode + bs / EXT2_SECTOR_SIZE) inode) in
      if existing_blocks <? 12 then
        ext2_write_inode dir_ino (grow (set_block existing_blocks new_block dir_inode));;
        mret 0
      else
        r ← (if i_block dir_inode 12 =? 0 then
               a ← ext2_alloc_block;
               match a with
               | None => mret None
               | Some ind_block =>
                   zero_buf ← bzero (local_array 4096) 0 bs;
                   ext2_write_block ind_block zero_buf 0 bs;;
                   mret (Some (set_block 12 ind_block dir_inode))
               end
             else mret (Some dir_inode));
        match r with
        | None => mret (-1)
        | Some dir_inode =>
            let indirect_idx := existing_blocks - 12 in
            r ← ext2_read_block (i_block dir_inode 12) (local_array 4096) 0 bs;
            ind ← st32 (snd r) (4 * indirect_idx) new_block;
            ext2_write_block (i_block dir_inode 12) ind 0 bs;;
            ext2_write_inode dir_ino (grow dir_inode);;
            mret 0
        end
  end.

Definition ext2_add_dir_entry (dir_ino : Z) (name : list Z) (child_ino file_type : Z) : E Z :=
  i ← ext2_read_inode dir_ino;
  match i with
  | None => mret (-1)
  | Some dir_inode =>
      if negb (EXT2_S_ISDIR (i_mode dir_inode)) then mret (-1)
      else
        n ← strlen name;
        let name_len := u8 n in
        let rec_len := entry_len name_len in
        bs ← gets block_size;
        r ← while_ (Z.to_nat (i_size dir_inode) + 1) (0, local_array 4096)
              (fun '(offs, block_buf) =>
          if offs <? i_size dir_inode then
            in_blk ← umod offs bs;
            block_idx ← udiv offs bs;
            ld ← (if in_blk =? 0 then
                    phys ← ext2_block_lookup dir_inode block_idx;
                    if phys =? 0 then mret None
                    else
                      r ← ext2_read_block phys block_buf 0 bs;
                      mret (if fst r =? 0 then None else Some (snd r))
                  else mret (Some block_buf));
            match ld with
            | None => mret (Ret (-1))
            | Some block_buf =>
                e_rec ← e_rec_len block_buf in_blk;
                if e_rec =? 0 then mret (Brk (offs, block_buf))
                else
                  e_nl ← e_name_len block_buf in_blk;
                  let e_total := entry_len e_nl in
                  let slack := u16 (e_rec - e_total) in
                  if rec_len <=? slack then
                    block_buf ← st16 block_buf (in_blk + 4) e_total;
                    block_buf ← put_entry block_buf (in_blk + e_total) child_ino slack name_len
                                  file_type name;
                    phys ← ext2_block_lookup dir_inode block_idx;
                    ext2_write_block phys block_buf 0 bs;;
                    mret (Ret 0)
                  else mret (Cont (u32 (offs + e_rec), block_buf))
            end
          else mret (Brk (offs, block_buf)));
        match r with
        | inr v => mret v
        | inl (offs, block_buf) =>
            dir_append_block dir_ino dir_inode name child_ino file_type name_len offs block_buf
        end
  end.

(** [Some ino] for the return value 0 with [*out_ino = ino]. *)
Definition ext2_create_file (parent_ino : Z) (name : list Z) : E (option Z) :=
  c ← aget name 0;
  p ← gets superblock;
  if (p =? 0) || (c =? 0) then mret None
  else
    a ← ext2_alloc_inode;
    match a with
    | None => mret None
    | Some ino =>
        inode ← bzero (local_array INODE_SIZE) 0 INODE_SIZE;
        let inode := set_links 1 (set_mode (Z.lor EXT2_S_IFREG 0x1A4) inode) in
        let inode := set_blocks 0 (set_size 0 inode) in
        ext2_write_inode ino inode;;
        r ← ext2_add_dir_entry parent_ino name ino 1;
        if negb (r =? 0) then
          ext2_free_inode ino;;
          mret None
        else mret (Some ino)
    end.

Definition DOT : list Z := [46].
Definition DOTDOT : list Z := [46; 46].

Definition ext2_create_dir (parent_ino : Z) (name : list Z) : E (option Z) :=
  c ← aget name 0;
  p ← gets superblock;
  if (p =? 0) || (c =? 0) then mret None
  else
    a ← ext2_alloc_inode;
    match a with
    | None => mret None
    | Some ino =>
        a ← ext2_alloc_block;
        match a with
        | None =>
            ext2_free_inode ino;;
            mret None
        | Some block =>
            bs ← gets block_size;
            block_buf ← bzero (local_array 4096) 0 bs;
            block_buf ← put_entry block_buf 0 ino 12 1 2 DOT;
            block_buf ← put_entry block_buf 12 parent_ino (u16 (bs - 12)) 2 2 DOTDOT;
            ext2_write_block block block_buf 0 bs;;
            inode ← bzero (local_array INODE_SIZE) 0 INODE_SIZE;
            let inode := set_links 2 (set_mode (Z.lor EXT2_S_IFDIR 0x1ED) inode) in
            let inode := set_blocks (bs / EXT2_SECTOR_SIZE) (set_size bs inode) in
            ext2_write_inode ino (set_block 0 block inode);;
            pi ← ext2_read_inode parent_ino;
            match pi with
            | Some parent_inode =>
                ext2_write_inode parent_ino (set_links (i_links parent_inode + 1) parent_inode);;
                mret tt
            | None => mret tt
            end;;
            r ← ext2_add_dir_entry parent_ino name ino 2;
            if negb (r =? 0) then
              ext2_free_inode ino;;
              ext2_free_block block;;
              mret None
            else mret (Some ino)
        end
    end.

(** [Some (ino, type)] for the return value 0. *)
Definition ext2_dir_lookup (dir_ino : Z) (name : list Z) : E (option (Z * Z)) :=
  i ← ext2_read_inode dir_ino;
  match i with
  | None => mret None
  | Some dir =>
      if negb (EXT2_S_ISDIR (i_mode dir)) then mret None
      else
        len ← strlen name;
        r ← while_ (Z.to_nat (i_size dir) + 1) (0, local_array 4096) (fun '(read_count, buf) =>
          if read_count <? i_size dir then
            let chunk := if 4096 <? i_size dir - read_count then 4096 else i_size dir - read_count in
            r ← ext2_read_data dir read_count chunk buf;
            let '(n, buf) := r in
            if n <=? 0 then mret (Brk (read_count, buf))
            else
              r ← while_ (Z.to_nat n + 1) 0 (fun pos =>
                if u32 (pos + 8) <=? n then
                  rl ← e_rec_len buf pos;
                  if rl =? 0 then mret (Ret None)
                  else
                    ino ← e_inode buf pos;
                    nl ← e_name_len buf pos;
                    m ← (if negb (ino =? 0) && (len =? nl) then name_cmp buf pos name len
                         else mret 1);
                    if m =? 0 then
                      ty ← e_file_type buf pos;
                      mret (Ret (Some (ino, ty)))
                    else mret (Cont (u32 (pos + rl)))
                else mret (Brk pos));
              match r with
              | inr v => mret (Ret v)
              | inl _ => mret (Cont (u32 (read_count + n), buf))
              end
          else mret (Brk (read_count, buf)));
        match r with
        | inr v => mret v
        | inl _ => mret None
        end
  end.

(** Find the entry to delete: its offset, the offset of the entry before it
    (0xFFFFFFFF when there is none) and the block it is in. *)
Definition find_entry (dir name : list Z) : E (option (Z * Z * list Z)) :=
  bs ← gets block_size;
  r ← while_ (Z.to_nat (i_size dir) + 1) (0, 0xFFFFFFFF, local_array 4096)
        (fun '(offs, prev_abs, block_buf) =>
    if offs <? i_size dir then
      in_blk ← umod offs bs;
      block_idx ← udiv offs bs;
      ld ← (if in_blk =? 0 then
              phys ← ext2_block_lookup dir block_idx;
              if phys =? 0 then mret None
              else
                r ← ext2_read_block phys block_buf 0 bs;
                mret (if fst r =? 0 then None else Some (snd r))
            else mret (Some block_buf));
      match ld with
      | None => mret (Ret None)
      | Some block_buf =>
          rl ← e_rec_len block_buf in_blk;
          if rl =? 0 then mret (Ret None)
          else
            n ← strlen name;
            nl ← e_name_len block_buf in_blk;
            m ← (if n =? nl then name_cmp block_buf in_blk name n else mret 1);
            if m =? 0 then mret (Ret (Some (offs, prev_abs, block_buf)))
            else mret (Cont (u32 (offs + rl), offs, block_buf))
      end
    else mret (Brk (offs, prev_abs, block_buf)));
  match r with inr v => mret v | inl _ => mret None end.

Definition CSTR_DOT : list Z := [46; 0].
Definition CSTR_DOTDOT : list Z := [46; 46; 0].

Definition ext2_remove_dir_entry (dir_ino : Z) (name : list Z) : E Z :=
  d1 ← strcmp name CSTR_DOT;
  d2 ← (if d1 =? 0 then mret 0 else strcmp name CSTR_DOTDOT);
  if d2 =? 0 then mret (-1)
  else
    l ← ext2_dir_lookup dir_ino name;
    match l with
    | None => mret (-1)
    | Some _ =>
        i ← ext2_read_inode dir_ino;
        match i with
        | None => mret (-1)
        | Some dir =>
            f ← find_entry dir name;
            match f with
            | None => mret (-1)
            | Some (toff, prev_abs, block_buf) =>
                bs ← gets block_size;
                del_block_idx ← udiv toff bs;
                del_phys ← ext2_block_lookup dir del_block_idx;
                if del_phys =? 0 then mret (-1)
                else
                  del ← umod toff bs;
                  del_rec ← e_rec_len block_buf del;
                  let shrink := i_size dir <=? u32 (toff + del_rec) in
                  prev_idx ← udiv prev_abs bs;
                  block_buf ← (if negb (prev_abs =? 0xFFFFFFFF) && (prev_idx =? del_block_idx) then
                     prev ← umod prev_abs bs;
                     prev_rec ← e_rec_len block_buf prev;
                     st16 block_buf (prev + 4) (u16 (prev_rec + del_rec))
                   else st32 block_buf del 0);
                  w ← ext2_write_block del_phys block_buf 0 bs;
                  if w =? 0 then mret (-1)
                  else if (shrink : bool) then
                    ext2_write_inode dir_ino (set_size (i_size dir - del_rec) dir);;
                    mret 0
                  else mret 0
            end
        end
    end.

(** * Freeing blocks *)

(** Free the non-zero entries [from] to [n - 1] of a table of pointers and
    pass the table with these entries cleared. *)
Definition free_entries (ptrs : list Z) (from n : Z) : E (list Z) :=
  locals (for_ (span from n) from ptrs (fun i ptrs =>
    p ← ld32 ptrs (4 * i);
    if negb (p =? 0) then
      ext2_free_block p;;
      ptrs ← st32 ptrs (4 * i) 0;
      mret (Cont ptrs)
    else mret (Cont ptrs))).

(** The entries of an indirect block that are read: none when it cannot be. *)
Definition read_pointers (block : Z) : E (Z * list Z) :=
  bs ← gets block_size;
  let n := if 1024 <? bs / 4 then 1024 else bs / 4 in
  r ← ext2_read_block block (local_array 4096) 0 bs;
  mret (if fst r =? 0 then 0 else n, snd r).

Definition ext2_free_indirect_chains (inode : list Z) : E (list Z) :=
  inode ← (let ind := i_block inode 12 in
    if negb (ind =? 0) then
      r ← read_pointers ind;
      free_entries (snd r) 0 (fst r);;
      ext2_free_block ind;;
      mret (set_block 12 0 inode)
    else mret inode);
  inode ← (let dbl := i_block inode 13 in
    if negb (dbl =? 0) then
      r ← read_pointers dbl;
      let '(n, ptrs) := r in
      locals (for_ (span 0 n) 0 tt (fun i _ =>
        p ← ld32 ptrs (4 * i);
        if p =? 0 then mret (Cont tt)
        else
          r ← read_pointers p;
          free_entries (snd r) 0 (fst r);;
          ext2_free_block p;;
          mret (Cont tt)));;
      ext2_free_block dbl;;
      mret (set_block 13 0 inode)
    else mret inode);
  if negb (i_block inode 14 =? 0) then
    ext2_free_block (i_block inode 14);;
    mret (set_block 14 0 inode)
  else mret inode.

(** Free the direct blocks [from] to 11. *)
Definition free_direct (from : Z) (inode : list Z) : E (list Z) :=
  locals (for_ (span from 12) from inode (fun i inode =>
    if negb (i_block inode i =? 0) then
      ext2_free_block (i_block inode i);;
      mret (Cont (set_block i 0 inode))
    else mret (Cont inode))).

Definition ext2_free_inode_blocks (inode : list Z) : E (list Z) :=
  inode ← free_direct 0 inode;
  inode ← ext2_free_indirect_chains inode;
  mret (set_blocks 0 inode).

(** * Removal, renaming and truncation *)

Definition ext2_remove_file (parent_ino : Z) (name : list Z) : E Z :=
  l ← ext2_dir_lookup parent_ino name;
  match l with
  | None => mret (-1)
  | Some (ino, type) =>
      if type =? 2 then mret (-1)
      else
        r ← ext2_remove_dir_entry parent_ino name;
        if negb (r =? 0) then mret (-1)
        else
          i ← ext2_read_inode ino;
          match i with
          | None => mret (-1)
          | Some inode =>
              let inode :=
                if 0 <? i_links inode then set_links (i_links inode - 1) inode else inode in
              let inode := set_dtime 0 inode in
              inode ← ext2_free_inode_blocks inode;
              if i_links inode =? 0 then
                ext2_write_inode ino inode;;
                ext2_free_inode ino;;
                mret 0
              else
                ext2_write_inode ino inode;;
                mret 0
          end
  end.

(** Only "." and ".." are left in the directory. *)
Definition dir_is_empty (inode : list Z) : E bool :=
  r ← while_ (Z.to_nat (i_size inode) + 1) (0, local_array 4096) (fun '(read_count, buf) =>
    if read_count <? i_size inode then
      let chunk := if 4096 <? i_size inode - read_count then 4096 else i_size inode - read_count in
      r ← ext2_read_data inode read_count chunk buf;
      let '(n, buf) := r in
      if n <=? 0 then mret (Brk (read_count, buf))
      else
        r ← while_ (Z.to_nat n + 1) 0 (fun pos =>
          if u32 (pos + 12) <=? n then
            rl ← e_rec_len buf pos;
            if rl =? 0 then mret (Ret false)
            else
              ino ← e_inode buf pos;
              nl ← e_name_len buf pos;
              c0 ← ld8 buf (pos + 8);
              c1 ← ld8 buf (pos + 9);
              if negb (ino =? 0) && negb ((nl =? 1) && (c0 =? 46)) &&
                 negb ((nl =? 2) && (c0 =? 46) && (c1 =? 46))
              then mret (Ret false)
              else mret (Cont (u32 (pos + rl)))
          else mret (Brk pos));
        match r with
        | inr v => mret (Ret v)
        | inl _ => mret (Cont (u32 (read_count + n), buf))
        end
    else mret (Brk (read_count, buf)));
  match r with inr v => mret v | inl _ => mret true end.

Definition ext2_remove_dir (parent_ino : Z) (name : list Z) : E Z :=
  l ← ext2_dir_lookup parent_ino name;
  match l with
  | None => mret (-1)
  | Some (ino, type) =>
      if negb (type =? 2) then mret (-1)
      else
        i ← ext2_read_inode ino;
        match i with
        | None => mret (-1)
        | Some inode =>
            if negb (EXT2_S_ISDIR (i_mode inode)) then mret (-1)
            else
              e ← dir_is_empty inode;
              if negb e then mret (-1)
              else
                r ← ext2_remove_dir_entry parent_ino name;
                if negb (r =? 0) then mret (-1)
                else
                  p ← ext2_read_inode parent_ino;
                  match p with
                  | Some parent =>
                      let parent := if 0 <? i_links parent
                        then set_links (i_links parent - 1) parent else parent in
                      ext2_write_inode parent_ino parent;;
                      mret tt
                  | None => mret tt
                  end;;
                  inode ← ext2_free_inode_blocks (set_dtime 0 (set_links 0 inode));
                  ext2_write_inode ino inode;;
                  ext2_free_inode ino;;
                  mret 0
        end
  end.

(** The link counts and the ".." entry of a directory moved to another
    parent. *)
Definition rename_fixup (ino old_parent_ino new_parent_ino : Z) : E unit :=
  p ← ext2_read_inode old_parent_ino;
  match p with
  | Some p =>
      let p := if 0 <? i_links p then set_links (i_links p - 1) p else p in
      ext2_write_inode old_parent_ino p;;
      mret tt
  | None => mret tt
  end;;
  p ← ext2_read_inode new_parent_ino;
  match p with
  | Some p =>
      ext2_write_inode new_parent_ino (set_links (i_links p + 1) p);;
      mret tt
  | None => mret tt
  end;;
  d ← ext2_read_inode ino;
  match d with
  | Some d =>
      if 12 <=? i_size d then
        phys ← ext2_block_lookup d 0;
        bs ← gets block_size;
        r ← ext2_read_block phys (local_array 4096) 0 bs;
        if negb (phys =? 0) && (0 <? fst r) then
          bbuf ← st32 (snd r) 12 new_parent_ino;
          ext2_write_block phys bbuf 0 bs;;
          mret tt
        else mret tt
      else mret tt
  | None => mret tt
  end.

Definition ext2_rename (old_parent_ino : Z) (old_name : list Z) (new_parent_ino : Z)
    (new_name : list Z) : E Z :=
  c1 ← aget old_name 0;
  c2 ← aget new_name 0;
  d1 ← strcmp new_name CSTR_DOT;
  d2 ← strcmp new_name CSTR_DOTDOT;
  same ← (if old_parent_ino =? new_parent_ino then strcmp old_name new_name else mret 1);
  if (c1 =? 0) || (c2 =? 0) then mret (-1)
  else if (d1 =? 0) || (d2 =? 0) then mret (-1)
  else if same =? 0 then mret 0
  else
    l ← ext2_dir_lookup old_parent_ino old_name;
    match l with
    | None => mret (-1)
    | Some (ino, type) =>
        t ← ext2_dir_lookup new_parent_ino new_name;
        match t with
        | Some _ => mret (-1)
        | None =>
            r ← ext2_add_dir_entry new_parent_ino new_name ino type;
            if negb (r =? 0) then mret (-1)
            else
              r ← ext2_remove_dir_entry old_parent_ino old_name;
              if negb (r =? 0) then mret (-1)
              else if (type =? 2) && negb (old_parent_ino =? new_parent_ino) then
                rename_fixup ino old_parent_ino new_parent_ino;;
                mret 0
              else mret 0
        end
    end.

Definition ext2_truncate_file (ino new_size : Z) : E Z :=
  p ← gets superblock;
  bs ← gets block_size;
  if p =? 0 then mret (-1)
  else
    i ← ext2_read_inode ino;
    match i with
    | None => mret (-1)
    | Some inode =>
        let ppb := bs / 4 in
        new_blocks ← udiv (u32 (new_size + bs - 1)) bs;
        if i_size inode <=? new_size then
          ext2_write_inode ino (set_size new_size inode);;
          mret 0
        else
          r ← (if new_blocks <=? 12 then
                 inode ← free_direct new_blocks inode;
                 inode ← ext2_free_indirect_chains inode;
                 mret (Some inode)
               else if new_blocks <=? 12 + ppb then
                 let kept := new_blocks - 12 in
                 let ind_phys := i_block inode 12 in
                 inode ← (if negb (i_block inode 13 =? 0) then
                            ext2_free_block (i_block inode 13);;
                            mret (set_block 13 0 inode)
                          else mret inode);
                 inode ← (if negb (i_block inode 14 =? 0) then
                            ext2_free_block (i_block inode 14);;
                            mret (set_block 14 0 inode)
                          else mret inode);
                 r ← read_pointers ind_phys;
                 let '(n, ind) := r in
                 if n =? 0 then mret None
                 else
                   ind ← free_entries ind kept n;
                   w ← ext2_write_block ind_phys ind 0 bs;
                   mret (if w =? 0 then None else Some inode)
               else mret None);
          match r with
          | None => mret (-1)
          | Some inode =>
              let per := bs / EXT2_SECTOR_SIZE in
              let used := lenZ (filter (fun i => i_block inode i <> 0) (seqZ 0 (Z.min 12 new_blocks))) in
              let used := if (12 <? new_blocks) && negb (i_block inode 12 =? 0)
                          then used + 1 else used in
              ext2_write_inode ino (set_blocks (used * per) (set_size new_size inode));;
              mret 0
          end
    end.

(** * Node operations *)

Definition ext2_node_read (node : vfs_node_t) (offset size : Z) (buf : list Z)
    : E (Z * list Z) :=
  m ← gets ext2_mounted;
  if m =? 0 then mret (VFS_ERR, buf)
  else
    i ← ext2_read_inode (inode node);
    match i with
    | None => mret (VFS_ERR, buf)
    | Some i => ext2_read_data i offset size buf
    end.

(** The result and the node. *)
Definition ext2_node_write (node : vfs_node_t) (offset size : Z) (buf : list Z)
    : E (Z * vfs_node_t) :=
  m ← gets ext2_mounted;
  if m =? 0 then mret (VFS_ERR, node)
  else
    i ← ext2_read_inode (inode node);
    match i with
    | None => mret (VFS_ERR, node)
    | Some i =>
        let orig := i_size i in
        r ← ext2_write_data i offset size buf;
        let '(n, i) := r in
        i ← (if (0 <? n) && (orig <? u32 (offset + n)) then
               let i := set_size (offset + n) i in
               ext2_write_inode (inode node) i;;
               mret i
             else mret i);
        mret (n, set_length (i_size i) node)
    end.

(** The node of a directory entry. *)
Definition entry_node (buf : list Z) (pos ino ty nl : Z) : E vfs_node_t :=
  let nl := if 63 <? nl then 63 else nl in
  nm ← memcpy (replicate 64 0) 0 (drop (Z.to_nat (pos + 8)) buf) 0 nl;
  nm ← aset nm nl 0;
  mret (if ty =? 2
        then mkNode nm 0 VFS_FT_DIR ino fn_null fn_null fn_ext2 fn_ext2
        else mkNode nm 0 VFS_FT_FILE ino fn_ext2 fn_ext2 fn_null fn_null).

(** [inr out] for VFS_OK, [inl code] otherwise. *)
Definition ext2_node_readdir (node : vfs_node_t) (index : Z) : E (Z + vfs_node_t) :=
  m ← gets ext2_mounted;
  if m =? 0 then mret (inl VFS_ERR)
  else
    i ← ext2_read_inode (inode node);
    match i with
    | None => mret (inl VFS_ERR)
    | Some dir =>
        if negb (EXT2_S_ISDIR (i_mode dir)) then mret (inl VFS_ERR_IS_FILE)
        else
          r ← while_ (Z.to_nat (i_size dir) + 1) (0, 0, local_array 4096)
                (fun '(read_count, entry_index, buf) =>
            if read_count <? i_size dir then
              let chunk := if 4096 <? i_size dir - read_count then 4096
                           else i_size dir - read_count in
              r ← ext2_read_data dir read_count chunk buf;
              let '(n, buf) := r in
              if n <=? 0 then mret (Brk (read_count, entry_index, buf))
              else
                r ← while_ (Z.to_nat n + 1) (0, entry_index) (fun '(pos, entry_index) =>
                  if u32 (pos + 8) <=? n then
                    rl ← e_rec_len buf pos;
                    if rl =? 0 then mret (Brk (pos, entry_index))
                    else
                      ino ← e_inode buf pos;
                      if ino =? 0 then mret (Cont (u32 (pos + rl), entry_index))
                      else if entry_index =? index then
                        nl ← e_name_len buf pos;
                        ty ← e_file_type buf pos;
                        out ← entry_node buf pos ino ty nl;
                        mret (Ret out)
                      else mret (Cont (u32 (pos + rl), u32 (entry_index + 1)))
                  else mret (Brk (pos, entry_index)));
                match r with
                | inr out => mret (Ret out)
                | inl (_, entry_index) => mret (Cont (u32 (read_count + n), entry_index, buf))
                end
            else mret (Brk (read_count, entry_index, buf)));
          match r with
          | inr out => mret (inr out)
          | inl _ => mret (inl VFS_ERR_NOT_FOUND)
          end
    end.

(** The index in [nodes] of the result, [None] for the null pointer. *)
Definition ext2_node_finddir (node : vfs_node_t) (name_ : list Z) : E (option Z) :=
  r ← while_ DIR_FUEL 0 (fun index =>
    r ← ext2_node_readdir node index;
    match r with
    | inl _ => mret (Brk index)
    | inr child =>
        c ← strcmp (name child) name_;
        if c =? 0 then
          n ← gets next;
          modify (fun s => set_nodes (<[Z.to_nat n := child]> (nodes s)) ((n + 1) mod 8) s);;
          mret (Ret n)
        else mret (Cont (u32 (index + 1)))
    end);
  match r with inr n => mret (Some n) | inl _ => mret None end.

(** The result and the root node. *)
Definition ext2_vfs_mount (root : vfs_node_t) : E (Z * vfs_node_t) :=
  m ← gets ext2_mounted;
  if m =? 0 then mret (VFS_ERR, root)
  else
    i ← ext2_read_inode EXT2_ROOT_INO;
    match i with
    | None => mret (VFS_ERR, root)
    | Some root_inode =>
        if negb (EXT2_S_ISDIR (i_mode root_inode)) then mret (VFS_ERR, root)
        else mret (VFS_OK, mkNode (name root) (i_size root_inode) VFS_FT_DIR EXT2_ROOT_INO
                             (read root) (write root) fn_ext2 fn_ext2)
    end.

(** [while ( *name == '/') name++]: the rest of the string. *)
Definition strip_slashes (name : list Z) : E (list Z) :=
  p ← locals (while_ (Datatypes.length name + 1) 0 (fun p =>
    c ← aget name p;
    if c =? 47 then mret (Cont (p + 1)) else mret (Brk p)));
  mret (drop (Z.to_nat p) name).

(** [Some child_ino] for VFS_OK; [parent_dir] is not null. *)
Definition ext2_vfs_create_file (parent_dir : vfs_node_t) (name : list Z) : E (option Z) :=
  m ← gets ext2_mounted;
  c ← aget name 0;
  if (m =? 0) || (c =? 0) then mret None
  else
    name ← strip_slashes name;
    c ← aget name 0;
    if c =? 0 then mret None else ext2_create_file (inode parent_dir) name.

Definition ext2_vfs_create_dir (parent_dir : vfs_node_t) (name : list Z) : E (option Z) :=
  m ← gets ext2_mounted;
  c ← aget name 0;
  if (m =? 0) || (c =? 0) then mret None
  else
    name ← strip_slashes name;
    c ← aget name 0;
    if c =? 0 then mret None else ext2_create_dir (inode parent_dir) name.
End Operations.
