(* ===== verification/Ext2Demo.v ===== *)
(** A small ext2 image for the examples: 64 blocks of 1 KiB and one group, with
    the superblock in block 1, the descriptors in block 2, the bitmaps in
    blocks 3 and 4, sixteen inodes in blocks 5 and 6 and an empty root
    directory in block 7. *)
From Stdlib Require Import ZArith Lia List.
From stdpp Require Import base tactics numbers list gmap strings option.
From S2P Require Import Prelude CString Bytes Ata Disk Ext2.
Open Scope Z_scope.

Definition zero_sector : list Z := replicate 512 0.

(** Write the 32-bit and the 16-bit fields of a struct. *)
Definition fields32 (l : list (Z * Z)) (b : list Z) : list Z :=
  fold_left (fun b '(o, v) => put32 b o v) l b.
Definition fields16 (l : list (Z * Z)) (b : list Z) : list Z :=
  fold_left (fun b '(o, v) => put16 b o v) l b.

Definition demo_sb : list Z :=
  fields16 [(56, EXT2_MAGIC); (88, 128)]
    (fields32 [(0, 16); (4, 64); (12, 56); (16, 6); (20, 1); (24, 0); (32, 64); (40, 16)] zero_sector).
Definition demo_gd : list Z :=
  fields16 [(12, 56); (14, 6); (16, 1)] (fields32 [(0, 3); (4, 4); (8, 5)] zero_sector).
(** Blocks 1 to 7 and inodes 1 to 10 are in use. *)
Definition demo_block_bitmap : list Z := wr zero_sector 0 0x7F.
Definition demo_inode_bitmap : list Z := wr (wr zero_sector 0 0xFF) 1 3.
Definition demo_inodes : list Z :=
  fields16 [(128, 0x41ED); (154, 2)] (fields32 [(132, 1024); (156, 2); (168, 7)] zero_sector).
(** "." and "..". *)
Definition demo_root : list Z :=
  fold_left (fun b '(o, v) => wr b o v) [(6, 1); (7, 2); (8, 46); (18, 2); (19, 2); (20, 46); (21, 46)]
    (fields16 [(4, 12); (16, 1012)] (fields32 [(0, 2); (12, 2)] zero_sector)).

Definition demo_disk : ramdisk := mkRam
  (list_to_map [(2, demo_sb); (4, demo_gd); (6, demo_block_bitmap); (8, demo_inode_bitmap);
                (10, demo_inodes); (14, demo_root)]) 130.

Definition mounted (d : ramdisk) (sb gd : list Z) (bs bpg ipg gc : Z) : ext2 ramdisk :=
  mkExt2 d 1 sb 2 gd bs bpg ipg gc 1 (replicate 8 zero_node) 0.

Definition demo_fs : ext2 ramdisk := mounted demo_disk (take 204 demo_sb) (take 32 demo_gd) 1024 64 16 1.

(** The same metadata with blocks of 4 KiB. *)
Definition demo_gd_4k : list Z := fields16 [(12, 5); (14, 6)] (fields32 [(0, 2); (4, 3); (8, 4)] (replicate 32 0)).
Definition demo_fs_4k : ext2 ramdisk :=
  mounted (mkRam ∅ 128) (put32 (take 204 demo_sb) 24 2) demo_gd_4k 4096 16 16 1.

(** A file of 1500 bytes in blocks 8 and 9. *)
Definition demo_file : list Z := fields32 [(4, 1500); (28, 4); (40, 8); (44, 9)] (put16 (replicate 128 0) 0 0x81A4).
