(* ===== verification/Ext2Facts.v ===== *)
(** The ext2 file system: inodes, block maps, file data and allocation.

    The theorems hold for every block device that satisfies [DiskLaws] and
    speak about the bytes of the disk. *)
From Stdlib Require Import ZArith Lia List.
From stdpp Require Import base tactics numbers list gmap strings option.
From S2P Require Import Prelude CString Bytes Ata Disk Ext2 Ext2Demo.
Open Scope Z_scope.

(** * The disk as the driver sees it *)

Section Device.
Context {D : Type} `{BlockDevice D} `{!DiskLaws D EXT2_DRIVE} `{Locals}.
Implicit Types s : ext2 D.

(** Byte [a] of the disk, and the 32-bit word at [a]. *)
Definition disk_byte s (a : Z) : Z := dk_byte (disk s) a.
Definition disk_le32 s (a : Z) : Z :=
  disk_byte s a + 256 * disk_byte s (a + 1) + 65536 * disk_byte s (a + 2) +
  16777216 * disk_byte s (a + 3).
(** The size of the disk in bytes. *)
Definition disk_size s : Z := 512 * dk_cap (disk s).

(** [s'] is [s] after reads of the disk. *)
Definition same_fs s s' : Prop := exists d, s' = set_disk d s /\ dk_same (disk s) d.

Lemma same_fs_refl s : same_fs s s.
Proof. exists (disk s). split; [by destruct s | done]. Qed.

Lemma same_fs_trans s s1 s2 : same_fs s s1 -> same_fs s1 s2 -> same_fs s s2.
Proof.
  intros (d1 & -> & H1) (d2 & -> & H2). exists d2. split; [done|]. simpl in H2. by etransitivity.
Qed.

Lemma same_fs_byte s s' a : same_fs s s' -> disk_byte s' a = disk_byte s a.
Proof. intros (d & -> & _ & Hd). apply Hd. Qed.
Lemma same_fs_le32 s s' a : same_fs s s' -> disk_le32 s' a = disk_le32 s a.
Proof. intros Hs. unfold disk_le32. by rewrite !(same_fs_byte _ _ _ Hs). Qed.
Lemma same_fs_size s s' : same_fs s s' -> disk_size s' = disk_size s.
Proof. intros (d & -> & Hd & _). unfold disk_size. simpl. by rewrite Hd. Qed.

Lemma disk_byte_range s a : 0 <= disk_byte s a < 256.
Proof. apply dk_byte_range. Qed.
Lemma disk_le32_range s a : 0 <= disk_le32 s a < 4294967296.
Proof.
  unfold disk_le32. pose proof (disk_byte_range s a). pose proof (disk_byte_range s (a + 1)).
  pose proof (disk_byte_range s (a + 2)). pose proof (disk_byte_range s (a + 3)). lia.
Qed.

Lemma bytes_filled buf off n f r : filled_with buf off n f r -> bytes buf ->
  (forall k, 0 <= f k < 256) -> bytes r.
Proof.
  intros [Hl Hr] Hb Hf. apply bytes_of. intros j Hj. rewrite Hr by lia.
  destruct (_ && _); [apply Hf | apply Hb].
Qed.

Lemma wp_dev_read lba count buf off (Q : Z * list Z -> ext2 D -> Prop) s :
  0 <= lba -> 0 <= count -> 512 * (lba + count) <= disk_size s -> 0 <= off ->
  off + 512 * count <= lenZ buf ->
  (forall r s', same_fs s s' ->
     filled_with buf off (512 * count) (fun k => disk_byte s (512 * lba + k)) r -> Q (0, r) s') ->
  wp (dev (read_sectors EXT2_DRIVE lba count buf off)) Q s.
Proof.
  intros H1 H2 Hcap Ho Hl HQ. unfold disk_size in Hcap. apply wp_zoom.
  destruct (dk_read (disk s) lba count buf off) as (r & d' & He & Hf & Hsame); [lia..|].
  unfold wp. rewrite He. apply HQ; [|exact Hf]. by exists d'.
Qed.

(** [s'] is [s] with the [n] bytes of the disk from [a] replaced. *)
Definition disk_updated s a n (f : Z -> Z) s' : Prop :=
  exists d, s' = set_disk d s /\ dk_cap d = dk_cap (disk s) /\
    forall b, dk_byte d b = if (a <=? b) && (b <? a + n) then f (b - a) else dk_byte (disk s) b.

Lemma wp_dev_write lba count buf off (Q : Z -> ext2 D -> Prop) s :
  0 <= lba -> 0 <= count -> 512 * (lba + count) <= disk_size s -> 0 <= off ->
  off + 512 * count <= lenZ buf -> (forall j, off <= j < off + 512 * count -> 0 <= rd buf j < 256) ->
  (forall s', disk_updated s (512 * lba) (512 * count) (fun k => rd buf (off + k)) s' -> Q 0 s') ->
  wp (dev (write_sectors EXT2_DRIVE lba count buf off)) Q s.
Proof.
  intros H1 H2 Hcap Ho Hl Hb HQ. unfold disk_size in Hcap. apply wp_zoom.
  destruct (dk_write (disk s) lba count buf off) as (d' & He & Hc & Hd); [lia..|done|].
  unfold wp. rewrite He. apply HQ. exists d'. split; [done|]. split; [done|].
  intros b. rewrite Hd. by replace (512 * (lba + count)) with (512 * lba + 512 * count) by lia.
Qed.

Lemma disk_updated_byte s a n f s' b : disk_updated s a n f s' ->
  disk_byte s' b = if (a <=? b) && (b <? a + n) then f (b - a) else disk_byte s b.
Proof. intros (d & -> & _ & Hd). apply Hd. Qed.

(** The configuration of the mounted file system does not depend on the disk. *)
Lemma same_fs_config s s' : same_fs s s' ->
  block_size s' = block_size s /\ sb_bytes s' = sb_bytes s /\ gd_bytes s' = gd_bytes s /\
  group_count s' = group_count s /\ blocks_per_group s' = blocks_per_group s /\
  no_metadata s' = no_metadata s /\ nodes s' = nodes s /\ next s' = next s.
Proof. by intros (d & -> & _). Qed.
End Device.

(** * Inodes *)

Section Inodes.
Context {D : Type} `{BlockDevice D} `{!DiskLaws D EXT2_DRIVE} `{Locals}.
Implicit Types s : ext2 D.

Definition inode_size_of s : Z :=
  if sb_inode_size (sb_bytes s) =? 0 then 128 else sb_inode_size (sb_bytes s).

(** The address on the disk of inode [ino]. *)
Definition inode_addr s (ino : Z) : Z :=
  let ipg := sb_inodes_per_group (sb_bytes s) in
  le32 (gd_bytes s) (gd_inode_table ((ino - 1) / ipg)) * block_size s +
  (ino - 1) mod ipg * inode_size_of s.

(** The metadata is in memory, and the table of [ino]'s group holds it: the
    inode size divides the sector, and the inode lies on a disk whose bytes
    have 32-bit addresses. *)
Record inode_ok s (ino : Z) : Prop := {
  io_loaded : no_metadata s = false;
  io_ino : 1 <= ino <= sb_inodes_count (sb_bytes s);
  io_sb : bytes (sb_bytes s);
  io_ipg : 0 < sb_inodes_per_group (sb_bytes s);
  io_group : (ino - 1) / sb_inodes_per_group (sb_bytes s) < group_count s;
  io_gd : lenZ (gd_bytes s) = GD_SIZE * group_count s;
  io_size : 128 <= inode_size_of s;
  io_divides : inode_size_of s * (512 / inode_size_of s) = 512;
  io_table : le32 (gd_bytes s) (gd_inode_table ((ino - 1) / sb_inodes_per_group (sb_bytes s))) *
               block_size s mod 512 = 0;
  io_start : 0 <= inode_addr s ino;
  io_disk : inode_addr s ino + 512 <= disk_size s;
  io_32bit : disk_size s <= 4294967296
}.

Lemma inode_fits s ino : inode_ok s ino -> inode_addr s ino mod 512 + 128 <= 512.
Proof.
  intros Hi. pose proof (io_size _ _ Hi). pose proof (io_divides _ _ Hi). pose proof (io_table _ _ Hi) as Ht.
  unfold inode_addr. cbv zeta. set (z := inode_size_of s) in *. set (q := 512 / z) in *.
  set (i := (ino - 1) mod _). rewrite Z.add_mod by lia. rewrite Ht, Z.add_0_l, Z.mod_mod by lia.
  replace 512 with (z * q) at 1 by done. rewrite (Z.mul_comm i z), Z.mul_mod_distr_l by nia.
  assert (0 < q) by nia. pose proof (Z.mod_pos_bound i q ltac:(lia)). nia.
Qed.

Lemma wp_inode_location s ino (Q : option (Z * Z) -> ext2 D -> Prop) :
  inode_ok s ino ->
  Q (Some (inode_addr s ino / 512, inode_addr s ino mod 512)) s -> wp (inode_location ino) Q s.
Proof.
  intros Hi HQ. pose proof (io_ino _ _ Hi) as Hino. pose proof (io_ipg _ _ Hi) as Hipg.
  pose proof (io_group _ _ Hi) as Hg. pose proof (io_disk _ _ Hi). pose proof (io_32bit _ _ Hi).
  pose proof (io_start _ _ Hi). pose proof (le32_range (sb_bytes s) 0 (io_sb _ _ Hi)) as Hr.
  unfold sb_inodes_count in Hino. unfold inode_location.
  rewrite (u32_small (ino - 1)) by lia. wp_step. wp_step. wp_step. apply wp_udiv; [lia|].
  wp_step. apply wp_umod; [lia|]. wp_step. wp_step. wp_step; bprop; [lia|].
  wp_step. wp_step. wp_step. apply wp_ld32.
  { split; [unfold gd_inode_table, GD_SIZE; assert (0 <= (ino - 1) / sb_inodes_per_group (sb_bytes s))
      by (apply Z.div_pos; lia); lia|].
    rewrite (io_gd _ _ Hi). unfold gd_inode_table, GD_SIZE. lia. }
  wp_step. wp_step. fold (inode_size_of s). apply wp_ret.
  fold (inode_addr s ino). unfold EXT2_SECTOR_SIZE. rewrite u32_small; [exact HQ|].
  unfold inode_addr in *. lia.
Qed.

(** The 128 bytes of the inode on the disk. *)
Definition inode_on_disk s (ino : Z) (i : list Z) : Prop :=
  lenZ i = 128 /\ forall k, 0 <= k < 128 -> rd i k = disk_byte s (inode_addr s ino + k).

Lemma wp_read_inode s ino (Q : option (list Z) -> ext2 D -> Prop) :
  inode_ok s ino ->
  (forall i s', same_fs s s' -> inode_on_disk s ino i -> Q (Some i) s') -> wp (ext2_read_inode ino) Q s.
Proof.
  intros Hi HQ. pose proof (inode_fits _ _ Hi). pose proof (io_ino _ _ Hi). pose proof (io_disk _ _ Hi).
  pose proof (io_start _ _ Hi).
  pose proof (Z.div_mod (inode_addr s ino) 512 ltac:(lia)). pose proof (Z.mod_pos_bound (inode_addr s ino) 512 ltac:(lia)).
  unfold ext2_read_inode. wp_step. wp_step. wp_step. wp_step. rewrite (io_loaded _ _ Hi).
  wp_step; [apply orb_true_iff in Heqb as [?|?]; bprop; lia|].
  wp_step. apply wp_inode_location; [done|]. wp_step.
  apply wp_dev_read; [apply Z.div_pos; lia | done | lia | done | rewrite lenZ_local; unfold EXT2_SECTOR_SIZE; lia |].
  intros r s' Hs [Hl Hr]. rewrite lenZ_local in * by done. unfold EXT2_SECTOR_SIZE in *.
  cbn [fst snd Z.eqb negb]. wp_step. apply wp_memcpy; [lia | done | by rewrite lenZ_local | lia | unfold INODE_SIZE; lia |].
  intros i [Hil Hir]. rewrite lenZ_local in * by done. unfold INODE_SIZE in *. apply wp_ret, HQ; [done|].
  split; [done|]. intros k Hk. rewrite Hir by lia. case_range; try lia. rewrite Hr by lia.
  case_range; try lia. f_equal. lia.
Qed.

Lemma wp_write_inode s ino i (Q : Z -> ext2 D -> Prop) :
  inode_ok s ino -> lenZ i = 128 -> bytes i ->
  (forall s', disk_updated s (inode_addr s ino) 128 (rd i) s' -> Q 0 s') ->
  wp (ext2_write_inode ino i) Q s.
Proof.
  intros Hi Hil Hib HQ. pose proof (inode_fits _ _ Hi). pose proof (io_disk _ _ Hi).
  pose proof (io_start _ _ Hi). set (a := inode_addr s ino) in *.
  pose proof (Z.div_mod a 512 ltac:(lia)). pose proof (Z.mod_pos_bound a 512 ltac:(lia)).
  unfold ext2_write_inode. wp_step. wp_step. rewrite (io_loaded _ _ Hi).
  wp_step. apply wp_inode_location; [done|]. fold a. wp_step.
  apply wp_dev_read; [apply Z.div_pos; lia | done | lia | done | rewrite lenZ_local; unfold EXT2_SECTOR_SIZE; lia |].
  intros r s' Hs Hf. pose proof Hf as [Hl Hr]. rewrite lenZ_local in * by done. unfold EXT2_SECTOR_SIZE in *.
  cbn [fst snd Z.eqb negb]. wp_step. unfold INODE_SIZE.
  apply wp_memcpy; [lia | done | lia | lia | lia |].
  intros b [Hbl Hbr]. wp_step.
  assert (Hbytes : bytes b).
  { apply bytes_of. intros j Hj. rewrite Hbr by lia. destruct (_ && _); [apply Hib|].
    apply (bytes_filled _ _ _ _ _ Hf); [by apply bytes_local | intros; apply disk_byte_range]. }
  apply wp_dev_write; [apply Z.div_pos; lia | done | rewrite (same_fs_size _ _ Hs); lia | done | lia | intros; apply Hbytes |].
  intros s2 Hu. apply wp_ret. apply HQ.
  destruct Hs as (d & -> & Hcap & Hd). destruct Hu as (d2 & -> & Hcap2 & Hd2). exists d2.
  split; [done|]. split; [simpl in *; congruence|]. intros c. rewrite Hd2. simpl. rewrite Hd.
  destruct (decide (512 * (a / 512) <= c < 512 * (a / 512) + 512)) as [Hc|Hc].
  - rewrite Hbr by lia. rewrite Hr by lia. unfold disk_byte. simpl.
    case_range; try lia; f_equal; lia.
  - case_range; lia || done.
Qed.
End Inodes.

(** C34: An inode that is written is read back: the 128 bytes are on the disk
    at the place of the inode (its index in the group's table, from the block
    the group descriptor names), no other byte of the disk changes,
    [ext2_read_inode] returns them, and every other inode of the group keeps its
    bytes. *)
Theorem ext2_inode_roundtrip {D} `{BlockDevice D} `{!DiskLaws D EXT2_DRIVE} `{Locals}
    (s : ext2 D) ino i :
  inode_ok s ino -> lenZ i = 128 -> bytes i ->
  exists s1, ext2_write_inode ino i s = Ok 0 s1 /\
    inode_addr s1 ino = inode_addr s ino /\ inode_on_disk s1 ino i /\
    (forall a, ~ inode_addr s ino <= a < inode_addr s ino + 128 -> disk_byte s1 a = disk_byte s a) /\
    (exists s2, ext2_read_inode ino s1 = Ok (Some i) s2) /\
    forall ino' i', inode_ok s ino' -> ino' <> ino ->
      (ino' - 1) / sb_inodes_per_group (sb_bytes s) = (ino - 1) / sb_inodes_per_group (sb_bytes s) ->
      (inode_on_disk s ino' i' <-> inode_on_disk s1 ino' i').
Proof.
  intros Hi Hil Hib.
  assert (Hw : wp (ext2_write_inode ino i) (fun v s1 => v = 0 /\ disk_updated s (inode_addr s ino) 128 (rd i) s1) s)
    by (apply wp_write_inode; auto).
  apply wp_ok in Hw as (v & s1 & He & -> & Hu). exists s1. split; [done|].
  assert (Ha1 : inode_addr s1 ino = inode_addr s ino) by (by destruct Hu as (? & -> & _)).
  split; [done|]. split; [|split; [|split]].
  - split; [done|]. intros k Hk. rewrite Ha1, (disk_updated_byte _ _ _ _ _ _ Hu). case_range; try lia. f_equal. lia.
  - intros a Hna. rewrite (disk_updated_byte _ _ _ _ _ _ Hu). case_range; lia || done.
  - assert (Hi1 : inode_ok s1 ino).
    { destruct Hu as (d & -> & Hc & _). destruct Hi. constructor; try done;
      unfold disk_size in *; simpl in *; rewrite Hc; done. }
    assert (Hw : wp (ext2_read_inode ino) (fun o _ => o = Some i) s1).
    2:{ apply wp_ok in Hw as (o & s2 & He2 & ->). eauto. }
    apply wp_read_inode; [done|]. intros j s2 _ [Hjl Hj]. f_equal. apply rd_ext; [lia|].
    intros k Hk. rewrite Hj by lia. rewrite (disk_updated_byte _ _ _ _ _ _ Hu).
    rewrite Ha1. case_range; try lia. f_equal. lia.
  - intros ino' i' Hi' Hne Hg.
    assert (Ha : inode_addr s1 ino' = inode_addr s ino') by (by destruct Hu as (? & -> & _)).
    assert (Hd : inode_addr s ino' + 128 <= inode_addr s ino \/ inode_addr s ino + 128 <= inode_addr s ino').
    { unfold inode_addr. cbv zeta. rewrite Hg. pose proof (io_size _ _ Hi). pose proof (io_ipg _ _ Hi).
      pose proof (Z.div_mod (ino - 1) (sb_inodes_per_group (sb_bytes s)) ltac:(lia)).
      pose proof (Z.div_mod (ino' - 1) (sb_inodes_per_group (sb_bytes s)) ltac:(lia)). nia. }
    unfold inode_on_disk. rewrite Ha. split; intros [Hl Hb]; (split; [done|]); intros k Hk; rewrite Hb by done;
      rewrite (disk_updated_byte _ _ _ _ _ _ Hu); case_range; lia || done.
Qed.

(** * The block map *)

Section BlockMap.
Context {D : Type} `{BlockDevice D} `{!DiskLaws D EXT2_DRIVE} `{Locals}.
Implicit Types s : ext2 D.

(** A block size the driver's buffers hold, and 32-bit byte addresses. *)
Record blocks_ok s : Prop := {
  bo_size : block_size s = 1024 \/ block_size s = 2048 \/ block_size s = 4096;
  bo_32bit : disk_size s <= 4294967296
}.

(** Block [b] is on the disk, and is not block 0. *)
Definition on_disk s (b : Z) : Prop := 0 < b /\ (b + 1) * block_size s <= disk_size s.

(** Entry [k] of the pointer block [b]; there is none in block 0. *)
Definition ptr_at s (b k : Z) : Z :=
  if b =? 0 then 0 else disk_le32 s (b * block_size s + 4 * k).

(** The physical block of logical block [l]: direct, indirect, double
    indirect, or 0. *)
Definition file_block s (i : list Z) (l : Z) : Z :=
  let p := block_size s / 4 in
  if l <? 12 then i_block i l
  else if l - 12 <? p then ptr_at s (i_block i 12) (l - 12)
  else if l - 12 - p <? p * p then
    ptr_at s (ptr_at s (i_block i 13) ((l - 12 - p) / p)) ((l - 12 - p) mod p)
  else 0.

(** The pointer blocks on the way to logical block [l] are on the disk. *)
Definition tables_ok s (i : list Z) (l : Z) : Prop :=
  let p := block_size s / 4 in
  (12 <= l < 12 + p -> i_block i 12 <> 0 -> on_disk s (i_block i 12)) /\
  (12 + p <= l < 12 + p + p * p -> i_block i 13 <> 0 ->
     on_disk s (i_block i 13) /\
     let t := ptr_at s (i_block i 13) ((l - 12 - p) / p) in t <> 0 -> on_disk s t).

Lemma blocks_ok_same s s' : same_fs s s' -> blocks_ok s -> blocks_ok s'.
Proof.
  intros Hs [H1 H2]. constructor.
  - by destruct Hs as (d & -> & _).
  - by rewrite (same_fs_size _ _ Hs).
Qed.
Lemma on_disk_same s s' b : same_fs s s' -> on_disk s b -> on_disk s' b.
Proof. intros Hs. unfold on_disk. rewrite (same_fs_size _ _ Hs). by destruct Hs as (d & -> & _). Qed.
Lemma ptr_at_same s s' b k : same_fs s s' -> ptr_at s' b k = ptr_at s b k.
Proof. intros Hs. unfold ptr_at. rewrite (same_fs_le32 _ _ _ Hs). by destruct Hs as (d & -> & _). Qed.
Lemma file_block_same s s' i l : same_fs s s' -> file_block s' i l = file_block s i l.
Proof.
  intros Hs. unfold file_block. rewrite !(ptr_at_same _ _ _ _ Hs). by destruct Hs as (d & -> & _).
Qed.
Lemma tables_ok_same s s' i l : same_fs s s' -> tables_ok s i l -> tables_ok s' i l.
Proof.
  intros Hs. unfold tables_ok. cbv zeta. rewrite !(ptr_at_same _ _ _ _ Hs).
  assert (block_size s' = block_size s) as -> by (by destruct Hs as (d & -> & _)).
  intros [H1 H2]. split; [intros; by eapply on_disk_same; eauto|].
  intros Hr Hn. destruct (H2 Hr Hn) as [H3 H4].
  split; [by eapply on_disk_same | intros Ht; eapply on_disk_same; eauto].
Qed.

Lemma wp_read_block s b buf off (Q : Z * list Z -> ext2 D -> Prop) :
  blocks_ok s -> on_disk s b -> 0 <= off -> off + block_size s <= lenZ buf ->
  (forall r s', same_fs s s' ->
     filled_with buf off (block_size s) (fun k => disk_byte s (b * block_size s + k)) r ->
     Q (block_size s, r) s') ->
  wp (ext2_read_block b buf off (block_size s)) Q s.
Proof.
  intros [Hbs H32] [Hb0 Hb] Ho Hl HQ. unfold ext2_read_block.
  destruct (Z.eqb_spec b 0); [lia|]. wp_step. wp_step. unfold block_extent, EXT2_SECTOR_SIZE.
  set (bs := block_size s) in *.
  assert (Hk : 512 * (bs / 512) = bs) by (destruct Hbs as [-> | [-> | ->]]; done).
  replace (if (bs <? bs) || (512 * 4 <? bs) then bs else bs) with bs by (by destruct (_ || _)).
  assert (Hc : (if bs / 512 <? u32 (bs + 512 - 1) / 512 then bs / 512 else u32 (bs + 512 - 1) / 512) = bs / 512)
    by (destruct Hbs as [-> | [-> | ->]]; done).
  rewrite Hc. rewrite u32_small by nia. wp_step.
  apply wp_dev_read; [nia | lia | nia | done | lia |]. intros r s' Hs Hf. apply wp_ret. cbn [fst snd Z.eqb].
  apply HQ; [done|]. rewrite Hk in Hf. destruct Hf as [Hfl Hfr]. split; [done|]. intros j Hj.
  rewrite Hfr by done. destruct (_ && _); [|done]. f_equal. nia.
Qed.

(** A pointer read from a block in memory. *)
Lemma le32_block s b buf r k :
  filled_with buf 0 (block_size s) (fun k => disk_byte s (b * block_size s + k)) r ->
  0 <= k -> 4 * k + 4 <= block_size s -> block_size s <= lenZ buf ->
  le32 r (4 * k) = disk_le32 s (b * block_size s + 4 * k).
Proof.
  intros [Hl Hr] Hk Hk4 Hbl. unfold le32, disk_le32. rewrite !Hr by lia. case_range; try lia.
  repeat (f_equal; try lia).
Qed.

Lemma wp_ptr1 s b cap k (Q : Z -> ext2 D -> Prop) :
  blocks_ok s -> (b <> 0 -> on_disk s b) -> 0 <= k < block_size s / 4 ->
  (forall s', same_fs s s' -> Q (ptr_at s b k) s') -> wp (ext2_get_block_from_ptr b cap k 1) Q s.
Proof.
  intros Hb Hd Hk HQ. pose proof (bo_size _ Hb) as Hbs. cbn [ext2_get_block_from_ptr].
  wp_step. wp_step. wp_step. unfold ptr_at in HQ. destruct (Z.eqb_spec b 0) as [->|Hnz].
  - unfold ext2_read_block. rewrite Z.eqb_refl. apply wp_ret. cbn. apply wp_ret, HQ, same_fs_refl.
  - apply wp_read_block; [done | by apply Hd | done | rewrite lenZ_local; lia |]. intros r s' Hs Hf.
    destruct (Z.eqb_spec (block_size s) 0); [lia|]. destruct (Z.leb_spec (block_size s / 4) k); [lia|].
    apply wp_ld32.
    { split; [lia|]. destruct Hf as [-> _]. rewrite lenZ_local by done. Z.div_mod_to_equations; lia. }
    rewrite (le32_block s b _ _ k Hf); [by apply HQ | lia | Z.div_mod_to_equations; lia |].
    rewrite lenZ_local by done. lia.
Qed.

Lemma wp_block_lookup s i l (Q : Z -> ext2 D -> Prop) :
  blocks_ok s -> 0 <= l -> tables_ok s i l ->
  (forall s', same_fs s s' -> Q (file_block s i l) s') -> wp (ext2_block_lookup i l) Q s.
Proof.
  intros Hb Hl [Ht1 Ht2] HQ. pose proof (bo_size _ Hb) as Hbs. unfold ext2_block_lookup, file_block in *.
  set (p := block_size s / 4) in *.
  assert (Hp : p = 256 \/ p = 512 \/ p = 1024) by (unfold p; destruct Hbs as [-> | [-> | ->]]; auto).
  wp_step. wp_step. fold p. destruct (Z.ltb_spec l 12); [apply wp_ret, HQ, same_fs_refl|].
  cbv zeta. destruct (Z.ltb_spec (l - 12) p).
  { apply wp_ptr1; [done | intros; apply Ht1; [lia | done] | fold p; lia | done]. }
  rewrite u32_small by nia. destruct (Z.ltb_spec (l - 12 - p) (p * p)) as [Hlt|];
    [|apply wp_ret, HQ, same_fs_refl].
  set (m := l - 12 - p) in *.
  assert (Hm : 0 <= m / p < p) by (split; [apply Z.div_pos; lia | apply Z.div_lt_upper_bound; lia]).
  pose proof (Z.mod_pos_bound m p ltac:(lia)) as Hmod.
  cbn [ext2_get_block_from_ptr]. wp_step. wp_step. wp_step.
  destruct (Z.eqb_spec (i_block i 13) 0) as [Hz|Hnz].
  - unfold ext2_read_block. rewrite Hz, Z.eqb_refl. apply wp_ret. cbn [Z.eqb]. apply wp_ret.
    unfold ptr_at in HQ. rewrite Hz in HQ. simpl in HQ. apply HQ, same_fs_refl.
  - destruct (Ht2 ltac:(lia) Hnz) as [Hd Hd2].
    apply wp_read_block; [done | done | done | rewrite lenZ_local; lia |]. intros r s' Hs Hf.
    destruct (Z.eqb_spec (block_size s) 0); [lia|]. fold p. wp_step. apply wp_udiv; [lia|].
    wp_step. apply wp_umod; [lia|]. destruct (Z.leb_spec p (m / p)); [lia|].
    wp_step. apply wp_ld32.
    { split; [lia|]. destruct Hf as [-> _]. rewrite lenZ_local by done. lia. }
    assert (4 * (m / p) + 4 <= block_size s) by (unfold p in *; Z.div_mod_to_equations; lia).
    rewrite (le32_block s (i_block i 13) _ _ (m / p) Hf); [| lia | done | rewrite lenZ_local; lia].
    assert (Hptr : ptr_at s (i_block i 13) (m / p) = disk_le32 s (i_block i 13 * block_size s + 4 * (m / p)))
      by (unfold ptr_at; by rewrite (proj2 (Z.eqb_neq _ _) Hnz)).
    fold p m in Hd2. cbv zeta in Hd2. rewrite <- Hptr.
    assert (block_size s' = block_size s) as Hbs' by (by destruct Hs as (d & -> & _)).
    apply (wp_ptr1 s' _ p (m mod p)).
    + by eapply blocks_ok_same.
    + intros Hn. eapply on_disk_same; [exact Hs | by apply Hd2].
    + rewrite Hbs'. fold p. lia.
    + intros s2 Hs2. rewrite (ptr_at_same _ _ _ _ Hs). apply HQ. by eapply same_fs_trans.
Qed.
End BlockMap.

(** * Reading file data *)

Section FileData.
Context {D : Type} `{BlockDevice D} `{!DiskLaws D EXT2_DRIVE} `{Locals}.
Implicit Types s : ext2 D.

(** Byte [a] of the file: byte [a mod block_size] of its block. *)
Definition file_byte s (i : list Z) (a : Z) : Z :=
  disk_byte s (file_block s i (a / block_size s) * block_size s + a mod block_size s).

(** Logical block [l] has a physical block, and the tables that say which are
    on the disk. *)
Definition mapped s (i : list Z) (l : Z) : Prop :=
  tables_ok s i l /\ on_disk s (file_block s i l).

(** The request covers [m] bytes of blocks that are mapped, and then ends, or
    meets a hole at a block boundary. *)
Definition readable s (i : list Z) (offset n m : Z) : Prop :=
  0 <= m <= n /\
  (forall a, offset <= a < offset + m -> mapped s i (a / block_size s)) /\
  (m = n \/
   (m = 0 \/ (offset + m) mod block_size s = 0) /\
   tables_ok s i ((offset + m) / block_size s) /\
   file_block s i ((offset + m) / block_size s) = 0).

(** The block that holds position [a], and the end of the transfer in it. *)
Lemma chunk_step a bs n : 0 < bs -> 0 <= a -> 0 < n ->
  let chunk := if bs - a mod bs <? n then bs - a mod bs else n in
  0 < chunk <= n /\ a mod bs + chunk <= bs /\ (chunk = n \/ (a + chunk) mod bs = 0) /\
  forall k, 0 <= k < chunk -> (a + k) / bs = a / bs /\ (a + k) mod bs = a mod bs + k.
Proof.
  intros Hbs Ha Hn. cbv zeta. pose proof (Z.mod_pos_bound a bs Hbs). pose proof (Z.div_mod a bs ltac:(lia)).
  assert (Hk : forall k, 0 <= k < bs - a mod bs -> (a + k) / bs = a / bs /\ (a + k) mod bs = a mod bs + k).
  { intros k Hk. assert ((a + k) / bs = a / bs) as Hq
      by (symmetry; apply (Z.div_unique _ _ _ (a mod bs + k)); lia).
    split; [done|]. symmetry. apply (Z.mod_unique _ _ (a / bs)); lia. }
  destruct (Z.ltb_spec (bs - a mod bs) n).
  - split; [lia|]. split; [lia|]. split; [right | intros; apply Hk; lia].
    replace (a + (bs - a mod bs)) with ((a / bs + 1) * bs) by lia. apply Z.mod_mul. lia.
  - split; [lia|]. split; [lia|]. split; [by left | intros; apply Hk; lia].
Qed.

Lemma mapped_same s s' i l : same_fs s s' -> mapped s i l -> mapped s' i l.
Proof.
  intros Hs [H1 H2]. split; [by eapply tables_ok_same|]. rewrite (file_block_same _ _ _ _ Hs).
  by eapply on_disk_same.
Qed.

(** The part of a block that a transfer takes. *)
Lemma filled_extend_block s i buf off0 done r bs blk in_block chunk block_buf r' :
  0 <= done -> filled_with buf 0 done (fun k => file_byte s i (off0 + k)) r ->
  0 <= in_block -> 0 < chunk -> done + chunk <= lenZ buf ->
  (forall k, 0 <= k < chunk -> file_byte s i (off0 + done + k) = disk_byte s (blk * bs + (in_block + k))) ->
  (forall k, 0 <= k < chunk -> rd block_buf (in_block + k) = disk_byte s (blk * bs + (in_block + k))) ->
  copied r done block_buf in_block chunk r' ->
  filled_with buf 0 (done + chunk) (fun k => file_byte s i (off0 + k)) r'.
Proof.
  intros Hd [Hl Hr] Hin Hc Hdl Hfb Hbb [Hl' Hr']. split; [congruence|]. intros j Hj.
  rewrite Hr' by lia. destruct (decide (done <= j < done + chunk)).
  - replace ((done <=? j) && (j <? done + chunk)) with true
      by (symmetry; apply andb_true_iff; split; [apply Z.leb_le | apply Z.ltb_lt]; lia).
    rewrite Hbb by lia. case_range; try lia. rewrite <- Hfb by lia. f_equal. lia.
  - rewrite Hr by lia. case_range; try lia; try done; f_equal; lia.
Qed.

Lemma copied_of_filled s r done bs blk r' :
  0 <= done -> done + bs <= lenZ r ->
  filled_with r done bs (fun k => disk_byte s (blk * bs + k)) r' ->
  exists block, (forall k, 0 <= k < bs -> rd block (0 + k) = disk_byte s (blk * bs + (0 + k))) /\
    copied r done block 0 bs r'.
Proof.
  intros Hd Hl [Hl' Hr']. exists (map (fun k => disk_byte s (blk * bs + k)) (seqZ 0 bs)). split.
  - intros k Hk. rewrite rd_map_seqZ by lia. done.
  - split; [done|]. intros j Hj. rewrite Hr' by done. case_range; try lia; try done.
    rewrite rd_map_seqZ by lia. done.
Qed.

(** The result of [ext2_read_data]. *)
Definition read_result s (i : list Z) (offset : Z) (buf : list Z) (m : Z) (vr : Z * list Z) s' : Prop :=
  fst vr = m /\ same_fs s s' /\ filled_with buf 0 m (fun k => file_byte s i (offset + k)) (snd vr).

Lemma wp_read_data s i offset size m buf (Q : Z * list Z -> ext2 D -> Prop) :
  blocks_ok s -> bytes i -> 0 <= offset -> 0 <= size < 2147483648 -> offset + size < 4294967296 ->
  size <= lenZ buf ->
  readable s i offset (Z.max 0 (Z.min size (i_size i - offset))) m ->
  (forall vr s', read_result s i offset buf m vr s' -> Q vr s') ->
  wp (ext2_read_data i offset size buf) Q s.
Proof.
  intros Hb Hib Ho Hsz H32 Hbuf (Hm & Hmap & Hstop) HQ. unfold ext2_read_data.
  pose proof (le32_range i 4 Hib) as Hir. fold (i_size i) in Hir.
  pose proof (bo_size _ Hb) as Hbs. set (bs := block_size s) in *. assert (Hbp : 0 < bs) by lia.
  destruct (Z.leb_spec (i_size i) offset).
  { apply wp_ret, HQ. assert (m = 0) as -> by lia. split; [done|]. split; [apply same_fs_refl|].
    split; [done|]. intros j Hj. case_range; done || lia. }
  set (n := Z.max 0 _) in *. rewrite (u32_small (offset + size)) by lia.
  assert (Hn : (if i_size i <? offset + size then i_size i - offset else size) = n)
    by (unfold n; destruct (Z.ltb_spec (i_size i) (offset + size)); lia).
  rewrite Hn. assert (Hnb : 0 <= n <= size) by lia. apply wp_bind.
  assert (Hfin : forall done r s', done = m -> same_fs s s' ->
    filled_with buf 0 done (fun k => file_byte s i (offset + k)) r -> Q (s32 done, r) s').
  { intros done r s' -> Hs Hf. apply HQ. split; [|done]. unfold s32. rewrite u32_small by (cbn; lia).
    cbn [fst]. destruct (Z.ltb_spec m 2147483648); lia. }
  apply (wp_while (fun '(dn, r) s' => 0 <= dn <= m /\ same_fs s s' /\
      filled_with buf 0 dn (fun k => file_byte s i (offset + k)) r)
    (fun '(dn, _) _ => Z.to_nat (n - dn))).
  - split; [lia|]. split; [apply same_fs_refl|]. split; [done|]. intros j Hj. case_range; done || lia.
  - lia.
  - intros [dn r] s' (Hdn & Hs & Hf). destruct (Z.ltb_spec dn n).
    2:{ apply wp_ret, wp_ret. apply Hfin; [lia | done..]. }
    pose proof Hf as [Hrl _].
    assert (Hbs' : block_size s' = bs) by (by destruct Hs as (d & -> & _)).
    wp_step. wp_step. rewrite Hbs'. rewrite (u32_small (offset + dn)) by lia.
    wp_step. apply wp_udiv; [lia|]. wp_step. apply wp_umod; [lia|].
    pose proof (chunk_step (offset + dn) bs (n - dn) Hbp ltac:(lia) ltac:(lia)) as Hck. cbv zeta in Hck |- *.
    set (a := offset + dn) in *.
    set (chunk := if bs - a mod bs <? n - dn then bs - a mod bs else n - dn) in *.
    destruct Hck as (Hc & Hin & Hend & Hsame). pose proof (Z.mod_pos_bound a bs Hbp) as Hmod.
    assert (Hadv : dn < m -> dn + chunk <= m).
    { intros Hlt. destruct Hstop as [-> | (Hal & _ & Hz)]; [lia|].
      destruct (decide (dn + chunk <= m)); [done|]. exfalso. destruct (Hsame (m - dn) ltac:(lia)) as [_ Hmm].
      replace (a + (m - dn)) with (offset + m) in Hmm by (unfold a; lia). lia. }
    destruct (decide (dn < m)) as [Hlt|Hge].
    + specialize (Hadv Hlt). destruct (Hmap a ltac:(unfold a; lia)) as [Htab Hdisk].
      wp_step. apply wp_block_lookup; [by eapply blocks_ok_same | apply Z.div_pos; lia | by eapply tables_ok_same |].
      intros s2 Hs2. rewrite (file_block_same _ _ _ _ Hs). set (blk := file_block s i (a / bs)) in *.
      assert (Hs02 : same_fs s s2) by (by eapply same_fs_trans).
      assert (Hbs2 : block_size s2 = bs) by (by destruct Hs02 as (d & -> & _)).
      destruct (Z.eqb_spec blk 0); [destruct Hdisk; lia|].
      assert (Hfb : forall k, 0 <= k < chunk -> file_byte s i (a + k) = disk_byte s (blk * bs + (a mod bs + k))).
      { intros k Hk. unfold file_byte. fold bs. destruct (Hsame k Hk) as [-> ->]. done. }
      assert (Hnext : forall block_buf r' s3, same_fs s2 s3 ->
        (forall k, 0 <= k < chunk -> rd block_buf (a mod bs + k) = disk_byte s (blk * bs + (a mod bs + k))) ->
        copied r dn block_buf (a mod bs) chunk r' ->
        (0 <= dn + chunk <= m /\ same_fs s s3 /\
         filled_with buf 0 (dn + chunk) (fun k => file_byte s i (offset + k)) r') /\
        (Z.to_nat (n - (dn + chunk)) < Z.to_nat (n - dn))%nat).
      { intros bb r' s3 Hs3 Hbb Hcp. split; [|lia]. split; [lia|]. split; [by eapply same_fs_trans|].
        apply (filled_extend_block s i buf offset dn r bs blk (a mod bs) chunk bb); [lia | exact Hf | lia | lia | lia | exact Hfb | exact Hbb | exact Hcp]. }
      destruct ((a mod bs =? 0) && (chunk =? bs)) eqn:Hfull.
      * apply andb_true_iff in Hfull as [Hz Hcb]. bprop. rewrite Hcb, <- Hbs2. wp_step.
        apply wp_read_block; [by eapply blocks_ok_same | by eapply on_disk_same | lia | lia |].
        intros r' s3 Hs3 Hf'. rewrite Z.eqb_refl. cbn [negb]. apply wp_ret. rewrite Hbs2 in *.
        assert (Hf2 : filled_with r dn bs (fun k => disk_byte s (blk * bs + k)) r').
        { destruct Hf' as [Hl' Hr']. split; [done|]. intros j Hj. rewrite Hr' by done.
          by rewrite (same_fs_byte _ _ _ Hs02). }
        apply copied_of_filled in Hf2 as (block & Hbk & Hcp); [| lia | lia].
        rewrite <- Hcb. apply (Hnext block); [done | | by rewrite Hz, Hcb]. rewrite Hz, Hcb. exact Hbk.
      * wp_step. rewrite <- Hbs2.
        apply wp_read_block; [by eapply blocks_ok_same | by eapply on_disk_same | done | rewrite lenZ_local; lia |].
        intros bb s3 Hs3 [Hbl Hbb]. rewrite Z.eqb_refl. cbn [negb]. rewrite lenZ_local in * by done.
        rewrite Hbs2 in *. wp_step. apply wp_memcpy; [lia.. |]. intros r' Hcp. apply wp_ret.
        apply (Hnext bb); [done | | done]. intros k Hk. rewrite Hbb by lia. case_range; try lia.
        rewrite (same_fs_byte _ _ _ Hs02). f_equal. lia.
    + assert (dn = m) as -> by lia. destruct Hstop as [->|(_ & Htab & Hz)]; [lia|].
      wp_step. apply wp_block_lookup; [by eapply blocks_ok_same | apply Z.div_pos; lia | by eapply tables_ok_same |].
      intros s2 Hs2. rewrite (file_block_same _ _ _ _ Hs). fold bs in Hz. fold a in Hz. rewrite Hz. cbn [Z.eqb].
      apply wp_ret, wp_ret. apply Hfin; [done | by eapply same_fs_trans | done].
Qed.
End FileData.

(** [ext2_read_data] returns the bytes of the file.  It reads the [m] bytes
    of the request that lie in the file and before its first hole (direct,
    indirect or double indirect blocks), puts exactly these bytes at the start
    of the buffer, changes no other byte of it, and leaves the disk's contents
    and the driver's state as they were. *)
Theorem ext2_read_data_spec {D} `{BlockDevice D} `{!DiskLaws D EXT2_DRIVE} `{Locals}
    (s : ext2 D) i offset size m buf :
  blocks_ok s -> bytes i -> 0 <= offset -> 0 <= size < 2147483648 -> offset + size < 4294967296 ->
  size <= lenZ buf ->
  readable s i offset (Z.max 0 (Z.min size (i_size i - offset))) m ->
  exists r s', ext2_read_data i offset size buf s = Ok (m, r) s' /\ same_fs s s' /\
    filled_with buf 0 m (fun k => file_byte s i (offset + k)) r.
Proof.
  intros. assert (Hw : wp (ext2_read_data i offset size buf) (read_result s i offset buf m) s)
    by (by apply wp_read_data with (m := m)).
  apply wp_ok in Hw as ([v r] & s' & He & <- & Hs & Hf). eauto.
Qed.

(** * Writing file data in place *)

Section WriteData.
Context {D : Type} `{BlockDevice D} `{!DiskLaws D EXT2_DRIVE} `{Locals}.
Implicit Types s : ext2 D.

Lemma wp_write_block s b buf off (Q : Z -> ext2 D -> Prop) :
  blocks_ok s -> on_disk s b -> 0 <= off -> off + block_size s <= lenZ buf -> bytes buf ->
  (forall s', disk_updated s (b * block_size s) (block_size s) (fun k => rd buf (off + k)) s' ->
     Q (block_size s) s') ->
  wp (ext2_write_block b buf off (block_size s)) Q s.
Proof.
  intros [Hbs H32] [Hb0 Hb] Ho Hl Hby HQ. unfold ext2_write_block.
  destruct (Z.eqb_spec b 0); [lia|]. wp_step. wp_step. unfold block_extent, EXT2_SECTOR_SIZE.
  set (bs := block_size s) in *.
  assert (Hk : 512 * (bs / 512) = bs) by (destruct Hbs as [-> | [-> | ->]]; done).
  replace (if (bs <? bs) || (512 * 4 <? bs) then bs else bs) with bs by (by destruct (_ || _)).
  assert (Hc : (if bs / 512 <? u32 (bs + 512 - 1) / 512 then bs / 512 else u32 (bs + 512 - 1) / 512) = bs / 512)
    by (destruct Hbs as [-> | [-> | ->]]; done).
  rewrite Hc. rewrite u32_small by nia. wp_step.
  apply wp_dev_write; [nia | lia | nia | done | lia | intros; apply Hby |].
  intros s' Hu. apply wp_ret. cbn [Z.eqb]. apply HQ. rewrite Hk in Hu.
  by replace (512 * (b * (bs / 512))) with (b * bs) in Hu by nia.
Qed.

Lemma disk_updated_config s a n f s' : disk_updated s a n f s' ->
  block_size s' = block_size s /\ disk_size s' = disk_size s /\ sb_bytes s' = sb_bytes s /\
  gd_bytes s' = gd_bytes s /\ group_count s' = group_count s /\ blocks_per_group s' = blocks_per_group s /\
  no_metadata s' = no_metadata s.
Proof. intros (d & -> & Hc & _). unfold disk_size. simpl. by rewrite Hc. Qed.

(** A read of the disk followed by an update. *)
Lemma disk_updated_same s s1 a n f s' : same_fs s s1 -> disk_updated s1 a n f s' -> disk_updated s a n f s'.
Proof.
  intros (d & -> & Hc & Hd) (d2 & -> & Hc2 & Hd2). exists d2. split; [done|].
  simpl in *. split; [congruence|]. intros b. by rewrite Hd2, Hd.
Qed.

(** Replace [chunk] bytes of block [blk], through a copy of the block or
    directly when the whole block is replaced: the body of the loop of
    [ext2_write_data]. *)
Definition write_chunk {A} (bs blk in_block chunk done : Z) (buf : list Z) (bad good : A)
    : M (ext2 D) A :=
  if (in_block =? 0) && (chunk =? bs) then
    n ← ext2_write_block blk buf done chunk;
    if negb (n =? chunk) then mret bad else mret good
  else
    r ← ext2_read_block blk (local_array 4096) 0 bs;
    let '(n, block_buf) := r in
    if negb (n =? bs) then mret bad
    else
      block_buf ← memcpy block_buf in_block buf done chunk;
      n ← ext2_write_block blk block_buf 0 bs;
      if negb (n =? bs) then mret bad else mret good.

Lemma wp_write_chunk {A} s blk in_block chunk done buf (bad good : A) (Q : A -> ext2 D -> Prop) :
  blocks_ok s -> on_disk s blk -> bytes buf -> 0 <= in_block -> 0 < chunk ->
  in_block + chunk <= block_size s -> 0 <= done -> done + chunk <= lenZ buf ->
  (forall s', disk_updated s (blk * block_size s + in_block) chunk (fun k => rd buf (done + k)) s' ->
     Q good s') ->
  wp (write_chunk (block_size s) blk in_block chunk done buf bad good) Q s.
Proof.
  intros Hb Hd Hby Hin Hc Hbs Hdn Hl HQ. pose proof (bo_size _ Hb) as Hs. unfold write_chunk.
  destruct ((in_block =? 0) && (chunk =? block_size s)) eqn:Hfull.
  - apply andb_true_iff in Hfull as [Hz Hcb]. bprop. subst in_block chunk. wp_step.
    apply wp_write_block; [done.. | lia | done |]. intros s' Hu. rewrite Z.eqb_refl. cbn [negb].
    apply wp_ret, HQ. by rewrite Z.add_0_r.
  - wp_step. apply wp_read_block; [done.. | rewrite lenZ_local; lia |]. intros bb s1 Hs1 Hf.
    pose proof Hf as [Hbl Hbb]. rewrite Z.eqb_refl. cbn [negb]. rewrite lenZ_local in * by done.
    wp_step. apply wp_memcpy; [lia.. |]. intros b2 [Hl2 Hb2].
    destruct (same_fs_config _ _ Hs1) as (Hbs1 & _). rewrite <- Hbs1. wp_step.
    assert (Hby2 : bytes b2).
    { assert (bytes bb) by (apply (bytes_filled _ _ _ _ _ Hf); [by apply bytes_local | intros; apply disk_byte_range]).
      apply bytes_of. intros j Hj. rewrite Hb2 by lia. case_range; done. }
    apply wp_write_block; [by eapply blocks_ok_same | by eapply on_disk_same | done | lia | done |].
    intros s' Hu. rewrite Z.eqb_refl. cbn [negb]. apply wp_ret, HQ.
    apply (disk_updated_same _ _ _ _ _ _ Hs1) in Hu. destruct Hu as (d & -> & Hcap & Hupd).
    exists d. split; [done|]. split; [done|]. rewrite Hbs1 in *. intros p. rewrite Hupd.
    set (base := blk * block_size s) in *.
    destruct (decide (base <= p < base + block_size s)).
    + rewrite Z.add_0_l. rewrite Hb2 by lia. rewrite Hbb by lia. unfold disk_byte.
      case_range; try lia; f_equal; lia.
    + case_range; try lia; done.
Qed.

(** The address on the disk of byte [a] of a file in its direct blocks. *)
Definition direct_addr s (i : list Z) (a : Z) : Z :=
  i_block i (a / block_size s) * block_size s + a mod block_size s.

(** The first [n] bytes of the file lie in direct blocks that are on the disk
    and differ from each other. *)
Record direct_file s (i : list Z) (n : Z) : Prop := {
  df_len : lenZ i = 128;
  df_bytes : bytes i;
  df_size : n <= 12 * block_size s;
  df_disk : forall a, 0 <= a < n -> on_disk s (i_block i (a / block_size s));
  df_distinct : forall a b, 0 <= a < n -> 0 <= b < n ->
    i_block i (a / block_size s) = i_block i (b / block_size s) -> a / block_size s = b / block_size s
}.

Lemma direct_addr_inj s i n a b : 0 < block_size s -> direct_file s i n -> 0 <= a < n -> 0 <= b < n ->
  direct_addr s i a = direct_addr s i b -> a = b.
Proof.
  intros Hbs Hf Ha Hb. unfold direct_addr. set (bs := block_size s) in *. intros He.
  pose proof (Z.div_mod a bs ltac:(lia)). pose proof (Z.div_mod b bs ltac:(lia)).
  pose proof (Z.mod_pos_bound a bs Hbs). pose proof (Z.mod_pos_bound b bs Hbs).
  assert (Hblk : i_block i (a / bs) = i_block i (b / bs)).
  { assert (Hq : forall q r, 0 <= r < bs -> (q * bs + r) / bs = q)
      by (intros q r Hr; symmetry; apply (Z.div_unique_pos _ _ _ r); lia).
    rewrite <- (Hq (i_block i (a / bs)) (a mod bs)), <- (Hq (i_block i (b / bs)) (b mod bs)) by done.
    by rewrite He. }
  pose proof (df_distinct _ _ _ Hf a b Ha Hb Hblk) as Hdiv. fold bs in Hdiv. rewrite Hblk in He.
  rewrite Hdiv in *. lia.
Qed.

(** [s'] is [s] with the bytes [offset] to [offset + n - 1] of the file
    replaced by those of [buf], and no other byte of the disk. *)
Definition file_written s (i : list Z) (offset n : Z) (buf : list Z) s' : Prop :=
  exists d, s' = set_disk d s /\ dk_cap d = dk_cap (disk s) /\
    (forall a, offset <= a < offset + n -> dk_byte d (direct_addr s i a) = rd buf (a - offset)) /\
    (forall p, (forall a, offset <= a < offset + n -> p <> direct_addr s i a) ->
       dk_byte d p = dk_byte (disk s) p).

Lemma file_written_nil s i offset buf : file_written s i offset 0 buf s.
Proof. exists (disk s). split; [by destruct s|]. split; [done|]. split; [lia | done]. Qed.

Lemma file_written_step s i offset n done chunk buf s1 s2 :
  0 < block_size s -> direct_file s i n -> 0 <= offset -> 0 <= done -> 0 <= chunk -> offset + done + chunk <= n ->
  (forall k, 0 <= k < chunk -> direct_addr s i (offset + done + k) = direct_addr s i (offset + done) + k) ->
  file_written s i offset done buf s1 ->
  disk_updated s1 (direct_addr s i (offset + done)) chunk (fun k => rd buf (done + k)) s2 ->
  file_written s i offset (done + chunk) buf s2.
Proof.
  intros Hbs Hf Ho Hd Hch Hn Hk (d1 & -> & Hc1 & Hw1 & Hr1) (d2 & -> & Hc2 & Hw2). exists d2.
  set (base := direct_addr s i (offset + done)) in *.
  split; [done|]. split; [simpl in *; congruence|]. simpl in Hw2. split.
  - intros a Ha. rewrite Hw2. destruct (decide (offset + done <= a)).
    + specialize (Hk (a - offset - done) ltac:(lia)).
      replace (offset + done + (a - offset - done)) with a in Hk by lia. rewrite Hk.
      case_range; try lia. f_equal. lia.
    + assert (~ (base <= direct_addr s i a < base + chunk)) as Hno.
      { intros Hin. specialize (Hk (direct_addr s i a - base) ltac:(lia)).
        replace (base + (direct_addr s i a - base)) with (direct_addr s i a) in Hk by lia.
        apply (direct_addr_inj s i n) in Hk; [lia | done | done | lia | lia]. }
      case_range; try lia; (rewrite Hw1 by lia; done).
  - intros p Hp. rewrite Hw2. destruct (decide (base <= p < base + chunk)).
    + exfalso. apply (Hp (offset + done + (p - base))); [lia|]. rewrite Hk by lia. lia.
    + case_range; try lia; (apply Hr1; intros a Ha; apply Hp; lia).
Qed.

Lemma direct_lookup s i n a (Q : Z -> ext2 D -> Prop) s' :
  0 < block_size s -> direct_file s i n -> 0 <= a < n ->
  Q (i_block i (a / block_size s)) s' -> wp (ext2_block_lookup i (a / block_size s)) Q s'.
Proof.
  intros Hbs Hf Ha HQ. pose proof (df_size _ _ _ Hf).
  assert (a / block_size s < 12) by (apply Z.div_lt_upper_bound; lia).
  unfold ext2_block_lookup. wp_step. wp_step. destruct (Z.ltb_spec (a / block_size s) 12); [|lia].
  by apply wp_ret.
Qed.

Lemma wp_write_data s i offset size buf (Q : Z * list Z -> ext2 D -> Prop) :
  blocks_ok s -> direct_file s i (i_size i) -> bytes buf -> size <= lenZ buf ->
  0 <= offset -> 0 <= size < 2147483648 -> offset + size <= i_size i ->
  (forall s', file_written s i offset size buf s' -> Q (size, i) s') ->
  wp (ext2_write_data i offset size buf) Q s.
Proof.
  intros Hb Hf Hby Hbuf Ho Hsz Hin HQ. unfold ext2_write_data.
  pose proof (le32_range i 4 (df_bytes _ _ _ Hf)) as Hir. fold (i_size i) in Hir.
  pose proof (bo_size _ Hb) as Hbs. set (bs := block_size s) in *. assert (Hbp : 0 < bs) by lia.
  apply wp_bind.
  apply (wp_while (fun '(dn, i') s' => i' = i /\ 0 <= dn <= size /\ file_written s i offset dn buf s')
    (fun '(dn, _) _ => Z.to_nat (size - dn))).
  - split; [done|]. split; [lia | apply file_written_nil].
  - lia.
  - intros [dn i'] s' (-> & Hdn & Hw). destruct (Z.ltb_spec dn size).
    2:{ assert (dn = size) as -> by lia. apply wp_ret. rewrite u32_small by lia.
        destruct (Z.ltb_spec (i_size i) (offset + size)); [lia|]. apply wp_ret.
        unfold s32. rewrite u32_small by lia. destruct (Z.ltb_spec size 2147483648); [|lia]. by apply HQ. }
    assert (Hcfg : block_size s' = bs /\ disk_size s' = disk_size s).
    { destruct Hw as (d & -> & Hc & _). split; [done|]. unfold disk_size. simpl. by rewrite Hc. }
    destruct Hcfg as [Hbs' Hds'].
    wp_step. wp_step. rewrite Hbs'. rewrite (u32_small (offset + dn)) by lia.
    wp_step. apply wp_udiv; [lia|]. wp_step. apply wp_umod; [lia|].
    pose proof (chunk_step (offset + dn) bs (size - dn) Hbp ltac:(lia) ltac:(lia)) as Hck. cbv zeta in Hck |- *.
    set (a := offset + dn) in *.
    set (chunk := if bs - a mod bs <? size - dn then bs - a mod bs else size - dn) in *.
    destruct Hck as (Hc & Hinb & _ & Hsame). pose proof (Z.mod_pos_bound a bs Hbp) as Hmod.
    wp_step. apply (direct_lookup s i (i_size i)); [done | done | unfold a; lia |]. fold bs.
    pose proof (df_disk _ _ _ Hf a ltac:(unfold a; lia)) as Hd. fold bs in Hd.
    destruct (Z.eqb_spec (i_block i (a / bs)) 0); [destruct Hd; lia|].
    cbn [andb]. wp_step. apply wp_ret. destruct (Z.eqb_spec (i_block i (a / bs)) 0); [done|].
    destruct (Z.leb_spec (i_size i) a); [unfold a in *; lia|]. rewrite <- Hbs'.
    apply wp_write_chunk.
    + constructor; [by rewrite Hbs' | rewrite Hds'; apply Hb].
    + unfold on_disk in *. rewrite Hbs', Hds'. exact Hd.
    + done.
    + rewrite ?Hbs'. lia.
    + rewrite ?Hbs'. lia.
    + rewrite ?Hbs'. lia.
    + lia.
    + rewrite ?Hbs'. lia.
    + rewrite ?Hbs'. intros s2 Hu. split; [|lia]. split; [done|]. split; [lia|].
      apply (file_written_step s i offset (i_size i) dn chunk buf s' s2); try done; try lia.
      * intros k Hk. fold a. unfold direct_addr. fold bs. destruct (Hsame k Hk) as [-> ->]. lia.
Qed.

Lemma direct_mapped s i n a : 0 < block_size s -> direct_file s i n -> 0 <= a < n ->
  mapped s i (a / block_size s) /\ file_block s i (a / block_size s) = i_block i (a / block_size s).
Proof.
  intros Hbs Hf Ha. pose proof (df_size _ _ _ Hf).
  assert (Hl : a / block_size s < 12) by (apply Z.div_lt_upper_bound; lia).
  assert (He : file_block s i (a / block_size s) = i_block i (a / block_size s))
    by (unfold file_block; destruct (Z.ltb_spec (a / block_size s) 12); [done | lia]).
  assert (0 <= block_size s / 4) by (apply Z.div_pos; lia).
  split; [|done]. split; [split; intros; lia|]. rewrite He. by apply (df_disk _ _ _ Hf).
Qed.

Lemma direct_file_written s i n offset size buf s' : file_written s i offset size buf s' ->
  direct_file s i n -> direct_file s' i n.
Proof.
  intros (d & -> & Hc & _) [? ? ? Hd ?]. constructor; try done. intros a Ha. specialize (Hd a Ha).
  unfold on_disk, disk_size in *. simpl. by rewrite Hc.
Qed.
End WriteData.

(** C25: Data written over an existing part of a file, in its direct blocks, is
    read back.  [ext2_write_data] writes all [size] bytes and changes no other
    byte of the disk (so nothing else in this or any other file), and
    [ext2_read_data] then returns exactly these bytes. *)
Theorem ext2_write_read_roundtrip {D} `{BlockDevice D} `{!DiskLaws D EXT2_DRIVE} `{Locals}
    (s : ext2 D) i offset size buf buf' :
  blocks_ok s -> direct_file s i (i_size i) -> bytes buf -> size <= lenZ buf -> size <= lenZ buf' ->
  0 <= offset -> 0 <= size < 2147483648 -> offset + size <= i_size i ->
  exists s1, ext2_write_data i offset size buf s = Ok (size, i) s1 /\
    file_written s i offset size buf s1 /\
    exists r s2, ext2_read_data i offset size buf' s1 = Ok (size, r) s2 /\
      forall k, 0 <= k < size -> rd r k = rd buf k.
Proof.
  intros Hb Hf Hby Hl Hl' Ho Hsz Hin.
  assert (Hw : wp (ext2_write_data i offset size buf)
    (fun v s1 => v = (size, i) /\ file_written s i offset size buf s1) s) by (by apply wp_write_data; auto).
  apply wp_ok in Hw as (v & s1 & He & -> & Hw). exists s1. split; [done|]. split; [done|].
  pose proof (direct_file_written _ _ _ _ _ _ _ Hw Hf) as Hf1.
  destruct Hw as (d & -> & Hc & Hin1 & _).
  assert (Hb1 : blocks_ok (set_disk d s)).
  { destruct Hb. constructor; [done|]. unfold disk_size in *. simpl. by rewrite Hc. }
  assert (Hbs : 0 < block_size (set_disk d s)) by (pose proof (bo_size _ Hb1); lia).
  assert (Hi : 0 <= i_size i < 4294967296) by apply le32_range, Hf.
  assert (Hr : wp (ext2_read_data i offset size buf') (read_result (set_disk d s) i offset buf' size) (set_disk d s)).
  { apply wp_read_data with (m := size); try done; [apply Hf | lia |].
    split; [lia|]. split; [intros a Ha; eapply direct_mapped; [done | exact Hf1 | lia] | left; lia]. }
  apply wp_ok in Hr as ([v r] & s2 & He2 & Hv & Hs2 & Hlr & Hr). cbn in Hv. subst v.
  exists r, s2. split; [done|]. intros k Hk. cbn [snd] in Hr. rewrite Hr by lia. case_range; try lia.
  rewrite Z.sub_0_r. unfold file_byte.
  rewrite (proj2 (direct_mapped _ _ _ (offset + k) Hbs Hf1 ltac:(lia))).
  specialize (Hin1 (offset + k) ltac:(lia)). unfold disk_byte. simpl in *. unfold direct_addr in Hin1.
  rewrite Hin1. f_equal. lia.
Qed.

(** * Examples *)

Section Examples.

Lemma demo_inode_ok ino : 1 <= ino <= 16 -> inode_ok demo_fs ino.
Proof.
  intros Hi.
  assert (Hz : forall P : Z -> Prop, forallb (fun i => bool_decide (1 <= i <= 16)) [ino] = true ->
    (forall k : nat, (k < 16)%nat -> P (Z.of_nat k + 1)) -> P ino).
  { intros P _ HP. replace ino with (Z.of_nat (Z.to_nat (ino - 1)) + 1) by lia. apply HP. lia. }
  apply Hz; [cbn; by rewrite bool_decide_true|]. intros k Hk.
  do 16 (destruct k as [|k];
    [constructor; try (by vm_compute); try (vm_compute; split; congruence); try (by apply bytes_by_compute; vm_compute)|]).
  lia.
Qed.

Lemma demo_blocks_ok : blocks_ok demo_fs.
Proof. constructor; [by left | by vm_compute]. Qed.

Lemma demo_file_direct : direct_file demo_fs demo_file 1500.
Proof.
  assert (Hb : forall a, 0 <= a < 1500 -> a / 1024 = 0 \/ a / 1024 = 1) by (intros; Z.div_mod_to_equations; lia).
  constructor.
  - by vm_compute.
  - by apply bytes_by_compute; vm_compute.
  - by vm_compute.
  - intros a Ha. change (block_size demo_fs) with 1024. destruct (Hb a Ha) as [-> | ->]; vm_compute; split; congruence.
  - intros a b Ha Hb'. change (block_size demo_fs) with 1024.
    destruct (Hb a Ha) as [-> | ->], (Hb b Hb') as [-> | ->]; vm_compute; congruence.
Qed.
End Examples.

Lemma ext2_inode_roundtrip_witness :
  exists s1, ext2_write_inode 12 demo_file demo_fs = Ok 0 s1 /\
    inode_addr s1 12 = inode_addr demo_fs 12 /\ inode_on_disk s1 12 demo_file /\
    (forall a, ~ inode_addr demo_fs 12 <= a < inode_addr demo_fs 12 + 128 -> disk_byte s1 a = disk_byte demo_fs a) /\
    (exists s2, ext2_read_inode 12 s1 = Ok (Some demo_file) s2) /\
    forall ino' i', inode_ok demo_fs ino' -> ino' <> 12 ->
      (ino' - 1) / sb_inodes_per_group (sb_bytes demo_fs) = (12 - 1) / sb_inodes_per_group (sb_bytes demo_fs) ->
      (inode_on_disk demo_fs ino' i' <-> inode_on_disk s1 ino' i').
Proof.
  apply ext2_inode_roundtrip; [apply demo_inode_ok; lia | by vm_compute | by apply bytes_by_compute; vm_compute].
Defined.

Lemma ext2_read_data_spec_witness :
  exists r s', ext2_read_data demo_file 1000 600 (replicate 600 0) demo_fs = Ok (500, r) s' /\ same_fs demo_fs s' /\
    filled_with (replicate 600 0) 0 500 (fun k => file_byte demo_fs demo_file (1000 + k)) r.
Proof.
  apply ext2_read_data_spec; [apply demo_blocks_ok | apply demo_file_direct | lia | lia | lia | by vm_compute |].
  change (Z.max 0 (Z.min 600 (i_size demo_file - 1000))) with 500.
  split; [lia|]. split; [|by left]. intros a Ha.
  apply (direct_mapped demo_fs demo_file 1500); [by vm_compute | apply demo_file_direct | lia].
Defined.

Lemma ext2_write_read_roundtrip_witness :
  exists s1, ext2_write_data demo_file 1000 100 (replicate 100 7) demo_fs = Ok (100, demo_file) s1 /\
    file_written demo_fs demo_file 1000 100 (replicate 100 7) s1 /\
    exists r s2, ext2_read_data demo_file 1000 100 (replicate 100 0) s1 = Ok (100, r) s2 /\
      forall k, 0 <= k < 100 -> rd r k = rd (replicate 100 7) k.
Proof.
  apply ext2_write_read_roundtrip; [apply demo_blocks_ok | apply demo_file_direct | | by vm_compute.. | lia | lia |].
  - by apply bytes_by_compute; vm_compute.
  - by vm_compute.
Defined.
