(* ===== verification/Ext2Alloc.v ===== *)
(** The ext2 file system: allocation of blocks and inodes.

    A group's bitmap lives on the disk only; the free counters live in the
    superblock and the group descriptors, in memory and on the disk. *)
From Stdlib Require Import ZArith Lia List.
From stdpp Require Import base tactics numbers list gmap strings option.
From S2P Require Import Prelude CString Bytes Ata Disk Ext2 Ext2Demo Ext2Facts.
Open Scope Z_scope.

Section Metadata.
Context {D : Type} `{BlockDevice D} `{!DiskLaws D EXT2_DRIVE} `{Locals}.
Implicit Types s : ext2 D.

(** Where the group descriptors begin on the disk. *)
Definition gd_addr s : Z := (1024 / block_size s + 1) * block_size s.

(** Byte offset in the descriptor of group [g] of the bitmap's block number:
    [o] is 0 for the block bitmap and 4 for the inode bitmap. *)
Definition bitmap_addr s (o g : Z) : Z := le32 (gd_bytes s) (GD_SIZE * g + o) * block_size s.

(** The metadata of a mounted file system with blocks of 1, 2 or 4 KiB: one
    block of descriptors, and bitmaps after it on the disk. *)
Record metadata_ok s : Prop := {
  mo_loaded : no_metadata s = false;
  mo_bs : block_size s = 1024 \/ block_size s = 2048 \/ block_size s = 4096;
  mo_32bit : disk_size s <= 4294967296;
  mo_sb : lenZ (sb_bytes s) = SB_SIZE /\ bytes (sb_bytes s);
  mo_gd : lenZ (gd_bytes s) = GD_SIZE * group_count s /\ bytes (gd_bytes s);
  mo_gc : 0 <= group_count s /\ GD_SIZE * group_count s <= block_size s;
  mo_disk : gd_addr s + block_size s <= disk_size s;
  mo_bitmaps : forall o g, o = 0 \/ o = 4 -> 0 <= g < group_count s ->
    gd_addr s + block_size s <= bitmap_addr s o g /\ bitmap_addr s o g + block_size s <= disk_size s
}.

(** Entry [b] of the bitmap of group [g]. *)
Definition taken s (o g b : Z) : bool :=
  Z.testbit (disk_byte s (bitmap_addr s o g + b / 8)) (b mod 8).

Lemma gd_addr_bounds s : metadata_ok s -> 2048 <= gd_addr s.
Proof. intros H'. unfold gd_addr. by destruct (mo_bs _ H') as [-> | [-> | ->]]. Qed.
Lemma gd_addr_small s : metadata_ok s -> block_size s <= 2048 -> gd_addr s = 2048.
Proof. intros H' Hle. unfold gd_addr. destruct (mo_bs _ H') as [-> | [-> | E]]; [done.. | lia]. Qed.

Lemma has_gd s o g n : metadata_ok s -> 0 <= g < group_count s -> 0 <= o -> o + n <= GD_SIZE ->
  has (gd_bytes s) (GD_SIZE * g + o) n.
Proof. intros Hm Hg Ho Hn. destruct (mo_gd _ Hm) as [Hl _]. split; unfold GD_SIZE in *; lia. Qed.

(** The transfers of a whole bitmap block. *)
Definition read_bitmap (o g : Z) (buf : list Z) : M (ext2 D) (list Z) :=
  gd ← gets gd_bytes;
  bs ← gets block_size;
  b ← ld32 gd (GD_SIZE * g + o);
  r ← dev (read_sectors EXT2_DRIVE (u32 (b * (bs / EXT2_SECTOR_SIZE))) (bs / EXT2_SECTOR_SIZE) buf 0);
  mret (snd r).
Definition write_bitmap (o g : Z) (buf : list Z) : M (ext2 D) unit :=
  gd ← gets gd_bytes;
  bs ← gets block_size;
  b ← ld32 gd (GD_SIZE * g + o);
  dev (write_sectors EXT2_DRIVE (u32 (b * (bs / EXT2_SECTOR_SIZE))) (bs / EXT2_SECTOR_SIZE) buf 0);;
  mret tt.

Lemma bitmap_sectors s o g : metadata_ok s -> o = 0 \/ o = 4 -> 0 <= g < group_count s ->
  let b := le32 (gd_bytes s) (GD_SIZE * g + o) in
  u32 (b * (block_size s / 512)) = b * (block_size s / 512) /\
  512 * (b * (block_size s / 512)) = bitmap_addr s o g /\ 512 * (block_size s / 512) = block_size s /\
  0 <= b * (block_size s / 512).
Proof.
  intros Hm Ho Hg b. destruct (mo_gd _ Hm) as [_ Hby]. pose proof (le32_range (gd_bytes s) (GD_SIZE * g + o) Hby).
  destruct (mo_bitmaps _ Hm o g Ho Hg) as [Hlo Hhi]. pose proof (mo_32bit _ Hm).
  assert (Hk : 512 * (block_size s / 512) = block_size s) by (destruct (mo_bs _ Hm) as [-> | [-> | ->]]; done).
  assert (He : 512 * (b * (block_size s / 512)) = bitmap_addr s o g) by (unfold bitmap_addr; fold b; nia).
  assert (0 < block_size s) by (destruct (mo_bs _ Hm); lia).
  split; [apply u32_small; nia|]. split; [done|]. split; [done|]. subst b. nia.
Qed.

Lemma wp_read_bitmap s o g buf (Q : list Z -> ext2 D -> Prop) :
  metadata_ok s -> o = 0 \/ o = 4 -> 0 <= g < group_count s -> block_size s <= lenZ buf ->
  (forall r s', same_fs s s' ->
     filled_with buf 0 (block_size s) (fun k => disk_byte s (bitmap_addr s o g + k)) r -> Q r s') ->
  wp (read_bitmap o g buf) Q s.
Proof.
  intros Hm Ho Hg Hl HQ. destruct (bitmap_sectors s o g Hm Ho Hg) as (Hu & Ha & Hk & Hp). cbv zeta in *.
  destruct (mo_bitmaps _ Hm o g Ho Hg) as [_ Hd]. pose proof (mo_bs _ Hm) as Hbs.
  unfold read_bitmap, EXT2_SECTOR_SIZE. wp_step. wp_step. wp_step. wp_step.
  wp_step. apply wp_ld32; [apply has_gd; unfold GD_SIZE; lia || done|]. rewrite Hu. wp_step.
  apply wp_dev_read; [done | apply Z.div_pos; lia | lia | done | lia |].
  intros r s' Hs Hf. apply wp_ret, HQ; [done|]. rewrite Hk in Hf. destruct Hf as [Hfl Hfr].
  split; [done|]. intros j Hj. rewrite Hfr by done. destruct (_ && _); [|done]. by rewrite Ha.
Qed.

Lemma wp_write_bitmap s o g buf (Q : unit -> ext2 D -> Prop) :
  metadata_ok s -> o = 0 \/ o = 4 -> 0 <= g < group_count s -> block_size s <= lenZ buf -> bytes buf ->
  (forall s', disk_updated s (bitmap_addr s o g) (block_size s) (rd buf) s' -> Q tt s') ->
  wp (write_bitmap o g buf) Q s.
Proof.
  intros Hm Ho Hg Hl Hb HQ. destruct (bitmap_sectors s o g Hm Ho Hg) as (Hu & Ha & Hk & Hp). cbv zeta in *.
  destruct (mo_bitmaps _ Hm o g Ho Hg) as [_ Hd]. pose proof (mo_bs _ Hm) as Hbs.
  unfold write_bitmap, EXT2_SECTOR_SIZE. wp_step. wp_step. wp_step. wp_step.
  wp_step. apply wp_ld32; [apply has_gd; unfold GD_SIZE; lia || done|]. rewrite Hu. wp_step.
  apply wp_dev_write; [done | apply Z.div_pos; lia | lia | done | lia | intros; apply Hb |].
  intros s' Hs. apply wp_ret, HQ. by rewrite Hk, Ha in Hs.
Qed.

(** [s'] has the disk of [s], up to reads, and the same configuration but for
    the superblock and the descriptors in memory. *)
Definition counted s sb gd s' : Prop := s' = set_sb_bytes sb (set_gd_bytes gd s).

Lemma wp_gd_add s o d (Q : unit -> ext2 D -> Prop) :
  has (gd_bytes s) o 2 ->
  Q tt (set_gd_bytes (put16 (gd_bytes s) o (u16 (le16 (gd_bytes s) o + d))) s) -> wp (gd_add o d) Q s.
Proof.
  intros Hh HQ. unfold gd_add. wp_step. wp_step. wp_step. apply wp_ld16; [done|].
  wp_step. apply wp_st16; [done|]. by apply wp_modify.
Qed.

Lemma wp_sb_add s o d (Q : unit -> ext2 D -> Prop) :
  has (sb_bytes s) o 4 ->
  Q tt (set_sb_bytes (put32 (sb_bytes s) o (u32 (le32 (sb_bytes s) o + d))) s) -> wp (sb_add o d) Q s.
Proof.
  intros Hh HQ. unfold sb_add. wp_step. wp_step. wp_step. apply wp_ld32; [done|].
  wp_step. apply wp_st32; [done|]. by apply wp_modify.
Qed.

(** A buffer read from the disk, partly overwritten, and written back. *)
Lemma disk_update_part s a n m (src buf b2 : list Z) s1 s2 :
  same_fs s s1 -> 0 <= m <= n -> lenZ buf = n ->
  (forall j, 0 <= j < n -> rd buf j = disk_byte s (a + j)) ->
  copied buf 0 src 0 m b2 ->
  disk_updated s1 a n (rd b2) s2 -> disk_updated s a m (rd src) s2.
Proof.
  intros Hs Hm Hl Hb [Hl2 Hb2] Hu. apply (disk_updated_same _ _ _ _ _ _ Hs) in Hu.
  destruct Hu as (d & -> & Hc & Hd). exists d. split; [done|]. split; [done|]. intros p. rewrite Hd.
  destruct (decide (a <= p < a + n)).
  - rewrite Hb2 by lia. rewrite Hb by lia. unfold disk_byte. case_range; try lia; f_equal; lia.
  - case_range; lia || done.
Qed.

Lemma wp_persist_superblock s (Q : unit -> ext2 D -> Prop) :
  metadata_ok s ->
  (forall s', disk_updated s 1024 SB_SIZE (rd (sb_bytes s)) s' -> Q tt s') -> wp persist_superblock Q s.
Proof.
  intros Hm HQ. pose proof (mo_disk _ Hm). pose proof (gd_addr_bounds _ Hm). destruct (mo_sb _ Hm) as [Hl Hb].
  assert (0 < block_size s) by (destruct (mo_bs _ Hm); lia). unfold SB_SIZE in *.
  unfold persist_superblock. change (EXT2_SUPERBLOCK_OFFSET / EXT2_SECTOR_SIZE) with 2.
  change (EXT2_SUPERBLOCK_OFFSET mod EXT2_SECTOR_SIZE) with 0. unfold EXT2_SECTOR_SIZE. cbv zeta.
  wp_step. apply wp_dev_read; [done | done | lia | done | by rewrite lenZ_local |].
  intros r s1 Hs Hf. pose proof Hf as [Hrl Hr]. rewrite lenZ_local in * by done.
  destruct (same_fs_config _ _ Hs) as (Hbs & Hsb & _).
  wp_step. wp_step. rewrite Hsb. wp_step. cbn [snd]. unfold SB_SIZE. apply wp_memcpy; [lia.. |]. intros b [Hbl Hbr].
  wp_step. apply wp_dev_write; [done | done | rewrite (same_fs_size _ _ Hs); lia | done | lia | |].
  - assert (bytes r) by (apply (bytes_filled _ _ _ _ _ Hf); [by apply bytes_local | intros; apply disk_byte_range]).
    intros j Hj. rewrite Hbr by lia. case_range; done.
  - intros s2 Hu. apply wp_ret, HQ. eapply (disk_update_part s 1024 512 204 _ r b s1); try done; try lia.
    intros j Hj. rewrite Hr by lia. case_range; try lia. f_equal. lia.
Qed.

Lemma wp_persist_group_desc s (Q : unit -> ext2 D -> Prop) :
  metadata_ok s -> block_size s <= 2048 ->
  (forall s', disk_updated s (gd_addr s) (GD_SIZE * group_count s) (rd (gd_bytes s)) s' -> Q tt s') ->
  wp persist_group_desc Q s.
Proof.
  intros Hm H2k HQ. pose proof (mo_disk _ Hm). pose proof (gd_addr_small _ Hm H2k) as Hga. rewrite Hga in *.
  destruct (mo_gd _ Hm) as [Hl Hb]. destruct (mo_gc _ Hm) as [Hgc Hgb]. pose proof (mo_bs _ Hm) as Hbs.
  unfold persist_group_desc, ext2_gd_sector, EXT2_SUPERBLOCK_OFFSET, EXT2_SECTOR_SIZE, GD_SIZE in *.
  assert (Hsec : u32 ((1024 / block_size s + 1) * (block_size s / 512)) = 4) by (destruct Hbs as [-> | [-> | Hx]]; [done | done | lia]).
  assert (Hk : 512 * (block_size s / 512) = block_size s) by (destruct Hbs as [-> | [-> | Hx]]; [done | done | lia]).
  wp_step. wp_step. wp_step. wp_step. apply wp_udiv; [lia|]. apply wp_ret. rewrite Hsec.
  wp_step. wp_step. wp_step.
  apply wp_dev_read; [done | lia | lia | done | rewrite lenZ_local; lia |].
  intros r s1 Hs Hf. pose proof Hf as [Hrl Hr]. rewrite lenZ_local in * by done.
  destruct (same_fs_config _ _ Hs) as (Hbs1 & Hsb1 & Hgd1 & Hgc1 & _).
  wp_step. wp_step. wp_step. wp_step. rewrite Hgd1, Hgc1. rewrite (u32_small (32 * group_count s)) by lia.
  wp_step. cbn [snd]. apply wp_memcpy; [lia.. |]. intros b [Hbl Hbr].
  wp_step. apply wp_dev_write; [done | lia | rewrite (same_fs_size _ _ Hs); lia | done | lia | |].
  - assert (bytes r) by (apply (bytes_filled _ _ _ _ _ Hf); [by apply bytes_local | intros; apply disk_byte_range]).
    intros j Hj. rewrite Hbr by lia. case_range; done.
  - intros s2 Hu. apply wp_ret, HQ. rewrite Hk in Hu, Hr. change (512 * 4) with 2048 in *.
    apply (disk_updated_same _ _ _ _ _ _ Hs) in Hu. destruct Hu as (d & -> & Hc & Hd).
    exists d. split; [done|]. split; [done|]. intros p. rewrite Hd.
    destruct (decide (2048 <= p < 2048 + block_size s)).
    + cbn [Z.add]. rewrite Hbr by lia. rewrite Hr by lia. unfold disk_byte. case_range; try lia; f_equal; lia.
    + case_range; lia || done.
Qed.
End Metadata.

(** * Taking an entry *)

Section Take.
Context {D : Type} `{BlockDevice D} `{!DiskLaws D EXT2_DRIVE} `{Locals}.
Implicit Types s : ext2 D.

(** The kinds of entries: blocks and inodes, with the offset of the bitmap and
    of the free counter in a descriptor, and of the counter in the superblock. *)
Definition kind (o co so : Z) : Prop :=
  o = 0 /\ co = 12 /\ so = SB_FREE_BLOCKS \/ o = 4 /\ co = 14 /\ so = SB_FREE_INODES.

Definition gd_less s co g : list Z :=
  put16 (gd_bytes s) (GD_SIZE * g + co) (u16 (le16 (gd_bytes s) (GD_SIZE * g + co) + -1)).
Definition sb_less s so : list Z := put32 (sb_bytes s) so (u32 (le32 (sb_bytes s) so + -1)).

(** [s'] is [s] with entry [b] of group [g] taken: its bit is set, both free
    counters are one less, and the disk has the new bitmap, superblock and
    descriptors, and no other change. *)
Definition took s (o co so g b : Z) s' : Prop :=
  exists d, s' = set_disk d (set_sb_bytes (sb_less s so) (set_gd_bytes (gd_less s co g) s)) /\
    dk_cap d = dk_cap (disk s) /\
    forall p, dk_byte d p =
      if p =? bitmap_addr s o g + b / 8 then Z.lor (disk_byte s p) (2 ^ (b mod 8))
      else if (1024 <=? p) && (p <? 1024 + SB_SIZE) then rd (sb_less s so) (p - 1024)
      else if (gd_addr s <=? p) && (p <? gd_addr s + GD_SIZE * group_count s)
           then rd (gd_less s co g) (p - gd_addr s)
      else disk_byte s p.

Lemma metadata_same s s' : same_fs s s' -> metadata_ok s -> metadata_ok s'.
Proof.
  intros (d & -> & Hc & Hd) [? ? ? ? ? ? ? ?]. constructor; try done; unfold disk_size in *; simpl; by rewrite Hc.
Qed.

Lemma metadata_updated s a n f s' : disk_updated s a n f s' -> metadata_ok s -> metadata_ok s'.
Proof.
  intros (d & -> & Hc & Hd) [? ? ? ? ? ? ? ?]. constructor; try done; unfold disk_size in *; simpl; by rewrite Hc.
Qed.

Lemma metadata_counted s o co so g : kind o co so -> 0 <= g < group_count s -> metadata_ok s ->
  metadata_ok (set_sb_bytes (sb_less s so) (set_gd_bytes (gd_less s co g) s)).
Proof.
  intros Hk Hg Hm. destruct (mo_sb _ Hm) as [Hsl Hsb]. destruct (mo_gd _ Hm) as [Hgl Hgb].
  constructor.
  - apply (mo_loaded _ Hm).
  - apply (mo_bs _ Hm).
  - apply (mo_32bit _ Hm).
  - simpl. unfold sb_less. split; [by rewrite lenZ_put32 | by apply bytes_put32].
  - simpl. unfold gd_less. split; [by rewrite lenZ_put16 | by apply bytes_put16].
  - apply (mo_gc _ Hm).
  - apply (mo_disk _ Hm).
  - intros o' g' Ho' Hg'. pose proof (mo_bitmaps _ Hm o' g' Ho' Hg') as Hbm.
    assert (He : le32 (gd_less s co g) (GD_SIZE * g' + o') = le32 (gd_bytes s) (GD_SIZE * g' + o')).
    { unfold gd_less. apply le32_put16_ne.
      - apply has_gd; [done | done | |]; destruct Hk as [(-> & -> & _)|(-> & -> & _)]; unfold GD_SIZE; lia.
      - unfold GD_SIZE. lia.
      - unfold GD_SIZE. destruct (decide (g = g')) as [->|]; destruct Hk as [(_ & -> & _)|(_ & -> & _)]; lia. }
    unfold bitmap_addr in *. simpl. by rewrite He.
Qed.

Lemma bit_byte_div b : bit_byte b = b / 8.
Proof. unfold bit_byte. Z.div_mod_to_equations; lia. Qed.
Lemma bit_mask_pow b : bit_mask b = 2 ^ (b mod 8).
Proof.
  unfold bit_mask. rewrite Z.shiftl_1_l. f_equal. Z.div_mod_to_equations; lia.
Qed.

(** Testing and setting one bit of a byte. *)
Lemma land_pow2 v k : 0 <= k -> (Z.land v (2 ^ k) =? 0) = negb (Z.testbit v k).
Proof.
  intros Hk. destruct (Z.testbit v k) eqn:Hb; simpl.
  - apply Z.eqb_neq. intros Hz0. assert (Hc : Z.testbit (Z.land v (2 ^ k)) k = false)
      by (rewrite Hz0; apply Z.bits_0).
    rewrite Z.land_spec, Hb, Z.pow2_bits_true in Hc by lia. done.
  - apply Z.eqb_eq. apply Z.bits_inj'. intros j Hj.
    rewrite Z.land_spec, Z.pow2_bits_eqb, Z.bits_0 by lia.
    destruct (Z.eqb_spec k j) as [<-|]; [by rewrite Hb | by rewrite andb_false_r].
Qed.

Lemma lor_byte v k : 0 <= v < 256 -> 0 <= k < 8 -> 0 <= Z.lor v (2 ^ k) < 256.
Proof.
  intros Hv Hk. split; [apply Z.lor_nonneg; split; [lia | apply Z.pow_nonneg; lia]|].
  assert (2 ^ k < 2 ^ 8) by (apply Z.pow_lt_mono_r; lia).
  destruct (Z.eq_dec (Z.lor v (2 ^ k)) 0); [lia|].
  assert (Z.log2 (Z.lor v (2 ^ k)) < 8).
  { rewrite Z.log2_lor by lia. apply Z.max_lub_lt.
    - destruct (Z.eq_dec v 0) as [->|]; [done|]. apply Z.log2_lt_pow2; lia.
    - apply Z.log2_lt_pow2; [|lia]. apply Z.pow_pos_nonneg; lia. }
  apply Z.log2_lt_cancel. change (Z.log2 256) with 8. done.
Qed.

(** The steps that take an entry, once it was found clear in the bitmap that
    was read. *)
Definition take_entry {A} (o co so g b : Z) (bitmap : list Z) (k : M (ext2 D) A) : M (ext2 D) A :=
  v ← aget bitmap (bit_byte b);
  bitmap ← aset bitmap (bit_byte b) (Z.lor v (bit_mask b));
  write_bitmap o g bitmap;;
  gd_add (GD_SIZE * g + co) (-1);;
  sb_add so (-1);;
  persist_superblock;;
  persist_group_desc;;
  k.

Lemma wp_take_entry {A} s o co so g b bitmap (k : M (ext2 D) A) (Q : A -> ext2 D -> Prop) :
  metadata_ok s -> block_size s <= 2048 -> kind o co so -> 0 <= g < group_count s ->
  0 <= b < 8 * block_size s -> lenZ bitmap = 4096 -> bytes bitmap ->
  (forall j, 0 <= j < block_size s -> rd bitmap j = disk_byte s (bitmap_addr s o g + j)) ->
  (forall s', took s o co so g b s' -> wp k Q s') ->
  wp (take_entry o co so g b bitmap k) Q s.
Proof.
  intros Hm H2k Hk Hg Hb Hl Hby Hbm HQ. pose proof (mo_bs _ Hm) as Hbs.
  assert (Ho : o = 0 \/ o = 4) by (destruct Hk as [(-> & _)|(-> & _)]; auto).
  assert (Hb8 : 0 <= b / 8 < block_size s) by (Z.div_mod_to_equations; lia).
  pose proof (Z.mod_pos_bound b 8 ltac:(lia)) as Hmod.
  unfold take_entry. rewrite bit_byte_div, bit_mask_pow.
  wp_step. apply wp_aget; [lia|]. wp_step. apply wp_aset; [lia|].
  set (v := rd bitmap (b / 8)). set (bm2 := wr bitmap (b / 8) (Z.lor v (2 ^ (b mod 8)))).
  assert (Hlor : 0 <= Z.lor v (2 ^ (b mod 8)) < 256) by (apply lor_byte; [apply Hby | lia]).
  wp_step. apply wp_write_bitmap; [done | done | done | unfold bm2; rewrite lenZ_wr; lia | by apply bytes_wr |].
  intros s1 Hu. destruct (disk_updated_config _ _ _ _ _ Hu) as (Hbs1 & _ & Hsb1 & Hgd1 & Hgc1 & _).
  pose proof (metadata_updated _ _ _ _ _ Hu Hm) as Hm1.
  destruct (mo_sb _ Hm) as [Hsl Hsb].
  wp_step. apply wp_gd_add.
  { apply has_gd; [done | by rewrite Hgc1 | |]; destruct Hk as [(_ & -> & _)|(_ & -> & _)]; unfold GD_SIZE; lia. }
  wp_step. apply wp_sb_add.
  { simpl. rewrite Hsb1. split; destruct Hk as [(_ & _ & ->)|(_ & _ & ->)];
      unfold SB_SIZE, SB_FREE_BLOCKS, SB_FREE_INODES in *; lia. }
  cbn [sb_bytes set_gd_bytes]. fold (gd_less s1 co g). fold (sb_less s1 so).
  set (s2 := set_sb_bytes (sb_less s1 so) (set_gd_bytes (gd_less s1 co g) s1)).
  assert (Hm2 : metadata_ok s2) by (eapply metadata_counted; [exact Hk | by rewrite Hgc1 | done]).
  wp_step. apply wp_persist_superblock; [done|]. intros s3 Hu3.
  pose proof (metadata_updated _ _ _ _ _ Hu3 Hm2) as Hm3.
  wp_step. apply wp_persist_group_desc; [done | destruct Hu3 as (? & -> & _); cbn; lia |]. intros s4 Hu4. apply HQ.
  destruct Hu as (d1 & -> & Hc1 & Hd1). destruct Hu3 as (d3 & -> & Hc3 & Hd3). destruct Hu4 as (d4 & -> & Hc4 & Hd4).
  exists d4. split; [done|]. split; [simpl in *; congruence|]. intros p. rewrite Hd4. simpl. rewrite Hd3. simpl.
  rewrite Hd1. pose proof (gd_addr_small _ Hm H2k) as Hga.
  assert (gd_addr (set_disk d3 s2) = 2048) as -> by exact Hga. rewrite Hga. cbn [sb_bytes set_sb_bytes set_gd_bytes gd_bytes].
  destruct (mo_bitmaps _ Hm o g Ho Hg) as [Hlo Hhi]. rewrite Hga in Hlo.
  destruct (mo_gc _ Hm) as [Hgc Hgcb]. unfold SB_SIZE.
  change (gd_less (set_disk d1 s) co g) with (gd_less s co g).
  change (sb_less (set_disk d1 s) so) with (sb_less s so).
  set (base := bitmap_addr s o g) in *.
  destruct (Z.eqb_spec p (base + b / 8)) as [->|Hne].
  - case_range; try lia. unfold bm2. replace (base + b / 8 - base) with (b / 8) by lia.
    rewrite rd_wr_eq by lia. unfold v. by rewrite Hbm by lia.
  - destruct (decide (base <= p < base + block_size s)).
    + case_range; try lia. unfold bm2. rewrite rd_wr_ne by lia. rewrite Hbm by lia. f_equal. lia.
    + case_range; lia || done.
Qed.

(** The entry is taken afterwards, and no other entry of its bitmap changes. *)
Lemma took_taken s o co so g b s' b' :
  metadata_ok s -> kind o co so -> 0 <= g < group_count s ->
  0 <= b < 8 * block_size s -> 0 <= b' < 8 * block_size s -> took s o co so g b s' ->
  taken s' o g b' = (b' =? b) || taken s o g b'.
Proof.
  intros Hm Hk Hg Hb Hb' (d & -> & Hc & Hd). pose proof (mo_bs _ Hm) as Hbs.
  assert (Ho : o = 0 \/ o = 4) by (destruct Hk as [(-> & _)|(-> & _)]; auto).
  destruct (mo_bitmaps _ Hm o g Ho Hg) as [Hlo Hhi]. pose proof (gd_addr_bounds _ Hm) as Hga.
  destruct (mo_gc _ Hm) as [Hgc Hgcb].
  assert (Ha : bitmap_addr (set_disk d (set_sb_bytes (sb_less s so) (set_gd_bytes (gd_less s co g) s))) o g =
    bitmap_addr s o g).
  { unfold bitmap_addr. simpl. f_equal. unfold gd_less. apply le32_put16_ne.
    - apply has_gd; [done | done | |]; destruct Hk as [(-> & -> & _)|(-> & -> & _)]; unfold GD_SIZE; lia.
    - unfold GD_SIZE. lia.
    - unfold GD_SIZE. destruct Hk as [(-> & -> & _)|(-> & -> & _)]; lia. }
  unfold taken. rewrite Ha. unfold disk_byte at 1. simpl. rewrite Hd.
  assert (Hq : 0 <= b / 8 < block_size s /\ 0 <= b' / 8 < block_size s) by (Z.div_mod_to_equations; lia).
  pose proof (Z.mod_pos_bound b 8 ltac:(lia)). pose proof (Z.mod_pos_bound b' 8 ltac:(lia)).
  destruct (Z.eqb_spec (bitmap_addr s o g + b' / 8) (bitmap_addr s o g + b / 8)) as [He|Hne].
  - rewrite Z.lor_spec, Z.pow2_bits_eqb by lia. rewrite orb_comm. f_equal.
    destruct (Z.eqb_spec (b mod 8) (b' mod 8)), (Z.eqb_spec b' b); try done; Z.div_mod_to_equations; lia.
  - destruct (Z.eqb_spec b' b) as [->|]; [done|]. unfold SB_SIZE, GD_SIZE in *. case_range; lia || done.
Qed.
End Take.

(** * The search *)

Section Search.
Context {D : Type} `{BlockDevice D} `{!DiskLaws D EXT2_DRIVE} `{Locals}.
Implicit Types s : ext2 D.

Lemma taken_same s s' o g b : same_fs s s' -> taken s' o g b = taken s o g b.
Proof.
  intros Hs. unfold taken. rewrite (same_fs_byte _ _ _ Hs). by destruct Hs as (d & -> & _).
Qed.

Lemma took_same s s1 o co so g b s' : same_fs s s1 -> took s1 o co so g b s' -> took s o co so g b s'.
Proof.
  intros (d & -> & Hc & Hd) (d2 & -> & Hc2 & Hd2). exists d2. split; [done|].
  split; [simpl in *; congruence|]. intros p. rewrite Hd2. simpl. unfold disk_byte. simpl. by rewrite Hd.
Qed.

(** The loop over one bitmap stops at the first clear entry and takes it. *)
Lemma wp_bitmap_loop {R} s o co so g n bitmap (w : list Z -> M (ext2 D) unit)
    (k : Z -> M (ext2 D) (ctl (list Z) R)) (Q : list Z + R -> ext2 D -> Prop) :
  metadata_ok s -> block_size s <= 2048 -> kind o co so -> 0 <= g < group_count s ->
  0 <= n <= 8 * block_size s -> lenZ bitmap = 4096 -> bytes bitmap ->
  (forall j, 0 <= j < block_size s -> rd bitmap j = disk_byte s (bitmap_addr s o g + j)) ->
  (forall bm, w bm = write_bitmap o g bm) ->
  ((forall b, 0 <= b < n -> taken s o g b = true) -> Q (inl bitmap) s) ->
  (forall b s', 0 <= b < n -> taken s o g b = false -> (forall c, 0 <= c < b -> taken s o g c = true) ->
     took s o co so g b s' -> wp (k b) (fun c s'' => exists r, c = Ret r /\ Q (inr r) s'') s') ->
  wp (for_ (span 0 n) 0 bitmap (fun b bitmap =>
    v ← aget bitmap (bit_byte b);
    if Z.land v (bit_mask b) =? 0 then
      bitmap ← aset bitmap (bit_byte b) (Z.lor v (bit_mask b));
      w bitmap;;
      gd_add (GD_SIZE * g + co) (-1);;
      sb_add so (-1);;
      persist_superblock;;
      persist_group_desc;;
      k b
    else mret (Cont bitmap))) Q s.
Proof.
  intros Hm H2k Hk Hg Hn Hl Hby Hbm Hw Hall Hfound.
  assert (Hbit : forall b, 0 <= b < n -> 0 <= bit_byte b < 4096 /\
    (Z.land (rd bitmap (bit_byte b)) (bit_mask b) =? 0) = negb (taken s o g b)).
  { intros b Hb. pose proof (mo_bs _ Hm). rewrite bit_byte_div, bit_mask_pow.
    assert (0 <= b / 8 < block_size s) by (Z.div_mod_to_equations; lia). split; [lia|].
    rewrite land_pow2 by (apply Z.mod_pos_bound; lia). unfold taken. by rewrite Hbm. }
  apply (wp_for (fun b bm s' => bm = bitmap /\ s' = s /\ forall c, 0 <= c < b -> taken s o g c = true)).
  - split; [done|]. split; [done|]. lia.
  - intros b bm s' Hb (-> & -> & Hlow). unfold span in Hb. destruct (Hbit b ltac:(lia)) as [Hr Ht].
    wp_step. apply wp_aget; [lia|]. rewrite Ht. destruct (taken s o g b) eqn:Hbt; cbn [negb].
    + apply wp_ret. split; [done|]. split; [done|]. intros c Hc.
      destruct (decide (c = b)) as [->|]; [done | apply Hlow; lia].
    + assert (Htake : wp (take_entry o co so g b bitmap (k b)) (fun c s'' =>
        exists r, c = Ret r /\ Q (inr r) s'') s).
      { apply wp_take_entry; try done; [lia|]. intros s' Htk. apply Hfound; [lia | done..]. }
      unfold take_entry in Htake. apply wp_unbind in Htake. unfold aget in Htake.
      rewrite decide_True in Htake by lia. change (wp (mret ?x) ?Q ?s) with (Q x s) in Htake. cbv beta in Htake.
      apply wp_unbind in Htake. wp_step. eapply wp_mono; [|exact Htake]. intros bm2 s2 Hbm2. cbv beta in Hbm2.
      rewrite Hw. eapply wp_mono; [|exact Hbm2]. by intros ? ? (r & -> & HQr).
  - intros bm s' (-> & -> & Hlow). apply Hall. intros b Hb. apply Hlow. unfold span. lia.
Qed.

(** No entry of the group is offered: its counter is zero, or all are taken. *)
Definition group_full s (o co n g : Z) : Prop :=
  le16 (gd_bytes s) (GD_SIZE * g + co) = 0 \/ forall b, 0 <= b < n -> taken s o g b = true.

(** [b] is the first clear entry of [g], the first group that offers one. *)
Definition first_clear s (o co n g b : Z) : Prop :=
  0 <= g < group_count s /\ 0 <= b < n /\ le16 (gd_bytes s) (GD_SIZE * g + co) <> 0 /\
  taken s o g b = false /\ (forall c, 0 <= c < b -> taken s o g c = true) /\
  forall g', 0 <= g' < g -> group_full s o co n g'.

Lemma bitmap_buffer s s1 o g bm : metadata_ok s -> same_fs s s1 -> lenZ bm = 4096 -> bytes bm -> 
  forall r s2, same_fs s1 s2 ->
  filled_with bm 0 (block_size s1) (fun k => disk_byte s1 (bitmap_addr s1 o g + k)) r ->
  lenZ r = 4096 /\ bytes r /\ same_fs s s2 /\
  forall j, 0 <= j < block_size s2 -> rd r j = disk_byte s2 (bitmap_addr s2 o g + j).
Proof.
  intros Hm Hs Hl Hb r s2 Hs2 Hf. pose proof Hf as [Hrl Hr]. split; [congruence|].
  split; [apply (bytes_filled _ _ _ _ _ Hf); [done | intros; apply disk_byte_range]|].
  split; [by eapply same_fs_trans|]. intros j Hj. pose proof (mo_bs _ Hm).
  assert (Hbs2 : block_size s2 = block_size s1) by (by destruct Hs2 as (? & -> & _)).
  assert (Hbs1 : block_size s1 = block_size s) by (by destruct Hs as (? & -> & _)).
  rewrite Hr by lia. rewrite (same_fs_byte _ _ _ Hs2). case_range; try lia. f_equal.
  assert (bitmap_addr s2 o g = bitmap_addr s1 o g) as -> by (by destruct Hs2 as (? & -> & _)). lia.
Qed.
End Search.

Section AllocWp.
Context {D : Type} `{BlockDevice D} `{!DiskLaws D EXT2_DRIVE} `{Locals}.
Implicit Types s : ext2 D.

(** The outcome of a search: an entry taken, with the number [num g b], or
    none offered. *)
Definition alloc_outcome s (o co so n : Z) (num : Z -> Z -> Z) (r : option Z) s' : Prop :=
  (exists g b, r = Some (num g b) /\ first_clear s o co n g b /\ took s o co so g b s') \/
  (r = None /\ same_fs s s' /\ forall g, 0 <= g < group_count s -> group_full s o co n g).

(** The invariant of the loop over the groups. *)
Definition groups_done s (o co n g : Z) (bm : list Z) s' : Prop :=
  same_fs s s' /\ lenZ bm = 4096 /\ bytes bm /\ forall g', 0 <= g' < g -> group_full s o co n g'.

Lemma groups_done_next s o co n g bm s' : groups_done s o co n g bm s' -> group_full s o co n g ->
  groups_done s o co n (g + 1) bm s'.
Proof.
  intros (? & ? & ? & Hd) Hg. repeat (split; [done|]). intros g' Hg'.
  destruct (decide (g' = g)) as [->|]; [done | apply Hd; lia].
Qed.

Lemma wp_alloc_block s (Q : option Z -> ext2 D -> Prop) :
  metadata_ok s -> block_size s <= 2048 -> 0 <= blocks_per_group s <= 8 * block_size s ->
  (forall r s', alloc_outcome s 0 12 SB_FREE_BLOCKS (blocks_per_group s)
     (fun g b => u32 (g * blocks_per_group s + b + sb_first_data_block (sb_bytes s))) r s' -> Q r s') ->
  wp ext2_alloc_block Q s.
Proof.
  intros Hm H2k Hn HQ. set (n := blocks_per_group s) in *. unfold ext2_alloc_block.
  wp_step. wp_step. wp_step. wp_step. rewrite (mo_loaded _ Hm). apply wp_bind.
  apply (wp_for (groups_done s 0 12 n)).
  - split; [apply same_fs_refl|]. split; [by apply lenZ_local|]. split; [by apply bytes_local | lia].
  - intros g bm s1 Hg Hd. pose proof Hd as (Hs & Hl & Hb & Hdone). unfold span in Hg.
    destruct (same_fs_config _ _ Hs) as (Hbs1 & Hsb1 & Hgd1 & Hgc1 & Hbpg1 & _).
    pose proof (metadata_same _ _ Hs Hm) as Hm1. pose proof (mo_bs _ Hm).
    wp_step. wp_step. wp_step. unfold gd_free_blocks. apply wp_ld16; [apply has_gd; unfold GD_SIZE; [done | lia..]|].
    rewrite Hgd1. wp_step; bprop; [apply wp_ret, groups_done_next; [done | by left]|].
    wp_step. assert (Heq : ext2_read_bbitmap g bm = read_bitmap 0 g bm)
      by (unfold ext2_read_bbitmap, gd_block_bitmap, read_bitmap; by rewrite Z.add_0_r).
    rewrite Heq. apply wp_read_bitmap; [done | by left | lia | lia |]. intros r s2 Hs2 Hf.
    destruct (bitmap_buffer s s1 0 g bm Hm Hs Hl Hb r s2 Hs2 Hf) as (Hrl & Hrb & Hs02 & Hr).
    pose proof (metadata_same _ _ Hs02 Hm) as Hm2.
    destruct (same_fs_config _ _ Hs02) as (Hbs2 & Hsb2 & Hgd2 & Hgc2 & Hbpg2 & _).
    wp_step. wp_step. rewrite Hbpg2. fold n. apply wp_bind.
    apply (wp_bitmap_loop s2 0 12 SB_FREE_BLOCKS g n r (ext2_write_bbitmap g)
      (fun b => sb ← gets sb_bytes; mret (Ret (u32 (g * n + b + sb_first_data_block sb))))); try done; try lia.
    + by left.
    + intros bm'. unfold ext2_write_bbitmap, gd_block_bitmap, write_bitmap. by rewrite Z.add_0_r.
    + intros Hall. apply wp_ret. apply groups_done_next; [done|]. right. intros b Hbb.
      rewrite <- (taken_same _ _ _ _ _ Hs02). by apply Hall.
    + intros b s3 Hbb Ht Hlow Htook. wp_step. wp_step. apply wp_ret. eexists. split; [done|].
      apply wp_ret. cbn. apply wp_ret. apply HQ. left. exists g, b. split.
      * f_equal. f_equal. f_equal. destruct Htook as (d & -> & _). simpl.
        unfold sb_first_data_block, sb_less. destruct (mo_sb _ Hm2) as [Hsl _].
        rewrite le32_put32_ne; [by rewrite Hsb2 | split; unfold SB_FREE_BLOCKS, SB_SIZE in *; lia | lia |].
        unfold SB_FREE_BLOCKS. lia.
      * split; [|by eapply took_same]. repeat split; try lia; try done.
        -- by rewrite <- (taken_same _ _ _ _ _ Hs02).
        -- intros c Hc. rewrite <- (taken_same _ _ _ _ _ Hs02). by apply Hlow.
  - intros bm s1 (Hs & _ & _ & Hd). apply wp_ret. apply HQ. right. split; [done|]. split; [done|].
    intros g Hg. apply Hd. unfold span. lia.
Qed.
End AllocWp.

Section AllocInode.
Context {D : Type} `{BlockDevice D} `{!DiskLaws D EXT2_DRIVE} `{Locals}.
Implicit Types s : ext2 D.

Lemma wp_alloc_inode s (Q : option Z -> ext2 D -> Prop) :
  metadata_ok s -> block_size s <= 2048 ->
  0 <= sb_inodes_per_group (sb_bytes s) <= 8 * block_size s ->
  (forall r s', alloc_outcome s 4 14 SB_FREE_INODES (sb_inodes_per_group (sb_bytes s))
     (fun g b => u32 (g * sb_inodes_per_group (sb_bytes s) + b + 1)) r s' -> Q r s') ->
  wp ext2_alloc_inode Q s.
Proof.
  intros Hm H2k Hn HQ. set (n := sb_inodes_per_group (sb_bytes s)) in *. unfold ext2_alloc_inode.
  wp_step. wp_step. wp_step. wp_step. rewrite (mo_loaded _ Hm). apply wp_bind.
  apply (wp_for (groups_done s 4 14 n)).
  - split; [apply same_fs_refl|]. split; [by apply lenZ_local|]. split; [by apply bytes_local | lia].
  - intros g bm s1 Hg Hd. pose proof Hd as (Hs & Hl & Hb & Hdone). unfold span in Hg.
    destruct (same_fs_config _ _ Hs) as (Hbs1 & Hsb1 & Hgd1 & Hgc1 & _).
    pose proof (metadata_same _ _ Hs Hm) as Hm1. pose proof (mo_bs _ Hm).
    wp_step. wp_step. wp_step. unfold gd_free_inodes. apply wp_ld16; [apply has_gd; unfold GD_SIZE; [done | lia..]|].
    rewrite Hgd1. wp_step; bprop; [apply wp_ret, groups_done_next; [done | by left]|].
    wp_step. change (ext2_read_ibitmap g bm) with (read_bitmap 4 g bm).
    apply wp_read_bitmap; [done | by right | lia | lia |]. intros r s2 Hs2 Hf.
    destruct (bitmap_buffer s s1 4 g bm Hm Hs Hl Hb r s2 Hs2 Hf) as (Hrl & Hrb & Hs02 & Hr).
    pose proof (metadata_same _ _ Hs02 Hm) as Hm2.
    destruct (same_fs_config _ _ Hs02) as (Hbs2 & Hsb2 & Hgd2 & Hgc2 & _).
    wp_step. wp_step. rewrite Hsb2. fold n. apply wp_bind.
    apply (wp_bitmap_loop s2 4 14 SB_FREE_INODES g n r (ext2_write_ibitmap g)
      (fun b => mret (Ret (u32 (g * n + b + 1))))); try done; try lia.
    + by right.
    + intros Hall. apply wp_ret. apply groups_done_next; [done|]. right. intros b Hbb.
      rewrite <- (taken_same _ _ _ _ _ Hs02). by apply Hall.
    + intros b s3 Hbb Ht Hlow Htook. apply wp_ret. eexists. split; [done|].
      apply wp_ret. cbn. apply wp_ret. apply HQ. left. exists g, b. split; [done|].
      split; [|by eapply took_same]. repeat split; try lia; try done.
      * by rewrite <- (taken_same _ _ _ _ _ Hs02).
      * intros c Hc. rewrite <- (taken_same _ _ _ _ _ Hs02). by apply Hlow.
  - intros bm s1 (Hs & _ & _ & Hd). apply wp_ret. apply HQ. right. split; [done|]. split; [done|].
    intros g Hg. apply Hd. unfold span. lia.
Qed.

Lemma outcome_taken s o co so n num r s' : metadata_ok s -> kind o co so -> 0 <= n <= 8 * block_size s ->
  alloc_outcome s o co so n num r s' ->
  (exists g b, r = Some (num g b) /\ first_clear s o co n g b /\ took s o co so g b s' /\
     forall c, 0 <= c < 8 * block_size s -> taken s' o g c = (c =? b) || taken s o g c) \/
  (r = None /\ same_fs s s' /\ forall g, 0 <= g < group_count s -> group_full s o co n g).
Proof.
  intros Hm Hk Hn [(g & b & Hr & Hc & Ht)|?]; [left | by right].
  exists g, b. split; [done|]. split; [done|]. split; [done|]. intros c Hcc.
  destruct Hc as (? & ? & _). eapply took_taken; try done; lia.
Qed.
End AllocInode.

(** C27: Block allocation.  On a mounted file system with blocks of 1 or 2 KiB,
    [ext2_alloc_block] returns the first clear block of the first group that
    offers one; that bit, and no other bit of the bitmap, is then set on the
    disk, both free counters are decremented in memory and on the disk, and
    nothing else on the disk changes.  It returns -1 exactly when no group
    offers a block, and then changes nothing. *)
Theorem ext2_alloc_block_spec {D} `{BlockDevice D} `{!DiskLaws D EXT2_DRIVE} `{Locals} (s : ext2 D) :
  metadata_ok s -> block_size s <= 2048 -> 0 <= blocks_per_group s <= 8 * block_size s ->
  exists r s', ext2_alloc_block s = Ok r s' /\
    ((exists g b, r = Some (u32 (g * blocks_per_group s + b + sb_first_data_block (sb_bytes s))) /\
        first_clear s 0 12 (blocks_per_group s) g b /\ took s 0 12 SB_FREE_BLOCKS g b s' /\
        forall c, 0 <= c < 8 * block_size s -> taken s' 0 g c = (c =? b) || taken s 0 g c) \/
     (r = None /\ same_fs s s' /\
        forall g, 0 <= g < group_count s -> group_full s 0 12 (blocks_per_group s) g)).
Proof.
  intros Hm H2k Hn.
  assert (Hw : wp ext2_alloc_block (alloc_outcome s 0 12 SB_FREE_BLOCKS (blocks_per_group s)
    (fun g b => u32 (g * blocks_per_group s + b + sb_first_data_block (sb_bytes s)))) s)
    by (by apply wp_alloc_block).
  apply wp_ok in Hw as (r & s' & He & Ho). exists r, s'. split; [done|].
  apply (outcome_taken _ _ _ _ _ _ _ _ Hm) in Ho; [exact Ho | by left | done].
Qed.

(** Inode allocation follows the same contract on the inode bitmaps: the
    first clear inode of the first group that offers one, numbered from 1. *)
Theorem ext2_alloc_inode_spec {D} `{BlockDevice D} `{!DiskLaws D EXT2_DRIVE} `{Locals} (s : ext2 D) :
  metadata_ok s -> block_size s <= 2048 ->
  0 <= sb_inodes_per_group (sb_bytes s) <= 8 * block_size s ->
  exists r s', ext2_alloc_inode s = Ok r s' /\
    ((exists g b, r = Some (u32 (g * sb_inodes_per_group (sb_bytes s) + b + 1)) /\
        first_clear s 4 14 (sb_inodes_per_group (sb_bytes s)) g b /\ took s 4 14 SB_FREE_INODES g b s' /\
        forall c, 0 <= c < 8 * block_size s -> taken s' 4 g c = (c =? b) || taken s 4 g c) \/
     (r = None /\ same_fs s s' /\
        forall g, 0 <= g < group_count s -> group_full s 4 14 (sb_inodes_per_group (sb_bytes s)) g)).
Proof.
  intros Hm H2k Hn.
  assert (Hw : wp ext2_alloc_inode (alloc_outcome s 4 14 SB_FREE_INODES (sb_inodes_per_group (sb_bytes s))
    (fun g b => u32 (g * sb_inodes_per_group (sb_bytes s) + b + 1))) s) by (by apply wp_alloc_inode).
  apply wp_ok in Hw as (r & s' & He & Ho). exists r, s'. split; [done|].
  apply (outcome_taken _ _ _ _ _ _ _ _ Hm) in Ho; [exact Ho | by right | done].
Qed.

(** * Blocks of 4 KiB *)

Section Blocks4k.
Context {D : Type} `{BlockDevice D} `{!DiskLaws D EXT2_DRIVE} `{Locals}.
Implicit Types s : ext2 D.

(** The descriptor buffer of [ext2_alloc_block] has 2048 bytes, and a block of
    descriptors is read into it. *)
Lemma persist_4k_overflow s : metadata_ok s -> block_size s = 4096 ->
  exists s', persist_group_desc s = Stuck OutOfBounds s'.
Proof.
  intros Hm Hbs. pose proof (mo_disk _ Hm) as Hd. unfold gd_addr in Hd. rewrite Hbs in Hd.
  change ((1024 / 4096 + 1) * 4096 + 4096) with 8192 in Hd.
  unfold persist_group_desc, ext2_gd_sector, mbind, M_bind, gets. rewrite Hbs.
  change (udiv EXT2_SUPERBLOCK_OFFSET 4096 s) with (Ok (S := ext2 D) 0 s). cbn [mret M_ret].
  change (u32 ((0 + 1) * (4096 / EXT2_SECTOR_SIZE))) with 8. change (4096 / EXT2_SECTOR_SIZE) with 8.
  change (EXT2_SECTOR_SIZE * 4) with 2048. unfold disk_size in Hd.
  destruct (dk_read_overflow (disk s) 8 8 (local_array 2048) 0) as [d' He]; [lia.. | rewrite lenZ_local; lia |].
  rewrite Hbs. change (4096 / EXT2_SECTOR_SIZE) with 8. unfold dev, zoom. rewrite He. eauto.
Qed.

Lemma wpe_bitmap_loop_4k {R} s o co so g n bitmap (w : list Z -> M (ext2 D) unit)
    (k : Z -> M (ext2 D) (ctl (list Z) R)) :
  metadata_ok s -> block_size s = 4096 -> kind o co so -> 0 <= g < group_count s ->
  0 <= n <= 8 * block_size s -> lenZ bitmap = 4096 -> bytes bitmap ->
  (forall j, 0 <= j < block_size s -> rd bitmap j = disk_byte s (bitmap_addr s o g + j)) ->
  (forall bm, w bm = write_bitmap o g bm) ->
  wpe OutOfBounds (for_ (span 0 n) 0 bitmap (fun b bitmap =>
    v ← aget bitmap (bit_byte b);
    if Z.land v (bit_mask b) =? 0 then
      bitmap ← aset bitmap (bit_byte b) (Z.lor v (bit_mask b));
      w bitmap;;
      gd_add (GD_SIZE * g + co) (-1);;
      sb_add so (-1);;
      persist_superblock;;
      persist_group_desc;;
      k b
    else mret (Cont bitmap)))
  (fun r s' => r = inl bitmap /\ s' = s /\ forall b, 0 <= b < n -> taken s o g b = true) s.
Proof.
  intros Hm Hbs Hk Hg Hn Hl Hby Hbm Hw. assert (Ho : o = 0 \/ o = 4) by (destruct Hk as [(-> & _)|(-> & _)]; auto).
  destruct (mo_sb _ Hm) as [Hsl Hsb].
  apply (wpe_for _ (fun b bm s' => bm = bitmap /\ s' = s /\ forall c, 0 <= c < b -> taken s o g c = true)).
  - split; [done|]. split; [done|]. lia.
  - intros b bm s' Hb (-> & -> & Hlow). unfold span in Hb. rewrite bit_byte_div, bit_mask_pow.
    assert (Hb8 : 0 <= b / 8 < block_size s) by (Z.div_mod_to_equations; lia).
    pose proof (Z.mod_pos_bound b 8 ltac:(lia)).
    apply wpe_wp_bind, wp_aget; [lia|]. rewrite land_pow2 by lia. rewrite Hbm by lia.
    fold (taken s o g b). destruct (taken s o g b) eqn:Ht; cbn [negb].
    + apply wpe_of_wp, wp_ret. split; [done|]. split; [done|]. intros c Hc.
      destruct (decide (c = b)) as [->|]; [done | apply Hlow; lia].
    + apply wpe_wp_bind, wp_aset; [lia|]. rewrite Hw. apply wpe_wp_bind.
      apply wp_write_bitmap; [done | done | done | rewrite lenZ_wr; lia | |].
      { apply bytes_wr; [done|]. apply lor_byte; [apply disk_byte_range | lia]. }
      intros s1 Hu. destruct (disk_updated_config _ _ _ _ _ Hu) as (Hbs1 & _ & Hsb1 & _ & Hgc1 & _).
      pose proof (metadata_updated _ _ _ _ _ Hu Hm) as Hm1.
      apply wpe_wp_bind, wp_gd_add.
      { apply has_gd; [done | by rewrite Hgc1 | |]; destruct Hk as [(_ & -> & _)|(_ & -> & _)]; unfold GD_SIZE; lia. }
      apply wpe_wp_bind, wp_sb_add.
      { cbn. rewrite Hsb1. split; destruct Hk as [(_ & _ & ->)|(_ & _ & ->)];
          unfold SB_SIZE, SB_FREE_BLOCKS, SB_FREE_INODES in *; lia. }
      cbn [sb_bytes set_gd_bytes]. fold (gd_less s1 co g). fold (sb_less s1 so).
      assert (Hm2 : metadata_ok (set_sb_bytes (sb_less s1 so) (set_gd_bytes (gd_less s1 co g) s1)))
        by (eapply metadata_counted; [exact Hk | by rewrite Hgc1 | done]).
      apply wpe_wp_bind, wp_persist_superblock; [done|]. intros s3 Hu3.
      pose proof (metadata_updated _ _ _ _ _ Hu3 Hm2) as Hm3.
      destruct (persist_4k_overflow s3 Hm3) as [s4 He].
      { destruct Hu3 as (d & -> & _). cbn. congruence. }
      apply wpe_bind. by apply (wpe_stuck _ _ _ _ s4).
  - intros bm s' (-> & -> & Hlow). split; [done|]. split; [done|]. intros b Hb. apply Hlow. unfold span. lia.
Qed.

Lemma wpe_alloc_block_4k s :
  metadata_ok s -> block_size s = 4096 -> 0 <= blocks_per_group s <= 8 * block_size s ->
  wpe OutOfBounds ext2_alloc_block (fun _ _ =>
    forall g, 0 <= g < group_count s -> group_full s 0 12 (blocks_per_group s) g) s.
Proof.
  intros Hm Hbs Hn. set (n := blocks_per_group s) in *. unfold ext2_alloc_block.
  apply wpe_wp_bind, wp_gets. apply wpe_wp_bind, wp_gets. rewrite (mo_loaded _ Hm). apply wpe_bind.
  apply (wpe_for _ (groups_done s 0 12 n)).
  - split; [apply same_fs_refl|]. split; [by apply lenZ_local|]. split; [by apply bytes_local | lia].
  - intros g bm s1 Hg Hd. pose proof Hd as (Hs & Hl & Hb & Hdone). unfold span in Hg.
    destruct (same_fs_config _ _ Hs) as (Hbs1 & Hsb1 & Hgd1 & Hgc1 & Hbpg1 & _).
    pose proof (metadata_same _ _ Hs Hm) as Hm1.
    apply wpe_wp_bind, wp_gets. unfold gd_free_blocks.
    apply wpe_wp_bind, wp_ld16; [apply has_gd; unfold GD_SIZE; [done | lia..]|].
    rewrite Hgd1. destruct (_ =? 0) eqn:Hz; bprop; [apply wpe_of_wp, wp_ret, groups_done_next; [done | by left]|].
    assert (Heq : ext2_read_bbitmap g bm = read_bitmap 0 g bm)
      by (unfold ext2_read_bbitmap, gd_block_bitmap, read_bitmap; by rewrite Z.add_0_r).
    rewrite Heq. apply wpe_wp_bind, wp_read_bitmap; [done | by left | lia | lia |]. intros r s2 Hs2 Hf.
    destruct (bitmap_buffer s s1 0 g bm Hm Hs Hl Hb r s2 Hs2 Hf) as (Hrl & Hrb & Hs02 & Hr).
    pose proof (metadata_same _ _ Hs02 Hm) as Hm2.
    destruct (same_fs_config _ _ Hs02) as (Hbs2 & Hsb2 & Hgd2 & Hgc2 & Hbpg2 & _).
    apply wpe_wp_bind, wp_gets. rewrite Hbpg2. fold n. apply wpe_bind. eapply wpe_mono.
    2:{ apply (wpe_bitmap_loop_4k s2 0 12 SB_FREE_BLOCKS g n r (ext2_write_bbitmap g)
          (fun b => sb ← gets sb_bytes; mret (Ret (u32 (g * n + b + sb_first_data_block sb))))); try done; try lia.
        - by left.
        - intros bm'. unfold ext2_write_bbitmap, gd_block_bitmap, write_bitmap. by rewrite Z.add_0_r. }
    intros ? s3 (-> & -> & Hall). apply wpe_of_wp, wp_ret. apply groups_done_next; [done|]. right.
    intros b Hbb. rewrite <- (taken_same _ _ _ _ _ Hs02). by apply Hall.
  - intros bm s1 (Hs & _ & _ & Hd). apply wpe_of_wp, wp_ret. intros g Hg. apply Hd. unfold span. lia.
Qed.
End Blocks4k.

(** On a file system with blocks of 4 KiB, where the driver accepts the
    mount, no block can be allocated: as soon as a group offers one,
    [ext2_alloc_block] reads a 4096-byte block of descriptors into its
    2048-byte array [gd_buf] and runs over the end of it on the stack. *)
Theorem ext2_alloc_block_4k_overflow {D} `{BlockDevice D} `{!DiskLaws D EXT2_DRIVE} `{Locals}
    (s : ext2 D) g :
  metadata_ok s -> block_size s = 4096 -> 0 <= blocks_per_group s <= 8 * block_size s ->
  0 <= g < group_count s -> ~ group_full s 0 12 (blocks_per_group s) g ->
  exists s', ext2_alloc_block s = Stuck OutOfBounds s'.
Proof.
  intros Hm Hbs Hn Hg Hfree. eapply wpe_elim; [by apply wpe_alloc_block_4k|].
  intros a s' Hfull. by apply Hfree, Hfull.
Qed.

(** * Examples *)

Section Examples.

Lemma single_group g n : 0 <= g < n -> n = 1 -> g = 0.
Proof. lia. Qed.

Lemma demo_metadata : metadata_ok demo_fs.
Proof.
  constructor; try (by vm_compute); try (vm_compute; split; congruence).
  - by left.
  - split; [by vm_compute | by apply bytes_by_compute; vm_compute].
  - split; [by vm_compute | by apply bytes_by_compute; vm_compute].
  - intros o g [-> | ->] Hg; assert (g = 0) as -> by (by apply (single_group g 1)); vm_compute; split; congruence.
Qed.

Lemma demo_metadata_4k : metadata_ok demo_fs_4k.
Proof.
  constructor; try (by vm_compute); try (vm_compute; split; congruence).
  - by right; right.
  - split; [by vm_compute | by apply bytes_by_compute; vm_compute].
  - split; [by vm_compute | by apply bytes_by_compute; vm_compute].
  - intros o g [-> | ->] Hg; assert (g = 0) as -> by (by apply (single_group g 1)); vm_compute; split; congruence.
Qed.
End Examples.

Lemma ext2_alloc_block_spec_witness :
  exists r s', ext2_alloc_block demo_fs = Ok r s' /\
    ((exists g b, r = Some (u32 (g * 64 + b + 1)) /\
        first_clear demo_fs 0 12 64 g b /\ took demo_fs 0 12 SB_FREE_BLOCKS g b s' /\
        forall c, 0 <= c < 8 * 1024 -> taken s' 0 g c = (c =? b) || taken demo_fs 0 g c) \/
     (r = None /\ same_fs demo_fs s' /\
        forall g, 0 <= g < 1 -> group_full demo_fs 0 12 64 g)).
Proof. apply (ext2_alloc_block_spec demo_fs demo_metadata); vm_compute; [|split]; congruence. Defined.

Lemma ext2_alloc_inode_spec_witness :
  exists r s', ext2_alloc_inode demo_fs = Ok r s' /\
    ((exists g b, r = Some (u32 (g * 16 + b + 1)) /\
        first_clear demo_fs 4 14 16 g b /\ took demo_fs 4 14 SB_FREE_INODES g b s' /\
        forall c, 0 <= c < 8 * 1024 -> taken s' 4 g c = (c =? b) || taken demo_fs 4 g c) \/
     (r = None /\ same_fs demo_fs s' /\
        forall g, 0 <= g < 1 -> group_full demo_fs 4 14 16 g)).
Proof. apply (ext2_alloc_inode_spec demo_fs demo_metadata); vm_compute; [|split]; congruence. Defined.

Lemma ext2_alloc_block_4k_overflow_witness :
  exists s', ext2_alloc_block demo_fs_4k = Stuck OutOfBounds s'.
Proof.
  apply (ext2_alloc_block_4k_overflow demo_fs_4k 0 demo_metadata_4k); try (by vm_compute).
  intros [Hz|Hall]; [by vm_compute in Hz|]. specialize (Hall 0 ltac:(vm_compute; split; congruence)).
  by vm_compute in Hall.
Defined.
