(* ===== verification/Ext2Dir.v ===== *)
(** The ext2 file system: directories.

    The data of a directory is a chain of entries; the theorems relate the
    operations to the list of entries the chain holds. *)
From Stdlib Require Import ZArith Lia List.
From stdpp Require Import base tactics numbers list gmap strings option.
From S2P Require Import Prelude CString Bytes Ata Disk Ext2 Ext2Demo Ext2Facts.
Open Scope Z_scope.

(** * Directory data as a list of entries *)

Record dirent : Type := mkDirent { d_pos : Z; d_ino : Z; d_rec : Z; d_name : list Z; d_type : Z }.

(** The entry at [pos] of [buf]. *)
Definition entry_at (buf : list Z) (pos : Z) : dirent :=
  mkDirent pos (le32 buf pos) (le16 buf (pos + 4))
    (take (Z.to_nat (rd buf (pos + 6))) (drop (Z.to_nat (pos + 8)) buf)) (rd buf (pos + 7)).

(** From [pos] to [n] the buffer holds the chain of entries [es]: every entry
    has a non-zero record length and its name inside the buffer, and the chain
    ends where fewer than eight bytes are left. *)
Inductive chain (buf : list Z) (n : Z) : Z -> list dirent -> Prop :=
  | chain_end pos : n < pos + 8 -> chain buf n pos []
  | chain_entry pos es :
      0 <= pos -> pos + 8 <= n -> le16 buf (pos + 4) <> 0 ->
      pos + 8 + rd buf (pos + 6) <= lenZ buf ->
      chain buf n (pos + le16 buf (pos + 4)) es ->
      chain buf n pos (entry_at buf pos :: es).

(** The live entry of a name: the first one that is not deleted. *)
Definition live (name : list Z) (e : dirent) : bool :=
  negb (d_ino e =? 0) && bool_decide (d_name e = name).
Definition find_live (name : list Z) (es : list dirent) : option (Z * Z) :=
  match find (live name) es with Some e => Some (d_ino e, d_type e) | None => None end.

Section Names.
Context {S : Type}.

(** Comparing the name of an entry with a C string of the same length. *)
Lemma wp_name_cmp buf pos name (Q : Z -> S -> Prop) s :
  0 <= pos -> bytes buf -> pos + 8 + rd buf (pos + 6) <= lenZ buf -> terminated name ->
  lenZ (cstr name) = rd buf (pos + 6) ->
  (forall v, (v = 0 <-> d_name (entry_at buf pos) = cstr name) -> Q v s) ->
  wp (name_cmp buf pos name (lenZ (cstr name))) Q s.
Proof.
  intros Hp Hb Hl Ht Hn HQ. pose proof (Hb (pos + 6)). unfold terminated in Ht. unfold name_cmp.
  apply wp_memcmp; [rewrite lenZ_drop by lia; lia | lia |]. intros v Hv. apply HQ. rewrite Hv.
  rewrite <- cstr_take. cbn [d_name entry_at]. by rewrite Hn.
Qed.
End Names.

Section Lookup.
Context {D : Type} `{BlockDevice D} `{!DiskLaws D EXT2_DRIVE} `{Locals}.
Implicit Types s : ext2 D.

(** The loop over the entries of one buffer. *)
Lemma wp_lookup_chain s buf n name (Q : Z + option (Z * Z) -> ext2 D -> Prop) es :
  bytes buf -> 0 <= n <= lenZ buf -> lenZ buf <= 65536 -> terminated name -> chain buf n 0 es ->
  (match find_live (cstr name) es with
   | Some r => Q (inr (Some r)) s
   | None => forall pos, Q (inl pos) s
   end) ->
  wp (while_ (Z.to_nat n + 1) 0 (fun pos =>
    if u32 (pos + 8) <=? n then
      rl ← e_rec_len buf pos;
      if rl =? 0 then mret (Ret None)
      else
        ino ← e_inode buf pos;
        nl ← e_name_len buf pos;
        m ← (if negb (ino =? 0) && (lenZ (cstr name) =? nl) then name_cmp buf pos name (lenZ (cstr name))
             else mret 1);
        if m =? 0 then
          ty ← e_file_type buf pos;
          mret (Ret (Some (ino, ty)))
        else mret (Cont (u32 (pos + rl)))
    else mret (Brk pos))) Q s.
Proof.
  intros Hb Hn Hl Ht Hc HQ.
  apply (wp_while (fun pos s' => s' = s /\ 0 <= pos <= n + 65536 /\ exists es', chain buf n pos es' /\
      find_live (cstr name) es' = find_live (cstr name) es) (fun pos _ => Z.to_nat (n - pos))).
  - split; [done|]. split; [|by exists es]. inversion Hc; lia.
  - lia.
  - intros pos s' (-> & Hpos & es' & Hc' & Hfind). rewrite u32_small by lia.
    destruct (Z.leb_spec (pos + 8) n) as [Hle|Hgt].
    2:{ inversion Hc'; subst; [|lia]. apply wp_ret. rewrite <- Hfind in HQ. apply HQ. }
    inversion Hc' as [|? es2 Hp0 Hp8 Hrec Hname Hc2]; subst; [lia|].
    pose proof (le16_range buf (pos + 4) Hb) as Hrr.
    wp_step. apply wp_ld16; [split; lia|]. destruct (Z.eqb_spec (le16 buf (pos + 4)) 0); [done|].
    wp_step. apply wp_ld32; [split; lia|]. wp_step. apply wp_aget; [lia|].
    wp_step. set (e := entry_at buf pos) in *.
    assert (Hstep : live (cstr name) e = false -> find_live (cstr name) (e :: es2) = find_live (cstr name) es2)
      by (intros Hf; unfold find_live; cbn [find]; by rewrite Hf).
    assert (Hcont : live (cstr name) e = false ->
      wp (mret (Cont (u32 (pos + le16 buf (pos + 4))))) (fun (c : ctl Z (option (Z * Z))) s' =>
        match c with
        | Cont p => (s' = s /\ 0 <= p <= n + 65536 /\ exists es', chain buf n p es' /\
            find_live (cstr name) es' = find_live (cstr name) es) /\ (Z.to_nat (n - p) < Z.to_nat (n - pos))%nat
        | Brk p => Q (inl p) s'
        | Ret r => Q (inr r) s'
        end) s).
    { intros Hf. apply wp_ret. rewrite u32_small by lia. split; [|lia]. split; [done|]. split; [lia|].
      exists es2. split; [done|]. by rewrite <- Hstep. }
    destruct (Z.eqb_spec (le32 buf pos) 0) as [Hi|Hi]; cbn [negb andb].
    { apply wp_ret, Hcont. unfold live, e. cbn [d_ino entry_at]. by rewrite Hi. }
    destruct (Z.eqb_spec (lenZ (cstr name)) (rd buf (pos + 6))) as [Hnl|Hnl].
    2:{ apply wp_ret, Hcont. unfold live. rewrite bool_decide_false; [apply andb_false_r|].
        intros He. apply Hnl. rewrite <- He. cbn [d_name e entry_at]. pose proof (Hb (pos + 6)).
        rewrite lenZ_take; [done|]. rewrite lenZ_drop by lia. lia. }
    apply wp_name_cmp; [lia | done | done | done | done |]. intros v Hv.
    destruct (Z.eqb_spec v 0) as [Hz|Hz].
    + wp_step. apply wp_aget; [lia|]. apply wp_ret.
      assert (Hlive : live (cstr name) e = true).
      { unfold live. rewrite bool_decide_true by (by apply Hv). unfold e. cbn [d_ino entry_at].
        by rewrite (proj2 (Z.eqb_neq _ _) Hi). }
      rewrite <- Hfind in HQ. unfold find_live in HQ. cbn [find] in HQ. rewrite Hlive in HQ. exact HQ.
    + apply Hcont. unfold live. rewrite bool_decide_false; [apply andb_false_r | by intros He; apply Hz, Hv].
Qed.

(** The 128 bytes of an inode, and the bytes of a file, on the disk. *)
Definition inode_bytes s (ino : Z) : list Z :=
  map (fun k => disk_byte s (inode_addr s ino + k)) (seqZ 0 128).
Definition file_bytes s (i : list Z) : list Z := map (file_byte s i) (seqZ 0 (i_size i)).

Lemma inode_bytes_eq s ino i : inode_on_disk s ino i -> i = inode_bytes s ino.
Proof.
  intros [Hl Hi]. unfold inode_bytes. apply rd_ext; [by rewrite lenZ_map_seqZ|].
  intros k Hk. rewrite rd_map_seqZ by lia. apply Hi. lia.
Qed.

Lemma bytes_inode s ino : bytes (inode_bytes s ino).
Proof.
  apply bytes_of. unfold inode_bytes. rewrite lenZ_map_seqZ by done. intros j Hj.
  rewrite rd_map_seqZ by done. apply disk_byte_range.
Qed.

Lemma lenZ_file_bytes s i : bytes i -> lenZ (file_bytes s i) = i_size i.
Proof. intros Hb. apply lenZ_map_seqZ. by apply le32_range. Qed.

(** The chain of a buffer depends on its first [n] bytes only, when the names
    are within them. *)
Lemma chain_ext a b n pos es : lenZ a = n -> n <= lenZ b -> (forall j, 0 <= j < n -> rd b j = rd a j) ->
  bytes a -> chain a n pos es -> chain b n pos es.
Proof.
  intros Ha Hb Heq Hby. induction 1 as [pos Hp|pos es Hp Hp8 Hrec Hname Hc IH]; [by constructor|].
  pose proof (Hby (pos + 6)) as Hnl.
  assert (H16 : le16 b (pos + 4) = le16 a (pos + 4)) by (apply le16_ext; intros k Hk; apply Heq; lia).
  assert (Hent : entry_at a pos = entry_at b pos).
  { unfold entry_at. rewrite H16, !Heq by lia. f_equal.
    - apply le32_ext. intros k Hk. symmetry. apply Heq. lia.
    - apply rd_ext; [rewrite !lenZ_take; rewrite ?lenZ_drop; lia|].
      intros j Hj. rewrite lenZ_take in Hj by (rewrite lenZ_drop; lia).
      rewrite !rd_take, !rd_drop by lia. symmetry. apply Heq. lia. }
  rewrite Hent. apply chain_entry; [done | done | by rewrite H16 | rewrite Heq by lia; lia | by rewrite H16].
Qed.

(** A directory whose data fits the buffer of the lookup and holds [es]. *)
Record dir_holds s (ino : Z) (es : list dirent) : Prop := {
  dh_inode : inode_ok s ino;
  dh_isdir : EXT2_S_ISDIR (i_mode (inode_bytes s ino)) = true;
  dh_size : i_size (inode_bytes s ino) <= 4096;
  dh_mapped : forall a, 0 <= a < i_size (inode_bytes s ino) -> mapped s (inode_bytes s ino) (a / block_size s);
  dh_chain : chain (file_bytes s (inode_bytes s ino)) (i_size (inode_bytes s ino)) 0 es
}.

Lemma wp_read_dir s ino es off buf (Q : Z * list Z -> ext2 D -> Prop) s1 :
  blocks_ok s -> dir_holds s ino es -> same_fs s s1 -> off = 0 -> lenZ buf = 4096 -> bytes buf ->
  (forall r s', same_fs s s' -> lenZ r = 4096 -> bytes r -> chain r (i_size (inode_bytes s ino)) 0 es ->
     Q (i_size (inode_bytes s ino), r) s') ->
  wp (ext2_read_data (inode_bytes s ino) off (i_size (inode_bytes s ino)) buf) Q s1.
Proof.
  intros Hb Hd Hs -> Hl Hby HQ. set (i := inode_bytes s ino) in *.
  pose proof (bytes_inode s ino) as Hib. fold i in Hib. pose proof (le32_range i 4 Hib) as Hir. fold (i_size i) in Hir.
  pose proof (dh_size _ _ _ Hd) as Hsz. fold i in Hsz.
  apply wp_read_data with (m := i_size i).
  - by eapply blocks_ok_same.
  - done.
  - done.
  - lia.
  - lia.
  - lia.
  - split; [lia|]. split; [|left; lia]. intros a Ha.
    assert (block_size s1 = block_size s) as -> by (by destruct Hs as (d & -> & _)).
    eapply mapped_same; [exact Hs|]. apply (dh_mapped _ _ _ Hd). fold i. lia.
  - intros [v r] s' (Hv & Hs' & Hf). cbn in Hv. subst v. cbn in Hf. pose proof Hf as [Hrl Hr]. apply HQ.
    + by eapply same_fs_trans.
    + congruence.
    + apply (bytes_filled _ _ _ _ _ Hf); [done | intros; apply disk_byte_range].
    + assert (Hfb : bytes (file_bytes s i)).
      { apply bytes_of. unfold file_bytes. rewrite lenZ_map_seqZ by lia. intros j Hj.
        rewrite rd_map_seqZ by done. apply disk_byte_range. }
      apply (chain_ext (file_bytes s i)); [by apply lenZ_file_bytes | lia | | done | apply Hd].
      intros j Hj. unfold file_bytes. rewrite rd_map_seqZ by done. rewrite Hr by lia. case_range; try lia.
      unfold file_byte. rewrite (file_block_same _ _ _ _ Hs), (same_fs_byte _ _ _ Hs).
      destruct Hs as (d & -> & _). cbn. repeat f_equal; lia.
Qed.
End Lookup.

(** C35: Looking a name up in a directory whose data (at most 4 KiB) is a chain
    of entries returns the inode and the type of the first live entry with
    exactly that name, or -1 when there is none; deleted entries (inode 0) are
    skipped, and nothing changes. *)
Theorem ext2_dir_lookup_spec {D} `{BlockDevice D} `{!DiskLaws D EXT2_DRIVE} `{Locals}
    (s : ext2 D) ino name es :
  blocks_ok s -> dir_holds s ino es -> terminated name ->
  exists s', ext2_dir_lookup ino name s = Ok (find_live (cstr name) es) s' /\ same_fs s s'.
Proof.
  intros Hb Hd Ht.
  assert (Hw : wp (ext2_dir_lookup ino name) (fun r s' => r = find_live (cstr name) es /\ same_fs s s') s).
  2:{ apply wp_ok in Hw as (r & s' & He & -> & Hs). eauto. }
  unfold ext2_dir_lookup. wp_step. apply wp_read_inode; [apply Hd|]. intros i s1 Hs Hi.
  rewrite (inode_bytes_eq _ _ _ Hi). rewrite (dh_isdir _ _ _ Hd). cbn [negb]. wp_step.
  apply wp_strlen; [done|]. pose proof (le32_range _ 4 (bytes_inode s ino)) as Hir.
  fold (i_size (inode_bytes s ino)) in Hir. pose proof (dh_size _ _ _ Hd) as Hsz.
  set (n := i_size (inode_bytes s ino)) in *. apply wp_bind.
  apply (wp_while (fun '(rc, buf) s' => same_fs s s' /\ lenZ buf = 4096 /\ bytes buf /\
      (rc = 0 \/ rc = n /\ find_live (cstr name) es = None)) (fun '(rc, _) _ => Z.to_nat (n - rc))).
  - split; [done|]. split; [by apply lenZ_local|]. split; [by apply bytes_local | by left].
  - lia.
  - intros [rc buf] s2 (Hs2 & Hl & Hby & Hrc). destruct (Z.ltb_spec rc n) as [Hlt|Hge].
    + destruct Hrc as [->|[-> _]]; [|lia]. rewrite Z.sub_0_r. destruct (Z.ltb_spec 4096 n); [lia|].
      wp_step. apply (wp_read_dir s ino es); try done. intros r s3 Hs3 Hrl Hrb Hc. fold n in Hc |- *.
      destruct (Z.leb_spec n 0); [lia|]. wp_step.
      apply (wp_lookup_chain s3 r n name _ es); [done | lia | lia | done | done |].
      destruct (find_live (cstr name) es) as [v|] eqn:Hf.
      * apply wp_ret. by apply wp_ret.
      * intros pos. apply wp_ret. rewrite u32_small by lia. split; [|lia].
        split; [done|]. split; [done|]. split; [done|]. right. split; [lia | done].
    + apply wp_ret. apply wp_ret. split; [|done].
      destruct Hrc as [->|[_ Hn]]; [|done]. pose proof (dh_chain _ _ _ Hd) as Hc. fold n in Hc.
      by inversion Hc; subst; [|lia].
Qed.

(** * Sequences of operations on the example image *)

Definition NAME_A : list Z := [97; 0].
Definition NAME_B : list Z := [98; 0].

(** A file created after the last file of a directory was removed is
    invisible.  In a directory that held one file, [ext2_remove_dir_entry]
    merges the removed entry into the one before it and also shortens the
    directory by its length; the next [ext2_create_file] succeeds and puts its
    entry in the merged slack, beyond the end of the directory, where no lookup
    reads. *)
Theorem ext2_recreate_invisible :
  returns (a ← ext2_create_file EXT2_ROOT_INO NAME_A;
           la ← ext2_dir_lookup EXT2_ROOT_INO NAME_A;
           r ← ext2_remove_file EXT2_ROOT_INO NAME_A;
           b ← ext2_create_file EXT2_ROOT_INO NAME_B;
           lb ← ext2_dir_lookup EXT2_ROOT_INO NAME_B;
           mret (a, la, r, b, lb))
    demo_fs (Some 11, Some (11, 1), 0, Some 11, None).
Proof. apply returns_by_compute. vm_compute. reflexivity. Qed.

Definition node_of (ino : Z) : vfs_node_t := mkNode (replicate 64 0) 0 VFS_FT_FILE ino fn_ext2 fn_ext2 fn_null fn_null.

(** A write that extends a file stops at the end of the block it starts in.
    The first block of the write already sets the size of the inode to the end
    of the whole write, so the next block is no longer "beyond the end of the
    file" and is not allocated: of 1500 bytes written to a new file 1024 are
    stored. *)
Theorem ext2_extending_write_short :
  returns (a ← ext2_create_file EXT2_ROOT_INO NAME_A;
           w ← ext2_node_write (node_of 11) 0 1500 (replicate 1500 7);
           r ← ext2_node_read (node_of 11) 0 1500 (replicate 1500 0);
           mret (a, fst w, length (snd w), fst r))
    demo_fs (Some 11, 1024, 1024, 1024).
Proof. apply returns_by_compute. vm_compute. reflexivity. Qed.

Section Examples.

Definition demo_entries : list dirent := [mkDirent 0 2 12 [46] 2; mkDirent 12 2 1012 [46; 46] 2].

Lemma demo_root_holds : dir_holds demo_fs 2 demo_entries.
Proof.
  constructor.
  - apply demo_inode_ok. lia.
  - by vm_compute.
  - vm_compute. congruence.
  - change (i_size (inode_bytes demo_fs 2)) with 1024. intros a Ha.
    change (block_size demo_fs) with 1024. replace (a / 1024) with 0 by (Z.div_mod_to_equations; lia).
    assert (0 <= block_size demo_fs / 4) by (vm_compute; congruence).
    split; [split; intros; lia | by vm_compute].
  - change (i_size (inode_bytes demo_fs 2)) with 1024.
    set (b := file_bytes demo_fs (inode_bytes demo_fs 2)).
    change demo_entries with [entry_at b 0; entry_at b 12].
    apply chain_entry; [done | done | by vm_compute | vm_compute; congruence |].
    change (0 + le16 b (0 + 4)) with 12. apply chain_entry; [done | done | by vm_compute | vm_compute; congruence |].
    apply chain_end. by vm_compute.
Qed.
End Examples.

Lemma ext2_dir_lookup_spec_witness :
  exists s', ext2_dir_lookup 2 CSTR_DOTDOT demo_fs = Ok (find_live (cstr CSTR_DOTDOT) demo_entries) s' /\
    same_fs demo_fs s'.
Proof.
  apply (ext2_dir_lookup_spec demo_fs 2 CSTR_DOTDOT demo_entries demo_blocks_ok demo_root_holds). by vm_compute.
Defined.
