(* ===== verification/Vfs.v ===== *)
(** The virtual file system: [src/kernel/fs/vfs.c], and [ext2_init] of
    [src/kernel/fs/ext2.c], which mounts the disk through it.

    A [vfs_node_t *] is null, one of the eight static nodes of the ext2 driver
    (which later lookups overwrite), or a heap block: the copy of a root node.
    Open files and lookups share these nodes. *)
From Stdlib Require Import ZArith Lia List.
From stdpp Require Import base tactics numbers list gmap strings option.
From S2P Require Import Prelude Pmm Vmm Heap CString Bytes Ata Ext2.
Open Scope Z_scope.

Definition VFS_MAX_PATH : Z := 256.
Definition VFS_MAX_FS : Z := 8.
Definition VFS_MAX_MOUNTS : Z := 8.
Definition VFS_MAX_OPEN : Z := 32.
Definition VFS_O_CREATE : Z := 4.

Inductive node_ptr : Type :=
  | NP_null
  | NP_static (k : Z)
  | NP_heap (addr : Z).
#[export] Instance node_ptr_eq_dec : EqDecision node_ptr.
Proof. solve_decision. Defined.

(** A driver: its name and its [mount] and [umount] functions. *)
Record vfs_fs_ops_t : Type := mkFsOps { fs_name : list Z; mount : fn; umount : fn }.

Record vfs_mount_point_t : Type := mkMount {
  path : list Z;
  root : node_ptr;
  fs_type : Z;
  m_in_use : Z
}.
Definition zero_mount : vfs_mount_point_t := mkMount (replicate 64 0) NP_null 0 0.

Record vfs_fd_t : Type := mkFd { node : node_ptr; pos : Z; fd_flags : Z; in_use : Z }.
Definition zero_fd : vfs_fd_t := mkFd NP_null 0 0 0.

(** What the file systems use of the kernel heap. *)
Class KernelHeap (H : Type) := {
  heap_alloc : Z -> M H Z;
  heap_free : Z -> M H unit
}.
#[export] Instance vmm_heap `{KernelLayout} : KernelHeap vmm := {
  heap_alloc := kmalloc;
  heap_free := kfree
}.

Record vfs (D H : Type) : Type := mkVfs {
  e2 : ext2 D;
  kheap : H;
  heap_nodes : gmap Z vfs_node_t;
  vfs_filesystems : list (option vfs_fs_ops_t);
  vfs_fs_count : Z;
  vfs_mounts : list vfs_mount_point_t;
  vfs_files : list vfs_fd_t;
  vfs_root : node_ptr
}.
Arguments mkVfs {D H} _ _ _ _ _ _ _ _.
Arguments e2 {D H} _.
Arguments kheap {D H} _.
Arguments heap_nodes {D H} _.
Arguments vfs_filesystems {D H} _.
Arguments vfs_fs_count {D H} _.
Arguments vfs_mounts {D H} _.
Arguments vfs_files {D H} _.
Arguments vfs_root {D H} _.

Section Setters.
Context {D H : Type}.
Implicit Types s : vfs D H.

Definition set_e2 (e : ext2 D) s : vfs D H :=
  mkVfs e (kheap s) (heap_nodes s) (vfs_filesystems s) (vfs_fs_count s) (vfs_mounts s)
    (vfs_files s) (vfs_root s).
Definition set_kheap (h : H) s : vfs D H :=
  mkVfs (e2 s) h (heap_nodes s) (vfs_filesystems s) (vfs_fs_count s) (vfs_mounts s)
    (vfs_files s) (vfs_root s).
Definition set_heap_nodes m s : vfs D H :=
  mkVfs (e2 s) (kheap s) m (vfs_filesystems s) (vfs_fs_count s) (vfs_mounts s)
    (vfs_files s) (vfs_root s).
Definition set_filesystems l n s : vfs D H :=
  mkVfs (e2 s) (kheap s) (heap_nodes s) l n (vfs_mounts s) (vfs_files s) (vfs_root s).
Definition set_mounts l s : vfs D H :=
  mkVfs (e2 s) (kheap s) (heap_nodes s) (vfs_filesystems s) (vfs_fs_count s) l
    (vfs_files s) (vfs_root s).
Definition set_files l s : vfs D H :=
  mkVfs (e2 s) (kheap s) (heap_nodes s) (vfs_filesystems s) (vfs_fs_count s) (vfs_mounts s)
    l (vfs_root s).
Definition set_root r s : vfs D H :=
  mkVfs (e2 s) (kheap s) (heap_nodes s) (vfs_filesystems s) (vfs_fs_count s) (vfs_mounts s)
    (vfs_files s) r.
End Setters.

(** [vfs_mounts[i]] and [vfs_files[i]] for an index in range. *)
Definition mount_at (l : list vfs_mount_point_t) (i : Z) : vfs_mount_point_t :=
  nth (Z.to_nat i) l zero_mount.
Definition fd_at (l : list vfs_fd_t) (i : Z) : vfs_fd_t := nth (Z.to_nat i) l zero_fd.

Section Operations.
Context {D H : Type} `{BlockDevice D} `{KernelHeap H} `{Locals}.
Notation V := (M (vfs D H)).

Definition ext {A} (m : M (ext2 D) A) : V A := zoom e2 set_e2 m.
Definition heap {A} (m : M H A) : V A := zoom kheap set_kheap m.

(** [*p] *)
Definition deref (p : node_ptr) : V vfs_node_t :=
  match p with
  | NP_null => stuck NullDeref
  | NP_static k => gets (fun s => nth (Z.to_nat k) (nodes (e2 s)) zero_node)
  | NP_heap a =>
      m ← gets heap_nodes;
      match m !! a with Some n => mret n | None => stuck PageFault end
  end.
(** [*p = n] *)
Definition assign (p : node_ptr) (n : vfs_node_t) : V unit :=
  match p with
  | NP_null => stuck NullDeref
  | NP_static k =>
      ext (modify (fun e => set_nodes (<[Z.to_nat k := n]> (nodes e)) (next e) e))
  | NP_heap a => modify (fun s => set_heap_nodes (<[a := n]> (heap_nodes s)) s)
  end.

(** * Paths *)

Definition vfs_skip_slashes (path : list Z) (p : Z) : V Z :=
  locals (while_ (Datatypes.length path + 1) p (fun p =>
    c ← aget path p;
    if c =? 47 then mret (Cont (p + 1)) else mret (Brk p))).

(** A character of a component: not NUL, not '/', and at least 0x20 as a
    signed [char]. *)
Definition is_component_char (c : Z) : bool :=
  negb (c =? 0) && negb (c =? 47) && (0x20 <=? s8 c).

Definition vfs_next_component (path : list Z) (p : Z) (component : list Z) (max_len : Z)
    : V (Z * list Z) :=
  l ← locals (while_ (Datatypes.length path + 1) (p, 0, component) (fun '(p, i, component) =>
    c ← aget path p;
    if is_component_char c && (i <? max_len - 1) then
      component ← aset component i c;
      mret (Cont (p + 1, i + 1, component))
    else mret (Brk (p, i, component))));
  let '(p, i, component) := l in
  component ← aset component i 0;
  p ← vfs_skip_slashes path p;
  mret (p, component).

(** The index of the mount point, or [None]. *)
Definition vfs_find_mount (pth : list Z) : V (option Z) :=
  l ← locals (for_ (span 0 VFS_MAX_MOUNTS) 0 (-1, 0) (fun i '(best, best_len) =>
    ms ← gets vfs_mounts;
    let m := mount_at ms i in
    if m_in_use m =? 0 then mret (Cont (best, best_len))
    else
      len ← strlen (path m);
      if len <? best_len then mret (Cont (best, best_len))
      else
        c ← strncmp pth (path m) len;
        e ← (if c =? 0 then e ← aget pth len; mret ((e =? 0) || (e =? 47)) else mret false);
        if (e : bool) then mret (Cont (i, if len =? 0 then 1 else len))
        else mret (Cont (best, best_len))));
  let '(best, _) := l in
  mret (if 0 <=? best then Some best else None).

Definition vfs_lookup (dir : node_ptr) (name : list Z) : V node_ptr :=
  if decide (dir = NP_null) then mret NP_null
  else
    d ← deref dir;
    if decide (finddir d = fn_null) then mret NP_null
    else
      r ← ext (ext2_node_finddir d name);
      match r with Some k => mret (NP_static k) | None => mret NP_null end.

(** The parent directory and the buffer [child_name]. *)
Definition vfs_find_parent (path : list Z) (child_name : list Z) (child_sz : Z)
    : V (node_ptr * list Z) :=
  p ← vfs_skip_slashes path 0;
  node ← gets vfs_root;
  if decide (node = NP_null) then mret (NP_null, child_name)
  else
    c ← aget path p;
    if c =? 0 then
      child_name ← strncpy child_name [0] child_sz;
      mret (node, child_name)
    else
      r ← while_ (Datatypes.length path + 1) (p, node, local_array 64) (fun '(p, node, component) =>
        nc ← vfs_next_component path p component 64;
        let '(p, component) := nc in
        c0 ← aget component 0;
        if c0 =? 0 then mret (Brk (p, node, component))
        else
          c ← aget path p;
          if c =? 0 then
            child_name ← strncpy child_name component child_sz;
            mret (Ret (node, child_name))
          else
            node ← vfs_lookup node component;
            if decide (node = NP_null) then mret (Ret (NP_null, child_name))
            else mret (Cont (p, node, component)));
      match r with
      | inr v => mret v
      | inl (_, node, _) => mret (node, child_name)
      end.

Definition vfs_parent (path : list Z) (child_name : list Z) (child_sz : Z)
    : V (node_ptr * list Z) := vfs_find_parent path child_name child_sz.

(** * Drivers and mount points *)

Definition vfs_init : V unit :=
  modify (set_filesystems (replicate 8 None) 0);;
  modify (set_mounts (replicate 8 zero_mount));;
  modify (set_files (replicate 32 zero_fd));;
  modify (set_root NP_null).

(** The driver [vfs_filesystems[i]]. *)
Definition driver (i : Z) : V vfs_fs_ops_t :=
  l ← gets vfs_filesystems;
  match l !! Z.to_nat i with
  | Some (Some ops) => mret ops
  | Some None => stuck NullDeref
  | None => stuck OutOfBounds
  end.

(** The index of the first registered driver of that name. *)
Definition find_driver (name : list Z) : V (option Z) :=
  n ← gets vfs_fs_count;
  r ← for_ (span 0 n) 0 tt (fun i _ =>
    d ← driver i;
    c ← strcmp (fs_name d) name;
    if c =? 0 then mret (Ret i) else mret (Cont tt));
  match r with inr i => mret (Some i) | inl _ => mret None end.

(** [ops->name] is not null. *)
Definition vfs_add_fs (ops : vfs_fs_ops_t) : V Z :=
  if decide (mount ops = fn_null) then mret VFS_ERR
  else
    n ← gets vfs_fs_count;
    if VFS_MAX_FS <=? n then mret VFS_ERR
    else
      f ← find_driver (fs_name ops);
      match f with
      | Some _ => mret VFS_ERR
      | None =>
          modify (fun s => set_filesystems (<[Z.to_nat n := Some ops]> (vfs_filesystems s)) (n + 1) s);;
          mret VFS_OK
      end.

(** The first mount point that is not in use. *)
Definition free_mount : V (option Z) :=
  r ← for_ (span 0 VFS_MAX_MOUNTS) 0 tt (fun i _ =>
    ms ← gets vfs_mounts;
    if m_in_use (mount_at ms i) =? 0 then mret (Ret i) else mret (Cont tt));
  match r with inr i => mret (Some i) | inl _ => mret None end.

Definition upd_mount (i : Z) (m : vfs_mount_point_t) : V unit :=
  modify (fun s => set_mounts (<[Z.to_nat i := m]> (vfs_mounts s)) s).

Definition SIZEOF_NODE : Z := 100.

Definition vfs_mount (pth fs : list Z) : V Z :=
  f ← find_driver fs;
  match f with
  | None => mret VFS_ERR_NOT_FOUND
  | Some found =>
      sl ← free_mount;
      match sl with
      | None => mret VFS_ERR_NO_SPACE
      | Some slot =>
          nm ← strcpy (replicate 64 0) pth;
          let root_node := mkNode nm 0 0 0 fn_null fn_null fn_null fn_null in
          d ← driver found;
          guard_or NullDeref (mount d <> fn_null);;
          r ← ext (ext2_vfs_mount root_node);
          let '(st, root_node) := r in
          if negb (st =? 0) then mret VFS_ERR
          else
            a ← heap (heap_alloc SIZEOF_NODE);
            ms ← gets vfs_mounts;
            let m := mount_at ms slot in
            if a =? 0 then
              upd_mount slot (mkMount (path m) NP_null (fs_type m) (m_in_use m));;
              mret VFS_ERR_NO_SPACE
            else
              assign (NP_heap a) root_node;;
              mp ← strncpy (path m) pth 63;
              mp ← aset mp 63 0;
              upd_mount slot (mkMount mp (NP_heap a) found 1);;
              c0 ← aget pth 0;
              is_root ← (if c0 =? 47 then c1 ← aget pth 1; mret (c1 =? 0) else mret false);
              (if (is_root : bool) then modify (set_root (NP_heap a)) else mret tt);;
              mret VFS_OK
      end
  end.

Definition vfs_unmount (pth : list Z) : V Z :=
  r ← for_ (span 0 VFS_MAX_MOUNTS) 0 tt (fun i _ =>
    ms ← gets vfs_mounts;
    let m := mount_at ms i in
    c ← (if m_in_use m =? 0 then mret 1 else strcmp (path m) pth);
    if c =? 0 then
      driver (fs_type m);;
      match root m with
      | NP_heap a =>
          heap (heap_free a);;
          modify (fun s => set_heap_nodes (delete a (heap_nodes s)) s)
      | _ => stuck PageFault
      end;;
      upd_mount i (mkMount (path m) (root m) (fs_type m) 0);;
      rt ← gets vfs_root;
      (if decide (rt = root m) then modify (set_root NP_null) else mret tt);;
      mret (Ret VFS_OK)
    else mret (Cont tt));
  match r with inr v => mret v | inl _ => mret VFS_ERR_NOT_FOUND end.

(** * Files *)

Definition vfs_open_node (path : list Z) : V node_ptr :=
  c0 ← aget path 0;
  if c0 =? 0 then mret NP_null
  else
    is_root ← (if c0 =? 47 then c1 ← aget path 1; mret (c1 =? 0) else mret false);
    if (is_root : bool) then gets vfs_root
    else
      r ← vfs_find_parent path (local_array 64) 64;
      let '(parent, comp) := r in
      if decide (parent = NP_null) then mret NP_null else vfs_lookup parent comp.

Definition upd_fd (i : Z) (f : vfs_fd_t) : V unit :=
  modify (fun s => set_files (<[Z.to_nat i := f]> (vfs_files s)) s).

(** Take the first slot that is not in use. *)
Definition fd_alloc (node : node_ptr) (flags : Z) : V Z :=
  r ← for_ (span 0 VFS_MAX_OPEN) 0 tt (fun i _ =>
    fs ← gets vfs_files;
    if negb (in_use (fd_at fs i) =? 0) then mret (Cont tt)
    else
      upd_fd i (mkFd node 0 flags 1);;
      mret (Ret i));
  match r with inr i => mret i | inl _ => mret VFS_ERR_NO_SPACE end.

Definition vfs_open (path : list Z) (flags : Z) : V Z :=
  node ← vfs_open_node path;
  if decide (node = NP_null) then
    if Z.land flags VFS_O_CREATE =? 0 then mret VFS_ERR_NOT_FOUND
    else
      r ← vfs_find_parent path (local_array 64) 64;
      let '(parent, leaf) := r in
      l0 ← aget leaf 0;
      if decide (parent = NP_null) then mret VFS_ERR_NOT_FOUND
      else if l0 =? 0 then mret VFS_ERR_NOT_FOUND
      else
        pn ← deref parent;
        c ← ext (ext2_vfs_create_file pn leaf);
        match c with
        | None => mret VFS_ERR
        | Some _ =>
            node ← vfs_open_node path;
            if decide (node = NP_null) then mret VFS_ERR else fd_alloc node flags
        end
  else fd_alloc node flags.

(** [fd < 0 || fd >= VFS_MAX_OPEN || !vfs_files[fd].in_use] *)
Definition bad_fd (s : vfs D H) (fd : Z) : bool :=
  (fd <? 0) || (VFS_MAX_OPEN <=? fd) || (in_use (fd_at (vfs_files s) fd) =? 0).

Definition vfs_close (fd : Z) : V Z :=
  b ← gets (fun s => bad_fd s fd);
  if (b : bool) then mret VFS_ERR
  else
    fs ← gets vfs_files;
    let f := fd_at fs fd in
    upd_fd fd (mkFd NP_null (pos f) (fd_flags f) 0);;
    mret VFS_OK.

Definition fd_advance (fd n : Z) : V unit :=
  fs ← gets vfs_files;
  let f := fd_at fs fd in
  if 0 <? n then upd_fd fd (mkFd (node f) (u32 (pos f + n)) (fd_flags f) (in_use f)) else mret tt.

Definition vfs_read (fd : Z) (buf : list Z) (size : Z) : V (Z * list Z) :=
  b ← gets (fun s => bad_fd s fd);
  if (b : bool) then mret (VFS_ERR, buf)
  else
    fs ← gets vfs_files;
    let f := fd_at fs fd in
    if decide (node f = NP_null) then mret (VFS_ERR, buf)
    else
      nd ← deref (node f);
      if decide (read nd = fn_null) then mret (VFS_ERR, buf)
      else
        r ← ext (ext2_node_read nd (pos f) size buf);
        fd_advance fd (fst r);;
        mret r.

Definition vfs_write (fd : Z) (buf : list Z) (size : Z) : V Z :=
  b ← gets (fun s => bad_fd s fd);
  if (b : bool) then mret VFS_ERR
  else
    fs ← gets vfs_files;
    let f := fd_at fs fd in
    if decide (node f = NP_null) then mret VFS_ERR
    else
      nd ← deref (node f);
      if decide (write nd = fn_null) then mret VFS_ERR
      else
        r ← ext (ext2_node_write nd (pos f) size buf);
        let '(n, nd) := r in
        assign (node f) nd;;
        fd_advance fd n;;
        mret n.

(** [inr (size, type)] for VFS_OK. *)
Definition vfs_stat (path : list Z) : V (Z + Z * Z) :=
  p ← vfs_open_node path;
  if decide (p = NP_null) then mret (inl VFS_ERR_NOT_FOUND)
  else
    nd ← deref p;
    mret (inr (length nd, flags nd)).

(** [inr out] for VFS_OK; [out] is not null. *)
Definition vfs_readdir (path : list Z) (index : Z) : V (Z + vfs_node_t) :=
  p ← vfs_open_node path;
  if decide (p = NP_null) then mret (inl VFS_ERR)
  else
    nd ← deref p;
    if decide (readdir nd = fn_null) then mret (inl VFS_ERR)
    else ext (ext2_node_readdir nd index).

Definition vfs_mkdir (path : list Z) : V Z := mret VFS_ERR.

Definition vfs_create (path : list Z) (flags : Z) : V Z :=
  vfs_open path (Z.lor VFS_O_CREATE flags).

(** The common part of [vfs_unlink] and [vfs_rmdir] after the type check. *)
Definition remove_at (path : list Z) (remove : Z -> list Z -> M (ext2 D) Z) : V Z :=
  r ← vfs_find_parent path (local_array 64) 64;
  let '(parent, leaf) := r in
  l0 ← aget leaf 0;
  if decide (parent = NP_null) then mret VFS_ERR_NOT_FOUND
  else if l0 =? 0 then mret VFS_ERR_NOT_FOUND
  else
    pn ← deref parent;
    r ← ext (remove (inode pn) leaf);
    if negb (r =? 0) then mret VFS_ERR else mret VFS_OK.

Definition vfs_unlink (path : list Z) : V Z :=
  c0 ← aget path 0;
  if c0 =? 0 then mret VFS_ERR
  else
    p ← vfs_open_node path;
    if decide (p = NP_null) then mret VFS_ERR_NOT_FOUND
    else
      nd ← deref p;
      if flags nd =? VFS_FT_DIR then mret VFS_ERR_IS_DIR
      else remove_at path ext2_remove_file.

Definition vfs_rmdir (path : list Z) : V Z :=
  c0 ← aget path 0;
  if c0 =? 0 then mret VFS_ERR
  else
    p ← vfs_open_node path;
    if decide (p = NP_null) then mret VFS_ERR_NOT_FOUND
    else
      nd ← deref p;
      if negb (flags nd =? VFS_FT_DIR) then mret VFS_ERR_IS_FILE
      else remove_at path ext2_remove_dir.

(** "%s/%s" *)
Definition SLASH_FMT : list Z := [37; 115; 47; 37; 115; 0].

(** Every level makes the path two characters longer, and a path that does not
    fit in 256 bytes is not entered: 256 levels of [fuel] are enough. *)
Fixpoint vfs_rmtree (fuel : nat) (path : list Z) : V Z :=
  match fuel with
  | O => stuck OutOfFuel
  | Datatypes.S fuel' =>
      p ← vfs_open_node path;
      if decide (p = NP_null) then mret VFS_ERR_NOT_FOUND
      else
        nd ← deref p;
        if negb (flags nd =? VFS_FT_DIR) then vfs_unlink path
        else
          r ← vfs_readdir path 0;
          match r with
          | inl _ => mret VFS_ERR
          | inr _ =>
              locals (while_ DIR_FUEL 0 (fun index =>
                r ← vfs_readdir path index;
                match r with
                | inl _ => mret (Brk index)
                | inr child =>
                    d1 ← strcmp (name child) CSTR_DOT;
                    d2 ← (if d1 =? 0 then mret 0 else strcmp (name child) CSTR_DOTDOT);
                    if d2 =? 0 then mret (Cont (u32 (index + 1)))
                    else
                      lp ← strlen path;
                      lc ← strlen (name child);
                      (if lp + 1 + lc + 1 <? VFS_MAX_PATH then
                         c ← snprintf (local_array VFS_MAX_PATH) VFS_MAX_PATH SLASH_FMT
                               [ArgStr path; ArgStr (name child)];
                         (if flags child =? VFS_FT_DIR then vfs_rmtree fuel' (fst c)
                          else vfs_unlink (fst c));;
                         mret tt
                       else mret tt);;
                      mret (Cont (u32 (index + 1)))
                end));;
              vfs_rmdir path
          end
  end.

Definition vfs_rename (oldpath newpath : list Z) : V Z :=
  o0 ← aget oldpath 0;
  n0 ← aget newpath 0;
  if (o0 =? 0) || (n0 =? 0) then mret VFS_ERR
  else
    src ← vfs_open_node oldpath;
    if decide (src = NP_null) then mret VFS_ERR_NOT_FOUND
    else
      r ← vfs_find_parent oldpath (local_array 64) 64;
      let '(old_parent, old_leaf) := r in
      l0 ← aget old_leaf 0;
      if decide (old_parent = NP_null) then mret VFS_ERR_NOT_FOUND
      else if l0 =? 0 then mret VFS_ERR_NOT_FOUND
      else
        dst ← vfs_open_node newpath;
        into ← (if decide (dst = NP_null) then mret false
                else
                  nd ← deref dst;
                  if flags nd =? VFS_FT_DIR then
                    c ← strcmp newpath oldpath;
                    mret (negb (c =? 0))
                  else mret false);
        np ← (if (into : bool) then
                ln ← strlen newpath;
                lo ← strlen old_leaf;
                if ln + 1 + lo + 1 <? VFS_MAX_PATH then
                  c ← snprintf (local_array VFS_MAX_PATH) VFS_MAX_PATH SLASH_FMT
                        [ArgStr newpath; ArgStr old_leaf];
                  mret (Some (fst c))
                else mret None
              else mret (Some newpath));
        match np with
        | None => mret VFS_ERR
        | Some newpath =>
            r ← vfs_find_parent newpath (local_array 64) 64;
            let '(new_parent, new_leaf) := r in
            l0 ← aget new_leaf 0;
            if decide (new_parent = NP_null) then mret VFS_ERR_NOT_FOUND
            else if l0 =? 0 then mret VFS_ERR_NOT_FOUND
            else
              op ← deref old_parent;
              nn ← deref new_parent;
              r ← ext (ext2_rename (inode op) old_leaf (inode nn) new_leaf);
              if negb (r =? 0) then mret VFS_ERR else mret VFS_OK
        end.

Definition vfs_truncate (path : list Z) (new_size : Z) : V Z :=
  p ← vfs_open_node path;
  if decide (p = NP_null) then mret VFS_ERR_NOT_FOUND
  else
    nd ← deref p;
    if negb (flags nd =? VFS_FT_FILE) then mret VFS_ERR_IS_DIR
    else
      r ← ext (ext2_truncate_file (inode nd) new_size);
      if negb (r =? 0) then mret VFS_ERR else mret VFS_OK.

(** * Mounting the disk ([ext2_init]) *)

(** "ext2", "hd0" is not looked at, and "/". *)
Definition EXT2_NAME : list Z := [101; 120; 116; 50; 0].
Definition ROOT_PATH : list Z := [47; 0].
Definition ext2_fs_ops : vfs_fs_ops_t := mkFsOps EXT2_NAME fn_ext2 fn_ext2.

Definition ext2_vfs_register : V Z := vfs_add_fs ext2_fs_ops.

(** [ext2_vfs_umount] does nothing. *)
Definition ext2_vfs_umount (root : vfs_node_t) : V unit := mret tt.

Definition set_fs (sb : Z) (sbb : list Z) (gd : Z) (gdb : list Z) (bs bpg ipg gc mounted : Z)
    (e : ext2 D) : ext2 D :=
  mkExt2 (disk e) sb sbb gd gdb bs bpg ipg gc mounted (nodes e) (next e).

Definition ext2_init : V unit :=
  ext (modify (set_fs 0 [] 0 [] 0 0 0 0 0));;
  r ← ext (ext2_read_superblock EXT2_DRIVE);
  match r with
  | None => mret tt
  | Some sb =>
      if negb (sb_magic sb =? EXT2_MAGIC) then mret tt
      else
        sbp ← heap (heap_alloc SB_SIZE);
        ext (modify (set_fs sbp [] 0 [] 0 0 0 0 0));;
        if sbp =? 0 then mret tt
        else
          let bs := EXT2_BLOCK_SIZE sb in
          let bpg := sb_blocks_per_group sb in
          let ipg := sb_inodes_per_group sb in
          q ← udiv (sb_blocks_count sb) bpg;
          m ← umod (sb_blocks_count sb) bpg;
          let gc := q + (if negb (m =? 0) then 1 else 0) in
          gdp ← heap (heap_alloc (u32 (GD_SIZE * gc)));
          ext (modify (set_fs sbp sb gdp [] bs bpg ipg gc 0));;
          if gdp =? 0 then heap (heap_free sbp)
          else
            gd_sector ← ext ext2_gd_sector;
            let sectors :=
              ext2_off_to_sectors (u32 (gd_sector * EXT2_SECTOR_SIZE)) (u32 (GD_SIZE * gc)) in
            let sectors := if 4 <? sectors then 4 else sectors in
            r ← ext (dev (read_sectors EXT2_DRIVE gd_sector sectors
                            (local_array (EXT2_SECTOR_SIZE * 4)) 0));
            if negb (fst r =? 0) then
              heap (heap_free gdp);;
              heap (heap_free sbp)
            else
              gd ← memcpy (replicate (Z.to_nat (u32 (GD_SIZE * gc))) 0) 0 (snd r) 0 (u32 (GD_SIZE * gc));
              ext (modify (set_fs sbp sb gdp gd bs bpg ipg gc 1));;
              ext2_vfs_register;;
              vfs_mount ROOT_PATH EXT2_NAME;;
              mret tt
  end.
End Operations.
