(* ===== verification/VfsFacts.v ===== *)
(** The virtual file system: path resolution and open files. *)
From Stdlib Require Import ZArith Lia List.
From stdpp Require Import base tactics numbers list gmap strings option.
From S2P Require Import Prelude CString Bytes Ata Disk Ext2 Ext2Demo Ext2Facts Vfs.
Open Scope Z_scope.

(** * Paths *)

Definition is_slash (c : Z) : bool := c =? 47.

(** From offset [p] the path is the list of names: each of at most 63
    characters and followed by slashes or by the end of the string. *)
Inductive comps (pth : list Z) : Z -> list (list Z) -> Prop :=
  | comps_nil p : 0 <= p < lenZ pth -> rd pth p = 0 -> comps pth p []
  | comps_cons p k ws :
      0 <= p -> k = prefix_len is_component_char (drop (Z.to_nat p) pth) -> 0 < k <= 63 ->
      p + k < lenZ pth -> rd pth (p + k) = 47 \/ rd pth (p + k) = 0 ->
      p + k + prefix_len is_slash (drop (Z.to_nat (p + k)) pth) < lenZ pth ->
      comps pth (p + k + prefix_len is_slash (drop (Z.to_nat (p + k)) pth)) ws ->
      comps pth p (take (Z.to_nat k) (drop (Z.to_nat p) pth) :: ws).

(** The absolute path of the names. *)
Definition path_names (pth : list Z) (names : list (list Z)) : Prop :=
  prefix_len is_slash pth < lenZ pth /\ comps pth (prefix_len is_slash pth) names.

Section Paths.
Context {D H : Type} `{BlockDevice D} `{KernelHeap H} `{Locals}.
Notation V := (M (vfs D H)).
Implicit Types s : vfs D H.

(** Following the names one by one from a node: the specification of path
    resolution. *)
Fixpoint walk (nd : node_ptr) (names : list (list Z)) : V node_ptr :=
  match names with
  | [] => mret nd
  | w :: ws =>
      n ← vfs_lookup nd (w ++ [0]);
      if decide (n = NP_null) then mret NP_null else walk n ws
  end.

Lemma finddir_ext nd b1 b2 (e : ext2 D) : terminated b1 -> terminated b2 -> cstr b1 = cstr b2 ->
  ext2_node_finddir nd b1 e = ext2_node_finddir nd b2 e.
Proof.
  intros H1' H2' He. unfold ext2_node_finddir. apply bind_ext; [|done].
  apply while_ext. intros i e'. apply bind_ext; [done|]. intros [v|child] e2'; [done|].
  apply bind_ext; [by apply strcmp_ext | done].
Qed.

Lemma lookup_ext nd b1 b2 s : terminated b1 -> terminated b2 -> cstr b1 = cstr b2 ->
  vfs_lookup nd b1 s = vfs_lookup nd b2 s.
Proof.
  intros H1' H2' He. unfold vfs_lookup. destruct (decide (nd = NP_null)); [done|].
  apply bind_ext; [done|]. intros d s'. destruct (decide _); [done|].
  apply bind_ext; [|done]. unfold ext, zoom. by rewrite (finddir_ext _ b1 b2).
Qed.

Lemma walk_null ws s : walk NP_null ws s = Ok NP_null s.
Proof. by destruct ws. Qed.

Lemma walk_app nd ws w s :
  walk nd (ws ++ [w]) s =
  (n ← walk nd ws; if decide (n = NP_null) then mret NP_null else vfs_lookup n (w ++ [0])) s.
Proof.
  revert nd s. induction ws as [|v ws IH]; intros nd s; cbn [walk app].
  - change ((n ← mret nd; if decide (n = NP_null) then mret NP_null else vfs_lookup n (w ++ [0])) s)
      with ((if decide (nd = NP_null) then mret NP_null else vfs_lookup nd (w ++ [0])) s : result _ _).
    destruct (decide (nd = NP_null)) as [->|].
    + done.
    + unfold mbind, M_bind. destruct (vfs_lookup nd (w ++ [0]) s) as [m s'|]; [|done].
      by destruct (decide (m = NP_null)) as [->|].
  - unfold mbind, M_bind. destruct (vfs_lookup nd (v ++ [0]) s) as [m s'|]; [|done].
    destruct (decide (m = NP_null)) as [->|].
    + done.
    + apply IH.
Qed.

Lemma component_char_nonzero c : is_component_char c = true -> c <> 0 /\ c <> 47.
Proof. unfold is_component_char. intros Hc. bprop. done. Qed.

Lemma skip_slashes_run pth p s : 0 <= p ->
  p + prefix_len is_slash (drop (Z.to_nat p) pth) < lenZ pth ->
  vfs_skip_slashes pth p s = Ok (p + prefix_len is_slash (drop (Z.to_nat p) pth)) s.
Proof.
  intros Hp Hl.
  assert (Hw : wp (vfs_skip_slashes pth p) (fun q s' =>
    q = p + prefix_len is_slash (drop (Z.to_nat p) pth) /\ s' = s) s).
  { unfold vfs_skip_slashes. apply wp_locals. apply (wp_scan is_slash); try done; unfold lenZ; lia. }
  by apply wp_ok in Hw as (q & s' & -> & -> & ->).
Qed.

(** A name never holds the terminator. *)
Lemma name_chars pth p k i : 0 <= p -> k <= prefix_len is_component_char (drop (Z.to_nat p) pth) -> 0 <= i < k ->
  is_component_char (rd pth (p + i)) = true.
Proof. intros Hp Hk Hi. rewrite <- rd_drop by lia. apply prefix_len_in. lia. Qed.

Lemma next_component_run pth p k comp s :
  0 <= p -> k = prefix_len is_component_char (drop (Z.to_nat p) pth) -> 0 < k <= 63 ->
  p + k < lenZ pth -> p + k + prefix_len is_slash (drop (Z.to_nat (p + k)) pth) < lenZ pth ->
  lenZ comp = 64 ->
  exists r, vfs_next_component pth p comp 64 s =
      Ok (p + k + prefix_len is_slash (drop (Z.to_nat (p + k)) pth), r) s /\
    lenZ r = 64 /\ cstr r = take (Z.to_nat k) (drop (Z.to_nat p) pth) /\ terminated r /\ rd r 0 <> 0.
Proof.
  intros Hp Hk Hk63 Hl Hq Hc. set (w := take (Z.to_nat k) (drop (Z.to_nat p) pth)).
  assert (Hlw : lenZ w = k) by (unfold w; rewrite lenZ_take; [done | rewrite lenZ_drop; lia]).
  assert (Hrw : forall i, 0 <= i < k -> rd w i = rd pth (p + i))
    by (intros i Hi; unfold w; by rewrite rd_take, rd_drop by lia).
  assert (Hend : is_component_char (rd pth (p + k)) = false).
  { rewrite <- rd_drop by lia. rewrite Hk. apply prefix_len_end. rewrite lenZ_drop by lia. lia. }
  assert (Hgoal : wp (vfs_next_component pth p comp 64) (fun v s' => s' = s /\
    fst v = p + k + prefix_len is_slash (drop (Z.to_nat (p + k)) pth) /\ lenZ (snd v) = 64 /\
    (forall i, 0 <= i < k -> rd (snd v) i = rd w i) /\ rd (snd v) k = 0) s).
  2:{ apply wp_ok in Hgoal as ([q r] & s' & He & -> & Hfst & Hlr & Hr & Hz). cbn [fst snd] in *. subst q. exists r.
      split; [done|]. split; [done|].
      assert (Hcs : cstr r = w).
      { apply cstr_unique; [lia | | by rewrite Hlw]. intros i Hi. rewrite Hlw in Hi. split; [by apply Hr|].
        rewrite Hrw by done. apply component_char_nonzero. apply (name_chars pth p k); lia. }
      split; [done|]. split; [unfold terminated; rewrite Hcs; lia|].
      rewrite Hr, Hrw by lia. apply component_char_nonzero. apply (name_chars pth p k); lia. }
  unfold vfs_next_component. wp_step. apply wp_locals.
  apply (wp_while (fun '(q, i, r) s' => s' = s /\ 0 <= i <= k /\ q = p + i /\ lenZ r = 64 /\
      forall j, 0 <= j < i -> rd r j = rd w j) (fun '(_, i, _) _ => Z.to_nat (k - i))).
  - split; [done|]. split; [lia|]. split; [lia|]. split; [done|]. lia.
  - unfold lenZ in *. lia.
  - intros [[q i] r] s' (-> & Hi & -> & Hlr & Hr). wp_step. apply wp_aget; [lia|].
    destruct (decide (i < k)) as [Hlt|].
    + rewrite (name_chars pth p k) by lia. destruct (Z.ltb_spec i (64 - 1)); [|lia]. cbn [andb].
      wp_step. apply wp_aset; [lia|]. apply wp_ret. split; [|lia]. split; [done|]. split; [lia|]. split; [lia|].
      split; [by rewrite lenZ_wr|]. intros j Hj. rewrite rd_wr by lia. destruct (Z.eqb_spec i j) as [->|].
      * by rewrite Hrw by lia.
      * apply Hr. lia.
    + assert (i = k) as -> by lia. rewrite Hend. cbn [andb]. apply wp_ret.
      wp_step. apply wp_aset; [lia|]. wp_step.
      eapply wp_run; [apply skip_slashes_run; lia|]. apply wp_ret. cbn [fst snd]. split; [done|]. split; [done|].
      split; [by rewrite lenZ_wr|]. split; [|by apply rd_wr_eq; lia].
      intros j Hj. rewrite rd_wr_ne by lia. by apply Hr.
Qed.

Lemma comps_length pth p ws : comps pth p ws -> 0 <= p /\ p + lenZ ws < lenZ pth.
Proof.
  induction 1 as [|p k ws ? Hk]; [by rewrite Z.add_0_r|].
  pose proof (prefix_len_bound is_slash (drop (Z.to_nat (p + k)) pth)).
  unfold lenZ in *. cbn [Datatypes.length] in *. lia.
Qed.

Lemma comps_name pth p ws w : comps pth p ws -> w ∈ ws -> forall i, 0 <= i < lenZ w -> rd w i <> 0.
Proof.
  induction 1 as [|p k ws Hp Hk Hk63 Hl Hsep Hl2 _ IH]; [by intros ?%elem_of_nil|].
  intros [->|Hw]%elem_of_cons i Hi; [|by apply IH].
  rewrite lenZ_take in Hi by (rewrite lenZ_drop; lia). rewrite rd_take, rd_drop by lia.
  apply component_char_nonzero. apply (name_chars pth p k); lia.
Qed.

Lemma comps_end pth p : comps pth p [] -> 0 <= p < lenZ pth /\ rd pth p = 0.
Proof. by inversion 1. Qed.

(** The body of the loop of [vfs_find_parent]. *)
Definition parent_body (path child_name : list Z) (child_sz : Z) : Z * node_ptr * list Z ->
    V (ctl (Z * node_ptr * list Z) (node_ptr * list Z)) := fun '(p, node, component) =>
  nc ← vfs_next_component path p component 64;
  let '(p, component) := nc in
  c0 ← aget component 0;
  if c0 =? 0 then mret (Brk (p, node, component))
  else
    c ← aget path p;
    if c =? 0 then
      child_name ← strncpy child_name component child_sz;
      mret (Ret (node, child_name))
    else
      node ← vfs_lookup node component;
      if decide (node = NP_null) then mret (Ret (NP_null, child_name))
      else mret (Cont (p, node, component)).

Lemma aget_ok (a : list Z) i s : 0 <= i < lenZ a -> aget a i s = Ok (rd a i) s.
Proof. unfold aget. intros. by rewrite decide_True. Qed.

Lemma strncpy_component child comp (w : list Z) s : lenZ child = 64 -> terminated comp -> cstr comp = w -> lenZ w <= 63 ->
  (forall i, 0 <= i < lenZ w -> rd w i <> 0) ->
  exists r, strncpy child comp 64 s = Ok r s /\ lenZ r = 64 /\ terminated r /\ cstr r = w.
Proof.
  intros Hl Ht Hc Hw Hnz.
  assert (Hg : wp (strncpy child comp 64) (fun r s' => s' = s /\ lenZ r = 64 /\ terminated r /\ cstr r = w) s).
  2:{ apply wp_ok in Hg as (r & s' & ? & -> & ?). eauto. }
  apply wp_strncpy; [lia | done |]. intros r Hlr Hr. rewrite Hc in Hr. split; [done|]. split; [lia|].
  pose proof (lenZ_nonneg w).
  assert (He : cstr r = w).
  { apply cstr_unique; [lia | |].
    - intros i Hi. split; [|by apply Hnz]. rewrite Hr by lia. case_range; try lia. rewrite <- Hc, rd_cstr; [done|].
      rewrite Hc. lia.
    - rewrite Hr by lia. case_range; lia || done. }
  split; [unfold terminated; rewrite He; lia | done].
Qed.

(** One round of the loop reads the next name. *)
Lemma parent_round pth p w ws nd comp child s :
  comps pth p (w :: ws) -> lenZ comp = 64 -> lenZ child = 64 ->
  exists q r, lenZ r = 64 /\ cstr r = w /\ terminated r /\ comps pth q ws /\ lenZ w <= 63 /\
    (forall i, 0 <= i < lenZ w -> rd w i <> 0) /\
    parent_body pth child 64 (p, nd, comp) s =
      (if decide (ws = []) then child ← strncpy child r 64; mret (Ret (nd, child))
       else n ← vfs_lookup nd r;
            if decide (n = NP_null) then mret (Ret (NP_null, child)) else mret (Cont (q, n, r))) s.
Proof.
  intros Hc Hlc Hlch. inversion Hc as [|p' k ws' Hp Hk Hk63 Hl Hsep Hl2 Hrest]; subst p' ws'.
  destruct (next_component_run pth p k comp s) as (r & Hrun & Hlr & Hcr & Htr & Hr0); try done.
  set (q := p + k + prefix_len is_slash (drop (Z.to_nat (p + k)) pth)) in *.
  assert (Hlw : lenZ (take (Z.to_nat k) (drop (Z.to_nat p) pth)) = k)
    by (rewrite lenZ_take; [done | rewrite lenZ_drop; lia]).
  exists q, r. split; [done|]. split; [done|]. split; [done|]. split; [done|]. split; [lia|].
  split.
  { intros i Hi. rewrite Hlw in Hi. rewrite rd_take, rd_drop by lia. apply component_char_nonzero.
    apply (name_chars pth p k); lia. }
  unfold parent_body. rewrite (bind_ok _ _ _ _ _ Hrun). rewrite (bind_ok _ _ _ _ _ (aget_ok r 0 s ltac:(lia))).
  destruct (Z.eqb_spec (rd r 0) 0); [done|].
  pose proof (comps_length _ _ _ Hrest) as [Hq0 Hq]. pose proof (lenZ_nonneg ws).
  rewrite (bind_ok _ _ _ _ _ (aget_ok pth q s ltac:(lia))).
  destruct (decide (ws = [])) as [->|Hne].
  - apply comps_end in Hrest as [_ ->]. done.
  - destruct (Z.eqb_spec (rd pth q) 0) as [Hz|]; [|done]. exfalso.
    inversion Hrest as [|q' k' ws' Hq' Hk' Hk63' Hl']; subst; [done|].
    destruct (component_char_nonzero (rd pth (q + 0))) as [Hc0 _].
    + eapply name_chars; [done | reflexivity | lia].
    + by rewrite Z.add_0_r in Hc0.
Qed.

Lemma cstr_name (v : list Z) : (forall i, 0 <= i < lenZ v -> rd v i <> 0) ->
  cstr (v ++ [0]) = v /\ terminated (v ++ [0]).
Proof.
  intros Hnz. pose proof (lenZ_nonneg v) as Hv. assert (Hl : lenZ (v ++ [0]) = lenZ v + 1) by apply lenZ_app.
  assert (He : cstr (v ++ [0]) = v).
  { apply cstr_unique; [lia | |].
    - intros i Hi. rewrite rd_app_l by done. split; [done | by apply Hnz].
    - rewrite rd_app_r by lia. by rewrite Z.sub_diag. }
  split; [done|]. unfold terminated. rewrite He. lia.
Qed.

(** The loop follows the names before the last and returns the last. *)
Lemma parent_loop pth p ws w nd comp child fuel s :
  comps pth p (ws ++ [w]) -> lenZ comp = 64 -> lenZ child = 64 -> nd <> NP_null -> lenZ ws < Z.of_nat fuel ->
  match walk nd ws s with
  | Stuck e s' => while_ fuel (p, nd, comp) (parent_body pth child 64) s = Stuck e s'
  | Ok n s' => exists r, while_ fuel (p, nd, comp) (parent_body pth child 64) s = Ok (inr (n, r)) s' /\
      (n <> NP_null -> terminated r /\ cstr r = w)
  end.
Proof.
  revert p nd comp fuel s. induction ws as [|v ws IH]; intros p nd comp fuel s Hc Hlc Hlch Hnd Hf;
    (destruct fuel as [|fuel]; [unfold lenZ in Hf; lia|]); cbn [app while_] in *;
    destruct (parent_round pth p _ _ nd comp child s Hc Hlc Hlch) as (q & r & Hlr & Hcr & Htr & Hrest & Hw63 & Hnz & Hbody).
  - destruct (strncpy_component child r w s Hlch Htr Hcr Hw63 Hnz) as (ch & Hcopy & _ & Htch & Hcch).
    cbn [walk mret M_ret]. exists ch. split; [|done]. unfold mbind at 1, M_bind at 1. rewrite Hbody.
    destruct (decide ([] = [])); [|done]. by rewrite (bind_ok _ _ _ _ _ Hcopy).
  - destruct (cstr_name v Hnz) as [Hv Htv].
    assert (Hl : vfs_lookup nd r s = vfs_lookup nd (v ++ [0]) s) by (apply lookup_ext; [done | done | by rewrite Hv]).
    destruct (decide (ws ++ [w] = [])) as [He|Hne]; [exfalso; clear -He; by destruct ws|]. cbn [walk].
    destruct (vfs_lookup nd (v ++ [0]) s) as [n s'|e s'] eqn:Hlk.
    2:{ rewrite (bind_stuck _ _ _ _ _ Hlk). apply bind_stuck. rewrite Hbody. by apply bind_stuck. }
    rewrite (bind_ok _ _ _ _ _ Hlk). rewrite (bind_ok _ _ _ _ _ Hl) in Hbody.
    destruct (decide (n = NP_null)) as [->|Hn]; rewrite (bind_ok _ _ _ _ _ Hbody).
    + by exists child.
    + apply (IH q n r fuel s'); try done. unfold lenZ in *. cbn [Datatypes.length] in Hf. lia.
Qed.

(** The first character of a path with a name in it. *)
Lemma path_start pth w ws : path_names pth (w :: ws) ->
  0 < lenZ pth /\ rd pth 0 <> 0 /\ (rd pth 0 = 47 -> 1 < lenZ pth /\ rd pth 1 <> 0) /\
  0 <= prefix_len is_slash pth /\ rd pth (prefix_len is_slash pth) <> 0.
Proof.
  intros [Hsl Hc]. set (p := prefix_len is_slash pth) in *. pose proof (prefix_len_bound is_slash pth) as Hp. fold p in Hp.
  assert (Hin : forall i, 0 <= i < p -> rd pth i = 47).
  { intros i Hi. apply prefix_len_in in Hi. unfold is_slash in Hi. by bprop. }
  inversion Hc as [|p' k ws' Hp' Hk Hk63 Hl]; subst.
  assert (Hnz : rd pth p <> 0).
  { destruct (component_char_nonzero (rd pth (p + 0))) as [Hz _]; [|by rewrite Z.add_0_r in Hz].
    eapply name_chars; [done | reflexivity | lia]. }
  split; [lia|]. split.
  { destruct (decide (p = 0)) as [Hz|]; [by rewrite Hz in Hnz | by rewrite Hin by lia]. }
  split; [|split; [lia|done]]. intros H47. destruct (decide (p = 0)) as [Hz|].
  { exfalso. assert (He : is_slash (rd pth p) = false) by (apply prefix_len_end; lia).
    rewrite Hz, H47 in He. done. }
  split; [lia|]. destruct (decide (p = 1)) as [Hz|]; [by rewrite Hz in Hnz | by rewrite Hin by lia].
Qed.

Lemma snoc_cases {A} (l : list A) : l <> [] -> exists l' a, l = l' ++ [a].
Proof. intros Hl. destruct (exists_last Hl) as (l' & a & ->). eauto. Qed.

Lemma find_parent_null pth child n s : vfs_root s = NP_null -> prefix_len is_slash pth < lenZ pth ->
  vfs_find_parent pth child n s = Ok (NP_null, child) s.
Proof.
  intros Hr Hl. unfold vfs_find_parent.
  rewrite (bind_ok _ _ _ _ _ (skip_slashes_run pth 0 s ltac:(lia) ltac:(done))).
  rewrite (bind_ok _ _ s (vfs_root s) s) by done. by rewrite Hr.
Qed.

Lemma find_parent_loop pth names child s : path_names pth names -> names <> [] -> vfs_root s <> NP_null ->
  vfs_find_parent pth child 64 s =
  (r ← while_ (Datatypes.length pth + 1) (prefix_len is_slash pth, vfs_root s, local_array 64) (parent_body pth child 64);
   match r with inr v => mret v | inl (_, node, _) => mret (node, child) end) s.
Proof.
  intros Hp Hn Hr. destruct names as [|w ws]; [done|]. pose proof (path_start _ _ _ Hp) as (_ & _ & _ & Hp0 & Hnz).
  destruct Hp as [Hl _]. unfold vfs_find_parent.
  rewrite (bind_ok _ _ _ _ _ (skip_slashes_run pth 0 s ltac:(lia) ltac:(done))).
  change (0 + prefix_len is_slash (drop (Z.to_nat 0) pth)) with (prefix_len is_slash pth).
  rewrite (bind_ok _ _ s (vfs_root s) s) by done. destruct (decide _); [done|].
  rewrite (bind_ok _ _ _ _ _ (aget_ok pth _ s ltac:(done))).
  by destruct (Z.eqb_spec (rd pth (prefix_len is_slash pth)) 0).
Qed.
End Paths.

(** C20: Resolving a path is following its names from the root.  For an absolute
    or relative path made of names of at most 63 characters, separated by any
    number of slashes, [vfs_open_node] (which splits the path in place with
    [vfs_find_parent], and looks the last name up in the parent) does exactly
    what looking the names up one by one from [vfs_root] does: the same node,
    the same fault and the same effect on the disk and on the driver's nodes. *)
Theorem vfs_open_node_walk {D H} `{BlockDevice D} `{KernelHeap H} `{Locals} (s : vfs D H) pth names :
  path_names pth names -> names <> [] -> vfs_open_node pth s = walk (vfs_root s) names s.
Proof.
  intros Hp Hn. destruct (snoc_cases names Hn) as (ws & w & ->).
  assert (Hst := Hp). destruct (ws ++ [w]) as [|w0 ws0] eqn:Hws; [done|].
  apply path_start in Hst as (Hl & Hc0 & Hroot & Hp0 & _). rewrite <- Hws in *. clear w0 ws0 Hws.
  unfold vfs_open_node. rewrite (bind_ok _ _ _ _ _ (aget_ok pth 0 s ltac:(lia))).
  destruct (Z.eqb_spec (rd pth 0) 0); [done|].
  assert (Hr0 : (if rd pth 0 =? 47 then c1 ← aget pth 1; mret (c1 =? 0) else mret false) s = Ok false s).
  { destruct (Z.eqb_spec (rd pth 0) 47) as [H47|]; [|done]. destruct (Hroot H47) as [Hl1 Hnz].
    rewrite (bind_ok _ _ _ _ _ (aget_ok pth 1 s ltac:(lia))). by destruct (Z.eqb_spec (rd pth 1) 0). }
  rewrite (bind_ok _ _ _ _ _ Hr0). rewrite walk_app.
  destruct (decide (vfs_root s = NP_null)) as [Hrt|Hrt].
  { rewrite (bind_ok _ _ _ _ _ (find_parent_null _ _ _ _ Hrt ltac:(apply Hp))).
    rewrite Hrt. by rewrite (bind_ok _ _ _ _ _ (walk_null ws s)). }
  pose proof (find_parent_loop pth _ (local_array 64) s Hp Hn Hrt) as Hfp. destruct Hp as [Hsl Hc].
  pose proof (comps_length _ _ _ Hc) as [_ Hlen]. rewrite lenZ_app in Hlen. pose proof (lenZ_nonneg [w]).
  assert (Hloop := parent_loop pth _ ws w (vfs_root s) (local_array 64) (local_array 64) (Datatypes.length pth + 1) s Hc
    (lenZ_local 64 ltac:(lia)) (lenZ_local 64 ltac:(lia)) Hrt ltac:(unfold lenZ in *; lia)).
  destruct (walk (vfs_root s) ws s) as [n' s'|e s'] eqn:Hwalk.
  - destruct Hloop as (r & Hloop & Hr). rewrite (bind_ok _ _ _ _ _ Hloop) in Hfp.
    rewrite (bind_ok _ _ _ _ _ Hfp), (bind_ok _ _ _ _ _ Hwalk).
    destruct (decide (n' = NP_null)) as [|Hn']; [done|]. destruct (Hr Hn') as [Htr Hcr].
    apply lookup_ext; [done | |].
    all: destruct (cstr_name w) as [Hcw Htw]; [eapply comps_name; [exact Hc|]; set_solver | congruence].
  - rewrite (bind_stuck _ _ _ _ _ Hloop) in Hfp. by rewrite (bind_stuck _ _ _ _ _ Hfp), (bind_stuck _ _ _ _ _ Hwalk).
Qed.

(** * Open files *)

(** The first descriptor that is not in use. *)
Definition first_free_fd (l : list vfs_fd_t) : option Z :=
  List.find (fun i => in_use (fd_at l i) =? 0) (seqZ 0 VFS_MAX_OPEN).

Section Files.
Context {D H : Type} `{BlockDevice D} `{KernelHeap H} `{Locals}.
Implicit Types s : vfs D H.

Lemma find_seqZ_cons f i n : 0 < n ->
  List.find f (seqZ i n) = if f i then Some i else List.find f (seqZ (i + 1) (n - 1)).
Proof. intros Hn. rewrite seqZ_cons by done. cbn [List.find]. by rewrite <- Z.add_1_r, <- Z.sub_1_r. Qed.

Lemma wp_fd_alloc nd fl (Q : Z -> vfs D H -> Prop) s :
  match first_free_fd (vfs_files s) with
  | Some i => Q i (set_files (<[Z.to_nat i := mkFd nd 0 fl 1]> (vfs_files s)) s)
  | None => Q VFS_ERR_NO_SPACE s
  end -> wp (fd_alloc nd fl) Q s.
Proof.
  intros HQ. unfold fd_alloc. apply wp_bind.
  apply (wp_for (fun j _ s' => s' = s /\
    first_free_fd (vfs_files s) = List.find (fun i => in_use (fd_at (vfs_files s) i) =? 0) (seqZ j (VFS_MAX_OPEN - j)))).
  - done.
  - intros j [] s' Hj (-> & He). wp_step. apply wp_gets. rewrite find_seqZ_cons in He by (unfold VFS_MAX_OPEN, span in *; lia).
    destruct (in_use (fd_at (vfs_files s) j) =? 0) eqn:Hu; cbn [negb].
    + wp_step. apply wp_modify. apply wp_ret. apply wp_ret. by rewrite He in HQ.
    + apply wp_ret. split; [done|]. rewrite He. f_equal. f_equal. lia.
  - intros [] s' (-> & He). apply wp_ret. by rewrite He in HQ.
Qed.

Lemma first_free_fd_spec l i : first_free_fd l = Some i <->
  0 <= i < VFS_MAX_OPEN /\ in_use (fd_at l i) = 0 /\ forall j, 0 <= j < i -> in_use (fd_at l j) <> 0.
Proof.
  unfold first_free_fd. 
  assert (Hg : forall n a, 0 <= n -> List.find (fun i => in_use (fd_at l i) =? 0) (seqZ a n) = Some i <->
    a <= i < a + n /\ in_use (fd_at l i) = 0 /\ forall j, a <= j < i -> in_use (fd_at l j) <> 0).
  { intros n a Hn. revert a. pattern n. apply natlike_ind; [| |done]; clear n Hn.
    - intros a. split; [done | intros; lia].
    - intros n Hn IH a. rewrite find_seqZ_cons by lia. replace (Z.succ n - 1) with n by lia.
      destruct (Z.eqb_spec (in_use (fd_at l a)) 0) as [Hz|Hz].
      + split; [intros [= <-]; split; [lia|]; split; [done | intros; lia]|].
        intros (Hi & Hu & Hm). f_equal. destruct (decide (a = i)); [done|]. by destruct (Hm a ltac:(lia)).
      + rewrite IH. split; intros (Hi & Hu & Hm).
        * split; [lia|]. split; [done|]. intros j Hj. destruct (decide (j = a)) as [->|]; [done | apply Hm; lia].
        * assert (i <> a) by congruence. split; [lia|]. split; [done|]. intros j Hj. apply Hm. lia. }
  apply (Hg VFS_MAX_OPEN 0). done.
Qed.

(** The operations on the ext2 driver leave the descriptors, the mount points
    and the root alone. *)
Definition same_table s s' : Prop :=
  vfs_files s' = vfs_files s /\ vfs_mounts s' = vfs_mounts s /\ vfs_root s' = vfs_root s.

Definition keeps_table {A} (m : M (vfs D H) A) : Prop :=
  forall s, match m s with Ok _ s' | Stuck _ s' => same_table s s' end.

Lemma keeps_bind {A B} (m : M (vfs D H) A) (f : A -> M (vfs D H) B) :
  keeps_table m -> (forall a, keeps_table (f a)) -> keeps_table (m ≫= f).
Proof.
  intros Hm Hf s. specialize (Hm s). unfold mbind, M_bind. destruct (m s) as [a s'|e s']; [|done].
  specialize (Hf a s'). unfold same_table in *. destruct (f a s'); intuition congruence.
Qed.

Lemma keeps_ret {A} (a : A) : keeps_table (mret a).
Proof. by intros s. Qed.

Lemma keeps_ext {A} (m : M (ext2 D) A) : keeps_table (ext m).
Proof. intros s. unfold ext, zoom. by destruct (m (e2 s)). Qed.

Lemma keeps_deref p : keeps_table (deref p).
Proof.
  destruct p as [|k|a]; cbn [deref]; [by intros s | by intros s |].
  apply keeps_bind; [by intros s|]. intros m. destruct (m !! a); by intros s.
Qed.

Lemma keeps_lookup d n : keeps_table (vfs_lookup d n).
Proof.
  unfold vfs_lookup. destruct (decide _); [by apply keeps_ret|]. apply keeps_bind; [apply keeps_deref|].
  intros x. destruct (decide _); [by apply keeps_ret|]. apply keeps_bind; [apply keeps_ext|]. by intros [k|].
Qed.

Lemma keeps_walk d ws : keeps_table (walk d ws).
Proof.
  revert d. induction ws as [|w ws IH]; intros d; cbn [walk]; [apply keeps_ret|].
  apply keeps_bind; [apply keeps_lookup|]. intros m. destruct (decide _); [apply keeps_ret | apply IH].
Qed.
End Files.

(** Opening an existing file takes the lowest descriptor that is not in
    use, at position 0, and leaves every other descriptor, the mount points and
    the root unchanged; when all 32 are in use the result is
    VFS_ERR_NO_SPACE and the table does not change. *)
Theorem vfs_open_lowest {D H} `{BlockDevice D} `{KernelHeap H} `{Locals} (s s1 : vfs D H) pth names nd fl :
  path_names pth names -> names <> [] -> walk (vfs_root s) names s = Ok nd s1 -> nd <> NP_null ->
  exists s', vfs_open pth fl s = Ok (from_option id VFS_ERR_NO_SPACE (first_free_fd (vfs_files s))) s' /\
    vfs_files s' = from_option (fun i => <[Z.to_nat i := mkFd nd 0 fl 1]> (vfs_files s)) (vfs_files s) (first_free_fd (vfs_files s)) /\
    vfs_mounts s' = vfs_mounts s /\ vfs_root s' = vfs_root s.
Proof.
  intros Hp Hn Hw Hnd. pose proof (keeps_walk (vfs_root s) names s) as Hk. rewrite Hw in Hk. destruct Hk as (Hf & Hm & Hr).
  assert (Hg : wp (vfs_open pth fl) (fun r s' => r = from_option id VFS_ERR_NO_SPACE (first_free_fd (vfs_files s)) /\
    vfs_files s' = from_option (fun i => <[Z.to_nat i := mkFd nd 0 fl 1]> (vfs_files s)) (vfs_files s) (first_free_fd (vfs_files s)) /\
    vfs_mounts s' = vfs_mounts s /\ vfs_root s' = vfs_root s) s).
  2:{ apply wp_ok in Hg as (r & s' & He & -> & Hs). eauto. }
  unfold vfs_open. wp_step. eapply wp_run; [by rewrite (vfs_open_node_walk s pth names Hp Hn)|].
  destruct (decide (nd = NP_null)); [done|]. apply wp_fd_alloc. rewrite Hf. by destruct (first_free_fd (vfs_files s)).
Qed.

(** * Examples *)

(** A heap that hands out addresses in order, for the examples. *)
#[export] Instance bump_heap : KernelHeap Z := {
  heap_alloc n := fun a => Ok a (a + n);
  heap_free _ := mret tt
}.

(** The example image before and after it is mounted as [ext2_init] does. *)
Definition demo_boot : vfs ramdisk Z :=
  mkVfs (mkExt2 demo_disk 0 [] 0 [] 0 0 0 0 0 (replicate 8 zero_node) 0) 0xC0800000 ∅ [] 0 [] [] NP_null.
Definition demo_vfs : vfs ramdisk Z :=
  match (vfs_init;; ext2_init) demo_boot with Ok _ s => s | Stuck _ s => s end.

(** "/a//b" *)
Definition PATH_A_B : list Z := [47; 97; 47; 47; 98; 0].

Lemma path_a_b : path_names PATH_A_B [[97]; [98]].
Proof.
  split; [done|]. apply (comps_cons PATH_A_B 1 1 [[98]]); try done; [by left|].
  apply (comps_cons PATH_A_B 4 1 []); try done; [by right|]. by apply comps_nil.
Qed.

Lemma vfs_open_node_walk_witness :
  vfs_open_node PATH_A_B demo_vfs = walk (vfs_root demo_vfs) [[97]; [98]] demo_vfs.
Proof. apply vfs_open_node_walk; [exact path_a_b | done]. Defined.

(** "/a" *)
Definition PATH_A : list Z := [47; 97; 0].

(** The image with a file "/a" that is open once. *)
Definition demo_open : vfs ramdisk Z :=
  match vfs_create PATH_A 0 demo_vfs with Ok _ s => s | Stuck _ s => s end.
Definition after {S A} (m : M S A) (s : S) : S := match m s with Ok _ s' | Stuck _ s' => s' end.

Lemma path_a : path_names PATH_A [[97]].
Proof.
  split; [done|]. apply (comps_cons PATH_A 1 1 []); try done; [by right|]. by apply comps_nil.
Qed.

(** The first descriptor is taken: the second open takes the next one. *)
Lemma vfs_open_lowest_witness :
  first_free_fd (vfs_files demo_open) = Some 1 /\ exists s', vfs_open PATH_A 0 demo_open =
      Ok (from_option id VFS_ERR_NO_SPACE (first_free_fd (vfs_files demo_open))) s' /\
    vfs_files s' = from_option (fun i => <[Z.to_nat i := mkFd (NP_static 1) 0 0 1]> (vfs_files demo_open))
      (vfs_files demo_open) (first_free_fd (vfs_files demo_open)) /\
    vfs_mounts s' = vfs_mounts demo_open /\ vfs_root s' = vfs_root demo_open.
Proof.
  split; [by vm_compute|].
  apply (vfs_open_lowest demo_open (after (walk (vfs_root demo_open) [[97]]) demo_open) PATH_A [[97]] (NP_static 1)).
  - exact path_a.
  - done.
  - vm_compute. reflexivity.
  - done.
Defined.
