(* ===== verification/NetState.v ===== *)
(** The state of the network code: the statics of [src/kernel/net/network.c]
    and [src/kernel/dev/rtl8139.c], and the hardware below them.

    A [net_mac_t] and a [net_ip4_t] are the lists of their 6 and 4 bytes.  The
    hardware (the ports, the two buffers it shares with the driver by DMA, and
    the counters that interrupts advance) is a parameter [P]. *)
From Stdlib Require Import ZArith Lia List.
From stdpp Require Import base tactics numbers list gmap strings option.
From S2P Require Import Prelude CString Bytes Ata.
Open Scope Z_scope.

Definition NET_BUF_SIZE : Z := 1518.
Definition NET_PAYLOAD_MAX : Z := 1500.
Definition RTL_RXBUF_SIZE : Z := 8192.
Definition ARP_CACHE_SIZE : Z := 8.
Definition UDP_MAX_BIND : Z := 4.
Definition TCP_INBUF : Z := 4096.

(** The hardware seen by the network card's driver.
    - [port_inl] and [port_outl]: the 32-bit port instructions;
    - [mmio_read a w], [mmio_write a w v]: memory-mapped registers, [w] bytes;
    - [rx_dma]: the bytes the card has stored in [rx_buffer];
    - [tx_dma]: the bytes of [tx_buffer] reach the card;
    - [tx_buffer_addr], [rx_buffer_addr]: the physical addresses of the two;
    - [ticks], [cancel]: a read of [timer_ticks] and of [cancel_input]. *)
Class NicHw (P : Type) := {
  nic_ports :: Ports P;
  port_inl : Z -> P -> Z * P;
  port_outl : Z -> Z -> P -> P;
  mmio_read : Z -> Z -> P -> Z * P;
  mmio_write : Z -> Z -> Z -> P -> P;
  rx_dma : P -> list Z;
  rx_dma_size : forall p, lenZ (rx_dma p) = RTL_RXBUF_SIZE;
  rx_dma_bytes : forall p, bytes (rx_dma p);
  tx_dma : list Z -> P -> P;
  tx_buffer_addr : Z;
  rx_buffer_addr : Z;
  ticks : P -> Z * P;
  cancel : P -> Z * P
}.

Record net_iface_t : Type := mkIface {
  name : list Z;
  mac : list Z;
  ip : list Z;
  netmask : list Z;
  gateway : list Z;
  dns : list Z;
  up : Z
}.

Record arp_entry_t : Type := mkArpEntry { a_ip : list Z; a_mac : list Z; valid : Z; age : Z }.
Definition zero_arp : arp_entry_t := mkArpEntry (replicate 4 0) (replicate 6 0) 0 0.

Record arp : Type := mkArp {
  arp_cache : list arp_entry_t;
  arp_pending : Z;
  arp_pending_ip : list Z;
  arp_pending_mac : list Z
}.

Record icmp : Type := mkIcmp {
  icmp_waiting : Z;
  icmp_wait_id : Z;
  icmp_wait_seq : Z;
  icmp_wait_start : Z;
  icmp_reply_recv : Z
}.

(** A callback is the address of a function, 0 for none. *)
Record udp_bind_slot_t : Type := mkBind { port : Z; cb : Z; used : Z }.
Definition zero_bind : udp_bind_slot_t := mkBind 0 0 0.

Record udp_transaction_t : Type := mkTx {
  tx_remote : list Z;
  remote_port : Z;
  local_port : Z;
  reply : list Z;
  reply_len : Z;
  done : Z
}.

Record udp : Type := mkUdp {
  udp_binds : list udp_bind_slot_t;
  udp_txs : gmap Z udp_transaction_t;
  g_active_tx : Z
}.

(** [sendbuf], [sendlen] and [fin_sent] are never used. *)
Record tcp_conn_t : Type := mkConn {
  active : Z;
  remote : list Z;
  src_port : Z;
  dst_port : Z;
  my_seq : Z;
  their_seq : Z;
  my_ack : Z;
  inbuf : list Z;
  inlen : Z;
  closed : Z;
  established : Z;
  syn_sent : Z
}.

(** The connections are the objects of the callers, by address. *)
Record tcp : Type := mkTcp { tcp_conns : gmap Z tcp_conn_t; current_conn : Z }.

(** The statics of the driver of the card. *)
Record rtl : Type := mkRtl {
  rtl_io_base : Z;
  rtl_mem_base : Z;
  rx_cur : Z;
  rtl_up : Z;
  tx_cur : Z;
  tx_buffer : list Z
}.

Record net (P : Type) : Type := mkNet {
  hw : P;
  nic : rtl;
  irq_routines : list Z;
  net_iface : net_iface_t;
  n_arp : arp;
  n_icmp : icmp;
  n_udp : udp;
  n_tcp : tcp
}.
Arguments mkNet {P} _ _ _ _ _ _ _ _.
Arguments hw {P} _.
Arguments nic {P} _.
Arguments irq_routines {P} _.
Arguments net_iface {P} _.
Arguments n_arp {P} _.
Arguments n_icmp {P} _.
Arguments n_udp {P} _.
Arguments n_tcp {P} _.

Section Setters.
Context {P : Type}.
Implicit Types s : net P.

Definition set_hw p s : net P :=
  mkNet p (nic s) (irq_routines s) (net_iface s) (n_arp s) (n_icmp s) (n_udp s) (n_tcp s).
Definition set_nic r s : net P :=
  mkNet (hw s) r (irq_routines s) (net_iface s) (n_arp s) (n_icmp s) (n_udp s) (n_tcp s).
Definition set_irq_routines l s : net P :=
  mkNet (hw s) (nic s) l (net_iface s) (n_arp s) (n_icmp s) (n_udp s) (n_tcp s).
Definition set_iface i s : net P :=
  mkNet (hw s) (nic s) (irq_routines s) i (n_arp s) (n_icmp s) (n_udp s) (n_tcp s).
Definition set_arp a s : net P :=
  mkNet (hw s) (nic s) (irq_routines s) (net_iface s) a (n_icmp s) (n_udp s) (n_tcp s).
Definition set_icmp i s : net P :=
  mkNet (hw s) (nic s) (irq_routines s) (net_iface s) (n_arp s) i (n_udp s) (n_tcp s).
Definition set_udp u s : net P :=
  mkNet (hw s) (nic s) (irq_routines s) (net_iface s) (n_arp s) (n_icmp s) u (n_tcp s).
Definition set_tcp t s : net P :=
  mkNet (hw s) (nic s) (irq_routines s) (net_iface s) (n_arp s) (n_icmp s) (n_udp s) t.
End Setters.

Definition set_mac m i : net_iface_t := mkIface (name i) m (ip i) (netmask i) (gateway i) (dns i) (up i).
Definition set_up v i : net_iface_t := mkIface (name i) (mac i) (ip i) (netmask i) (gateway i) (dns i) v.

Definition set_cache l a : arp := mkArp l (arp_pending a) (arp_pending_ip a) (arp_pending_mac a).
Definition set_pending v a : arp := mkArp (arp_cache a) v (arp_pending_ip a) (arp_pending_mac a).
Definition set_pending_ip i a : arp := mkArp (arp_cache a) (arp_pending a) i (arp_pending_mac a).
Definition set_pending_mac m a : arp := mkArp (arp_cache a) (arp_pending a) (arp_pending_ip a) m.

Definition set_waiting v i : icmp :=
  mkIcmp v (icmp_wait_id i) (icmp_wait_seq i) (icmp_wait_start i) (icmp_reply_recv i).
Definition set_reply_recv v i : icmp :=
  mkIcmp (icmp_waiting i) (icmp_wait_id i) (icmp_wait_seq i) (icmp_wait_start i) v.

Definition set_binds l u : udp := mkUdp l (udp_txs u) (g_active_tx u).
Definition set_txs m u : udp := mkUdp (udp_binds u) m (g_active_tx u).
Definition set_active_tx a u : udp := mkUdp (udp_binds u) (udp_txs u) a.

Definition set_conns m t : tcp := mkTcp m (current_conn t).
Definition set_current c t : tcp := mkTcp (tcp_conns t) c.

Section ConnSetters.
Implicit Types c : tcp_conn_t.

Definition set_conn_active v c : tcp_conn_t :=
  mkConn v (remote c) (src_port c) (dst_port c) (my_seq c) (their_seq c) (my_ack c) (inbuf c) (inlen c) (closed c) (established c) (syn_sent c).
Definition set_my_seq v c : tcp_conn_t :=
  mkConn (active c) (remote c) (src_port c) (dst_port c) v (their_seq c) (my_ack c) (inbuf c) (inlen c) (closed c) (established c) (syn_sent c).
Definition set_acks t a c : tcp_conn_t :=
  mkConn (active c) (remote c) (src_port c) (dst_port c) (my_seq c) t a (inbuf c) (inlen c) (closed c) (established c) (syn_sent c).
Definition set_inbuf b n c : tcp_conn_t :=
  mkConn (active c) (remote c) (src_port c) (dst_port c) (my_seq c) (their_seq c) (my_ack c) b n (closed c) (established c) (syn_sent c).
Definition set_closed v c : tcp_conn_t :=
  mkConn (active c) (remote c) (src_port c) (dst_port c) (my_seq c) (their_seq c) (my_ack c) (inbuf c) (inlen c) v (established c) (syn_sent c).
Definition set_established v w c : tcp_conn_t :=
  mkConn (active c) (remote c) (src_port c) (dst_port c) (my_seq c) (their_seq c) (my_ack c) (inbuf c) (inlen c) (closed c) v w.
End ConnSetters.

Definition set_rx_cur v r : rtl := mkRtl (rtl_io_base r) (rtl_mem_base r) v (rtl_up r) (tx_cur r) (tx_buffer r).
Definition set_rtl_up v r : rtl := mkRtl (rtl_io_base r) (rtl_mem_base r) (rx_cur r) v (tx_cur r) (tx_buffer r).
Definition set_rtl_base io m r : rtl := mkRtl io m (rx_cur r) (rtl_up r) (tx_cur r) (tx_buffer r).
Definition set_tx_cur v r : rtl := mkRtl (rtl_io_base r) (rtl_mem_base r) (rx_cur r) (rtl_up r) v (tx_buffer r).
Definition set_tx_buffer b r : rtl := mkRtl (rtl_io_base r) (rtl_mem_base r) (rx_cur r) (rtl_up r) (tx_cur r) b.

Section Access.
Context {P : Type} `{NicHw P}.
Notation N := (M (net P)).

Definition upd_iface (f : net_iface_t -> net_iface_t) : N unit := modify (fun s => set_iface (f (net_iface s)) s).
Definition upd_arp (f : arp -> arp) : N unit := modify (fun s => set_arp (f (n_arp s)) s).
Definition upd_icmp (f : icmp -> icmp) : N unit := modify (fun s => set_icmp (f (n_icmp s)) s).
Definition upd_udp (f : udp -> udp) : N unit := modify (fun s => set_udp (f (n_udp s)) s).
Definition upd_tcp (f : tcp -> tcp) : N unit := modify (fun s => set_tcp (f (n_tcp s)) s).
Definition upd_nic (f : rtl -> rtl) : N unit := modify (fun s => set_nic (f (nic s)) s).

Definition hw_get {A} (f : P -> A * P) : N A := fun s =>
  let '(v, p) := f (hw s) in Ok v (set_hw p s).
Definition hw_put (f : P -> P) : N unit := modify (fun s => set_hw (f (hw s)) s).

(** [(uint32_t)timer_ticks] *)
Definition timer_ticks : N Z := v ← hw_get ticks; mret (u32 v).
Definition cancel_input : N Z := v ← hw_get cancel; mret (u8 v).
End Access.
