(* ===== verification/Rtl8139.v ===== *)
(** The PCI configuration space and the RTL8139 network card:
    [src/kernel/dev/pci.c] and [src/kernel/dev/rtl8139.c].

    The handler of received frames is an argument of the receive functions:
    the network stack polls the card while it handles a frame. *)
From Stdlib Require Import ZArith Lia List.
From stdpp Require Import base tactics numbers list gmap strings option.
From S2P Require Import Prelude CString Bytes Ata NetState.
Open Scope Z_scope.

Definition PCI_CONFIG_ADDR : Z := 0xCF8.
Definition PCI_CONFIG_DATA : Z := 0xCFC.

Definition RTL_MAC0 : Z := 0.
Definition RTL_TXSTATUS0 : Z := 0x10.
Definition RTL_TXADDR0 : Z := 0x20.
Definition RTL_RBSTART : Z := 0x30.
Definition RTL_CMD : Z := 0x37.
Definition RTL_CAPR : Z := 0x38.
Definition RTL_IMR : Z := 0x3C.
Definition RTL_ISR : Z := 0x3E.
Definition RTL_TXCONF : Z := 0x40.
Definition RTL_RXCONF : Z := 0x44.
Definition RTL_CONFIG0 : Z := 0x51.
Definition RTL_CONFIG1 : Z := 0x52.
Definition RTL_CMD_RESET : Z := 0x10.
Definition RTL_CMD_RX_EN : Z := 0x08.
Definition RTL_CMD_TX_EN : Z := 0x04.
Definition RTL_CMD_RX_BUF_EMPTY : Z := 0x01.
Definition RTL_ISR_RX_OK : Z := 0x0001.
Definition RTL_ISR_RX_OVERFLOW : Z := 0x0010.

Record pci_device_t : Type := mkPciDevice {
  vendor : Z;
  device : Z;
  bus : Z;
  slot : Z;
  func : Z;
  class_code : Z;
  subclass : Z;
  prog_if : Z;
  bar0 : Z;
  bar1 : Z;
  irq_line : Z
}.

Section Operations.
Context {P : Type} `{NicHw P} `{Locals}.
Notation N := (M (net P)).

Definition inb (p : Z) : N Z := v ← hw_get (port_inb (u16 p)); mret (u8 v).
Definition outb (p v : Z) : N unit := hw_put (port_outb (u16 p) (u8 v)).
Definition inw (p : Z) : N Z := v ← hw_get (port_inw (u16 p)); mret (u16 v).
Definition outw (p v : Z) : N unit := hw_put (port_outw (u16 p) (u16 v)).
Definition inl_ (p : Z) : N Z := v ← hw_get (port_inl (u16 p)); mret (u32 v).
Definition outl (p v : Z) : N unit := hw_put (port_outl (u16 p) (u32 v)).

(** * PCI *)

Definition pci_addr (bus slot func offset : Z) : Z :=
  u32 (Z.lor (Z.lor (Z.lor (Z.lor (Z.shiftl bus 16) (Z.shiftl slot 11)) (Z.shiftl func 8))
    (Z.land offset 0xFC)) 0x80000000).

Definition pci_read (bus slot func offset : Z) : N Z :=
  outl PCI_CONFIG_ADDR (pci_addr bus slot func offset);;
  inl_ PCI_CONFIG_DATA.

Definition pci_write (bus slot func offset value : Z) : N unit :=
  outl PCI_CONFIG_ADDR (pci_addr bus slot func offset);;
  outl PCI_CONFIG_DATA value.

Definition pci_read8_helper (bus slot func offset : Z) : N Z :=
  v ← pci_read bus slot func (Z.land offset 0xFC);
  mret (u8 (Z.land (Z.shiftr v (Z.land offset 3 * 8)) 0xFF)).

(** The number of the device ([None] for -1) and the filled [*out]. *)
Definition pci_find_device (vendor_ device_ : Z) : N (option (Z * pci_device_t)) :=
  r ← for_ (span 0 1) 0 tt (fun bus _ =>
    r ← for_ (span 0 32) 0 tt (fun slot _ =>
      id ← pci_read bus slot 0 0;
      if id =? 0xFFFFFFFF then mret (Cont tt)
      else
        let v := u16 (Z.land id 0xFFFF) in
        let d := u16 (Z.land (Z.shiftr id 16) 0xFFFF) in
        if (v =? vendor_) && (d =? device_) then
          cc ← pci_read8_helper bus slot 0 0x0B;
          sc ← pci_read8_helper bus slot 0 0x0A;
          pi ← pci_read8_helper bus slot 0 0x09;
          b0 ← pci_read bus slot 0 0x10;
          b1 ← pci_read bus slot 0 0x14;
          il ← pci_read8_helper bus slot 0 0x3C;
          mret (Ret (bus * 32 + slot,
            mkPciDevice v d bus slot 0 cc sc pi (Z.lor (Z.land b0 0xFFFFFFF0) 1) b1 il))
        else mret (Cont tt));
    match r with inr v => mret (Ret v) | inl _ => mret (Cont tt) end);
  match r with inr v => mret (Some v) | inl _ => mret None end.

(** * Registers *)

Definition rtl_write8 (reg val : Z) : N unit :=
  r ← gets nic;
  if negb (rtl_mem_base r =? 0) then hw_put (mmio_write (u32 (rtl_mem_base r + reg)) 1 (u8 val))
  else outb (rtl_io_base r + reg) val.
Definition rtl_read8 (reg : Z) : N Z :=
  r ← gets nic;
  if negb (rtl_mem_base r =? 0) then v ← hw_get (mmio_read (u32 (rtl_mem_base r + reg)) 1); mret (u8 v)
  else inb (rtl_io_base r + reg).
Definition rtl_write16 (reg val : Z) : N unit :=
  r ← gets nic;
  if negb (rtl_mem_base r =? 0) then hw_put (mmio_write (u32 (rtl_mem_base r + reg)) 2 (u16 val))
  else outw (rtl_io_base r + reg) val.
Definition rtl_read16 (reg : Z) : N Z :=
  r ← gets nic;
  if negb (rtl_mem_base r =? 0) then v ← hw_get (mmio_read (u32 (rtl_mem_base r + reg)) 2); mret (u16 v)
  else inw (rtl_io_base r + reg).
Definition rtl_write32 (reg val : Z) : N unit :=
  r ← gets nic;
  if negb (rtl_mem_base r =? 0) then hw_put (mmio_write (u32 (rtl_mem_base r + reg)) 4 (u32 val))
  else outl (rtl_io_base r + reg) val.
Definition rtl_read32 (reg : Z) : N Z :=
  r ← gets nic;
  if negb (rtl_mem_base r =? 0) then v ← hw_get (mmio_read (u32 (rtl_mem_base r + reg)) 4); mret (u32 v)
  else inl_ (rtl_io_base r + reg).

(** [fuel] bounds the polls of the reset bit. *)
Definition rtl8139_reset (fuel : nat) : N unit :=
  rtl_write8 RTL_CMD RTL_CMD_RESET;;
  locals (while_ fuel tt (fun _ =>
    v ← rtl_read8 RTL_CMD;
    if negb (Z.land v RTL_CMD_RESET =? 0) then mret (Cont tt) else mret (Brk tt))).

(** * Reception *)

(** What the card has stored in [rx_buffer] by now. *)
Definition rx_ring : N (list Z) := gets (fun s => rx_dma (hw s)).

(** The position after a frame of [rx_len] bytes. *)
Definition rx_advance (cur rx_len : Z) : Z :=
  let c := Z.land (u32 (cur + rx_len + 4 + 3)) 0xFFFFFFFC in
  if RTL_RXBUF_SIZE <=? c then c - RTL_RXBUF_SIZE else c.

(** The frame of [rx_len] bytes at [offset] of the ring, in a local buffer. *)
Definition rx_copy (offset rx_len : Z) : N (list Z) :=
  ring ← rx_ring;
  if offset + rx_len <=? RTL_RXBUF_SIZE then
    memcpy (local_array NET_BUF_SIZE) 0 ring offset rx_len
  else
    let first := RTL_RXBUF_SIZE - offset in
    frame ← memcpy (local_array NET_BUF_SIZE) 0 ring offset first;
    ring ← rx_ring;
    memcpy frame first ring 0 (rx_len - first).

Section Receive.
(** [net_receive]. *)
Variable receive : list Z -> Z -> N unit.
(** The number of frames taken in one call. *)
Variable fuel : nat.

Definition rtl8139_rx : N unit :=
  locals (while_ fuel tt (fun _ =>
    c ← rtl_read8 RTL_CMD;
    if Z.land c RTL_CMD_RX_BUF_EMPTY =? 0 then
      r ← gets nic;
      ring ← rx_ring;
      status ← ld32 ring (rx_cur r);
      let rx_len := Z.land (Z.shiftr status 16) 0x3FFF in
      let offset := (rx_cur r + 4) mod RTL_RXBUF_SIZE in
      if (rx_len =? 0) || (NET_BUF_SIZE - 4 <? rx_len) then mret (Brk tt)
      else
        let cur := rx_advance (rx_cur r) rx_len in
        upd_nic (set_rx_cur cur);;
        let nextcap := if 16 <=? cur then cur - 16 else RTL_RXBUF_SIZE + cur - 16 in
        rtl_write16 RTL_CAPR nextcap;;
        if negb (Z.land status 0x8000 =? 0) then mret (Cont tt)
        else
          frame ← rx_copy offset rx_len;
          receive frame rx_len;;
          mret (Cont tt)
    else mret (Brk tt)));;
  rtl_write8 RTL_CMD (Z.lor RTL_CMD_RX_EN RTL_CMD_TX_EN).

Definition rtl8139_irq_handler : N unit :=
  status ← rtl_read16 RTL_ISR;
  (if negb (Z.land status RTL_ISR_RX_OK =? 0) then rtl8139_rx else mret tt);;
  (if negb (Z.land status RTL_ISR_RX_OVERFLOW =? 0) then rtl8139_rx else mret tt);;
  rtl_write16 RTL_ISR status.

Definition rtl8139_poll_with : N unit :=
  r ← gets nic;
  if rtl_up r =? 0 then mret tt
  else
    isr ← rtl_read16 RTL_ISR;
    if negb (Z.land isr (Z.lor RTL_ISR_RX_OK RTL_ISR_RX_OVERFLOW) =? 0) then rtl8139_irq_handler
    else mret tt.
End Receive.

(** * Set-up and transmission *)

(** [irq_routines[irq] = handler]; the handler's address is an argument. *)
Definition irq_register (irq handler : Z) : N unit :=
  guard_or OutOfBounds (0 <= irq < 16);;
  modify (fun s => set_irq_routines (wr (irq_routines s) irq handler) s).

Definition rtl8139_init (fuel : nat) (handler : Z) (dev : pci_device_t) : N Z :=
  upd_nic (set_rtl_base (u16 (Z.land (bar0 dev) 0xFFFFFFFE)) 0);;
  pci_write (bus dev) (slot dev) (func dev) 0x04 7;;
  rtl_write8 RTL_CONFIG0 0;;
  rtl_write8 RTL_CONFIG1 0;;
  rtl8139_reset fuel;;
  locals (for_ (span 0 6) 0 tt (fun i _ =>
    r ← gets nic;
    b ← (if negb (rtl_mem_base r =? 0) then v ← hw_get (mmio_read (u32 (rtl_mem_base r + RTL_MAC0 + i)) 1); mret (u8 v)
         else inb (rtl_io_base r + RTL_MAC0 + i));
    upd_iface (fun f => set_mac (wr (mac f) i b) f);;
    mret (Cont tt)));;
  rtl_write16 RTL_IMR 0;;
  rtl_write32 RTL_TXCONF 0x03000640;;
  rtl_write32 RTL_RBSTART rx_buffer_addr;;
  rtl_write32 RTL_RXCONF 0x000E;;
  upd_nic (set_rx_cur 0);;
  rtl_write8 RTL_CMD (Z.lor RTL_CMD_RX_EN RTL_CMD_TX_EN);;
  rtl_write16 RTL_IMR 0x0075;;
  (if negb (irq_line dev =? 0) then irq_register (irq_line dev) handler else mret tt);;
  upd_nic (set_rtl_up 1);;
  mret 0.

Definition rtl8139_tx (data : list Z) (len : Z) : N Z :=
  r ← gets nic;
  if (rtl_up r =? 0) || (len =? 0) || (NET_BUF_SIZE <? len) then mret (-1)
  else
    let len := if len <? 60 then 60 else len in
    let txs := u16 (RTL_TXSTATUS0 + 4 * tx_cur r) in
    let txa := u16 (RTL_TXADDR0 + 4 * tx_cur r) in
    locals (for_ (span 0 1000) 0 tt (fun _ _ =>
      v ← rtl_read32 txs;
      if negb (Z.land v 0x2000 =? 0) then mret (Brk tt) else mret (Cont tt)));;
    buf ← memcpy (tx_buffer r) 0 data 0 len;
    upd_nic (set_tx_buffer buf);;
    hw_put (tx_dma buf);;
    rtl_write32 txa tx_buffer_addr;;
    rtl_write32 txs len;;
    upd_nic (fun r => set_tx_cur (Z.land (tx_cur r + 1) 3) r);;
    mret 0.
End Operations.
