(* ===== verification/Net.v ===== *)
(** The network stack: [src/kernel/net/network.c], from Ethernet and ARP to
    TCP, DNS and HTTP.

    A packet pointer is the list of the bytes from there to the end of its
    buffer.  A function that waits for the network polls the card, which hands
    received frames back to the stack: [poll] is an argument of the stack, and
    [Net.net_poll] closes the recursion. *)
From Stdlib Require Import ZArith Lia List.
From stdpp Require Import base tactics numbers list gmap strings option.
From S2P Require Import Prelude CString Bytes Ata NetState Rtl8139.
Open Scope Z_scope.

Definition ETH_TYPE_IPV4 : Z := 0x0800.
Definition ETH_TYPE_ARP : Z := 0x0806.
Definition ARP_OP_REQUEST : Z := 1.
Definition ARP_OP_REPLY : Z := 2.
Definition ARP_TIMEOUT_TICKS : Z := 200.
Definition IP_PROTO_ICMP : Z := 1.
Definition IP_PROTO_TCP : Z := 6.
Definition IP_PROTO_UDP : Z := 17.
Definition TCP_FIN : Z := 0x01.
Definition TCP_SYN : Z := 0x02.
Definition TCP_PSH : Z := 0x08.
Definition TCP_ACK : Z := 0x10.

(** * Addresses *)

(** [(uint16_t)((x >> 8) | (x << 8))]: the other byte order; also [htons16]. *)
Definition htons16 (x : Z) : Z := u16 (Z.lor (Z.shiftr x 8) (Z.shiftl x 8)).
Definition htons32 (x : Z) : Z :=
  u32 (Z.lor (Z.lor (Z.lor (Z.land (Z.shiftr x 24) 0xFF) (Z.land (Z.shiftr x 8) 0xFF00))
    (Z.land (Z.shiftl x 8) 0xFF0000)) (Z.land (Z.shiftl x 24) 0xFF000000)).

Definition ip4_to_u32 (ip : list Z) : Z :=
  u32 (Z.lor (Z.lor (Z.lor (Z.shiftl (rd ip 0) 24) (Z.shiftl (rd ip 1) 16)) (Z.shiftl (rd ip 2) 8)) (rd ip 3)).
Definition u32_to_ip4 (v : Z) : list Z :=
  [u8 (Z.land (Z.shiftr v 24) 0xFF); u8 (Z.land (Z.shiftr v 16) 0xFF);
   u8 (Z.land (Z.shiftr v 8) 0xFF); u8 (Z.land v 0xFF)].

(** The one's complement sum of the 16-bit big-endian words, folded and
    complemented: [ip_checksum] and [icmp_checksum]. *)
Definition fold16 {S} (sum : Z) : M S Z :=
  locals (while_ 32 sum (fun sum =>
    if negb (Z.shiftr sum 16 =? 0) then mret (Cont (u32 (Z.land sum 0xFFFF + Z.shiftr sum 16)))
    else mret (Brk sum))).

Definition sum16 {S} (data : list Z) (p len sum : Z) : M S Z :=
  l ← locals (while_ (Z.to_nat len + 1) (p, len, sum) (fun '(p, len, sum) =>
    if 1 <? len then
      hi ← aget data p;
      lo ← aget data (p + 1);
      mret (Cont (p + 2, len - 2, u32 (sum + u16 (Z.lor (Z.shiftl hi 8) lo))))
    else mret (Brk (p, len, sum))));
  let '(p, len, sum) := l in
  if negb (len =? 0) then hi ← aget data p; mret (u32 (sum + u16 (Z.shiftl hi 8)))
  else mret sum.

Definition ip_checksum {S} (data : list Z) (len : Z) : M S Z :=
  sum ← sum16 data 0 len 0;
  sum ← fold16 sum;
  mret (u16 (Z.lnot sum)).
Definition icmp_checksum {S} (data : list Z) (len : Z) : M S Z := ip_checksum data len.

Definition ones_complement {S} (sum : Z) : M S Z := sum ← fold16 sum; mret (u16 (Z.lnot sum)).

Definition tcp_checksum {S} (src_ip dst_ip : list Z) (proto : Z) (tcp : list Z) (tcp_len : Z) : M S Z :=
  sum ← sum16 src_ip 0 4 0;
  sum ← sum16 dst_ip 0 4 sum;
  let sum := u32 (u32 (sum + proto) + tcp_len) in
  sum ← sum16 tcp 0 tcp_len sum;
  ones_complement sum.

(** The [n] bytes at [o]. *)
Definition ldn {S} (l : list Z) (o n : Z) : M S (list Z) :=
  if decide (0 <= o /\ o + n <= lenZ l) then mret (take (Z.to_nat n) (drop (Z.to_nat o) l)) else stuck OutOfBounds.
(** [pkt + o] *)
Definition from (l : list Z) (o : Z) : list Z := drop (Z.to_nat o) l.

(** Four bytes compared, as [memcmp(a.b, b.b, 4) == 0]. *)
Definition ip_eq {S} (a b : list Z) : M S bool := c ← memcmp a b 4; mret (c =? 0).

(** The dotted form of an address; the result and the buffer. *)
Definition ip4_to_string {S} (ip out : list Z) (n : Z) : M S (Z * list Z) :=
  r ← for_ (span 0 4) 0 (0, out) (fun i '(used, out) =>
    l ← (if (0 <? i) && (used + 1 <? n) then out ← aset out used 46; mret (used + 1, out)
         else mret (used, out));
    let '(used, out) := l in
    b ← aget ip i;
    tmp ← itoa_buf b (replicate 4 0);
    tl ← strlen tmp;
    if n <=? used + tl then mret (Ret (-1, out))
    else
      out ← memcpy out used tmp 0 tl;
      mret (Cont (used + tl, out)));
  match r with
  | inr v => mret v
  | inl (used, out) =>
      out ← (if used <? n then aset out used 0 else mret out);
      mret (0, out)
  end.

(** [None] for -1, and the address otherwise. *)
Definition string_to_ip4 {S} (s : list Z) : M S (option (list Z)) :=
  r ← while_ (Datatypes.length s + 1) (0, replicate 4 0, 0, 0) (fun '(p, octets, idx, cur) =>
    c ← aget s p;
    if c =? 0 then mret (Brk (p, octets, idx, cur))
    else if (48 <=? c) && (c <=? 57) then
      let cur := cur * 10 + (c - 48) in
      if 255 <? cur then mret (Ret tt) else mret (Cont (p + 1, octets, idx, cur))
    else if c =? 46 then
      if 3 <=? idx then mret (Ret tt)
      else octets ← aset octets idx cur; mret (Cont (p + 1, octets, idx + 1, 0))
    else mret (Ret tt));
  match r with
  | inr _ => mret None
  | inl (_, octets, idx, cur) =>
      if negb (idx =? 3) then mret None
      else octets ← aset octets 3 cur; mret (Some (map u8 octets))
  end.

Section Stack.
Context {P : Type} `{NicHw P} `{Locals}.
Notation N := (M (net P)).

(** * The interface and Ethernet *)

Definition ETH0 : list Z := [101; 116; 104; 48; 0].
Definition set_ip v i : net_iface_t := mkIface (name i) (mac i) v (netmask i) (gateway i) (dns i) (up i).
Definition set_netmask v i : net_iface_t := mkIface (name i) (mac i) (ip i) v (gateway i) (dns i) (up i).
Definition set_gateway v i : net_iface_t := mkIface (name i) (mac i) (ip i) (netmask i) v (dns i) (up i).
Definition set_dns v i : net_iface_t := mkIface (name i) (mac i) (ip i) (netmask i) (gateway i) v (up i).
Definition set_ifname v i : net_iface_t := mkIface v (mac i) (ip i) (netmask i) (gateway i) (dns i) (up i).

(** Store the address when the text is one. *)
Definition parse_into (text : list Z) (f : list Z -> net_iface_t -> net_iface_t) : N unit :=
  a ← string_to_ip4 text;
  match a with Some v => upd_iface (f v) | None => mret tt end.

(** "10.0.2.15", "255.255.255.0", "10.0.2.2" and "10.0.2.3". *)
Definition net_init : N unit :=
  i ← gets net_iface;
  nm ← strcpy (name i) ETH0;
  upd_iface (set_ifname nm);;
  m ← bzero (mac i) 0 6;
  upd_iface (set_mac m);;
  parse_into [49; 48; 46; 48; 46; 50; 46; 49; 53; 0] set_ip;;
  parse_into [50; 53; 53; 46; 50; 53; 53; 46; 50; 53; 53; 46; 48; 0] set_netmask;;
  parse_into [49; 48; 46; 48; 46; 50; 46; 50; 0] set_gateway;;
  parse_into [49; 48; 46; 48; 46; 50; 46; 51; 0] set_dns;;
  upd_iface (set_up 0).

Definition net_link_up (m : list Z) : N unit :=
  upd_iface (set_mac m);;
  upd_iface (set_up 1).

Definition net_send_frame (frame : list Z) (len : Z) : N Z :=
  i ← gets net_iface;
  if up i =? 0 then mret (-1) else rtl8139_tx frame len.

Definition eth_send (dst : list Z) (ethertype : Z) (payload : list Z) (len : Z) : N Z :=
  if NET_PAYLOAD_MAX <? len then mret (-1)
  else
    i ← gets net_iface;
    frame ← memcpy (local_array NET_BUF_SIZE) 0 dst 0 6;
    frame ← memcpy frame 6 (mac i) 0 6;
    frame ← aset frame 12 (u8 (Z.land (Z.shiftr ethertype 8) 0xFF));
    frame ← aset frame 13 (u8 (Z.land ethertype 0xFF));
    frame ← memcpy frame 14 payload 0 len;
    net_send_frame frame (14 + len).

(** * ARP *)

Definition arp_entry_at (l : list arp_entry_t) (i : Z) : arp_entry_t := nth (Z.to_nat i) l zero_arp.

Definition arp_cache_boot : N unit :=
  upd_arp (set_cache (replicate 8 zero_arp));;
  upd_arp (set_pending 0).

(** The first valid entry for the address. *)
Definition arp_find (ip : list Z) : N (option Z) :=
  r ← for_ (span 0 ARP_CACHE_SIZE) 0 tt (fun i _ =>
    a ← gets n_arp;
    let e := arp_entry_at (arp_cache a) i in
    m ← (if negb (valid e =? 0) then ip_eq (a_ip e) ip else mret false);
    if (m : bool) then mret (Ret i) else mret (Cont tt));
  match r with inr i => mret (Some i) | inl _ => mret None end.

(** An empty slot, or the one with the smallest age. *)
Definition arp_victim : N Z :=
  l ← locals (for_ (span 0 ARP_CACHE_SIZE) 0 (0, 0xFFFFFFFF) (fun i '(oldest, oldest_age) =>
    a ← gets n_arp;
    let e := arp_entry_at (arp_cache a) i in
    if valid e =? 0 then mret (Brk (i, oldest_age))
    else if age e <? oldest_age then mret (Cont (i, age e))
    else mret (Cont (oldest, oldest_age))));
  mret (fst l).

Definition upd_cache (i : Z) (e : arp_entry_t) : N unit :=
  upd_arp (fun a => set_cache (<[Z.to_nat i := e]> (arp_cache a)) a).

Definition arp_cache_add (ip m : list Z) : N unit :=
  f ← arp_find ip;
  match f with
  | Some i =>
      a ← gets n_arp;
      t ← timer_ticks;
      let e := arp_entry_at (arp_cache a) i in
      upd_cache i (mkArpEntry (a_ip e) m (valid e) t)
  | None =>
      oldest ← arp_victim;
      t ← timer_ticks;
      upd_cache oldest (mkArpEntry ip m 1 t);;
      a ← gets n_arp;
      p ← (if negb (arp_pending a =? 0) then ip_eq ip (arp_pending_ip a) else mret false);
      if (p : bool) then
        upd_arp (set_pending_mac m);;
        upd_arp (set_pending 0)
      else mret tt
  end.

(** The address found ([None] for -1). *)
Definition arp_cache_lookup (ip : list Z) : N (option (list Z)) :=
  f ← arp_find ip;
  a ← gets n_arp;
  mret (option_map (fun i => a_mac (arp_entry_at (arp_cache a) i)) f).

(** The 28 bytes of an [arp_packet_t]; the 16-bit fields are given as stored. *)
Definition arp_packet (htype ptype opcode : Z) (sha spa tha tpa : list Z) : N (list Z) :=
  let pkt := local_array 28 in
  pkt ← st16 pkt 0 htype;
  pkt ← st16 pkt 2 ptype;
  pkt ← st8 pkt 4 6;
  pkt ← st8 pkt 5 4;
  pkt ← st16 pkt 6 opcode;
  pkt ← memcpy pkt 8 sha 0 6;
  pkt ← memcpy pkt 14 spa 0 4;
  pkt ← memcpy pkt 18 tha 0 6;
  memcpy pkt 24 tpa 0 4.

Definition arp_send_request (target_ip : list Z) : N Z :=
  i ← gets net_iface;
  pkt ← arp_packet (htons16 1) (htons16 ETH_TYPE_IPV4) (htons16 ARP_OP_REQUEST)
          (mac i) (ip i) (replicate 6 0) target_ip;
  eth_send (replicate 6 0) ETH_TYPE_ARP pkt 28.

Definition arp_handle (pkt : list Z) (len : Z) : N Z :=
  if len <? 28 then mret (-1)
  else
    op ← ld16 pkt 6;
    ht ← ld16 pkt 0;
    if negb (htons16 ht =? 1) then mret (-1)
    else
      spa ← ldn pkt 14 4;
      sha ← ldn pkt 8 6;
      arp_cache_add (u32_to_ip4 (ip4_to_u32 spa)) sha;;
      if htons16 op =? ARP_OP_REQUEST then
        tpa ← ldn pkt 24 4;
        i ← gets net_iface;
        us ← ip_eq (u32_to_ip4 (ip4_to_u32 tpa)) (ip i);
        if negb (us : bool) then mret 0
        else
          pt ← ld16 pkt 2;
          tha ← ldn pkt 18 6;
          reply ← arp_packet ht pt (htons16 ARP_OP_REPLY) tha tpa sha spa;
          eth_send sha ETH_TYPE_ARP reply 28;;
          mret 0
      else mret 0.

(** The rows that [arp_cache_dump] prints: address and MAC. *)
Definition MAC_FMT : list Z :=
  [37; 48; 50; 120; 58; 37; 48; 50; 120; 58; 37; 48; 50; 120; 58; 37; 48; 50; 120; 58; 37; 48; 50; 120; 58; 37; 48; 50; 120; 0].
Definition arp_cache_dump : N (list (list Z * list Z)) :=
  locals (for_ (span 0 ARP_CACHE_SIZE) 0 [] (fun i rows =>
    a ← gets n_arp;
    let e := arp_entry_at (arp_cache a) i in
    if valid e =? 0 then mret (Cont rows)
    else
      ia ← ip4_to_string (a_ip e) (local_array 16) 16;
      sa ← snprintf (local_array 16) 16 MAC_FMT (map (fun k => ArgInt (rd (a_mac e) k)) [0; 1; 2; 3; 4; 5]);
      mret (Cont (rows ++ [(snd ia, fst sa)])))).

Definition is_local_network (a : list Z) (i : net_iface_t) : bool :=
  let mask := ip4_to_u32 (netmask i) in
  Z.land (ip4_to_u32 a) mask =? Z.land (ip4_to_u32 (ip i)) mask.
End Stack.

Section Protocols.
Context {P : Type} `{NicHw P} `{Locals}.
Notation N := (M (net P)).

(** [rtl8139_poll], with everything the received frames cause. *)
Variable poll : N unit.
(** A call through a pointer registered with [udp_bind]. *)
Variable call_cb : Z -> list Z -> Z -> N unit.
(** The rounds of a loop that waits for the network. *)
Variable fuel : nat.

(** [while (!ready) { rtl8139_poll(); if (stop) break; if (cancel_input) break;
    if (timer_ticks - start >= timeout) break; }] *)
Definition wait_for (ready stop : N bool) (start timeout : Z) : N unit :=
  locals (while_ fuel tt (fun _ =>
    r ← ready;
    if (r : bool) then mret (Brk tt)
    else
      poll;;
      b ← stop;
      if (b : bool) then mret (Brk tt)
      else
        c ← cancel_input;
        if negb (c =? 0) then mret (Brk tt)
        else
          t ← timer_ticks;
          if timeout <=? u32 (t - start) then mret (Brk tt) else mret (Cont tt))).
Definition never : N bool := mret false.

(** The MAC ([None] for -1). *)
Definition arp_resolve (ip : list Z) : N (option (list Z)) :=
  c ← arp_cache_lookup ip;
  match c with
  | Some m => mret (Some m)
  | None =>
      upd_arp (set_pending 1);;
      upd_arp (set_pending_ip ip);;
      start ← timer_ticks;
      r ← arp_send_request ip;
      if negb (r =? 0) then upd_arp (set_pending 0);; mret None
      else
        wait_for (a ← gets n_arp; mret (arp_pending a =? 0)) never start ARP_TIMEOUT_TICKS;;
        a ← gets n_arp;
        if negb (arp_pending a =? 0) then upd_arp (set_pending 0);; mret None
        else mret (Some (arp_pending_mac a))
  end.

(** * IPv4 *)

(** The header with its checksum. *)
Definition ipv4_header (src dst : list Z) (proto total : Z) : N (list Z) :=
  hdr ← bzero (local_array 20) 0 20;
  hdr ← st8 hdr 0 0x45;
  hdr ← st8 hdr 1 0;
  hdr ← st16 hdr 2 (htons16 total);
  hdr ← st16 hdr 4 (htons16 0x4242);
  hdr ← st16 hdr 6 0;
  hdr ← st8 hdr 8 64;
  hdr ← st8 hdr 9 proto;
  hdr ← memcpy hdr 12 src 0 4;
  hdr ← memcpy hdr 16 dst 0 4;
  hdr ← st16 hdr 10 0;
  c1 ← ip_checksum hdr 20;
  c2 ← ip_checksum hdr 20;
  st16 hdr 10 (u16 (Z.lor (Z.shiftr c1 8) (Z.shiftl c2 8))).

Definition ipv4_send (dst : list Z) (proto : Z) (payload : list Z) (len : Z) : N Z :=
  i ← gets net_iface;
  if (up i =? 0) || (NET_PAYLOAD_MAX - 20 <? len) then mret (-1)
  else
    hdr ← ipv4_header (ip i) dst proto (u16 (20 + len));
    pkt ← memcpy (local_array NET_BUF_SIZE) 0 hdr 0 20;
    pkt ← memcpy pkt 20 payload 0 len;
    m ← arp_resolve (if is_local_network dst i then dst else gateway i);
    match m with
    | None => mret (-1)
    | Some m => eth_send m ETH_TYPE_IPV4 pkt (20 + len)
    end.

(** * ICMP *)

Definition icmp_packet (type csum id seq : Z) : N (list Z) :=
  let p := local_array 8 in
  p ← st8 p 0 type;
  p ← st8 p 1 0;
  p ← st16 p 2 csum;
  p ← st16 p 4 id;
  st16 p 6 seq.

Definition icmp_handle (pkt : list Z) (len : Z) (src : list Z) : N Z :=
  if len <? 8 then mret (-1)
  else
    ty ← aget pkt 0;
    if ty =? 8 then
      id ← ld16 pkt 4;
      seq ← ld16 pkt 6;
      reply ← icmp_packet 0 0 id seq;
      let body := from pkt 8 in
      let blen := len - 8 in
      let n := if 512 - 8 <? blen then 512 - 8 else blen in
      c1 ← icmp_checksum reply 8;
      c2 ← icmp_checksum reply 8;
      reply ← st16 reply 2 (u16 (Z.lor (Z.shiftr c1 8) (Z.shiftl c2 8)));
      tmp ← memcpy (local_array 512) 0 reply 0 8;
      tmp ← memcpy tmp 8 body 0 n;
      csum ← icmp_checksum tmp (8 + n);
      reply ← st16 reply 2 (htons16 csum);
      out ← memcpy (local_array 512) 0 reply 0 8;
      out ← memcpy out 8 body 0 n;
      ipv4_send src IP_PROTO_ICMP out (8 + n);;
      mret 0
    else if ty =? 0 then
      w ← gets n_icmp;
      ours ← (if icmp_waiting w =? 0 then mret false
              else
                id ← ld16 pkt 4;
                if negb (id =? icmp_wait_id w) then mret false
                else seq ← ld16 pkt 6; mret (seq =? icmp_wait_seq w));
      (if (ours : bool) then upd_icmp (set_reply_recv 1) else mret tt);;
      mret 0
    else mret 0.

(** The round trip in ticks ([None] for -1). *)
Definition icmp_ping (dst : list Z) : N (option Z) :=
  t ← timer_ticks;
  let id := u16 (Z.land t 0xFFFF) in
  req ← icmp_packet 8 0 id 1;
  csum ← icmp_checksum req 8;
  req ← st16 req 2 (htons16 csum);
  start ← timer_ticks;
  upd_icmp (fun _ => mkIcmp 1 id 1 start 0);;
  r ← ipv4_send dst IP_PROTO_ICMP req 8;
  if negb (r =? 0) then upd_icmp (set_waiting 0);; mret None
  else
    wait_for (i ← gets n_icmp; mret (negb (icmp_reply_recv i =? 0))) never start 60;;
    upd_icmp (set_waiting 0);;
    i ← gets n_icmp;
    if icmp_reply_recv i =? 0 then mret None
    else t ← timer_ticks; mret (Some (u32 (t - icmp_wait_start i))).

(** * UDP *)

Definition bind_at (l : list udp_bind_slot_t) (i : Z) : udp_bind_slot_t := nth (Z.to_nat i) l zero_bind.

(** The index of the slot. *)
Definition udp_find_bind (p : Z) : N (option Z) :=
  r ← for_ (span 0 UDP_MAX_BIND) 0 tt (fun i _ =>
    u ← gets n_udp;
    let b := bind_at (udp_binds u) i in
    if negb (used b =? 0) && (port b =? p) then mret (Ret i) else mret (Cont tt));
  match r with inr i => mret (Some i) | inl _ => mret None end.

Definition udp_bind (p f : Z) : N Z :=
  r ← for_ (span 0 UDP_MAX_BIND) 0 tt (fun i _ =>
    u ← gets n_udp;
    if used (bind_at (udp_binds u) i) =? 0 then
      upd_udp (fun u => set_binds (<[Z.to_nat i := mkBind p f 1]> (udp_binds u)) u);;
      mret (Ret 0)
    else mret (Cont tt));
  match r with inr v => mret v | inl _ => mret (-1) end.

Definition udp_send (dst : list Z) (src_port dst_port : Z) (payload : list Z) (len : Z) : N Z :=
  if NET_PAYLOAD_MAX - 20 - 8 <? len then mret (-1)
  else
    hdr ← st16 (local_array 8) 0 (htons16 src_port);
    hdr ← st16 hdr 2 (htons16 dst_port);
    hdr ← st16 hdr 4 (htons16 (u16 (8 + len)));
    hdr ← st16 hdr 6 0;
    dat ← memcpy (local_array NET_BUF_SIZE) 0 hdr 0 8;
    dat ← memcpy dat 8 payload 0 len;
    ipv4_send dst IP_PROTO_UDP dat (8 + len).

(** [*g_active_tx] *)
Definition tx_deref (a : Z) : N udp_transaction_t :=
  u ← gets n_udp;
  match udp_txs u !! a with Some t => mret t | None => stuck PageFault end.
Definition tx_put (a : Z) (t : udp_transaction_t) : N unit :=
  upd_udp (fun u => set_txs (<[a := t]> (udp_txs u)) u).

Definition udp_handle (pkt : list Z) (len : Z) : N Z :=
  if len <? 8 then mret (-1)
  else
    dp ← ld16 pkt 2;
    let dst_port := htons16 dp in
    let payload := from pkt 8 in
    let plen := len - 8 in
    u ← gets n_udp;
    let a := g_active_tx u in
    ours ← (if a =? 0 then mret false else t ← tx_deref a; mret (local_port t =? dst_port));
    if (ours : bool) then
      t ← tx_deref a;
      (if plen <=? 512 then
         r ← memcpy (reply t) 0 payload 0 plen;
         tx_put a (mkTx (tx_remote t) (remote_port t) (local_port t) r plen 1)
       else mret tt);;
      mret 0
    else
      b ← udp_find_bind dst_port;
      match b with
      | Some i =>
          u ← gets n_udp;
          let f := cb (bind_at (udp_binds u) i) in
          (if f =? 0 then mret tt else call_cb f payload plen);;
          mret 0
      | None => mret 0
      end.

(** [tx] is the address of the transaction, not null. *)
Definition udp_exchange (dst : list Z) (dst_port : Z) (payload : list Z) (len local : Z)
    (tx timeout : Z) : N Z :=
  t ← tx_deref tx;
  tx_put tx (mkTx dst dst_port local (reply t) 0 0);;
  upd_udp (set_active_tx tx);;
  start ← timer_ticks;
  r ← udp_send dst local dst_port payload len;
  if negb (r =? 0) then upd_udp (set_active_tx 0);; mret (-1)
  else
    wait_for (t ← tx_deref tx; mret (negb (done t =? 0))) never start timeout;;
    upd_udp (set_active_tx 0);;
    t ← tx_deref tx;
    mret (if negb (done t =? 0) then 0 else -1).

(** * TCP *)

(** [*c] *)
Definition conn (c : Z) : N tcp_conn_t :=
  t ← gets n_tcp;
  match tcp_conns t !! c with Some v => mret v | None => stuck PageFault end.
Definition conn_put (c : Z) (v : tcp_conn_t) : N unit :=
  upd_tcp (fun t => set_conns (<[c := v]> (tcp_conns t)) t).
Definition conn_upd (c : Z) (f : tcp_conn_t -> tcp_conn_t) : N unit := v ← conn c; conn_put c (f v).

(** The segment in its buffer, with its checksum, and its length. *)
Definition tcp_segment (local : list Z) (c : tcp_conn_t) (flags : Z) (data : list Z) (len : Z) : N (list Z * Z) :=
  buf ← bzero (local_array NET_BUF_SIZE) 0 NET_BUF_SIZE;
  buf ← st16 buf 0 (htons16 (src_port c));
  buf ← st16 buf 2 (htons16 (dst_port c));
  buf ← st32 buf 4 (htons32 (my_seq c));
  buf ← st32 buf 8 (htons32 (my_ack c));
  buf ← st8 buf 12 (u8 (Z.shiftl 5 4));
  buf ← st8 buf 13 flags;
  buf ← st16 buf 14 (htons16 65535);
  buf ← st16 buf 16 0;
  buf ← st16 buf 18 0;
  let total := u32 (20 + len) in
  buf ← (if negb (len =? 0) then memcpy buf 20 data 0 len else mret buf);
  csum ← tcp_checksum local (remote c) IP_PROTO_TCP buf total;
  buf ← st16 buf 16 (htons16 csum);
  mret (buf, total).

Definition tcp_send_seg (c flags : Z) (data : list Z) (len : Z) : N Z :=
  v ← conn c;
  i ← gets net_iface;
  seg ← tcp_segment (ip i) v flags data len;
  ret ← ipv4_send (remote v) IP_PROTO_TCP (fst seg) (snd seg);
  (if (ret =? 0) && negb (Z.land flags TCP_SYN =? 0)
   then conn_upd c (fun v => set_my_seq (u32 (my_seq v + 1)) v) else mret tt);;
  mret ret.

Definition zero_conn : tcp_conn_t :=
  mkConn 0 (replicate 4 0) 0 0 0 0 0 (replicate 4096 0) 0 0 0 0.

Definition tcp_connect (c : Z) (dst : list Z) (dport : Z) : N Z :=
  t1 ← timer_ticks;
  t2 ← timer_ticks;
  conn_put c (mkConn 1 dst (u16 (49152 + t1 mod 5000)) dport (u32 (t2 + 1)) 0 0
    (inbuf zero_conn) 0 0 0 0);;
  upd_tcp (set_current c);;
  start ← timer_ticks;
  r ← tcp_send_seg c TCP_SYN [] 0;
  if negb (r =? 0) then
    conn_upd c (set_conn_active 0);;
    upd_tcp (set_current 0);;
    mret (-1)
  else
    conn_upd c (fun v => set_established (established v) 1 v);;
    wait_for (v ← conn c; mret (negb (established v =? 0)))
      (v ← conn c; mret (negb (closed v =? 0))) start 500;;
    v ← conn c;
    if established v =? 0 then
      conn_upd c (set_conn_active 0);;
      upd_tcp (set_current 0);;
      mret (-1)
    else mret 0.

Definition tcp_send (c : Z) (data : list Z) (len : Z) : N Z :=
  v ← conn c;
  if established v =? 0 then mret (-1)
  else
    ret ← tcp_send_seg c (Z.lor TCP_ACK TCP_PSH) data len;
    (if ret =? 0 then conn_upd c (fun v => set_my_seq (u32 (my_seq v + len)) v) else mret tt);;
    mret ret.

(** The result and the buffer; the data goes to [buf + off]. *)
Definition tcp_recv (c : Z) (buf : list Z) (off len timeout : Z) : N (Z * list Z) :=
  start ← timer_ticks;
  wait_for (v ← conn c; mret (negb (inlen v =? 0) || negb (closed v =? 0))) never start timeout;;
  v ← conn c;
  if inlen v =? 0 then mret (if negb (closed v =? 0) then 0 else -1, buf)
  else
    let n := if inlen v <? len then inlen v else len in
    buf ← memcpy buf off (inbuf v) 0 n;
    inb ← memmove (inbuf v) 0 n (inlen v - n);
    conn_put c (set_inbuf inb (inlen v - n) v);;
    mret (s32 n, buf).

Definition tcp_close (c : Z) : N unit :=
  v ← conn c;
  (if negb (established v =? 0) then tcp_send_seg c (Z.lor TCP_ACK TCP_FIN) [] 0;; mret tt else mret tt);;
  conn_upd c (set_closed 1);;
  conn_upd c (set_conn_active 0);;
  t ← gets n_tcp;
  if current_conn t =? c then upd_tcp (set_current 0) else mret tt.

(** The payload of a segment is appended when it fits, and acknowledged. *)
Definition tcp_deliver (c : Z) (payload : list Z) (plen : Z) : N unit :=
  v ← conn c;
  if u32 (inlen v + plen) <=? TCP_INBUF then
    b ← memcpy (inbuf v) (inlen v) payload 0 plen;
    conn_put c (set_inbuf b (u32 (inlen v + plen)) v);;
    conn_upd c (fun v => set_acks (their_seq v) (u32 (my_ack v + plen)) v);;
    tcp_send_seg c TCP_ACK [] 0;;
    mret tt
  else mret tt.

Definition tcp_handle (pkt : list Z) (len : Z) : N Z :=
  if len <? 20 then mret (-1)
  else
    t ← gets n_tcp;
    let c := current_conn t in
    if c =? 0 then mret (-1)
    else
      v ← conn c;
      if active v =? 0 then mret (-1)
      else
        dp ← ld16 pkt 2;
        if negb (htons16 dp =? src_port v) then mret (-1)
        else
          flags ← ld8 pkt 13;
          off ← ld8 pkt 12;
          let data_off := u8 (Z.shiftr off 4 * 4) in
          let data_off := if data_off <? 20 then 20 else data_off in
          if len <? data_off then mret (-1)
          else
            sq ← ld32 pkt 4;
            let seq := htons32 sq in
            let payload := from pkt data_off in
            let plen := len - data_off in
            if negb (Z.land flags TCP_SYN =? 0) then
              conn_upd c (set_acks seq (u32 (seq + 1)));;
              tcp_send_seg c TCP_ACK [] 0;;
              conn_upd c (set_established 1 0);;
              mret 0
            else
              (if 0 <? plen then tcp_deliver c payload plen else mret tt);;
              (if negb (Z.land flags TCP_FIN =? 0) then conn_upd c (set_closed 1) else mret tt);;
              mret 0.

(** * Received packets *)

Definition ipv4_handle (pkt : list Z) (len : Z) : N Z :=
  if len <? 20 then mret (-1)
  else
    tl ← ld16 pkt 2;
    let total := htons16 tl in
    d ← ldn pkt 16 4;
    i ← gets net_iface;
    us ← ip_eq (u32_to_ip4 (ip4_to_u32 d)) (ip i);
    if negb (us : bool) then mret 0
    else
      let total := if len <? total then u16 len else total in
      if total <? 20 then mret (-1)
      else
        v ← ld8 pkt 0;
        let ihl := u8 (Z.land v 0x0F * 4) in
        if ihl <? 20 then mret (-1)
        else
          proto ← ld8 pkt 9;
          if proto =? IP_PROTO_ICMP then
            src ← ldn pkt 12 4;
            icmp_handle (from pkt ihl) (u32 (total - ihl)) src
          else if proto =? IP_PROTO_UDP then udp_handle (from pkt ihl) (u32 (total - ihl))
          else if proto =? IP_PROTO_TCP then tcp_handle (from pkt ihl) (u32 (total - ihl))
          else mret (-1).

Definition net_handle_frame (frame : list Z) (len : Z) : N Z :=
  if len <? 14 then mret (-1)
  else
    ty ← ld16 frame 12;
    let type := htons16 ty in
    i ← gets net_iface;
    (if forallb (fun b => b =? 0) (mac i) then
       m ← memcpy (mac i) 0 frame 6 6;
       upd_iface (set_mac m)
     else mret tt);;
    if type =? ETH_TYPE_ARP then arp_handle (from frame 14) (len - 14)
    else if type =? ETH_TYPE_IPV4 then ipv4_handle (from frame 14) (len - 14)
    else mret (-1).

Definition net_receive (frame : list Z) (len : Z) : N unit := net_handle_frame frame len;; mret tt.
End Protocols.

(** * DNS *)

Section Names.
Context {S : Type}.

(** The name in labels from [out + o]: the buffer and the length. *)
Definition dns_build_name (name out : list Z) (off : Z) : M S (list Z * Z) :=
  l ← locals (while_ (Datatypes.length name + 1) (0, 0, out) (fun '(lab_start, o, out) =>
    c ← aget name lab_start;
    if c =? 0 then mret (Brk (lab_start, o, out))
    else
      lab_end ← locals (while_ (Datatypes.length name + 1) lab_start (fun e =>
        c ← aget name e;
        if negb (c =? 0) && negb (c =? 46) then mret (Cont (e + 1)) else mret (Brk e)));
      out ← aset out (off + o) (u8 (lab_end - lab_start));
      l ← locals (for_ (span lab_start lab_end) lab_start (o + 1, out) (fun i '(o, out) =>
        c ← aget name i;
        out ← aset out (off + o) c;
        mret (Cont (o + 1, out))));
      let '(o, out) := l in
      c ← aget name lab_end;
      if c =? 0 then mret (Brk (lab_start, o, out)) else mret (Cont (lab_end + 1, o, out))));
  let '(_, o, out) := l in
  out ← aset out (off + o) 0;
  mret (out, o + 1).

(** The offset after the name, [None] for -1. *)
Definition dns_skip_name (pkt : list Z) (pktlen offset : Z) : M S (option Z) :=
  r ← while_ (Z.to_nat pktlen + 1) offset (fun offset =>
    if pktlen <=? offset then mret (Ret None)
    else
      len ← aget pkt offset;
      if Z.land len 0xC0 =? 0xC0 then mret (Ret (Some (u32 (offset + 2))))
      else if len =? 0 then mret (Ret (Some (u32 (offset + 1))))
      else if negb (Z.land len 0xC0 =? 0) then mret (Ret None)
      else
        let offset := u32 (offset + (1 + len)) in
        if pktlen <=? offset then mret (Ret None) else mret (Cont offset));
  match r with inr v => mret v | inl _ => mret None end.

(** A 16-bit field in network order. *)
Definition be16 (pkt : list Z) (o : Z) : M S Z :=
  hi ← aget pkt o;
  lo ← aget pkt (o + 1);
  mret (u16 (Z.lor (Z.shiftl hi 8) lo)).

(** The first A record among [ans] records from [offset]. *)
Definition dns_answers (resp : list Z) (rlen ans offset : Z) : M S (option (list Z)) :=
  r ← for_ (span 0 ans) 0 offset (fun _ offset =>
    if rlen <=? offset then mret (Brk offset)
    else
      n ← dns_skip_name resp rlen offset;
      match n with
      | None => mret (Ret None)
      | Some offset =>
          if rlen <? u32 (offset + 10) then mret (Ret None)
          else
            type ← be16 resp offset;
            rdlen ← be16 resp (offset + 8);
            let offset := u32 (offset + 10) in
            if (type =? 1) && (rdlen =? 4) && (u32 (offset + 4) <=? rlen) then
              a ← aget resp offset;
              b ← aget resp (offset + 1);
              c ← aget resp (offset + 2);
              d ← aget resp (offset + 3);
              mret (Ret (Some [a; b; c; d]))
            else mret (Cont (u32 (offset + rdlen)))
      end);
  match r with inr v => mret v | inl _ => mret None end.

(** The first A record of the reply of [rlen] bytes. *)
Definition dns_parse_reply (resp : list Z) (rlen : Z) : M S (option (list Z)) :=
  if rlen <? 12 then mret None
  else
    qd ← be16 resp 4;
    ans ← be16 resp 6;
    r ← for_ (span 0 qd) 0 12 (fun _ offset =>
      if rlen <=? offset then mret (Brk offset)
      else
        n ← dns_skip_name resp rlen offset;
        match n with
        | None => mret (Ret None)
        | Some next => mret (Cont (u32 (next + 4)))
        end);
    match r with
    | inr v => mret v
    | inl offset => dns_answers resp rlen ans offset
    end.

(** The query for the A record of the name, and its length. *)
Definition dns_query `{Locals} (name : list Z) (id : Z) : M S (list Z * Z) :=
  q ← bzero (local_array 512) 0 512;
  q ← aset q 0 (u8 (Z.shiftr id 8));
  q ← aset q 1 (u8 (Z.land id 0xFF));
  q ← aset q 2 1;
  q ← aset q 3 0;
  q ← aset q 4 0;
  q ← aset q 5 1;
  q ← bzero q 6 6;
  r ← dns_build_name name q 12;
  let '(q, nlen) := r in
  let hlen := 12 + nlen in
  q ← aset q hlen 0;
  q ← aset q (hlen + 1) 1;
  q ← aset q (hlen + 2) 0;
  q ← aset q (hlen + 3) 1;
  mret (q, hlen + 4).

(** * URLs and responses *)

(** The offset of the first occurrence, [None] for the null pointer. *)
Definition strstr_c (hay needle : list Z) : M S (option Z) :=
  n0 ← aget needle 0;
  if n0 =? 0 then mret (Some 0)
  else
    r ← while_ (Datatypes.length hay + 1) 0 (fun hp =>
      c ← aget hay hp;
      if c =? 0 then mret (Brk hp)
      else
        l ← locals (while_ (Datatypes.length needle + 1) (hp, 0) (fun '(h, n) =>
          a ← aget hay h;
          if a =? 0 then mret (Brk (h, n))
          else
            b ← aget needle n;
            if negb (b =? 0) && (a =? b) then mret (Cont (h + 1, n + 1)) else mret (Brk (h, n))));
        e ← aget needle (snd l);
        if e =? 0 then mret (Ret hp) else mret (Cont (hp + 1)));
    match r with inr v => mret (Some v) | inl _ => mret None end.

Definition HTTP_PORT : Z := 80.
(** "http://" *)
Definition HTTP_SCHEME : list Z := [104; 116; 116; 112; 58; 47; 47; 0].
Definition SLASH : list Z := [47; 0].

(** The host, the port and the path; [None] for -1.  [*path] is a part of the
    URL or the string "/". *)
Definition parse_url `{Locals} (url host : list Z) (host_sz : Z) : M S (option (list Z * Z * list Z)) :=
  c ← strncmp url HTTP_SCHEME 7;
  l ← locals (while_ (Datatypes.length url + 1) ((if c =? 0 then 7 else 0), local_array 128, 0)
        (fun '(p, hostbuf, hi) =>
    c ← aget url p;
    if negb (c =? 0) && negb (c =? 47) && negb (c =? 58) && (hi <? host_sz - 1) then
      hostbuf ← aset hostbuf hi c;
      mret (Cont (p + 1, hostbuf, hi + 1))
    else mret (Brk (p, hostbuf, hi))));
  let '(p, hostbuf, hi) := l in
  hostbuf ← aset hostbuf hi 0;
  c ← aget url p;
  l ← (if c =? 58 then
         l ← locals (while_ (Datatypes.length url + 1) (p + 1, 0) (fun '(p, prt) =>
           c ← aget url p;
           if (48 <=? c) && (c <=? 57) then mret (Cont (p + 1, s32 (prt * 10 + (c - 48))))
           else mret (Brk (p, prt))));
         let '(p, prt) := l in
         mret (p, if (0 <? prt) && (prt <? 65536) then prt else HTTP_PORT)
       else mret (p, HTTP_PORT));
  let '(p, prt) := l in
  c ← aget url p;
  let path := if c =? 47 then from url p else SLASH in
  if hi =? 0 then mret None
  else
    host ← memcpy host 0 hostbuf 0 (hi + 1);
    mret (Some (host, prt, path)).

(** [snprintf(buf + off, size, ...)]: the buffer and the result. *)
Definition snprintf_at (buf : list Z) (off size : Z) (fmt : list Z) (ap : list fmt_arg) : M S (list Z * Z) :=
  r ← snprintf (from buf off) size fmt ap;
  mret (take (Z.to_nat off) buf ++ fst r, snd r).

(** "GET %s HTTP/1.1\r\n", "Host: %s\r\n", "Connection: close\r\n" and "\r\n". *)
Definition GET_FMT : list Z :=
  [71; 69; 84; 32; 37; 115; 32; 72; 84; 84; 80; 47; 49; 46; 49; 13; 10; 0].
Definition HOST_FMT : list Z := [72; 111; 115; 116; 58; 32; 37; 115; 13; 10; 0].
Definition CLOSE_FMT : list Z :=
  [67; 111; 110; 110; 101; 99; 116; 105; 111; 110; 58; 32; 99; 108; 111; 115; 101; 13; 10; 0].
Definition CRLF : list Z := [13; 10; 0].
Definition CRLF_CRLF : list Z := [13; 10; 13; 10; 0].
Definition HTTP_SLASH : list Z := [72; 84; 84; 80; 47; 0].

(** The request and its length. *)
Definition http_request `{Locals} (path host : list Z) : M S (list Z * Z) :=
  let req := local_array 512 in
  r ← snprintf_at req 0 512 GET_FMT [ArgStr path];
  let '(req, rlen) := r in
  r ← snprintf_at req rlen (512 - rlen) HOST_FMT [ArgStr host];
  let '(req, n) := r in
  let rlen := rlen + n in
  r ← snprintf_at req rlen (512 - rlen) CLOSE_FMT [];
  let '(req, n) := r in
  let rlen := rlen + n in
  r ← snprintf_at req rlen (512 - rlen) CRLF [];
  let '(req, n) := r in
  mret (req, rlen + n).

(** The status of the response in [resp] and the body copied to [body]. *)
Definition http_parse (resp : list Z) (rpos : Z) (body : list Z) (body_size : Z) : M S (Z * list Z) :=
  resp ← aset resp (if rpos <? 2048 then rpos else 2048 - 1) 0;
  c ← strncmp resp HTTP_SLASH 5;
  st ← (if c =? 0 then
          sp ← locals (while_ (Datatypes.length resp + 1) 0 (fun sp =>
            c ← aget resp sp;
            if negb (c =? 0) && negb (c =? 32) then mret (Cont (sp + 1)) else mret (Brk sp)));
          c ← aget resp sp;
          let sp := if negb (c =? 0) then sp + 1 else sp in
          c ← aget resp sp;
          if (48 <=? c) && (c <=? 57) then atoi (from resp sp) else mret (-1)
        else mret (-1));
  b ← strstr_c resp CRLF_CRLF;
  let bodystart := match b with Some o => o + 4 | None => 0 end in
  let bodylen := u32 (rpos - bodystart) in
  let bodylen := if body_size <? bodylen then body_size else bodylen in
  body ← memcpy body 0 resp bodystart bodylen;
  body ← (if negb (body_size =? 0) then
            aset body (if bodylen <? body_size then bodylen else body_size - 1) 0
          else mret body);
  mret (st, body).
End Names.

Section Clients.
Context {P : Type} `{NicHw P} `{Locals}.
Notation N := (M (net P)).
Variable poll : N unit.
Variable fuel : nat.

Definition DNS_PORT : Z := 53.

(** [tx] is the address of the local transaction. *)
Definition dns_resolve (tx : Z) (name : list Z) : N (option (list Z)) :=
  a ← string_to_ip4 name;
  match a with
  | Some v => mret (Some v)
  | None =>
      i ← gets net_iface;
      d0 ← aget (dns i) 0;
      if d0 =? 0 then mret None
      else
        len ← strlen name;
        if (0 <? len) && (len <? 255) then
          t ← timer_ticks;
          let id := u16 (Z.land t 0xFFFF) in
          q ← dns_query name id;
          i ← gets net_iface;
          tx_put tx (mkTx (local_array 4) 0 0 (local_array 512) 0 0);;
          r ← udp_exchange poll fuel (dns i) DNS_PORT (fst q) (snd q) (u16 (5353 + id mod 1000)) tx 300;
          if negb (r =? 0) then mret None
          else
            t ← tx_deref tx;
            dns_parse_reply (reply t) (reply_len t)
        else mret None
  end.

(** [c] and [tx] are the addresses of the connection and the transaction.  The
    status (-1 for an error) and the body. *)
Definition http_get (c tx : Z) (url body : list Z) (body_size : Z) : N (Z * list Z) :=
  u ← parse_url url (local_array 128) 128;
  match u with
  | None => mret (-1, body)
  | Some (host, prt, path) =>
      a ← dns_resolve tx host;
      match a with
      | None => mret (-1, body)
      | Some ip_ =>
          r ← tcp_connect poll fuel c ip_ prt;
          if negb (r =? 0) then mret (-1, body)
          else
            q ← http_request path host;
            r ← tcp_send poll fuel c (fst q) (snd q);
            if negb (r =? 0) then tcp_close poll fuel c;; mret (-1, body)
            else
              l ← locals (while_ fuel (0, local_array 2048) (fun '(rpos, resp) =>
                if rpos <? 2048 then
                  r ← tcp_recv poll fuel c resp rpos (2048 - rpos) 300;
                  let '(n, resp) := r in
                  if n <=? 0 then mret (Brk (rpos, resp)) else mret (Cont (rpos + n, resp))
                else mret (Brk (rpos, resp))));
              let '(rpos, resp) := l in
              b ← http_parse resp rpos body body_size;
              tcp_close poll fuel c;;
              mret b
      end
  end.
End Clients.

(** * The closed system *)

Section System.
Context {P : Type} `{NicHw P} `{Locals}.
Notation N := (M (net P)).
Variable call_cb : Z -> list Z -> Z -> N unit.
Variable fuel : nat.

(** [rtl8139_poll]: a frame that is received while another is handled is
    handled inside it; [depth] bounds the nesting. *)
Fixpoint net_poll (depth : nat) : N unit :=
  match depth with
  | O => stuck OutOfFuel
  | S depth => rtl8139_poll_with (net_receive (net_poll depth) call_cb fuel) fuel
  end.

(** [handler] is the address of [rtl8139_irq_handler]. *)
Definition net_driver_init (handler : Z) : N unit :=
  arp_cache_boot;;
  d ← pci_find_device 0x10EC 0x8139;
  match d with
  | Some (_, dev) =>
      rtl8139_init fuel handler dev;;
      i ← gets net_iface;
      net_link_up (mac i)
  | None => mret tt
  end.
End System.
