(* ===== verification/NetDemo.v ===== *)
(** A quiet network card and a configured host, for the examples: 10.0.2.15
    with the gateway 10.0.2.2 in the ARP cache and one connection, at address
    0x1000, to 93.184.216.34 port 80. *)
From Stdlib Require Import ZArith Lia List.
From stdpp Require Import base tactics numbers list gmap strings option.
From S2P Require Import Prelude CString Bytes Ata NetState Rtl8139 Net.
Open Scope Z_scope.

Definition zero_ring : list Z := replicate (Z.to_nat RTL_RXBUF_SIZE) 0.

Lemma zero_ring_bytes : bytes zero_ring.
Proof. apply bytes_of. intros j Hj. unfold zero_ring in *. rewrite lenZ_replicate in Hj. rewrite rd_replicate; lia. Qed.

(** Every register reads as 0xFF... (nothing received, the transmitter is
    ready) and the clock stands still. *)
#[export] Instance quiet_ports : Ports unit := {
  port_inb _ p := (0xFF, p);
  port_outb _ _ p := p;
  port_inw _ p := (0, p);
  port_outw _ _ p := p
}.
#[export] Instance quiet_nic : NicHw unit.
Proof.
  refine {|
    port_inl := fun _ p => (0xFFFFFFFF, p);
    port_outl := fun _ _ p => p;
    mmio_read := fun _ _ p => (0, p);
    mmio_write := fun _ _ _ p => p;
    rx_dma := fun _ => zero_ring;
    tx_dma := fun _ p => p;
    tx_buffer_addr := 0x110000;
    rx_buffer_addr := 0x112000;
    ticks := fun p => (0, p);
    cancel := fun p => (0, p)
  |}.
  - done.
  - intros _. exact zero_ring_bytes.
Defined.

Definition HOST_MAC : list Z := [0x52; 0x54; 0; 0x12; 0x34; 0x56].
Definition GATEWAY_MAC : list Z := [0x52; 0x55; 10; 0; 2; 2].
Definition SERVER : list Z := [93; 184; 216; 34].

Definition demo_iface : net_iface_t :=
  mkIface (replicate 32 0) HOST_MAC [10; 0; 2; 15] [255; 255; 255; 0] [10; 0; 2; 2] [10; 0; 2; 3] 1.
Definition demo_cache : list arp_entry_t :=
  mkArpEntry [10; 0; 2; 2] GATEWAY_MAC 1 5 :: replicate 7 zero_arp.
(** An established connection that holds 30 unread bytes. *)
Definition demo_conn : tcp_conn_t :=
  mkConn 1 SERVER 49200 80 1000 5000 5031 (seqZ 1 30 ++ replicate 4066 0) 30 0 1 0.
Definition DEMO_CONN : Z := 0x1000.

Definition demo_net : net unit := mkNet tt
  (mkRtl 0xC000 0 0 1 0 (replicate (Z.to_nat NET_BUF_SIZE) 0)) (replicate 16 0) demo_iface
  (mkArp demo_cache 0 (replicate 4 0) (replicate 6 0)) (mkIcmp 0 0 0 0 0)
  (mkUdp (replicate 4 zero_bind) ∅ 0) (mkTcp {[DEMO_CONN := demo_conn]} DEMO_CONN).

(** A segment with the bytes [data] for the connection. *)
Definition demo_segment (flags : Z) (data : list Z) : list Z :=
  [0; 80; 192; 48; 0; 0; 19; 136; 0; 0; 3; 232; 0x50; flags; 255; 255; 0; 0; 0; 0] ++ data.

Definition no_poll : M (net unit) unit := mret tt.
