(* ===== verification/NetFacts.v ===== *)
(** Checksums and packets: what the network stack puts on the wire. *)
From Stdlib Require Import ZArith Lia List.
From stdpp Require Import base tactics numbers list gmap strings option.
From S2P Require Import Prelude CString Bytes Ata NetState Rtl8139 Net NetDemo.
Open Scope Z_scope.

(** * Checksums *)

(** The sum of the 16-bit words in network order, an odd last byte padded
    with 0. *)
Fixpoint be_words (l : list Z) : Z :=
  match l with
  | [] => 0
  | [hi] => 256 * hi
  | hi :: lo :: l' => 256 * hi + lo + be_words l'
  end.

(** Induction two elements at a time. *)
Lemma pair_ind {A} (P : list A -> Prop) :
  P [] -> (forall a, P [a]) -> (forall a b l, P l -> P (a :: b :: l)) -> forall l, P l.
Proof.
  intros H0 H1 H2 l. assert (Hg : P l /\ forall a, P (a :: l)); [|tauto].
  induction l as [|b l [IH1 IH2]]; split; auto.
Qed.

Lemma be_words_bound l : bytes l -> 0 <= be_words l <= 65535 * ((lenZ l + 1) / 2).
Proof.
  induction l as [|a|a b l IH] using pair_ind; intros Hb.
  - done.
  - pose proof (Hb 0) as Ha. change (rd [a] 0) with a in Ha. change ((lenZ [a] + 1) / 2) with 1. cbn [be_words]. lia.
  - assert (bytes l) as Hl.
    { apply bytes_of. intros j Hj. specialize (Hb (j + 2)). unfold rd in *.
      replace (Z.to_nat (j + 2)) with (S (S (Z.to_nat j))) in Hb by lia. exact Hb. }
    specialize (IH Hl). pose proof (Hb 0) as Ha. pose proof (Hb 1) as Hb1. change (rd (a :: b :: l) 0) with a in Ha. change (rd (a :: b :: l) 1) with b in Hb1.
    cbn [be_words]. replace ((lenZ (a :: b :: l) + 1) / 2) with ((lenZ l + 1) / 2 + 1); [lia|].
    unfold lenZ. cbn [Datatypes.length]. Z.div_mod_to_equations. lia.
Qed.

Lemma be_words_app a b : Z.even (lenZ a) = true -> be_words (a ++ b) = be_words a + be_words b.
Proof.
  induction a as [|x|x y l IH] using pair_ind; intros He; [done | done |].
  cbn [app be_words]. rewrite IH; [lia|]. rewrite <- He. unfold lenZ. cbn [Datatypes.length].
  by rewrite !Nat2Z.inj_succ, Z.even_succ, Z.odd_succ.
Qed.

(** Replacing a byte. *)
Lemma be_words_wr l i v : 0 <= i < lenZ l ->
  be_words (wr l i v) = be_words l + (v - rd l i) * (if Z.even i then 256 else 1).
Proof.
  revert i. induction l as [|a|a b l IH] using pair_ind; intros i Hi.
  - unfold lenZ in Hi. cbn in Hi. lia.
  - change (lenZ [a]) with 1 in Hi. assert (i = 0) as -> by lia.
    change (wr [a] 0 v) with [v]. change (rd [a] 0) with a. cbn [be_words Z.even]. lia.
  - destruct (decide (i = 0)) as [->|].
    { change (wr (a :: b :: l) 0 v) with (v :: b :: l). change (rd (a :: b :: l) 0) with a. cbn [be_words Z.even]. lia. }
    destruct (decide (i = 1)) as [->|].
    { change (wr (a :: b :: l) 1 v) with (a :: v :: l). change (rd (a :: b :: l) 1) with b. cbn [be_words Z.even]. lia. }
    assert (Hl : lenZ (a :: b :: l) = lenZ l + 2) by (unfold lenZ; cbn [Datatypes.length]; lia).
    specialize (IH (i - 2) ltac:(lia)).
    assert (Hw : wr (a :: b :: l) i v = a :: b :: wr l (i - 2) v).
    { unfold wr. by replace (Z.to_nat i) with (S (S (Z.to_nat (i - 2)))) by lia. }
    assert (Hr : rd (a :: b :: l) i = rd l (i - 2)).
    { unfold rd. by replace (Z.to_nat i) with (S (S (Z.to_nat (i - 2)))) by lia. }
    rewrite Hw, Hr. cbn [be_words]. rewrite IH. replace (Z.even (i - 2)) with (Z.even i); [lia|].
    rewrite Z.even_sub. by destruct (Z.even i).
Qed.

Lemma htons16_swap x : 0 <= x < 65536 -> htons16 x = x / 256 + 256 * (x mod 256).
Proof.
  intros Hx. unfold htons16. rewrite Z.shiftr_div_pow2, Z.shiftl_mul_pow2 by lia. change (2 ^ 8) with 256.
  rewrite Z.lor_comm. change 256 with (2 ^ 8). rewrite lor_low by (change (2 ^ 8) with 256; Z.div_mod_to_equations; lia).
  unfold u16. change (2 ^ 8) with 256.
  replace (x * 256 + x / 256) with ((x / 256 + 256 * (x mod 256)) + (x / 256) * 65536) by (Z.div_mod_to_equations; lia).
  rewrite Z.mod_add by lia. apply Z.mod_small. Z.div_mod_to_equations. lia.
Qed.

Lemma hi_lo_word hi lo : 0 <= hi < 256 -> 0 <= lo < 256 -> u16 (Z.lor (Z.shiftl hi 8) lo) = 256 * hi + lo.
Proof.
  intros Hh Hl. rewrite Z.shiftl_mul_pow2 by lia. rewrite lor_low by (change (2 ^ 8) with 256; lia).
  change (2 ^ 8) with 256. unfold u16. rewrite Z.mod_small; lia.
Qed.

Section Sums.
Context {S : Type}.

Lemma wp_sum16 data p len sum (Q : Z -> S -> Prop) s :
  bytes data -> 0 <= p -> 0 <= len -> p + len <= lenZ data -> 0 <= sum ->
  sum + be_words (take (Z.to_nat len) (drop (Z.to_nat p) data)) < 4294967296 ->
  Q (sum + be_words (take (Z.to_nat len) (drop (Z.to_nat p) data))) s ->
  wp (sum16 data p len sum) Q s.
Proof.
  intros Hb Hp Hlen Hl Hs Hov HQ. unfold sum16. set (T := be_words (take (Z.to_nat len) (drop (Z.to_nat p) data))) in *.
  assert (Hsplit : forall q n, 0 <= q -> 0 <= n -> q + n <= lenZ data ->
    take (Z.to_nat n) (drop (Z.to_nat q) data) =
      match n with 0 => [] | 1 => [rd data q] | _ => rd data q :: rd data (q + 1) :: take (Z.to_nat (n - 2)) (drop (Z.to_nat (q + 2)) data) end).
  { intros q n Hq Hn Hqn. destruct (decide (n = 0)) as [->|]; [done|].
    assert (Hd : drop (Z.to_nat q) data = rd data q :: drop (Z.to_nat (q + 1)) data).
    { replace (Z.to_nat (q + 1)) with (Datatypes.S (Z.to_nat q)) by lia. apply drop_S, rd_lookup. lia. }
    destruct (decide (n = 1)) as [->|]; [by rewrite Hd|].
    assert (Hd2 : drop (Z.to_nat (q + 1)) data = rd data (q + 1) :: drop (Z.to_nat (q + 2)) data).
    { replace (Z.to_nat (q + 2)) with (Datatypes.S (Z.to_nat (q + 1))) by lia. apply drop_S, rd_lookup. lia. }
    rewrite Hd, Hd2. replace (Z.to_nat n) with (Datatypes.S (Datatypes.S (Z.to_nat (n - 2)))) by lia.
    cbn [take]. destruct n as [|[]|]; try lia; done. }
  apply wp_bind, wp_locals.
  apply (wp_while (fun '(q, n, sm) s' => s' = s /\ p <= q /\ 0 <= n /\ q + n = p + len /\ 0 <= sm /\
     sm + be_words (take (Z.to_nat n) (drop (Z.to_nat q) data)) = sum + T) (fun '(_, n, _) _ => Z.to_nat n)).
  - repeat split; lia || done.
  - lia.
  - intros [[q n] sm] s' (-> & Hq & Hn & Hqn & Hsm & He).
    pose proof (Hb q) as Hhi. pose proof (Hb (q + 1)) as Hlo.
    rewrite Hsplit in He by lia. destruct (Z.ltb_spec 1 n).
    + wp_step. apply wp_aget; [lia|]. wp_step. apply wp_aget; [lia|]. apply wp_ret. rewrite hi_lo_word by done.
      assert (He' : sm + (256 * rd data q + rd data (q + 1)) + be_words (take (Z.to_nat (n - 2)) (drop (Z.to_nat (q + 2)) data)) = sum + T)
        by (destruct n as [|[]|]; try lia; cbn [be_words] in He; lia).
      assert (Hnn : 0 <= be_words (take (Z.to_nat (n - 2)) (drop (Z.to_nat (q + 2)) data))).
      { apply be_words_bound. apply bytes_of. intros j Hj. unfold lenZ in Hj. rewrite length_take, length_drop in Hj.
        rewrite rd_take, rd_drop by lia. apply Hb. }
      rewrite u32_small by lia. split; [|lia]. repeat split; lia || done.
    + apply wp_ret. destruct (Z.eqb_spec n 0) as [->|]; cbn [negb].
      * apply wp_ret. cbn in He. by replace (sum + T) with sm in HQ by lia.
      * assert (n = 1) as -> by lia. cbn in He. wp_step. apply wp_aget; [lia|]. apply wp_ret.
        rewrite <- (Z.lor_0_r (Z.shiftl _ _)), hi_lo_word by lia. rewrite u32_small by lia.
        by replace (sm + (256 * rd data q + 0)) with (sum + T) by lia.
Qed.

(** Folding keeps the sum modulo 65535, and gives 0 only for 0. *)
Definition folded (sum r : Z) : Prop := 0 <= r < 65536 /\ r mod 65535 = sum mod 65535 /\ (r = 0 <-> sum = 0).

Lemma wp_fold16 sum (Q : Z -> S -> Prop) s : 0 <= sum < 4294967296 ->
  (forall r, folded sum r -> Q r s) -> wp (fold16 sum) Q s.
Proof.
  intros Hs HQ. unfold fold16. apply wp_locals.
  apply (wp_while (fun v s' => s' = s /\ 0 <= v < 4294967296 /\ v mod 65535 = sum mod 65535 /\ (v = 0 <-> sum = 0))
    (fun v _ => if v <? 65536 then 0%nat else if v <? 65537 then 1%nat else if v <? 131071 then 2%nat else 3%nat)).
  - repeat split; lia || done.
  - case_range; lia.
  - intros v s' (-> & Hv & Hm & Hz). rewrite Z.shiftr_div_pow2 by lia. change (2 ^ 16) with 65536.
    replace (Z.land v 0xFFFF) with (v mod 65536) by (symmetry; apply (Z.land_ones v 16); lia). destruct (Z.eqb_spec (v / 65536) 0) as [He|He]; cbn [negb]; apply wp_ret.
    + apply HQ. split; [Z.div_mod_to_equations; lia | done].
    + rewrite u32_small by (Z.div_mod_to_equations; lia). split.
      * split; [done|]. split; [Z.div_mod_to_equations; lia|]. split.
        -- rewrite <- Hm. replace (v mod 65536 + v / 65536) with (v + (- (v / 65536)) * 65535) by (Z.div_mod_to_equations; lia).
           apply Z.mod_add. lia.
        -- split; intros; [Z.div_mod_to_equations; lia|]. apply Hz in H. Z.div_mod_to_equations. lia.
      * case_range; Z.div_mod_to_equations; lia.
Qed.

Lemma lnot16 r : 0 <= r < 65536 -> u16 (Z.lnot r) = 65535 - r.
Proof.
  intros Hr. unfold u16, Z.lnot. replace (Z.pred (- r)) with (65535 - r + (-1) * 65536) by lia.
  rewrite Z.mod_add by lia. apply Z.mod_small. lia.
Qed.

Lemma folded_unique sum r t : folded sum r -> folded sum t -> r = t.
Proof. intros (? & ? & ?) (? & ? & ?). Z.div_mod_to_equations. lia. Qed.

(** The checksum that makes a sum fold to 65535. *)
Lemma folded_complement sum r t : folded sum r -> folded (sum + (65535 - r)) t -> 0 < sum -> t = 65535.
Proof.
  intros (Hr & Hm & Hz) (Ht & Hm' & Hz') Hs. assert (r <> 0) by (rewrite Hz; lia).
  assert (Ht0 : t mod 65535 = 0).
  { rewrite Hm'. rewrite <- Zplus_mod_idemp_l, <- Hm, Zplus_mod_idemp_l. by replace (r + (65535 - r)) with 65535 by lia. }
  assert (t <> 0) by (rewrite Hz'; lia). Z.div_mod_to_equations. lia.
Qed.
End Sums.

(** A checksum field, stored in network order at an even offset. *)
Lemma be_words_put16 l o c : has l o 2 -> Z.even o = true -> 0 <= c < 65536 ->
  be_words (put16 l o (htons16 c)) = be_words l + c - (256 * rd l o + rd l (o + 1)).
Proof.
  intros [Ho Hl] He Hc. unfold put16. rewrite htons16_swap by done.
  rewrite be_words_wr by (rewrite lenZ_wr; lia). rewrite rd_wr_ne by lia. rewrite be_words_wr by lia.
  rewrite Z.even_add, He. cbn [Z.even Bool.eqb].
  replace ((c / 256 + 256 * (c mod 256)) mod 256) with (c / 256) by (Z.div_mod_to_equations; lia).
  replace ((c / 256 + 256 * (c mod 256)) / 256 mod 256) with (c mod 256) by (Z.div_mod_to_equations; lia).
  Z.div_mod_to_equations. lia.
Qed.

Lemma bytes_take l n : bytes l -> bytes (take (Z.to_nat n) l).
Proof.
  intros Hb. apply bytes_of. intros j Hj. unfold lenZ in Hj. rewrite length_take in Hj. rewrite rd_take by lia. apply Hb.
Qed.
Lemma bytes_drop l n : bytes l -> 0 <= n -> bytes (drop (Z.to_nat n) l).
Proof. intros Hb Hn. apply bytes_of. intros j Hj. rewrite rd_drop by lia. apply Hb. Qed.

Lemma lenZ_take_le {A} (l : list A) n : lenZ (take n l) <= lenZ l.
Proof. unfold lenZ. rewrite length_take. lia. Qed.

Lemma wp_ip_checksum {S} data len (Q : Z -> S -> Prop) s :
  bytes data -> 0 <= len <= lenZ data -> len <= 65536 ->
  (forall r, folded (be_words (take (Z.to_nat len) data)) r -> Q (65535 - r) s) ->
  wp (ip_checksum data len) Q s.
Proof.
  intros Hb Hl H64 HQ. unfold ip_checksum.
  pose proof (be_words_bound _ (bytes_take data len Hb)) as Hw. rewrite lenZ_take in Hw by lia.
  assert (65535 * ((len + 1) / 2) < 4294967296) by (Z.div_mod_to_equations; lia).
  wp_step. apply wp_sum16; try done; try lia; change (drop (Z.to_nat 0) data) with data; [lia|].
  wp_step. apply wp_fold16; [lia|]. intros r Hr. apply wp_ret. rewrite lnot16 by apply Hr. by apply HQ.
Qed.

(** Inserting the checksum makes the whole object check. *)
Lemma checksum_inserted {S} l o r (s : S) : bytes l -> has l o 2 -> Z.even o = true -> lenZ l <= 65536 ->
  rd l o = 0 -> rd l (o + 1) = 0 -> 0 < be_words l -> folded (be_words l) r ->
  ip_checksum (put16 l o (htons16 (65535 - r))) (lenZ l) s = Ok 0 s.
Proof.
  intros Hb Ho He Hl H0 H1 Hpos Hr. pose proof Hr as (Hr16 & _).
  assert (Hw : wp (ip_checksum (put16 l o (htons16 (65535 - r))) (lenZ l)) (fun v s' => v = 0 /\ s' = s) s).
  2:{ by apply wp_ok in Hw as (v & s' & -> & -> & ->). }
  pose proof (lenZ_nonneg l). apply wp_ip_checksum; [by apply bytes_put16 | rewrite lenZ_put16; lia | done |].
  intros t Ht. rewrite <- (lenZ_put16 l o (htons16 (65535 - r))) in Ht. unfold lenZ in Ht. rewrite Nat2Z.id, firstn_all in Ht.
  rewrite be_words_put16, H0, H1 in Ht by (done || lia).
  replace (be_words l + (65535 - r) - (256 * 0 + 0)) with (be_words l + (65535 - r)) in Ht by lia.
  by rewrite (folded_complement _ _ _ Hr Ht Hpos).
Qed.

(** * The IPv4 header *)

(** The header as RFC 791 lays it out. *)
Definition ipv4_bytes (src dst : list Z) (proto total csum : Z) : list Z :=
  [0x45; 0; total / 256; total mod 256; 0x42; 0x42; 0; 0; 64; proto; csum / 256; csum mod 256] ++ src ++ dst.

(** The indices below a small bound, one by one. *)
Ltac index_cases j n :=
  lazymatch n with
  | 0 => lia
  | _ => let m := eval vm_compute in (n - 1) in destruct (decide (j = m)) as [->|]; [| index_cases j m]
  end.

Section Header.
Context {P : Type} `{NicHw P} `{Locals}.

Lemma list4 (l : list Z) : lenZ l = 4 -> exists a b c d, l = [a; b; c; d].
Proof.
  unfold lenZ. destruct l as [|a [|b [|c [|d [|]]]]]; cbn; try lia. intros _. by exists a, b, c, d.
Qed.
Lemma list6 (l : list Z) : lenZ l = 6 -> exists a b c d e f, l = [a; b; c; d; e; f].
Proof.
  unfold lenZ. destruct l as [|a [|b [|c [|d [|e [|f [|]]]]]]]; cbn; try lia. intros _. by exists a, b, c, d, e, f.
Qed.

Lemma put16_htons x o l : 0 <= x < 65536 -> put16 l o (htons16 x) = wr (wr l o (x / 256)) (o + 1) (x mod 256).
Proof.
  intros Hx. unfold put16. rewrite htons16_swap by done. f_equal; [f_equal|]; Z.div_mod_to_equations; lia.
Qed.

Lemma bytes_lit l : Forall (fun v => 0 <= v < 256) l -> bytes l.
Proof.
  intros Hf. apply bytes_of. intros j Hj. rewrite Forall_lookup in Hf. apply (Hf (Z.to_nat j)). by apply rd_lookup.
Qed.
Lemma bytes_app a b : bytes a -> bytes b -> bytes (a ++ b).
Proof.
  intros Ha Hb. apply bytes_of. intros j Hj. rewrite lenZ_app in Hj.
  destruct (decide (j < lenZ a)); [rewrite rd_app_l by lia; apply Ha | rewrite rd_app_r by lia; apply Hb].
Qed.

Lemma ipv4_bytes_length src dst proto total csum : lenZ src = 4 -> lenZ dst = 4 -> lenZ (ipv4_bytes src dst proto total csum) = 20.
Proof. intros Hs Hd. unfold ipv4_bytes. rewrite !lenZ_app, Hs, Hd. done. Qed.

Lemma wp_ipv4_header src dst proto total (Q : list Z -> net P -> Prop) s :
  lenZ src = 4 -> lenZ dst = 4 -> bytes src -> bytes dst -> 0 <= proto < 256 -> 0 <= total < 65536 ->
  (forall c, 0 <= c < 65536 -> (forall S' (s' : S'), ip_checksum (ipv4_bytes src dst proto total c) 20 s' = Ok 0 s') ->
     Q (ipv4_bytes src dst proto total c) s) ->
  wp (ipv4_header src dst proto total) Q s.
Proof.
  intros Hls Hld Hbs Hbd Hp Ht HQ. unfold ipv4_header. pose proof (lenZ_local 20 ltac:(lia)) as Hl20.
  wp_step. apply wp_bzero; [lia | lia | lia |]. intros h0 Hl0 Hz. rewrite Hl20 in *.
  assert (h0 = replicate 20 0) as ->.
  { apply rd_ext; [done|]. intros j Hj. rewrite Hz by lia. rewrite rd_replicate by lia. case_range; lia || done. }
  clear Hz. repeat (wp_step; first [apply wp_st8 | apply wp_st16]; [by (split; vm_compute) || (split; rewrite ?lenZ_wr, ?lenZ_put16, ?lenZ_replicate; lia) |]).
  destruct (list4 src Hls) as (s0 & s1 & s2 & s3 & ->). destruct (list4 dst Hld) as (d0 & d1 & d2 & d3 & ->).
  rewrite (put16_htons total) by done. replace (u8 proto) with proto by (symmetry; apply Z.mod_small; lia).
  wp_step. eapply wp_run; [reflexivity|]. wp_step. eapply wp_run; [reflexivity|]. wp_step. eapply wp_run; [reflexivity|].
  change (wp (c1 ← ip_checksum (ipv4_bytes [s0; s1; s2; s3] [d0; d1; d2; d3] proto total 0) 20;
    c2 ← ip_checksum (ipv4_bytes [s0; s1; s2; s3] [d0; d1; d2; d3] proto total 0) 20;
    st16 (ipv4_bytes [s0; s1; s2; s3] [d0; d1; d2; d3] proto total 0) 10 (u16 (Z.lor (Z.shiftr c1 8) (Z.shiftl c2 8)))) Q s).
  set (l := ipv4_bytes [s0; s1; s2; s3] [d0; d1; d2; d3] proto total 0).
  assert (Hb : bytes l).
  { unfold l, ipv4_bytes. repeat apply bytes_app; [|done..]. apply bytes_lit.
    repeat constructor; Z.div_mod_to_equations; lia. }
  assert (Hpos : 0 < be_words l).
  { pose proof (be_words_bound (drop 2 l) (bytes_drop l 2 Hb ltac:(lia))) as Hd.
    assert (be_words l = 256 * 69 + 0 + be_words (drop 2 l)) by done. lia. }
  wp_step. apply wp_ip_checksum; [done | done | done |]. intros r Hr. change (take (Z.to_nat 20) l) with l in Hr.
  assert (Hck : forall S' (s' : S'), ip_checksum (put16 l 10 (htons16 (65535 - r))) 20 s' = Ok 0 s').
  { intros. by apply (checksum_inserted l 10 r s'). }
  rewrite (put16_htons (65535 - r)) in Hck by (destruct Hr; lia).
  wp_step. apply wp_ip_checksum; [done | done | done |]. intros r' Hr'. change (take (Z.to_nat 20) l) with l in Hr'.
  rewrite (folded_unique _ _ _ Hr Hr') in *. fold (htons16 (65535 - r')).
  apply wp_st16; [done|]. rewrite put16_htons by (destruct Hr'; lia). apply HQ; [destruct Hr'; lia | exact Hck].
Qed.
End Header.

(** * The ARP cache *)

Section Cache.
Context {P : Type} `{NicHw P} `{Locals}.
Implicit Types s : net P.

Lemma wp_ip_eq (a b : list Z) (Q : bool -> net P -> Prop) s : lenZ a = 4 -> lenZ b = 4 ->
  Q (bool_decide (a = b)) s -> wp (ip_eq a b) Q s.
Proof.
  intros Ha Hb HQ. unfold ip_eq. wp_step. apply wp_memcmp; [lia | lia |]. intros v Hv. apply wp_ret.
  change (Z.to_nat 4) with 4%nat in Hv. rewrite !take_ge in Hv by (unfold lenZ in *; lia).
  destruct (Z.eqb_spec v 0) as [->|Hne]; [by rewrite bool_decide_true in HQ by tauto|].
  by rewrite bool_decide_false in HQ by tauto.
Qed.

Definition entry_ok (e : arp_entry_t) : Prop := lenZ (a_ip e) = 4 /\ lenZ (a_mac e) = 6.
Definition cache_ok (l : list arp_entry_t) : Prop := lenZ l = ARP_CACHE_SIZE /\ Forall entry_ok l.

Definition serves (ip : list Z) (e : arp_entry_t) : bool := negb (valid e =? 0) && bool_decide (a_ip e = ip).

(** The address that the cache gives for an IP. *)
Definition cached (l : list arp_entry_t) (ip : list Z) : option (list Z) :=
  option_map a_mac (List.find (serves ip) l).

(** The position of the entry. *)
Definition arp_index (l : list arp_entry_t) (ip : list Z) (i : Z) : Prop :=
  0 <= i < lenZ l /\ serves ip (arp_entry_at l i) = true /\ forall j, 0 <= j < i -> serves ip (arp_entry_at l j) = false.

Lemma cache_entry l i : cache_ok l -> 0 <= i < ARP_CACHE_SIZE -> entry_ok (arp_entry_at l i).
Proof.
  intros [Hl Hf] Hi. unfold arp_entry_at. rewrite Forall_lookup in Hf.
  destruct (lookup_lt_is_Some_2 l (Z.to_nat i)) as [e He]; [unfold lenZ in Hl; lia|].
  rewrite (nth_lookup_Some _ _ _ _ He). by eapply Hf.
Qed.

Lemma find_index l ip i : arp_index l ip i -> List.find (serves ip) l = Some (arp_entry_at l i).
Proof.
  unfold arp_index, arp_entry_at, lenZ. revert i. induction l as [|e l IH]; intros i (Hi & Hs & Hn); [cbn in Hi; lia|].
  cbn [List.find]. destruct (decide (i = 0)) as [->|].
  - change (serves ip e = true) in Hs. by rewrite Hs.
  - assert (H0' : serves ip e = false) by (apply (Hn 0); lia). rewrite H0'.
    assert (Hsh : forall j, 0 <= j -> nth (Z.to_nat (j + 1)) (e :: l) zero_arp = nth (Z.to_nat j) l zero_arp).
    { intros j Hj. by replace (Z.to_nat (j + 1)) with (S (Z.to_nat j)) by lia. }
    rewrite (IH (i - 1)).
    + rewrite <- Hsh by lia. by replace (i - 1 + 1) with i by lia.
    + cbn [Datatypes.length] in Hi. split; [lia|]. split.
      * rewrite <- Hsh by lia. by replace (i - 1 + 1) with i by lia.
      * intros j Hj. rewrite <- Hsh by lia. apply Hn. lia.
Qed.

Lemma find_none l ip : (forall j, 0 <= j < lenZ l -> serves ip (arp_entry_at l j) = false) -> List.find (serves ip) l = None.
Proof.
  intros Hn. destruct (List.find (serves ip) l) as [e|] eqn:Hf; [|done]. apply find_some in Hf as [Hin Hs].
  apply (In_nth _ _ zero_arp) in Hin as (k & Hk & He). specialize (Hn (Z.of_nat k)). unfold arp_entry_at, lenZ in Hn.
  rewrite Nat2Z.id, He in Hn. rewrite Hn in Hs by lia. done.
Qed.

Lemma wp_arp_find ip (Q : option Z -> net P -> Prop) s : cache_ok (arp_cache (n_arp s)) -> lenZ ip = 4 ->
  (forall i, arp_index (arp_cache (n_arp s)) ip i -> Q (Some i) s) ->
  ((forall j, 0 <= j < ARP_CACHE_SIZE -> serves ip (arp_entry_at (arp_cache (n_arp s)) j) = false) -> Q None s) ->
  wp (arp_find ip) Q s.
Proof.
  intros Hc Hip HS HN. unfold arp_find. wp_step. pose proof Hc as [Hl _].
  apply (wp_for (fun i _ s' => s' = s /\ forall j, 0 <= j < i -> serves ip (arp_entry_at (arp_cache (n_arp s)) j) = false)).
  - split; [done|]. intros. lia.
  - intros i [] s' Hi (-> & Hn). unfold span, ARP_CACHE_SIZE in *. wp_step. apply wp_gets.
    set (e := arp_entry_at (arp_cache (n_arp s)) i) in *.
    assert (Hm : wp (if negb (valid e =? 0) then ip_eq (a_ip e) ip else mret false)
      (fun b s' => s' = s /\ b = serves ip e) s).
    { unfold serves. destruct (valid e =? 0); cbn [negb andb]; [done|].
      apply wp_ip_eq; [|done|done]. apply (cache_entry (arp_cache (n_arp s))); [done|]. unfold ARP_CACHE_SIZE. lia. }
    wp_step. eapply wp_mono; [|exact Hm]. intros b s' [-> ->]. destruct (serves ip e) eqn:He; apply wp_ret.
    + apply wp_ret, HS. split; [lia|]. by split.
    + split; [done|]. intros j Hj. destruct (decide (j = i)) as [->|]; [done | apply Hn; lia].
  - intros [] s' (-> & Hn). apply wp_ret, HN. exact Hn.
Qed.

Lemma arp_cache_lookup_cached ip s : cache_ok (arp_cache (n_arp s)) -> lenZ ip = 4 ->
  arp_cache_lookup ip s = Ok (cached (arp_cache (n_arp s)) ip) s.
Proof.
  intros Hc Hip. assert (Hw : wp (arp_cache_lookup ip) (fun r s' => r = cached (arp_cache (n_arp s)) ip /\ s' = s) s).
  2:{ by apply wp_ok in Hw as (r & s' & -> & -> & ->). }
  unfold arp_cache_lookup. wp_step. unfold cached. apply wp_arp_find; [done..| |].
  - intros i Hi. wp_step. apply wp_gets. apply wp_ret. by rewrite (find_index _ _ _ Hi).
  - intros Hn. wp_step. apply wp_gets. apply wp_ret. rewrite find_none; [done|]. destruct Hc as [-> _]. exact Hn.
Qed.
End Cache.

(** * Frames *)

Lemma memcpy_run {S} dest d src o n (s : S) : 0 <= d -> 0 <= n -> d + n <= lenZ dest -> 0 <= o -> o + n <= lenZ src ->
  exists r, memcpy dest d src o n s = Ok r s /\ copied dest d src o n r.
Proof.
  intros Hd Hn Hdl Ho Hol. assert (Hw : wp (memcpy dest d src o n) (fun r s' => copied dest d src o n r /\ s' = s) s)
    by (apply wp_memcpy; done).
  apply wp_ok in Hw as (r & s' & He & Hc & ->). eauto.
Qed.

Lemma aset_run {S} (a : list Z) i v (s : S) : 0 <= i < lenZ a -> aset a i v s = Ok (wr a i v) s.
Proof. unfold aset. intros. by rewrite decide_True. Qed.

Section Frames.
Context {P : Type} `{NicHw P} `{Locals}.
Implicit Types s : net P.

(** The addresses of the interface are complete. *)
Record iface_ok (i : net_iface_t) : Prop := {
  if_up : up i <> 0;
  if_mac : lenZ (mac i) = 6;
  if_ip : lenZ (ip i) = 4;
  if_ip_bytes : bytes (ip i);
  if_gateway : lenZ (gateway i) = 4
}.

(** An Ethernet II frame. *)
Definition eth_frame (dst src : list Z) (ty : Z) (payload : list Z) : list Z :=
  dst ++ src ++ [ty / 256; ty mod 256] ++ payload.

Lemma rd_cons_S (x : Z) l j : 0 < j -> rd (x :: l) j = rd l (j - 1).
Proof. intros Hj. unfold rd. by replace (Z.to_nat j) with (S (Z.to_nat (j - 1))) by lia. Qed.

Lemma eth_send_frame dst ty payload len s : iface_ok (net_iface s) -> lenZ dst = 6 -> 0 <= ty < 65536 ->
  0 <= len <= NET_PAYLOAD_MAX -> len <= lenZ payload ->
  exists frame, lenZ frame = NET_BUF_SIZE /\
    take (Z.to_nat (14 + len)) frame = eth_frame dst (mac (net_iface s)) ty (take (Z.to_nat len) payload) /\
    eth_send dst ty payload len s = rtl8139_tx frame (14 + len) s.
Proof.
  intros [Hup Hmac _ _ _] Hdst Hty Hlen Hpl. unfold NET_PAYLOAD_MAX in Hlen.
  pose proof (lenZ_local NET_BUF_SIZE ltac:(done)) as Hl0. unfold NET_BUF_SIZE in *.
  destruct (memcpy_run (local_array 1518) 0 dst 0 6 s) as (f1 & E1 & L1 & C1); try lia.
  destruct (memcpy_run f1 6 (mac (net_iface s)) 0 6 s) as (f2 & E2 & L2 & C2); try lia.
  set (f3 := wr (wr f2 12 (u8 (Z.land (Z.shiftr ty 8) 0xFF))) 13 (u8 (Z.land ty 0xFF))).
  assert (L3 : lenZ f3 = 1518) by (unfold f3; rewrite !lenZ_wr; lia).
  destruct (memcpy_run f3 14 payload 0 len s) as (f4 & E4 & L4 & C4); try lia.
  exists f4. split; [lia|]. split.
  - assert (Hhi : u8 (Z.land (Z.shiftr ty 8) 0xFF) = ty / 256).
    { change 0xFF with (Z.ones 8). rewrite Z.land_ones, Z.shiftr_div_pow2 by lia. unfold u8. change (2 ^ 8) with 256.
      Z.div_mod_to_equations. lia. }
    assert (Hlo : u8 (Z.land ty 0xFF) = ty mod 256).
    { change 0xFF with (Z.ones 8). rewrite Z.land_ones by lia. unfold u8. change (2 ^ 8) with 256. apply Z.mod_mod. lia. }
    unfold eth_frame. pose proof (lenZ_take payload len ltac:(lia)) as Htl.
    apply rd_ext.
    { rewrite lenZ_take by lia. rewrite !lenZ_app. change (lenZ [ty / 256; ty mod 256]) with 2. lia. }
    intros j Hj. rewrite lenZ_take in Hj by lia. rewrite rd_take, C4 by lia.
    destruct (decide (j < 6)); [|destruct (decide (j < 12)); [|destruct (decide (j < 14))]].
    + rewrite rd_app_l by lia. case_range; try lia. unfold f3. rewrite !rd_wr_ne, C2 by lia. case_range; try lia.
      rewrite C1 by lia. case_range; try lia. f_equal. lia.
    + rewrite rd_app_r, rd_app_l by lia. case_range; try lia. unfold f3. rewrite !rd_wr_ne, C2 by lia. case_range; try lia.
      f_equal. lia.
    + rewrite rd_app_r by lia. rewrite rd_app_r by lia. rewrite rd_app_l by (change (lenZ [ty / 256; ty mod 256]) with 2; lia).
      rewrite Hdst, Hmac. case_range; try lia. unfold f3.
      destruct (decide (j = 12)) as [->|]; [by rewrite rd_wr_ne, rd_wr_eq, Hhi by lia|].
      assert (j = 13) as -> by lia. by rewrite rd_wr_eq, Hlo by (rewrite lenZ_wr; lia).
    + rewrite rd_app_r by lia. rewrite rd_app_r by lia. rewrite rd_app_r by (change (lenZ [ty / 256; ty mod 256]) with 2; lia).
      change (lenZ [ty / 256; ty mod 256]) with 2. rewrite rd_take by lia. case_range; try lia. f_equal. lia.
  - unfold eth_send. destruct (Z.ltb_spec NET_PAYLOAD_MAX len); [unfold NET_PAYLOAD_MAX in *; lia|].
    rewrite (bind_ok _ _ s (net_iface s) s) by done. rewrite (bind_ok _ _ _ _ _ E1), (bind_ok _ _ _ _ _ E2).
    rewrite (bind_ok _ _ _ _ _ (aset_run f2 12 _ s ltac:(lia))).
    erewrite bind_ok by (apply aset_run; rewrite lenZ_wr; lia).
    rewrite (bind_ok _ _ _ _ _ E4). unfold net_send_frame. rewrite (bind_ok _ _ s (net_iface s) s) by done.
    by destruct (Z.eqb_spec (up (net_iface s)) 0).
Qed.
End Frames.

(** Sending with the next hop in the ARP cache. *)
Lemma ipv4_send_frame {P} `{NicHw P} `{Locals} poll fuel (s : net P) dst proto payload len m :
  iface_ok (net_iface s) -> cache_ok (arp_cache (n_arp s)) ->
  lenZ dst = 4 -> bytes dst -> 0 <= proto < 256 -> 0 <= len <= 1480 -> len <= lenZ payload ->
  cached (arp_cache (n_arp s)) (if is_local_network dst (net_iface s) then dst else gateway (net_iface s)) = Some m ->
  lenZ m = 6 ->
  exists frame c,
    ipv4_send poll fuel dst proto payload len s = rtl8139_tx frame (34 + len) s /\
    lenZ frame = NET_BUF_SIZE /\
    take (Z.to_nat (34 + len)) frame = eth_frame m (mac (net_iface s)) ETH_TYPE_IPV4
      (ipv4_bytes (ip (net_iface s)) dst proto (20 + len) c ++ take (Z.to_nat len) payload) /\
    forall S (s' : S), ip_checksum (ipv4_bytes (ip (net_iface s)) dst proto (20 + len) c) 20 s' = Ok 0 s'.
Proof.
  intros Hif Hc Hdst Hbd Hpr Hlen Hpl Hhit Hm. pose proof Hif as [Hup _ Hip Hipb Hgw].
  assert (Hh : wp (ipv4_header (ip (net_iface s)) dst proto (u16 (20 + len))) (fun h s' => s' = s /\
    exists c, h = ipv4_bytes (ip (net_iface s)) dst proto (20 + len) c /\
      forall S (s0 : S), ip_checksum h 20 s0 = Ok 0 s0) s).
  { assert (u16 (20 + len) = 20 + len) as -> by (apply Z.mod_small; lia).
    apply wp_ipv4_header; try done; try lia. intros c _ Hck. split; [done|]. by exists c. }
  apply wp_ok in Hh as (h & s1 & Eh & -> & c & Hhd & Hck).
  assert (Hlh : lenZ h = 20) by (rewrite Hhd; by apply ipv4_bytes_length).
  pose proof (lenZ_local NET_BUF_SIZE ltac:(done)) as Hl0. unfold NET_BUF_SIZE in *.
  destruct (memcpy_run (local_array 1518) 0 h 0 20 s) as (p1 & E1 & L1 & C1); try lia.
  destruct (memcpy_run p1 20 payload 0 len s) as (p2 & E2 & L2 & C2); try lia.
  destruct (eth_send_frame m ETH_TYPE_IPV4 p2 (20 + len) s Hif Hm) as (frame & Hlf & Hfr & Es); [done | unfold NET_PAYLOAD_MAX; lia | lia |].
  exists frame, c. split; [|split; [done|split; [|by rewrite <- Hhd]]].
  - unfold ipv4_send. rewrite (bind_ok _ _ s (net_iface s) s) by done.
    destruct (Z.eqb_spec (up (net_iface s)) 0); [done|].
    destruct (Z.ltb_spec (NET_PAYLOAD_MAX - 20) len); [unfold NET_PAYLOAD_MAX in *; lia|]. cbn [orb].
    rewrite (bind_ok _ _ _ _ _ Eh), (bind_ok _ _ _ _ _ E1), (bind_ok _ _ _ _ _ E2).
    assert (Ea : arp_resolve poll fuel (if is_local_network dst (net_iface s) then dst else gateway (net_iface s)) s = Ok (Some m) s).
    { unfold arp_resolve. erewrite bind_ok; [|apply arp_cache_lookup_cached; [done|]].
      - by rewrite Hhit.
      - by destruct (is_local_network dst (net_iface s)). }
    rewrite (bind_ok _ _ _ _ _ Ea), Es. f_equal. lia.
  - replace (34 + len) with (14 + (20 + len)) by lia. rewrite Hfr. f_equal. rewrite <- Hhd.
    apply rd_ext; [rewrite lenZ_app, !lenZ_take; lia|]. intros j Hj. rewrite lenZ_take in Hj by lia.
    rewrite rd_take, C2 by lia. destruct (decide (j < 20)).
    + rewrite rd_app_l by lia. case_range; try lia. rewrite C1 by lia. case_range; try lia. f_equal; lia.
    + rewrite rd_app_r by lia. rewrite Hlh, rd_take by lia. case_range; try lia. f_equal; lia.
Qed.

(** C19: What [ipv4_send] puts on the wire.  When the interface is up and the
    next hop (the destination, or the gateway when it is on another network)
    is in the ARP cache, sending [len <= 1480] bytes hands the card exactly one
    frame: Ethernet addresses and type, an IPv4 header with the right lengths,
    addresses and protocol whose checksum verifies, and the payload. *)
Theorem ipv4_send_wire {P} `{NicHw P} `{Locals} poll fuel (s : net P) dst proto payload len m :
  iface_ok (net_iface s) -> cache_ok (arp_cache (n_arp s)) ->
  lenZ dst = 4 -> bytes dst -> 0 <= proto < 256 -> 0 <= len <= 1480 -> len <= lenZ payload ->
  cached (arp_cache (n_arp s)) (if is_local_network dst (net_iface s) then dst else gateway (net_iface s)) = Some m ->
  lenZ m = 6 ->
  exists frame c,
    ipv4_send poll fuel dst proto payload len s = rtl8139_tx frame (34 + len) s /\
    lenZ frame = NET_BUF_SIZE /\
    take (Z.to_nat (34 + len)) frame = eth_frame m (mac (net_iface s)) ETH_TYPE_IPV4
      (ipv4_bytes (ip (net_iface s)) dst proto (20 + len) c ++ take (Z.to_nat len) payload) /\
    forall S (s' : S), ip_checksum (ipv4_bytes (ip (net_iface s)) dst proto (20 + len) c) 20 s' = Ok 0 s'.
Proof. apply ipv4_send_frame. Qed.

(** * Examples *)

Lemma demo_iface_ok : iface_ok demo_iface.
Proof. constructor; try done. by apply bytes_by_compute. Qed.
Lemma demo_cache_ok : cache_ok demo_cache.
Proof. split; [done|]. repeat constructor. Qed.

(** 100 bytes for a host behind the gateway. *)
Lemma ipv4_send_wire_witness :
  cached demo_cache [10; 0; 2; 2] = Some GATEWAY_MAC /\
  exists frame c,
    ipv4_send no_poll 1 SERVER IP_PROTO_UDP (replicate 100 0x41) 100 demo_net = rtl8139_tx frame (34 + 100) demo_net /\
    lenZ frame = NET_BUF_SIZE /\
    take (Z.to_nat (34 + 100)) frame = eth_frame GATEWAY_MAC HOST_MAC ETH_TYPE_IPV4
      (ipv4_bytes [10; 0; 2; 15] SERVER IP_PROTO_UDP (20 + 100) c ++ take (Z.to_nat 100) (replicate 100 0x41)) /\
    forall S (s' : S), ip_checksum (ipv4_bytes [10; 0; 2; 15] SERVER IP_PROTO_UDP (20 + 100) c) 20 s' = Ok 0 s'.
Proof.
  split; [done|].
  apply (ipv4_send_wire no_poll 1 demo_net SERVER IP_PROTO_UDP (replicate 100 0x41) 100 GATEWAY_MAC demo_iface_ok demo_cache_ok);
    try done; by apply bytes_by_compute.
Defined.
