(* ===== verification/RtlFacts.v ===== *)
(** The receive ring of the network card. *)
From Stdlib Require Import ZArith Lia List.
From stdpp Require Import base tactics numbers list gmap strings option.
From S2P Require Import Prelude CString Bytes Ata NetState Rtl8139 Net NetDemo NetFacts.
Open Scope Z_scope.

Section Ring.
Context {P : Type} `{NicHw P} `{Locals}.
Implicit Types s : net P.

(** The read position is a multiple of four inside the ring. *)
Definition rx_ok s : Prop := 0 <= rx_cur (nic s) < RTL_RXBUF_SIZE /\ rx_cur (nic s) mod 4 = 0.

(** The frame is the [len] bytes after the header of the slot at [cur], around
    the end of the ring. *)
Definition frame_at (ring : list Z) (cur : Z) (frame : list Z) (len : Z) : Prop :=
  0 < len <= NET_BUF_SIZE - 4 /\ lenZ frame = NET_BUF_SIZE /\
  forall j, 0 <= j < len -> rd frame j = rd ring ((cur + 4 + j) mod RTL_RXBUF_SIZE).

Lemma rx_advance_ok cur len : 0 <= cur < RTL_RXBUF_SIZE -> cur mod 4 = 0 -> 0 < len <= NET_BUF_SIZE - 4 ->
  0 <= rx_advance cur len < RTL_RXBUF_SIZE /\ rx_advance cur len mod 4 = 0 /\
  rx_advance cur len = (cur + 4 + (len + 3) / 4 * 4) mod RTL_RXBUF_SIZE.
Proof.
  unfold rx_advance, RTL_RXBUF_SIZE, NET_BUF_SIZE. intros Hc H4 Hl. rewrite u32_small by lia.
  change 0xFFFFFFFC with (Z.ones 32 - Z.ones 2). rewrite land_high by lia. rewrite (Z.mod_small _ (2 ^ 32)) by (change (2 ^ 32) with 4294967296; lia).
  change (2 ^ 2) with 4. replace ((cur + len + 4 + 3) / 4 * 4) with (cur + 4 + (len + 3) / 4 * 4) by (Z.div_mod_to_equations; lia).
  case_range; Z.div_mod_to_equations; lia.
Qed.

Lemma wp_rx_copy ring cur len (Q : list Z -> net P -> Prop) s :
  rx_dma (hw s) = ring -> 0 <= cur < RTL_RXBUF_SIZE -> 0 < len <= NET_BUF_SIZE - 4 ->
  (forall frame, frame_at ring cur frame len -> Q frame s) -> wp (rx_copy ((cur + 4) mod RTL_RXBUF_SIZE) len) Q s.
Proof.
  intros Hr Hc Hl HQ. pose proof (rx_dma_size (hw s)) as Hs. rewrite Hr in Hs.
  pose proof (lenZ_local NET_BUF_SIZE ltac:(done)) as Hloc. unfold rx_copy, rx_ring. wp_step. apply wp_gets. rewrite Hr.
  unfold RTL_RXBUF_SIZE, NET_BUF_SIZE in *. set (off := (cur + 4) mod 8192).
  assert (Hoff : 0 <= off < 8192) by (apply Z.mod_pos_bound; lia).
  destruct (Z.leb_spec (off + len) 8192).
  - apply wp_memcpy; try lia. intros f [Hlf Hf]. apply HQ. split; [done|]. split; [unfold NET_BUF_SIZE; lia|].
    intros j Hj. rewrite Hf by lia. case_range; try lia. f_equal. unfold RTL_RXBUF_SIZE, off. Z.div_mod_to_equations. lia.
  - wp_step. apply wp_memcpy; try lia. intros f [Hlf Hf]. wp_step. apply wp_gets. rewrite Hr.
    apply wp_memcpy; try lia. intros f2 [Hlf2 Hf2]. apply HQ. split; [done|]. split; [unfold NET_BUF_SIZE; lia|].
    intros j Hj. rewrite Hf2 by lia. case_range; try lia; [|rewrite Hf by lia; case_range; try lia];
      f_equal; unfold RTL_RXBUF_SIZE, off; Z.div_mod_to_equations; lia.
Qed.

(** Register accesses change the hardware only. *)
Lemma wp_rtl_read8 reg (Q : Z -> net P -> Prop) s : (forall v p, Q v (set_hw p s)) -> wp (rtl_read8 reg) Q s.
Proof.
  intros HQ. unfold rtl_read8, inb, hw_get, wp, mbind, M_bind, gets. destruct (negb _).
  - destruct (mmio_read _ _ (hw s)). apply HQ.
  - destruct (port_inb _ (hw s)). apply HQ.
Qed.
Lemma wp_rtl_write8 reg v (Q : unit -> net P -> Prop) s : (forall p, Q tt (set_hw p s)) -> wp (rtl_write8 reg v) Q s.
Proof. intros HQ. unfold rtl_write8, outb, hw_put. wp_step. apply wp_gets. destruct (negb _); apply wp_modify, HQ. Qed.
Lemma wp_rtl_write16 reg v (Q : unit -> net P -> Prop) s : (forall p, Q tt (set_hw p s)) -> wp (rtl_write16 reg v) Q s.
Proof. intros HQ. unfold rtl_write16, outw, hw_put. wp_step. apply wp_gets. destruct (negb _); apply wp_modify, HQ. Qed.
End Ring.

(** C28: Reception is memory safe.  Whatever the card writes to its ring and
    answers on its registers, [rtl8139_rx] reads the ring and fills its frame
    buffer only inside their bounds, keeps the read position a multiple of four
    inside the ring, and hands on only frames of 1 to 1514 bytes that are the
    bytes after the slot's header, around the end of the ring.  It can only
    fail to end (the card never reports an empty buffer); the handler of the
    frames, which may poll the card again, is any function that keeps the read
    position valid. *)
Theorem rtl8139_rx_safe {P} `{NicHw P} `{Locals} (receive : list Z -> Z -> M (net P) unit) fuel (s : net P) :
  rx_ok s ->
  (forall frame len s0, rx_ok s0 -> (exists cur, 0 <= cur < RTL_RXBUF_SIZE /\ cur mod 4 = 0 /\ frame_at (rx_dma (hw s0)) cur frame len) ->
     wpe OutOfFuel (receive frame len) (fun _ s1 => rx_ok s1) s0) ->
  match rtl8139_rx receive fuel s with
  | Ok _ s' => rx_ok s'
  | Stuck e _ => e = OutOfFuel
  end.
Proof.
  intros Hs Hrec. change (wpe OutOfFuel (rtl8139_rx receive fuel) (fun _ s' => rx_ok s') s). unfold rtl8139_rx, locals.
  apply wpe_bind, wpe_bind. apply (wpe_while (fun _ s' => rx_ok s')); [done|].
  - intros [] s1 H1. apply wpe_wp_bind, wp_rtl_read8. intros c p. assert (H1p : rx_ok (set_hw p s1)) by done.
    destruct (Z.land c RTL_CMD_RX_BUF_EMPTY =? 0).
    + apply wpe_wp_bind, wp_gets. set (s2 := set_hw p s1) in *. set (cur := rx_cur (nic s2)). destruct H1p as [Hc H4]. fold cur in Hc, H4.
      pose proof (rx_dma_size (hw s2)) as Hring. apply wpe_wp_bind, wp_gets.
      apply wpe_wp_bind, wp_ld32. { unfold RTL_RXBUF_SIZE in *. split; [lia|]. rewrite Hring. Z.div_mod_to_equations. lia. }
      set (status := le32 _ _). set (len := Z.land (Z.shiftr status 16) 0x3FFF).
      assert (Hlen0 : 0 <= len) by (unfold len; apply Z.land_nonneg; by right).
      destruct (_ || _) eqn:Hbad; [by apply wpe_of_wp, wp_ret, wpe_of_wp, wp_ret, wpe_of_wp, wp_rtl_write8; intros|]. bprop.
      assert (Hlen : 0 < len <= NET_BUF_SIZE - 4) by lia. destruct (rx_advance_ok cur len Hc H4 Hlen) as (Ha & Ha4 & _).
      apply wpe_wp_bind, wp_modify, wpe_wp_bind, wp_rtl_write16. intros p2.
      destruct (negb _); [by apply wpe_of_wp, wp_ret|].
      apply wpe_wp_bind, (wp_rx_copy (rx_dma p2)); [done | done | done |]. intros frame Hf.
      apply wpe_bind. eapply wpe_mono; [|apply Hrec; [done | by exists cur]]. intros [] s3 Hs3. by apply wpe_of_wp, wp_ret.
    + by apply wpe_of_wp, wp_ret, wpe_of_wp, wp_ret, wpe_of_wp, wp_rtl_write8; intros.
Qed.

Lemma rtl8139_rx_safe_witness :
  match rtl8139_rx (fun _ _ => mret tt) 4 demo_net with Ok _ s' => rx_ok s' | Stuck e _ => e = OutOfFuel end.
Proof. apply (rtl8139_rx_safe (fun _ _ => mret tt) 4 demo_net); [done|]. intros. by apply wpe_of_wp, wp_ret. Defined.
