(* ===== verification/ArpFacts.v ===== *)
(** The ARP cache as a table from addresses to MACs. *)
From Stdlib Require Import ZArith Lia List.
From stdpp Require Import base tactics numbers list gmap strings option.
From S2P Require Import Prelude CString Bytes Ata NetState Rtl8139 Net NetDemo NetFacts.
Open Scope Z_scope.

(** Eight complete entries, at most one of the valid ones for an address, with
    32-bit ages. *)
Record cache_wf (l : list arp_entry_t) : Prop := {
  cw_ok : cache_ok l;
  cw_age : forall i, 0 <= i < ARP_CACHE_SIZE -> 0 <= age (arp_entry_at l i) < 4294967296;
  cw_once : forall ip i j, 0 <= i < ARP_CACHE_SIZE -> 0 <= j < ARP_CACHE_SIZE ->
    serves ip (arp_entry_at l i) = true -> serves ip (arp_entry_at l j) = true -> i = j
}.

Lemma entry_insert l i e j : 0 <= i < lenZ l -> 0 <= j ->
  arp_entry_at (<[Z.to_nat i := e]> l) j = if i =? j then e else arp_entry_at l j.
Proof.
  intros Hi Hj. unfold arp_entry_at, lenZ in *. rewrite !nth_lookup. destruct (Z.eqb_spec i j) as [->|].
  - rewrite list_lookup_insert_eq by lia. done.
  - rewrite list_lookup_insert_ne by lia. done.
Qed.

Lemma find_insert f (l : list arp_entry_t) k e old : l !! k = Some old -> f old = false -> f e = false ->
  List.find f (<[k := e]> l) = List.find f l.
Proof.
  revert k. induction l as [|x l IH]; intros k Hk Ho He; [done|]. destruct k as [|k].
  - injection Hk as ->. cbn. by rewrite Ho, He.
  - cbn. destruct (f x); [done|]. by apply IH.
Qed.

Lemma serves_ip ip ip' e : serves ip e = true -> serves ip' e = true -> ip = ip'.
Proof. unfold serves. intros Hs Hs'. bprop. congruence. Qed.

Lemma cached_serves l ip j : cached l ip = None -> 0 <= j < ARP_CACHE_SIZE -> lenZ l = ARP_CACHE_SIZE ->
  serves ip (arp_entry_at l j) = false.
Proof.
  unfold cached. intros Hc Hj Hl. destruct (List.find (serves ip) l) as [e|] eqn:Hf; [done|].
  apply (List.find_none _ _ Hf). unfold arp_entry_at. apply nth_In. unfold lenZ in Hl. lia.
Qed.

Section Add.
Context {P : Type} `{NicHw P} `{Locals}.
Implicit Types s : net P.

(** The slot that is used for a new address. *)
Definition is_victim (l : list arp_entry_t) (i : Z) : Prop :=
  0 <= i < ARP_CACHE_SIZE /\
  (valid (arp_entry_at l i) = 0 /\ (forall j, 0 <= j < i -> valid (arp_entry_at l j) <> 0) \/
   (forall j, 0 <= j < ARP_CACHE_SIZE -> valid (arp_entry_at l j) <> 0 /\ age (arp_entry_at l i) <= age (arp_entry_at l j))).

Lemma wp_arp_victim (Q : Z -> net P -> Prop) s : cache_wf (arp_cache (n_arp s)) ->
  (forall i, is_victim (arp_cache (n_arp s)) i -> Q i s) -> wp arp_victim Q s.
Proof.
  intros Hwf HQ. set (l := arp_cache (n_arp s)) in *. unfold arp_victim. wp_step. apply wp_locals.
  apply (wp_for (fun k '(o, oa) s' => s' = s /\ (forall j, 0 <= j < k -> valid (arp_entry_at l j) <> 0) /\
    0 <= o < ARP_CACHE_SIZE /\ (forall j, 0 <= j < k -> oa <= age (arp_entry_at l j)) /\
    (oa = age (arp_entry_at l o) /\ o < k \/ o = 0 /\ oa = 0xFFFFFFFF))).
  - split; [done|]. split; [intros; lia|]. split; [done|]. split; [intros; lia | by right].
  - intros k [o oa] s' Hk (-> & Hv & Ho & Hm & Hoa). unfold span, ARP_CACHE_SIZE in *. wp_step. apply wp_gets. fold l.
    destruct (Z.eqb_spec (valid (arp_entry_at l k)) 0).
    + apply wp_ret, wp_ret, HQ. split; [unfold ARP_CACHE_SIZE; cbn [fst]; lia|]. left. by split.
    + destruct (Z.ltb_spec (age (arp_entry_at l k)) oa); apply wp_ret; (split; [done|]; split;
        [intros j Hj; destruct (decide (j = k)) as [->|]; [done | apply Hv; lia]|]); (split; [lia|]); split.
      * intros j Hj. destruct (decide (j = k)) as [->|]; [done|]. specialize (Hm j ltac:(lia)). lia.
      * left. split; [done | lia].
      * intros j Hj. destruct (decide (j = k)) as [->|]; [done | apply Hm; lia].
      * destruct Hoa as [[? ?]|?]; [left; split; [done | lia] | by right].
  - intros [o oa] s' (-> & Hv & Ho & Hm & Hoa). unfold span, ARP_CACHE_SIZE in *. apply wp_ret, HQ.
    split; [exact Ho|]. right. intros j Hj. split; [apply Hv; unfold ARP_CACHE_SIZE in *; lia|]. cbn [fst].
    specialize (Hm j ltac:(unfold ARP_CACHE_SIZE in *; lia)). destruct Hoa as [[-> _]|[-> ->]]; [done|].
    pose proof (cw_age l Hwf 0 ltac:(done)). lia.
Qed.

(** The cache after an address was stored in slot [i]. *)
Definition stored (l : list arp_entry_t) (ip m : list Z) (i : Z) (l' : list arp_entry_t) : Prop :=
  exists t, 0 <= t < 4294967296 /\ exists v, v <> 0 /\ l' = <[Z.to_nat i := mkArpEntry ip m v t]> l.

Lemma stored_wf l ip m i l' : cache_wf l -> lenZ ip = 4 -> lenZ m = 6 -> 0 <= i < ARP_CACHE_SIZE ->
  (forall j, 0 <= j < ARP_CACHE_SIZE -> serves ip (arp_entry_at l j) = true -> j = i) ->
  stored l ip m i l' -> cache_wf l' /\ cached l' ip = Some m /\
  forall ip', ip' <> ip -> serves ip' (arp_entry_at l i) = false -> cached l' ip' = cached l ip'.
Proof.
  intros [[Hl Hf] Hage Honce] Hip Hm Hi Hu (t & Ht & v & Hv & ->). set (e := mkArpEntry ip m v t).
  assert (Hse : serves ip e = true).
  { unfold serves, e. cbn. rewrite bool_decide_true by done. by destruct (Z.eqb_spec v 0). }
  unfold ARP_CACHE_SIZE in *. assert (Hat : forall j, 0 <= j < 8 -> arp_entry_at (<[Z.to_nat i := e]> l) j = if i =? j then e else arp_entry_at l j)
    by (intros; apply entry_insert; lia).
  split; [split|split].
  - split; [unfold lenZ; rewrite length_insert; exact Hl|]. by apply Forall_insert.
  - unfold ARP_CACHE_SIZE. intros j Hj. rewrite Hat by done. destruct (i =? j); [done | by apply Hage].
  - unfold ARP_CACHE_SIZE. intros ip' j k Hj Hk. rewrite !Hat by done.
    destruct (Z.eqb_spec i j) as [Hj'|], (Z.eqb_spec i k) as [Hk'|]; intros Hsj Hsk; [congruence | | |].
    + rewrite (serves_ip _ _ _ Hsj Hse) in Hsk. apply Hu in Hsk; congruence.
    + rewrite (serves_ip _ _ _ Hsk Hse) in Hsj. apply Hu in Hsj; congruence.
    + by apply (Honce ip').
  - unfold cached. rewrite (find_index _ _ i).
    + rewrite Hat, Z.eqb_refl by done. done.
    + split; [unfold lenZ in *; rewrite length_insert; lia|]. rewrite Hat, Z.eqb_refl by done. split; [done|].
      intros j Hj. rewrite Hat by lia. destruct (Z.eqb_spec i j); [lia|].
      destruct (serves ip (arp_entry_at l j)) eqn:Hs; [|done]. apply Hu in Hs; lia.
  - intros ip' Hne Ho. unfold cached. f_equal. apply (find_insert _ _ _ _ (arp_entry_at l i)).
    + unfold arp_entry_at, lenZ in *. rewrite nth_lookup.
      destruct (lookup_lt_is_Some_2 l (Z.to_nat i)) as [x ->]; [lia | done].
    + done.
    + destruct (serves ip' e) eqn:Hs; [|done]. by destruct Hne; apply (serves_ip _ _ e).
Qed.

Lemma wp_now (Q : Z -> net P -> Prop) s :
  (forall t p, 0 <= t < 4294967296 -> Q t (set_hw p s)) -> wp timer_ticks Q s.
Proof.
  intros HQ. unfold timer_ticks, hw_get, wp, mbind, M_bind. destruct (ticks (hw s)) as [v p].
  cbn. apply HQ, u32_range.
Qed.

(** The result of adding an address: the cache and the pending request. *)
Definition added s (ip m : list Z) (s' : net P) : Prop :=
  exists i p, stored (arp_cache (n_arp s)) ip m i (arp_cache (n_arp s')) /\ 0 <= i < ARP_CACHE_SIZE /\
    (serves ip (arp_entry_at (arp_cache (n_arp s)) i) = true \/
     is_victim (arp_cache (n_arp s)) i /\ cached (arp_cache (n_arp s)) ip = None) /\
    s' = set_arp (n_arp s') (set_hw p s) /\
    (cached (arp_cache (n_arp s)) ip = None -> arp_pending (n_arp s) <> 0 -> arp_pending_ip (n_arp s) = ip ->
       arp_pending (n_arp s') = 0 /\ arp_pending_mac (n_arp s') = m).

Lemma wp_arp_cache_add ip m (Q : unit -> net P -> Prop) s : cache_wf (arp_cache (n_arp s)) -> lenZ ip = 4 ->
  lenZ (arp_pending_ip (n_arp s)) = 4 -> (forall s', added s ip m s' -> Q tt s') -> wp (arp_cache_add ip m) Q s.
Proof.
  intros Hwf Hip Hpip HQ. unfold arp_cache_add. wp_step. apply wp_arp_find; [apply Hwf | done | |].
  - intros i Hi. pose proof Hi as (Hib & Hs & _). pose proof (find_index _ _ _ Hi) as Hf. destruct Hwf as [[Hl _] _ _].
    wp_step. apply wp_gets. wp_step. apply wp_now. intros t p Ht. apply wp_modify, HQ. exists i, p.
    assert (Hc : cached (arp_cache (n_arp s)) ip <> None) by (unfold cached; by rewrite Hf).
    unfold serves in Hs. bprop.
    split; [exists t; split; [done|]; exists (valid (arp_entry_at (arp_cache (n_arp s)) i)); split; [done|]; cbn; by subst ip|].
    split; [lia|]. split; [left; unfold serves; case_range; [done|]; by rewrite bool_decide_true|]. by split.
  - intros Hn. assert (Hc : cached (arp_cache (n_arp s)) ip = None).
    { unfold cached. rewrite find_none; [done|]. destruct Hwf as [[-> _] _ _]. exact Hn. }
    wp_step. apply wp_arp_victim; [done|]. intros i Hv. wp_step. apply wp_now. intros t p Ht.
    wp_step. apply wp_modify. wp_step. apply wp_gets. cbn [n_arp set_arp arp_pending arp_pending_ip set_cache].
    assert (Hst : stored (arp_cache (n_arp s)) ip m i (<[Z.to_nat i := mkArpEntry ip m 1 t]> (arp_cache (n_arp s))))
      by (exists t; split; [done|]; by exists 1).
    assert (Hq : wp (if negb (arp_pending (n_arp s) =? 0) then ip_eq ip (arp_pending_ip (n_arp s)) else mret false)
      (fun b s' => s' = set_arp (set_cache (<[Z.to_nat i := mkArpEntry ip m 1 t]> (arp_cache (n_arp s))) (n_arp s)) (set_hw p s) /\
         b = negb (arp_pending (n_arp s) =? 0) && bool_decide (ip = arp_pending_ip (n_arp s)))
      (set_arp (set_cache (<[Z.to_nat i := mkArpEntry ip m 1 t]> (arp_cache (n_arp s))) (n_arp s)) (set_hw p s))).
    { destruct (arp_pending (n_arp s) =? 0); cbn [negb andb]; [by apply wp_ret|]. by apply wp_ip_eq. }
    wp_step. eapply wp_mono; [|exact Hq]. intros b s' [-> Hb]. destruct b.
    + wp_step. apply wp_modify, wp_modify, HQ. exists i, p. destruct Hv as [Hi Hv].
      split; [exact Hst|]. split; [done|]. split; [by right|]. split; [done|]. done.
    + apply wp_ret, HQ. exists i, p. destruct Hv as [Hi Hv]. split; [exact Hst|]. split; [done|]. split; [by right|].
      split; [done|]. intros _ Hp Hpi. symmetry in Hb. apply andb_false_iff in Hb as [Hb|Hb]; bprop; congruence.
Qed.
End Add.

(** C30: The ARP cache is a map of bounded size.  Adding an address to a
    well-formed cache keeps it well formed (at most one entry for an address)
    and makes the lookup of the address return the new MAC.  Every other
    address keeps its answer, except the one whose slot is taken: the first
    empty slot or, when all are in use, one of the smallest age.  A pending
    request for the new address is completed. *)
Theorem arp_cache_add_spec {P} `{NicHw P} (s : net P) ip m :
  cache_wf (arp_cache (n_arp s)) -> lenZ ip = 4 -> lenZ m = 6 -> lenZ (arp_pending_ip (n_arp s)) = 4 ->
  exists s' i, arp_cache_add ip m s = Ok tt s' /\
    cache_wf (arp_cache (n_arp s')) /\
    (forall s2 : net P, n_arp s2 = n_arp s' -> arp_cache_lookup ip s2 = Ok (Some m) s2) /\
    (forall ip', ip' <> ip -> serves ip' (arp_entry_at (arp_cache (n_arp s)) i) = false ->
       cached (arp_cache (n_arp s')) ip' = cached (arp_cache (n_arp s)) ip') /\
    (serves ip (arp_entry_at (arp_cache (n_arp s)) i) = true \/ is_victim (arp_cache (n_arp s)) i) /\
    (cached (arp_cache (n_arp s)) ip = None -> arp_pending (n_arp s) <> 0 -> arp_pending_ip (n_arp s) = ip ->
       arp_pending (n_arp s') = 0 /\ arp_pending_mac (n_arp s') = m).
Proof.
  intros Hwf Hip Hm Hpip. assert (Hw : wp (arp_cache_add ip m) (fun _ s' => added s ip m s') s) by (by apply wp_arp_cache_add).
  apply wp_unit in Hw as (s' & He & i & p & Hst & Hi & Hslot & _ & Hpend). exists s', i. split; [done|].
  assert (Hu : forall j, 0 <= j < ARP_CACHE_SIZE -> serves ip (arp_entry_at (arp_cache (n_arp s)) j) = true -> j = i).
  { intros j Hj Hs. destruct Hslot as [Hsi|[_ Hnone]]; [by apply (cw_once _ Hwf ip)|].
    rewrite (cached_serves _ _ j Hnone Hj) in Hs; [done | by destruct Hwf as [[? _] _ _]]. }
  destruct (stored_wf _ ip m i _ Hwf Hip Hm Hi Hu Hst) as (Hwf' & Hc & Hother).
  split; [done|]. split; [|split; [done|split; [destruct Hslot as [?|[? _]]; tauto | done]]].
  intros s2 Hs2. rewrite arp_cache_lookup_cached by (rewrite ?Hs2; done || apply Hwf'). by rewrite Hs2, Hc.
Qed.

Lemma demo_cache_wf : cache_wf demo_cache.
Proof.
  constructor; [exact demo_cache_ok | |].
  - intros i Hi. unfold ARP_CACHE_SIZE in Hi. by index_cases i 8.
  - assert (Hz : forall ip i, 0 <= i < ARP_CACHE_SIZE -> serves ip (arp_entry_at demo_cache i) = true -> i = 0).
    { intros ip i Hi Hs. unfold ARP_CACHE_SIZE in Hi. by index_cases i 8. }
    intros ip i j Hi Hj Hsi Hsj. apply Hz in Hsi, Hsj; congruence.
Qed.

(** The host hears from 10.0.2.3. *)
Lemma arp_cache_add_spec_witness :
  exists s' i, arp_cache_add [10; 0; 2; 3] HOST_MAC demo_net = Ok tt s' /\
    cache_wf (arp_cache (n_arp s')) /\
    (forall s2 : net unit, n_arp s2 = n_arp s' -> arp_cache_lookup [10; 0; 2; 3] s2 = Ok (Some HOST_MAC) s2) /\
    (forall ip', ip' <> [10; 0; 2; 3] -> serves ip' (arp_entry_at demo_cache i) = false ->
       cached (arp_cache (n_arp s')) ip' = cached demo_cache ip') /\
    (serves [10; 0; 2; 3] (arp_entry_at demo_cache i) = true \/ is_victim demo_cache i) /\
    (cached demo_cache [10; 0; 2; 3] = None -> 0 <> 0 -> replicate 4 0 = [10; 0; 2; 3] ->
       arp_pending (n_arp s') = 0 /\ arp_pending_mac (n_arp s') = HOST_MAC).
Proof. apply (arp_cache_add_spec demo_net [10; 0; 2; 3] HOST_MAC); [exact demo_cache_wf | done..]. Defined.
