(* ===== verification/AddrFacts.v ===== *)
(** The dotted form of IPv4 addresses. *)
From Stdlib Require Import ZArith Lia List.
From stdpp Require Import base tactics numbers list gmap strings option.
From S2P Require Import Prelude CString Bytes Ata NetState Rtl8139 Net NetDemo NetFacts.
Open Scope Z_scope.

(** The decimal digits of a byte, and the text of a list of them. *)
Definition dec_byte (b : Z) : list Z :=
  if b <? 10 then [48 + b]
  else if b <? 100 then [48 + b / 10; 48 + b mod 10]
  else [48 + b / 100; 48 + b / 10 mod 10; 48 + b mod 10].
Fixpoint ip_text (l : list Z) : list Z :=
  match l with
  | [] => []
  | [b] => dec_byte b
  | b :: l' => dec_byte b ++ 46 :: ip_text l'
  end.

Lemma ip_text_snoc l b : ip_text (l ++ [b]) = ip_text l ++ (if decide (l = []) then [] else [46]) ++ dec_byte b.
Proof.
  induction l as [|x l IH]; [done|]. change ((x :: l) ++ [b]) with (x :: (l ++ [b])).
  destruct l as [|y l]; [done|]. cbn [app] in *. cbn [ip_text] in *. rewrite IH.
  destruct (decide (y :: l = [])); [done|]. destruct (decide (x :: y :: l = [])); [done|].
  by rewrite <- app_assoc.
Qed.

(** The text of a byte in the four-byte buffer of [itoa_buf]. *)
Definition byte_buf (b : Z) : list Z := take 4 (dec_byte b ++ [0; 0; 0]).

Section Text.
Context {S : Type}.

Lemma itoa_byte b (s : S) : 0 <= b < 256 -> itoa_buf b (replicate 4 0) s = Ok (byte_buf b) s.
Proof.
  intros Hb.
  assert (Hall : map (fun b => itoa_buf b (replicate 4 0) s) (seqZ 0 256) = map (fun b => Ok (byte_buf b) s) (seqZ 0 256))
    by (vm_compute; reflexivity).
  assert (Hk : seqZ 0 256 !! Z.to_nat b = Some b) by (apply lookup_seqZ; lia).
  apply (f_equal (fun l => l !! Z.to_nat b)) in Hall. rewrite !list_lookup_fmap, Hk in Hall. by injection Hall.
Qed.

Lemma dec_byte_length b : 1 <= lenZ (dec_byte b) <= 3.
Proof. unfold dec_byte. by destruct (b <? 10), (b <? 100). Qed.

Lemma dec_byte_digit b : 0 <= b < 256 -> Forall digit (dec_byte b).
Proof. intros Hb. unfold dec_byte, digit. case_range; repeat constructor; Z.div_mod_to_equations; lia. Qed.

Lemma byte_buf_cstr b : 0 <= b < 256 -> cstr (byte_buf b) = dec_byte b /\ terminated (byte_buf b) /\ lenZ (byte_buf b) = 4.
Proof.
  intros Hb. pose proof (dec_byte_length b) as Hl. pose proof (dec_byte_digit b Hb) as Hd.
  assert (Hlb : lenZ (byte_buf b) = 4).
  { unfold byte_buf, lenZ. rewrite length_take, length_app. unfold lenZ in Hl. cbn [Datatypes.length]. lia. }
  assert (Hrd : forall j, 0 <= j < 4 -> rd (byte_buf b) j = if j <? lenZ (dec_byte b) then rd (dec_byte b) j else 0).
  { intros j Hj. unfold byte_buf. change 4%nat with (Z.to_nat 4). rewrite rd_take by lia. case_range.
    - by rewrite rd_app_l by lia.
    - rewrite rd_app_r by lia. replace [0; 0; 0] with (replicate 3 0) by done. apply rd_replicate. lia. }
  assert (He : cstr (byte_buf b) = dec_byte b).
  { apply cstr_unique; [lia | |].
    - intros j Hj. rewrite Hrd by lia. case_range; [|lia]. split; [done|].
      pose proof (Forall_rd digit _ j Hd Hj) as Hdj. unfold digit in Hdj. lia.
    - rewrite Hrd by lia. case_range; lia || done. }
  split; [done|]. split; [unfold terminated; rewrite He; lia | done].
Qed.

(** [out] starts with the text [t]. *)
Definition starts (out t : list Z) : Prop := lenZ t <= lenZ out /\ forall j, 0 <= j < lenZ t -> rd out j = rd t j.

Lemma starts_app out t u r : starts out t -> lenZ t + lenZ u <= lenZ out -> copied out (lenZ t) u 0 (lenZ u) r ->
  starts r (t ++ u).
Proof.
  intros [Hl Hs] Hlu [Hlr Hr]. pose proof (lenZ_nonneg u). pose proof (lenZ_nonneg t).
  split; [rewrite lenZ_app; lia|]. intros j Hj. rewrite lenZ_app in Hj. rewrite Hr by lia. case_range; try lia.
  - rewrite rd_app_r by lia. f_equal; lia.
  - rewrite rd_app_l by lia. apply Hs; lia.
Qed.

Lemma ip_text_length l : lenZ (ip_text l) <= Z.max 0 (4 * lenZ l - 1).
Proof.
  induction l as [|b [|c l] IH]; [done | |].
  - cbn [ip_text]. pose proof (dec_byte_length b). change (lenZ [b]) with 1. lia.
  - change (ip_text (b :: c :: l)) with (dec_byte b ++ 46 :: ip_text (c :: l)). rewrite lenZ_app.
    pose proof (dec_byte_length b). unfold lenZ in *. cbn [Datatypes.length] in *. lia.
Qed.

Lemma wp_ip4_to_string ip out n (Q : Z * list Z -> S -> Prop) s :
  lenZ ip = 4 -> bytes ip -> 16 <= n <= lenZ out ->
  (forall r, lenZ r = lenZ out -> starts r (ip_text ip ++ [0]) -> Q (0, r) s) -> wp (ip4_to_string ip out n) Q s.
Proof.
  intros Hip Hb Hn HQ. unfold ip4_to_string. wp_step.
  apply (wp_for (fun i '(used, r) s' => s' = s /\ lenZ r = lenZ out /\ starts r (ip_text (take (Z.to_nat i) ip)) /\
    used = lenZ (ip_text (take (Z.to_nat i) ip)))).
  - split; [done|]. split; [done|]. split; [|done]. split; [apply lenZ_nonneg|]. intros j Hj. change (lenZ (ip_text (take (Z.to_nat 0) ip))) with 0 in Hj. lia.
  - intros i [used r] s' Hi (-> & Hlr & Hst & ->). unfold span in Hi. set (t := take (Z.to_nat i) ip) in *.
    assert (Hlt : lenZ t = i) by (unfold t; rewrite lenZ_take; lia).
    pose proof (ip_text_length t) as Hlen. rewrite Hlt in Hlen.
    assert (Hsucc : take (Z.to_nat (i + 1)) ip = t ++ [rd ip i]) by (unfold t; apply take_succ_Z; lia).
    assert (Hnil : t = [] <-> i = 0) by (split; [intros ->; done | intros ->; done]).
    set (dot := if decide (t = []) then [] else [46]).
    assert (Hd : wp (if (0 <? i) && (lenZ (ip_text t) + 1 <? n) then r ← aset r (lenZ (ip_text t)) 46; mret (lenZ (ip_text t) + 1, r)
       else mret (lenZ (ip_text t), r)) (fun v s' => s' = s /\ fst v = lenZ (ip_text t ++ dot) /\ lenZ (snd v) = lenZ out /\
       starts (snd v) (ip_text t ++ dot)) s).
    { unfold dot. pose proof (lenZ_nonneg (ip_text t)). destruct (decide (t = [])) as [Ht|Ht].
      - destruct (Z.ltb_spec 0 i); [rewrite Hnil in Ht; lia|]. apply wp_ret. cbn [fst snd]. by rewrite app_nil_r.
      - rewrite Hnil in Ht. destruct (Z.ltb_spec 0 i); [|lia]. destruct (Z.ltb_spec (lenZ (ip_text t) + 1) n); [|lia].
        cbn [andb]. wp_step. apply wp_aset; [lia|]. apply wp_ret. cbn [fst snd]. split; [done|].
        split; [by rewrite lenZ_app|]. split; [by rewrite lenZ_wr|].
        apply (starts_app r); [done | change (lenZ [46]) with 1; lia |]. split; [by rewrite lenZ_wr|].
        intros j Hj. rewrite rd_wr by lia. change (lenZ [46]) with 1. case_range; try lia; try done.
        by replace (0 + (j - lenZ (ip_text t))) with 0 by lia. }
    wp_step. eapply wp_mono; [|exact Hd]. intros [u r'] s' (-> & Hu & Hlr' & Hst'). cbn [fst snd] in *. subst u.
    assert (Hdl : lenZ dot <= 1) by (unfold dot; by destruct (decide _)).
    wp_step. apply wp_aget; [lia|]. pose proof (Hb i) as Hbi. destruct (byte_buf_cstr _ Hbi) as (Hcs & Hter & Hl4).
    pose proof (dec_byte_length (rd ip i)). wp_step. eapply wp_run; [by apply itoa_byte|].
    wp_step. apply wp_strlen; [done|]. rewrite Hcs, lenZ_app in *.
    assert (Htot : lenZ (ip_text t) + lenZ dot + lenZ (dec_byte (rd ip i)) <= 15).
    { unfold dot in *. destruct (decide (t = [])) as [Ht|Ht].
      - rewrite Ht. change (lenZ (ip_text [])) with 0. change (lenZ (@nil Z)) with 0. lia.
      - change (lenZ [46]) with 1. lia. }
    destruct (Z.leb_spec n (lenZ (ip_text t) + lenZ dot + lenZ (dec_byte (rd ip i)))); [lia|].
    pose proof (lenZ_nonneg (ip_text t)). pose proof (lenZ_nonneg dot).
    wp_step. apply wp_memcpy; try lia. intros r2 Hr2. apply wp_ret. rewrite Hsucc.
    rewrite ip_text_snoc. fold dot. pose proof Hr2 as [Hlr2 _].
    split; [done|]. split; [lia|]. split; [|rewrite !lenZ_app; lia]. rewrite app_assoc.
    apply (starts_app r'); [done | rewrite lenZ_app; lia |]. rewrite lenZ_app. destruct Hr2 as [_ Hr2]. split; [done|].
    intros j Hj. rewrite Hr2 by done. case_range; try done. rewrite <- Hcs. symmetry. apply rd_cstr. rewrite Hcs. lia.
  - intros [used r] s' (-> & Hlr & Hst & ->). unfold span in *. change (0 + Z.of_nat (Z.to_nat (4 - 0))) with 4 in *.
    rewrite take_ge in * by (unfold lenZ in Hip; lia). pose proof (ip_text_length ip) as Hlen. rewrite Hip in Hlen.
    pose proof (lenZ_nonneg (ip_text ip)). destruct (Z.ltb_spec (lenZ (ip_text ip)) n); [|lia].
    wp_step. apply wp_aset; [lia|]. apply wp_ret, HQ; [by rewrite lenZ_wr|].
    apply (starts_app r); [done | change (lenZ [0]) with 1; lia |]. split; [by rewrite lenZ_wr|].
    intros j Hj. rewrite rd_wr by lia. change (lenZ [0]) with 1. case_range; try lia; try done.
    by replace (0 + (j - lenZ (ip_text ip))) with 0 by lia.
Qed.

(** * Parsing *)

Section Parse.
Variable text : list Z.

Definition ip_body : Z * list Z * Z * Z -> M S (ctl (Z * list Z * Z * Z) unit) := fun '(p, octets, idx, cur) =>
  c ← aget text p;
  if c =? 0 then mret (Brk (p, octets, idx, cur))
  else if (48 <=? c) && (c <=? 57) then
    let cur := cur * 10 + (c - 48) in
    if 255 <? cur then mret (Ret tt) else mret (Cont (p + 1, octets, idx, cur))
  else if c =? 46 then
    if 3 <=? idx then mret (Ret tt)
    else octets ← aset octets idx cur; mret (Cont (p + 1, octets, idx + 1, 0))
  else mret (Ret tt).

Lemma ip_digit fuel p o idx cur d (Q : Z * list Z * Z * Z + unit -> S -> Prop) s :
  0 <= p < lenZ text -> rd text p = 48 + d -> 0 <= d <= 9 -> 0 <= cur -> cur * 10 + d <= 255 ->
  wp (while_ fuel (p + 1, o, idx, cur * 10 + d) ip_body) Q s -> wp (while_ (Datatypes.S fuel) (p, o, idx, cur) ip_body) Q s.
Proof.
  intros Hp Hr Hd Hc Hcur HQ. cbn [while_]. wp_step. unfold ip_body at 1. wp_step. apply wp_aget; [done|]. rewrite Hr.
  destruct (Z.eqb_spec (48 + d) 0); [lia|]. destruct (Z.leb_spec 48 (48 + d)); [|lia].
  destruct (Z.leb_spec (48 + d) 57); [|lia]. cbn [andb]. replace (48 + d - 48) with d by lia.
  destruct (Z.ltb_spec 255 (cur * 10 + d)); [lia|]. by apply wp_ret.
Qed.

Lemma ip_dot fuel p o idx cur (Q : Z * list Z * Z * Z + unit -> S -> Prop) s :
  0 <= p < lenZ text -> rd text p = 46 -> 0 <= idx < 3 -> lenZ o = 4 ->
  wp (while_ fuel (p + 1, wr o idx cur, idx + 1, 0) ip_body) Q s -> wp (while_ (Datatypes.S fuel) (p, o, idx, cur) ip_body) Q s.
Proof.
  intros Hp Hr Hi Ho HQ. cbn [while_]. wp_step. unfold ip_body at 1. wp_step. apply wp_aget; [done|]. rewrite Hr.
  cbn [Z.eqb Pos.eqb Z.leb Z.compare Pos.compare Pos.compare_cont andb]. destruct (Z.leb_spec 3 idx); [lia|].
  wp_step. apply wp_aset; [lia|]. by apply wp_ret.
Qed.

(** A whole octet. *)
Lemma ip_octet fuel p o idx b rest (Q : Z * list Z * Z * Z + unit -> S -> Prop) s :
  0 <= b < 256 -> 0 <= p -> drop (Z.to_nat p) text = dec_byte b ++ rest ->
  wp (while_ fuel (p + lenZ (dec_byte b), o, idx, b) ip_body) Q s ->
  wp (while_ (Datatypes.length (dec_byte b) + fuel) (p, o, idx, 0) ip_body) Q s.
Proof.
  intros Hb Hp Hd HQ.
  assert (Hlt : p + lenZ (dec_byte b) <= lenZ text).
  { pose proof (f_equal (fun l => Z.of_nat (Datatypes.length l)) Hd) as He. cbn beta in He. rewrite length_drop, length_app in He.
    pose proof (dec_byte_length b). unfold lenZ in *. lia. }
  assert (Hrd : forall j, 0 <= j < lenZ (dec_byte b) -> rd text (p + j) = rd (dec_byte b) j).
  { intros j Hj. rewrite <- rd_drop, Hd by lia. by apply rd_app_l. }
  unfold dec_byte in *.
  destruct (Z.ltb_spec b 10); [|destruct (Z.ltb_spec b 100)].
  - change (lenZ [48 + b]) with 1 in *. apply (ip_digit _ _ _ _ _ b); try lia.
    + rewrite <- (Z.add_0_r p) at 1. apply Hrd. lia.
    + by replace (0 * 10 + b) with b by lia.
  - change (lenZ [48 + b / 10; 48 + b mod 10]) with 2 in *.
    apply (ip_digit _ _ _ _ _ (b / 10)); try (Z.div_mod_to_equations; lia).
    { rewrite <- (Z.add_0_r p) at 1. apply Hrd. lia. }
    apply (ip_digit _ _ _ _ _ (b mod 10)); try (Z.div_mod_to_equations; lia).
    { apply Hrd. lia. }
    replace ((0 * 10 + b / 10) * 10 + b mod 10) with b by (Z.div_mod_to_equations; lia).
    by replace (p + 1 + 1) with (p + 2) by lia.
  - change (lenZ [48 + b / 100; 48 + b / 10 mod 10; 48 + b mod 10]) with 3 in *.
    apply (ip_digit _ _ _ _ _ (b / 100)); try (Z.div_mod_to_equations; lia).
    { rewrite <- (Z.add_0_r p) at 1. apply Hrd. lia. }
    apply (ip_digit _ _ _ _ _ (b / 10 mod 10)); try (Z.div_mod_to_equations; lia).
    { apply Hrd. lia. }
    apply (ip_digit _ _ _ _ _ (b mod 10)); try (Z.div_mod_to_equations; lia).
    { rewrite <- Z.add_assoc. apply Hrd. lia. }
    replace (((0 * 10 + b / 100) * 10 + b / 10 mod 10) * 10 + b mod 10) with b by (Z.div_mod_to_equations; lia).
    by replace (p + 1 + 1 + 1) with (p + 3) by lia.
Qed.

(** An octet and the dot after it. *)
Lemma ip_octet_dot fuel p o idx b rest (Q : Z * list Z * Z * Z + unit -> S -> Prop) s :
  0 <= b < 256 -> 0 <= p -> drop (Z.to_nat p) text = dec_byte b ++ 46 :: rest -> 0 <= idx < 3 -> lenZ o = 4 ->
  (forall q, 0 <= q -> drop (Z.to_nat q) text = rest -> wp (while_ fuel (q, wr o idx b, idx + 1, 0) ip_body) Q s) ->
  wp (while_ (Datatypes.length (dec_byte b) + Datatypes.S fuel) (p, o, idx, 0) ip_body) Q s.
Proof.
  intros Hb Hp Hd Hi Ho HQ. pose proof (dec_byte_length b) as Hl.
  apply (ip_octet _ _ _ _ b (46 :: rest)); [done | done | done |].
  assert (Hdot : drop (Z.to_nat (p + lenZ (dec_byte b))) text = 46 :: rest).
  { replace (Z.to_nat (p + lenZ (dec_byte b))) with (Z.to_nat p + Datatypes.length (dec_byte b))%nat by (unfold lenZ; lia).
    rewrite <- drop_drop, Hd. apply drop_app_length. }
  assert (Hlen : p + lenZ (dec_byte b) < lenZ text).
  { pose proof (f_equal (fun l => Z.of_nat (Datatypes.length l)) Hdot) as He. cbn beta in He. rewrite length_drop in He.
    cbn [Datatypes.length] in He. unfold lenZ in *. lia. }
  apply ip_dot; [lia | | done | done |].
  - rewrite <- (Z.add_0_r (p + _)), <- rd_drop, Hdot by lia. done.
  - apply HQ; [lia |].
    replace (Z.to_nat (p + lenZ (dec_byte b) + 1)) with (Z.to_nat (p + lenZ (dec_byte b)) + 1)%nat by lia.
    by rewrite <- drop_drop, Hdot.
Qed.
End Parse.

Lemma wp_string_to_ip4 text ip t (Q : option (list Z) -> S -> Prop) s :
  lenZ ip = 4 -> bytes ip -> text = ip_text ip ++ 0 :: t -> Q (Some ip) s -> wp (string_to_ip4 text) Q s.
Proof.
  intros Hl Hb Ht HQ. destruct (list4 ip Hl) as (a & b & c & d & ->).
  pose proof (Hb 0) as Ha. pose proof (Hb 1) as Hb1. pose proof (Hb 2) as Hc. pose proof (Hb 3) as Hd.
  change (rd _ 0) with a in Ha. change (rd _ 1) with b in Hb1. change (rd _ 2) with c in Hc. change (rd _ 3) with d in Hd.
  change (ip_text [a; b; c; d]) with (dec_byte a ++ 46 :: dec_byte b ++ 46 :: dec_byte c ++ 46 :: dec_byte d) in Ht.
  repeat (rewrite <- app_assoc in Ht || rewrite <- app_comm_cons in Ht). 
  unfold string_to_ip4. wp_step.
  replace (Datatypes.length text + 1)%nat with (Datatypes.length (dec_byte a) + Datatypes.S (Datatypes.length (dec_byte b) +
    Datatypes.S (Datatypes.length (dec_byte c) + Datatypes.S (Datatypes.length (dec_byte d) + Datatypes.S (Datatypes.length t + 1)))))%nat
    by (rewrite Ht; repeat (rewrite length_app || cbn [Datatypes.length]); lia).
  fold (ip_body text). eapply (ip_octet_dot text); [done | done | exact Ht | done | done |]. intros q1 Hq1 Hd1.
  eapply (ip_octet_dot text); [done | done | exact Hd1 | done | done |]. intros q2 Hq2 Hd2.
  eapply (ip_octet_dot text); [done | done | exact Hd2 | done | done |]. intros q3 Hq3 Hd3.
  eapply (ip_octet text); [done | done | exact Hd3 |]. pose proof (dec_byte_length d).
  assert (Hend : drop (Z.to_nat (q3 + lenZ (dec_byte d))) text = 0 :: t).
  { replace (Z.to_nat (q3 + lenZ (dec_byte d))) with (Z.to_nat q3 + Datatypes.length (dec_byte d))%nat by (unfold lenZ; lia).
    rewrite <- drop_drop, Hd3. apply drop_app_length. }
  assert (Hle : q3 + lenZ (dec_byte d) < lenZ text).
  { pose proof (f_equal (fun l => Z.of_nat (Datatypes.length l)) Hend) as He. cbn beta in He. rewrite length_drop in He.
    cbn [Datatypes.length] in He. unfold lenZ in *. lia. }
  assert (Hz : rd text (q3 + lenZ (dec_byte d)) = 0) by (rewrite <- (Z.add_0_r (q3 + _)), <- rd_drop, Hend by lia; done).
  cbn [while_]. wp_step. unfold ip_body at 1. wp_step. apply wp_aget; [lia|]. rewrite Hz. apply wp_ret, wp_ret.
  change (negb (0 + 1 + 1 + 1 =? 3)) with false. cbv iota. wp_step. apply wp_aset; [done|]. apply wp_ret.
  replace (map u8 _) with [a; b; c; d]; [done|]. 
  change (wr (wr (wr (wr (replicate 4 0) 0 a) (0 + 1) b) (0 + 1 + 1) c) 3 d) with [a; b; c; d].
  cbn [map]. unfold u8. by rewrite !Z.mod_small by done.
Qed.
End Text.

Lemma ip_text_nonzero l j : bytes l -> 0 <= j < lenZ (ip_text l) -> rd (ip_text l) j <> 0.
Proof.
  intros Hb. assert (Hf : Forall (fun c => c <> 0) (ip_text l)).
  { assert (Hd : forall b, 0 <= b < 256 -> Forall (fun c => c <> 0) (dec_byte b)).
    { intros b Hbb. eapply Forall_impl; [|by apply dec_byte_digit]. unfold digit. intros; lia. }
    assert (Hl : Forall (fun b => 0 <= b < 256) l).
    { apply Forall_lookup. intros i b Hi. specialize (Hb (Z.of_nat i)). unfold rd in Hb.
      by rewrite Nat2Z.id, (nth_lookup_Some _ _ _ _ Hi) in Hb. }
    clear Hb. induction Hl as [|b [|c l'] Hbb Hl IH]; [constructor | by apply Hd |].
    change (ip_text (b :: c :: l')) with (dec_byte b ++ 46 :: ip_text (c :: l')). apply Forall_app. split; [by apply Hd|].
    by constructor. }
  intros Hj. by apply (Forall_rd (fun c => c <> 0)).
Qed.

(** The text of an address reads back as the address.  For every IPv4
    address, [ip4_to_string] into a buffer of at least 16 bytes succeeds and
    writes a terminated string, and [string_to_ip4] returns the address from
    it. *)
Theorem ip4_string_roundtrip {S} (s : S) ip out n :
  lenZ ip = 4 -> bytes ip -> 16 <= n <= lenZ out ->
  exists r, ip4_to_string ip out n s = Ok (0, r) s /\ lenZ r = lenZ out /\ terminated r /\
    string_to_ip4 r s = Ok (Some ip) s.
Proof.
  intros Hl Hb Hn.
  assert (Hw : wp (ip4_to_string ip out n) (fun v s' => s' = s /\ fst v = 0 /\ lenZ (snd v) = lenZ out /\ starts (snd v) (ip_text ip ++ [0])) s)
    by (by apply wp_ip4_to_string).
  apply wp_ok in Hw as ([v r] & s' & He & -> & Hv & Hlr & Hlt & Hst). cbn [fst snd] in *. subst v. exists r.
  rewrite lenZ_app in Hlt, Hst. change (lenZ [0]) with 1 in *. pose proof (lenZ_nonneg (ip_text ip)) as Ht0.
  assert (Hr : r = ip_text ip ++ 0 :: drop (Z.to_nat (lenZ (ip_text ip) + 1)) r).
  { apply rd_ext.
    - rewrite lenZ_app. change (0 :: drop (Z.to_nat (lenZ (ip_text ip) + 1)) r) with ([0] ++ drop (Z.to_nat (lenZ (ip_text ip) + 1)) r).
      rewrite lenZ_app, lenZ_drop by lia. change (lenZ [0]) with 1. lia.
    - intros j Hj. destruct (decide (j < lenZ (ip_text ip))).
      + rewrite rd_app_l by lia. rewrite Hst, rd_app_l by lia. done.
      + rewrite rd_app_r by lia. destruct (decide (j = lenZ (ip_text ip))) as [->|].
        * rewrite Hst, rd_app_r by lia. by rewrite Z.sub_diag.
        * rewrite rd_cons_S, rd_drop by lia. f_equal. lia. }
  split; [done|]. split; [done|]. split.
  - assert (Hd : forall j, 0 <= j < lenZ (ip_text ip) -> rd (ip_text ip) j <> 0) by (intros j Hj; by apply ip_text_nonzero).
    unfold terminated. rewrite (cstr_unique r (ip_text ip)); [lia | lia | |].
    + intros j Hj. split; [rewrite Hst, rd_app_l by lia; done | by apply Hd].
    + rewrite Hst, rd_app_r by lia. by rewrite Z.sub_diag.
  - assert (Hw : wp (string_to_ip4 r) (fun v s' => s' = s /\ v = Some ip) s) by (by eapply wp_string_to_ip4).
    by apply wp_ok in Hw as (v & s' & -> & -> & ->).
Qed.

Lemma ip4_string_roundtrip_witness :
  exists r, ip4_to_string [93; 184; 216; 34] (replicate 16 7) 16 tt = Ok (0, r) tt /\ lenZ r = 16 /\ terminated r /\
    string_to_ip4 r tt = Ok (Some [93; 184; 216; 34]) tt.
Proof. apply (ip4_string_roundtrip tt [93; 184; 216; 34] (replicate 16 7) 16); [done | by apply bytes_by_compute | done]. Defined.
