(* ===== verification/DnsFacts.v ===== *)
(** DNS: the parser of replies, and the wire form of names. *)
From Stdlib Require Import ZArith Lia List.
From stdpp Require Import base tactics numbers list gmap strings option.
From S2P Require Import Prelude CString Bytes Ata NetState Rtl8139 Net NetFacts.
Open Scope Z_scope.

Section Parse.
Context {S : Type}.

(** A name starts inside the packet; what follows it starts after it. *)
Lemma wp_dns_skip_name pkt n o (Q : option Z -> S -> Prop) s :
  bytes pkt -> 0 <= n <= lenZ pkt -> n <= 65536 -> 0 <= o < n ->
  Q None s -> (forall o', o < o' <= n + 1 -> Q (Some o') s) -> wp (dns_skip_name pkt n o) Q s.
Proof.
  intros Hb Hn H64 Ho HN HS. unfold dns_skip_name. wp_step.
  apply (wp_while (fun p s' => s' = s /\ o <= p < n) (fun p _ => Z.to_nat (n - p))).
  - split; [done | lia].
  - lia.
  - intros p s' (-> & Hp). pose proof (Hb p) as Hlen. destruct (Z.leb_spec n p); [lia|].
    wp_step. apply wp_aget; [lia|]. rewrite !u32_small by lia.
    destruct (Z.eqb_spec (Z.land (rd pkt p) 0xC0) 0xC0); [apply wp_ret, wp_ret, HS; lia|].
    destruct (Z.eqb_spec (rd pkt p) 0); [apply wp_ret, wp_ret, HS; lia|].
    destruct (negb _); [by apply wp_ret, wp_ret|].
    destruct (Z.leb_spec n (p + (1 + rd pkt p))); [by apply wp_ret, wp_ret|].
    apply wp_ret. split; [split; [done | lia] | lia].
Qed.

Lemma wp_be16 pkt o (Q : Z -> S -> Prop) s : bytes pkt -> 0 <= o -> o + 2 <= lenZ pkt ->
  Q (256 * rd pkt o + rd pkt (o + 1)) s -> wp (be16 pkt o) Q s.
Proof.
  intros Hb Ho Hl HQ. unfold be16. wp_step. apply wp_aget; [lia|]. wp_step. apply wp_aget; [lia|].
  apply wp_ret. by rewrite hi_lo_word.
Qed.

(** The address comes from the packet. *)
Definition address_in (resp : list Z) (rlen : Z) (r : option (list Z)) : Prop :=
  match r with
  | None => True
  | Some a => exists o, 12 <= o /\ o + 4 <= rlen /\ a = [rd resp o; rd resp (o + 1); rd resp (o + 2); rd resp (o + 3)]
  end.

Lemma wp_dns_answers resp rlen ans o (Q : option (list Z) -> S -> Prop) s :
  bytes resp -> 0 <= rlen <= lenZ resp -> rlen <= 512 -> 12 <= o <= 600 ->
  (forall r, address_in resp rlen r -> Q r s) -> wp (dns_answers resp rlen ans o) Q s.
Proof.
  intros Hb Hl Hr Ho HQ. unfold dns_answers. wp_step.
  apply (wp_for (fun _ p s' => s' = s /\ 12 <= p <= 70000)); [split; [done | lia] | |].
  - intros j p s' Hj (-> & Hp). destruct (Z.leb_spec rlen p); [by apply wp_ret, wp_ret, HQ|].
    wp_step. apply wp_dns_skip_name; [done | lia | lia | lia | by apply wp_ret, wp_ret, HQ |]. intros p' Hp'.
    rewrite !u32_small by (rewrite ?u32_small by lia; lia).
    destruct (Z.ltb_spec rlen (p' + 10)); [by apply wp_ret, wp_ret, HQ|].
    wp_step. apply wp_be16; [done | lia | lia |]. wp_step. apply wp_be16; [done | lia | lia |].
    destruct (_ && _) eqn:Hc.
    + apply andb_prop in Hc as [_ Hc]. apply Z.leb_le in Hc. do 4 (wp_step; apply wp_aget; [lia|]).
      apply wp_ret, wp_ret, HQ. exists (p' + 10). split; [lia|]. by split.
    + apply wp_ret. pose proof (Hb (p' + 8)). pose proof (Hb (p' + 8 + 1)). rewrite u32_small by lia. split; [done | lia].
  - intros p s' (-> & _). by apply wp_ret, HQ.
Qed.
Lemma wp_dns_parse_reply resp rlen (Q : option (list Z) -> S -> Prop) s :
  bytes resp -> 0 <= rlen <= lenZ resp -> rlen <= 512 ->
  (forall r, address_in resp rlen r -> Q r s) -> wp (dns_parse_reply resp rlen) Q s.
Proof.
  intros Hb Hl Hr HQ. unfold dns_parse_reply. destruct (Z.ltb_spec rlen 12); [by apply wp_ret, HQ|].
  wp_step. apply wp_be16; [done | lia | lia |]. wp_step. apply wp_be16; [done | lia | lia |].
  set (qd := 256 * rd resp 4 + rd resp (4 + 1)). set (ans := 256 * rd resp 6 + rd resp (6 + 1)).
  wp_step. apply (wp_for (fun _ o s' => s' = s /\ 12 <= o <= 600)); [split; [done | lia] | |].
  - intros j o s' Hj (-> & Ho). destruct (Z.leb_spec rlen o).
    + by apply wp_ret, wp_dns_answers.
    + wp_step. apply wp_dns_skip_name; [done | lia | lia | lia | by apply wp_ret, wp_ret, HQ |]. intros o' Ho'.
      apply wp_ret. rewrite u32_small by lia. split; [done | lia].
  - intros o s' (-> & Ho). by apply wp_dns_answers.
Qed.
End Parse.

(** ** Beyond the reply

    [m2] follows [m1] when it returns what [m1] returns, as long as [m1] is not
    stuck: a read that is in bounds of a shorter buffer reads the same byte of
    a longer one. *)

Section Follow.
Context {S : Type}.

Definition follows {A} (m1 m2 : M S A) : Prop := forall s a s', m1 s = Ok a s' -> m2 s = Ok a s'.

Lemma follows_refl {A} (m : M S A) : follows m m.
Proof. by intros s a s'. Qed.

Lemma follows_bind {A B} (m1 m2 : M S A) (f1 f2 : A -> M S B) :
  follows m1 m2 -> (forall a, follows (f1 a) (f2 a)) -> follows (m1 ≫= f1) (m2 ≫= f2).
Proof.
  intros Hm Hf s b s'. unfold mbind, M_bind. destruct (m1 s) as [a s1|] eqn:E; [|done].
  rewrite (Hm _ _ _ E). apply Hf.
Qed.

Lemma follows_for {L R} n i l (b1 b2 : Z -> L -> M S (ctl L R)) :
  (forall j l, follows (b1 j l) (b2 j l)) -> follows (for_ n i l b1) (for_ n i l b2).
Proof.
  intros Hb. revert i l. induction n as [|n IH]; intros i l; cbn [for_]; [apply follows_refl|].
  apply follows_bind; [apply Hb|]. intros [l'|l'|r]; [apply IH | apply follows_refl..].
Qed.

Lemma follows_while {L R} fuel l (b1 b2 : L -> M S (ctl L R)) :
  (forall l, follows (b1 l) (b2 l)) -> follows (while_ fuel l b1) (while_ fuel l b2).
Proof.
  intros Hb. revert l. induction fuel as [|n IH]; intros l; cbn [while_]; [apply follows_refl|].
  apply follows_bind; [apply Hb|]. intros [l'|l'|r]; [apply IH | apply follows_refl..].
Qed.

Variables (resp : list Z) (rlen : Z).
Hypothesis short : 0 <= rlen <= lenZ resp.

Lemma follows_aget i : follows (aget (take (Z.to_nat rlen) resp) i) (aget resp i).
Proof.
  intros s a s'. unfold aget. rewrite lenZ_take by done. destruct (decide (0 <= i < rlen)); [|done].
  rewrite decide_True by lia. by rewrite rd_take by lia.
Qed.

(** The tests and the reads of the parser, one by one. *)
Ltac follow :=
  repeat first
    [ apply follows_refl | apply follows_aget | apply follows_bind; [|intros ?]
    | apply follows_for; intros ? ? | apply follows_while; intros ?
    | lazymatch goal with
      | |- follows (if ?b then _ else _) _ => destruct b
      | |- follows (match ?x with _ => _ end) _ => destruct x
      end ].

Lemma follows_be16 o : follows (be16 (take (Z.to_nat rlen) resp) o) (be16 resp o).
Proof. unfold be16. follow. Qed.

Lemma follows_skip n o : follows (dns_skip_name (take (Z.to_nat rlen) resp) n o) (dns_skip_name resp n o).
Proof. unfold dns_skip_name. follow. Qed.

Lemma follows_parse n : follows (dns_parse_reply (take (Z.to_nat rlen) resp) n) (dns_parse_reply resp n).
Proof. unfold dns_parse_reply, dns_answers. follow; first [apply follows_be16 | apply follows_skip | idtac]; follow. Qed.
End Follow.

(** C29: Parsing a DNS reply is safe whatever the server sent.  For every reply
    of at most 512 bytes at the start of a buffer, with any counts, name
    lengths, compression pointers and record lengths, the parser ends, reads no
    byte of the buffer outside the reply, changes nothing, and an address it
    returns is four bytes of the reply.  That no byte outside is read is stated
    by the run on a buffer that holds the reply and nothing else, where such a
    read is a fault: it returns, and with the same result; so the result is
    also the same for any other buffer that starts with the reply. *)
Theorem dns_parse_reply_safe {S} (s : S) resp rlen :
  bytes resp -> 0 <= rlen <= lenZ resp -> rlen <= 512 ->
  exists r, dns_parse_reply resp rlen s = Ok r s /\ address_in resp rlen r /\
    dns_parse_reply (take (Z.to_nat rlen) resp) rlen s = Ok r s /\
    forall resp', take (Z.to_nat rlen) resp' = take (Z.to_nat rlen) resp -> rlen <= lenZ resp' ->
      dns_parse_reply resp' rlen s = Ok r s.
Proof.
  intros Hb Hl Hr. set (reply := take (Z.to_nat rlen) resp).
  assert (Hlr : lenZ reply = rlen) by (by apply lenZ_take).
  assert (Hw : wp (dns_parse_reply reply rlen) (fun r s' => s' = s /\ address_in reply rlen r) s).
  { apply wp_dns_parse_reply; [by apply bytes_take | lia | done | done]. }
  apply wp_ok in Hw as (r & s' & He & -> & Ha).
  assert (Hsame : forall resp', take (Z.to_nat rlen) resp' = reply -> rlen <= lenZ resp' -> dns_parse_reply resp' rlen s = Ok r s).
  { intros resp' Hp Hl'. apply (follows_parse resp' rlen ltac:(lia)). by rewrite Hp. }
  exists r. split; [by apply Hsame; try lia|]. split; [|done].
  destruct r as [a|]; [|done]. destruct Ha as (o & H12 & Ho & ->). exists o. split; [done|]. split; [done|].
  unfold reply. by rewrite !rd_take by lia.
Qed.

(** * Names *)

(** A label as DNS allows it: 1 to 63 characters, none of them a dot. *)
Definition label (l : list Z) : Prop :=
  1 <= lenZ l <= 63 /\ Forall (fun c => 0 < c < 256 /\ c <> 46) l.

(** "www.example.org" *)
Fixpoint dotted (ls : list (list Z)) : list Z :=
  match ls with
  | [] => [0]
  | [l] => l ++ [0]
  | l :: ls' => l ++ 46 :: dotted ls'
  end.

(** Each label after its length. *)
Definition wire (ls : list (list Z)) : list Z := concat (map (fun l => lenZ l :: l) ls).

Section Build.
Context {S : Type}.
Variables (name : list Z) (off : Z).

Definition label_body : Z * Z * list Z -> M S (ctl (Z * Z * list Z) Empty_set) := fun '(lab_start, o, out) =>
  c ← aget name lab_start;
  if c =? 0 then mret (Brk (lab_start, o, out))
  else
    lab_end ← locals (while_ (Datatypes.length name + 1) lab_start (fun e =>
      c ← aget name e;
      if negb (c =? 0) && negb (c =? 46) then mret (Cont (e + 1)) else mret (Brk e)));
    out ← aset out (off + o) (u8 (lab_end - lab_start));
    l ← locals (for_ (span lab_start lab_end) lab_start (o + 1, out) (fun i '(o, out) =>
      c ← aget name i;
      out ← aset out (off + o) c;
      mret (Cont (o + 1, out))));
    let '(o, out) := l in
    c ← aget name lab_end;
    if c =? 0 then mret (Brk (lab_start, o, out)) else mret (Cont (lab_end + 1, o, out)).

Definition in_label (c : Z) : bool := negb (c =? 0) && negb (c =? 46).

Lemma dotted_cons l ls : exists t, dotted (l :: ls) = l ++ t /\ rd t 0 = (if decide (ls = []) then 0 else 46) /\
  0 < lenZ t /\ (ls <> [] -> t = 46 :: dotted ls).
Proof.
  destruct ls as [|l2 ls]; [exists [0]; done|]. exists (46 :: dotted (l2 :: ls)). done.
Qed.

Lemma prefix_len_app P (a b : list Z) : Forall (fun c => P c = true) a -> (lenZ b = 0 \/ P (rd b 0) = false) ->
  prefix_len P (a ++ b) = lenZ a.
Proof.
  intros Ha Hb. induction Ha as [|c a Hc _ IH].
  - destruct b as [|d b]; [done|]. destruct Hb as [Hb|Hb]; [done|]. change (rd (d :: b) 0) with d in Hb.
    cbn [app prefix_len]. by rewrite Hb.
  - cbn [app prefix_len]. rewrite Hc, IH. unfold lenZ. cbn [Datatypes.length]. lia.
Qed.

(** One round of the loop copies one label. *)
Lemma wp_label_round p o out l ls (Q : ctl (Z * Z * list Z) Empty_set -> S -> Prop) s :
  label l -> 0 <= p -> drop (Z.to_nat p) name = dotted (l :: ls) -> 0 <= off + o -> off + o + 1 + lenZ l <= lenZ out ->
  (forall r, copied out (off + o) (lenZ l :: l) 0 (1 + lenZ l) r ->
     Q (if decide (ls = []) then Brk (p, o + 1 + lenZ l, r) else Cont (p + lenZ l + 1, o + 1 + lenZ l, r)) s) ->
  wp (label_body (p, o, out)) Q s.
Proof.
  intros [Hl Hch] Hp Hd Ho Hlo HQ. destruct (dotted_cons l ls) as (t & Ht & Ht0 & Hlt & _). rewrite Ht in Hd.
  assert (Hln : p + lenZ l + lenZ t = lenZ name).
  { pose proof (f_equal lenZ Hd) as He. rewrite lenZ_app in He. unfold lenZ in *. rewrite length_drop in He. lia. }
  assert (Hrd : forall j, 0 <= j < lenZ l -> rd name (p + j) = rd l j).
  { intros j Hj. rewrite <- rd_drop, Hd by lia. by apply rd_app_l. }
  assert (Hend : rd name (p + lenZ l) = if decide (ls = []) then 0 else 46).
  { rewrite <- rd_drop, Hd, rd_app_r by lia. by rewrite Z.sub_diag. }
  assert (Hlab : forall j, 0 <= j < lenZ l -> 0 < rd l j < 256).
  { intros j Hj. apply (Forall_rd (fun c => 0 < c < 256) l j); [|done]. eapply Forall_impl; [|exact Hch]. by intros ? []. }
  unfold label_body. wp_step. apply wp_aget; [lia|]. pose proof (Hrd 0 ltac:(lia)) as H0. rewrite Z.add_0_r in H0.
  destruct (Z.eqb_spec (rd name p) 0) as [Hz|_]; [specialize (Hlab 0 ltac:(lia)); lia|].
  wp_step. apply wp_locals.
  assert (Hpl : prefix_len in_label (drop (Z.to_nat p) name) = lenZ l).
  { rewrite Hd. apply prefix_len_app.
    - eapply Forall_impl; [|exact Hch]. intros c [? ?]. unfold in_label. case_range; lia || done.
    - right. rewrite Ht0. by destruct (decide _). }
  apply (wp_scan in_label); rewrite ?Hpl; try lia; [unfold lenZ in *; lia|].
  wp_step. apply wp_aset; [lia|]. replace (u8 (p + lenZ l - p)) with (lenZ l) by (unfold u8; rewrite Z.mod_small; lia).
  wp_step. apply wp_locals.
  apply (wp_for (fun i '(o', r) s' => s' = s /\ o' = o + 1 + (i - p) /\ copied out (off + o) (lenZ l :: l) 0 (1 + (i - p)) r)).
  - split; [done|]. split; [lia|]. split; [by rewrite lenZ_wr|]. intros j Hj. rewrite rd_wr by lia.
    case_range; try lia; try done. by replace (0 + (j - (off + o))) with 0 by lia.
  - intros i [o' r] s' Hi (-> & -> & Hlr & Hr). unfold span in Hi. wp_step. apply wp_aget; [lia|].
    wp_step. apply wp_aset; [lia|]. apply wp_ret. split; [done|]. split; [lia|]. split; [by rewrite lenZ_wr|].
    intros j Hj. rewrite rd_wr, Hr by lia. case_range; try lia; try done.
    rewrite rd_cons_S by lia. replace i with (p + (i - p)) at 1 by lia. rewrite Hrd by lia. f_equal. lia.
  - intros [o' r] s' (-> & -> & Hr). wp_step. apply wp_aget; [lia|].
    replace (p + Z.of_nat (span p (p + lenZ l))) with (p + lenZ l) in * by (unfold span; lia).
    replace (1 + (p + lenZ l - p)) with (1 + lenZ l) in Hr by lia. specialize (HQ r Hr). rewrite Hend.
    replace (o + 1 + (p + lenZ l - p)) with (o + 1 + lenZ l) by lia. by destruct (decide (ls = [])).
Qed.

Lemma copied_append dest d a b r r' : lenZ a = 0 \/ 0 <= d -> 0 <= d -> d + lenZ a + lenZ b <= lenZ dest ->
  copied dest d a 0 (lenZ a) r -> copied r (d + lenZ a) b 0 (lenZ b) r' ->
  copied dest d (a ++ b) 0 (lenZ (a ++ b)) r'.
Proof.
  intros _ Hd Hl [Hlr Hr] [Hlr' Hr']. pose proof (lenZ_nonneg a). pose proof (lenZ_nonneg b).
  split; [lia|]. intros j Hj. rewrite lenZ_app, Hr', Hr by lia. case_range; try lia; try done.
  - rewrite rd_app_r by lia. f_equal. lia.
  - rewrite rd_app_l by lia. done.
Qed.

Lemma wp_label_loop ls : forall fuel p o out (Q : Z * Z * list Z + Empty_set -> S -> Prop) s,
  Forall label ls -> ls <> [] -> 0 <= p -> drop (Z.to_nat p) name = dotted ls -> 0 <= off + o ->
  off + o + lenZ (wire ls) <= lenZ out -> (List.length ls <= fuel)%nat ->
  (forall p' r, copied out (off + o) (wire ls) 0 (lenZ (wire ls)) r -> Q (inl (p', o + lenZ (wire ls), r)) s) ->
  wp (while_ fuel (p, o, out) label_body) Q s.
Proof.
  induction ls as [|l ls IH]; intros fuel p o out Q s Hls Hne Hp Hd Ho Hlo Hf HQ; [done|].
  apply Forall_cons_1 in Hls as [Hl Hls]. destruct fuel as [|fuel]; [cbn in Hf; lia|]. cbn [while_].
  assert (Hw : wire (l :: ls) = (lenZ l :: l) ++ wire ls) by done.
  assert (Hlw : lenZ (wire (l :: ls)) = 1 + lenZ l + lenZ (wire ls)) by (rewrite Hw, lenZ_app; unfold lenZ; cbn [Datatypes.length]; lia).
  assert (Hc : lenZ (lenZ l :: l) = 1 + lenZ l) by (unfold lenZ; cbn [Datatypes.length]; lia).
  pose proof (lenZ_nonneg (wire ls)). pose proof (lenZ_nonneg l). rewrite Hlw in *.
  apply wp_bind, (wp_label_round p o out l ls); [done | done | done | done | lia |]. intros r Hr.
  destruct (decide (ls = [])) as [->|Hnil].
  - apply wp_ret. replace (o + 1 + lenZ l) with (o + (1 + lenZ l + lenZ (wire []))) by (change (lenZ (wire [])) with 0; lia).
    apply HQ. rewrite Hw. change (wire []) with (@nil Z). by rewrite app_nil_r, Z.add_0_r.
  - destruct (dotted_cons l ls) as (t & Ht & _ & _ & Ht'). rewrite Ht', Ht in * by done.
    pose proof Hr as [Hlr _].
    apply IH; try done; try (cbn in Hf; lia); try lia.
    + pose proof (f_equal (drop (Z.to_nat (lenZ l + 1))) Hd) as Hd'. rewrite drop_drop in Hd'.
      assert (Hdr : drop (Z.to_nat (p + lenZ l + 1)) name = drop (Z.to_nat (lenZ l + 1)) (l ++ 46 :: dotted ls))
        by (rewrite <- Hd'; f_equal; lia).
      rewrite Hdr, cons_middle, app_assoc. rewrite drop_app_length'; [done|].
      rewrite length_app. unfold lenZ. cbn. lia.
    + intros p' r' Hr'. replace (o + 1 + lenZ l + lenZ (wire ls)) with (o + (1 + lenZ l + lenZ (wire ls))) by lia.
      apply HQ. rewrite Hw. rewrite <- Hc, <- lenZ_app. apply (copied_append _ _ _ _ r); rewrite ?Hc; try lia; [exact Hr|].
      by replace (off + o + (1 + lenZ l)) with (off + (o + 1 + lenZ l)) by lia.
Qed.
End Build.

Section Skip.
Context {S : Type}.

(** The top two bits of a label's length are clear. *)
Lemma label_length_bits v : 1 <= v <= 63 -> Z.land v 0xC0 = 0.
Proof.
  intros Hv. assert (Hc : forallb (fun v => Z.land v 0xC0 =? 0) (seqZ 1 63) = true) by reflexivity.
  rewrite forallb_forall in Hc. apply Z.eqb_eq, Hc. apply list_elem_of_In, elem_of_seqZ. lia.
Qed.

Lemma wp_skip_loop pkt n ls : forall fuel p (Q : Z + option Z -> S -> Prop) s,
  Forall label ls -> 0 <= p -> p + lenZ (wire ls) < n -> n <= lenZ pkt -> n <= 65536 ->
  (forall j, 0 <= j < lenZ (wire ls ++ [0]) -> rd pkt (p + j) = rd (wire ls ++ [0]) j) ->
  (List.length ls < fuel)%nat -> Q (inr (Some (p + lenZ (wire ls) + 1))) s ->
  wp (while_ fuel p (fun offset =>
    if n <=? offset then mret (Ret None)
    else
      len ← aget pkt offset;
      if Z.land len 0xC0 =? 0xC0 then mret (Ret (Some (u32 (offset + 2))))
      else if len =? 0 then mret (Ret (Some (u32 (offset + 1))))
      else if negb (Z.land len 0xC0 =? 0) then mret (Ret None)
      else
        let offset := u32 (offset + (1 + len)) in
        if n <=? offset then mret (Ret None) else mret (Cont offset))) Q s.
Proof.
  induction ls as [|l ls IH]; intros fuel p Q s Hls Hp Hpn Hn H64 Hrd Hf HQ;
    (destruct fuel as [|fuel]; [cbn in Hf; lia|]); cbn [while_]; apply wp_bind.
  - change (lenZ (wire [])) with 0 in *. destruct (Z.leb_spec n p); [lia|]. wp_step. apply wp_aget; [lia|].
    specialize (Hrd 0 ltac:(done)). rewrite Z.add_0_r in Hrd. rewrite Hrd. change (rd (wire [] ++ [0]) 0) with 0.
    apply wp_ret, wp_ret. by rewrite u32_small, Z.add_0_r in * by lia.
  - apply Forall_cons_1 in Hls as [[Hl Hch] Hls]. pose proof (lenZ_nonneg (wire ls)).
    assert (Hw : wire (l :: ls) = (lenZ l :: l) ++ wire ls) by done.
    assert (Hc : lenZ (lenZ l :: l) = 1 + lenZ l) by (unfold lenZ; cbn [Datatypes.length]; lia).
    rewrite Hw in *. rewrite lenZ_app, Hc in Hpn. destruct (Z.leb_spec n p); [lia|]. wp_step. apply wp_aget; [lia|].
    pose proof (Hrd 0) as Hr0. rewrite !lenZ_app in Hr0. change (lenZ [0]) with 1 in Hr0. specialize (Hr0 ltac:(lia)).
    rewrite Z.add_0_r in Hr0. change (rd (((lenZ l :: l) ++ wire ls) ++ [0]) 0) with (lenZ l) in Hr0. rewrite Hr0.
    rewrite label_length_bits by done. cbn [Z.eqb negb]. destruct (Z.eqb_spec (lenZ l) 0); [lia|].
    rewrite u32_small by lia. destruct (Z.leb_spec n (p + (1 + lenZ l))); [lia|]. apply wp_ret.
    apply IH; try done; try lia.
    + intros j Hj. rewrite <- Z.add_assoc. rewrite Hrd.
      * rewrite <- app_assoc, rd_app_r by lia. f_equal. lia.
      * rewrite !lenZ_app in *. lia.
    + cbn in Hf. lia.
    + rewrite lenZ_app, Hc in HQ. by replace (p + (1 + lenZ l) + lenZ (wire ls) + 1) with (p + (1 + lenZ l + lenZ (wire ls)) + 1) by lia.
Qed.
End Skip.

Lemma labels_length ls : Forall label ls -> Z.of_nat (List.length ls) <= lenZ (wire ls).
Proof.
  induction 1 as [|l ls [Hl _] _ IH]; [done|]. assert (Hw : wire (l :: ls) = (lenZ l :: l) ++ wire ls) by done.
  rewrite Hw, lenZ_app. unfold lenZ in *. cbn [Datatypes.length]. lia.
Qed.

(** C37: A DNS name that is written is read back.  [dns_build_name] turns the
    dotted text of labels of 1 to 63 characters into their wire form (each
    label after its length, then a zero byte), touching no other byte of the
    packet, and [dns_skip_name] steps over exactly these bytes. *)
Theorem dns_name_roundtrip {S} (s : S) ls out off n :
  Forall label ls -> ls <> [] -> 0 <= off -> off + lenZ (wire ls) + 1 <= n -> n <= lenZ out -> n <= 65536 ->
  exists r, dns_build_name (dotted ls) out off s = Ok (r, lenZ (wire ls) + 1) s /\
    copied out off (wire ls ++ [0]) 0 (lenZ (wire ls) + 1) r /\
    dns_skip_name r n off s = Ok (Some (off + lenZ (wire ls) + 1)) s.
Proof.
  intros Hls Hne Ho Hn Hlo H64. pose proof (lenZ_nonneg (wire ls)). pose proof (labels_length ls Hls).
  assert (Hb : wp (dns_build_name (dotted ls) out off) (fun v s' => s' = s /\ snd v = lenZ (wire ls) + 1 /\
    copied out off (wire ls ++ [0]) 0 (lenZ (wire ls) + 1) (fst v)) s).
  { unfold dns_build_name. wp_step. apply wp_locals. 
    apply (wp_label_loop (dotted ls) off ls); rewrite ?Z.add_0_r; try done; try lia.
    - assert (Z.of_nat (List.length ls) <= lenZ (dotted ls)); [|unfold lenZ in *; lia].
      clear -Hls. induction Hls as [|l ls [Hl _] _ IH]; [done|]. destruct (dotted_cons l ls) as (t & -> & _ & Ht & Ht').
      rewrite lenZ_app. destruct ls as [|l2 ls].
      { change (Z.of_nat (List.length [l])) with 1. lia. }
      rewrite Ht' by done.
      unfold lenZ in *. cbn [Datatypes.length] in *. lia.
    - intros p' r [Hlr Hr]. wp_step. apply wp_aset; [lia|]. apply wp_ret. cbn [fst snd].
      split; [done|]. split; [lia|]. split; [by rewrite lenZ_wr|]. intros j Hj. rewrite rd_wr, Hr by lia.
      case_range; try lia; try done; [by rewrite rd_app_l by lia|].
      rewrite rd_app_r by lia. by replace (0 + (j - off) - lenZ (wire ls)) with 0 by lia. }
  apply wp_ok in Hb as ([r k] & s' & Hb & -> & Hk & Hc). cbn [fst snd] in *. subst k. exists r. split; [done|]. split; [done|].
  destruct Hc as [Hlr Hr].
  assert (Hw : wp (dns_skip_name r n off) (fun v s' => s' = s /\ v = Some (off + lenZ (wire ls) + 1)) s).
  2:{ by apply wp_ok in Hw as (v & s' & -> & -> & ->). }
  unfold dns_skip_name. wp_step. apply (wp_skip_loop r n ls); try done; try lia.
  intros j Hj. rewrite lenZ_app in Hj. change (lenZ [0]) with 1 in Hj. rewrite Hr by lia. case_range; try lia. f_equal. lia.
Qed.

(** "www.a.org" *)
Lemma dns_name_roundtrip_witness :
  exists r, dns_build_name (dotted [[119; 119; 119]; [97]; [111; 114; 103]]) (replicate 64 7) 12 tt = Ok (r, 11) tt /\
    copied (replicate 64 7) 12 (wire [[119; 119; 119]; [97]; [111; 114; 103]] ++ [0]) 0 11 r /\
    dns_skip_name r 60 12 tt = Ok (Some 23) tt.
Proof.
  apply (dns_name_roundtrip tt [[119; 119; 119]; [97]; [111; 114; 103]] (replicate 64 7) 12 60); try done.
  repeat constructor; lia || done.
Defined.

(** A reply with one answer, 192.0.2.33, at the start of a buffer with other
    bytes behind it. *)
Definition demo_reply : list Z :=
  [0x12; 0x34; 0x81; 0x80; 0; 0; 0; 1; 0; 0; 0; 0; 0xC0; 0x0C; 0; 1; 0; 1; 0; 0; 0; 60; 0; 4; 192; 0; 2; 33] ++ replicate 484 0xC1.
Example demo_reply_parsed : dns_parse_reply demo_reply 28 tt = Ok (Some [192; 0; 2; 33]) tt.
Proof. reflexivity. Qed.

Lemma dns_parse_reply_safe_witness :
  exists r, dns_parse_reply demo_reply 28 tt = Ok r tt /\ address_in demo_reply 28 r /\
    dns_parse_reply (take (Z.to_nat 28) demo_reply) 28 tt = Ok r tt /\
    forall resp', take (Z.to_nat 28) resp' = take (Z.to_nat 28) demo_reply -> 28 <= lenZ resp' ->
      dns_parse_reply resp' 28 tt = Ok r tt.
Proof. apply (dns_parse_reply_safe tt); [by apply bytes_by_compute | by vm_compute | done]. Defined.
