(* ===== verification/TcpFacts.v ===== *)
(** TCP: received segments against an abstract connection, the byte stream of
    a connection, and the length underflow of the IPv4 layer. *)
From Stdlib Require Import ZArith Lia List.
From stdpp Require Import base tactics numbers list gmap strings option.
From S2P Require Import Prelude CString Bytes Ata NetState Rtl8139 Net NetDemo NetFacts.
Open Scope Z_scope.

Section Hardware.
Context {P : Type} `{NicHw P} `{Locals}.
Implicit Types s : net P.

(** Only the hardware and the card's driver changed. *)
Definition same_stack s s' : Prop := exists p r, s' = set_nic r (set_hw p s) /\ lenZ (tx_buffer r) = lenZ (tx_buffer (nic s)).

#[global] Instance same_stack_equiv : Equivalence same_stack.
Proof.
  split.
  - intros s. exists (hw s), (nic s). by destruct s.
  - intros s s' (p & r & -> & Hl). exists (hw s), (nic s). split; [by destruct s | done].
  - intros s1 s2 s3 (p & r & -> & Hl) (p' & r' & -> & Hl'). exists p', r'. split; [done|]. cbn in Hl'. congruence.
Qed.

Lemma same_hw p s : same_stack s (set_hw p s).
Proof. exists p, (nic s). by destruct s. Qed.

Lemma wp_hw_get {A} (f : P -> A * P) (Q : A -> net P -> Prop) s :
  (forall v p, Q v (set_hw p s)) -> wp (hw_get f) Q s.
Proof. intros HQ. unfold wp, hw_get. destruct (f (hw s)). apply HQ. Qed.

Lemma wp_timer_ticks (Q : Z -> net P -> Prop) s : (forall t s', same_stack s s' -> Q t s') -> wp timer_ticks Q s.
Proof. intros HQ. unfold timer_ticks. wp_step. apply wp_hw_get. intros v p. apply wp_ret, HQ, same_hw. Qed.

Lemma wp_rtl_write32 reg v (Q : unit -> net P -> Prop) s : (forall s', same_stack s s' -> Q tt s') -> wp (rtl_write32 reg v) Q s.
Proof.
  intros HQ. unfold rtl_write32, outl, hw_put. wp_step. apply wp_gets. destruct (negb _); apply wp_modify, HQ, same_hw.
Qed.
Lemma wp_rtl_read32 reg (Q : Z -> net P -> Prop) s : (forall v s', same_stack s s' -> Q v s') -> wp (rtl_read32 reg) Q s.
Proof.
  intros HQ. unfold rtl_read32, inl_. wp_step. apply wp_gets.
  destruct (negb _); wp_step; apply wp_hw_get; intros v p; apply wp_ret, HQ, same_hw.
Qed.

(** Sending a frame ends whatever the card answers. *)
Lemma wp_rtl8139_tx data len (Q : Z -> net P -> Prop) s :
  lenZ data = NET_BUF_SIZE -> lenZ (tx_buffer (nic s)) = NET_BUF_SIZE -> 0 <= len ->
  (forall r s', same_stack s s' -> r = 0 \/ r = -1 -> Q r s') -> wp (rtl8139_tx data len) Q s.
Proof.
  intros Hd Ht Hlen HQ. unfold rtl8139_tx. wp_step. apply wp_gets.
  destruct (_ || _) eqn:Hc; [apply wp_ret, HQ; [done | by right]|]. bprop. unfold NET_BUF_SIZE in *.
  wp_step. eapply wp_mono with (Q := fun _ s' => same_stack s s').
  - intros [] s2 Hs. wp_step. assert (Hlen' : 0 <= (if len <? 60 then 60 else len) <= 1518) by (case_range; lia).
    apply wp_memcpy; try lia. intros buf [Hlb _].
    destruct Hs as (p & r & -> & Hlr). wp_step. apply wp_modify. wp_step. apply wp_modify.
    wp_step. apply wp_rtl_write32. intros s3 Hs3. wp_step. apply wp_rtl_write32. intros s4 Hs4.
    wp_step. apply wp_modify. apply wp_ret. apply HQ; [|by left].
    assert (Hs : same_stack (set_nic (set_tx_buffer buf r) (set_hw (tx_dma buf p) s)) s4) by (by transitivity s3).
    destruct Hs as (p' & r' & -> & Hl'). cbn in Hl'. eexists _, _. split; [done|]. cbn. congruence.
  - apply wp_locals. apply (wp_for (fun _ _ s' => same_stack s s')); [done | | done].
    intros i [] s1 _ Hs1. wp_step. apply wp_rtl_read32. intros v s2 Hs2.
    destruct (negb _); apply wp_ret; by transitivity s1.
Qed.
End Hardware.

(** * The TCP header *)

Lemma copied_list dest d src o n r : 0 <= d -> 0 <= n -> d + n <= lenZ dest -> 0 <= o -> o + n <= lenZ src ->
  copied dest d src o n r ->
  r = take (Z.to_nat d) dest ++ take (Z.to_nat n) (drop (Z.to_nat o) src) ++ drop (Z.to_nat (d + n)) dest.
Proof.
  intros Hd Hn Hdl Ho Hol [Hl Hr].
  assert (Hm : lenZ (take (Z.to_nat n) (drop (Z.to_nat o) src)) = n) by (rewrite lenZ_take; [done | rewrite lenZ_drop; lia]).
  assert (Ht : lenZ (take (Z.to_nat d) dest) = d) by (rewrite lenZ_take; lia).
  apply rd_ext.
  - rewrite !lenZ_app, Hm, Ht, lenZ_drop by lia. lia.
  - intros j Hj. rewrite Hl in Hj. rewrite Hr by lia. case_range; try lia.
    + rewrite rd_app_r, rd_app_l by lia. rewrite Ht, rd_take, rd_drop by lia. f_equal.
    + rewrite rd_app_r, rd_app_r by lia. rewrite Ht, Hm, rd_drop by lia. f_equal. lia.
    + rewrite rd_app_l by lia. by rewrite rd_take by lia.
Qed.

(** 16-bit and 32-bit values in network order. *)
Definition net16 (x : Z) : list Z := [x / 256; x mod 256].
Definition net32 (x : Z) : list Z := [x / 16777216; x / 65536 mod 256; x / 256 mod 256; x mod 256].

(** The header as RFC 793 lays it out, for a segment of the connection [v]:
    ports, sequence number, acknowledgement number, five words of header,
    flags, window, checksum and no urgent data. *)
Definition tcp_header (v : tcp_conn_t) (flags csum : Z) : list Z :=
  net16 (src_port v) ++ net16 (dst_port v) ++ net32 (my_seq v) ++ net32 (my_ack v) ++ [0x50; flags] ++
  net16 65535 ++ net16 csum ++ [0; 0].

(** The fields of the header fit the C types that hold them. *)
Record conn_words (v : tcp_conn_t) : Prop := {
  cw_src : 0 <= src_port v < 65536;
  cw_dst : 0 <= dst_port v < 65536;
  cw_seq : 0 <= my_seq v < 4294967296;
  cw_ack : 0 <= my_ack v < 4294967296
}.

Lemma land_byte y k : 0 <= k -> Z.land y (Z.shiftl 255 k) = y / 2 ^ k mod 256 * 2 ^ k.
Proof.
  intros Hk. rewrite <- Z.shiftl_mul_pow2, <- Z.shiftr_div_pow2 by done.
  replace (Z.shiftr y k mod 256) with (Z.land (Z.shiftr y k) 255) by (apply (Z.land_ones _ 8); lia).
  rewrite Z.shiftl_land. apply Z.bits_inj'. intros n Hn. rewrite !Z.land_spec, !Z.shiftl_spec by done.
  destruct (Z.ltb_spec n k).
  - rewrite (Z.testbit_neg_r 255) by lia. by rewrite !andb_false_r.
  - rewrite Z.shiftr_spec by lia. by replace (n - k + k) with n by lia.
Qed.

Lemma htons32_swap x : 0 <= x < 4294967296 ->
  htons32 x = x / 16777216 + 256 * (x / 65536 mod 256) + 65536 * (x / 256 mod 256) + 16777216 * (x mod 256).
Proof.
  intros Hx. unfold htons32. change 0xFF00 with (Z.shiftl 255 8). change 0xFF0000 with (Z.shiftl 255 16).
  change 0xFF000000 with (Z.shiftl 255 24). change 0xFF with (Z.shiftl 255 0).
  rewrite !land_byte by lia. rewrite !Z.shiftr_div_pow2, !Z.shiftl_mul_pow2 by lia.
  rewrite (Z.lor_comm _ (_ * 2 ^ 24)), (Z.lor_comm _ (_ * 2 ^ 16)), (Z.lor_comm _ (_ * 2 ^ 8)).
  change (2 ^ 0) with 1.
  assert (E0 : x / 2 ^ 24 / 1 mod 256 * 1 = x / 16777216) by (change (2 ^ 24) with 16777216; Z.div_mod_to_equations; lia).
  assert (E1 : x / 2 ^ 8 / 2 ^ 8 mod 256 = x / 65536 mod 256) by (by rewrite Z.div_div by lia).
  assert (E2 : x * 2 ^ 8 / 2 ^ 16 mod 256 = x / 256 mod 256).
  { change (2 ^ 16) with (256 * 2 ^ 8). by rewrite Z.div_mul_cancel_r by lia. }
  assert (E3 : x * 2 ^ 24 / 2 ^ 24 mod 256 = x mod 256) by (by rewrite Z.div_mul by lia).
  rewrite E0, E1, E2, E3. clear E0 E1 E2 E3.
  assert (B0 : 0 <= x / 16777216 < 256) by (Z.div_mod_to_equations; lia).
  assert (B1 : 0 <= x / 65536 mod 256 < 256) by (apply Z.mod_pos_bound; lia).
  assert (B2 : 0 <= x / 256 mod 256 < 256) by (apply Z.mod_pos_bound; lia).
  assert (B3 : 0 <= x mod 256 < 256) by (apply Z.mod_pos_bound; lia).
  rewrite (lor_low _ _ 8) by (change (2 ^ 8) with 256; lia).
  rewrite (lor_low _ _ 16) by (change (2 ^ 16) with 65536; change (2 ^ 8) with 256; lia).
  rewrite (lor_low _ _ 24) by (change (2 ^ 24) with 16777216; change (2 ^ 16) with 65536; change (2 ^ 8) with 256; lia).
  change (2 ^ 24) with 16777216. change (2 ^ 16) with 65536. change (2 ^ 8) with 256. rewrite u32_small; lia.
Qed.

(** The bytes of four bytes put together. *)
Lemma swapped_byte a b c d : 0 <= a < 256 -> 0 <= b < 256 -> 0 <= c < 256 -> 0 <= d < 256 ->
  let v := a + 256 * b + 65536 * c + 16777216 * d in
  v mod 256 = a /\ v / 256 mod 256 = b /\ v / 65536 mod 256 = c /\ v / 16777216 mod 256 = d.
Proof.
  intros Ha Hb Hc Hd v.
  replace (v / 256) with (b + 256 * c + 65536 * d) by (unfold v; apply (Z.div_unique _ _ _ a); lia).
  replace (v / 65536) with (c + 256 * d) by (unfold v; apply (Z.div_unique _ _ _ (a + 256 * b)); lia).
  replace (v / 16777216) with d by (unfold v; apply (Z.div_unique _ _ _ (a + 256 * b + 65536 * c)); lia).
  unfold v. repeat split; symmetry.
  - apply (Z.mod_unique _ _ (b + 256 * c + 65536 * d)); lia.
  - apply (Z.mod_unique _ _ (c + 256 * d)); lia.
  - apply (Z.mod_unique _ _ d); lia.
  - apply (Z.mod_unique _ _ 0); lia.
Qed.

Lemma put32_htons x o l : 0 <= x < 4294967296 ->
  put32 l o (htons32 x) =
    wr (wr (wr (wr l o (x / 16777216)) (o + 1) (x / 65536 mod 256)) (o + 2) (x / 256 mod 256)) (o + 3) (x mod 256).
Proof.
  intros Hx. unfold put32. rewrite htons32_swap by done.
  assert (B0 : 0 <= x / 16777216 < 256) by (Z.div_mod_to_equations; lia).
  destruct (swapped_byte (x / 16777216) (x / 65536 mod 256) (x / 256 mod 256) (x mod 256)) as (E0 & E1 & E2 & E3);
    [done | by apply Z.mod_pos_bound.. |]. by rewrite E0, E1, E2, E3.
Qed.

Lemma tcp_header_length v flags ck : lenZ (tcp_header v flags ck) = 20.
Proof. done. Qed.

Lemma tcp_header_bytes v flags ck : conn_words v -> 0 <= flags < 256 -> 0 <= ck < 65536 -> bytes (tcp_header v flags ck).
Proof.
  intros [] Hf Hc. apply bytes_lit. unfold tcp_header, net16, net32. cbn [app].
  repeat constructor; Z.div_mod_to_equations; lia.
Qed.

(** The stores into the zeroed buffer give the header. *)
Lemma header_stores v flags tl : conn_words v -> 0 <= flags < 256 ->
  put16 (put16 (put16 (wr (wr (put32 (put32 (put16 (put16 (replicate 20 0 ++ tl) 0 (htons16 (src_port v))) 2
    (htons16 (dst_port v))) 4 (htons32 (my_seq v))) 8 (htons32 (my_ack v))) 12 (u8 (u8 (Z.shiftl 5 4)))) 13 (u8 flags))
    14 (htons16 65535)) 16 0) 18 0 = tcp_header v flags 0 ++ tl.
Proof.
  intros [] Hf. rewrite !put16_htons, !put32_htons by done.
  replace (u8 flags) with flags by (symmetry; apply Z.mod_small; lia). done.
Qed.

Lemma header_checksum v flags c d : 0 <= c < 65536 ->
  put16 (tcp_header v flags 0 ++ d) 16 (htons16 c) = tcp_header v flags c ++ d.
Proof. intros Hc. by rewrite put16_htons. Qed.

Section Segments.
Context {P : Type} `{NicHw P} `{Locals}.
Variable poll : M (net P) unit.
Variable fuel : nat.

(** The stack can send to [dst] without waiting: the interface is up and the
    next hop is in the ARP cache. *)
Record can_send (s : net P) (dst : list Z) : Prop := {
  cs_iface : iface_ok (net_iface s);
  cs_cache : cache_ok (arp_cache (n_arp s));
  cs_tx : lenZ (tx_buffer (nic s)) = NET_BUF_SIZE;
  cs_dst : lenZ dst = 4 /\ bytes dst;
  cs_hop : cached (arp_cache (n_arp s)) (if is_local_network dst (net_iface s) then dst else gateway (net_iface s)) <> None
}.

Lemma cached_mac l ip m : cache_ok l -> cached l ip = Some m -> lenZ m = 6.
Proof.
  intros [_ Hf] Hc. unfold cached in Hc. destruct (List.find (serves ip) l) as [e|] eqn:He; [|done].
  injection Hc as <-. apply find_some in He as [Hin _]. rewrite List.Forall_forall in Hf. by apply Hf.
Qed.

(** The hardware address of the next hop to [dst]. *)
Definition next_hop (s : net P) (dst : list Z) : option (list Z) :=
  cached (arp_cache (n_arp s)) (if is_local_network dst (net_iface s) then dst else gateway (net_iface s)).

(** The card was handed one frame with the packet, and answered [r]. *)
Definition packet_sent (dst : list Z) (proto : Z) (payload : list Z) (s : net P) (r : Z) (s' : net P) : Prop :=
  let len := lenZ payload in
  exists frame m c, next_hop s dst = Some m /\ lenZ frame = NET_BUF_SIZE /\
    take (Z.to_nat (34 + len)) frame = eth_frame m (mac (net_iface s)) ETH_TYPE_IPV4
      (ipv4_bytes (ip (net_iface s)) dst proto (20 + len) c ++ payload) /\
    (forall S (t : S), ip_checksum (ipv4_bytes (ip (net_iface s)) dst proto (20 + len) c) 20 t = Ok 0 t) /\
    rtl8139_tx frame (34 + len) s = Ok r s'.

Lemma wp_ipv4_send dst proto payload len (Q : Z -> net P -> Prop) s :
  can_send s dst -> 0 <= proto < 256 -> 0 <= len <= 1480 -> len <= lenZ payload ->
  (forall r s', packet_sent dst proto (take (Z.to_nat len) payload) s r s' -> same_stack s s' -> Q r s') ->
  wp (ipv4_send poll fuel dst proto payload len) Q s.
Proof.
  intros [Hi Hc Ht [Hd Hb] Hh] Hp Hlen Hpl HQ. destruct (cached _ _) as [m|] eqn:Hm; [|done].
  destruct (ipv4_send_frame poll fuel s dst proto payload len m) as (frame & c & He & Hlf & Hfr & Hck); try done.
  { by eapply cached_mac. }
  unfold wp. rewrite He. assert (Hw : wp (rtl8139_tx frame (34 + len)) (fun _ s' => same_stack s s') s)
    by (apply wp_rtl8139_tx; [done | done | lia | done]).
  apply wp_ok in Hw as (r & s' & Er & Hs). rewrite Er. apply HQ; [|done].
  exists frame, m, c. rewrite lenZ_take by lia. done.
Qed.

Lemma wp_ones_complement {S} sum (Q : Z -> S -> Prop) s : 0 <= sum < 4294967296 ->
  (forall r, folded sum r -> Q (65535 - r) s) -> wp (ones_complement sum) Q s.
Proof.
  intros Hs HQ. unfold ones_complement. wp_step. apply wp_fold16; [done|]. intros r Hr. apply wp_ret.
  rewrite lnot16 by apply Hr. by apply HQ.
Qed.

(** The sum of the pseudo header and the segment. *)
Definition tcp_sum (src dst : list Z) (proto : Z) (tcp : list Z) (len : Z) : Z :=
  be_words src + be_words dst + proto + len + be_words (take (Z.to_nat len) tcp).

Lemma wp_tcp_checksum {S} src dst proto tcp len (Q : Z -> S -> Prop) s :
  bytes src -> bytes dst -> bytes tcp -> lenZ src = 4 -> lenZ dst = 4 -> 0 <= proto < 256 ->
  0 <= len <= lenZ tcp -> len <= 1518 ->
  (forall r, folded (tcp_sum src dst proto tcp len) r -> Q (65535 - r) s) ->
  wp (tcp_checksum src dst proto tcp len) Q s.
Proof.
  intros Hs Hd Ht Hls Hld Hp Hl H15 HQ. unfold tcp_checksum.
  pose proof (be_words_bound _ Hs) as Bs. pose proof (be_words_bound _ Hd) as Bd. rewrite Hls in Bs. rewrite Hld in Bd.
  change ((4 + 1) / 2) with 2 in *. pose proof (be_words_bound _ (bytes_take tcp len Ht)) as Bt. rewrite lenZ_take in Bt by lia.
  assert ((len + 1) / 2 <= 759) by (Z.div_mod_to_equations; lia).
  assert (Htk : forall l : list Z, lenZ l = 4 -> take (Z.to_nat 4) (drop (Z.to_nat 0) l) = l).
  { intros l Hl4. apply take_ge. unfold lenZ in Hl4. cbn [drop Z.to_nat]. lia. }
  wp_step. apply wp_sum16; rewrite ?Htk by done; try done; try lia.
  wp_step. apply wp_sum16; rewrite ?Htk by done; try done; try lia.
  rewrite (u32_small (_ + proto)) by lia. rewrite u32_small by lia.
  wp_step. apply wp_sum16; change (drop (Z.to_nat 0) tcp) with tcp;
    [done | lia | lia | lia | lia | set (tw := be_words (take (Z.to_nat len) tcp)) in *; clearbody tw; lia |].
  apply wp_ones_complement; [unfold tcp_sum; lia|]. intros r Hr. apply HQ.
  unfold tcp_sum. by replace (be_words src + be_words dst + proto + len) with (0 + be_words src + be_words dst + proto + len) by lia.
Qed.

(** A receiver's checksum of the segment is 0. *)
Lemma tcp_checksum_inserted {S} src dst v flags data r (s : S) :
  bytes src -> bytes dst -> bytes data -> lenZ src = 4 -> lenZ dst = 4 -> conn_words v -> 0 <= flags < 256 ->
  lenZ data <= 1460 ->
  folded (tcp_sum src dst IP_PROTO_TCP (tcp_header v flags 0 ++ data) (20 + lenZ data)) r ->
  tcp_checksum src dst IP_PROTO_TCP (tcp_header v flags (65535 - r) ++ data) (20 + lenZ data) s = Ok 0 s.
Proof.
  intros Hs Hd Hb Hls Hld Hv Hf H14 Hr. pose proof Hr as (Hr16 & _). pose proof (lenZ_nonneg data).
  assert (Hlen : forall ck, lenZ (tcp_header v flags ck ++ data) = 20 + lenZ data) by (intros; by rewrite lenZ_app, tcp_header_length).
  assert (Hw : wp (tcp_checksum src dst IP_PROTO_TCP (tcp_header v flags (65535 - r) ++ data) (20 + lenZ data))
    (fun x s' => x = 0 /\ s' = s) s).
  2:{ by apply wp_ok in Hw as (x & s' & -> & -> & ->). }
  assert (Hall : forall ck, take (Z.to_nat (20 + lenZ data)) (tcp_header v flags ck ++ data) = tcp_header v flags ck ++ data).
  { intros ck. apply take_ge. specialize (Hlen ck). unfold lenZ in *. lia. }
  apply wp_tcp_checksum; rewrite ?Hlen; try done; try lia.
  { apply bytes_app; [by apply tcp_header_bytes; try lia | done]. }
  intros t Ht. unfold tcp_sum in *. rewrite Hall in *.
  assert (Hhas : has (tcp_header v flags 0 ++ data) 16 2) by (split; rewrite ?Hlen; lia).
  rewrite <- (header_checksum v flags (65535 - r) data) in Ht by lia. rewrite be_words_put16 in Ht by (done || lia).
  change (rd (tcp_header v flags 0 ++ data) 16) with 0 in Ht. change (rd (tcp_header v flags 0 ++ data) (16 + 1)) with 0 in Ht.
  pose proof (be_words_bound _ Hs). pose proof (be_words_bound _ Hd).
  pose proof (be_words_bound _ (bytes_app _ _ (tcp_header_bytes v flags 0 Hv Hf ltac:(lia)) Hb)).
  erewrite (folded_complement _ r t Hr); [done | | unfold IP_PROTO_TCP; lia].
  eapply (eq_ind _ (fun x => folded x t)); [exact Ht | lia].
Qed.

Lemma wp_tcp_segment local v flags data len (Q : list Z * Z -> net P -> Prop) s :
  bytes local -> lenZ local = 4 -> bytes (remote v) -> lenZ (remote v) = 4 -> conn_words v -> bytes data ->
  0 <= len <= 1460 -> len <= lenZ data -> 0 <= flags < 256 ->
  (forall buf ck, lenZ buf = NET_BUF_SIZE ->
     take (Z.to_nat (20 + len)) buf = tcp_header v flags ck ++ take (Z.to_nat len) data ->
     (forall S (t : S), tcp_checksum local (remote v) IP_PROTO_TCP (tcp_header v flags ck ++ take (Z.to_nat len) data) (20 + len) t = Ok 0 t) ->
     Q (buf, 20 + len) s) ->
  wp (tcp_segment local v flags data len) Q s.
Proof.
  intros Hlb Hl Hrb Hr Hv Hb Hlen Hld Hf HQ. unfold tcp_segment.
  pose proof (lenZ_local NET_BUF_SIZE ltac:(done)) as Hloc. unfold NET_BUF_SIZE in *.
  wp_step. apply wp_bzero; [lia | lia | lia |]. intros b0 L0 Z0.
  assert (b0 = replicate 20 0 ++ replicate 1498 0) as ->.
  { apply rd_ext; [rewrite L0, Hloc; done|]. intros j Hj. rewrite Z0 by lia. rewrite <- replicate_add, rd_replicate by lia.
    rewrite L0, Hloc in Hj. case_range; lia || done. }
  clear Z0 L0. set (tl := replicate 1498 0). assert (Htl : lenZ tl = 1498) by done. assert (Btl : bytes tl) by by apply bytes_by_compute.
  clearbody tl.
  do 9 (wp_step; first [apply wp_st16 | apply wp_st32 | apply wp_st8];
    [split; autorewrite with arr; rewrite ?lenZ_put32, ?lenZ_put16, ?lenZ_app, ?lenZ_replicate; lia |]).
  rewrite u32_small, header_stores by (done || lia).
  set (d := take (Z.to_nat len) data). assert (Ld : lenZ d = len) by (unfold d; rewrite lenZ_take; lia).
  assert (Bd : bytes d) by by apply bytes_take.
  assert (Hcp : wp (if negb (len =? 0) then memcpy (tcp_header v flags 0 ++ tl) 20 data 0 len else mret (tcp_header v flags 0 ++ tl))
    (fun b s' => s' = s /\ exists t, b = (tcp_header v flags 0 ++ d) ++ t /\ lenZ t = 1498 - len /\ bytes t) s).
  { destruct (Z.eqb_spec len 0) as [->|]; cbn [negb].
    - apply wp_ret. split; [done|]. exists tl. unfold d. cbn [Z.to_nat take]. rewrite app_nil_r. split; [done|]. split; [lia | done].
    - apply wp_memcpy; rewrite ?lenZ_app, ?tcp_header_length; try lia. intros b Hc. split; [done|].
      apply copied_list in Hc; rewrite ?lenZ_app, ?tcp_header_length; try lia.
      exists (drop (Z.to_nat len) tl). rewrite lenZ_drop by lia. split; [|split; [lia | apply bytes_drop; [done | lia]]].
      rewrite Hc. rewrite <- app_assoc. f_equal. change (drop (Z.to_nat 0) data) with data. fold d. f_equal.
      rewrite drop_app_ge by (change (Datatypes.length (tcp_header v flags 0)) with 20%nat; lia).
      f_equal. change (Datatypes.length (tcp_header v flags 0)) with 20%nat. lia. }
  wp_step. eapply wp_mono; [|exact Hcp]. intros b s' (-> & t & -> & Lt & Bt).
  assert (Hlen20 : forall ck, lenZ (tcp_header v flags ck ++ d) = 20 + len) by (intros; rewrite lenZ_app, tcp_header_length; lia).
  assert (Hall : forall ck, take (Z.to_nat (20 + len)) ((tcp_header v flags ck ++ d) ++ t) = tcp_header v flags ck ++ d).
  { intros ck. apply take_app_length'. specialize (Hlen20 ck). unfold lenZ in *. lia. }
  assert (Hlall : lenZ ((tcp_header v flags 0 ++ d) ++ t) = 1518) by (rewrite lenZ_app, Hlen20; lia).
  assert (Ball : bytes ((tcp_header v flags 0 ++ d) ++ t)).
  { apply bytes_app; [apply bytes_app; [apply tcp_header_bytes; [done | lia | lia] | done] | done]. }
  wp_step. apply wp_tcp_checksum; [done | done | done | done | done | done | lia | lia |].
  intros r Hrr. pose proof Hrr as (Hr16 & _). wp_step. apply wp_st16; [split; lia|].
  rewrite <- app_assoc, header_checksum, app_assoc by lia. apply wp_ret.
  apply (HQ _ (65535 - r)); [rewrite lenZ_app, Hlen20; lia | apply Hall |]. intros S' t'. fold d. rewrite <- Ld.
  apply tcp_checksum_inserted; try done; try lia. rewrite Ld. unfold tcp_sum in *. rewrite Hall in Hrr.
  rewrite take_ge; [done|]. specialize (Hlen20 0). unfold lenZ in *. lia.
Qed.

(** * Connections *)

Definition with_conn (c : Z) (v : tcp_conn_t) (s : net P) : net P :=
  set_tcp (set_conns (<[c := v]> (tcp_conns (n_tcp s))) (n_tcp s)) s.
Definition has_conn (s : net P) (c : Z) (v : tcp_conn_t) : Prop := tcp_conns (n_tcp s) !! c = Some v.

Lemma has_with c v (s : net P) : has_conn (with_conn c v s) c v.
Proof. apply lookup_insert_eq. Qed.
Lemma with_with c v w (s : net P) : with_conn c w (with_conn c v s) = with_conn c w s.
Proof. unfold with_conn, set_tcp, set_conns. cbn. by rewrite insert_insert_eq. Qed.
Lemma same_with c v (s s' : net P) : same_stack s s' -> same_stack (with_conn c v s) (with_conn c v s').
Proof. intros (p & r & -> & Hl). by exists p, r. Qed.
Lemma has_same c v (s s' : net P) : same_stack s s' -> has_conn s c v -> has_conn s' c v.
Proof. by intros (p & r & -> & _). Qed.
Lemma can_send_same dst (s s' : net P) : same_stack s s' -> can_send s dst -> can_send s' dst.
Proof. intros (p & r & -> & Hl) []. constructor; try done. cbn. congruence. Qed.
Lemma can_send_with dst c v (s : net P) : can_send s dst -> can_send (with_conn c v s) dst.
Proof. by intros []. Qed.

Lemma wp_conn c v (Q : tcp_conn_t -> net P -> Prop) s : has_conn s c v -> Q v s -> wp (conn c) Q s.
Proof. unfold has_conn. intros Hc HQ. unfold conn. wp_step. apply wp_gets. by rewrite Hc. Qed.
Lemma wp_conn_upd c v f (Q : unit -> net P -> Prop) s : has_conn s c v -> Q tt (with_conn c (f v) s) -> wp (conn_upd c f) Q s.
Proof. intros Hc HQ. unfold conn_upd. wp_step. by apply (wp_conn c v). Qed.

(** The card was handed one frame with the segment of the connection [v] that
    has these flags and this data; the checksum of the segment verifies. *)
Definition segment_sent (v : tcp_conn_t) (flags : Z) (data : list Z) (s : net P) (r : Z) (s' : net P) : Prop :=
  exists ck, packet_sent (remote v) IP_PROTO_TCP (tcp_header v flags ck ++ data) s r s' /\
    forall S (t : S), tcp_checksum (ip (net_iface s)) (remote v) IP_PROTO_TCP (tcp_header v flags ck ++ data) (20 + lenZ data) t = Ok 0 t.

(** Sending a segment that is not a SYN changes no connection. *)
Lemma wp_tcp_send_seg c v flags data len (Q : Z -> net P -> Prop) s :
  has_conn s c v -> can_send s (remote v) -> conn_words v -> bytes data -> 0 <= len <= 1460 -> len <= lenZ data ->
  0 <= flags < 256 -> Z.land flags TCP_SYN = 0 ->
  (forall r s', segment_sent v flags (take (Z.to_nat len) data) s r s' -> same_stack s s' -> Q r s') ->
  wp (tcp_send_seg poll fuel c flags data len) Q s.
Proof.
  intros Hc Hcs Hv Hb Hlen Hld Hf Hsyn HQ. unfold tcp_send_seg. wp_step. apply (wp_conn c v); [done|].
  wp_step. apply wp_gets. pose proof Hcs as [[_ _ Hil Hib _] _ _ [Hrl Hrb] _].
  wp_step. apply wp_tcp_segment; try done. intros buf ck Hlb Hbuf Hck. cbn [fst snd].
  wp_step. apply wp_ipv4_send; [done | done | lia | unfold NET_BUF_SIZE in Hlb; lia |]. intros r s' Hsent Hs.
  rewrite Hsyn. cbn [Z.eqb negb]. rewrite andb_false_r. apply wp_ret, wp_ret, HQ; [|done].
  rewrite Hbuf in Hsent. exists ck. rewrite lenZ_take by lia. done.
Qed.

Record conn_ok (v : tcp_conn_t) : Prop := {
  co_size : lenZ (inbuf v) = TCP_INBUF;
  co_len : 0 <= inlen v <= TCP_INBUF
}.

(** The bytes received and not read yet. *)
Definition stream (v : tcp_conn_t) : list Z := take (Z.to_nat (inlen v)) (inbuf v).

(** Appending data that fits. *)
Definition tcp_append (data : list Z) (v : tcp_conn_t) : tcp_conn_t :=
  set_acks (their_seq v) (u32 (my_ack v + lenZ data))
    (set_inbuf (stream v ++ data ++ drop (Z.to_nat (inlen v + lenZ data)) (inbuf v)) (inlen v + lenZ data) v).

(** The connection whose acknowledgement number a segment's acknowledgement
    carries; [None] when the segment is not acknowledged. *)
Definition tcp_acked (flags seq : Z) (data : list Z) (v : tcp_conn_t) : option tcp_conn_t :=
  if negb (Z.land flags TCP_SYN =? 0) then Some (set_acks seq (u32 (seq + 1)) v)
  else if (0 <? lenZ data) && (inlen v + lenZ data <=? TCP_INBUF) then Some (tcp_append data v)
  else None.

(** From [s] to [s'] the connection [c] became [v'] and, when there is an
    acknowledgement to send, one frame with it was handed to the card, after
    the connection had moved on to [o]; nothing else happened. *)
Definition acknowledged (c : Z) (o : option tcp_conn_t) (v' : tcp_conn_t) (s s' : net P) : Prop :=
  match o with
  | Some v1 => exists r s1, segment_sent v1 TCP_ACK [] (with_conn c v1 s) r s1 /\ s' = with_conn c v' s1
  | None => s' = with_conn c v' s
  end.

(** What a segment does to the connection it is for. *)
Definition tcp_rx (flags seq : Z) (data : list Z) (v : tcp_conn_t) : tcp_conn_t :=
  if negb (Z.land flags TCP_SYN =? 0) then set_established 1 0 (set_acks seq (u32 (seq + 1)) v)
  else
    let v := if (0 <? lenZ data) && (inlen v + lenZ data <=? TCP_INBUF) then tcp_append data v else v in
    if negb (Z.land flags TCP_FIN =? 0) then set_closed 1 v else v.

Lemma with_same c v (s : net P) : has_conn s c v -> with_conn c v s = s.
Proof. unfold with_conn, has_conn. intros Hc. rewrite insert_id by done. by destruct s as [? ? ? ? ? ? ? []]. Qed.

Lemma wp_tcp_deliver c v payload n (Q : unit -> net P -> Prop) s :
  has_conn s c v -> conn_ok v -> conn_words v -> can_send s (remote v) -> 0 < n <= 65535 -> n <= lenZ payload ->
  (let o := if inlen v + n <=? TCP_INBUF then Some (tcp_append (take (Z.to_nat n) payload) v) else None in
   let v1 := default v o in
   forall s', acknowledged c o v1 s s' -> same_stack (with_conn c v1 s) s' -> Q tt s') ->
  wp (tcp_deliver poll fuel c payload n) Q s.
Proof.
  intros Hc [Hsz Hlen] Hv Hcs Hn Hpl HQ. unfold tcp_deliver, TCP_INBUF in *. wp_step. apply (wp_conn c v); [done|].
  rewrite u32_small by lia. destruct (Z.leb_spec (inlen v + n) 4096).
  - wp_step. apply wp_memcpy; try lia. intros b Hb. apply copied_list in Hb; try lia.
    change (drop (Z.to_nat 0) payload) with payload in Hb.
    wp_step. apply wp_modify. wp_step. eapply wp_conn_upd; [apply has_with|]. fold (with_conn c (set_inbuf b (inlen v + n) v) s).
    rewrite with_with. assert (Hln : lenZ (take (Z.to_nat n) payload) = n) by (rewrite lenZ_take; lia).
    set (v1 := tcp_append (take (Z.to_nat n) payload) v) in *. cbn [default] in HQ.
    assert (Ev : set_acks (their_seq (set_inbuf b (inlen v + n) v)) (u32 (my_ack (set_inbuf b (inlen v + n) v) + n))
      (set_inbuf b (inlen v + n) v) = v1) by (unfold v1, tcp_append, stream; rewrite Hln; by rewrite <- Hb).
    rewrite Ev. wp_step. apply (wp_tcp_send_seg c v1).
    + apply has_with.
    + by apply can_send_with.
    + destruct Hv. constructor; try done. apply Z.mod_pos_bound. lia.
    + by apply bytes_lit.
    + lia.
    + done.
    + done.
    + done.
    + intros r s' Hsent Hs. apply wp_ret, HQ; [|done]. exists r, s'. split; [done|].
      rewrite with_same; [done|]. eapply has_same; [exact Hs | apply has_with].
  - apply wp_ret, HQ; cbn [acknowledged default]; by rewrite with_same.
Qed.

(** The header length of a segment; shorter ones count as 20. *)
Definition header_len (pkt : list Z) : Z := Z.max 20 (rd pkt 12 / 16 * 4).

(** The [len] bytes of [pkt] are a segment for the connection. *)
Record segment_for (v : tcp_conn_t) (pkt : list Z) (len : Z) : Prop := {
  sg_bytes : bytes pkt;
  sg_len : 20 <= len <= 1500;
  sg_room : len <= lenZ pkt;
  sg_port : htons16 (le16 pkt 2) = src_port v;
  sg_header : header_len pkt <= len
}.
Definition segment_data (pkt : list Z) (len : Z) : list Z :=
  take (Z.to_nat (len - header_len pkt)) (drop (Z.to_nat (header_len pkt)) pkt).

Lemma data_off_eq pkt : bytes pkt ->
  (if u8 (Z.shiftr (rd pkt 12) 4 * 4) <? 20 then 20 else u8 (Z.shiftr (rd pkt 12) 4 * 4)) = header_len pkt.
Proof.
  intros Hb. pose proof (Hb 12). unfold header_len. rewrite Z.shiftr_div_pow2 by lia. change (2 ^ 4) with 16.
  unfold u8. rewrite Z.mod_small by (Z.div_mod_to_equations; lia). case_range; lia.
Qed.

Lemma wp_tcp_handle c v pkt len (Q : Z -> net P -> Prop) s :
  current_conn (n_tcp s) = c -> c <> 0 -> has_conn s c v -> active v <> 0 -> conn_ok v -> conn_words v ->
  can_send s (remote v) -> segment_for v pkt len ->
  let flags := rd pkt 13 in let seq := htons32 (le32 pkt 4) in let data := segment_data pkt len in
  (forall s', acknowledged c (tcp_acked flags seq data v) (tcp_rx flags seq data v) s s' ->
     same_stack (with_conn c (tcp_rx flags seq data v) s) s' -> Q 0 s') ->
  wp (tcp_handle poll fuel pkt len) Q s.
Proof.
  intros Hcur Hc0 Hc Ha Hok Hv Hcs [Hb Hlen Hroom Hport Hhd] flags seq data HQ.
  unfold tcp_handle. destruct (Z.ltb_spec len 20); [lia|].
  wp_step. apply wp_gets. rewrite Hcur. destruct (Z.eqb_spec c 0); [done|].
  wp_step. apply (wp_conn c v); [done|]. destruct (Z.eqb_spec (active v) 0); [done|].
  wp_step. apply wp_ld16; [split; lia|]. rewrite Hport, Z.eqb_refl. cbn [negb].
  wp_step. apply wp_aget; [lia|]. wp_step. apply wp_aget; [lia|].
  rewrite data_off_eq by done. destruct (Z.ltb_spec len (header_len pkt)); [lia|].
  wp_step. apply wp_ld32; [split; lia|]. fold seq flags.
  assert (Hh : 20 <= header_len pkt) by (unfold header_len; lia).
  assert (Hld : lenZ data = len - header_len pkt).
  { unfold data, segment_data. rewrite lenZ_take; [done|]. rewrite lenZ_drop; lia. }
  unfold tcp_rx, tcp_acked in HQ. rewrite Hld in HQ. destruct (Z.land flags TCP_SYN =? 0); cbn [negb] in *.
  - set (o := if (0 <? len - header_len pkt) && (inlen v + (len - header_len pkt) <=? TCP_INBUF) then Some (tcp_append data v) else None) in *.
    replace (if (0 <? len - header_len pkt) && _ then tcp_append data v else v) with (default v o) in HQ by (unfold o; by destruct (_ && _)).
    assert (Hdel : wp (if 0 <? len - header_len pkt then tcp_deliver poll fuel c (from pkt (header_len pkt)) (len - header_len pkt) else mret tt)
      (fun _ s' => acknowledged c o (default v o) s s' /\ same_stack (with_conn c (default v o) s) s') s).
    { unfold o. destruct (Z.ltb_spec 0 (len - header_len pkt)); cbn [andb].
      - apply (wp_tcp_deliver c v); [done | done | done | done | lia | unfold from; rewrite lenZ_drop; lia | done].
      - apply wp_ret. cbn [acknowledged default]. by rewrite with_same. }
    wp_step. eapply wp_mono; [|exact Hdel]. intros [] s1 [Hack Hs1].
    assert (Hc1 : has_conn s1 c (default v o)) by (eapply has_same; [exact Hs1 | apply has_with]).
    wp_step. destruct (Z.land flags TCP_FIN =? 0); cbn [negb] in *.
    + by apply wp_ret, wp_ret, HQ.
    + apply (wp_conn_upd c (default v o)); [done|]. apply wp_ret, HQ.
      * destruct o as [v1|]; cbn [acknowledged default] in *; [|rewrite Hack; by rewrite with_with].
        destruct Hack as (r & s2 & Hsent & ->). exists r, s2. split; [done|]. by rewrite with_with.
      * apply (same_with c (set_closed 1 (default v o))) in Hs1. by rewrite with_with in Hs1.
  - wp_step. apply (wp_conn_upd c v); [done|]. set (v1 := set_acks seq (u32 (seq + 1)) v) in *.
    wp_step. apply (wp_tcp_send_seg c v1); [apply has_with | by apply can_send_with | | by apply bytes_lit | lia | done | done | done |].
    { destruct Hv. constructor; try done. apply Z.mod_pos_bound. lia. }
    intros r s1 Hsent Hs1. wp_step. apply (wp_conn_upd c v1); [eapply has_same; [exact Hs1 | apply has_with]|].
    apply wp_ret, HQ; [by exists r, s1|]. apply (same_with c (set_established 1 0 v1)) in Hs1. by rewrite with_with in Hs1.
Qed.
End Segments.

Section Stream.

Lemma tcp_append_ok data v : conn_ok v -> inlen v + lenZ data <= TCP_INBUF -> conn_ok (tcp_append data v).
Proof.
  intros [Hs Hl] Hf. pose proof (lenZ_nonneg data). unfold TCP_INBUF in *. constructor; cbn; [|unfold TCP_INBUF; lia].
  unfold stream. rewrite !lenZ_app, lenZ_take, lenZ_drop by lia. unfold TCP_INBUF. lia.
Qed.

Lemma stream_append data v : conn_ok v -> inlen v + lenZ data <= TCP_INBUF -> stream (tcp_append data v) = stream v ++ data.
Proof.
  intros [Hs Hl] Hf. pose proof (lenZ_nonneg data). unfold TCP_INBUF in *. unfold stream at 1. cbn [inlen inbuf tcp_append set_acks set_inbuf].
  rewrite app_assoc. apply take_app_length'. rewrite length_app. unfold stream.
  pose proof (lenZ_take (inbuf v) (inlen v) ltac:(lia)). unfold lenZ in *. lia.
Qed.

Lemma length_stream v : conn_ok v -> lenZ (stream v) = inlen v.
Proof. intros [Hs Hl]. unfold stream. apply lenZ_take. lia. Qed.

Lemma tcp_rx_ok flags seq data v : conn_ok v -> conn_ok (tcp_rx flags seq data v).
Proof.
  intros Hok. unfold tcp_rx. destruct (negb _); [by destruct Hok|].
  assert (Hv : conn_ok (if (0 <? lenZ data) && (inlen v + lenZ data <=? TCP_INBUF) then tcp_append data v else v)).
  { destruct (_ && _) eqn:Hc; [|done]. bprop. by apply tcp_append_ok. }
  destruct (negb _); [|done]. by destruct Hv.
Qed.

Lemma tcp_rx_stream flags seq data v : conn_ok v -> Z.land flags TCP_SYN = 0 ->
  stream (tcp_rx flags seq data v) = if inlen v + lenZ data <=? TCP_INBUF then stream v ++ data else stream v.
Proof.
  intros Hok Hs. unfold tcp_rx. rewrite Hs. cbn [Z.eqb negb].
  assert (Hv : stream (if (0 <? lenZ data) && (inlen v + lenZ data <=? TCP_INBUF) then tcp_append data v else v) =
    if inlen v + lenZ data <=? TCP_INBUF then stream v ++ data else stream v).
  { destruct (Z.leb_spec (inlen v + lenZ data) TCP_INBUF); rewrite ?andb_true_r, ?andb_false_r; [|done].
    destruct (Z.ltb_spec 0 (lenZ data)); [by apply stream_append|]. destruct data as [|x data].
    - by rewrite app_nil_r.
    - unfold lenZ in *. cbn [Datatypes.length] in *. lia. }
  rewrite <- Hv. by destruct (negb _).
Qed.
End Stream.

(** C7: Received segments implement the abstract connection.  For a segment
    addressed to the current connection, when the acknowledgement can be sent
    without waiting for ARP, [tcp_handle] returns 0 and the connection becomes
    [tcp_rx] of the segment: a SYN establishes it and sets the acknowledgement
    number, data that fits in the 4096-byte buffer is appended to the stream,
    data that does not fit is dropped, and a FIN closes it.  A SYN and data that
    fits are acknowledged: the card is handed exactly one frame, to the next
    hop towards the remote host, with an IPv4 packet for it that carries the
    header of an ACK segment without data, whose acknowledgement number is the
    connection's new one, and both checksums verify.  Any other segment sends
    nothing.  The buffer's invariant is kept and nothing else of the stack
    changes. *)
Theorem tcp_handle_refines {P} `{NicHw P} `{Locals} poll fuel (s : net P) c v pkt len :
  current_conn (n_tcp s) = c -> c <> 0 -> has_conn s c v -> active v <> 0 -> conn_ok v -> conn_words v ->
  can_send s (remote v) -> segment_for v pkt len ->
  let flags := rd pkt 13 in let seq := htons32 (le32 pkt 4) in let data := segment_data pkt len in
  let v' := tcp_rx flags seq data v in
  conn_ok v' /\
  (Z.land flags TCP_SYN = 0 -> stream v' = if inlen v + lenZ data <=? TCP_INBUF then stream v ++ data else stream v) /\
  exists s', tcp_handle poll fuel pkt len s = Ok 0 s' /\ same_stack (with_conn c v' s) s' /\
    acknowledged c (tcp_acked flags seq data v) v' s s'.
Proof.
  intros Hcur Hc0 Hc Ha Hok Hv Hcs Hseg flags seq data v'. split; [by apply tcp_rx_ok|]. split; [intros; by apply tcp_rx_stream|].
  assert (Hw : wp (tcp_handle poll fuel pkt len) (fun r s' => r = 0 /\ same_stack (with_conn c v' s) s' /\
    acknowledged c (tcp_acked flags seq data v) v' s s') s)
    by (apply (wp_tcp_handle poll fuel c v); done).
  apply wp_ok in Hw as (r & s' & He & -> & Hs). eauto.
Qed.

(** The stream is read in order.  When the connection holds unread bytes,
    [tcp_recv] returns without waiting: the first [min(unread, len)] bytes of
    the stream go to the buffer and leave the stream, the rest stays in order,
    and no other byte of the buffer and nothing else of the stack changes. *)
Theorem tcp_recv_stream {P} `{NicHw P} poll fuel (s : net P) c v buf off len timeout :
  has_conn s c v -> conn_ok v -> 0 < inlen v -> 0 <= len -> 0 <= off -> off + len <= lenZ buf ->
  let n := Z.min (inlen v) len in
  exists r v' s', tcp_recv poll (S fuel) c buf off len timeout s = Ok (n, r) s' /\
    copied buf off (stream v) 0 n r /\ conn_ok v' /\ stream v' = drop (Z.to_nat n) (stream v) /\
    v' = set_inbuf (inbuf v') (inlen v') v /\ same_stack (with_conn c v' s) s'.
Proof.
  intros Hc Hok Hun Hlen Hoff Hroom n. pose proof Hok as [Hsz Hl]. unfold TCP_INBUF in *.
  assert (Hw : wp (tcp_recv poll (S fuel) c buf off len timeout) (fun x s' => fst x = n /\ copied buf off (stream v) 0 n (snd x) /\
    exists v', conn_ok v' /\ stream v' = drop (Z.to_nat n) (stream v) /\ v' = set_inbuf (inbuf v') (inlen v') v /\
      same_stack (with_conn c v' s) s') s).
  2:{ apply wp_ok in Hw as ([x r] & s' & He & Hx & Hcp & v' & ?). cbn [fst snd] in *. subst x. exists r, v', s'. tauto. }
  unfold tcp_recv. wp_step. apply wp_timer_ticks. intros start s1 Hs1.
  assert (Hc1 : has_conn s1 c v) by (by eapply has_same).
  wp_step. unfold wait_for. apply wp_locals. cbn [while_]. wp_step. wp_step. wp_step. apply (wp_conn c v); [done|].
  apply wp_ret. destruct (Z.eqb_spec (inlen v) 0); [lia|]. cbn [negb orb]. apply wp_ret, wp_ret.
  wp_step. apply (wp_conn c v); [done|]. destruct (Z.eqb_spec (inlen v) 0); [lia|].
  replace (if inlen v <? len then inlen v else len) with n by (unfold n; case_range; lia).
  wp_step. apply wp_memcpy; try (unfold n; lia). intros r [Hlr Hr].
  wp_step. apply wp_memmove; try (unfold n; lia). intros b [Hlb Hb].
  wp_step. apply wp_modify. apply wp_ret. cbn [fst snd]. split.
  { unfold s32. rewrite u32_small by (unfold n; lia). case_range; unfold n in *; lia. }
  split.
  { split; [done|]. intros j Hj. rewrite Hr by lia. case_range; try done. unfold stream. rewrite rd_take; [done | unfold n in *; lia]. }
  exists (set_inbuf b (inlen v - n) v). split; [|split; [|split; [done|]]].
  - constructor; cbn; unfold TCP_INBUF, n in *; lia.
  - unfold stream. cbn [inlen inbuf set_inbuf]. apply rd_ext.
    { pose proof (length_stream v Hok) as Hs. unfold stream in Hs.
      rewrite lenZ_take by (unfold n in *; lia). rewrite lenZ_drop by (unfold n in *; lia). lia. }
    intros j Hj. rewrite lenZ_take in Hj by (unfold n in *; lia). rewrite rd_take, Hb by (unfold n in *; lia).
    rewrite rd_drop, rd_take by (unfold n in *; lia). case_range; try lia. f_equal. lia.
  - by apply same_with.
Qed.

(** * Addresses *)

Ltac pow_lia := change (2 ^ 24) with 16777216 in *; change (2 ^ 16) with 65536 in *; change (2 ^ 8) with 256 in *; lia.

Lemma ip4_to_u32_value a b c d : bytes [a; b; c; d] -> ip4_to_u32 [a; b; c; d] = a * 16777216 + b * 65536 + c * 256 + d.
Proof.
  intros Hb. pose proof (Hb 0) as Ha. pose proof (Hb 1) as Hb1. pose proof (Hb 2) as Hc. pose proof (Hb 3) as Hd.
  change (rd _ 0) with a in Ha. change (rd _ 1) with b in Hb1. change (rd _ 2) with c in Hc. change (rd _ 3) with d in Hd.
  unfold ip4_to_u32. change (rd [a; b; c; d] 0) with a. change (rd [a; b; c; d] 1) with b.
  change (rd [a; b; c; d] 2) with c. change (rd [a; b; c; d] 3) with d. rewrite !Z.shiftl_mul_pow2 by lia.
  rewrite (lor_low a (b * 2 ^ 16) 24) by pow_lia.
  replace (a * 2 ^ 24 + b * 2 ^ 16) with ((a * 256 + b) * 2 ^ 16) by pow_lia.
  rewrite (lor_low (a * 256 + b) (c * 2 ^ 8) 16) by pow_lia.
  replace ((a * 256 + b) * 2 ^ 16 + c * 2 ^ 8) with (((a * 256 + b) * 256 + c) * 2 ^ 8) by pow_lia.
  rewrite lor_low by pow_lia. rewrite u32_small by pow_lia. pow_lia.
Qed.

Lemma byte_field v k : 0 <= v -> 0 <= k -> u8 (Z.land (Z.shiftr v k) 0xFF) = v / 2 ^ k mod 256.
Proof.
  intros Hv Hk. change 0xFF with (Z.ones 8). rewrite Z.land_ones, Z.shiftr_div_pow2 by lia. unfold u8. change (2 ^ 8) with 256.
  apply Z.mod_mod. lia.
Qed.

Lemma ip4_u32_ip4 ip : lenZ ip = 4 -> bytes ip -> u32_to_ip4 (ip4_to_u32 ip) = ip.
Proof.
  intros Hl Hb. destruct (list4 ip Hl) as (a & b & c & d & ->). rewrite ip4_to_u32_value by done.
  pose proof (Hb 0) as Ha. pose proof (Hb 1) as Hb1. pose proof (Hb 2) as Hc. pose proof (Hb 3) as Hd.
  change (rd _ 0) with a in Ha. change (rd _ 1) with b in Hb1. change (rd _ 2) with c in Hc. change (rd _ 3) with d in Hd.
  set (v := a * 16777216 + b * 65536 + c * 256 + d). unfold u32_to_ip4.
  rewrite !byte_field by (unfold v; lia). replace (Z.land v 0xFF) with (Z.land (Z.shiftr v 0) 0xFF) by done.
  rewrite byte_field by (unfold v; lia). change (2 ^ 24) with 16777216. change (2 ^ 16) with 65536. change (2 ^ 8) with 256. change (2 ^ 0) with 1.
  unfold v. f_equal; [|f_equal; [|f_equal; [|f_equal]]]; Z.div_mod_to_equations; lia.
Qed.

(** * The length underflow *)

(** A copy that is longer than the room of its destination writes behind it,
    when the source has bytes enough to get there. *)
Lemma memcpy_overrun {S} dest d src o n (s : S) : 0 <= d <= lenZ dest -> 0 <= o -> lenZ dest - d < n ->
  lenZ dest - d < lenZ src - o ->
  exists s', memcpy dest d src o n s = Stuck OutOfBounds s'.
Proof.
  intros Hd Ho Hn Hsrc. apply (wpe_elim _ _ (fun _ _ => False)); [|done]. unfold memcpy, locals. apply wpe_bind.
  apply (wpe_for OutOfBounds (fun i r s' => s' = s /\ d + i <= lenZ dest /\ lenZ r = lenZ dest)); [split; [done | lia] | |].
  - intros i r s' Hi (-> & Hr & Hl). apply wpe_wp_bind, wp_aget; [lia|]. apply wpe_bind.
    destruct (decide (d + i < lenZ dest)).
    + apply wpe_of_wp, wp_aset; [lia|]. apply wpe_of_wp, wp_ret. split; [done|]. rewrite lenZ_wr. lia.
    + apply (wpe_stuck _ _ _ _ s). unfold aset. rewrite decide_False by lia. done.
  - intros r s' (-> & Hr & _). unfold span in Hr. lia.
Qed.

Section Underflow.
Context {P : Type} `{NicHw P} `{Locals}.
Implicit Types s : net P.

(** A packet for us whose total length is the 20 bytes of a header without
    options but whose header claims 24, with a segment for the connection. *)
Record short_packet (s : net P) (v : tcp_conn_t) (pkt : list Z) (len : Z) : Prop := {
  sp_bytes : bytes pkt;
  sp_room : 44 <= len <= lenZ pkt /\ lenZ pkt <= NET_BUF_SIZE;
  sp_total : rd pkt 2 = 0 /\ rd pkt 3 = 20;
  sp_version : rd pkt 0 = 0x46;
  sp_proto : rd pkt 9 = IP_PROTO_TCP;
  sp_dst : take 4 (drop 16 pkt) = ip (net_iface s);
  sp_port : htons16 (le16 (from pkt 24) 2) = src_port v;
  sp_flags : Z.land (rd pkt (24 + 13)) TCP_SYN = 0;
  sp_offset : header_len (from pkt 24) = 20
}.

Section Run.
Variable poll : M (net P) unit.
Variable fuel : nat.

(** What follows the data of a segment. *)
Definition finish (c flags : Z) : M (net P) Z :=
  (if negb (Z.land flags TCP_FIN =? 0) then conn_upd c (set_closed 1) else mret tt);; mret 0.

(** A data segment for the connection goes to [tcp_deliver] with the bytes
    behind its header. *)
Lemma tcp_handle_data c v pkt len s :
  current_conn (n_tcp s) = c -> c <> 0 -> has_conn s c v -> active v <> 0 -> bytes pkt -> 20 <= lenZ pkt ->
  htons16 (le16 pkt 2) = src_port v -> Z.land (rd pkt 13) TCP_SYN = 0 -> 20 <= len -> header_len pkt < len ->
  tcp_handle poll fuel pkt len s =
    (tcp_deliver poll fuel c (from pkt (header_len pkt)) (len - header_len pkt);; finish c (rd pkt 13)) s.
Proof.
  intros Hcur Hc0 Hc Ha Hb Hl Hport Hsyn Hlen Hhd. unfold tcp_handle. destruct (Z.ltb_spec len 20); [lia|].
  rewrite (bind_ok _ _ s (n_tcp s) s) by done. rewrite Hcur. destruct (Z.eqb_spec c 0); [done|].
  rewrite (bind_ok _ _ s v s) by (unfold conn; rewrite (bind_ok _ _ s (n_tcp s) s) by done; by rewrite Hc).
  destruct (Z.eqb_spec (active v) 0); [done|].
  rewrite (bind_ok _ _ s (le16 pkt 2) s) by (unfold ld16; by rewrite decide_True by lia).
  rewrite Hport, Z.eqb_refl. cbn [negb].
  rewrite (bind_ok _ _ s (rd pkt 13) s) by (unfold ld8, aget; by rewrite decide_True by lia).
  rewrite (bind_ok _ _ s (rd pkt 12) s) by (unfold ld8, aget; by rewrite decide_True by lia).
  rewrite data_off_eq by done. destruct (Z.ltb_spec len (header_len pkt)); [lia|].
  rewrite (bind_ok _ _ s (le32 pkt 4) s) by (unfold ld32; by rewrite decide_True by lia).
  rewrite Hsyn. cbn [Z.eqb negb]. destruct (Z.ltb_spec 0 (len - header_len pkt)); [done | lia].
Qed.

(** The packet reaches [tcp_handle] with a length just below 2^32. *)
Lemma short_packet_handled call_cb v pkt len s : iface_ok (net_iface s) -> short_packet s v pkt len ->
  ipv4_handle poll call_cb fuel pkt len s = tcp_handle poll fuel (from pkt 24) 4294967292 s.
Proof.
  intros [_ _ Hil Hib _] [Hb Hroom [Ht1 Ht2] Hver Hpr Hdst _ _ _].
  unfold ipv4_handle. destruct (Z.ltb_spec len 20); [lia|].
  rewrite (bind_ok _ _ s (le16 pkt 2) s) by (unfold ld16; by rewrite decide_True by lia).
  replace (htons16 (le16 pkt 2)) with 20 by (unfold le16; change (2 + 1) with 3; by rewrite Ht1, Ht2).
  rewrite (bind_ok _ _ s (ip (net_iface s)) s).
  2:{ unfold ldn. rewrite decide_True by lia. change (take (Z.to_nat 4) (drop (Z.to_nat 16) pkt)) with (take 4 (drop 16 pkt)). by rewrite Hdst. }
  rewrite (bind_ok _ _ s (net_iface s) s) by done. rewrite ip4_u32_ip4 by done.
  rewrite (bind_ok _ _ s true s).
  2:{ assert (Hw : wp (ip_eq (ip (net_iface s)) (ip (net_iface s))) (fun b s' => b = true /\ s' = s) s)
        by (apply wp_ip_eq; [done | done | by rewrite bool_decide_true]).
      by apply wp_ok in Hw as (? & ? & -> & -> & ->). }
  cbn [negb]. destruct (Z.ltb_spec len 20); [lia|]. change (20 <? 20) with false. cbv iota.
  rewrite (bind_ok _ _ s (rd pkt 0) s) by (unfold ld8, aget; by rewrite decide_True by lia).
  rewrite Hver. change (u8 (Z.land 0x46 0x0F * 4)) with 24. change (24 <? 20) with false. cbv iota zeta.
  rewrite (bind_ok _ _ s (rd pkt 9) s) by (unfold ld8, aget; by rewrite decide_True by lia).
  by rewrite Hpr.
Qed.
End Run.
End Underflow.

(** C38: A remote packet overruns a kernel buffer.  [ipv4_handle] passes the
    length [total - ihl] on without checking that it is not negative.  A TCP
    packet for the current connection with a total length of 20 and a header
    length of 24 is handled as 2^32 - 24 bytes of data ([tcp_deliver] with that
    length); once the connection holds 24 unread bytes the sum of the lengths
    wraps below the size of the buffer, the check passes, and the copy runs over
    the end of the connection's buffer.  The packet is taken to hold more bytes
    than the buffer has room, so that its own end is not what stops the copy:
    the copy of exactly the room left succeeds, every longer one is stuck, and
    delivering any number of bytes that the packet really has is not a fault. *)
Theorem ipv4_length_underflow {P} `{NicHw P} `{Locals} poll call_cb fuel (s : net P) c v pkt len :
  iface_ok (net_iface s) -> current_conn (n_tcp s) = c -> c <> 0 -> has_conn s c v -> active v <> 0 -> conn_ok v ->
  conn_words v -> can_send s (remote v) -> 24 <= inlen v -> short_packet s v pkt len ->
  let payload := from (from pkt 24) 20 in
  let room := TCP_INBUF - inlen v in
  room < lenZ payload ->
  ipv4_handle poll call_cb fuel pkt len s =
    (tcp_deliver poll fuel c payload (4294967296 - 24);; finish c (rd pkt 37)) s /\
  (exists s', ipv4_handle poll call_cb fuel pkt len s = Stuck OutOfBounds s') /\
  (exists b, memcpy (inbuf v) (inlen v) payload 0 room s = Ok b s) /\
  (forall n, room < n -> exists s', memcpy (inbuf v) (inlen v) payload 0 n s = Stuck OutOfBounds s') /\
  (forall n, 0 < n <= lenZ payload -> exists s', tcp_deliver poll fuel c payload n s = Ok tt s').
Proof.
  intros Hif Hcur Hc0 Hc Ha Hok Hv Hcs Hin Hsp payload room Hfull.
  pose proof Hok as [Hsz Hln]. pose proof Hsp as [Hb Hroom _ _ _ _ Hport Hfl Hoff]. unfold TCP_INBUF, NET_BUF_SIZE in *.
  assert (Hld : lenZ (from pkt 24) = lenZ pkt - 24) by (unfold from; rewrite lenZ_drop; lia).
  assert (Hfb : bytes (from pkt 24)) by (apply bytes_drop; [done | lia]).
  assert (Hld2 : lenZ payload = lenZ pkt - 44) by (unfold payload, from at 1; rewrite lenZ_drop; lia).
  assert (Hfl' : rd (from pkt 24) 13 = rd pkt 37) by (unfold from; by rewrite rd_drop by lia).
  assert (Hover : forall n, room < n -> exists s', memcpy (inbuf v) (inlen v) payload 0 n s = Stuck OutOfBounds s').
  { intros n Hn. apply memcpy_overrun; unfold room in *; lia. }
  assert (Heq : ipv4_handle poll call_cb fuel pkt len s =
    (tcp_deliver poll fuel c payload (4294967296 - 24);; finish c (rd pkt 37)) s).
  { rewrite (short_packet_handled poll fuel call_cb v) by done.
    rewrite (tcp_handle_data poll fuel c v) by (rewrite ?Hfl', ?Hoff; done || lia). by rewrite Hoff, Hfl'. }
  split; [done|]. split; [|split; [|split; [done|]]].
  - rewrite Heq. destruct (Hover (4294967296 - 24)) as (s' & Hst); [unfold room; lia|]. exists s'. apply bind_stuck.
    unfold tcp_deliver. rewrite (bind_ok _ _ s v s) by (unfold conn; rewrite (bind_ok _ _ s (n_tcp s) s) by done; by rewrite Hc).
    replace (u32 (inlen v + (4294967296 - 24))) with (inlen v - 24) by (unfold u32; Z.div_mod_to_equations; lia).
    destruct (Z.leb_spec (inlen v - 24) TCP_INBUF) as [_|Hbig]; [by apply bind_stuck | unfold TCP_INBUF in Hbig; lia].
  - destruct (memcpy_run (inbuf v) (inlen v) payload 0 room s) as (b & He & _); unfold room in *; try lia. by exists b.
  - intros n Hn. assert (Hw : wp (tcp_deliver poll fuel c payload n) (fun _ _ => True) s)
      by (apply (wp_tcp_deliver poll fuel c v); done || lia).
    apply wp_ok in Hw as ([] & s' & He & _). by exists s'.
Qed.

(** * Examples *)

Lemma demo_can_send : can_send demo_net SERVER.
Proof.
  constructor; try done; [exact demo_iface_ok | exact demo_cache_ok |]. split; [done|]. by apply bytes_by_compute.
Qed.

Lemma tcp_handle_refines_witness :
  let v' := tcp_rx 0x18 5000 [1; 2; 3] demo_conn in
  conn_ok v' /\
  (Z.land 0x18 TCP_SYN = 0 -> stream v' = if inlen demo_conn + lenZ [1; 2; 3] <=? TCP_INBUF then stream demo_conn ++ [1; 2; 3] else stream demo_conn) /\
  exists s', tcp_handle no_poll 1 (demo_segment 0x18 [1; 2; 3]) 23 demo_net = Ok 0 s' /\ same_stack (with_conn DEMO_CONN v' demo_net) s' /\
    acknowledged DEMO_CONN (Some (tcp_append [1; 2; 3] demo_conn)) v' demo_net s'.
Proof.
  apply (tcp_handle_refines no_poll 1 demo_net DEMO_CONN demo_conn (demo_segment 0x18 [1; 2; 3]) 23); try done.
  - exact demo_can_send.
  - constructor; [by apply bytes_by_compute | done | done | done | done].
Defined.

Lemma tcp_recv_stream_witness :
  exists r v' s', tcp_recv no_poll 1 DEMO_CONN (replicate 16 0) 2 10 60 demo_net = Ok (10, r) s' /\
    copied (replicate 16 0) 2 (stream demo_conn) 0 10 r /\ conn_ok v' /\ stream v' = drop 10 (stream demo_conn) /\
    v' = set_inbuf (inbuf v') (inlen v') demo_conn /\ same_stack (with_conn DEMO_CONN v' demo_net) s'.
Proof.
  apply (tcp_recv_stream no_poll 0 demo_net DEMO_CONN demo_conn (replicate 16 0) 2 10 60); done.
Defined.

(** The packet: version 4 with a 24-byte header, total length 20. *)
Definition demo_short : list Z :=
  [0x46; 0; 0; 20; 0; 0; 0; 0; 64; 6; 0; 0; 93; 184; 216; 34; 10; 0; 2; 15; 1; 1; 1; 1] ++ demo_segment 0x10 (replicate 20 0).

(** A connection with room for six more bytes. *)
Definition full_conn : tcp_conn_t := set_inbuf (replicate 4096 7) 4090 demo_conn.
Definition full_net : net unit := with_conn DEMO_CONN full_conn demo_net.

Lemma ipv4_length_underflow_witness :
  let payload := from (from demo_short 24) 20 in
  ipv4_handle no_poll (fun _ _ _ => mret tt) 1 demo_short 64 full_net =
    (tcp_deliver no_poll 1 DEMO_CONN payload (4294967296 - 24);; finish DEMO_CONN (rd demo_short 37)) full_net /\
  (exists s', ipv4_handle no_poll (fun _ _ _ => mret tt) 1 demo_short 64 full_net = Stuck OutOfBounds s') /\
  (exists b, memcpy (inbuf full_conn) (inlen full_conn) payload 0 (TCP_INBUF - inlen full_conn) full_net = Ok b full_net) /\
  (forall n, TCP_INBUF - inlen full_conn < n ->
     exists s', memcpy (inbuf full_conn) (inlen full_conn) payload 0 n full_net = Stuck OutOfBounds s') /\
  (forall n, 0 < n <= lenZ payload -> exists s', tcp_deliver no_poll 1 DEMO_CONN payload n full_net = Ok tt s').
Proof.
  apply (ipv4_length_underflow no_poll (fun _ _ _ => mret tt) 1 full_net DEMO_CONN full_conn demo_short 64); try done.
  - exact demo_iface_ok.
  - apply can_send_with. exact demo_can_send.
  - constructor; try done. by apply bytes_by_compute.
Defined.
