(* ===== verification/Fbcon.v ===== *)
(** The framebuffer console: [src/kernel/dev/fbcon.c] and the font of
    [src/kernel/dev/font.c].

    The framebuffer is the memory of the graphics card: [fb_mem] holds the
    bytes stored in it so far, by address. *)
From Stdlib Require Import ZArith Lia List.
From stdpp Require Import base tactics numbers list gmap strings option.
From S2P Require Import Prelude.
Open Scope Z_scope.

Definition FB_FONT_W : Z := 8.
Definition FB_FONT_H : Z := 16.

Record fbcon : Type := mkFb {
  fb_addr : Z;
  fb_pitch : Z;
  fb_width : Z;
  fb_height : Z;
  fb_bpp : Z;
  fb_ready : Z;
  fb_mem : gmap Z Z
}.
Definition set_fb_mem (m : gmap Z Z) (s : fbcon) : fbcon :=
  mkFb (fb_addr s) (fb_pitch s) (fb_width s) (fb_height s) (fb_bpp s) (fb_ready s) m.

Record t_rgb : Type := mkRgb { c_r : Z; c_g : Z; c_b : Z }.

Definition palette : list t_rgb := [
  mkRgb 0x00 0x00 0x00; mkRgb 0x00 0x00 0xAA; mkRgb 0x00 0xAA 0x00; mkRgb 0x00 0xAA 0xAA;
  mkRgb 0xAA 0x00 0x00; mkRgb 0xAA 0x00 0xAA; mkRgb 0xAA 0x55 0x00; mkRgb 0xAA 0xAA 0xAA;
  mkRgb 0x55 0x55 0x55; mkRgb 0x55 0x55 0xFF; mkRgb 0x55 0xFF 0x55; mkRgb 0x55 0xFF 0xFF;
  mkRgb 0xFF 0x55 0x55; mkRgb 0xFF 0x55 0xFF; mkRgb 0xFF 0xFF 0x55; mkRgb 0xFF 0xFF 0xFF].

(** The glyphs of the characters 0x20 to 0x7E, a byte per row. *)
Definition font8x16 : list (list Z) := [
  [0; 0; 0; 0; 0; 0; 0; 0; 0; 0; 0; 0; 0; 0; 0; 0];
  [0; 0; 0; 16; 16; 16; 16; 16; 16; 16; 16; 0; 16; 16; 0; 0];
  [0; 0; 0; 20; 60; 20; 20; 0; 0; 0; 0; 0; 0; 0; 0; 0];
  [0; 0; 0; 0; 18; 18; 18; 127; 18; 54; 127; 36; 36; 36; 0; 0];
  [0; 0; 0; 0; 16; 60; 86; 80; 48; 28; 22; 18; 86; 60; 16; 0];
  [0; 0; 0; 0; 98; 148; 148; 104; 8; 16; 22; 41; 41; 70; 0; 0];
  [0; 0; 0; 0; 24; 36; 36; 60; 24; 57; 71; 66; 103; 57; 0; 0];
  [0; 0; 0; 8; 24; 8; 8; 0; 0; 0; 0; 0; 0; 0; 0; 0];
  [0; 0; 0; 2; 12; 24; 16; 48; 32; 32; 32; 32; 48; 16; 8; 12];
  [0; 0; 0; 64; 48; 24; 8; 12; 4; 4; 4; 4; 12; 8; 16; 48];
  [0; 0; 0; 0; 0; 8; 8; 107; 28; 28; 54; 34; 0; 0; 0; 0];
  [0; 0; 0; 0; 0; 8; 8; 8; 127; 8; 8; 8; 0; 0; 0; 0];
  [0; 0; 0; 0; 0; 0; 0; 0; 0; 0; 0; 0; 24; 24; 8; 16];
  [0; 0; 0; 0; 0; 0; 0; 0; 126; 0; 0; 0; 0; 0; 0; 0];
  [0; 0; 0; 0; 0; 0; 0; 0; 0; 0; 0; 0; 16; 16; 0; 0];
  [0; 0; 0; 2; 6; 4; 4; 8; 8; 16; 16; 32; 32; 96; 64; 0];
  [0; 0; 0; 0; 24; 36; 102; 70; 74; 82; 98; 102; 36; 24; 0; 0];
  [0; 0; 0; 0; 24; 56; 8; 8; 8; 8; 8; 8; 8; 8; 0; 0];
  [0; 0; 0; 0; 56; 102; 2; 2; 6; 12; 24; 32; 96; 126; 0; 0];
  [0; 0; 0; 0; 56; 76; 4; 12; 24; 12; 4; 4; 76; 120; 0; 0];
  [0; 0; 0; 0; 4; 12; 28; 20; 36; 100; 126; 4; 4; 4; 0; 0];
  [0; 0; 0; 0; 62; 32; 96; 120; 100; 2; 2; 2; 102; 56; 0; 0];
  [0; 0; 0; 0; 28; 34; 96; 64; 120; 102; 66; 66; 38; 60; 0; 0];
  [0; 0; 0; 0; 126; 6; 4; 12; 8; 8; 24; 16; 16; 48; 0; 0];
  [0; 0; 0; 0; 60; 102; 66; 100; 60; 102; 66; 66; 102; 60; 0; 0];
  [0; 0; 0; 0; 24; 100; 66; 66; 102; 30; 2; 6; 68; 56; 0; 0];
  [0; 0; 0; 0; 0; 0; 0; 8; 8; 0; 0; 0; 8; 8; 0; 0];
  [0; 0; 0; 0; 0; 0; 0; 8; 8; 0; 0; 0; 24; 24; 8; 16];
  [0; 0; 0; 0; 0; 1; 6; 24; 96; 96; 24; 6; 1; 0; 0; 0];
  [0; 0; 0; 0; 0; 0; 0; 127; 0; 0; 127; 0; 0; 0; 0; 0];
  [0; 0; 0; 0; 0; 128; 96; 24; 6; 6; 24; 96; 128; 0; 0; 0];
  [0; 0; 0; 60; 102; 2; 2; 4; 8; 8; 8; 0; 8; 8; 0; 0];
  [0; 0; 0; 0; 28; 50; 97; 79; 89; 83; 79; 32; 16; 15; 0; 0];
  [0; 0; 0; 0; 16; 16; 56; 40; 40; 68; 124; 70; 194; 130; 0; 0];
  [0; 0; 0; 0; 124; 70; 66; 70; 124; 70; 66; 66; 70; 124; 0; 0];
  [0; 0; 0; 0; 28; 38; 96; 64; 64; 64; 64; 64; 34; 28; 0; 0];
  [0; 0; 0; 0; 120; 68; 70; 66; 66; 66; 66; 70; 76; 120; 0; 0];
  [0; 0; 0; 0; 126; 64; 64; 64; 124; 64; 64; 64; 64; 126; 0; 0];
  [0; 0; 0; 0; 126; 64; 64; 64; 124; 64; 64; 64; 64; 64; 0; 0];
  [0; 0; 0; 0; 60; 102; 192; 128; 128; 142; 130; 194; 98; 60; 0; 0];
  [0; 0; 0; 0; 66; 66; 66; 66; 126; 66; 66; 66; 66; 66; 0; 0];
  [0; 0; 0; 0; 124; 16; 16; 16; 16; 16; 16; 16; 16; 124; 0; 0];
  [0; 0; 0; 0; 31; 4; 4; 4; 4; 4; 4; 4; 76; 56; 0; 0];
  [0; 0; 0; 0; 66; 68; 72; 80; 112; 88; 72; 76; 70; 66; 0; 0];
  [0; 0; 0; 0; 64; 64; 64; 64; 64; 64; 64; 64; 64; 126; 0; 0];
  [0; 0; 0; 0; 130; 198; 198; 234; 186; 146; 130; 130; 130; 130; 0; 0];
  [0; 0; 0; 0; 66; 98; 98; 82; 90; 74; 78; 70; 70; 66; 0; 0];
  [0; 0; 0; 0; 56; 68; 198; 130; 130; 130; 130; 198; 68; 56; 0; 0];
  [0; 0; 0; 0; 124; 70; 66; 66; 70; 124; 64; 64; 64; 64; 0; 0];
  [0; 0; 0; 0; 56; 68; 198; 130; 130; 130; 130; 198; 68; 56; 16; 12];
  [0; 0; 0; 0; 124; 70; 66; 66; 70; 124; 72; 68; 70; 66; 0; 0];
  [0; 0; 0; 0; 60; 98; 64; 96; 56; 12; 2; 2; 70; 60; 0; 0];
  [0; 0; 0; 0; 254; 16; 16; 16; 16; 16; 16; 16; 16; 16; 0; 0];
  [0; 0; 0; 0; 66; 66; 66; 66; 66; 66; 66; 66; 36; 56; 0; 0];
  [0; 0; 0; 0; 130; 194; 68; 68; 100; 40; 40; 56; 16; 16; 0; 0];
  [0; 0; 0; 0; 65; 73; 73; 77; 125; 118; 54; 54; 34; 34; 0; 0];
  [0; 0; 0; 0; 198; 68; 108; 56; 16; 56; 40; 108; 68; 194; 0; 0];
  [0; 0; 0; 0; 67; 34; 34; 20; 28; 8; 8; 8; 8; 8; 0; 0];
  [0; 0; 0; 0; 126; 6; 4; 12; 8; 16; 48; 32; 96; 126; 0; 0];
  [0; 0; 0; 62; 32; 32; 32; 32; 32; 32; 32; 32; 32; 32; 62; 0];
  [0; 0; 0; 64; 96; 32; 32; 16; 16; 8; 8; 4; 4; 6; 2; 0];
  [0; 0; 0; 124; 4; 4; 4; 4; 4; 4; 4; 4; 4; 4; 124; 0];
  [0; 0; 0; 0; 8; 28; 20; 34; 0; 0; 0; 0; 0; 0; 0; 0];
  [0; 0; 0; 0; 0; 0; 0; 0; 0; 0; 0; 0; 0; 0; 126; 0];
  [0; 0; 0; 0; 32; 16; 8; 0; 0; 0; 0; 0; 0; 0; 0; 0];
  [0; 0; 0; 0; 0; 0; 0; 28; 38; 2; 62; 98; 70; 62; 0; 0];
  [0; 0; 0; 64; 64; 64; 64; 88; 100; 66; 66; 66; 100; 120; 0; 0];
  [0; 0; 0; 0; 0; 0; 0; 60; 98; 64; 64; 64; 98; 60; 0; 0];
  [0; 0; 0; 2; 2; 2; 2; 26; 38; 66; 66; 66; 38; 26; 0; 0];
  [0; 0; 0; 0; 0; 0; 0; 24; 36; 66; 126; 64; 34; 28; 0; 0];
  [0; 0; 0; 15; 25; 16; 16; 124; 16; 16; 16; 16; 16; 16; 0; 0];
  [0; 0; 0; 0; 0; 0; 0; 62; 108; 68; 108; 56; 64; 124; 66; 70];
  [0; 0; 0; 64; 64; 64; 64; 92; 102; 66; 66; 66; 66; 66; 0; 0];
  [0; 0; 0; 0; 8; 8; 0; 56; 8; 8; 8; 8; 8; 62; 0; 0];
  [0; 0; 0; 0; 4; 4; 0; 60; 4; 4; 4; 4; 4; 4; 4; 76];
  [0; 0; 0; 64; 64; 64; 64; 68; 72; 80; 120; 72; 68; 66; 0; 0];
  [0; 0; 0; 56; 8; 8; 8; 8; 8; 8; 8; 8; 8; 62; 0; 0];
  [0; 0; 0; 0; 0; 0; 0; 238; 154; 146; 146; 146; 146; 146; 0; 0];
  [0; 0; 0; 0; 0; 0; 0; 92; 102; 66; 66; 66; 66; 66; 0; 0];
  [0; 0; 0; 0; 0; 0; 0; 60; 100; 66; 66; 66; 100; 24; 0; 0];
  [0; 0; 0; 0; 0; 0; 0; 124; 100; 66; 66; 66; 100; 120; 64; 64];
  [0; 0; 0; 0; 0; 0; 0; 62; 102; 66; 66; 66; 38; 26; 2; 2];
  [0; 0; 0; 0; 0; 0; 0; 46; 50; 32; 32; 32; 32; 32; 0; 0];
  [0; 0; 0; 0; 0; 0; 0; 60; 66; 112; 28; 2; 70; 60; 0; 0];
  [0; 0; 0; 0; 0; 16; 16; 126; 16; 16; 16; 16; 18; 30; 0; 0];
  [0; 0; 0; 0; 0; 0; 0; 66; 66; 66; 66; 66; 102; 58; 0; 0];
  [0; 0; 0; 0; 0; 0; 0; 65; 99; 34; 54; 20; 28; 8; 0; 0];
  [0; 0; 0; 0; 0; 0; 0; 130; 146; 218; 122; 108; 108; 68; 0; 0];
  [0; 0; 0; 0; 0; 0; 0; 102; 36; 24; 24; 24; 36; 102; 0; 0];
  [0; 0; 0; 0; 0; 0; 0; 66; 34; 38; 52; 20; 28; 8; 8; 16];
  [0; 0; 0; 0; 0; 0; 0; 126; 4; 8; 24; 48; 96; 126; 0; 0];
  [0; 0; 0; 0; 14; 24; 16; 16; 16; 48; 96; 16; 16; 16; 16; 24];
  [0; 0; 0; 0; 8; 8; 8; 8; 8; 8; 8; 8; 8; 8; 8; 8];
  [0; 0; 0; 0; 112; 24; 8; 8; 8; 8; 6; 8; 8; 8; 8; 24];
  [0; 0; 0; 0; 0; 0; 0; 0; 57; 70; 0; 0; 0; 0; 0; 0]].

(** [palette[i & 0xF]] *)
Definition palette_at (i : Z) : t_rgb := nth (Z.to_nat (Z.land i 0xF)) palette (mkRgb 0 0 0).

Definition fb_active : M fbcon Z := gets fb_ready.

(** Store a byte at the address [a]. *)
Definition fb_poke (a v : Z) : M fbcon unit :=
  modify (fun s => set_fb_mem (<[u32 a := u8 v]> (fb_mem s)) s).

Definition fb_putpixel (x y r g b : Z) : M fbcon unit := fun s =>
  if (fb_width s <=? x) || (fb_height s <=? y) then Ok tt s
  else
    let px := u32 (fb_addr s + (y * fb_pitch s + x * (fb_bpp s / 8))) in
    (if fb_bpp s =? 32 then
       fb_poke px b;; fb_poke (px + 1) g;; fb_poke (px + 2) r;; fb_poke (px + 3) 0xFF
     else if fb_bpp s =? 24 then
       fb_poke px b;; fb_poke (px + 1) g;; fb_poke (px + 2) r
     else if fb_bpp s =? 16 then
       let v := u16 (Z.lor (Z.lor (Z.shiftl (Z.land r 0xF8) 8) (Z.shiftl (Z.land g 0xFC) 3))
                       (Z.shiftr b 3)) in
       fb_poke px v;; fb_poke (px + 1) (v / 256)
     else mret tt) s.

Definition fb_init (addr pitch w h bpp : Z) : M fbcon Z :=
  modify (fun s => mkFb addr pitch w h bpp
    (if negb (addr =? 0) && negb (w =? 0) && negb (h =? 0) then 1 else 0) (fb_mem s));;
  gets fb_ready.

Definition fb_clear_bg (bg_idx : Z) : M fbcon unit :=
  let bg := palette_at bg_idx in
  ready ← gets fb_ready;
  if ready =? 0 then mret tt
  else
    h ← gets fb_height;
    w ← gets fb_width;
    locals (for_ (span 0 h) 0 tt (fun y _ =>
      locals (for_ (span 0 w) 0 tt (fun x _ =>
        fb_putpixel x y (c_r bg) (c_g bg) (c_b bg);;
        mret (Cont tt)));;
      mret (Cont tt))).

(** [font8x16[c - 0x20]] *)
Definition glyph_of (c : Z) : M fbcon (list Z) :=
  match font8x16 !! Z.to_nat (c - 0x20) with
  | Some glyph => mret glyph
  | None => stuck OutOfBounds
  end.

(** [char] is signed: the characters from 0x80 on are shown as '?'. *)
Definition fb_render_cell (x y c fg_idx bg_idx : Z) : M fbcon unit :=
  let fg := palette_at fg_idx in
  let bg := palette_at bg_idx in
  ready ← gets fb_ready;
  if ready =? 0 then mret tt
  else
    let c := if (s8 c <? 0x20) || (0x7E <? s8 c) then 63 else c in
    glyph ← glyph_of c;
    locals (for_ (span 0 FB_FONT_H) 0 tt (fun row _ =>
      bits ← aget glyph row;
      locals (for_ (span 0 FB_FONT_W) 0 tt (fun col _ =>
        let px := u32 (x * FB_FONT_W + col) in
        let py := u32 (y * FB_FONT_H + row) in
        (if negb (Z.land bits (Z.shiftr 0x80 col) =? 0) then fb_putpixel px py (c_r fg) (c_g fg) (c_b fg)
         else fb_putpixel px py (c_r bg) (c_g bg) (c_b bg));;
        mret (Cont tt)));;
      mret (Cont tt))).
