(* ===== verification/Term.v ===== *)
(** The terminal: [src/kernel/lib/term.c] up to [puts], with the inline
    functions of [src/include/vga.h], [src/include/cursor.h] and
    [src/include/term.h].  [printk] is in Printk.v.

    [t_buf] points to the text memory of the VGA card or to [fb_shadow]; a
    cell is 16 bits, the character below the color. *)
From Stdlib Require Import ZArith Lia List.
From stdpp Require Import base tactics numbers list gmap strings option.
From S2P Require Import Prelude CString Bytes Ata Fbcon.
Open Scope Z_scope.

Definition VGA_WIDTH : Z := 80.
Definition VGA_HEIGHT : Z := 25.
Definition TERM_MAX_W : Z := 160.
Definition TERM_MAX_H : Z := 50.
Definition VGA_COLOR_BLACK : Z := 0.
Definition VGA_COLOR_LIGHT_GREY : Z := 7.
Definition VGA_COLOR_LIGHT_GREEN : Z := 10.
Definition VGA_COLOR_LIGHT_CYAN : Z := 11.
Definition VGA_COLOR_WHITE : Z := 15.

(** The cells of the window 0xB8000 to 0xBFFFF. *)
Definition VGA_CELLS : Z := 16384.

Definition vga_entry_color (fg bg : Z) : Z := u8 (Z.lor fg (Z.shiftl bg 4)).
Definition vga_entry (uc color : Z) : Z := Z.lor (u8 uc) (u16 (Z.shiftl color 8)).

Inductive cell_ptr : Type := VgaMemory | FbShadow.

Record term (P : Type) : Type := mkTerm {
  crtc : P;
  vga_mem : list Z;
  fb_shadow : list Z;
  term_fb_mode : Z;
  fb : fbcon;
  t_buf : cell_ptr;
  t_row : Z;
  t_col : Z;
  t_color : Z;
  term_width : Z;
  term_height : Z
}.
Arguments mkTerm {P} _ _ _ _ _ _ _ _ _ _ _.
Arguments crtc {P} _.
Arguments vga_mem {P} _.
Arguments fb_shadow {P} _.
Arguments term_fb_mode {P} _.
Arguments fb {P} _.
Arguments t_buf {P} _.
Arguments t_row {P} _.
Arguments t_col {P} _.
Arguments t_color {P} _.
Arguments term_width {P} _.
Arguments term_height {P} _.

Section Setters.
Context {P : Type}.
Implicit Types s : term P.
Definition set_crtc (p : P) s := mkTerm p (vga_mem s) (fb_shadow s) (term_fb_mode s) (fb s) (t_buf s)
  (t_row s) (t_col s) (t_color s) (term_width s) (term_height s).
Definition set_cells (l : list Z) s :=
  match t_buf s with
  | VgaMemory => mkTerm (crtc s) l (fb_shadow s) (term_fb_mode s) (fb s) (t_buf s)
      (t_row s) (t_col s) (t_color s) (term_width s) (term_height s)
  | FbShadow => mkTerm (crtc s) (vga_mem s) l (term_fb_mode s) (fb s) (t_buf s)
      (t_row s) (t_col s) (t_color s) (term_width s) (term_height s)
  end.
Definition set_term_fb_mode (v : Z) s := mkTerm (crtc s) (vga_mem s) (fb_shadow s) v (fb s) (t_buf s)
  (t_row s) (t_col s) (t_color s) (term_width s) (term_height s).
Definition set_fb (v : fbcon) s := mkTerm (crtc s) (vga_mem s) (fb_shadow s) (term_fb_mode s) v (t_buf s)
  (t_row s) (t_col s) (t_color s) (term_width s) (term_height s).
Definition set_t_buf (v : cell_ptr) s := mkTerm (crtc s) (vga_mem s) (fb_shadow s) (term_fb_mode s) (fb s) v
  (t_row s) (t_col s) (t_color s) (term_width s) (term_height s).
Definition set_t_row (v : Z) s := mkTerm (crtc s) (vga_mem s) (fb_shadow s) (term_fb_mode s) (fb s) (t_buf s)
  v (t_col s) (t_color s) (term_width s) (term_height s).
Definition set_t_col (v : Z) s := mkTerm (crtc s) (vga_mem s) (fb_shadow s) (term_fb_mode s) (fb s) (t_buf s)
  (t_row s) v (t_color s) (term_width s) (term_height s).
Definition set_t_color (v : Z) s := mkTerm (crtc s) (vga_mem s) (fb_shadow s) (term_fb_mode s) (fb s) (t_buf s)
  (t_row s) (t_col s) v (term_width s) (term_height s).
Definition set_term_size (w h : Z) s := mkTerm (crtc s) (vga_mem s) (fb_shadow s) (term_fb_mode s) (fb s) (t_buf s)
  (t_row s) (t_col s) (t_color s) w h.

(** The memory [t_buf] points to. *)
Definition cells s : list Z := match t_buf s with VgaMemory => vga_mem s | FbShadow => fb_shadow s end.
End Setters.

Section Operations.
Context {P : Type} `{Ports P}.
Local Notation T := (M (term P)).

Definition crtc_inb (port : Z) : T Z := fun s =>
  let '(v, p) := port_inb (u16 port) (crtc s) in Ok (u8 v) (set_crtc p s).
Definition crtc_outb (port v : Z) : T unit :=
  modify (fun s => set_crtc (port_outb (u16 port) (u8 v) (crtc s)) s).

Definition enable_cursor (start end_ : Z) : T unit :=
  crtc_outb 0x3D4 0x0A;;
  v ← crtc_inb 0x3D5;
  crtc_outb 0x3D5 (Z.lor (Z.land v 0xC0) start);;
  crtc_outb 0x3D4 0x0B;;
  v ← crtc_inb 0x3D5;
  crtc_outb 0x3D5 (Z.lor (Z.land v 0xE0) end_).

(** [x] and [y] are [int8_t], [pos] is [int16_t]: its low and high bytes are
    those of the sum. *)
Definition update_cursor (x y : Z) : T unit :=
  w ← gets term_width;
  let pos := u16 (s8 y * w + s8 x) in
  crtc_outb 0x3D4 0x0F;;
  crtc_outb 0x3D5 (Z.land pos 0xFF);;
  crtc_outb 0x3D4 0x0E;;
  crtc_outb 0x3D5 (Z.land (Z.shiftr pos 8) 0xFF).

(** [t_buf[i]] and [t_buf[i] = v] *)
Definition cell_get (i : Z) : T Z := l ← gets cells; aget l i.
Definition cell_set (i v : Z) : T unit := l ← gets cells; l ← aset l i v; modify (set_cells l).

Definition fb_do {A} (m : M fbcon A) : T A := zoom fb set_fb m.

Definition term_get_width : T Z := gets term_width.
Definition term_get_height : T Z := gets term_height.
Definition term_setcolor (color : Z) : T unit := modify (set_t_color color).

Definition term_init : T unit :=
  modify (set_term_size VGA_WIDTH VGA_HEIGHT);;
  modify (set_t_row 0);;
  modify (set_t_col 0);;
  modify (set_t_color (vga_entry_color VGA_COLOR_LIGHT_GREY VGA_COLOR_BLACK));;
  modify (set_t_buf VgaMemory);;
  locals (for_ (span 0 VGA_HEIGHT) 0 tt (fun y _ =>
    locals (for_ (span 0 VGA_WIDTH) 0 tt (fun x _ =>
      let index := y * VGA_WIDTH + x in
      c ← gets t_color;
      cell_set index (vga_entry 32 c);;
      mret (Cont tt)));;
    mret (Cont tt)));;
  enable_cursor 0 15.

Definition fb_sync_all : T unit :=
  w ← gets term_width;
  h ← gets term_height;
  locals (for_ (span 0 (Z.min h TERM_MAX_H)) 0 tt (fun y _ =>
    locals (for_ (span 0 (Z.min w TERM_MAX_W)) 0 tt (fun x _ =>
      cell ← cell_get (u32 (y * w + x));
      fb_do (fb_render_cell x y (Z.land cell 0xFF) (Z.land (Z.shiftr cell 8) 0x0F)
               (Z.land (Z.shiftr (Z.shiftr cell 8) 4) 0x0F));;
      mret (Cont tt)));;
    mret (Cont tt))).

Definition term_putch_at (c color x y : Z) : T unit :=
  w ← gets term_width;
  let index := u32 (y * w + x) in
  cell_set index (vga_entry c color);;
  m ← gets term_fb_mode;
  if negb (m =? 0) then
    fb_do (fb_render_cell x y c (Z.land color 0x0F) (Z.land (Z.shiftr color 4) 0x0F))
  else mret tt.

Definition shift_terminal_content : T unit :=
  w ← gets term_width;
  h ← gets term_height;
  locals (for_ (span 0 (u32 (h - 1))) 0 tt (fun y _ =>
    locals (for_ (span 0 w) 0 tt (fun x _ =>
      let index := u32 (y * w + x) in
      v ← cell_get (u32 (index + w));
      cell_set index v;;
      mret (Cont tt)));;
    mret (Cont tt)));;
  locals (for_ (span 0 w) 0 tt (fun x _ =>
    let index := u32 ((h - 1) * w + x) in
    c ← gets t_color;
    cell_set index (vga_entry 32 c);;
    mret (Cont tt)));;
  m ← gets term_fb_mode;
  if negb (m =? 0) then fb_sync_all else mret tt.

Definition term_clear : T unit :=
  w ← gets term_width;
  h ← gets term_height;
  locals (for_ (span 0 (Z.min h TERM_MAX_H)) 0 tt (fun y _ =>
    locals (for_ (span 0 (Z.min w TERM_MAX_W)) 0 tt (fun x _ =>
      c ← gets t_color;
      cell_set (u32 (y * w + x)) (vga_entry 32 c);;
      mret (Cont tt)));;
    mret (Cont tt)));;
  modify (set_t_row 0);;
  modify (set_t_col 0);;
  m ← gets term_fb_mode;
  if negb (m =? 0) then
    c ← gets t_color;
    fb_do (fb_clear_bg (Z.land (Z.shiftr c 4) 0x0F));;
    fb_sync_all
  else mret tt.

Definition term_set_fb (addr pitch w h bpp : Z) : T Z :=
  let '(w, h) := if (TERM_MAX_W <? w) || (TERM_MAX_H <? h) then (TERM_MAX_W, TERM_MAX_H) else (w, h) in
  ok ← fb_do (fb_init addr pitch w h bpp);
  if ok =? 0 then mret 0
  else
    modify (set_t_buf FbShadow);;
    modify (set_term_fb_mode 1);;
    modify (set_term_size (if w / 8 <? 1 then 1 else w / 8) (if h / 16 <? 1 then 1 else h / 16));;
    modify (set_t_row 0);;
    modify (set_t_col 0);;
    modify (set_t_color (vga_entry_color VGA_COLOR_LIGHT_GREY VGA_COLOR_BLACK));;
    fb_do (fb_clear_bg VGA_COLOR_BLACK);;
    fb_sync_all;;
    mret 1.

(** [t_col++], [t_row++] *)
Definition t_col_inc : T unit := modify (fun s => set_t_col (u32 (t_col s + 1)) s).
Definition t_row_inc : T unit := modify (fun s => set_t_row (u32 (t_row s + 1)) s).

(** The loop of a tab runs at most four times: it stops at a column that is a
    multiple of four. *)
Definition term_tab : T unit :=
  locals (while_ 8 0 (fun i =>
    col ← gets t_col;
    w ← gets term_width;
    if (negb (col mod 4 =? 0) && (1 <? u32 (w - col))) || (i =? 0) then
      color ← gets t_color;
      row ← gets t_row;
      term_putch_at 32 color col row;;
      t_col_inc;;
      mret (Cont (i + 1))
    else mret (Brk i)));;
  mret tt.

Definition term_putchar (c : Z) : T unit :=
  (if c =? 10 then
     t_row_inc;;
     modify (set_t_col 0)
   else if c =? 9 then term_tab
   else
     color ← gets t_color;
     col ← gets t_col;
     row ← gets t_row;
     term_putch_at c color col row;;
     t_col_inc;;
     col ← gets t_col;
     w ← gets term_width;
     if col =? w then
       modify (set_t_col 0);;
       t_row_inc
     else mret tt);;
  row ← gets t_row;
  h ← gets term_height;
  if row =? h then
    shift_terminal_content;;
    modify (fun s => set_t_row (u32 (t_row s - 1)) s)
  else mret tt.

Definition term_write (data : list Z) (size : Z) : T unit :=
  locals (for_ (span 0 size) 0 tt (fun i _ =>
    c ← aget data i;
    term_putchar c;;
    mret (Cont tt))).

Definition puts (data : list Z) : T unit :=
  n ← strlen data;
  term_write data n;;
  col ← gets t_col;
  row ← gets t_row;
  update_cursor col row.
End Operations.
