(* ===== verification/TermFacts.v ===== *)
(** Correctness of the terminal: what [term_write] leaves on the screen, as the
    last rows of an unbounded document. *)
From Stdlib Require Import ZArith Lia List.
From stdpp Require Import base tactics numbers list gmap strings option.
From S2P Require Import Prelude CString Bytes Ata Fbcon Term.
Open Scope Z_scope.

(** * The abstract terminal

    A page of rows without end, the number [top] of the first row on the
    screen and the place of the next character. *)

Record tty : Type := mkTty { page : Z -> Z -> Z; top : Z; row : Z; col : Z }.

Section Spec.
Variables (W H : Z).

Definition page_set (p : Z -> Z -> Z) (y x v : Z) : Z -> Z -> Z :=
  fun y' x' => if (y' =? y) && (x' =? x) then v else p y' x'.
Definition page_blank (p : Z -> Z -> Z) (y v : Z) : Z -> Z -> Z :=
  fun y' x' => if y' =? y then v else p y' x'.

Definition page_fill (p : Z -> Z -> Z) (y x1 x2 v : Z) : Z -> Z -> Z :=
  fun y' x' => if (y' =? y) && (x1 <=? x') && (x' <? x2) then v else p y' x'.

(** The next row; a row that comes up at the bottom of the screen is blank. *)
Definition tty_newline (color : Z) (t : tty) : tty :=
  if row t + 1 - top t =? H then
    mkTty (page_blank (page t) (row t + 1) (vga_entry 32 color)) (top t + 1) (row t + 1) 0
  else mkTty (page t) (top t) (row t + 1) 0.

Definition tty_char (color c : Z) (t : tty) : tty :=
  let t' := mkTty (page_set (page t) (row t) (col t) (vga_entry c color)) (top t) (row t) (col t + 1) in
  if col t + 1 =? W then tty_newline color t' else t'.

(** A tab fills up to the next multiple of four, at most to the last column. *)
Definition tab_stop (x : Z) : Z := Z.min (x / 4 * 4 + 4) (W - 1).
Definition tty_tab (color : Z) (t : tty) : tty :=
  mkTty (page_fill (page t) (row t) (col t) (tab_stop (col t)) (vga_entry 32 color))
    (top t) (row t) (tab_stop (col t)).

(** A tab in the last column is outside the specification. *)
Definition tty_putc (color c : Z) (t : tty) : option tty :=
  if c =? 10 then Some (tty_newline color t)
  else if c =? 9 then if col t =? W - 1 then None else Some (tty_tab color t)
  else Some (tty_char color c t).

Fixpoint tty_write (color : Z) (text : list Z) (t : tty) : option tty :=
  match text with
  | [] => Some t
  | c :: text' => t' ← tty_putc color c t; tty_write color text' t'
  end.
End Spec.

(** Text without tabs is inside the specification. *)
Lemma tty_write_total W H color text t : Forall (fun c => c <> 9) text -> exists t', tty_write W H color text t = Some t'.
Proof.
  intros Hf. revert t. induction Hf as [|c text Hc _ IH]; intros t; [by exists t|]. cbn [tty_write]. unfold tty_putc.
  destruct (c =? 10); [apply IH|]. destruct (Z.eqb_spec c 9); [done | apply IH].
Qed.

(** * The concrete terminal *)

Section Facts.
Context {P : Type} `{Ports P}.
Implicit Types s : term P.

(** A text screen of [W] by [Ht] cells, without a framebuffer. *)
Definition screen (W Ht : Z) s : Prop :=
  term_fb_mode s = 0 /\ term_width s = W /\ term_height s = Ht /\ 0 < W < 65536 /\ 0 < Ht < 65536 /\
  W * Ht <= lenZ (cells s) < 2147483648.

(** Neither the color nor the memory of the screen is replaced. *)
Definition kept s s' : Prop := t_color s' = t_color s /\ lenZ (cells s') = lenZ (cells s).

(** The terminal shows the abstract one. *)
Definition shows (W Ht : Z) (t : tty) s : Prop :=
  screen W Ht s /\ t_row s = row t - top t /\ t_col s = col t /\
  0 <= row t - top t < Ht /\ 0 <= col t < W /\
  forall y x, 0 <= y < Ht -> 0 <= x < W -> rd (cells s) (y * W + x) = page t (top t + y) x.

Lemma cells_set_cells l s : cells (set_cells l s) = l.
Proof. by destruct s as [? ? ? ? ? [] ? ? ? ? ?]. Qed.

Lemma set_cells_id s : set_cells (cells s) s = s.
Proof. by destruct s as [? ? ? ? ? [] ? ? ? ? ?]. Qed.

Lemma set_cells_fields l s :
  t_row (set_cells l s) = t_row s /\ t_col (set_cells l s) = t_col s /\ t_color (set_cells l s) = t_color s /\
  term_width (set_cells l s) = term_width s /\ term_height (set_cells l s) = term_height s /\
  term_fb_mode (set_cells l s) = term_fb_mode s.
Proof. by destruct s as [? ? ? ? ? [] ? ? ? ? ?]. Qed.

Lemma kept_set_cells l s : lenZ l = lenZ (cells s) -> kept s (set_cells l s).
Proof. intros Hl. split; [apply set_cells_fields | by rewrite cells_set_cells]. Qed.

Lemma kept_trans s1 s2 s3 : kept s1 s2 -> kept s2 s3 -> kept s1 s3.
Proof. intros [??] [??]. split; congruence. Qed.

Lemma screen_set_cells W Ht l s : screen W Ht s -> lenZ l = lenZ (cells s) -> screen W Ht (set_cells l s).
Proof.
  intros (?&?&?&?&?&?) Hl. destruct (set_cells_fields l s) as (_&_&_&?&?&?).
  unfold screen. rewrite cells_set_cells. repeat split; try congruence; lia.
Qed.

Lemma set_cells_twice l l' s : set_cells l' (set_cells l s) = set_cells l' s.
Proof. by destruct s as [? ? ? ? ? [] ? ? ? ? ?]. Qed.

Lemma cell_in W Ht y x : 0 <= y < Ht -> 0 <= x < W -> 0 <= y * W + x < W * Ht.
Proof. intros. nia. Qed.

Lemma cell_eq W y x y' x' : 0 <= x < W -> 0 <= x' < W -> y * W + x = y' * W + x' -> y = y' /\ x = x'.
Proof.
  intros Hx Hx' He.
  assert (y = y') as -> by (destruct (Z.lt_trichotomy y y') as [?|[?|?]]; [nia | done | nia]). lia.
Qed.

Lemma cell_eqb W y x y' x' : 0 <= x < W -> 0 <= x' < W ->
  (y * W + x =? y' * W + x') = (y =? y') && (x =? x').
Proof.
  intros Hx Hx'. destruct (Z.eqb_spec (y * W + x) (y' * W + x')) as [He|Hne].
  - destruct (cell_eq _ _ _ _ _ Hx Hx' He) as [-> ->]. by rewrite !Z.eqb_refl.
  - destruct (Z.eqb_spec y y') as [->|]; [|done]. destruct (Z.eqb_spec x x') as [->|]; [lia | done].
Qed.

Lemma wp_cell_get i (Q : Z -> term P -> Prop) s :
  0 <= i < lenZ (cells s) -> Q (rd (cells s) i) s -> wp (cell_get i) Q s.
Proof. intros. unfold cell_get. wp_steps; done. Qed.

Lemma wp_cell_set i v (Q : unit -> term P -> Prop) s :
  0 <= i < lenZ (cells s) -> Q tt (set_cells (wr (cells s) i v) s) -> wp (cell_set i v) Q s.
Proof. intros. unfold cell_set. wp_steps; done. Qed.

Lemma wp_term_putch_at W Ht c color x y (Q : unit -> term P -> Prop) s :
  screen W Ht s -> 0 <= y * W + x < lenZ (cells s) ->
  Q tt (set_cells (wr (cells s) (y * W + x) (vga_entry c color)) s) -> wp (term_putch_at c color x y) Q s.
Proof.
  intros (Hm & Hw & Hh & ? & ? & ?) Hi HQ. unfold term_putch_at. wp_step. wp_step.
  rewrite Hw, u32_small by lia. wp_step. apply wp_cell_set; [done|].
  wp_step. wp_step. destruct (set_cells_fields (wr (cells s) (y * W + x) (vga_entry c color)) s) as (_&_&_&_&_&->).
  by rewrite Hm.
Qed.

(** * Scrolling *)

Definition scrolled (W Ht blank : Z) (l l' : list Z) : Prop :=
  lenZ l' = lenZ l /\
  forall k, 0 <= k < lenZ l ->
    rd l' k = if k <? (Ht - 1) * W then rd l (k + W) else if k <? W * Ht then blank else rd l k.

(** The cells below [n] are those one row further down. *)
Definition moved_up (W n : Z) (l l' : list Z) : Prop :=
  lenZ l' = lenZ l /\ forall k, 0 <= k < lenZ l -> rd l' k = if k <? n then rd l (k + W) else rd l k.

Lemma moved_up_step W n l l' : 0 < W -> 0 <= n -> n + W < lenZ l -> moved_up W n l l' ->
  moved_up W (n + 1) l (wr l' n (rd l' (n + W))).
Proof.
  intros HW Hn Hl [Hlen Hr]. split; [by rewrite lenZ_wr|]. intros k Hk.
  rewrite rd_wr by lia. destruct (Z.eqb_spec n k) as [<-|].
  - rewrite Hr by lia. case_range; lia || done.
  - rewrite Hr by lia. case_range; lia || done.
Qed.

Definition shift_inv (W n : Z) s0 s : Prop :=
  exists l, s = set_cells l s0 /\ moved_up W n (cells s0) l.

Lemma wp_shift W Ht (Q : unit -> term P -> Prop) s :
  screen W Ht s ->
  (forall l, scrolled W Ht (vga_entry 32 (t_color s)) (cells s) l -> Q tt (set_cells l s)) ->
  wp shift_terminal_content Q s.
Proof.
  intros Hs HQ. pose proof Hs as (Hm & Hw & Hh & ? & ? & ?).
  unfold shift_terminal_content. wp_step. wp_step. wp_step. wp_step. rewrite Hw, Hh, u32_small by lia.
  wp_step. apply wp_locals.
  apply (wp_for (fun y _ => shift_inv W (y * W) s)).
  { exists (cells s). split; [by rewrite set_cells_id|]. split; [done|]. intros k Hk. case_range; lia || done. }
  - intros y [] s1 Hy (l & -> & Hl). unfold span in Hy. wp_step. apply wp_locals.
    apply (wp_for (fun x _ => shift_inv W (y * W + x) s)).
    { exists l. by rewrite Z.add_0_r. }
    + intros x [] s2 Hx (l2 & -> & Hl2). unfold span in Hx.
      assert (y * W + W <= (Ht - 1) * W) by nia.
      rewrite !u32_small by nia.
      destruct Hl2 as [Hlen Hr].
      wp_step. apply wp_cell_get; rewrite cells_set_cells; [nia|].
      wp_step. apply wp_cell_set; rewrite ?cells_set_cells; [nia|].
      wp_step. rewrite set_cells_twice. eexists; split; [done|]. rewrite Z.add_assoc.
      by apply moved_up_step; [lia | nia | nia |].
    + intros [] s2 (l2 & -> & Hl2). wp_step. exists l2. split; [done|].
      replace ((y + 1) * W) with (y * W + (0 + Z.of_nat (span 0 W))) by (unfold span; lia). done.
  - intros [] s1 (l & -> & Hl). wp_step. apply wp_locals.
    apply (wp_for (fun x _ s' => exists l', s' = set_cells l' s /\ lenZ l' = lenZ (cells s) /\
      forall k, 0 <= k < lenZ (cells s) -> rd l' k =
        if k <? (Ht - 1) * W then rd (cells s) (k + W)
        else if k <? (Ht - 1) * W + x then vga_entry 32 (t_color s) else rd (cells s) k)).
    { exists l. destruct Hl as [Hlen Hr]. split; [done|]. split; [done|]. intros k Hk. rewrite Hr by done.
      replace (0 + Z.of_nat (span 0 (Ht - 1))) with (Ht - 1) by (unfold span; lia). case_range; lia || done. }
    + intros x [] s2 Hx (l2 & -> & Hlen & Hr). unfold span in Hx. wp_step. wp_step.
      destruct (set_cells_fields l2 s) as (_&_&->&_).
      rewrite u32_small by nia. wp_step. apply wp_cell_set; rewrite cells_set_cells; [nia|].
      wp_step. rewrite set_cells_twice. eexists; split; [done|]. split; [by rewrite lenZ_wr|].
      intros k Hk. rewrite rd_wr by nia. destruct (Z.eqb_spec ((Ht - 1) * W + x) k) as [<-|].
      * case_range; lia || done.
      * rewrite Hr by lia. case_range; lia || done.
    + intros [] s2 (l2 & -> & Hlen & Hr). wp_step. wp_step.
      destruct (set_cells_fields l2 s) as (_&_&_&_&_&->). rewrite Hm. change (wp (mret tt) Q (set_cells l2 s)). wp_step.
      apply HQ. split; [done|]. intros k Hk. rewrite Hr by done.
      replace (0 + Z.of_nat (span 0 W)) with W by (unfold span; lia).
      replace ((Ht - 1) * W + W) with (W * Ht) by lia. done.
Qed.

(** * Characters *)

Definition displays (W Ht : Z) (p : Z -> Z -> Z) (tp : Z) s : Prop :=
  forall y x, 0 <= y < Ht -> 0 <= x < W -> rd (cells s) (y * W + x) = p (tp + y) x.

Lemma screen_move W Ht r c s : screen W Ht s -> screen W Ht (set_t_row r (set_t_col c s)).
Proof. done. Qed.

(** Writing one cell of the screen. *)
Lemma displays_set W Ht p tp y x v s : screen W Ht s -> displays W Ht p tp s ->
  0 <= y < Ht -> 0 <= x < W ->
  displays W Ht (page_set p (tp + y) x v) tp (set_cells (wr (cells s) (y * W + x) v) s).
Proof.
  intros (?&?&?&?&?&?) Hd Hy Hx y' x' Hy' Hx'. rewrite cells_set_cells.
  pose proof (cell_in W Ht y x Hy Hx). pose proof (cell_in W Ht y' x' Hy' Hx').
  rewrite rd_wr, cell_eqb by lia. unfold page_set.
  replace (tp + y' =? tp + y) with (y =? y') by (case_range; lia || done).
  rewrite (Z.eqb_sym x' x). destruct ((y =? y') && (x =? x')); [done | by apply Hd].
Qed.

(** The end of [term_putchar]: scroll when the row has left the screen. *)
Definition row_end : M (term P) unit :=
  row ← gets t_row;
  h ← gets term_height;
  if row =? h then
    shift_terminal_content;;
    modify (fun s => set_t_row (u32 (t_row s - 1)) s)
  else mret tt.

Lemma wp_row_end_stay W Ht t (Q : unit -> term P -> Prop) s :
  shows W Ht t s -> Q tt s -> wp row_end Q s.
Proof.
  intros ((?&?&Hh&?&?&?) & Hr & ? & ? & ? & ?) HQ. unfold row_end. do 4 wp_step.
  rewrite Hh, Hr. case_range; [lia|]. by apply wp_ret.
Qed.

Lemma wp_row_end W Ht t (Q : unit -> term P -> Prop) s :
  screen W Ht s -> displays W Ht (page t) (top t) s ->
  t_row s = row t + 1 - top t -> t_col s = 0 -> 0 <= row t - top t < Ht ->
  (forall s', shows W Ht (tty_newline Ht (t_color s) t) s' -> kept s s' -> Q tt s') ->
  wp row_end Q s.
Proof.
  intros Hs Hd Hr Hc Hrow HQ. pose proof Hs as (Hm & Hw & Hh & ? & ? & ?).
  unfold row_end. do 4 wp_step. rewrite Hh, Hr. unfold tty_newline in HQ.
  destruct (Z.eqb_spec (row t + 1 - top t) Ht) as [He|Hne].
  - wp_step. apply (wp_shift W Ht); [done|]. intros l [Hlen Hl].
    destruct (set_cells_fields l s) as (Er&Ec&Eco&Ew&Eh&Em).
    wp_step. apply HQ; [|by apply (kept_set_cells l s)]. rewrite Er, Hr, u32_small by lia.
    split; [by apply (screen_set_cells W Ht l s)|]. simpl. split_and!; try lia.
    intros y x Hy Hx. change (rd (cells (set_cells l s)) (y * W + x) = page_blank (page t) (row t + 1)
      (vga_entry 32 (t_color s)) (top t + 1 + y) x).
    rewrite cells_set_cells. pose proof (cell_in W Ht y x Hy Hx). rewrite Hl by lia. unfold page_blank.
    destruct (Z.eqb_spec (top t + 1 + y) (row t + 1)).
    + assert (y = Ht - 1) as -> by lia. case_range; try lia; done.
    + assert (y < Ht - 1) by lia. pose proof (cell_in W (Ht - 1) y x).
      case_range; try lia. transitivity (page t (top t + (y + 1)) x); [|f_equal; lia].
      rewrite <- Hd by lia. f_equal; lia.
  - wp_step. apply HQ; [|done]. split; [done|]. simpl. split_and!; try lia. exact Hd.
Qed.

Lemma wp_term_char W Ht t c (Q : unit -> term P -> Prop) s :
  shows W Ht t s -> c <> 10 -> c <> 9 ->
  (forall s', shows W Ht (tty_char W Ht (t_color s) c t) s' -> kept s s' -> Q tt s') ->
  wp (term_putchar c) Q s.
Proof.
  intros (Hs & Hr & Hc & Hrow & Hcol & Hd) Hn Ht9 HQ. pose proof Hs as (Hm & Hw & Hh & ? & ? & ?).
  unfold term_putchar. wp_step. case_range; try done. do 6 wp_step. rewrite Hr, Hc.
  pose proof (cell_in W Ht _ _ Hrow Hcol). wp_step. apply (wp_term_putch_at W Ht); [done | lia |].
  set (l := wr (cells s) ((row t - top t) * W + col t) (vga_entry c (t_color s))).
  destruct (set_cells_fields l s) as (Er&Ec&Eco&Ew&Eh&Em).
  assert (Hs' : screen W Ht (set_cells l s)) by (apply screen_set_cells; [done | apply lenZ_wr]).
  assert (Hd' : displays W Ht (page_set (page t) (row t) (col t) (vga_entry c (t_color s))) (top t) (set_cells l s)).
  { replace (row t) with (top t + (row t - top t)) by lia. by apply displays_set. }
  wp_step. unfold t_col_inc. do 5 wp_step. simpl. rewrite Ec, Ew, Hw, Hc, u32_small by lia.
  unfold tty_char in HQ. destruct (Z.eqb_spec (col t + 1) W).
  - do 2 wp_step. unfold t_row_inc. wp_step. fold row_end.
    apply (wp_row_end W Ht (mkTty (page_set (page t) (row t) (col t) (vga_entry c (t_color s))) (top t) (row t) (col t + 1)));
      simpl; [done | exact Hd' | rewrite Er, Hr, u32_small; lia | done | lia |].
    rewrite Eco. intros s' Hs2 Hk. apply HQ; [exact Hs2|]. eapply kept_trans; [|exact Hk]. apply (kept_set_cells l s), lenZ_wr.
  - assert (Hok : shows W Ht (mkTty (page_set (page t) (row t) (col t) (vga_entry c (t_color s))) (top t) (row t)
              (col t + 1)) (set_t_col (col t + 1) (set_cells l s))).
    { split; [exact Hs'|]. split_and!; simpl; try lia. exact Hd'. }
    wp_step. fold row_end. eapply wp_row_end_stay; [exact Hok|]. apply HQ; [exact Hok|]. apply (kept_set_cells l s), lenZ_wr.
Qed.

Lemma wp_term_newline W Ht t (Q : unit -> term P -> Prop) s :
  shows W Ht t s ->
  (forall s', shows W Ht (tty_newline Ht (t_color s) t) s' -> kept s s' -> Q tt s') ->
  wp (term_putchar 10) Q s.
Proof.
  intros (Hs & Hr & Hc & Hrow & Hcol & Hd) HQ. pose proof Hs as (Hm & Hw & Hh & ? & ? & ?).
  unfold term_putchar. change (10 =? 10) with true. cbv iota. do 2 wp_step. unfold t_row_inc. do 2 wp_step.
  fold row_end. apply (wp_row_end W Ht t); simpl; [done | exact Hd | rewrite Hr, u32_small; lia | done..].
Qed.

Lemma tab_stop_bound W x : 0 <= x < W - 1 -> x < tab_stop W x <= W - 1.
Proof. unfold tab_stop. intros. Z.div_mod_to_equations. lia. Qed.

Lemma wp_term_tab W Ht t (Q : unit -> term P -> Prop) s :
  shows W Ht t s -> col t < W - 1 ->
  (forall s', shows W Ht (tty_tab W (t_color s) t) s' -> kept s s' -> Q tt s') ->
  wp term_tab Q s.
Proof.
  intros (Hs & Hr & Hc & Hrow & Hcol & Hd) Hlast HQ. pose proof Hs as (Hm & Hw & Hh & ? & ? & ?).
  pose proof (tab_stop_bound W (col t)) as Hstop.
  set (filled := fun i => page_fill (page t) (row t) (col t) (col t + i) (vga_entry 32 (t_color s))).
  unfold term_tab. wp_step. apply wp_locals.
  apply (wp_while (fun i s' =>
      screen W Ht s' /\ t_row s' = row t - top t /\ kept s s' /\ t_col s' = col t + i /\
      0 <= i <= tab_stop W (col t) - col t /\ displays W Ht (filled i) (top t) s')
    (fun i _ => Z.to_nat (tab_stop W (col t) - col t - i))).
  - split_and!; try done; try lia. intros y x Hy Hx. rewrite Hd by done. unfold filled, page_fill.
    case_range; lia || done.
  - unfold tab_stop. Z.div_mod_to_equations. lia.
  - intros i s' (Hs' & Hr' & Hk' & Hc' & Hi & Hd'). pose proof (proj1 Hk') as Hco'. pose proof Hs' as (Hm' & Hw' & Hh' & _).
    do 4 wp_step. rewrite Hw', Hc', u32_small by lia.
    destruct (_ || _) eqn:Hb.
    + assert (col t + i < tab_stop W (col t)).
      { apply orb_true_iff in Hb. rewrite andb_true_iff, negb_true_iff, Z.eqb_eq, Z.eqb_neq, Z.ltb_lt in Hb.
        clear -Hb Hstop Hcol Hlast Hi. unfold tab_stop in *. Z.div_mod_to_equations. lia. }
      do 4 wp_step. rewrite Hr', Hco'. wp_step.
      assert (0 <= (row t - top t) * W + (col t + i) < W * Ht) by (apply cell_in; lia).
      apply (wp_term_putch_at W Ht); [done | destruct Hs' as (_&_&_&_&_&?); lia |].
      set (l := wr _ _ _). destruct (set_cells_fields l s') as (Er&Ec&Eco&Ew&Eh&Em).
      unfold t_col_inc. do 3 wp_step. simpl. rewrite Ec, Hc', u32_small by lia.
      split; [|lia]. split_and!; try lia; try congruence.
      2: { eapply kept_trans; [exact Hk'|]. apply (kept_set_cells l s'), lenZ_wr. }
      { apply (screen_set_cells W Ht l s'); [done | apply lenZ_wr]. }
      intros y x Hy Hx. change (rd (cells (set_cells l s')) (y * W + x) = filled (i + 1) (top t + y) x).
      pose proof (displays_set W Ht (filled i) (top t) (row t - top t) (col t + i) (vga_entry 32 (t_color s)) s') as Hset.
      rewrite Hset by (done || lia). unfold page_set, filled, page_fill. case_range; lia || done.
    + wp_step. wp_step. apply HQ; [|exact Hk']. unfold tty_tab.
      assert (i = tab_stop W (col t) - col t) as ->.
      { apply orb_false_iff in Hb. rewrite andb_false_iff, negb_false_iff, Z.eqb_eq, Z.eqb_neq, Z.ltb_ge in Hb.
        clear -Hb Hstop Hcol Hlast Hi. unfold tab_stop in *. Z.div_mod_to_equations. lia. }
      split; [done|]. simpl. split_and!; try lia. intros y x Hy Hx. rewrite Hd' by done. unfold filled.
      do 2 f_equal; lia.
Qed.

(** * Clearing *)

Lemma wp_crtc_inb port (Q : Z -> term P -> Prop) s : (forall v p, Q v (set_crtc p s)) -> wp (crtc_inb port) Q s.
Proof. intros HQ. unfold wp, crtc_inb. destruct (port_inb _ _). apply HQ. Qed.

Lemma wp_crtc_outb port v (Q : unit -> term P -> Prop) s : (forall p, Q tt (set_crtc p s)) -> wp (crtc_outb port v) Q s.
Proof. intros HQ. unfold crtc_outb. wp_step. apply HQ. Qed.

(** The cursor functions touch the card only. *)
Lemma wp_enable_cursor a b (Q : unit -> term P -> Prop) s :
  (forall p, Q tt (set_crtc p s)) -> wp (enable_cursor a b) Q s.
Proof.
  intros HQ. unfold enable_cursor.
  repeat (try (apply wp_bind); (apply wp_crtc_outb; intros ?) || (apply wp_crtc_inb; intros ? ?)). apply HQ.
Qed.

Lemma wp_update_cursor x y (Q : unit -> term P -> Prop) s :
  (forall p, Q tt (set_crtc p s)) -> wp (update_cursor x y) Q s.
Proof.
  intros HQ. unfold update_cursor. wp_step. wp_step.
  repeat (try (apply wp_bind); apply wp_crtc_outb; intros ?). apply HQ.
Qed.

Definition tty_blank (color : Z) : tty := mkTty (fun _ _ => vga_entry 32 color) 0 0 0.

Definition filled (n blank : Z) (l l' : list Z) : Prop :=
  lenZ l' = lenZ l /\ forall k, 0 <= k < lenZ l -> rd l' k = if k <? n then blank else rd l k.

Lemma filled_step n blank l l' : 0 <= n < lenZ l -> filled n blank l l' -> filled (n + 1) blank l (wr l' n blank).
Proof.
  intros Hn [Hlen Hr]. split; [by rewrite lenZ_wr|]. intros k Hk. rewrite rd_wr by lia.
  destruct (Z.eqb_spec n k) as [<-|]; [case_range; lia || done|]. rewrite Hr by done. case_range; lia || done.
Qed.

Lemma wp_fill W Ht (idx : Z -> Z -> Z) (Q : unit -> term P -> Prop) s :
  0 <= W -> 0 <= Ht -> W * Ht <= lenZ (cells s) ->
  (forall y x, 0 <= y < Ht -> 0 <= x < W -> idx y x = y * W + x) ->
  (forall l, filled (W * Ht) (vga_entry 32 (t_color s)) (cells s) l -> Q tt (set_cells l s)) ->
  wp (locals (for_ (span 0 Ht) 0 tt (fun y _ =>
        locals (for_ (span 0 W) 0 tt (fun x _ =>
          c ← gets t_color;
          cell_set (idx y x) (vga_entry 32 c);;
          mret (Cont tt)));;
        mret (Cont tt)))) Q s.
Proof.
  intros HW HH Hl Hidx HQ. apply wp_locals.
  apply (wp_for (fun y _ s' => exists l, s' = set_cells l s /\
    filled (y * W) (vga_entry 32 (t_color s)) (cells s) l)).
  { exists (cells s). split; [by rewrite set_cells_id|]. split; [done|]. intros k Hk. case_range; lia || done. }
  - intros y [] s1 Hy (l & -> & Hf). unfold span in Hy. wp_step. apply wp_locals.
    apply (wp_for (fun x _ s' => exists l, s' = set_cells l s /\
      filled (y * W + x) (vga_entry 32 (t_color s)) (cells s) l)).
    { exists l. by rewrite Z.add_0_r. }
    + intros x [] s2 Hx (l2 & -> & Hf2). unfold span in Hx. pose proof (cell_in W Ht y x ltac:(lia) ltac:(lia)).
      do 2 wp_step. destruct (set_cells_fields l2 s) as (_&_&->&_). rewrite Hidx by lia. wp_step.
      pose proof (proj1 Hf2). apply wp_cell_set; rewrite cells_set_cells; [lia|]. wp_step.
      rewrite set_cells_twice. eexists; split; [done|]. rewrite Z.add_assoc. apply filled_step; [lia | done].
    + intros [] s2 (l2 & -> & Hf2). wp_step. exists l2. split; [done|].
      replace ((y + 1) * W) with (y * W + (0 + Z.of_nat (span 0 W))) by (unfold span; lia). done.
  - intros [] s1 (l & -> & Hf). apply HQ.
    replace (W * Ht) with ((0 + Z.of_nat (span 0 Ht)) * W) by (unfold span; lia). done.
Qed.

Lemma shows_blank W Ht color s : screen W Ht s -> t_row s = 0 -> t_col s = 0 ->
  (forall k, 0 <= k < W * Ht -> rd (cells s) k = vga_entry 32 color) -> shows W Ht (tty_blank color) s.
Proof.
  intros Hs Hr Hc Hd. pose proof Hs as (?&?&?&?&?&?). split; [done|]. simpl. split_and!; try lia.
  intros y x Hy Hx. by apply Hd, cell_in.
Qed.

Lemma wp_term_clear W Ht (Q : unit -> term P -> Prop) s :
  screen W Ht s -> W <= TERM_MAX_W -> Ht <= TERM_MAX_H ->
  (forall s', shows W Ht (tty_blank (t_color s)) s' -> kept s s' -> Q tt s') ->
  wp term_clear Q s.
Proof.
  intros Hs HW HH HQ. pose proof Hs as (Hm & Hw & Hh & ? & ? & ?).
  unfold term_clear. do 4 wp_step. rewrite Hw, Hh, !Z.min_l by done. wp_step.
  apply (wp_fill W Ht (fun y x => u32 (y * W + x))); [lia..| |].
  { intros y x Hy Hx. pose proof (cell_in W Ht y x Hy Hx). by rewrite u32_small by lia. }
  intros l [Hlen Hl]. destruct (set_cells_fields l s) as (Er&Ec&Eco&Ew&Eh&Em).
  do 6 wp_step. cbn [term_fb_mode set_t_col set_t_row]. rewrite Em, Hm. change (negb (0 =? 0)) with false. cbv iota.
  wp_step. apply HQ; [|by apply (kept_set_cells l s)]. apply shows_blank; [by apply (screen_set_cells W Ht l s) | done..|].
  intros k Hk. change (rd (cells (set_cells l s)) k = vga_entry 32 (t_color s)).
  rewrite cells_set_cells, Hl by lia. case_range; lia || done.
Qed.

Lemma wp_term_init (Q : unit -> term P -> Prop) s :
  term_fb_mode s = 0 -> lenZ (vga_mem s) = VGA_CELLS ->
  (forall s', shows VGA_WIDTH VGA_HEIGHT (tty_blank 7) s' -> t_color s' = 7 -> lenZ (cells s') = VGA_CELLS ->
     Q tt s') ->
  wp term_init Q s.
Proof.
  intros Hm Hl HQ. unfold term_init. do 10 wp_step.
  match goal with |- wp _ _ ?s' => set (s0 := s') end.
  assert (Hc : cells s0 = vga_mem s) by done.
  apply wp_bind. apply (wp_fill VGA_WIDTH VGA_HEIGHT (fun y x => y * VGA_WIDTH + x)); [done..| |done|].
  { by rewrite Hc, Hl. }
  intros l [Hlen Hf]. rewrite Hc in Hlen, Hf. destruct (set_cells_fields l s0) as (Er&Ec&Eco&Ew&Eh&Em).
  apply wp_enable_cursor. intros p.
  assert (Hs : screen VGA_WIDTH VGA_HEIGHT (set_cells l s0)).
  { apply screen_set_cells; [|by rewrite Hc]. split_and!; try done; rewrite Hc, Hl; done. }
  apply HQ.
  - apply (shows_blank VGA_WIDTH VGA_HEIGHT 7); [exact Hs | exact Er | exact Ec |].
    intros k Hk. change (rd (cells (set_cells l s0)) k = vga_entry 32 7). rewrite cells_set_cells.
    unfold VGA_WIDTH, VGA_HEIGHT, VGA_CELLS in *. rewrite Hf by lia.
    case_range; [done | lia].
  - exact Eco.
  - change (lenZ (cells (set_cells l s0)) = VGA_CELLS). by rewrite cells_set_cells, Hlen.
Qed.

(** * Text *)

Lemma wp_term_putchar W Ht t t' c (Q : unit -> term P -> Prop) s :
  shows W Ht t s -> tty_putc W Ht (t_color s) c t = Some t' ->
  (forall s', shows W Ht t' s' -> kept s s' -> Q tt s') ->
  wp (term_putchar c) Q s.
Proof.
  intros Hs Hp HQ. unfold tty_putc in Hp.
  destruct (Z.eqb_spec c 10) as [->|]; [simplify_eq; by apply (wp_term_newline W Ht t)|].
  destruct (Z.eqb_spec c 9) as [->|]; [|simplify_eq; by apply (wp_term_char W Ht t)].
  destruct (Z.eqb_spec (col t) (W - 1)) as [|Hne]; [done|]. simplify_eq.
  unfold term_putchar. wp_step. change (9 =? 10) with false. change (9 =? 9) with true. cbv iota.
  pose proof Hs as (_ & _ & _ & _ & ? & _).
  apply (wp_term_tab W Ht t); [done | lia |]. intros s' Hs' Hc'.
  eapply wp_row_end_stay; [exact Hs'|]. by apply HQ.
Qed.

Lemma wp_term_write W Ht t t' data n (Q : unit -> term P -> Prop) s :
  shows W Ht t s -> 0 <= n <= lenZ data ->
  tty_write W Ht (t_color s) (take (Z.to_nat n) data) t = Some t' ->
  (forall s', shows W Ht t' s' -> kept s s' -> Q tt s') ->
  wp (term_write data n) Q s.
Proof.
  intros Hs Hn Hw HQ. unfold term_write. apply wp_locals.
  apply (wp_for (fun i _ s' => exists ti, shows W Ht ti s' /\ kept s s' /\
    tty_write W Ht (t_color s) (drop (Z.to_nat i) (take (Z.to_nat n) data)) ti = Some t')).
  - exists t. rewrite drop_0. done.
  - intros i [] s' Hi (ti & Hsi & Hki & Hwi). pose proof (proj1 Hki) as Hci. unfold span in Hi. wp_step. apply wp_aget; [lia|].
    destruct (drop (Z.to_nat i) (take (Z.to_nat n) data)) as [|c rest] eqn:He.
    { apply (f_equal length) in He. rewrite length_drop, length_take in He. unfold lenZ in Hn. simpl in He. lia. }
    assert (Hc : rd data i = c).
    { pose proof (rd_drop (take (Z.to_nat n) data) i 0 ltac:(lia) ltac:(lia)) as Hr.
      rewrite He, rd_take in Hr by lia. by rewrite Z.add_0_r in Hr. }
    rewrite Hc. simpl in Hwi. rewrite <- Hci in Hwi.
    destruct (tty_putc W Ht (t_color s') c ti) as [ti'|] eqn:Hp; [|done]. simpl in Hwi.
    wp_step. apply (wp_term_putchar W Ht ti ti'); [done..|]. intros s2 Hs2 Hk2. wp_step.
    exists ti'. split; [done|]. split; [by eapply kept_trans|]. rewrite <- Hci, <- Hwi. f_equal.
    replace (Z.to_nat (i + 1)) with (Z.to_nat i + 1)%nat by lia.
    by rewrite <- drop_drop, He.
  - intros [] s' (ti & Hsi & Hki & Hwi). apply HQ; [|done].
    rewrite drop_ge in Hwi by (rewrite length_take; unfold span; lia). by injection Hwi as ->.
Qed.

(** C8: Writing text on the terminal leaves the screen of the abstract terminal:
    the last rows of a document to which the characters were appended, with
    line breaks at the last column, tabs every four columns and a blank row
    whenever the document grows below the screen; the cursor is the place of
    the next character.  Text with a tab in the last column is excluded. *)
Theorem term_write_refines W Ht t t' data n s :
  shows W Ht t s -> 0 <= n <= lenZ data ->
  tty_write W Ht (t_color s) (take (Z.to_nat n) data) t = Some t' ->
  exists s', term_write data n s = Ok tt s' /\ shows W Ht t' s' /\ kept s s'.
Proof.
  intros Hs Hn Hw. apply wp_unit. by apply (wp_term_write W Ht t t').
Qed.

(** * The last column *)

Lemma row_end_off W Ht s (Q : unit -> term P -> Prop) :
  screen W Ht s -> t_row s <> Ht -> Q tt s -> wp row_end Q s.
Proof.
  intros (?&?&Hh&?&?&?) Hr HQ. unfold row_end. do 4 wp_step. rewrite Hh. case_range; [lia|]. by apply wp_ret.
Qed.

Lemma wp_tab_last W Ht (Q : unit -> term P -> Prop) s :
  screen W Ht s -> t_col s = W - 1 -> 0 <= t_row s < Ht ->
  Q tt (set_t_col W (set_cells (wr (cells s) (t_row s * W + (W - 1)) (vga_entry 32 (t_color s))) s)) ->
  wp (term_putchar 9) Q s.
Proof.
  intros Hs Hc Hr HQ. pose proof Hs as (Hm & Hw & Hh & ? & ? & ?).
  pose proof (cell_in W Ht (t_row s) (W - 1) Hr ltac:(lia)).
  unfold term_putchar. change (9 =? 10) with false. change (9 =? 9) with true. cbv iota. wp_step.
  unfold term_tab. wp_step. apply wp_locals. change 8%nat with (Datatypes.S (Datatypes.S 6)). cbn [while_].
  do 5 wp_step. change (0 =? 0) with true. rewrite orb_true_r. do 4 wp_step. rewrite Hc. wp_step.
  apply (wp_term_putch_at W Ht); [done | lia|]. set (l := wr _ _ _) in *.
  destruct (set_cells_fields l s) as (Er&Ec&_&Ew&_&_).
  unfold t_col_inc at 1. do 8 wp_step. cbn [t_col term_width set_t_col].
  rewrite Ec, Ew, Hw, Hc, u32_small by lia. replace (W - 1 + 1) with W by lia. rewrite Z.sub_diag.
  change (1 <? u32 0) with false. rewrite andb_false_r. change (false || _) with (0 + 1 =? 0).
  change (0 + 1 =? 0) with false. cbv iota. do 2 wp_step. fold row_end.
  apply (row_end_off W Ht); [by apply (screen_set_cells W Ht l s); [|apply lenZ_wr] | | done].
  cbn [t_row set_t_col]. rewrite Er. lia.
Qed.

Lemma wp_char_past W Ht c (Q : unit -> term P -> Prop) s :
  screen W Ht s -> t_col s = W -> 0 <= t_row s < Ht -> (Ht + 1) * W <= lenZ (cells s) -> c <> 9 -> c <> 10 ->
  Q tt (set_t_col (W + 1) (set_cells (wr (cells s) (t_row s * W + W) (vga_entry c (t_color s))) s)) ->
  wp (term_putchar c) Q s.
Proof.
  intros Hs Hc Hr Hl H9 H10 HQ. pose proof Hs as (Hm & Hw & Hh & ? & ? & ?).
  assert (0 <= t_row s * W + W < (Ht + 1) * W) by nia.
  unfold term_putchar. case_range; try done. do 7 wp_step. rewrite Hc. wp_step.
  apply (wp_term_putch_at W Ht); [done | lia|]. set (l := wr _ _ _) in *.
  destruct (set_cells_fields l s) as (Er&Ec&_&Ew&_&_).
  unfold t_col_inc. do 6 wp_step. cbn [t_col term_width set_t_col].
  rewrite Ec, Ew, Hw, Hc, u32_small by lia. case_range; [lia|]. wp_step. fold row_end.
  apply (row_end_off W Ht); [by apply (screen_set_cells W Ht l s); [|apply lenZ_wr] | | done].
  cbn [t_row set_t_col]. rewrite Er. lia.
Qed.

(** A tab in the last column moves the cursor past the end of the row without
    wrapping it: the next character is stored in the following row of cells
    (below the screen when the cursor is in the last row) and the cursor keeps
    growing in the same row. *)
Theorem term_tab_last_column W Ht t c s :
  shows W Ht t s -> col t = W - 1 -> c <> 9 -> c <> 10 -> (Ht + 1) * W <= lenZ (cells s) ->
  exists s', term_write [9; c] 2 s = Ok tt s' /\ t_row s' = t_row s /\ t_col s' = W + 1 /\
    rd (cells s') ((t_row s + 1) * W) = vga_entry c (t_color s).
Proof.
  intros (Hs & Hr & Hc & Hrow & Hcol & Hd) Hlast H9 H10 Hl. apply wp_unit. unfold term_write.
  pose proof Hs as (Hm & Hw & Hh & ? & ? & ?). pose proof (cell_in W Ht _ _ Hrow Hcol).
  assert (Hi : (t_row s + 1) * W + 1 <= (Ht + 1) * W) by (rewrite Hr; nia).
  apply wp_locals. change (span 0 2) with 2%nat. cbn [for_]. change (0 + 1) with 1.
  do 2 wp_step. apply wp_aget; [done|]. change (rd [9; c] 0) with 9. wp_step.
  apply (wp_tab_last W Ht); [done | lia | lia |]. set (l := wr _ _ _).
  assert (Hs1 : screen W Ht (set_t_col W (set_cells l s))) by (by apply (screen_set_cells W Ht l s); [|apply lenZ_wr]).
  destruct (set_cells_fields l s) as (Er&_&Eco&_).
  do 3 wp_step. apply wp_aget; [done|]. change (rd [9; c] 1) with c. wp_step.
  apply (wp_char_past W Ht); change (cells (set_t_col W (set_cells l s))) with (cells (set_cells l s));
    cbn [t_col t_row t_color set_t_col]; rewrite ?cells_set_cells, ?Er, ?Eco; try (done || lia).
  { unfold l. by rewrite lenZ_wr. }
  do 2 wp_step. set (l2 := wr _ _ _). cbn [t_col t_row set_t_col].
  destruct (set_cells_fields l2 (set_t_col W (set_cells l s))) as (Er2&_).
  rewrite Er2. cbn [t_row set_t_col]. split_and!; [done..|].
  change (rd (cells (set_cells l2 (set_t_col W (set_cells l s)))) ((t_row s + 1) * W) = vga_entry c (t_color s)).
  rewrite cells_set_cells. unfold l2. replace ((t_row s + 1) * W) with (t_row s * W + W) by lia.
  apply rd_wr_eq. unfold l. rewrite lenZ_wr. lia.
Qed.
End Facts.

(** * Examples *)

#[local] Instance quiet_ports : Ports unit := {
  port_inb := fun _ p => (0, p); port_outb := fun _ _ p => p;
  port_inw := fun _ p => (0, p); port_outw := fun _ _ p => p
}.

Definition power_on : term unit :=
  mkTerm tt (replicate (Z.to_nat VGA_CELLS) 0) (replicate 8000 0) 0 (mkFb 0 0 0 0 32 0 ∅) VgaMemory
    0 0 7 VGA_WIDTH VGA_HEIGHT.

Lemma booted : exists s, term_init power_on = Ok tt s /\
  shows VGA_WIDTH VGA_HEIGHT (tty_blank 7) s /\ t_color s = 7 /\ lenZ (cells s) = VGA_CELLS.
Proof. apply wp_unit, wp_term_init; [done | by vm_compute | done]. Qed.

(** The shell prompt, a tab and the first letters of a command. *)
Definition typed : list Z := [47; 62; 32; 9; 108; 115; 10; 97].

Lemma term_write_refines_witness : exists s0 s t,
  term_init power_on = Ok tt s0 /\ term_write typed 8 s0 = Ok tt s /\
  shows VGA_WIDTH VGA_HEIGHT t s /\ row t = 1 /\ col t = 1 /\ page t 0 4 = vga_entry 108 7 /\
  page t 0 5 = vga_entry 115 7 /\ page t 1 0 = vga_entry 97 7.
Proof.
  destruct booted as (s0 & Hi & Hs & Hc & _).
  pose (t' := default (tty_blank 7) (tty_write VGA_WIDTH VGA_HEIGHT 7 typed (tty_blank 7))).
  assert (Ht : tty_write VGA_WIDTH VGA_HEIGHT (t_color s0) (take (Z.to_nat 8) typed) (tty_blank 7) = Some t')
    by (rewrite Hc; reflexivity).
  assert (Hb : 0 <= 8 <= lenZ typed) by (unfold lenZ; simpl; lia).
  destruct (term_write_refines VGA_WIDTH VGA_HEIGHT (tty_blank 7) t' typed 8 s0 Hs Hb Ht)
    as (s & Hw & Hs' & _).
  exists s0, s, t'. split; [exact Hi|]. split; [exact Hw|]. split; [exact Hs'|]. split_and!; reflexivity.
Defined.

(** A prompt in the last column of the last row. *)
Definition at_end : term unit := set_t_col 79 (set_t_row 24 power_on).

Lemma term_tab_last_column_witness :
  shows VGA_WIDTH VGA_HEIGHT (mkTty (fun _ _ => 0) 0 24 79) at_end /\
  exists s', term_write [9; 97] 2 at_end = Ok tt s' /\ t_row s' = 24 /\ t_col s' = 81 /\
    rd (cells s') (VGA_WIDTH * VGA_HEIGHT) = vga_entry 97 7.
Proof.
  assert (Hs : shows VGA_WIDTH VGA_HEIGHT (mkTty (fun _ _ => 0) 0 24 79) at_end).
  { split; [by vm_compute|]. split_and!; try done.
    intros y x Hy Hx. unfold rd, cells. cbn [at_end t_buf set_t_col set_t_row vga_mem power_on page].
    rewrite nth_lookup. destruct (replicate _ _ !! _) eqn:E; [by apply lookup_replicate in E as [-> _] | done]. }
  split; [exact Hs|].
  apply (term_tab_last_column VGA_WIDTH VGA_HEIGHT (mkTty (fun _ _ => 0) 0 24 79) 97 at_end);
    [exact Hs | done | done | done | by vm_compute].
Defined.
