(* ===== verification/Printk.v ===== *)
(** Formatted output: [printk] of [src/kernel/lib/term.c]. *)
From Stdlib Require Import ZArith Lia List.
From stdpp Require Import base tactics numbers list gmap strings option.
From S2P Require Import Prelude CString Bytes Ata Fbcon Term.
Open Scope Z_scope.

Definition PRINTK_BUFF_LEN : Z := 256.
Definition PRINTK_LOC_MAX : Z := 4096.
Definition PRINTK_STR : Z := 1.
Definition PRINTK_PTR : Z := 2.
Definition PRINTK_CHR : Z := 3.
Definition PRINTK_INT : Z := 4.
Definition PRINTK_UINT : Z := 5.
Definition PRINTK_HEX32 : Z := 6.
Definition PRINTK_HEX64 : Z := 7.
Definition PRINTK_BIN : Z := 8.

(** A variable argument: a pointer to a string or a null pointer, a 32-bit
    value or a 64-bit value. *)
Inductive pk_arg : Type :=
  | PkStr (s : option (list Z))
  | Pk32 (n : Z)
  | Pk64 (n : Z).

Definition get_flag (c : Z) : Z :=
  if c =? 115 then PRINTK_STR
  else if c =? 112 then PRINTK_PTR
  else if c =? 99 then PRINTK_CHR
  else if c =? 100 then PRINTK_INT
  else if c =? 117 then PRINTK_UINT
  else if c =? 120 then PRINTK_HEX32
  else if c =? 88 then PRINTK_HEX64
  else if c =? 98 then PRINTK_BIN
  else 0.

(** "(null)" *)
Definition null_text : list Z := [40; 110; 117; 108; 108; 41; 0].

Section Operations.
Context {P : Type} `{Ports P}.
Local Notation T := (M (term P)).

(** [va_arg]: an argument that is missing or of another type is
    indeterminate. *)
Definition pk_str (ap : list pk_arg) : T (option (list Z) * list pk_arg) :=
  match ap with PkStr s :: ap => mret (s, ap) | _ => stuck Indeterminate end.
Definition pk_32 (ap : list pk_arg) : T (Z * list pk_arg) :=
  match ap with Pk32 n :: ap => mret (u32 n, ap) | _ => stuck Indeterminate end.
Definition pk_64 (ap : list pk_arg) : T (Z * list pk_arg) :=
  match ap with Pk64 n :: ap => mret (u64 n, ap) | _ => stuck Indeterminate end.

(** The [get_*] functions return the arguments left and [loc_buff]. *)
Definition get_str (ap : list pk_arg) (loc : list Z) : T (list pk_arg * list Z) :=
  a ← pk_str ap;
  let n := default null_text (fst a) in
  l ← locals (while_ (length n + 1) (0, loc) (fun '(k, loc) =>
    c ← aget n k;
    if negb (c =? 0) && (k <? PRINTK_LOC_MAX - 1) then
      loc ← aset loc k c;
      mret (Cont (k + 1, loc))
    else mret (Brk (k, loc))));
  loc ← aset (snd l) (fst l) 0;
  mret (snd a, loc).

Definition get_ptr (ap : list pk_arg) (loc : list Z) : T (list pk_arg * list Z) :=
  a ← pk_32 ap;
  loc ← aset loc 0 48;
  loc ← aset loc 1 120;
  rest ← itoa_base_buf (fst a) 16 (drop 2 loc);
  mret (snd a, take 2 loc ++ rest).

Definition get_char (ap : list pk_arg) (loc : list Z) : T (list pk_arg * list Z) :=
  a ← pk_32 ap;
  loc ← aset loc 0 (u8 (fst a));
  loc ← aset loc 1 0;
  mret (snd a, loc).

Definition get_int (ap : list pk_arg) (loc : list Z) : T (list pk_arg * list Z) :=
  a ← pk_32 ap;
  loc ← itoa_buf (s32 (fst a)) loc;
  mret (snd a, loc).

Definition get_base32 (base : Z) (ap : list pk_arg) (loc : list Z) : T (list pk_arg * list Z) :=
  a ← pk_32 ap;
  loc ← itoa_base_buf (fst a) base loc;
  mret (snd a, loc).
Definition get_uint := get_base32 10.
Definition get_hex32 := get_base32 16.
Definition get_bin := get_base32 2.

Definition get_hex64 (ap : list pk_arg) (loc : list Z) : T (list pk_arg * list Z) :=
  a ← pk_64 ap;
  loc ← itoa_base_buf (fst a) 16 loc;
  mret (snd a, loc).

Definition cursor_here : T unit :=
  col ← gets t_col;
  row ← gets t_row;
  update_cursor col row.

(** The caller sets [j] to 0. *)
Definition flush_printk_buff (buff : list Z) (j : Z) : T unit :=
  term_write buff j;;
  cursor_here.

(** The table [fl]. *)
Definition fl (flag : Z) (ap : list pk_arg) (loc : list Z) : T (list pk_arg * list Z) :=
  if flag =? PRINTK_STR then get_str ap loc
  else if flag =? PRINTK_PTR then get_ptr ap loc
  else if flag =? PRINTK_CHR then get_char ap loc
  else if flag =? PRINTK_INT then get_int ap loc
  else if flag =? PRINTK_UINT then get_uint ap loc
  else if flag =? PRINTK_HEX32 then get_hex32 ap loc
  else if flag =? PRINTK_HEX64 then get_hex64 ap loc
  else if flag =? PRINTK_BIN then get_bin ap loc
  else stuck NullDeref.

(** [bzero] has cleared [loc_buff].  The result is the arguments left, the
    buffer and [j]. *)
Definition process_flag (ap : list pk_arg) (flag : Z) (buff : list Z) (j : Z) : T (list pk_arg * list Z * Z) :=
  r ← fl flag ap (replicate (Z.to_nat PRINTK_LOC_MAX) 0);
  let '(ap, loc) := r in
  len ← strlen loc;
  if PRINTK_BUFF_LEN <=? len then
    j ← (if 0 <? j then flush_printk_buff buff j;; mret 0 else mret j);
    term_write loc len;;
    cursor_here;;
    mret (ap, buff, j)
  else
    j ← (if PRINTK_BUFF_LEN <? j + len then flush_printk_buff buff j;; mret 0 else mret j);
    buff ← strcat buff loc;
    mret (ap, buff, j + len).

Definition printk (format : list Z) (ap : list pk_arg) : T Z :=
  len ← strlen format;
  l ← locals (while_ (length format + 1) (0, 0, replicate (Z.to_nat PRINTK_BUFF_LEN) 0, ap)
    (fun '(i, j, buff, ap) =>
      if i <? len then
        f ← aget format i;
        l ← (if (f =? 37) && (i + 1 <? len) then
               c ← aget format (i + 1);
               let flag := get_flag c in
               l ← (if negb (flag =? 0) then process_flag ap flag buff j
                    else if c =? 37 then buff ← aset buff j 37; mret (ap, buff, j + 1)
                    else mret (ap, buff, j));
               mret (l, i + 1)
             else
               buff ← aset buff j f;
               mret (ap, buff, j + 1, i));
        let '(ap, buff, j, i) := l in
        j ← (if (j =? PRINTK_BUFF_LEN) && (i + 1 <? len) then flush_printk_buff buff j;; mret 0 else mret j);
        mret (Cont (i + 1, j, buff, ap))
      else mret (Brk (i, j, buff, ap))));
  let '(_, j, buff, _) := l in
  flush_printk_buff buff j;;
  mret 0.
End Operations.
