(* ===== verification/PrintkFacts.v ===== *)
(** Correctness of [printk]: the text it writes on the terminal. *)
From Stdlib Require Import ZArith Lia List.
From stdpp Require Import base tactics numbers list gmap strings option.
From S2P Require Import Prelude CString Bytes Buffer Ata Fbcon Term TermFacts Printk.
Open Scope Z_scope.

(** * Numerals *)

(** The digits of [n] in base [b], most significant first. *)
Fixpoint digits (fuel : nat) (b n : Z) : list Z :=
  match fuel with
  | O => []
  | S fuel' => if n <? b then [n] else digits fuel' b (n / b) ++ [n mod b]
  end.
Definition digit_char (d : Z) : Z := rd hex_digits d.
Definition num_text (b n : Z) : list Z := map digit_char (digits 65 b n).

(** The same by weight, as the loops find them. *)
Fixpoint msd (b : Z) (k : nat) (n : Z) : list Z :=
  match k with
  | O => []
  | S k' => n / b ^ Z.of_nat k' :: msd b k' (n mod b ^ Z.of_nat k')
  end.

Lemma pow_succ b k : b ^ Z.of_nat (S k) = b * b ^ Z.of_nat k.
Proof. rewrite Nat2Z.inj_succ, Z.pow_succ_r by lia. done. Qed.

Lemma msd_snoc b k n : 2 <= b -> 0 <= n < b ^ Z.of_nat (S k) -> msd b (S k) n = msd b k (n / b) ++ [n mod b].
Proof.
  intros Hb. revert n. induction k as [|k IH]; intros n Hn.
  - rewrite pow_succ in Hn. change (b ^ Z.of_nat 0) with 1 in Hn. simpl. rewrite Z.div_1_r, Z.mod_small by lia. done.
  - change (msd b (S (S k)) n) with (n / b ^ Z.of_nat (S k) :: msd b (S k) (n mod b ^ Z.of_nat (S k))).
    assert (0 < b ^ Z.of_nat k) by (apply Z.pow_pos_nonneg; lia).
    rewrite IH by (apply Z.mod_pos_bound; rewrite pow_succ; nia).
    change (msd b (S k) (n / b)) with (n / b / b ^ Z.of_nat k :: msd b k (n / b mod b ^ Z.of_nat k)).
    rewrite pow_succ, <- app_comm_cons. rewrite Z.div_div by lia. f_equal.
    assert (He : n mod (b * b ^ Z.of_nat k) = n mod b + b * (n / b mod b ^ Z.of_nat k)) by (apply Z.rem_mul_r; lia).
    pose proof (Z.mod_pos_bound n b).
    rewrite He. f_equal; [f_equal|f_equal].
    + rewrite Z.mul_comm, Z.div_add, Z.div_small by lia. lia.
    + rewrite Z.mul_comm, Z.mod_add, Z.mod_mod by lia. done.
Qed.

Lemma digits_msd fuel b k n : 2 <= b -> 0 <= n < b ^ Z.of_nat (S k) -> b ^ Z.of_nat k <= Z.max n 1 ->
  (k < fuel)%nat -> digits fuel b n = msd b (S k) n.
Proof.
  intros Hb. revert k n. induction fuel as [|fuel IH]; intros k n Hn Hk Hf; [lia|]. cbn [digits].
  rewrite msd_snoc by done. destruct (Z.ltb_spec n b).
  - destruct k as [|k]; [by rewrite Z.mod_small by lia|]. rewrite pow_succ in Hk.
    assert (0 < b ^ Z.of_nat k) by (apply Z.pow_pos_nonneg; lia). nia.
  - destruct k as [|k]; [rewrite pow_succ in Hn; simpl in Hn; lia|]. rewrite (IH k); [done| | |lia].
    + rewrite pow_succ in Hn. split; [apply Z.div_pos; lia | apply Z.div_lt_upper_bound; lia].
    + rewrite Z.max_l by (apply Z.div_le_lower_bound; lia). apply Z.div_le_lower_bound; [lia|].
      rewrite <- pow_succ. lia.
Qed.

Lemma length_msd b k n : length (msd b k n) = k.
Proof. revert n. induction k as [|k IH]; intros n; simpl; [done | by rewrite IH]. Qed.

Lemma wr_split a i v : 0 <= i < lenZ a -> wr a i v = take (Z.to_nat i) a ++ v :: drop (Z.to_nat i + 1) a.
Proof. intros Hi. unfold wr. rewrite insert_take_drop by (unfold lenZ in Hi; lia). do 2 f_equal. f_equal. lia. Qed.

Section Numerals.
Context {S : Type}.
Implicit Types st : S.

(** Both loops that write digits. *)
Lemma digit_loop (body : Z * Z * Z * list Z -> M S (ctl (Z * Z * Z * list Z) Empty_set)) b st :
  2 <= b ->
  (forall length nbr i buf, 0 < length -> 0 <= nbr / length < b -> 0 <= i < lenZ buf ->
     body (length, nbr, i, buf) st =
       Ok (Cont (length / b, nbr mod length, i + 1, wr buf i (digit_char (nbr / length)))) st) ->
  (forall nbr i buf, body (0, nbr, i, buf) st = Ok (Brk (0, nbr, i, buf)) st) ->
  forall k fuel len n i buf, (k < fuel)%nat ->
    len = (if decide (k = 0%nat) then 0 else b ^ (Z.of_nat k - 1)) ->
    0 <= n < b ^ Z.of_nat k -> 0 <= i -> i + Z.of_nat k < lenZ buf ->
  exists n', while_ fuel (len, n, i, buf) body st =
    Ok (inl (0, n', i + Z.of_nat k,
      take (Z.to_nat i) buf ++ map digit_char (msd b k n) ++ drop (Z.to_nat i + k) buf)) st.
Proof.
  intros Hb Hstep Hend k. induction k as [|k IH]; intros fuel len n i buf Hf -> Hn Hi Hl; destruct fuel as [|fuel]; try lia;
    cbn [while_].
  - simpl. exists n. rewrite (bind_ok _ _ _ _ _ (Hend n i buf)). unfold mret, M_ret. do 4 f_equal.
    + lia.
    + by rewrite Nat.add_0_r, take_drop.
  - rewrite decide_False by lia. replace (Z.of_nat (Datatypes.S k) - 1) with (Z.of_nat k) by lia.
    assert (0 < b ^ Z.of_nat k) by (apply Z.pow_pos_nonneg; lia). rewrite pow_succ in Hn.
    assert (0 <= n / b ^ Z.of_nat k < b) by (split; [apply Z.div_pos; lia | apply Z.div_lt_upper_bound; lia]).
    rewrite (bind_ok _ _ _ _ _ (Hstep (b ^ Z.of_nat k) n i buf ltac:(lia) ltac:(lia) ltac:(lia))).
    destruct (IH fuel (b ^ Z.of_nat k / b) (n mod b ^ Z.of_nat k) (i + 1)
      (wr buf i (digit_char (n / b ^ Z.of_nat k)))) as [n' Hn'].
    + lia.
    + destruct k as [|k]; [simpl; apply Z.div_small; lia|]. rewrite decide_False by lia.
      rewrite pow_succ, Z.mul_comm, Z.div_mul by lia. f_equal. lia.
    + apply Z.mod_pos_bound. lia.
    + lia.
    + rewrite lenZ_wr. lia.
    + exists n'. rewrite Hn'. do 3 f_equal; [f_equal; lia|]. cbn [msd map].
      unfold lenZ in Hl. rewrite wr_split by (unfold lenZ; lia).
      assert (Hti : length (take (Z.to_nat i) buf) = Z.to_nat i) by (rewrite length_take; lia).
      rewrite take_app, (take_ge (take _ _)), drop_app, (drop_ge (take _ _)), Hti by (rewrite Hti; lia).
      replace (Z.to_nat (i + 1) - Z.to_nat i)%nat with 1%nat by lia.
      replace (Z.to_nat (i + 1) + k - Z.to_nat i)%nat with (Datatypes.S k) by lia. simpl.
      rewrite drop_drop, <- app_assoc. simpl. do 3 f_equal. f_equal. lia.
Qed.

Lemma wp_top b n (Q : Z + Empty_set -> S -> Prop) st :
  2 <= b <= 16 -> 0 <= n < 2 ^ 60 ->
  (forall k, b ^ Z.of_nat k <= Z.max n 1 -> n < b ^ Z.of_nat (Datatypes.S k) -> (k < 60)%nat ->
     Q (inl (b ^ Z.of_nat k)) st) ->
  wp (while_ 64 1 (fun length =>
    if u64 (length * b) <=? n then mret (Cont (u64 (length * b))) else mret (Brk length))) Q st.
Proof.
  intros Hb Hn HQ.
  apply (wp_while (fun l st' => st' = st /\ exists k, l = b ^ Z.of_nat k /\ b ^ Z.of_nat k <= Z.max n 1)
    (fun l _ => Z.to_nat (60 - Z.log2 l))).
  - split; [done|]. exists 0%nat. simpl. lia.
  - change (Z.log2 1) with 0. simpl. lia.
  - intros l st' (-> & k & -> & Hk). assert (0 < b ^ Z.of_nat k) by (apply Z.pow_pos_nonneg; lia).
    rewrite Z.mul_comm, <- pow_succ. pose proof (pow_succ b k) as Hs.
    unfold u64. rewrite Z.mod_small by nia. destruct (Z.leb_spec (b ^ Z.of_nat (Datatypes.S k)) n) as [Hle|Hlt].
    + apply wp_ret. split; [split; [done|]; exists (Datatypes.S k); lia|].
      assert (Z.log2 (b ^ Z.of_nat (Datatypes.S k)) < 60) by (apply Z.log2_lt_pow2; lia).
      pose proof (Z.log2_mul_below b (b ^ Z.of_nat k) ltac:(lia) ltac:(lia)) as Hlog. rewrite <- Hs in Hlog.
      assert (1 <= Z.log2 b) by (apply (Z.log2_le_mono 2); lia). lia.
    + apply wp_ret, HQ; [done..|].
      assert (2 ^ Z.of_nat k <= b ^ Z.of_nat k) by (apply Z.pow_le_mono_l; lia).
      assert (Z.of_nat k < 60) by (apply (Z.pow_lt_mono_r_iff 2); lia). lia.
Qed.

(** The buffer [buf] with the string [w] at its start. *)
Definition with_text (w buf : list Z) : list Z := w ++ 0 :: drop (length w + 1) buf.

Lemma wr_zero_end (w r : list Z) (buf : list Z) : r = w ++ drop (length w) buf -> lenZ w < lenZ buf ->
  wr r (lenZ w) 0 = with_text w buf.
Proof.
  intros -> Hl. rewrite wr_split by (rewrite lenZ_app; unfold lenZ in *; rewrite length_drop; lia).
  unfold lenZ, with_text. rewrite Nat2Z.id. rewrite take_app_length, <- drop_drop, drop_app_length, drop_drop. done.
Qed.

Lemma wp_itoa_base b n buf (Q : list Z -> S -> Prop) st :
  2 <= b <= 16 -> 62 <= lenZ buf -> Q (with_text (num_text b (u32 n)) buf) st ->
  wp (itoa_base_buf n b buf) Q st.
Proof.
  intros Hb Hl HQ. unfold itoa_base_buf. cbv zeta. pose proof (u32_range n) as Hr. set (m := u32 n) in *.
  assert (Hn : 0 <= m < 2 ^ 60) by lia. clearbody m. clear Hr n. rename m into n.
  replace (u64 b) with b by (unfold u64; rewrite Z.mod_small; lia).
  wp_step. apply wp_locals, wp_top; [done..|]. intros k Hk1 Hk2 Hk. cbv iota.
  wp_step. apply wp_locals.
  lazymatch goal with |- wp (while_ _ _ ?body) _ _ =>
    destruct (digit_loop body b st) with (k := Datatypes.S k) (fuel := 65%nat) (len := b ^ Z.of_nat k) (n := n) (i := 0)
      (buf := buf) as [n' Hloop] end; try lia.
  - intros length nbr i buf' Hlen Hd Hi. apply Z.ltb_lt in Hlen as Hlt. cbv beta iota. rewrite Hlt.
    unfold aget, aset. change (lenZ hex_digits) with 17. rewrite decide_True by lia.
    unfold mret, M_ret, mbind, M_bind. cbv beta iota. rewrite decide_True by lia.
    unfold guard_or. rewrite decide_True by lia. done.
  - done.
  - rewrite decide_False by lia. f_equal. lia.
  - eapply wp_run; [exact Hloop|]. cbv beta iota.
    apply wp_aset.
    + rewrite lenZ_app. unfold lenZ in *. rewrite length_app, length_map, length_msd, length_drop. simpl. lia.
    + unfold num_text in HQ. rewrite (digits_msd 65 b k n) in HQ by lia.
      replace (0 + Z.of_nat (Datatypes.S k)) with (lenZ (map digit_char (msd b (Datatypes.S k) n)))
        by (unfold lenZ; rewrite length_map, length_msd; lia).
      rewrite (wr_zero_end (map digit_char (msd b (Datatypes.S k) n)) _ buf); [done | |].
      * rewrite length_map, length_msd. done.
      * unfold lenZ in *. rewrite length_map, length_msd. lia.
Qed.

Lemma dec_char d : 0 <= d < 10 -> u8 (d + 48) = digit_char d.
Proof.
  intros Hd. assert (d = 0 \/ d = 1 \/ d = 2 \/ d = 3 \/ d = 4 \/ d = 5 \/ d = 6 \/ d = 7 \/ d = 8 \/ d = 9) as Hcase by lia.
  by repeat destruct Hcase as [->|Hcase]; subst.
Qed.

(** The text of an integer. *)
Definition int_text (n : Z) : list Z := (if n <? 0 then [45] else []) ++ num_text 10 (Z.abs n).

Lemma wp_itoa_text n buf (Q : list Z -> S -> Prop) st :
  -2147483648 <= n < 2147483648 -> 63 <= lenZ buf -> Q (with_text (int_text n) buf) st ->
  wp (itoa_buf n buf) Q st.
Proof.
  intros Hn Hl HQ. unfold itoa_buf. cbv zeta.
  set (i0 := if n <? 0 then 1 else 0). set (buf0 := if n <? 0 then wr buf 0 45 else buf).
  assert (Hstart : wp (if n <? 0 then buf ← aset buf 0 45; mret (u64 (- u64 n), 1, buf) else mret (u64 n, 0, buf))
    (fun l st' => l = (Z.abs n, i0, buf0) /\ st' = st) st).
  { unfold i0, buf0. destruct (Z.ltb_spec n 0).
    - wp_step. apply wp_aset; [lia|]. apply wp_ret. split; [|done]. do 2 f_equal. word_lia.
    - apply wp_ret. split; [|done]. do 2 f_equal. word_lia. }
  apply wp_bind. eapply wp_mono; [|exact Hstart]. intros l st' [-> ->]. cbv beta iota.
  apply wp_bind, wp_locals, (wp_top 10); [lia..|]. intros k Hk1 Hk2 Hk. cbv iota.
  assert (Hl0 : lenZ buf0 = lenZ buf) by (unfold buf0; destruct (n <? 0); [apply lenZ_wr | done]).
  apply wp_bind, wp_locals.
  lazymatch goal with |- wp (while_ _ _ ?body) _ _ =>
    destruct (digit_loop body 10 st) with (k := Datatypes.S k) (fuel := 65%nat) (len := 10 ^ Z.of_nat k) (n := Z.abs n)
      (i := i0) (buf := buf0) as [n' Hloop] end; try lia.
  - intros length nbr i buf' Hlen Hd Hi. apply Z.ltb_lt in Hlen as Hlt. cbv beta iota. rewrite Hlt.
    unfold aset. rewrite decide_True by lia. unfold mret, M_ret, mbind, M_bind.
    by rewrite dec_char by lia.
  - done.
  - rewrite decide_False by lia. f_equal. lia.
  - unfold i0. destruct (n <? 0); lia.
  - unfold i0. rewrite Hl0. destruct (n <? 0); lia.
  - eapply wp_run; [exact Hloop|]. cbv beta iota.
    assert (He : take (Z.to_nat i0) buf0 ++ map digit_char (msd 10 (Datatypes.S k) (Z.abs n)) ++
      drop (Z.to_nat i0 + Datatypes.S k) buf0 = int_text n ++ drop (length (int_text n)) buf).
    { unfold int_text, num_text, i0, buf0. rewrite (digits_msd 65 10 k (Z.abs n)), !length_app, !length_map, length_msd by lia.
      rewrite <- app_assoc. destruct (n <? 0); [|done]. unfold lenZ in Hl. destruct buf as [|c buf]; [simpl in Hl; lia|]. done. }
    rewrite He. replace (i0 + Z.of_nat (Datatypes.S k)) with (lenZ (int_text n)).
    2: { unfold int_text, num_text, i0, lenZ. rewrite (digits_msd 65 10 k (Z.abs n)), !length_app, !length_map, length_msd by lia.
         destruct (n <? 0); simpl; lia. }
    assert (lenZ (int_text n) < lenZ buf).
    { unfold int_text, num_text, lenZ in *. rewrite (digits_msd 65 10 k (Z.abs n)), !length_app, !length_map, length_msd by lia.
      destruct (n <? 0); simpl; lia. }
    apply wp_aset; [rewrite lenZ_app; unfold lenZ in *; rewrite length_drop; lia|].
    by rewrite (wr_zero_end (int_text n) _ buf).
Qed.
End Numerals.

(** * Text in buffers *)

(** [n] bytes: the string [d] and zeroes. *)
Definition padded (n : nat) (d : list Z) : list Z := d ++ replicate (n - length d) 0.

Lemma lenZ_padded n d : lenZ d <= Z.of_nat n -> lenZ (padded n d) = Z.of_nat n.
Proof. unfold padded, lenZ. rewrite length_app, length_replicate. lia. Qed.

Lemma wr_padded n d c : lenZ d < Z.of_nat n -> wr (padded n d) (lenZ d) c = padded n (d ++ [c]).
Proof.
  intros Hl. rewrite wr_split by (rewrite lenZ_padded; unfold lenZ in *; lia).
  unfold padded, lenZ in *. rewrite Nat2Z.id, take_app_length, length_app. simpl.
  replace (n - length d)%nat with (1 + (n - (length d + 1)))%nat by lia.
  rewrite replicate_add, app_assoc, <- (app_assoc d). simpl (replicate 1 0).
  rewrite (app_assoc d [0]). rewrite drop_app_length' by (rewrite length_app; simpl; lia).
  by rewrite <- app_assoc.
Qed.

Lemma padded_zero n d : lenZ d < Z.of_nat n -> padded n (d ++ [0]) = padded n d.
Proof.
  intros Hl. unfold padded, lenZ in *. rewrite length_app. simpl.
  replace (n - length d)%nat with (1 + (n - (length d + 1)))%nat by lia.
  rewrite replicate_add, <- app_assoc. done.
Qed.

Lemma cstr_with_text w buf : nonzeros w -> cstr (with_text w buf) = w /\ terminated (with_text w buf).
Proof.
  intros Hw. assert (Hc : cstr (with_text w buf) = w) by (unfold with_text; rewrite cstr_app by done; apply app_nil_r).
  split; [done|]. unfold terminated. rewrite Hc. unfold with_text. rewrite lenZ_app. unfold lenZ. simpl. lia.
Qed.

Lemma cstr_padded n w : nonzeros w -> lenZ w < Z.of_nat n -> cstr (padded n w) = w /\ terminated (padded n w).
Proof.
  intros Hw Hl. replace (padded n w) with (with_text w (padded n w)); [by apply cstr_with_text|].
  unfold with_text, padded. unfold lenZ in Hl. rewrite (drop_app_ge w) by lia.
  replace (n - length w)%nat with (1 + (n - (length w + 1)))%nat by lia. rewrite replicate_add. simpl.
  replace (length w + 1 - length w)%nat with 1%nat by lia. done.
Qed.

Lemma digits_range fuel b n : 2 <= b -> 0 <= n -> Forall (fun d => 0 <= d < b) (digits fuel b n).
Proof.
  intros Hb. revert n. induction fuel as [|fuel IH]; intros n Hn; cbn [digits]; [constructor|].
  destruct (Z.ltb_spec n b); [repeat constructor; lia|]. apply Forall_app. split; [apply IH, Z.div_pos; lia|].
  repeat constructor; apply Z.mod_pos_bound; lia.
Qed.

Lemma nonzeros_num b n : 2 <= b <= 16 -> 0 <= n -> nonzeros (num_text b n).
Proof.
  intros Hb Hn. unfold num_text, nonzeros. apply Forall_map.
  refine (Forall_impl _ _ (digits_range 65 b n _ Hn)); [|lia]. intros d Hd. simpl.
  assert (d = 0 \/ d = 1 \/ d = 2 \/ d = 3 \/ d = 4 \/ d = 5 \/ d = 6 \/ d = 7 \/ d = 8 \/ d = 9 \/ d = 10 \/
    d = 11 \/ d = 12 \/ d = 13 \/ d = 14 \/ d = 15) as Hcase by lia.
  repeat destruct Hcase as [->|Hcase]; subst; done.
Qed.

Lemma nonzeros_int n : nonzeros (int_text n).
Proof. unfold int_text. apply Forall_app. split; [destruct (n <? 0); repeat constructor; lia | by apply nonzeros_num; lia]. Qed.

Section Strcat.
Context {S : Type}.

(** Appending a character, and the terminator. *)
Lemma wp_aset_padded n d k v (Q : list Z -> S -> Prop) st : k = lenZ d -> lenZ d < Z.of_nat n ->
  Q (padded n (d ++ [v])) st -> wp (aset (padded n d) k v) Q st.
Proof.
  intros -> Hl HQ. pose proof (lenZ_nonneg d). apply wp_aset; [rewrite lenZ_padded; lia|]. by rewrite wr_padded.
Qed.
Lemma wp_aset_end n d k (Q : list Z -> S -> Prop) st : k = lenZ d -> lenZ d < Z.of_nat n ->
  Q (padded n d) st -> wp (aset (padded n d) k 0) Q st.
Proof. intros. apply wp_aset_padded; [done..|]. by rewrite padded_zero. Qed.

Lemma prefix_len_padded n d : nonzeros d -> prefix_len nonzero (padded n d) = lenZ d.
Proof.
  intros Hd. rewrite <- cstr_len. unfold padded. rewrite cstr_app by done.
  replace (cstr (replicate (n - length d) 0)) with (@nil Z) by (by destruct (n - length d)%nat).
  by rewrite app_nil_r.
Qed.

Lemma wp_strcat n d s2 (Q : list Z -> S -> Prop) st :
  nonzeros d -> terminated s2 -> lenZ d + lenZ (cstr s2) < Z.of_nat n -> Q (padded n (d ++ cstr s2)) st ->
  wp (strcat (padded n d) s2) Q st.
Proof.
  intros Hd Ht Hl HQ. pose proof (lenZ_nonneg d). pose proof (lenZ_nonneg (cstr s2)).
  pose proof (lenZ_padded n d ltac:(lia)) as Hlp. unfold strcat. wp_step. apply wp_locals.
  apply (wp_scan nonzero); [done | | unfold lenZ; lia |]; simpl (Z.to_nat 0); rewrite drop_0, prefix_len_padded by done; [lia|].
  rewrite Z.add_0_l. cbv iota. wp_step. apply wp_locals.
  apply (wp_while (fun '(i, j, s1) st' => st' = st /\ 0 <= j <= lenZ (cstr s2) /\ i = lenZ d + j /\
      s1 = padded n (d ++ take (Z.to_nat j) (cstr s2))) (fun '(_, j, _) _ => Z.to_nat (lenZ (cstr s2) - j))).
  - split_and!; try done; try lia. change (take (Z.to_nat 0) (cstr s2)) with (@nil Z). by rewrite app_nil_r.
  - unfold terminated, lenZ in *. lia.
  - intros [[i j] s1] st' (-> & Hj & -> & ->). unfold terminated in Ht. wp_step. apply wp_aget; [lia|].
    assert (Hlt : lenZ (d ++ take (Z.to_nat j) (cstr s2)) = lenZ d + j) by (rewrite lenZ_app, lenZ_take; lia).
    destruct (decide (j < lenZ (cstr s2))).
    + pose proof (cstr_nonzero s2 j ltac:(lia)) as Hnz. destruct (Z.eqb_spec (rd s2 j) 0); [done|].
      simpl negb. cbv iota. wp_step. apply wp_aset_padded; [lia..|]. wp_step. split; [|lia]. split_and!; try done; try lia.
      rewrite take_succ_Z, rd_cstr, app_assoc by lia. done.
    + assert (j = lenZ (cstr s2)) as -> by lia. rewrite cstr_end by done. simpl negb. cbv iota. wp_step.
      cbv beta iota.
      replace (take (Z.to_nat (lenZ (cstr s2))) (cstr s2)) with (cstr s2) in *
        by (rewrite take_ge; [done | unfold lenZ; lia]).
      by apply wp_aset_end; [lia..|].
Qed.
End Strcat.

(** * The specification of [printk] *)

(** The text of the argument a conversion takes, and the arguments left.  Of a
    64-bit argument [itoa_base_buf] is given the low 32 bits. *)
Definition render (flag : Z) (ap : list pk_arg) : option (list Z * list pk_arg) :=
  match ap with
  | PkStr so :: ap' =>
      if flag =? PRINTK_STR then Some (cstr (default null_text so), ap') else None
  | Pk32 n :: ap' =>
      if flag =? PRINTK_PTR then Some ([48; 120] ++ num_text 16 (u32 n), ap')
      else if flag =? PRINTK_CHR then Some (cstr [u8 (u32 n)], ap')
      else if flag =? PRINTK_INT then Some (int_text (s32 (u32 n)), ap')
      else if flag =? PRINTK_UINT then Some (num_text 10 (u32 n), ap')
      else if flag =? PRINTK_HEX32 then Some (num_text 16 (u32 n), ap')
      else if flag =? PRINTK_BIN then Some (num_text 2 (u32 n), ap')
      else None
  | Pk64 n :: ap' => if flag =? PRINTK_HEX64 then Some (num_text 16 (u32 n), ap') else None
  | [] => None
  end.

(** The text of a format; a percent sign before another character stands for
    nothing. *)
Fixpoint pk_text (fmt : list Z) (ap : list pk_arg) : option (list Z) :=
  match fmt with
  | [] => Some []
  | [f] => Some [f]
  | f :: ((c :: fmt'') as fmt') =>
      if f =? 37 then
        if negb (get_flag c =? 0) then
          '(w, ap') ← render (get_flag c) ap; w' ← pk_text fmt'' ap'; Some (w ++ w')
        else if c =? 37 then w' ← pk_text fmt'' ap; Some (37 :: w')
        else pk_text fmt'' ap
      else w' ← pk_text fmt' ap; Some (f :: w')
  end.

(** Strings are terminated. *)
Definition arg_ok (a : pk_arg) : Prop :=
  match a with PkStr (Some l) => terminated l | _ => True end.

(** The arguments of [itoa_base_buf] are converted twice. *)
Lemma u32_u32 n : u32 (u32 n) = u32 n.
Proof. apply u32_small, u32_range. Qed.
Lemma u32_u64 n : u32 (u64 n) = u32 n.
Proof. unfold u32, u64. word_lia. Qed.

Lemma s32_range x : -2147483648 <= s32 x < 2147483648.
Proof. unfold s32. pose proof (u32_range x). case_range; lia. Qed.

Section Get.
Context {P : Type} `{Ports P}.
Implicit Types s : term P.

(** The conversion functions leave the text in [loc_buff]. *)
Definition got (w : list Z) (ap' : list pk_arg) s (r : list pk_arg * list Z) s' : Prop :=
  s' = s /\ fst r = ap' /\ cstr (snd r) = w /\ terminated (snd r).

Lemma wp_get_str N so ap s : Z.of_nat N = PRINTK_LOC_MAX -> terminated (default null_text so) ->
  lenZ (cstr (default null_text so)) < PRINTK_LOC_MAX ->
  wp (get_str (PkStr so :: ap) (padded N [])) (got (cstr (default null_text so)) ap s) s.
Proof.
  intros HN Ht Hl. unfold get_str, pk_str. do 2 wp_step. cbn [fst snd].
  set (n := default null_text so) in *. wp_step. apply wp_locals.
  apply (wp_while (fun '(k, loc) s' => s' = s /\ 0 <= k <= lenZ (cstr n) /\ loc = padded N (take (Z.to_nat k) (cstr n)))
    (fun '(k, _) _ => Z.to_nat (lenZ (cstr n) - k))).
  - split_and!; try done. apply lenZ_nonneg.
  - unfold terminated, lenZ in *. lia.
  - intros [k loc] s' (-> & Hk & ->). unfold terminated in Ht. wp_step. apply wp_aget; [lia|].
    assert (Hlt : lenZ (take (Z.to_nat k) (cstr n)) = k) by (apply lenZ_take; lia).
    destruct (decide (k < lenZ (cstr n))).
    + pose proof (cstr_nonzero n k ltac:(lia)) as Hnz. destruct (Z.eqb_spec (rd n k) 0); [done|].
      destruct (Z.ltb_spec k (PRINTK_LOC_MAX - 1)); [|lia]. simpl (negb _ && _). cbv iota.
      wp_step. apply wp_aset_padded; [lia..|]. wp_step. split; [|lia]. split_and!; try done; try lia.
      by rewrite take_succ_Z, rd_cstr by lia.
    + assert (k = lenZ (cstr n)) as -> by lia. rewrite cstr_end by done. simpl (negb _ && _). cbv iota. wp_step.
      cbn [fst snd]. wp_step. replace (take (Z.to_nat (lenZ (cstr n))) (cstr n)) with (cstr n)
        by (rewrite take_ge; [done | unfold lenZ; lia]).
      apply wp_aset_end; [lia..|]. wp_step.
      split_and!; try done; simpl; apply cstr_padded; try lia; apply nonzeros_cstr.
Qed.

Lemma drop_padded_nil N k : drop k (padded N []) = padded (N - k) [].
Proof. unfold padded. simpl. rewrite drop_replicate. f_equal. simpl. lia. Qed.

Lemma wp_get_num N b n ap s : Z.of_nat N = PRINTK_LOC_MAX -> 2 <= b <= 16 ->
  wp (get_base32 b (Pk32 n :: ap) (padded N [])) (got (num_text b (u32 n)) ap s) s.
Proof.
  intros HN Hb. pose proof (u32_range n). unfold get_base32, pk_32. do 2 wp_step. cbn [fst snd]. wp_step.
  apply wp_itoa_base; [lia | rewrite lenZ_padded; unfold lenZ, PRINTK_LOC_MAX in *; simpl; lia |].
  rewrite ?u32_u32, ?u32_u64. wp_step. split_and!; try done; apply cstr_with_text, nonzeros_num; lia.
Qed.

Lemma wp_get_hex64 N n ap s : Z.of_nat N = PRINTK_LOC_MAX ->
  wp (get_hex64 (Pk64 n :: ap) (padded N [])) (got (num_text 16 (u32 n)) ap s) s.
Proof.
  intros HN. pose proof (u32_range n).
  unfold get_hex64, pk_64. do 2 wp_step. cbn [fst snd]. wp_step.
  apply wp_itoa_base; [lia | rewrite lenZ_padded; unfold lenZ, PRINTK_LOC_MAX in *; simpl; lia |].
  rewrite ?u32_u32, ?u32_u64. wp_step. split_and!; try done; apply cstr_with_text, nonzeros_num; lia.
Qed.

Lemma wp_get_int N n ap s : Z.of_nat N = PRINTK_LOC_MAX ->
  wp (get_int (Pk32 n :: ap) (padded N [])) (got (int_text (s32 (u32 n))) ap s) s.
Proof.
  intros HN. pose proof (s32_range (u32 n)). unfold get_int, pk_32. do 2 wp_step. cbn [fst snd]. wp_step.
  apply wp_itoa_text; [lia | rewrite lenZ_padded; unfold lenZ, PRINTK_LOC_MAX in *; simpl; lia |].
  wp_step. split_and!; try done; apply cstr_with_text, nonzeros_int.
Qed.

Lemma wp_get_char N n ap s : Z.of_nat N = PRINTK_LOC_MAX ->
  wp (get_char (Pk32 n :: ap) (padded N [])) (got (cstr [u8 (u32 n)]) ap s) s.
Proof.
  intros HN. unfold PRINTK_LOC_MAX in HN. unfold get_char, pk_32. do 2 wp_step. cbn [fst snd]. wp_step.
  apply wp_aset_padded; [done | unfold lenZ; simpl; lia |]. wp_step.
  apply wp_aset_end; [done | unfold lenZ; simpl; lia |]. wp_step.
  generalize (u8 (u32 n)) as c. intros c. assert (0 < Z.of_nat N) by lia.
  assert (Hc : cstr (padded N [c]) = cstr [c] /\ terminated (padded N [c])).
  { cbn [cstr]. destruct (Z.eqb_spec c 0) as [->|]; [|apply cstr_padded; [by repeat constructor | unfold lenZ; simpl; lia]].
    change [0] with ([] ++ [0]). rewrite padded_zero by (unfold lenZ; simpl; lia).
    apply cstr_padded; [constructor | unfold lenZ; simpl; lia]. }
  split_and!; try done; apply Hc.
Qed.

Lemma wp_get_ptr N n ap s : Z.of_nat N = PRINTK_LOC_MAX ->
  wp (get_ptr (Pk32 n :: ap) (padded N [])) (got ([48; 120] ++ num_text 16 (u32 n)) ap s) s.
Proof.
  intros HN. unfold PRINTK_LOC_MAX in HN. pose proof (u32_range n). unfold get_ptr, pk_32. do 2 wp_step. cbn [fst snd]. wp_step.
  apply wp_aset_padded; [done | unfold lenZ; simpl; lia |]. wp_step.
  apply wp_aset_padded; [done | unfold lenZ; simpl; lia |]. wp_step. simpl ((_ ++ _) ++ _).
  assert (Hp : padded N [48; 120] = [48; 120] ++ replicate (N - 2) 0) by done. rewrite Hp.
  rewrite drop_app_length', take_app_length' by done.
  apply wp_itoa_base; [lia | unfold lenZ; rewrite length_replicate; lia |].
  rewrite u32_u32. wp_step. destruct (cstr_with_text (num_text 16 (u32 n)) (replicate (N - 2) 0)) as [Hc Ht]; [by apply nonzeros_num; lia|].
  unfold got, terminated in *. cbn [snd fst]. simpl (cstr _). rewrite Hc. split_and!; try done.
  rewrite Hc in Ht. change (48 :: 120 :: num_text 16 (u32 n)) with ([48; 120] ++ num_text 16 (u32 n)). rewrite !lenZ_app. lia.
Qed.

Lemma wp_fl N flag ap w ap' s : Z.of_nat N = PRINTK_LOC_MAX -> render flag ap = Some (w, ap') -> Forall arg_ok ap ->
  lenZ w < PRINTK_LOC_MAX -> wp (fl flag ap (padded N [])) (got w ap' s) s.
Proof.
  intros HN Hr Hok Hw. destruct ap as [|[so|n|n] ap]; [discriminate|..]; apply Forall_inv in Hok as Ha;
    cbn [render] in Hr; unfold fl.
  - destruct (flag =? PRINTK_STR); [|discriminate]. injection Hr as <- <-.
    apply wp_get_str; [done | | done]. by destruct so.
  - destruct (Z.eqb_spec flag PRINTK_STR) as [->|]; [discriminate|].
    destruct (flag =? PRINTK_PTR); [injection Hr as <- <-; by apply wp_get_ptr|].
    destruct (flag =? PRINTK_CHR); [injection Hr as <- <-; by apply wp_get_char|].
    destruct (flag =? PRINTK_INT); [injection Hr as <- <-; by apply wp_get_int|].
    destruct (flag =? PRINTK_UINT); [injection Hr as <- <-; by apply wp_get_num|].
    destruct (flag =? PRINTK_HEX32); [injection Hr as <- <-; by apply wp_get_num|].
    destruct (Z.eqb_spec flag PRINTK_BIN) as [->|]; [injection Hr as <- <-; by apply wp_get_num | discriminate].
  - destruct (Z.eqb_spec flag PRINTK_HEX64) as [->|]; [|discriminate]. injection Hr as <- <-. by apply wp_get_hex64.
Qed.
End Get.

Lemma for_ext {S L R} n i l (b1 b2 : Z -> L -> M S (ctl L R)) (s : S) :
  (forall j l s, i <= j < i + Z.of_nat n -> b1 j l s = b2 j l s) -> for_ n i l b1 s = for_ n i l b2 s.
Proof.
  revert i l s. induction n as [|n IH]; intros i l s Hb; [done|]. cbn [for_]. apply bind_ext; [apply Hb; lia|].
  intros [l'|l'|r] s'; [|done..]. apply IH. intros j l2 s2 Hj. apply Hb. lia.
Qed.

Lemma render_tail flag ap w ap' : render flag ap = Some (w, ap') -> exists a, ap = a :: ap'.
Proof.
  destruct ap as [|[so|n|n] ap]; cbn [render]; [discriminate|..]; intros Hr; eexists; f_equal;
    repeat (destruct (flag =? _); [congruence|]); congruence.
Qed.

Lemma render_nonzeros flag ap w ap' : render flag ap = Some (w, ap') -> nonzeros w.
Proof.
  destruct ap as [|[so|n|n] ap]; cbn [render]; [discriminate|..]; intros Hr.
  - destruct (_ =? _); [|discriminate]. injection Hr as <- _. apply nonzeros_cstr.
  - pose proof (u32_range n).
    destruct (flag =? PRINTK_PTR).
    { injection Hr as <- _. constructor; [lia|]. constructor; [lia|]. apply nonzeros_num; lia. }
    destruct (flag =? PRINTK_CHR); [injection Hr as <- _; exact (nonzeros_cstr [u8 (u32 n)])|].
    destruct (flag =? PRINTK_INT); [injection Hr as <- _; apply nonzeros_int|].
    repeat (destruct (flag =? _); [injection Hr as <- _; apply nonzeros_num; lia|]). discriminate.
  - destruct (_ =? _); [|discriminate]. injection Hr as <- _. apply nonzeros_num; [lia|]. apply Z.mod_pos_bound. lia.
Qed.

Lemma padded_nil N : replicate N 0 = padded N [].
Proof. unfold padded. simpl. by rewrite Nat.sub_0_r. Qed.

Section Main.
Context {P : Type} `{Ports P}.
Implicit Types s : term P.

Lemma term_write_ext a b n s : 0 <= n <= lenZ a -> n <= lenZ b -> (forall j, 0 <= j < n -> rd a j = rd b j) ->
  term_write a n s = term_write b n s.
Proof.
  intros Ha Hb He. unfold term_write, locals. apply bind_ext; [|done]. apply for_ext.
  intros j [] s' Hj. unfold span in Hj. unfold aget. rewrite !decide_True by lia. by rewrite He by lia.
Qed.

Lemma term_write_padded N d s : lenZ d <= Z.of_nat N -> term_write (padded N d) (lenZ d) s = term_write d (lenZ d) s.
Proof.
  intros Hl. pose proof (lenZ_nonneg d). apply term_write_ext; [rewrite lenZ_padded; lia | lia |].
  intros j Hj. unfold padded. by apply rd_app_l.
Qed.

Lemma wp_process_flag N flag ap d w ap' s :
  Z.of_nat N = PRINTK_BUFF_LEN -> render flag ap = Some (w, ap') -> Forall arg_ok ap -> nonzeros d ->
  lenZ d + lenZ w < PRINTK_BUFF_LEN ->
  wp (process_flag ap flag (padded N d) (lenZ d))
     (fun r s' => s' = s /\ r = (ap', padded N (d ++ w), lenZ d + lenZ w)) s.
Proof.
  intros HN Hr Hok Hd Hl. pose proof (lenZ_nonneg d). unfold process_flag. rewrite padded_nil. wp_step.
  unfold PRINTK_BUFF_LEN in *.
  eapply wp_mono; [|apply wp_fl; [| exact Hr | exact Hok | unfold PRINTK_LOC_MAX; lia]].
  2: { unfold PRINTK_LOC_MAX. lia. }
  intros [ap2 loc] s' (-> & <- & <- & Ht). cbn [fst snd] in *. wp_step. apply wp_strlen; [done|].
  destruct (Z.leb_spec 256 (lenZ (cstr loc))); [lia|].
  wp_step. destruct (Z.ltb_spec 256 (lenZ d + lenZ (cstr loc))); [lia|]. wp_step. wp_step.
  apply wp_strcat; [done.. | lia |]. by wp_step.
Qed.

Definition printk_inv N (fmt w : list Z) s : Z * Z * list Z * list pk_arg -> term P -> Prop :=
  fun '(i, j, buff, ap) s' => s' = s /\ 0 <= i <= lenZ fmt /\ Forall arg_ok ap /\
    exists d w2, nonzeros d /\ buff = padded N d /\ j = lenZ d /\
      pk_text (drop (Z.to_nat i) fmt) ap = Some w2 /\ d ++ w2 = w.

Lemma pk_text_cons2 f c fmt ap : pk_text (f :: c :: fmt) ap =
  if f =? 37 then
    if negb (get_flag c =? 0) then
      '(w, ap') ← render (get_flag c) ap; w' ← pk_text fmt ap'; Some (w ++ w')
    else if c =? 37 then w' ← pk_text fmt ap; Some (37 :: w')
    else pk_text fmt ap
  else w' ← pk_text (c :: fmt) ap; Some (f :: w').
Proof. done. Qed.

(** One character or one conversion. *)
Lemma wp_printk_step N format w i j buff ap s (Q : list pk_arg * list Z * Z * Z -> term P -> Prop) :
  Z.of_nat N = PRINTK_BUFF_LEN -> terminated format -> lenZ w < PRINTK_BUFF_LEN ->
  printk_inv N (cstr format) w s (i, j, buff, ap) s -> i < lenZ (cstr format) ->
  (forall ap' buff' j' i', printk_inv N (cstr format) w s (i' + 1, j', buff', ap') s -> i <= i' -> j' < PRINTK_BUFF_LEN ->
     Q (ap', buff', j', i') s) ->
  wp (f ← aget format i;
      if (f =? 37) && (i + 1 <? lenZ (cstr format)) then
        c ← aget format (i + 1);
        let flag := get_flag c in
        l ← (if negb (flag =? 0) then process_flag ap flag buff j
             else if c =? 37 then buff ← aset buff j 37; mret (ap, buff, j + 1)
             else mret (ap, buff, j));
        mret (l, i + 1)
      else
        buff ← aset buff j f;
        mret (ap, buff, j + 1, i)) Q s.
Proof.
  intros HN Hf Hw (_ & Hi & Hok & d & w2 & Hd & -> & -> & Ht & <-) Hlt HQ. unfold terminated in Hf.
  rewrite lenZ_app in Hw. pose proof (lenZ_nonneg w2). pose proof (lenZ_nonneg d).
  assert (Hone : forall d' w3 ap' i', nonzeros d' -> d' ++ w3 = d ++ w2 -> Forall arg_ok ap' ->
    i <= i' < lenZ (cstr format) -> pk_text (drop (Z.to_nat (i' + 1)) (cstr format)) ap' = Some w3 ->
    Q (ap', padded N d', lenZ d', i') s).
  { intros d' w3 ap' i' Hd' He Hok' Hi' Ht'. pose proof (f_equal lenZ He) as Hlen. rewrite !lenZ_app in Hlen.
    pose proof (lenZ_nonneg w3). apply HQ; [|lia..]. split; [done|]. split; [lia|]. split; [done|]. by exists d', w3. }
  pose proof (cstr_nonzero format i ltac:(lia)) as Hnz.
  wp_step. apply wp_aget; [lia|]. rewrite (drop_rd (cstr format) i), rd_cstr in Ht by lia.
  destruct (Z.ltb_spec (i + 1) (lenZ (cstr format))) as [Hc|Hc].
  - rewrite (drop_rd (cstr format) (i + 1)), rd_cstr, pk_text_cons2 in Ht by lia.
    replace (i + 1 + 1) with (i + 2) in Ht by lia.
    destruct (Z.eqb_spec (rd format i) 37) as [Heq|Hne]; simpl (_ && true); cbv iota.
    + wp_step. apply wp_aget; [lia|]. cbv zeta. set (flag := get_flag (rd format (i + 1))) in *.
      destruct (negb (flag =? 0)).
      * destruct (render flag ap) as [[t ap']|] eqn:Hr; [|done]. simpl in Ht.
        destruct (pk_text _ ap') as [w3|] eqn:Ht3; [|done]. simpl in Ht. injection Ht as <-.
        rewrite lenZ_app in Hw. pose proof (lenZ_nonneg w3). wp_step.
        eapply wp_mono; [|apply wp_process_flag; [done | exact Hr | done | done | lia]].
        intros r s' [-> ->]. wp_step. rewrite <- lenZ_app. destruct (render_tail _ _ _ _ Hr) as [a ->].
        apply (Hone (d ++ t) w3); [apply Forall_app; split; [done | by eapply render_nonzeros] | by rewrite app_assoc
          | by apply Forall_inv_tail in Hok | lia |].
        by replace (i + 1 + 1) with (i + 2) by lia.
      * destruct (rd format (i + 1) =? 37).
        -- destruct (pk_text _ ap) as [w3|] eqn:Ht3; [|done]. simpl in Ht. injection Ht as <-.
           unfold lenZ in Hw at 2. simpl in Hw. wp_step. wp_step.
           apply wp_aset_padded; [done | unfold PRINTK_BUFF_LEN in *; lia |]. wp_step. wp_step.
           replace (lenZ d + 1) with (lenZ (d ++ [37])) by (rewrite lenZ_app; done).
           apply (Hone (d ++ [37]) w3); [apply Forall_app; split; [done | by repeat constructor] | by rewrite <- app_assoc
             | done | lia |]. by replace (i + 1 + 1) with (i + 2) by lia.
        -- wp_step. wp_step. wp_step. apply (Hone d w2); [done..| lia |]. by replace (i + 1 + 1) with (i + 2) by lia.
    + destruct (pk_text _ ap) as [w3|] eqn:Ht3; [|done]. simpl in Ht. injection Ht as <-.
      unfold lenZ in Hw at 2. simpl in Hw. wp_step.
      apply wp_aset_padded; [done | unfold PRINTK_BUFF_LEN in *; lia |]. wp_step.
      replace (lenZ d + 1) with (lenZ (d ++ [rd format i])) by (rewrite lenZ_app; done).
      apply (Hone (d ++ [rd format i]) w3); [apply Forall_app; split; [done | by repeat constructor] | by rewrite <- app_assoc
        | done | lia |]. rewrite <- Ht3. rewrite (drop_rd (cstr format) (i + 1)), rd_cstr by lia.
      by replace (i + 1 + 1) with (i + 2) by lia.
  - rewrite andb_false_r. rewrite drop_ge in Ht by (unfold lenZ in *; lia). simpl in Ht. injection Ht as <-.
    unfold lenZ in Hw at 2. simpl in Hw. wp_step.
    apply wp_aset_padded; [done | unfold PRINTK_BUFF_LEN in *; lia |]. wp_step.
    replace (lenZ d + 1) with (lenZ (d ++ [rd format i])) by (rewrite lenZ_app; done).
    apply (Hone (d ++ [rd format i]) []); [apply Forall_app; split; [done | by repeat constructor] | by rewrite app_nil_r
      | done | lia |]. by rewrite drop_ge by (unfold lenZ in *; lia).
Qed.

Lemma printk_writes format ap w s :
  terminated format -> Forall arg_ok ap -> pk_text (cstr format) ap = Some w -> lenZ w < PRINTK_BUFF_LEN ->
  printk format ap s = (term_write w (lenZ w);; cursor_here;; mret 0) s.
Proof.
  intros Hf Hok Ht Hw. set (N := Z.to_nat PRINTK_BUFF_LEN). assert (HN : Z.of_nat N = PRINTK_BUFF_LEN) by done.
  clearbody N. unfold printk. rewrite padded_nil.
  assert (Hlen : strlen format s = Ok (lenZ (cstr format)) s).
  { assert (Hs : wp (strlen format) (fun n s' => n = lenZ (cstr format) /\ s' = s) s) by (by apply wp_strlen).
    apply wp_ok in Hs as (n & s' & Hs & -> & ->). done. }
  rewrite (bind_ok _ _ _ _ _ Hlen).
  replace (Z.to_nat PRINTK_BUFF_LEN) with N by lia.
  lazymatch goal with |- (?m ≫= _) _ = _ =>
    assert (Hloop : wp m (fun l s' => s' = s /\ exists i ap', l = (i, lenZ w, padded N w, ap')) s) end.
  { apply wp_locals, (wp_while (printk_inv N (cstr format) w s)
      (fun '(i, _, _, _) _ => Z.to_nat (lenZ (cstr format) - i))).
    - split; [done|]. split; [pose proof (lenZ_nonneg (cstr format)); lia|]. split; [done|]. exists [], w. split_and!; [constructor | done..].
    - unfold terminated, lenZ in *. lia.
    - intros [[[i j] buff] ap1] s' Hinv. pose proof Hinv as (-> & Hi & _).
      destruct (Z.ltb_spec i (lenZ (cstr format))) as [Hlt|Hge].
      + wp_step. eapply wp_mono; [intros f s' Hfm; apply wp_bind; exact Hfm|].
        apply wp_unbind, (wp_printk_step N format w i j buff ap1 s); try done.
        intros ap' buff' j' i' Hinv' Hi' Hj'. cbv beta iota.
        destruct (Z.eqb_spec j' PRINTK_BUFF_LEN); [lia|]. wp_step. cbn [andb]. do 2 wp_step. split; [done | lia].
      + wp_step. split; [done|]. destruct Hinv as (_ & _ & _ & d & w2 & _ & -> & -> & Ht2 & <-).
        rewrite drop_ge in Ht2 by (unfold lenZ in *; lia). injection Ht2 as <-. rewrite app_nil_r. eauto. }
  apply wp_ok in Hloop as ([[[i j] buff] ap2] & s' & Hm & -> & i' & ap' & [= -> -> -> ->]).
  rewrite (bind_ok _ _ _ _ _ Hm). unfold flush_printk_buff, mbind, M_bind.
  rewrite term_write_padded by lia. by destruct (term_write w (lenZ w) s).
Qed.

Lemma wp_printk W Ht t t' format ap w (Q : Z -> term P -> Prop) s :
  terminated format -> Forall arg_ok ap -> pk_text (cstr format) ap = Some w -> lenZ w < PRINTK_BUFF_LEN ->
  shows W Ht t s -> tty_write W Ht (t_color s) w t = Some t' ->
  (forall s', shows W Ht t' s' -> kept s s' -> Q 0 s') -> wp (printk format ap) Q s.
Proof.
  intros Hf Hok Hw Hl Hs Ht' HQ. unfold wp. rewrite (printk_writes format ap w s) by done.
  change (wp (term_write w (lenZ w);; cursor_here;; mret 0) Q s). wp_step. pose proof (lenZ_nonneg w).
  apply (wp_term_write W Ht t t'); [done | lia | by rewrite take_ge by (unfold lenZ; lia) |].
  intros s' Hs' Hk. wp_step. unfold cursor_here. do 4 wp_step. apply wp_update_cursor. intros p. wp_step. by apply HQ.
Qed.

(** C9: [printk] writes the text of its format on the terminal and moves the
    hardware cursor behind it, when the text fits the working buffer: strings
    as they are, characters, signed and unsigned decimal, hexadecimal and binary
    numerals (of a 64-bit argument the low 32 bits), pointers with 0x, [%%] as a
    percent sign, any other conversion as nothing. *)
Theorem printk_text format ap w s :
  terminated format -> Forall arg_ok ap -> pk_text (cstr format) ap = Some w -> lenZ w < PRINTK_BUFF_LEN ->
  printk format ap s = (term_write w (lenZ w);; cursor_here;; mret 0) s.
Proof. apply printk_writes. Qed.

(** * The overflow of the working buffer *)

Lemma while_run {S L R} (f : nat -> L) (body : L -> M S (ctl L R)) k fuel (st : S) :
  (forall j, (j < k)%nat -> body (f j) st = Ok (Cont (f (j + 1)%nat)) st) ->
  while_ (k + fuel) (f 0%nat) body st = while_ fuel (f k) body st.
Proof.
  revert f. induction k as [|k IH]; intros f Hc; [done|]. cbn [while_ Nat.add].
  rewrite (bind_ok _ _ _ _ _ (Hc 0%nat ltac:(lia))).
  rewrite <- (Nat.add_1_r k). apply (IH (fun j => f (j + 1)%nat)). intros j Hj. apply Hc. lia.
Qed.

Lemma strcat_overflow N d src s :
  nonzeros d -> terminated src -> lenZ d < Z.of_nat N -> Z.of_nat N <= lenZ d + lenZ (cstr src) ->
  strcat (padded N d) src s = Stuck OutOfBounds s.
Proof.
  intros Hd Ht Hd2 Hl. pose proof (lenZ_nonneg d). pose proof (lenZ_padded N d ltac:(lia)) as Hlp.
  assert (Hscan : wp (locals (while_ (length (padded N d) + 1) 0 (fun i => c ← aget (padded N d) i;
      if negb (c =? 0) then mret (Cont (i + 1)) else mret (Brk i)))) (fun i s' => i = lenZ d /\ s' = s) s).
  { apply wp_locals, (wp_scan nonzero); [done | | unfold lenZ; lia |]; simpl (Z.to_nat 0);
      rewrite drop_0, prefix_len_padded by done; lia || done. }
  apply wp_ok in Hscan as (i & s' & Hscan & -> & ->). unfold strcat. rewrite (bind_ok _ _ _ _ _ Hscan).
  pose (f := fun j : nat => (lenZ d + Z.of_nat j, Z.of_nat j, padded N (d ++ take j (cstr src)))).
  assert (Hf0 : (lenZ d, 0, padded N d) = f 0%nat).
  { unfold f. cbn [take]. rewrite app_nil_r. f_equal. f_equal. lia. }
  assert (Hlen : forall j, (Z.of_nat j <= lenZ (cstr src)) -> lenZ (d ++ take j (cstr src)) = lenZ d + Z.of_nat j).
  { intros j Hj. rewrite lenZ_app. unfold lenZ in *. rewrite length_take. lia. }
  unfold terminated in Ht.
  rewrite Hf0. lazymatch goal with |- context [while_ _ _ ?b] => set (body := b) end.
  assert (Hcont : forall j, lenZ d + Z.of_nat j < Z.of_nat N -> Z.of_nat j < lenZ (cstr src) ->
    body (f j) s = Ok (Cont (f (j + 1)%nat)) s).
  { intros j Hj Hjl. unfold f, body. cbv beta iota. unfold aget, aset. rewrite decide_True by lia.
    pose proof (cstr_nonzero src (Z.of_nat j) ltac:(lia)) as Hnz.
    unfold mbind, M_bind, mret, M_ret. destruct (Z.eqb_spec (rd src (Z.of_nat j)) 0); [done|]. cbn [negb].
    rewrite lenZ_padded, decide_True by (rewrite ?Hlen; lia). rewrite <- Hlen by lia. rewrite wr_padded by (rewrite Hlen; lia).
    rewrite <- app_assoc, <- rd_cstr by lia.
    pose proof (take_succ_Z (cstr src) (Z.of_nat j) ltac:(lia)) as Hts.
    replace (Z.to_nat (Z.of_nat j + 1)) with (j + 1)%nat in Hts by lia. rewrite Nat2Z.id in Hts. rewrite <- Hts.
    do 3 f_equal. f_equal; [rewrite Hlen|]; lia. }
  assert (Hat : forall i v (l : list Z), lenZ l <= i -> aset l i v s = Stuck OutOfBounds s).
  { intros i v l Hi. unfold aset. rewrite decide_False by lia. done. }
  set (k := (N - length d)%nat). assert (Hk : lenZ d + Z.of_nat k = Z.of_nat N) by (unfold k, lenZ in *; lia).
  assert (Hlast : lenZ (padded N (d ++ take k (cstr src))) <= lenZ d + Z.of_nat k) by (rewrite lenZ_padded; rewrite ?Hlen; lia).
  replace (length src + 1)%nat with (k + (1 + (length src - k)))%nat by (unfold lenZ in *; lia).
  assert (Hrun : while_ (k + (1 + (length src - k))) (f 0%nat) body s = while_ (1 + (length src - k)) (f k) body s).
  { apply while_run. intros j Hj. apply Hcont; lia. }
  assert (Hbody : body (f k) s = if rd src (Z.of_nat k) =? 0 then Ok (Brk (f k)) s else Stuck OutOfBounds s).
  { unfold f, body. unfold aget. rewrite decide_True by lia. unfold mbind, M_bind, mret, M_ret.
    destruct (rd src (Z.of_nat k) =? 0); cbn [negb]; [done|]. by rewrite Hat. }
  destruct (rd src (Z.of_nat k) =? 0).
  - assert (Hloop : locals (while_ (k + (1 + (length src - k))) (f 0%nat) body) s = Ok (f k) s).
    { unfold locals. erewrite bind_ok; [|rewrite Hrun; cbn [while_ Nat.add]; by rewrite (bind_ok _ _ _ _ _ Hbody)]. done. }
    rewrite (bind_ok _ _ _ _ _ Hloop). unfold f. by apply Hat.
  - apply bind_stuck. unfold locals. apply bind_stuck. rewrite Hrun. cbn [while_ Nat.add]. by apply bind_stuck.
Qed.

Lemma process_flag_overflow N W Ht t t' flag ap d w ap' s :
  Z.of_nat N = PRINTK_BUFF_LEN -> render flag ap = Some (w, ap') -> Forall arg_ok ap -> nonzeros d ->
  lenZ d < PRINTK_BUFF_LEN -> lenZ w < PRINTK_BUFF_LEN -> PRINTK_BUFF_LEN <= lenZ d + lenZ w ->
  shows W Ht t s -> tty_write W Ht (t_color s) d t = Some t' ->
  exists s', process_flag ap flag (padded N d) (lenZ d) s = Stuck OutOfBounds s'.
Proof.
  intros HN Hr Hok Hd Hld Hlw Hsum Hs Hw. apply (wpe_elim _ _ (fun _ _ => False)); [|done].
  pose proof (lenZ_nonneg d). unfold process_flag. rewrite padded_nil. unfold PRINTK_BUFF_LEN in *. apply wpe_wp_bind.
  eapply wp_mono; [|apply wp_fl; [| exact Hr | exact Hok | unfold PRINTK_LOC_MAX; lia]].
  2: { unfold PRINTK_LOC_MAX. lia. }
  intros [ap2 loc] s' (-> & _ & <- & Hterm). cbn [fst snd] in *. apply wpe_wp_bind, wp_strlen; [done|].
  destruct (Z.leb_spec 256 (lenZ (cstr loc))); [lia|]. apply wpe_wp_bind.
  assert (Hj : wp (if 256 <? lenZ d + lenZ (cstr loc) then flush_printk_buff (padded N d) (lenZ d);; mret 0 else mret (lenZ d))
    (fun _ _ => True) s).
  { destruct (256 <? _); [|done]. unfold flush_printk_buff, cursor_here. do 2 apply wp_bind.
    apply (wp_term_write W Ht t t'); [done | rewrite lenZ_padded; lia | |].
    { unfold padded. rewrite take_app_length' by (unfold lenZ; lia). done. }
    intros s' _ _. do 4 wp_step. by apply wp_update_cursor. }
  eapply wp_mono; [|exact Hj]. intros j s' _. eapply wpe_bind, wpe_stuck, strcat_overflow; [done..| lia |lia].
Qed.

(** Two strings that each fit the working buffer of [printk] but not together
    overflow it: the buffer is flushed when they do not fit, but its content
    stays, and the second string is appended to the first one beyond the end of
    the array. *)
Theorem printk_overflow W Ht t t' a b s :
  terminated a -> terminated b -> lenZ (cstr a) < PRINTK_BUFF_LEN -> lenZ (cstr b) < PRINTK_BUFF_LEN ->
  PRINTK_BUFF_LEN <= lenZ (cstr a) + lenZ (cstr b) ->
  shows W Ht t s -> tty_write W Ht (t_color s) (cstr a) t = Some t' ->
  exists s', printk [37; 115; 37; 115; 0] [PkStr (Some a); PkStr (Some b)] s = Stuck OutOfBounds s'.
Proof.
  intros Ha Hb Hla Hlb Hsum Hs Hw. set (N := Z.to_nat PRINTK_BUFF_LEN). assert (HN : Z.of_nat N = PRINTK_BUFF_LEN) by done.
  pose proof (nonzeros_cstr a) as Hna.
  destruct (process_flag_overflow N W Ht t t' PRINTK_STR [PkStr (Some b)] (cstr a) (cstr b) [] s) as [s' Hstuck];
    [done | done | by repeat constructor | done..|].
  exists s'. unfold printk. rewrite padded_nil. fold N. clearbody N.
  rewrite (bind_ok _ _ _ 4 s) by reflexivity. apply bind_stuck. unfold locals. apply bind_stuck.
  cbn [length Nat.add while_].
  assert (H1 : process_flag [PkStr (Some a); PkStr (Some b)] PRINTK_STR (padded N []) 0 s =
    Ok ([PkStr (Some b)], padded N (cstr a), lenZ (cstr a)) s).
  { pose proof (wp_process_flag N PRINTK_STR [PkStr (Some a); PkStr (Some b)] [] (cstr a) [PkStr (Some b)] s) as Hp.
    apply wp_ok in Hp as (x & sx & Hx & -> & ->); [exact Hx | done | done | by repeat constructor | constructor | exact Hla]. }
  rewrite (bind_ok _ _ s (Cont (2, lenZ (cstr a), padded N (cstr a), [PkStr (Some b)])) s).
  - change (2 <? 4) with true. cbv iota. apply bind_stuck. rewrite (bind_ok _ _ _ 37 s) by reflexivity.
    change ((37 =? 37) && (2 + 1 <? 4)) with true. cbv iota. apply bind_stuck.
    rewrite (bind_ok _ _ _ 115 s) by reflexivity. by apply bind_stuck.
  - change (0 <? 4) with true. cbv iota. rewrite (bind_ok _ _ _ 37 s) by reflexivity.
    change ((37 =? 37) && (0 + 1 <? 4)) with true. cbv iota.
    erewrite bind_ok; [|rewrite (bind_ok _ _ _ 115 s) by reflexivity; erewrite bind_ok; [reflexivity|]; exact H1].
    cbv beta iota. destruct (Z.eqb_spec (lenZ (cstr a)) PRINTK_BUFF_LEN); [lia|]. reflexivity.
Qed.
End Main.

(** * Examples *)

#[local] Instance quiet_ports : Ports unit := {
  port_inb := fun _ p => (0, p); port_outb := fun _ _ p => p;
  port_inw := fun _ p => (0, p); port_outw := fun _ _ p => p
}.

(** [printk("%d%% %s 0x%x
", -7, "ab", 255)] prints "-7% ab 0xff" and a line
    break; "%08x" prints "8x". *)
Definition sample_format : list Z := [37; 100; 37; 37; 32; 37; 115; 32; 48; 120; 37; 120; 10; 0].
Definition sample_args : list pk_arg := [Pk32 (-7); PkStr (Some [97; 98; 0]); Pk32 255].
Definition sample_text : list Z := [45; 55; 37; 32; 97; 98; 32; 48; 120; 102; 102; 10].

Lemma printk_text_witness :
  printk sample_format sample_args power_on = (term_write sample_text 12;; cursor_here;; mret 0) power_on.
Proof.
  apply (printk_text sample_format sample_args sample_text power_on).
  - by vm_compute.
  - repeat constructor; by vm_compute.
  - by vm_compute.
  - by vm_compute.
Defined.

Example zero_padding_is_literal : pk_text [37; 48; 56; 120] [Pk32 255] = Some [56; 120].
Proof. reflexivity. Qed.

(** Two paths of 150 characters. *)
Definition long_path : list Z := replicate 150 97 ++ [0].

Lemma printk_overflow_witness : exists s0 s1,
  term_init power_on = Ok tt s0 /\
  printk [37; 115; 37; 115; 0] [PkStr (Some long_path); PkStr (Some long_path)] s0 = Stuck OutOfBounds s1.
Proof.
  destruct booted as (s0 & Hi & Hs & Hc & _).
  destruct (tty_write_total VGA_WIDTH VGA_HEIGHT 7 (replicate 150 97) (tty_blank 7)) as [t' Ht];
    [by apply Forall_replicate|].
  assert (Hp : terminated long_path) by (by vm_compute).
  assert (Hl : cstr long_path = replicate 150 97) by reflexivity.
  destruct (printk_overflow VGA_WIDTH VGA_HEIGHT (tty_blank 7) t' long_path long_path s0) as [s1 H1];
    [exact Hp | exact Hp | by vm_compute | by vm_compute | by vm_compute | exact Hs | by rewrite Hc, Hl |].
  exists s0, s1. split; [exact Hi | exact H1].
Defined.
