(* ===== verification/Keyboard.v ===== *)
(** The keyboard driver: [src/kernel/dev/keyboard.c].

    The interrupt handler leaves a key in the volatile variables that
    [readline] polls. *)
From Stdlib Require Import ZArith Lia List.
From stdpp Require Import base tactics numbers list gmap strings option.
From S2P Require Import Prelude Ata.
Open Scope Z_scope.

Definition KEYMOD_ALT : Z := 56.
Definition KEYMOD_CTRL : Z := 29.
Definition KEYMOD_SHFT : Z := 42.
Definition KEYMOD_SIZE : Z := 4.

(** The keyboard controller: its ports, and whether it has raised its
    interrupt at a point where the processor can take it. *)
Class KbdHw (K : Type) := {
  kbd_ports :: Ports K;
  irq1 : K -> bool * K
}.

Record kbd (K : Type) : Type := mkKbd {
  kb_dev : K;
  in_read : Z;
  read_key : Z;
  do_clear_screen : Z;
  cancel_input : Z;
  nav_key : Z;
  word_del : Z;
  ctrl_char : Z;
  modifier : Z
}.
Arguments mkKbd {K} _ _ _ _ _ _ _ _ _.
Arguments kb_dev {K} _.
Arguments in_read {K} _.
Arguments read_key {K} _.
Arguments do_clear_screen {K} _.
Arguments cancel_input {K} _.
Arguments nav_key {K} _.
Arguments word_del {K} _.
Arguments ctrl_char {K} _.
Arguments modifier {K} _.

Section Setters.
Context {K : Type}.
Implicit Types s : kbd K.
Definition set_kb_dev (v : K) s := mkKbd v (in_read s) (read_key s) (do_clear_screen s) (cancel_input s) (nav_key s) (word_del s) (ctrl_char s) (modifier s).
Definition set_in_read v s := mkKbd (kb_dev s) v (read_key s) (do_clear_screen s) (cancel_input s) (nav_key s) (word_del s) (ctrl_char s) (modifier s).
Definition set_read_key v s := mkKbd (kb_dev s) (in_read s) v (do_clear_screen s) (cancel_input s) (nav_key s) (word_del s) (ctrl_char s) (modifier s).
Definition set_do_clear_screen v s := mkKbd (kb_dev s) (in_read s) (read_key s) v (cancel_input s) (nav_key s) (word_del s) (ctrl_char s) (modifier s).
Definition set_cancel_input v s := mkKbd (kb_dev s) (in_read s) (read_key s) (do_clear_screen s) v (nav_key s) (word_del s) (ctrl_char s) (modifier s).
Definition set_nav_key v s := mkKbd (kb_dev s) (in_read s) (read_key s) (do_clear_screen s) (cancel_input s) v (word_del s) (ctrl_char s) (modifier s).
Definition set_word_del v s := mkKbd (kb_dev s) (in_read s) (read_key s) (do_clear_screen s) (cancel_input s) (nav_key s) v (ctrl_char s) (modifier s).
Definition set_ctrl_char v s := mkKbd (kb_dev s) (in_read s) (read_key s) (do_clear_screen s) (cancel_input s) (nav_key s) (word_del s) v (modifier s).
Definition set_modifier v s := mkKbd (kb_dev s) (in_read s) (read_key s) (do_clear_screen s) (cancel_input s) (nav_key s) (word_del s) (ctrl_char s) v.
End Setters.

(** The entry that the initializer leaves out is zero. *)
Definition modifiers : list Z := [KEYMOD_ALT; KEYMOD_CTRL; KEYMOD_SHFT; 0].

(** The tables have 128 entries; those after the listed ones are zero. *)
Definition keys : list Z := [
  0;
  0; 49; 50; 51; 52; 53; 54; 55; 56; 57; 48; 45; 61; 8;
  9; 113; 119; 101; 114; 116; 121; 117; 105; 111; 112; 91; 93; 10;
  0; 97; 115; 100; 102; 103; 104; 106; 107; 108; 59; 39; 96;
  0; 92; 122; 120; 99; 118; 98; 110; 109; 44; 46; 47; 0;
  42; 0; 32; 0] ++ replicate 69 0.
Definition shift_keys : list Z := [
  0;
  0; 33; 64; 35; 36; 37; 94; 38; 42; 40; 41; 95; 43; 0;
  0; 81; 87; 69; 82; 84; 89; 85; 73; 79; 80; 123; 125; 0;
  0; 65; 83; 68; 70; 71; 72; 74; 75; 76; 58; 34; 126;
  0; 124; 90; 88; 67; 86; 66; 78; 77; 60; 62; 63; 0;
  42; 0; 32; 0] ++ replicate 69 0.

Section Operations.
Context {K : Type} `{KbdHw K}.
Local Notation B := (M (kbd K)).

Definition kbd_inb (port : Z) : B Z := fun s =>
  let '(v, k) := port_inb (u16 port) (kb_dev s) in Ok (u8 v) (set_kb_dev k s).

Definition is_modifier (scancode : Z) : B Z :=
  r ← for_ (span 0 KEYMOD_SIZE) 0 tt (fun i _ =>
    m ← aget modifiers i;
    if m =? scancode then mret (Ret 1) else mret (Cont tt));
  match r with inl _ => mret 0 | inr v => mret v end.

(** [read_key = k; nav_key = n; in_read = 1] *)
Definition press_nav (n : Z) : B unit :=
  modify (set_read_key 0);;
  modify (set_nav_key n);;
  modify (set_in_read 1).
Definition press_key (k : Z) : B unit :=
  modify (set_read_key k);;
  modify (set_nav_key 0);;
  modify (set_word_del 0);;
  modify (set_in_read 1).

Definition keyboard_handler : B unit :=
  scancode ← kbd_inb 0x60;
  if negb (Z.land scancode 0x80 =? 0) then
    m ← is_modifier (Z.lxor scancode 0x80);
    if negb (m =? 0) then modify (set_modifier 0) else mret tt
  else
    modi ← gets modifier;
    m ← (if modi =? 0 then is_modifier scancode else mret 0);
    if negb (m =? 0) then modify (set_modifier scancode)
    else if modi =? KEYMOD_CTRL then
      (if scancode =? 38 then modify (set_do_clear_screen 1)
       else if scancode =? 46 then modify (set_cancel_input 1)
       else if scancode <=? 58 then c ← aget keys scancode; modify (set_ctrl_char c)
       else mret tt);;
      modify (set_modifier 0)
    else if (modi =? KEYMOD_ALT) && (scancode =? 14) then
      modify (set_read_key 0);;
      modify (set_nav_key 0);;
      modify (set_word_del 1);;
      modify (set_in_read 1);;
      modify (set_modifier 0)
    else if (modi =? KEYMOD_SHFT) && (scancode <=? 58) then
      c ← aget shift_keys scancode;
      press_key c
    else if (modi =? 0) && (scancode <=? 58) then
      c ← aget keys scancode;
      press_key c
    else if (modi =? 0) && (scancode =? 72) then press_nav 1
    else if (modi =? 0) && (scancode =? 80) then press_nav 2
    else if (modi =? 0) && (scancode =? 75) then press_nav 3
    else if (modi =? 0) && (scancode =? 77) then press_nav 4
    else modify (set_modifier 0).

(** The processor takes the interrupt if there is one. *)
Definition interrupts : B unit := fun s =>
  let '(fired, k) := irq1 (kb_dev s) in
  (if fired : bool then keyboard_handler else mret tt) (set_kb_dev k s).
End Operations.
