(* ===== verification/Readline.v ===== *)
(** The line editor and its history: [src/kernel/shell/readline.c] and the
    history functions of [src/kernel/shell/commands.c].

    The editor polls variables that the keyboard interrupt writes; an
    interrupt may come before every access to one of them. *)
From Stdlib Require Import ZArith Lia List.
From stdpp Require Import base tactics numbers list gmap strings option.
From S2P Require Import Prelude CString Bytes Ata Fbcon Term Printk Keyboard.
Open Scope Z_scope.

Record console (P K : Type) : Type := mkConsole {
  scr : term P;
  kb : kbd K;
  g_base_cell : Z;
  s_hist : list (list Z);
  s_hist_count : Z;
  s_hist_pos : Z;
  g_cwd : list Z
}.
Arguments mkConsole {P K} _ _ _ _ _ _ _.
Arguments scr {P K} _.
Arguments kb {P K} _.
Arguments g_base_cell {P K} _.
Arguments s_hist {P K} _.
Arguments s_hist_count {P K} _.
Arguments s_hist_pos {P K} _.
Arguments g_cwd {P K} _.

Section Setters.
Context {P K : Type}.
Implicit Types s : console P K.
Definition set_scr (v : term P) s := mkConsole v (kb s) (g_base_cell s) (s_hist s) (s_hist_count s) (s_hist_pos s) (g_cwd s).
Definition set_kb (v : kbd K) s := mkConsole (scr s) v (g_base_cell s) (s_hist s) (s_hist_count s) (s_hist_pos s) (g_cwd s).
Definition set_g_base_cell v s := mkConsole (scr s) (kb s) v (s_hist s) (s_hist_count s) (s_hist_pos s) (g_cwd s).
Definition set_s_hist v s := mkConsole (scr s) (kb s) (g_base_cell s) v (s_hist_count s) (s_hist_pos s) (g_cwd s).
Definition set_s_hist_count v s := mkConsole (scr s) (kb s) (g_base_cell s) (s_hist s) v (s_hist_pos s) (g_cwd s).
Definition set_s_hist_pos v s := mkConsole (scr s) (kb s) (g_base_cell s) (s_hist s) (s_hist_count s) v (g_cwd s).
Definition set_g_cwd v s := mkConsole (scr s) (kb s) (g_base_cell s) (s_hist s) (s_hist_count s) (s_hist_pos s) v.
End Setters.

Definition HIST_MAX : Z := 64.

Section Operations.
Context {P K : Type} `{Ports P, KbdHw K}.
Local Notation C := (M (console P K)).

Definition on_term {A} (m : M (term P) A) : C A := zoom scr set_scr m.

(** * History *)

(** [s_hist[i]] *)
Definition hist_row (i : Z) : C (list Z) :=
  h ← gets s_hist;
  match h !! Z.to_nat i with
  | Some l => if 0 <=? i then mret l else stuck OutOfBounds
  | None => stuck OutOfBounds
  end.

(** A null pointer is [None]. *)
Definition shell_history_get (idx : Z) : C (option (list Z)) :=
  n ← gets s_hist_count;
  if idx <? n then l ← hist_row idx; mret (Some l) else mret None.

Definition shell_history_count : C Z := gets s_hist_count.

Definition shell_history_current : C (option (list Z)) :=
  p ← gets s_hist_pos;
  n ← gets s_hist_count;
  if p <? n then l ← hist_row p; mret (Some l) else mret None.

Definition shell_history_pos_set (p : Z) : C unit := modify (set_s_hist_pos p).

Definition shell_record (line : list Z) : C unit :=
  len ← strlen line;
  if len =? 0 then mret tt
  else
    n ← gets s_hist_count;
    differs ← (if n =? 0 then mret true
               else l ← hist_row (n - 1); d ← strcmp l line; mret (negb (d =? 0)));
    (if (differs : bool) && (n <? HIST_MAX) then
       row ← hist_row n;
       l ← locals (while_ 64 (0, row) (fun '(i, row) =>
         c ← aget line i;
         if negb (c =? 0) && (i <? 63) then
           row ← aset row i c;
           mret (Cont (i + 1, row))
         else mret (Brk (i, row))));
       row ← aset (snd l) (fst l) 0;
       modify (fun s => set_s_hist (<[Z.to_nat n := row]> (s_hist s)) s);;
       modify (set_s_hist_count (n + 1))
     else mret tt);;
    modify (fun s => set_s_hist_pos (s_hist_count s) s).

Definition shell_history_prev : C unit :=
  n ← gets s_hist_count;
  if n =? 0 then mret tt
  else
    p ← gets s_hist_pos;
    if 0 <? p then modify (set_s_hist_pos (p - 1)) else mret tt.

Definition shell_history_next : C unit :=
  n ← gets s_hist_count;
  if n =? 0 then mret tt
  else
    p ← gets s_hist_pos;
    if p <? n - 1 then modify (set_s_hist_pos (p + 1)) else mret tt.

(** * Editing *)

Definition cell_put (k c : Z) : C unit :=
  base ← gets g_base_cell;
  let cell := u32 (base + k) in
  w ← gets (fun s => term_width (scr s));
  h ← gets (fun s => term_height (scr s));
  q ← udiv cell w;
  if h <=? q then mret tt
  else
    color ← gets (fun s => t_color (scr s));
    on_term (term_putch_at c color (cell mod w) q).

Definition cell_cursor (pos : Z) : C unit :=
  base ← gets g_base_cell;
  let cell := u32 (base + pos) in
  w ← gets (fun s => term_width (scr s));
  q ← udiv cell w;
  on_term (modify (set_t_row q));;
  on_term (modify (set_t_col (cell mod w)));;
  on_term cursor_here.

Definition cell_draw (from : Z) (buf : list Z) (len : Z) : C unit :=
  locals (for_ (span from len) from tt (fun k _ =>
    c ← aget buf k;
    cell_put k c;;
    mret (Cont tt))).

Definition cell_clear (from to : Z) : C unit :=
  locals (for_ (span from to) from tt (fun k _ =>
    cell_put k 32;;
    mret (Cont tt))).

(** The functions on the line return the buffer, [*len] and [*pos]. *)
Definition insert_char (buf : list Z) (size len pos c : Z) : C (list Z * Z * Z) :=
  if size <=? len + 1 then mret (buf, len, pos)
  else
    buf ← memmove buf (pos + 1) pos (len - pos + 1);
    buf ← aset buf pos c;
    let len := len + 1 in
    cell_draw pos buf len;;
    let pos := pos + 1 in
    cell_cursor pos;;
    mret (buf, len, pos).

Definition backspace_at (buf : list Z) (len pos : Z) : C (list Z * Z * Z) :=
  let old := len in
  if pos =? 0 then mret (buf, len, pos)
  else
    buf ← memmove buf (pos - 1) pos (len - pos + 1);
    let len := len - 1 in
    let pos := pos - 1 in
    cell_draw pos buf len;;
    cell_clear len old;;
    cell_cursor pos;;
    mret (buf, len, pos).

(** [while (start > 0 && P (buf[start - 1])) start--;] *)
Definition scan_back (P : Z -> bool) (buf : list Z) (start : Z) : C Z :=
  locals (while_ (length buf + 1) start (fun start =>
    if 0 <? start then
      c ← aget buf (start - 1);
      if P c then mret (Cont (start - 1)) else mret (Brk start)
    else mret (Brk start))).

Definition delete_word (buf : list Z) (len pos : Z) : C (list Z * Z * Z) :=
  let old := len in
  if pos =? 0 then mret (buf, len, pos)
  else
    start ← scan_back (fun c => c =? 32) buf pos;
    start ← scan_back (fun c => negb (c =? 32)) buf start;
    if start =? pos then mret (buf, len, pos)
    else
      buf ← memmove buf start pos (len - pos + 1);
      let len := len - (pos - start) in
      let pos := start in
      cell_draw start buf len;;
      cell_clear len old;;
      cell_cursor pos;;
      mret (buf, len, pos).

Definition cursor_left (pos : Z) : C Z :=
  if 0 <? pos then cell_cursor (pos - 1);; mret (pos - 1) else mret pos.

Definition cursor_right (pos len : Z) : C Z :=
  if pos <? len then cell_cursor (pos + 1);; mret (pos + 1) else mret pos.

(** The result is the buffer and the new length, which is also [*pos]. *)
Definition replace_line (buf : list Z) (size i : Z) (line : list Z) : C (list Z * Z) :=
  let old := i in
  cell_clear 0 old;;
  l ← locals (while_ (length line + 1) (0, buf) (fun '(i, buf) =>
    c ← aget line i;
    if negb (c =? 0) && (i <? size - 1) then
      buf ← aset buf i c;
      mret (Cont (i + 1, buf))
    else mret (Brk (i, buf))));
  let '(i, buf) := l in
  buf ← aset buf i 0;
  cell_draw 0 buf i;;
  cell_cursor i;;
  mret (buf, i).

(** * The editor *)

(** Accesses to the volatile variables. *)
Definition on_kbd {A} (m : M (kbd K) A) : C A := zoom kb set_kb m.
Definition vget (f : kbd K -> Z) : C Z := on_kbd interrupts;; gets (fun s => f (kb s)).
Definition vset (f : kbd K -> kbd K) : C unit := on_kbd interrupts;; on_kbd (modify f).

(** [in_read == 1 && f != 0], the second operand read only if the first holds. *)
Definition pressed (f : kbd K -> Z) : C bool :=
  r ← vget in_read;
  if r =? 1 then v ← vget f; mret (negb (v =? 0)) else mret false.

Record line_state : Type := mkLine { l_buf : list Z; l_i : Z; l_pos : Z; l_hooked : Z }.

Definition set_base : C unit :=
  modify (fun s => set_g_base_cell (u32 (t_row (scr s) * term_width (scr s) + t_col (scr s))) s).

Definition line_of (cur : option (list Z)) : list Z := default [0] cur.

(** The branch of a navigation key. *)
Definition readline_nav (size : Z) (l : line_state) : C line_state :=
  let '(mkLine buf i pos hooked) := l in
  vset (set_in_read 0);;
  n ← vget nav_key;
  if n =? 1 then
    (if hooked =? 0 then c ← shell_history_count; shell_history_pos_set c else mret tt);;
    shell_history_prev;;
    cur ← shell_history_current;
    r ← replace_line buf size i (line_of cur);
    mret (mkLine (fst r) (snd r) (snd r) 1)
  else
    n ← vget nav_key;
    if n =? 2 then
      shell_history_next;;
      cur ← shell_history_current;
      r ← replace_line buf size i (line_of cur);
      mret (mkLine (fst r) (snd r) (snd r) 1)
    else
      n ← vget nav_key;
      if n =? 3 then pos ← cursor_left pos; mret (mkLine buf i pos hooked)
      else
        n ← vget nav_key;
        if n =? 4 then pos ← cursor_right pos i; mret (mkLine buf i pos hooked)
        else mret l.

(** The branch of a character; [inr] is the return of the editor. *)
Definition readline_key (size : Z) (l : line_state) : C (line_state + Z * list Z) :=
  let '(mkLine buf i pos hooked) := l in
  vset (set_in_read 0);;
  k ← vget read_key;
  if k =? 10 then
    vset (set_read_key 0);;
    mret (inr (i, buf))
  else
    k ← vget read_key;
    r ← (if k =? 8 then backspace_at buf i pos
         else
           k ← vget read_key;
           if k =? 9 then mret (buf, i, pos)
           else
             k ← vget read_key;
             b ← (if 0x20 <=? s8 k then k ← vget read_key; mret (s8 k <? 0x7F) else mret false);
             if (b : bool) then k ← vget read_key; insert_char buf size i pos k
             else mret (buf, i, pos));
    let '(buf, i, pos) := r in
    buf ← aset buf i 0;
    vset (set_read_key 0);;
    mret (inl (mkLine buf i pos 0)).

(** "^C\n" and "%s> " *)
Definition cancel_text : list Z := [94; 67; 10; 0].
Definition prompt_format : list Z := [37; 115; 62; 32; 0].

(** One round of the polling loop, from its last test to its first. *)
Definition round_key (size : Z) (l : line_state) : C (ctl line_state (Z * list Z)) :=
  key ← pressed read_key;
  if (key : bool) then
    r ← readline_key size l;
    match r with inl l => mret (Cont l) | inr v => mret (Ret v) end
  else mret (Cont l).

Definition round_word (size : Z) (l : line_state) : C (ctl line_state (Z * list Z)) :=
  word ← pressed word_del;
  if (word : bool) then
    vset (set_in_read 0);;
    r ← delete_word (l_buf l) (l_i l) (l_pos l);
    let '(buf, i, pos) := r in
    vset (set_word_del 0);;
    buf ← aset buf i 0;
    mret (Cont (mkLine buf i pos 0))
  else round_key size l.

Definition round_nav (size : Z) (l : line_state) : C (ctl line_state (Z * list Z)) :=
  nav ← pressed nav_key;
  if (nav : bool) then
    l ← readline_nav size l;
    vset (set_nav_key 0);;
    mret (Cont l)
  else round_word size l.

Definition round_clear (size : Z) (l : line_state) : C (ctl line_state (Z * list Z)) :=
  c ← vget do_clear_screen;
  if c =? 1 then
    vset (set_do_clear_screen 0);;
    on_term term_clear;;
    cwd ← gets g_cwd;
    on_term (printk prompt_format [PkStr (Some cwd)]);;
    buf ← aset (l_buf l) 0 0;
    set_base;;
    mret (Cont (mkLine buf 0 0 0))
  else round_nav size l.

Definition readline_round (size : Z) (l : line_state) : C (ctl line_state (Z * list Z)) :=
  if l_i l <? size then
    c ← vget cancel_input;
    if c =? 1 then
      vset (set_cancel_input 0);;
      cell_clear 0 (l_i l);;
      cell_cursor 0;;
      buf ← aset (l_buf l) 0 0;
      on_term (printk cancel_text []);;
      mret (Ret (0, buf))
    else round_clear size l
  else mret (Brk l).

(** A fresh prompt: no key of an earlier line is left. *)
Definition readline_start : C unit :=
  vset (set_cancel_input 0);;
  vset (set_word_del 0);;
  vset (set_read_key 0);;
  vset (set_nav_key 0);;
  vset (set_in_read 0);;
  set_base.

(** [fuel] bounds the rounds: the loop waits for the keyboard. *)
Definition readline (fuel : nat) (buf : list Z) (size : Z) : C (Z * list Z) :=
  readline_start;;
  r ← while_ fuel (mkLine buf 0 0 0) (readline_round size);
  match r with inl l => mret (l_i l, l_buf l) | inr v => mret v end.

Definition wait_key (fuel : nat) : C Z :=
  r ← while_ fuel tt (fun _ =>
    hit ← pressed read_key;
    hit ← (if (hit : bool) then k ← vget read_key; mret (negb (k =? 0)) else mret false);
    if (hit : bool) then
      k ← vget read_key;
      vset (set_in_read 0);;
      mret (Ret k)
    else mret (Cont tt));
  match r with inl _ => stuck OutOfFuel | inr k => mret k end.
End Operations.
