(* ===== verification/ReadlineFacts.v ===== *)
(** Correctness of the line editor: for every pace of typing that leaves it time
    to poll, [readline] returns the line of an abstract editor. *)
From Stdlib Require Import ZArith Lia List.
From stdpp Require Import base tactics numbers list gmap strings option.
From S2P Require Import Prelude CString Bytes Buffer Ata Fbcon Term TermFacts Printk PrintkFacts Keyboard Readline.
Open Scope Z_scope.

(** * The keyboard *)

(** The variables without the device. *)
Definition flags : Type := kbd unit.
Definition strip {K} (s : kbd K) : flags :=
  mkKbd tt (in_read s) (read_key s) (do_clear_screen s) (cancel_input s) (nav_key s) (word_del s) (ctrl_char s) (modifier s).

Definition modifier_key (c : Z) : bool := (c =? 56) || (c =? 29) || (c =? 42) || (c =? 0).

Definition after_key (c : Z) (f : flags) : flags :=
  set_in_read 1 (set_word_del 0 (set_nav_key 0 (set_read_key c f))).
Definition after_nav (n : Z) (f : flags) : flags := set_in_read 1 (set_nav_key n (set_read_key 0 f)).

(** What a scancode does to the variables. *)
Definition kbd_press (sc : Z) (f : flags) : flags :=
  if 128 <=? sc then
    if modifier_key (sc - 128) then set_modifier 0 f else f
  else
    let m := modifier f in
    if (m =? 0) && modifier_key sc then set_modifier sc f
    else if m =? 29 then
      set_modifier 0
        (if sc =? 38 then set_do_clear_screen 1 f
         else if sc =? 46 then set_cancel_input 1 f
         else if sc <=? 58 then set_ctrl_char (rd keys sc) f
         else f)
    else if (m =? 56) && (sc =? 14) then
      set_modifier 0 (set_in_read 1 (set_word_del 1 (set_nav_key 0 (set_read_key 0 f))))
    else if (m =? 42) && (sc <=? 58) then after_key (rd shift_keys sc) f
    else if (m =? 0) && (sc <=? 58) then after_key (rd keys sc) f
    else if (m =? 0) && (sc =? 72) then after_nav 1 f
    else if (m =? 0) && (sc =? 80) then after_nav 2 f
    else if (m =? 0) && (sc =? 75) then after_nav 3 f
    else if (m =? 0) && (sc =? 77) then after_nav 4 f
    else set_modifier 0 f.

Section Keyboard.
Context {K : Type} `{KbdHw K}.
Implicit Types (s : kbd K) (k : K).

(** The next [n] polls see no interrupt. *)
Fixpoint quiet (n : nat) k : Prop :=
  match n with
  | O => True
  | S n' => fst (irq1 k) = false /\ quiet n' (snd (irq1 k))
  end.

(** After [a] quiet polls the scancode [sc] comes; then the device is [k']. *)
Fixpoint fires (a : nat) k (sc : Z) k' : Prop :=
  match a with
  | O => fst (irq1 k) = true /\ port_inb 0x60 (snd (irq1 k)) = (sc, k') /\ 0 <= sc < 256
  | S a' => fst (irq1 k) = false /\ fires a' (snd (irq1 k)) sc k'
  end.

Lemma wp_is_modifier c (Q : Z -> kbd K -> Prop) s :
  Q (if modifier_key c then 1 else 0) s -> wp (is_modifier c) Q s.
Proof.
  intros HQ. unfold wp. replace (is_modifier c s) with (Ok (if modifier_key c then 1 else 0) s); [exact HQ|].
  unfold modifier_key. rewrite !(Z.eqb_sym c). symmetry. lazy -[Z.eqb].
  by destruct (56 =? c), (29 =? c), (42 =? c), (0 =? c).
Qed.

Definition with_dev k (f : flags) : kbd K :=
  mkKbd k (in_read f) (read_key f) (do_clear_screen f) (cancel_input f) (nav_key f) (word_del f) (ctrl_char f) (modifier f).

Lemma with_dev_strip s : with_dev (kb_dev s) (strip s) = s.
Proof. by destruct s. Qed.

Lemma land_128 sc : 0 <= sc < 256 -> (Z.land sc 128 =? 0) = negb (128 <=? sc) /\
  (128 <= sc -> Z.lxor sc 128 = sc - 128).
Proof.
  intros Hsc.
  assert (Hall : forallb (fun sc => Bool.eqb (Z.land sc 128 =? 0) (negb (128 <=? sc)) &&
    ((sc <? 128) || (Z.lxor sc 128 =? sc - 128))) (seqZ 0 256) = true) by (by vm_compute).
  rewrite forallb_forall in Hall. specialize (Hall sc). rewrite <- list_elem_of_In, elem_of_seqZ in Hall.
  specialize (Hall ltac:(lia)). apply andb_true_iff in Hall as [H1 H2]. apply eqb_prop in H1. split; [done|].
  intros Hge. apply orb_true_iff in H2 as [H2|H2]; bprop; lia.
Qed.

Lemma keyboard_handler_spec sc k f k' :
  port_inb 0x60 k = (sc, k') -> 0 <= sc < 256 ->
  keyboard_handler (with_dev k f) = Ok tt (with_dev k' (kbd_press sc f)).
Proof.
  intros Hp Hsc. destruct (land_128 sc Hsc) as [Hland Hxor].
  assert (Hw : wp keyboard_handler (fun _ s' => s' = with_dev k' (kbd_press sc f)) (with_dev k f)).
  { unfold keyboard_handler. wp_step. unfold wp at 1, kbd_inb. change (u16 96) with 96. cbn [with_dev kb_dev]. rewrite Hp.
    unfold u8. rewrite Z.mod_small by lia. cbv beta iota. rewrite Hland, negb_involutive. unfold kbd_press.
    destruct (Z.leb_spec 128 sc) as [Hge|Hlt].
    - rewrite Hxor by done. wp_step. apply wp_is_modifier. destruct (modifier_key (sc - 128)); cbn [negb Z.eqb]; by wp_step.
    - wp_step. wp_step. cbn [set_kb_dev modifier with_dev]. unfold KEYMOD_CTRL, KEYMOD_ALT, KEYMOD_SHFT.
      assert (Hm : wp (if modifier f =? 0 then is_modifier sc else mret 0)
        (fun m s' => m = (if (modifier f =? 0) && modifier_key sc then 1 else 0) /\ s' = with_dev k' f) (with_dev k' f)).
      { destruct (modifier f =? 0); [by apply wp_is_modifier | done]. }
      apply wp_bind. eapply wp_mono; [|exact Hm]. intros m s' [-> ->].
      destruct ((modifier f =? 0) && modifier_key sc); cbn [negb Z.eqb]; [by wp_step|].
      change (0 <= sc < 256) in Hsc. unfold press_key, press_nav.
      repeat match goal with
      | |- wp (if ?b then _ else _) _ _ => destruct b eqn:?
      | |- wp (mbind _ _) _ _ => apply wp_bind
      | |- wp (modify _) _ _ => apply wp_modify
      | |- wp (mret _) _ _ => apply wp_ret
      | |- wp (aget _ _) _ _ => apply wp_aget
      end; try done;
      repeat match goal with H : (_ && _)%bool = true |- _ => apply andb_true_iff in H; destruct H end; bprop;
      change (lenZ keys) with 128; change (lenZ shift_keys) with 128; lia. }
  apply wp_ok in Hw as ([] & s' & Hw & ->). exact Hw.
Qed.

Lemma wp_interrupts_quiet n k f (Q : unit -> kbd K -> Prop) :
  quiet (S n) k -> (forall k', quiet n k' -> Q tt (with_dev k' f)) -> wp interrupts Q (with_dev k f).
Proof.
  intros [Hi Hq] HQ. unfold wp, interrupts. cbn [with_dev kb_dev]. destruct (irq1 k) as [b k']. simpl in *. subst b.
  by apply HQ.
Qed.

Lemma wp_interrupts_fires k f sc k' (Q : unit -> kbd K -> Prop) :
  fires 0 k sc k' -> Q tt (with_dev k' (kbd_press sc f)) -> wp interrupts Q (with_dev k f).
Proof.
  intros (Hi & Hp & Hsc) HQ. unfold wp, interrupts. cbn [with_dev kb_dev]. destruct (irq1 k) as [b k2]. simpl in *. subst b.
  change (set_kb_dev k2 (with_dev k f)) with (with_dev k2 f). by rewrite (keyboard_handler_spec sc k2 f k').
Qed.
End Keyboard.

(** * The abstract editor *)

(** The place before the longest run of characters satisfying [P] that ends at
    [p]. *)
Definition back (P : Z -> bool) (t : list Z) (p : Z) : Z := p - prefix_len P (reverse (take (Z.to_nat p) t)).
Definition word_start (t : list Z) (p : Z) : Z :=
  back (fun c => negb (c =? 32)) t (back (fun c => c =? 32) t p).

Record editor : Type := mkEditor { text : list Z; place : Z; browsing : Z; hist_at : Z }.

Inductive event : Type :=
  | EvKey (c : Z)
  | EvNav (n : Z)
  | EvWord
  | EvClear
  | EvCancel
  | EvNone.

#[global] Instance event_eq_dec : EqDecision event.
Proof. solve_decision. Defined.

Section Spec.
Variables (size : Z) (hist : list (list Z)).

Definition hist_line (i : Z) : list Z := default [] (hist !! Z.to_nat i).
Definition recall (i : Z) (e : editor) : editor :=
  let t := take (Z.to_nat (size - 1)) (if i <? lenZ hist then hist_line i else []) in
  mkEditor t (lenZ t) 1 i.

Definition edit_key (c : Z) (e : editor) : editor :=
  let '(mkEditor t p _ h) := e in
  if c =? 8 then if p =? 0 then mkEditor t p 0 h else mkEditor (del (p - 1) p t) (p - 1) 0 h
  else if c =? 9 then mkEditor t p 0 h
  else if (0x20 <=? c) && (c <? 0x7F) && (lenZ t + 1 <? size) then mkEditor (ins p c t) (p + 1) 0 h
  else mkEditor t p 0 h.

Definition edit_nav (n : Z) (e : editor) : editor :=
  let '(mkEditor t p b h) := e in
  if n =? 1 then
    let h := if b =? 0 then lenZ hist else h in
    recall (if (lenZ hist =? 0) || (h <=? 0) then h else h - 1) e
  else if n =? 2 then recall (if negb (lenZ hist =? 0) && (h <? lenZ hist - 1) then h + 1 else h) e
  else if n =? 3 then mkEditor t (if 0 <? p then p - 1 else p) b h
  else if n =? 4 then mkEditor t (if p <? lenZ t then p + 1 else p) b h
  else e.

Definition edit_word (e : editor) : editor :=
  let '(mkEditor t p _ h) := e in mkEditor (del (word_start t p) p t) (word_start t p) 0 h.

(** [inr] is the line the editor returns. *)
Definition edit (ev : event) (e : editor) : editor + list Z :=
  match ev with
  | EvKey c => if c =? 10 then inr (text e) else inl (edit_key c e)
  | EvNav n => inl (edit_nav n e)
  | EvWord => inl (edit_word e)
  | EvClear => inl (mkEditor [] 0 0 (hist_at e))
  | EvCancel => inr []
  | EvNone => inl e
  end.
End Spec.

(** The key that waits in the variables, and the variables after it was
    served. *)
Definition pend (f : flags) : event :=
  if cancel_input f =? 1 then EvCancel
  else if do_clear_screen f =? 1 then EvClear
  else if (in_read f =? 1) && negb (nav_key f =? 0) then EvNav (nav_key f)
  else if (in_read f =? 1) && negb (word_del f =? 0) then EvWord
  else if (in_read f =? 1) && negb (read_key f =? 0) then EvKey (read_key f)
  else EvNone.

Definition served (ev : event) (f : flags) : flags :=
  match ev with
  | EvKey _ => set_read_key 0 (set_in_read 0 f)
  | EvNav _ => set_nav_key 0 (set_in_read 0 f)
  | EvWord => set_word_del 0 (set_in_read 0 f)
  | EvClear => set_do_clear_screen 0 f
  | EvCancel => set_cancel_input 0 f
  | EvNone => f
  end.

(** No key waits. *)
Definition idle (f : flags) : Prop :=
  cancel_input f = 0 /\ do_clear_screen f = 0 /\ nav_key f = 0 /\ word_del f = 0 /\ read_key f = 0.

(** The line typed by a sequence of scancodes, and the variables at the end. *)
Fixpoint typed_line (size : Z) (hist : list (list Z)) (f : flags) (e : editor) (scs : list Z) : option (list Z * flags) :=
  match scs with
  | [] => None
  | sc :: scs' =>
      let g := kbd_press sc f in
      match edit size hist (pend g) e with
      | inr t => Some (t, served (pend g) g)
      | inl e' => typed_line size hist (served (pend g) g) e' scs'
      end
  end.

Lemma idle_pend f : idle f -> pend f = EvNone.
Proof. intros (H1 & H2 & H3 & H4 & H5). unfold pend. rewrite H1, H2, H3, H4, H5. cbn. by rewrite andb_false_r. Qed.

(** A key press leaves one key waiting, or none. *)
Lemma press_served sc f : idle f -> idle (served (pend (kbd_press sc f)) (kbd_press sc f)).
Proof.
  intros (H1 & H2 & H3 & H4 & H5). destruct f as [? ir rk cl ca na wd cc mo]. simpl in *. subst.
  unfold kbd_press. cbn [modifier].
  repeat match goal with |- context [if ?b then _ else _] => lazymatch b with
    | context [if _ then _ else _] => fail | context [pend] => fail | _ => destruct b end end;
  unfold pend, after_key, after_nav; cbn;
  repeat match goal with |- context [if ?b then _ else _] => destruct b eqn:? end; cbn; split_and!; try done; cbn in *;
  rewrite ?andb_true_r, ?andb_false_r in *; bprop; try done; try lia.
Qed.

Lemma press_char sc f : 0 <= read_key f < 127 -> 0 <= read_key (kbd_press sc f) < 127.
Proof.
  assert (Hall : forall l i, forallb (fun v => (0 <=? v) && (v <? 127)) l = true -> 0 <= rd l i < 127).
  { intros l i Hl. unfold rd. rewrite nth_lookup. destruct (l !! Z.to_nat i) as [v|] eqn:Hv; [|simpl; lia].
    rewrite forallb_forall in Hl. apply list_elem_of_lookup_2, list_elem_of_In in Hv. apply Hl in Hv.
    apply andb_true_iff in Hv as [H1 H2]. bprop. simpl. lia. }
  pose proof (Hall keys sc eq_refl) as H1. pose proof (Hall shift_keys sc eq_refl) as H2. clear Hall.
  destruct f as [? ir rk cl ca na wd cc mo]. cbn [read_key]. intros H3. unfold kbd_press. cbn [modifier].
  generalize dependent (rd keys sc). generalize dependent (rd shift_keys sc). intros k1 Hk1 k2 Hk2.
  repeat match goal with |- context [if ?b then _ else _] => lazymatch b with
    | context [if _ then _ else _] => fail | _ => destruct b end end; cbn; lia.
Qed.

(** * The operations on the line *)

Section Editing.
Context {P K : Type} `{Ports P, KbdHw K}.
Variables (W Ht CL size : Z).
Implicit Types s : console P K.

(** A screen whose memory has room for the line below the prompt. *)
Definition tok (v : term P) : Prop := screen W Ht v /\ lenZ (cells v) = CL.
Definition room s : Prop := 0 <= g_base_cell s /\ g_base_cell s + size < CL.

Lemma tok_set_cells l v : tok v -> lenZ l = lenZ (cells v) -> tok (set_cells l v).
Proof. intros [Hs Hl] He. split; [by apply screen_set_cells | by rewrite cells_set_cells, He]. Qed.

Lemma wp_on_term {A} (m : M (term P) A) (Q : A -> console P K -> Prop) s :
  wp m (fun a v => Q a (set_scr v s)) (scr s) -> wp (on_term m) Q s.
Proof. apply wp_zoom. Qed.

Lemma set_scr_twice v v' s : set_scr v' (set_scr v s) = set_scr v' s.
Proof. done. Qed.

Lemma tok_numbers v : tok v -> term_width v = W /\ term_height v = Ht /\ 0 < W < 65536 /\ 0 < Ht < 65536 /\
  W * Ht <= CL < 2147483648.
Proof. intros [(_&?&?&?&?&?) <-]. done. Qed.

Lemma wp_cell_put k c (Q : unit -> console P K -> Prop) s :
  tok (scr s) -> room s -> 0 <= k < size -> (forall v, tok v -> Q tt (set_scr v s)) -> wp (cell_put k c) Q s.
Proof.
  intros Htok [Hb Hr] Hk HQ. destruct (tok_numbers _ Htok) as (Hw & Hh & ? & ? & ?).
  unfold cell_put. do 6 wp_step. rewrite Hw, Hh, u32_small by lia. wp_step. apply wp_udiv; [lia|].
  set (cell := g_base_cell s + k). assert (Hc : cell = cell / W * W + cell mod W) by (pose proof (Z.div_mod cell W); lia).
  pose proof (Z.mod_pos_bound cell W ltac:(lia)).
  destruct (Z.leb_spec Ht (cell / W)).
  - wp_step. pose proof (HQ (scr s) Htok) as Hq. by destruct s.
  - do 2 wp_step. apply wp_on_term. apply (wp_term_putch_at W Ht); [apply Htok | destruct Htok; lia |].
    apply HQ, tok_set_cells; [done | apply lenZ_wr].
Qed.

Lemma wp_cell_cursor p (Q : unit -> console P K -> Prop) s :
  tok (scr s) -> room s -> 0 <= p <= size ->
  (forall v, tok v -> t_row v = (g_base_cell s + p) / W -> t_col v = (g_base_cell s + p) mod W -> Q tt (set_scr v s)) ->
  wp (cell_cursor p) Q s.
Proof.
  intros Htok [Hb Hr] Hk HQ. destruct (tok_numbers _ Htok) as (Hw & Hh & ? & ? & ?).
  unfold cell_cursor. do 4 wp_step. rewrite Hw, u32_small by lia. wp_step. apply wp_udiv; [lia|].
  wp_step. apply wp_on_term. wp_step. wp_step. apply wp_on_term. wp_step. rewrite set_scr_twice.
  apply wp_on_term. unfold cursor_here. do 4 wp_step. apply wp_update_cursor. intros p'. rewrite set_scr_twice.
  by apply HQ.
Qed.

(** A loop that draws cells. *)
Lemma wp_cells (from to : Z) (body : Z -> unit -> M (console P K) (ctl unit Empty_set)) (Q : unit -> console P K -> Prop) s :
  tok (scr s) -> from <= to ->
  (forall k v, from <= k < to -> tok v ->
     wp (body k tt) (fun c s' => c = Cont tt /\ exists v', tok v' /\ s' = set_scr v' s) (set_scr v s)) ->
  (forall v, tok v -> Q tt (set_scr v s)) ->
  wp (locals (for_ (span from to) from tt body)) Q s.
Proof.
  intros Htok Hle Hbody HQ. apply wp_locals.
  apply (wp_for (fun _ _ s' => exists v, tok v /\ s' = set_scr v s)).
  - exists (scr s). split; [done | by destruct s].
  - intros k [] s' Hk (v & Hv & ->). unfold span in Hk. eapply wp_mono; [|apply Hbody; [lia | done]].
    by intros c s2 [-> Hs2].
  - intros [] s' (v & Hv & ->). by apply HQ.
Qed.

Lemma wp_cell_draw from buf len (Q : unit -> console P K -> Prop) s :
  tok (scr s) -> room s -> 0 <= from <= len -> len <= size -> len <= lenZ buf ->
  (forall v, tok v -> Q tt (set_scr v s)) -> wp (cell_draw from buf len) Q s.
Proof.
  intros Htok Hr Hf Hl Hb HQ. unfold cell_draw. apply wp_cells; [done | lia | | done].
  intros k v Hk Hv. wp_step. apply wp_aget; [lia|]. wp_step. apply wp_cell_put; [done | done | lia |].
  intros v' Hv'. rewrite set_scr_twice. wp_step. eauto.
Qed.

Lemma wp_cell_clear from to (Q : unit -> console P K -> Prop) s :
  tok (scr s) -> room s -> 0 <= from <= to -> to <= size ->
  (forall v, tok v -> Q tt (set_scr v s)) -> wp (cell_clear from to) Q s.
Proof.
  intros Htok Hr Hf Hl HQ. unfold cell_clear. apply wp_cells; [done | lia | | done].
  intros k v Hk Hv. wp_step. apply wp_cell_put; [done | done | lia |].
  intros v' Hv'. rewrite set_scr_twice. wp_step. eauto.
Qed.

(** The result of an operation: the buffer holds the new text; only the screen
    changed. *)
Definition edited (buf : list Z) s (t : list Z) (p : Z) (r : list Z * Z * Z) s' : Prop :=
  exists buf' v, r = (buf', lenZ t, p) /\ holds buf' t /\ lenZ buf' = lenZ buf /\ tok v /\ s' = set_scr v s.

Lemma edited_same buf s t p : holds buf t -> tok (scr s) -> edited buf s t p (buf, lenZ t, p) s.
Proof. intros Hb Htok. exists buf, (scr s). split_and!; try done. by destruct s. Qed.

Lemma wp_insert_char buf t p c (Q : list Z * Z * Z -> console P K -> Prop) s :
  tok (scr s) -> room s -> holds buf t -> 0 <= p <= lenZ t -> c <> 0 -> size <= lenZ buf -> lenZ t < size ->
  (forall r s', (if lenZ t + 1 <? size then edited buf s (ins p c t) (p + 1) r s' else edited buf s t p r s') -> Q r s') ->
  wp (insert_char buf size (lenZ t) p c) Q s.
Proof.
  intros Htok Hr Hb Hp Hc Hs Hlt HQ. unfold insert_char. pose proof Hb as (Hl & _).
  destruct (Z.leb_spec size (lenZ t + 1)).
  - wp_step. apply HQ. case_range; [lia|]. by apply edited_same.
  - cbv zeta. wp_step. apply wp_memmove; try lia. intros r Hcp. pose proof (proj1 Hcp) as Hlr.
    wp_step. apply wp_aset; [lia|]. wp_step. apply wp_cell_draw; try lia; try done; [rewrite lenZ_wr; lia|]. intros v Hv.
    wp_step. apply wp_cell_cursor; try lia; try done. intros v' Hv' _ _. rewrite set_scr_twice. wp_step. apply HQ.
    case_range; [|lia]. exists (wr r p c), v'. rewrite lenZ_ins, lenZ_wr by lia. split_and!; try done.
    apply (holds_ins buf t p c r); done || lia.
Qed.

Lemma wp_close_gap buf t p q (Q : list Z * Z * Z -> console P K -> Prop) s :
  tok (scr s) -> room s -> holds buf t -> 0 <= p <= q -> q <= lenZ t -> size <= lenZ buf -> lenZ t < size ->
  (forall r s', edited buf s (del p q t) p r s' -> Q r s') ->
  wp (buf ← memmove buf p q (lenZ t - q + 1);
      cell_draw p buf (lenZ t - (q - p));;
      cell_clear (lenZ t - (q - p)) (lenZ t);;
      cell_cursor p;;
      mret (buf, lenZ t - (q - p), p)) Q s.
Proof.
  intros Htok Hr Hb Hp Hq Hs Hlt HQ. pose proof Hb as (Hl & _).
  wp_step. apply wp_memmove; try lia. intros r Hcp. pose proof (proj1 Hcp) as Hlr.
  wp_step. apply wp_cell_draw; try lia; try done. intros v Hv.
  wp_step. apply wp_cell_clear; try lia; try done. intros v2 Hv2. rewrite set_scr_twice.
  wp_step. apply wp_cell_cursor; try lia; try done. intros v3 Hv3 _ _. rewrite set_scr_twice. wp_step. apply HQ.
  exists r, v3. rewrite lenZ_del by lia. split_and!; try done. by apply (holds_del buf).
Qed.

Lemma wp_backspace_at buf t p (Q : list Z * Z * Z -> console P K -> Prop) s :
  tok (scr s) -> room s -> holds buf t -> 0 <= p <= lenZ t -> size <= lenZ buf -> lenZ t < size ->
  (forall r s', (if p =? 0 then edited buf s t p r s' else edited buf s (del (p - 1) p t) (p - 1) r s') -> Q r s') ->
  wp (backspace_at buf (lenZ t) p) Q s.
Proof.
  intros Htok Hr Hb Hp Hs Hlt HQ. unfold backspace_at. cbv zeta. destruct (Z.eqb_spec p 0).
  - wp_step. by apply HQ, edited_same.
  - replace (lenZ t - 1) with (lenZ t - (p - (p - 1))) by lia. apply wp_close_gap; try lia; done.
Qed.

Lemma rd_reverse (l : list Z) i : 0 <= i < lenZ l -> rd (reverse l) i = rd l (lenZ l - 1 - i).
Proof.
  unfold lenZ, rd. intros Hi. rewrite !nth_lookup, reverse_lookup by lia. do 2 f_equal. lia.
Qed.

Lemma back_bound Pr t p : 0 <= p <= lenZ t -> 0 <= back Pr t p <= p.
Proof.
  intros Hp. unfold back. pose proof (prefix_len_bound Pr (reverse (take (Z.to_nat p) t))) as Hb.
  assert (lenZ (reverse (take (Z.to_nat p) t)) = p) by (unfold lenZ in *; rewrite length_reverse, length_take; lia). lia.
Qed.

Lemma wp_scan_back Pr buf t p (Q : Z -> console P K -> Prop) s :
  holds buf t -> 0 <= p <= lenZ t -> Q (back Pr t p) s -> wp (scan_back Pr buf p) Q s.
Proof.
  intros (Hl & _ & Hr & _) Hp HQ. pose proof (back_bound Pr t p Hp) as Hb. unfold back in *.
  set (l := reverse (take (Z.to_nat p) t)) in *.
  assert (Hll : lenZ l = p) by (unfold l, lenZ in *; rewrite length_reverse, length_take; lia).
  assert (Hrd : forall q, 0 < q <= p -> rd buf (q - 1) = rd l (p - q)).
  { intros q Hq. unfold l. rewrite rd_reverse; rewrite lenZ_take by lia; [|lia].
    rewrite rd_take by lia. rewrite Hr by lia. f_equal. lia. }
  unfold scan_back. apply wp_locals.
  apply (wp_while (fun q s' => s' = s /\ p - prefix_len Pr l <= q <= p) (fun q _ => Z.to_nat q)).
  - lia || (split; [done | lia]).
  - unfold lenZ in *. lia.
  - intros q s' [-> Hq]. destruct (Z.ltb_spec 0 q).
    + wp_step. apply wp_aget; [lia|]. rewrite Hrd by lia.
      destruct (decide (p - q < prefix_len Pr l)) as [Hin|Hout].
      * rewrite (prefix_len_in Pr l (p - q)) by lia. wp_step. split; [split; [done | lia] | lia].
      * replace (p - q) with (prefix_len Pr l) by lia. rewrite prefix_len_end by lia. wp_step.
        by replace q with (p - prefix_len Pr l) by lia.
    + wp_step. by replace q with (p - prefix_len Pr l) by lia.
Qed.

Lemma del_same p t : 0 <= p -> del p p t = t.
Proof. intros Hp. unfold del. apply take_drop. Qed.

Lemma wp_delete_word buf t p (Q : list Z * Z * Z -> console P K -> Prop) s :
  tok (scr s) -> room s -> holds buf t -> 0 <= p <= lenZ t -> size <= lenZ buf -> lenZ t < size ->
  (forall r s', edited buf s (del (word_start t p) p t) (word_start t p) r s' -> Q r s') ->
  wp (delete_word buf (lenZ t) p) Q s.
Proof.
  intros Htok Hr Hb Hp Hs Hlt HQ. unfold delete_word. cbv zeta.
  pose proof (back_bound (fun c => c =? 32) t p Hp) as Hb1.
  pose proof (back_bound (fun c => negb (c =? 32)) t (back (fun c => c =? 32) t p) ltac:(lia)) as Hb2.
  fold (word_start t p) in Hb2. destruct (Z.eqb_spec p 0) as [->|].
  - wp_step. apply HQ. replace (word_start t 0) with 0 by lia. rewrite del_same by lia. by apply edited_same.
  - wp_step. apply (wp_scan_back _ buf t); [done | lia |]. wp_step. apply (wp_scan_back _ buf t); [done | lia |].
    fold (word_start t p). destruct (Z.eqb_spec (word_start t p) p) as [He|].
    + wp_step. apply HQ. rewrite He, del_same by lia. by apply edited_same.
    + apply wp_close_gap; try lia; done.
Qed.

Lemma wp_cursor_left (t : list Z) p (Q : Z -> console P K -> Prop) s :
  tok (scr s) -> room s -> 0 <= p <= lenZ t -> lenZ t < size ->
  (forall v, tok v -> Q (if 0 <? p then p - 1 else p) (set_scr v s)) -> wp (cursor_left p) Q s.
Proof.
  intros Htok Hr Hp Hlt HQ. unfold cursor_left. case_range.
  - wp_step. apply wp_cell_cursor; try lia; try done. intros v Hv _ _. wp_step. by apply HQ.
  - wp_step. pose proof (HQ (scr s) Htok). by destruct s.
Qed.

Lemma wp_cursor_right (t : list Z) p (Q : Z -> console P K -> Prop) s :
  tok (scr s) -> room s -> 0 <= p <= lenZ t -> lenZ t < size ->
  (forall v, tok v -> Q (if p <? lenZ t then p + 1 else p) (set_scr v s)) -> wp (cursor_right p (lenZ t)) Q s.
Proof.
  intros Htok Hr Hp Hlt HQ. unfold cursor_right. case_range.
  - wp_step. apply wp_cell_cursor; try lia; try done. intros v Hv _ _. wp_step. by apply HQ.
  - wp_step. pose proof (HQ (scr s) Htok). by destruct s.
Qed.

Lemma wp_replace_line buf i (line : list Z) (Q : list Z * Z -> console P K -> Prop) s :
  let t := take (Z.to_nat (size - 1)) (cstr line) in
  tok (scr s) -> room s -> 0 <= i < size -> size <= lenZ buf -> terminated line ->
  (forall buf' v, holds buf' t -> lenZ buf' = lenZ buf -> tok v -> Q (buf', lenZ t) (set_scr v s)) ->
  wp (replace_line buf size i line) Q s.
Proof.
  intros t Htok Hr Hi Hs Hterm HQ. unfold replace_line. cbv zeta. unfold terminated in Hterm.
  pose proof (lenZ_nonneg (cstr line)).
  assert (Hlt : lenZ t = Z.min (size - 1) (lenZ (cstr line))) by (unfold t, lenZ; rewrite length_take; lia).
  wp_step. apply wp_cell_clear; try lia; try done. intros v Hv. wp_step. apply wp_locals.
  apply (wp_while (fun '(j, b) s' => s' = set_scr v s /\ 0 <= j <= lenZ t /\ lenZ b = lenZ buf /\
      forall k, 0 <= k < j -> rd b k = rd line k) (fun '(j, _) _ => Z.to_nat (lenZ t - j))).
  - split_and!; try done; lia.
  - unfold lenZ in *. lia.
  - intros [j b] s' (-> & Hj & Hlb & Hb). wp_step. apply wp_aget; [lia|].
    destruct (decide (j < lenZ t)).
    + pose proof (cstr_nonzero line j ltac:(lia)). destruct (Z.eqb_spec (rd line j) 0); [done|].
      destruct (Z.ltb_spec j (size - 1)); [|lia]. cbn [negb andb]. wp_step. apply wp_aset; [lia|]. wp_step.
      split; [|lia]. split_and!; try done; try lia; [by rewrite lenZ_wr|].
      intros k Hk. rewrite rd_wr by lia. case_range; [by subst|]. apply Hb. lia.
    + assert (Hstop : negb (rd line j =? 0) && (j <? size - 1) = false).
      { destruct (Z.ltb_spec j (size - 1)); [|apply andb_false_r]. assert (j = lenZ (cstr line)) as -> by lia.
        by rewrite cstr_end by done. }
      rewrite Hstop. wp_step. cbv beta iota. assert (j = lenZ t) as -> by lia.
      wp_step. apply wp_aset; [lia|]. wp_step. apply wp_cell_draw; try lia; try done; [rewrite lenZ_wr; lia|]. intros v2 Hv2.
      wp_step. apply wp_cell_cursor; try lia; try done. intros v3 Hv3 _ _. rewrite !set_scr_twice. wp_step.
      apply HQ; [|by rewrite lenZ_wr | done]. split; [rewrite lenZ_wr; lia|]. split; [apply Forall_take, nonzeros_cstr|].
      split; [|rewrite rd_wr_eq by lia; done]. intros k Hk. rewrite rd_wr by lia. case_range; [lia|].
      rewrite Hb by lia. unfold t. rewrite rd_take, rd_cstr by lia. done.
Qed.
End Editing.

(** * Polling *)

Section Polling.
Context {P K : Type} `{Ports P, KbdHw K}.
Implicit Types (c : console P K) (k : K) (f : flags) (v : term P).

(** The device delivers the scancodes [scs], the first one after at least [n]
    polls, the others at least 24 polls after the one before. *)
Fixpoint paced (n : nat) k (scs : list Z) : Prop :=
  match scs with
  | [] => quiet n k
  | sc :: scs' => exists a k', (n <= a)%nat /\ fires a k sc k' /\ paced 24 k' scs'
  end.

Lemma quiet_le n m k : (m <= n)%nat -> quiet n k -> quiet m k.
Proof.
  revert m k. induction n as [|n IH]; intros [|m] k Hle; simpl; try done; [lia|]. intros [? ?]. split; [done|].
  apply IH; [lia | done].
Qed.

Lemma paced_le n m k scs : (m <= n)%nat -> paced n k scs -> paced m k scs.
Proof.
  destruct scs as [|sc scs]; [by apply quiet_le|]. intros Hle (a & k' & Ha & Hf). exists a, k'. split; [lia | done].
Qed.

Lemma paced_poll n k scs : paced (S n) k scs -> fst (irq1 k) = false /\ paced n (snd (irq1 k)) scs.
Proof.
  destruct scs as [|sc scs]; [done|]. intros (a & k' & Ha & Hf & Hp). destruct a as [|a]; [lia|].
  destruct Hf as [? Hf]. split; [done|]. exists a, k'. split; [lia | done].
Qed.

(** A console by its parts. *)
Definition mk k f v c : console P K := set_kb (with_dev k f) (set_scr v c).

Lemma wp_kbd_poll n k f v c scs (Q : unit -> console P K -> Prop) :
  paced (S n) k scs -> (forall k', paced n k' scs -> Q tt (mk k' f v c)) -> wp (on_kbd interrupts) Q (mk k f v c).
Proof.
  intros [Hi Hp]%paced_poll HQ. apply wp_zoom. unfold wp, interrupts. cbn [mk kb set_kb with_dev kb_dev].
  destruct (irq1 k) as [b k']. simpl in *. subst b. by apply HQ.
Qed.

Lemma wp_vget (g : kbd K -> Z) n k f v c scs (Q : Z -> console P K -> Prop) :
  paced (S n) k scs -> (forall k', paced n k' scs -> Q (g (with_dev k' f)) (mk k' f v c)) ->
  wp (vget g) Q (mk k f v c).
Proof. intros Hp HQ. unfold vget. wp_step. eapply wp_kbd_poll; [exact Hp|]. intros k' Hk'. wp_step. by apply HQ. Qed.

Lemma wp_vset (g : kbd K -> kbd K) (h : flags -> flags) n k f v c scs (Q : unit -> console P K -> Prop) :
  (forall k', g (with_dev k' f) = with_dev k' (h f)) ->
  paced (S n) k scs -> (forall k', paced n k' scs -> Q tt (mk k' (h f) v c)) -> wp (vset g) Q (mk k f v c).
Proof.
  intros Hg Hp HQ. unfold vset. wp_step. eapply wp_kbd_poll; [exact Hp|]. intros k' Hk'. apply wp_zoom. wp_step.
  cbn [mk kb set_kb]. rewrite Hg. by apply HQ.
Qed.

Lemma wp_pressed (g : kbd K -> Z) x n k f v c scs (Q : bool -> console P K -> Prop) :
  (forall k', g (with_dev k' f) = x) -> paced (S (S n)) k scs ->
  (forall k', paced n k' scs -> Q ((in_read f =? 1) && negb (x =? 0)) (mk k' f v c)) -> wp (pressed g) Q (mk k f v c).
Proof.
  intros Hg Hp HQ. unfold pressed. wp_step. eapply wp_vget; [exact Hp|]. intros k1 Hk1. cbn [in_read with_dev].
  destruct (in_read f =? 1).
  - wp_step. eapply wp_vget; [exact Hk1|]. intros k2 Hk2. wp_step. rewrite Hg. by apply HQ.
  - wp_step. apply HQ. by apply (paced_le (S n)); [lia|].
Qed.

Lemma press_in_read sc f : in_read f = 1 -> in_read (kbd_press sc f) = 1.
Proof.
  destruct f as [? ir rk cl ca na wd cc mo]. cbn [in_read]. intros ->. unfold kbd_press. cbn [modifier].
  repeat match goal with |- context [if ?b then _ else _] => lazymatch b with
    | context [if _ then _ else _] => fail | _ => destruct b end end; done.
Qed.

(** The same when the next key comes at some time. *)
Lemma wp_kbd_poll_key a k sc k1 f v c (Q : unit -> console P K -> Prop) :
  fires a k sc k1 -> Q tt (mk k1 (kbd_press sc f) v c) ->
  (forall a' k', (a' < a)%nat -> fires a' k' sc k1 -> Q tt (mk k' f v c)) -> wp (on_kbd interrupts) Q (mk k f v c).
Proof.
  intros Hf H1 H2. apply wp_zoom. destruct a as [|a].
  - eapply wp_interrupts_fires; [exact Hf|]. exact H1.
  - destruct Hf as [Hi Hf]. unfold wp, interrupts. cbn [mk kb set_kb with_dev kb_dev]. destruct (irq1 k) as [b k'].
    simpl in *. subst b. apply (H2 a); [lia | done].
Qed.

Lemma wp_vget_key (g : kbd K -> Z) a k sc k1 f v c (Q : Z -> console P K -> Prop) :
  fires a k sc k1 -> Q (g (with_dev k1 (kbd_press sc f))) (mk k1 (kbd_press sc f) v c) ->
  (forall a' k', (a' < a)%nat -> fires a' k' sc k1 -> Q (g (with_dev k' f)) (mk k' f v c)) ->
  wp (vget g) Q (mk k f v c).
Proof.
  intros Hf H1 H2. unfold vget. wp_step. eapply wp_kbd_poll_key; [exact Hf | by wp_step|].
  intros a' k' Ha Hf'. wp_step. by apply (H2 a').
Qed.

Lemma wp_pressed_key (g : kbd K -> Z) x scs a k sc k1 f v c (Q : bool -> console P K -> Prop) :
  (forall k', g (with_dev k' f) = 0) -> (forall k', g (with_dev k' (kbd_press sc f)) = x) ->
  fires a k sc k1 -> paced 24 k1 scs ->
  (forall k', paced 23 k' scs -> Q ((in_read (kbd_press sc f) =? 1) && negb (x =? 0)) (mk k' (kbd_press sc f) v c)) ->
  (forall a' k', (a' < a)%nat -> fires a' k' sc k1 -> Q false (mk k' f v c)) ->
  wp (pressed g) Q (mk k f v c).
Proof.
  intros Hg Hx Hf Hp H1 H2. unfold pressed. wp_step. eapply wp_vget_key; [exact Hf | |].
  - cbn [in_read with_dev]. destruct (in_read (kbd_press sc f) =? 1).
    + wp_step. eapply wp_vget; [exact Hp|]. intros k2 Hk2. wp_step. rewrite Hx. by apply H1.
    + wp_step. apply H1. by apply (paced_le 24); [lia|].
  - intros a' k' Ha' Hf'. cbn [in_read with_dev]. destruct (Z.eqb_spec (in_read f) 1) as [Hr|_].
    + wp_step. eapply wp_vget_key; [exact Hf' | |].
      * wp_step. rewrite Hx. pose proof (H1 k1 ltac:(by apply (paced_le 24); [lia|])) as Hq.
        rewrite (press_in_read sc f Hr) in Hq. exact Hq.
      * intros a2 k2 Ha2 Hf2. wp_step. rewrite Hg. apply (H2 a2); [lia | done].
    + wp_step. by apply (H2 a').
Qed.
End Polling.

(** * Serving a key *)

Section Serving.
Context {P K : Type} `{Ports P, KbdHw K}.
Variables (W Ht CL size LB : Z) (hist : list (list Z)).
Hypothesis Hsize : 0 < size <= LB.
Hypothesis Hcells : W * Ht + size < CL.
Hypothesis Hscreen : W <= TERM_MAX_W /\ Ht <= TERM_MAX_H.
Implicit Types (c : console P K) (k : K) (f : flags) (v : term P) (e : editor) (l : line_state).

(** The prompt prints without tabs. *)
Definition cwd_ok (cwd : list Z) : Prop :=
  terminated cwd /\ lenZ (cstr cwd) < 254 /\ Forall (fun x => x <> 9) (cstr cwd).

Definition hist_ok c : Prop :=
  s_hist_count c = lenZ hist /\
  forall i, 0 <= i < lenZ hist -> exists row, s_hist c !! Z.to_nat i = Some row /\ terminated row /\ cstr row = hist_line hist i.

(** What the editor does not change. *)
Definition around c : Prop := 0 <= g_base_cell c < W * Ht /\ hist_ok c /\ cwd_ok (g_cwd c).

Definition represents e l c : Prop :=
  l_i l = lenZ (text e) /\ l_pos l = place e /\ l_hooked l = browsing e /\ holds (l_buf l) (text e) /\
  lenZ (l_buf l) = LB /\ 0 <= place e <= lenZ (text e) /\ lenZ (text e) < size /\
  s_hist_pos c = hist_at e /\ 0 <= hist_at e /\ around c.

Definition serves scs (ev : event) e f (r : ctl line_state (Z * list Z)) (s : console P K) : Prop :=
  match edit size hist ev e with
  | inl e' => exists l k v c, r = Cont l /\ s = mk k (served ev f) v c /\ paced 0 k scs /\ tok W Ht CL v /\ represents e' l c
  | inr t => exists buf k v c, r = Ret (lenZ t, buf) /\ s = mk k (served ev f) v c /\ paced 0 k scs /\ holds buf t /\ lenZ buf = LB
  end.

Lemma around_room c : around c -> room CL size c.
Proof. intros ([? ?] & _). split; lia. Qed.

Lemma holds_zero buf t : holds buf t -> wr buf (lenZ t) 0 = buf.
Proof. intros (Hl & _ & _ & Hz). rewrite <- Hz at 1. apply wr_rd. Qed.

(** One poll of a device that stays quiet. *)
Ltac flag_setter t :=
  lazymatch t with
  | set_in_read ?x => constr:(set_in_read (K := unit) x)
  | set_read_key ?x => constr:(set_read_key (K := unit) x)
  | set_nav_key ?x => constr:(set_nav_key (K := unit) x)
  | set_word_del ?x => constr:(set_word_del (K := unit) x)
  | set_do_clear_screen ?x => constr:(set_do_clear_screen (K := unit) x)
  | set_cancel_input ?x => constr:(set_cancel_input (K := unit) x)
  end.
Ltac poll :=
  lazymatch goal with
  | Hp : paced (S ?n) ?k ?scs |- wp (vset ?g) _ (mk ?k _ _ _) =>
      let h := flag_setter g in eapply (wp_vset _ h); [reflexivity | exact Hp |]
  | Hp : paced (S ?n) ?k ?scs |- wp (vget _) _ (mk ?k _ _ _) => eapply wp_vget; [exact Hp |]
  end;
  let k' := fresh "k" in let Hk' := fresh "Hpaced" in intros k' Hk';
  cbn [read_key nav_key in_read with_dev set_in_read set_read_key set_nav_key].

Lemma represents_keep e l c c' : represents e l c -> around c' -> s_hist_pos c' = s_hist_pos c -> represents e l c'.
Proof. intros (?&?&?&?&?&?&?&?&?&?) ? ?. do 7 (split; [assumption|]). split; [congruence|]. by split. Qed.

(** The end of every edit: the buffer is terminated again and the key is
    taken. *)
Lemma serve_key ch f e l c k v scs :
  read_key f = ch -> 0 < ch < 127 -> tok W Ht CL v -> represents e l c -> paced 8 k scs ->
  wp (readline_key size l) (fun r s => serves scs (EvKey ch) e f (match r with inl l => Cont l | inr x => Ret x end) s)
    (mk k f v c).
Proof.
  intros Hk Hch Htok Hrep Hp. destruct l as [buf i pos hooked], e as [t p b h].
  pose proof Hrep as (Hi & Hpos & _ & Hb & Hlb & Hpl & Hlt & Hh & Hh0 & Har).
  cbn [l_i l_pos l_buf text place browsing hist_at] in *. subst i pos.
  assert (Hfin : forall t' p' v' buf' k' n, paced (S n) k' scs -> holds buf' t' -> lenZ buf' = LB -> tok W Ht CL v' ->
    0 <= p' <= lenZ t' -> lenZ t' < size -> ch <> 10 -> edit_key size ch (mkEditor t p b h) = mkEditor t' p' 0 h ->
    wp (buf ← aset buf' (lenZ t') 0; vset (set_read_key 0);; mret (inl (mkLine buf (lenZ t') p' 0)))
      (fun r s => serves scs (EvKey ch) (mkEditor t p b h) f (match r with inl l => Cont l | inr x => Ret x end) s)
      (mk k' (set_in_read 0 f) v' c)).
  { intros t' p' v' buf' k' n Hk' Hb' Hlb' Hv' Hp' Ht' Hne He. pose proof (lenZ_nonneg t'). pose proof (proj1 Hb').
    wp_step. apply wp_aset; [lia|]. rewrite holds_zero by done. wp_step. poll. wp_step.
    unfold serves, edit. destruct (Z.eqb_spec ch 10); [done|]. rewrite He.
    eexists _, _, v', c. split; [done|]. split; [reflexivity|]. split; [by apply (paced_le n); [lia|]|]. split; [done|].
    split_and!; try done; simpl; lia. }
  unfold readline_key. wp_step. poll. wp_step. poll. rewrite Hk.
  destruct (Z.eqb_spec ch 10) as [->|Hne].
  { wp_step. poll. wp_step. eexists _, _, v, c. split_and!; [done | reflexivity | by eapply (paced_le 5); [lia|] | done..]. }
  pose proof (around_room c Har) as Hroom.
  wp_step. poll. rewrite Hk. wp_step. destruct (Z.eqb_spec ch 8) as [->|Hn8].
  { apply (wp_backspace_at W Ht CL size buf t p); try done; try lia. intros r s' Hr.
    destruct (Z.eqb_spec p 0) as [->|Hp0]; destruct Hr as (buf' & v' & -> & Hb' & Hl' & Hv' & ->); cbv beta iota.
    - apply (Hfin t 0 v' buf' _ 4%nat); try done; try lia; congruence.
    - apply (Hfin (del (p - 1) p t) (p - 1) v' buf' _ 4%nat); try done; try congruence; rewrite ?lenZ_del by lia; try lia.
      simpl. by destruct (Z.eqb_spec p 0). }
  wp_step. poll. rewrite Hk. destruct (Z.eqb_spec ch 9) as [->|Hn9].
  { wp_step. apply (Hfin t p v buf _ 3%nat); try done; try lia. }
  wp_step. poll. rewrite Hk. replace (s8 ch) with ch by (unfold s8, u8; rewrite Z.mod_small by lia; case_range; lia).
  wp_step. destruct (Z.leb_spec 0x20 ch) as [Hge|Hlt20].
  - wp_step. poll. rewrite Hk. replace (s8 ch) with ch by (unfold s8, u8; rewrite Z.mod_small by lia; case_range; lia).
    wp_step. destruct (Z.ltb_spec ch 0x7F) as [Hlt7f|]; [|lia]. wp_step. poll. rewrite Hk.
    apply (wp_insert_char W Ht CL size buf t p); try done; try lia. intros r s' Hr.
    destruct (Z.ltb_spec (lenZ t + 1) size) as [Hfit|Hfull]; destruct Hr as (buf' & v' & -> & Hb' & Hl' & Hv' & ->); cbv beta iota.
    + apply (Hfin (ins p ch t) (p + 1) v' buf' _ 0%nat); try done; try congruence; rewrite ?lenZ_ins by lia; try lia.
      simpl. case_range; lia || done.
    + apply (Hfin t p v' buf' _ 0%nat); try done; try congruence; try lia. simpl. case_range; lia || done.
  - wp_step. wp_step. apply (Hfin t p v buf _ 2%nat); try done; try lia. simpl. case_range; lia || done.
Qed.

Lemma word_start_bound t p : 0 <= p <= lenZ t -> 0 <= word_start t p <= p.
Proof.
  intros Hp. pose proof (back_bound (fun x => x =? 32) t p Hp).
  pose proof (back_bound (fun x => negb (x =? 32)) t (back (fun x => x =? 32) t p) ltac:(lia)). unfold word_start. lia.
Qed.

(** Alt+Backspace. *)
Lemma serve_word f e l c k v scs :
  tok W Ht CL v -> represents e l c -> paced 2 k scs ->
  wp (vset (set_in_read 0);;
      r ← delete_word (l_buf l) (l_i l) (l_pos l);
      let '(buf, i, pos) := r in
      vset (set_word_del 0);;
      buf ← aset buf i 0;
      mret (Cont (mkLine buf i pos 0))) (serves scs EvWord e f) (mk k f v c).
Proof.
  intros Htok Hrep Hp. destruct l as [buf i pos hooked], e as [t p b h].
  pose proof Hrep as (Hi & Hpos & _ & Hb & Hlb & Hpl & Hlt & Hh & Hh0 & Har).
  cbn [l_i l_pos l_buf text place browsing hist_at] in *. subst i pos.
  pose proof (word_start_bound t p Hpl). wp_step. poll. wp_step.
  apply (wp_delete_word W Ht CL size buf t p); try done; try lia; [by apply around_room|].
  intros r s' (buf' & v' & -> & Hb' & Hl' & Hv' & ->). pose proof (lenZ_del (word_start t p) p t ltac:(lia) ltac:(lia)) as Hld.
  wp_step. change (set_scr v' (mk k0 (set_in_read 0 f) v c)) with (mk k0 (set_in_read 0 f) v' c). poll.
  pose proof (lenZ_nonneg (del (word_start t p) p t)). pose proof (proj1 Hb').
  wp_step. apply wp_aset; [lia|]. rewrite holds_zero by done. wp_step.
  eexists _, _, v', c. split; [done|]. split; [reflexivity|]. split; [done|]. split; [done|].
  split_and!; try done; simpl; lia.
Qed.

Lemma wp_hist_current p c k f v (Q : option (list Z) -> console P K -> Prop) :
  hist_ok c -> s_hist_pos c = p -> 0 <= p ->
  (forall cur, terminated (line_of cur) -> cstr (line_of cur) = (if p <? lenZ hist then hist_line hist p else []) ->
     Q cur (mk k f v c)) ->
  wp shell_history_current Q (mk k f v c).
Proof.
  intros [Hn Hrows] Hp Hp0 HQ. unfold shell_history_current. do 4 wp_step.
  change (s_hist_pos (mk k f v c)) with (s_hist_pos c). change (s_hist_count (mk k f v c)) with (s_hist_count c).
  rewrite Hp, Hn. destruct (Z.ltb_spec p (lenZ hist)).
  - destruct (Hrows p ltac:(lia)) as (row & Hrow & Hterm & Hc). wp_step. unfold hist_row. do 2 wp_step.
    change (s_hist (mk k f v c)) with (s_hist c). rewrite Hrow. destruct (Z.leb_spec 0 p); [|lia]. do 2 wp_step. by apply HQ.
  - wp_step. apply HQ; done.
Qed.

(** Showing the history entry [p]. *)
Lemma wp_recall p e buf c k f v (Q : line_state -> console P K -> Prop) :
  tok W Ht CL v -> around c -> holds buf (text e) -> lenZ buf = LB -> lenZ (text e) < size ->
  s_hist_pos c = p -> 0 <= p ->
  (forall l v', tok W Ht CL v' -> represents (recall size hist p e) l c -> Q l (mk k f v' c)) ->
  wp (cur ← shell_history_current;
      r ← replace_line buf size (lenZ (text e)) (line_of cur);
      mret (mkLine (fst r) (snd r) (snd r) 1)) Q (mk k f v c).
Proof.
  intros Htok Har Hb Hlb Hlt Hp Hp0 HQ. wp_step. pose proof (lenZ_nonneg (text e)).
  apply (wp_hist_current p); [apply Har | done | done |]. intros cur Hterm Hc. wp_step.
  apply (wp_replace_line W Ht CL size); try done; try lia; [by apply around_room|].
  intros buf' v' Hb' Hl' Hv'. wp_step. rewrite Hc in *. set (t := take _ _) in *.
  change (set_scr v' (mk k f v c)) with (mk k f v' c). apply HQ; [done|].
  assert (Hlt' : lenZ t < size) by (unfold t, lenZ; rewrite length_take; lia). pose proof (lenZ_nonneg t).
  unfold recall. fold t. split_and!; try done; simpl; lia.
Qed.

Lemma around_hist_pos p c : around c -> around (set_s_hist_pos p c).
Proof. done. Qed.

(** A navigation key. *)
Lemma serve_nav n f e l c k v scs :
  nav_key f = n -> n <> 0 -> tok W Ht CL v -> represents e l c -> paced 6 k scs ->
  wp (l ← readline_nav size l; vset (set_nav_key 0);; mret (Cont l)) (serves scs (EvNav n) e f) (mk k f v c).
Proof.
  intros Hn Hn0 Htok Hrep Hp. destruct l as [buf i pos hooked], e as [t p b h].
  pose proof Hrep as (Hi & Hpos & Hhk & Hb & Hlb & Hpl & Hlt & Hh & Hh0 & Har).
  cbn [l_i l_pos l_buf l_hooked text place browsing hist_at] in *. subst i pos hooked.
  assert (Hfin : forall e' l' c' v' k' n', paced (S n') k' scs -> tok W Ht CL v' -> represents e' l' c' ->
    edit_nav size hist n (mkEditor t p b h) = e' ->
    wp (vset (set_nav_key 0);; mret (Cont l')) (serves scs (EvNav n) (mkEditor t p b h) f) (mk k' (set_in_read 0 f) v' c')).
  { intros e' l' c' v' k' n' Hk' Hv' Hr' <-. wp_step. poll. wp_step.
    eexists _, _, v', c'. split; [done|]. split; [reflexivity|]. split; [by apply (paced_le n'); [lia|]|]. done. }
  pose proof Har as (_ & (Hcount & _) & _). pose proof (lenZ_nonneg hist).
  unfold readline_nav. wp_step. wp_step. poll. wp_step. poll. rewrite Hn.
  destruct (Z.eqb_spec n 1) as [->|Hn1].
  { set (h0 := if b =? 0 then lenZ hist else h).
    assert (Hpos : wp (if b =? 0 then n ← shell_history_count; shell_history_pos_set n else mret tt)
      (fun _ s' => s' = mk k1 (set_in_read 0 f) v (set_s_hist_pos h0 c)) (mk k1 (set_in_read 0 f) v c)).
    { unfold h0, shell_history_count, shell_history_pos_set. destruct (b =? 0).
      - do 3 wp_step. change (s_hist_count (mk k1 (set_in_read 0 f) v c)) with (s_hist_count c). by rewrite Hcount.
      - wp_step. rewrite <- Hh. by destruct c. }
    wp_step. eapply wp_mono; [|exact Hpos]. intros [] s' ->. 
    set (h1 := if (lenZ hist =? 0) || (h0 <=? 0) then h0 else h0 - 1).
    assert (Hprev : wp shell_history_prev (fun _ s' => s' = mk k1 (set_in_read 0 f) v (set_s_hist_pos h1 c))
      (mk k1 (set_in_read 0 f) v (set_s_hist_pos h0 c))).
    { unfold h1, shell_history_prev. do 2 wp_step. cbn [s_hist_count mk set_kb set_scr set_s_hist_pos]. rewrite Hcount.
      destruct (lenZ hist =? 0); [by wp_step|]. do 2 wp_step. cbn [s_hist_pos mk set_kb set_scr set_s_hist_pos].
      destruct (Z.ltb_spec 0 h0), (Z.leb_spec h0 0); try lia; by wp_step. }
    wp_step. eapply wp_mono; [|exact Hprev]. intros [] s' ->.
    apply (wp_recall h1 (mkEditor t p b h)); try done; [unfold h1, h0; repeat case_match; bprop; lia|].
    intros l' v' Hv' Hr'. eapply (Hfin _ _ _ _ _ 3%nat); [done..|]. simpl. done. }
  wp_step. poll. rewrite Hn. destruct (Z.eqb_spec n 2) as [->|Hn2].
  { set (h1 := if negb (lenZ hist =? 0) && (h <? lenZ hist - 1) then h + 1 else h).
    assert (Hnext : wp shell_history_next (fun _ s' => s' = mk k2 (set_in_read 0 f) v (set_s_hist_pos h1 c))
      (mk k2 (set_in_read 0 f) v c)).
    { unfold h1, shell_history_next. do 2 wp_step. change (s_hist_count (mk k2 (set_in_read 0 f) v c)) with (s_hist_count c).
      rewrite Hcount. destruct (lenZ hist =? 0); cbn [negb andb]; [wp_step; rewrite <- Hh; by destruct c|]. do 2 wp_step.
      change (s_hist_pos (mk k2 (set_in_read 0 f) v c)) with (s_hist_pos c). rewrite Hh.
      destruct (h <? lenZ hist - 1); wp_step; [done | rewrite <- Hh; by destruct c]. }
    wp_step. eapply wp_mono; [|exact Hnext]. intros [] s' ->.
    apply (wp_recall h1 (mkEditor t p b h)); try done; [unfold h1; repeat case_match; bprop; lia|].
    intros l' v' Hv' Hr'. eapply (Hfin _ _ _ _ _ 2%nat); [done..|]. simpl. done. }
  wp_step. poll. rewrite Hn. destruct (Z.eqb_spec n 3) as [->|Hn3].
  { wp_step. apply (wp_cursor_left W Ht CL size t p); try done; try lia; [by apply around_room|]. intros v' Hv'. wp_step.
    eapply (Hfin _ _ c v' _ 1%nat); [done | done | | reflexivity]. split_and!; try done; simpl; case_range; lia. }
  wp_step. poll. rewrite Hn. destruct (Z.eqb_spec n 4) as [->|Hn4].
  { wp_step. apply (wp_cursor_right W Ht CL size t p); try done; try lia; [by apply around_room|]. intros v' Hv'. wp_step.
    eapply (Hfin _ _ c v' _ 0%nat); [done | done | | reflexivity]. split_and!; try done; simpl; case_range; lia. }
  wp_step. apply (Hfin (mkEditor t p b h) _ c v _ 0%nat); try done. simpl. by repeat case_match; bprop.
Qed.

Lemma tok_shows v t v' : tok W Ht CL v -> shows W Ht t v' -> kept v v' -> tok W Ht CL v'.
Proof. intros [_ Hl] [Hs _] [_ Hk]. split; [done | congruence]. Qed.

(** Any screen shows some text. *)
Definition tty_of v : tty := mkTty (fun y x => rd (cells v) (y * W + x)) 0 (t_row v) (t_col v).

Lemma shows_tty_of v : tok W Ht CL v -> 0 <= t_row v < Ht -> 0 <= t_col v < W -> shows W Ht (tty_of v) v.
Proof. intros [Hs _] Hr Hc. split; [done|]. split_and!; simpl; try lia. done. Qed.

Lemma holds_empty buf : lenZ buf = LB -> holds (wr buf 0 0) [].
Proof.
  intros Hl. unfold holds. rewrite lenZ_wr. change (lenZ (@nil Z)) with 0. split; [lia|]. split; [constructor|].
  split; [lia|]. apply rd_wr_eq. lia.
Qed.

(** Ctrl+L. *)
Lemma serve_clear f e l c k v scs :
  tok W Ht CL v -> represents e l c -> paced 1 k scs ->
  wp (vset (set_do_clear_screen 0);;
      on_term term_clear;;
      cwd ← gets g_cwd;
      on_term (printk prompt_format [PkStr (Some cwd)]);;
      buf ← aset (l_buf l) 0 0;
      set_base;;
      mret (Cont (mkLine buf 0 0 0))) (serves scs EvClear e f) (mk k f v c).
Proof.
  intros Htok Hrep Hp. destruct l as [buf i pos hooked], e as [t p b h].
  pose proof Hrep as (Hi & Hpos & _ & Hb & Hlb & Hpl & Hlt & Hh & Hh0 & (Hbase & Hhist & (Hct & Hcl & Hc9))).
  cbn [l_buf text place browsing hist_at] in *. wp_step. poll.
  wp_step. apply wp_on_term. apply (wp_term_clear W Ht); [apply Htok | apply Hscreen | apply Hscreen |].
  intros v1 Hs1 Hk1. cbn [scr mk set_kb set_scr] in Hs1, Hk1. pose proof (tok_shows _ _ _ Htok Hs1 Hk1) as Htok1.
  change (set_scr v1 (mk k0 (set_do_clear_screen 0 f) v c)) with (mk k0 (set_do_clear_screen 0 f) v1 c).
  do 3 wp_step. change (g_cwd (mk k0 (set_do_clear_screen 0 f) v1 c)) with (g_cwd c).
  destruct (tty_write_total W Ht (t_color v1) (cstr (g_cwd c) ++ [62; 32]) (tty_blank (t_color v))) as [t' Ht'].
  { apply Forall_app. split; [done | repeat constructor; done]. }
  apply wp_on_term. apply (wp_printk W Ht (tty_blank (t_color v)) t' prompt_format _ (cstr (g_cwd c) ++ [62; 32]));
    [by vm_compute | by repeat constructor | done
    | rewrite lenZ_app; change (lenZ [62; 32]) with 2; unfold PRINTK_BUFF_LEN; lia | exact Hs1 | exact Ht' |].
  intros v2 Hs2 Hk2. pose proof (tok_shows _ _ _ Htok1 Hs2 Hk2) as Htok2.
  wp_step. apply wp_aset; [lia|]. wp_step. unfold set_base. do 2 wp_step.
  cbn [scr set_scr mk set_kb]. destruct Hs2 as ((_ & Hw & _ & ? & ? & ?) & Hr2 & Hc2 & Hrow2 & Hcol2 & _).
  rewrite Hw, Hr2, Hc2. pose proof (cell_in W Ht _ _ Hrow2 Hcol2) as Hin. destruct Htok2 as [Hscr2 Hl2].
  rewrite u32_small by lia.
  eexists _, _, v2, (set_g_base_cell ((row t' - top t') * W + col t') c). split; [done|]. split; [reflexivity|]. split; [done|]. split; [done|].
  split_and!; try done; try (by apply holds_empty); [by simpl; rewrite lenZ_wr|]. simpl. change (lenZ (@nil Z)) with 0. lia.
Qed.

(** Ctrl+C. *)
Lemma serve_cancel f e l c k v scs :
  tok W Ht CL v -> represents e l c -> paced 1 k scs ->
  wp (vset (set_cancel_input 0);;
      cell_clear 0 (l_i l);;
      cell_cursor 0;;
      buf ← aset (l_buf l) 0 0;
      on_term (printk cancel_text []);;
      mret (Ret (0, buf))) (serves scs EvCancel e f) (mk k f v c).
Proof.
  intros Htok Hrep Hp. destruct l as [buf i pos hooked], e as [t p b h].
  pose proof Hrep as (Hi & _ & _ & Hb & Hlb & Hpl & Hlt & Hh & Hh0 & Har).
  cbn [l_buf l_i text place browsing hist_at] in *. subst i. pose proof (around_room c Har) as Hroom.
  pose proof Har as (Hbase & _). destruct (tok_numbers W Ht CL v Htok) as (_ & _ & HW & HH & _).
  wp_step. poll. wp_step. apply (wp_cell_clear W Ht CL size); try done; try lia. intros v1 Hv1.
  wp_step. apply (wp_cell_cursor W Ht CL size); try done; try lia. intros v2 Hv2 Hr2 Hc2.
  cbn [g_base_cell set_scr mk set_kb] in Hr2, Hc2. rewrite Z.add_0_r in Hr2, Hc2.
  wp_step. apply wp_aset; [lia|]. wp_step. apply wp_on_term.
  assert (Hs2 : shows W Ht (tty_of v2) v2).
  { apply shows_tty_of; [done | rewrite Hr2 | rewrite Hc2; apply Z.mod_pos_bound; lia].
    split; [apply Z.div_pos; lia | apply Z.div_lt_upper_bound; lia]. }
  destruct (tty_write_total W Ht (t_color v2) [94; 67; 10] (tty_of v2)) as [t' Ht']; [by repeat constructor|].
  apply (wp_printk W Ht (tty_of v2) t' cancel_text [] [94; 67; 10]); try done. intros v3 Hs3 Hk3. wp_step.
  eexists _, _, v3, c. split; [done|]. split; [reflexivity|]. split; [done|]. split; [by apply holds_empty | by rewrite lenZ_wr].
Qed.

(** * One round *)

Definition waits (x : Z) f : bool := (in_read f =? 1) && negb (x =? 0).

(** At most one key waits. *)
Definition single f : Prop :=
  (do_clear_screen f = 1 -> pend f = EvClear) /\
  (waits (nav_key f) f = true -> pend f = EvNav (nav_key f)) /\
  (waits (word_del f) f = true -> pend f = EvWord) /\
  (waits (read_key f) f = true -> pend f = EvKey (read_key f)) /\
  0 <= read_key f < 127.

(** A round serves the waiting key or sees none. *)
Definition round_post (seen : Prop) m scs e f l v c (r : ctl line_state (Z * list Z)) (s : console P K) : Prop :=
  serves scs (pend f) e f r s \/ (seen /\ r = Cont l /\ exists k, s = mk k f v c /\ paced m k scs).

Lemma round_post_mono (seen seen' : Prop) m scs e f l v c r s : (seen -> seen') ->
  round_post seen m scs e f l v c r s -> round_post seen' m scs e f l v c r s.
Proof. intros Hs [?|(?&?&?)]; [by left | right; auto]. Qed.

Lemma wp_key_branch n f e l c k v scs :
  single f -> tok W Ht CL v -> represents e l c -> paced (8 + n) k scs ->
  wp (if waits (read_key f) f then
        r ← readline_key size l;
        match r with inl l => mret (Cont l) | inr v => mret (Ret v) end
      else mret (Cont l))
    (round_post (waits (read_key f) f = false) (8 + n) scs e f l v c) (mk k f v c).
Proof.
  intros (_ & _ & _ & Hs & Hrange) Htok Hrep Hp. destruct (waits (read_key f) f) eqn:Hw.
  - wp_step. assert (read_key f <> 0) by (unfold waits in Hw; apply andb_true_iff in Hw as [_ Hw]; bprop; done).
    eapply wp_mono; [|apply (serve_key (read_key f) f e); [done | lia | done | exact Hrep | eapply paced_le; [|exact Hp]; lia]].
    intros r s Hr. rewrite <- (Hs eq_refl) in Hr. destruct r; wp_step; by left.
  - wp_step. right. eauto 6.
Qed.

Lemma wp_round_key n f e l c k v scs :
  single f -> tok W Ht CL v -> represents e l c -> paced (10 + n) k scs ->
  wp (round_key size l) (round_post (waits (read_key f) f = false) (8 + n) scs e f l v c) (mk k f v c).
Proof.
  intros Hsingle Htok Hrep Hp. unfold round_key. wp_step.
  eapply (wp_pressed read_key (read_key f)); [done | exact Hp|]. intros k' Hk'. by apply wp_key_branch.
Qed.

Lemma wp_word_branch n f e l c k v scs :
  single f -> tok W Ht CL v -> represents e l c -> paced (10 + n) k scs ->
  wp (if waits (word_del f) f then
        vset (set_in_read 0);;
        r ← delete_word (l_buf l) (l_i l) (l_pos l);
        let '(buf, i, pos) := r in
        vset (set_word_del 0);;
        buf ← aset buf i 0;
        mret (Cont (mkLine buf i pos 0))
      else round_key size l)
    (round_post (waits (word_del f) f = false /\ waits (read_key f) f = false) (8 + n) scs e f l v c) (mk k f v c).
Proof.
  intros Hsingle Htok Hrep Hp. destruct (waits (word_del f) f) eqn:Hw.
  - eapply wp_mono; [|apply (serve_word f e); [done | exact Hrep | eapply paced_le; [|exact Hp]; lia]].
    intros r s Hr. left. destruct Hsingle as (_ & _ & Hs & _). by rewrite (Hs Hw).
  - eapply wp_mono; [|by apply (wp_round_key n f e)]. intros r s. apply round_post_mono. done.
Qed.

Lemma wp_round_word n f e l c k v scs :
  single f -> tok W Ht CL v -> represents e l c -> paced (12 + n) k scs ->
  wp (round_word size l) (round_post (waits (word_del f) f = false /\ waits (read_key f) f = false) (8 + n) scs e f l v c)
    (mk k f v c).
Proof.
  intros Hsingle Htok Hrep Hp. unfold round_word. wp_step.
  eapply (wp_pressed word_del (word_del f)); [done | exact Hp|]. intros k' Hk'. by apply wp_word_branch.
Qed.

Lemma wp_nav_branch n f e l c k v scs :
  single f -> tok W Ht CL v -> represents e l c -> paced (12 + n) k scs ->
  wp (if waits (nav_key f) f then l ← readline_nav size l; vset (set_nav_key 0);; mret (Cont l) else round_word size l)
    (round_post (waits (nav_key f) f = false /\ waits (word_del f) f = false /\ waits (read_key f) f = false)
      (8 + n) scs e f l v c) (mk k f v c).
Proof.
  intros Hsingle Htok Hrep Hp. destruct (waits (nav_key f) f) eqn:Hw.
  - assert (nav_key f <> 0) by (unfold waits in Hw; apply andb_true_iff in Hw as [_ Hw]; bprop; done).
    eapply wp_mono; [|apply (serve_nav (nav_key f) f e); [done | done | done | exact Hrep | eapply paced_le; [|exact Hp]; lia]].
    intros r s Hr. left. destruct Hsingle as (_ & Hs & _). by rewrite (Hs Hw).
  - eapply wp_mono; [|by apply (wp_round_word n f e)]. intros r s. apply round_post_mono. done.
Qed.

Lemma wp_round_nav n f e l c k v scs :
  single f -> tok W Ht CL v -> represents e l c -> paced (14 + n) k scs ->
  wp (round_nav size l) (round_post (waits (nav_key f) f = false /\ waits (word_del f) f = false /\ waits (read_key f) f = false)
    (8 + n) scs e f l v c) (mk k f v c).
Proof.
  intros Hsingle Htok Hrep Hp. unfold round_nav. wp_step.
  eapply (wp_pressed nav_key (nav_key f)); [done | exact Hp|]. intros k' Hk'. by apply wp_nav_branch.
Qed.

Lemma wp_clear_branch n f e l c k v scs :
  single f -> tok W Ht CL v -> represents e l c -> paced (14 + n) k scs ->
  wp (if do_clear_screen f =? 1 then
        vset (set_do_clear_screen 0);;
        on_term term_clear;;
        cwd ← gets g_cwd;
        on_term (printk prompt_format [PkStr (Some cwd)]);;
        buf ← aset (l_buf l) 0 0;
        set_base;;
        mret (Cont (mkLine buf 0 0 0))
      else round_nav size l)
    (round_post (do_clear_screen f <> 1 /\ waits (nav_key f) f = false /\ waits (word_del f) f = false /\
      waits (read_key f) f = false) (8 + n) scs e f l v c) (mk k f v c).
Proof.
  intros Hsingle Htok Hrep Hp. destruct (Z.eqb_spec (do_clear_screen f) 1) as [Hc|Hc].
  - eapply wp_mono; [|apply (serve_clear f e); [done | exact Hrep | eapply paced_le; [|exact Hp]; lia]].
    intros r s Hr. left. destruct Hsingle as (Hs & _). by rewrite (Hs Hc).
  - eapply wp_mono; [|by apply (wp_round_nav n f e)]. intros r s. apply round_post_mono. done.
Qed.

Lemma wp_round_clear n f e l c k v scs :
  single f -> tok W Ht CL v -> represents e l c -> paced (15 + n) k scs ->
  wp (round_clear size l) (round_post (do_clear_screen f <> 1 /\ waits (nav_key f) f = false /\ waits (word_del f) f = false /\
    waits (read_key f) f = false) (8 + n) scs e f l v c) (mk k f v c).
Proof.
  intros Hsingle Htok Hrep Hp. unfold round_clear. wp_step. eapply wp_vget; [exact Hp|]. intros k' Hk'.
  by apply wp_clear_branch.
Qed.

Lemma wp_cancel_branch n f e l c k v scs :
  single f -> tok W Ht CL v -> represents e l c -> paced (15 + n) k scs ->
  wp (if cancel_input f =? 1 then
        vset (set_cancel_input 0);;
        cell_clear 0 (l_i l);;
        cell_cursor 0;;
        buf ← aset (l_buf l) 0 0;
        on_term (printk cancel_text []);;
        mret (Ret (0, buf))
      else round_clear size l) (round_post (pend f = EvNone) (8 + n) scs e f l v c) (mk k f v c).
Proof.
  intros Hsingle Htok Hrep Hp. destruct (Z.eqb_spec (cancel_input f) 1) as [Hc|Hc].
  - assert (Hpend : pend f = EvCancel) by (unfold pend; by rewrite Hc).
    eapply wp_mono; [|apply (serve_cancel f e); [done | done | eapply paced_le; [|exact Hp]; lia]].
    intros r s Hr. left. by rewrite Hpend.
  - eapply wp_mono; [|by apply (wp_round_clear n f e)]. intros r s. apply round_post_mono. intros (Hcl & Hn & Hw & Hk).
    unfold pend, waits in *. rewrite Hn, Hw, Hk. destruct (Z.eqb_spec (cancel_input f) 1), (Z.eqb_spec (do_clear_screen f) 1); done.
Qed.

Lemma represents_runs e l c : represents e l c -> (l_i l <? size) = true.
Proof. intros (Hi & _ & _ & _ & _ & _ & Hlt & _). rewrite Hi. by apply Z.ltb_lt. Qed.

(** With a key waiting and none coming, a round serves it. *)
Lemma wp_round_served f e l c k v scs :
  single f -> pend f <> EvNone -> tok W Ht CL v -> represents e l c -> paced 16 k scs ->
  wp (readline_round size l) (serves scs (pend f) e f) (mk k f v c).
Proof.
  intros Hsingle Hne Htok Hrep Hp. unfold readline_round. rewrite (represents_runs e l c Hrep). wp_step.
  eapply wp_vget; [exact Hp|]. intros k' Hk'. cbn [cancel_input with_dev].
  eapply wp_mono; [|by apply (wp_cancel_branch 0 f e)]. by intros r s [Hr|(? & _)].
Qed.

(** With no key waiting, a round ends with the next scancode still to come, or
    served, or waiting. *)
Definition idle_post a sc k1 scs e f l v c (r : ctl line_state (Z * list Z)) (s : console P K) : Prop :=
  (r = Cont l /\ exists a' k', (a' < a)%nat /\ fires a' k' sc k1 /\ s = mk k' f v c) \/
  round_post True 16 scs e (kbd_press sc f) l v c r s.

Lemma idle_post_le a a' sc k1 scs e f l v c r s : (a' <= a)%nat ->
  idle_post a' sc k1 scs e f l v c r s -> idle_post a sc k1 scs e f l v c r s.
Proof. intros Ha [(Hr & a2 & k' & Hlt & Hrest)|?]; [left | by right]. split; [done|]. exists a2, k'. split; [lia | done]. Qed.

Lemma idle_post_branch seen m a sc k1 scs e f l v c r s : (16 <= m)%nat ->
  round_post seen m scs e (kbd_press sc f) l v c r s -> idle_post a sc k1 scs e f l v c r s.
Proof.
  intros Hm [Hr|(_ & Hr & k & Hs & Hp)]; right; [by left|]. right. split; [done|]. split; [done|]. exists k. split; [done|].
  by apply (paced_le m).
Qed.

Section Idle.
Context sc k1 scs f e l c v (Hidle : idle f) (Hsingle : single (kbd_press sc f)) (Htok : tok W Ht CL v)
  (Hrep : represents e l c) (Hk1 : paced 24 k1 scs).

Lemma wp_idle_key a k : fires a k sc k1 -> wp (round_key size l) (idle_post a sc k1 scs e f l v c) (mk k f v c).
Proof.
  intros Hf. destruct Hidle as (_ & _ & _ & _ & Hz). unfold round_key. wp_step.
  eapply (wp_pressed_key read_key (read_key (kbd_press sc f)) scs); try done.
  - intros k' Hk'. eapply wp_mono; [|by apply (wp_key_branch 15 _ e)]. intros r s. apply idle_post_branch. lia.
  - intros a' k' Ha Hf'. wp_step. left. eauto 6.
Qed.

Lemma wp_idle_word a k : fires a k sc k1 -> wp (round_word size l) (idle_post a sc k1 scs e f l v c) (mk k f v c).
Proof.
  intros Hf. destruct Hidle as (_ & _ & _ & Hz & _). unfold round_word. wp_step.
  eapply (wp_pressed_key word_del (word_del (kbd_press sc f)) scs); try done.
  - intros k' Hk'. eapply wp_mono; [|by apply (wp_word_branch 13 _ e)]. intros r s. apply idle_post_branch. lia.
  - intros a' k' Ha Hf'. eapply wp_mono; [|by apply (wp_idle_key a')]. intros r s. apply idle_post_le. lia.
Qed.

Lemma wp_idle_nav a k : fires a k sc k1 -> wp (round_nav size l) (idle_post a sc k1 scs e f l v c) (mk k f v c).
Proof.
  intros Hf. destruct Hidle as (_ & _ & Hz & _). unfold round_nav. wp_step.
  eapply (wp_pressed_key nav_key (nav_key (kbd_press sc f)) scs); try done.
  - intros k' Hk'. eapply wp_mono; [|by apply (wp_nav_branch 11 _ e)]. intros r s. apply idle_post_branch. lia.
  - intros a' k' Ha Hf'. eapply wp_mono; [|by apply (wp_idle_word a')]. intros r s. apply idle_post_le. lia.
Qed.

Lemma wp_idle_clear a k : fires a k sc k1 -> wp (round_clear size l) (idle_post a sc k1 scs e f l v c) (mk k f v c).
Proof.
  intros Hf. destruct Hidle as (_ & Hz & _). unfold round_clear. wp_step. eapply wp_vget_key; [exact Hf | |].
  - cbn [do_clear_screen with_dev]. eapply wp_mono; [|by apply (wp_clear_branch 10 _ e)]. intros r s. apply idle_post_branch. lia.
  - intros a' k' Ha Hf'. cbn [do_clear_screen with_dev]. rewrite Hz. cbn [Z.eqb].
    eapply wp_mono; [|by apply (wp_idle_nav a')]. intros r s. apply idle_post_le. lia.
Qed.

Lemma wp_idle_round a k : fires a k sc k1 -> wp (readline_round size l) (idle_post a sc k1 scs e f l v c) (mk k f v c).
Proof.
  intros Hf. destruct Hidle as (Hz & _). unfold readline_round. rewrite (represents_runs e l c Hrep). wp_step.
  eapply wp_vget_key; [exact Hf | |].
  - cbn [cancel_input with_dev]. eapply wp_mono; [|by apply (wp_cancel_branch 9 _ e)]. intros r s. apply idle_post_branch. lia.
  - intros a' k' Ha Hf'. cbn [cancel_input with_dev]. rewrite Hz. cbn [Z.eqb].
    eapply wp_mono; [|by apply (wp_idle_clear a')]. intros r s. apply idle_post_le. lia.
Qed.
End Idle.

Lemma press_single sc f : idle f -> single (kbd_press sc f).
Proof.
  intros (H1 & H2 & H3 & H4 & H5). assert (Hr : 0 <= read_key (kbd_press sc f) < 127) by (apply press_char; lia).
  unfold single. split; [|split; [|split; [|split; [|exact Hr]]]]; clear Hr;
    destruct f as [? ir rk cl ca na wd cc mo]; simpl in *; subst; unfold kbd_press; cbn [modifier];
    generalize (rd keys sc); generalize (rd shift_keys sc); intros ch1 ch2;
    repeat match goal with |- context [if ?b then _ else _] => lazymatch b with
      | context [if _ then _ else _] => fail | context [pend] => fail | _ => destruct b end end;
    unfold waits, pend, after_key, after_nav; cbn; rewrite ?andb_true_r, ?andb_false_r; try done;
    intros Hw; rewrite ?Hw; try done.
Qed.

(** * The loop *)

(** The loop returns the line [t] and leaves the variables [f']. *)
Definition returns_line t f' (r : line_state + Z * list Z) (s : console P K) : Prop :=
  exists buf k v c, r = inr (lenZ t, buf) /\ holds buf t /\ lenZ buf = LB /\ s = mk k f' v c.

Definition ends l (s : console P K) t f' : Prop :=
  exists F, forall fuel, (F <= fuel)%nat -> wp (while_ fuel l (readline_round size)) (returns_line t f') s.

Lemma ends_round l s t f' :
  wp (readline_round size l) (fun r s' => match r with
    | Cont l' => ends l' s' t f' | Brk _ => False | Ret x => returns_line t f' (inr x) s' end) s ->
  ends l s t f'.
Proof.
  intros (r & s' & Hr & Hpost)%wp_ok. destruct r as [l'|l'|x]; [| done |].
  - destruct Hpost as [F HF]. exists (S F). intros [|fuel] Hle; [lia|]. cbn [while_]. apply wp_bind.
    unfold wp at 1. rewrite Hr. apply HF. lia.
  - exists 1%nat. intros [|fuel] Hle; [lia|]. cbn [while_]. apply wp_bind. unfold wp at 1. by rewrite Hr.
Qed.

Lemma ends_typed scs f e l c k v t f' :
  idle f -> tok W Ht CL v -> represents e l c -> paced 0 k scs -> typed_line size hist f e scs = Some (t, f') ->
  ends l (mk k f v c) t f'.
Proof.
  revert f e l c k v. induction scs as [|sc scs IH]; intros f e l c k v Hidle Htok Hrep Hp; [done|].
  cbn [typed_line]. intros Ht'. destruct Hp as (a & k1 & _ & Hf & Hk1). pose proof (press_single sc f Hidle) as Hsingle.
  set (g := kbd_press sc f) in *.
  assert (Hserves : forall r s, serves scs (pend g) e g r s ->
    match r with Cont l' => ends l' s t f' | Brk _ => False | Ret x => returns_line t f' (inr x) s end).
  { intros r s Hs. unfold serves in Hs. destruct (edit size hist (pend g) e) as [e'|t'] eqn:He.
    - destruct Hs as (l' & k' & v' & c' & -> & -> & Hp' & Htok' & Hrep').
      apply (IH _ e'); try done. by apply press_served.
    - destruct Hs as (buf & k' & v' & c' & -> & -> & Hp' & Hb & Hlb). simplify_eq. by exists buf, k', v', c'. }
  revert k Hf. induction a as [a IHa] using lt_wf_ind. intros k Hf. apply ends_round.
  eapply wp_mono; [|by apply (wp_idle_round sc k1 scs f e)].
  intros r s [(-> & a' & k' & Ha & Hf' & ->)|[Hs|(_ & -> & k' & -> & Hp')]].
  - by apply (IHa a').
  - by apply Hserves.
  - fold g. destruct (decide (pend g = EvNone)) as [Hnone|Hsome].
    + pose proof (press_served sc f Hidle) as Hi. fold g in Hi. rewrite Hnone in Hi, Ht'. cbn [edit served] in Hi, Ht'.
      apply (IH g e); try done. by apply (paced_le 16); [lia|].
    + apply ends_round. eapply wp_mono; [|by apply (wp_round_served g e)]. exact Hserves.
Qed.

(** The first prompt: the cursor is on the screen, and the last line read left
    no key. *)
Record at_prompt (s : console P K) : Prop := {
  prompt_screen : tok W Ht CL (scr s);
  prompt_row : 0 <= t_row (scr s) < Ht;
  prompt_col : 0 <= t_col (scr s) < W;
  prompt_hist : hist_ok s;
  prompt_pos : 0 <= s_hist_pos s;
  prompt_cwd : cwd_ok (g_cwd s);
  prompt_clear : do_clear_screen (kb s) = 0
}.

Definition fresh_line (f : flags) : flags :=
  set_in_read 0 (set_nav_key 0 (set_read_key 0 (set_word_del 0 (set_cancel_input 0 f)))).

Lemma at_prompt_based s v : at_prompt s -> v = scr s ->
  around (set_g_base_cell (u32 (t_row v * term_width v + t_col v)) s).
Proof.
  intros [Htok Hr Hc Hh _ Hcwd _] ->. destruct (tok_numbers W Ht CL _ Htok) as (Hw & _ & ? & ? & ?).
  pose proof (cell_in W Ht _ _ Hr Hc). rewrite Hw, u32_small by lia. done.
Qed.

Lemma wp_readline s buf scs t f' :
  at_prompt s -> holds buf [] -> lenZ buf = LB -> paced 5 (kb_dev (kb s)) scs ->
  typed_line size hist (fresh_line (strip (kb s))) (mkEditor [] 0 0 (s_hist_pos s)) scs = Some (t, f') ->
  exists F, forall fuel, (F <= fuel)%nat ->
    wp (readline fuel buf size) (fun r s' => fst r = lenZ t /\ holds (snd r) t /\ strip (kb s') = f') s.
Proof.
  intros Hat Hb Hlb Hp Ht'.
  assert (Hs : s = mk (kb_dev (kb s)) (strip (kb s)) (scr s) s) by (by destruct s as [? [] ? ? ? ? ?]).
  assert (Hcl : do_clear_screen (strip (kb s)) = 0) by (by destruct Hat as [_ _ _ _ _ _ Hcl], s as [? [] ? ? ? ? ?]).
  set (f := strip (kb s)) in *.
  assert (Hends : wp readline_start (fun _ s' => ends (mkLine buf 0 0 0) s' t f') s).
  { rewrite Hs at 1. unfold readline_start. do 5 (wp_step; poll). unfold set_base. wp_step.
    pose proof (at_prompt_based s (scr s) Hat eq_refl) as Har. destruct Hat as [Htok _ _ _ Hpos _ _].
    apply (ends_typed scs (fresh_line f) (mkEditor [] 0 0 (s_hist_pos s)) _
      (set_g_base_cell (u32 (t_row (scr s) * term_width (scr s) + t_col (scr s))) s)); try done.
    split_and!; try done; simpl; change (lenZ (@nil Z)) with 0; lia. }
  apply wp_ok in Hends as ([] & s1 & Hrun & F & HF). exists F. intros fuel Hle. unfold readline.
  apply wp_bind. unfold wp at 1. rewrite Hrun. apply wp_bind. eapply wp_mono; [|by apply HF].
  intros r s' (buf' & k & v & c & -> & Hb' & _ & ->). wp_step. split; [done|]. split; [done|]. by destruct f' as [[] ? ? ? ? ? ? ?].
Qed.
End Serving.

(** C10: whatever is typed at a prompt - letters, digits and symbols with and
    without shift, backspace, the arrows with the history, Alt+backspace,
    Ctrl+L, Ctrl+C - and however the key interrupts interleave with the polling
    loop of [readline], as long as two of them are 24 polls apart, the loop
    ends and the buffer holds the line of the abstract editor: a text with a
    place, where every key has its effect once and in order. *)
Theorem readline_refines {P K : Type} `{Ports P, KbdHw K} (W Ht CL size LB : Z) (hist : list (list Z))
    (s : console P K) (buf scs t : list Z) (f' : flags) :
  0 < size <= LB -> W * Ht + size < CL -> W <= TERM_MAX_W /\ Ht <= TERM_MAX_H ->
  at_prompt W Ht CL hist s -> holds buf [] -> lenZ buf = LB -> paced 5 (kb_dev (kb s)) scs ->
  typed_line size hist (fresh_line (strip (kb s))) (mkEditor [] 0 0 (s_hist_pos s)) scs = Some (t, f') ->
  exists F, forall fuel, (F <= fuel)%nat -> exists r s',
    readline fuel buf size s = Ok r s' /\ fst r = lenZ t /\ holds (snd r) t /\ strip (kb s') = f'.
Proof.
  intros Hsize Hcells Hscreen Hat Hb Hlb Hp Ht'.
  destruct (wp_readline W Ht CL size LB hist Hsize Hcells Hscreen s buf scs t f' Hat Hb Hlb Hp Ht') as [F HF].
  exists F. intros fuel Hle. apply wp_ok. by apply HF.
Qed.

(** * Example: a keyboard that counts polls *)

(** Scancodes with the polls to wait before each. *)
Definition timed : Type := list (nat * Z).

#[local] Instance timed_ports : Ports timed := {
  port_inb := fun _ k => match k with (O, sc) :: k' => (sc, k') | _ => (0, k) end;
  port_outb := fun _ _ k => k;
  port_inw := fun _ k => (0, k); port_outw := fun _ _ k => k
}.
#[local] Instance timed_keyboard : KbdHw timed := {
  irq1 := fun k => match k with
    | [] => (false, [])
    | (O, sc) :: k' => (true, k)
    | (S n, sc) :: k' => (false, (n, sc) :: k') end
}.
#[local] Instance silent_ports : Ports unit := {
  port_inb := fun _ p => (0, p); port_outb := fun _ _ p => p;
  port_inw := fun _ p => (0, p); port_outw := fun _ _ p => p
}.

Lemma timed_fires a sc (k : timed) : 0 <= sc < 256 -> fires a ((a, sc) :: k) sc k.
Proof. intros Hsc. induction a as [|a IH]; [done | split; [done | exact IH]]. Qed.

Lemma timed_paced n (k : timed) :
  match k with [] => True | (a, _) :: _ => (n <= a)%nat end ->
  Forall (fun '(a, sc) => 0 <= sc < 256) k -> Forall (fun '(a, _) => (24 <= a)%nat) (tail k) ->
  paced n k (map snd k).
Proof.
  revert n. induction k as [|[a sc] k IH]; intros n Hn Hsc Ha.
  - induction n as [|n IHn]; [done | split; [done | by apply IHn]].
  - simpl in *. exists a, k. split; [done|]. split; [exact (timed_fires a sc k (Forall_inv Hsc))|]. apply Forall_inv_tail in Hsc.
    apply IH; [|done|]; destruct k as [|[b x] k']; try done; [exact (Forall_inv Ha) | exact (Forall_inv_tail Ha)].
Qed.

(** "ls", left, "a", backspace, shift "B", right, enter. *)
Definition typing : timed :=
  [(9%nat, 38); (30%nat, 31); (24%nat, 75); (100%nat, 30); (24%nat, 14); (25%nat, 42); (50%nat, 48); (24%nat, 170);
   (31%nat, 77); (24%nat, 28)].

Definition keyboard_flags : kbd timed := mkKbd typing 0 0 0 0 0 0 0 0.
Definition prompt_console : console unit timed :=
  mkConsole (mkTerm tt (replicate (Z.to_nat VGA_CELLS) 0) (replicate 8000 0) 0 (mkFb 0 0 0 0 32 0 ∅) VgaMemory
    3 4 7 VGA_WIDTH VGA_HEIGHT) keyboard_flags 0 (replicate 64 (replicate 64 0)) 0 0 [47; 0].

Lemma readline_refines_witness :
  at_prompt VGA_WIDTH VGA_HEIGHT VGA_CELLS [] prompt_console /\
  exists F, forall fuel, (F <= fuel)%nat -> exists r s',
    readline fuel (replicate 256 0) 255 prompt_console = Ok r s' /\ fst r = lenZ [108; 66; 115] /\ holds (snd r) [108; 66; 115] /\
    strip (kb s') = mkKbd tt 0 0 0 0 0 0 0 0.
Proof.
  assert (Hsize : 0 < 255 <= 256) by lia.
  assert (Hcells : VGA_WIDTH * VGA_HEIGHT + 255 < VGA_CELLS) by (by vm_compute).
  assert (Hmax : VGA_WIDTH <= TERM_MAX_W /\ VGA_HEIGHT <= TERM_MAX_H) by (by vm_compute).
  assert (Hat : at_prompt VGA_WIDTH VGA_HEIGHT VGA_CELLS [] prompt_console).
  { split; try (by vm_compute).
    - split; [done|]. intros i Hi. unfold lenZ in Hi. simpl in Hi. lia.
    - split; [by vm_compute|]. split; [by vm_compute|]. by repeat constructor. }
  split; [exact Hat|].
  assert (Hb : holds (replicate 256 0) []).
  { split; [by vm_compute|]. split; [constructor|]. split; [|done]. intros i Hi. unfold lenZ in Hi. simpl in Hi. lia. }
  assert (Hp : paced 5 (kb_dev (kb prompt_console)) (map snd typing)).
  { apply timed_paced; [simpl; lia | repeat constructor; lia | repeat constructor; lia]. }
  assert (Hlb : lenZ (replicate 256 0) = 256) by done.
  assert (Ht : typed_line 255 [] (fresh_line (strip (kb prompt_console))) (mkEditor [] 0 0 (s_hist_pos prompt_console))
    (map snd typing) = Some ([108; 66; 115], mkKbd tt 0 0 0 0 0 0 0 0)) by (by vm_compute).
  exact (readline_refines VGA_WIDTH VGA_HEIGHT VGA_CELLS 255 256 [] prompt_console (replicate 256 0) (map snd typing)
    [108; 66; 115] (mkKbd tt 0 0 0 0 0 0 0 0) Hsize Hcells Hmax Hat Hb Hlb Hp Ht).
Defined.
