(* ===== verification/Text.v ===== *)
(** C string literals: the bytes of a literal and its terminator. *)
From Stdlib Require Import ZArith Lia List Ascii String.
From stdpp Require Import base tactics numbers list.
From S2P Require Import Prelude CString.
Open Scope Z_scope.

Definition char_code (a : ascii) : Z := Z.of_N (N_of_ascii a).

(** The escape for a new line is the only one the literals use. *)
Fixpoint chars (s : string) : list Z :=
  match s with
  | EmptyString => []
  | String "\" (String "n" s') => 10 :: chars s'
  | String a s' => char_code a :: chars s'
  end.

Definition text (s : string) : list Z := chars s ++ [0].

(** [words sep l]: the maximal runs of characters that do not satisfy [sep]. *)
Fixpoint words_from (sep : Z -> bool) (w : list Z) (l : list Z) : list (list Z) :=
  match l with
  | [] => if decide (w = []) then [] else [reverse w]
  | c :: l' =>
      if sep c then (if decide (w = []) then [] else [reverse w]) ++ words_from sep [] l'
      else words_from sep (c :: w) l'
  end.
Definition words (sep : Z -> bool) (l : list Z) : list (list Z) := words_from sep [] l.
