(* ===== verification/Words.v ===== *)
(** The words of a text: its maximal runs of characters that do not separate. *)
From Stdlib Require Import ZArith Lia List.
From stdpp Require Import base tactics numbers list.
From S2P Require Import Prelude CString Bytes Buffer Text.
Open Scope Z_scope.

Lemma words_from_run sep w c t : Forall (fun x => sep x = false) c -> words_from sep w (c ++ t) = words_from sep (reverse c ++ w) t.
Proof.
  intros Hc. revert w. induction Hc as [|x c Hx _ IH]; intros w; [done|]. simpl. rewrite Hx, IH, reverse_cons.
  by rewrite <- app_assoc.
Qed.

(** The word that starts a text, and the words of the rest. *)
Lemma words_run sep c t : Forall (fun x => sep x = false) c -> (match t with [] => True | x :: _ => sep x = true end) ->
  words sep (c ++ t) = (if decide (c = []) then [] else [c]) ++ words sep (match t with [] => [] | _ :: t' => t' end).
Proof.
  intros Hc Ht. unfold words. rewrite words_from_run, app_nil_r by done.
  assert (Hr : (if decide (reverse c = []) then [] else [reverse (reverse c)]) = if decide (c = []) then [] else [c]).
  { destruct (decide (c = [])) as [->|Hne]; [done|]. rewrite decide_False, reverse_involutive; [done|].
    intros Hr. apply (f_equal reverse) in Hr. by rewrite reverse_involutive in Hr. }
  destruct t as [|x t]; simpl; [by rewrite Hr, app_nil_r|]. by rewrite Ht, Hr.
Qed.

Lemma words_forall sep (Pr : Z -> Prop) w t : Forall Pr w -> Forall Pr t -> Forall (Forall Pr) (words_from sep w t).
Proof.
  intros Hw Ht. revert w Hw. induction Ht as [|c t Hc _ IH]; intros w Hw; simpl.
  - destruct (decide (w = [])); [constructor|]. constructor; [|constructor]. by apply Forall_reverse.
  - destruct (sep c); [|apply IH; by constructor]. apply Forall_app. split; [|by apply IH].
    destruct (decide (w = [])); [constructor|]. constructor; [|constructor]. by apply Forall_reverse.
Qed.

Lemma words_sep sep w t : Forall (fun x => sep x = false) w ->
  Forall (fun v => v <> [] /\ Forall (fun x => sep x = false) v) (words_from sep w t).
Proof.
  revert w. induction t as [|c t IH]; intros w Hw; simpl.
  - destruct (decide (w = [])); [constructor|]. constructor; [|constructor]. split; [|by apply Forall_reverse].
    intros Hr. apply (f_equal reverse) in Hr. by rewrite reverse_involutive in Hr.
  - destruct (sep c) eqn:Hc; [|apply IH; by constructor]. apply Forall_app. split; [|by apply IH].
    destruct (decide (w = [])); [constructor|]. constructor; [|constructor]. split; [|by apply Forall_reverse].
    intros Hr. apply (f_equal reverse) in Hr. by rewrite reverse_involutive in Hr.
Qed.

(** A text starts with a run and goes on with a separator, or ends. *)
Lemma split_run (sep : Z -> bool) t : exists run rest, t = run ++ rest /\ Forall (fun x => sep x = false) run /\
  match rest with [] => True | x :: _ => sep x = true end.
Proof.
  induction t as [|c t (run & rest & -> & Hr & He)]; [exists [], []; split_and!; [done | constructor | done]|].
  destruct (sep c) eqn:Hc.
  - exists [], (c :: run ++ rest). split_and!; [done | constructor | done].
  - exists (c :: run), rest. split_and!; [done | by constructor | done].
Qed.

(** Separators in front do not count. *)
Lemma words_skip sep a t : Forall (fun x => sep x = true) a -> words sep (a ++ t) = words sep t.
Proof. intros Ha. unfold words. induction Ha as [|x a Hx _ IH]; [done|]. simpl. by rewrite Hx. Qed.

(** Characters at a position of the array. *)
Lemma rd_at path t p a b : holds path t -> 0 <= p -> drop (Z.to_nat p) t = a ++ b -> p <= lenZ t ->
  forall i, 0 <= i < lenZ a -> rd path (p + i) = rd a i.
Proof.
  intros (_ & _ & Hr & _) Hp Hd Hpt i Hi.
  assert (Hl : lenZ t - p = lenZ a + lenZ b) by (rewrite <- (lenZ_drop t p), Hd, lenZ_app by lia; done).
  pose proof (lenZ_nonneg b). rewrite Hr by lia. rewrite <- (rd_app_l a b i) by lia. rewrite <- Hd, rd_drop by lia. done.
Qed.
