(* ===== verification/Paths.v ===== *)
(** Paths of the shell: [strtrim_right], [canonicalize], [vfs_cmd_resolve] and
    [vfs_cwd_parent] of [src/kernel/shell/commands.c].

    [g_cwd] is an argument of the functions that only read it. *)
From Stdlib Require Import ZArith Lia List String.
From stdpp Require Import base tactics numbers list gmap strings option.
From S2P Require Import Prelude CString Bytes Vfs Text.
Open Scope Z_scope.

Definition MAX_PARTS : Z := 32.
Definition PART_MAX : Z := 47.
Definition DOT : list Z := text ".".
Definition DOTDOT : list Z := text "..".
Definition ROOT : list Z := text "/".

Section Operations.
Context {S : Type} `{Locals}.

Definition strtrim_right (s : list Z) (c : Z) : M S (list Z) :=
  len ← strlen s;
  l ← locals (while_ (length s + 1) (len, s) (fun '(len, s) =>
    if 0 <? len then
      v ← aget s (len - 1);
      if v =? c then s ← aset s (len - 1) 0; mret (Cont (len - 1, s)) else mret (Brk (len, s))
    else mret (Brk (len, s))));
  mret (snd l).

(** [parts[i]] for an index in range. *)
Definition part_at (parts : list (list Z)) (i : Z) : list Z := nth (Z.to_nat i) parts [].

(** The characters up to the next slash, the first 47 of them copied. *)
Definition next_part (path : list Z) (p : Z) (comp : list Z) : M S (Z * Z * list Z) :=
  locals (while_ (length path + 1) (p, 0, comp) (fun '(p, k, comp) =>
    c ← aget path p;
    if negb (c =? 0) && negb (c =? 47) then
      if k <? PART_MAX then
        comp ← aset comp k c;
        comp ← aset comp (k + 1) 0;
        mret (Cont (p + 1, k + 1, comp))
      else mret (Cont (p + 1, k, comp))
    else mret (Brk (p, k, comp)))).

Definition push_part (comp : list Z) (parts : list (list Z)) (nparts : Z) : M S (list (list Z) * Z) :=
  d ← strcmp comp DOT;
  if d =? 0 then mret (parts, nparts)
  else
    d ← strcmp comp DOTDOT;
    if d =? 0 then mret (parts, if 0 <? nparts then nparts - 1 else nparts)
    else if nparts <? MAX_PARTS then
      row ← strcpy (part_at parts nparts) comp;
      mret (<[Z.to_nat nparts := row]> parts, nparts + 1)
    else mret (parts, nparts).

Definition split_parts (path : list Z) : M S (list (list Z) * Z) :=
  l ← locals (while_ (length path + 1) (1, replicate 32 (local_array 48), 0, local_array 64)
    (fun '(p, parts, nparts, comp) =>
      c ← aget path p;
      if c =? 0 then mret (Brk (p, parts, nparts, comp))
      else
        r ← next_part path p comp;
        let '(p, k, comp) := r in
        c ← aget path p;
        let p := if c =? 47 then p + 1 else p in
        if k =? 0 then mret (Cont (p, parts, nparts, comp))
        else
          r ← push_part comp parts nparts;
          mret (Cont (p, fst r, snd r, comp))));
  let '(_, parts, nparts, _) := l in
  mret (parts, nparts).

Definition join_parts (parts : list (list Z)) (nparts : Z) : M S (list Z) :=
  out ← aset (local_array VFS_MAX_PATH) 0 47;
  out ← aset out 1 0;
  locals (for_ (span 0 nparts) 0 out (fun i out =>
    off ← strlen out;
    plen ← strlen (part_at parts i);
    out ← memcpy out off (part_at parts i) 0 plen;
    out ← aset out (off + plen) 47;
    out ← aset out (off + plen + 1) 0;
    mret (Cont out))).

Definition canonicalize (path : list Z) : M S (list Z) :=
  c ← aget path 0;
  if negb (c =? 47) then mret path
  else
    r ← split_parts path;
    let '(parts, nparts) := r in
    if nparts =? 0 then strcpy path ROOT
    else
      out ← join_parts parts nparts;
      out ← strtrim_right out 47;
      c ← aget out 0;
      out ← (if c =? 0 then strcpy out ROOT else mret out);
      strcpy path out.

(** [out] is written unless [path] is null or [out] has no room. *)
Definition vfs_cmd_resolve (g_cwd : list Z) (path : option (list Z)) (out : list Z) (out_sz : Z) : M S (list Z) :=
  match path with
  | None => mret out
  | Some path =>
      if out_sz =? 0 then mret out
      else
        c ← aget path 0;
        joined ← (if c =? 47 then
            joined ← strncpy (local_array VFS_MAX_PATH) path (VFS_MAX_PATH - 1);
            aset joined (VFS_MAX_PATH - 1) 0
          else
            d ← strcmp path DOT;
            d ← (if d =? 0 then mret 0 else strcmp path (text ""));
            if d =? 0 then
              joined ← strncpy (local_array VFS_MAX_PATH) g_cwd (VFS_MAX_PATH - 1);
              aset joined (VFS_MAX_PATH - 1) 0
            else
              len ← strlen g_cwd;
              last ← aget g_cwd (len - 1);
              r ← snprintf (local_array VFS_MAX_PATH) VFS_MAX_PATH
                    (if last =? 47 then text "%s%s" else text "%s/%s") [ArgStr g_cwd; ArgStr path];
              mret (fst r));
        joined ← canonicalize joined;
        out ← strncpy out joined (out_sz - 1);
        aset out (out_sz - 1) 0
  end.

Definition vfs_cwd_parent (g_cwd out : list Z) (out_sz : Z) : M S (list Z) :=
  l ← strlen g_cwd;
  if l <=? 1 then r ← snprintf out out_sz ROOT []; mret (fst r)
  else
    l ← locals (while_ (length g_cwd) l (fun l =>
      if 1 <? l then c ← aget g_cwd (l - 1); if c =? 47 then mret (Cont (l - 1)) else mret (Brk l)
      else mret (Brk l)));
    l ← locals (while_ (length g_cwd) l (fun l =>
      if 1 <? l then c ← aget g_cwd (l - 1); if negb (c =? 47) then mret (Cont (l - 1)) else mret (Brk l)
      else mret (Brk l)));
    if l <=? 1 then r ← snprintf out out_sz ROOT []; mret (fst r)
    else
      out ← memcpy out 0 g_cwd 0 (l - 1);
      aset out (l - 1) 0.
End Operations.
