(* ===== verification/PathFacts.v ===== *)
(** Correctness of the shell's paths: [canonicalize] computes a normal form of
    the list of components, within the bounds of its arrays. *)
From Stdlib Require Import ZArith Lia List.
From stdpp Require Import base tactics numbers list gmap strings option.
From S2P Require Import Prelude CString Bytes Buffer Vfs Text Words Paths.
Open Scope Z_scope.

(** * The normal form of a path *)

Definition SLASH : Z := 47.
Definition is_slash (c : Z) : bool := c =? SLASH.
Definition no_slash (w : list Z) : Prop := Forall (fun c => c <> SLASH) w.

Definition cut_name (w : list Z) : list Z := take (Z.to_nat PART_MAX) w.

(** One component: "." stays, ".." goes up, a name is cut to 47 characters and
    goes down; the names beyond the 32nd are dropped. *)
Definition walk_name (ns : list (list Z)) (w : list Z) : list (list Z) :=
  if decide (cut_name w = [46]) then ns
  else if decide (cut_name w = [46; 46]) then take (Datatypes.length ns - 1) ns
  else if lenZ ns <? MAX_PARTS then ns ++ [cut_name w] else ns.

(** The names a path leads to, and the path that spells them. *)
Definition names_of (t : list Z) : list (list Z) := fold_left walk_name (words is_slash t) [].
Definition spell (ns : list (list Z)) : list Z := concat (map (cons SLASH) ns).
Definition render (ns : list (list Z)) : list Z := match ns with [] => [SLASH] | _ => spell ns end.

(** The names a canonical path consists of. *)
Definition name_ok (w : list Z) : Prop :=
  0 < lenZ w <= PART_MAX /\ no_slash w /\ nonzeros w /\ w <> [46] /\ w <> [46; 46].
Definition names_ok (ns : list (list Z)) : Prop := Forall name_ok ns /\ lenZ ns <= MAX_PARTS.

Lemma walk_name_ok ns w : names_ok ns -> w <> [] -> no_slash w -> nonzeros w -> names_ok (walk_name ns w).
Proof.
  intros [Hns Hl] Hw Hs Hz. unfold walk_name. destruct (decide _); [done|]. destruct (decide _).
  - split; [by apply Forall_take|]. unfold lenZ in *. rewrite length_take. lia.
  - destruct (Z.ltb_spec (lenZ ns) MAX_PARTS); [|done]. split.
    + apply Forall_app. split; [done|]. constructor; [|constructor]. split; [|split; [by apply Forall_take|]; split; [by apply Forall_take | done]].
      unfold cut_name, PART_MAX, lenZ. rewrite length_take. destruct w; [done|]. simpl Datatypes.length. lia.
    + rewrite lenZ_app. change (lenZ [cut_name w]) with 1. lia.
Qed.

Lemma walk_ok l ns : names_ok ns -> Forall (fun w => w <> [] /\ no_slash w /\ nonzeros w) l -> names_ok (fold_left walk_name l ns).
Proof. intros Hn Hl. revert ns Hn. induction Hl as [|w l (Hw & Hs & Hz) _ IH]; intros ns Hn; [done|]. simpl. by apply IH, walk_name_ok. Qed.

Lemma words_clean t : nonzeros t -> Forall (fun w => w <> [] /\ no_slash w /\ nonzeros w) (words is_slash t).
Proof.
  intros Ht. unfold words. pose proof (words_sep is_slash [] t ltac:(constructor)) as Hs.
  pose proof (words_forall is_slash (fun c => c <> 0) [] t ltac:(constructor) Ht) as Hz.
  rewrite Forall_forall in Hs, Hz. apply Forall_forall. intros w Hin. destruct (Hs w Hin) as [Hw Hws].
  split; [done|]. split; [|by apply Hz].
  apply (List.Forall_impl _ (fun x (Hx : is_slash x = false) => proj1 (Z.eqb_neq x SLASH) Hx)), Hws.
Qed.

Lemma names_of_ok t : nonzeros t -> names_ok (names_of t).
Proof. intros Ht. apply walk_ok; [split; [constructor | by vm_compute] | by apply words_clean]. Qed.

(** * Canonical paths are their own normal form *)

Lemma name_sep w : no_slash w -> Forall (fun x => is_slash x = false) w.
Proof. intros Hs. apply (List.Forall_impl _ (fun c (Hc : c <> SLASH) => proj2 (Z.eqb_neq c SLASH) Hc)), Hs. Qed.

Lemma sep_name w : Forall (fun x => is_slash x = false) w -> no_slash w.
Proof. intros Hs. apply (List.Forall_impl _ (fun c (Hc : is_slash c = false) => proj1 (Z.eqb_neq c SLASH) Hc)), Hs. Qed.

Lemma words_spell ns : Forall name_ok ns -> words is_slash (spell ns) = ns.
Proof.
  intros Hns. induction Hns as [|w ns (Hl & Hs & _) Hns IH]; [done|].
  change (spell (w :: ns)) with ([] ++ SLASH :: (w ++ spell ns)). rewrite words_run by (constructor || done). simpl.
  rewrite words_run; [|by apply name_sep | by destruct ns].
  rewrite decide_False by (intros ->; change (lenZ []) with 0 in Hl; lia).
  replace (words is_slash _) with (words is_slash (spell ns)); [by rewrite IH|].
  destruct ns as [|v ns]; [done|]. change (spell (v :: ns)) with ([] ++ SLASH :: (v ++ spell ns)).
  rewrite words_run by (constructor || done). done.
Qed.

Lemma cut_name_id w : lenZ w <= PART_MAX -> cut_name w = w.
Proof. intros Hw. unfold cut_name, lenZ in *. apply take_ge. lia. Qed.

Lemma walk_spelled l ns : Forall name_ok l -> lenZ ns + lenZ l <= MAX_PARTS -> fold_left walk_name l ns = ns ++ l.
Proof.
  intros Hl. revert ns. induction Hl as [|w l (Hw & _ & _ & Hd & Hdd) _ IH]; intros ns Hn; simpl; [by rewrite app_nil_r|].
  assert (lenZ (w :: l) = lenZ l + 1) by (unfold lenZ; simpl; lia). pose proof (lenZ_nonneg l).
  replace (walk_name ns w) with (ns ++ [w]).
  - rewrite IH; [by rewrite <- app_assoc|]. rewrite lenZ_app. change (lenZ [w]) with 1. lia.
  - unfold walk_name. rewrite cut_name_id by lia. rewrite !decide_False by done.
    destruct (Z.ltb_spec (lenZ ns) MAX_PARTS); [done | lia].
Qed.

Lemma names_of_render ns : names_ok ns -> names_of (render ns) = ns.
Proof.
  intros [Hns Hl]. unfold names_of. destruct ns as [|w ns]; [done|]. unfold render. rewrite words_spell by done.
  apply walk_spelled; done.
Qed.

(** * Faults

    [ends E m Q s]: as [wp], but [m] may also get stuck with a fault of [E]. *)

Definition ends {S A} (E : fault -> Prop) (m : M S A) (Q : A -> S -> Prop) (s : S) : Prop :=
  match m s with Ok a s' => Q a s' | Stuck e _ => E e end.

Section Ends.
Context {S : Type}.
Implicit Types (s : S) (E : fault -> Prop).

Lemma ends_of_wp {A} E (m : M S A) Q s : wp m Q s -> ends E m Q s.
Proof. unfold wp, ends. by destruct (m s). Qed.
Lemma ends_mono {A} E (m : M S A) (Q Q' : A -> S -> Prop) s : (forall a s', Q a s' -> Q' a s') -> ends E m Q s -> ends E m Q' s.
Proof. unfold ends. destruct (m s); auto. Qed.
Lemma ends_bind {A B} E (m : M S A) (f : A -> M S B) Q s : ends E m (fun a => ends E (f a) Q) s -> ends E (m ≫= f) Q s.
Proof. unfold ends, mbind, M_bind. destruct (m s); exact id. Qed.
Lemma ends_wp_bind {A B} E (m : M S A) (f : A -> M S B) Q s : wp m (fun a => ends E (f a) Q) s -> ends E (m ≫= f) Q s.
Proof. intros. by apply ends_bind, ends_of_wp. Qed.
Lemma ends_stuck {A} E (m : M S A) Q s e s' : m s = Stuck e s' -> E e -> ends E m Q s.
Proof. unfold ends. by intros ->. Qed.
Lemma ends_wp {A} E (m : M S A) Q s : ends E m Q s -> (forall e, ~ E e) -> wp m Q s.
Proof. unfold wp, ends. destruct (m s) as [|e]; [done|]. intros He Hn. by destruct (Hn e). Qed.

Lemma ends_for {L R} E (I : Z -> L -> S -> Prop) n i l (body : Z -> L -> M S (ctl L R)) Q s :
  I i l s ->
  (forall j l s, i <= j < i + Z.of_nat n -> I j l s ->
     ends E (body j l) (fun c s' => match c with Cont l' => I (j + 1) l' s' | Brk l' => Q (inl l') s' | Ret r => Q (inr r) s' end) s) ->
  (forall l s, I (i + Z.of_nat n) l s -> Q (inl l) s) ->
  ends E (for_ n i l body) Q s.
Proof.
  revert i l s. induction n as [|n IH]; intros i l s HI Hb HQ; cbn [for_].
  - apply ends_of_wp, wp_ret, HQ. by rewrite Z.add_0_r.
  - apply ends_bind. eapply ends_mono; [| apply Hb; [lia | exact HI]].
    intros [l'|l'|r] s' Hs'; [| done..]. apply IH; [exact Hs' | |].
    + intros j l2 s2 ? ?. apply Hb; [lia | done].
    + intros l2 s2 ?. apply HQ. by replace (i + Z.of_nat (Datatypes.S n)) with (i + 1 + Z.of_nat n) by lia.
Qed.

Lemma ends_locals {L} E (m : M S (L + Empty_set)) (Q : L -> S -> Prop) s :
  ends E m (fun r s' => match r with inl l => Q l s' | inr _ => True end) s -> ends E (locals m) Q s.
Proof. intros Hm. unfold locals. apply ends_bind. eapply ends_mono; [| exact Hm]. by intros [l|[]] s' ?. Qed.
End Ends.

(** * The loops *)

Section Loops.
Context {S : Type} `{Locals}.
Implicit Types s : S.

(** The text from a position on: a run of a name and the rest. *)
Definition run_end (t : list Z) : Prop := match t with [] => True | x :: _ => is_slash x = true end.

Lemma wp_next_part path t p run rest comp (Q : Z * Z * list Z -> S -> Prop) s :
  holds path t -> bytes path -> 0 <= p <= lenZ t -> drop (Z.to_nat p) t = run ++ rest -> no_slash run -> run_end rest ->
  lenZ comp = 64 -> bytes comp ->
  (forall comp', lenZ comp' = 64 -> bytes comp' -> (run <> [] -> holds comp' (cut_name run)) ->
     Q (p + lenZ run, Z.min PART_MAX (lenZ run), comp') s) ->
  wp (next_part path p comp) Q s.
Proof.
  intros Hh Hb Hp Hd Hs He Hl Hbc HQ. pose proof Hh as (Hlt & Hnz & Hr & Hz). pose proof (lenZ_nonneg run). pose proof (lenZ_nonneg rest).
  assert (Hlen : lenZ t - p = lenZ run + lenZ rest) by (rewrite <- (lenZ_drop t p), Hd, lenZ_app by lia; done).
  assert (Hnr : nonzeros run).
  { apply (Forall_drop _ (Z.to_nat p)) in Hnz. rewrite Hd in Hnz. by apply Forall_app in Hnz as [Hnz _]. }
  unfold next_part. apply wp_locals.
  apply (wp_while (fun '(p', k, c) s' => s' = s /\ p <= p' <= p + lenZ run /\ k = Z.min PART_MAX (p' - p) /\
      lenZ c = 64 /\ bytes c /\ (forall j, 0 <= j < k -> rd c j = rd run j) /\ (0 < k -> rd c k = 0))
    (fun '(p', _, _) _ => Z.to_nat (p + lenZ run - p'))).
  - split; [done|]. split; [lia|]. split; [unfold PART_MAX; lia|]. split; [done|]. split; [done|]. split; lia.
  - unfold lenZ in *. lia.
  - intros [[p' k] c] s' (-> & Hp' & -> & Hlc & Hbc' & Hcr & Hck). wp_step. apply wp_aget; [lia|].
    destruct (decide (p' = p + lenZ run)) as [->|].
    + assert (Hend : negb (rd path (p + lenZ run) =? 0) && negb (rd path (p + lenZ run) =? 47) = false).
      { destruct rest as [|x rest].
        - replace (p + lenZ run) with (lenZ t) by (change (lenZ []) with 0 in *; lia). by rewrite Hz.
        - assert (Hx : rd path (p + lenZ run) = x).
          { rewrite (rd_at path t p (run ++ x :: rest) [] Hh) by (rewrite ?app_nil_r, ?lenZ_app; unfold lenZ in *; simpl in *; lia || done).
            rewrite rd_app_r, Z.sub_diag by lia. done. }
          rewrite Hx. simpl in He. unfold is_slash, SLASH in He. rewrite He. apply andb_false_r. }
      rewrite Hend. wp_step. replace (p + lenZ run - p) with (lenZ run) in * by lia. apply HQ; [done..|].
      intros Hne. assert (0 < lenZ run) by (destruct run; [done | unfold lenZ; simpl; lia]).
      assert (Hlcut : lenZ (cut_name run) = Z.min PART_MAX (lenZ run)) by (unfold cut_name, lenZ in *; rewrite length_take; unfold PART_MAX; lia).
      unfold PART_MAX in *. split; [lia|]. split; [by apply Forall_take|]. rewrite Hlcut. split; [|apply Hck; lia].
      intros i Hi. unfold cut_name, PART_MAX. rewrite rd_take by lia. apply Hcr. lia.
    + assert (Hx : rd path p' = rd run (p' - p)).
      { rewrite <- (rd_at path t p run rest Hh) by (done || lia). f_equal. lia. }
      pose proof (Forall_rd _ _ (p' - p) Hnr ltac:(lia)) as Hnz0. pose proof (Forall_rd _ _ (p' - p) Hs ltac:(lia)) as H47.
      simpl in Hnz0, H47. unfold SLASH in H47. rewrite Hx. destruct (Z.eqb_spec (rd run (p' - p)) 0); [done|].
      destruct (Z.eqb_spec (rd run (p' - p)) 47); [done|]. simpl.
      assert (Hbyte : 0 <= rd run (p' - p) < 256) by (rewrite <- Hx; apply Hb).
      unfold PART_MAX in *. destruct (Z.ltb_spec (Z.min 47 (p' - p)) 47).
      * wp_step. apply wp_aset; [lia|]. wp_step. apply wp_aset; [rewrite lenZ_wr; lia|]. wp_step.
        split; [|lia]. split; [done|]. split; [lia|]. split; [lia|]. split; [by rewrite !lenZ_wr|].
        split; [by repeat apply bytes_wr|]. split; intros; rewrite !rd_wr by (rewrite ?lenZ_wr; lia); case_range; try lia; try done.
        -- f_equal. lia.
        -- apply Hcr. lia.
      * wp_step. split; [|lia]. split; [done|]. split; [lia|]. split; [lia|]. split; [done|]. split; [done|]. split; [done|].
        intros _. apply Hck. lia.
Qed.

(** The array of parts holds the names. *)
Definition parts_ok (parts : list (list Z)) (ns : list (list Z)) : Prop :=
  lenZ parts = MAX_PARTS /\ lenZ ns <= MAX_PARTS /\ (forall i, 0 <= i < MAX_PARTS -> lenZ (part_at parts i) = 48) /\
  forall i, 0 <= i < lenZ ns -> holds (part_at parts i) (part_at ns i).

Lemma part_at_put parts i l j : 0 <= i < lenZ parts -> 0 <= j ->
  part_at (<[Z.to_nat i := l]> parts) j = if j =? i then l else part_at parts j.
Proof.
  intros Hi Hj. unfold part_at, lenZ in *. rewrite !nth_lookup. case_range.
  - subst. by rewrite list_lookup_insert_eq by lia.
  - by rewrite list_lookup_insert_ne by lia.
Qed.

Lemma part_at_app ns w i : 0 <= i <= lenZ ns -> part_at (ns ++ [w]) i = if i =? lenZ ns then w else part_at ns i.
Proof.
  intros Hi. unfold part_at, lenZ in *. rewrite !nth_lookup. case_range.
  - subst. rewrite Nat2Z.id, lookup_app_r, Nat.sub_diag by lia. done.
  - by rewrite lookup_app_l by lia.
Qed.

Lemma DOT_holds : holds DOT [46] /\ holds DOTDOT [46; 46] /\ bytes DOT /\ bytes DOTDOT.
Proof.
  split_and!; [| |by apply bytes_by_compute..]; (split; [by vm_compute|]; split; [by repeat constructor|]; split; [|done]);
    intros i Hi; unfold lenZ in Hi; simpl in Hi; [by assert (i = 0) as -> by lia|].
  by assert (i = 0 \/ i = 1) as [->| ->] by lia.
Qed.

Lemma wp_push_part comp parts ns w (Q : list (list Z) * Z -> S -> Prop) s :
  parts_ok parts ns -> holds comp (cut_name w) -> bytes comp ->
  (forall parts', parts_ok parts' (walk_name ns w) -> Q (parts', lenZ (walk_name ns w)) s) ->
  wp (push_part comp parts (lenZ ns)) Q s.
Proof.
  intros Hp Hc Hb HQ. destruct DOT_holds as (Hd & Hdd & Hbd & Hbdd). pose proof Hp as (Hlp & Hln & Hl48 & Hhold).
  pose proof (lenZ_nonneg ns). unfold walk_name in HQ. unfold push_part.
  wp_step. eapply wp_strcmp_holds; [exact Hc | exact Hd | done | done|]. intros v Hv.
  destruct (Z.eqb_spec v 0).
  { wp_step. rewrite decide_True in HQ by tauto. by apply HQ. }
  rewrite decide_False in HQ by tauto.
  wp_step. eapply wp_strcmp_holds; [exact Hc | exact Hdd | done | done|]. intros v2 Hv2.
  destruct (Z.eqb_spec v2 0).
  { wp_step. rewrite decide_True in HQ by tauto.
    assert (Hlen : lenZ (take (Datatypes.length ns - 1) ns) = if 0 <? lenZ ns then lenZ ns - 1 else lenZ ns).
    { unfold lenZ in *. rewrite length_take. destruct (Z.ltb_spec 0 (Z.of_nat (Datatypes.length ns))); lia. }
    rewrite <- Hlen. apply HQ. split; [done|]. rewrite Hlen. split; [destruct (0 <? lenZ ns); lia|]. split; [done|].
    intros i Hi. assert (0 <= i < lenZ ns - 1) by (destruct (Z.ltb_spec 0 (lenZ ns)); lia).
    replace (part_at (take _ ns) i) with (part_at ns i); [apply Hhold; lia|].
    unfold part_at, lenZ in *. rewrite !nth_lookup, lookup_take_lt by lia. done. }
  rewrite decide_False in HQ by tauto. destruct (Z.ltb_spec (lenZ ns) MAX_PARTS).
  - wp_step. eapply wp_strcpy; [exact Hc | |].
    { rewrite Hl48 by lia. unfold cut_name, lenZ. rewrite length_take. unfold PART_MAX. lia. }
    intros r Hlr Hr _. wp_step. replace (lenZ ns + 1) with (lenZ (ns ++ [cut_name w])) by (rewrite lenZ_app; done). apply HQ.
    rewrite Hl48 in Hlr by lia.
    split; [unfold lenZ in *; by rewrite length_insert|]. rewrite lenZ_app. change (lenZ [cut_name w]) with 1. split; [lia|].
    split; intros i Hi; rewrite part_at_put by lia.
    + case_range; [done | by apply Hl48].
    + rewrite part_at_app by lia. case_range; [done|]. apply Hhold. lia.
  - wp_step. by apply HQ.
Qed.

Lemma words_nil : words is_slash [] = [].
Proof. done. Qed.

Lemma wp_split_parts path t (Q : list (list Z) * Z -> S -> Prop) s :
  holds path (SLASH :: t) -> bytes path ->
  (forall parts, parts_ok parts (names_of t) -> Q (parts, lenZ (names_of t)) s) -> wp (split_parts path) Q s.
Proof.
  intros Hh Hb HQ. set (T := SLASH :: t) in *. pose proof Hh as (Hlt & Hnz & Hr & Hz).
  unfold split_parts. apply wp_bind, wp_locals.
  apply (wp_while (fun '(p, parts, n, comp) s' => s' = s /\ 1 <= p <= lenZ T /\ lenZ comp = 64 /\ bytes comp /\ exists ns,
      n = lenZ ns /\ parts_ok parts ns /\ fold_left walk_name (words is_slash (drop (Z.to_nat p) T)) ns = names_of t)
    (fun '(p, _, _, _) _ => Z.to_nat (lenZ T - p))).
  - split; [done|]. split; [unfold T, lenZ; simpl; lia|]. split; [by rewrite lenZ_local by lia|]. split; [by apply bytes_local|].
    exists []. split; [done|]. split; [|done]. split; [done|]. split; [done|]. split; [|intros i Hi; change (lenZ []) with 0 in Hi; lia].
    intros i Hi. unfold part_at. rewrite nth_lookup, lookup_replicate_2 by (unfold MAX_PARTS in *; lia). simpl. by apply lenZ_local.
  - unfold lenZ in *. lia.
  - intros [[[p parts] n] comp] s' (-> & Hp & Hlc & Hbc & ns & -> & Hpo & Hns). wp_step. apply wp_aget; [lia|].
    destruct (decide (p = lenZ T)) as [->|].
    { rewrite Hz. simpl. do 2 wp_step. unfold lenZ in Hns at 1. rewrite Nat2Z.id, drop_all, words_nil in Hns. simpl in Hns. subst ns.
      by apply HQ. }
    pose proof (Forall_rd _ _ p Hnz ltac:(lia)) as Hnzp. simpl in Hnzp. rewrite Hr by lia.
    destruct (Z.eqb_spec (rd T p) 0); [done|].
    destruct (split_run is_slash (drop (Z.to_nat p) T)) as (run & rest & Hd & Hsep & Hend).
    assert (Hrun : no_slash run) by (by apply sep_name).
    assert (Hlen : lenZ T - p = lenZ run + lenZ rest) by (rewrite <- (lenZ_drop T p), Hd, lenZ_app by lia; done).
    pose proof (lenZ_nonneg run). pose proof (lenZ_nonneg rest).
    wp_step. apply (wp_next_part path T p run rest); try done; [lia|]. intros comp' Hlc' Hbc' Hch.
    wp_step. apply wp_aget; [lia|]. rewrite Hd, words_run in Hns by (by apply name_sep || done).
    assert (Hdr : drop (Z.to_nat (p + lenZ run)) T = rest).
    { replace (Z.to_nat (p + lenZ run)) with (Z.to_nat p + Datatypes.length run)%nat by (unfold lenZ; lia).
      by rewrite <- drop_drop, Hd, drop_app_length. }
    assert (Hnext : exists p', (if rd path (p + lenZ run) =? 47 then p + lenZ run + 1 else p + lenZ run) = p' /\
      p < p' <= lenZ T /\ fold_left walk_name (words is_slash (drop (Z.to_nat p') T))
        (if decide (run = []) then ns else walk_name ns run) = names_of t).
    { rewrite fold_left_app in Hns. destruct rest as [|x rest].
      - change (lenZ []) with 0 in *. replace (p + lenZ run) with (lenZ T) in * by lia. rewrite Hz. simpl. exists (lenZ T).
        split; [done|]. split; [lia|]. rewrite Hdr. rewrite <- Hns. by destruct (decide (run = [])).
      - assert (Hx : rd path (p + lenZ run) = x).
        { assert (lenZ (x :: rest) = 1 + lenZ rest) by (unfold lenZ; simpl; lia). pose proof (lenZ_nonneg rest). rewrite Hr by lia.
          replace (p + lenZ run) with (p + lenZ run + 0) by lia. rewrite <- rd_drop by lia. by rewrite Hdr. }
        rewrite Hx. simpl in Hend. unfold is_slash, SLASH in Hend. rewrite Hend.
        assert (lenZ (x :: rest) = 1 + lenZ rest) by (unfold lenZ; simpl; lia). pose proof (lenZ_nonneg rest).
        exists (p + lenZ run + 1). split; [done|]. split; [lia|].
        replace (Z.to_nat (p + lenZ run + 1)) with (Z.to_nat (p + lenZ run) + 1)%nat by lia. rewrite <- drop_drop, Hdr. simpl.
        rewrite drop_0, <- Hns. by destruct (decide (run = [])). }
    destruct Hnext as (p' & -> & Hp' & Hns'). cbv zeta. destruct (decide (run = [])) as [->|Hne].
    + change (Z.min PART_MAX (lenZ [])) with 0. simpl. wp_step. split; [|lia]. split; [done|]. split; [lia|]. eauto 10.
    + assert (0 < lenZ run) by (destruct run; [done | unfold lenZ; simpl; lia]).
      destruct (Z.eqb_spec (Z.min PART_MAX (lenZ run)) 0); [unfold PART_MAX in *; lia|].
      wp_step. apply (wp_push_part comp' parts ns run); [done | by apply Hch | done|]. intros parts' Hpo'. wp_step.
      split; [|lia]. split; [done|]. split; [lia|]. eauto 10.
Qed.

(** One name and a slash behind the text so far: the terminator may not fit. *)
Lemma join_step part out u w (E : fault -> Prop) (Q : ctl (list Z) Empty_set -> S -> Prop) s :
  holds out u -> lenZ out = VFS_MAX_PATH -> holds part w -> lenZ u + lenZ w + 1 <= VFS_MAX_PATH ->
  (lenZ u + lenZ w + 1 = VFS_MAX_PATH -> E OutOfBounds) ->
  (forall r, lenZ r = VFS_MAX_PATH -> holds r (u ++ w ++ [SLASH]) -> Q (Cont r) s) ->
  ends E (off ← strlen out;
    plen ← strlen part;
    out ← memcpy out off part 0 plen;
    out ← aset out (off + plen) 47;
    out ← aset out (off + plen + 1) 0;
    mret (Cont out)) Q s.
Proof.
  intros Ho Hlo Hp Hroom HE HQ. pose proof Ho as (_ & Hnu & Hru & _). pose proof Hp as (Hlp & Hnw & Hrw & _).
  pose proof (lenZ_nonneg u). pose proof (lenZ_nonneg w).
  apply ends_wp_bind, (wp_strlen_holds _ u); [done|]. apply ends_wp_bind, (wp_strlen_holds _ w); [done|].
  apply ends_wp_bind, wp_memcpy; try lia. intros r [Hlr Hcr]. apply ends_wp_bind, wp_aset; [lia|].
  destruct (decide (lenZ u + lenZ w + 1 = VFS_MAX_PATH)) as [He|].
  { apply ends_stuck with OutOfBounds s; [|by apply HE]. apply bind_stuck. unfold aset. rewrite decide_False; [done|].
    rewrite lenZ_wr. lia. }
  apply ends_wp_bind, wp_aset; [rewrite lenZ_wr; lia|]. apply HQ; [by rewrite !lenZ_wr; lia|].
  split; [rewrite !lenZ_wr, !lenZ_app; change (lenZ [SLASH]) with 1; lia|].
  split; [apply Forall_app; split; [done|]; apply Forall_app; split; [done | by repeat constructor]|].
  rewrite !lenZ_app. change (lenZ [SLASH]) with 1. split.
  - intros i Hi. rewrite !rd_wr by (rewrite ?lenZ_wr; lia). case_range; try lia.
    + subst. rewrite !rd_app_r by lia. replace (lenZ u + lenZ w - lenZ u - lenZ w) with 0 by lia. done.
    + rewrite Hcr by lia. destruct (Z.leb_spec (lenZ u) i); simpl.
      * destruct (Z.ltb_spec i (lenZ u + lenZ w)); [|lia]. rewrite rd_app_r, rd_app_l by lia. rewrite Hrw by lia. f_equal.
      * rewrite rd_app_l by lia. apply Hru. lia.
  - rewrite Z.add_assoc. apply rd_wr_eq. rewrite lenZ_wr. lia.
Qed.

Lemma lenZ_spell_snoc ns w : lenZ (spell (ns ++ [w])) = lenZ (spell ns) + 1 + lenZ w.
Proof. unfold spell. rewrite map_app, concat_app, lenZ_app. simpl. rewrite app_nil_r. unfold lenZ. simpl. lia. Qed.

Lemma take_part ns i : 0 <= i < lenZ ns -> take (Z.to_nat (i + 1)) ns = take (Z.to_nat i) ns ++ [part_at ns i].
Proof.
  intros Hi. replace (Z.to_nat (i + 1)) with (Datatypes.S (Z.to_nat i)) by lia. apply take_S_r. unfold part_at, lenZ in *.
  rewrite nth_lookup. destruct (ns !! Z.to_nat i) eqn:E; [done|]. apply lookup_ge_None in E. lia.
Qed.

Lemma lenZ_spell_take ns i : lenZ (spell (take (Z.to_nat i) ns)) <= lenZ (spell ns).
Proof.
  rewrite <- (take_drop (Z.to_nat i) ns) at 2. unfold spell. rewrite map_app, concat_app, lenZ_app.
  pose proof (lenZ_nonneg (concat (map (cons SLASH) (drop (Z.to_nat i) ns)))). lia.
Qed.

Lemma join_ends parts ns (Q : list Z -> S -> Prop) s : parts_ok parts ns -> lenZ (spell ns) < VFS_MAX_PATH ->
  (forall r, lenZ r = VFS_MAX_PATH -> holds r (spell ns ++ [SLASH]) -> Q r s) ->
  ends (fun e => e = OutOfBounds /\ lenZ (spell ns) = VFS_MAX_PATH - 1) (join_parts parts (lenZ ns)) Q s.
Proof.
  intros Hpo Hfit HQ. pose proof Hpo as (Hlp & Hln & Hl48 & Hhold). pose proof (lenZ_nonneg ns). unfold join_parts.
  assert (Hll : lenZ (local_array VFS_MAX_PATH) = VFS_MAX_PATH) by (by apply lenZ_local).
  apply ends_wp_bind, wp_aset; [unfold VFS_MAX_PATH in *; lia|].
  apply ends_wp_bind, wp_aset; [rewrite lenZ_wr; unfold VFS_MAX_PATH in *; lia|]. apply ends_locals.
  apply (ends_for _ (fun i out s' => s' = s /\ lenZ out = VFS_MAX_PATH /\ holds out (spell (take (Z.to_nat i) ns) ++ [SLASH]))).
  - split; [done|]. split; [by rewrite !lenZ_wr|]. simpl. unfold holds. rewrite !lenZ_wr, Hll. change (lenZ [SLASH]) with 1.
    split; [done|]. split; [by repeat constructor|]. split; [|apply rd_wr_eq; rewrite lenZ_wr, Hll; by vm_compute].
    intros i Hi. assert (i = 0) as -> by lia. rewrite rd_wr_ne, rd_wr_eq by (rewrite ?Hll; unfold VFS_MAX_PATH; lia). done.
  - intros i out s' Hi (-> & Hlo & Ho). unfold span in Hi.
    assert (Hlen : lenZ (spell (take (Z.to_nat i) ns) ++ [SLASH]) + lenZ (part_at ns i) = lenZ (spell (take (Z.to_nat (i + 1)) ns))).
    { rewrite take_part, lenZ_spell_snoc, lenZ_app by lia. change (lenZ [SLASH]) with 1. lia. }
    pose proof (lenZ_spell_take ns (i + 1)).
    apply (join_step (part_at parts i) out (spell (take (Z.to_nat i) ns) ++ [SLASH]) (part_at ns i)); try done; try lia.
    + apply Hhold. lia.
    + intros He. split; [done|]. lia.
    + intros r Hlr Hr. split; [done|]. split; [done|]. rewrite take_part by lia. unfold spell at 1.
      rewrite map_app, concat_app. simpl. rewrite app_nil_r, <- !app_assoc. simpl. by rewrite <- !app_assoc in Hr.
  - intros out s' (-> & Hlo & Ho). unfold span in Ho. replace (Z.to_nat (0 + _)) with (Datatypes.length ns) in Ho by (unfold lenZ in *; lia).
    rewrite firstn_all in Ho. by apply HQ.
Qed.

(** Only the slashes at the end go. *)
Lemma wp_strtrim_right l t n c (Q : list Z -> S -> Prop) s :
  holds l (t ++ replicate n c) -> c <> 0 -> (t <> [] -> rd t (lenZ t - 1) <> c) ->
  (forall r, lenZ r = lenZ l -> holds r t -> Q r s) -> wp (strtrim_right l c) Q s.
Proof.
  intros Hl Hc Hlast HQ. pose proof (lenZ_nonneg t). unfold strtrim_right. wp_step. apply (wp_strlen_holds _ (t ++ replicate n c)); [done|].
  apply wp_bind, wp_locals.
  apply (wp_while (fun '(len, r) s' => s' = s /\ lenZ r = lenZ l /\ exists k, len = lenZ (t ++ replicate k c) /\ holds r (t ++ replicate k c))
    (fun '(len, _) _ => Z.to_nat len)).
  - split; [done|]. split; [done|]. by exists n.
  - destruct Hl as (Hl & _). unfold lenZ in *. lia.
  - intros [len r] s' (-> & Hlr & k & -> & Hh). pose proof Hh as (Hll & Hnz & Hr & Hz). rewrite lenZ_app, lenZ_replicate in *.
    destruct k as [|k].
    + change (replicate 0 c) with (@nil Z) in *. rewrite app_nil_r in *. destruct (Z.ltb_spec 0 (lenZ t + Z.of_nat 0)).
      * wp_step. apply wp_aget; [lia|]. rewrite Hr by lia. replace (lenZ t + Z.of_nat 0 - 1) with (lenZ t - 1) by lia.
        destruct (Z.eqb_spec (rd t (lenZ t - 1)) c) as [He|]; [destruct Hlast; [|done]; intros ->; change (lenZ []) with 0 in *; lia|].
        do 2 wp_step. by apply HQ.
      * do 2 wp_step. by apply HQ.
    + destruct (Z.ltb_spec 0 (lenZ t + Z.of_nat (Datatypes.S k))); [|lia].
      replace (lenZ t + Z.of_nat (Datatypes.S k) - 1) with (lenZ t + Z.of_nat k) by lia.
      wp_step. apply wp_aget; [lia|]. rewrite Hr, rd_app_r by lia.
      replace (lenZ t + Z.of_nat k - lenZ t) with (Z.of_nat k) by lia. rewrite rd_replicate by lia. rewrite Z.eqb_refl.
      wp_step. apply wp_aset; [lia|]. wp_step. split; [|lia]. split; [done|]. split; [by rewrite lenZ_wr|]. exists k.
      rewrite lenZ_app, lenZ_replicate. split; [done|].
      assert (Hcut : t ++ replicate k c = take (Z.to_nat (lenZ t + Z.of_nat k)) (t ++ replicate (Datatypes.S k) c)).
      { rewrite replicate_S_end, app_assoc, take_app_le, take_ge; try (rewrite ?length_app, ?length_replicate; unfold lenZ; lia). done. }
      rewrite Hcut. apply holds_cut; [done|]. rewrite lenZ_app, lenZ_replicate. lia.
Qed.
End Loops.

(** * The normal form is not longer than the path *)

Lemma lenZ_spell_cons w ns : lenZ (spell (w :: ns)) = 1 + lenZ w + lenZ (spell ns).
Proof. change (spell (w :: ns)) with ((SLASH :: w) ++ spell ns). rewrite lenZ_app. unfold lenZ. simpl. lia. Qed.

Lemma lenZ_spell_walk l ns : lenZ (spell (fold_left walk_name l ns)) <= lenZ (spell ns) + lenZ (spell l).
Proof.
  revert ns. induction l as [|w l IH]; intros ns; simpl; [change (lenZ (spell [])) with 0; lia|].
  rewrite lenZ_spell_cons. specialize (IH (walk_name ns w)).
  enough (lenZ (spell (walk_name ns w)) <= lenZ (spell ns) + 1 + lenZ w) by lia. unfold walk_name. pose proof (lenZ_nonneg w).
  destruct (decide _); [lia|]. destruct (decide _).
  - pose proof (lenZ_spell_take ns (Z.of_nat (Datatypes.length ns - 1))) as Ht. rewrite Nat2Z.id in Ht. lia.
  - destruct (lenZ ns <? MAX_PARTS); [|lia]. rewrite lenZ_spell_snoc. unfold cut_name, lenZ. rewrite length_take. lia.
Qed.

Lemma lenZ_spell_words w t : lenZ (spell (words_from is_slash w t)) <= lenZ w + lenZ t + 1.
Proof.
  revert w. induction t as [|c t IH]; intros w; simpl.
  - destruct (decide (w = [])); [change (lenZ (spell [])) with 0; unfold lenZ; simpl; lia|].
    rewrite lenZ_spell_cons. change (lenZ (spell [])) with 0. change (lenZ []) with 0. unfold lenZ. rewrite length_reverse. lia.
  - assert (lenZ (c :: t) = 1 + lenZ t) by (unfold lenZ; simpl; lia). destruct (is_slash c).
    + specialize (IH []). change (lenZ []) with 0 in IH. destruct (decide (w = [])) as [->|].
      * simpl. change (lenZ []) with 0. lia.
      * simpl. rewrite lenZ_spell_cons. unfold lenZ at 1. rewrite length_reverse. fold (lenZ w). unfold lenZ in *. lia.
    + specialize (IH (c :: w)). assert (lenZ (c :: w) = 1 + lenZ w) by (unfold lenZ; simpl; lia). lia.
Qed.

Lemma lenZ_spell_names t : lenZ (spell (names_of t)) <= lenZ t + 1.
Proof.
  unfold names_of. pose proof (lenZ_spell_walk (words is_slash t) []). pose proof (lenZ_spell_words [] t).
  change (lenZ (spell [])) with 0 in *. change (lenZ []) with 0 in *. unfold words in *. lia.
Qed.

Lemma last_spell ns : names_ok ns -> ns <> [] -> rd (spell ns) (lenZ (spell ns) - 1) <> SLASH.
Proof.
  intros [Hns _] Hne. destruct ns as [|w ns _] using rev_ind; [done|]. apply Forall_app in Hns as [_ Hw].
  apply Forall_inv in Hw as (Hl & Hs & _). rewrite lenZ_spell_snoc. unfold spell. rewrite map_app, concat_app. simpl.
  rewrite app_nil_r. fold (spell ns). rewrite rd_app_r by lia.
  replace (lenZ (spell ns) + 1 + lenZ w - 1 - lenZ (spell ns)) with (lenZ w) by lia.
  change (SLASH :: w) with ([SLASH] ++ w). rewrite rd_app_r by (change (lenZ [SLASH]) with 1; lia).
  change (lenZ [SLASH]) with 1. exact (Forall_rd _ _ (lenZ w - 1) Hs ltac:(lia)).
Qed.

(** Characters of the path only. *)
Lemma Forall_names (Pr : Z -> Prop) t : Forall Pr t -> Forall (Forall Pr) (names_of t).
Proof.
  intros Ht. unfold names_of. pose proof (words_forall is_slash Pr [] t ltac:(constructor) Ht) as Hw. fold (words is_slash t) in Hw.
  assert (Hn : Forall (Forall Pr) []) by constructor. revert Hn. generalize (@nil (list Z)).
  induction Hw as [|w l Hw _ IH]; intros ns Hn; [done|]. simpl. apply IH. unfold walk_name.
  destruct (decide _); [done|]. destruct (decide _); [by apply Forall_take|]. destruct (_ <? _); [|done].
  apply Forall_app. split; [done|]. constructor; [by apply Forall_take | constructor].
Qed.

Lemma bytes_render t : (forall c, c ∈ t -> 0 <= c < 256) -> bytes (render (names_of t)).
Proof.
  intros Ht. assert (Hf : Forall (fun c => 0 <= c < 256) t) by (by apply list.Forall_forall).
  apply Forall_names in Hf. assert (Hr : Forall (fun c => 0 <= c < 256) (render (names_of t))).
  { unfold render. destruct (names_of t) as [|w ns]; [by repeat constructor|]. induction Hf as [|v l Hv _ IH]; [constructor|].
    change (spell (v :: l)) with ((SLASH :: v) ++ spell l). apply Forall_app. split; [by constructor | exact IH]. }
  apply bytes_of. intros j Hj. exact (Forall_rd _ _ j Hr Hj).
Qed.

(** * Canonicalisation *)

Section Canonical.
Context {S : Type} `{Locals}.
Implicit Types s : S.

Lemma ROOT_holds : holds ROOT [SLASH].
Proof.
  split; [by vm_compute|]. split; [by repeat constructor|]. split; [|done].
  intros i Hi. unfold lenZ in Hi. simpl in Hi. by assert (i = 0) as -> by lia.
Qed.

Lemma canonicalize_ends path t (Q : list Z -> S -> Prop) s :
  holds path (SLASH :: t) -> bytes path -> lenZ path = VFS_MAX_PATH ->
  (forall r, lenZ r = VFS_MAX_PATH -> holds r (render (names_of t)) -> bytes r -> lenZ (render (names_of t)) < VFS_MAX_PATH - 1 -> Q r s) ->
  ends (fun e => e = OutOfBounds /\ lenZ (render (names_of t)) = VFS_MAX_PATH - 1) (canonicalize path) Q s.
Proof.
  intros Hh Hb Hlp HQ. pose proof Hh as (Hlt & Hnz & Hr & Hz). assert (Ht : lenZ (SLASH :: t) = 1 + lenZ t) by (unfold lenZ; simpl; lia).
  pose proof (lenZ_nonneg t). assert (Hok : names_ok (names_of t)) by (apply names_of_ok; by apply Forall_inv_tail in Hnz).
  pose proof (lenZ_spell_names t) as Hspell. unfold canonicalize.
  assert (Hbt : bytes (render (names_of t))).
  { apply bytes_render. intros c Hc. apply list_elem_of_lookup in Hc as [i Hi]. specialize (Hb (Z.of_nat i + 1)).
    pose proof (lookup_lt_Some _ _ _ Hi). rewrite Hr in Hb by (unfold lenZ in *; simpl; lia).
    replace (rd (SLASH :: t) (Z.of_nat i + 1)) with c in Hb; [done|]. unfold rd. replace (Z.to_nat (Z.of_nat i + 1)) with (Datatypes.S i) by lia.
    simpl. by rewrite nth_lookup, Hi. }
  apply ends_wp_bind, wp_aget; [lia|]. rewrite Hr by lia. simpl.
  apply ends_wp_bind, (wp_split_parts path t); [done | done|]. intros parts Hpo.
  destruct (Z.eqb_spec (lenZ (names_of t)) 0) as [He|Hne].
  - apply ends_of_wp. eapply wp_strcpy; [exact ROOT_holds | change (lenZ [SLASH]) with 1; unfold VFS_MAX_PATH in *; lia|].
    intros r Hlr Hhr Hbr. by destruct (names_of t); [apply HQ; [lia | done | by apply Hbr | done] |].
  - assert (Hnn : names_of t <> []) by (intros He; by rewrite He in Hne).
    replace (render (names_of t)) with (spell (names_of t)) in * by (by destruct (names_of t)).
    apply ends_bind, join_ends; [done | lia|]. intros out Hlo Ho. apply ends_of_wp.
    assert (Hfit : lenZ (spell (names_of t)) < VFS_MAX_PATH - 1) by (destruct Ho as (Ho & _); rewrite lenZ_app in Ho; change (lenZ [SLASH]) with 1 in Ho; lia).
    wp_step. apply (wp_strtrim_right out (spell (names_of t)) 1); [done | done | intros _; by apply last_spell|].
    intros out2 Hlo2 Ho2. pose proof Ho2 as (Hl2 & _ & Hr2 & _). pose proof (lenZ_nonneg (spell (names_of t))). wp_step. apply wp_aget; [lia|].
    assert (Hpos : 0 < lenZ (spell (names_of t))).
    { destruct (names_of t) as [|w ns]; [done|]. rewrite lenZ_spell_cons. pose proof (lenZ_nonneg w). pose proof (lenZ_nonneg (spell ns)). lia. }
    rewrite Hr2 by lia. replace (rd (spell (names_of t)) 0) with SLASH by (by destruct (names_of t)). simpl. do 2 wp_step.
    apply (wp_strcpy _ _ (spell (names_of t))); [done | lia|]. intros r Hlr Hhr Hbr. apply HQ; [lia | done | by apply Hbr | done].
Qed.
End Canonical.

(** * Resolving a path against the working directory *)

Definition is_absolute (p : list Z) : bool := match p with c :: _ => c =? SLASH | [] => false end.

(** Where the path [p] leads from the directory with the names [cwd]. *)
Definition resolve_names (cwd : list (list Z)) (p : list Z) : list (list Z) :=
  fold_left walk_name (words is_slash p) (if is_absolute p then [] else cwd).

Lemma walk_DOT ns : walk_name ns [46] = ns.
Proof. done. Qed.

Lemma words_glue w t : words is_slash (w ++ SLASH :: t) = words is_slash w ++ words is_slash t.
Proof.
  unfold words. generalize (@nil Z) at 1 2. induction w as [|c w IH]; intros u; simpl; [done|].
  destruct (is_slash c); [|apply IH]. by rewrite IH, app_assoc.
Qed.

Lemma words_lead t : words is_slash (SLASH :: t) = words is_slash t.
Proof. done. Qed.

(** The text the path and the directory are joined to has those names. *)
Lemma names_of_joined cwd p : names_ok cwd -> is_absolute p = false ->
  names_of (if decide (cwd = []) then SLASH :: p else spell cwd ++ SLASH :: p) = resolve_names cwd p.
Proof.
  intros [Hc Hl] Ha. unfold names_of, resolve_names. rewrite Ha. destruct (decide (cwd = [])) as [->|]; [done|].
  rewrite words_glue, words_spell, fold_left_app by done.
  rewrite (walk_spelled cwd []); [done | done | exact Hl].
Qed.

Section Resolve.
Context {S : Type} `{Locals}.
Implicit Types s : S.

Lemma render_slash cwd : names_ok cwd -> exists u, render cwd = SLASH :: u /\ nonzeros (SLASH :: u).
Proof.
  intros [Hc _]. destruct cwd as [|w cwd]; [exists []; split; [done | by repeat constructor]|].
  exists (w ++ spell cwd). split; [done|]. constructor; [done|]. apply Forall_app.
  pose proof (Forall_inv Hc) as (_ & _ & Hw & _). split; [done|]. apply Forall_inv_tail in Hc. induction Hc as [|v l (_ & _ & Hv & _) _ IH]; [constructor|].
  change (spell (v :: l)) with (SLASH :: v ++ spell l). constructor; [done|]. apply Forall_app. by split.
Qed.

(** The last character of the directory. *)
Lemma last_render cwd : names_ok cwd -> (rd (render cwd) (lenZ (render cwd) - 1) =? SLASH) = bool_decide (cwd = []).
Proof.
  intros Hc. destruct cwd as [|w cwd]; [done|]. rewrite bool_decide_false by done. apply Z.eqb_neq. by apply (last_spell (w :: cwd)).
Qed.

Lemma is_name_str l w t (x : string) : holds l w -> bytes l -> holds (text x) t -> bytes (text x) ->
  forall (Q : Z -> S -> Prop) s, (forall v, (v = 0 <-> w = t) -> Q v s) -> wp (strcmp l (text x)) Q s.
Proof. intros Hl Hb Ht Hbt Q s HQ. by eapply wp_strcmp_holds. Qed.

Lemma text_empty : holds (text "") [] /\ bytes (text "").
Proof.
  split; [|by apply bytes_by_compute]. split; [by vm_compute|]. split; [constructor|]. split; [|done].
  intros i Hi. unfold lenZ in Hi. simpl in Hi. lia.
Qed.

Lemma fmt_join (cwd path : list Z) w p : holds cwd w -> holds path p -> forall b : bool,
  fmt_text (if b then text "%s%s" else text "%s/%s") [ArgStr cwd; ArgStr path] = Some (w ++ (if b then [] else [SLASH]) ++ p).
Proof. intros Hw Hp b. destruct (holds_cstr _ _ Hw) as [<- _], (holds_cstr _ _ Hp) as [<- _]. destruct b; simpl; by rewrite app_nil_r. Qed.

Lemma wp_vfs_cmd_resolve g_cwd cwd path p out sz (Q : list Z -> S -> Prop) s :
  names_ok cwd -> holds g_cwd (render cwd) -> bytes g_cwd -> holds path p -> bytes path ->
  lenZ (render cwd) + 1 + lenZ p < VFS_MAX_PATH ->
  0 < sz <= lenZ out ->
  (forall r, lenZ r = lenZ out -> holds r (take (Z.to_nat (sz - 1)) (render (resolve_names cwd p))) ->
     (bytes out -> bytes r) -> lenZ (render (resolve_names cwd p)) < VFS_MAX_PATH - 1 -> Q r s) ->
  ends (fun e => e = OutOfBounds /\ lenZ (render (resolve_names cwd p)) = VFS_MAX_PATH - 1)
    (vfs_cmd_resolve g_cwd (Some path) out sz) Q s.
Proof.
  intros Hcwd Hg Hbg Hp Hbp Hroom Hsz HQ. pose proof Hp as (Hlp & Hnp & Hrp & Hzp). pose proof (lenZ_nonneg p).
  pose proof Hg as (Hlg & Hng & Hrg & Hzg). destruct (render_slash cwd Hcwd) as (u & Hu & Hnu).
  pose proof (lenZ_nonneg u). assert (Hlu : lenZ (render cwd) = 1 + lenZ u) by (rewrite Hu; unfold lenZ; simpl; lia).
  assert (Hll : lenZ (local_array VFS_MAX_PATH) = VFS_MAX_PATH) by (by apply lenZ_local).
  assert (Hbl : bytes (local_array VFS_MAX_PATH)) by (by apply bytes_local).
  (* What remains once the paths are joined. *)
  assert (Hrest : forall joined t, names_of t = resolve_names cwd p -> lenZ joined = VFS_MAX_PATH -> bytes joined ->
    holds joined (SLASH :: t) ->
    ends (fun e => e = OutOfBounds /\ lenZ (render (resolve_names cwd p)) = VFS_MAX_PATH - 1)
      (joined ← canonicalize joined; out ← strncpy out joined (sz - 1); aset out (sz - 1) 0) Q s).
  { intros joined t Ht Hlj Hbj Hj. rewrite <- Ht in *. apply ends_bind, canonicalize_ends; [done..|].
    intros r Hlr Hr Hbr Hfit. apply ends_of_wp. eapply wp_strncpy_cut; [exact Hr | lia |]. intros r2 Hlr2 Hr2 Hb2. apply HQ; auto. }
  assert (Hcopy : forall src t, lenZ t < VFS_MAX_PATH -> holds src t -> bytes src -> forall K : list Z -> S -> Prop,
    (forall r, lenZ r = VFS_MAX_PATH -> holds r t -> bytes r -> K r s) ->
    wp (joined ← strncpy (local_array VFS_MAX_PATH) src (VFS_MAX_PATH - 1); aset joined (VFS_MAX_PATH - 1) 0) K s).
  { intros src t Hlt Ht Hb K HK. eapply wp_strncpy_cut; [exact Ht | unfold VFS_MAX_PATH in *; lia|]. intros r Hlr Hr Hbr.
    rewrite take_ge in Hr by (unfold lenZ in *; lia). apply HK; [lia | done | auto]. }
  unfold vfs_cmd_resolve. destruct (Z.eqb_spec sz 0); [lia|].
  apply ends_wp_bind, wp_aget; [lia|].
  assert (Habs : (rd path 0 =? 47) = is_absolute p).
  { destruct p as [|c p]; [change (lenZ []) with 0 in Hzp; by rewrite Hzp|]. rewrite Hrp by (unfold lenZ; simpl; lia). done. }
  rewrite Habs. apply ends_wp_bind. destruct (is_absolute p) eqn:Ha.
  { destruct p as [|c p]; [done|]. simpl in Ha. apply Z.eqb_eq in Ha as ->. apply (Hcopy path (SLASH :: p)); [lia | done | done|].
    intros r Hlr Hr Hb. by apply (Hrest r p). }
  assert (Hsame : words is_slash p = [] \/ p = [46] -> resolve_names cwd p = names_of u).
  { intros Hw. replace u with (tail (render cwd)) by (by rewrite Hu). transitivity cwd.
    - unfold resolve_names. rewrite Ha. by destruct Hw as [-> | ->].
    - symmetry. transitivity (names_of (render cwd)); [by destruct cwd | by apply names_of_render]. }
  assert (Hcur : words is_slash p = [] \/ p = [46] ->
    wp (joined ← strncpy (local_array VFS_MAX_PATH) g_cwd (VFS_MAX_PATH - 1); aset joined (VFS_MAX_PATH - 1) 0)
      (fun a => ends (fun e => e = OutOfBounds /\ lenZ (render (resolve_names cwd p)) = VFS_MAX_PATH - 1)
        (joined ← canonicalize a; out ← strncpy out joined (sz - 1); aset out (sz - 1) 0) Q) s).
  { intros Hw. apply (Hcopy g_cwd (render cwd)); [lia | done | done|]. intros r Hlr Hr Hb. rewrite Hu in Hr.
    apply (Hrest r u); [by rewrite Hsame | done..]. }
  destruct DOT_holds as (Hd & _ & Hbd & _). destruct text_empty as [He Hbe].
  wp_step. eapply wp_strcmp_holds; [exact Hp | exact Hd | done | done|]. intros v Hv.
  destruct (Z.eqb_spec v 0) as [Hv0|]; wp_step.
  { wp_step. simpl. apply Hcur. right. by apply Hv. }
  eapply wp_strcmp_holds; [exact Hp | exact He | done | done|]. intros v2 Hv2.
  destruct (Z.eqb_spec v2 0) as [Hv20|]; [apply Hcur; left; by rewrite (proj1 Hv2 Hv20)|].
  wp_step. eapply wp_strlen_holds; [exact Hg|]. wp_step. apply wp_aget; [lia|]. rewrite Hrg by lia.
  change 47 with SLASH. rewrite last_render by done.
  set (b := bool_decide (cwd = [])). assert (Hjoin : render cwd ++ (if b then [] else [SLASH]) ++ p =
    if decide (cwd = []) then SLASH :: p else spell cwd ++ SLASH :: p).
  { unfold b. destruct cwd as [|w cwd]; [done|]. rewrite bool_decide_false by done. rewrite decide_False by done. done. }
  assert (Hjl : lenZ (render cwd ++ (if b then [] else [SLASH]) ++ p) < VFS_MAX_PATH).
  { rewrite !lenZ_app. destruct b; [change (lenZ []) with 0 | change (lenZ [SLASH]) with 1]; lia. }
  wp_step. eapply (wp_snprintf_text _ _ _ (render cwd ++ (if b then [] else [SLASH]) ++ p)).
  - unfold VFS_MAX_PATH in *. lia.
  - by destruct b.
  - by apply fmt_join.
  - apply Forall_app. split; [by rewrite Hu|]. apply Forall_app. split; [destruct b; by repeat constructor | done].
  - done.
  - destruct b; by apply bytes_by_compute.
  - apply Forall_cons_2; [|apply Forall_cons_2; [|constructor]].
    + split; [done | exact (proj2 (holds_cstr _ _ Hg))].
    + split; [done | exact (proj2 (holds_cstr _ _ Hp))].
  - intros r Hlr Hr Hbr. wp_step. rewrite take_ge in Hr by (unfold lenZ in *; lia). cbn [fst].
    rewrite Hjoin in Hr. pose proof (names_of_joined cwd p Hcwd Ha) as Hnames.
    destruct (decide (cwd = [])) as [->|Hne].
    + apply (Hrest r p); [by rewrite <- Hnames | lia | done | done].
    + destruct cwd as [|w cwd]; [done|]. apply (Hrest r (w ++ spell cwd ++ SLASH :: p)); [|lia | done|].
      * rewrite <- Hnames. unfold names_of. change (spell (w :: cwd) ++ SLASH :: p) with (SLASH :: (w ++ spell cwd) ++ SLASH :: p).
        by rewrite words_lead, <- app_assoc.
      * change (spell (w :: cwd)) with (SLASH :: w ++ spell cwd) in Hr. by rewrite <- app_comm_cons, <- app_assoc in Hr.
Qed.
End Resolve.

Section Parent.
Context {S : Type}.
Implicit Types s : S.

Lemma ROOT_format : terminated ROOT /\ bytes ROOT /\ fmt_text ROOT [] = Some [SLASH].
Proof. split; [by vm_compute|]. split; [by apply bytes_by_compute | done]. Qed.

Lemma wp_put_root out sz (Q : list Z -> S -> Prop) s : 1 < sz <= lenZ out -> bytes out ->
  (forall r, lenZ r = lenZ out -> holds r [SLASH] -> Q r s) -> wp (r ← snprintf out sz ROOT []; mret (fst r)) Q s.
Proof.
  intros Hsz Hb HQ. destruct ROOT_format as (Ht & Hbr & Hf). wp_step. eapply wp_snprintf_text; [lia | done | exact Hf | by repeat constructor | done | done | constructor |].
  intros r Hlr Hr _. wp_step. apply HQ; [done|]. rewrite take_ge in Hr by (simpl; lia). done.
Qed.

Lemma wp_vfs_cwd_parent g_cwd cwd out sz (Q : list Z -> S -> Prop) s :
  names_ok cwd -> holds g_cwd (render cwd) -> 1 < sz <= lenZ out -> lenZ (render cwd) < lenZ out -> bytes out ->
  (forall r, lenZ r = lenZ out -> holds r (render (take (Datatypes.length cwd - 1) cwd)) -> Q r s) ->
  wp (vfs_cwd_parent g_cwd out sz) Q s.
Proof.
  intros Hcwd Hg Hsz Hroom Hb HQ. pose proof Hg as (Hlg & Hng & Hrg & _). unfold vfs_cwd_parent.
  wp_step. eapply wp_strlen_holds; [exact Hg|].
  destruct cwd as [|w init _] using rev_ind; [by apply wp_put_root|].
  rewrite length_app, Nat.add_sub, take_app_length in HQ. pose proof (proj1 Hcwd) as Hc. apply Forall_app in Hc as [_ Hw].
  apply Forall_inv in Hw as (Hlw & Hsw & Hzw & _).
  assert (Hren : render (init ++ [w]) = spell init ++ SLASH :: w).
  { replace (render (init ++ [w])) with (spell (init ++ [w])) by (by destruct init). unfold spell.
    rewrite map_app, concat_app. simpl. by rewrite app_nil_r. }
  assert (Hlr : lenZ (render (init ++ [w])) = lenZ (spell init) + 1 + lenZ w).
  { rewrite Hren, lenZ_app. unfold lenZ. simpl. lia. }
  pose proof (lenZ_nonneg (spell init)) as Hs0.
  assert (Hend : forall i, 0 < i <= lenZ w -> rd g_cwd (lenZ (spell init) + i) <> SLASH).
  { intros i Hi. rewrite Hrg, Hren, rd_app_r by lia. replace (lenZ (spell init) + i - lenZ (spell init)) with i by lia.
    change (SLASH :: w) with ([SLASH] ++ w). rewrite rd_app_r by (change (lenZ [SLASH]) with 1; lia). change (lenZ [SLASH]) with 1.
    exact (Forall_rd _ _ (i - 1) Hsw ltac:(lia)). }
  destruct (Z.leb_spec (lenZ (render (init ++ [w]))) 1); [lia|].
  apply wp_bind, wp_locals. apply (wp_while (fun l s' => s' = s /\ l = lenZ (render (init ++ [w]))) (fun _ _ => 0%nat)).
  { done. } { unfold lenZ in *. lia. }
  intros l s' [-> ->]. destruct (Z.ltb_spec 1 (lenZ (render (init ++ [w])))); [|lia].
  wp_step. apply wp_aget; [lia|]. destruct (Z.eqb_spec (rd g_cwd (lenZ (render (init ++ [w])) - 1)) 47) as [He|_].
  { exfalso. apply (Hend (lenZ w)); [lia|]. unfold SLASH. rewrite <- He. f_equal. lia. }
  wp_step. apply wp_bind, wp_locals.
  apply (wp_while (fun l s' => s' = s /\ lenZ (spell init) + 1 <= l <= lenZ (render (init ++ [w]))) (fun l _ => Z.to_nat (l - 1))).
  { split; [done | lia]. } { unfold lenZ in *. lia. }
  intros l s' [-> Hl]. 
  assert (Hfin : wp (if lenZ (spell init) + 1 <=? 1 then r ← snprintf out sz ROOT []; mret (fst r)
    else out0 ← memcpy out 0 g_cwd 0 (lenZ (spell init) + 1 - 1); aset out0 (lenZ (spell init) + 1 - 1) 0) Q s).
  { destruct (Z.leb_spec (lenZ (spell init) + 1) 1).
    - apply wp_put_root; [done | done|]. intros r Hlr2 Hr. apply HQ; [done|]. destruct init as [|v init]; [done|].
      rewrite lenZ_spell_cons in *. pose proof (lenZ_nonneg v). pose proof (lenZ_nonneg (spell init)). lia.
    - replace (lenZ (spell init) + 1 - 1) with (lenZ (spell init)) by lia. wp_step. apply wp_memcpy; try lia.
      intros r [Hl2 Hcr]. apply wp_aset; [lia|]. apply HQ; [by rewrite lenZ_wr|].
      replace (render init) with (spell init) by (destruct init; [change (lenZ (spell [])) with 0 in *; lia | done]).
      split; [rewrite lenZ_wr; lia|]. split; [rewrite Hren in Hng; by apply Forall_app in Hng as [Hng _]|].
      split; [|apply rd_wr_eq; lia]. intros i Hi. rewrite rd_wr_ne, Hcr by lia. case_range; try lia.
      replace (0 + (i - 0)) with i by lia. rewrite Hrg, Hren by lia. apply rd_app_l. lia. }
  destruct (Z.ltb_spec 1 l).
  - wp_step. apply wp_aget; [lia|]. destruct (decide (l = lenZ (spell init) + 1)) as [->|].
    + replace (rd g_cwd (lenZ (spell init) + 1 - 1)) with SLASH; [change (negb (SLASH =? 47)) with false; cbv iota; wp_step; exact Hfin|].
      rewrite Hrg, Hren, rd_app_r by lia. by replace (lenZ (spell init) + 1 - 1 - lenZ (spell init)) with 0 by lia.
    + specialize (Hend (l - 1 - lenZ (spell init)) ltac:(lia)).
      replace (lenZ (spell init) + (l - 1 - lenZ (spell init))) with (l - 1) in Hend by lia. unfold SLASH in Hend.
      destruct (Z.eqb_spec (rd g_cwd (l - 1)) 47); [done|]. cbn [negb]. wp_step. split; [|lia]. split; [done | lia].
  - wp_step. replace l with (lenZ (spell init) + 1) by lia. exact Hfin.
Qed.
End Parent.

(** * Properties *)

(** C16: A path given to a command leads where its names lead from the working
    directory.  When the working directory is spelled in normal form and the
    two, joined by a slash, have fewer than 256 characters, the path is joined
    to it (or taken alone if it starts with a slash): every "." and empty name
    is skipped, every ".." goes up one name and does nothing at the root, and
    every other name, cut to its first 47 characters, goes down, except that a
    name is dropped when 32 names have been reached already.  The result spells
    the names reached, cut to the room of the output; the names reached are
    again in normal form.  It writes beyond its local array exactly when the
    result has 255 characters.  Longer joins are outside the statement. *)
Theorem vfs_cmd_resolve_spec {S} `{Locals} (s : S) g_cwd cwd path p out sz :
  names_ok cwd -> holds g_cwd (render cwd) -> bytes g_cwd -> holds path p -> bytes path ->
  lenZ (render cwd) + 1 + lenZ p < VFS_MAX_PATH -> 0 < sz <= lenZ out ->
  names_ok (resolve_names cwd p) /\
  (if lenZ (render (resolve_names cwd p)) <? VFS_MAX_PATH - 1
   then exists r, vfs_cmd_resolve g_cwd (Some path) out sz s = Ok r s /\ lenZ r = lenZ out /\
     holds r (take (Z.to_nat (sz - 1)) (render (resolve_names cwd p)))
   else lenZ (render (resolve_names cwd p)) = VFS_MAX_PATH - 1 /\
     exists s', vfs_cmd_resolve g_cwd (Some path) out sz s = Stuck OutOfBounds s').
Proof.
  intros Hcwd Hg Hbg Hp Hbp Hroom Hsz. split.
  { unfold resolve_names. apply walk_ok; [|apply words_clean, Hp]. destruct (is_absolute p); [|done].
    split; [constructor | by vm_compute]. }
  set (ns := resolve_names cwd p) in *.
  pose proof (wp_vfs_cmd_resolve g_cwd cwd path p out sz (fun r s' => s' = s /\ lenZ r = lenZ out /\
    holds r (take (Z.to_nat (sz - 1)) (render ns)) /\ lenZ (render ns) < VFS_MAX_PATH - 1) s Hcwd Hg Hbg Hp Hbp Hroom Hsz
    ltac:(intros r Hlr Hr _ Hfit; by split_and!)) as He. fold ns in He.
  unfold ends in He. destruct (vfs_cmd_resolve g_cwd (Some path) out sz s) as [r s'|e s'].
  - destruct He as (-> & Hlr & Hr & Hfit). destruct (Z.ltb_spec (lenZ (render ns)) (VFS_MAX_PATH - 1)); [eauto | lia].
  - destruct He as [-> He]. destruct (Z.ltb_spec (lenZ (render ns)) (VFS_MAX_PATH - 1)); [lia | eauto].
Qed.

(** [cd ..] does not go through the general resolution but through
    [vfs_cwd_parent]; from a directory in normal form both lead to the same
    place, the directory above, and the root is its own parent. *)
Theorem vfs_cwd_parent_resolves {S} (s : S) g_cwd cwd out sz :
  names_ok cwd -> holds g_cwd (render cwd) -> 1 < sz <= lenZ out -> lenZ (render cwd) < lenZ out -> bytes out ->
  exists r, vfs_cwd_parent g_cwd out sz s = Ok r s /\ lenZ r = lenZ out /\ holds r (render (resolve_names cwd [46; 46])).
Proof.
  intros Hcwd Hg Hsz Hroom Hb.
  assert (Hw : wp (vfs_cwd_parent g_cwd out sz) (fun r s' => s' = s /\ lenZ r = lenZ out /\
    holds r (render (resolve_names cwd [46; 46]))) s).
  { apply (wp_vfs_cwd_parent g_cwd cwd); [done..|]. intros r Hlr Hr. by split_and!. }
  apply wp_ok in Hw as (r & s' & Heq & -> & Hlr & Hr). eauto.
Qed.

(** [canonicalize] computes the normal form of an absolute path: empty names
    and "." are left out, ".." removes the name before it, a name is cut to 47
    characters and the names beyond the 32nd are dropped.  It does so exactly
    when the result has at most 254 characters, and writes beyond its local
    array when it has 255, which is as long as a path can be; a path in normal
    form does not change. *)
Theorem canonicalize_spec {S} `{Locals} (s : S) path t :
  holds path (SLASH :: t) -> bytes path -> lenZ path = VFS_MAX_PATH ->
  (if lenZ (render (names_of t)) <? VFS_MAX_PATH - 1
   then exists r, canonicalize path s = Ok r s /\ lenZ r = VFS_MAX_PATH /\ holds r (render (names_of t))
   else lenZ (render (names_of t)) = VFS_MAX_PATH - 1 /\ exists s', canonicalize path s = Stuck OutOfBounds s') /\
  names_of (render (names_of t)) = names_of t.
Proof.
  intros Hh Hb Hl. assert (Hn : nonzeros t) by (destruct Hh as (_ & Hn & _); by apply Forall_inv_tail in Hn).
  split; [|apply names_of_render; by apply names_of_ok].
  pose proof (canonicalize_ends path t (fun r s' => s' = s /\ lenZ r = VFS_MAX_PATH /\ holds r (render (names_of t)) /\
    lenZ (render (names_of t)) < VFS_MAX_PATH - 1) s Hh Hb Hl ltac:(intros r Hlr Hr _ Hfit; by split_and!)) as He.
  unfold ends in He. destruct (canonicalize path s) as [r s'|e s'].
  - destruct He as (-> & Hlr & Hhr & Hfit). destruct (Z.ltb_spec (lenZ (render (names_of t))) (VFS_MAX_PATH - 1)); [eauto | lia].
  - destruct He as [-> He]. destruct (Z.ltb_spec (lenZ (render (names_of t))) (VFS_MAX_PATH - 1)); [lia | eauto].
Qed.

(** * Examples *)

(** "/" and five names of 47 letters, and one of 14: 255 characters. *)
Definition long_path : list Z := concat (replicate 5 (replicate 47 97 ++ [SLASH])) ++ replicate 14 97.

Lemma nonzeros_check t : forallb (fun c => negb (c =? 0)) t = true -> nonzeros t.
Proof. intros Ht. apply List.Forall_forall. intros c Hc. rewrite forallb_forall in Ht. specialize (Ht c Hc). by bprop. Qed.

Lemma canonicalize_spec_witness : exists s', canonicalize ((SLASH :: long_path) ++ [0]) tt = Stuck OutOfBounds s'.
Proof.
  assert (Hn : nonzeros (SLASH :: long_path)) by (by apply nonzeros_check).
  assert (Hb : bytes ((SLASH :: long_path) ++ [0])) by (by apply bytes_by_compute).
  assert (Hl : lenZ ((SLASH :: long_path) ++ [0]) = VFS_MAX_PATH) by (by vm_compute).
  assert (Hlong : (lenZ (render (names_of long_path)) <? VFS_MAX_PATH - 1) = false) by (by vm_compute).
  destruct (canonicalize_spec tt ((SLASH :: long_path) ++ [0]) long_path (holds_of_app _ [] Hn) Hb Hl) as [Hc _].
  rewrite Hlong in Hc. exact (proj2 Hc).
Defined.

(** "../b//./c" from "/a" leads to "/b/c". *)
Definition rel_path : list Z := [46; 46; 47; 98; 47; 47; 46; 47; 99].

Lemma vfs_cmd_resolve_spec_witness : exists r,
  vfs_cmd_resolve ([47; 97] ++ 0 :: replicate 253 0) (Some (rel_path ++ [0])) (replicate 256 0) 256 tt = Ok r tt /\
  holds r [47; 98; 47; 99].
Proof.
  assert (Hc : names_ok [[97]]).
  { split; [|by vm_compute]. repeat constructor; try (by vm_compute). }
  assert (Hg : holds ([47; 97] ++ 0 :: replicate 253 0) (render [[97]])) by (apply holds_of_app; by apply nonzeros_check).
  assert (Hbg : bytes ([47; 97] ++ 0 :: replicate 253 0)) by (by apply bytes_by_compute).
  assert (Hp : holds (rel_path ++ [0]) rel_path) by (apply holds_of_app; by apply nonzeros_check).
  assert (Hbp : bytes (rel_path ++ [0])) by (by apply bytes_by_compute).
  assert (Hroom : lenZ (render [[97]]) + 1 + lenZ rel_path < VFS_MAX_PATH) by (by vm_compute).
  assert (Hsz : 0 < 256 <= lenZ (replicate 256 0)) by (by vm_compute).
  destruct (vfs_cmd_resolve_spec tt _ [[97]] _ rel_path _ 256 Hc Hg Hbg Hp Hbp Hroom Hsz) as [_ (r & Hr & _ & Hh)].
  exists r. split; [exact Hr | exact Hh].
Defined.

Lemma vfs_cwd_parent_resolves_witness : exists r,
  vfs_cwd_parent ([47; 97; 47; 98] ++ [0]) (replicate 256 0) 256 tt = Ok r tt /\ holds r [47; 97].
Proof.
  assert (Hc : names_ok [[97]; [98]]).
  { split; [|by vm_compute]. repeat constructor; try (by vm_compute). }
  assert (Hg : holds ([47; 97; 47; 98] ++ [0]) (render [[97]; [98]])) by (apply holds_of_app; by apply nonzeros_check).
  assert (Hsz : 1 < 256 <= lenZ (replicate 256 0)) by (by vm_compute).
  assert (Hroom : lenZ (render [[97]; [98]]) < lenZ (replicate 256 0)) by (by vm_compute).
  assert (Hb : bytes (replicate 256 0)) by (by apply bytes_by_compute).
  destruct (vfs_cwd_parent_resolves tt _ [[97]; [98]] _ 256 Hc Hg Hsz Hroom Hb) as (r & Hr & _ & Hh).
  exists r. split; [exact Hr | exact Hh].
Defined.
