(* ===== verification/TextBuf.v ===== *)
(** The text of an editor: an array of rows with a cursor, and the edits that
    [nano] and [vi] of [src/kernel/shell/editors.c] make on it.  The two
    editors have the same functions on arrays of their own; here the array and
    its cursor are one record that both include. *)
From Stdlib Require Import ZArith Lia List.
From stdpp Require Import base tactics numbers list.
From S2P Require Import Prelude CString Bytes.
Open Scope Z_scope.

Definition MAX_LINES : Z := 512.
Definition MAX_COL : Z := 160.

Record textbuf : Type := mkText {
  t_lines : list (list Z);
  t_lcount : Z;
  cur_row : Z;
  cur_col : Z;
  t_modified : Z
}.

Section Setters.
Implicit Types s : textbuf.
Definition set_lines l s := mkText l (t_lcount s) (cur_row s) (cur_col s) (t_modified s).
Definition set_lcount n s := mkText (t_lines s) n (cur_row s) (cur_col s) (t_modified s).
Definition set_cur_row r s := mkText (t_lines s) (t_lcount s) r (cur_col s) (t_modified s).
Definition set_cur_col k s := mkText (t_lines s) (t_lcount s) (cur_row s) k (t_modified s).
Definition set_modified v s := mkText (t_lines s) (t_lcount s) (cur_row s) (cur_col s) v.
End Setters.

Notation B := (M textbuf).

(** The row [lines[r]]. *)
Definition row_get (r : Z) : B (list Z) :=
  guard_or OutOfBounds (0 <= r < MAX_LINES);;
  s ← gets t_lines;
  mret (nth (Z.to_nat r) s []).
Definition row_put (r : Z) (l : list Z) : B unit :=
  guard_or OutOfBounds (0 <= r < MAX_LINES);;
  modify (fun s => set_lines (<[Z.to_nat r := l]> (t_lines s)) s).
Definition ch_get (r i : Z) : B Z := l ← row_get r; aget l i.
Definition ch_set (r i v : Z) : B unit := l ← row_get r; l ← aset l i v; row_put r l.

Definition line_len (r : Z) : B Z := l ← row_get r; strlen l.
Definition clear_row (r : Z) : B unit := l ← row_get r; l ← bzero l 0 MAX_COL; row_put r l.

(** [for (k = 0; k < MAX_COL; k++) lines[d][k] = lines[s][k];] *)
Definition copy_row (d s : Z) : B unit :=
  locals (for_ (span 0 MAX_COL) 0 tt (fun k _ =>
    v ← ch_get s k;
    ch_set d k v;;
    mret (Cont tt))).

(** [for (i = from; i < to; i++)] with the row [i + 1] copied to [i]. *)
Definition rows_up (from to : Z) : B unit :=
  locals (for_ (span from to) from tt (fun i _ => copy_row i (i + 1);; mret (Cont tt))).

(** [for (i = from; i > to; i--)] with the row [i - 1] copied to [i]. *)
Definition rows_down (from to : Z) : B unit :=
  locals (for_ (span to from) 0 tt (fun j _ => copy_row (from - j) (from - j - 1);; mret (Cont tt))).

Definition insert_char (ch : Z) : B unit :=
  row ← gets cur_row;
  len ← line_len row;
  if MAX_COL - 1 <=? len then mret tt
  else
    col ← gets cur_col;
    locals (for_ (span col (len + 1)) 0 tt (fun j _ =>
      let i := len - j in
      v ← ch_get row i;
      ch_set row (i + 1) v;;
      mret (Cont tt)));;
    ch_set row col (u8 ch);;
    modify (set_cur_col (col + 1));;
    (if MAX_COL <=? col + 1 then modify (set_cur_col (MAX_COL - 1)) else mret tt);;
    modify (set_modified 1).

Definition backspace : B unit :=
  row ← gets cur_row;
  len ← line_len row;
  col ← gets cur_col;
  if 0 <? col then
    locals (for_ (span (col - 1) len) (col - 1) tt (fun i _ =>
      v ← ch_get row (i + 1);
      ch_set row i v;;
      mret (Cont tt)));;
    modify (set_cur_col (col - 1));;
    modify (set_modified 1)
  else if 0 <? row then
    plen ← line_len (row - 1);
    let room := Z.min (MAX_COL - 1 - plen) len in
    (if 0 <? room then
       locals (for_ (span 0 room) 0 tt (fun i _ =>
         v ← ch_get row i;
         ch_set (row - 1) (plen + i) v;;
         mret (Cont tt)));;
       ch_set (row - 1) (plen + room) 0
     else mret tt);;
    n ← gets t_lcount;
    rows_up row (n - 1);;
    modify (set_lcount (n - 1));;
    modify (set_cur_row (row - 1));;
    modify (set_cur_col (Z.min (plen + room) (MAX_COL - 1)));;
    modify (set_modified 1)
  else mret tt.

Definition newline : B unit :=
  row ← gets cur_row;
  len ← line_len row;
  n ← gets t_lcount;
  if MAX_LINES <=? n then mret tt
  else
    rows_down n (row + 1);;
    clear_row (row + 1);;
    col ← gets cur_col;
    let tail := Z.min (Z.max (len - col) 0) (MAX_COL - 1) in
    locals (for_ (span 0 tail) 0 tt (fun i _ =>
      v ← ch_get row (col + i);
      ch_set (row + 1) i v;;
      mret (Cont tt)));;
    ch_set (row + 1) tail 0;;
    ch_set row col 0;;
    modify (set_lcount (n + 1));;
    modify (set_cur_row (row + 1));;
    modify (set_cur_col 0);;
    modify (set_modified 1).
