(* ===== verification/TextFacts.v ===== *)
(** Correctness of the editor's text: typing, deleting and splitting lines in
    the array of rows is editing one flat text at one place. *)
From Stdlib Require Import ZArith Lia List.
From stdpp Require Import base tactics numbers list.
From S2P Require Import Prelude CString Bytes Buffer TextBuf.
Open Scope Z_scope.

(** * Rows *)

Definition row (L : list (list Z)) (i : Z) : list Z := nth (Z.to_nat i) L [].
Definition put_row (L : list (list Z)) (i : Z) (l : list Z) : list (list Z) := <[Z.to_nat i := l]> L.

(** The array has its size. *)
Definition rows_ok (L : list (list Z)) : Prop :=
  lenZ L = MAX_LINES /\ forall i, 0 <= i < MAX_LINES -> lenZ (row L i) = MAX_COL.

Lemma row_put_row L i j l : 0 <= i < lenZ L -> 0 <= j -> row (put_row L i l) j = if j =? i then l else row L j.
Proof.
  intros Hi Hj. unfold row, put_row, lenZ in *. case_range.
  - subst. apply nth_lookup_Some. apply list_lookup_insert_eq. lia.
  - rewrite !nth_lookup, list_lookup_insert_ne by lia. done.
Qed.

Lemma rows_ok_put L i l : rows_ok L -> 0 <= i < MAX_LINES -> lenZ l = MAX_COL -> rows_ok (put_row L i l).
Proof.
  intros [Hl Hr] Hi He. split; [unfold put_row, lenZ in *; by rewrite length_insert|].
  intros j Hj. rewrite row_put_row by lia. case_range; [done | by apply Hr].
Qed.

Lemma put_put_row L i l l' : put_row (put_row L i l) i l' = put_row L i l'.
Proof. unfold put_row. apply list_insert_insert_eq. Qed.

Lemma rows_ext L L' : lenZ L = lenZ L' -> (forall i, 0 <= i < lenZ L -> row L i = row L' i) -> L = L'.
Proof.
  unfold lenZ, row. intros Hl Hr. apply list_eq_same_length with (length L); [lia | lia|].
  intros i x y Hi Hx Hy. specialize (Hr (Z.of_nat i) ltac:(lia)). rewrite Nat2Z.id, !nth_lookup, Hx, Hy in Hr. exact Hr.
Qed.

Lemma put_row_id L i : 0 <= i < lenZ L -> put_row L i (row L i) = L.
Proof.
  intros Hi. apply rows_ext; [unfold put_row, lenZ; by rewrite length_insert|].
  intros j Hj. unfold put_row, lenZ in Hj. rewrite length_insert in Hj. rewrite row_put_row by (unfold lenZ in *; lia).
  case_range; by subst.
Qed.

Lemma set_lines_twice L L' b : set_lines L (set_lines L' b) = set_lines L b.
Proof. done. Qed.
Lemma set_lines_id b : set_lines (t_lines b) b = b.
Proof. by destruct b. Qed.

(** * Accesses *)

Section Access.
Implicit Types (L : list (list Z)) (b : textbuf).

Lemma wp_row_get r (Q : list Z -> textbuf -> Prop) b :
  0 <= r < MAX_LINES -> Q (row (t_lines b) r) b -> wp (row_get r) Q b.
Proof. intros Hr HQ. unfold row_get. wp_step. by apply wp_guard. Qed.

Lemma wp_row_put r l (Q : unit -> textbuf -> Prop) b :
  0 <= r < MAX_LINES -> Q tt (set_lines (put_row (t_lines b) r l) b) -> wp (row_put r l) Q b.
Proof. intros Hr HQ. unfold row_put. wp_step. by apply wp_guard. Qed.

Lemma wp_ch_get r i (Q : Z -> textbuf -> Prop) b :
  rows_ok (t_lines b) -> 0 <= r < MAX_LINES -> 0 <= i < MAX_COL -> Q (rd (row (t_lines b) r) i) b -> wp (ch_get r i) Q b.
Proof.
  intros [_ Hl] Hr Hi HQ. unfold ch_get. wp_step. apply wp_row_get; [done|]. apply wp_aget; [by rewrite Hl | done].
Qed.

Lemma wp_ch_set r i v (Q : unit -> textbuf -> Prop) b :
  rows_ok (t_lines b) -> 0 <= r < MAX_LINES -> 0 <= i < MAX_COL ->
  Q tt (set_lines (put_row (t_lines b) r (wr (row (t_lines b) r) i v)) b) -> wp (ch_set r i v) Q b.
Proof.
  intros [_ Hl] Hr Hi HQ. unfold ch_set. wp_step. apply wp_row_get; [done|]. wp_step. apply wp_aset; [by rewrite Hl|].
  by apply wp_row_put.
Qed.

Lemma wp_line_len r t (Q : Z -> textbuf -> Prop) b :
  0 <= r < MAX_LINES -> holds (row (t_lines b) r) t -> Q (lenZ t) b -> wp (line_len r) Q b.
Proof.
  intros Hr Ht HQ. unfold line_len. wp_step. apply wp_row_get; [done|]. destruct (holds_cstr _ _ Ht) as [Hc Hterm].
  apply wp_strlen; [done|]. by rewrite Hc.
Qed.

(** A loop that writes the characters of one row. *)
Lemma wp_row_loop r n i0 (body : Z -> unit -> M textbuf (ctl unit Empty_set))
    (J : Z -> list Z -> Prop) (Q : unit -> textbuf -> Prop) b :
  rows_ok (t_lines b) -> 0 <= r < MAX_LINES -> J i0 (row (t_lines b) r) ->
  (forall j k L', i0 <= j < i0 + Z.of_nat n -> lenZ k = MAX_COL -> J j k -> L' = put_row (t_lines b) r k -> rows_ok L' ->
     wp (body j tt) (fun c b' => c = Cont tt /\ exists k', lenZ k' = MAX_COL /\ J (j + 1) k' /\
       b' = set_lines (put_row (t_lines b) r k') b) (set_lines L' b)) ->
  (forall k L', lenZ k = MAX_COL -> J (i0 + Z.of_nat n) k -> L' = put_row (t_lines b) r k -> rows_ok L' ->
     Q tt (set_lines L' b)) ->
  wp (locals (for_ n i0 tt body)) Q b.
Proof.
  intros Hok Hr H0 Hbody HQ. pose proof Hok as [Hl Hrow]. apply wp_locals.
  apply (wp_for (fun j _ b' => exists k, lenZ k = MAX_COL /\ J j k /\ b' = set_lines (put_row (t_lines b) r k) b)).
  - exists (row (t_lines b) r). split; [by apply Hrow|]. split; [done|]. rewrite put_row_id by lia. by rewrite set_lines_id.
  - intros j [] b' Hj (k & Hk & HJ & ->). eapply wp_mono; [|by eapply (Hbody j k); try done; apply rows_ok_put].
    intros c b2 [-> (k' & ? & ? & ->)]. eauto.
  - intros [] b' (k & Hk & HJ & ->). by eapply HQ; try done; apply rows_ok_put.
Qed.

Ltac row_simpl := rewrite ?row_put_row by (unfold MAX_LINES in *; lia).

Lemma wp_copy_row d s0 (Q : unit -> textbuf -> Prop) b :
  rows_ok (t_lines b) -> 0 <= d < MAX_LINES -> 0 <= s0 < MAX_LINES -> d <> s0 ->
  Q tt (set_lines (put_row (t_lines b) d (row (t_lines b) s0)) b) -> wp (copy_row d s0) Q b.
Proof.
  intros Hok Hd Hs Hne HQ. pose proof Hok as [Hl Hrow]. unfold copy_row.
  apply (wp_row_loop d _ 0 _ (fun k r => forall i, 0 <= i < MAX_COL ->
    rd r i = if i <? k then rd (row (t_lines b) s0) i else rd (row (t_lines b) d) i)); try done.
  - intros i Hi. case_range; [lia | done].
  - intros k r L' Hk Hr HJ -> Hok'.
    unfold span, MAX_COL in Hk. rewrite Z.add_0_l, Z.sub_0_r, Z2Nat.id in Hk by lia.
    wp_step. apply wp_ch_get; try done. wp_step. apply wp_ch_set; try done. cbn [t_lines set_lines]. row_simpl.
    destruct (Z.eqb_spec s0 d); [by subst|]. rewrite Z.eqb_refl, put_put_row. wp_step. split; [done|].
    exists (wr r k (rd (row (t_lines b) s0) k)). split; [by rewrite lenZ_wr|]. split; [|done].
    intros i Hi. rewrite rd_wr by (unfold MAX_COL in *; lia). rewrite HJ by done. case_range; try lia; by subst.
  - intros r L' Hr HJ -> _. replace r with (row (t_lines b) s0); [done|].
    apply rd_ext; rewrite Hrow by done; [done|]. intros i Hi. rewrite HJ by done. unfold span, MAX_COL in *. case_range; [done | lia].
Qed.

(** Moving a range of rows by one. *)
Lemma wp_rows_up from to (Q : unit -> textbuf -> Prop) b :
  rows_ok (t_lines b) -> 0 <= from -> to < MAX_LINES ->
  (forall L, rows_ok L -> (forall i, 0 <= i < MAX_LINES ->
     row L i = if (from <=? i) && (i <? to) then row (t_lines b) (i + 1) else row (t_lines b) i) -> Q tt (set_lines L b)) ->
  wp (rows_up from to) Q b.
Proof.
  intros Hok Hf Ht HQ. unfold rows_up. apply wp_locals.
  apply (wp_for (fun k _ b' => exists L, rows_ok L /\ b' = set_lines L b /\ forall i, 0 <= i < MAX_LINES ->
     row L i = if (from <=? i) && (i <? k) then row (t_lines b) (i + 1) else row (t_lines b) i)).
  - exists (t_lines b). split; [done|]. split; [by rewrite set_lines_id|]. intros i Hi. case_range; try done; lia.
  - intros k [] b' Hk (L & HL & -> & Hr). unfold span in Hk. pose proof (proj1 HL). wp_step.
    apply wp_copy_row; [done | lia | lia | lia|]. cbn [t_lines set_lines]. wp_step. exists (put_row L k (row L (k + 1))).
    split; [apply rows_ok_put; [done | lia | apply HL; lia]|]. split; [done|]. intros i Hi. row_simpl.
    rewrite !Hr by lia. case_range; try lia; try done; by subst.
  - intros [] b' (L & HL & -> & Hr). apply HQ; [done|]. intros i Hi. rewrite Hr by done. unfold span.
    case_range; try done; lia.
Qed.

Lemma wp_rows_down from to (Q : unit -> textbuf -> Prop) b :
  rows_ok (t_lines b) -> 0 <= to <= from -> from < MAX_LINES ->
  (forall L, rows_ok L -> (forall i, 0 <= i < MAX_LINES ->
     row L i = if (to <? i) && (i <=? from) then row (t_lines b) (i - 1) else row (t_lines b) i) -> Q tt (set_lines L b)) ->
  wp (rows_down from to) Q b.
Proof.
  intros Hok Hf Ht HQ. unfold rows_down. apply wp_locals.
  apply (wp_for (fun k _ b' => exists L, rows_ok L /\ b' = set_lines L b /\ forall i, 0 <= i < MAX_LINES ->
     row L i = if (from - k <? i) && (i <=? from) then row (t_lines b) (i - 1) else row (t_lines b) i)).
  - exists (t_lines b). split; [done|]. split; [by rewrite set_lines_id|]. intros i Hi. case_range; try done; lia.
  - intros k [] b' Hk (L & HL & -> & Hr). unfold span in Hk. pose proof (proj1 HL). wp_step.
    apply wp_copy_row; [done | lia | lia | lia|]. cbn [t_lines set_lines]. wp_step.
    exists (put_row L (from - k) (row L (from - k - 1))).
    split; [apply rows_ok_put; [done | lia | apply HL; lia]|]. split; [done|]. intros i Hi. row_simpl.
    rewrite !Hr by lia. case_range; try lia; try done; by subst.
  - intros [] b' (L & HL & -> & Hr). apply HQ; [done|]. intros i Hi. rewrite Hr by done. unfold span.
    case_range; try done; lia.
Qed.

Lemma wp_clear_row r (Q : unit -> textbuf -> Prop) b :
  rows_ok (t_lines b) -> 0 <= r < MAX_LINES ->
  (forall l, lenZ l = MAX_COL -> (forall i, 0 <= i < MAX_COL -> rd l i = 0) -> Q tt (set_lines (put_row (t_lines b) r l) b)) ->
  wp (clear_row r) Q b.
Proof.
  intros [_ Hl] Hr HQ. unfold clear_row. wp_step. apply wp_row_get; [done|]. wp_step. pose proof (Hl r Hr).
  apply wp_bzero; [done | done | unfold MAX_COL in *; lia|]. intros l Hlen Hz. apply wp_row_put; [done|]. apply HQ; [lia|].
  intros i Hi. rewrite Hz by lia. unfold MAX_COL in *. case_range; try done; lia.
Qed.
End Access.

(** * Lines and a cursor *)

Record text_at (ls : list (list Z)) (r c : Z) (b : textbuf) : Prop := {
  ta_rows : rows_ok (t_lines b);
  ta_count : t_lcount b = lenZ ls /\ 1 <= lenZ ls <= MAX_LINES;
  ta_lines : forall i, 0 <= i < lenZ ls -> holds (row (t_lines b) i) (row ls i);
  ta_row : cur_row b = r /\ 0 <= r < lenZ ls;
  ta_col : cur_col b = c /\ 0 <= c <= lenZ (row ls r)
}.

Definition splice (ls : list (list Z)) (p q : Z) (m : list (list Z)) : list (list Z) :=
  take (Z.to_nat p) ls ++ m ++ drop (Z.to_nat q) ls.

(** What the edits do to the lines. *)
Definition ins_at (ls : list (list Z)) (r c ch : Z) : list (list Z) := splice ls r (r + 1) [ins c ch (row ls r)].
Definition del_at (ls : list (list Z)) (r c : Z) : list (list Z) := splice ls r (r + 1) [del (c - 1) c (row ls r)].
Definition join_at (ls : list (list Z)) (r : Z) : list (list Z) := splice ls (r - 1) (r + 1) [row ls (r - 1) ++ row ls r].
Definition split_at (ls : list (list Z)) (r c : Z) : list (list Z) :=
  splice ls r (r + 1) [take (Z.to_nat c) (row ls r); drop (Z.to_nat c) (row ls r)].

Lemma lenZ_splice_rows (ls m : list (list Z)) p q : 0 <= p <= q -> q <= lenZ ls -> lenZ (splice ls p q m) = lenZ ls - (q - p) + lenZ m.
Proof. intros Hp Hq. unfold splice, lenZ in *. rewrite !length_app, length_take, length_drop. lia. Qed.

Lemma row_splice ls m p q i : 0 <= p <= q -> q <= lenZ ls -> 0 <= i ->
  row (splice ls p q m) i =
    if i <? p then row ls i else if i <? p + lenZ m then row m (i - p) else row ls (i - lenZ m + (q - p)).
Proof.
  intros Hp Hq Hi. unfold row, splice, lenZ in *. rewrite !nth_lookup. case_range.
  - rewrite lookup_app_l by (rewrite length_take; lia). by rewrite lookup_take_lt by lia.
  - rewrite lookup_app_r by (rewrite length_take; lia). rewrite length_take, lookup_app_l by lia. do 2 f_equal. lia.
  - rewrite lookup_app_r by (rewrite length_take; lia). rewrite length_take, lookup_app_r by lia.
    rewrite lookup_drop. do 2 f_equal. lia.
Qed.

Lemma holds_len l t : holds l t -> lenZ l = MAX_COL -> lenZ t < MAX_COL.
Proof. intros [Hl _] He. lia. Qed.

(** One line replaced. *)
Lemma text_at_put ls r c b L t l c' :
  text_at ls r c b -> rows_ok L -> (forall i, 0 <= i < MAX_LINES -> row L i = if i =? r then l else row (t_lines b) i) ->
  holds l t -> 0 <= c' <= lenZ t ->
  text_at (splice ls r (r + 1) [t]) r c' (set_cur_col c' (set_lines L b)).
Proof.
  intros [Hrows [Hn Hlim] Hls [Hr Hr2] [Hc Hc2]] HL Hrow Ht Hc'.
  assert (Hlen : lenZ (splice ls r (r + 1) [t]) = lenZ ls) by (rewrite lenZ_splice_rows by lia; change (lenZ [t]) with 1; lia).
  assert (Hnth : forall i, 0 <= i -> row (splice ls r (r + 1) [t]) i = if i =? r then t else row ls i).
  { intros i Hi. rewrite row_splice by lia. change (lenZ [t]) with 1. case_range; try lia; try done.
    - subst. by rewrite Z.sub_diag.
    - f_equal. lia. }
  split; cbn [t_lines t_lcount cur_row cur_col set_lines set_cur_col]; rewrite ?Hlen; try done.
  - intros i Hi. rewrite Hnth, Hrow by lia. case_range; [done | by apply Hls].
  - rewrite Hnth by lia. case_range; done.
Qed.

Lemma text_at_modified ls r c b v : text_at ls r c b -> text_at ls r c (set_modified v b).
Proof. by intros [? ? ? ? ?]. Qed.

Lemma wp_text_insert ls r c ch (Q : unit -> textbuf -> Prop) b :
  text_at ls r c b -> 0 < ch < 256 ->
  (forall b', (if lenZ (row ls r) <? MAX_COL - 1 then text_at (ins_at ls r c ch) r (c + 1) b' else text_at ls r c b') -> Q tt b') ->
  wp (insert_char ch) Q b.
Proof.
  intros Hat Hch HQ. pose proof Hat as [Hrows [Hn Hlim] Hls [Hr Hr2] [Hc Hc2]]. pose proof (Hls r Hr2) as Hold.
  pose proof Hrows as [Hl Hrow]. assert (HrL : 0 <= r < MAX_LINES) by lia. pose proof (Hrow r HrL) as Hlen.
  unfold insert_char. do 2 wp_step. rewrite Hr. wp_step. apply (wp_line_len r (row ls r)); [done | done|].
  destruct (Z.leb_spec (MAX_COL - 1) (lenZ (row ls r))).
  { wp_step. apply HQ. case_range; [lia | done]. }
  do 2 wp_step. rewrite Hc. wp_step.
  apply (wp_row_loop r _ 0 _ (fun j k => copied (row (t_lines b) r) (lenZ (row ls r) - j + 2) (row (t_lines b) r)
    (lenZ (row ls r) - j + 1) j k)); try done.
  - split; [done|]. intros i Hi. case_range; try done; lia.
  - intros j k L' Hj Hk [_ Hcp] -> Hok. unfold span in Hj.
    wp_step. apply wp_ch_get; [done | done | unfold MAX_COL in *; lia|].
    wp_step. apply wp_ch_set; [done | done | unfold MAX_COL in *; lia|]. cbn [t_lines set_lines].
    rewrite !row_put_row, Z.eqb_refl, put_put_row by lia. wp_step. split; [done|].
    eexists. split; [by rewrite lenZ_wr|]. split; [|done]. split; [rewrite lenZ_wr; lia|].
    intros i Hi. rewrite rd_wr, !Hcp by lia. case_range; try lia; try done; f_equal; lia.
  - intros k L' Hk Hcp -> Hrk. unfold span in Hcp. rewrite Z.add_0_l in Hcp.
    replace (Z.of_nat (Z.to_nat (lenZ (row ls r) + 1 - c))) with (lenZ (row ls r) - c + 1) in Hcp by lia.
    replace (lenZ (row ls r) - (lenZ (row ls r) - c + 1) + 2) with (c + 1) in Hcp by lia.
    replace (lenZ (row ls r) - (lenZ (row ls r) - c + 1) + 1) with c in Hcp by lia.
    wp_step. apply wp_ch_set; [done | done | unfold MAX_COL in *; lia|]. cbn [t_lines set_lines].
    rewrite !row_put_row, Z.eqb_refl, put_put_row by lia. unfold u8. rewrite Z.mod_small by lia. do 3 wp_step.
    destruct (Z.leb_spec MAX_COL (c + 1)); [lia|]. do 2 wp_step. apply HQ. case_range; [|lia]. apply text_at_modified.
    apply (text_at_put ls r c b _ (ins c ch (row ls r)) (wr k c ch)); try done.
    + apply rows_ok_put; [done | done | by rewrite lenZ_wr].
    + intros i Hi. by rewrite row_put_row by lia.
    + apply (holds_ins (row (t_lines b) r)); try done; lia.
    + rewrite lenZ_ins by lia. lia.
Qed.

(** The rest of a string, copied to an array of its own. *)
Lemma holds_drop l t k c : holds l t -> 0 <= c <= lenZ t -> lenZ t - c < lenZ k ->
  (forall i, 0 <= i < lenZ t - c -> rd k i = rd t (c + i)) -> holds (wr k (lenZ t - c) 0) (drop (Z.to_nat c) t).
Proof.
  intros (_ & Hn & _) Hc Hk HJ. split; [rewrite lenZ_drop, lenZ_wr by lia; lia|]. split; [by apply Forall_drop|].
  rewrite lenZ_drop by lia. split; [|apply rd_wr_eq; lia].
  intros q Hq. rewrite rd_wr, rd_drop by lia. case_range; [lia | apply HJ; lia].
Qed.

(** Appending a string to the one an array holds. *)
Lemma holds_append l t u r : holds l t -> nonzeros u -> lenZ t + lenZ u < lenZ l -> lenZ r = lenZ l ->
  (forall i, 0 <= i < lenZ t + lenZ u -> rd r i = if i <? lenZ t then rd l i else rd u (i - lenZ t)) ->
  rd r (lenZ t + lenZ u) = 0 -> holds r (t ++ u).
Proof.
  intros (Hl & Hn & Hr & Hz) Hu Hroom Hlr Hrr Hend. pose proof (lenZ_nonneg t). unfold holds. rewrite lenZ_app.
  split; [lia|]. split; [by apply Forall_app|]. split; [|done]. intros i Hi. rewrite Hrr by lia. case_range.
  - rewrite rd_app_l by lia. apply Hr. lia.
  - by rewrite rd_app_r by lia.
Qed.

Lemma wp_text_delete ls r c (Q : unit -> textbuf -> Prop) b :
  text_at ls r c b -> 0 < c -> (forall b', text_at (del_at ls r c) r (c - 1) b' -> Q tt b') -> wp backspace Q b.
Proof.
  intros Hat Hc0 HQ. pose proof Hat as [Hrows [Hn Hlim] Hls [Hr Hr2] [Hc Hc2]]. pose proof (Hls r Hr2) as Hold.
  pose proof Hrows as [Hl Hrow]. assert (HrL : 0 <= r < MAX_LINES) by lia. pose proof (Hrow r HrL) as Hlen.
  pose proof (holds_len _ _ Hold Hlen).
  unfold backspace. do 2 wp_step. rewrite Hr. wp_step. apply (wp_line_len r (row ls r)); [done | done|].
  do 2 wp_step. rewrite Hc. destruct (Z.ltb_spec 0 c); [|lia]. wp_step.
  apply (wp_row_loop r _ (c - 1) _ (fun j k => copied (row (t_lines b) r) (c - 1) (row (t_lines b) r) c
    (j - (c - 1)) k)); try done.
  - split; [done|]. intros i Hi. case_range; try done; lia.
  - intros j k L' Hj Hk [_ Hcp] -> Hok. unfold span in Hj.
    wp_step. apply wp_ch_get; [done | done | unfold MAX_COL in *; lia|].
    wp_step. apply wp_ch_set; [done | done | unfold MAX_COL in *; lia|]. cbn [t_lines set_lines].
    rewrite !row_put_row, Z.eqb_refl, put_put_row by lia. wp_step. split; [done|].
    eexists. split; [by rewrite lenZ_wr|]. split; [|done]. split; [rewrite lenZ_wr; lia|].
    intros i Hi. rewrite rd_wr, !Hcp by lia. case_range; try lia; try done; f_equal; lia.
  - intros k L' Hk Hcp -> Hok. unfold span in Hcp.
    replace (c - 1 + Z.of_nat (Z.to_nat (lenZ (row ls r) - (c - 1))) - (c - 1)) with (lenZ (row ls r) - c + 1) in Hcp by lia.
    do 3 wp_step. apply HQ, text_at_modified.
    apply (text_at_put ls r c b _ (del (c - 1) c (row ls r)) k); try done.
    + intros i Hi. by rewrite row_put_row by lia.
    + apply (holds_del (row (t_lines b) r)); try done; lia.
    + rewrite lenZ_del by lia. lia.
Qed.

Lemma wp_text_join ls r (Q : unit -> textbuf -> Prop) b :
  text_at ls r 0 b -> 0 < r -> lenZ (row ls (r - 1)) + lenZ (row ls r) < MAX_COL ->
  (forall b', text_at (join_at ls r) (r - 1) (lenZ (row ls (r - 1))+ lenZ (row ls r)) b' -> Q tt b') -> wp backspace Q b.
Proof.
  intros Hat Hr0 Hfit HQ. pose proof Hat as [Hrows [Hn Hlim] Hls [Hr Hr2] [Hc _]].
  pose proof Hrows as [Hl Hrow]. assert (HrL : 0 <= r < MAX_LINES) by lia.
  pose proof (Hls r Hr2) as Hline. pose proof (Hls (r - 1) ltac:(lia)) as Hprev.
  set (t := row ls r) in *. set (p := row ls (r - 1)) in *. pose proof (lenZ_nonneg t). pose proof (lenZ_nonneg p).
  unfold backspace. do 2 wp_step. rewrite Hr. wp_step. apply (wp_line_len r t); [done | done|].
  do 2 wp_step. rewrite Hc. cbn [Z.ltb Z.compare]. destruct (Z.ltb_spec 0 r); [|lia].
  wp_step. apply (wp_line_len (r - 1) p); [lia | done|]. cbv zeta.
  replace (Z.min (MAX_COL - 1 - lenZ p) (lenZ t)) with (lenZ t) by lia.
  (* The row above gets the line. *)
  apply wp_bind.
  assert (Hjoin : forall Q', (forall k, lenZ k = MAX_COL -> holds k (p ++ t) ->
      Q' tt (set_lines (put_row (t_lines b) (r - 1) k) b)) ->
    wp (if 0 <? lenZ t then
       locals (for_ (span 0 (lenZ t)) 0 tt (fun i _ =>
         v ← ch_get r i;
         ch_set (r - 1) (lenZ p + i) v;;
         mret (Cont tt)));;
       ch_set (r - 1) (lenZ p + lenZ t) 0
     else mret tt) Q' b).
  { intros Q' HQ'. destruct (Z.ltb_spec 0 (lenZ t)).
    - wp_step. apply (wp_row_loop (r - 1) _ 0 _ (fun j k => copied (row (t_lines b) (r - 1)) (lenZ p) (row (t_lines b) r) 0 j k));
        try done; try lia.
      + split; [done|]. intros i Hi. case_range; try done; lia.
      + intros j k L' Hj Hk [_ Hcp] -> Hok. unfold span in Hj.
        wp_step. apply wp_ch_get; [done | done | lia|].
        wp_step. apply wp_ch_set; [done | lia | lia|]. cbn [t_lines set_lines].
        rewrite !row_put_row by lia. rewrite Z.eqb_refl. destruct (Z.eqb_spec r (r - 1)); [lia|]. rewrite put_put_row.
        wp_step. split; [done|].
        eexists. split; [by rewrite lenZ_wr|]. split; [|done]. pose proof (Hrow (r - 1) ltac:(lia)). split; [rewrite lenZ_wr; lia|].
        intros i Hi. rewrite rd_wr, !Hcp by lia. case_range; try lia; try done; f_equal; lia.
      + intros k L' Hk [Hlk Hcp] -> Hok. unfold span in Hcp.
        replace (0 + Z.of_nat (Z.to_nat (lenZ t - 0))) with (lenZ t) in Hcp by lia.
        apply wp_ch_set; [done | lia | lia|]. cbn [t_lines set_lines]. rewrite row_put_row, Z.eqb_refl, put_put_row by lia.
        apply HQ'; [by rewrite lenZ_wr|]. pose proof (Hrow (r - 1) ltac:(lia)).
        apply (holds_append (row (t_lines b) (r - 1))); try done; try (rewrite ?lenZ_wr; lia).
        * apply Hline.
        * intros i Hi. rewrite rd_wr, Hcp by lia. destruct Hline as (_ & _ & Hlr & _). case_range; try lia; try done.
          rewrite Z.add_0_l. apply Hlr. lia.
        * apply rd_wr_eq. lia.
    - wp_step. assert (t = []) as -> by (destruct t; [done | unfold lenZ in *; simpl in *; lia]).
      rewrite app_nil_r in HQ'. specialize (HQ' (row (t_lines b) (r - 1)) ltac:(apply Hrow; lia) Hprev).
      rewrite put_row_id in HQ' by lia. by rewrite set_lines_id in HQ'. }
  apply Hjoin. intros k Hk Hhk. clear Hjoin.
  assert (Hok : rows_ok (put_row (t_lines b) (r - 1) k)) by (apply rows_ok_put; done || lia).
  do 2 wp_step. cbn [t_lcount set_lines]. rewrite Hn. wp_step.
  apply wp_rows_up; [done | lia | lia|]. cbn [t_lines set_lines]. intros L HL Hup.
  do 5 wp_step. apply HQ, text_at_modified. replace (Z.min (lenZ p + lenZ t) (MAX_COL - 1)) with (lenZ p + lenZ t) by lia.
  assert (Hlen : lenZ (join_at ls r) = lenZ ls - 1).
  { unfold join_at. rewrite lenZ_splice_rows by lia. change (lenZ [row ls (r - 1) ++ row ls r]) with 1. lia. }
  assert (Hnth : forall i, 0 <= i -> row (join_at ls r) i = if i =? r - 1 then p ++ t else if i <? r then row ls i else row ls (i + 1)).
  { intros i Hi. unfold join_at. rewrite row_splice by lia. change (lenZ [row ls (r - 1) ++ row ls r]) with 1.
    case_range; try lia; try done; [subst; by rewrite Z.sub_diag | f_equal; lia]. }
  split; cbn [t_lines t_lcount cur_row cur_col set_lines set_lcount set_cur_row set_cur_col]; rewrite ?Hlen; try done; try lia.
  - intros i Hi. rewrite Hnth, Hup by lia. rewrite !row_put_row by lia.
    case_range; try lia; try done; subst; try done; apply Hls; lia.
  - rewrite Hnth by lia. rewrite Z.eqb_refl, lenZ_app. lia.
Qed.

Lemma wp_text_start ls (Q : unit -> textbuf -> Prop) b :
  text_at ls 0 0 b -> Q tt b -> wp backspace Q b.
Proof.
  intros Hat HQ. pose proof Hat as [Hrows [Hn Hlim] Hls [Hr Hr2] [Hc _]].
  unfold backspace. do 2 wp_step. rewrite Hr. wp_step. apply (wp_line_len 0 (row ls 0)); [unfold MAX_LINES; lia | by apply Hls|].
  do 2 wp_step. rewrite Hc. by wp_step.
Qed.

Lemma wp_text_split ls r c (Q : unit -> textbuf -> Prop) b :
  text_at ls r c b -> 
  (forall b', (if lenZ ls <? MAX_LINES then text_at (split_at ls r c) (r + 1) 0 b' else b' = b) -> Q tt b') ->
  wp newline Q b.
Proof.
  intros Hat HQ. pose proof Hat as [Hrows [Hn Hlim] Hls [Hr Hr2] [Hc Hc2]].
  pose proof Hrows as [Hl Hrow]. assert (HrL : 0 <= r < MAX_LINES) by lia.
  pose proof (Hls r Hr2) as Hline. set (t := row ls r) in *. pose proof (holds_len _ _ Hline (Hrow r HrL)).
  unfold newline. do 2 wp_step. rewrite Hr. wp_step. apply (wp_line_len r t); [done | done|].
  do 2 wp_step. rewrite Hn. destruct (Z.leb_spec MAX_LINES (lenZ ls)).
  { wp_step. apply HQ. case_range; [lia | done]. }
  wp_step. apply wp_rows_down; [done | lia | lia|]. intros L HL Hdown. pose proof (proj1 HL).
  wp_step. apply wp_clear_row; [done | lia|]. cbn [t_lines set_lines]. intros z Hz Hz0.
  assert (HL1 : rows_ok (put_row L (r + 1) z)) by (apply rows_ok_put; done || lia).
  do 2 wp_step. cbn [cur_col set_lines]. rewrite Hc. cbv zeta.
  replace (Z.min (Z.max (lenZ t - c) 0) (MAX_COL - 1)) with (lenZ t - c) by lia.
  wp_step. set (b1 := set_lines (put_row L (r + 1) z) b).
  apply (wp_row_loop (r + 1) _ 0 _ (fun j k => forall i, 0 <= i < j -> rd k i = rd t (c + i))); try done; try lia.
  - intros j k L' Hj Hk HJ -> Hok. unfold span in Hj. cbn [t_lines set_lines] in *. rewrite put_put_row in *.
    wp_step. apply wp_ch_get; [done | done | unfold MAX_COL in *; lia|].
    wp_step. apply wp_ch_set; [done | lia | unfold MAX_COL in *; lia|]. cbn [t_lines set_lines].
    rewrite !row_put_row by lia. rewrite Z.eqb_refl. destruct (Z.eqb_spec r (r + 1)); [lia|]. rewrite !put_put_row.
    wp_step. split; [done|]. exists (wr k j (rd (row L r) (c + j))). rewrite put_put_row.
    split; [by rewrite lenZ_wr|]. split; [|done].
    intros i Hi. rewrite rd_wr by (unfold MAX_COL in *; lia). case_range; [|apply HJ; lia].
    subst. rewrite Hdown by lia. destruct Hline as (_ & _ & Hlr & _). case_range; try lia. apply Hlr. lia.
  - intros k L' Hk HJ -> Hok. unfold span in HJ. cbn [t_lines set_lines] in *. rewrite put_put_row in *.
    replace (0 + Z.of_nat (Z.to_nat (lenZ t - c - 0))) with (lenZ t - c) in HJ by lia.
    wp_step. apply wp_ch_set; [done | lia | unfold MAX_COL in *; lia|]. cbn [t_lines set_lines].
    rewrite row_put_row, Z.eqb_refl, put_put_row by lia. set (k2 := wr k (lenZ t - c) 0).
    assert (Hk2 : lenZ k2 = MAX_COL) by (by unfold k2; rewrite lenZ_wr).
    assert (Hok2 : rows_ok (put_row L (r + 1) k2)) by (apply rows_ok_put; done || lia).
    wp_step. apply wp_ch_set; [done | lia | unfold MAX_COL in *; lia|]. cbn [t_lines set_lines].
    rewrite row_put_row by lia. destruct (Z.eqb_spec r (r + 1)); [lia|].
    assert (HLr : row L r = row (t_lines b) r) by (rewrite Hdown by lia; case_range; lia || done). rewrite HLr.
    do 4 wp_step. apply HQ. case_range; [|lia]. apply text_at_modified.
    assert (Hlen : lenZ (split_at ls r c) = lenZ ls + 1).
    { unfold split_at. rewrite lenZ_splice_rows by lia. unfold lenZ at 2. simpl. lia. }
    assert (Hnth : forall i, 0 <= i -> row (split_at ls r c) i = if i =? r then take (Z.to_nat c) t
      else if i =? r + 1 then drop (Z.to_nat c) t else if i <? r then row ls i else row ls (i - 1)).
    { intros i Hi. unfold split_at. rewrite row_splice by lia.
      change (lenZ [take (Z.to_nat c) (row ls r); drop (Z.to_nat c) (row ls r)]) with 2.
      case_range; try lia; try done; [subst; by rewrite Z.sub_diag | by replace (i - r) with 1 by lia | f_equal; lia]. }
    split; cbn [t_lines t_lcount cur_row cur_col set_lines set_lcount set_cur_row set_cur_col]; rewrite ?Hlen; try done; try lia.
    + apply rows_ok_put; [done | lia | rewrite lenZ_wr; by apply Hrow].
    + intros i Hi. assert (Hl2 : lenZ (put_row L (r + 1) k2) = MAX_LINES) by apply Hok2.
      rewrite Hnth, !row_put_row by lia. destruct (Z.eqb_spec i r) as [->|]; [|destruct (Z.eqb_spec i (r + 1)) as [->|]].
      * apply holds_cut; [done | lia].
      * apply (holds_drop (row (t_lines b) r)); done || lia.
      * rewrite Hdown by lia. case_range; try lia; apply Hls; lia.
    + rewrite Hnth by lia. case_range; try lia. unfold lenZ. lia.
Qed.

(** * Lines, wherever the cursor is *)

(** The rows of the text are [ls]; the cursor may be anywhere. *)
Record lines_are (ls : list (list Z)) (b : textbuf) : Prop := {
  la_rows : rows_ok (t_lines b);
  la_count : t_lcount b = lenZ ls /\ 1 <= lenZ ls <= MAX_LINES;
  la_lines : forall i, 0 <= i < lenZ ls -> holds (row (t_lines b) i) (row ls i)
}.

Lemma text_lines ls r c b : text_at ls r c b -> lines_are ls b.
Proof. by intros [? ? ? _ _]. Qed.

Lemma lines_put ls b r l t : lines_are ls b -> 0 <= r < lenZ ls -> lenZ l = MAX_COL -> holds l t ->
  lines_are (put_row ls r t) (set_lines (put_row (t_lines b) r l) b).
Proof.
  intros [Hrows [Hn Hlim] Hls] Hr Hl Ht. pose proof Hrows as [HL _].
  assert (Hlen : lenZ (put_row ls r t) = lenZ ls) by (unfold put_row, lenZ; by rewrite length_insert).
  split; cbn [t_lines t_lcount set_lines]; rewrite ?Hlen; [by apply rows_ok_put; [|lia|] | done |].
  intros i Hi. rewrite !row_put_row by lia. case_range; [done | by apply Hls].
Qed.
