(* ===== verification/FlatText.v ===== *)
(** One flat text with a cursor: what the rows of an editor stand for, and what
    each edit does to it. *)
From Stdlib Require Import ZArith Lia List.
From stdpp Require Import base tactics numbers list.
From S2P Require Import Prelude CString Bytes Buffer TextBuf TextFacts.
Open Scope Z_scope.

(** * Lines and their join *)

(** The lines of a text; a text without a newline is one line. *)
Fixpoint lines_of (t : list Z) : list (list Z) :=
  match t with
  | [] => [[]]
  | c :: t' =>
      if c =? 10 then [] :: lines_of t'
      else match lines_of t' with [] => [[c]] | l :: ls => (c :: l) :: ls end
  end.

(** The text before a position and the text after it. *)
Definition before (ls : list (list Z)) (r c : Z) : list Z :=
  concat (map (fun l => l ++ [10]) (take (Z.to_nat r) ls)) ++ take (Z.to_nat c) (row ls r).
Definition after (ls : list (list Z)) (r c : Z) : list Z :=
  drop (Z.to_nat c) (row ls r) ++ concat (map (cons 10) (drop (Z.to_nat (r + 1)) ls)).

Definition one_line (l : list Z) : Prop := Forall (fun c => c <> 10) l.

Lemma lines_of_cons l : lines_of l <> [].
Proof. destruct l as [|c l]; [done|]. simpl. destruct (c =? 10); [done|]. by destruct (lines_of l). Qed.

Lemma lines_of_line l t : one_line l ->
  lines_of (l ++ t) = match lines_of t with [] => [l] | l' :: ls => (l ++ l') :: ls end.
Proof.
  intros Hl. induction Hl as [|c l Hc _ IH]; simpl.
  - pose proof (lines_of_cons t). by destruct (lines_of t).
  - destruct (Z.eqb_spec c 10); [done|]. rewrite IH. by destruct (lines_of t).
Qed.

(** Joining lines and cutting the join gives the lines back. *)
Lemma lines_of_join l ls : one_line l -> Forall one_line ls -> lines_of (l ++ concat (map (cons 10) ls)) = l :: ls.
Proof.
  intros Hl Hls. revert l Hl. induction Hls as [|l' ls Hl' _ IH]; intros l Hl; rewrite lines_of_line by done.
  - simpl. by rewrite app_nil_r.
  - simpl. rewrite IH by done. by rewrite app_nil_r.
Qed.

Lemma concat_shift (x : list Z) ls l :
  concat (map (fun y => y ++ [10]) (x :: ls)) ++ l = x ++ concat (map (cons 10) (ls ++ [l])).
Proof.
  revert x. induction ls as [|y ls IH]; intros x.
  - simpl. by rewrite !app_nil_r, <- app_assoc.
  - change (concat (map (fun z => z ++ [10]) (x :: y :: ls))) with ((x ++ [10]) ++ concat (map (fun z => z ++ [10]) (y :: ls))).
    rewrite <- !app_assoc, (IH y). done.
Qed.

Lemma row_split ls r : 0 <= r < lenZ ls -> ls = take (Z.to_nat r) ls ++ row ls r :: drop (Z.to_nat (r + 1)) ls.
Proof.
  intros Hr. unfold row, lenZ in *. replace (Z.to_nat (r + 1)) with (S (Z.to_nat r)) by lia.
  rewrite <- (take_drop_middle ls (Z.to_nat r) (nth (Z.to_nat r) ls [])) at 1; [done|].
  rewrite nth_lookup. destruct (ls !! Z.to_nat r) eqn:E; [done|]. apply lookup_ge_None in E. lia.
Qed.

(** The text around a position, whatever the position, has the lines. *)
Lemma lines_around ls r c : Forall one_line ls -> 0 <= r < lenZ ls -> lines_of (before ls r c ++ after ls r c) = ls.
Proof.
  intros Hls Hr. unfold before, after. rewrite <- app_assoc, (app_assoc (take (Z.to_nat c) _)), take_drop.
  rewrite app_assoc. pose proof (row_split ls r Hr) as Hsplit.
  destruct (take (Z.to_nat r) ls) as [|x ls'] eqn:E; rewrite Hsplit in Hls.
  - simpl. rewrite lines_of_join; [done | by apply Forall_inv in Hls | by apply Forall_inv_tail in Hls].
  - rewrite concat_shift, <- app_assoc, <- concat_app, <- map_app, <- app_assoc. simpl.
    rewrite lines_of_join; [done | by apply Forall_inv in Hls | by apply Forall_inv_tail in Hls].
Qed.

(** The text before a position ends in its line. *)
Lemma last_before ls r c : Forall one_line ls -> 0 <= r < lenZ ls -> 
  List.last (lines_of (before ls r c)) [] = take (Z.to_nat c) (row ls r).
Proof.
  intros Hls Hr. unfold before. set (l := take (Z.to_nat c) (row ls r)).
  assert (Hl : one_line l).
  { apply Forall_take. rewrite (row_split ls r) in Hls by done. apply Forall_app in Hls as [_ Hls]. by apply Forall_inv in Hls. }
  assert (Ht : Forall one_line (take (Z.to_nat r) ls)) by (by apply Forall_take).
  destruct (take (Z.to_nat r) ls) as [|x ls'] eqn:E.
  - simpl. rewrite <- (app_nil_r l) at 1. rewrite lines_of_line by done. simpl. by rewrite app_nil_r.
  - rewrite concat_shift, lines_of_join.
    + by rewrite app_comm_cons, List.last_last.
    + by apply Forall_inv in Ht.
    + apply Forall_app. split; [by apply Forall_inv_tail in Ht | by constructor].
Qed.

(** * Positions *)

Definition lead (A : list (list Z)) : list Z := concat (map (fun l => l ++ [10]) A).
Definition trail (D : list (list Z)) : list Z := concat (map (cons 10) D).

Lemma row_at A l D : row (A ++ l :: D) (lenZ A) = l.
Proof. unfold row, lenZ. by rewrite Nat2Z.id, nth_lookup, list_lookup_middle. Qed.

Lemma before_at A l D c : before (A ++ l :: D) (lenZ A) c = lead A ++ take (Z.to_nat c) l.
Proof. unfold before. rewrite row_at. unfold lenZ. by rewrite Nat2Z.id, take_app_length. Qed.

Lemma after_at A l D c : after (A ++ l :: D) (lenZ A) c = drop (Z.to_nat c) l ++ trail D.
Proof.
  unfold after. rewrite row_at. unfold lenZ. replace (Z.to_nat (Z.of_nat (length A) + 1)) with (length (A ++ [l]))
    by (rewrite length_app; simpl; lia).
  change (A ++ l :: D) with (A ++ [l] ++ D). by rewrite (app_assoc A), drop_app_length.
Qed.

Lemma splice_at A M D m : splice (A ++ M ++ D) (lenZ A) (lenZ A + lenZ M) m = A ++ m ++ D.
Proof.
  unfold splice, lenZ. rewrite Nat2Z.id, take_app_length. do 2 f_equal.
  replace (Z.to_nat _) with (length (A ++ M)) by (rewrite length_app; lia). by rewrite (app_assoc A), drop_app_length.
Qed.

(** A position in a list of lines: the lines above, its own, the lines below. *)
Lemma at_row ls r : 0 <= r < lenZ ls -> exists (A : list (list Z)) l D, ls = A ++ l :: D /\ r = lenZ A.
Proof.
  intros Hr. exists (take (Z.to_nat r) ls), (row ls r), (drop (Z.to_nat (r + 1)) ls).
  split; [by apply row_split | rewrite lenZ_take; lia].
Qed.

Lemma lead_snoc A l : lead (A ++ [l]) = lead A ++ l ++ [10].
Proof. unfold lead. rewrite map_app, concat_app. simpl. by rewrite app_nil_r. Qed.
Lemma trail_cons l D : trail (l :: D) = 10 :: l ++ trail D.
Proof. done. Qed.

Lemma before_next ls r c : 0 <= r < lenZ ls -> 0 <= c < lenZ (row ls r) ->
  before ls r (c + 1) = before ls r c ++ [rd (row ls r) c] /\ after ls r c = rd (row ls r) c :: after ls r (c + 1).
Proof.
  intros Hr Hc. destruct (at_row ls r Hr) as (A & l & D & -> & ->). rewrite row_at in *.
  rewrite !before_at, !after_at, (drop_rd l c) by done. split; [|done]. rewrite <- app_assoc. f_equal.
  by apply take_succ_Z.
Qed.

Lemma before_down ls r : 0 <= r -> r + 1 < lenZ ls ->
  before ls (r + 1) 0 = before ls r (lenZ (row ls r)) ++ [10] /\ after ls r (lenZ (row ls r)) = 10 :: after ls (r + 1) 0.
Proof.
  intros Hr Hn. destruct (at_row ls r ltac:(lia)) as (A & p & D & -> & ->). rewrite row_at.
  destruct D as [|l D]; [rewrite lenZ_app in Hn; change (lenZ [p]) with 1 in Hn; lia|].
  rewrite before_at, after_at. rewrite cons_middle, app_assoc.
  replace (lenZ A + 1) with (lenZ (A ++ [p])) by (rewrite lenZ_app; done). rewrite before_at, after_at, lead_snoc.
  unfold lenZ. rewrite Nat2Z.id, firstn_all, drop_all, app_nil_r. simpl. by rewrite <- app_assoc.
Qed.

Lemma before_start ls : before ls 0 0 = [].
Proof. done. Qed.
Lemma after_end ls r : 0 <= r -> r + 1 = lenZ ls -> after ls r (lenZ (row ls r)) = [].
Proof.
  intros Hr Hn. destruct (at_row ls r ltac:(lia)) as (A & l & D & -> & ->). rewrite row_at, after_at.
  destruct D; [|rewrite lenZ_app in Hn; unfold lenZ in Hn; simpl in Hn; lia]. unfold lenZ. by rewrite Nat2Z.id, drop_all.
Qed.

(** * Edits *)

Lemma take_ins c ch l : 0 <= c <= lenZ l -> take (Z.to_nat (c + 1)) (ins c ch l) = take (Z.to_nat c) l ++ [ch].
Proof.
  intros Hc. unfold ins. rewrite cons_middle, app_assoc.
  replace (Z.to_nat (c + 1)) with (length (take (Z.to_nat c) l ++ [ch])); [apply take_app_length|].
  rewrite length_app, length_take. unfold lenZ in Hc. simpl. lia.
Qed.

Lemma drop_ins c ch l : 0 <= c <= lenZ l -> drop (Z.to_nat (c + 1)) (ins c ch l) = drop (Z.to_nat c) l.
Proof.
  intros Hc. unfold ins. rewrite cons_middle, app_assoc.
  replace (Z.to_nat (c + 1)) with (length (take (Z.to_nat c) l ++ [ch])); [apply drop_app_length|].
  rewrite length_app, length_take. unfold lenZ in Hc. simpl. lia.
Qed.

Lemma take_drop_del c l : 0 < c <= lenZ l ->
  take (Z.to_nat (c - 1)) (del (c - 1) c l) = take (Z.to_nat (c - 1)) l /\
  drop (Z.to_nat (c - 1)) (del (c - 1) c l) = drop (Z.to_nat c) l.
Proof.
  intros Hc. unfold del. assert (Hl : length (take (Z.to_nat (c - 1)) l) = Z.to_nat (c - 1)).
  { rewrite length_take. unfold lenZ in Hc. lia. }
  rewrite <- Hl at 1 4. by rewrite take_app_length, drop_app_length.
Qed.

Lemma ins_around ls r c ch : 0 <= r < lenZ ls -> 0 <= c <= lenZ (row ls r) ->
  before (ins_at ls r c ch) r (c + 1) = before ls r c ++ [ch] /\ after (ins_at ls r c ch) r (c + 1) = after ls r c.
Proof.
  intros Hr Hc. destruct (at_row ls r Hr) as (A & l & D & -> & ->). unfold ins_at. rewrite row_at in *.
  change (A ++ l :: D) with (A ++ [l] ++ D) at 1 2 3. change 1 with (lenZ [l]) at 1 3. rewrite splice_at. simpl.
  rewrite !before_at, !after_at, take_ins, drop_ins, app_assoc by done. done.
Qed.

Lemma del_around ls r c : 0 <= r < lenZ ls -> 0 < c <= lenZ (row ls r) ->
  before (del_at ls r c) r (c - 1) = before ls r (c - 1) /\ after (del_at ls r c) r (c - 1) = after ls r c.
Proof.
  intros Hr Hc. destruct (at_row ls r Hr) as (A & l & D & -> & ->). unfold del_at. rewrite row_at in *.
  change (A ++ l :: D) with (A ++ [l] ++ D) at 1 3. change (lenZ A + 1) with (lenZ A + lenZ [l]). rewrite splice_at. simpl.
  rewrite !before_at, !after_at. destruct (take_drop_del c l Hc) as [-> ->]. done.
Qed.

Lemma split_around ls r c : 0 <= r < lenZ ls ->
  before (split_at ls r c) (r + 1) 0 = before ls r c ++ [10] /\ after (split_at ls r c) (r + 1) 0 = after ls r c.
Proof.
  intros Hr. destruct (at_row ls r Hr) as (A & l & D & -> & ->). unfold split_at. rewrite row_at in *.
  change (A ++ l :: D) with (A ++ [l] ++ D) at 1 3. change (lenZ A + 1) with (lenZ A + lenZ [l]) at 1 3. rewrite splice_at. simpl.
  rewrite cons_middle, (app_assoc A).
  replace (lenZ A + 1) with (lenZ (A ++ [take (Z.to_nat c) l])) by (rewrite lenZ_app; done).
  rewrite !before_at, !after_at, lead_snoc, app_nil_r, <- app_assoc. done.
Qed.

Lemma join_around ls r : 0 < r < lenZ ls ->
  before (join_at ls r) (r - 1) (lenZ (row ls (r - 1)) + lenZ (row ls r)) = before ls (r - 1) (lenZ (row ls (r - 1))) ++ row ls r /\
  row ls r ++ after (join_at ls r) (r - 1) (lenZ (row ls (r - 1)) + lenZ (row ls r)) = after ls r 0.
Proof.
  intros Hr. destruct (at_row ls (r - 1) ltac:(lia)) as (A & p & D & -> & HA).
  destruct D as [|l D]; [rewrite lenZ_app in Hr; change (lenZ [p]) with 1 in Hr; lia|].
  replace r with (lenZ (A ++ [p])) by (rewrite lenZ_app; change (lenZ [p]) with 1; lia).
  replace (lenZ (A ++ [p]) - 1) with (lenZ A) by (rewrite lenZ_app; change (lenZ [p]) with 1; lia).
  unfold join_at. 
  replace (lenZ (A ++ [p]) - 1) with (lenZ A) by (rewrite lenZ_app; change (lenZ [p]) with 1; lia).
  replace (row (A ++ p :: l :: D) (lenZ (A ++ [p]))) with l
    by (rewrite cons_middle, app_assoc, row_at; done).
  rewrite row_at.
  replace (after (A ++ p :: l :: D) (lenZ (A ++ [p])) 0) with (l ++ trail D)
    by (rewrite (cons_middle p), (app_assoc A), after_at; done).
  change (A ++ p :: l :: D) with (A ++ [p; l] ++ D) at 1 3.
  replace (lenZ (A ++ [p]) + 1) with (lenZ A + lenZ [p; l]) by (rewrite lenZ_app; change (lenZ [p]) with 1; change (lenZ [p; l]) with 2; lia).
  rewrite splice_at. simpl. rewrite <- lenZ_app, !before_at, !after_at. unfold lenZ.
  rewrite !Nat2Z.id, firstn_all, drop_all, firstn_all, <- app_assoc. done.
Qed.

(** * The text with a cursor *)

(** The text fits the arrays of the editor. *)
Definition fits (t : list Z) : Prop := Forall (fun l => lenZ l < MAX_COL) (lines_of t) /\ lenZ (lines_of t) <= MAX_LINES.
#[export] Instance fits_dec t : Decision (fits t) := _.

(** The array of rows, its cursor included, is the text [bf ++ af] with the
    cursor between the two. *)
Definition shows (bf af : list Z) (b : textbuf) : Prop :=
  exists ls r c, text_at ls r c b /\ Forall one_line ls /\ before ls r c = bf /\ after ls r c = af.

(** Typing a character: ignored when there is no room. *)
Definition type_char (ch : Z) (p : list Z * list Z) : list Z * list Z :=
  if decide (fits (fst p ++ ch :: snd p)) then (fst p ++ [ch], snd p) else p.

(** Erasing the character before the cursor; when it is a newline the cursor
    goes to the end of the line that was joined. *)
Definition erase (p : list Z * list Z) : list Z * list Z :=
  match reverse (fst p) with
  | [] => p
  | ch :: l =>
      if ch =? 10 then
        let next := List.hd [] (lines_of (snd p)) in
        (reverse l ++ next, drop (length next) (snd p))
      else (reverse l, snd p)
  end.

Definition move_left (p : list Z * list Z) : list Z * list Z :=
  match reverse (fst p) with [] => p | ch :: l => (reverse l, ch :: snd p) end.
Definition move_right (p : list Z * list Z) : list Z * list Z :=
  match snd p with [] => p | ch :: l => (fst p ++ [ch], l) end.

(** The column: the length of the line before the cursor. *)
Definition column (p : list Z * list Z) : Z := lenZ (List.last (lines_of (fst p)) []).

Lemma shows_lines ls r c bf af b : text_at ls r c b -> Forall one_line ls -> before ls r c = bf -> after ls r c = af ->
  lines_of (bf ++ af) = ls.
Proof. intros Hat Hls <- <-. apply lines_around; [done | apply Hat]. Qed.

Lemma fits_shows bf af b : shows bf af b -> fits (bf ++ af).
Proof.
  intros (ls & r & c & Hat & Hls & Hb & Ha). unfold fits. rewrite (shows_lines ls r c bf af b) by done.
  destruct Hat as [Hrows [_ Hn] Hl _ _]. split; [|lia]. apply Forall_forall. intros l Hin.
  apply list_elem_of_lookup in Hin as [i Hi]. pose proof (lookup_lt_Some _ _ _ Hi).
  specialize (Hl (Z.of_nat i) ltac:(unfold lenZ; lia)). destruct Hrows as [_ Hcol].
  specialize (Hcol (Z.of_nat i) ltac:(unfold lenZ in *; lia)). pose proof (holds_len _ _ Hl Hcol) as Hlt.
  unfold row in Hlt at 1. by rewrite Nat2Z.id, nth_lookup, Hi in Hlt.
Qed.

Lemma shows_column bf af b : shows bf af b -> column (bf, af) = cur_col b.
Proof.
  intros (ls & r & c & Hat & Hls & <- & _). unfold column. simpl. rewrite last_before; [|done | apply Hat].
  destruct Hat as [_ _ _ _ [-> Hc]]. rewrite lenZ_take; lia.
Qed.

Lemma fits_lines ls : Forall one_line ls -> forall r c, 0 <= r < lenZ ls -> forall bf af, before ls r c = bf -> after ls r c = af ->
  (fits (bf ++ af) <-> Forall (fun l => lenZ l < MAX_COL) ls /\ lenZ ls <= MAX_LINES).
Proof. intros Hls r c Hr bf af <- <-. unfold fits. by rewrite lines_around. Qed.

Lemma one_line_ins c ch l : one_line l -> ch <> 10 -> one_line (ins c ch l).
Proof. intros Hl Hc. apply Forall_app. split; [by apply Forall_take|]. constructor; [done | by apply Forall_drop]. Qed.
Lemma one_line_del p q l : one_line l -> one_line (del p q l).
Proof. intros Hl. apply Forall_app. split; [by apply Forall_take | by apply Forall_drop]. Qed.

Lemma one_line_row ls r : Forall one_line ls -> one_line (row ls r).
Proof.
  intros Hl. unfold row. rewrite nth_lookup. destruct (ls !! Z.to_nat r) eqn:E; [|constructor].
  by eapply Forall_lookup_1 in Hl.
Qed.

Lemma one_line_splice ls p q m : Forall one_line ls -> Forall one_line m -> Forall one_line (splice ls p q m).
Proof. intros Hl Hm. unfold splice. rewrite !Forall_app. split; [by apply Forall_take|]. split; [done | by apply Forall_drop]. Qed.
#[export] Hint Resolve one_line_ins one_line_del one_line_row one_line_splice : editor.

Lemma row_ins_at ls r c ch : 0 <= r < lenZ ls -> row (ins_at ls r c ch) r = ins c ch (row ls r).
Proof. intros Hr. unfold ins_at. rewrite row_splice by lia. change (lenZ [_]) with 1. case_range; try lia. by rewrite Z.sub_diag. Qed.

Lemma Forall_row (Pr : list Z -> Prop) ls r : Forall Pr ls -> 0 <= r < lenZ ls -> Pr (row ls r).
Proof.
  intros Hl Hr. rewrite (row_split ls r) in Hl by done. apply Forall_app in Hl as [_ Hl]. by apply Forall_inv in Hl.
Qed.

(** * What the operations do to the text *)

Section Operations.
Implicit Types (Q : unit -> textbuf -> Prop).

Lemma wp_shows_type ch bf af Q b : shows bf af b -> 0 < ch < 256 -> ch <> 10 ->
  (forall b', shows (fst (type_char ch (bf, af))) (snd (type_char ch (bf, af))) b' -> Q tt b') -> wp (insert_char ch) Q b.
Proof.
  intros (ls & r & c & Hat & Hls & Hb & Ha) Hch Hne HQ. pose proof (ta_row _ _ _ _ Hat) as [_ Hr].
  pose proof (ta_col _ _ _ _ Hat) as [_ Hc]. destruct (ins_around ls r c ch Hr Hc) as [Hb' Ha'].
  assert (Hls' : Forall one_line (ins_at ls r c ch)) by (unfold ins_at; auto with editor).
  apply (wp_text_insert ls r c); [done | done|]. intros b' Hb2. apply HQ. unfold type_char. simpl.
  replace (bf ++ ch :: af) with (before (ins_at ls r c ch) r (c + 1) ++ after (ins_at ls r c ch) r (c + 1))
    by (rewrite Hb', Ha', Hb, Ha, <- app_assoc; done).
  assert (Hr' : 0 <= r < lenZ (ins_at ls r c ch)).
  { unfold ins_at. rewrite lenZ_splice_rows by lia. change (lenZ [_]) with 1. lia. }
  destruct (Z.ltb_spec (lenZ (row ls r)) (MAX_COL - 1)).
  - assert (Hsh : shows (bf ++ [ch]) af b') by (exists (ins_at ls r c ch), r, (c + 1); rewrite Hb', Ha', Hb, Ha; done).
    rewrite decide_True by (rewrite Hb', Ha', Hb, Ha; by eapply fits_shows). done.
  - rewrite decide_False; [by exists ls, r, c|]. intros [Hf _]. rewrite lines_around in Hf by done.
    apply (Forall_row _ _ r) in Hf; [|done]. rewrite row_ins_at, lenZ_ins in Hf by done. lia.
Qed.

Lemma wp_shows_newline bf af Q b : shows bf af b ->
  (forall b', shows (fst (type_char 10 (bf, af))) (snd (type_char 10 (bf, af))) b' -> Q tt b') -> wp newline Q b.
Proof.
  intros (ls & r & c & Hat & Hls & Hb & Ha) HQ. pose proof (ta_row _ _ _ _ Hat) as [_ Hr].
  pose proof (ta_col _ _ _ _ Hat) as [_ Hc]. destruct (split_around ls r c Hr) as [Hb' Ha'].
  assert (Hls' : Forall one_line (split_at ls r c)).
  { apply one_line_splice; [done|]. pose proof (one_line_row ls r Hls). repeat constructor; [by apply Forall_take | by apply Forall_drop]. }
  apply (wp_text_split ls r c); [done|]. intros b' Hb2. apply HQ. unfold type_char. simpl.
  replace (bf ++ 10 :: af) with (before (split_at ls r c) (r + 1) 0 ++ after (split_at ls r c) (r + 1) 0)
    by (rewrite Hb', Ha', Hb, Ha, <- app_assoc; done).
  assert (Hlen : lenZ (split_at ls r c) = lenZ ls + 1).
  { unfold split_at. rewrite lenZ_splice_rows by lia. change (lenZ [_; _]) with 2. lia. }
  destruct (Z.ltb_spec (lenZ ls) MAX_LINES).
  - assert (Hsh : shows (bf ++ [10]) af b') by (exists (split_at ls r c), (r + 1), 0; rewrite Hb', Ha', Hb, Ha; done).
    rewrite decide_True by (rewrite Hb', Ha', Hb, Ha; by eapply fits_shows). done.
  - subst b'. rewrite decide_False; [by exists ls, r, c|]. intros [_ Hf]. rewrite lines_around in Hf by (done || lia). lia.
Qed.

(** The join at the start of a line is a text that fits. *)
Lemma row_join_at ls r : 0 < r < lenZ ls -> row (join_at ls r) (r - 1) = row ls (r - 1) ++ row ls r.
Proof. intros Hr. unfold join_at. rewrite row_splice by lia. change (lenZ [_]) with 1. case_range; try lia. by rewrite Z.sub_diag. Qed.

Lemma wp_shows_erase bf af Q b : shows bf af b ->
  fits (fst (erase (bf, af)) ++ snd (erase (bf, af))) ->
  (forall b', shows (fst (erase (bf, af))) (snd (erase (bf, af))) b' -> Q tt b') -> wp backspace Q b.
Proof.
  intros (ls & r & c & Hat & Hls & Hb & Ha) Hfit HQ. pose proof (ta_row _ _ _ _ Hat) as [_ Hr].
  pose proof (ta_col _ _ _ _ Hat) as [_ Hc]. unfold erase in *. simpl in *.
  destruct (decide (c = 0)) as [->|]; [destruct (decide (r = 0)) as [->|]|].
  - rewrite before_start in Hb. subst bf. apply (wp_text_start ls); [done|]. apply HQ. by exists ls, 0, 0.
  - destruct (before_down ls (r - 1)) as [Hbd Had]; [lia | lia|]. replace (r - 1 + 1) with r in * by lia.
    rewrite Hb, Ha in *. rewrite Hbd, reverse_snoc in *. change (10 =? 10) with true in *. cbv iota in *.
    rewrite reverse_involutive in *. destruct (join_around ls r ltac:(lia)) as [Hbj Haj]. rewrite Ha in Haj.
    replace (List.hd [] (lines_of af)) with (row ls r) in *.
    2:{ rewrite <- Ha. destruct (at_row ls r Hr) as (A & l & D & -> & ->). rewrite row_at, after_at. unfold trail. simpl.
        apply Forall_app in Hls as [_ Hls]. rewrite lines_of_join; [done | by apply Forall_inv in Hls | by apply Forall_inv_tail in Hls]. }
    replace (drop (length (row ls r)) af) with (after (join_at ls r) (r - 1) (lenZ (row ls (r - 1)) + lenZ (row ls r))) in *
      by (rewrite <- Haj, drop_app_length; done).
    rewrite <- Hbj in *. 
    assert (Hls' : Forall one_line (join_at ls r)).
    { apply one_line_splice; [done|]. repeat constructor. apply Forall_app. by split; apply one_line_row. }
    assert (Hlen : lenZ (join_at ls r) = lenZ ls - 1).
    { unfold join_at. rewrite lenZ_splice_rows by lia. change (lenZ [_]) with 1. lia. }
    apply (wp_text_join ls r); [done | lia | |].
    + destruct Hfit as [Hfit _]. simpl in Hfit. rewrite lines_around in Hfit by (done || lia).
      apply (Forall_row _ _ (r - 1)) in Hfit; [|lia]. by rewrite row_join_at, lenZ_app in Hfit by lia.
    + intros b' Hb'. apply HQ. by exists (join_at ls r), (r - 1), (lenZ (row ls (r - 1)) + lenZ (row ls r)).
  - destruct (del_around ls r c Hr ltac:(lia)) as [Hb' Ha'].
    destruct (before_next ls r (c - 1) Hr ltac:(lia)) as [Hbn Han]. replace (c - 1 + 1) with c in * by lia.
    rewrite Hb in Hbn. rewrite Hbn, reverse_snoc in *.
    pose proof (Forall_rd _ _ (c - 1) (one_line_row ls r Hls) ltac:(lia)) as H10. simpl in H10.
    destruct (Z.eqb_spec (rd (row ls r) (c - 1)) 10); [done|]. rewrite reverse_involutive in *. simpl in *.
    apply (wp_text_delete ls r c); [done | lia|]. intros b' Hb2. apply HQ.
    exists (del_at ls r c), r, (c - 1). rewrite Hb', Ha'.
    split; [done|]. split; [unfold del_at; auto with editor | done].
Qed.
End Operations.
