(* ===== verification/ViState.v ===== *)
(** The state of [vi] of [src/kernel/shell/editors.c]: the text with its cursor
    and modified flag ([vi_lines], [vi_lcount], [vi_row], [vi_col],
    [vi_modified]), the other [int] variables of the file, and its character
    arrays.  Most of them are flags and counters that one key reads and another
    writes, so they are kept as a store indexed by their names. *)
From Stdlib Require Import ZArith Lia List.
From stdpp Require Import base tactics numbers list.
From S2P Require Import Prelude CString Bytes TextBuf.
Open Scope Z_scope.

Inductive vi_int : Type :=
  | vi_scroll | vi_scroll_x | vi_mode | vi_done | vi_pending | vi_cmd_len
  | vi_show_rnu | vi_show_nu
  | vi_yank_len | vi_yank_line
  | vi_op | vi_op_linewise | vi_op_pending
  | vi_vis_start_row | vi_vis_start_col | vi_vis_type
  | vi_search_len | vi_search_dir | vi_search_highlight | vi_search_prompt_len
  | vi_undo_row | vi_undo_lcount | vi_redo_row | vi_redo_lcount | vi_undo_valid
  | vi_dot_op | vi_dot_linewise | vi_dot_valid.

Inductive vi_array : Type :=
  | vi_fname | vi_status | vi_msg | vi_cmd | vi_yank_buf
  | vi_search_pat | vi_search_prompt | vi_undo_line | vi_redo_line.

#[export] Instance vi_int_eq_dec : EqDecision vi_int.
Proof. solve_decision. Defined.
#[export] Instance vi_array_eq_dec : EqDecision vi_array.
Proof. solve_decision. Defined.

Record vi : Type := mkVi {
  v_text : textbuf;
  ints : vi_int -> Z;
  arrays : vi_array -> list Z
}.

(** The store after an assignment. *)
Definition assign {K A : Type} `{EqDecision K} (x : K) (v : A) (f : K -> A) : K -> A :=
  fun y => if decide (y = x) then v else f y.

Section Setters.
Implicit Types s : vi.
Definition set_v_text v s := mkVi v (ints s) (arrays s).
Definition set_int x v s := mkVi (v_text s) (assign x v (ints s)) (arrays s).
Definition set_array x v s := mkVi (v_text s) (ints s) (assign x v (arrays s)).
End Setters.

Notation V := (M vi).

(** Reading and writing a variable. *)
Definition get (x : vi_int) : V Z := gets (fun s => ints s x).
Definition put (x : vi_int) (v : Z) : V unit := modify (set_int x v).
Definition array (x : vi_array) : V (list Z) := gets (fun s => arrays s x).
Definition set_buf (x : vi_array) (l : list Z) : V unit := modify (set_array x l).
(** [x[i] = c] *)
Definition put_char (x : vi_array) (i c : Z) : V unit := l ← array x; l ← aset l i c; set_buf x l.

(** The text. *)
Definition on_lines {A} (m : M textbuf A) : V A := zoom v_text set_v_text m.
Definition vi_row : V Z := gets (fun s => cur_row (v_text s)).
Definition vi_col : V Z := gets (fun s => cur_col (v_text s)).
Definition vi_lcount : V Z := gets (fun s => t_lcount (v_text s)).
Definition vi_modified : V Z := gets (fun s => t_modified (v_text s)).
Definition set_row (r : Z) : V unit := on_lines (modify (set_cur_row r)).
Definition set_col (i : Z) : V unit := on_lines (modify (set_cur_col i)).
Definition set_count (n : Z) : V unit := on_lines (modify (set_lcount n)).
Definition mark_modified (v : Z) : V unit := on_lines (modify (set_modified v)).
(** [vi_lines[r][i]] *)
Definition line_char (r i : Z) : V Z := on_lines (ch_get r i).
Definition set_line_char (r i c : Z) : V unit := on_lines (ch_set r i c).
Definition line (r : Z) : V (list Z) := on_lines (row_get r).
Definition set_line (r : Z) (l : list Z) : V unit := on_lines (row_put r l).

Section Assign.
Context {K A : Type} `{EqDecision K}.
Lemma assign_same (x : K) (v : A) f : assign x v f x = v.
Proof. unfold assign. by rewrite decide_True. Qed.
Lemma assign_other (x y : K) (v : A) f : y <> x -> assign x v f y = f y.
Proof. intros. unfold assign. by rewrite decide_False. Qed.
End Assign.

(** One step of a program over the store. *)
Ltac vi_step :=
  lazymatch goal with
  | |- wp (get _) _ _ => apply wp_gets
  | |- wp (array _) _ _ => apply wp_gets
  | |- wp vi_row _ _ => apply wp_gets
  | |- wp vi_col _ _ => apply wp_gets
  | |- wp vi_lcount _ _ => apply wp_gets
  | |- wp vi_modified _ _ => apply wp_gets
  | |- wp (put _ _) _ _ => apply wp_modify
  | |- wp (set_buf _ _) _ _ => apply wp_modify
  | |- wp (set_row _) _ _ => apply wp_zoom, wp_modify
  | |- wp (set_col _) _ _ => apply wp_zoom, wp_modify
  | |- wp (set_count _) _ _ => apply wp_zoom, wp_modify
  | |- wp (mark_modified _) _ _ => apply wp_zoom, wp_modify
  | |- wp (on_lines _) _ _ => apply wp_zoom
  | |- _ => wp_step
  end; cbv beta.
