(* ===== verification/ViEdit.v ===== *)
(** The edits, motions and searches of [vi] of [src/kernel/shell/editors.c]:
    the functions that touch only the editor's own variables. *)
From Stdlib Require Import ZArith Lia List String.
From stdpp Require Import base tactics numbers list strings.
From S2P Require Import Prelude CString Bytes Text TextBuf ViState.
Open Scope Z_scope.

Definition VI_STATUS_SZ : Z := 80.
Definition VI_CMD_SZ : Z := 64.
Definition VI_SEARCH_SZ : Z := 64.
Definition VI_YANK_MAX : Z := 4096.

Definition VI_M_NORM : Z := 0.
Definition VI_M_INS : Z := 1.
Definition VI_M_CMD : Z := 2.
Definition VI_M_VIS : Z := 3.
Definition VI_M_SEARCH : Z := 5.

Definition VIS_NONE : Z := 0.
Definition VIS_CHAR : Z := 1.
Definition VIS_LINE : Z := 2.

Definition OP_NONE : Z := 0.
Definition OP_DELETE : Z := 100.
Definition OP_YANK : Z := 121.
Definition OP_CHANGE : Z := 99.

Definition vi_is_word (c : Z) : bool := negb (c =? 0) && negb (c =? 32) && negb (c =? 9).
Definition vi_is_alpha (c : Z) : bool :=
  ((97 <=? c) && (c <=? 122)) || ((65 <=? c) && (c <=? 90)) || ((48 <=? c) && (c <=? 57)) || (c =? 95).
Definition is_blank (c : Z) : bool := (c =? 32) || (c =? 9).

Section Edit.
Context `{Locals}.

Definition vi_llen (r : Z) : V Z := on_lines (line_len r).

(** [strncpy(vi_msg, s, sizeof(vi_msg) - 1); vi_msg[sizeof(vi_msg) - 1] = 0;] *)
Definition vi_set_msg (s : list Z) : V unit :=
  m ← array vi_msg;
  m ← strncpy m s (VI_STATUS_SZ - 1);
  m ← aset m (VI_STATUS_SZ - 1) 0;
  set_buf vi_msg m.
Definition message (s : string) : V unit := vi_set_msg (text s).

(** [for (i = from; cond; i++)] over the rows below [vi_lcount], which the
    body may change. *)
Definition rows_while {L} (from to : Z) (l : L) (body : Z -> L -> V L) : V L :=
  locals (for_ (span from to) from l (fun i l =>
    n ← vi_lcount;
    if i <? n then l ← body i l; mret (Cont l) else mret (Brk l))).

(** * Insert mode *)

Definition vi_save_undo : V unit :=
  r ← vi_row;
  l ← line r;
  u ← array vi_undo_line;
  u ← strncpy u l MAX_COL;
  set_buf vi_undo_line u;;
  put vi_undo_row r;;
  n ← vi_lcount;
  put vi_undo_lcount n;;
  put vi_undo_valid 1.

Definition vi_insert_char (ch : Z) : V unit := on_lines (insert_char ch).
Definition vi_backspace : V unit := on_lines backspace.
Definition vi_newline : V unit := on_lines newline.

Definition vi_open_line (above : bool) : V unit :=
  n ← vi_lcount;
  if MAX_LINES <=? n then mret tt
  else
    r ← vi_row;
    (if above then
       on_lines (rows_down n r);;
       on_lines (clear_row r);;
       set_count (n + 1);;
       set_col 0
     else
       on_lines (rows_down n (r + 1));;
       on_lines (clear_row (r + 1));;
       set_count (n + 1);;
       set_row (r + 1);;
       set_col 0);;
    mark_modified 1.

(** * Deleting and yanking *)

(** [vi_yank_text(l + o, len, linewise)] *)
Definition vi_yank_text (l : list Z) (o len linewise : Z) : V unit :=
  let len := if VI_YANK_MAX <=? len then VI_YANK_MAX - 1 else len in
  b ← array vi_yank_buf;
  b ← memcpy b 0 l o (u32 len);
  b ← aset b len 0;
  set_buf vi_yank_buf b;;
  put vi_yank_len len;;
  put vi_yank_line linewise.

Definition vi_delete_line_at (row : Z) : V unit :=
  n ← vi_lcount;
  if n <=? 1 then on_lines (clear_row 0)
  else
    on_lines (rows_up row (n - 1));;
    set_count (n - 1).

Definition vi_delete_line : V unit :=
  vi_save_undo;;
  r ← vi_row;
  l ← line r;
  len ← vi_llen r;
  vi_yank_text l 0 len 1;;
  vi_delete_line_at r;;
  n ← vi_lcount;
  let r := if n <=? r then n - 1 else r in
  set_row (if r <? 0 then 0 else r);;
  set_col 0;;
  mark_modified 1.

Definition vi_delete_char : V unit :=
  r ← vi_row;
  len ← vi_llen r;
  col ← vi_col;
  if len <=? col then mret tt
  else
    locals (for_ (span col len) col tt (fun i _ =>
      v ← line_char r (i + 1);
      set_line_char r i v;;
      mret (Cont tt)));;
    mark_modified 1.

Definition vi_delete_to_eol : V unit :=
  r ← vi_row;
  len ← vi_llen r;
  col ← vi_col;
  (if col <? len then
     l ← line r;
     vi_yank_text l col (len - col) 0;;
     set_line_char r col 0
   else mret tt);;
  mark_modified 1.

(** A newline and row [i], if [tmp] has room. *)
Definition yank_row (first : bool) (i : Z) (p : list Z * Z) : V (list Z * Z) :=
  let '(tmp, tlen) := p in
  ll ← vi_llen i;
  if tlen + ll + 1 <? VI_YANK_MAX then
    p ← (if first && (tlen =? 0) then mret (tmp, tlen) else tmp ← aset tmp tlen 10; mret (tmp, tlen + 1));
    let '(tmp, tlen) := p in
    l ← line i;
    tmp ← memcpy tmp tlen l 0 ll;
    mret (tmp, tlen + ll)
  else mret p.

(** The rows [sr] to [er], separated by newlines. *)
Definition yank_lines (sr er : Z) (tmp : list Z) : V (list Z * Z) :=
  rows_while sr (er + 1) (tmp, 0) (yank_row true).

(** The end of row [sr] from column [sc]. *)
Definition yank_first (sr sc : Z) (tmp : list Z) : V (list Z * Z) :=
  ll0 ← vi_llen sr;
  if sc <? ll0 then
    l ← line sr;
    tmp ← memcpy tmp 0 l sc (ll0 - sc);
    mret (tmp, ll0 - sc)
  else mret (tmp, 0).

(** The first [ec] columns of row [er], behind a newline if there is room. *)
Definition yank_last (er ec : Z) (tmp : list Z) (tlen : Z) : V (list Z * Z) :=
  if 0 <? ec then
    p ← (if tlen + 1 <? VI_YANK_MAX then tmp ← aset tmp tlen 10; mret (tmp, tlen + 1) else mret (tmp, tlen));
    let '(tmp, tlen) := p in
    l ← line er;
    tmp ← memcpy tmp tlen l 0 ec;
    mret (tmp, tlen + ec)
  else mret (tmp, tlen).

(** [for (i = from; i <= er && vi_lcount > 1; i++) vi_delete_line_at(from);] *)
Definition delete_rows (from er : Z) : V unit :=
  locals (for_ (span from (er + 1)) from tt (fun _ _ =>
    n ← vi_lcount;
    if 1 <? n then vi_delete_line_at from;; mret (Cont tt) else mret (Brk tt)));;
  n ← vi_lcount;
  if n <? 1 then set_count 1;; on_lines (clear_row 0) else mret tt.

Definition row_within (start : Z) : V unit :=
  n ← vi_lcount;
  set_row (if n <=? start then n - 1 else start).

Definition delete_lines (start er : Z) : V unit :=
  tmp ← aset (local_array VI_YANK_MAX) 0 0;
  p ← yank_lines start er tmp;
  let '(tmp, total) := p in
  tmp ← aset tmp total 0;
  vi_yank_text tmp 0 total 1;;
  delete_rows start er;;
  row_within start;;
  set_col 0.

Definition delete_within (sr sc ec : Z) : V unit :=
  ll ← vi_llen sr;
  let e := Z.min ec ll in
  let st := Z.min sc ll in
  (if st <? e then
     l ← line sr;
     vi_yank_text l st (e - st) 0;;
     locals (for_ (span e (ll + 1)) e tt (fun i _ =>
       v ← line_char sr i;
       set_line_char sr (i - (e - st)) v;;
       mret (Cont tt)))
   else mret tt);;
  set_col sc.

Definition delete_across (sr sc er ec : Z) : V unit :=
  p ← yank_first sr sc (local_array VI_YANK_MAX);
  ll0 ← vi_llen sr;
  (if sc <? ll0 then set_line_char sr sc 0 else mret tt);;
  p ← rows_while (sr + 1) er p (fun i p =>
    p ← yank_row false i p;
    set_line_char i 0 0;;
    mret p);
  n ← vi_lcount;
  p ← (if er <? n then
         ll2 ← vi_llen er;
         let ec2 := Z.min ec ll2 in
         p ← yank_last er ec2 (fst p) (snd p);
         locals (for_ (span ec2 (ll2 + 1)) ec2 tt (fun i _ =>
           v ← line_char er i;
           set_line_char er (i - ec2) v;;
           mret (Cont tt)));;
         mret p
       else mret p);
  let '(tmp, tlen) := p in
  tmp ← aset tmp tlen 0;
  vi_yank_text tmp 0 tlen 0;;
  delete_rows (sr + 1) er;;
  row_within sr;;
  set_col sc.

(** The ends of a range in the order of their rows: [sr], [sc], [er], [ec]. *)
Definition ordered (r1 c1 r2 c2 : Z) : Z * Z * Z * Z :=
  if r1 <? r2 then (r1, c1, r2, c2) else (r2, c2, r1, c1).

Definition vi_delete_range (r1 c1 r2 c2 : Z) (linewise : bool) : V unit :=
  vi_save_undo;;
  let '(sr, sc, er, ec) := ordered r1 c1 r2 c2 in
  (if linewise then delete_lines sr er
   else if sr =? er then delete_within sr sc ec
   else delete_across sr sc er ec);;
  mark_modified 1.

Definition vi_change_range (r1 c1 r2 c2 : Z) (linewise : bool) : V unit :=
  vi_delete_range r1 c1 r2 c2 linewise;;
  (if negb linewise then
     r ← vi_row;
     n ← vi_lcount;
     if r <? n then
       ll ← vi_llen r;
       col ← vi_col;
       if ll <? col then set_col ll else mret tt
     else mret tt
   else set_col 0);;
  put vi_mode VI_M_INS;;
  put_char vi_msg 0 0.

(** * Motions *)

(** [while (i < len && p(line[i])) i++;] on row [r] *)
Definition scan_right (p : Z -> bool) (r len i : Z) : V Z :=
  locals (while_ (span i len + 1) i (fun i =>
    if i <? len then
      c ← line_char r i;
      if p c then mret (Cont (i + 1)) else mret (Brk i)
    else mret (Brk i))).

(** [while (i > 0 && p(line[i - o])) i--;] *)
Definition scan_left (p : Z -> bool) (r o i : Z) : V Z :=
  locals (while_ (Z.to_nat i + 1) i (fun i =>
    if 0 <? i then
      c ← line_char r (i - o);
      if p c then mret (Cont (i - 1)) else mret (Brk i)
    else mret (Brk i))).

Definition vi_word_end (row col : Z) : V Z :=
  len ← vi_llen row;
  if col <? len then
    v ← line_char row col;
    c ← scan_right (if vi_is_alpha v then vi_is_alpha
                    else fun v => negb (vi_is_alpha v) && negb (is_blank v)) row len col;
    mret (if (c <? len) && (c =? col) then c + 1 else c)
  else mret col.

Definition vi_word_fwd : V unit :=
  row ← vi_row;
  len ← vi_llen row;
  col ← vi_col;
  if len <=? col then
    n ← vi_lcount;
    if row <? n - 1 then set_row (row + 1);; set_col 0 else mret tt
  else
    v ← line_char row col;
    i ← (if vi_is_word v then scan_right vi_is_word row len col else mret col);
    i ← scan_right (fun v => negb (vi_is_word v)) row len i;
    set_col i.

Definition vi_word_back : V unit :=
  row ← vi_row;
  col ← vi_col;
  if 0 <? col then
    i ← scan_left (fun v => negb (vi_is_word v)) row 0 (col - 1);
    i ← scan_left vi_is_word row 1 i;
    set_col i
  else if 0 <? row then
    set_row (row - 1);;
    len ← vi_llen (row - 1);
    i ← scan_left vi_is_word (row - 1) 1 (if 0 <? len then len - 1 else len);
    set_col i
  else mret tt.

(** [e] *)
Definition vi_move_word_end : V unit :=
  row ← vi_row;
  col ← vi_col;
  e ← vi_word_end row col;
  len ← vi_llen row;
  let e := if (e =? col) && (col <? len) then col + 1 else e in
  set_col e;;
  n ← vi_lcount;
  if (len <=? e) && (row <? n - 1) then set_row (row + 1);; set_col 0 else mret tt.

(** [$] *)
Definition vi_move_eol : V unit :=
  row ← vi_row;
  len ← vi_llen row;
  set_col (if 0 <? len then len - 1 else len).

(** [^] *)
Definition vi_move_first : V unit :=
  row ← vi_row;
  len ← vi_llen row;
  i ← scan_right is_blank row len 0;
  set_col i.

Definition brackets : list (Z * Z) := [(40, 41); (123, 125); (91, 93)].

(** The bracket that closes the one at [i], looking in the direction [step];
    the index and the depth where the search ends. *)
Definition match_from (row len up down step i : Z) : V (Z * Z) :=
  locals (while_ (Z.to_nat MAX_COL + 2) (i + step, 1) (fun '(i, depth) =>
    if (0 <? depth) && (0 <=? i) && (i <? len) then
      v ← line_char row i;
      let depth := if v =? up then depth + 1 else if v =? down then depth - 1 else depth in
      mret (Cont (if 0 <? depth then i + step else i, depth))
    else mret (Brk (i, depth)))).

Definition vi_move_to_matching : V unit :=
  row ← vi_row;
  len ← vi_llen row;
  i ← vi_col;
  if len <=? i then mret tt
  else
    r ← for_ 3 0 tt (fun k _ =>
      let '(opener, closer) := nth (Z.to_nat k) brackets (0, 0) in
      v ← line_char row i;
      if v =? opener then
        p ← match_from row len opener closer 1 i;
        (if snd p =? 0 then set_col (fst p) else mret tt);;
        mret (Ret tt)
      else if v =? closer then
        p ← match_from row len closer opener (-1) i;
        (if snd p =? 0 then set_col (fst p) else mret tt);;
        mret (Ret tt)
      else mret (Cont tt));
    match r with inl u => mret u | inr u => mret u end.

Definition empty_row (r : Z) : V bool := v ← line_char r 0; mret (v =? 0).

(** [while (r < vi_lcount && p) r++;] and [while (r > 0 && p) r--;] where [p]
    asks whether the row is empty. *)
Definition rows_fwd (empty : bool) (r : Z) : V Z :=
  n ← vi_lcount;
  locals (while_ (span r n + 1) r (fun r =>
    if r <? n then
      e ← empty_row r;
      if eqb e empty then mret (Cont (r + 1)) else mret (Brk r)
    else mret (Brk r))).
Definition rows_back (empty : bool) (r : Z) : V Z :=
  locals (while_ (Z.to_nat r + 1) r (fun r =>
    if 0 <? r then
      e ← empty_row r;
      if eqb e empty then mret (Cont (r - 1)) else mret (Brk r)
    else mret (Brk r))).

Definition vi_move_to_paragraph (forward : bool) : V unit :=
  row ← vi_row;
  n ← vi_lcount;
  (if forward then
     r ← rows_fwd false (row + 1);
     r ← rows_fwd true (if r <? n then r + 1 else r);
     set_row (if r <? n then r else n - 1)
   else
     let r := row - 1 in
     e ← (if 0 <? r then empty_row r else mret false);
     r ← rows_back false (if (e : bool) then r - 1 else r);
     set_row (if 0 <? r then r else 0));;
  set_col 0.

(** * Searching *)

(** [strncmp(&vi_lines[r][c], pat, plen) == 0] *)
Definition matches (pat : list Z) (plen r c : Z) : V bool :=
  l ← line r;
  guard_or OutOfBounds (0 <= c);;
  d ← strncmp (drop (Z.to_nat c) l) pat plen;
  mret (d =? 0).

Definition search_right (pat : list Z) (plen r ll c : Z) : V (Z + Z) :=
  while_ (span c (ll - plen + 1) + 1) c (fun c =>
    if c <=? ll - plen then
      m ← matches pat plen r c;
      if (m : bool) then mret (Ret c) else mret (Cont (c + 1))
    else mret (Brk c)).
Definition search_left (pat : list Z) (plen r c : Z) : V (Z + Z) :=
  while_ (span (-1) c + 1) c (fun c =>
    if 0 <=? c then
      m ← matches pat plen r c;
      if (m : bool) then mret (Ret c) else mret (Cont (c - 1))
    else mret (Brk c)).

(** The row and column found. *)
Definition vi_search_forward (pat : list Z) (plen sr sc : Z) : V (option (Z * Z)) :=
  if plen =? 0 then mret None
  else
    n ← vi_lcount;
    r ← for_ (span sr n) sr (sc + 1) (fun r c =>
      ll ← vi_llen r;
      f ← search_right pat plen r ll c;
      match f with
      | inr c => mret (Ret (Some (r, c)))
      | inl _ => mret (Cont 0)
      end);
    match r with inl _ => mret None | inr v => mret v end.

Definition vi_search_backward (pat : list Z) (plen sr sc : Z) : V (option (Z * Z)) :=
  if plen =? 0 then mret None
  else
    r ← for_ (span 0 (sr + 1)) 0 (sc - 1) (fun j c =>
      let r := sr - j in
      ll ← vi_llen r;
      f ← search_left pat plen r (if ll - plen <? c then ll - plen else c);
      match f with
      | inr c => mret (Ret (Some (r, c)))
      | inl c =>
          if 0 <=? r - 1 then ll ← vi_llen (r - 1); mret (Cont (ll - plen)) else mret (Cont c)
      end);
    match r with inl _ => mret None | inr v => mret v end.

(** Go to the next match in a direction. *)
Definition search_in (forward : bool) : V unit :=
  pat ← array vi_search_pat;
  plen ← get vi_search_len;
  r ← vi_row;
  c ← vi_col;
  f ← (if forward then vi_search_forward pat plen r c else vi_search_backward pat plen r c);
  match f with
  | Some (rr, cc) => set_row rr;; set_col cc;; put vi_search_highlight 1
  | None => message "Pattern not found"
  end.

Definition vi_search_next : V unit :=
  len ← get vi_search_len;
  if len =? 0 then mret tt else dir ← get vi_search_dir; search_in (0 <? dir).
Definition vi_search_prev : V unit :=
  len ← get vi_search_len;
  if len =? 0 then mret tt else dir ← get vi_search_dir; search_in (negb (0 <? dir)).

(** * Pasting and changing *)

(** Row [r] becomes the yanked text. *)
Definition paste_line (r : Z) : V unit :=
  buf ← array vi_yank_buf;
  n ← get vi_yank_len;
  l ← line r;
  l ← strncpy l buf (u32 n);
  l ← aset l n 0;
  set_line r l.

(** The yanked text goes in front of column [ins] of row [r], whose length is
    [len]. *)
Definition paste_chars (r len ins : Z) : V unit :=
  buf ← array vi_yank_buf;
  n ← get vi_yank_len;
  locals (for_ (span ins (len + 1)) 0 tt (fun j _ =>
    let i := len - j in
    v ← line_char r i;
    set_line_char r (i + n) v;;
    mret (Cont tt)));;
  locals (for_ (span 0 n) 0 tt (fun i _ =>
    v ← aget buf i;
    set_line_char r (ins + i) v;;
    mret (Cont tt))).

Definition vi_paste_after : V unit :=
  yl ← get vi_yank_len;
  if yl =? 0 then mret tt
  else
    vi_save_undo;;
    linewise ← get vi_yank_line;
    r ← vi_row;
    if negb (linewise =? 0) then
      n ← vi_lcount;
      if MAX_LINES <=? n then mret tt
      else
        on_lines (rows_down n (r + 1));;
        set_count (n + 1);;
        paste_line (r + 1);;
        set_row (r + 1);;
        set_col 0;;
        mark_modified 1
    else
      len ← vi_llen r;
      col ← vi_col;
      let ins := Z.min (col + 1) len in
      if MAX_COL - 1 <=? yl + len then mret tt
      else
        paste_chars r len ins;;
        set_col (if ins + yl - 1 <? 0 then 0 else ins + yl - 1);;
        mark_modified 1.

Definition vi_paste_before : V unit :=
  yl ← get vi_yank_len;
  if yl =? 0 then mret tt
  else
    vi_save_undo;;
    linewise ← get vi_yank_line;
    r ← vi_row;
    if negb (linewise =? 0) then
      n ← vi_lcount;
      if MAX_LINES <=? n then mret tt
      else
        on_lines (rows_down n r);;
        set_count (n + 1);;
        paste_line r;;
        set_col 0;;
        mark_modified 1
    else
      len ← vi_llen r;
      col ← vi_col;
      if MAX_COL - 1 <=? yl + len then mret tt
      else paste_chars r len col;; mark_modified 1.

Definition vi_toggle_case : V unit :=
  r ← vi_row;
  len ← vi_llen r;
  col ← vi_col;
  if len <=? col then mret tt
  else
    vi_save_undo;;
    v ← line_char r col;
    (if (97 <=? v) && (v <=? 122) then set_line_char r col (v - 32)
     else if (65 <=? v) && (v <=? 90) then set_line_char r col (v + 32)
     else mret tt);;
    set_col (if len <=? col + 1 then (if 0 <? len then len - 1 else 0) else col + 1);;
    mark_modified 1.

Definition vi_join_lines : V unit :=
  r ← vi_row;
  n ← vi_lcount;
  if n - 1 <=? r then mret tt
  else
    vi_save_undo;;
    clen ← vi_llen r;
    nlen ← vi_llen (r + 1);
    clen ← scan_left is_blank r 1 clen;
    set_line_char r clen 32;;
    let clen := clen + 1 in
    (if clen + nlen <? MAX_COL - 1 then
       cur ← line r;
       next ← line (r + 1);
       cur ← memcpy cur clen next 0 nlen;
       cur ← aset cur (clen + nlen) 0;
       set_line r cur
     else mret tt);;
    on_lines (rows_up (r + 1) (n - 1));;
    set_count (n - 1);;
    mark_modified 1.

(** [for (i = from; i <= len; i++) line[i - n] = line[i];] on row [r] *)
Definition shift_left (r from len n : Z) : V unit :=
  locals (for_ (span from (len + 1)) from tt (fun i _ =>
    v ← line_char r i;
    set_line_char r (i - n) v;;
    mret (Cont tt))).

Definition vi_indent (dir : Z) : V unit :=
  vi_save_undo;;
  r ← vi_row;
  if 0 <? dir then
    len ← vi_llen r;
    if MAX_COL - 2 <=? len then mret tt
    else
      locals (for_ (span 0 (len + 1)) 0 tt (fun j _ =>
        let i := len - j in
        v ← line_char r i;
        set_line_char r (i + 2) v;;
        mret (Cont tt)));;
      set_line_char r 0 32;;
      set_line_char r 1 32;;
      col ← vi_col;
      set_col (col + 2);;
      mark_modified 1
  else
    v ← line_char r 0;
    (if v =? 32 then
       w ← line_char r 1;
       let rm := if w =? 32 then 2 else 1 in
       ll ← vi_llen r;
       shift_left r rm ll rm;;
       col ← vi_col;
       set_col (if rm <=? col then col - rm else 0)
     else mret tt);;
    mark_modified 1.

Definition vi_do_undo : V unit :=
  valid ← get vi_undo_valid;
  if valid =? 0 then message "[Already at oldest change]"
  else
    r ← get vi_undo_row;
    l ← line r;
    b ← array vi_redo_line;
    b ← strncpy b l MAX_COL;
    set_buf vi_redo_line b;;
    put vi_redo_row r;;
    n ← vi_lcount;
    put vi_redo_lcount n;;
    u ← array vi_undo_line;
    l ← strncpy l u MAX_COL;
    set_line r l;;
    n ← get vi_undo_lcount;
    set_count n;;
    set_row r;;
    set_col 0;;
    put vi_undo_valid 0;;
    mark_modified 1;;
    message "".

Definition vi_do_redo : V unit :=
  r ← get vi_redo_row;
  l ← line r;
  b ← array vi_undo_line;
  b ← strncpy b l MAX_COL;
  set_buf vi_undo_line b;;
  put vi_undo_row r;;
  n ← vi_lcount;
  put vi_undo_lcount n;;
  u ← array vi_redo_line;
  l ← strncpy l u MAX_COL;
  set_line r l;;
  n ← get vi_redo_lcount;
  set_count n;;
  set_row r;;
  set_col 0;;
  mark_modified 1;;
  message "".

(** * Visual mode and operators *)

(** Yank a range; the message counts its rows. *)
Definition yank_range (sr sc er ec : Z) (linewise : bool) : V unit :=
  let tmp := local_array VI_YANK_MAX in
  p ← (if linewise then yank_lines sr er tmp
       else if sr =? er then
         ll ← vi_llen sr;
         let e := Z.min ec ll in
         if sc <? e then
           l ← line sr;
           tmp ← memcpy tmp 0 l sc (e - sc);
           mret (tmp, e - sc)
         else mret (tmp, 0)
       else
         p ← yank_first sr sc tmp;
         p ← rows_while (sr + 1) er p (yank_row false);
         n ← vi_lcount;
         if er <? n then
           ll2 ← vi_llen er;
           yank_last er (Z.min ec ll2) (fst p) (snd p)
         else mret p);
  let '(tmp, tlen) := p in
  tmp ← aset tmp tlen 0;
  vi_yank_text tmp 0 tlen (Z.b2z linewise);;
  m ← snprintf (local_array 32) 32 (text "%d lines yanked") [ArgInt (er - sr + 1)];
  vi_set_msg (fst m).

Definition vi_visual_yank : V unit :=
  r1 ← get vi_vis_start_row;
  c1 ← get vi_vis_start_col;
  r2 ← vi_row;
  c2 ← vi_col;
  t ← get vi_vis_type;
  let '(sr, sc, er, ec) := ordered r1 c1 r2 c2 in
  yank_range sr sc er ec (t =? VIS_LINE).

Definition vi_visual_delete : V unit :=
  r1 ← get vi_vis_start_row;
  c1 ← get vi_vis_start_col;
  r2 ← vi_row;
  c2 ← vi_col;
  t ← get vi_vis_type;
  vi_delete_range r1 c1 r2 c2 (t =? VIS_LINE);;
  put vi_vis_type VIS_NONE;;
  put vi_mode VI_M_NORM.

(** The replacement at the end [t] of [tmp], cut at the width of a row. *)
Definition put_rep (rep : list Z) (rlen : Z) (tmp : list Z) (t : Z) : V (list Z * Z) :=
  locals (for_ (span 0 rlen) 0 (tmp, t) (fun i '(tmp, t) =>
    if t <? MAX_COL - 1 then
      v ← aget rep i;
      tmp ← aset tmp t v;
      mret (Cont (tmp, t + 1))
    else mret (Brk (tmp, t)))).

(** The loop advances in the row or in [tmp] at each round unless both strings
    are empty, when it does not end. *)
Definition vi_substitute_line (row : Z) (pat : list Z) (plen : Z) (rep : list Z) (rlen : Z) : V unit :=
  ll ← vi_llen row;
  p ← locals (while_ (2 * Z.to_nat MAX_COL + 1) (0, local_array MAX_COL, 0) (fun '(i, tmp, t) =>
    if (i <? ll) && (t <? MAX_COL - 1) then
      m ← (if i <=? ll - plen then matches pat plen row i else mret false);
      if (m : bool) then
        p ← put_rep rep rlen tmp t;
        mret (Cont (i + plen, fst p, snd p))
      else
        v ← line_char row i;
        tmp ← aset tmp t v;
        mret (Cont (i + 1, tmp, t + 1))
    else mret (Brk (i, tmp, t))));
  let '(_, tmp, t) := p in
  tmp ← aset tmp t 0;
  l ← line row;
  l ← memcpy l 0 tmp 0 (t + 1);
  set_line row l.

(** ^W in insert mode. *)
Definition vi_delete_word : V unit :=
  r ← vi_row;
  len ← vi_llen r;
  col ← vi_col;
  if 0 <? col then
    start ← scan_left is_blank r 0 (col - 1);
    start ← scan_left (fun v => negb (is_blank v)) r 1 start;
    let rm := col - start in
    locals (for_ (span start (len + 1)) start tt (fun i _ =>
      v ← line_char r (i + rm);
      set_line_char r i v;;
      mret (Cont tt)));;
    set_col start;;
    mark_modified 1
  else mret tt.
End Edit.
