(* ===== verification/SearchFacts.v ===== *)
(** Correctness of searching in [vi]: [n] and [N] go to the nearest match of the
    pattern in their direction. *)
From Stdlib Require Import ZArith Lia List String.
From stdpp Require Import base tactics numbers list strings.
From S2P Require Import Prelude CString Bytes Buffer Text TextBuf TextFacts ViState ViEdit.
Open Scope Z_scope.

(** * Comparing with a pattern *)

Lemma prefix_rd (p t : list Z) : p `prefix_of` t <-> lenZ p <= lenZ t /\ forall j, 0 <= j < lenZ p -> rd t j = rd p j.
Proof.
  split.
  - intros [k ->]. rewrite lenZ_app. pose proof (lenZ_nonneg k). split; [lia|]. intros j Hj. apply rd_app_l. lia.
  - intros [Hl Hr]. exists (drop (Z.to_nat (lenZ p)) t). rewrite <- (take_drop (Z.to_nat (lenZ p)) t) at 1. f_equal.
    pose proof (lenZ_nonneg p). apply rd_ext; rewrite lenZ_take by lia; [done|]. intros j Hj. rewrite rd_take by lia. by apply Hr.
Qed.

(** The comparison asks whether the pattern is a prefix. *)
Lemma wp_strncmp_prefix {S} l t pat p (Q : Z -> S -> Prop) s : holds l t -> holds pat p ->
  (forall d, (d = 0 <-> p `prefix_of` t) -> Q d s) -> wp (strncmp l pat (lenZ p)) Q s.
Proof.
  intros (Hl & Hn & Hr & Hz) (Hpl & Hpn & Hpr & Hpz) HQ. pose proof (lenZ_nonneg t). pose proof (lenZ_nonneg p).
  unfold strncmp. wp_step. apply wp_locals.
  apply (wp_while (fun i s' => s' = s /\ 0 <= i <= lenZ p /\ i <= lenZ t /\ forall j, 0 <= j < i -> rd t j = rd p j)
    (fun i _ => Z.to_nat (lenZ l - i))).
  - repeat split; try lia.
  - unfold lenZ. lia.
  - intros i s' (-> & Hi & Hit & Heq). destruct (Z.ltb_spec i (lenZ p)) as [Hip|Hip].
    + assert (Hli : rd l i = 0 \/ i < lenZ t /\ rd l i = rd t i /\ rd l i <> 0).
      { destruct (decide (i = lenZ t)) as [->|Hne]; [by left|]. right. rewrite (Hr i) by lia. split; [lia|]. split; [done|].
        apply (Forall_rd _ t i Hn). lia. }
      assert (Hb : rd pat i = rd p i) by (apply Hpr; lia). assert (rd p i <> 0) by (apply (Forall_rd _ p i Hpn); lia).
      assert (Hend : rd l i <> rd p i -> wp (if i =? lenZ p then mret 0 else
          a ← aget l i; b ← aget pat i; mret (a - b)) Q s).
      { intros Hd. rewrite (proj2 (Z.eqb_neq i (lenZ p))) by lia. wp_step. apply wp_aget; [lia|]. wp_step. apply wp_aget; [lia|].
        wp_step. apply HQ. rewrite Hb. split; [lia|]. intros [Hlt Hpre]%prefix_rd.
        destruct Hli as [Hli|(? & Hli & _)]; [|rewrite Hli, Hpre in Hd by lia; done].
        specialize (Hpre i ltac:(lia)). rewrite <- Hr in Hpre by lia. lia. }
      wp_step. apply wp_aget; [lia|]. destruct (Z.eqb_spec (rd l i) 0) as [Hc|Hc]; cbn [negb].
      * wp_step. apply Hend. lia.
      * wp_step. apply wp_aget; [lia|]. destruct (Z.eqb_spec (rd l i) (rd pat i)) as [He|He].
        -- wp_step. destruct Hli as [?|(? & Hli & _)]; [lia|]. repeat split; try lia.
           intros j Hj. destruct (decide (j = i)) as [->|]; [lia | apply Heq; lia].
        -- wp_step. apply Hend. lia.
    + wp_step. rewrite (proj2 (Z.eqb_eq i (lenZ p))) by lia. wp_step. apply HQ. split; [|done]. intros _. apply prefix_rd.
      split; [lia|]. intros j Hj. apply Heq. lia.
Qed.

(** * Positions of the text *)

Definition precedes (p q : Z * Z) : Prop := p.1 < q.1 \/ p.1 = q.1 /\ p.2 < q.2.
(** [q] is ahead of [p] in the direction of the search. *)
Definition ahead (forward : bool) (p q : Z * Z) : Prop := if forward then precedes p q else precedes q p.

(** The word [w] occurs at [q]. *)
Definition occurs (ls : list (list Z)) (w : list Z) (q : Z * Z) : Prop :=
  0 <= q.1 < lenZ ls /\ 0 <= q.2 /\ w `prefix_of` drop (Z.to_nat q.2) (row ls q.1).

Definition nearest (forward : bool) (ls : list (list Z)) (w : list Z) (p q : Z * Z) : Prop :=
  ahead forward p q /\ occurs ls w q /\ forall q', ahead forward p q' -> ahead forward q' q -> ~ occurs ls w q'.

Lemma occurs_fits ls w q : occurs ls w q -> w <> [] -> q.2 + lenZ w <= lenZ (row ls q.1).
Proof.
  intros (_ & H0 & [Hl _]%prefix_rd) Hw. destruct w as [|x w]; [done|]. unfold lenZ in *.
  rewrite length_drop in Hl. simpl in *. lia.
Qed.

Lemma holds_suffix l t k : holds l t -> 0 <= k <= lenZ t -> holds (drop (Z.to_nat k) l) (drop (Z.to_nat k) t).
Proof.
  intros (Hl & Hn & Hr & Hz) Hk. unfold holds. rewrite !lenZ_drop by lia. split; [lia|]. split; [by apply Forall_drop|]. split.
  - intros i Hi. rewrite !rd_drop by lia. apply Hr. lia.
  - rewrite rd_drop by lia. by replace (k + (lenZ t - k)) with (lenZ t) by lia.
Qed.

Section Search.
Context `{Locals}.
Implicit Types s : vi.

Variables (ls : list (list Z)) (pat w : list Z).
Hypothesis Hpat : holds pat w.
Hypothesis Hw : w <> [].

Lemma wp_vi_llen r' (Q : Z -> vi -> Prop) s : lines_are ls (v_text s) -> 0 <= r' < lenZ ls ->
  Q (lenZ (row ls r')) s -> wp (vi_llen r') Q s.
Proof.
  intros [Hrows [Hn Hlim] Hl] Hr HQ. unfold vi_llen, on_lines. wp_step. apply (wp_line_len r' (row ls r')); [lia | by apply Hl|].
  by destruct s.
Qed.

Lemma wp_line r (Q : list Z -> vi -> Prop) s : 0 <= r < MAX_LINES -> Q (row (t_lines (v_text s)) r) s -> wp (line r) Q s.
Proof. intros Hr HQ. unfold line, on_lines. wp_step. apply wp_row_get; [done|]. by destruct s. Qed.

Lemma wp_matches r' k (Q : bool -> vi -> Prop) s : lines_are ls (v_text s) -> 0 <= r' < lenZ ls ->
  0 <= k <= lenZ (row ls r') -> (forall b : bool, (b <-> occurs ls w (r', k)) -> Q b s) -> wp (matches pat (lenZ w) r' k) Q s.
Proof.
  intros [Hrows [Hn Hlim] Hl] Hr Hk HQ. unfold matches. wp_step. apply wp_line; [lia|].
  wp_step. apply wp_guard; [lia|]. wp_step. eapply wp_strncmp_prefix; [apply holds_suffix; [by apply Hl | done] | exact Hpat|].
  intros d Hd. wp_step. apply HQ. unfold occurs. cbn [fst snd]. rewrite Is_true_true, Z.eqb_eq, Hd. intuition lia.
Qed.

Lemma wp_search_right r' k (Q : Z + Z -> vi -> Prop) s : lines_are ls (v_text s) -> 0 <= r' < lenZ ls -> 0 <= k ->
  (forall k', k <= k' -> occurs ls w (r', k') -> (forall i, k <= i < k' -> ~ occurs ls w (r', i)) -> Q (inr k') s) ->
  (forall e, (forall i, k <= i -> ~ occurs ls w (r', i)) -> Q (inl e) s) ->
  wp (search_right pat (lenZ w) r' (lenZ (row ls r')) k) Q s.
Proof.
  intros Hat Hr Hk Hfound Hnone. pose proof (lenZ_nonneg w). unfold search_right.
  apply (wp_while (fun i s' => s' = s /\ k <= i /\ forall j, k <= j < i -> ~ occurs ls w (r', j))
    (fun i _ => Z.to_nat (lenZ (row ls r') - lenZ w + 1 - i))).
  - split; [done|]. split; [lia|]. intros j Hj. lia.
  - unfold span. lia.
  - intros i s' (-> & Hi & Hno). destruct (Z.leb_spec i (lenZ (row ls r') - lenZ w)).
    + wp_step. apply wp_matches; [done | done | lia|]. intros [] Hb.
      * wp_step. apply Hfound; [done | by apply Hb | done].
      * wp_step. split; [|lia]. split; [done|]. split; [lia|]. intros j Hj. destruct (decide (j = i)) as [->|]; [by intros Ho%Hb | apply Hno; lia].
    + wp_step. apply Hnone. intros j Hj Ho. destruct (decide (j < i)); [by apply (Hno j) in Ho; [|lia]|].
      apply occurs_fits in Ho; [cbn [fst snd] in Ho; lia | done].
Qed.

Lemma wp_search_left r' k (Q : Z + Z -> vi -> Prop) s : lines_are ls (v_text s) -> 0 <= r' < lenZ ls ->
  k <= lenZ (row ls r') ->
  (forall k', k' <= k -> occurs ls w (r', k') -> (forall i, k' < i <= k -> ~ occurs ls w (r', i)) -> Q (inr k') s) ->
  (forall e, (forall i, i <= k -> ~ occurs ls w (r', i)) -> Q (inl e) s) ->
  wp (search_left pat (lenZ w) r' k) Q s.
Proof.
  intros Hat Hr Hk Hfound Hnone. unfold search_left.
  apply (wp_while (fun i s' => s' = s /\ i <= k /\ forall j, i < j <= k -> ~ occurs ls w (r', j))
    (fun i _ => Z.to_nat (i + 1))).
  - split; [done|]. split; [lia|]. intros j Hj. lia.
  - unfold span. lia.
  - intros i s' (-> & Hi & Hno). destruct (Z.leb_spec 0 i).
    + wp_step. apply wp_matches; [done | done | lia|]. intros [] Hb.
      * wp_step. apply Hfound; [done | by apply Hb | done].
      * wp_step. split; [|lia]. split; [done|]. split; [lia|]. intros j Hj. destruct (decide (j = i)) as [->|]; [by intros Ho%Hb | apply Hno; lia].
    + wp_step. apply Hnone. intros j Hj Ho. destruct (decide (i < j)); [by apply (Hno j) in Ho; [|lia]|].
      destruct Ho as (_ & Ho & _). cbn [snd] in Ho. lia.
Qed.

(** What a search that changes nothing returns. *)
Definition search_result (forward : bool) (p : Z * Z) (o : option (Z * Z)) : Prop :=
  match o with
  | Some q => nearest forward ls w p q
  | None => forall q, ahead forward p q -> ~ occurs ls w q
  end.

Lemma wp_search_forward sr sc (Q : option (Z * Z) -> vi -> Prop) s : lines_are ls (v_text s) ->
  0 <= sr < lenZ ls -> 0 <= sc -> (forall o, search_result true (sr, sc) o -> Q o s) ->
  wp (vi_search_forward pat (lenZ w) sr sc) Q s.
Proof.
  intros Hat Hsr Hsc HQ. pose proof (la_count _ _ Hat) as [Hn _]. assert (lenZ w <> 0) by (by destruct w).
  unfold vi_search_forward. rewrite (proj2 (Z.eqb_neq _ _)) by done. wp_step. apply wp_gets. rewrite Hn. wp_step.
  apply (wp_for (fun r' k s' => s' = s /\ sr <= r' <= lenZ ls /\ 0 <= k /\
    (forall q, q.1 = r' -> k <= q.2 -> precedes (sr, sc) q) /\
    forall q, precedes (sr, sc) q -> q.1 < r' \/ q.1 = r' /\ q.2 < k -> ~ occurs ls w q)).
  - split; [done|]. split; [lia|]. split; [lia|]. unfold precedes. cbn [fst snd]. split; [lia|]. intros q [?|?] ?; lia.
  - intros r' k s' Hr' (-> & Hr2 & Hk & Hin & Hno). unfold span in Hr'. wp_step. apply wp_vi_llen; [done | lia|]. wp_step.
    apply wp_search_right; [done | lia | done | |].
    + intros k' Hk' Ho Hfirst. wp_step. apply HQ. split; [by apply Hin|]. split; [done|]. intros q Hq1 Hq2 Hoq.
      destruct (decide (q.1 < r' \/ q.1 = r' /\ q.2 < k)) as [|Hge]; [by eapply Hno|]. destruct q as [q1 q2]. unfold ahead, precedes in Hq2.
      cbn [fst snd] in *. assert (q1 = r') as -> by lia. by apply (Hfirst q2); [lia|].
    + intros _ Hnone. wp_step. split; [done|]. split; [lia|]. split; [lia|]. split; [unfold precedes; cbn [fst snd]; lia|].
      intros [q1 q2] Hq1 Hq2 Hoq. pose proof (proj1 (proj2 Hoq)). cbn [fst snd] in *.
      destruct (decide (q1 < r' \/ q1 = r' /\ q2 < k)) as [|Hge]; [by apply (Hno (q1, q2))|].
      assert (q1 = r') as -> by lia. by apply (Hnone q2); [lia|].
  - intros k s' (-> & _ & _ & _ & Hno). wp_step. apply HQ. intros q Hq Ho. apply (Hno q Hq); [|done].
    pose proof (proj1 Ho). unfold span. lia.
Qed.

Lemma wp_search_backward sr sc (Q : option (Z * Z) -> vi -> Prop) s : lines_are ls (v_text s) ->
  0 <= sr < lenZ ls -> (forall o, search_result false (sr, sc) o -> Q o s) ->
  wp (vi_search_backward pat (lenZ w) sr sc) Q s.
Proof.
  intros Hat Hsr HQ. assert (lenZ w <> 0) by (by destruct w). pose proof (lenZ_nonneg w).
  unfold vi_search_backward. rewrite (proj2 (Z.eqb_neq _ _)) by done. wp_step.
  apply (wp_for (fun j k s' => s' = s /\
    (forall q, q.1 = sr - j -> q.2 <= k -> precedes q (sr, sc)) /\
    forall q, precedes q (sr, sc) -> sr - j < q.1 \/ q.1 = sr - j /\ k < q.2 -> ~ occurs ls w q)).
  - split; [done|]. unfold precedes. cbn [fst snd]. split; [lia|]. intros q [?|?] ?; lia.
  - intros j k s' Hj (-> & Hin & Hno). unfold span in Hj. wp_step. apply wp_vi_llen; [done | lia|]. wp_step.
    set (ll := lenZ (row ls (sr - j))). set (k0 := if ll - lenZ w <? k then ll - lenZ w else k).
    assert (Hk0 : k0 <= ll /\ k0 <= k /\ (k0 < k -> k0 = ll - lenZ w)) by (unfold k0; case_range; lia).
    assert (Hout : forall q, q.1 = sr - j -> k0 < q.2 -> precedes q (sr, sc) -> ~ occurs ls w q).
    { intros q Hq1 Hq2 Hp Ho. destruct (decide (k < q.2)) as [|Hk]; [by apply (Hno q Hp); [right|]|].
      apply occurs_fits in Ho; [|done]. rewrite Hq1 in Ho. fold ll in Ho. lia. }
    apply wp_search_left; [done | lia | fold ll; lia | |].
    + intros k' Hk' Ho Hfirst. wp_step. apply HQ. split; [by apply Hin; [|cbn [snd]; lia]|]. split; [done|]. intros q Hq1 Hq2 Hoq.
      destruct q as [q1 q2]. unfold ahead, precedes in Hq1, Hq2. cbn [fst snd] in *.
      destruct (decide (sr - j < q1)); [by apply (Hno (q1, q2)); [|left|]|].
      assert (q1 = sr - j) as -> by lia. destruct (decide (k0 < q2)); [by apply (Hout (sr - j, q2))|].
      by apply (Hfirst q2); [lia|].
    + intros e Hnone.
      assert (Hnext : forall k2, (sr - j - 1 < 0 \/ k2 = lenZ (row ls (sr - j - 1)) - lenZ w) ->
        (forall q, q.1 = sr - (j + 1) -> q.2 <= k2 -> precedes q (sr, sc)) /\
        (forall q, precedes q (sr, sc) -> sr - (j + 1) < q.1 \/ q.1 = sr - (j + 1) /\ k2 < q.2 -> ~ occurs ls w q)).
      { intros k2 Hk2. split; [unfold precedes; cbn [fst snd]; lia|]. intros [q1 q2] Hq Hor Ho. cbn [fst snd] in Hor.
        destruct (decide (sr - j < q1)); [by apply (Hno (q1, q2)); [|left|]|].
        destruct (decide (q1 = sr - j)) as [->|].
        - destruct (decide (k0 < q2)); [by apply (Hout (sr - j, q2))|]. by apply (Hnone q2); [lia|].
        - pose proof (proj1 Ho) as Hb. apply occurs_fits in Ho; [|done]. cbn [fst snd] in *.
          assert (q1 = sr - j - 1) as -> by lia. lia. }
      destruct (Z.leb_spec 0 (sr - j - 1)).
      * wp_step. apply wp_vi_llen; [done | lia|]. wp_step. split; [done|]. apply Hnext. by right.
      * wp_step. split; [done|]. apply Hnext. left. lia.
  - intros k s' (-> & Hin & Hno). wp_step. apply HQ. intros q Hq Ho. apply (Hno q Hq); [|done].
    left. pose proof (proj1 Ho). unfold span. lia.
Qed.
End Search.

(** * Properties *)

Section Next.
Context `{Locals}.
Implicit Types s : vi.

Lemma wp_bind_assoc {S A B C} (m : M S A) (f : A -> M S B) (g : B -> M S C) Q (s : S) :
  wp (m ≫= f) (fun b => wp (g b) Q) s -> wp (m ≫= fun a => f a ≫= g) Q s.
Proof. unfold wp, mbind, M_bind. destruct (m s) as [a s'|]; [|done]. by destruct (f a s'). Qed.

(** A message replaces the old one, cut at the width of the status bar. *)
Lemma wp_message m w (Q : unit -> vi -> Prop) s : holds (text m) w -> lenZ (arrays s vi_msg) = VI_STATUS_SZ ->
  (forall l, lenZ l = VI_STATUS_SZ -> holds l (take (Z.to_nat (VI_STATUS_SZ - 1)) w) -> Q tt (set_array vi_msg l s)) ->
  wp (message m) Q s.
Proof.
  intros Hw Hl HQ. unfold message, vi_set_msg. do 2 vi_step. apply wp_bind_assoc.
  apply (wp_strncpy_cut _ (text m) w); [done | unfold VI_STATUS_SZ in *; lia|].
  intros l Hll Hh _. vi_step. apply HQ; [lia | done].
Qed.

Lemma text_holds m : nonzeros (chars m) -> holds (text m) (chars m).
Proof. apply (holds_of_app (chars m) []). Qed.

(** The cursor of the text at a position, nothing else changed. *)
Definition go (q : Z * Z) s : vi := set_v_text (set_cur_col q.2 (set_cur_row q.1 (v_text s))) s.

Variables (ls : list (list Z)) (w : list Z).

(** What [n] and [N] do. *)
Definition found (forward : bool) (r c : Z) s s' : Prop :=
  (exists q, nearest forward ls w (r, c) q /\ s' = set_int vi_search_highlight 1 (go q s)) \/
  (forall q, ahead forward (r, c) q -> ~ occurs ls w q) /\
    exists l, holds l (chars "Pattern not found") /\ s' = set_array vi_msg l s.

Lemma wp_search_in forward r c (Q : unit -> vi -> Prop) s : text_at ls r c (v_text s) ->
  holds (arrays s vi_search_pat) w -> ints s vi_search_len = lenZ w -> w <> [] -> lenZ (arrays s vi_msg) = VI_STATUS_SZ ->
  (forall s', found forward r c s s' -> Q tt s') -> wp (search_in forward) Q s.
Proof.
  intros Hat Hp Hlen Hw Hmsg HQ. pose proof Hat as [_ _ _ [Hr Hr2] [Hc Hc2]].
  unfold search_in. do 8 vi_step. rewrite Hlen, Hr, Hc.
  assert (Hres : forall o, search_result ls w forward (r, c) o -> wp match o with
      | Some (rr, cc) => set_row rr;; set_col cc;; put vi_search_highlight 1
      | None => message "Pattern not found" end Q s).
  { intros [[rr cc]|] Ho.
    - do 5 vi_step. apply HQ. left. by exists (rr, cc).
    - apply (wp_message _ (chars "Pattern not found")); [apply text_holds; by repeat constructor | done|].
      intros l _ Hl. apply HQ. right. eauto. }
  wp_step. destruct forward; [eapply wp_search_forward | eapply wp_search_backward]; eauto using text_lines. lia.
Qed.

(** C14: [n] goes to the nearest occurrence of the last pattern in the direction of
    the search, [N] to the nearest in the other: it lies ahead of the cursor
    (rows first, then columns), the pattern stands there, and it stands at no
    position between; the cursor is the only part of the text that changes and
    the matches are highlighted.  When the pattern occurs nowhere ahead a
    message says so and the cursor stays: the search does not wrap round the
    ends of the text. *)
Theorem vi_search_nearest (next : bool) r c s : text_at ls r c (v_text s) ->
  holds (arrays s vi_search_pat) w -> ints s vi_search_len = lenZ w -> w <> [] -> lenZ (arrays s vi_msg) = VI_STATUS_SZ ->
  exists s', (if next then vi_search_next else vi_search_prev) s = Ok tt s' /\
    found (if next then 0 <? ints s vi_search_dir else negb (0 <? ints s vi_search_dir)) r c s s'.
Proof.
  intros Hat Hp Hlen Hw Hmsg. assert (lenZ w <> 0) by (by destruct w).
  assert (Hwp : forall fwd (Q : unit -> vi -> Prop), (forall s', found fwd r c s s' -> Q tt s') -> wp (search_in fwd) Q s)
    by (intros fwd Q; by apply wp_search_in).
  apply wp_unit. destruct next; unfold vi_search_next, vi_search_prev; do 2 vi_step; rewrite Hlen, (proj2 (Z.eqb_neq _ _)) by done;
    do 2 vi_step; by apply Hwp.
Qed.
End Next.

(** "ab" over "ab", the cursor at the start, searching upwards for "ab": [N]
    goes to the second row. *)
Definition twice : vi :=
  mkVi (mkText (([97; 98] ++ replicate 158 0) :: ([97; 98] ++ replicate 158 0) :: replicate 510 (replicate 160 0)) 2 0 0 0)
    (fun x => match x with vi_search_len => 2 | vi_search_dir => -1 | _ => 0 end)
    (fun x => match x with vi_search_pat => [97; 98] ++ replicate 62 0 | _ => replicate 80 0 end).

Lemma twice_text : text_at [[97; 98]; [97; 98]] 0 0 (v_text twice).
Proof.
  split.
  - split; [by vm_compute|]. intros i Hi. cbn [v_text twice t_lines].
    destruct (decide (i = 0)) as [->|]; [done|]. destruct (decide (i = 1)) as [->|]; [done|].
    unfold row. replace (Z.to_nat i) with (S (S (Z.to_nat (i - 2)))) by lia. cbn [nth].
    rewrite nth_lookup, lookup_replicate_2 by (unfold MAX_LINES in Hi; lia). done.
  - done.
  - intros i Hi. change (0 <= i < 2) in Hi.
    assert (i = 0 \/ i = 1) as [-> | ->] by lia; apply (holds_of_app [97; 98] (replicate 157 0)); by repeat constructor.
  - done.
  - done.
Qed.

Lemma vi_search_nearest_witness : exists s', vi_search_prev twice = Ok tt s' /\ (cur_row (v_text s'), cur_col (v_text s')) = (1, 0).
Proof.
  assert (Hp : holds (arrays twice vi_search_pat) [97; 98]) by (apply (holds_of_app [97; 98] (replicate 61 0)); by repeat constructor).
  destruct (vi_search_nearest [[97; 98]; [97; 98]] [97; 98] false 0 0 twice twice_text Hp eq_refl ltac:(done) eq_refl) as (s' & Hrun & Hf).
  exists s'. split; [exact Hrun|]. destruct Hf as [([q1 q2] & (Ha & Ho & Hn) & ->)|[Hno _]].
  - change (ahead true (0, 0) (q1, q2)) in Ha. assert (Hin : occurs [[97; 98]; [97; 98]] [97; 98] (1, 0)) by (split; [by cbn | split; [done | by exists []]]).
    pose proof Ho as (Hr & Hc & _). apply occurs_fits in Ho; [|done]. change (0 <= q1 < 2) in Hr. cbn [fst snd] in *.
    unfold go. cbn. assert (q1 = 0 \/ q1 = 1) as [-> | ->] by lia; change (lenZ (row _ _)) with 2 in Ho; change (lenZ [97; 98]) with 2 in Ho;
      unfold ahead, precedes in Ha; cbn [fst snd] in Ha; [lia|]. f_equal. lia.
  - exfalso. apply (Hno (1, 0)); [by left|]. split; [by cbn | split; [done | by exists []]].
Defined.
