(* ===== verification/SubstFacts.v ===== *)
(** Correctness of [:s] and [:%s] of [vi]: a row becomes the row with every
    occurrence of the pattern replaced, from left to right and without
    overlaps, cut at the width of a row. *)
From Stdlib Require Import ZArith Lia List String.
From stdpp Require Import base tactics numbers list strings.
From S2P Require Import Prelude CString Bytes Buffer Text TextBuf TextFacts ViState ViEdit SearchFacts.
Open Scope Z_scope.

(** * Replacing all occurrences *)

(** [skip] characters of an occurrence are still to be dropped. *)
Fixpoint replace (w rep : list Z) (skip : nat) (l : list Z) : list Z :=
  match l, skip with
  | [], _ => []
  | _ :: l', S k => replace w rep k l'
  | x :: l', O => if decide (w `prefix_of` l) then rep ++ replace w rep (length w - 1) l' else x :: replace w rep 0 l'
  end.
Definition replace_all (w rep l : list Z) : list Z := replace w rep 0 l.

(** What fits a row. *)
Definition cut (l : list Z) : list Z := take (Z.to_nat (MAX_COL - 1)) l.

Lemma replace_skip w rep k l : replace w rep k l = replace_all w rep (drop k l).
Proof. revert k. induction l as [|x l IH]; intros [|k]; try done. simpl. by rewrite IH. Qed.

Lemma replace_all_match w rep l : w <> [] -> w `prefix_of` l -> replace_all w rep l = rep ++ replace_all w rep (drop (length w) l).
Proof.
  intros Hw Hp. destruct l as [|x l]; [by apply prefix_nil_inv in Hp|]. unfold replace_all at 1. cbn [replace].
  rewrite decide_True by done. rewrite replace_skip. destruct w as [|y w]; [done|]. simpl. by rewrite Nat.sub_0_r.
Qed.

Lemma replace_all_step w rep x l : ~ w `prefix_of` (x :: l) -> replace_all w rep (x :: l) = x :: replace_all w rep l.
Proof. intros Hp. unfold replace_all. cbn [replace]. by rewrite decide_False. Qed.

Lemma nonzeros_replace w rep k l : nonzeros rep -> nonzeros l -> nonzeros (replace w rep k l).
Proof.
  intros Hr Hl. revert k. induction Hl as [|x l Hx _ IH]; intros [|k]; try constructor; simpl; [|apply IH].
  case_decide; [apply Forall_app; split; [done | apply IH] | constructor; [done | apply IH]].
Qed.

(** * The characters written so far *)

Lemma prefix_snoc_wr (u tmp : list Z) v : u `prefix_of` tmp -> lenZ u < lenZ tmp -> (u ++ [v]) `prefix_of` wr tmp (lenZ u) v.
Proof.
  intros [Hl Hr]%prefix_rd Hlt. pose proof (lenZ_nonneg u). apply prefix_rd. rewrite lenZ_wr, lenZ_app. change (lenZ [v]) with 1.
  split; [lia|]. intros j Hj. rewrite rd_wr by lia. case_range.
  - subst. rewrite rd_app_r by lia. by rewrite Z.sub_diag.
  - rewrite rd_app_l by lia. apply Hr. lia.
Qed.

Lemma take_app_ge (u v : list Z) n : n <= lenZ u -> take (Z.to_nat n) (u ++ v) = take (Z.to_nat n) u.
Proof. unfold lenZ. intros Hn. apply take_app_le. lia. Qed.

Section Subst.
Context `{Locals}.
Implicit Types s : vi.

Variables (pat w rp rep : list Z).
Hypothesis Hpat : holds pat w.
Hypothesis Hw : w <> [].
Hypothesis Hrep : holds rp rep.

Lemma wp_put_rep tmp u (Q : list Z * Z -> vi -> Prop) s : u `prefix_of` tmp -> lenZ tmp = MAX_COL -> lenZ u <= MAX_COL - 1 ->
  (forall tmp', cut (u ++ rep) `prefix_of` tmp' -> lenZ tmp' = MAX_COL -> Q (tmp', lenZ (cut (u ++ rep))) s) ->
  wp (put_rep rp (lenZ rep) tmp (lenZ u)) Q s.
Proof.
  intros Hu Hl Hlt HQ. destruct Hrep as (Hrl & _ & Hr & _). pose proof (lenZ_nonneg rep). pose proof (lenZ_nonneg u).
  assert (Hcut : forall n, 0 <= n <= lenZ rep -> lenZ u + n <= MAX_COL - 1 ->
    (n < lenZ rep -> lenZ u + n = MAX_COL - 1) -> cut (u ++ rep) = u ++ take (Z.to_nat n) rep).
  { intros n Hn Hle Hend. unfold cut. destruct (decide (n = lenZ rep)) as [->|].
    - rewrite (take_ge rep) by (unfold lenZ; lia). apply take_ge. rewrite length_app. unfold lenZ, MAX_COL in *. lia.
    - rewrite <- Hend by lia. rewrite take_app. unfold lenZ in *. rewrite (take_ge u) by lia. do 2 f_equal. lia. }
  unfold put_rep. apply wp_locals.
  apply (wp_for (fun n '(tmp', t) s' => s' = s /\ lenZ tmp' = MAX_COL /\ t = lenZ u + n /\ lenZ u + n <= MAX_COL - 1 /\
    (u ++ take (Z.to_nat n) rep) `prefix_of` tmp')).
  - rewrite app_nil_r, Z.add_0_r. done.
  - intros n [tmp' t] s' Hn (-> & Hl' & -> & Hle & Hp). unfold span in Hn.
    destruct (Z.ltb_spec (lenZ u + n) (MAX_COL - 1)).
    + wp_step. apply wp_aget; [lia|]. wp_step. apply wp_aset; [lia|]. wp_step. rewrite Hr by lia.
      split; [done|]. split; [by rewrite lenZ_wr|]. split; [lia|]. split; [lia|].
      rewrite take_succ_Z by lia. rewrite app_assoc. replace (lenZ u + n) with (lenZ (u ++ take (Z.to_nat n) rep)).
      * apply prefix_snoc_wr; [done|]. rewrite lenZ_app, lenZ_take by lia. lia.
      * rewrite lenZ_app, lenZ_take by lia. done.
    + wp_step. rewrite (Hcut n) in HQ by lia. specialize (HQ tmp' Hp Hl'). rewrite lenZ_app, lenZ_take in HQ by lia. exact HQ.
  - intros [tmp' t] s' (-> & Hl' & -> & Hle & Hp). unfold span in *. rewrite Z.add_0_l, Z.sub_0_r, Z2Nat.id in * by lia.
    rewrite (Hcut (lenZ rep)) in HQ by lia. specialize (HQ tmp' Hp Hl'). rewrite lenZ_app, lenZ_take in HQ by lia. exact HQ.
Qed.

Lemma cut_cut u v : cut (cut u ++ v) = cut (u ++ v).
Proof.
  unfold cut. set (n := Z.to_nat (MAX_COL - 1)). destruct (decide (length u <= n)%nat).
  - by rewrite (take_ge u).
  - rewrite !take_app_le by (rewrite ?length_take; lia). rewrite take_take. by f_equal.
Qed.
Lemma cut_short u : lenZ u <= MAX_COL - 1 -> cut u = u.
Proof. intros Hu. apply take_ge. unfold lenZ, MAX_COL in *. lia. Qed.
Lemma cut_full u v : lenZ u = MAX_COL - 1 -> cut (u ++ v) = u.
Proof. intros Hu. unfold cut. rewrite take_app_le by (unfold lenZ, MAX_COL in *; lia). by apply cut_short; lia. Qed.
Lemma lenZ_cut u : lenZ (cut u) <= MAX_COL - 1.
Proof. unfold cut, lenZ. rewrite length_take. unfold MAX_COL. lia. Qed.

Lemma wp_set_line r l (Q : unit -> vi -> Prop) s : 0 <= r < MAX_LINES ->
  Q tt (set_v_text (set_lines (put_row (t_lines (v_text s)) r l) (v_text s)) s) -> wp (set_line r l) Q s.
Proof. intros Hr HQ. unfold set_line. vi_step. by apply wp_row_put. Qed.

Lemma wp_line_char ls r i (Q : Z -> vi -> Prop) s : lines_are ls (v_text s) -> 0 <= r < lenZ ls -> 0 <= i < lenZ (row ls r) ->
  Q (rd (row ls r) i) s -> wp (line_char r i) Q s.
Proof.
  intros [Hrows [Hn Hlim] Hl] Hr Hi HQ. destruct (Hl r Hr) as (Hlen & _ & Hrd & _). pose proof (proj2 Hrows r ltac:(lia)).
  unfold line_char. vi_step. apply wp_ch_get; [done | lia | lia|]. rewrite Hrd by done. by destruct s.
Qed.

Lemma wp_substitute_line ls r (Q : unit -> vi -> Prop) s : lines_are ls (v_text s) -> 0 <= r < lenZ ls ->
  (forall l, lenZ l = MAX_COL -> holds l (cut (replace_all w rep (row ls r))) ->
     Q tt (set_v_text (set_lines (put_row (t_lines (v_text s)) r l) (v_text s)) s)) ->
  wp (vi_substitute_line r pat (lenZ w) rp (lenZ rep)) Q s.
Proof.
  intros Hla Hr HQ. pose proof Hla as [Hrows [Hn Hlim] Hl]. destruct (Hl r Hr) as (Hlt & Hnz & Hrd & _).
  pose proof (proj2 Hrows r ltac:(lia)) as Hrl. pose proof (lenZ_nonneg (row ls r)). assert (1 <= lenZ w) by (destruct w; [done | unfold lenZ; simpl; lia]).
  unfold vi_substitute_line. vi_step. apply (wp_vi_llen ls); [done | done|]. vi_step. apply wp_locals.
  assert (Hend : forall u tmp, u `prefix_of` tmp -> lenZ tmp = MAX_COL -> lenZ u <= MAX_COL - 1 -> u = cut (replace_all w rep (row ls r)) ->
    wp (tmp ← aset tmp (lenZ u) 0; l ← line r; l ← memcpy l 0 tmp 0 (lenZ u + 1); set_line r l) Q s).
  { intros u tmp [Hul Hur]%prefix_rd Htl Hle Heq. pose proof (lenZ_nonneg u). vi_step. apply wp_aset; [lia|].
    vi_step. apply wp_line; [lia|]. vi_step. apply wp_memcpy; try lia; [rewrite lenZ_wr; lia|]. intros l [Hll Hlr].
    apply wp_set_line; [lia|]. apply HQ; [lia|]. rewrite <- Heq. split; [lia|]. split; [|split].
    - rewrite Heq. apply Forall_take, nonzeros_replace; [|done]. by destruct Hrep as (_ & ? & _).
    - intros j Hj. rewrite Hlr, rd_wr by lia. case_range; try lia. rewrite <- Hur by done. f_equal. lia.
    - rewrite Hlr, rd_wr by lia. case_range; lia. }
  apply (wp_while (fun '(i, tmp, t) s' => s' = s /\ 0 <= i <= lenZ (row ls r) /\ lenZ tmp = MAX_COL /\ exists u, t = lenZ u /\
      u `prefix_of` tmp /\ lenZ u <= MAX_COL - 1 /\
      cut (u ++ replace_all w rep (drop (Z.to_nat i) (row ls r))) = cut (replace_all w rep (row ls r)))
    (fun '(i, _, _) _ => Z.to_nat (lenZ (row ls r) - i))).
  - split; [done|]. split; [lia|]. split; [by apply lenZ_local|]. exists []. split; [done|]. split; [apply prefix_nil|]. done.
  - unfold MAX_COL in *. lia.
  - intros [[i tmp] t] s' (-> & Hi & Htl & u & -> & Hu & Hle & Heq).
    destruct ((i <? lenZ (row ls r)) && (lenZ u <? MAX_COL - 1)) eqn:Hcond.
    + apply andb_prop in Hcond as [Hi1%Z.ltb_lt Hu1%Z.ltb_lt].
      assert (Hdrop : drop (Z.to_nat i) (row ls r) = rd (row ls r) i :: drop (Z.to_nat (i + 1)) (row ls r)) by (apply drop_rd; lia).
      assert (Hm : forall (Q' : bool -> vi -> Prop), (forall b : bool, (b <-> w `prefix_of` drop (Z.to_nat i) (row ls r)) -> Q' b s) ->
        wp (if i <=? lenZ (row ls r) - lenZ w then matches pat (lenZ w) r i else mret false) Q' s).
      { intros Q' HQ'. destruct (Z.leb_spec i (lenZ (row ls r) - lenZ w)).
        - apply (wp_matches ls); [done | done | done | lia|]. intros b Hb. apply HQ'. rewrite Hb. unfold occurs. cbn [fst snd]. intuition lia.
        - wp_step. apply HQ'. split; [done|]. intros Hp. assert (Ho : occurs ls w (r, i)) by (split; [done | split; [apply Hi | done]]).
          apply occurs_fits in Ho; [cbn [fst snd] in Ho; lia | done]. }
      wp_step. apply Hm. intros [] Hb.
      * destruct Hb as [Hb _]. specialize (Hb I). rewrite (replace_all_match w rep) in Heq by done. wp_step. apply wp_put_rep; [done | done | done|].
        intros tmp' Hp' Htl'. wp_step. split; [|lia]. split; [done|].
        assert (Ho : occurs ls w (r, i)) by (split; [done | split; [apply Hi | done]]). apply occurs_fits in Ho; [|done]. cbn [fst snd] in Ho.
        split; [lia|]. split; [done|]. eexists. split; [done|]. split; [done|]. split; [apply lenZ_cut|].
        rewrite cut_cut, <- app_assoc. rewrite drop_drop in Heq. rewrite <- Heq.
        by replace (Z.to_nat (i + lenZ w)) with (Z.to_nat i + length w)%nat by (unfold lenZ; lia).
      * rewrite Hdrop in Heq. rewrite replace_all_step in Heq by (rewrite <- Hdrop; by intros Hp%Hb).
        pose proof (lenZ_nonneg u). wp_step. apply (wp_line_char ls); [done | done | lia|]. wp_step. apply wp_aset; [lia|]. wp_step. split; [|lia]. split; [done|].
        split; [lia|]. split; [by rewrite lenZ_wr|]. exists (u ++ [rd (row ls r) i]). rewrite lenZ_app. change (lenZ [_]) with 1.
        split; [done|]. split; [apply prefix_snoc_wr; [done | lia]|]. split; [lia|]. by rewrite <- app_assoc.
    + wp_step. apply Hend; [done | done | done|]. rewrite <- Heq. apply andb_false_iff in Hcond as [Hc%Z.ltb_ge|Hc%Z.ltb_ge].
      * rewrite (drop_ge (row ls r)) by (unfold lenZ in *; lia). change (replace_all w rep []) with (@nil Z). by rewrite app_nil_r, cut_short.
      * by rewrite cut_full by lia.
Qed.
End Subst.
