(* ===== verification/UndoFacts.v ===== *)
(** Correctness of undo and redo in [vi]: what [u] and [U] bring back after an
    edit of one row, and what they do after a deleted row. *)
From Stdlib Require Import ZArith Lia List String.
From stdpp Require Import base tactics numbers list strings.
From S2P Require Import Prelude CString Bytes Buffer Text TextBuf TextFacts ViState ViEdit SearchFacts SubstFacts.
Open Scope Z_scope.

(** Copying a whole row. *)
Lemma wp_strncpy_row {S} dst src t (Q : list Z -> S -> Prop) s : lenZ dst = MAX_COL -> holds src t -> lenZ t < MAX_COL ->
  (forall l, lenZ l = MAX_COL -> holds l t -> Q l s) -> wp (strncpy dst src MAX_COL) Q s.
Proof.
  intros Hd Hs Ht HQ. destruct (holds_cstr _ _ Hs) as [Hc Hterm]. destruct Hs as (Hl & Hn & Hr & Hz). pose proof (lenZ_nonneg t).
  apply wp_strncpy; [unfold MAX_COL in *; lia | done|]. rewrite Hc. intros l Hll Hlr. apply HQ; [lia|].
  split; [lia|]. split; [done|]. split.
  - intros i Hi. rewrite Hlr by lia. case_range; try lia. by apply Hr.
  - rewrite Hlr by lia. case_range; try lia; done.
Qed.

Section Undo.
Context `{Locals}.
Implicit Types s : vi.

(** A saved row: its text, its place and the number of rows. *)
Definition slot (x : vi_array) (rw n : vi_int) (t : list Z) (r k : Z) s : Prop :=
  lenZ (arrays s x) = MAX_COL /\ holds (arrays s x) t /\ ints s rw = r /\ ints s n = k.
Notation undoes := (slot vi_undo_line vi_undo_row vi_undo_lcount).
Notation redoes := (slot vi_redo_line vi_redo_row vi_redo_lcount).

(** The arrays have their sizes. *)
Definition sized s : Prop :=
  lenZ (arrays s vi_msg) = VI_STATUS_SZ /\ lenZ (arrays s vi_undo_line) = MAX_COL /\ lenZ (arrays s vi_redo_line) = MAX_COL /\
  lenZ (arrays s vi_yank_buf) = VI_YANK_MAX.

(** The editor waits for the same keys. *)
Definition same_mode s s' : Prop :=
  ints s' vi_mode = ints s vi_mode /\ ints s' vi_op_pending = ints s vi_op_pending /\ ints s' vi_pending = ints s vi_pending.

Definition with_saved (u : list Z) (r k : Z) s : vi :=
  set_int vi_undo_valid 1 (set_int vi_undo_lcount k (set_int vi_undo_row r (set_array vi_undo_line u s))).

Lemma wp_save_undo_run ls r c (Q : unit -> vi -> Prop) s : text_at ls r c (v_text s) -> lenZ (arrays s vi_undo_line) = MAX_COL ->
  (forall u, lenZ u = MAX_COL -> holds u (row ls r) -> Q tt (with_saved u r (lenZ ls) s)) -> wp vi_save_undo Q s.
Proof.
  intros Hat Hs HQ. pose proof Hat as [Hrows [Hn Hlim] Hl [Hr Hr2] [Hc Hc2]].
  pose proof (holds_len _ _ (Hl r Hr2) (proj2 Hrows r ltac:(lia))) as Hlt.
  unfold vi_save_undo. do 2 vi_step. rewrite Hr. vi_step. apply wp_line; [lia|]. do 2 vi_step. vi_step.
  apply (wp_strncpy_row _ _ (row ls r)); [done | by apply Hl | done|]. intros u Hu Hh.
  do 6 vi_step. cbn [v_text set_int set_array]. rewrite Hn. do 3 vi_step. by apply HQ.
Qed.

Lemma wp_save_undo ls r c (Q : unit -> vi -> Prop) s : text_at ls r c (v_text s) -> sized s ->
  (forall s', v_text s' = v_text s -> sized s' -> undoes (row ls r) r (lenZ ls) s' -> ints s' vi_undo_valid = 1 -> same_mode s s' -> Q tt s') ->
  wp vi_save_undo Q s.
Proof.
  intros Hat (Hs1 & Hs2 & Hs3 & Hs4) HQ. apply (wp_save_undo_run ls r c); [done | done|]. intros u Hu Hh. by apply HQ.
Qed.

Lemma row_short ls b r : lines_are ls b -> 0 <= r < lenZ ls -> lenZ (row ls r) < MAX_COL.
Proof. intros [Hrows [Hn Hlim] Hl] Hr. apply (holds_len _ _ (Hl r Hr)), Hrows. lia. Qed.

(** The row of the slot comes back, the cursor to its start. *)
Definition restored (t : list Z) (r k : Z) b b' : Prop :=
  exists l, lenZ l = MAX_COL /\ holds l t /\ b' = mkText (put_row (t_lines b) r l) k r 0 1.

Lemma wp_do_undo ls t r k (Q : unit -> vi -> Prop) s : lines_are ls (v_text s) -> 0 <= r < lenZ ls -> sized s ->
  undoes t r k s -> ints s vi_undo_valid = 1 ->
  (forall s', restored t r k (v_text s) (v_text s') -> sized s' -> redoes (row ls r) r (lenZ ls) s' -> same_mode s s' -> Q tt s') ->
  wp vi_do_undo Q s.
Proof.
  intros Hla Hr (Hs1 & Hs2 & Hs3 & Hs4) (Hu1 & Hu2 & Hu3 & Hu4) Hv HQ. pose proof Hla as [Hrows [Hn Hlim] Hl].
  pose proof (row_short ls _ r Hla Hr) as Hlt. pose proof (holds_len _ _ Hu2 Hu1) as Htl. pose proof (proj2 Hrows r ltac:(lia)) as Hrl.
  unfold vi_do_undo. do 2 vi_step. rewrite Hv. change (1 =? 0) with false. cbv iota. do 2 vi_step. rewrite Hu3.
  vi_step. apply wp_line; [lia|]. do 2 vi_step. vi_step. apply (wp_strncpy_row _ _ (row ls r)); [done | by apply Hl | done|].
  intros d Hd Hdh. do 6 vi_step. cbn [v_text set_int set_array]. rewrite Hn. do 4 vi_step. vi_step. apply (wp_strncpy_row _ _ t); [done | done | done|].
  intros l Hll Hlh. vi_step. apply wp_set_line; [cbn; lia|]. do 2 vi_step. cbn [ints set_int set_v_text set_array].
  change (assign vi_redo_lcount (lenZ ls) (assign vi_redo_row r (ints s)) vi_undo_lcount) with (ints s vi_undo_lcount). rewrite Hu4.
  do 10 vi_step. apply (wp_message "" []); [apply (text_holds ""); constructor | done|]. intros m Hm _. apply HQ.
  - exists l. split; [done|]. split; [done|]. by destruct s as [[] ? ?].
  - done.
  - done.
  - done.
Qed.

Lemma wp_do_redo ls t r k (Q : unit -> vi -> Prop) s : lines_are ls (v_text s) -> 0 <= r < lenZ ls -> sized s ->
  redoes t r k s ->
  (forall s', restored t r k (v_text s) (v_text s') -> sized s' -> undoes (row ls r) r (lenZ ls) s' -> same_mode s s' -> Q tt s') ->
  wp vi_do_redo Q s.
Proof.
  intros Hla Hr (Hs1 & Hs2 & Hs3 & Hs4) (Hu1 & Hu2 & Hu3 & Hu4) HQ. pose proof Hla as [Hrows [Hn Hlim] Hl].
  pose proof (row_short ls _ r Hla Hr) as Hlt. pose proof (holds_len _ _ Hu2 Hu1) as Htl. pose proof (proj2 Hrows r ltac:(lia)) as Hrl.
  unfold vi_do_redo. do 2 vi_step. rewrite Hu3.
  vi_step. apply wp_line; [lia|]. do 2 vi_step. vi_step. apply (wp_strncpy_row _ _ (row ls r)); [done | by apply Hl | done|].
  intros d Hd Hdh. do 6 vi_step. cbn [v_text set_int set_array]. rewrite Hn. do 4 vi_step. vi_step. apply (wp_strncpy_row _ _ t); [done | done | done|].
  intros l Hll Hlh. vi_step. apply wp_set_line; [cbn; lia|]. do 2 vi_step. cbn [ints set_int set_v_text set_array].
  change (assign vi_undo_lcount (lenZ ls) (assign vi_undo_row r (ints s)) vi_redo_lcount) with (ints s vi_redo_lcount). rewrite Hu4.
  do 8 vi_step. apply (wp_message "" []); [apply (text_holds ""); constructor | done|]. intros m Hm _. apply HQ.
  - exists l. split; [done|]. split; [done|]. by destruct s as [[] ? ?].
  - done.
  - done.
  - done.
Qed.

(** * Edits of one row *)

(** The row [r] replaced by [k]. *)
Definition with_row (r : Z) (k : list Z) s : vi :=
  set_v_text (set_lines (put_row (t_lines (v_text s)) r k) (v_text s)) s.

Lemma with_row_id r s : 0 <= r < lenZ (t_lines (v_text s)) -> with_row r (row (t_lines (v_text s)) r) s = s.
Proof. intros Hr. unfold with_row. rewrite put_row_id, set_lines_id by done. by destruct s. Qed.
Lemma with_row_twice r k k' s : with_row r k (with_row r k' s) = with_row r k s.
Proof. unfold with_row. cbn. by rewrite put_put_row. Qed.

Section Row.
Variables (r : Z) (s : vi).
Hypothesis Hrows : rows_ok (t_lines (v_text s)).
Hypothesis Hr : 0 <= r < MAX_LINES.

Lemma wp_char k i (Q : Z -> vi -> Prop) : lenZ k = MAX_COL -> 0 <= i < MAX_COL -> Q (rd k i) (with_row r k s) ->
  wp (line_char r i) Q (with_row r k s).
Proof.
  intros Hk Hi HQ. unfold line_char. vi_step. apply wp_ch_get; [by apply rows_ok_put | done | done|].
  cbn [v_text with_row set_v_text t_lines set_lines]. rewrite row_put_row, Z.eqb_refl by (pose proof (proj1 Hrows); lia). exact HQ.
Qed.

Lemma wp_set_char k i v (Q : unit -> vi -> Prop) : lenZ k = MAX_COL -> 0 <= i < MAX_COL -> Q tt (with_row r (wr k i v) s) ->
  wp (set_line_char r i v) Q (with_row r k s).
Proof.
  intros Hk Hi HQ. unfold set_line_char. vi_step. apply wp_ch_set; [by apply rows_ok_put | done | done|].
  cbn [v_text with_row set_v_text t_lines set_lines]. rewrite row_put_row, Z.eqb_refl, put_put_row by (pose proof (proj1 Hrows); lia). exact HQ.
Qed.

(** A loop that only writes the row. *)
Lemma wp_char_loop n i0 (body : Z -> unit -> V (ctl unit Empty_set)) (J : Z -> list Z -> Prop) (Q : unit -> vi -> Prop) :
  J i0 (row (t_lines (v_text s)) r) ->
  (forall j k (Q' : ctl unit Empty_set -> vi -> Prop), i0 <= j < i0 + Z.of_nat n -> lenZ k = MAX_COL -> J j k ->
     (forall k', lenZ k' = MAX_COL -> J (j + 1) k' -> Q' (Cont tt) (with_row r k' s)) -> wp (body j tt) Q' (with_row r k s)) ->
  (forall k, lenZ k = MAX_COL -> J (i0 + Z.of_nat n) k -> Q tt (with_row r k s)) ->
  wp (locals (for_ n i0 tt body)) Q s.
Proof.
  intros H0 Hbody HQ. pose proof Hrows as [Hl Hrow]. apply wp_locals.
  apply (wp_for (fun j _ s' => exists k, lenZ k = MAX_COL /\ J j k /\ s' = with_row r k s)).
  - exists (row (t_lines (v_text s)) r). split; [by apply Hrow|]. split; [done|]. rewrite with_row_id by lia. done.
  - intros j [] s' Hj (k & Hk & HJ & ->). apply (Hbody j k); [done..|]. intros k' Hk' HJ'. eauto.
  - intros [] s' (k & Hk & HJ & ->). by apply HQ.
Qed.
End Row.

Lemma text_at_put_row ls r c b k t c' v : text_at ls r c b -> lenZ k = MAX_COL -> holds k t -> 0 <= c' <= lenZ t ->
  text_at (put_row ls r t) r c' (set_modified v (set_cur_col c' (set_lines (put_row (t_lines b) r k) b))).
Proof.
  intros Hat Hk Ht Hc. pose proof Hat as [_ _ _ [Hr Hr2] _]. destruct (lines_put _ _ r k t (text_lines _ _ _ _ Hat) Hr2 Hk Ht) as [? ? ?].
  assert (Hlen : lenZ (put_row ls r t) = lenZ ls) by (unfold put_row, lenZ; by rewrite length_insert).
  split; try done; [cbn; lia|]. rewrite row_put_row, Z.eqb_refl by lia. done.
Qed.

(** What an edit of the cursor's row leaves: the rest of the state only where
    yanking writes. *)
Definition kept s s' : Prop :=
  (forall x, x <> vi_yank_buf -> arrays s' x = arrays s x) /\ lenZ (arrays s' vi_yank_buf) = lenZ (arrays s vi_yank_buf) /\
  (forall x, x <> vi_yank_len -> x <> vi_yank_line -> ints s' x = ints s x).

Lemma kept_refl s : kept s s.
Proof. done. Qed.
Lemma kept_through s1 s2 s3 : kept s1 s2 -> kept s2 s3 -> kept s1 s3.
Proof.
  intros (Ha & Hb & Hc) (Ha' & Hb' & Hc'). split; [|split]; [|congruence|]; intros x; intros; [rewrite Ha', Ha | rewrite Hc', Hc]; done.
Qed.
Lemma kept_sized s s' : kept s s' -> sized s -> sized s'.
Proof. intros (Ha & Hb & _) (? & ? & ? & ?). unfold sized. by rewrite Hb, !Ha. Qed.
Lemma kept_mode s s' : kept s s' -> same_mode s s'.
Proof. intros (_ & _ & Hc). unfold same_mode. by rewrite !Hc. Qed.
Lemma same_mode_trans s1 s2 s3 : same_mode s1 s2 -> same_mode s2 s3 -> same_mode s1 s3.
Proof. unfold same_mode. intros (-> & -> & ->). done. Qed.
Lemma kept_slot x rw n t r k s s' : kept s s' -> x <> vi_yank_buf -> rw <> vi_yank_len -> rw <> vi_yank_line ->
  n <> vi_yank_len -> n <> vi_yank_line -> slot x rw n t r k s -> slot x rw n t r k s'.
Proof. intros (Ha & _ & Hc) ? ? ? ? ? (? & ? & ? & ?). unfold slot. by rewrite Ha, !Hc. Qed.

(** The character under the cursor goes. *)
Lemma wp_delete_char ls r c (Q : unit -> vi -> Prop) s : text_at ls r c (v_text s) -> c < lenZ (row ls r) ->
  (forall s', text_at (put_row ls r (del c (c + 1) (row ls r))) r c (v_text s') -> kept s s' -> Q tt s') -> wp vi_delete_char Q s.
Proof.
  intros Hat Hlt HQ. pose proof Hat as [Hrows [Hn Hlim] Hl [Hr Hr2] [Hc Hc2]]. pose proof (Hl r Hr2) as Hh. pose proof Hrows as [HL Hrow].
  assert (HrL : 0 <= r < MAX_LINES) by lia. pose proof (row_short ls _ r (text_lines _ _ _ _ Hat) Hr2) as Hs.
  unfold vi_delete_char. do 2 vi_step. rewrite Hr. vi_step. apply (wp_vi_llen ls); [by eapply text_lines | done|]. do 2 vi_step. rewrite Hc.
  rewrite (proj2 (Z.leb_gt _ _)) by lia. vi_step.
  apply (wp_char_loop r s Hrows HrL _ _ _ (fun j k => copied (row (t_lines (v_text s)) r) c (row (t_lines (v_text s)) r) (c + 1) (j - c) k)).
  - split; [done|]. intros i Hi. case_range; try done; lia.
  - intros j k Q' Hj Hk [Hkl Hkr] HQ'. unfold span in Hj. vi_step. apply (wp_char r s Hrows HrL); [done | lia|]. vi_step. apply (wp_set_char r s Hrows HrL); [done | lia|].
    vi_step. apply HQ'; [by rewrite lenZ_wr|]. split; [rewrite lenZ_wr; lia|]. intros i Hi.
    rewrite rd_wr, !Hkr by lia. case_range; try lia; try done; f_equal; lia.
  - intros k Hk Hcp. vi_step. apply HQ; [|done]. unfold span in Hcp.
    replace (c + Z.of_nat (Z.to_nat (lenZ (row ls r) - c)) - c) with (lenZ (row ls r) - c) in Hcp by lia.
    eapply (text_at_put_row ls r c _ k _ c 1) in Hat; [|done | | ].
    + destruct s as [[] ? ?]. simpl in *. by subst.
    + apply (holds_del _ _ c (c + 1) _ Hh); [lia | lia|]. replace (lenZ (row ls r) - (c + 1) + 1) with (lenZ (row ls r) - c) by lia. exact Hcp.
    + rewrite lenZ_del by lia. lia.
Qed.

Lemma wp_yank_text l o len lw (Q : unit -> vi -> Prop) s : sized s -> 0 <= o -> 0 <= len < VI_YANK_MAX -> o + len <= lenZ l ->
  (forall b, lenZ b = VI_YANK_MAX -> Q tt (set_int vi_yank_line lw (set_int vi_yank_len len (set_array vi_yank_buf b s)))) ->
  wp (vi_yank_text l o len lw) Q s.
Proof.
  intros (_ & _ & _ & Hy) Ho Hl Hle HQ. unfold vi_yank_text. rewrite (proj2 (Z.leb_gt _ _)) by lia.
  unfold u32. rewrite Z.mod_small by (unfold VI_YANK_MAX in *; lia). do 2 vi_step. vi_step. apply wp_memcpy; try lia.
  intros b [Hb _]. vi_step. apply wp_aset; [lia|]. do 5 vi_step. apply HQ. rewrite lenZ_wr. lia.
Qed.

Lemma kept_yank b len lw s : lenZ b = lenZ (arrays s vi_yank_buf) ->
  kept s (set_int vi_yank_line lw (set_int vi_yank_len len (set_array vi_yank_buf b s))).
Proof.
  intros Hb. split; [|split]; cbn [arrays ints set_int set_array].
  - intros x Hx. by rewrite assign_other.
  - by rewrite assign_same.
  - intros x H1 H2. by rewrite !assign_other.
Qed.

(** The row is cut at the cursor. *)
Lemma wp_delete_to_eol ls r c (Q : unit -> vi -> Prop) s : text_at ls r c (v_text s) -> c < lenZ (row ls r) -> sized s ->
  (forall s', text_at (put_row ls r (take (Z.to_nat c) (row ls r))) r c (v_text s') -> kept s s' -> Q tt s') -> wp vi_delete_to_eol Q s.
Proof.
  intros Hat Hlt Hsz HQ. pose proof Hat as [Hrows [Hn Hlim] Hl [Hr Hr2] [Hc Hc2]]. pose proof (Hl r Hr2) as Hh. pose proof Hrows as [HL Hrow].
  assert (HrL : 0 <= r < MAX_LINES) by lia. pose proof (row_short ls _ r (text_lines _ _ _ _ Hat) Hr2) as Hs. pose proof (Hrow r HrL) as Hrl.
  unfold vi_delete_to_eol. do 2 vi_step. rewrite Hr. vi_step. apply (wp_vi_llen ls); [by eapply text_lines | done|]. do 2 vi_step. rewrite Hc.
  rewrite (proj2 (Z.ltb_lt _ _)) by lia. vi_step. vi_step. apply wp_line; [done|]. vi_step.
  apply wp_yank_text; [done | lia | unfold VI_YANK_MAX, MAX_COL in *; lia | lia|]. intros b Hb.
  set (s1 := set_int vi_yank_line 0 _). assert (Hk1 : kept s s1) by (apply kept_yank; rewrite Hb; by destruct Hsz as (_ & _ & _ & ->)).
  assert (Ht1 : v_text s1 = v_text s) by done. clearbody s1. unfold set_line_char. vi_step. apply wp_ch_set; [by rewrite Ht1 | done | lia|].
  rewrite Ht1. vi_step. apply HQ; [|by eapply kept_through; [exact Hk1|]].
  eapply (text_at_put_row ls r c _ (wr (row (t_lines (v_text s)) r) c 0) _ c 1) in Hat.
  - destruct (v_text s). simpl in *. by subst.
  - by rewrite lenZ_wr.
  - apply holds_cut; [done | lia].
  - rewrite lenZ_take by lia. lia.
Qed.

Definition toggle (x : Z) : Z := if (97 <=? x) && (x <=? 122) then x - 32 else if (65 <=? x) && (x <=? 90) then x + 32 else x.

Lemma holds_wr l t i v : holds l t -> 0 <= i < lenZ t -> v <> 0 -> holds (wr l i v) (wr t i v).
Proof.
  intros (Hl & Hn & Hr & Hz) Hi Hv. unfold holds. rewrite !lenZ_wr. split; [lia|]. split.
  - unfold wr. apply Forall_insert; done.
  - split; [|rewrite rd_wr by lia; case_range; [lia | done]]. intros j Hj. rewrite !rd_wr by lia. case_range; [done | by apply Hr].
Qed.

Lemma toggle_nz x : x <> 0 -> toggle x <> 0.
Proof. intros Hx. unfold toggle. case_range; lia. Qed.

Lemma put_row_same ls r : 0 <= r < lenZ ls -> put_row ls r (row ls r) = ls.
Proof. apply put_row_id. Qed.

Lemma wp_toggle_case ls r c (Q : unit -> vi -> Prop) s : text_at ls r c (v_text s) -> c < lenZ (row ls r) -> sized s ->
  (forall s' c', text_at (put_row ls r (wr (row ls r) c (toggle (rd (row ls r) c)))) r c' (v_text s') -> sized s' ->
     undoes (row ls r) r (lenZ ls) s' -> ints s' vi_undo_valid = 1 -> same_mode s s' -> Q tt s') ->
  wp vi_toggle_case Q s.
Proof.
  intros Hat Hlt Hsz HQ. pose proof Hat as [_ _ _ [Hr Hr2] [Hc Hc2]].
  unfold vi_toggle_case. do 2 vi_step. rewrite Hr. vi_step. apply (wp_vi_llen ls); [by eapply text_lines | done|]. do 2 vi_step. rewrite Hc.
  rewrite (proj2 (Z.leb_gt _ _)) by lia. vi_step. apply (wp_save_undo ls r c); [done | done|]. intros s1 Ht1 Hsz1 Hu Hv Hm. rewrite <- Ht1 in Hat.
  clear Hr Hc Ht1. pose proof Hat as [Hrows [Hn Hlim] Hl [Hr _] [Hc _]]. pose proof Hrows as [HL Hrow]. assert (HrL : 0 <= r < MAX_LINES) by lia.
  pose proof (row_short ls _ r (text_lines _ _ _ _ Hat) Hr2) as Hs. pose proof (Hl r Hr2) as Hh. pose proof (Hrow r HrL) as Hrl.
  assert (Hnz : rd (row ls r) c <> 0) by (destruct Hh as (_ & Hnz & _); apply (Forall_rd _ _ c Hnz); lia).
  vi_step. apply (wp_line_char ls); [by eapply text_lines | done | lia|]. set (x := rd (row ls r) c) in *. set (c' := if lenZ (row ls r) <=? c + 1 then _ else _).
  assert (Hc' : 0 <= c' <= lenZ (row ls r)) by (unfold c'; case_range; lia).
  assert (Hset : forall v, v = toggle x -> wp (set_line_char r c v;; set_col c';; mark_modified 1) Q s1).
  { intros v ->. vi_step. unfold set_line_char. vi_step. apply wp_ch_set; [done | done | lia|]. do 3 vi_step. apply (HQ _ c'); [|done..].
    eapply (text_at_put_row ls r c _ (wr (row (t_lines (v_text s1)) r) c (toggle x)) _ c' 1) in Hat.
    - destruct (v_text s1). simpl in *. by subst.
    - by rewrite lenZ_wr.
    - apply holds_wr; [done | lia | by apply toggle_nz].
    - by rewrite lenZ_wr. }
  unfold toggle in Hset, HQ. destruct ((97 <=? x) && (x <=? 122)) eqn:E1; [by apply Hset|].
  destruct ((65 <=? x) && (x <=? 90)) eqn:E2; [by apply Hset|]. do 4 vi_step. apply (HQ _ c'); [|done..].
  assert (Hid : wr (row ls r) c x = row ls r).
  { apply rd_ext; rewrite lenZ_wr; [done|]. intros i Hi. rewrite rd_wr by lia. case_range; by subst. }
  rewrite Hid, put_row_same by done. destruct (v_text s1). destruct Hat. simpl in *. by split.
Qed.

(** * Deleting a row *)

(** The rows that are left of [dd] on [r] and [u]. *)
Definition undone (ls : list (list Z)) (r j : Z) : list Z := row ls (if j <=? r then j else Z.min (j + 1) (lenZ ls - 1)).

Lemma wp_delete_line ls r c (Q : unit -> vi -> Prop) s : text_at ls r c (v_text s) -> 1 < lenZ ls -> sized s ->
  (forall s', sized s' -> undoes (row ls r) r (lenZ ls) s' -> ints s' vi_undo_valid = 1 -> same_mode s s' -> rows_ok (t_lines (v_text s')) ->
     t_lcount (v_text s') = lenZ ls - 1 ->
     (forall i, 0 <= i < MAX_LINES -> row (t_lines (v_text s')) i =
        if (r <=? i) && (i <? lenZ ls - 1) then row (t_lines (v_text s)) (i + 1) else row (t_lines (v_text s)) i) -> Q tt s') ->
  wp vi_delete_line Q s.
Proof.
  intros Hat H1 Hsz HQ. unfold vi_delete_line. vi_step. apply (wp_save_undo ls r c); [done | done|]. intros s1 Ht1 Hsz1 Hu Hv Hm.
  rewrite <- Ht1 in *. pose proof Hat as [Hrows [Hn Hlim] Hl [Hr Hr2] [Hc Hc2]]. pose proof (proj2 Hrows r ltac:(lia)) as Hrl.
  pose proof (row_short ls _ r (text_lines _ _ _ _ Hat) Hr2) as Hs. pose proof (lenZ_nonneg (row ls r)).
  do 2 vi_step. rewrite Hr. vi_step. apply wp_line; [lia|]. vi_step. apply (wp_vi_llen ls); [by eapply text_lines | done|].
  vi_step. apply wp_yank_text; [done | lia | unfold VI_YANK_MAX, MAX_COL in *; lia | lia|]. intros b Hb.
  set (s2 := set_int vi_yank_line 1 _). assert (Hk : kept s1 s2) by (apply kept_yank; rewrite Hb; by destruct Hsz1 as (_ & _ & _ & ->)).
  assert (Ht2 : v_text s2 = v_text s1) by done. clearbody s2.
  unfold vi_delete_line_at. do 3 vi_step. rewrite Ht2, Hn, (proj2 (Z.leb_gt _ _)) by lia. do 2 vi_step. rewrite Ht2.
  apply wp_rows_up; [done | lia | lia|]. intros L HL HLr. do 8 vi_step. cbn [v_text set_v_text t_lcount set_lcount].
  apply HQ; [by eapply kept_sized | by eapply kept_slot | destruct Hk as (_ & _ & Hki); cbn; by rewrite Hki |
    by eapply same_mode_trans; [exact Hm | apply kept_mode in Hk] | done | done | done].
Qed.
End Undo.
