(* ===== verification/Descriptors.v ===== *)
(** The descriptor tables of the processor: [src/kernel/arch/gdt.c],
    [src/kernel/arch/idt.c] and the static task state segment of
    [src/kernel/arch/tss.c].

    The tables are records and lists of records as the code declares them;
    [gdt_bytes] and [idt_bytes] are their packed layouts.  What the processor
    reads in a table is defined on the bytes, from the formats of the
    architecture, apart from the code that writes them. *)
From Stdlib Require Import ZArith Lia List.
From stdpp Require Import base tactics numbers list gmap strings option.
From S2P Require Import Prelude CString Bytes Sched.
Open Scope Z_scope.

(** * Data ([gdt.h], [idt.h]) *)

Definition GDT_BASE : Z := 0x800.
Definition GDT_SIZE : Z := 8.
Definition GDT_SEL_KERN_CODE : Z := 0x08.
Definition GDT_SEL_KERN_DATA : Z := 0x10.
Definition GDT_SEL_TSS : Z := 0x38.

Definition ACCESS_PRES (x : Z) : Z := Z.shiftl x 7.
Definition ACCESS_RING (x : Z) : Z := Z.shiftl x 5.
Definition ACCESS_TYPE (x : Z) : Z := Z.shiftl x 4.
Definition ACCESS_EXEC (x : Z) : Z := Z.shiftl x 3.
Definition ACCESS_DC (x : Z) : Z := Z.shiftl x 2.
Definition ACCESS_RW (x : Z) : Z := Z.shiftl x 1.
Definition FLAGS_GRAN (x : Z) : Z := Z.shiftl x 3.
Definition FLAGS_DB (x : Z) : Z := Z.shiftl x 2.
Definition FLAGS_LONG (x : Z) : Z := Z.shiftl x 1.

Definition GDT_KERN_ACCESS : Z := Z.lor (Z.lor (ACCESS_PRES 1) (ACCESS_RING 0)) (ACCESS_TYPE 1).
Definition GDT_USER_ACCESS : Z := Z.lor (Z.lor (ACCESS_PRES 1) (ACCESS_RING 3)) (ACCESS_TYPE 1).
Definition GDT_SEG_CODE : Z := Z.lor (Z.lor (ACCESS_EXEC 1) (ACCESS_DC 0)) (ACCESS_RW 1).
Definition GDT_SEG_DATA : Z := Z.lor (Z.lor (ACCESS_EXEC 0) (ACCESS_DC 0)) (ACCESS_RW 1).
Definition GDT_SEG_STACK : Z := Z.lor (Z.lor (ACCESS_EXEC 0) (ACCESS_DC 1)) (ACCESS_RW 1).
Definition GDT_FLAGS : Z := Z.lor (Z.lor (FLAGS_GRAN 1) (FLAGS_DB 1)) (FLAGS_LONG 0).

Record gdt_entry_t : Type := mkGdtEntry {
  limit_low : Z;
  base_low : Z;
  base_middle : Z;
  access : Z;
  limit_high : Z;
  flags : Z;
  base_high : Z
}.
Record gdt_ptr_t : Type := mkGdtPtr { gdt_limit : Z; gdt_base : Z }.

Record idt_entry_t : Type := mkIdtEntry {
  isr_low : Z;
  kernel_cs : Z;
  reserved : Z;
  attributes : Z;
  isr_high : Z
}.
Record idtr_t : Type := mkIdtr { idtr_limit : Z; idtr_base : Z }.

(** The packed layouts; [limit_high] and [flags] are the halves of a byte. *)
Definition lo8 (v : Z) : Z := v mod 256.
Definition hi8 (v : Z) : Z := v / 256 mod 256.
Definition gdt_bytes (e : gdt_entry_t) : list Z :=
  [lo8 (limit_low e); hi8 (limit_low e); lo8 (base_low e); hi8 (base_low e);
   base_middle e; access e; limit_high e + 16 * flags e; base_high e].
Definition idt_bytes (e : idt_entry_t) : list Z :=
  [lo8 (isr_low e); hi8 (isr_low e); lo8 (kernel_cs e); hi8 (kernel_cs e);
   reserved e; attributes e; lo8 (isr_high e); hi8 (isr_high e)].

(** The tables, the registers of the processor that locate them, and the
    bytes of [g_tss] apart from [esp0], which is [tss_esp0] of the
    scheduler's state. *)
Record tables : Type := mkTables {
  gdt_e : list gdt_entry_t;
  gdt : gdt_ptr_t;
  gdt_mem : list Z;
  idt : list idt_entry_t;
  idtr : idtr_t;
  g_tss : list Z;
  r_gdtr : gdt_ptr_t;
  r_idtr : idtr_t;
  r_tr : Z
}.
Definition set_gdt_e v s := mkTables v (gdt s) (gdt_mem s) (idt s) (idtr s) (g_tss s) (r_gdtr s) (r_idtr s) (r_tr s).
Definition set_gdt v s := mkTables (gdt_e s) v (gdt_mem s) (idt s) (idtr s) (g_tss s) (r_gdtr s) (r_idtr s) (r_tr s).
Definition set_gdt_mem v s := mkTables (gdt_e s) (gdt s) v (idt s) (idtr s) (g_tss s) (r_gdtr s) (r_idtr s) (r_tr s).
Definition set_idt v s := mkTables (gdt_e s) (gdt s) (gdt_mem s) v (idtr s) (g_tss s) (r_gdtr s) (r_idtr s) (r_tr s).
Definition set_idtr v s := mkTables (gdt_e s) (gdt s) (gdt_mem s) (idt s) v (g_tss s) (r_gdtr s) (r_idtr s) (r_tr s).
Definition set_g_tss v s := mkTables (gdt_e s) (gdt s) (gdt_mem s) (idt s) (idtr s) v (r_gdtr s) (r_idtr s) (r_tr s).
Definition set_r_gdtr v s := mkTables (gdt_e s) (gdt s) (gdt_mem s) (idt s) (idtr s) (g_tss s) v (r_idtr s) (r_tr s).
Definition set_r_idtr v s := mkTables (gdt_e s) (gdt s) (gdt_mem s) (idt s) (idtr s) (g_tss s) (r_gdtr s) v (r_tr s).
Definition set_r_tr v s := mkTables (gdt_e s) (gdt s) (gdt_mem s) (idt s) (idtr s) (g_tss s) (r_gdtr s) (r_idtr s) v.

Definition null_gdt_entry : gdt_entry_t := mkGdtEntry 0 0 0 0 0 0 0.
Definition null_idt_entry : idt_entry_t := mkIdtEntry 0 0 0 0 0.
(** The zero-initialised image. *)
Definition tables_bss : tables :=
  mkTables (replicate 8 null_gdt_entry) (mkGdtPtr 0 0) (replicate 64 0) (replicate 256 null_idt_entry) (mkIdtr 0 0)
    (replicate 104 0) (mkGdtPtr 0 0) (mkIdtr 0 0) 0.

(** The addresses the linker gives: the static tables, the stubs of
    [src/boot/idt_exceptions.s] and [src/boot/irqs.s], and the handlers. *)
Class KernelText := {
  idt_addr : Z;
  g_tss_addr : Z;
  isr_stub_table : Z -> Z;
  irq_stub_table : Z -> Z;
  syscall_stub : Z;
  timer_int_addr : Z;
  keyboard_handler_addr : Z;
  rtl8139_irq_handler_addr : Z;
  text_range : forall i, 0 <= isr_stub_table i < 4294967296 /\ 0 <= irq_stub_table i < 4294967296;
  addr_range : 0 <= g_tss_addr < 4294967296 /\ 0 <= syscall_stub < 4294967296 /\ 0 <= idt_addr < 4294967296;
  handlers_distinct : NoDup [0; timer_int_addr; keyboard_handler_addr; rtl8139_irq_handler_addr]
}.

(** * Operations *)

Section Operations.
Context {ktext : KernelText}.
Notation T := (M tables).

(** The fields [gdt_set_entry] assigns: all of them. *)
Definition gdt_entry_of (base limit acc flg : Z) : gdt_entry_t :=
  mkGdtEntry
    (Z.land limit 0xFFFF)
    (Z.land base 0xFFFF)
    (Z.land (Z.shiftr base 16) 0xFF)
    acc
    (Z.land (Z.shiftr limit 16) 0x0F)
    (Z.land flg 0xF)
    (Z.land (Z.shiftr base 24) 0xFF).

(** The entry is [gdt_e[i]]. *)
Definition gdt_set_entry (i base limit acc flg : Z) : T unit :=
  l ← gets gdt_e;
  guard_or OutOfBounds (0 <= i < lenZ l);;
  modify (set_gdt_e (<[Z.to_nat i := gdt_entry_of base limit acc flg]> l)).

Definition tss_get_base : Z := g_tss_addr.

(** [lgdt] and [lidt] load the registers from the static variables. *)
Definition gdt_flush : T unit := p ← gets gdt; modify (set_r_gdtr p).
Definition load_idt : T unit := p ← gets idtr; modify (set_r_idtr p).

Definition gdt_init : T unit :=
  modify (set_gdt (mkGdtPtr (u16 (8 * GDT_SIZE - 1)) GDT_BASE));;
  gdt_set_entry 0 0 0 0 0;;
  gdt_set_entry 1 0 0xFFFFF (Z.lor GDT_KERN_ACCESS GDT_SEG_CODE) GDT_FLAGS;;
  gdt_set_entry 2 0 0xFFFFF (Z.lor GDT_KERN_ACCESS GDT_SEG_DATA) GDT_FLAGS;;
  gdt_set_entry 3 0 0xFFFFF (Z.lor GDT_KERN_ACCESS GDT_SEG_STACK) GDT_FLAGS;;
  gdt_set_entry 4 0 0xFFFFF (Z.lor GDT_USER_ACCESS GDT_SEG_CODE) GDT_FLAGS;;
  gdt_set_entry 5 0 0xFFFFF (Z.lor GDT_USER_ACCESS GDT_SEG_DATA) GDT_FLAGS;;
  gdt_set_entry 6 0 0xFFFFF (Z.lor GDT_USER_ACCESS GDT_SEG_STACK) GDT_FLAGS;;
  gdt_set_entry 7 tss_get_base (0x68 - 1) 0x89 0;;
  e ← gets gdt_e;
  modify (set_gdt_mem (concat (map gdt_bytes e)));;
  gdt_flush.

Definition idt_entry_of (isr flg : Z) : idt_entry_t :=
  mkIdtEntry (Z.land isr 0xFFFF) 0x08 0 flg (Z.land (Z.shiftr isr 16) 0xFFFF).

(** [vector] is a [uint8_t]: every one is in the table. *)
Definition idt_set (vector isr flg : Z) : T unit :=
  l ← gets idt;
  guard_or OutOfBounds (0 <= u8 vector < lenZ l);;
  modify (set_idt (<[Z.to_nat (u8 vector) := idt_entry_of isr flg]> l)).

Definition idt_init : T unit :=
  modify (set_idtr (mkIdtr (u16 (8 * 256 - 1)) idt_addr));;
  locals (for_ (span 0 32) 0 tt (fun i _ => idt_set i (isr_stub_table i) 0x8E;; mret (Cont tt)));;
  idt_set 0x80 syscall_stub 0xEE;;
  load_idt.

(** The fields of [g_tss] that [tss_init] assigns, without [esp0]. *)
Definition sizeof_tss_t : Z := 104.
Definition TSS_ESP0 : Z := 4.
Definition TSS_SS0 : Z := 8.
Definition TSS_TRAP : Z := 100.
Definition TSS_IOMAP : Z := 102.
Definition tss_clear : T unit := modify (set_g_tss (replicate (Z.to_nat sizeof_tss_t) 0)).
Definition tss_set_segments : T unit :=
  t ← gets g_tss;
  t ← st32 t TSS_SS0 GDT_SEL_KERN_DATA;
  t ← st16 t TSS_TRAP 0;
  t ← st16 t TSS_IOMAP sizeof_tss_t;
  modify (set_g_tss t).

Definition tss_load : T unit := modify (set_r_tr GDT_SEL_TSS).
End Operations.

(** * What the processor reads *)

(** A segment descriptor: the 8 bytes at [o]. *)
Record segment : Type := mkSegment {
  sg_base : Z;
  sg_limit : Z;
  sg_present : bool;
  sg_dpl : Z;
  sg_system : bool;
  sg_type : Z;
  sg_32bit : bool
}.
Definition segment_at (m : list Z) (o : Z) : segment :=
  let limit := le16 m o + 65536 * (rd m (o + 6) mod 16) in
  mkSegment (le16 m (o + 2) + 65536 * rd m (o + 4) + 16777216 * rd m (o + 7))
    (if Z.testbit (rd m (o + 6)) 7 then 4096 * limit + 4095 else limit)
    (Z.testbit (rd m (o + 5)) 7)
    (rd m (o + 5) / 32 mod 4)
    (negb (Z.testbit (rd m (o + 5)) 4))
    (rd m (o + 5) mod 16)
    (Z.testbit (rd m (o + 6)) 6).

(** The descriptor a selector names: its low three bits are not an index. *)
Definition selected (s : tables) (sel : Z) : option segment :=
  let o := 8 * (sel / 8) in
  if (gdt_base (r_gdtr s) =? GDT_BASE) && (o + 7 <=? gdt_limit (r_gdtr s)) then Some (segment_at (gdt_mem s) o) else None.

(** A gate of the interrupt table. *)
Record gate : Type := mkGate {
  gt_offset : Z;
  gt_selector : Z;
  gt_present : bool;
  gt_dpl : Z;
  gt_type : Z
}.
Definition gate_at (m : list Z) (o : Z) : gate :=
  mkGate (le16 m o + 65536 * le16 m (o + 6)) (le16 m (o + 2)) (Z.testbit (rd m (o + 5)) 7)
    (rd m (o + 5) / 32 mod 4) (rd m (o + 5) mod 32).
Definition vector_gate (s : tables) (v : Z) : gate :=
  gate_at (idt_bytes (nth (Z.to_nat v) (idt s) null_idt_entry)) 0.

(** [int v] from ring 3 enters the gate. *)
Definition user_callable (g : gate) : bool := gt_present g && (3 <=? gt_dpl g).

(** * Encoding and decoding *)

Lemma lo_hi v : 0 <= v < 65536 -> lo8 v + 256 * hi8 v = v.
Proof. unfold lo8, hi8. intros. rewrite (Z.mod_small (v / 256)) by word_lia. word_lia. Qed.

Lemma land_mask v n : 0 <= n -> Z.land v (Z.ones n) = v mod 2 ^ n.
Proof. intros. by apply Z.land_ones. Qed.

(** A shift followed by a mask of [n] bits. *)
Lemma field v k n : 0 <= k -> 0 <= n -> Z.land (Z.shiftr v k) (Z.ones n) = v / 2 ^ k mod 2 ^ n.
Proof. intros. by rewrite land_mask, Z.shiftr_div_pow2. Qed.

Lemma le16_bytes a b l : le16 (a :: b :: l) 0 = a + 256 * b.
Proof. done. Qed.

Lemma idt_entry_decodes isr flg : 0 <= isr < 4294967296 ->
  gate_at (idt_bytes (idt_entry_of isr flg)) 0 = mkGate isr 0x08 (Z.testbit flg 7) (flg / 32 mod 4) (flg mod 32).
Proof.
  intros Hi. unfold idt_entry_of, gate_at, idt_bytes. cbn [isr_low kernel_cs reserved attributes isr_high].
  assert (Hl : Z.land isr 0xFFFF = isr mod 65536) by exact (land_mask isr 16 ltac:(lia)).
  assert (Hh : Z.land (Z.shiftr isr 16) 0xFFFF = isr / 65536 mod 65536) by exact (field isr 16 16 ltac:(lia) ltac:(lia)).
  rewrite Hl, Hh. f_equal.
  - change (lo8 (isr mod 65536) + 256 * hi8 (isr mod 65536) +
      65536 * (lo8 (isr / 65536 mod 65536) + 256 * hi8 (isr / 65536 mod 65536)) = isr).
    rewrite !lo_hi by word_lia. word_lia.
Qed.

Lemma gdt_entry_decodes base limit acc flg :
  0 <= base < 4294967296 -> 0 <= limit < 1048576 -> 0 <= flg < 16 ->
  segment_at (gdt_bytes (gdt_entry_of base limit acc flg)) 0 =
  mkSegment base (if Z.testbit flg 3 then 4096 * limit + 4095 else limit) (Z.testbit acc 7) (acc / 32 mod 4)
    (negb (Z.testbit acc 4)) (acc mod 16) (Z.testbit flg 2).
Proof.
  intros Hb Hl Hf.
  assert (Hb0 : Z.land base 0xFFFF = base mod 65536) by exact (land_mask base 16 ltac:(lia)).
  assert (Hb1 : Z.land (Z.shiftr base 16) 0xFF = base / 65536 mod 256) by exact (field base 16 8 ltac:(lia) ltac:(lia)).
  assert (Hb2 : Z.land (Z.shiftr base 24) 0xFF = base / 16777216 mod 256) by exact (field base 24 8 ltac:(lia) ltac:(lia)).
  assert (Hl0 : Z.land limit 0xFFFF = limit mod 65536) by exact (land_mask limit 16 ltac:(lia)).
  assert (Hl1 : Z.land (Z.shiftr limit 16) 0x0F = limit / 65536 mod 16) by exact (field limit 16 4 ltac:(lia) ltac:(lia)).
  assert (Hf0 : Z.land flg 0xF = flg)
    by (transitivity (flg mod 16); [exact (land_mask flg 4 ltac:(lia)) | by apply Z.mod_small]).
  set (hi := limit / 65536 mod 16) in *.
  assert (Hhi : 0 <= hi < 16) by (apply Z.mod_pos_bound; lia).
  assert (Hbit : forall k, 0 <= k -> Z.testbit (hi + 16 * flg) (4 + k) = Z.testbit flg k).
  { intros k Hk. replace flg with ((hi + 16 * flg) / 2 ^ 4) at 2 by (change (2 ^ 4) with 16; word_lia).
    rewrite Z.div_pow2_bits by lia. f_equal. lia. }
  unfold gdt_entry_of, segment_at, gdt_bytes. cbn [limit_low base_low base_middle access limit_high flags base_high].
  rewrite Hb0, Hb1, Hb2, Hl0, Hl1, Hf0. cbv beta zeta.
  change (rd _ (0 + 6)) with (hi + 16 * flg). change (rd _ (0 + 5)) with acc.
  change (rd _ (0 + 4)) with (base / 65536 mod 256). change (rd _ (0 + 7)) with (base / 16777216 mod 256).
  change 7 with (4 + 3) at 1. change 6 with (4 + 2) at 1. rewrite (Hbit 3), (Hbit 2) by lia.
  change (le16 _ (0 + 2)) with (lo8 (base mod 65536) + 256 * hi8 (base mod 65536)).
  change (le16 _ 0) with (lo8 (limit mod 65536) + 256 * hi8 (limit mod 65536)).
  rewrite !lo_hi by word_lia.
  replace (limit mod 65536 + 65536 * ((hi + 16 * flg) mod 16)) with limit by (subst hi; word_lia).
  f_equal. word_lia.
Qed.
