(* ===== verification/Machine.v ===== *)
(** The kernel as the shell sees it: the state of every component in one
    record, and the lifting of their operations.

    The console (terminal, keyboard and command history), the mounted file
    systems, the network, the user tasks and the editors are the records of
    their own files; the devices reached only through ports (clock,
    keyboard controller, power management) and the processor's registers are
    parameters. *)
From Stdlib Require Import ZArith Lia List String.
From stdpp Require Import base tactics numbers list gmap strings option.
From S2P Require Import Prelude Pmm Vmm Heap CString Sched UserTask Bytes Ata Disk Ext2 Vfs NetState Net Fbcon Term Printk Keyboard Readline Text TextBuf ViState.
Open Scope Z_scope.

(** What the shell reads of the processor:
    - [cpuid leaf]: the registers eax, ebx, ecx and edx;
    - [gdtr], [idtr]: the limit and the base the instructions store;
    - [frame_pointer]: the register ebp in [print_stack];
    - [peek a]: the byte at the address [a] of the kernel. *)
Class Cpu := {
  cpuid : Z -> Z * Z * Z * Z;
  gdtr : Z * Z;
  idtr : Z * Z;
  frame_pointer : Z;
  peek : Z -> Z;
  peek_byte : forall a, 0 <= peek a < 256
}.

(** The state of [nano]. *)
Record nano : Type := mkNano {
  n_text : textbuf;
  nano_scroll : Z;
  nano_scroll_x : Z;
  nano_fname : list Z;
  nano_status : list Z
}.
Definition set_n_text v (s : nano) := mkNano v (nano_scroll s) (nano_scroll_x s) (nano_fname s) (nano_status s).
Definition set_n_scroll v (s : nano) := mkNano (n_text s) v (nano_scroll_x s) (nano_fname s) (nano_status s).
Definition set_n_scroll_x v (s : nano) := mkNano (n_text s) (nano_scroll s) v (nano_fname s) (nano_status s).
Definition set_n_fname v (s : nano) := mkNano (n_text s) (nano_scroll s) (nano_scroll_x s) v (nano_status s).
Definition set_n_status v (s : nano) := mkNano (n_text s) (nano_scroll s) (nano_scroll_x s) (nano_fname s) v.

(** The state of the USB code: the tables of devices and controllers, the frame
    list and the words of the pool the descriptors are taken from. *)
Record usb_endpoint_t : Type := mkUsbEp {
  ep_addr : Z;
  ep_attributes : Z;
  ep_max_packet : Z;
  ep_interval : Z;
  ep_in_use : Z
}.
Record usb_interface_t : Type := mkUsbIface {
  i_class : Z;
  i_subclass : Z;
  i_protocol : Z;
  num_endpoints : Z;
  endpoints : list usb_endpoint_t
}.
Record usb_device_t : Type := mkUsbDev {
  ud_in_use : Z;
  ud_address : Z;
  ud_port : Z;
  ud_speed : Z;
  ud_slot : Z;
  ud_func : Z;
  ep0_max_packet : Z;
  vendor_id : Z;
  product_id : Z;
  device_class : Z;
  num_configs : Z;
  num_interfaces : Z;
  interfaces : list usb_interface_t
}.
Record uhci_controller_t : Type := mkUhci { io_base : Z; uhci_irq : Z; uhci_initialized : Z }.
Record ehci_controller_t : Type := mkEhci { phys_base : Z; ehci_irq : Z; ehci_initialized : Z }.
Record usb : Type := mkUsb {
  usb_devices : list usb_device_t;
  usb_device_count : Z;
  uhci_ctrls : list uhci_controller_t;
  uhci_ctrl_count : Z;
  ehci_ctrls : list ehci_controller_t;
  ehci_ctrl_count : Z;
  uhci_frame_list : list Z;
  uhci_pool : Z;
  uhci_pool_size : Z;
  setup_packet : list Z;
  pool_words : gmap Z Z;
  usb_initialized : Z
}.

Record machine (P K D H N R : Type) : Type := mkMachine {
  con : console P K;
  fs : vfs D H;
  nt : net N;
  tasks : utask;
  pio : R;
  ed : nano;
  ub : usb;
  ved : vi
}.
Arguments mkMachine {P K D H N R} _ _ _ _ _ _ _ _.
Arguments con {P K D H N R} _.
Arguments fs {P K D H N R} _.
Arguments nt {P K D H N R} _.
Arguments tasks {P K D H N R} _.
Arguments pio {P K D H N R} _.
Arguments ed {P K D H N R} _.
Arguments ub {P K D H N R} _.
Arguments ved {P K D H N R} _.

Section Lift.
Context {P K D H N R : Type} `{Ports P}.
Notation Mach := (machine P K D H N R).
Notation C := (M Mach).
Implicit Types s : Mach.

Definition set_con v s : Mach := mkMachine v (fs s) (nt s) (tasks s) (pio s) (ed s) (ub s) (ved s).
Definition set_fs v s : Mach := mkMachine (con s) v (nt s) (tasks s) (pio s) (ed s) (ub s) (ved s).
Definition set_nt v s : Mach := mkMachine (con s) (fs s) v (tasks s) (pio s) (ed s) (ub s) (ved s).
Definition set_tasks v s : Mach := mkMachine (con s) (fs s) (nt s) v (pio s) (ed s) (ub s) (ved s).
Definition set_pio v s : Mach := mkMachine (con s) (fs s) (nt s) (tasks s) v (ed s) (ub s) (ved s).
Definition set_ed v s : Mach := mkMachine (con s) (fs s) (nt s) (tasks s) (pio s) v (ub s) (ved s).
Definition set_ub v s : Mach := mkMachine (con s) (fs s) (nt s) (tasks s) (pio s) (ed s) v (ved s).
Definition set_ved v s : Mach := mkMachine (con s) (fs s) (nt s) (tasks s) (pio s) (ed s) (ub s) v.

Definition on_con {A} (m : M (console P K) A) : C A := zoom con set_con m.
Definition on_fs {A} (m : M (vfs D H) A) : C A := zoom fs set_fs m.
Definition on_net {A} (m : M (net N) A) : C A := zoom nt set_nt m.
Definition on_tasks {A} (m : M utask A) : C A := zoom tasks set_tasks m.
Definition on_ed {A} (m : M nano A) : C A := zoom ed set_ed m.
Definition on_vi {A} (m : M vi A) : C A := zoom ved set_ved m.
Definition on_scr {A} (m : M (term P) A) : C A := on_con (on_term m).
Definition on_vmm {A} (m : M vmm A) : C A := on_tasks (vm m).
Definition on_text {A} (m : M textbuf A) : C A := on_ed (zoom n_text set_n_text m).

(** [printk(format, ...)]; its result is not used. *)
Definition say (format : string) (ap : list pk_arg) : C unit := on_scr (printk (text format) ap);; mret tt.
Definition str (l : list Z) : pk_arg := PkStr (Some l).

Definition cwd : C (list Z) := gets (fun s => g_cwd (con s)).
Definition color : C Z := gets (fun s => t_color (scr (con s))).
Definition set_color (fg bg : Z) : C unit := on_scr (term_setcolor (vga_entry_color fg bg)).

(** [argv[i]]: the words are pointers into the line. *)
Definition arg (argv : list (list Z)) (i : Z) : C (list Z) :=
  guard_or Indeterminate (0 <= i < lenZ argv);;
  mret (nth (Z.to_nat i) argv []).

(** [strcmp(s, "...") == 0] *)
Definition str_is (s : list Z) (t : string) : C bool := d ← strcmp s (text t); mret (d =? 0).
End Lift.
