(* ===== verification/MachineDemo.v ===== *)
(** A machine for the examples: the demonstration file system mounted on "/",
    the demonstration network, an 80x25 text screen, a silent keyboard. *)
From Stdlib Require Import ZArith Lia List String.
From stdpp Require Import base tactics numbers list gmap strings option.
From S2P Require Import Prelude Pmm Vmm Heap CString Sched UserTask Bytes Ata Disk Ext2 Ext2Demo Vfs VfsFacts NetState Net NetDemo Fbcon Term Printk Keyboard Readline Text TextBuf ViState Machine.
Open Scope Z_scope.

#[export] Instance silent_keyboard : KbdHw unit := {| irq1 := fun k => (false, k) |}.

Definition demo_console : console unit unit :=
  mkConsole (mkTerm tt (replicate (Z.to_nat VGA_CELLS) 0) (replicate 8000 0) 0 (mkFb 0 0 0 0 32 0 ∅) VgaMemory
    0 0 7 VGA_WIDTH VGA_HEIGHT) (mkKbd tt 0 0 0 0 0 0 0 0) 0 (replicate 64 (replicate 64 0)) 0 0
    ([47] ++ replicate 255 0).

(** An empty editor. *)
Definition demo_text : textbuf := mkText (replicate (Z.to_nat MAX_LINES) (replicate (Z.to_nat MAX_COL) 0)) 1 0 0 0.
Definition demo_nano : nano := mkNano demo_text 0 0 (replicate 128 0) (replicate 80 0).

Definition demo_vi : vi := mkVi demo_text (fun _ => 0) (fun x =>
  replicate match x with
            | vi_fname => 128
            | vi_status | vi_msg => 80
            | vi_yank_buf => 4096
            | vi_undo_line | vi_redo_line => 160
            | _ => 64
            end 0).

Definition demo_usb : usb := mkUsb [] 0 [] 0 [] 0 [] 0 0 (replicate 8 0) ∅ 0.

Definition demo_machine : machine unit unit ramdisk Z unit unit :=
  mkMachine demo_console demo_vfs demo_net demo_utask tt demo_nano demo_usb demo_vi.
