(* ===== verification/SayFacts.v ===== *)
(** What a message of the kernel leaves on the screen: [printk] seen from the
    machine, for the clients of the console. *)
From Stdlib Require Import ZArith Lia List String.
From stdpp Require Import base tactics numbers list gmap strings option.
From S2P Require Import VfsFacts NetDemo Prelude Pmm Vmm Heap CString Sched UserTask Bytes Ata Disk Ext2 Vfs NetState Net Fbcon Term TermFacts Printk PrintkFacts Keyboard Readline Text TextBuf ViState Machine MachineDemo.
Open Scope Z_scope.

Lemma tty_write_app W Ht c a b t : tty_write W Ht c (a ++ b) t = tty_write W Ht c a t ≫= tty_write W Ht c b.
Proof. revert t. induction a as [|x a IH]; intros t; [done|]. simpl. destruct (tty_putc W Ht c x t); simpl; [apply IH | done]. Qed.

Lemma tty_write_split W Ht c a b t t' : tty_write W Ht c (a ++ b) t = Some t' ->
  exists t1, tty_write W Ht c a t = Some t1 /\ tty_write W Ht c b t1 = Some t'.
Proof. rewrite tty_write_app. intros (t1 & Ha & Hb)%bind_Some. by exists t1. Qed.

Lemma tty_write_default W Ht c w t : forallb (fun c => negb (c =? 9)) w = true ->
  tty_write W Ht c w t = Some (default t (tty_write W Ht c w t)).
Proof.
  intros Hw. destruct (tty_write_total W Ht c w t) as [t' ->]; [|done].
  apply List.Forall_forall. intros x Hx. rewrite forallb_forall in Hw. specialize (Hw x Hx). by bprop.
Qed.

Section Output.
Context {P K D H N R : Type} `{Ports P}.
Notation Mach := (machine P K D H N R).
Implicit Types s : Mach.

Definition screen_of s : term P := scr (con s).
Definition with_screen (v : term P) s : Mach := set_con (set_scr v (con s)) s.

Lemma wp_on_scr {A} (m : M (term P) A) (Q : A -> Mach -> Prop) s :
  wp m (fun a v => Q a (with_screen v s)) (screen_of s) -> wp (on_scr m) Q s.
Proof. intros Hm. unfold on_scr, on_con, on_term. wp_step. wp_step. exact Hm. Qed.

Lemma with_screen_id s : with_screen (screen_of s) s = s.
Proof. by destruct s as [[] ? ? ? ? ? ? ?]. Qed.

(** A message appears on the screen. *)
Lemma wp_say W Ht t t' format ap w (Q : unit -> Mach -> Prop) s :
  terminated (text format) -> Forall arg_ok ap -> pk_text (cstr (text format)) ap = Some w -> lenZ w < PRINTK_BUFF_LEN ->
  shows W Ht t (screen_of s) -> tty_write W Ht (t_color (screen_of s)) w t = Some t' ->
  (forall v, shows W Ht t' v -> kept (screen_of s) v -> Q tt (with_screen v s)) -> wp (say format ap) Q s.
Proof.
  intros Hf Hok Hw Hl Hs Ht' HQ. unfold say. wp_step. apply wp_on_scr. eapply wp_printk; [done..|].
  intros v Hv Hk. wp_step. by apply HQ.
Qed.
End Output.

(** * The length of numerals *)

Lemma length_digits fuel b k n : 2 <= b -> 0 <= n < b ^ Z.of_nat (S k) -> (Datatypes.length (digits fuel b n) <= S k)%nat.
Proof.
  intros Hb. revert k n. induction fuel as [|fuel IH]; intros k n Hn; cbn [digits]; [simpl; lia|].
  destruct (Z.ltb_spec n b); [simpl; lia|]. rewrite length_app. cbn [length].
  destruct k as [|k]; [rewrite pow_succ in Hn; change (b ^ Z.of_nat 0) with 1 in Hn; lia|].
  specialize (IH k (n / b)). rewrite pow_succ in Hn.
  assert (H0 : 0 <= n / b < b ^ Z.of_nat (S k)) by (split; [apply Z.div_pos; lia | apply Z.div_lt_upper_bound; lia]).
  specialize (IH H0). rewrite Nat.add_1_r. lia.
Qed.

Lemma lenZ_hex n : 0 <= n < 4294967296 -> lenZ (num_text 16 n) <= 8.
Proof. intros Hn. unfold lenZ, num_text. rewrite length_map. pose proof (length_digits 65 16 7 n ltac:(lia) Hn). lia. Qed.

Lemma lenZ_dec n : 0 <= n < 4294967296 -> lenZ (num_text 10 n) <= 10.
Proof.
  intros Hn. unfold lenZ, num_text. rewrite length_map.
  pose proof (length_digits 65 10 9 n ltac:(lia) ltac:(change (10 ^ Z.of_nat 10) with 10000000000; lia)). lia.
Qed.

Lemma lenZ_int_text n : -2147483648 <= n < 2147483648 -> lenZ (int_text n) <= 11.
Proof.
  intros Hn. unfold int_text, lenZ. rewrite length_app, Nat2Z.inj_add. pose proof (lenZ_dec (Z.abs n) ltac:(lia)) as Hd.
  unfold lenZ in Hd. destruct (n <? 0); simpl; lia.
Qed.

(** * The screen of the examples *)

Lemma demo_screen : exists s0, term_init (screen_of demo_machine) = Ok tt s0 /\
  shows VGA_WIDTH VGA_HEIGHT (tty_blank 7) s0 /\ t_color s0 = 7 /\ lenZ (cells s0) = VGA_CELLS.
Proof. apply wp_unit, wp_term_init; [done | by vm_compute | done]. Qed.

