(* ===== verification/HistoryFacts.v ===== *)
(** Correctness of the command history: the array of lines is the list of the
    recorded lines. *)
From Stdlib Require Import ZArith Lia List.
From stdpp Require Import base tactics numbers list gmap strings option.
From S2P Require Import Prelude CString Bytes Buffer Ata Fbcon Term Printk Keyboard Readline MachineDemo.
Open Scope Z_scope.

Definition LINE_MAX : Z := 63.

Definition last_line (hist : list (list Z)) : option (list Z) := hist !! Nat.pred (length hist).

(** What recording a line does to the list: a line equal to the last one, an
    empty line, and any line once there are 64 are not added; a line is cut to
    63 characters. *)
Definition record (hist : list (list Z)) (line : list Z) : list (list Z) :=
  if decide (line = []) then hist
  else if decide (last_line hist = Some line) then hist
  else if lenZ hist <? HIST_MAX then hist ++ [take (Z.to_nat LINE_MAX) line] else hist.

Section History.
Context {P K : Type}.
Implicit Types c : console P K.

Definition hrow c (i : Z) : list Z := nth (Z.to_nat i) (s_hist c) [].

Definition history (hist : list (list Z)) c : Prop :=
  s_hist_count c = lenZ hist /\ lenZ hist <= HIST_MAX /\ lenZ (s_hist c) = HIST_MAX /\
  (forall i, 0 <= i < HIST_MAX -> lenZ (hrow c i) = 64 /\ bytes (hrow c i)) /\
  forall i, 0 <= i < lenZ hist -> holds (hrow c i) (nth (Z.to_nat i) hist []).

Lemma wp_hist_row i (Q : list Z -> console P K -> Prop) c :
  lenZ (s_hist c) = HIST_MAX -> 0 <= i < HIST_MAX -> Q (hrow c i) c -> wp (hist_row i) Q c.
Proof.
  intros Hl Hi HQ. unfold hist_row. wp_step. wp_step. unfold hrow in HQ. rewrite nth_lookup in HQ.
  destruct (s_hist c !! Z.to_nat i) as [l|] eqn:E; [|apply lookup_ge_None in E; unfold lenZ in *; lia].
  destruct (Z.leb_spec 0 i); [|lia]. by wp_step.
Qed.

(** Copying a line into a row. *)
Lemma wp_copy_line line t row (Q : Z * list Z + Empty_set -> console P K -> Prop) c :
  holds line t -> lenZ row = 64 ->
  (forall r, lenZ r = 64 -> (bytes row -> bytes line -> bytes r) -> (forall j, 0 <= j < Z.min LINE_MAX (lenZ t) -> rd r j = rd t j) ->
     Q (inl (Z.min LINE_MAX (lenZ t), r)) c) ->
  wp (while_ 64 (0, row) (fun '(i, row) =>
    c ← aget line i;
    if negb (c =? 0) && (i <? 63) then
      row ← aset row i c;
      mret (Cont (i + 1, row))
    else mret (Brk (i, row)))) Q c.
Proof.
  intros (Hl & Hn & Hr & Hz) Hrow HQ. pose proof (lenZ_nonneg t). unfold LINE_MAX in *.
  apply (wp_while (fun '(i, r) c' => c' = c /\ 0 <= i <= Z.min 63 (lenZ t) /\ lenZ r = 64 /\ (bytes row -> bytes line -> bytes r) /\
      forall j, 0 <= j < i -> rd r j = rd t j) (fun '(i, _) _ => Z.to_nat (63 - i))).
  - split; [done|]. split; [lia|]. split; [done|]. split; [done | lia].
  - lia.
  - intros [i r] c' (-> & Hi & Hlr & Hb & Hrr). wp_step. apply wp_aget; [lia|].
    assert (Hstop : forall b : bool, negb (rd line i =? 0) && (i <? 63) = b -> b = false -> i = Z.min 63 (lenZ t)).
    { intros b <- Hb0. apply andb_false_iff in Hb0 as [Hc|Hc]; [|bprop; lia]. bprop.
      destruct (decide (i = lenZ t)); [lia|]. pose proof (Forall_rd _ _ i Hn ltac:(lia)) as Hnz. simpl in Hnz. by rewrite <- Hr in Hnz by lia. }
    destruct (negb (rd line i =? 0) && (i <? 63)) eqn:E.
    + apply andb_true_iff in E as [E1 E2]. bprop. assert (i < lenZ t).
      { destruct (decide (i < lenZ t)); [done|]. replace i with (lenZ t) in E1 by lia. by rewrite Hz in E1. }
      wp_step. apply wp_aset; [lia|]. wp_step. split; [|lia]. split; [done|]. split; [lia|]. split; [by rewrite lenZ_wr|].
      split; [intros Hb1 Hb2; apply bytes_wr; [by apply Hb | apply Hb2]|].
      intros j Hj. rewrite rd_wr by lia. case_range; [subst; apply Hr; lia | apply Hrr; lia].
    + wp_step. rewrite (Hstop false eq_refl eq_refl) in *. by apply HQ.
Qed.

Lemma hrow_insert c n row i : 0 <= n < lenZ (s_hist c) -> 0 <= i ->
  nth (Z.to_nat i) (<[Z.to_nat n := row]> (s_hist c)) [] = if i =? n then row else hrow c i.
Proof.
  intros Hn Hi. unfold hrow, lenZ in *. rewrite !nth_lookup. destruct (Z.eqb_spec i n) as [->|].
  - by rewrite list_lookup_insert_eq by lia.
  - by rewrite list_lookup_insert_ne by lia.
Qed.

(** C18: The history is the list of the recorded lines.  Recording a line appends
    it, cut to 63 characters, unless it is empty, equals the last one, or 64
    lines are recorded already; after that the position is behind the last
    line, and nothing else of the console changes.  The [i]th entry is the
    [i]th recorded line. *)
Theorem shell_record_refines hist line t c : history hist c -> holds line t -> bytes line ->
  (exists c', shell_record line c = Ok tt c' /\ history (record hist t) c' /\
     (t <> [] -> s_hist_pos c' = lenZ (record hist t)) /\
     scr c' = scr c /\ kb c' = kb c /\ g_base_cell c' = g_base_cell c /\ g_cwd c' = g_cwd c) /\
  forall i, 0 <= i -> exists r, shell_history_get i c = Ok r c /\
    match r with Some row => exists l, hist !! Z.to_nat i = Some l /\ holds row l | None => lenZ hist <= i end.
Proof.
  intros Hh Ht Hb. pose proof Hh as (Hn & Hmax & Hlh & Hrows & Hhold). pose proof (lenZ_nonneg hist). split.
  - apply wp_unit. unfold shell_record. wp_step. eapply wp_strlen_holds; [exact Ht|].
    destruct (Z.eqb_spec (lenZ t) 0) as [He|Hne].
    { wp_step. assert (t = []) as -> by (destruct t; [done | unfold lenZ in He; simpl in He; lia]). by split_and!. }
    assert (Htne : t <> []) by (intros ->; by apply Hne). unfold record. rewrite decide_False by done.
    do 2 wp_step. rewrite Hn.
    set (Q := fun (_ : unit) c' => history (if decide (last_line hist = Some t) then hist
      else if lenZ hist <? HIST_MAX then hist ++ [take (Z.to_nat LINE_MAX) t] else hist) c' /\
      (t <> [] -> s_hist_pos c' = lenZ (if decide (last_line hist = Some t) then hist
      else if lenZ hist <? HIST_MAX then hist ++ [take (Z.to_nat LINE_MAX) t] else hist)) /\
      scr c' = scr c /\ kb c' = kb c /\ g_base_cell c' = g_base_cell c /\ g_cwd c' = g_cwd c).
    wp_step. eapply (wp_mono _ (fun differs c' => c' = c /\ differs = negb (bool_decide (last_line hist = Some t)))).
    + intros differs c' [-> ->]. wp_step.
      assert (Hsame : (last_line hist = Some t \/ HIST_MAX <= lenZ hist) -> wp (mret tt) (fun a => wp (modify (fun s => set_s_hist_pos (s_hist_count s) s)) Q) c).
      { intros Hor. do 2 wp_step. unfold Q. destruct (decide (last_line hist = Some t)); [by split_and!|].
        destruct (Z.ltb_spec (lenZ hist) HIST_MAX); [destruct Hor; [done | lia] | by split_and!]. }
      destruct (bool_decide_reflect (last_line hist = Some t)) as [Hlast|Hlast]; [by apply Hsame; left|]. simpl.
      destruct (Z.ltb_spec (lenZ hist) HIST_MAX) as [Hroom|]; [|by apply Hsame; right].
      wp_step. apply wp_hist_row; [done | lia|]. destruct (Hrows (lenZ hist) ltac:(lia)) as [Hl64 Hb64].
      wp_step. apply wp_locals. eapply wp_copy_line; [exact Ht | done|]. intros r Hlr Hbr Hrr. cbn [fst snd].
      set (k := Z.min LINE_MAX (lenZ t)) in *. assert (0 <= k <= 63) by (unfold k, LINE_MAX; pose proof (lenZ_nonneg t); lia).
      wp_step. apply wp_aset; [lia|]. do 4 wp_step. unfold Q. rewrite decide_False by done.
      destruct (Z.ltb_spec (lenZ hist) HIST_MAX); [|lia]. assert (Hlen1 : lenZ (hist ++ [take (Z.to_nat LINE_MAX) t]) = lenZ hist + 1) by (by rewrite lenZ_app).
      cbn. rewrite Hlen1. split; [|by split_and!].
      split; [done|]. rewrite Hlen1. split; [lia|]. split; [unfold lenZ; simpl; by rewrite length_insert|].
      unfold hrow. simpl. split; intros i Hi; rewrite hrow_insert by lia.
      * destruct (i =? lenZ hist); [|by apply Hrows]. split; [by rewrite lenZ_wr|]. apply bytes_wr; [by apply Hbr | lia].
      * destruct (Z.eqb_spec i (lenZ hist)) as [->|].
        -- rewrite app_nth2 by (unfold lenZ; lia). replace (Z.to_nat (lenZ hist) - _)%nat with 0%nat by (unfold lenZ; lia). simpl.
           destruct Ht as (_ & Hnz & _). assert (Hlt : lenZ (take (Z.to_nat LINE_MAX) t) = k) by (unfold k, lenZ, LINE_MAX; rewrite length_take; lia).
           split; [rewrite lenZ_wr; lia|]. split; [by apply Forall_take|]. rewrite Hlt. split; [|apply rd_wr_eq; lia].
           intros j Hj. rewrite rd_wr_ne, Hrr, rd_take by (unfold k, LINE_MAX in *; lia). done.
        -- rewrite app_nth1 by (unfold lenZ in *; lia). apply Hhold. lia.
    + destruct (Z.eqb_spec (lenZ hist) 0) as [He|].
      { wp_step. split; [done|]. assert (hist = []) as -> by (destruct hist; [done | unfold lenZ in He; simpl in He; lia]). done. }
      wp_step. apply wp_hist_row; [done | lia|]. wp_step. destruct (Hrows (lenZ hist - 1) ltac:(lia)) as [_ Hb64].
      eapply wp_strcmp_holds; [apply Hhold; lia | exact Ht | done | done|]. intros v Hv. wp_step. split; [done|]. f_equal.
      assert (Hl : last_line hist = Some (nth (Z.to_nat (lenZ hist - 1)) hist [])).
      { unfold last_line. replace (Nat.pred _) with (Z.to_nat (lenZ hist - 1)) by (unfold lenZ; lia). rewrite nth_lookup.
        destruct (hist !! Z.to_nat (lenZ hist - 1)) eqn:E; [done|]. apply lookup_ge_None in E. unfold lenZ in *. lia. }
      rewrite Hl. destruct (Z.eqb_spec v 0); symmetry; [apply bool_decide_true; f_equal; tauto | apply bool_decide_false].
      intros [= Heq]. tauto.
  - intros i Hi. enough (Hw : wp (shell_history_get i) (fun r c' => c' = c /\
      match r with Some row => exists l, hist !! Z.to_nat i = Some l /\ holds row l | None => lenZ hist <= i end) c).
    { apply wp_ok in Hw as (r & c' & Heq & -> & Hr). eauto. }
    unfold shell_history_get. do 2 wp_step. rewrite Hn. destruct (Z.ltb_spec i (lenZ hist)).
    + wp_step. apply wp_hist_row; [done | lia|]. wp_step. split; [done|]. exists (nth (Z.to_nat i) hist []). split; [|apply Hhold; lia].
      rewrite nth_lookup. destruct (hist !! Z.to_nat i) eqn:E; [done|]. apply lookup_ge_None in E. unfold lenZ in *. lia.
    + wp_step. by split.
Qed.
End History.

(** * Examples *)

Lemma demo_history : history [] demo_console.
Proof.
  split; [done|]. split; [by vm_compute|]. split; [by vm_compute|]. split; intros i Hi; [|unfold lenZ in Hi; simpl in Hi; lia].
  assert (Hrow : hrow demo_console i = replicate 64 0).
  { unfold hrow. rewrite nth_lookup. change (s_hist demo_console) with (replicate 64 (replicate 64 0)).
    by rewrite lookup_replicate_2 by (unfold HIST_MAX in *; lia). }
  rewrite Hrow. split; [done | by apply bytes_by_compute].
Qed.

Lemma shell_record_refines_witness : exists c', shell_record [108; 115; 0] demo_console = Ok tt c' /\ history [[108; 115]] c' /\
  s_hist_pos c' = 1.
Proof.
  assert (Ht : holds [108; 115; 0] [108; 115]) by (apply (holds_of_app [108; 115] []); by repeat constructor).
  assert (Hb : bytes [108; 115; 0]) by (by apply bytes_by_compute).
  destruct (shell_record_refines [] [108; 115; 0] [108; 115] demo_console demo_history Ht Hb) as [(c' & He & Hh & Hp & _) _].
  exists c'. split; [exact He|]. split; [exact Hh | exact (Hp ltac:(discriminate))].
Defined.
