(* ===== verification/Commands.v ===== *)
(** The commands of the shell: [src/kernel/shell/commands.c], with the banner of
    [src/kernel/shell/shell.c] and [sleep] of
    [src/kernel/arch/system_timer.c].

    A command takes [argc] and the words of the line and prints on the
    terminal; every one returns 0.  A value that is printed twice from a
    volatile variable is read in the order the text shows. *)
From Stdlib Require Import ZArith Lia List String.
From stdpp Require Import base tactics numbers list gmap strings option.
From S2P Require Import Prelude Pmm Vmm Heap CString Sched UserTask Bytes Ata Disk Ext2 Vfs NetState Net Fbcon Term Printk Keyboard Readline Text TextBuf Paths Machine.
Open Scope Z_scope.

Definition VFS_O_READ : Z := 1.
Definition VFS_O_WRITE : Z := 2.

(** The drives a block device is made of, for [df]. *)
Class DriveTable (D : Type) := drives : D -> list ata_device_t.
#[export] Instance ata_drives {P} : DriveTable (ata P) := ata_devices.

Section Commands.
Context {P K D H N R : Type} `{Ports P, KbdHw K, BlockDevice D, DriveTable D, KernelHeap H, NicHw N, Ports R}
  `{Cpu, Locals, KernelLayout, SchedLayout, UserBinary}.
Notation C := (M (machine P K D H N R)).

(** [rtl8139_poll] with all it causes, and the rounds of a loop that waits for
    an interrupt. *)
Variable poll : M (net N) unit.
Variable fuel : nat.

(** [for (i = lo; i < hi; i++) body] *)
Definition each (lo hi : Z) (body : Z -> C unit) : C unit :=
  locals (for_ (span lo hi) lo tt (fun i _ => body i;; mret (Cont tt))).
(** The same for a body that may return. *)
Definition each_until (lo hi : Z) (body : Z -> C (option Z)) : C (option Z) :=
  r ← for_ (span lo hi) lo tt (fun i _ =>
    r ← body i;
    match r with Some v => mret (Ret v) | None => mret (Cont tt) end);
  match r with inl _ => mret None | inr v => mret (Some v) end.

Definition ticks_now : C Z := on_net NetState.timer_ticks.
Definition on_pio {A} (m : M R A) : C A := zoom pio set_pio m.
Definition pio_inb (p : Z) : C Z := on_pio (fun d => let '(v, d) := port_inb (u16 p) d in Ok (u8 v) d).
Definition pio_outb (p v : Z) : C unit := on_pio (modify (port_outb (u16 p) (u8 v))).

(** * Output *)

Definition cmd_clear (argc : Z) (argv : list (list Z)) : C Z := on_scr term_clear;; mret 0.

Definition cmd_history (argc : Z) (argv : list (list Z)) : C Z :=
  n ← on_con shell_history_count;
  if n =? 0 then say "No history.\n" [];; mret 0
  else
    each 0 n (fun i =>
      l ← on_con (shell_history_get (n - 1 - i));
      say "  %d  %s\n" [Pk32 (n - 1 - i); PkStr l]);;
    mret 0.

Definition cmd_echo (argc : Z) (argv : list (list Z)) : C Z :=
  each 1 argc (fun i =>
    (if 1 <? i then say " " [] else mret tt);;
    w ← arg argv i;
    say "%s" [str w]);;
  say "\n" [];;
  mret 0.

(** A 64-bit bound against a 32-bit counter. *)
Definition sleep (seconds : Z) : C Z :=
  t ← ticks_now;
  let time_target := u64 (t + seconds * 18) in
  locals (while_ fuel tt (fun _ =>
    t ← ticks_now;
    if t <? time_target then
      c ← on_net NetState.cancel_input;
      if negb (c =? 0) then mret (Brk tt) else mret (Cont tt)
    else mret (Brk tt)));;
  mret 0.

Definition cmd_sleep (argc : Z) (argv : list (list Z)) : C Z :=
  secs ← (if 1 <? argc then w ← arg argv 1; n ← atoi w; mret (u32 n) else mret 1);
  say "Sleeping %d second(s)...\n" [Pk32 secs];;
  sleep secs;;
  say "Done.\n" [];;
  mret 0.

(** * The calculator *)

(** The quotient that does not fit traps. *)
Definition apply_operator (acc op val : Z) : C Z :=
  if op =? 43 then mret (s32 (acc + val))
  else if op =? 45 then mret (s32 (acc - val))
  else if op =? 42 then mret (s32 (acc * val))
  else if op =? 47 then
    if negb (val =? 0) then
      guard_or DivByZero (~ (acc = -2147483648 /\ val = -1));; mret (Z.quot acc val)
    else mret acc
  else if op =? 37 then
    if negb (val =? 0) then
      guard_or DivByZero (~ (acc = -2147483648 /\ val = -1));; mret (Z.rem acc val)
    else mret acc
  else mret acc.

Definition is_operator (c : Z) : bool := (c =? 43) || (c =? 45) || (c =? 42) || (c =? 47) || (c =? 37).

Definition calc_word (w : list Z) (acc op : Z) : C (ctl (Z * Z) unit) :=
  c0 ← aget w 0;
  if c0 =? 0 then mret (Cont (acc, op))
  else
    c1 ← aget w 1;
    if (c1 =? 0) && is_operator c0 then mret (Cont (acc, c0))
    else if op =? 0 then
      say "Expected operator before '%s'\n" [str w];;
      mret (Ret tt)
    else
      v ← atoi w;
      acc ← apply_operator acc op v;
      mret (Cont (acc, 0)).

Definition cmd_calc (argc : Z) (argv : list (list Z)) : C Z :=
  if argc <? 2 then
    say "Usage: calc <num> <op> <num> [op num]...  (op: + - * / %%)\n" [];;
    mret 0
  else
    w ← arg argv 1;
    acc ← atoi w;
    r ← for_ (span 2 argc) 2 (acc, 0) (fun i '(acc, op) => w ← arg argv i; calc_word w acc op);
    match r with
    | inr _ => mret 0
    | inl (acc, _) => say "= %d\n" [Pk32 acc];; mret 0
    end.

(** * Processor and clock *)

Definition cmd_hexdump (argc : Z) (argv : list (list Z)) : C Z :=
  addr ← (if 1 <? argc then w ← arg argv 1; n ← atoi w; mret (u32 n) else mret 0);
  len ← (if 2 <? argc then w ← arg argv 2; n ← atoi w; mret (u32 n) else mret 64);
  locals (while_ 65 (0, 0) (fun '(i, row) =>
    if i <? len then
      say "%08x  " [Pk32 (u32 (addr + i))];;
      locals (for_ (span 0 16) 0 tt (fun j _ =>
        if u32 (i + j) <? len then
          say "%02x " [Pk32 (peek (u32 (addr + u32 (i + j))))];;
          (if j =? 7 then say " " [] else mret tt);;
          mret (Cont tt)
        else mret (Brk tt)));;
      say "\n" [];;
      if 64 <=? row + 1 then
        say "... truncated\n" [];;
        mret (Brk (i, row + 1))
      else mret (Cont (u32 (i + 16), row + 1))
    else mret (Brk (i, row))));;
  mret 0.

Definition byte_of (r k : Z) : pk_arg := Pk32 (Z.land (Z.shiftr r (8 * k)) 255).

Definition cmd_cpuid (argc : Z) (argv : list (list Z)) : C Z :=
  let '(_, ebx, ecx, edx) := cpuid 0 in
  say "Vendor: %c%c%c%c%c%c%c%c%c%c%c%c\n"
    (map (byte_of ebx) [0; 1; 2; 3] ++ map (byte_of edx) [0; 1; 2; 3] ++ map (byte_of ecx) [0; 1; 2; 3]);;
  let '(eax, _, _, edx) := cpuid 1 in
  say "Max EAX: %x\n" [Pk32 eax];;
  (if Z.testbit edx 15 then say "  CMOV supported\n" [] else mret tt);;
  (if Z.testbit edx 23 then say "  MMX supported\n" [] else mret tt);;
  (if Z.testbit edx 25 then say "  SSE supported\n" [] else mret tt);;
  (if Z.testbit edx 26 then say "  SSE2 supported\n" [] else mret tt);;
  mret 0.

(** The fields of the descriptor at [a]. *)
Definition gdt_entry_base (a : Z) : Z :=
  Z.lor (Z.lor (Z.lor (peek (a + 2)) (Z.shiftl (peek (a + 3)) 8)) (Z.shiftl (peek (a + 4)) 16)) (Z.shiftl (peek (a + 7)) 24).
Definition gdt_entry_flags (a : Z) : Z := Z.shiftr (peek (a + 6)) 4.

Definition cmd_gdt (argc : Z) (argv : list (list Z)) : C Z :=
  let '(limit, base) := gdtr in
  say "GDT base=0x%x limit=%d\n" [Pk32 base; Pk32 limit];;
  let entries := Z.min ((limit + 1) / 8) 16 in
  each 0 entries (fun i =>
    let e := base + 8 * i in
    say "  [%d] base=0x%x access=0x%x flags=0x%x\n"
      [Pk32 i; Pk32 (gdt_entry_base e); Pk32 (peek (e + 5)); Pk32 (gdt_entry_flags e)]);;
  mret 0.

Definition cmd_idt (argc : Z) (argv : list (list Z)) : C Z :=
  let '(limit, base) := idtr in
  say "IDT base=0x%x limit=%d\n" [Pk32 base; Pk32 limit];;
  mret 0.

Definition cmd_irq (argc : Z) (argv : list (list Z)) : C Z :=
  each 0 16 (fun i =>
    rs ← gets (fun s => irq_routines (nt s));
    r ← aget rs i;
    if negb (r =? 0) then say "  IRQ%d: registered\n" [Pk32 i] else mret tt);;
  mret 0.

Definition rtc_read (reg : Z) : C Z := pio_outb 0x70 reg;; pio_inb 0x71.

Definition rtc_conv (v : Z) (bcd : bool) : Z :=
  if bcd then u8 (Z.land v 0x0F + Z.shiftr v 4 * 10) else v.

Definition cmd_date (argc : Z) (argv : list (list Z)) : C Z :=
  status ← rtc_read 0x0B;
  let bcd := Z.land status 0x04 =? 0 in
  sec ← rtc_read 0x00;
  min ← rtc_read 0x02;
  hour ← rtc_read 0x04;
  day ← rtc_read 0x07;
  mon ← rtc_read 0x08;
  year ← rtc_read 0x09;
  cent ← rtc_read 0x32;
  let v x := Pk32 (rtc_conv x bcd) in
  let cent := rtc_conv cent bcd in
  let yy := u16 (if negb (cent =? 0) then cent * 100 + rtc_conv year bcd else 2000 + rtc_conv year bcd) in
  say "%04d-%02d-%02d %02d:%02d:%02d\n" [Pk32 yy; v mon; v day; v hour; v min; v sec];;
  mret 0.

(** The 48 bytes of the three leaves, and a terminator. *)
Definition brand_text : C (list Z) :=
  brand ← locals (for_ (span 0 3) 0 (local_array 49) (fun k brand =>
    let '(eax, ebx, ecx, edx) := cpuid (0x80000002 + k) in
    brand ← st32 brand (16 * k) eax;
    brand ← st32 brand (16 * k + 4) ebx;
    brand ← st32 brand (16 * k + 8) ecx;
    brand ← st32 brand (16 * k + 12) edx;
    mret (Cont brand)));
  aset brand 48 0.

Definition cmd_cpu (argc : Z) (argv : list (list Z)) : C Z :=
  let '(eax, _, _, _) := cpuid 0x80000000 in
  if eax <? 0x80000004 then say "No brand string available.\n" [];; mret 0
  else
    brand ← brand_text;
    say "CPU: %s\n" [str brand];;
    mret 0.

(** * Tasks *)

Definition cmd_ps (argc : Z) (argv : list (list Z)) : C Z :=
  rows ← on_tasks (sc sched_list);
  say "pid state   name\n" [];;
  say "--- -----   ----\n" [];;
  each 0 (lenZ rows) (fun i =>
    match rows !! Z.to_nat i with
    | Some (pid, st, nm) => say " %d  %-7s  %s\n" [Pk32 pid; str (text st); str nm]
    | None => mret tt
    end);;
  mret 0.

Definition cmd_exec (argc : Z) (argv : list (list Z)) : C Z :=
  nm ← (if 1 <? argc then arg argv 1 else mret (text "usertask"));
  pid ← on_tasks (utask_spawn nm);
  if pid <? 0 then say "exec: could not start a user task\n" [];; mret 0
  else say "started ring3 user task pid %d\n" [Pk32 pid];; mret 0.
End Commands.
