(* ===== verification/FileCommands.v ===== *)
(** The commands of [src/kernel/shell/commands.c] that work on files and on the
    network. *)
From Stdlib Require Import ZArith Lia List String.
From stdpp Require Import base tactics numbers list gmap strings option.
From S2P Require Import Prelude Pmm Vmm Heap CString Sched UserTask Bytes Ata Disk Ext2 Vfs NetState Net Fbcon Term Printk Keyboard Readline Text TextBuf Paths Machine Commands.
Open Scope Z_scope.

Section Commands.
Context {P K D H N R : Type} `{Ports P, KbdHw K, BlockDevice D, DriveTable D, KernelHeap H, NicHw N, Ports R}
  `{Cpu, Locals, KernelLayout, SchedLayout, UserBinary}.
Notation C := (M (machine P K D H N R)).

Variable poll : M (net N) unit.
Variable fuel : nat.

(** * Files *)

Definition resolve (path out : list Z) (out_sz : Z) : C (list Z) :=
  c ← cwd;
  vfs_cmd_resolve c (Some path) out out_sz.
(** [vfs_cmd_resolve(path, full, sizeof(full))] for [char full[VFS_MAX_PATH]] *)
Definition full_path (path : list Z) : C (list Z) := resolve path (local_array VFS_MAX_PATH) VFS_MAX_PATH.

Definition vfs_is_dir (path : list Z) : C bool :=
  p ← on_fs (vfs_open_node path);
  if decide (p = NP_null) then mret false
  else
    nd ← on_fs (deref p);
    mret (flags nd =? VFS_FT_DIR).

Definition set_cwd (l : list Z) : C unit := on_con (modify (set_g_cwd l)).

Definition cmd_cd (argc : Z) (argv : list (list Z)) : C Z :=
  if argc <=? 1 then say "cd: usage: cd <dir>\n" [];; mret 0
  else
    target ← arg argv 1;
    home ← str_is target "~";
    let target := if (home : bool) then ROOT else target in
    up ← str_is target "..";
    full ← (if (up : bool) then c ← cwd; vfs_cwd_parent c (local_array VFS_MAX_PATH) VFS_MAX_PATH
            else full_path target);
    dir ← vfs_is_dir full;
    ok ← (if (dir : bool) then mret true else str_is full "/");
    if negb ok then say "cd: %s: No such directory\n" [str target];; mret 0
    else
      c ← cwd;
      c ← strncpy c full (VFS_MAX_PATH - 1);
      c ← aset c (VFS_MAX_PATH - 1) 0;
      set_cwd c;;
      mret 0.

Definition cmd_ls (argc : Z) (argv : list (list Z)) : C Z :=
  path ← (if 1 <? argc then arg argv 1 else mret DOT);
  full ← full_path path;
  index ← locals (while_ DIR_FUEL 0 (fun index =>
    r ← on_fs (vfs_readdir full index);
    match r with
    | inl _ => mret (Brk index)
    | inr nd =>
        (if flags nd =? VFS_FT_DIR then say "%s/\n" [str (Ext2.name nd)] else say "%s\n" [str (Ext2.name nd)]);;
        mret (Cont (u32 (index + 1)))
    end));
  (if index =? 0 then say "(empty)\n" [] else mret tt);;
  mret 0.

(** Every round reads at least one byte. *)
Definition cmd_cat (argc : Z) (argv : list (list Z)) : C Z :=
  if argc <? 2 then say "Usage: cat <path>\n" [];; mret 0
  else
    w ← arg argv 1;
    full ← full_path w;
    fd ← on_fs (vfs_open full VFS_O_READ);
    if fd <? 0 then say "cat: cannot open %s\n" [str w];; mret 0
    else
      locals (while_ fuel (local_array 1024) (fun buf =>
        r ← on_fs (vfs_read fd buf 1024);
        let '(n, buf) := r in
        if 0 <? n then
          each 0 n (fun i =>
            c ← aget buf i;
            if c =? 10 then say "\n" []
            else if (0x20 <=? c) && (c <? 0x7F) then say "%c" [Pk32 c] else mret tt);;
          mret (Cont buf)
        else mret (Brk buf)));;
      on_fs (vfs_close fd);;
      mret 0.

Definition cmd_mount (argc : Z) (argv : list (list Z)) : C Z :=
  if argc <? 2 then say "Usage: mount <path>   (mounts ext2 on device 0 at path)\n" [];; mret 0
  else
    w ← arg argv 1;
    ret ← on_fs (vfs_mount w (text "ext2"));
    if negb (ret =? VFS_OK) then say "mount: failed (%d)\n" [Pk32 ret];; mret 0
    else mret 0.

Definition cmd_pwd (argc : Z) (argv : list (list Z)) : C Z :=
  c ← cwd;
  say "%s\n" [str c];;
  mret 0.

Definition cmd_df (argc : Z) (argv : list (list Z)) : C Z :=
  devs ← gets (fun s => drives (disk (e2 (fs s))));
  match ata_get_device EXT2_DRIVE with
  | Some i =>
      let dev := nth (Z.to_nat i) devs zero_device in
      if present dev =? 0 then say "df: no disk\n" [];; mret 0
      else
        say "device %d: %s\n" [Pk32 EXT2_DRIVE; str (model dev)];;
        say "  size   : %u MB\n" [Pk32 (capacity_sectors dev / 2048)];;
        say "  sectors: %u\n" [Pk32 (capacity_sectors dev)];;
        mret 0
  | None => say "df: no disk\n" [];; mret 0
  end.

(** The parent of [full] and the last component: [None] if there is none. *)
Definition parent_leaf (full : list Z) : C (option (vfs_node_t * list Z)) :=
  r ← on_fs (vfs_parent full (local_array 64) 64);
  let '(parent, leaf) := r in
  if decide (parent = NP_null) then mret None
  else
    c ← aget leaf 0;
    if c =? 0 then mret None
    else
      nd ← on_fs (deref parent);
      mret (Some (nd, leaf)).

Definition cmd_touch (argc : Z) (argv : list (list Z)) : C Z :=
  if argc <? 2 then say "Usage: touch <path>\n" [];; mret 0
  else
    w ← arg argv 1;
    full ← full_path w;
    p ← parent_leaf full;
    match p with
    | None => say "touch: cannot create '%s'\n" [str w];; mret 0
    | Some (parent, leaf) =>
        r ← on_fs (ext (ext2_vfs_create_file parent leaf));
        match r with
        | None => say "touch: failed to create '%s'\n" [str w];; mret 0
        | Some child_ino => say "created: %s (inode %d)\n" [str full; Pk32 child_ino];; mret 0
        end
    end.

Definition cmd_mkdir (argc : Z) (argv : list (list Z)) : C Z :=
  if argc <? 2 then say "Usage: mkdir <path>\n" [];; mret 0
  else
    w ← arg argv 1;
    full ← full_path w;
    p ← parent_leaf full;
    match p with
    | None => say "mkdir: cannot create '%s'\n" [str w];; mret 0
    | Some (parent, leaf) =>
        r ← on_fs (ext (ext2_vfs_create_dir parent leaf));
        match r with
        | None => say "mkdir: failed to create '%s'\n" [str w];; mret 0
        | Some child_ino => say "created dir: %s (inode %d)\n" [str full; Pk32 child_ino];; mret 0
        end
    end.

(** The words before the last, joined by blanks: the array and its length. *)
Definition echo_content (argc : Z) (argv : list (list Z)) : C (list Z * Z) :=
  l ← locals (for_ (span 1 (argc - 1)) 1 (local_array 512, 0) (fun i '(content, pos) =>
    r ← (if (1 <? i) && (pos <? 511) then content ← aset content pos 32; mret (content, pos + 1)
         else mret (content, pos));
    let '(content, pos) := r in
    w ← arg argv i;
    r ← locals (while_ (Datatypes.length w + 1) (0, content, pos) (fun '(k, content, pos) =>
      c ← aget w k;
      if negb (c =? 0) && (pos <? 511) then
        content ← aset content pos c;
        mret (Cont (k + 1, content, pos + 1))
      else mret (Brk (k, content, pos))));
    let '(_, content, pos) := r in
    mret (Cont (content, pos))));
  let '(content, pos) := l in
  content ← aset content pos 0;
  mret (content, pos).

Definition cmd_echo_write (argc : Z) (argv : list (list Z)) : C Z :=
  if argc <? 2 then
    say "Usage: echo_write <text> <path>\n" [];;
    say "       echo_write <path>       (create empty file)\n" [];;
    mret 0
  else if argc =? 2 then
    w ← arg argv 1;
    full ← full_path w;
    p ← parent_leaf full;
    match p with
    | None => say "echo: cannot create '%s'\n" [str w];; mret 0
    | Some (parent, leaf) =>
        r ← on_fs (ext (ext2_vfs_create_file parent leaf));
        match r with
        | None => say "echo: failed to create '%s'\n" [str w];; mret 0
        | Some _ => say "created: %s\n" [str full];; mret 0
        end
    end
  else
    path ← arg argv (argc - 1);
    full ← full_path path;
    r ← echo_content argc argv;
    let '(content, pos) := r in
    p ← parent_leaf full;
    match p with
    | None => say "echo: cannot create '%s'\n" [str path];; mret 0
    | Some (parent, leaf) =>
        r ← on_fs (ext (ext2_vfs_create_file parent leaf));
        match r with
        | None => say "echo: failed to create '%s'\n" [str path];; mret 0
        | Some _ =>
            fd ← on_fs (vfs_open full (Z.lor VFS_O_READ VFS_O_WRITE));
            if fd <? 0 then say "echo: cannot open '%s'\n" [str path];; mret 0
            else
              n ← on_fs (vfs_write fd content pos);
              on_fs (vfs_close fd);;
              say "wrote %d bytes to %s\n" [Pk32 n; str full];;
              mret 0
        end
    end.

(** The nesting of [vfs_rmtree]: 256 levels, the length of a path. *)
Definition RMTREE_FUEL : nat := 256.

Definition rm_one (recursive : bool) (w : list Z) : C unit :=
  full ← full_path w;
  p ← on_fs (vfs_open_node full);
  if decide (p = NP_null) then say "rm: %s: no such file\n" [str w]
  else
    nd ← on_fs (deref p);
    if (flags nd =? VFS_FT_DIR) && negb recursive then say "rm: %s: is a directory (use rm -r)\n" [str w]
    else
      ret ← (if recursive then on_fs (vfs_rmtree RMTREE_FUEL full) else on_fs (vfs_unlink full));
      if ret =? VFS_OK then say "removed: %s\n" [str full]
      else say "rm: %s: failed (%d)\n" [str w; Pk32 ret].

Definition cmd_rm (argc : Z) (argv : list (list Z)) : C Z :=
  if argc <? 2 then
    say "Usage: rm <path>...      (remove files)\n" [];;
    say "       rm -r <path>...   (remove directories recursively)\n" [];;
    mret 0
  else
    w ← arg argv 1;
    a ← str_is w "-r";
    b ← (if (a : bool) then mret true else str_is w "-rf");
    r ← (if (b : bool) then mret true else str_is w "-fr");
    each (if (r : bool) then 2 else 1) argc (fun i => w ← arg argv i; rm_one r w);;
    mret 0.

Definition cmd_rmdir (argc : Z) (argv : list (list Z)) : C Z :=
  if argc <? 2 then say "Usage: rmdir <path>...   (remove empty directories)\n" [];; mret 0
  else
    each 1 argc (fun i =>
      w ← arg argv i;
      full ← full_path w;
      ret ← on_fs (vfs_rmdir full);
      if ret =? VFS_OK then say "removed: %s\n" [str full]
      else if ret =? VFS_ERR_IS_FILE then say "rmdir: %s: not a directory\n" [str w]
      else say "rmdir: %s: failed (%d)\n" [str w; Pk32 ret]);;
    mret 0.

Definition cmd_mv (argc : Z) (argv : list (list Z)) : C Z :=
  if argc <? 3 then
    say "Usage: mv <source> <dest>\n" [];;
    say "       (if <dest> is a directory, <source> is moved into it)\n" [];;
    mret 0
  else
    w1 ← arg argv 1;
    full1 ← full_path w1;
    w2 ← arg argv 2;
    full2 ← full_path w2;
    p ← on_fs (vfs_open_node full1);
    if decide (p = NP_null) then say "mv: %s: no such file\n" [str w1];; mret 0
    else
      ret ← on_fs (vfs_rename full1 full2);
      (if negb (ret =? VFS_OK) then say "mv: %s -> %s failed (%d)\n" [str full1; str full2; Pk32 ret]
       else say "%s -> %s\n" [str full1; str full2]);;
      mret 0.

(** * The network *)

Definition ip_string (ip : list Z) : C (list Z) :=
  r ← ip4_to_string ip (local_array 16) 16;
  mret (snd r).

Definition print_ip (ip : list Z) : C unit := buf ← ip_string ip; say "%s" [str buf].

(** The host and the count, or the message for an option without argument. *)
Definition ping_args (argc : Z) (argv : list (list Z)) : C (option (list Z) * Z + list Z) :=
  r ← while_ (Datatypes.length argv + 1) (1, None, 4) (fun '(i, host, count) =>
    if i <? argc then
      w ← arg argv i;
      a ← str_is w "-c";
      opt ← (if (a : bool) then mret true else str_is w "--count");
      if (opt : bool) then
        if argc <=? i + 1 then mret (Ret w)
        else
          v ← arg argv (i + 1);
          n ← atoi v;
          mret (Cont (i + 2, host, n))
      else mret (Cont (i + 1, match host with None => Some w | _ => host end, count))
    else mret (Brk (i, host, count)));
  match r with
  | inl (_, host, count) => mret (inl (host, count))
  | inr w => mret (inr w)
  end.

(** The pings: the numbers sent and lost. *)
Definition ping_rounds (ip ipstr : list Z) (count : Z) : C (Z * Z) :=
  locals (for_ (span 0 count) 0 (0, 0) (fun i '(sent, lost) =>
    r ← on_net (icmp_ping poll fuel ip);
    match r with
    | Some rtt =>
        say "%d bytes from %s: icmp_seq=%d ttl=64 time=%d ticks\n" [Pk32 56; str ipstr; Pk32 i; Pk32 rtt];;
        (if i + 1 <? count then sleep fuel 1;; mret tt else mret tt);;
        mret (Cont (sent + 1, lost))
    | None =>
        c ← on_net NetState.cancel_input;
        if negb (c =? 0) then
          say "^C\n" [];;
          mret (Brk (sent, lost))
        else
          say "Request timeout for icmp_seq=%d\n" [Pk32 i];;
          (if i + 1 <? count then sleep fuel 1;; mret tt else mret tt);;
          mret (Cont (sent + 1, lost + 1))
    end)).

(** [tx] is the address of the transaction of [dns_resolve]. *)
Definition cmd_ping (tx : Z) (argc : Z) (argv : list (list Z)) : C Z :=
  if argc <? 2 then say "Usage: ping <host> [-c count]\n" [];; mret 0
  else
    a ← ping_args argc argv;
    match a with
    | inr w => say "ping: option '%s' requires an argument\n" [str w];; mret 0
    | inl (None, _) => say "Usage: ping <host> [-c count]\n" [];; mret 0
    | inl (Some host, count) =>
        let count := if count <? 1 then 1 else count in
        r ← on_net (dns_resolve poll fuel tx host);
        match r with
        | None => say "ping: cannot resolve '%s'\n" [str host];; mret 0
        | Some ip =>
            ipstr ← ip_string ip;
            say "PING %s (%s)\n" [str host; str ipstr];;
            r ← ping_rounds ip ipstr count;
            let '(sent, lost) := r in
            say "--- %s ping statistics ---\n" [str host];;
            say "%d packets transmitted, %d received, %d%% packet loss\n"
              [Pk32 sent; Pk32 (sent - lost); Pk32 (if negb (sent =? 0) then Z.quot (s32 (lost * 100)) sent else 0)];;
            mret 0
        end
    end.

Definition cmd_curl (c tx : Z) (argc : Z) (argv : list (list Z)) : C Z :=
  if argc <? 2 then say "Usage: curl <url>\n" [];; mret 0
  else
    url ← arg argv 1;
    r ← on_net (http_get poll fuel c tx url (local_array 4096) 4096);
    let '(status, body) := r in
    if status <? 0 then say "curl: request failed\n" [];; mret 0
    else
      say "HTTP/%d\n" [Pk32 status];;
      say "%s\n" [str body];;
      mret 0.

Definition cmd_ifconfig (argc : Z) (argv : list (list Z)) : C Z :=
  i ← gets (fun s => net_iface (nt s));
  say "%s: flags=%d<UP BROADCAST RUNNING MULTICAST>\n" [str (NetState.name i); Pk32 (if negb (up i =? 0) then 1 else 0)];;
  say "        MAC %x:%x:%x:%x:%x:%x\n" (map (fun k => Pk32 (rd (mac i) k)) [0; 1; 2; 3; 4; 5]);;
  say "        inet " [];;
  print_ip (ip i);;
  say "  netmask " [];;
  print_ip (netmask i);;
  say "  gateway " [];;
  print_ip (gateway i);;
  say "  dns " [];;
  print_ip (dns i);;
  say "\n" [];;
  mret 0.

Definition cmd_netstat (argc : Z) (argv : list (list Z)) : C Z :=
  say "Active Internet connections\n" [];;
  say "Proto  Local Address        Remote Address       State\n" [];;
  say "tcp    :%-5u                %-17s ESTABLISHED\n" [Pk32 0; str (text "(active)")];;
  mret 0.
End Commands.
