(* ===== verification/Nano.v ===== *)
(** The [nano] editor of [src/kernel/shell/editors.c]: files, drawing, keys and
    the command. *)
From Stdlib Require Import ZArith Lia List String.
From stdpp Require Import base tactics numbers list gmap strings option.
From S2P Require Import Prelude Pmm Vmm Heap CString Sched UserTask Bytes Ata Disk Ext2 Vfs NetState Net Fbcon Term Printk Keyboard Readline Text TextBuf Paths Machine Commands FileCommands.
Open Scope Z_scope.

Definition NANO_STATUS_SZ : Z := 80.
Definition EV_NAV (c : Z) : Z := Z.lor 0x100 c.
Definition EV_CTRL (c : Z) : Z := Z.lor 0x200 c.
Definition EV_CANCEL : Z := 0x300.
Definition EV_REDRAW : Z := 0x301.

Section Nano.
Context {P K D H N R : Type} `{Ports P, KbdHw K, BlockDevice D, KernelHeap H, Locals}.
Notation C := (M (machine P K D H N R)).

Variable fuel : nat.

Definition text_is (f : textbuf -> Z) : C Z := gets (fun s => f (n_text (ed s))).
Definition ed_is (f : nano -> Z) : C Z := gets (fun s => f (ed s)).
Definition nano_insert_char (ch : Z) : C unit := on_text (insert_char ch).
Definition nano_backspace : C unit := on_text backspace.
Definition nano_newline : C unit := on_text newline.
Definition nano_line_name_len (r : Z) : C Z := on_text (line_len r).

Definition nano_tab_w : C Z := col ← text_is cur_col; mret (4 - Z.rem col 4).

(** [snprintf(nano_status, sizeof(nano_status), format, ...)] *)
Definition put_status (format : string) (ap : list fmt_arg) : C unit :=
  l ← gets (fun s => nano_status (ed s));
  r ← snprintf l NANO_STATUS_SZ (text format) ap;
  on_ed (modify (set_n_status (fst r))).
(** [strcpy(nano_status, ...)] *)
Definition copy_status (msg : string) : C unit :=
  l ← gets (fun s => nano_status (ed s));
  l ← strcpy l (text msg);
  on_ed (modify (set_n_status l)).
Definition clear_status : C unit :=
  l ← gets (fun s => nano_status (ed s));
  l ← aset l 0 0;
  on_ed (modify (set_n_status l)).

(** * Files *)

Definition TMP_SZ : Z := 4096.

(** [strncpy(nano_lines[r], tmp_line, n); nano_lines[r][n] = 0;] *)
Definition store_line (r : Z) (tmp : list Z) (n : Z) : M textbuf unit :=
  l ← row_get r;
  l ← strncpy l tmp n;
  l ← aset l n 0;
  row_put r l.

(** One character of the file: the line being read and its length. *)
Definition load_char (c : Z) (tmp : list Z) (tpos : Z) : M textbuf (list Z * Z) :=
  if c =? 10 then
    b ← (if 0 <? tpos then p ← aget tmp (tpos - 1); mret (p =? 13) else mret false);
    tmp ← (if (b : bool) then aset tmp (tpos - 1) 0 else aset tmp tpos 0);
    let tpos := Z.min tpos (MAX_COL - 1) in
    n ← gets t_lcount;
    store_line (n - 1) tmp tpos;;
    (if n <? MAX_LINES then modify (set_lcount (n + 1));; clear_row n else mret tt);;
    mret (tmp, 0)
  else if tpos <? TMP_SZ - 1 then tmp ← aset tmp tpos c; mret (tmp, tpos + 1)
  else mret (tmp, tpos).

(** The end of the file: the last line. *)
Definition load_end (tmp : list Z) (tpos : Z) : M textbuf unit :=
  n ← gets t_lcount;
  (if 0 <? n then store_line (n - 1) tmp (Z.min tpos (MAX_COL - 1)) else mret tt);;
  modify (set_modified 0).

Definition nano_load_file (path : list Z) : C unit :=
  on_text (modify (set_lcount 1));;
  on_text (clear_row 0);;
  let tmp := replicate (Z.to_nat TMP_SZ) 0 in
  fd ← on_fs (vfs_open path VFS_O_READ);
  if fd <? 0 then mret tt
  else
    l ← locals (while_ fuel (local_array 1024, tmp, 0) (fun '(buf, tmp, tpos) =>
      r ← on_fs (vfs_read fd buf 1024);
      let '(n, buf) := r in
      if 0 <? n then
        r ← locals (for_ (span 0 n) 0 (tmp, tpos) (fun i '(tmp, tpos) =>
          c ← aget buf i;
          r ← on_text (load_char c tmp tpos);
          mret (Cont r)));
        mret (Cont (buf, fst r, snd r))
      else mret (Brk (buf, tmp, tpos))));
    let '(_, tmp, tpos) := l in
    on_fs (vfs_close fd);;
    on_text (load_end tmp tpos).

(** The bytes written, or -1. *)
Definition nano_save_file (path : list Z) : C Z :=
  fd ← on_fs (vfs_open path (Z.lor (Z.lor VFS_O_READ VFS_O_WRITE) VFS_O_CREATE));
  if fd <? 0 then put_status "Save FAILED: open(%d)" [ArgInt fd];; mret (-1)
  else
    t ← on_fs (vfs_truncate path 0);
    if negb (t =? VFS_OK) then
      put_status "Save FAILED: truncate" [];;
      on_fs (vfs_close fd);;
      mret (-1)
    else
      n ← text_is t_lcount;
      r ← for_ (span 0 n) 0 0 (fun i total =>
        len ← on_text (line_len i);
        line ← on_text (row_get i);
        w ← on_fs (vfs_write fd line len);
        if negb (w =? len) then
          put_status "Save FAILED: write(%d)" [ArgInt i];;
          on_fs (vfs_close fd);;
          mret (Ret (-1))
        else
          on_fs (vfs_write fd (text "\n") 1);;
          mret (Cont (total + len + 1)));
      match r with
      | inr v => mret v
      | inl total =>
          on_fs (vfs_close fd);;
          on_text (modify (set_modified 0));;
          mret total
      end.

(** * Drawing *)

Definition term_h : C Z := gets (fun s => s32 (term_height (scr (con s)))).
Definition term_w : C Z := gets (fun s => s32 (term_width (scr (con s)))).
Definition put_at (ch color x y : Z) : C unit := on_scr (term_putch_at ch color x y).

(** The string [l] from the left end of row [y], cut at the width. *)
Definition draw_text (l : list Z) (color w y : Z) : C unit :=
  locals (while_ (Datatypes.length l + 1) 0 (fun i =>
    c ← aget l i;
    if negb (c =? 0) && (i <? u32 w) then
      put_at c color i y;;
      mret (Cont (i + 1))
    else mret (Brk i)));;
  mret tt.

Definition draw_line (lineno color w y : Z) : C unit :=
  each 0 w (fun x =>
    sx ← ed_is nano_scroll_x;
    let ci := sx + x in
    c ← (if ci <? MAX_COL then on_text (ch_get lineno ci) else mret 0);
    put_at (if negb (c =? 0) then c else 32) color x y).

Definition BAR_FMT : list Z := text "%s  [Ln %d, Col %d]%s  ^O save  ^X exit  ^G help".

Definition nano_status_bar (bar_color w h : Z) : C unit :=
  each 0 w (fun x => put_at 32 bar_color x (h - 1));;
  st ← gets (fun s => nano_status (ed s));
  c ← aget st 0;
  if negb (c =? 0) then draw_text st bar_color w (h - 1)
  else
    t ← gets (fun s => n_text (ed s));
    fname ← gets (fun s => nano_fname (ed s));
    r ← snprintf (local_array 128) 128 BAR_FMT
      [ArgStr fname; ArgInt (cur_row t + 1); ArgInt (cur_col t + 1);
       ArgStr (if negb (t_modified t =? 0) then text "  [modified]" else text "")];
    draw_text (fst r) bar_color w (h - 1).

Definition nano_draw : C unit :=
  let ed_color := vga_entry_color VGA_COLOR_LIGHT_GREY VGA_COLOR_BLACK in
  let bar_color := vga_entry_color VGA_COLOR_BLACK VGA_COLOR_LIGHT_GREY in
  h ← term_h;
  w ← term_w;
  on_scr term_clear;;
  r ← locals (for_ (span 0 (h - 1)) 0 0 (fun r _ =>
    scroll ← ed_is nano_scroll;
    n ← text_is t_lcount;
    if n <=? scroll + r then mret (Brk r)
    else draw_line (scroll + r) ed_color w r;; mret (Cont (r + 1))));
  each r (h - 1) (fun r => each 0 w (fun x => put_at 32 ed_color x r));;
  nano_status_bar bar_color w h;;
  col ← text_is cur_col;
  row ← text_is cur_row;
  sx ← ed_is nano_scroll_x;
  sy ← ed_is nano_scroll;
  let cx := col - sx in
  let cx := if cx <? 0 then 0 else cx in
  let cx := if w <=? cx then w - 1 else cx in
  let cx := if 127 <? cx then 127 else cx in
  let cy := row - sy in
  let cy := if cy <? 0 then 0 else cy in
  let cy := if h - 1 <=? cy then h - 1 else cy in
  on_scr (update_cursor (s8 cx) (s8 cy)).

Definition nano_clamp_cursor : C unit :=
  h ← term_h;
  w ← term_w;
  row ← text_is cur_row;
  len ← nano_line_name_len row;
  col ← text_is cur_col;
  (if len <? col then on_text (modify (set_cur_col len)) else mret tt);;
  (if row <? 0 then on_text (modify (set_cur_row 0)) else mret tt);;
  row ← text_is cur_row;
  n ← text_is t_lcount;
  (if n <=? row then on_text (modify (set_cur_row (n - 1))) else mret tt);;
  row ← text_is cur_row;
  scroll ← ed_is nano_scroll;
  (if row <? scroll then on_ed (modify (set_n_scroll row)) else mret tt);;
  scroll ← ed_is nano_scroll;
  (if scroll + h - 1 <=? row then on_ed (modify (set_n_scroll (row - (h - 2)))) else mret tt);;
  col ← text_is cur_col;
  sx ← ed_is nano_scroll_x;
  (if col <? sx then on_ed (modify (set_n_scroll_x col)) else mret tt);;
  sx ← ed_is nano_scroll_x;
  (if sx + w <=? col then on_ed (modify (set_n_scroll_x (col - w + 1))) else mret tt);;
  sx ← ed_is nano_scroll_x;
  (if sx <? 0 then on_ed (modify (set_n_scroll_x 0)) else mret tt).

(** * Keys *)

Definition kget (f : kbd K -> Z) : C Z := on_con (vget f).
Definition kset (f : kbd K -> kbd K) : C unit := on_con (vset f).

(** One round of the polling loop. *)
Definition nano_event_round : C (ctl unit Z) :=
  c ← kget ctrl_char;
  if negb (c =? 0) then
    c ← kget ctrl_char;
    kset (set_ctrl_char 0);;
    kset (set_in_read 0);;
    mret (Ret (EV_CTRL (u8 c)))
  else
    c ← kget Keyboard.cancel_input;
    if negb (c =? 0) then
      kset (set_cancel_input 0);;
      kset (set_in_read 0);;
      mret (Ret EV_CANCEL)
    else
      c ← kget do_clear_screen;
      if negb (c =? 0) then
        kset (set_do_clear_screen 0);;
        mret (Ret EV_REDRAW)
      else
        nav ← on_con (pressed nav_key);
        if (nav : bool) then
          k ← kget nav_key;
          kset (set_nav_key 0);;
          kset (set_in_read 0);;
          mret (Ret (EV_NAV (s8 k)))
        else
          key ← on_con (pressed read_key);
          if (key : bool) then
            c ← kget read_key;
            kset (set_read_key 0);;
            kset (set_in_read 0);;
            mret (Ret (u8 c))
          else mret (Cont tt).

Definition wait_event (round : C (ctl unit Z)) : C Z :=
  r ← while_ fuel tt (fun _ => round);
  match r with inl _ => stuck OutOfFuel | inr v => mret v end.
Definition nano_event : C Z := wait_event nano_event_round.

Definition nano_confirm_exit : C Z :=
  copy_status "Save modified buffer? [Y]es [N]o [C]ancel";;
  nano_draw;;
  r ← while_ fuel tt (fun _ =>
    ev ← nano_event;
    if (ev =? 121) || (ev =? 89) then mret (Ret 1)
    else if (ev =? 110) || (ev =? 78) then mret (Ret 0)
    else if (ev =? EV_CANCEL) || (ev =? 99) || (ev =? 67) then mret (Ret (-1))
    else mret (Cont tt));
  match r with inl _ => stuck OutOfFuel | inr v => mret v end.

Definition nano_arrow (dir : Z) : C unit :=
  row ← text_is cur_row;
  col ← text_is cur_col;
  n ← text_is t_lcount;
  if dir =? 1 then
    if 0 <? row then on_text (modify (set_cur_row (row - 1)));; nano_clamp_cursor else mret tt
  else if dir =? 2 then
    if row <? n - 1 then on_text (modify (set_cur_row (row + 1)));; nano_clamp_cursor else mret tt
  else if dir =? 3 then
    if 0 <? col then on_text (modify (set_cur_col (col - 1)))
    else if 0 <? row then
      len ← nano_line_name_len (row - 1);
      on_text (modify (fun t => set_cur_col len (set_cur_row (row - 1) t)))
    else mret tt
  else if dir =? 4 then
    len ← nano_line_name_len row;
    if col <? len then on_text (modify (set_cur_col (col + 1)))
    else if row <? n - 1 then on_text (modify (fun t => set_cur_col 0 (set_cur_row (row + 1) t)))
    else mret tt
  else mret tt.

Definition fname_of : C (list Z) := gets (fun s => nano_fname (ed s)).

(** ^O *)
Definition nano_write_out : C unit :=
  fname ← fname_of;
  n ← nano_save_file fname;
  if n <? 0 then copy_status "Save FAILED"
  else
    put_status "Saved %d bytes to %s%s" [ArgInt n; ArgStr fname; ArgStr (text " ")];;
    l ← gets (fun s => nano_status (ed s));
    l ← aset l (NANO_STATUS_SZ - 1) 0;
    on_ed (modify (set_n_status l)).

(** ^X: whether the editor ends. *)
Definition nano_exit : C bool :=
  m ← text_is t_modified;
  if m =? 0 then mret true
  else
    r ← nano_confirm_exit;
    if r =? 1 then
      fname ← fname_of;
      nano_save_file fname;;
      mret true
    else if r =? 0 then mret true
    else clear_status;; mret false.

(** One event; whether the editor ends. *)
Definition nano_key (ev : Z) : C bool :=
  let ctrl u l := (ev =? EV_CTRL u) || (ev =? EV_CTRL l) in
  if ctrl 111 79 then nano_write_out;; mret false
  else if ctrl 120 88 then nano_exit
  else if ctrl 103 71 then
    copy_status "^O save  ^X exit  ^G help  arrows move  Backspace delete";;
    mret false
  else if ev =? EV_REDRAW then mret false
  else if ev =? EV_CANCEL then mret true
  else if (EV_NAV 1 <=? ev) && (ev <=? EV_NAV 4) then nano_arrow (Z.land ev 0xFF);; mret false
  else if ev =? 8 then nano_backspace;; mret false
  else if ev =? 10 then nano_newline;; mret false
  else if ev =? 9 then
    n ← nano_tab_w;
    each 0 n (fun _ => nano_insert_char 32);;
    mret false
  else if (0x20 <=? ev) && (ev <? 0x7F) then nano_insert_char ev;; mret false
  else mret (ctrl 99 67).

Definition nano_open (path : list Z) : C unit :=
  fname ← fname_of;
  fname ← resolve path fname 128;
  fname ← aset fname 127 0;
  on_ed (modify (set_n_fname fname));;
  on_text (modify (set_lcount 1));;
  on_text (clear_row 0);;
  on_text (modify (fun t => set_modified 0 (set_cur_col 0 (set_cur_row 0 t))));;
  on_ed (modify (fun e => set_n_scroll_x 0 (set_n_scroll 0 e)));;
  clear_status;;
  nano_load_file fname;;
  n ← text_is t_lcount;
  if n <? 1 then on_text (modify (set_lcount 1));; on_text (clear_row 0) else mret tt.

Definition cmd_nano (argc : Z) (argv : list (list Z)) : C Z :=
  if argc <? 2 then
    say "Usage: nano <path>\n" [];;
    say "  arrows: move   ^O: save   ^X: exit   ^G: help\n" [];;
    mret 0
  else
    w ← arg argv 1;
    nano_open w;;
    r ← while_ fuel tt (fun _ =>
      nano_clamp_cursor;;
      nano_draw;;
      ev ← nano_event;
      done ← nano_key ev;
      if (done : bool) then mret (Ret tt) else mret (Cont tt));
    match r with
    | inl _ => stuck OutOfFuel
    | inr _ =>
        on_scr term_clear;;
        on_scr (modify (fun t => set_t_col 0 (set_t_row 0 t)));;
        on_scr (update_cursor 0 0);;
        mret 0
    end.
End Nano.
