(* ===== verification/NanoFacts.v ===== *)
(** Correctness of the keys of [nano]: an event is one edit of a flat text with
    a cursor. *)
From Stdlib Require Import ZArith Lia List String.
From stdpp Require Import base tactics numbers list gmap strings option.
From S2P Require Import Prelude Pmm Vmm Heap CString Sched UserTask Bytes Buffer Ata Disk Ext2 Vfs NetState Net Fbcon Term Printk Keyboard Readline Text TextBuf TextFacts FlatText Paths Machine MachineDemo Commands FileCommands Nano.
Open Scope Z_scope.

Definition KEY_LEFT : Z := EV_NAV 3.
Definition KEY_RIGHT : Z := EV_NAV 4.

(** The edit of an event. *)
Definition edit (ev : Z) (p : list Z * list Z) : list Z * list Z :=
  if ev =? KEY_LEFT then move_left p
  else if ev =? KEY_RIGHT then move_right p
  else if ev =? 8 then erase p
  else if ev =? 9 then Nat.iter (Z.to_nat (4 - column p `mod` 4)) (type_char 32) p
  else type_char ev p.

(** The events that edit the text or move along it. *)
Definition is_edit (ev : Z) : Prop := ev = KEY_LEFT \/ ev = KEY_RIGHT \/ ev = 8 \/ ev = 9 \/ ev = 10 \/ 32 <= ev < 127.

Section Left_right.
Implicit Types (bf af : list Z) (b : textbuf).

(** Moving the cursor within the rows. *)
Lemma text_at_col ls r c c' b : text_at ls r c b -> 0 <= c' <= lenZ (row ls r) -> text_at ls r c' (set_cur_col c' b).
Proof. intros [? ? ? ? ?] Hc. by split. Qed.
Lemma text_at_row ls r c r' c' b : text_at ls r c b -> 0 <= r' < lenZ ls -> 0 <= c' <= lenZ (row ls r') ->
  text_at ls r' c' (set_cur_col c' (set_cur_row r' b)).
Proof. intros [? ? ? ? ?] Hr Hc. by split. Qed.
End Left_right.

Section Keys.
Context {P K D H N R : Type} `{Ports P, KbdHw K, BlockDevice D, KernelHeap H, Locals}.
Notation Mach := (machine P K D H N R).
Implicit Types (s : Mach) (bf af : list Z).

Variable fuel : nat.

Definition doc s : textbuf := n_text (ed s).
Definition with_doc (b : textbuf) s : Mach := set_ed (set_n_text b (ed s)) s.

Lemma with_doc_id s : with_doc (doc s) s = s.
Proof. by destruct s as [? ? ? ? ? [] ? ?]. Qed.
Lemma doc_with_doc b s : doc (with_doc b s) = b.
Proof. done. Qed.
Lemma with_doc_twice b b' s : with_doc b (with_doc b' s) = with_doc b s.
Proof. done. Qed.

Lemma wp_on_text {A} (m : M textbuf A) (Q : A -> Mach -> Prop) s :
  wp m (fun a b => Q a (with_doc b s)) (doc s) -> wp (on_text m) Q s.
Proof. intros Hm. unfold on_text, on_ed. wp_step. wp_step. exact Hm. Qed.

Lemma wp_text_is f (Q : Z -> Mach -> Prop) s : Q (f (doc s)) s -> wp (text_is f) Q s.
Proof. intros HQ. by apply wp_gets. Qed.

Lemma wp_set_text f (Q : unit -> Mach -> Prop) s : Q tt (with_doc (f (doc s)) s) -> wp (on_text (modify f)) Q s.
Proof. intros HQ. apply wp_on_text. by apply wp_modify. Qed.

(** Left and right move over one character of the text, newlines included. *)
Lemma wp_arrow_left bf af (Q : unit -> Mach -> Prop) s : shows bf af (doc s) ->
  (forall b', shows (fst (move_left (bf, af))) (snd (move_left (bf, af))) b' -> Q tt (with_doc b' s)) ->
  wp (nano_arrow 3) Q s.
Proof.
  intros (ls & r & c & Hat & Hls & Hb & Ha) HQ. pose proof Hat as [Hrows [Hn Hlim] Hl [Hr Hr2] [Hc Hc2]].
  unfold nano_arrow. do 3 (wp_step; apply wp_text_is). rewrite Hr, Hc. cbn [Z.eqb Pos.eqb]. unfold move_left in HQ. simpl in HQ.
  destruct (Z.ltb_spec 0 c).
  - apply wp_set_text, HQ. destruct (before_next ls r (c - 1) Hr2 ltac:(lia)) as [Hbn Han].
    replace (c - 1 + 1) with c in * by lia. rewrite Hb in Hbn. rewrite Hbn, reverse_snoc, reverse_involutive. simpl.
    exists ls, r, (c - 1). rewrite Han, Ha. split; [by apply (text_at_col ls r c); [|lia] | done].
  - destruct (Z.ltb_spec 0 r).
    + wp_step. apply wp_on_text, (wp_line_len (r - 1) (row ls (r - 1))); [lia | apply Hl; lia|].
      rewrite with_doc_id. apply wp_set_text, HQ. destruct (before_down ls (r - 1)) as [Hbd Had]; [lia | lia|].
      replace (r - 1 + 1) with r in * by lia. replace c with 0 in * by lia.
      rewrite Hb in Hbd. rewrite Hbd, reverse_snoc, reverse_involutive. simpl.
      exists ls, (r - 1), (lenZ (row ls (r - 1))). rewrite Had, Ha.
      split; [|done]. pose proof (lenZ_nonneg (row ls (r - 1))). by apply (text_at_row ls r 0); [| lia | lia].
    + wp_step. rewrite <- (with_doc_id s). apply HQ. replace r with 0 in * by lia. replace c with 0 in * by lia.
      rewrite before_start in Hb. subst bf. by exists ls, 0, 0.
Qed.

Lemma wp_arrow_right bf af (Q : unit -> Mach -> Prop) s : shows bf af (doc s) ->
  (forall b', shows (fst (move_right (bf, af))) (snd (move_right (bf, af))) b' -> Q tt (with_doc b' s)) ->
  wp (nano_arrow 4) Q s.
Proof.
  intros (ls & r & c & Hat & Hls & Hb & Ha) HQ. pose proof Hat as [Hrows [Hn Hlim] Hl [Hr Hr2] [Hc Hc2]].
  unfold nano_arrow. do 3 (wp_step; apply wp_text_is). rewrite Hr, Hc, Hn. cbn [Z.eqb Pos.eqb]. unfold move_right in HQ. simpl in HQ.
  wp_step. apply wp_on_text, (wp_line_len r (row ls r)); [lia | apply Hl; lia|]. rewrite with_doc_id.
  destruct (Z.ltb_spec c (lenZ (row ls r))).
  - apply wp_set_text, HQ. destruct (before_next ls r c Hr2 ltac:(lia)) as [Hbn Han].
    rewrite Ha in Han. rewrite Han. simpl.
    exists ls, r, (c + 1). rewrite Hbn, Hb. split; [by apply (text_at_col ls r c); [|lia] | done].
  - replace c with (lenZ (row ls r)) in * by lia. destruct (Z.ltb_spec r (lenZ ls - 1)).
    + apply wp_set_text, HQ. destruct (before_down ls r) as [Hbd Had]; [lia | lia|].
      rewrite Ha in Had. rewrite Had. simpl. exists ls, (r + 1), 0. rewrite Hbd, Hb.
      split; [|done]. pose proof (lenZ_nonneg (row ls (r + 1))). by apply (text_at_row ls r (lenZ (row ls r))); [| lia | lia].
    + wp_step. rewrite <- (with_doc_id s). apply HQ. assert (af = []) as -> by (rewrite <- Ha; apply after_end; lia).
      by exists ls, r, (lenZ (row ls r)).
Qed.

(** The tab key types spaces up to the next multiple of four. *)
Lemma wp_tab n bf af (Q : unit -> Mach -> Prop) s : 0 <= n -> shows bf af (doc s) ->
  (forall b', shows (fst (Nat.iter (Z.to_nat n) (type_char 32) (bf, af))) (snd (Nat.iter (Z.to_nat n) (type_char 32) (bf, af))) b' ->
    Q tt (with_doc b' s)) ->
  wp (each 0 n (fun _ => nano_insert_char 32)) Q s.
Proof.
  intros Hn Hs HQ. unfold each. apply wp_locals.
  apply (wp_for (fun i _ s' => exists b, s' = with_doc b s /\
    shows (fst (Nat.iter (Z.to_nat i) (type_char 32) (bf, af))) (snd (Nat.iter (Z.to_nat i) (type_char 32) (bf, af))) b)).
  - exists (doc s). by rewrite with_doc_id.
  - intros i [] s' Hi (b & -> & Hb). wp_step. apply wp_on_text. rewrite doc_with_doc.
    eapply wp_shows_type; [exact Hb | lia | lia |]. intros b' Hb'. wp_step. exists b'. split; [done|].
    replace (Z.to_nat (i + 1)) with (S (Z.to_nat i)) by lia. rewrite <- surjective_pairing in Hb'. exact Hb'.
  - intros [] s' (b & -> & Hb). apply HQ. unfold span in Hb. by replace (0 + Z.of_nat (Z.to_nat (n - 0))) with n in Hb by lia.
Qed.
End Keys.

(** * Properties *)

Section Edit.
Context {P K D H N R : Type} `{Ports P, KbdHw K, BlockDevice D, KernelHeap H, Locals}.
Notation Mach := (machine P K D H N R).
Implicit Types (s : Mach) (bf af : list Z).

(** C11: [nano] edits one text.  Whenever the rows and the cursor of the editor
    stand for a text with a cursor in it, a printable character, Enter, Tab,
    Backspace, or a left or right arrow leaves rows and a cursor that stand for
    the text the event's edit makes, and changes nothing else of the machine.
    The edits: a character goes in front of the cursor if the text still fits
    the arrays and is ignored otherwise; Tab types spaces to the next column
    that is a multiple of four; the arrows move over one character, newlines
    included; Backspace erases the character before the cursor - and when that
    is a newline the cursor does not stay at the join but goes to the end of the
    line that was joined.  The only condition is for that last case: the joined
    line must fit a row, or its end would be lost. *)
Theorem nano_key_edit fuel ev bf af s : is_edit ev -> shows bf af (doc s) ->
  (ev = 8 -> fits (fst (erase (bf, af)) ++ snd (erase (bf, af)))) ->
  exists b, nano_key fuel ev s = Ok false (with_doc b s) /\ shows (fst (edit ev (bf, af))) (snd (edit ev (bf, af))) b.
Proof.
  intros Hev Hs Hfit. enough (Hw : wp (nano_key fuel ev) (fun done s' => done = false /\ exists b, s' = with_doc b s /\
    shows (fst (edit ev (bf, af))) (snd (edit ev (bf, af))) b) s).
  { apply wp_ok in Hw as (a & s' & Heq & -> & b & -> & Hb). eauto. }
  assert (Hchar : forall (m : M Mach unit), (forall Q : unit -> Mach -> Prop,
      (forall b, shows (fst (edit ev (bf, af))) (snd (edit ev (bf, af))) b -> Q tt (with_doc b s)) -> wp m Q s) ->
    wp (m;; mret false) (fun done s' => done = false /\ exists b, s' = with_doc b s /\
      shows (fst (edit ev (bf, af))) (snd (edit ev (bf, af))) b) s).
  { intros m Hm. wp_step. apply Hm. intros b Hb. wp_step. eauto. }
  destruct Hev as [->|[->|[->|[->|[->|Hev]]]]].
  - apply Hchar. intros Q HQ. by eapply wp_arrow_left.
  - apply Hchar. intros Q HQ. by eapply wp_arrow_right.
  - apply Hchar. intros Q HQ. apply wp_on_text. by apply (wp_shows_erase bf af); [done | apply Hfit |].
  - change (wp ((n ← nano_tab_w; each 0 n (fun _ => nano_insert_char 32));; mret false) (fun done s' => done = false /\
      exists b, s' = with_doc b s /\ shows (fst (edit 9 (bf, af))) (snd (edit 9 (bf, af))) b) s).
    apply Hchar. intros Q HQ. unfold nano_tab_w. do 2 wp_step. apply wp_text_is.
    rewrite <- (shows_column bf af) by done. wp_step.
    assert (Hc : 0 <= column (bf, af)) by apply lenZ_nonneg. rewrite Z.rem_mod_nonneg by lia.
    pose proof (Z.mod_pos_bound (column (bf, af)) 4). by eapply wp_tab; [lia | |].
  - apply Hchar. intros Q HQ. apply wp_on_text. by eapply wp_shows_newline.
  - assert (edit ev (bf, af) = type_char ev (bf, af)) as Hedit.
    { unfold edit, KEY_LEFT, KEY_RIGHT, EV_NAV. change (Z.lor 0x100 3) with 259. change (Z.lor 0x100 4) with 260.
      by rewrite !(proj2 (Z.eqb_neq _ _)) by lia. }
    rewrite Hedit in *.
    replace (nano_key fuel ev) with (nano_insert_char (P := P) (K := K) (D := D) (H := H) (N := N) (R := R) ev;; mret false).
    + apply Hchar. intros Q HQ. apply wp_on_text. by eapply wp_shows_type; [done | lia | lia |].
    + unfold nano_key, EV_CTRL, EV_REDRAW, EV_CANCEL, EV_NAV.
      repeat match goal with |- context [Z.lor ?a ?b] => let v := eval vm_compute in (Z.lor a b) in change (Z.lor a b) with v end.
      rewrite !(proj2 (Z.eqb_neq _ _)) by lia. rewrite (proj2 (Z.leb_gt _ ev)), (proj2 (Z.leb_le _ ev)), (proj2 (Z.ltb_lt ev _)) by lia.
      done.
Qed.
End Edit.

(** * Examples *)

Lemma rows_ok_check L : lenZ L = MAX_LINES -> forallb (fun l => lenZ l =? MAX_COL) L = true -> rows_ok L.
Proof.
  intros Hl Hf. split; [done|]. intros i Hi. rewrite forallb_forall in Hf.
  apply Z.eqb_eq, Hf. unfold row. apply nth_In. unfold lenZ in *. lia.
Qed.

(** The lines "ab" and "cd", the cursor at the start of the second. *)
Definition two_lines : textbuf :=
  mkText (([97; 98] ++ replicate 158 0) :: ([99; 100] ++ replicate 158 0) :: replicate 510 (replicate 160 0)) 2 1 0 0.

Lemma two_lines_shown : shows [97; 98; 10] [99; 100] two_lines.
Proof.
  exists [[97; 98]; [99; 100]], 1, 0. split; [|by repeat constructor]. split.
  - apply rows_ok_check; by vm_compute.
  - done.
  - intros i Hi. change (0 <= i < 2) in Hi.
    assert (i = 0 \/ i = 1) as [-> | ->] by lia; (split; [by vm_compute|]; split; [by repeat constructor|]; split; [|by vm_compute]);
      intros j Hj; change (0 <= j < 2) in Hj; by assert (j = 0 \/ j = 1) as [-> | ->] by lia.
  - done.
  - done.
Qed.

(** Backspace at the start of "cd": the cursor goes behind "abcd". *)
Lemma nano_key_edit_witness : exists b,
  nano_key 5 8 (with_doc two_lines demo_machine) = Ok false (with_doc b (with_doc two_lines demo_machine)) /\
  shows [97; 98; 99; 100] [] b.
Proof.
  assert (Hev : is_edit 8) by (right; right; by left).
  assert (Hs : shows [97; 98; 10] [99; 100] (doc (with_doc two_lines demo_machine))) by exact two_lines_shown.
  assert (Hf : 8 = 8 -> fits (fst (erase ([97; 98; 10], [99; 100])) ++ snd (erase ([97; 98; 10], [99; 100])))).
  { intros _. split; [by repeat constructor | by vm_compute]. }
  exact (nano_key_edit 5 8 [97; 98; 10] [99; 100] (with_doc two_lines demo_machine) Hev Hs Hf).
Defined.
