(* ===== verification/ViFiles.v ===== *)
(** The files of [vi] of [src/kernel/shell/editors.c] and its ex commands, the
    ones typed behind a colon. *)
From Stdlib Require Import ZArith Lia List String.
From stdpp Require Import base tactics numbers list gmap strings option.
From S2P Require Import Prelude Pmm Vmm Heap CString Sched UserTask Bytes Ata Disk Ext2 Vfs NetState Net Fbcon Term Printk Keyboard Readline Text TextBuf ViState ViEdit Paths Machine Commands FileCommands Nano.
Open Scope Z_scope.

Section Files.
Context {P K D H N R : Type} `{Ports P, KbdHw K, BlockDevice D, KernelHeap H, Locals}.
Notation C := (M (machine P K D H N R)).

Variable fuel : nat.

Definition tell (s : string) : C unit := on_vi (message s).
Definition clear_msg : C unit := on_vi (put_char vi_msg 0 0).
(** [snprintf(x, sizeof(x), format, ...)] *)
Definition print_to (x : vi_array) (size : Z) (format : list Z) (ap : list fmt_arg) : C unit :=
  on_vi (l ← array x; r ← snprintf l size format ap; set_buf x (fst r)).

(** An empty text with the cursor at its start. *)
Definition vi_empty : V unit := set_count 1;; on_lines (clear_row 0).
Definition vi_start : V unit :=
  vi_empty;;
  set_row 0;;
  set_col 0;;
  put vi_scroll 0;;
  put vi_scroll_x 0;;
  mark_modified 0.
Definition vi_at_least_one : V unit := n ← vi_lcount; if n <? 1 then vi_empty else mret tt.

(** * Files *)

(** [while ((n = vfs_read(fd, buf, 1024)) > 0)] with [body] for every byte;
    [body] may leave the loop over the buffer. *)
Definition read_bytes {L} (fd : Z) (l : L) (body : Z -> L -> V (ctl L Empty_set)) : C L :=
  l ← locals (while_ fuel (local_array 1024, l) (fun '(buf, l) =>
    r ← on_fs (vfs_read fd buf 1024);
    let '(n, buf) := r in
    if 0 <? n then
      l ← locals (for_ (span 0 n) 0 l (fun i l =>
        c ← aget buf i;
        on_vi (body c l)));
      mret (Cont (buf, l))
    else mret (Brk (buf, l))));
  mret (snd l).

Definition vi_load_file (path : list Z) : C unit :=
  on_vi vi_empty;;
  let tmp := replicate (Z.to_nat TMP_SZ) 0 in
  fd ← on_fs (vfs_open path VFS_O_READ);
  if fd <? 0 then
    on_vi (m ← array vi_msg; m ← strcpy m (text "[New file]"); set_buf vi_msg m)
  else
    p ← read_bytes fd (tmp, 0) (fun c '(tmp, tpos) => p ← on_lines (load_char c tmp tpos); mret (Cont p));
    on_fs (vfs_close fd);;
    on_vi (on_lines (load_end (fst p) (snd p))).

Definition BYTES_FMT : list Z := [34] ++ chars "%s" ++ [34] ++ text " %d bytes written".

Definition vi_save_file (path : list Z) : C Z :=
  fd ← on_fs (vfs_open path (Z.lor (Z.lor VFS_O_READ VFS_O_WRITE) VFS_O_CREATE));
  if fd <? 0 then print_to vi_status VI_STATUS_SZ (text "Save FAILED: open(%d)") [ArgInt fd];; mret (-1)
  else
    t ← on_fs (vfs_truncate path 0);
    if negb (t =? VFS_OK) then
      print_to vi_status VI_STATUS_SZ (text "Save FAILED: truncate") [];;
      on_fs (vfs_close fd);;
      mret (-1)
    else
      n ← on_vi vi_lcount;
      let failed i :=
        print_to vi_status VI_STATUS_SZ (text "Save FAILED: write(%d)") [ArgInt i];;
        on_fs (vfs_close fd);;
        mret (Ret (-1)) in
      r ← for_ (span 0 n) 0 0 (fun i total =>
        len ← on_vi (vi_llen i);
        l ← on_vi (line i);
        w ← on_fs (vfs_write fd l len);
        if negb (w =? len) then failed i
        else if (i =? n - 1) && (len =? 0) then mret (Cont total)
        else
          w ← on_fs (vfs_write fd (text "\n") 1);
          if negb (w =? 1) then failed i
          else mret (Cont (total + len + 1)));
      match r with
      | inr v => mret v
      | inl total =>
          on_fs (vfs_close fd);;
          on_vi (mark_modified 0);;
          print_to vi_msg VI_STATUS_SZ BYTES_FMT [ArgStr path; ArgInt total];;
          on_vi (put_char vi_msg (VI_STATUS_SZ - 1) 0);;
          mret 0
      end.

(** * Ex commands *)

(** [while ( *p == ' ') p++;] from [cmd + o] *)
Definition skip_spaces (cmd : list Z) (o : Z) : C (list Z) :=
  i ← locals (while_ (Datatypes.length cmd + 1) o (fun i =>
    v ← aget cmd i;
    if v =? 32 then mret (Cont (i + 1)) else mret (Brk i)));
  mret (drop (Z.to_nat i) cmd).

(** [:e path] *)
Definition ex_edit (cmd : list Z) : C unit :=
  p ← skip_spaces cmd 2;
  fname ← on_vi (array vi_fname);
  fname ← resolve p fname 128;
  fname ← aset fname 127 0;
  on_vi (set_buf vi_fname fname);;
  on_vi vi_start;;
  vi_load_file fname;;
  on_vi vi_at_least_one;;
  tell "".

(** Room for a row at [r]. *)
Definition open_row (r : Z) : V unit :=
  n ← vi_lcount;
  on_lines (rows_down n r);;
  set_count (n + 1);;
  on_lines (clear_row r).

(** One character of the file of [:r]: the line read so far, its length and the
    row it goes to. *)
Definition read_char (c : Z) (p : list Z * Z * Z) : V (ctl (list Z * Z * Z) Empty_set) :=
  let '(tline, tpos, ins_row) := p in
  if c =? 10 then
    let tpos := Z.min tpos (MAX_COL - 1) in
    on_lines (store_line ins_row tline tpos);;
    if MAX_LINES <=? ins_row + 1 then mret (Brk (tline, tpos, ins_row + 1))
    else open_row (ins_row + 1);; mret (Cont (tline, 0, ins_row + 1))
  else if tpos <? TMP_SZ - 1 then
    tline ← aset tline tpos c;
    mret (Cont (tline, tpos + 1, ins_row))
  else mret (Cont (tline, tpos, ins_row)).

(** [:r path] *)
Definition ex_read (cmd : list Z) : C unit :=
  row ← on_vi vi_row;
  let ins_row := row + 1 in
  p ← skip_spaces cmd 2;
  fd ← on_fs (vfs_open p VFS_O_READ);
  if fd <? 0 then tell "File not found"
  else
    n ← on_vi vi_lcount;
    if MAX_LINES <=? n then on_fs (vfs_close fd);; mret tt
    else
      on_vi (open_row ins_row);;
      p ← read_bytes fd (local_array TMP_SZ, 0, ins_row) read_char;
      on_fs (vfs_close fd);;
      let '(tline, tpos, ins_row) := p in
      (if (0 <? tpos) && (ins_row <? MAX_LINES) then
         on_vi (on_lines (store_line ins_row tline (Z.min tpos (MAX_COL - 1))))
       else mret tt);;
      on_vi (mark_modified 1).

(** A pattern or a replacement and its length, one character longer if it
    fits. *)
Definition push (s : list Z * Z) (c : Z) : C (list Z * Z) :=
  let '(l, n) := s in
  if n <? VI_SEARCH_SZ - 1 then l ← aset l n c; mret (l, n + 1) else mret s.

(** The pattern and the replacement behind [cmd + o]. *)
Definition ex_parse (cmd : list Z) (o : Z) : C ((list Z * Z) * (list Z * Z)) :=
  let empty := (replicate (Z.to_nat VI_SEARCH_SZ) 0, 0) in
  l ← locals (while_ (Datatypes.length cmd + 1) (o, 0, empty, empty) (fun '(i, phase, pat, rep) =>
    c ← aget cmd i;
    if negb (c =? 0) && (phase <? 2) then
      if phase =? 0 then
        if c =? 47 then mret (Cont (i + 1, 1, pat, rep))
        else pat ← push pat c; mret (Cont (i + 1, phase, pat, rep))
      else if (c =? 47) || (c =? 103) then
        next ← aget cmd (i + 1);
        mret (Cont (i + 1, if (next =? 0) || (c =? 47) then 2 else phase, pat, rep))
      else rep ← push rep c; mret (Cont (i + 1, phase, pat, rep))
    else mret (Brk (i, phase, pat, rep))));
  let '(_, _, pat, rep) := l in
  mret (pat, rep).

Definition substitute (row : Z) (pr : (list Z * Z) * (list Z * Z)) : V unit :=
  let '((pat, plen), (rep, rlen)) := pr in vi_substitute_line row pat plen rep rlen.

(** [cmd] starts with [s]: [cmd[0] == s[0] && cmd[1] == s[1] && ...] *)
Definition begins (cmd : list Z) (s : string) : C bool :=
  r ← for_ (List.length (chars s)) 0 tt (fun i _ =>
    c ← aget cmd i;
    if c =? nth (Z.to_nat i) (chars s) 0 then mret (Cont tt) else mret (Ret false));
  match r with inl _ => mret true | inr b => mret b end.

Definition set_numbers (nu rnu : Z) : C unit :=
  on_vi (put vi_show_nu nu;; put vi_show_rnu rnu);;
  tell "".

(** [cmd] is one of the words. *)
Fixpoint str_one_of (cmd : list Z) (l : list string) : C bool :=
  match l with
  | [] => mret false
  | s :: l => b ← str_is cmd s; if (b : bool) then mret true else str_one_of cmd l
  end.

(** The commands from [:s/] on, tried in this order. *)
Definition ex_change (cmd : list Z) : C unit :=
  b ← begins cmd "s/";
  if (b : bool) then
    pr ← ex_parse cmd 2;
    row ← on_vi vi_row;
    on_vi (substitute row pr);;
    on_vi (mark_modified 1);;
    tell ""
  else
    b ← begins cmd "%s/";
    if (b : bool) then
      pr ← ex_parse cmd 3;
      n ← on_vi vi_lcount;
      each 0 n (fun i => on_vi (substitute i pr));;
      on_vi (mark_modified 1);;
      tell ""
    else
      b ← begins cmd ">>";
      if (b : bool) then on_vi (vi_indent 1);; tell ""
      else
        b ← begins cmd "<<";
        if (b : bool) then on_vi (vi_indent (-1));; tell ""
        else
          b ← str_is cmd "help";
          if (b : bool) then tell ":w :q :wq :x :! :e f :r f :%s//g :s// :set nu/rnu :noh :d :>> :<<"
          else tell "Not an editor command".

(** The settings, then the rest. *)
Definition ex_set (cmd : list Z) : C unit :=
  b ← str_is cmd "set nu";
  if (b : bool) then set_numbers 1 0
  else
    b ← str_is cmd "set rnu";
    if (b : bool) then set_numbers 0 1
    else
      b ← str_one_of cmd ["set nonu"; "set nornu"];
      if (b : bool) then set_numbers 0 0
      else
        b ← str_one_of cmd ["noh"; "nohlsearch"];
        if (b : bool) then on_vi (put vi_search_highlight 0);; tell ""
        else ex_change cmd.

Definition save : C Z := fname ← on_vi (array vi_fname); vi_save_file fname.
Definition finish : C unit := on_vi (put vi_done 1).

Definition vi_exec_cmd (cmd : list Z) : C unit :=
  b ← str_is cmd "w";
  if (b : bool) then save;; mret tt
  else
    b ← str_is cmd "q";
    if (b : bool) then
      m ← on_vi vi_modified;
      if negb (m =? 0) then tell "No write since last change (add ! to override)" else finish
    else
      b ← str_is cmd "q!";
      if (b : bool) then finish
      else
        b ← str_one_of cmd ["wq"; "wq!"; "x"];
        if (b : bool) then
          r ← save;
          if r =? 0 then finish else mret tt
        else
          b ← begins cmd "e ";
          if (b : bool) then ex_edit cmd
          else
            b ← begins cmd "r ";
            b' ← (if (b : bool) then mret true else begins cmd "r!");
            if (b' : bool) then ex_read cmd else ex_set cmd.
End Files.
