(* ===== verification/ViScreen.v ===== *)
(** The screen of [vi] of [src/kernel/shell/editors.c]: drawing the text, the
    status bar and the prompts, and keeping the cursor on it. *)
From Stdlib Require Import ZArith Lia List String.
From stdpp Require Import base tactics numbers list gmap strings option.
From S2P Require Import Prelude Pmm Vmm Heap CString Sched UserTask Bytes Ata Disk Ext2 Vfs NetState Net Fbcon Term Printk Keyboard Readline Text TextBuf ViState ViEdit Paths Machine Commands FileCommands Nano ViFiles.
Open Scope Z_scope.

Definition VGA_COLOR_DARK_GREY : Z := 8.
Definition VGA_COLOR_LIGHT_BROWN : Z := 14.


Section Screen.
Context {P K D H N R : Type} `{Ports P, KbdHw K, BlockDevice D, KernelHeap H, Locals}.
Notation C := (M (machine P K D H N R)).

(** * Drawing *)

Definition vi_is (x : vi_int) : C Z := gets (fun s => ints (ved s) x).
Definition vtext (f : textbuf -> Z) : C Z := gets (fun s => f (v_text (ved s))).

(** The string [l] from the left end of row [y], cut at the width. *)
Definition vi_draw_text (l : list Z) (color w y : Z) : C unit :=
  locals (while_ (Datatypes.length l + 1) 0 (fun i =>
    c ← aget l i;
    if negb (c =? 0) && (i <? w) then
      put_at c color i y;;
      mret (Cont (i + 1))
    else mret (Brk i)));;
  mret tt.

(** Whether the cell at column [ci] of row [lineno] is selected. *)
Definition in_selection (lineno ci : Z) : V bool :=
  t ← get vi_vis_type;
  mode ← get vi_mode;
  if negb (t =? VIS_NONE) && (mode =? VI_M_VIS) then
    r1 ← get vi_vis_start_row;
    c1 ← get vi_vis_start_col;
    r2 ← vi_row;
    c2 ← vi_col;
    let '(vsr, vsc, ver, vec) := ordered r1 c1 r2 c2 in
    mret (if t =? VIS_LINE then (vsr <=? lineno) && (lineno <=? ver)
          else if (vsr <? lineno) && (lineno <? ver) then true
          else if (lineno =? vsr) && (lineno =? ver) then (vsc <=? ci) && (ci <=? vec)
          else if lineno =? vsr then vsc <=? ci
          else if lineno =? ver then ci <=? vec
          else false)
  else mret false.

(** Whether a match of the last pattern starts there. *)
Definition highlighted (lineno ci : Z) : V bool :=
  h ← get vi_search_highlight;
  n ← get vi_search_len;
  if negb (h =? 0) && (0 <? n) && (0 <=? ci) then
    ll ← vi_llen lineno;
    if ci <=? ll - n then
      pat ← array vi_search_pat;
      matches pat n lineno ci
    else mret false
  else mret false.

Definition draw_cell (gnu_w lineno x y : Z) : C unit :=
  sx ← vi_is vi_scroll_x;
  let ci := sx + (x - gnu_w) in
  c ← (if (ci <? MAX_COL) && (0 <=? ci) then on_vi (line_char lineno ci) else mret 0);
  sel ← on_vi (in_selection lineno ci);
  hl ← (if (sel : bool) then mret false else on_vi (highlighted lineno ci));
  put_at (if negb (c =? 0) then c else 32)
    (if (sel : bool) then vga_entry_color VGA_COLOR_BLACK VGA_COLOR_LIGHT_CYAN
     else if (hl : bool) then vga_entry_color VGA_COLOR_BLACK VGA_COLOR_LIGHT_BROWN
     else vga_entry_color VGA_COLOR_LIGHT_GREY VGA_COLOR_BLACK) x y.

Definition draw_number (gnu_w lineno y : Z) : C unit :=
  nu ← vi_is vi_show_nu;
  row ← vtext cur_row;
  let n := if negb (nu =? 0) then lineno + 1
           else if 0 <? row - lineno then row - lineno else lineno - row + 1 in
  r ← snprintf (local_array 5) 5 (text "%4d") [ArgInt (Z.min n 9999)];
  each 0 gnu_w (fun x =>
    c ← aget (fst r) x;
    put_at c (vga_entry_color VGA_COLOR_DARK_GREY VGA_COLOR_BLACK) x y).

Definition vi_draw_row (gnu_w w r : Z) : C unit :=
  let tilde_color := vga_entry_color VGA_COLOR_DARK_GREY VGA_COLOR_BLACK in
  scroll ← vi_is vi_scroll;
  let lineno := scroll + r in
  n ← vtext t_lcount;
  if n <=? lineno then
    put_at 126 tilde_color 0 r;;
    each 1 w (fun x => put_at 32 tilde_color x r)
  else
    (if 0 <? gnu_w then draw_number gnu_w lineno r else mret tt);;
    each gnu_w w (fun x => draw_cell gnu_w lineno x r).

(** A prompt: [first] and the [len] characters typed so far. *)
Definition draw_prompt (first : Z) (l : list Z) (len bar_color w y : Z) : C unit :=
  bar ← aset (local_array 128) 0 first;
  bar ← locals (for_ (span 0 (Z.min len (w - 2))) 0 bar (fun i bar =>
    c ← aget l i;
    bar ← aset bar (1 + i) c;
    mret (Cont bar)));
  bar ← aset bar (1 + (if len <? w - 2 then len else w - 2)) 0;
  vi_draw_text bar bar_color w y.

Definition MODE_FMT : list Z := text "%s  [Ln %d, Col %d]%s  %s".

Definition draw_mode (bar_color w y : Z) : C unit :=
  s ← gets ved;
  let mode := ints s vi_mode in
  let mode_str :=
    if mode =? VI_M_INS then "-- INSERT --"
    else if mode =? VI_M_VIS then
      (if ints s vi_vis_type =? VIS_LINE then "-- V-LINE --" else "-- VISUAL --")
    else "-- NORMAL --" in
  flags ← aset (local_array 16) 0 0;
  flags ← (if negb (t_modified (v_text s) =? 0) then strcat flags (text "+") else mret flags);
  flags ← (if negb (ints s vi_show_nu =? 0) then strcat flags (text "nu ") else mret flags);
  flags ← (if negb (ints s vi_show_rnu =? 0) then strcat flags (text "rnu ") else mret flags);
  r ← snprintf (local_array 128) 128 MODE_FMT
    [ArgStr (arrays s vi_fname); ArgInt (cur_row (v_text s) + 1); ArgInt (cur_col (v_text s) + 1);
     ArgStr flags; ArgStr (text mode_str)];
  vi_draw_text (fst r) bar_color w y.

Definition vi_status_bar (w y : Z) : C unit :=
  let bar_color := vga_entry_color VGA_COLOR_BLACK VGA_COLOR_LIGHT_GREY in
  each 0 w (fun x => put_at 32 bar_color x y);;
  mode ← vi_is vi_mode;
  if mode =? VI_M_CMD then
    l ← on_vi (array vi_cmd);
    n ← vi_is vi_cmd_len;
    draw_prompt 58 l n bar_color w y
  else if mode =? VI_M_SEARCH then
    dir ← vi_is vi_search_dir;
    l ← on_vi (array vi_search_prompt);
    n ← vi_is vi_search_prompt_len;
    draw_prompt (if 0 <? dir then 47 else 63) l n bar_color w y
  else
    m ← on_vi (array vi_msg);
    c ← aget m 0;
    if negb (c =? 0) then vi_draw_text m bar_color w y else draw_mode bar_color w y.

Definition vi_draw : C unit :=
  h ← term_h;
  w ← term_w;
  on_scr term_clear;;
  nu ← vi_is vi_show_nu;
  rnu ← vi_is vi_show_rnu;
  let gnu_w := if negb (nu =? 0) || negb (rnu =? 0) then 4 else 0 in
  each 0 (h - 1) (fun r => vi_draw_row gnu_w w r);;
  vi_status_bar w (h - 1);;
  col ← vtext cur_col;
  row ← vtext cur_row;
  sx ← vi_is vi_scroll_x;
  sy ← vi_is vi_scroll;
  let cx := col - sx + gnu_w in
  let cx := if cx <? gnu_w then gnu_w else cx in
  let cx := if w <=? cx then w - 1 else cx in
  let cx := if 127 <? cx then 127 else cx in
  let cy := row - sy in
  let cy := if cy <? 0 then 0 else cy in
  let cy := if h - 1 <=? cy then h - 1 else cy in
  on_scr (update_cursor (s8 cx) (s8 cy)).

(** * Moving *)

Definition vi_clamp : C unit :=
  h ← term_h;
  w ← term_w;
  on_vi (
    row ← vi_row;
    len ← vi_llen row;
    col ← vi_col;
    (if len <? col then set_col len else mret tt);;
    (if row <? 0 then set_row 0 else mret tt);;
    row ← vi_row;
    n ← vi_lcount;
    (if n <=? row then set_row (n - 1) else mret tt);;
    row ← vi_row;
    scroll ← get vi_scroll;
    (if row <? scroll then put vi_scroll row else mret tt);;
    scroll ← get vi_scroll;
    (if scroll + h - 1 <=? row then put vi_scroll (row - (h - 2)) else mret tt);;
    col ← vi_col;
    sx ← get vi_scroll_x;
    (if col <? sx then put vi_scroll_x col else mret tt);;
    sx ← get vi_scroll_x;
    (if sx + w - 4 <=? col then put vi_scroll_x (col - w + 5) else mret tt);;
    sx ← get vi_scroll_x;
    (if sx <? 0 then put vi_scroll_x 0 else mret tt)).

Definition vi_move (dir : Z) : C unit :=
  row ← vtext cur_row;
  col ← vtext cur_col;
  n ← vtext t_lcount;
  if dir =? 1 then
    if 0 <? row then on_vi (set_row (row - 1));; vi_clamp else mret tt
  else if dir =? 2 then
    if row <? n - 1 then on_vi (set_row (row + 1));; vi_clamp else mret tt
  else if dir =? 3 then
    if 0 <? col then on_vi (set_col (col - 1));; vi_clamp
    else if 0 <? row then
      on_vi (set_row (row - 1);; len ← vi_llen (row - 1); set_col len)
    else mret tt
  else if dir =? 4 then
    len ← on_vi (vi_llen row);
    if col <? len then on_vi (set_col (col + 1));; vi_clamp
    else if row <? n - 1 then on_vi (set_row (row + 1);; set_col 0)
    else mret tt
  else mret tt.
End Screen.
