(* ===== verification/Vi.v ===== *)
(** The keys of [vi] of [src/kernel/shell/editors.c] in each of its modes, and
    the command. *)
From Stdlib Require Import ZArith Lia List String.
From stdpp Require Import base tactics numbers list gmap strings option.
From S2P Require Import Prelude Pmm Vmm Heap CString Sched UserTask Bytes Ata Disk Ext2 Vfs NetState Net Fbcon Term Printk Keyboard Readline Text TextBuf ViState ViEdit Paths Machine Commands FileCommands Nano ViFiles ViScreen.
Open Scope Z_scope.

Definition EV_ESC : Z := 0x400.
(** [ev] is one of the characters of [keys]. *)
Definition one_of (ev : Z) (keys : string) : bool := existsb (Z.eqb ev) (chars keys).
Definition is_nav (ev : Z) : bool := (EV_NAV 1 <=? ev) && (ev <=? EV_NAV 4).

Section Vi.
Context {P K D H N R : Type} `{Ports P, KbdHw K, BlockDevice D, KernelHeap H, Locals}.
Notation C := (M (machine P K D H N R)).

Variable fuel : nat.

(** * Operators *)

(** [G], [H], [M] and [L] *)
Definition goto_row (r : Z) : C unit := on_vi (set_row r;; set_col 0).
Definition goto_screen_row (o : Z) : C unit :=
  scroll ← vi_is vi_scroll;
  n ← vtext t_lcount;
  goto_row (if n <=? scroll + o then n - 1 else scroll + o).
Definition vi_goto (ev : Z) : C unit :=
  h ← term_h;
  if one_of ev "G" then n ← vtext t_lcount; goto_row (n - 1)
  else if one_of ev "H" then scroll ← vi_is vi_scroll; goto_row scroll
  else if one_of ev "M" then goto_screen_row ((h - 2) ÷ 2)
  else goto_screen_row (h - 3).

Definition vi_op_exec (op : Z) (linewise : bool) (r1 c1 r2 c2 : Z) : C unit :=
  let '(sr, sc, er, ec) := ordered r1 c1 r2 c2 in
  let sc := if linewise then 0 else sc in
  let ec := if linewise then 0 else ec in
  if op =? OP_DELETE then on_vi (vi_delete_range r1 c1 r2 c2 linewise);; vi_clamp
  else if op =? OP_YANK then on_vi (yank_range sr sc er ec linewise)
  else if op =? OP_CHANGE then on_vi (vi_change_range r1 c1 r2 c2 linewise)
  else mret tt.

(** The motion of an operator; whether there is one. *)
Definition op_motion (motion : Z) : C bool :=
  row ← vtext cur_row;
  col ← vtext cur_col;
  n ← vtext t_lcount;
  if one_of motion "w" then on_vi vi_word_fwd;; mret true
  else if one_of motion "b" then on_vi vi_word_back;; mret true
  else if one_of motion "e" then on_vi vi_move_word_end;; mret true
  else if one_of motion "$" then on_vi vi_move_eol;; mret true
  else if one_of motion "0" then on_vi (set_col 0);; mret true
  else if one_of motion "^" then on_vi vi_move_first;; mret true
  else if one_of motion "h" then (if 0 <? col then on_vi (set_col (col - 1)) else mret tt);; mret true
  else if one_of motion "l" then
    len ← on_vi (vi_llen row);
    (if col <? len then on_vi (set_col (col + 1)) else mret tt);;
    mret true
  else if one_of motion "j" then (if row <? n - 1 then on_vi (set_row (row + 1)) else mret tt);; mret true
  else if one_of motion "k" then (if 0 <? row then on_vi (set_row (row - 1)) else mret tt);; mret true
  else if one_of motion "GHML" then vi_goto motion;; mret true
  else mret false.

Definition vi_apply_op_motion (op : Z) (linewise : bool) (motion : Z) : C unit :=
  sr ← vtext cur_row;
  sc ← vtext cur_col;
  b ← op_motion motion;
  if (b : bool) then
    row ← vtext cur_row;
    col ← vtext cur_col;
    vi_op_exec op linewise sr sc row col;;
    vi_clamp
  else mret tt.

(** * Events *)

(** One round of the polling loop. *)
Definition vi_event_round : C (ctl unit Z) :=
  c ← kget ctrl_char;
  if negb (c =? 0) then
    c ← kget ctrl_char;
    kset (set_ctrl_char 0);;
    kset (set_in_read 0);;
    mret (Ret (EV_CTRL (u8 c)))
  else
    c ← kget Keyboard.cancel_input;
    if negb (c =? 0) then
      kset (set_cancel_input 0);;
      kset (set_in_read 0);;
      mret (Ret EV_CANCEL)
    else
      c ← kget do_clear_screen;
      if negb (c =? 0) then
        kset (set_do_clear_screen 0);;
        mret (Ret EV_REDRAW)
      else
        nav ← on_con (pressed nav_key);
        if (nav : bool) then
          k ← kget nav_key;
          kset (set_nav_key 0);;
          kset (set_in_read 0);;
          mret (Ret (EV_NAV (s8 k)))
        else
          r ← kget in_read;
          if r =? 1 then
            key ← kget read_key;
            if negb (key =? 0) then
              c ← kget read_key;
              kset (set_read_key 0);;
              kset (set_in_read 0);;
              mret (Ret (u8 c))
            else
              nav ← kget nav_key;
              if nav =? 0 then
                kset (set_in_read 0);;
                mret (Ret EV_ESC)
              else mret (Cont tt)
          else mret (Cont tt).

Definition vi_event : C Z := wait_event fuel vi_event_round.

(** * Normal mode *)

Definition enter (mode : Z) : C unit := on_vi (put vi_mode mode).

Definition vi_enter_insert (kind : Z) : C unit :=
  (if one_of kind "i" then enter VI_M_INS
   else if one_of kind "a" then
     on_vi (row ← vi_row; len ← vi_llen row; col ← vi_col; if col <? len then set_col (col + 1) else mret tt);;
     enter VI_M_INS
   else if one_of kind "I" then on_vi vi_move_first;; enter VI_M_INS
   else if one_of kind "A" then on_vi (row ← vi_row; len ← vi_llen row; set_col len);; enter VI_M_INS
   else if one_of kind "o" then on_vi (vi_open_line false);; enter VI_M_INS
   else if one_of kind "O" then on_vi (vi_open_line true);; enter VI_M_INS
   else mret tt);;
  clear_msg.

(** The key behind [d], [y] or [c]. *)
Definition norm_operator (ev : Z) : C unit :=
  p ← vi_is vi_op;
  on_vi (put vi_op_pending 0;; put vi_op OP_NONE);;
  if (p =? OP_DELETE) && one_of ev "d" then on_vi vi_delete_line;; vi_clamp
  else if (p =? OP_YANK) && one_of ev "y" then
    on_vi (
      row ← vi_row;
      ll ← vi_llen row;
      let ll := if VI_YANK_MAX <=? ll then VI_YANK_MAX - 1 else ll in
      l ← line row;
      tmp ← memcpy (local_array VI_YANK_MAX) 0 l 0 ll;
      tmp ← aset tmp ll 0;
      vi_yank_text tmp 0 ll 1);;
    tell "1 line yanked"
  else if (p =? OP_CHANGE) && one_of ev "c" then
    on_vi (
      vi_save_undo;;
      row ← vi_row;
      on_lines (clear_row row);;
      set_col 0;;
      set_count (row + 1);;
      (if row + 1 <? 1 then set_count 1 else mret tt);;
      n ← vi_lcount;
      (if n <=? row then set_row (n - 1) else mret tt);;
      mark_modified 1);;
    enter VI_M_INS;;
    clear_msg
  else if one_of ev "wbe$0^hl" then vi_apply_op_motion p false ev
  else if one_of ev "jkGHML" then vi_apply_op_motion p true ev
  else mret tt.

(** [f]: the next column of the row that holds the character. *)
Definition find_char (ev : Z) : V unit :=
  row ← vi_row;
  len ← vi_llen row;
  col ← vi_col;
  r ← for_ (span (col + 1) len) (col + 1) tt (fun i _ =>
    v ← line_char row i;
    if v =? u8 ev then set_col i;; mret (Ret tt) else mret (Cont tt));
  match r with inl u => mret u | inr u => mret u end.

(** [z]: the first row of the screen. *)
Definition scroll_to (ev : Z) : C unit :=
  h ← term_h;
  row ← vtext cur_row;
  scroll ← vi_is vi_scroll;
  n ← vtext t_lcount;
  let target :=
    if one_of ev "z" then row - (h - 2) ÷ 2
    else if one_of ev "t" then scroll
    else if one_of ev "b" then scroll + h - 3
    else if one_of ev "m" then scroll + (h - 2) ÷ 2
    else row in
  let target := if target <? 0 then 0 else target in
  on_vi (put vi_scroll (if n - 1 <? target then n - 1 else target)).

(** The key behind [r], [g], [z], [f], [>] or [<]. *)
Definition norm_pending (ev : Z) : C unit :=
  p ← vi_is vi_pending;
  on_vi (put vi_pending 0);;
  if one_of p "r" then
    if (0x20 <=? ev) && (ev <? 0x7F) && negb (ev =? 10) then
      on_vi (vi_save_undo;; row ← vi_row; col ← vi_col; set_line_char row col (u8 ev);; mark_modified 1)
    else mret tt
  else if one_of p "g" && one_of ev "g" then goto_row 0
  else if one_of p "z" then scroll_to ev
  else if one_of p "f" then on_vi (find_char ev)
  else if one_of p ">" && one_of ev ">" then on_vi (vi_indent 1)
  else if one_of p "<" && one_of ev "<" then on_vi (vi_indent (-1))
  else mret tt.

(** The motions visual mode has too; whether the key is one. *)
Definition motion_key (ev : Z) : C bool :=
  if one_of ev "h" || (ev =? 8) then vi_move 3;; mret true
  else if one_of ev "j" then vi_move 2;; mret true
  else if one_of ev "k" then vi_move 1;; mret true
  else if one_of ev "l " then vi_move 4;; mret true
  else if one_of ev "0" then on_vi (set_col 0);; mret true
  else if one_of ev "^" then on_vi vi_move_first;; mret true
  else if one_of ev "$" then on_vi vi_move_eol;; mret true
  else if one_of ev "w" then on_vi vi_word_fwd;; mret true
  else if one_of ev "b" then on_vi vi_word_back;; mret true
  else if one_of ev "GHML" then vi_goto ev;; mret true
  else mret false.

(** [if (vi_col >= vi_llen(vi_row) && vi_col > 0) vi_col--;] *)
Definition step_back : V unit :=
  row ← vi_row;
  len ← vi_llen row;
  col ← vi_col;
  if (len <=? col) && (0 <? col) then set_col (col - 1) else mret tt.

(** [x], [X], [D], [C] and [S] *)
Definition norm_delete (ev : Z) : C unit :=
  if one_of ev "x" then on_vi (vi_save_undo;; vi_delete_char;; step_back)
  else if one_of ev "X" then
    on_vi (col ← vi_col; if 0 <? col then vi_save_undo;; set_col (col - 1);; vi_delete_char else mret tt)
  else if one_of ev "D" then on_vi (vi_save_undo;; vi_delete_to_eol;; step_back)
  else if one_of ev "C" then
    on_vi (vi_save_undo;; vi_delete_to_eol);;
    enter VI_M_INS;;
    clear_msg
  else
    on_vi (vi_save_undo;; row ← vi_row; on_lines (clear_row row);; set_col 0;; mark_modified 1);;
    enter VI_M_INS;;
    clear_msg.

(** [.] *)
Definition norm_repeat : C unit :=
  valid ← vi_is vi_dot_valid;
  if valid =? 0 then mret tt
  else
    op ← vi_is vi_dot_op;
    linewise ← vi_is vi_dot_linewise;
    if (op =? OP_DELETE) && negb (linewise =? 0) then on_vi vi_delete_line
    else if op =? OP_CHANGE then
      on_vi (row ← vi_row; on_lines (clear_row row);; set_col 0;; mark_modified 1);;
      enter VI_M_INS
    else mret tt.

Definition start_operator (op : Z) : C unit :=
  on_vi (put vi_op op;; put vi_op_linewise 0;; put vi_op_pending 1).

Definition start_visual (type col : Z) : C unit :=
  on_vi (
    put vi_vis_type type;;
    row ← vi_row;
    put vi_vis_start_row row;;
    put vi_vis_start_col col;;
    set_col col);;
  enter VI_M_VIS;;
  clear_msg.

Definition start_command : C unit :=
  enter VI_M_CMD;;
  on_vi (put vi_cmd_len 0;; l ← array vi_cmd; l ← bzero l 0 VI_CMD_SZ; set_buf vi_cmd l);;
  clear_msg.

Definition start_search (dir : Z) : C unit :=
  enter VI_M_SEARCH;;
  on_vi (
    put vi_search_dir dir;;
    put vi_search_prompt_len 0;;
    l ← array vi_search_prompt;
    l ← bzero l 0 VI_SEARCH_SZ;
    set_buf vi_search_prompt l);;
  clear_msg.

(** The keys that change the mode. *)
Definition norm_mode (ev : Z) : C unit :=
  if one_of ev "iaIAoO" then
    on_vi (
      put vi_dot_op OP_CHANGE;;
      put vi_dot_linewise (Z.b2z (one_of ev "oOS"));;
      put vi_dot_valid 1);;
    vi_enter_insert ev
  else if one_of ev "v" then col ← vtext cur_col; start_visual VIS_CHAR col
  else if one_of ev "V" then start_visual VIS_LINE 0
  else if one_of ev ":" then start_command
  else if one_of ev "/" then start_search 1
  else if one_of ev "?" then start_search (-1)
  else mret tt.

Definition norm_switch (ev : Z) : C unit :=
  b ← motion_key ev;
  if (b : bool) then mret tt
  else if one_of ev "e" then on_vi vi_move_word_end
  else if one_of ev "xXDCS" then norm_delete ev
  else if one_of ev "J" then on_vi vi_join_lines
  else if one_of ev "p" then on_vi vi_paste_after
  else if one_of ev "P" then on_vi vi_paste_before
  else if one_of ev "y" then start_operator OP_YANK
  else if one_of ev "d" then start_operator OP_DELETE
  else if one_of ev "c" then start_operator OP_CHANGE
  else if ev =? 10 then
    row ← vtext cur_row;
    n ← vtext t_lcount;
    if row <? n - 1 then goto_row (row + 1) else mret tt
  else if one_of ev "~" then on_vi vi_toggle_case
  else if one_of ev "u" then on_vi vi_do_undo
  else if one_of ev "U" then on_vi vi_do_redo
  else if one_of ev "." then norm_repeat
  else if one_of ev "n" then on_vi vi_search_next
  else if one_of ev "N" then on_vi vi_search_prev
  else if one_of ev "%" then on_vi vi_move_to_matching
  else if one_of ev "{" then on_vi (vi_move_to_paragraph false)
  else if one_of ev "}" then on_vi (vi_move_to_paragraph true)
  else if one_of ev "fzgr><" then on_vi (put vi_pending ev)
  else norm_mode ev.

Definition vi_norm_key (ev : Z) : C unit :=
  if ev =? EV_CANCEL then mret tt
  else
    op ← vi_is vi_op_pending;
    if negb (op =? 0) then norm_operator ev
    else
      p ← vi_is vi_pending;
      if negb (p =? 0) then norm_pending ev
      else if is_nav ev then vi_move (Z.land ev 0xFF)
      else norm_switch ev.

(** * The other modes *)

Definition leaves (ev : Z) : bool := (ev =? EV_ESC) || (ev =? EV_CANCEL).

(** [x[--len] = 0] if [len > 0] *)
Definition drop_last (x : vi_array) (len : vi_int) : C unit :=
  on_vi (n ← get len; if 0 <? n then put len (n - 1);; put_char x (n - 1) 0 else mret tt).
(** [x[len++] = ev] if [len < size - 1] *)
Definition push_last (x : vi_array) (len : vi_int) (size ev : Z) : C unit :=
  on_vi (n ← get len; if n <? size - 1 then put_char x n (u8 ev);; put len (n + 1) else mret tt).

Definition vi_cmd_key (ev : Z) : C unit :=
  if leaves ev then enter VI_M_NORM;; clear_msg
  else if ev =? 8 then drop_last vi_cmd vi_cmd_len
  else if ev =? 10 then
    on_vi (n ← get vi_cmd_len; put_char vi_cmd n 0);;
    l ← on_vi (array vi_cmd);
    vi_exec_cmd fuel l;;
    enter VI_M_NORM
  else if (0x20 <=? ev) && (ev <? 0x7F) && negb (ev =? 58) then push_last vi_cmd vi_cmd_len VI_CMD_SZ ev
  else mret tt.

Definition vi_search_key (ev : Z) : C unit :=
  if leaves ev then enter VI_M_NORM;; clear_msg
  else if ev =? 8 then drop_last vi_search_prompt vi_search_prompt_len
  else if ev =? 10 then
    on_vi (
      n ← get vi_search_prompt_len;
      put_char vi_search_prompt n 0;;
      l ← array vi_search_prompt;
      p ← array vi_search_pat;
      p ← strncpy p l (VI_SEARCH_SZ - 1);
      p ← aset p (VI_SEARCH_SZ - 1) 0;
      set_buf vi_search_pat p;;
      put vi_search_len n;;
      put vi_search_highlight 1;;
      vi_search_next);;
    enter VI_M_NORM
  else if (0x20 <=? ev) && (ev <? 0x7F) then push_last vi_search_prompt vi_search_prompt_len VI_SEARCH_SZ ev
  else mret tt.

(** The commands of visual mode. *)
Definition visual_switch (ev : Z) : C unit :=
  type ← vi_is vi_vis_type;
  if one_of ev "dx" then on_vi vi_visual_delete
  else if one_of ev "y" then
    on_vi (vi_visual_yank;; put vi_vis_type VIS_NONE);;
    enter VI_M_NORM
  else if one_of ev "c" then on_vi vi_visual_delete;; enter VI_M_INS
  else if one_of ev "p" then on_vi (vi_visual_delete;; vi_paste_before)
  else if one_of ev "V" then
    on_vi (put vi_vis_type (if type =? VIS_LINE then VIS_CHAR else VIS_LINE));;
    (if type =? VIS_LINE then mret tt else on_vi (set_col 0))
  else if one_of ev "v" then on_vi (put vi_vis_type (if type =? VIS_CHAR then VIS_LINE else VIS_CHAR))
  else if one_of ev "o" then
    on_vi (
      tmp_r ← get vi_vis_start_row;
      tmp_c ← get vi_vis_start_col;
      row ← vi_row;
      col ← vi_col;
      put vi_vis_start_row row;;
      put vi_vis_start_col col;;
      set_row tmp_r;;
      set_col tmp_c)
  else if one_of ev "~" then on_vi vi_toggle_case
  else if one_of ev ":" then on_vi (put vi_vis_type VIS_NONE);; start_command
  else mret tt.

Definition vi_visual_key (ev : Z) : C unit :=
  if leaves ev then on_vi (put vi_vis_type VIS_NONE);; enter VI_M_NORM
  else if is_nav ev then vi_move (Z.land ev 0xFF)
  else
    b ← motion_key ev;
    if (b : bool) then mret tt else visual_switch ev.

Definition vi_ins_key (ev : Z) : C unit :=
  if leaves ev then
    enter VI_M_NORM;;
    col ← vtext cur_col;
    (if 0 <? col then on_vi (set_col (col - 1)) else mret tt);;
    vi_clamp
  else if is_nav ev then vi_move (Z.land ev 0xFF)
  else if ev =? EV_CTRL 114 then on_vi vi_do_redo
  else if ev =? EV_REDRAW then mret tt
  else if ev =? 8 then on_vi vi_backspace
  else if ev =? 10 then on_vi vi_newline
  else if ev =? 9 then each 0 4 (fun _ => on_vi (vi_insert_char 32))
  else if ev =? EV_CTRL 119 then on_vi vi_delete_word
  else if (0x20 <=? ev) && (ev <? 0x7F) then on_vi (vi_insert_char ev)
  else mret tt.

(** * The command *)

Definition vi_key (ev : Z) : C unit :=
  mode ← vi_is vi_mode;
  if mode =? VI_M_CMD then vi_cmd_key ev
  else if mode =? VI_M_SEARCH then vi_search_key ev
  else if mode =? VI_M_VIS then vi_visual_key ev
  else if ev =? EV_REDRAW then mret tt
  else if mode =? VI_M_INS then vi_ins_key ev
  else vi_norm_key ev.

(** The variables a new session sets. *)
Definition vi_reset : V unit :=
  vi_start;;
  put vi_mode VI_M_NORM;;
  put vi_done 0;;
  put vi_pending 0;;
  put_char vi_msg 0 0;;
  put vi_op OP_NONE;;
  put vi_op_pending 0;;
  put vi_vis_type VIS_NONE;;
  put vi_search_len 0;;
  put vi_search_highlight 0;;
  put vi_show_nu 0;;
  put vi_show_rnu 0;;
  put vi_undo_valid 0;;
  put vi_dot_valid 0.

Definition vi_usage : list string := [
  "Usage: vi <path>\n";
  "  NORMAL: h j k l 0 $ ^ w b e G H M L x X D C S J ~ u U .\n";
  "  OPERATORS: dd yy cc dw dy cw d$ y$ d0 y0 d^ y^ >><<\n";
  "  VISUAL: v V  y d c p x o ~\n";
  "  SEARCH: /pat ?pat n N  f<char> %%\n";
  "  INSERT: i a I A o O  Ctrl-w Ctrl-h\n";
  "  EX: :w :q :wq :x :!cmd :e file :r file\n";
  "       :%s/p/r/g :s// :set nu :set rnu :noh :d :>> :<<\n";
  "  SCROLL: zt zb zm zz  { }\n"].

Definition vi_open (w : list Z) : C unit :=
  fname ← on_vi (array vi_fname);
  fname ← resolve w fname 128;
  fname ← aset fname 127 0;
  on_vi (set_buf vi_fname fname);;
  on_vi vi_reset;;
  vi_load_file fuel w;;
  on_vi vi_at_least_one.

Definition cmd_vi (argc : Z) (argv : list (list Z)) : C Z :=
  if argc <? 2 then
    foldr (fun l (rest : C unit) => say l [];; rest) (mret tt) vi_usage;;
    mret 0
  else
    w ← arg argv 1;
    vi_open w;;
    locals (while_ fuel tt (fun _ =>
      done ← vi_is vi_done;
      if done =? 0 then
        vi_clamp;;
        vi_draw;;
        ev ← vi_event;
        vi_key ev;;
        mret (Cont tt)
      else mret (Brk tt)));;
    on_scr term_clear;;
    on_scr (modify (fun t => set_t_col 0 (set_t_row 0 t)));;
    on_scr (update_cursor 0 0);;
    mret 0.
End Vi.
