(* ===== verification/ViFacts.v ===== *)
(** Correctness of [vi]: its substitution command, its insert mode, and undo. *)
From Stdlib Require Import ZArith Lia List String.
From stdpp Require Import base tactics numbers list gmap strings option.
From S2P Require Import Prelude Pmm Vmm Heap CString Sched UserTask Bytes Buffer Ata Disk Ext2 Vfs NetState Net Fbcon Term Printk Keyboard Readline Text TextBuf TextFacts FlatText ViState ViEdit SearchFacts SubstFacts UndoFacts Paths Machine MachineDemo Commands FileCommands Nano NanoFacts ViFiles ViScreen Vi.
Open Scope Z_scope.

Section Commands.
Context {P K D H N R : Type} `{Ports P, KbdHw K, BlockDevice D, KernelHeap H, Locals}.
Notation Mach := (machine P K D H N R).
Implicit Types s : Mach.

Lemma wp_on_vi {A} (m : M vi A) (Q : A -> Mach -> Prop) s :
  wp m (fun a v => Q a (set_ved v s)) (ved s) -> wp (on_vi m) Q s.
Proof. apply wp_zoom. Qed.

Lemma wp_vi_is x (Q : Z -> Mach -> Prop) s : Q (ints (ved s) x) s -> wp (vi_is x) Q s.
Proof. intros HQ. by apply wp_gets. Qed.
Lemma wp_vtext f (Q : Z -> Mach -> Prop) s : Q (f (v_text (ved s))) s -> wp (vtext f) Q s.
Proof. intros HQ. by apply wp_gets. Qed.

(** * Recognising a command *)

Lemma wp_str_is_no l x t nm (Q : bool -> Mach -> Prop) s : holds l (x :: t) -> bytes l ->
  nonzeros (chars nm) -> bytes (text nm) -> List.hd 0 (chars nm) <> x -> Q false s -> wp (str_is l nm) Q s.
Proof.
  intros Hl Hb Hnm Hbn Hne HQ. unfold str_is. wp_step. eapply wp_strcmp_holds; [exact Hl | by apply text_holds | done | done|].
  intros v Hv. wp_step. destruct (Z.eqb_spec v 0); [|done]. exfalso. apply proj1 in Hv. specialize (Hv ltac:(done)).
  apply Hne. by rewrite <- Hv.
Qed.

Lemma wp_str_one_of_no l x t nms (Q : bool -> Mach -> Prop) s : holds l (x :: t) -> bytes l ->
  Forall (fun nm => nonzeros (chars nm) /\ bytes (text nm) /\ List.hd 0 (chars nm) <> x) nms -> Q false s ->
  wp (str_one_of l nms) Q s.
Proof.
  intros Hl Hb Hnms HQ. induction Hnms as [|nm nms (Hn1 & Hn2 & Hn3) _ IH]; cbn [str_one_of]; [by wp_step|].
  wp_step. by eapply wp_str_is_no.
Qed.

Lemma wp_begins l t nm (Q : bool -> Mach -> Prop) s : holds l t -> nonzeros (chars nm) ->
  (forall b : bool, (b <-> chars nm `prefix_of` t) -> Q b s) -> wp (begins l nm) Q s.
Proof.
  intros (Hl & Hnz & Hr & Hz) Hnm HQ. pose proof (lenZ_nonneg t). unfold begins. wp_step.
  apply (wp_for (fun i _ s' => s' = s /\ i <= lenZ t /\ forall j, 0 <= j < i -> rd t j = rd (chars nm) j)).
  - split; [done|]. split; [lia|]. intros j Hj. lia.
  - intros i [] s' Hi (-> & Hit & Heq). wp_step. apply wp_aget; [lia|].
    assert (Hc : rd (chars nm) i <> 0) by (apply (Forall_rd _ _ i Hnm); unfold lenZ; lia).
    change (nth (Z.to_nat i) (chars nm) 0) with (rd (chars nm) i). destruct (Z.eqb_spec (rd l i) (rd (chars nm) i)) as [He|He].
    + wp_step. split; [done|]. destruct (decide (i = lenZ t)) as [->|]; [lia|]. split; [lia|].
      intros j Hj. destruct (decide (j = i)) as [->|]; [rewrite <- Hr by lia; done | apply Heq; lia].
    + wp_step. wp_step. apply HQ. split; [done|]. intros [Hle Hp]%prefix_rd. unfold lenZ in Hle at 1.
      apply He. rewrite Hr by lia. apply Hp. unfold lenZ. lia.
  - intros [] s' (-> & Hle & Heq). wp_step. apply HQ. split; [|done]. intros _. apply prefix_rd. unfold lenZ at 1 3. split; [lia | exact Heq].
Qed.

(** * Taking a substitution apart *)

(** The 64 characters of a pattern or replacement, zeroed before they are filled. *)
Definition padded (t : list Z) : list Z := t ++ replicate (64 - List.length t) 0.

Lemma padded_holds t : nonzeros t -> lenZ t < VI_SEARCH_SZ -> holds (padded t) t.
Proof.
  intros Ht Hl. unfold padded. unfold lenZ, VI_SEARCH_SZ in Hl. replace (64 - List.length t)%nat with (S (63 - List.length t)) by lia.
  by apply holds_of_app.
Qed.

Lemma wp_push t n x (Q : list Z * Z -> Mach -> Prop) s : n = lenZ t -> lenZ t < VI_SEARCH_SZ - 1 ->
  Q (padded (t ++ [x]), n + 1) s -> wp (push (padded t, n) x) Q s.
Proof.
  intros -> Hl HQ. unfold push. rewrite (proj2 (Z.ltb_lt _ _)) by done. unfold lenZ, VI_SEARCH_SZ in Hl.
  assert (Hs : lenZ (padded t) = 64) by (unfold padded, lenZ; rewrite length_app, length_replicate; lia).
  wp_step. apply wp_aset; [unfold lenZ in *; lia|]. wp_step. replace (wr (padded t) (lenZ t) x) with (padded (t ++ [x])); [done|].
  unfold padded, wr, lenZ. rewrite Nat2Z.id, insert_app_r_alt, Nat.sub_diag, length_app by lia.
  replace (64 - List.length t)%nat with (S (63 - List.length t)) by lia. simpl. rewrite <- app_assoc. simpl. do 3 f_equal. lia.
Qed.

Definition plain (x : Z) : Prop := x <> 0 /\ x <> 47.

(** The pattern, a slash, the replacement, and nothing or another slash with
    anything behind it. *)
Lemma wp_ex_parse cmd pre w rep tail (Q : (list Z * Z) * (list Z * Z) -> Mach -> Prop) s :
  holds cmd (pre ++ w ++ 47 :: rep ++ tail) -> Forall plain w -> Forall (fun x => plain x /\ x <> 103) rep ->
  lenZ w < VI_SEARCH_SZ -> lenZ rep < VI_SEARCH_SZ -> (tail = [] \/ exists t, tail = 47 :: t) ->
  Q ((padded w, lenZ w), (padded rep, lenZ rep)) s -> wp (ex_parse cmd (lenZ pre)) Q s.
Proof.
  intros (Hl & Hnz & Hr & Hz) Hw Hrep Hlw Hlr Htail HQ. set (T := pre ++ w ++ 47 :: rep ++ tail) in *.
  pose proof (lenZ_nonneg pre). pose proof (lenZ_nonneg w). pose proof (lenZ_nonneg rep). pose proof (lenZ_nonneg tail).
  assert (HT : lenZ T = lenZ pre + lenZ w + 1 + lenZ rep + lenZ tail).
  { unfold T. rewrite !lenZ_app. change (47 :: rep ++ tail) with ([47] ++ rep ++ tail). rewrite !lenZ_app. change (lenZ [47]) with 1. lia. }
  assert (Hrw : forall k, 0 <= k < lenZ w -> rd cmd (lenZ pre + k) = rd w k).
  { intros k Hk. rewrite Hr by lia. unfold T. rewrite rd_app_r by lia. rewrite rd_app_l by lia. f_equal. lia. }
  assert (Hrs : rd cmd (lenZ pre + lenZ w) = 47).
  { rewrite Hr by lia. unfold T. rewrite !rd_app_r by lia. by replace (lenZ pre + lenZ w - lenZ pre - lenZ w) with 0 by lia. }
  assert (Hrt : forall k, 0 <= k -> k < lenZ rep + lenZ tail -> rd cmd (lenZ pre + lenZ w + 1 + k) = rd (rep ++ tail) k).
  { intros k Hk Hk2. rewrite Hr by lia. unfold T. rewrite !rd_app_r by lia. change (47 :: rep ++ tail) with ([47] ++ rep ++ tail).
    rewrite rd_app_r by (change (lenZ [47]) with 1; lia). f_equal. change (lenZ [47]) with 1. lia. }
  assert (Hlast : rd cmd (lenZ pre + lenZ w + 1 + lenZ rep) = 0 \/
    rd cmd (lenZ pre + lenZ w + 1 + lenZ rep) = 47 /\ lenZ pre + lenZ w + 1 + lenZ rep < lenZ T).
  { destruct Htail as [->|[t ->]].
    - left. rewrite <- Hz. f_equal. change (lenZ []) with 0 in HT. lia.
    - right. assert (1 <= lenZ (47 :: t)) by (unfold lenZ; simpl; lia). split; [|lia]. rewrite Hrt by lia. rewrite rd_app_r by lia. by rewrite Z.sub_diag. }
  unfold ex_parse. wp_step. apply wp_locals.
  apply (wp_while (fun '(i, phase, pt, rp) s' => s' = s /\
      ((phase = 0 /\ exists k, 0 <= k <= lenZ w /\ i = lenZ pre + k /\ pt = (padded (take (Z.to_nat k) w), k) /\ rp = (padded [], 0)) \/
       (phase = 1 /\ exists k, 0 <= k <= lenZ rep /\ i = lenZ pre + lenZ w + 1 + k /\ pt = (padded w, lenZ w) /\ rp = (padded (take (Z.to_nat k) rep), k)) \/
       (phase = 2 /\ 0 <= i <= lenZ T /\ pt = (padded w, lenZ w) /\ rp = (padded rep, lenZ rep))))
    (fun '(i, _, _, _) _ => Z.to_nat (lenZ T - i))).
  - split; [done|]. left. split; [done|]. exists 0. rewrite Z.add_0_r. done.
  - unfold lenZ in *. lia.
  - intros [[[i phase] pt] rp] s' (-> & Hinv).
    assert (Hrange : 0 <= i <= lenZ T) by (destruct Hinv as [(_ & k & Hk & -> & _)|[(_ & k & Hk & -> & _)|(_ & Hi & _)]]; lia).
    wp_step. apply wp_aget; [lia|].
    assert (Hdone : pt = (padded w, lenZ w) -> rp = (padded rep, lenZ rep) -> wp (mret (pt, rp)) Q s) by (intros -> ->; by wp_step).
    destruct Hinv as [(-> & k & Hk & -> & -> & ->)|[(-> & k & Hk & -> & Hpt & ->)|(-> & Hi & Hpt & Hrp)]].
    + destruct (decide (k = lenZ w)) as [->|].
      * rewrite Hrs. cbn [negb andb Z.ltb Z.compare Z.eqb Pos.eqb]. wp_step. split; [|lia]. split; [done|]. right. left. split; [done|]. exists 0.
        rewrite take_ge by (unfold lenZ; lia). split; [lia|]. split; [lia|]. done.
      * rewrite Hrw by lia. pose proof (Forall_rd _ _ k Hw ltac:(lia)) as [Hp1 Hp2].
        rewrite (proj2 (Z.eqb_neq (rd w k) 0)), (proj2 (Z.eqb_neq (rd w k) 47)) by done. cbn [negb andb Z.ltb Z.compare Z.eqb].
        wp_step. apply wp_push; [by rewrite lenZ_take by lia | rewrite lenZ_take by lia; lia|]. wp_step. split; [|lia]. split; [done|]. left. split; [done|]. exists (k + 1).
        rewrite <- take_succ_Z by lia. split; [lia|]. split; [lia|]. done.
    + destruct (decide (k = lenZ rep)) as [->|].
      * rewrite (take_ge rep) in * by (unfold lenZ; lia). destruct Hlast as [Hc|[Hc Hlt]]; rewrite Hc.
        -- cbn [negb andb Z.eqb]. wp_step. by apply Hdone.
        -- cbn [negb andb Z.ltb Z.compare Z.eqb orb Pos.compare Pos.compare_cont Pos.eqb]. wp_step. apply wp_aget; [lia|]. wp_step.
           rewrite orb_true_r. split; [|lia]. split; [done|]. right. right. split; [done|]. split; [lia | done].
      * rewrite Hrt by lia. rewrite rd_app_l by lia. pose proof (Forall_rd _ _ k Hrep ltac:(lia)) as [[Hp1 Hp2] Hp3].
        rewrite (proj2 (Z.eqb_neq (rd rep k) 0)), (proj2 (Z.eqb_neq (rd rep k) 47)), (proj2 (Z.eqb_neq (rd rep k) 103)) by done.
        cbn [negb andb Z.ltb Z.compare Z.eqb orb Pos.compare Pos.compare_cont].
        wp_step. apply wp_push; [by rewrite lenZ_take by lia | rewrite lenZ_take by lia; lia|]. wp_step. split; [|lia]. split; [done|]. right. left. split; [done|]. exists (k + 1).
        rewrite <- take_succ_Z by lia. split; [lia|]. split; [lia|]. done.
    + change (2 <? 2) with false. rewrite andb_false_r. wp_step. by apply Hdone.
Qed.

(** * Replacing in every row *)

(** The first [n] rows changed. *)
Definition upto (f : list Z -> list Z) (n : Z) (ls : list (list Z)) : list (list Z) :=
  map f (take (Z.to_nat n) ls) ++ drop (Z.to_nat n) ls.

Lemma lenZ_upto f n ls : lenZ (upto f n ls) = lenZ ls.
Proof. unfold upto, lenZ. rewrite length_app, length_map, length_take, length_drop. lia. Qed.

Lemma row_upto f n ls j : 0 <= n <= lenZ ls -> 0 <= j < lenZ ls -> row (upto f n ls) j = if j <? n then f (row ls j) else row ls j.
Proof.
  intros Hn Hj. unfold row, upto, lenZ in *. rewrite !nth_lookup. case_range.
  - rewrite lookup_app_l by (rewrite length_map, length_take; lia). rewrite list_lookup_fmap, lookup_take_lt by lia.
    destruct (lookup_lt_is_Some_2 ls (Z.to_nat j)) as [x ->]; [lia | done].
  - rewrite lookup_app_r by (rewrite length_map, length_take; lia). rewrite length_map, length_take, lookup_drop. do 2 f_equal. lia.
Qed.

Lemma upto_step f n ls : 0 <= n < lenZ ls -> put_row (upto f n ls) n (f (row ls n)) = upto f (n + 1) ls.
Proof.
  intros Hn. assert (Hlen : lenZ (put_row (upto f n ls) n (f (row ls n))) = lenZ ls).
  { unfold put_row, lenZ. rewrite length_insert. apply lenZ_upto. }
  apply rows_ext; [by rewrite Hlen, lenZ_upto|]. intros j Hj.
  rewrite Hlen in Hj. rewrite row_put_row by (rewrite ?lenZ_upto; lia). rewrite !row_upto by lia. case_range; try lia; try done; by subst.
Qed.

Lemma upto_all f ls : upto f (lenZ ls) ls = map f ls.
Proof. unfold upto, lenZ. by rewrite Nat2Z.id, firstn_all, drop_all, app_nil_r. Qed.

Lemma wp_substitute_rows ls w rep (Q : unit -> Mach -> Prop) s : lines_are ls (v_text (ved s)) -> w <> [] ->
  holds (padded w) w -> holds (padded rep) rep ->
  (forall L, lines_are (map (fun l => cut (replace_all w rep l)) ls) (set_lines L (v_text (ved s))) ->
     Q tt (set_ved (set_v_text (set_lines L (v_text (ved s))) (ved s)) s)) ->
  wp (each 0 (lenZ ls) (fun i => on_vi (substitute i ((padded w, lenZ w), (padded rep, lenZ rep))))) Q s.
Proof.
  intros Hla Hw Hpw Hpr HQ. set (f := fun l => cut (replace_all w rep l)) in *. unfold each. apply wp_locals.
  apply (wp_for (fun i _ s' => exists L, s' = set_ved (set_v_text (set_lines L (v_text (ved s))) (ved s)) s /\
    lines_are (upto f i ls) (set_lines L (v_text (ved s))))).
  - exists (t_lines (v_text (ved s))). rewrite set_lines_id. split; [by destruct s as [? ? ? ? ? ? ? []] | exact Hla].
  - intros i [] s' Hi (L & -> & HL). unfold span in Hi. wp_step. apply wp_on_vi. unfold substitute.
    eapply (wp_substitute_line (padded w) w (padded rep) rep); [done | done | done | exact HL | rewrite lenZ_upto; lia|].
    intros l Hl Hh. wp_step. cbn [v_text ved set_ved set_v_text t_lines set_lines]. eexists. split; [done|].
    rewrite <- upto_step by lia. rewrite row_upto, Z.ltb_irrefl in Hh by lia.
    apply (lines_put _ (set_lines L (v_text (ved s))) i l); [done | rewrite lenZ_upto; lia | done | exact Hh].
  - intros [] s' (L & -> & HL). apply HQ. unfold span in HL. rewrite Z.add_0_l, Z.sub_0_r, Z2Nat.id, upto_all in HL by apply lenZ_nonneg. exact HL.
Qed.

(** The commands tried before [:%s] are not one that starts with a percent
    sign. *)
Lemma wp_exec_percent fuel cmd t (Q : unit -> Mach -> Prop) s : holds cmd (37 :: t) -> bytes cmd ->
  wp (ex_change cmd) Q s -> wp (vi_exec_cmd fuel cmd) Q s.
Proof.
  intros Hc Hb HQ.
  assert (Hno : forall nm, nonzeros (chars nm) -> bytes (text nm) -> List.hd 0 (chars nm) <> 37 ->
    forall Q' : bool -> Mach -> Prop, Q' false s -> wp (str_is cmd nm) Q' s) by (intros; by eapply wp_str_is_no).
  assert (Hbeg : forall nm, nonzeros (chars nm) -> List.hd 37 (chars nm) <> 37 ->
    forall Q' : bool -> Mach -> Prop, Q' false s -> wp (begins cmd nm) Q' s).
  { intros nm Hn Hh Q' HQ'. eapply wp_begins; [exact Hc | done|]. intros [] Hiff; [|done]. destruct (proj1 Hiff I) as [k Hk].
    destruct (chars nm); [done|]. injection Hk as Hx _. simpl in Hh. congruence. }
  unfold vi_exec_cmd.
  do 3 (wp_step; apply Hno; [by repeat constructor | by apply bytes_by_compute | done|]).
  wp_step; eapply wp_str_one_of_no; [exact Hc | done | repeat constructor; try done; by apply bytes_by_compute|].
  do 2 (wp_step; apply Hbeg; [by repeat constructor | done|]).
  wp_step. apply Hbeg; [by repeat constructor | done|]. unfold ex_set.
  do 2 (wp_step; apply Hno; [by repeat constructor | by apply bytes_by_compute | done|]).
  do 2 (wp_step; eapply wp_str_one_of_no; [exact Hc | done | repeat constructor; try done; by apply bytes_by_compute|]).
  exact HQ.
Qed.

(** C13: [:%s/pattern/replacement/] replaces every occurrence.  For a command that
    holds a pattern without slashes, not empty and shorter than 64, and a
    replacement without slashes and without the letter g (which the parser takes
    for the flag), with or without a closing slash: the command ends, every row
    is the row with all occurrences of the pattern replaced, from left to right
    and without overlaps, cut at 159 characters; the cursor stays, the text is
    marked modified, the message is cleared and nothing else changes. *)
Theorem vi_substitute_everywhere fuel cmd w rep tail ls s :
  holds cmd (chars "%s/" ++ w ++ 47 :: rep ++ tail) -> bytes cmd ->
  w <> [] -> Forall plain w -> lenZ w < VI_SEARCH_SZ ->
  Forall (fun x => plain x /\ x <> 103) rep -> lenZ rep < VI_SEARCH_SZ -> (tail = [] \/ exists t, tail = 47 :: t) ->
  lines_are ls (v_text (ved s)) -> lenZ (arrays (ved s) vi_msg) = VI_STATUS_SZ ->
  exists L msg, lines_are (map (fun l => cut (replace_all w rep l)) ls) (set_lines L (v_text (ved s))) /\ holds msg [] /\
    vi_exec_cmd fuel cmd s =
    Ok tt (set_ved (set_array vi_msg msg (set_v_text (set_modified 1 (set_lines L (v_text (ved s)))) (ved s))) s).
Proof.
  intros Hc Hb Hw Hpw Hlw Hpr Hlr Htail Hla Hmsg.
  assert (Hnw : nonzeros w) by (eapply List.Forall_impl; [|exact Hpw]; by intros x []).
  assert (Hnr : nonzeros rep) by (eapply List.Forall_impl; [|exact Hpr]; by intros x [[] _]).
  enough (Hwp : wp (vi_exec_cmd fuel cmd) (fun _ s' => exists L msg,
    lines_are (map (fun l => cut (replace_all w rep l)) ls) (set_lines L (v_text (ved s))) /\ holds msg [] /\
    s' = set_ved (set_array vi_msg msg (set_v_text (set_modified 1 (set_lines L (v_text (ved s)))) (ved s))) s) s).
  { apply wp_unit in Hwp as (s' & Heq & L & msg & ? & ? & ->). eauto. }
  eapply wp_exec_percent; [exact Hc | done|]. unfold ex_change.
  wp_step. eapply wp_begins; [exact Hc | by repeat constructor|]. intros b Hiff.
  destruct b; [destruct (proj1 Hiff I) as [k Hk]; discriminate Hk|]. cbv iota.
  wp_step. eapply wp_begins; [exact Hc | by repeat constructor|]. intros b Hiff2.
  destruct b; [|exfalso; apply Hiff2; by eexists]. cbv iota.
  wp_step. change 3 with (lenZ (chars "%s/")). eapply wp_ex_parse; [exact Hc | done | done | done | done | done|].
  wp_step. apply wp_on_vi. vi_step. rewrite (proj1 (la_count _ _ Hla)).
  wp_step. replace (set_ved (ved s) s) with s by (by destruct s).
  apply (wp_substitute_rows ls); [done | done | by apply padded_holds | by apply padded_holds|]. intros L HL.
  wp_step. apply wp_on_vi. vi_step. unfold tell. apply wp_on_vi.
  apply (wp_message "" []); [apply (text_holds ""); constructor | done|]. intros msg _ Hm. by exists L, msg.
Qed.
End Commands.

(** The rows "ab" and "cb"; every b becomes "xyz". *)
Definition two_rows : textbuf :=
  mkText (([97; 98] ++ replicate 158 0) :: ([99; 98] ++ replicate 158 0) :: replicate 510 (replicate 160 0)) 2 0 0 0.
Lemma two_rows_lines : lines_are [[97; 98]; [99; 98]] two_rows.
Proof.
  split; [apply rows_ok_check; by vm_compute | done|]. intros i Hi. change (0 <= i < 2) in Hi.
  assert (i = 0 \/ i = 1) as [-> | ->] by lia; [apply (holds_of_app [97; 98] (replicate 157 0)) | apply (holds_of_app [99; 98] (replicate 157 0))];
    by repeat constructor.
Qed.

Definition two_rows_open : machine unit unit ramdisk Z unit unit := set_ved (set_v_text two_rows demo_vi) demo_machine.

Lemma vi_substitute_everywhere_witness : exists L msg,
  lines_are [[97; 120; 121; 122]; [99; 120; 121; 122]] (set_lines L (v_text (ved two_rows_open))) /\ holds msg [] /\
  vi_exec_cmd 0 (text "%s/b/xyz/") two_rows_open =
  Ok tt (set_ved (set_array vi_msg msg (set_v_text (set_modified 1 (set_lines L (v_text (ved two_rows_open)))) (ved two_rows_open))) two_rows_open).
Proof.
  assert (Hc : holds (text "%s/b/xyz/") (chars "%s/" ++ [98] ++ 47 :: [120; 121; 122] ++ [47])) by (apply (text_holds "%s/b/xyz/"); by repeat constructor).
  assert (Hpw : Forall plain [98]) by (by repeat constructor).
  assert (Hpr : Forall (fun x => plain x /\ x <> 103) [120; 121; 122]) by (by repeat constructor).
  assert (Ht : [47] = [] \/ exists t, [47] = 47 :: t) by (right; by exists []).
  assert (Hb : bytes (text "%s/b/xyz/")) by (by apply bytes_by_compute).
  assert (Hw : [98] <> []) by done.
  assert (Hlw : lenZ [98] < VI_SEARCH_SZ) by done.
  assert (Hlr : lenZ [120; 121; 122] < VI_SEARCH_SZ) by done.
  assert (Hmsg : lenZ (arrays (ved two_rows_open) vi_msg) = VI_STATUS_SZ) by (by vm_compute).
  assert (Hla : lines_are [[97; 98]; [99; 98]] (v_text (ved two_rows_open))) by exact two_rows_lines.
  destruct (vi_substitute_everywhere 0 _ [98] [120; 121; 122] [47] _ two_rows_open Hc Hb Hw Hpw Hlw Hpr Hlr Ht Hla Hmsg) as (L & msg & HL & Hm & Heq).
  exists L, msg. replace (map _ _) with [[97; 120; 121; 122]; [99; 120; 121; 122]] in HL by (by vm_compute). split; [exact HL|]. split; [exact Hm|].
  exact Heq.
Defined.

(** * Undo and redo *)

Section Undo.
Context {P K D H N R : Type} `{Ports P, KbdHw K, BlockDevice D, KernelHeap H, Locals}.
Notation Mach := (machine P K D H N R).
Implicit Types s : Mach.

(** Normal mode with no key pending. *)
Definition idle (v : vi) : Prop := ints v vi_op_pending = 0 /\ ints v vi_pending = 0.

Lemma norm_key_switch ev s : idle (ved s) -> (ev =? EV_CANCEL) = false -> is_nav ev = false -> vi_norm_key ev s = norm_switch ev s.
Proof.
  intros [Ho Hp] Hc Hn. unfold vi_norm_key, vi_is. rewrite Hc. unfold gets, mbind, M_bind. rewrite Ho. cbn [negb Z.eqb]. rewrite Hp. cbn [negb Z.eqb]. by rewrite Hn.
Qed.

Definition KEY_x : Z := 120.
Definition KEY_D : Z := 68.
Definition KEY_TILDE : Z := 126.
Definition KEY_u : Z := 117.
Definition KEY_U : Z := 85.

(** The row after the key. *)
Definition row_edit (key c : Z) (t : list Z) : list Z :=
  if key =? KEY_x then del c (c + 1) t
  else if key =? KEY_D then take (Z.to_nat c) t
  else wr t c (toggle (rd t c)).

Lemma wp_step_back ls r c (Q : unit -> vi -> Prop) v : text_at ls r c (v_text v) ->
  (forall v' c', text_at ls r c' (v_text v') -> kept v v' -> Q tt v') -> wp step_back Q v.
Proof.
  intros Hat HQ. pose proof Hat as [_ _ _ [Hr Hr2] [Hc Hc2]]. unfold step_back. do 2 vi_step. rewrite Hr. vi_step.
  apply (wp_vi_llen ls); [by eapply text_lines | done|]. do 2 vi_step. rewrite Hc.
  destruct ((lenZ (row ls r) <=? c) && (0 <? c)) eqn:Hcond.
  - apply andb_prop in Hcond as [_ Hpos%Z.ltb_lt]. vi_step. apply (HQ _ (c - 1)); [|done]. apply text_at_col with c; [done | lia].
  - vi_step. by apply (HQ _ c).
Qed.

Notation saved := (slot vi_undo_line vi_undo_row vi_undo_lcount).

Lemma idle_same v v' : same_mode v v' -> idle v -> idle v'.
Proof. unfold idle. by intros (_ & -> & ->). Qed.

(** The keys that edit the row of the cursor. *)
Lemma wp_edit_key key ls r c (Q : unit -> Mach -> Prop) s : text_at ls r c (v_text (ved s)) -> c < lenZ (row ls r) -> sized (ved s) ->
  idle (ved s) -> key = KEY_x \/ key = KEY_D \/ key = KEY_TILDE ->
  (forall v' c', text_at (put_row ls r (row_edit key c (row ls r))) r c' (v_text v') -> sized v' -> same_mode (ved s) v' ->
     saved (row ls r) r (lenZ ls) v' -> ints v' vi_undo_valid = 1 -> Q tt (set_ved v' s)) ->
  wp (vi_norm_key key) Q s.
Proof.
  intros Hat Hlt Hsz Hid Hkey HQ.
  assert (Hrest : forall (edit : V unit) t', row_edit key c (row ls r) = t' -> (forall (Q' : unit -> vi -> Prop) v, text_at ls r c (v_text v) -> sized v ->
      (forall v', text_at (put_row ls r t') r c (v_text v') -> kept v v' -> Q' tt v') -> wp edit Q' v) ->
    wp (on_vi (P := P) (K := K) (D := D) (H := H) (N := N) (R := R) (vi_save_undo;; edit;; step_back)) Q s).
  { intros edit t' <- Hedit. apply wp_on_vi. vi_step. apply (wp_save_undo ls r c); [done | done|]. intros v1 Ht1 Hs1 Hu1 Hv1 Hm1.
    vi_step. apply Hedit; [by rewrite Ht1 | done|]. intros v2 Ht2 Hk2. eapply wp_step_back; [exact Ht2|]. intros v3 c3 Ht3 Hk3.
    pose proof (kept_through _ _ _ Hk2 Hk3) as Hk. apply (HQ v3 c3); [exact Ht3 | by eapply kept_sized | | by eapply kept_slot |].
    - by eapply same_mode_trans; [exact Hm1 | apply kept_mode in Hk].
    - destruct Hk as (_ & _ & Hki). by rewrite Hki. }
  unfold wp. destruct Hkey as [->|[->| ->]]; rewrite norm_key_switch by done.
  - change (wp (on_vi (P := P) (K := K) (D := D) (H := H) (N := N) (R := R) (vi_save_undo;; vi_delete_char;; step_back)) Q s).
    eapply Hrest; [done|]. intros Q' v Hatv _ HQ'. by eapply wp_delete_char.
  - change (wp (on_vi (P := P) (K := K) (D := D) (H := H) (N := N) (R := R) (vi_save_undo;; vi_delete_to_eol;; step_back)) Q s).
    eapply Hrest; [done|]. intros Q' v Hatv Hsv HQ'. by eapply wp_delete_to_eol.
  - change (wp (on_vi (P := P) (K := K) (D := D) (H := H) (N := N) (R := R) vi_toggle_case) Q s). apply wp_on_vi.
    apply (wp_toggle_case ls r c); [done..|]. intros v' c' Ht' Hs' Hu' Hv' Hm'. by apply (HQ v' c').
Qed.

(** C15: Undo and redo are inverse on the keys that edit one row.  In normal mode
    with the cursor on a character, [x] removes it, [D] cuts the row there and
    [~] changes the case; [u] after that brings every row back and puts the
    cursor at the start of the row, and [U] after that makes the rows the edit
    made.  All three keys end, whatever the text. *)
Theorem vi_undo_redo key ls r c s : text_at ls r c (v_text (ved s)) -> c < lenZ (row ls r) -> sized (ved s) -> idle (ved s) ->
  key = KEY_x \/ key = KEY_D \/ key = KEY_TILDE ->
  exists v1 c1 v2 v3,
    vi_norm_key key s = Ok tt (set_ved v1 s) /\ text_at (put_row ls r (row_edit key c (row ls r))) r c1 (v_text v1) /\
    vi_norm_key KEY_u (set_ved v1 s) = Ok tt (set_ved v2 s) /\ text_at ls r 0 (v_text v2) /\
    vi_norm_key KEY_U (set_ved v2 s) = Ok tt (set_ved v3 s) /\
    text_at (put_row ls r (row_edit key c (row ls r))) r 0 (v_text v3).
Proof.
  intros Hat Hlt Hsz Hid Hkey. pose proof Hat as [_ [_ Hlim] _ [_ Hr] _]. set (ls' := put_row ls r _) in *.
  assert (Hlen : lenZ ls' = lenZ ls) by (unfold ls', put_row, lenZ; by rewrite length_insert).
  assert (Hback : put_row ls' r (row ls r) = ls) by (unfold ls'; rewrite put_put_row; by apply put_row_same).
  assert (H1' : wp (vi_norm_key key) (fun _ s' => exists v1 c1, s' = set_ved v1 s /\ text_at ls' r c1 (v_text v1) /\ sized v1 /\ idle v1 /\
    saved (row ls r) r (lenZ ls) v1 /\ ints v1 vi_undo_valid = 1) s).
  { eapply wp_edit_key; try done. intros v1 c1 ? ? Hm ? ?. exists v1, c1. do 4 (split; [done || by eapply idle_same |]). done. }
  apply wp_unit in H1' as (s1 & Hrun1 & v1 & c1 & -> & Ht1 & Hs1 & Hi1 & Hu1 & Hv1).
  assert (H2' : wp (vi_norm_key KEY_u) (fun _ s' => exists v2, s' = set_ved v2 s /\ text_at ls r 0 (v_text v2) /\ sized v2 /\ idle v2 /\
    slot vi_redo_line vi_redo_row vi_redo_lcount (row ls' r) r (lenZ ls) v2) (set_ved v1 s)).
  { unfold wp. rewrite norm_key_switch by done. change (wp (on_vi (P := P) (K := K) (D := D) (H := H) (N := N) (R := R) vi_do_undo)
      (fun _ s' => exists v2, s' = set_ved v2 s /\ text_at ls r 0 (v_text v2) /\ sized v2 /\ idle v2 /\
        slot vi_redo_line vi_redo_row vi_redo_lcount (row ls' r) r (lenZ ls) v2) (set_ved v1 s)).
    apply wp_on_vi. apply (wp_do_undo ls' (row ls r) r (lenZ ls)); try done; [by eapply text_lines | lia|].
    intros v2 (l & Hl & Hh & Ht2) Hs2 Hd2 Hm2. exists v2. split; [done|]. split; [|split; [done|]; split; [by eapply idle_same | by rewrite <- Hlen]].
    eapply (text_at_put_row ls' r c1 _ l _ 0 1) in Ht1; [|done | exact Hh | pose proof (lenZ_nonneg (row ls r)); lia].
    rewrite Hback in Ht1. rewrite Ht2. destruct Ht1 as [? ? ? ? ?]. by split. }
  apply wp_unit in H2' as (s2 & Hrun2 & v2 & -> & Ht2 & Hs2 & Hi2 & Hd2).
  assert (H3' : wp (vi_norm_key KEY_U) (fun _ s' => exists v3, s' = set_ved v3 s /\ text_at ls' r 0 (v_text v3)) (set_ved v2 s)).
  { unfold wp. rewrite norm_key_switch by done. change (wp (on_vi (P := P) (K := K) (D := D) (H := H) (N := N) (R := R) vi_do_redo)
      (fun _ s' => exists v3, s' = set_ved v3 s /\ text_at ls' r 0 (v_text v3)) (set_ved v2 s)).
    apply wp_on_vi. apply (wp_do_redo ls (row ls' r) r (lenZ ls)); try done; [by eapply text_lines|].
    intros v3 (l & Hl & Hh & Ht3) _ _ _. exists v3. split; [done|].
    eapply (text_at_put_row ls r 0 _ l _ 0 1) in Ht2; [|done | exact Hh | pose proof (lenZ_nonneg (row ls' r)); lia].
    assert (Hrow : row ls' r = row_edit key c (row ls r)) by (unfold ls'; rewrite row_put_row, Z.eqb_refl by lia; done).
    rewrite Hrow in Ht2. fold ls' in Ht2. rewrite Ht3. destruct Ht2 as [? ? ? ? ?]. split; try done; cbn; lia. }
  apply wp_unit in H3' as (s3 & Hrun3 & v3 & -> & Ht3). by exists v1, c1, v2, v3.
Qed.
End Undo.

(** [x], [u] and [U] on the first character of "ab". *)
Lemma two_rows_at : text_at [[97; 98]; [99; 98]] 0 0 two_rows.
Proof. destruct two_rows_lines as [? ? ?]. by split. Qed.

Lemma vi_undo_redo_witness : exists v1 c1 v2 v3,
  vi_norm_key KEY_x two_rows_open = Ok tt (set_ved v1 two_rows_open) /\ text_at [[98]; [99; 98]] 0 c1 (v_text v1) /\
  vi_norm_key KEY_u (set_ved v1 two_rows_open) = Ok tt (set_ved v2 two_rows_open) /\ text_at [[97; 98]; [99; 98]] 0 0 (v_text v2) /\
  vi_norm_key KEY_U (set_ved v2 two_rows_open) = Ok tt (set_ved v3 two_rows_open) /\ text_at [[98]; [99; 98]] 0 0 (v_text v3).
Proof.
  assert (Hsz : sized (ved two_rows_open)) by (repeat split; by vm_compute).
  assert (Hid : idle (ved two_rows_open)) by done.
  assert (Hat : text_at [[97; 98]; [99; 98]] 0 0 (v_text (ved two_rows_open))) by exact two_rows_at.
  assert (Hlt : 0 < lenZ (row [[97; 98]; [99; 98]] 0)) by done.
  exact (vi_undo_redo KEY_x [[97; 98]; [99; 98]] 0 0 two_rows_open Hat Hlt Hsz Hid (or_introl eq_refl)).
Defined.

(** * Where undo and the operators go wrong *)

Section Wrong.
Context {P K D H N R : Type} `{Ports P, KbdHw K, BlockDevice D, KernelHeap H, Locals}.
Notation Mach := (machine P K D H N R).
Implicit Types s : Mach.

(** [u] does not take back [dd].  After a row above the last but one is
    deleted, [u] puts the deleted row over the row that took its place: the
    number of rows is right again, the row below the deleted one is gone, the
    rows under it have moved up, and the last row is there twice. *)
Theorem vi_undo_loses_row ls r c v : text_at ls r c (v_text v) -> r + 2 < lenZ ls -> sized v ->
  exists v' ls', (vi_delete_line;; vi_do_undo) v = Ok tt v' /\ text_at ls' r 0 (v_text v') /\ lenZ ls' = lenZ ls /\
    (forall j, 0 <= j <= r -> row ls' j = row ls j) /\
    (forall j, r < j < lenZ ls - 1 -> row ls' j = row ls (j + 1)) /\ row ls' (lenZ ls - 1) = row ls (lenZ ls - 1).
Proof.
  intros Hat Hr2 Hsz. pose proof Hat as [Hrows [Hn Hlim] Hl [Hcr Hr] _].
  set (ls1 := map (fun j => row ls (if j <? r then j else j + 1)) (seqZ 0 (lenZ ls - 1))).
  set (ls' := map (undone ls r) (seqZ 0 (lenZ ls))).
  assert (Hrow1 : forall j, 0 <= j < lenZ ls - 1 -> row ls1 j = row ls (if j <? r then j else j + 1)).
  { intros j Hj. unfold row at 1, ls1. rewrite nth_lookup, list_lookup_fmap, lookup_seqZ_lt by lia. simpl. do 2 f_equal. case_range; lia. }
  assert (Hrow2 : forall j, 0 <= j < lenZ ls -> row ls' j = undone ls r j).
  { intros j Hj. unfold row at 1, ls'. rewrite nth_lookup, list_lookup_fmap, lookup_seqZ_lt by lia. simpl. f_equal. lia. }
  assert (Hlen1 : lenZ ls1 = lenZ ls - 1) by (unfold ls1, lenZ; rewrite length_map, length_seqZ; unfold lenZ in *; lia).
  assert (Hlen2 : lenZ ls' = lenZ ls) by (unfold ls', lenZ; rewrite length_map, length_seqZ; lia).
  enough (Hwp : wp (vi_delete_line;; vi_do_undo) (fun _ v' => text_at ls' r 0 (v_text v')) v).
  { apply wp_unit in Hwp as (v' & Hrun & Ht). exists v', ls'. split; [done|]. split; [done|]. split; [done|].
    split; [|split]; intros; rewrite Hrow2 by lia; unfold undone; case_range; try lia; f_equal; lia. }
  wp_step. apply (wp_delete_line ls r c); [done | lia | done|]. intros v1 Hs1 Hu1 Hv1 _ Hok1 Hn1 Hr1.
  assert (Hla1 : lines_are ls1 (v_text v1)).
  { split; [done | lia|]. intros i Hi. rewrite Hrow1, Hr1 by lia. case_range; try lia; apply Hl; lia. }
  apply (wp_do_undo ls1 (row ls r) r (lenZ ls)); [done | lia | done | done | done|].
  intros v2 (l & Hll & Hlh & Ht2) _ _ _. rewrite Ht2. pose proof (proj1 Hok1). split; cbn [t_lines t_lcount cur_row cur_col].
  - apply rows_ok_put; [done | lia | done].
  - lia.
  - intros i Hi. rewrite Hrow2, row_put_row by lia. unfold undone. case_range; try lia.
    + by subst.
    + rewrite Hr1 by lia. case_range; try lia. apply Hl. lia.
    + rewrite Hr1 by lia. case_range; try lia.
      * replace (Z.min (i + 1) (lenZ ls - 1)) with (i + 1) by lia. apply Hl. lia.
      * replace (Z.min (i + 1) (lenZ ls - 1)) with i by lia. apply Hl. lia.
  - lia.
  - pose proof (lenZ_nonneg (row ls' r)). lia.
Qed.

(** An operator over a motion to the right within a row does nothing.  The two
    ends of the range are exchanged whenever they are on the same row, so for a
    second column that is not to the left of the first no character is deleted
    or yanked: only the cursor moves, and the undo slot and the modified flag
    are set. *)
Theorem vi_delete_forward_keeps ls r c1 c2 v : text_at ls r c2 (v_text v) -> c1 <= c2 -> sized v ->
  exists v', vi_delete_range r c1 r c2 false v = Ok tt v' /\
    t_lines (v_text v') = t_lines (v_text v) /\ t_lcount (v_text v') = t_lcount (v_text v) /\
    arrays v' vi_yank_buf = arrays v vi_yank_buf /\ ints v' vi_yank_len = ints v vi_yank_len /\
    (cur_row (v_text v'), cur_col (v_text v')) = (r, c2).
Proof.
  intros Hat Hc Hsz. pose proof Hat as [_ _ _ [Hr Hr2] [Hcc Hc2]].
  enough (Hwp : wp (vi_delete_range r c1 r c2 false) (fun _ v' =>
    t_lines (v_text v') = t_lines (v_text v) /\ t_lcount (v_text v') = t_lcount (v_text v) /\
    arrays v' vi_yank_buf = arrays v vi_yank_buf /\ ints v' vi_yank_len = ints v vi_yank_len /\
    (cur_row (v_text v'), cur_col (v_text v')) = (r, c2)) v) by (by apply wp_unit in Hwp as (v' & ? & ?); exists v').
  unfold vi_delete_range, ordered. rewrite Z.ltb_irrefl. cbv iota beta. vi_step.
  apply (wp_save_undo_run ls r c2); [done | apply Hsz|]. intros u Hu Hh. rewrite Z.eqb_refl. vi_step. unfold delete_within.
  vi_step. apply (wp_vi_llen ls); [by eapply text_lines | done|]. rewrite (proj2 (Z.ltb_ge _ _)) by lia. do 4 vi_step. cbn. by rewrite Hr.
Qed.
End Wrong.

(** Three rows; [dd] on the first and [u]. *)
Definition three_rows : vi :=
  mkVi (mkText (([97] ++ replicate 159 0) :: ([98] ++ replicate 159 0) :: ([99] ++ replicate 159 0) :: replicate 509 (replicate 160 0)) 3 0 0 0)
    (fun _ => 0) (arrays demo_vi).
Lemma three_rows_at : text_at [[97]; [98]; [99]] 0 0 (v_text three_rows).
Proof.
  split; [apply rows_ok_check; by vm_compute | done | | done | done]. intros i Hi. change (0 <= i < 3) in Hi.
  assert (i = 0 \/ i = 1 \/ i = 2) as [-> | [-> | ->]] by lia;
    (apply (holds_of_app [97] (replicate 158 0)) || apply (holds_of_app [98] (replicate 158 0)) || apply (holds_of_app [99] (replicate 158 0)));
    by repeat constructor.
Qed.
Lemma three_rows_sized : sized three_rows.
Proof. repeat split; by vm_compute. Qed.

Lemma vi_undo_loses_row_witness : exists v' ls', (vi_delete_line;; vi_do_undo) three_rows = Ok tt v' /\ text_at ls' 0 0 (v_text v') /\
  row ls' 0 = [97] /\ row ls' 1 = [99] /\ row ls' 2 = [99].
Proof.
  destruct (vi_undo_loses_row [[97]; [98]; [99]] 0 0 three_rows three_rows_at ltac:(done) three_rows_sized) as (v' & ls' & Hrun & Ht & Hlen & Hr1 & Hr2 & Hr3).
  exists v', ls'. split; [exact Hrun|]. split; [exact Ht|]. split; [apply Hr1; lia|]. split; [|exact Hr3]. rewrite Hr2 by (change (lenZ [[97]; [98]; [99]]) with 3; lia). done.
Defined.

(** Deleting from the first column of "ab" to the second: nothing goes. *)
Definition on_b : vi := set_v_text (set_cur_col 1 two_rows) demo_vi.
Lemma vi_delete_forward_keeps_witness : exists v', vi_delete_range 0 0 0 1 false on_b = Ok tt v' /\
  t_lines (v_text v') = t_lines two_rows /\ ints v' vi_yank_len = 0.
Proof.
  assert (Hat : text_at [[97; 98]; [99; 98]] 0 1 (v_text on_b)) by (apply (text_at_col _ _ 0); [exact two_rows_at | by vm_compute]).
  assert (Hsz : sized on_b) by (repeat split; by vm_compute).
  destruct (vi_delete_forward_keeps [[97; 98]; [99; 98]] 0 0 1 on_b Hat ltac:(done) Hsz) as (v' & Hrun & Hl & _ & _ & Hy & _).
  exists v'. split; [exact Hrun|]. split; [exact Hl | exact Hy].
Defined.
