(* ===== verification/InsertFacts.v ===== *)
(** Correctness of the insert mode of [vi]: a run of typing keys is the same
    run of edits of one flat text. *)
From Stdlib Require Import ZArith Lia List String.
From stdpp Require Import base tactics numbers list gmap strings option.
From S2P Require Import Prelude Pmm Vmm Heap CString Sched UserTask Bytes Buffer Ata Disk Ext2 Vfs NetState Net Fbcon Term Printk Keyboard Readline Text TextBuf TextFacts FlatText ViState ViEdit SearchFacts SubstFacts UndoFacts Paths Machine MachineDemo Commands FileCommands Nano NanoFacts ViFiles ViScreen Vi ViFacts.
Open Scope Z_scope.

(** The edit of a key: Tab types four spaces. *)
Definition typed (ev : Z) (p : list Z * list Z) : list Z * list Z :=
  if ev =? 8 then erase p else if ev =? 9 then Nat.iter 4 (type_char 32) p else type_char ev p.

Definition typing_key (ev : Z) : Prop := ev = 8 \/ ev = 9 \/ ev = 10 \/ 32 <= ev < 127.

(** The keys are typing keys, and no backspace joins two lines into one that
    does not fit a row. *)
Fixpoint typing (p : list Z * list Z) (evs : list Z) {struct evs} : Prop :=
  match evs with
  | [] => True
  | ev :: evs => typing_key ev /\ (ev = 8 -> fits (fst (erase p) ++ snd (erase p))) /\ typing (typed ev p) evs
  end.

Section Insert.
Context {P K D H N R : Type} `{Ports P, KbdHw K, BlockDevice D, KernelHeap H, Locals}.
Notation Mach := (machine P K D H N R).
Implicit Types s : Mach.

Definition type_keys (evs : list Z) : M Mach unit := foldr (fun ev (rest : M Mach unit) => vi_key 0 ev;; rest) (mret tt) evs.

(** Only the text changes. *)
Definition with_text (b : textbuf) s : Mach := set_ved (set_v_text b (ved s)) s.

Lemma wp_on_vi_text (m : M textbuf unit) (Q : unit -> Mach -> Prop) s :
  wp m (fun a b => Q a (with_text b s)) (v_text (ved s)) -> wp (on_vi (on_lines m)) Q s.
Proof. intros Hm. apply wp_on_vi. by vi_step. Qed.

Lemma wp_typing_key fuel ev bf af (Q : unit -> Mach -> Prop) s : ints (ved s) vi_mode = VI_M_INS -> typing_key ev ->
  shows bf af (v_text (ved s)) -> (ev = 8 -> fits (fst (erase (bf, af)) ++ snd (erase (bf, af)))) ->
  (forall b, shows (fst (typed ev (bf, af))) (snd (typed ev (bf, af))) b -> Q tt (with_text b s)) -> wp (vi_key fuel ev) Q s.
Proof.
  intros Hmode Hev Hs Hfit HQ.
  assert (Hins : wp (vi_ins_key ev) Q s).
  { destruct Hev as [->|[->|[->|Hev]]].
    - apply (wp_on_vi_text backspace). apply (wp_shows_erase bf af); [done | by apply Hfit | done].
    - change (wp (each 0 4 (fun _ => on_vi (P := P) (K := K) (D := D) (H := H) (N := N) (R := R) (on_lines (insert_char 32)))) Q s).
      unfold each. apply wp_locals.
      apply (wp_for (fun i _ s' => exists b, s' = with_text b s /\
        shows (fst (Nat.iter (Z.to_nat i) (type_char 32) (bf, af))) (snd (Nat.iter (Z.to_nat i) (type_char 32) (bf, af))) b)).
      + exists (v_text (ved s)). split; [by destruct s as [? ? ? ? ? ? ? []] | done].
      + intros i [] s' Hi (b & -> & Hb). wp_step. apply wp_on_vi_text. eapply wp_shows_type; [exact Hb | lia | lia|]. intros b' Hb'. wp_step.
        exists b'. split; [done|]. replace (Z.to_nat (i + 1)) with (S (Z.to_nat i)) by lia. rewrite <- surjective_pairing in Hb'. exact Hb'.
      + intros [] s' (b & -> & Hb). by apply HQ.
    - apply (wp_on_vi_text newline). by apply (wp_shows_newline bf af).
    - assert (Ht : typed ev (bf, af) = type_char ev (bf, af)) by (unfold typed; rewrite !(proj2 (Z.eqb_neq _ _)) by lia; done).
      rewrite Ht in HQ. unfold vi_ins_key, leaves, is_nav, EV_ESC, EV_CANCEL, EV_REDRAW, EV_CTRL, EV_NAV.
      repeat match goal with |- context [Z.lor ?a ?b] => let v := eval vm_compute in (Z.lor a b) in change (Z.lor a b) with v end.
      rewrite !(proj2 (Z.eqb_neq _ _)) by lia. rewrite (proj2 (Z.leb_gt _ ev)), (proj2 (Z.leb_le _ ev)), (proj2 (Z.ltb_lt ev _)) by lia.
      apply (wp_on_vi_text (insert_char ev)). apply (wp_shows_type ev bf af); [done | lia | lia | done]. }
  unfold vi_key. wp_step. apply wp_vi_is. rewrite Hmode. cbn [Z.eqb Pos.eqb VI_M_INS VI_M_CMD VI_M_SEARCH VI_M_VIS].
  destruct (Z.eqb_spec ev EV_REDRAW) as [->|_]; [|exact Hins]. exfalso. unfold typing_key, EV_REDRAW in Hev. lia.
Qed.

(** C12: Insert mode types a text.  When the rows and the cursor stand for a text with
    a cursor in it, any run of printable characters, Enter, Tab and Backspace
    leaves rows and a cursor that stand for the text the same run of edits
    makes, and changes nothing else of the machine: a character goes in front of
    the cursor if the text still fits the arrays and is ignored otherwise, Tab
    types four spaces wherever the cursor is, Backspace erases (and goes to the
    end of a line it joins).  Every key ends. *)
Theorem vi_types_text evs bf af s : ints (ved s) vi_mode = VI_M_INS -> shows bf af (v_text (ved s)) -> typing (bf, af) evs ->
  exists b, type_keys evs s = Ok tt (with_text b s) /\
    shows (fst (fold_left (fun p ev => typed ev p) evs (bf, af))) (snd (fold_left (fun p ev => typed ev p) evs (bf, af))) b.
Proof.
  intros Hmode Hs Ht. enough (Hw : wp (type_keys evs) (fun _ s' => exists b, s' = with_text b s /\
    shows (fst (fold_left (fun p ev => typed ev p) evs (bf, af))) (snd (fold_left (fun p ev => typed ev p) evs (bf, af))) b) s)
    by (apply wp_unit in Hw as (s' & ? & b & -> & ?); eauto).
  revert bf af s Hmode Hs Ht. induction evs as [|ev evs IH]; intros bf af s Hmode Hs Ht.
  - apply wp_ret. exists (v_text (ved s)). split; [by destruct s as [? ? ? ? ? ? ? []] | done].
  - destruct Ht as (Hk & Hf & Ht). cbn [type_keys foldr]. wp_step. apply (wp_typing_key 0 ev bf af); [done | done | done | done|].
    intros b Hb. cbn [fold_left]. destruct (typed ev (bf, af)) as [bf' af'] eqn:He.
    specialize (IH bf' af' (with_text b s) Hmode Hb Ht). exact IH.
Qed.
End Insert.

(** "a", Backspace, "x", Enter on the rows "ab" and "cd", the cursor in front of
    "cd". *)
Definition typing_open : machine unit unit ramdisk Z unit unit :=
  set_ved (set_int vi_mode VI_M_INS (set_v_text two_lines demo_vi)) demo_machine.
Lemma vi_types_text_witness : exists b, type_keys [97; 8; 120; 10] typing_open = Ok tt (with_text b typing_open) /\
  shows [97; 98; 10; 120; 10] [99; 100] b.
Proof.
  assert (Ht : typing ([97; 98; 10], [99; 100]) [97; 8; 120; 10]).
  { cbn [typing]. unfold typing_key. split; [lia|]. split; [done|]. split; [lia|]. split; [intros _; split; [by repeat constructor | by vm_compute]|].
    split; [lia|]. split; [done|]. split; [lia|]. by split. }
  assert (Hs : shows [97; 98; 10] [99; 100] (v_text (ved typing_open))) by exact two_lines_shown.
  exact (vi_types_text [97; 8; 120; 10] [97; 98; 10] [99; 100] typing_open eq_refl Hs Ht).
Defined.
