(* ===== verification/Acpi.v ===== *)
(** Power off and demonstrations: [src/kernel/arch/acpi.c],
    [src/kernel/lib/demos.c] and [print_stack] of
    [src/kernel/lib/print_stack.c]. *)
From Stdlib Require Import ZArith Lia List String.
From stdpp Require Import base tactics numbers list gmap strings option.
From S2P Require Import Prelude Pmm Vmm Heap CString Sched UserTask Bytes Ata Disk Ext2 Vfs NetState Net Fbcon Term Printk Keyboard Readline Text TextBuf Paths Machine Commands.
Open Scope Z_scope.

(** Loads through a pointer of any alignment. *)
Definition load8 (va : Z) : M vmm Z := fun s =>
  match translate s va with
  | Some pa => Ok (Z.land (Z.shiftr (phys_read (pa - pa mod 4) s) (8 * (pa mod 4))) 255) s
  | None => Stuck PageFault s
  end.
Definition load_le (n : nat) (va : Z) : M vmm Z :=
  locals (for_ n 0 0 (fun i v =>
    b ← load8 (u32 (va + i));
    mret (Cont (v + Z.shiftl b (8 * i))))).

(** [memcmp(addr, sig, n) == 0] *)
Definition mem_is (addr : Z) (sig : list Z) (n : Z) : M vmm bool :=
  r ← for_ (span 0 n) 0 tt (fun i _ =>
    b ← load8 (u32 (addr + i));
    c ← aget sig i;
    if b =? c then mret (Cont tt) else mret (Ret tt));
  match r with inl _ => mret true | inr _ => mret false end.

Definition ACPI_RSDP_SIG : list Z := text "RSD PTR ".
Definition ACPI_FACP_SIG : list Z := text "FACP".
Definition ACPI_SLP_EN : Z := Z.shiftl 1 13.
Definition ACPI_S5_TYP : Z := 1.
Definition QEMU_PIIX4_PORT : Z := 0x4004.
Definition QEMU_PIIX4_VAL : Z := 0x3400.
Definition QEMU_DEBUG_PORT : Z := 0x604.
Definition QEMU_DEBUG_VAL : Z := 0x2000.

(** Offsets in the packed structures. *)
Definition SDT_HEADER : Z := 36.
Definition rsdt_address (rsdp : Z) : M vmm Z := load_le 4 (u32 (rsdp + 16)).
Definition sdt_length (sdt : Z) : M vmm Z := load_le 4 (u32 (sdt + 4)).
Definition rsdt_entry (rsdt i : Z) : M vmm Z := load_le 4 (u32 (rsdt + SDT_HEADER + 4 * i)).
Definition pm1a_cnt_blk (fadt : Z) : M vmm Z := load_le 4 (u32 (fadt + 58)).
Definition pm1_cnt_len (fadt : Z) : M vmm Z := load8 (u32 (fadt + 83)).

Section Tables.
Context {layout : KernelLayout}.

Definition acpi_map (phys len : Z) : M vmm unit :=
  let base := Z.land phys (u32 (Z.lnot 0xFFF)) in
  locals (while_ (Z.to_nat (len / PAGE_SIZE) + 2) base (fun p =>
    if p <? u32 (base + len) then
      vm_map_page p p;;
      native_flush_tlb_single p;;
      mret (Cont (u32 (p + PAGE_SIZE)))
    else mret (Brk p)));;
  mret tt.

Definition acpi_checksum (data len : Z) : M vmm Z :=
  locals (for_ (span 0 len) 0 0 (fun i sum =>
    b ← load8 (u32 (data + i));
    mret (Cont (u8 (sum + b))))).

(** The tests at each paragraph of [from, to). *)
Definition scan_rsdp (from to : Z) : M vmm (option Z) :=
  r ← for_ (span 0 ((to - from + 15) / 16)) 0 tt (fun k _ =>
    let addr := from + 16 * k in
    m ← mem_is addr ACPI_RSDP_SIG 8;
    c ← (if (m : bool) then c ← acpi_checksum addr 20; mret (c =? 0) else mret false);
    if (c : bool) then mret (Ret addr) else mret (Cont tt));
  match r with inl _ => mret None | inr a => mret (Some a) end.

Definition acpi_find_rsdp : M vmm (option Z) :=
  seg ← load_le 2 0x40E;
  let ebda := u32 (Z.shiftl seg 4) in
  let ebda := if 0x7FF00 <? ebda then 0 else ebda in
  r ← scan_rsdp (Z.land ebda (u32 (Z.lnot 0xF))) (ebda + 0x400);
  match r with
  | Some a => mret (Some a)
  | None => scan_rsdp 0xE0000 0x100000
  end.

Definition acpi_find_fadt (rsdp : Z) : M vmm (option Z) :=
  rsdt_phys ← rsdt_address rsdp;
  if rsdt_phys =? 0 then mret None
  else
    acpi_map rsdt_phys (SDT_HEADER + 4);;
    len ← sdt_length rsdt_phys;
    acpi_map rsdt_phys len;;
    c ← acpi_checksum rsdt_phys len;
    if negb (c =? 0) then mret None
    else
      let count := u32 (len - SDT_HEADER) / 4 in
      r ← for_ (span 0 count) 0 tt (fun i _ =>
        entry ← rsdt_entry rsdt_phys i;
        acpi_map entry SDT_HEADER;;
        m ← mem_is entry ACPI_FACP_SIG 4;
        if (m : bool) then mret (Ret entry) else mret (Cont tt));
      match r with inl _ => mret None | inr a => mret (Some a) end.
End Tables.

Section Power.
Context {P K D H N R : Type} `{Ports P, Ports R, Cpu, KernelLayout}.
Notation C := (M (machine P K D H N R)).

Variable fuel : nat.

Definition pio_inw (p : Z) : C Z := on_pio (fun d => let '(v, d) := port_inw (u16 p) d in Ok (u16 v) d).
Definition pio_outw (p v : Z) : C unit := on_pio (modify (port_outw (u16 p) (u16 v))).

Definition acpi_power_off (fadt : Z) : C Z :=
  pm1a ← on_vmm (pm1a_cnt_blk fadt);
  len ← (if pm1a =? 0 then mret 0 else on_vmm (pm1_cnt_len fadt));
  if (pm1a =? 0) || (len <? 2) then mret 0
  else
    val ← pio_inw (u16 pm1a);
    pio_outw (u16 pm1a) (u16 (Z.lor (Z.lor (Z.land val (Z.lnot 0x1FFF)) (Z.land ACPI_S5_TYP 0x1F)) ACPI_SLP_EN));;
    mret 1.

Definition qemu_fallback : C unit :=
  pio_outw QEMU_PIIX4_PORT QEMU_PIIX4_VAL;;
  pio_outw QEMU_DEBUG_PORT QEMU_DEBUG_VAL.

(** The processor is parked at the end. *)
Definition acpi_shutdown : C unit :=
  rsdp ← on_vmm acpi_find_rsdp;
  fadt ← (match rsdp with Some a => on_vmm (acpi_find_fadt a) | None => mret None end);
  off ← (match fadt with
    | Some a =>
        v ← on_vmm (pm1a_cnt_blk a);
        say "ACPI: S5 via FADT (PM1a_CNT 0x%x)\n" [Pk32 v];;
        acpi_power_off a
    | None =>
        say "ACPI: no usable tables, using QEMU ports\n" [];;
        mret 0
    end);
  (if negb (off =? 0) then mret tt else qemu_fallback);;
  stuck Halted.

(** * Demonstrations *)

Definition demo_alloc (format : string) (alloc size : Z -> M vmm Z) (n : Z) (shown : string) : C Z :=
  say format [];;
  a ← on_vmm (alloc n);
  s ← on_vmm (size a);
  say shown [Pk32 a; Pk32 s];;
  mret a.

Definition demo_free (format : string) (free : Z -> M vmm unit) (a : Z) : C unit :=
  say format [];;
  on_vmm (free a).

Definition demo_kmalloc : C unit :=
  a ← demo_alloc "char *a = kmalloc(1)\n" kmalloc ksize 1 "a = %p | ksize(a) = %d\n";
  b ← demo_alloc "char *b = kmalloc(12000)\n" kmalloc ksize 12000 "b = %p | ksize(b) = %d\n";
  c ← demo_alloc "char *c = kmalloc(1)\n" kmalloc ksize 1 "c = %p | ksize(c) = %d\n";
  demo_free "kfree(a)\n" kfree a;;
  d ← demo_alloc "char *d = kmalloc(1)\n" kmalloc ksize 1 "d = %p | ksize(d) = %d\n";
  demo_free "kfree(b)\n" kfree b;;
  demo_free "kfree(c)\n" kfree c;;
  demo_free "kfree(d)\n" kfree d.

Definition demo_vmalloc : C unit :=
  a ← demo_alloc "char *a = vmalloc(1)\n" vmalloc vsize 1 "a = %p | vsize(a) = %d\n";
  b ← demo_alloc "char *b = vmalloc(12000)\n" vmalloc vsize 12000 "b = %p | vsize(b) = %d\n";
  c ← demo_alloc "char *c = vmalloc(1)\n" vmalloc vsize 1 "c = %p | vsize(c) = %d\n";
  demo_free "vfree(a)\n" vfree a;;
  d ← demo_alloc "char *d = vmalloc(1)\n" vmalloc vsize 1 "d = %p | vsize(d) = %d\n";
  demo_free "vfree(b)\n" vfree b;;
  demo_free "vfree(c)\n" vfree c;;
  demo_free "vfree(d)\n" vfree d.

(** [vm_dump_alloc] with its lines. *)
Definition show_dump (a : Z) : C unit :=
  l ← on_vmm (vm_dump_alloc a);
  each 0 (lenZ l) (fun i =>
    match l !! Z.to_nat i with
    | Some (vaddr, p) => say "Virtual address 0x%x | Physical address %p\n" [Pk32 vaddr; Pk32 p]
    | None => mret tt
    end).

Definition demo_paging : C unit :=
  say "char *a = vmalloc(1)\n" [];;
  a ← on_vmm (vmalloc 1);
  say "vm_dump_alloc(a)\n" [];;
  show_dump a;;
  say "char *b = vmalloc(4097)\n" [];;
  b ← on_vmm (vmalloc 4097);
  say "vm_dump_alloc(b)\n" [];;
  show_dump b;;
  say "vfree(a)\n" [];;
  on_vmm (vfree a);;
  say "k/v malloc(13000)\n" [];;
  c ← on_vmm (vmalloc 13000);
  say "vm_dump_alloc(c)\n" [];;
  show_dump c.

Definition demo_page_panic : C unit :=
  say "char *ptr = 0xFFF4442F\nptr[1] = 0;\n\n" [];;
  on_vmm (store8 (0xFFF4442F + 1) 0).

Definition demo_div_panic : C unit :=
  say "int b = 1 / 0\n\n" [];;
  stuck DivByZero.

Definition conv_digits : list Z := text "0123456789abcdef".

(** The bytes from [begin] to [end_], eight in a row. *)
Definition dump_stack (begin end_ : Z) : C unit :=
  on_scr (puts (text "Stack content:\n"));;
  locals (while_ (Z.to_nat (end_ - begin) + 2) (begin, 0) (fun '(ptr, i) =>
    if ptr <=? end_ then
      (if i mod 8 =? 0 then say "%p:" [Pk32 ptr] else mret tt);;
      b ← on_vmm (load8 ptr);
      hi ← aget conv_digits (Z.land (Z.shiftr b 4) 0x0F);
      lo ← aget conv_digits (Z.land b 0x0F);
      say " %c%c" [Pk32 hi; Pk32 lo];;
      (if (i mod 8 =? 7) || (ptr =? end_) then on_scr (puts (text "\n")) else mret tt);;
      mret (Cont (u32 (ptr + 1), u32 (i + 1)))
    else mret (Brk (ptr, i))));;
  on_scr (puts (text "\n")).

(** The frames from the caller's on; [esp] is read with [ebp]. *)
Definition print_stack (esp dump : Z) : C unit :=
  say "Stack Trace:\n" [];;
  ebp ← locals (while_ fuel (frame_pointer, frame_pointer) (fun '(stk, ebp) =>
    if negb (stk =? 0) then
      eip ← on_vmm (load_le 4 (u32 (stk + 4)));
      say "<0x%x> at ?\n" [Pk32 (eip - 5)];;
      up ← on_vmm (load_le 4 stk);
      mret (Cont (up, stk))
    else mret (Brk (stk, ebp))));
  on_scr (puts (text "\n"));;
  if dump =? 0 then dump_stack esp (snd ebp) else mret tt.
End Power.
