(* ===== verification/Interrupts.v ===== *)
(** Interrupts: [src/kernel/arch/install_irq.c], [irq_handler.c],
    [exception_handler.c], [tss_init] of [tss.c], and the entry stubs of
    [src/boot/irqs.s] and [src/boot/idt_exceptions.s] that call them.

    The kernel is the machine of the shell with the descriptor tables.  A stub
    is given the address of the frame it has pushed and returns the address
    it restores the registers from: another task's when it switches. *)
From Stdlib Require Import ZArith Lia List String.
From stdpp Require Import base tactics numbers list gmap strings option.
From S2P Require Import Prelude Pmm Vmm Heap CString Sched UserTask Bytes Ata Disk Ext2 Vfs NetState Rtl8139 Net Fbcon Term Printk Keyboard Readline Text TextBuf ViState Descriptors Machine Commands Acpi.
Open Scope Z_scope.

Definition PIC_MASTER_0 : Z := 0x20.
Definition PIC_MASTER_1 : Z := 0x21.
Definition PIC_SLAVE_0 : Z := 0xA0.
Definition PIC_SLAVE_1 : Z := 0xA1.
Definition PIC_EOI : Z := 0x20.
Definition IRQ_VECTOR_OFFSET : Z := 32.
Definition IS_IRQ_SLAVE (x : Z) : bool := 40 <=? x.

(** The saved registers, in the order of the structure. *)
Record regs_t : Type := mkRegsT {
  r_gs : Z; r_fs : Z; r_es : Z; r_ds : Z;
  r_edi : Z; r_esi : Z; r_ebp : Z; r_esp : Z; r_ebx : Z; r_edx : Z; r_ecx : Z; r_eax : Z;
  int_no : Z; err_code : Z;
  r_eip : Z; r_cs : Z; r_eflags : Z; r_useresp : Z; r_ss : Z
}.
Definition set_r_eax (v : Z) (r : regs_t) : regs_t :=
  mkRegsT (r_gs r) (r_fs r) (r_es r) (r_ds r) (r_edi r) (r_esi r) (r_ebp r) (r_esp r) (r_ebx r) (r_edx r) (r_ecx r) v
    (int_no r) (err_code r) (r_eip r) (r_cs r) (r_eflags r) (r_useresp r) (r_ss r).

(** The names of the faults; the last five pointers of the array are null. *)
Definition exception_msgs : list (option string) := map Some [
  "Division Error"; "Debug"; "Non-maskable Interrupt"; "Breakpoint"; "Overflow"; "Bound Range Exceeded";
  "Invalid Opcode"; "Device Not Available"; "Double Fault"; "Coprocessor Segment Overrun"; "Invalid TSS";
  "Segment Not Present"; "Stack-Segment Fault"; "General Protection Fault"; "Page Fault"; "Reserved";
  "x87 Floating-Point Exception"; "Alignment Check"; "Machine Check"; "SIMD Floating-Point Exception";
  "Virtualization Exception"; "Control Protection Exception"; "Reserved"; "Hypervisor Injection Exception";
  "VMM Communication Exception"; "Security Exception"; "Reserved"]%string ++ replicate 5 None.
Definition exception_msg (n : Z) : pk_arg := PkStr (text <$> (nth (Z.to_nat n) exception_msgs None)).

Record kernel (P K D H N R : Type) : Type := mkKernel { mc : machine P K D H N R; dt : tables }.
Arguments mkKernel {P K D H N R} _ _.
Arguments mc {P K D H N R} _.
Arguments dt {P K D H N R} _.

Section Interrupts.
Context {P K D H N R : Type} `{Ports P, KbdHw K, NicHw N, Ports R, Locals, KernelText}.
Notation Kern := (kernel P K D H N R).
Notation G := (M Kern).

(** The handler of received frames, and the fuel of the card's ring. *)
Variable receive : list Z -> Z -> M (net N) unit.
Variable fuel : nat.

Definition set_mc (v : machine P K D H N R) (s : Kern) : Kern := mkKernel v (dt s).
Definition set_dt (v : tables) (s : Kern) : Kern := mkKernel (mc s) v.
Definition on_mc {A} (m : M (machine P K D H N R) A) : G A := zoom mc set_mc m.
Definition on_dt {A} (m : M tables A) : G A := zoom dt set_dt m.
Definition on_sc {A} (m : M sched A) : G A := on_mc (on_tasks (sc m)).

(** * The interrupt controllers and the table of handlers *)

Definition irq_unregister (irq : Z) : M (net N) unit := irq_register irq 0.

Definition irq_remap : G unit :=
  on_mc (
    pio_outb PIC_MASTER_0 0x11;;
    pio_outb PIC_SLAVE_0 0x11;;
    pio_outb PIC_MASTER_1 0x20;;
    pio_outb PIC_SLAVE_1 0x28;;
    pio_outb PIC_MASTER_1 0x04;;
    pio_outb PIC_SLAVE_1 0x02;;
    pio_outb PIC_MASTER_1 0x01;;
    pio_outb PIC_SLAVE_1 0x01;;
    pio_outb PIC_MASTER_1 0xFC;;
    pio_outb PIC_SLAVE_1 0xFF).

Definition irq_init : G unit :=
  irq_remap;;
  on_dt (locals (for_ (span 0 16) 0 tt (fun i _ =>
    idt_set (IRQ_VECTOR_OFFSET + i) (irq_stub_table i) 0x8E;; mret (Cont tt))));;
  on_mc (on_net (irq_register 0 timer_int_addr));;
  on_mc (on_net (irq_register 1 keyboard_handler_addr)).

(** A call through a pointer: the three handlers the kernel registers. *)
Definition call_handler (a : Z) : G unit :=
  if a =? timer_int_addr then on_sc timer_int
  else if a =? keyboard_handler_addr then on_mc (on_con (on_kbd keyboard_handler))
  else if a =? rtl8139_irq_handler_addr then on_mc (on_net (rtl8139_irq_handler receive fuel))
  else stuck PageFault.

Definition irq_dispatch (re : regs_t) : G unit :=
  r ← gets (fun s => irq_routines (nt (mc s)));
  handler ← aget r (u32 (int_no re - IRQ_VECTOR_OFFSET));
  (if negb (handler =? 0) then call_handler handler else mret tt);;
  (if IS_IRQ_SLAVE (int_no re) then on_mc (pio_outb PIC_SLAVE_0 PIC_EOI) else mret tt);;
  on_mc (pio_outb PIC_MASTER_0 PIC_EOI).

(** * Exceptions *)

(** The return addresses on the kernel stack, at most eight frames. *)
Definition backtrace (ebp : Z) : G unit :=
  on_mc (locals (for_ (span 0 8) 0 ebp (fun _ fp =>
    if (0x100000 <? fp) && (fp <? 0x2000000) then
      ret ← on_vmm (load_le 4 (u32 (fp + 4)));
      say "fp=%p ret=%p\n" [Pk32 fp; Pk32 ret];;
      fp ← on_vmm (load_le 4 fp);
      mret (Cont fp)
    else mret (Brk fp))));;
  mret tt.

Definition exc_handler (re : regs_t) : G unit :=
  if 32 <=? int_no re then
    on_mc (say "\nUnexpected vector %u via exception stub (eip=0x%x) - halting\n" [Pk32 (int_no re); Pk32 (r_eip re)]);;
    stuck Halted
  else if negb (Z.land (r_cs re) 3 =? 0) then
    p ← on_sc sched_pid;
    on_mc (say "\n[user pid %d] %s fault (eip=0x%x err=0x%x) - killing task\n"
      [Pk32 p; exception_msg (int_no re); Pk32 (r_eip re); Pk32 (err_code re)]);;
    on_sc (sched_exit 1)
  else
    on_mc (say "\n%s Exception (eip=0x%x err=0x%x esp=0x%x eflags=0x%x cs=0x%x)\n"
      [exception_msg (int_no re); Pk32 (r_eip re); Pk32 (err_code re); Pk32 (r_esp re); Pk32 (r_eflags re); Pk32 (r_cs re)]);;
    on_mc (say "eax=0x%x ebx=0x%x ecx=0x%x edx=0x%x esi=0x%x edi=0x%x ebp=0x%x\n"
      [Pk32 (r_eax re); Pk32 (r_ebx re); Pk32 (r_ecx re); Pk32 (r_edx re); Pk32 (r_esi re); Pk32 (r_edi re); Pk32 (r_ebp re)]);;
    backtrace (r_ebp re);;
    on_mc (say "System Halted" []);;
    stuck Halted.

(** * The task state segment *)

Definition tss_init : G unit :=
  on_dt tss_clear;;
  on_sc (modify (set_esp0 0));;
  on_sc (tss_set_kernel_esp0 0);;
  on_dt tss_set_segments.

(** * The entry stubs *)

Definition irq_common_stub (esp : Z) (re : regs_t) : G Z :=
  on_sc (modify (set_cur_esp esp));;
  on_sc (modify (set_next_esp esp));;
  irq_dispatch re;;
  on_sc (
    a ← gets sched_active;
    if a =? 0 then mret esp else gets sched_next_esp).

(** The end of the two stubs below: leave for the task a handler asked for. *)
Definition resume (esp : Z) : G Z :=
  on_sc (
    f ← gets sched_force_switch;
    if f =? 0 then mret esp
    else
      modify (set_force_switch 0);;
      gets sched_next_esp).

Definition isr_common_stub (esp : Z) (re : regs_t) : G Z :=
  on_sc (modify (set_cur_esp esp));;
  exc_handler re;;
  resume esp.

(** [term_write(buf, len)]: the bytes are read through the page tables as they
    are written. *)
Definition user_write (buf len : Z) : G unit :=
  on_mc (each 0 len (fun i =>
    b ← on_vmm (load8 (u32 (buf + i)));
    on_scr (term_putchar b))).

(** [syscall_handler] and then what it has written: it uses nothing between. *)
Definition run_syscall (r : regs) : G regs := fun s =>
  match syscall_handler r (mkSys (u_sched (tasks (mc s))) []) with
  | Ok r' st =>
      (on_sc (modify (fun _ => sys_sched st));;
       mapM (fun '(buf, len) => user_write buf len) (term_writes st);;
       mret r') s
  | Stuck e st => (on_sc (modify (fun _ => sys_sched st));; stuck e) s
  end.

Definition sys_common_stub (esp : Z) (re : regs_t) : G (Z * regs_t) :=
  on_sc (modify (set_cur_esp esp));;
  r ← run_syscall (mkRegs (r_eax re) (r_ebx re) (r_ecx re) (r_edx re));
  esp' ← resume esp;
  mret (esp', set_r_eax (eax r) re).
End Interrupts.
