(* ===== verification/InterruptFacts.v ===== *)
(** Correctness of the interrupt path: the segments and the gates the
    processor finds, the acknowledgement of interrupts, the context switch of
    a timer interrupt from stub to stub, and what becomes of a fault. *)
From Stdlib Require Import ZArith Lia List String.
From stdpp Require Import base tactics numbers list gmap strings option.
From S2P Require Import VfsFacts NetDemo Prelude Pmm Vmm Heap CString Sched UserTask Bytes Ata Disk Ext2 Vfs NetState Rtl8139 Net Fbcon Term TermFacts Printk PrintkFacts Keyboard Readline Text TextBuf ViState Descriptors Machine MachineDemo SayFacts Commands Acpi Interrupts.
Open Scope Z_scope.

(** * Descriptor tables *)

Section Tables.
Context {ktext : KernelText}.
Implicit Types s : tables.

Lemma wp_gdt_set_entry i base limit acc flg (Q : unit -> tables -> Prop) s :
  0 <= i < lenZ (gdt_e s) -> Q tt (set_gdt_e (<[Z.to_nat i := gdt_entry_of base limit acc flg]> (gdt_e s)) s) ->
  wp (gdt_set_entry i base limit acc flg) Q s.
Proof. intros Hi HQ. unfold gdt_set_entry. by repeat wp_step. Qed.

(** A 4 GB segment of ring [dpl]. *)
Definition flat (dpl ty : Z) : segment := mkSegment 0 0xFFFFFFFF true dpl false ty true.
Definition SEG_CODE : Z := 10.
Definition SEG_DATA : Z := 2.
Definition TSS_AVAILABLE : Z := 9.

(** The table [gdt_init] builds. *)
Definition gdt_image : list gdt_entry_t := [
  gdt_entry_of 0 0 0 0;
  gdt_entry_of 0 0xFFFFF 0x9A 0xC; gdt_entry_of 0 0xFFFFF 0x92 0xC; gdt_entry_of 0 0xFFFFF 0x96 0xC;
  gdt_entry_of 0 0xFFFFF 0xFA 0xC; gdt_entry_of 0 0xFFFFF 0xF2 0xC; gdt_entry_of 0 0xFFFFF 0xF6 0xC;
  gdt_entry_of g_tss_addr 0x67 0x89 0].

Lemma wp_gdt_init (Q : unit -> tables -> Prop) s :
  lenZ (gdt_e s) = 8 ->
  Q tt (set_r_gdtr (mkGdtPtr 63 GDT_BASE) (set_gdt_mem (concat (map gdt_bytes gdt_image))
    (set_gdt_e gdt_image (set_gdt (mkGdtPtr 63 GDT_BASE) s)))) ->
  wp gdt_init Q s.
Proof.
  intros Hl HQ. unfold gdt_init. wp_step. wp_step.
  destruct s as [e g m i ir t rg ri tr]. cbn [gdt_e] in Hl.
  do 8 (destruct e as [|? e]; [done|]). destruct e; [|unfold lenZ in Hl; simpl in Hl; lia].
  do 8 (wp_step; apply wp_gdt_set_entry; [by vm_compute|]).
  wp_step. wp_step. wp_step. wp_step. unfold gdt_flush. wp_step. wp_step. wp_step. exact HQ.
Qed.

(** Reading the 8 bytes of entry [k] in the table. *)
Lemma segment_at_ext l l' o o' : (forall k, 0 <= k < 8 -> rd l (o + k) = rd l' (o' + k)) -> segment_at l o = segment_at l' o'.
Proof.
  intros He. unfold segment_at, le16. rewrite <- !Z.add_assoc. rewrite <- (Z.add_0_r o), <- (Z.add_0_r o') at 1.
  pose proof (He 0 ltac:(lia)) as H0. rewrite !Z.add_0_r in H0. rewrite !Z.add_0_r.
  by rewrite H0, !He by lia.
Qed.

Lemma gdt_image_segment k e : gdt_image !! Z.to_nat k = Some e -> 0 <= k ->
  segment_at (concat (map gdt_bytes gdt_image)) (8 * k) = segment_at (gdt_bytes e) 0.
Proof.
  intros He Hk. pose proof (lookup_lt_Some _ _ _ He) as Hlt. cbn in Hlt.
  apply segment_at_ext. intros j Hj.
  assert (Hc : k = 0 \/ k = 1 \/ k = 2 \/ k = 3 \/ k = 4 \/ k = 5 \/ k = 6 \/ k = 7) by lia.
  assert (Hcj : j = 0 \/ j = 1 \/ j = 2 \/ j = 3 \/ j = 4 \/ j = 5 \/ j = 6 \/ j = 7) by lia.
  repeat destruct Hc as [->|Hc]; subst; injection He as <-; repeat destruct Hcj as [->|Hcj]; subst; reflexivity.
Qed.

(** The table [gdt_init] leaves, and what its selectors name. *)
Definition with_gdt s : tables :=
  set_r_gdtr (mkGdtPtr 63 GDT_BASE) (set_gdt_mem (concat (map gdt_bytes gdt_image))
    (set_gdt_e gdt_image (set_gdt (mkGdtPtr 63 GDT_BASE) s))).
Lemma gdt_selects s sel e sg : gdt_image !! Z.to_nat (sel / 8) = Some e -> 0 <= sel < 64 ->
  segment_at (gdt_bytes e) 0 = sg -> selected (with_gdt s) sel = Some sg.
Proof.
  intros He Hr <-. unfold selected. cbn [with_gdt set_r_gdtr r_gdtr gdt_base gdt_limit].
  rewrite Z.eqb_refl. cbn [andb]. destruct (Z.leb_spec (8 * (sel / 8) + 7) 63); [|word_lia].
  cbn [gdt_mem set_gdt_mem]. f_equal. apply gdt_image_segment; [done | word_lia].
Qed.

(** After [gdt_init] the selectors the kernel uses name the segments it
    means: code and data of ring 0 and of ring 3 over the 4 GB, and the 104
    bytes of the task state segment where the linker put them; the null
    descriptor is not present and no selector beyond the eight entries is
    within the limit.  The entries meant for stacks, which no selector of the
    kernel names, are expand-down: with that limit they hold no address. *)
Theorem gdt_init_segments s :
  lenZ (gdt_e s) = 8 ->
  exists s', gdt_init s = Ok tt s' /\
    selected s' GDT_SEL_KERN_CODE = Some (flat 0 SEG_CODE) /\ selected s' GDT_SEL_KERN_DATA = Some (flat 0 SEG_DATA) /\
    selected s' GDT_SEL_USER_CODE = Some (flat 3 SEG_CODE) /\ selected s' GDT_SEL_USER_DATA = Some (flat 3 SEG_DATA) /\
    selected s' GDT_SEL_TSS = Some (mkSegment g_tss_addr 103 true 0 true TSS_AVAILABLE false) /\
    (exists g, selected s' 0 = Some g /\ sg_present g = false) /\
    selected s' 0x18 = Some (flat 0 6) /\ selected s' 0x33 = Some (flat 3 6) /\
    (forall sel, 64 <= sel -> selected s' sel = None) /\ idt s' = idt s /\ g_tss s' = g_tss s.
Proof.
  intros Hl. apply wp_unit, wp_gdt_init; [done|]. change (set_r_gdtr _ _) with (with_gdt s).
  pose proof addr_range as (Ht & _ & _).
  split; [by eapply gdt_selects|]. split; [by eapply gdt_selects|]. split; [by eapply gdt_selects|]. split; [by eapply gdt_selects|].
  split; [eapply gdt_selects; [reflexivity | done | by rewrite gdt_entry_decodes by lia]|].
  split; [eexists; split; [by eapply gdt_selects | done]|].
  split; [by eapply gdt_selects|]. split; [by eapply gdt_selects|]. split; [|done].
  intros sel Hr. unfold selected. cbn [with_gdt set_r_gdtr r_gdtr gdt_base gdt_limit].
  destruct (Z.leb_spec (8 * (sel / 8) + 7) 63); [word_lia | done].
Qed.
End Tables.

(** ** Gates *)

Section Gates.
Context {ktext : KernelText}.
Implicit Types s : tables.

Lemma wp_idt_set v isr flg (Q : unit -> tables -> Prop) s :
  0 <= v < 256 -> lenZ (idt s) = 256 -> Q tt (set_idt (<[Z.to_nat v := idt_entry_of isr flg]> (idt s)) s) ->
  wp (idt_set v isr flg) Q s.
Proof.
  intros Hv Hl HQ. assert (Hu : u8 v = v) by (by apply Z.mod_small).
  unfold idt_set. rewrite Hu. wp_step. wp_step. wp_step. apply wp_guard; [by rewrite Hl|]. wp_step. exact HQ.
Qed.

(** A run of vectors: [n] from [base] on. *)
Definition idt_run (base : Z) (stub : Z -> Z) (flg : Z) (n : Z) (l : list idt_entry_t) : list idt_entry_t :=
  map (fun v => if decide (base <= v < base + n) then idt_entry_of (stub (v - base)) flg
                else nth (Z.to_nat v) l null_idt_entry) (seqZ 0 256).

Lemma nth_idt_run base stub flg n l v : 0 <= v < 256 ->
  nth (Z.to_nat v) (idt_run base stub flg n l) null_idt_entry =
  if decide (base <= v < base + n) then idt_entry_of (stub (v - base)) flg else nth (Z.to_nat v) l null_idt_entry.
Proof.
  intros Hv. unfold idt_run. apply nth_lookup_Some. rewrite list_lookup_fmap, lookup_seqZ_lt by lia. simpl. do 2 f_equal.
  rewrite Z2Nat.id by lia. done.
Qed.

Lemma nth_idt_set v w e (l : list idt_entry_t) : 0 <= v < lenZ l -> 0 <= w ->
  nth (Z.to_nat w) (<[Z.to_nat v := e]> l) null_idt_entry = if decide (v = w) then e else nth (Z.to_nat w) l null_idt_entry.
Proof.
  intros Hv Hw. rewrite !nth_lookup. case_decide as He; [subst|].
  - rewrite list_lookup_insert_eq by (unfold lenZ in Hv; lia). done.
  - rewrite list_lookup_insert_ne by lia. done.
Qed.

Lemma wp_idt_loop base stub flg n (Q : unit -> tables -> Prop) s :
  0 <= base -> 0 <= n -> base + n <= 256 -> lenZ (idt s) = 256 ->
  (forall l, lenZ l = 256 ->
     (forall v, 0 <= v < 256 -> nth (Z.to_nat v) l null_idt_entry = nth (Z.to_nat v) (idt_run base stub flg n (idt s)) null_idt_entry) ->
     Q tt (set_idt l s)) ->
  wp (locals (for_ (span 0 n) 0 tt (fun i _ => idt_set (base + i) (stub i) flg;; mret (Cont tt)))) Q s.
Proof.
  intros Hb Hn Hbn Hl HQ. apply wp_locals.
  apply (wp_for (fun i _ s' => exists l, lenZ l = 256 /\ s' = set_idt l s /\
    forall v, 0 <= v < 256 -> nth (Z.to_nat v) l null_idt_entry = nth (Z.to_nat v) (idt_run base stub flg i (idt s)) null_idt_entry)).
  - exists (idt s). split; [done|]. split; [by destruct s|]. intros v Hv. rewrite nth_idt_run by done.
    rewrite decide_False by lia. done.
  - intros i [] s' Hi (l & Hll & -> & Hr). unfold span in Hi. wp_step. apply wp_idt_set; [lia | done |]. wp_step.
    cbn [idt set_idt]. exists (<[Z.to_nat (base + i) := idt_entry_of (stub i) flg]> l).
    split; [unfold lenZ in *; by rewrite length_insert|]. split; [done|].
    intros v Hv. rewrite nth_idt_set, Hr, !nth_idt_run by (lia || done).
    destruct (decide (base + i = v)) as [<-|].
    + rewrite decide_True by lia. f_equal. f_equal. lia.
    + by repeat case_decide; try lia.
  - intros [] s' (l & Hll & -> & Hr). unfold span in Hr. apply HQ; [done|].
    by replace (0 + Z.of_nat (Z.to_nat (n - 0))) with n in Hr by lia.
Qed.
End Gates.

Section Kernel.
Context {P K D H N R : Type} `{Ports P, KbdHw K, NicHw N, PR : Ports R, Locals, ktext : KernelText}.
Notation Kern := (kernel P K D H N R).
Implicit Types s : Kern.
Variable receive : list Z -> Z -> M (net N) unit.
Variable fuel : nat.

(** ** Lifting *)

Lemma wp_on_mc {A} (m : M (machine P K D H N R) A) (Q : A -> Kern -> Prop) s :
  wp m (fun a v => Q a (set_mc v s)) (mc s) -> wp (on_mc m) Q s.
Proof. intros Hm. unfold on_mc. wp_step. exact Hm. Qed.
Lemma wp_on_dt {A} (m : M tables A) (Q : A -> Kern -> Prop) s :
  wp m (fun a v => Q a (set_dt v s)) (dt s) -> wp (on_dt m) Q s.
Proof. intros Hm. unfold on_dt. wp_step. exact Hm. Qed.

(** The scheduler's part of the state. *)
Definition sched_of s : sched := u_sched (tasks (mc s)).
Definition with_sched (v : sched) s : Kern := set_mc (set_tasks (set_u_sched v (tasks (mc s))) (mc s)) s.
Lemma wp_on_sc {A} (m : M sched A) (Q : A -> Kern -> Prop) s :
  wp m (fun a v => Q a (with_sched v s)) (sched_of s) -> wp (on_sc m) Q s.
Proof. intros Hm. unfold on_sc, on_tasks, sc. apply wp_on_mc. wp_step. wp_step. exact Hm. Qed.

(** The port of the machine. *)
Definition with_pio (v : R) s : Kern := set_mc (set_pio v (mc s)) s.
Lemma wp_pio_outb p v (Q : unit -> Kern -> Prop) s :
  0 <= p < 65536 -> 0 <= v < 256 -> Q tt (with_pio (port_outb p v (pio (mc s))) s) -> wp (on_mc (pio_outb p v)) Q s.
Proof.
  intros Hp Hv HQ. apply wp_on_mc. unfold pio_outb, on_pio. wp_step. wp_step.
  assert (u16 p = p) as -> by (by apply Z.mod_small). assert (u8 v = v) as -> by (by apply Z.mod_small). exact HQ.
Qed.

(** The commands that leave the controllers at vectors 32 to 47, with the
    timer and the keyboard alone unmasked. *)
Definition pic_commands : list (Z * Z) :=
  [(0x20, 0x11); (0xA0, 0x11); (0x21, 0x20); (0xA1, 0x28); (0x21, 0x04); (0xA1, 0x02); (0x21, 0x01); (0xA1, 0x01);
   (0x21, 0xFC); (0xA1, 0xFF)].
Definition send (cs : list (Z * Z)) (r : R) : R := fold_left (fun r '(p, v) => port_outb p v r) cs r.

Lemma with_pio_twice u v s : with_pio v (with_pio u s) = with_pio v s.
Proof. done. Qed.

Lemma wp_irq_remap (Q : unit -> Kern -> Prop) s : Q tt (with_pio (send pic_commands (pio (mc s))) s) -> wp irq_remap Q s.
Proof.
  intros HQ. unfold irq_remap. apply wp_on_mc. unfold pio_outb, on_pio. do 9 (wp_step; wp_step; wp_step). wp_step. wp_step. exact HQ.
Qed.

Lemma wp_irq_register i h (Q : unit -> Kern -> Prop) s :
  0 <= i < 16 -> Q tt (set_mc (set_nt (set_irq_routines (wr (irq_routines (nt (mc s))) i h) (nt (mc s))) (mc s)) s) ->
  wp (on_mc (on_net (irq_register i h))) Q s.
Proof. intros Hi HQ. apply wp_on_mc. unfold on_net, irq_register. wp_step. wp_step. apply wp_guard; [done|]. wp_step. exact HQ. Qed.

(** An interrupt gate of the kernel's code segment. *)
Definition kernel_gate (stub dpl : Z) : gate := mkGate stub GDT_SEL_KERN_CODE true dpl 14.
Definition empty_gate : gate := mkGate 0 0 false 0 0.

(** The gates in order of the vector. *)
Definition installed (v : Z) : gate :=
  if v <? 32 then kernel_gate (isr_stub_table v) 0
  else if v <? 48 then kernel_gate (irq_stub_table (v - 32)) 0
  else if v =? 0x80 then kernel_gate syscall_stub 3
  else empty_gate.

(** What [idt_init] and [irq_init] leave, with the table [l]. *)
Definition with_gates (l : list idt_entry_t) s : Kern :=
  mkKernel
    (set_nt (set_irq_routines (wr (wr (irq_routines (nt (mc s))) 0 timer_int_addr) 1 keyboard_handler_addr) (nt (mc s)))
      (set_pio (send pic_commands (pio (mc s))) (mc s)))
    (set_r_idtr (mkIdtr 2047 idt_addr) (set_idt l (set_idtr (mkIdtr 2047 idt_addr) (dt s)))).
Definition gates_of (l : list idt_entry_t) : Prop :=
  forall v, 0 <= v < 256 -> gate_at (idt_bytes (nth (Z.to_nat v) l null_idt_entry)) 0 = installed v.

Lemma wp_gates (Q : unit -> Kern -> Prop) s :
  idt (dt s) = replicate 256 null_idt_entry ->
  (forall l, gates_of l -> Q tt (with_gates l s)) ->
  wp (on_dt idt_init) (fun _ => wp irq_init Q) s.
Proof.
  intros Hi HQ. apply wp_on_dt. unfold idt_init. wp_step. wp_step. wp_step.
  apply (wp_idt_loop 0 isr_stub_table 0x8E 32); [lia.. | by cbn [idt set_idtr]; rewrite Hi |]. intros l Hl Hr. cbn [idt set_idt set_idtr] in *.
  wp_step. apply wp_idt_set; [lia | done|]. unfold load_idt. wp_step. wp_step. wp_step.
  unfold irq_init. wp_step. apply wp_irq_remap. wp_step. apply wp_on_dt.
  set (l1 := (<[Z.to_nat 128 := idt_entry_of syscall_stub 0xEE]> l : list idt_entry_t)). assert (Hl1 : lenZ l1 = 256) by (unfold lenZ in *; subst l1; by rewrite length_insert).
  apply (wp_idt_loop 32 irq_stub_table 0x8E 16); [lia.. | done |]. intros l2 Hl2 Hr2.
  wp_step. apply wp_irq_register; [lia|]. apply wp_irq_register; [lia|]. apply (HQ l2).
  intros v Hv. pose proof (fun i => proj1 (text_range i)) as Ht1. pose proof (fun i => proj2 (text_range i)) as Ht2.
  pose proof addr_range as (_ & Hs & _). rewrite Hr2, nth_idt_run by done.
  change (idt (dt (with_pio _ _))) with l1. unfold l1, installed.
  destruct (Z.ltb_spec v 32), (Z.ltb_spec v 48); try lia; case_decide; try lia.
  - rewrite nth_idt_set, decide_False, Hr, nth_idt_run, decide_True, Z.sub_0_r by lia.
    by rewrite idt_entry_decodes.
  - by rewrite idt_entry_decodes.
  - rewrite nth_idt_set by lia. destruct (Z.eqb_spec v 128) as [->|].
    + rewrite decide_True by done. by rewrite idt_entry_decodes.
    + rewrite decide_False, Hr, nth_idt_run, decide_False, Hi by lia.
      rewrite (nth_lookup_Some _ _ null_idt_entry null_idt_entry); [done|]. apply lookup_replicate. split; [done | lia].
Qed.

(** C23: the start of the kernel leaves every vector of the processor with the
    gate it should have: the exceptions 0 to 31 and the interrupt requests
    32 to 47 their own stub and ring 0 alone, 0x80 the system call and any
    ring, the rest not present; so a program of ring 3 enters the kernel by
    [int] at the system call and nowhere else.  The request lines 0 and 1 have
    the handlers of the timer and of the keyboard, and the controllers have
    received their ten commands. *)
Theorem interrupt_gates s :
  idt (dt s) = replicate 256 null_idt_entry ->
  exists s', (on_dt idt_init;; irq_init) s = Ok tt s' /\
    (forall v, 0 <= v < 256 -> vector_gate (dt s') v = installed v) /\
    (forall v, 0 <= v < 256 -> user_callable (vector_gate (dt s') v) = true <-> v = 0x80) /\
    r_idtr (dt s') = mkIdtr 2047 idt_addr /\
    irq_routines (nt (mc s')) = wr (wr (irq_routines (nt (mc s))) 0 timer_int_addr) 1 keyboard_handler_addr /\
    pio (mc s') = send pic_commands (pio (mc s)).
Proof.
  intros Hi. apply wp_unit. wp_step. apply wp_gates; [done|]. intros l Hg.
  split; [exact Hg|]. split; [|done]. intros v Hv. unfold vector_gate. change (idt (dt _)) with l.
  rewrite Hg by done. unfold installed. destruct (v <? 32) eqn:?, (v <? 48) eqn:?, (Z.eqb_spec v 128); bprop; try done; lia.
Qed.

(** ** Interrupt requests *)

Lemma wp_irq_common_stub esp re h (Q : Z -> Kern -> Prop) s :
  int_no re = 32 \/ 32 < int_no re < 48 -> lenZ (irq_routines (nt (mc s))) = 16 ->
  rd (irq_routines (nt (mc s))) (int_no re - 32) = h ->
  wp (if negb (h =? 0) then call_handler receive fuel h else mret tt) (fun _ s' =>
      let r := if IS_IRQ_SLAVE (int_no re) then port_outb PIC_SLAVE_0 PIC_EOI (pio (mc s')) else pio (mc s') in
      Q (if sched_active (sched_of s') =? 0 then esp else sched_next_esp (sched_of s'))
        (with_pio (port_outb PIC_MASTER_0 PIC_EOI r) s'))
    (with_sched (set_next_esp esp (set_cur_esp esp (sched_of s))) s) ->
  wp (irq_common_stub receive fuel esp re) Q s.
Proof.
  intros Hn Hl Hh Hw. unfold irq_common_stub. wp_step. apply wp_on_sc. wp_step. wp_step. apply wp_on_sc. wp_step.
  change (with_sched _ (with_sched _ s)) with (with_sched (set_next_esp esp (set_cur_esp esp (sched_of s))) s).
  unfold irq_dispatch. wp_step. wp_step. wp_step. wp_step.
  assert (Hu : u32 (int_no re - IRQ_VECTOR_OFFSET) = int_no re - 32) by (apply u32_small; unfold IRQ_VECTOR_OFFSET; lia).
  rewrite Hu. change (irq_routines (nt (mc (with_sched _ s)))) with (irq_routines (nt (mc s))).
  apply wp_aget; [lia|]. rewrite Hh. wp_step. eapply wp_mono; [|exact Hw]. intros [] s' HQ. cbv beta zeta in HQ. wp_step.
  eapply (wp_mono _ (fun _ s2 => s2 = with_pio
    (if IS_IRQ_SLAVE (int_no re) then port_outb PIC_SLAVE_0 PIC_EOI (pio (mc s')) else pio (mc s')) s')).
  - intros [] s2 ->. apply wp_pio_outb; [done..|]. apply wp_on_sc. wp_step. wp_step.
    change (sched_of (with_pio _ (with_pio _ s'))) with (sched_of s'). change (pio (mc (with_pio ?r s'))) with r.
    rewrite with_pio_twice. destruct (sched_active (sched_of s') =? 0).
    + wp_step. by destruct s' as [[? ? ? [] ? ? ? ?] ?].
    + wp_step. by destruct s' as [[? ? ? [] ? ? ? ?] ?].
  - destruct (IS_IRQ_SLAVE (int_no re)); [by apply wp_pio_outb|]. wp_step. by destruct s' as [[] ?].
Qed.

(** C5: the timer interrupt, from entry stub to return.  The stub returns the
    saved stack pointer of the task that is now current; the interrupted task
    is saved at the address of its frame and no other frame is touched; the
    task changes exactly when another is runnable; the clock advances by one;
    the master controller alone gets one end-of-interrupt command, whatever
    task comes next; nothing else of the kernel changes. *)
Theorem timer_irq_switches `{layout : SchedLayout} esp re s :
  sched_inv (sched_of s) -> sched_active (sched_of s) <> 0 -> int_no re = 32 ->
  lenZ (irq_routines (nt (mc s))) = 16 -> rd (irq_routines (nt (mc s))) 0 = timer_int_addr ->
  exists v, irq_common_stub receive fuel esp re s =
      Ok (saved_esp (task v (g_cur v))) (with_pio (port_outb 0x20 0x20 (pio (mc s))) (with_sched v s)) /\
    sched_inv v /\ Sched.timer_ticks v = u32 (Sched.timer_ticks (sched_of s) + 1) /\
    saved_esp (task v (g_cur (sched_of s))) = esp /\
    (forall j, 0 <= j < 8 -> j <> g_cur (sched_of s) -> saved_esp (task v j) = saved_esp (task (sched_of s) j)) /\
    (g_cur v = g_cur (sched_of s) <-> forall i, 0 <= i < 8 -> ~ runnable (sched_of s) i).
Proof.
  intros Hs Ha Hn Hl Hh. set (s0 := set_next_esp esp (set_cur_esp esp (sched_of s))).
  assert (Hs0 : sched_inv s0) by (destruct Hs; by split).
  destruct (timer_int_switch s0 Hs0) as (v & Hrun & Hv & Ht & Hact & Hcur & Hoth & Hnext & _ & Hiff).
  exists v. split; [|by split_and!].
  enough (Hw : wp (irq_common_stub receive fuel esp re) (fun r s' => r = saved_esp (task v (g_cur v)) /\
    s' = with_pio (port_outb 0x20 0x20 (pio (mc s))) (with_sched v s)) s)
    by (apply wp_ok in Hw as (r & s' & -> & -> & ->); done).
  apply (wp_irq_common_stub esp re timer_int_addr); [by left | done | by rewrite Hn|].
  pose proof handlers_distinct as Hd. inversion_clear Hd as [|? ? Hz _].
  destruct (Z.eqb_spec timer_int_addr 0) as [He|_]; [by rewrite He in Hz; case Hz; left|]. cbn [negb].
  unfold call_handler. rewrite Z.eqb_refl. apply wp_on_sc. change (sched_of (with_sched _ s)) with s0.
  eapply wp_run; [exact Hrun|]. cbv beta zeta. rewrite Hn. change (IS_IRQ_SLAVE 32) with false. cbv beta iota.
  change (sched_of (with_sched v _)) with v. split; [|done].
  rewrite Hact. change (sched_active s0) with (sched_active (sched_of s)).
  destruct (Z.eqb_spec (sched_active (sched_of s)) 0); [done|]. by rewrite Hnext.
Qed.

(** ** Exceptions *)

Lemma sched_exit_leaves `{layout : SchedLayout} status (v : sched) :
  sched_inv v -> g_cur v <> 0 ->
  exists v', sched_exit status v = Ok tt v' /\ sched_inv v' /\ sched_force_switch v' = 1 /\
    st v' (g_cur v) = S_ZOMBIE /\ g_cur v' <> g_cur v /\ sched_next_esp v' = saved_esp (task v' (g_cur v')) /\
    (forall j, 0 <= j < 8 -> j <> g_cur v -> j <> g_cur v' -> task v' j = task v j).
Proof.
  intros Hv Hc. pose proof (si_len v Hv) as Hl. pose proof (si_cur v Hv) as Hcur. apply wp_unit.
  apply wp_sched_exit; [done..|]. intros d Hd. pose proof (slot_range v d) as Hi.
  pose proof (runnable_not_cur v _ Hv Hi (proj1 (proj2 Hd))) as Hne.
  pose proof (exited_inv v d Hv Hc Hd) as Hinv. set (i := Sched.slot v d) in *.
  set (v1 := upd (g_cur v) (set_state S_ZOMBIE) v).
  assert (Hl1 : lenZ (g_tasks v1) = 8) by (subst v1; by autorewrite with arr).
  assert (Ht : forall j, 0 <= j -> task (exited i v) j =
    if i =? j then set_state S_RUNNING (task v1 j) else task v1 j).
  { intros j Hj. change (task (exited i v) j) with (task (upd i (set_state S_RUNNING) v1) j).
    rewrite task_upd_eq by lia. by destruct (Z.eqb_spec i j) as [->|]. }
  assert (Ht1 : forall j, 0 <= j -> task v1 j = if g_cur v =? j then set_state S_ZOMBIE (task v j) else task v j).
  { intros j Hj. subst v1. rewrite task_upd_eq by lia. by destruct (Z.eqb_spec (g_cur v) j) as [<-|]. }
  split; [exact Hinv|]. split; [done|]. split; [|split; [exact Hne|split]].
  - unfold st. rewrite Ht, Ht1, Z.eqb_refl by lia. destruct (Z.eqb_spec i (g_cur v)); done.
  - change (g_cur (exited i v)) with i. change (sched_next_esp (exited i v)) with (saved_esp (task v1 i)).
    by rewrite Ht, Z.eqb_refl by lia.
  - change (g_cur (exited i v)) with i. intros j Hj Hj1 Hj2. rewrite Ht, Ht1 by lia.
    destruct (Z.eqb_spec i j); [congruence|]. destruct (Z.eqb_spec (g_cur v) j); [congruence | done].
Qed.

(** What [printk] makes of the name of a fault. *)
Definition fault_name (n : Z) : list Z :=
  match nth (Z.to_nat n) exception_msgs None with Some m => chars m | None => chars "(null)" end.
Definition user_fault_text (p : Z) (re : regs_t) : list Z :=
  chars "\n[user pid " ++ int_text (s32 (u32 p)) ++ chars "] " ++ fault_name (int_no re) ++
  chars " fault (eip=0x" ++ num_text 16 (u32 (r_eip re)) ++ chars " err=0x" ++ num_text 16 (u32 (err_code re)) ++
  chars ") - killing task\n".

Definition fault_name_ok (n : Z) : bool :=
  match exception_msg n with
  | PkStr so => bool_decide (cstr (default null_text so) = fault_name n) && (lenZ (fault_name n) <=? 32) &&
      match so with Some l => lenZ (cstr l) <? lenZ l | None => true end
  | _ => false
  end.
Lemma fault_names n : 0 <= n < 32 -> exists so, exception_msg n = PkStr so /\
  cstr (default null_text so) = fault_name n /\ lenZ (fault_name n) <= 32 /\ arg_ok (PkStr so).
Proof.
  intros Hn. assert (Ha : forallb fault_name_ok (seqZ 0 32) = true) by (by vm_compute).
  rewrite forallb_forall in Ha. specialize (Ha n ltac:(apply list_elem_of_In, elem_of_seqZ; lia)).
  unfold fault_name_ok in Ha. destruct (exception_msg n) as [so| |]; [|done..]. exists so.
  destruct so as [l|]; bprop; by split_and!.
Qed.

Lemma wp_on_mc_say W Ht t t' format ap w (Q : unit -> Kern -> Prop) s :
  terminated (text format) -> Forall arg_ok ap -> pk_text (cstr (text format)) ap = Some w -> lenZ w < PRINTK_BUFF_LEN ->
  shows W Ht t (screen_of (mc s)) -> tty_write W Ht (t_color (screen_of (mc s))) w t = Some t' ->
  (forall v, shows W Ht t' v -> kept (screen_of (mc s)) v -> Q tt (set_mc (with_screen v (mc s)) s)) ->
  wp (on_mc (say format ap)) Q s.
Proof. intros Hf Hok Hw Hl Hs Ht' HQ. apply wp_on_mc. by eapply wp_say. Qed.

(** C4: a fault of a program of ring 3 never stops the kernel.  From entry
    stub to return, the program's task and no other ends as a zombie, a line
    with its pid and the name of the fault is on the screen, and the stub
    returns to the saved frame of the task that takes over, with no pending
    switch left. *)
Theorem user_fault_kills `{layout : SchedLayout} W Ht t t' esp re s :
  sched_inv (sched_of s) -> g_cur (sched_of s) <> 0 -> 0 <= int_no re < 32 -> Z.land (r_cs re) 3 <> 0 ->
  shows W Ht t (screen_of (mc s)) ->
  tty_write W Ht (t_color (screen_of (mc s)))
    (user_fault_text (Sched.pid (task (sched_of s) (g_cur (sched_of s)))) re) t = Some t' ->
  exists v scr', isr_common_stub esp re s =
      Ok (saved_esp (task v (g_cur v))) (with_sched v (set_mc (with_screen scr' (mc s)) s)) /\
    shows W Ht t' scr' /\ sched_inv v /\ sched_force_switch v = 0 /\
    st v (g_cur (sched_of s)) = S_ZOMBIE /\ g_cur v <> g_cur (sched_of s) /\
    (forall j, 0 <= j < 8 -> j <> g_cur (sched_of s) -> j <> g_cur v -> task v j = task (sched_of s) j).
Proof.
  intros Hs Hc Hn Hcs Hsh Htty. set (s0 := set_cur_esp esp (sched_of s)).
  assert (Hs0 : sched_inv s0) by (by apply set_cur_esp_inv).
  destruct (sched_exit_leaves 1 s0 Hs0 Hc) as (v & Hrun & Hv & Hf & Hz & Hne & Hnext & Hoth).
  destruct (fault_names _ Hn) as (so & Hso & Hname & Hlen & Hok).
  set (p := Sched.pid (task (sched_of s) (g_cur (sched_of s)))) in *.
  assert (Hw : lenZ (user_fault_text p re) < PRINTK_BUFF_LEN).
  { unfold user_fault_text. rewrite !lenZ_app. pose proof (lenZ_int_text _ (s32_range (u32 p))).
    pose proof (lenZ_hex _ (u32_range (r_eip re))). pose proof (lenZ_hex _ (u32_range (err_code re))).
    change PRINTK_BUFF_LEN with 256. repeat (change (lenZ (chars ?x)) with (lenZ (chars x)) at 1).
    cbv [chars lenZ] in *. simpl in *. lia. }
  enough (Hwp : wp (isr_common_stub esp re) (fun r s' => exists scr', r = saved_esp (task v (g_cur v)) /\
    s' = with_sched (set_force_switch 0 v) (set_mc (with_screen scr' (mc s)) s) /\ shows W Ht t' scr') s).
  { apply wp_ok in Hwp as (r & s' & -> & scr' & -> & -> & Hsh'). exists (set_force_switch 0 v), scr'.
    split; [done|]. split; [done|]. split; [by apply set_force_switch_inv|]. by split_and!. }
  unfold isr_common_stub. wp_step. apply wp_on_sc. wp_step. wp_step. unfold exc_handler.
  destruct (Z.leb_spec 32 (int_no re)); [lia|]. destruct (Z.eqb_spec (Z.land (r_cs re) 3) 0); [done|]. cbn [negb].
  wp_step. apply wp_on_sc. unfold sched_pid. wp_step. wp_step. wp_step. 
  apply wp_task_at; [change (0 <= g_cur s0 < lenZ (g_tasks s0)); rewrite (si_len _ Hs0); apply Hs0|].
  wp_step. wp_step. rewrite Hso. eapply (wp_on_mc_say W Ht t t' _ _ (user_fault_text p re)).
  - by vm_compute.
  - by repeat constructor.
  - unfold user_fault_text. rewrite <- Hname. reflexivity.
  - done.
  - exact Hsh.
  - exact Htty.
  - intros scr' Hsh' _. apply wp_on_sc. eapply wp_run; [exact Hrun|]. cbv beta. unfold resume. apply wp_on_sc.
    wp_step. wp_step. change (sched_force_switch _) with (sched_force_switch v). rewrite Hf.
    wp_step; [done|]. wp_step. wp_step. wp_step. exists scr'. split; [exact Hnext|]. split; [|done].
    by destruct s as [[] ?].
Qed.

(** The report of a fault of the kernel itself: two lines and the last words. *)
Definition hex_fields (l : list (string * Z)) : list Z := concat (map (fun '(nm, v) => chars nm ++ num_text 16 (u32 v)) l).
Definition kernel_fault_text (re : regs_t) : list Z :=
  chars "\n" ++ fault_name (int_no re) ++ chars " Exception (" ++
  hex_fields [("eip=0x", r_eip re); (" err=0x", err_code re); (" esp=0x", r_esp re); (" eflags=0x", r_eflags re);
              (" cs=0x", r_cs re)]%string ++ chars ")\n".
Definition registers_text (re : regs_t) : list Z :=
  hex_fields [("eax=0x", r_eax re); (" ebx=0x", r_ebx re); (" ecx=0x", r_ecx re); (" edx=0x", r_edx re);
              (" esi=0x", r_esi re); (" edi=0x", r_edi re); (" ebp=0x", r_ebp re)]%string ++ chars "\n".

Lemma kernel_fault_pk re so :
  cstr (default null_text so) = fault_name (int_no re) ->
  pk_text (cstr (text "\n%s Exception (eip=0x%x err=0x%x esp=0x%x eflags=0x%x cs=0x%x)\n"))
    [PkStr so; Pk32 (r_eip re); Pk32 (err_code re); Pk32 (r_esp re); Pk32 (r_eflags re); Pk32 (r_cs re)] =
  Some (kernel_fault_text re).
Proof.
  intros Hname. unfold kernel_fault_text. rewrite <- Hname. unfold hex_fields. cbn [map concat].
  rewrite !app_nil_r, <- !app_assoc. reflexivity.
Qed.
Lemma registers_pk re :
  pk_text (cstr (text "eax=0x%x ebx=0x%x ecx=0x%x edx=0x%x esi=0x%x edi=0x%x ebp=0x%x\n"))
    [Pk32 (r_eax re); Pk32 (r_ebx re); Pk32 (r_ecx re); Pk32 (r_edx re); Pk32 (r_esi re); Pk32 (r_edi re); Pk32 (r_ebp re)] =
  Some (registers_text re).
Proof. unfold registers_text, hex_fields. cbn [map concat]. rewrite !app_nil_r, <- !app_assoc. reflexivity. Qed.

Lemma hex_fields_short l : (Datatypes.length l <= 7)%nat -> Forall (fun f => lenZ (chars (fst f)) <= 10) l -> lenZ (hex_fields l) <= 126.
Proof.
  intros Hl Hf. cut (lenZ (hex_fields l) <= 18 * lenZ l); [unfold lenZ; lia|]. clear Hl. unfold hex_fields.
  induction Hf as [|[nm v] l Hn _ IH]; [done|]. cbn [map concat fst] in *. rewrite !lenZ_app.
  pose proof (lenZ_hex _ (u32_range v)). unfold lenZ in *. cbn [Datatypes.length]. lia.
Qed.
Lemma kernel_fault_short re : 0 <= int_no re < 32 -> lenZ (kernel_fault_text re) < PRINTK_BUFF_LEN.
Proof.
  intros Hn. destruct (fault_names _ Hn) as (_ & _ & _ & Hl & _). unfold kernel_fault_text. rewrite !lenZ_app.
  match goal with |- context [hex_fields ?l] => pose proof (hex_fields_short l ltac:(simpl; lia) ltac:(by repeat constructor)) end.
  change PRINTK_BUFF_LEN with 256. change (lenZ (chars "\n")) with 1. change (lenZ (chars " Exception (")) with 12.
  change (lenZ (chars ")\n")) with 2. lia.
Qed.
Lemma registers_short re : lenZ (registers_text re) < PRINTK_BUFF_LEN.
Proof.
  unfold registers_text. rewrite lenZ_app.
  match goal with |- context [hex_fields ?l] => pose proof (hex_fields_short l ltac:(simpl; lia) ltac:(by repeat constructor)) end.
  change PRINTK_BUFF_LEN with 256. change (lenZ (chars "\n")) with 1. lia.
Qed.

Lemma say_ok W Ht t t' format ap w s :
  terminated (text format) -> Forall arg_ok ap -> pk_text (cstr (text format)) ap = Some w -> lenZ w < PRINTK_BUFF_LEN ->
  shows W Ht t (screen_of (mc s)) -> tty_write W Ht (t_color (screen_of (mc s))) w t = Some t' ->
  exists v, on_mc (say format ap) s = Ok tt (set_mc (with_screen v (mc s)) s) /\ shows W Ht t' v /\
    t_color v = t_color (screen_of (mc s)).
Proof.
  intros Hf Hok Hw Hl Hs Ht'. cut (wp (on_mc (say format ap)) (fun _ s' => exists v, s' = set_mc (with_screen v (mc s)) s /\
    shows W Ht t' v /\ t_color v = t_color (screen_of (mc s))) s).
  - intros ([] & s' & Heq & v & -> & Hv)%wp_ok. by exists v.
  - eapply wp_on_mc_say; [done..|]. intros v Hv [Hc _]. by exists v.
Qed.

Lemma screen_twice u v s : set_mc (with_screen v (mc (set_mc (with_screen u (mc s)) s))) (set_mc (with_screen u (mc s)) s) =
  set_mc (with_screen v (mc s)) s.
Proof. done. Qed.

(** No frame in the window: nothing is printed. *)
Lemma backtrace_outside fp s : fp <= 0x100000 \/ 0x2000000 <= fp -> backtrace fp s = Ok tt s.
Proof.
  intros Hfp. cut (wp (backtrace fp) (fun _ s' => s' = s) s); [by intros (s' & -> & ->)%wp_unit|].
  unfold backtrace. wp_step. apply wp_on_mc, wp_locals. change (span 0 8) with (S 7). cbn [for_].
  assert (Hset : set_mc (mc s) s = s) by (by destruct s).
  destruct (Z.ltb_spec 0x100000 fp), (Z.ltb_spec fp 0x2000000); try lia; cbn [andb];
    do 2 wp_step; cbv beta iota; by repeat wp_step.
Qed.

Lemma exc_handler_kernel re so s s1 s2 s3 s4 :
  0 <= int_no re < 32 -> Z.land (r_cs re) 3 = 0 -> exception_msg (int_no re) = PkStr so ->
  on_mc (say "\n%s Exception (eip=0x%x err=0x%x esp=0x%x eflags=0x%x cs=0x%x)\n"
    [PkStr so; Pk32 (r_eip re); Pk32 (err_code re); Pk32 (r_esp re); Pk32 (r_eflags re); Pk32 (r_cs re)]) s = Ok tt s1 ->
  on_mc (say "eax=0x%x ebx=0x%x ecx=0x%x edx=0x%x esi=0x%x edi=0x%x ebp=0x%x\n"
    [Pk32 (r_eax re); Pk32 (r_ebx re); Pk32 (r_ecx re); Pk32 (r_edx re); Pk32 (r_esi re); Pk32 (r_edi re); Pk32 (r_ebp re)]) s1 = Ok tt s2 ->
  backtrace (r_ebp re) s2 = Ok tt s3 -> on_mc (say "System Halted" []) s3 = Ok tt s4 ->
  exc_handler re s = Stuck Halted s4.
Proof.
  intros Hn Hcs Hso Hr1 Hr2 Hb Hr3. unfold exc_handler. destruct (Z.leb_spec 32 (int_no re)); [lia|].
  rewrite Hcs, Z.eqb_refl, Hso. cbn [negb]. by rewrite (bind_ok _ _ _ _ _ Hr1), (bind_ok _ _ _ _ _ Hr2), (bind_ok _ _ _ _ _ Hb), (bind_ok _ _ _ _ _ Hr3).
Qed.

(** C32: a fault of the kernel's own code halts it, and only after the report:
    the name of the fault, the registers and "System Halted" are on the screen
    and nothing else of the kernel has changed.  The frame pointer is outside
    the window in which the handler follows frames. *)
Theorem kernel_fault_reports W Ht t t' re s :
  0 <= int_no re < 32 -> Z.land (r_cs re) 3 = 0 -> r_ebp re <= 0x100000 \/ 0x2000000 <= r_ebp re ->
  shows W Ht t (screen_of (mc s)) ->
  tty_write W Ht (t_color (screen_of (mc s))) (kernel_fault_text re ++ registers_text re ++ chars "System Halted") t = Some t' ->
  exists scr', exc_handler re s = Stuck Halted (set_mc (with_screen scr' (mc s)) s) /\ shows W Ht t' scr'.
Proof.
  intros Hn Hcs Hbp Hsh Htty. destruct (fault_names _ Hn) as (so & Hso & Hname & Hlen & Hok).
  apply tty_write_split in Htty as (t1 & Ht1 & Htty). apply tty_write_split in Htty as (t2 & Ht2 & Ht3).
  destruct (fun hf ha => say_ok W Ht t t1 _ _ _ s hf ha (kernel_fault_pk re so Hname) (kernel_fault_short re Hn) Hsh Ht1)
    as (v1 & Hr1 & Hv1 & Hc1); [by vm_compute | by repeat constructor |].
  set (s1 := set_mc (with_screen v1 (mc s)) s) in *.
  rewrite <- Hc1 in Ht2.
  destruct (fun hf ha => say_ok W Ht t1 t2 _ _ _ s1 hf ha (registers_pk re) (registers_short re) Hv1 Ht2)
    as (v2 & Hr2 & Hv2 & Hc2); [by vm_compute | by repeat constructor |].
  set (s2 := set_mc (with_screen v2 (mc s1)) s1) in *.
  change (t_color (screen_of (mc s1))) with (t_color v1) in Hc2. rewrite <- Hc1, <- Hc2 in Ht3.
  destruct (fun hf ha hp hl => say_ok W Ht t2 t' "System Halted" [] (chars "System Halted") s2 hf ha hp hl Hv2 Ht3)
    as (v3 & Hr3 & Hv3 & _); [by vm_compute | done..|].
  exists v3. split; [|done]. unfold s2, s1 in Hr3. rewrite !screen_twice in Hr3.
  refine (exc_handler_kernel re so s _ _ _ _ Hn Hcs Hso Hr1 Hr2 (backtrace_outside _ _ Hbp) _).
  unfold s2, s1. rewrite screen_twice. exact Hr3.
Qed.

(** What [tss_init] leaves in the segment, apart from [esp0]. *)
Definition tss_image (g : list Z) : Prop :=
  lenZ g = 104 /\ le16 g TSS_IOMAP = 104 /\ le32 g TSS_SS0 = GDT_SEL_KERN_DATA /\
  forall o, 0 <= o < 104 -> o <> 8 -> o <> 102 -> rd g o = 0.
Definition with_tss (g : list Z) s : Kern := set_dt (set_g_tss g (dt s)) (with_sched (set_esp0 0 (sched_of s)) s).

Lemma wp_tss_init (Q : unit -> Kern -> Prop) s :
  (forall g, tss_image g -> Q tt (with_tss g s)) -> wp tss_init Q s.
Proof.
  intros HQ.
  assert (Hz : forall o, 0 <= o < 104 -> rd (replicate 104 0) o = 0) by (intros o Ho; apply rd_replicate; lia).
  unfold tss_init. wp_step. apply wp_on_dt. unfold tss_clear. wp_step. wp_step. apply wp_on_sc. wp_step.
  wp_step. apply wp_on_sc. unfold tss_set_kernel_esp0. wp_step. apply wp_on_dt. unfold tss_set_segments. wp_step. wp_step. wp_step.
  apply wp_st32; [by vm_compute|]. wp_step. apply wp_st16; [by vm_compute|]. wp_step. apply wp_st16; [by vm_compute|]. wp_step.
  refine (HQ _ _). split; [by vm_compute|]. split; [by vm_compute|]. split; [by vm_compute|].
  intros o Ho H8 H102. unfold TSS_IOMAP, TSS_TRAP, TSS_SS0. rewrite !rd_put16, rd_put32 by (lia || by vm_compute).
  change (g_tss (dt _)) with (replicate 104 0). rewrite Hz by lia.
  repeat case_decide; try done; repeat case_match; bprop; try lia; by vm_compute.
Qed.

(** The task state segment denies every port to ring 3: the map of
    permissions would begin at the end of the segment; the stack segment of
    ring 0 is the kernel's data and the stack pointer is 0 until a task runs. *)
Theorem tss_denies_ports s :
  exists s', tss_init s = Ok tt s' /\ lenZ (g_tss (dt s')) = 104 /\ le16 (g_tss (dt s')) TSS_IOMAP = 104 /\
    le32 (g_tss (dt s')) TSS_SS0 = GDT_SEL_KERN_DATA /\ tss_esp0 (sched_of s') = 0 /\
    (forall o, 0 <= o < 104 -> o <> 8 -> o <> 102 -> rd (g_tss (dt s')) o = 0).
Proof. apply wp_unit, wp_tss_init. intros g (? & ? & ? & ?). by split_and!. Qed.
End Kernel.

(** * Examples *)

#[export, program] Instance demo_kernel_text : KernelText := {|
  idt_addr := 0x140000; g_tss_addr := 0x141000;
  isr_stub_table := fun i => 0x101000 + 16 * (i mod 32); irq_stub_table := fun i => 0x102000 + 16 * (i mod 16);
  syscall_stub := 0x103000; timer_int_addr := 0x104000; keyboard_handler_addr := 0x105000; rtl8139_irq_handler_addr := 0x106000 |}.
Next Obligation. intros i. cbv beta. word_lia. Qed.
Next Obligation. lia. Qed.
Next Obligation. repeat (apply NoDup_cons_2 || apply NoDup_nil_2); set_solver. Qed.

(** The demonstration machine with the handlers of the kernel, a screen and
    the tasks given. *)
Definition demo_kernel (screen : term unit) (v : sched) : kernel unit unit ramdisk Z unit unit :=
  with_sched v (mkKernel (with_screen screen
    (set_nt (set_irq_routines (wr (replicate 16 0) 0 timer_int_addr) (nt demo_machine)) demo_machine)) tables_bss).
Lemma sched_of_demo screen v : sched_of (demo_kernel screen v) = v.
Proof. done. Qed.
Lemma screen_of_demo screen v : screen_of (mc (demo_kernel screen v)) = screen.
Proof. done. Qed.
Definition regs_of_vector (n eip cs : Z) : regs_t := mkRegsT 0 0 0 0 0 0 0 0 0 0 0 0 n 0 eip cs 0 0 0.

Lemma gdt_init_segments_witness : exists s', gdt_init tables_bss = Ok tt s' /\ selected s' GDT_SEL_USER_CODE = Some (flat 3 SEG_CODE).
Proof.
  destruct (gdt_init_segments tables_bss) as (s' & Hr & _ & _ & Hu & _); [done|]. by exists s'.
Defined.

Lemma interrupt_gates_witness : exists s', (on_dt idt_init;; irq_init) (demo_kernel power_on sched_bss) = Ok tt s' /\
  vector_gate (dt s') 14 = kernel_gate 0x1010E0 0 /\ vector_gate (dt s') 0x80 = kernel_gate 0x103000 3.
Proof.
  destruct (interrupt_gates (demo_kernel power_on sched_bss)) as (s' & Hr & Hg & _); [done|].
  exists s'. split; [exact Hr|]. split; [exact (Hg 14 ltac:(lia)) | exact (Hg 0x80 ltac:(lia))].
Defined.

(** A tick while the kernel's task runs and two user tasks wait. *)
Lemma timer_irq_switches_witness : exists v,
  irq_common_stub (fun _ _ => mret tt) 0 0x90000 (regs_of_vector 32 0x100000 8) (demo_kernel power_on two_tasks) =
    Ok (saved_esp (task v (g_cur v)))
      (with_pio (port_outb 0x20 0x20 (pio (mc (demo_kernel power_on two_tasks)))) (with_sched v (demo_kernel power_on two_tasks))) /\
  g_cur v <> 0 /\ saved_esp (task v 0) = 0x90000.
Proof.
  assert (Ha : sched_active (sched_of (demo_kernel power_on two_tasks)) <> 0) by (by vm_compute).
  assert (Hc : g_cur (sched_of (demo_kernel power_on two_tasks)) = 0) by (by vm_compute).
  assert (H1 : runnable (sched_of (demo_kernel power_on two_tasks)) 1) by (by vm_compute).
  destruct (timer_irq_switches (fun _ _ => mret tt) 0 0x90000 (regs_of_vector 32 0x100000 8) (demo_kernel power_on two_tasks)
    two_tasks_inv Ha eq_refl eq_refl eq_refl) as (v & Hr & _ & _ & Hs & _ & Hiff).
  exists v. split; [exact Hr|]. rewrite Hc in Hs, Hiff. split; [|exact Hs].
  intros He. apply (proj1 Hiff He 1); [lia | exact H1].
Defined.

(** The first user task runs. *)
Definition user_runs : sched := match timer_int two_tasks with Ok _ s => s | Stuck _ s => s end.
Lemma user_runs_inv : sched_inv user_runs.
Proof.
  destruct (timer_int_switch two_tasks two_tasks_inv) as (s' & Hr & Hi & _). unfold user_runs. by rewrite Hr.
Qed.

(** A page fault at 0x40000010. *)
Lemma user_fault_kills_witness : exists s0 v scr' t',
  term_init (screen_of demo_machine) = Ok tt s0 /\
  isr_common_stub 0x90000 (regs_of_vector 14 0x40000010 0x23) (demo_kernel s0 user_runs) =
    Ok (saved_esp (task v (g_cur v))) (with_sched v (set_mc (with_screen scr' (mc (demo_kernel s0 user_runs))) (demo_kernel s0 user_runs))) /\
  shows VGA_WIDTH VGA_HEIGHT t' scr' /\ page t' 1 0 = vga_entry 91 7 /\ st v 1 = S_ZOMBIE.
Proof.
  destruct demo_screen as (s0 & Hi & Hs & Hc & _). set (re := regs_of_vector 14 0x40000010 0x23).
  assert (Hn : 0 <= int_no re < 32) by (cbn; lia). assert (Hcs : Z.land (r_cs re) 3 <> 0) by (by vm_compute).
  pose (t' := default (tty_blank 7) (tty_write VGA_WIDTH VGA_HEIGHT 7 (user_fault_text 1 re) (tty_blank 7))).
  assert (Hcur : g_cur user_runs = 1) by (by vm_compute).
  assert (Hpid : Sched.pid (task user_runs 1) = 1) by (by vm_compute).
  pose proof (sched_of_demo s0 user_runs) as Hso. pose proof (screen_of_demo s0 user_runs) as Hscr.
  assert (Hinv : sched_inv (sched_of (demo_kernel s0 user_runs))) by (rewrite Hso; exact user_runs_inv).
  assert (Hne : g_cur (sched_of (demo_kernel s0 user_runs)) <> 0) by (rewrite Hso, Hcur; lia).
  assert (Hsh0 : shows VGA_WIDTH VGA_HEIGHT (tty_blank 7) (screen_of (mc (demo_kernel s0 user_runs)))) by (by rewrite Hscr).
  assert (Hw : tty_write VGA_WIDTH VGA_HEIGHT (t_color (screen_of (mc (demo_kernel s0 user_runs))))
    (user_fault_text (Sched.pid (task (sched_of (demo_kernel s0 user_runs)) (g_cur (sched_of (demo_kernel s0 user_runs))))) re)
    (tty_blank 7) = Some t') by (rewrite Hscr, Hso, Hc, Hcur, Hpid; by apply tty_write_default).
  destruct (user_fault_kills VGA_WIDTH VGA_HEIGHT (tty_blank 7) t' 0x90000 re (demo_kernel s0 user_runs)
    Hinv Hne Hn Hcs Hsh0 Hw) as (v & scr' & Hr & Hsh & _ & _ & Hz & _). rewrite Hso, Hcur in Hz.
  exists s0, v, scr', t'. split; [exact Hi|]. split; [exact Hr|]. split; [exact Hsh|]. split; [by vm_compute | exact Hz].
Defined.

(** A division by zero in the kernel. *)
Lemma kernel_fault_reports_witness : exists s0 scr' t',
  exc_handler (regs_of_vector 0 0x101234 8) (demo_kernel s0 two_tasks) =
    Stuck Halted (set_mc (with_screen scr' (mc (demo_kernel s0 two_tasks))) (demo_kernel s0 two_tasks)) /\
  shows VGA_WIDTH VGA_HEIGHT t' scr' /\ page t' 1 0 = vga_entry 68 7.
Proof.
  destruct demo_screen as (s0 & Hi & Hs & Hc & _). set (re := regs_of_vector 0 0x101234 8).
  assert (Hn : 0 <= int_no re < 32) by (cbn; lia). assert (Hcs : Z.land (r_cs re) 3 = 0) by reflexivity.
  assert (Hbp : r_ebp re <= 0x100000 \/ 0x2000000 <= r_ebp re) by (left; cbn; lia).
  pose (w := kernel_fault_text re ++ registers_text re ++ chars "System Halted").
  pose (t' := default (tty_blank 7) (tty_write VGA_WIDTH VGA_HEIGHT 7 w (tty_blank 7))).
  pose proof (screen_of_demo s0 two_tasks) as Hscr.
  assert (Hsh0 : shows VGA_WIDTH VGA_HEIGHT (tty_blank 7) (screen_of (mc (demo_kernel s0 two_tasks)))) by (by rewrite Hscr).
  assert (Hw : tty_write VGA_WIDTH VGA_HEIGHT (t_color (screen_of (mc (demo_kernel s0 two_tasks)))) w (tty_blank 7) = Some t')
    by (rewrite Hscr, Hc; by apply tty_write_default).
  destruct (kernel_fault_reports VGA_WIDTH VGA_HEIGHT (tty_blank 7) t' re (demo_kernel s0 two_tasks)
    Hn Hcs Hbp Hsh0 Hw) as (scr' & Hr & Hsh).
  exists s0, scr', t'. split; [exact Hr|]. split; [exact Hsh|]. by vm_compute.
Defined.
