(* ===== verification/Usb.v ===== *)
(** The USB host controllers: [src/kernel/dev/usb.c], and the command [usb] of
    [src/kernel/shell/commands.c].

    The pool and the frame list are memory of the kernel that a controller also
    reads; what a controller writes there is not modelled, and the busy loops
    that only wait are left out. *)
From Stdlib Require Import ZArith Lia List String.
From stdpp Require Import base tactics numbers list gmap strings option.
From S2P Require Import Prelude Pmm Vmm Heap CString Sched UserTask Bytes Ata Disk Ext2 Vfs NetState Rtl8139 Net Fbcon Term Printk Keyboard Readline Text TextBuf Machine Commands.
Open Scope Z_scope.

Definition USB_SPEED_LOW : Z := 0.
Definition USB_SPEED_FULL : Z := 1.
Definition USB_SPEED_HIGH : Z := 2.
Definition USB_MAX_DEVICES : Z := 16.
Definition PCI_CLASS_SERIAL : Z := 0x0C.
Definition PCI_SUBCLASS_USB : Z := 0x03.
Definition UHCI_CMD : Z := 0x00.
Definition UHCI_FRNUM : Z := 0x06.
Definition UHCI_FRBASEADD : Z := 0x08.
Definition UHCI_SOFMOD : Z := 0x0C.
Definition UHCI_PORTSC1 : Z := 0x10.
Definition UHCI_PORT_CCS : Z := 0x0001.
Definition UHCI_PORT_PED : Z := 0x0004.
Definition UHCI_PORT_LSDA : Z := 0x0100.
Definition UHCI_PORT_RESET : Z := 0x0200.
Definition UHCI_FRAME_COUNT : Z := 1024.
Definition UBUF_SIZE : Z := 65536.
Definition TD_SIZE : Z := 16.

Definition USB_MAX_ENDPOINTS : Z := 4.
Definition zero_endpoint : usb_endpoint_t := mkUsbEp 0 0 0 0 0.
Definition zero_iface : usb_interface_t := mkUsbIface 0 0 0 0 (replicate (Z.to_nat USB_MAX_ENDPOINTS) zero_endpoint).
Definition zero_dev : usb_device_t := mkUsbDev 0 0 0 0 0 0 0 0 0 0 0 0 (replicate 4 zero_iface).
Definition zero_uhci : uhci_controller_t := mkUhci 0 0 0.
Definition zero_ehci : ehci_controller_t := mkEhci 0 0 0.

(** The linker chooses where the pool, the frame list and the packet are. *)
Class UsbLayout := {
  ubuf : Z;
  frame_list_addr : Z;
  setup_phys_addr : Z;
  ubuf_aligned : ubuf mod 4096 = 0;
  ubuf_range : 0 < ubuf /\ ubuf + UBUF_SIZE < 2147483648
}.

Section Setters.
Implicit Types s : usb.
Definition set_devices l n s := mkUsb l n (uhci_ctrls s) (uhci_ctrl_count s) (ehci_ctrls s) (ehci_ctrl_count s)
  (uhci_frame_list s) (uhci_pool s) (uhci_pool_size s) (setup_packet s) (pool_words s) (usb_initialized s).
Definition set_uhci l n s := mkUsb (usb_devices s) (usb_device_count s) l n (ehci_ctrls s) (ehci_ctrl_count s)
  (uhci_frame_list s) (uhci_pool s) (uhci_pool_size s) (setup_packet s) (pool_words s) (usb_initialized s).
Definition set_ehci l n s := mkUsb (usb_devices s) (usb_device_count s) (uhci_ctrls s) (uhci_ctrl_count s) l n
  (uhci_frame_list s) (uhci_pool s) (uhci_pool_size s) (setup_packet s) (pool_words s) (usb_initialized s).
Definition set_frame_list l s := mkUsb (usb_devices s) (usb_device_count s) (uhci_ctrls s) (uhci_ctrl_count s)
  (ehci_ctrls s) (ehci_ctrl_count s) l (uhci_pool s) (uhci_pool_size s) (setup_packet s) (pool_words s) (usb_initialized s).
Definition set_pool a n s := mkUsb (usb_devices s) (usb_device_count s) (uhci_ctrls s) (uhci_ctrl_count s)
  (ehci_ctrls s) (ehci_ctrl_count s) (uhci_frame_list s) a n (setup_packet s) (pool_words s) (usb_initialized s).
Definition set_setup l s := mkUsb (usb_devices s) (usb_device_count s) (uhci_ctrls s) (uhci_ctrl_count s)
  (ehci_ctrls s) (ehci_ctrl_count s) (uhci_frame_list s) (uhci_pool s) (uhci_pool_size s) l (pool_words s) (usb_initialized s).
Definition set_words m s := mkUsb (usb_devices s) (usb_device_count s) (uhci_ctrls s) (uhci_ctrl_count s)
  (ehci_ctrls s) (ehci_ctrl_count s) (uhci_frame_list s) (uhci_pool s) (uhci_pool_size s) (setup_packet s) m (usb_initialized s).
Definition set_usb_initialized v s := mkUsb (usb_devices s) (usb_device_count s) (uhci_ctrls s) (uhci_ctrl_count s)
  (ehci_ctrls s) (ehci_ctrl_count s) (uhci_frame_list s) (uhci_pool s) (uhci_pool_size s) (setup_packet s) (pool_words s) v.
End Setters.

Section Pool.
Context `{UsbLayout}.
Notation U := (M usb).

(** The size is reduced by the difference to the pointer already moved. *)
Definition uhci_pool_alloc (size align : Z) : U Z :=
  p ← gets uhci_pool;
  n ← gets uhci_pool_size;
  if p =? 0 then mret 0
  else
    let addr := p in
    let addr := if negb (addr mod align =? 0) then u32 (addr + (align - addr mod align)) else addr in
    if u32 (p + n) <? u32 (addr + size) then mret 0
    else
      let pool := u32 (addr + size) in
      modify (set_pool pool (u32 (n - u32 (addr + size - pool))));;
      mret addr.

(** A word of the pool, which ends where [ubuf] does. *)
Definition pool_set (a v : Z) : U unit :=
  guard_or OutOfBounds (ubuf <= a /\ a + 4 <= ubuf + UBUF_SIZE);;
  modify (fun s => set_words (<[a := v]> (pool_words s)) s).
Definition pool_get (a : Z) : U Z :=
  guard_or OutOfBounds (ubuf <= a /\ a + 4 <= ubuf + UBUF_SIZE);;
  gets (fun s => default 0 (pool_words s !! a)).

(** A transfer descriptor: link, status, token and buffer. *)
Definition td_set (td link status token buffer : Z) : U unit :=
  pool_set td link;;
  pool_set (td + 4) status;;
  pool_set (td + 8) token;;
  pool_set (td + 12) buffer.

Definition td_token (pid dev_addr ep len : Z) : Z :=
  u32 (Z.lor (Z.lor (Z.lor (Z.land pid 0x7F) (Z.shiftl (Z.land dev_addr 0x7F) 8)) (Z.shiftl (Z.land ep 0x0F) 15))
    (Z.shiftl len 21)).

Definition fill_frames (v : Z) : U unit :=
  locals (for_ (span 0 UHCI_FRAME_COUNT) 0 tt (fun i _ =>
    l ← gets uhci_frame_list;
    l ← aset l i v;
    modify (set_frame_list l);;
    mret (Cont tt))).

Definition uhci_schedule_control (dev_addr ep req_type req val idx len : Z) : U Z :=
  n ← gets uhci_ctrl_count;
  cs ← gets uhci_ctrls;
  if n <? 1 then mret (-1)
  else if uhci_initialized (nth 0 cs zero_uhci) =? 0 then mret (-1)
  else
    setup_td ← uhci_pool_alloc TD_SIZE 16;
    status_td ← uhci_pool_alloc TD_SIZE 16;
    if (setup_td =? 0) || (status_td =? 0) then mret (-1)
    else
      modify (set_setup [u8 req_type; u8 req; Z.land val 0xFF; Z.land (Z.shiftr val 8) 0xFF;
        Z.land idx 0xFF; Z.land (Z.shiftr idx 8) 0xFF; Z.land len 0xFF; Z.land (Z.shiftr len 8) 0xFF]);;
      td_set setup_td (Z.land status_td 0xFFFFFFF0) 0 (td_token 0x2D dev_addr ep 7) setup_phys_addr;;
      td_set status_td 1 0 (td_token 0x69 dev_addr ep 0x7FF) 0;;
      fill_frames (Z.lor setup_td (Z.shiftl 1 2));;
      locals (while_ (Z.to_nat 100001) 0 (fun tries =>
        if tries <? 100000 then
          c ← pool_get (setup_td + 4);
          if Z.land c 0x80 =? 0 then mret (Brk tries) else mret (Cont (tries + 1))
        else mret (Brk tries)));;
      c ← pool_get (setup_td + 4);
      if negb (Z.land c 0x80 =? 0) then mret (-1)
      else
        fill_frames 1;;
        mret 0.

Definition uhci_submit_control (dev_addr ep req_type req val idx len : Z) : U Z :=
  uhci_schedule_control dev_addr ep req_type req val idx len.

Definition ehci_submit_control : U Z := mret 0.

Definition usb_control_msg (dev_addr ep req_type req val idx len : Z) : U Z :=
  u ← gets uhci_ctrl_count;
  if 0 <? u then uhci_submit_control dev_addr ep req_type req val idx len
  else
    e ← gets ehci_ctrl_count;
    if 0 <? e then ehci_submit_control else mret (-1).

(** The index of the device, or [None] for null. *)
Definition usb_get_device (index : Z) : option Z := if USB_MAX_DEVICES <=? index then None else Some index.
Definition usb_get_device_count : U Z := gets usb_device_count.

Definition usb_register_device (port speed : Z) : U Z :=
  n ← gets usb_device_count;
  if USB_MAX_DEVICES <=? n then mret (-1)
  else
    l ← gets usb_devices;
    modify (set_devices (<[Z.to_nat n := mkUsbDev 1 0 port speed 0 0 0 0 0 0 0 0 (replicate 4 zero_iface)]> l) (n + 1));;
    mret n.
End Pool.

Section Controllers.
Context {P K D H N R : Type} `{Ports P, NicHw N, KernelLayout, UsbLayout, Locals}.
Notation C := (M (machine P K D H N R)).

Definition on_usb {A} (m : M usb A) : C A := zoom ub set_ub m.

Definition uhci_port_sc (base port : Z) : C Z := on_net (Rtl8139.inw (base + UHCI_PORTSC1 + port * 2)).
Definition uhci_port_sc_write (base port val : Z) : C unit :=
  on_net (Rtl8139.outw (base + UHCI_PORTSC1 + port * 2) val).

Definition uhci_init (dev : pci_device_t) : C Z :=
  on_usb (modify (set_pool ubuf UBUF_SIZE));;
  i ← gets (fun s => uhci_ctrl_count (ub s));
  if 4 <=? i then mret (-1)
  else
    let base := u16 (Z.land (bar0 dev) (Z.lnot 3)) in
    let put v n := on_usb (modify (fun u => set_uhci (<[Z.to_nat i := mkUhci base (irq_line dev) v]> (uhci_ctrls u)) n u)) in
    put 0 i;;
    on_net (Rtl8139.outw (base + UHCI_CMD) 0x0002);;
    on_net (Rtl8139.outw (base + UHCI_CMD) 0x0004);;
    on_net (Rtl8139.outw (base + UHCI_CMD) 0);;
    on_net (Rtl8139.outw (base + UHCI_FRNUM) 0);;
    on_usb (fill_frames 0);;
    on_net (outl (base + UHCI_FRBASEADD) frame_list_addr);;
    on_net (Rtl8139.outb (base + UHCI_SOFMOD) 0x40);;
    on_net (Rtl8139.outw (base + UHCI_CMD) 0x0041);;
    put 1 (i + 1);;
    say "usb: UHCI controller %d at 0x%x IRQ %d\n" [Pk32 i; Pk32 base; Pk32 (irq_line dev)];;
    mret 0.

Definition uhci_wait_port_connected (base port : Z) : C Z :=
  r ← for_ (Z.to_nat 100000) 0 tt (fun _ _ =>
    sc ← uhci_port_sc base port;
    if negb (Z.land sc UHCI_PORT_CCS =? 0) then mret (Ret 0) else mret (Cont tt));
  match r with inl _ => mret (-1) | inr v => mret v end.

Definition uhci_port_reset (base port : Z) : C unit :=
  sc ← uhci_port_sc base port;
  uhci_port_sc_write base port (Z.land (Z.lor sc UHCI_PORT_RESET) (Z.lnot UHCI_PORT_PED));;
  sc ← uhci_port_sc base port;
  uhci_port_sc_write base port (Z.land sc (Z.lnot UHCI_PORT_RESET)).

Definition ehci_init (dev : pci_device_t) : C Z :=
  i ← gets (fun s => ehci_ctrl_count (ub s));
  if 2 <=? i then mret (-1)
  else
    let phys := Z.land (bar0 dev) 0xFFFFFFF0 in
    let put v n := on_usb (modify (fun u => set_ehci (<[Z.to_nat i := mkEhci phys (irq_line dev) v]> (ehci_ctrls u)) n u)) in
    put 0 i;;
    on_vmm (map_ident phys 1024);;
    on_net (hw_put (mmio_write phys 4 0x0002));;
    on_net (hw_put (mmio_write phys 4 0x0001));;
    put 1 (i + 1);;
    say "usb: EHCI controller %d at 0x%x IRQ %d\n" [Pk32 i; Pk32 phys; Pk32 (irq_line dev)];;
    mret 0.

Definition speed_name (speed : Z) : list Z :=
  if speed =? USB_SPEED_LOW then text "low" else if speed =? USB_SPEED_HIGH then text "high" else text "full".

Definition usb_enumerate_device (hub_port speed : Z) : C Z :=
  idx ← on_usb (usb_register_device hub_port speed);
  if idx <? 0 then mret (-1)
  else
    on_usb (modify (fun u =>
      let d := nth (Z.to_nat idx) (usb_devices u) zero_dev in
      set_devices (<[Z.to_nat idx := mkUsbDev (ud_in_use d) (u8 (idx + 1)) (ud_port d) (ud_speed d) (ud_slot d)
        (ud_func d) (ep0_max_packet d) (vendor_id d) (product_id d) (device_class d) (num_configs d) (num_interfaces d) (interfaces d)]> (usb_devices u)) (usb_device_count u) u));;
    say "usb: device %d on port %d speed %s\n" [Pk32 (idx + 1); Pk32 hub_port; str (speed_name speed)];;
    mret idx.

Definition pci_byte (v k : Z) : Z := Z.land (Z.shiftr v k) 0xFF.

(** One function of a slot; whether the scan of the slot stops. *)
Definition usb_probe (bus slot func : Z) : C bool :=
  id ← on_net (pci_read bus slot func 0);
  if id =? 0xFFFFFFFF then mret true
  else
    c ← on_net (pci_read bus slot func 0x08);
    let classcode := pci_byte c 24 in
    c ← on_net (pci_read bus slot func 0x08);
    let subclass := pci_byte c 16 in
    c ← on_net (pci_read bus slot func 0x08);
    let progif := pci_byte c 8 in
    (if (classcode =? PCI_CLASS_SERIAL) && (subclass =? PCI_SUBCLASS_USB) then
       b0 ← on_net (pci_read bus slot func 0x10);
       b1 ← on_net (pci_read bus slot func 0x14);
       irq ← on_net (pci_read bus slot func 0x3C);
       let dev := mkPciDevice (Z.land id 0xFFFF) (Z.land (Z.shiftr id 16) 0xFFFF) bus slot func classcode subclass progif
         (Z.lor (Z.land b0 0xFFFFFFF0) 1) b1 (pci_byte irq 8) in
       if progif =? 0x00 then uhci_init dev;; mret tt
       else if progif =? 0x10 then
         say "usb: found OHCI controller (bus %d dev %d) - basic support\n" [Pk32 bus; Pk32 slot]
       else if progif =? 0x20 then ehci_init dev;; mret tt
       else if progif =? 0x30 then
         say "usb: found xHCI controller (bus %d dev %d) - basic support\n" [Pk32 bus; Pk32 slot]
       else mret tt
     else mret tt);;
    mret false.

Definition usb_scan : C unit :=
  each 0 8 (fun bus => each 0 32 (fun slot =>
    locals (for_ (span 0 8) 0 tt (fun func _ =>
      stop ← usb_probe bus slot func;
      if (stop : bool) then mret (Brk tt) else mret (Cont tt))))).

Definition usb_init : C unit :=
  on_usb (modify (set_devices (replicate 16 zero_dev) 0));;
  usb_scan;;
  n ← gets (fun s => uhci_ctrl_count (ub s));
  (if 0 <? n then
     each 0 2 (fun port =>
       hc ← gets (fun s => nth 0 (uhci_ctrls (ub s)) zero_uhci);
       w ← uhci_wait_port_connected (io_base hc) port;
       if w =? 0 then
         sc ← uhci_port_sc (io_base hc) port;
         let speed := if negb (Z.land sc UHCI_PORT_LSDA =? 0) then USB_SPEED_LOW else USB_SPEED_FULL in
         uhci_port_reset (io_base hc) port;;
         usb_enumerate_device port speed;;
         mret tt
       else mret tt)
   else mret tt);;
  on_usb (modify (set_usb_initialized 1));;
  u ← gets ub;
  say "usb: %d host controller(s), %d device(s)\n"
    [Pk32 (uhci_ctrl_count u + ehci_ctrl_count u); Pk32 (usb_device_count u)].

(** One device of the listing. *)
Definition show_usb_device (i : Z) (d : usb_device_t) : C unit :=
  say "  %d: port %d  speed %s  addr %d\n" [Pk32 i; Pk32 (ud_port d); str (speed_name (ud_speed d)); Pk32 (ud_address d)];;
  say "     vid:prod %04x:%04x  class %d\n" [Pk32 (vendor_id d); Pk32 (product_id d); Pk32 (device_class d)];;
  each 0 (Z.min 4 (num_interfaces d)) (fun j =>
    let f := nth (Z.to_nat j) (interfaces d) zero_iface in
    say "     iface %d: class %d sub %d proto %d\n" [Pk32 j; Pk32 (i_class f); Pk32 (i_subclass f); Pk32 (i_protocol f)]).

Definition cmd_usb (argc : Z) (argv : list (list Z)) : C Z :=
  count ← on_usb usb_get_device_count;
  say "USB devices: %d\n" [Pk32 count];;
  each 0 count (fun i =>
    match usb_get_device (u8 i) with
    | None => mret tt
    | Some k =>
        u ← gets ub;
        let d := nth (Z.to_nat k) (usb_devices u) zero_dev in
        if ud_in_use d =? 0 then mret tt else show_usb_device i d
    end);;
  mret 0.
End Controllers.
