(* ===== verification/UsbFacts.v ===== *)
(** Correctness of the USB code's memory pool, and what it does not bound. *)
From Stdlib Require Import ZArith Lia List.
From stdpp Require Import base tactics numbers list gmap strings option.
From S2P Require Import Prelude CString Bytes Machine Usb.
Open Scope Z_scope.

Section Pool.
Context `{UsbLayout}.
Implicit Types s : usb.

(** The pool as [uhci_init] leaves it after [n] descriptors. *)
Definition after_allocs (n : Z) s : Prop := uhci_pool s = ubuf + n * TD_SIZE /\ uhci_pool_size s = UBUF_SIZE.

Lemma alloc_step n s : after_allocs n s -> 0 <= n -> ubuf + (n + 1) * TD_SIZE + UBUF_SIZE < 4294967296 ->
  exists s', uhci_pool_alloc TD_SIZE 16 s = Ok (ubuf + n * TD_SIZE) s' /\ after_allocs (n + 1) s'.
Proof.
  intros [Hp Hs] Hn Hroom. pose proof ubuf_range as [Hu _]. pose proof ubuf_aligned as Ha. unfold TD_SIZE, UBUF_SIZE in *.
  enough (Hw : wp (uhci_pool_alloc 16 16) (fun a s' => a = ubuf + n * 16 /\ after_allocs (n + 1) s') s).
  { apply wp_ok in Hw as (a & s' & Heq & -> & Hs'). eauto. }
  unfold uhci_pool_alloc. do 4 wp_step. rewrite Hp, Hs. destruct (Z.eqb_spec (ubuf + n * 16) 0); [lia|]. cbv zeta.
  assert (Hm : (ubuf + n * 16) mod 16 = 0).
  { rewrite Z.mod_add by lia. rewrite (Z.div_mod ubuf 4096), Ha, Z.add_0_r by lia.
    replace (4096 * (ubuf / 4096)) with (ubuf / 4096 * 256 * 16) by lia. apply Z.mod_mul. lia. }
  rewrite Hm. simpl. rewrite !u32_small by lia. destruct (Z.ltb_spec (ubuf + n * 16 + 65536) (ubuf + n * 16 + 16)); [lia|].
  do 2 wp_step. wp_step. split; [done|]. split; cbn; [unfold TD_SIZE; lia|].
  rewrite Z.sub_diag. change (u32 0) with 0. by rewrite Z.sub_0_r.
Qed.

(** The pool of the transfer descriptors does not end.  The size is reduced
    by the distance to a pointer that has already moved, which is zero, so the
    bound moves with the pool: every allocation succeeds, and the one after
    4096 descriptors returns the address behind the 65536-byte buffer, where
    writing a descriptor is out of bounds. *)
Theorem uhci_pool_overruns s : uhci_pool s = ubuf -> uhci_pool_size s = UBUF_SIZE ->
  exists s', Nat.iter 4096 (fun m => uhci_pool_alloc TD_SIZE 16;; m) (mret tt) s = Ok tt s' /\
    exists s2, uhci_pool_alloc TD_SIZE 16 s' = Ok (ubuf + UBUF_SIZE) s2 /\
      forall link status token buffer, td_set (ubuf + UBUF_SIZE) link status token buffer s2 = Stuck OutOfBounds s2.
Proof.
  intros Hp Hs. pose proof ubuf_range as [_ Hu].
  assert (Hrun : forall k n s, after_allocs n s -> 0 <= n -> n + Z.of_nat k <= 4096 ->
    exists s', Nat.iter k (fun m => uhci_pool_alloc TD_SIZE 16;; m) (mret tt) s = Ok tt s' /\ after_allocs (n + Z.of_nat k) s').
  { induction k as [|k IH]; intros n s1 Ha Hn Hk; [exists s1; by rewrite Z.add_0_r|].
    destruct (alloc_step n s1 Ha Hn) as (s2 & He & Ha2); [unfold TD_SIZE, UBUF_SIZE in *; lia|].
    destruct (IH (n + 1) s2 Ha2) as (s3 & He3 & Ha3); [lia | lia|]. exists s3. cbn [Nat.iter nat_rect]. rewrite (bind_ok _ _ _ _ _ He).
    split; [exact He3|]. by replace (n + Z.of_nat (S k)) with (n + 1 + Z.of_nat k) by lia. }
  destruct (Hrun 4096%nat 0 s) as (s1 & He & Ha); [split; [rewrite Hp; unfold TD_SIZE; lia | done] | lia | lia|].
  exists s1. split; [exact He|]. destruct (alloc_step _ _ Ha) as (s2 & He2 & _); [lia | unfold TD_SIZE, UBUF_SIZE in *; lia|].
  replace (ubuf + (0 + Z.of_nat 4096) * TD_SIZE) with (ubuf + UBUF_SIZE) in He2 by (unfold TD_SIZE, UBUF_SIZE; lia).
  exists s2. split; [exact He2|]. intros. apply bind_stuck. unfold pool_set. apply bind_stuck. unfold guard_or. rewrite decide_False; [done | lia].
Qed.
End Pool.

(** * Example *)

#[local] Instance low_layout : UsbLayout.
Proof. refine {| ubuf := 0x300000; frame_list_addr := 0x310000; setup_phys_addr := 0x311000 |}; by vm_compute. Defined.

Lemma uhci_pool_overruns_witness : exists s s2, uhci_pool_alloc TD_SIZE 16 s = Ok 0x310000 s2 /\ td_set 0x310000 1 0 0 0 s2 = Stuck OutOfBounds s2.
Proof.
  set (s0 := mkUsb [] 0 [] 0 [] 0 [] ubuf UBUF_SIZE [] ∅ 0).
  destruct (uhci_pool_overruns s0 eq_refl eq_refl) as (s & _ & s2 & He & Hf).
  exists s, s2. split; [exact He | exact (Hf 1 0 0 0)].
Defined.
