(* ===== verification/UserProgram.v ===== *)
(** The programs of ring 3: [src/user/user.c] and [src/user/shell.c], with
    the wrappers of [src/user/ipc.h].

    A program is run against the system calls it makes, a class of operations
    on the state of the rest of the system; a pointer argument is given as the
    bytes it addresses.  [shell.c] is not in the build: it asks for keys by a
    system call that [syscall.h] does not number. *)
From Stdlib Require Import ZArith Lia List String.
From stdpp Require Import base tactics numbers list gmap strings option.
From S2P Require Import Prelude CString Bytes Text.
Open Scope Z_scope.

(** [int $0x80] by call; [sc_read_key c] is given the byte at the pointer and
    returns the result and the byte. *)
Class Syscalls (U : Type) := {
  sc_write : list Z -> M U Z;
  sc_exit : Z -> M U Z;
  sc_getpid : M U Z;
  sc_yield : M U Z;
  sc_ticks : M U Z;
  sc_read_key : Z -> M U (Z * Z)
}.

(** * [user.c] *)

Module Demo.
Section Demo.
Context {U : Type} `{Syscalls U, Locals}.
Notation P := (M U).
Variable fuel : nat.

Definition putdec (v : Z) : P unit :=
  l ← locals (while_ 11 (v, 0, local_array 12) (fun '(v, i, b) =>
    b ← aset b i (48 + v mod 10);
    let v := v / 10 in
    if v =? 0 then mret (Brk (v, i + 1, b)) else mret (Cont (v, i + 1, b))));
  let '(_, i, b) := l in
  locals (while_ 13 i (fun i =>
    if 0 <? i then
      c ← aget b (i - 1);
      sc_write [c];;
      mret (Cont (i - 1))
    else mret (Brk i)));;
  mret tt.

Definition putstr (s : list Z) : P unit :=
  len ← locals (while_ (length s + 1) 0 (fun len =>
    c ← aget s len;
    if negb (c =? 0) then mret (Cont (len + 1)) else mret (Brk len)));
  sc_write (take (Z.to_nat len) s);;
  mret tt.

Definition ticks : P Z := r ← sc_ticks; mret (u32 r).

(** Yield until the clock has advanced by ten. *)
Definition wait_ticks : P unit :=
  t ← ticks;
  let dl := u32 (t + 10) in
  locals (while_ fuel tt (fun _ =>
    t ← ticks;
    if t <? dl then sc_yield;; mret (Cont tt) else mret (Brk tt))).

Definition iteration (pid i : Z) : P unit :=
  putstr (text "USER pid ");;
  putdec pid;;
  putstr (text " iteration ");;
  putdec (u32 i);;
  putstr (text "\n");;
  wait_ticks.

(** [_start] up to the loop it ends in. *)
Definition main : P unit :=
  r ← sc_getpid;
  let pid := u32 r in
  locals (for_ (span 0 25) 0 tt (fun i _ => iteration pid i;; mret (Cont tt)));;
  putstr (text "USER pid ");;
  putdec pid;;
  putstr (text " exiting\n");;
  sc_exit 0;;
  mret tt.
Definition start : P unit := main;; stuck Halted.
End Demo.
End Demo.

(** * [shell.c] *)

Definition SHELL_BUFF : Z := 255.

(** The static variables of the shell beside the rest of the system. *)
Record ushell (U : Type) : Type := mkUshell {
  sys : U;
  g_history : list (list Z);
  g_hist_count : Z;
  g_hist_pos : Z
}.
Arguments mkUshell {U} _ _ _ _.
Arguments sys {U} _.
Arguments g_history {U} _.
Arguments g_hist_count {U} _.
Arguments g_hist_pos {U} _.

Module Ushell.
Section Ushell.
Context {U : Type} `{Syscalls U, Locals}.
Notation P := (M (ushell U)).
Variable fuel : nat.

Definition set_sys (v : U) (s : ushell U) : ushell U := mkUshell v (g_history s) (g_hist_count s) (g_hist_pos s).
Definition set_history (v : list (list Z)) (s : ushell U) : ushell U := mkUshell (sys s) v (g_hist_count s) (g_hist_pos s).
Definition set_count (v : Z) (s : ushell U) : ushell U := mkUshell (sys s) (g_history s) v (g_hist_pos s).
Definition set_pos (v : Z) (s : ushell U) : ushell U := mkUshell (sys s) (g_history s) (g_hist_count s) v.
Definition call {A} (m : M U A) : P A := zoom sys set_sys m.

(** The strings are read from the pointers on. *)
Definition ustrcmp (a b : list Z) : P Z :=
  k ← locals (while_ (length a + 1) 0 (fun k =>
    x ← aget a k;
    y ← aget b k;
    if negb (x =? 0) && negb (y =? 0) && (x =? y) then mret (Cont (k + 1)) else mret (Brk k)));
  x ← aget a k;
  y ← aget b k;
  mret (u8 x - u8 y).

(** [umemcpy] and [umemmove] within one array, [dst] and [src] being the
    offsets of the pointers. *)
Definition umemcpy (a : list Z) (dst src n : Z) : P (list Z) :=
  locals (for_ (span 0 n) 0 a (fun k a =>
    c ← aget a (src + k);
    a ← aset a (dst + k) c;
    mret (Cont a))).
Definition umemmove (a : list Z) (dst src n : Z) : P (list Z) :=
  if dst <? src then umemcpy a dst src n
  else
    locals (for_ (span 0 n) 0 a (fun k a =>
      c ← aget a (src + n - 1 - k);
      a ← aset a (dst + n - 1 - k) c;
      mret (Cont a))).

Definition umemcmp (a b : list Z) (n : Z) : P Z :=
  r ← for_ (span 0 n) 0 tt (fun k _ =>
    x ← aget a k;
    y ← aget b k;
    if negb (u8 x =? u8 y) then mret (Ret (u8 x - u8 y)) else mret (Cont tt));
  match r with inl _ => mret 0 | inr v => mret v end.

Definition putch (c : Z) : P unit := call (sc_write [c]);; mret tt.
Definition putstr (s : list Z) : P unit := call (Demo.putstr s).
Definition putdec (v : Z) : P unit := call (Demo.putdec v).

Definition history_row (i : Z) : P (list Z) := fun s =>
  match g_history s !! Z.to_nat i with Some l => Ok l s | None => Stuck OutOfBounds s end.

(** The copy of the line into an entry, [n] being the count. *)
Definition fill_row (n : Z) (line row : list Z) : P (list Z) :=
  l ← locals (while_ 65 (0, row) (fun '(i, row) =>
    if n - 1 <? 16 then
      c ← aget line i;
      if negb (c =? 0) && (i <? 63) then
        row ← aset row i c;
        mret (Cont (i + 1, row))
      else mret (Brk (i, row))
    else mret (Brk (i, row))));
  let '(i, row) := l in
  aset row i 0.

Definition record_history (line : list Z) : P unit :=
  n ← gets g_hist_count;
  new ← (if n =? 0 then mret true
         else l ← history_row (n - 1); d ← umemcmp l line 64; mret (negb (d =? 0)));
  (if (new : bool) then
     (if n <? 16 then modify (set_count (n + 1)) else mret tt);;
     n ← gets g_hist_count;
     row ← history_row (n - 1);
     row ← fill_row n line row;
     modify (fun s => set_history (<[Z.to_nat (n - 1) := row]> (g_history s)) s)
   else mret tt);;
  n ← gets g_hist_count;
  modify (set_pos n).

(** Copy an entry of the history into the line; the entry at the position is
    read again for every character. *)
Definition recall (buf : list Z) (size p : Z) : P (list Z * Z) :=
  row ← history_row p;
  locals (while_ 65 (buf, 0) (fun '(buf, i) =>
    c ← aget row i;
    if negb (c =? 0) && (i <? size - 1) then
      buf ← aset buf i c;
      mret (Cont (buf, i + 1))
    else mret (Brk (buf, i)))).

(** Show the line again: a carriage return, the sequence that erases to the
    end of the line, and the text. *)
Definition ERASE : list Z := [13; 27; 91; 75; 0].
Definition show_line (buf : list Z) : P unit := putstr ERASE;; putstr buf.

(** One key; [pos] is where the cursor is, [i] the length. *)
Definition key (buf : list Z) (size i pos ch : Z) : P (ctl (list Z * Z * Z) Z * list Z) :=
  if ch =? 10 then
    putch 10;;
    buf ← aset buf i 0;
    mret (Ret i, buf)
  else if ch =? 8 then
    if 0 <? pos then
      buf ← umemmove buf (pos - 1) pos (i - pos + 1);
      putstr [8; 32; 8; 0];;
      mret (Cont (buf, i - 1, pos - 1), buf)
    else mret (Cont (buf, i, pos), buf)
  else if ch =? 0x10 then
    n ← gets g_hist_count;
    if negb (n =? 0) then
      p ← gets g_hist_pos;
      (if 0 <? p then modify (set_pos (p - 1)) else mret tt);;
      p ← gets g_hist_pos;
      r ← recall buf size p;
      let '(buf, i) := r in
      buf ← aset buf i 0;
      show_line buf;;
      mret (Cont (buf, i, i), buf)
    else mret (Cont (buf, i, pos), buf)
  else if ch =? 0x12 then
    n ← gets g_hist_count;
    if negb (n =? 0) then
      p ← gets g_hist_pos;
      (if p <? n - 1 then modify (set_pos (p + 1)) else mret tt);;
      p ← gets g_hist_pos;
      r ← (if p <? n then recall buf size p else mret (buf, 0));
      let '(buf, i) := r in
      buf ← aset buf i 0;
      show_line buf;;
      mret (Cont (buf, i, i), buf)
    else mret (Cont (buf, i, pos), buf)
  else if (0x20 <=? ch) && (ch <? 0x7F) && (i <? size - 1) then
    buf ← umemmove buf (pos + 1) pos (i - pos + 1);
    buf ← aset buf pos ch;
    putch ch;;
    mret (Cont (buf, i + 1, pos + 1), buf)
  else mret (Cont (buf, i, pos), buf).

(** The result and the line. *)
Definition readline (buf : list Z) (size : Z) : P (Z * list Z) :=
  r ← while_ fuel (buf, 0, 0) (fun '(buf, i, pos) =>
    if i <? size then
      r ← call (sc_read_key 0);
      let '(n, ch) := r in
      if n <=? 0 then call sc_yield;; mret (Cont (buf, i, pos))
      else
        k ← key buf size i pos (s8 ch);
        match k with
        | (Cont l, _) => mret (Cont l)
        | (Brk l, _) => mret (Brk l)
        | (Ret v, buf) => mret (Ret (v, buf))
        end
    else mret (Brk (buf, i, pos)));
  match r with
  | inr v => mret v
  | inl (buf, i, _) => buf ← aset buf i 0; mret (i, buf)
  end.

(** The line with a terminator after each word, and where the words start. *)
Definition blank (c : Z) : bool := (c =? 32) || (c =? 9).
Definition advance (p : Z -> bool) (buf : list Z) (cur : Z) : P Z :=
  locals (while_ (length buf + 1) cur (fun cur =>
    c ← aget buf cur;
    if p c then mret (Cont (cur + 1)) else mret (Brk cur))).
Definition parse (buf : list Z) (max : Z) : P (list Z * list Z) :=
  l ← locals (while_ (length buf + 1) (buf, 0, []) (fun '(buf, cur, argv) =>
    c ← aget buf cur;
    if negb (c =? 0) && (lenZ argv <? max) then
      cur ← advance blank buf cur;
      c ← aget buf cur;
      if c =? 0 then mret (Brk (buf, cur, argv))
      else
        let argv := argv ++ [cur] in
        cur ← advance (fun c => negb (c =? 0) && negb (blank c)) buf cur;
        c ← aget buf cur;
        if negb (c =? 0) then
          buf ← aset buf cur 0;
          mret (Cont (buf, cur + 1, argv))
        else mret (Cont (buf, cur, argv))
    else mret (Brk (buf, cur, argv))));
  let '(buf, _, argv) := l in
  mret (buf, argv).

Definition help_text : list Z := text
  "shell commands:\n  help       - show this list\n  clear      - clear the terminal\n  echo <t>   - echo text\n  ps         - list tasks\n  uptime     - show uptime\n  pid        - print my pid\n  exec       - spawn a child user task\n  ipc_demo   - spawn two tasks that talk over IPC\n  version    - kernel version\n  shutdown   - power off\n".
Definition cmd_help : P unit := putstr help_text.
Definition ticks : P Z := call Demo.ticks.
Definition cmd_ps : P unit :=
  putstr (text "pid state   name\n");;
  putstr (text "--- -----   ----\n");;
  putstr (text " 0  running  kernel\n").
Definition cmd_exec : P unit := putstr (text "spawning user task...\n").

(** The seven bytes that clear the terminal. *)
Definition CLEAR : list Z := [27; 91; 50; 74; 27; 91; 72].

Definition cmd_echo (buf argv : list Z) : P unit :=
  locals (for_ (span 1 (lenZ argv)) 1 tt (fun i _ =>
    (if 1 <? i then putch 32 else mret tt);;
    p ← aget argv i;
    putstr (drop (Z.to_nat p) buf);;
    mret (Cont tt)));;
  putch 10.

Definition cmd_uptime : P unit :=
  t ← ticks;
  putstr (text "Up time is ");;
  putdec (t / 18 / 60);;
  putstr (text " minutes ");;
  putdec (t / 18 mod 60);;
  putstr (text " seconds.\n").

Definition run (buf argv : list Z) : P unit :=
  p ← aget argv 0;
  let w := drop (Z.to_nat p) buf in
  let case (nm : string) (m rest : P unit) : P unit := d ← ustrcmp w (text nm); if d =? 0 then m else rest in
  case "help" cmd_help
  (case "clear" (call (sc_write CLEAR);; mret tt)
  (case "echo" (cmd_echo buf argv)
  (case "ps" cmd_ps
  (case "uptime" cmd_uptime
  (case "pid" (putstr (text "pid ");; p ← call sc_getpid; putdec (u32 p);; putch 10)
  (case "exec" cmd_exec
  (case "version" (putstr (text "rtjn-kernel-i686 v0.5.14 (microkernel)\n"))
  (case "shutdown" (call (sc_exit 0);; mret tt)
    (putstr (text "rtjn-shell: Command not found. (try 'help')\n")))))))))).

(** The line is cut in place. *)
Definition cmd_dispatch (buf : list Z) : P (list Z) :=
  r ← parse buf 16;
  let '(buf, argv) := r in
  (if lenZ argv =? 0 then mret tt else run buf argv);;
  mret buf.

(** A round of the loop of [_start]; the buffer is its local variable. *)
Definition round (buf : list Z) : P (list Z) :=
  putstr (text "> ");;
  r ← readline buf SHELL_BUFF;
  let '(n, buf) := r in
  if n <? 0 then mret buf
  else
    c ← aget buf 0;
    if c =? 0 then putch 10;; mret buf
    else
      record_history buf;;
      cmd_dispatch buf.
Fixpoint rounds (n : nat) (buf : list Z) : P unit :=
  match n with
  | O => mret tt
  | S n => buf ← round buf; rounds n buf
  end.
Definition start (n : nat) : P unit :=
  putstr (text "rtjn-kernel microkernel shell\n");;
  putstr (text "type 'help' for commands\n\n");;
  rounds n (local_array (SHELL_BUFF + 1)).
End Ushell.
End Ushell.
