(* ===== verification/UserFacts.v ===== *)
(** What the programs of ring 3 write: the demonstration task against any
    system that keeps the laws of its calls. *)
From Stdlib Require Import ZArith Lia List String.
From stdpp Require Import base tactics numbers list gmap strings option.
From S2P Require Import Prelude CString Bytes Buffer Text PrintkFacts SayFacts UserProgram.
Open Scope Z_scope.

(** The laws of the system calls: what has been written, the number of the
    caller and the clock.  A call advances the clock by at most [STEP] (the
    other tasks run meanwhile); read again and again, it advances after at most
    [LAG] reads. *)
Class SyscallLaws (U : Type) `{Syscalls U} := {
  out : U -> list Z;
  me : U -> Z;
  now : U -> Z;
  lag : U -> Z;
  LAG : Z;
  STEP : Z;
  clock : forall u, 0 <= now u /\ 0 <= lag u <= LAG;
  step_pos : 0 <= STEP;
  (* what is left of the lag is not given back *)
  passes (u u' : U) : Prop := me u' = me u /\ now u <= now u' <= now u + STEP /\ (now u' = now u -> lag u' <= lag u);
  write_law : forall l u, wp (sc_write l) (fun _ u' => out u' = out u ++ l /\ passes u u') u;
  getpid_law : forall u, wp sc_getpid (fun r u' => r = me u /\ out u' = out u /\ passes u u') u;
  yield_law : forall u, wp sc_yield (fun _ u' => out u' = out u /\ passes u u') u;
  ticks_law : forall u, wp sc_ticks (fun r u' => r = now u /\ out u' = out u /\ passes u u' /\
    (now u' = now u -> lag u' < lag u)) u;
  exit_law : forall c u, wp (sc_exit c) (fun _ u' => out u' = out u /\ passes u u') u
}.

Section Demo.
Context {U : Type} `{SyscallLaws U} `{Locals}.
Implicit Types u : U.

(** The clock is a 32-bit counter; the deadlines are computed below this. *)
Definition HORIZON : Z := 4294967286.

(** A program that writes [w] and takes at most the time [d], when the counter
    does not wrap meanwhile. *)
Definition writes {A} (m : M U A) (w : list Z) (d : Z) : Prop :=
  0 <= d /\ forall u, now u + d < HORIZON ->
  wp m (fun _ u' => out u' = out u ++ w /\ me u' = me u /\ now u <= now u' <= now u + d) u.

Lemma writes_nil {A} (a : A) : writes (mret a) [] 0.
Proof. split; [done|]. intros u _. wp_step. split; [by rewrite app_nil_r|]. split; [done | lia]. Qed.
Lemma writes_bind {A B} (m : M U A) (f : A -> M U B) v w d e :
  0 <= e -> writes m v d -> (forall a, writes (f a) w e) -> writes (m ≫= f) (v ++ w) (d + e).
Proof.
  intros He [Hd Hm] Hf. split; [lia|]. intros u Hu. wp_step. eapply wp_mono; [|apply Hm; lia]. intros a u1 (Ho1 & Hm1 & Hn1).
    eapply wp_mono; [|apply (Hf a); lia]. intros b u2 (Ho2 & Hm2 & Hn2). split; [by rewrite Ho2, Ho1, app_assoc|].
    split; [congruence | lia].
Qed.
Lemma writes_le {A} (m : M U A) w d e : writes m w d -> d <= e -> writes m w e.
Proof.
  intros [Hd Hm] He. split; [lia|]. intros u Hu. eapply wp_mono; [|apply Hm; lia]. intros a u' (Ho & Hme & Hn). split_and!; [done.. | lia | lia].
Qed.
Lemma writes_then {A} (m : M U A) w d : writes m w d -> writes (m;; mret tt) w d.
Proof. intros Hm. rewrite <- (app_nil_r w), <- (Z.add_0_r d). apply writes_bind; [done | done | intros _; apply writes_nil]. Qed.
Lemma writes_write l : writes (sc_write l) l STEP.
Proof.
  pose proof step_pos. split; [done|]. intros u _. eapply wp_mono; [|apply write_law]. intros r u' (Ho & Hm & Hn & _). by split.
Qed.

Lemma writes_putstr s : terminated s -> writes (Demo.putstr s) (cstr s) STEP.
Proof.
  intros Ht. pose proof (lenZ_nonneg (cstr s)). unfold Demo.putstr. split; [apply step_pos|]. intros u Hu. wp_step. apply wp_locals.
  apply (wp_while (fun k u' => u' = u /\ 0 <= k <= lenZ (cstr s)) (fun k _ => Z.to_nat (lenZ (cstr s) - k))).
  - split; [done | lia].
  - unfold terminated, lenZ in *. lia.
  - intros k u' [-> Hk]. unfold terminated in Ht. wp_step. apply wp_aget; [lia|]. destruct (decide (k = lenZ (cstr s))) as [->|].
    + assert (Hz : rd s (lenZ (cstr s)) = 0) by (by apply cstr_end). rewrite Hz. cbn [negb Z.eqb]. wp_step.
      rewrite <- cstr_take. exact (proj2 (writes_then _ _ _ (writes_write (cstr s))) u Hu).
    + assert (Hnz : rd s k <> 0) by (apply cstr_nonzero; lia). destruct (Z.eqb_spec (rd s k) 0); [done|]. cbn [negb]. wp_step.
      split; [split; [done | lia] | lia].
Qed.
(** ** Numbers *)

Lemma rd_snoc_digit b i d : 0 <= i < lenZ b -> reverse (take (Z.to_nat (i + 1)) (wr b i d)) = d :: reverse (take (Z.to_nat i) b).
Proof.
  intros Hi. rewrite wr_split by done. unfold lenZ in Hi.
  rewrite take_app, length_take, (take_ge (take _ _)) by (rewrite length_take; lia).
  replace (Z.to_nat (i + 1) - Z.to_nat i `min` Datatypes.length b)%nat with 1%nat by lia. cbn [take].
  by rewrite reverse_app.
Qed.

Lemma digit_code d : 0 <= d < 10 -> 48 + d = digit_char d.
Proof. intros Hd. rewrite <- dec_char by done. unfold u8. rewrite Z.mod_small; lia. Qed.

Lemma writes_putdec v : 0 <= v < 4294967296 -> writes (Demo.putdec v) (num_text 10 v) (10 * STEP).
Proof.
  intros Hv. pose proof step_pos as Hstep. split; [lia|]. intros u _. unfold Demo.putdec. wp_step. apply wp_locals.
  apply (wp_while (fun '(w, i, b) u' => u' = u /\ 0 <= i <= 9 /\ lenZ b = 12 /\ 0 <= w < 10 ^ (10 - i) /\
      num_text 10 v = map digit_char (digits (65 - Z.to_nat i) 10 w) ++ reverse (take (Z.to_nat i) b))
    (fun '(_, i, _) _ => Z.to_nat (10 - i))).
  - split; [done|]. split; [lia|]. split; [by rewrite lenZ_local|]. split; [lia|]. by rewrite app_nil_r.
  - simpl. lia.
  - intros [[w i] b] u' (-> & Hi & Hb & Hw & Hn). wp_step. apply wp_aset; [lia|]. cbv zeta.
    set (b' := wr b i (48 + w mod 10)).
    assert (Hrev : reverse (take (Z.to_nat (i + 1)) b') = digit_char (w mod 10) :: reverse (take (Z.to_nat i) b)).
    { unfold b'. rewrite digit_code by (apply Z.mod_pos_bound; lia). apply rd_snoc_digit. lia. }
    replace (65 - Z.to_nat i)%nat with (S (64 - Z.to_nat i)) in Hn by lia. cbn [digits] in Hn.
    destruct (Z.eqb_spec (w / 10) 0) as [Hz|Hz]; cbv iota; wp_step.
    + (* the digits are all there *)
      assert (w < 10) by (apply Z.div_small_iff in Hz; lia). destruct (Z.ltb_spec w 10); [|lia].
      rewrite (Z.mod_small w 10) in Hrev by lia.
      assert (Htext : num_text 10 v = reverse (take (Z.to_nat (i + 1)) b')) by (by rewrite Hrev).
      assert (Hb' : lenZ b' = 12) by (unfold b'; by rewrite lenZ_wr). clearbody b'. clear Hrev Hn.
      rewrite Htext. set (all := reverse (take (Z.to_nat (i + 1)) b')). cbv beta iota. wp_step. apply wp_locals.
      apply (wp_while (fun k u' => 0 <= k <= i + 1 /\ me u' = me u /\ now u <= now u' <= now u + (i + 1 - k) * STEP /\
          out u' ++ reverse (take (Z.to_nat k) b') = out u ++ all) (fun k _ => Z.to_nat k)).
      * split; [lia|]. split; [done|]. split; [lia | done].
      * lia.
      * intros k u1 (Hk & Hm1 & Hn1 & Ho). destruct (Z.ltb_spec 0 k); wp_step.
        -- apply wp_aget; [lia|]. wp_step. eapply wp_mono; [|apply write_law]. intros r u2 (Ho2 & Hm2 & Hn2 & _). wp_step.
           split; [|lia]. split; [lia|]. split; [congruence|]. split; [lia|]. rewrite Ho2, <- Ho, <- app_assoc. f_equal.
           replace (Z.to_nat k) with (S (Z.to_nat (k - 1))) by lia.
           rewrite (take_S_r _ _ (rd b' (k - 1))) by (apply rd_lookup; lia). by rewrite reverse_app.
        -- wp_step. replace k with 0 in Ho by lia. rewrite app_nil_r in Ho. split; [done|]. split; [done|].
           assert ((i + 1) * STEP <= 10 * STEP) by (apply Z.mul_le_mono_nonneg_r; lia). lia.
    + split; [|lia]. split; [done|]. assert (Hge : 10 <= w) by (destruct (Z.lt_ge_cases w 10); [rewrite Z.div_small in Hz by lia; lia | lia]).
      assert (Hi9 : i <= 8).
      { destruct (decide (i = 9)) as [->|]; [|lia]. change (10 ^ (10 - 9)) with 10 in Hw. lia. }
      split; [lia|]. split; [unfold b'; by rewrite lenZ_wr|]. split.
      * split; [apply Z.div_pos; lia|]. apply Z.div_lt_upper_bound; [lia|]. rewrite <- Z.pow_succ_r by lia.
        replace (Z.succ (10 - (i + 1))) with (10 - i) by lia. exact (proj2 Hw).
      * rewrite Hn. destruct (Z.ltb_spec w 10); [lia|]. rewrite Hrev, map_app, <- app_assoc. cbn [map app].
        by replace (65 - Z.to_nat (i + 1))%nat with (64 - Z.to_nat i)%nat by lia.
Qed.

(** ** Waiting *)

Lemma writes_wait fuel : 11 * (LAG + 1) < Z.of_nat fuel -> writes (Demo.wait_ticks fuel) [] (10 + 3 * STEP).
Proof.
  intros Hf. pose proof step_pos as Hstep. split; [lia|]. intros u Hu. rewrite app_nil_r. unfold HORIZON in Hu.
  unfold Demo.wait_ticks, Demo.ticks. wp_step. wp_step. eapply wp_mono; [|apply ticks_law].
  intros r u1 (-> & Ho1 & (Hm1 & Hn1 & _) & _). wp_step. pose proof (clock u) as [Hcu _]. pose proof (clock u1) as [Hc1 Hl1].
  rewrite (u32_small (now u)), u32_small by lia. apply wp_locals. set (D := now u + 10).
  apply (wp_while (fun _ u' => out u' = out u /\ me u' = me u /\ now u <= now u' <= D + 2 * STEP)
    (fun _ u' => Z.to_nat (if now u' <? D then (D - now u') * (LAG + 1) + lag u' else 0))).
  - split; [done|]. split; [done | unfold D; lia].
  - destruct (Z.ltb_spec (now u1) D); [|lia].
    assert ((D - now u1) * (LAG + 1) <= 10 * (LAG + 1)) by (apply Z.mul_le_mono_nonneg_r; unfold D in *; lia). lia.
  - intros [] u2 (Ho2 & Hm2 & Hn2). wp_step. wp_step. eapply wp_mono; [|apply ticks_law].
    intros r u3 (-> & Ho3 & (Hm3 & Hn3 & _) & Hlag3). wp_step.
    pose proof (clock u2) as [Hc2 Hl2]. pose proof (clock u3) as [Hc3 Hl3]. rewrite u32_small by (unfold D in *; lia).
    destruct (Z.ltb_spec (now u2) D); wp_step.
    + eapply wp_mono; [|apply yield_law]. intros r u4 (Ho4 & Hm4 & Hn4 & Hlag4). wp_step. pose proof (clock u4) as [Hc4 Hl4].
      split; [split; [congruence|]; split; [congruence | lia]|].
      assert (Hpos : 0 < (D - now u2) * (LAG + 1)) by (apply Z.mul_pos_pos; lia).
      destruct (Z.ltb_spec (now u4) D); [|lia]. destruct (decide (now u4 = now u2)) as [He|].
      * rewrite He. lia.
      * assert ((D - now u4) * (LAG + 1) <= (D - now u2 - 1) * (LAG + 1)) by (apply Z.mul_le_mono_nonneg_r; lia). lia.
    + split; [congruence|]. split; [congruence | unfold D in *; lia].
Qed.

(** ** The program *)

Definition iteration_text (p i : Z) : list Z := chars "USER pid " ++ num_text 10 p ++ chars " iteration " ++ num_text 10 i ++ chars "\n".
Definition program_text (p : Z) : list Z :=
  concat (map (iteration_text p) (seqZ 0 25)) ++ chars "USER pid " ++ num_text 10 p ++ chars " exiting\n".

Lemma writes_text s : forallb (fun c => negb (c =? 0)) (chars s) = true -> writes (Demo.putstr (text s)) (chars s) STEP.
Proof.
  intros Hs. assert (Hn : nonzeros (chars s)).
  { apply List.Forall_forall. intros c Hc. rewrite forallb_forall in Hs. specialize (Hs c Hc). by bprop. }
  destruct (holds_cstr (text s) (chars s)) as [Hc Ht]; [by apply holds_of_app|]. pose proof (writes_putstr (text s) Ht) as Hw. by rewrite Hc in Hw.
Qed.

Definition iteration_time : Z := 10 + 26 * STEP.
Lemma writes_iteration fuel p i : 11 * (LAG + 1) < Z.of_nat fuel -> 0 <= p < 4294967296 -> 0 <= i < 25 ->
  writes (Demo.iteration fuel p i) (iteration_text p i) iteration_time.
Proof.
  intros Hf Hp Hi. pose proof step_pos as Hstep. unfold Demo.iteration, iteration_text, iteration_time. rewrite u32_small by lia.
  replace (10 + 26 * STEP) with (STEP + (10 * STEP + (STEP + (10 * STEP + (STEP + (10 + 3 * STEP)))))) by lia.
  do 4 (apply writes_bind; [lia | first [by apply writes_text | by apply writes_putdec; lia] | intros _]).
  rewrite <- (app_nil_r (chars "\n")). apply writes_bind; [lia | by apply writes_text | intros _]. by apply writes_wait.
Qed.

(** A loop whose body writes [w i]. *)
Lemma writes_for n d (f : Z -> M U unit) (w : Z -> list Z) : 0 <= n -> 0 <= d -> (forall i, 0 <= i < n -> writes (f i) (w i) d) ->
  writes (locals (for_ (span 0 n) 0 tt (fun i _ => f i;; mret (Cont tt)))) (concat (map w (seqZ 0 n))) (n * d).
Proof.
  intros Hn Hd Hf. split; [lia|]. intros u Hu. apply wp_locals.
  apply (wp_for (fun i _ u' => out u' = out u ++ concat (map w (seqZ 0 i)) /\ me u' = me u /\ now u <= now u' <= now u + i * d)).
  - rewrite app_nil_r. split; [done|]. split; [done | lia].
  - intros i [] u1 Hi (Ho1 & Hm1 & Hn1). unfold span in Hi. wp_step.
    assert ((i + 1) * d <= n * d) by (apply Z.mul_le_mono_nonneg_r; lia).
    eapply wp_mono; [|apply Hf; lia]. intros [] u2 (Ho2 & Hm2 & Hn2). wp_step.
    split; [|split; [congruence | lia]]. rewrite Ho2, Ho1, <- app_assoc. f_equal.
    rewrite seqZ_app, map_app, concat_app, Z.add_0_l by lia.
    change (seqZ i 1) with [0 + i]. cbn [map concat]. by rewrite Z.add_0_l, app_nil_r.
  - intros [] u1 (Ho1 & Hm1 & Hn1). unfold span in *. replace (0 + Z.of_nat (Z.to_nat (n - 0))) with n in * by lia. by split.
Qed.

(** C24: the demonstration task, against any system that keeps the laws of the
    calls and while the clock does not wrap: it ends, and what it has written
    is one line with its number for each of the 25 iterations, in order, and
    the line of its exit, digit for digit, whatever the other tasks do in
    between; and it ends within the time the calls can take. *)
Theorem user_program_writes fuel u :
  11 * (LAG + 1) < Z.of_nat fuel -> 0 <= me u < 4294967296 -> now u + (250 + 664 * STEP) < HORIZON ->
  exists u', Demo.main fuel u = Ok tt u' /\ out u' = out u ++ program_text (me u) /\
    now u <= now u' <= now u + (250 + 664 * STEP).
Proof.
  intros Hf Hme Hu. pose proof step_pos as Hstep. apply wp_unit. unfold Demo.main. wp_step. eapply wp_mono; [|apply getpid_law].
  intros r u0 (-> & Ho0 & Hm0 & Hn0 & _). rewrite u32_small by done.
  cut (writes (locals (for_ (span 0 25) 0 tt (fun i _ => Demo.iteration fuel (me u) i;; mret (Cont tt)));;
      Demo.putstr (text "USER pid ");; Demo.putdec (me u);; Demo.putstr (text " exiting\n");; sc_exit 0;; mret tt)
      (program_text (me u)) (25 * iteration_time + (STEP + (10 * STEP + (STEP + STEP))))).
  { intros [_ Hw]. unfold iteration_time in Hw. eapply wp_mono; [|apply Hw; lia]. intros [] u' (Ho & _ & Hn).
    rewrite Ho, Ho0. split; [done | lia]. }
  unfold program_text. apply writes_bind; [lia | |].
  - apply writes_for; [done | unfold iteration_time; lia |]. intros i Hi. by apply writes_iteration.
  - intros _. do 2 (apply writes_bind; [lia | first [by apply writes_text | by apply writes_putdec] | intros _]).
    rewrite <- (app_nil_r (chars _)). apply writes_bind; [lia | by apply writes_text | intros _]. apply writes_then.
    split; [done|]. intros u1 _. rewrite app_nil_r. eapply wp_mono; [|apply exit_law]. by intros _ u2 (Ho & Hm & Hn & _).
Qed.
End Demo.

(** * An example: a system whose clock advances at every read *)

Record clocked : Type := mkClocked { written : list Z; number : Z; time : Z; typed : list Z }.
#[export] Instance clocked_calls : Syscalls clocked := {|
  sc_write l := modify (fun u => mkClocked (written u ++ l) (number u) (time u) (typed u));;  mret (lenZ l);
  sc_exit _ := mret 0;
  sc_getpid := gets number;
  sc_yield := mret 0;
  sc_ticks := fun u => Ok (Z.max 0 (time u)) (mkClocked (written u) (number u) (Z.max 0 (time u) + 1) (typed u));
  sc_read_key c := fun u =>
    match typed u with
    | [] => Ok (0, c) u
    | k :: l => Ok (1, k) (mkClocked (written u) (number u) (time u) l)
    end
|}.
Ltac clocked_law := intros; unfold wp, mbind, M_bind, modify, mret, M_ret; cbn -[Z.max]; split_and!; try done; cbn [time]; lia.
#[export, program] Instance clocked_laws : SyscallLaws clocked :=
  {| out := written; me := number; now u := Z.max 0 (time u); lag _ := 0; LAG := 0; STEP := 1 |}.
Next Obligation. intros u. cbv beta. lia. Qed.
Next Obligation. lia. Qed.
Next Obligation. clocked_law. Qed.
Next Obligation. clocked_law. Qed.
Next Obligation. clocked_law. Qed.
Next Obligation. clocked_law. Qed.
Next Obligation. clocked_law. Qed.

Lemma user_program_writes_witness : exists u', Demo.main 20 (mkClocked [] 3 0 []) = Ok tt u' /\ written u' = [] ++ program_text 3.
Proof.
  destruct (user_program_writes 20 (mkClocked [] 3 0 [])) as (u' & Hr & Ho & _); [by vm_compute.. |].
  exists u'. split; [exact Hr | exact Ho].
Defined.
