(* ===== verification/Shell.v ===== *)
(** The shell: [src/kernel/shell/shell.c] and the command table of
    [src/kernel/shell/commands.c]. *)
From Stdlib Require Import ZArith Lia List String.
From stdpp Require Import base tactics numbers list gmap strings option.
From S2P Require Import Prelude Pmm Vmm Heap CString Sched UserTask Bytes Ata Disk Ext2 Vfs NetState Net Fbcon Term Printk Keyboard Readline Text TextBuf Paths Machine Commands FileCommands Nano Vi Acpi Usb.
Open Scope Z_scope.

Definition TERM_BUFF : Z := 255.
Definition MAX_ARGS : Z := 16.
Definition BANNER_LOGO_W : Z := 26.

(** * The words of a line *)

Section Words.
Context {S : Type}.

Definition is_blank (c : Z) : bool := (c =? 32) || (c =? 9).

(** [while (P(c)) cur++] for the character [c] at [cur]. *)
Definition skip_while (p : Z -> bool) (buf : list Z) (cur : Z) : M S Z :=
  locals (while_ (Datatypes.length buf + 1) cur (fun cur =>
    c ← aget buf cur;
    if p c then mret (Cont (cur + 1)) else mret (Brk cur))).

(** The line with a terminator after each word, and where the words start. *)
Definition split_line (buf : list Z) : M S (list Z * list Z) :=
  l ← locals (while_ (Datatypes.length buf + 1) (buf, 0, []) (fun '(buf, cur, argv) =>
    c ← aget buf cur;
    if negb (c =? 0) && (lenZ argv <? MAX_ARGS) then
      cur ← skip_while is_blank buf cur;
      c ← aget buf cur;
      if c =? 0 then mret (Brk (buf, cur, argv))
      else
        let argv := argv ++ [cur] in
        cur ← skip_while (fun c => negb (c =? 0) && negb (is_blank c)) buf cur;
        c ← aget buf cur;
        if negb (c =? 0) then
          buf ← aset buf cur 0;
          mret (Cont (buf, cur + 1, argv))
        else mret (Cont (buf, cur, argv))
    else mret (Brk (buf, cur, argv))));
  let '(buf, _, argv) := l in
  mret (buf, argv).

(** The strings the words point to. *)
Definition words_at (buf : list Z) (argv : list Z) : list (list Z) :=
  map (fun p => drop (Z.to_nat p) buf) argv.
End Words.

Section Shell.
Context {P K D H N R : Type} `{Ports P, KbdHw K, BlockDevice D, DriveTable D, KernelHeap H, NicHw N, Ports R}
  `{Cpu, Locals, KernelLayout, SchedLayout, UserBinary, UsbLayout}.
Notation C := (M (machine P K D H N R)).

Variable poll : M (net N) unit.
Variable fuel : nat.
(** The objects the network commands have on their stack. *)
Variables conn_addr tx_addr : Z.

(** * The banner *)

Definition print_info_label (label : list Z) : C unit :=
  saved ← color;
  len ← strlen label;
  say " %s" [str label];;
  each len 8 (fun _ => say " " []);;
  on_scr (term_setcolor saved);;
  say ": " [].

Definition print_cpu_brand (out : list Z) (out_size : Z) : C (list Z) :=
  out ← aset out 0 0;
  let '(eax, _, _, _) := cpuid 0x80000000 in
  brand ← (if eax <? 0x80000004 then mret (text "unknown") else brand_text);
  out ← strncpy out brand (out_size - 1);
  aset out (out_size - 1) 0.

Definition print_logo_line (line : list Z) : C unit :=
  len ← strlen line;
  saved ← color;
  set_color VGA_COLOR_WHITE VGA_COLOR_BLACK;;
  say "%s" [str line];;
  each len BANNER_LOGO_W (fun _ => say " " []);;
  on_scr (term_setcolor saved).

Definition logo : list (list Z) := map text [
  "  ..............";
  " `/..@@@@@@@@.\.";
  "``@`/......\\@.\";
  "\\\      \`@```";
  " ``@``     .//@//";
  " `\.`\....//.@///";
  "  \`@\@@@@@\@```";
  " ``@`/....\\@.\.";
  " `\@`\     .\\@\";
  "  \`@\`      \\.@``";
  "  `\./`       \...";
  "    ..."]%string.
Definition logo_line (i : nat) : list Z := nth i logo [].

Definition RTJN_VERSION : list Z := text "0.7.18".
Definition RTJN_AUTHOR : list Z := text "retrojan".

(** Two reads of the clock, for the minutes and the seconds. *)
Definition uptime (format : string) : C unit :=
  a ← ticks_now;
  b ← ticks_now;
  say format [Pk32 (a / 18 / 60); Pk32 (b / 18 mod 60)].

Definition print_banner : C unit :=
  p ← gets (fun s => vpm (u_vmm (tasks s)));
  let total_kb := u32 (pm_blocks p * 4096) / 1024 in
  let used_kb := u32 (pm_used p * 4096) / 1024 in
  cpu ← print_cpu_brand (local_array 64) 64;
  print_logo_line (logo_line 0);;
  say "\n" [];;
  print_logo_line (logo_line 1);;
  print_info_label (text "OS");;
  say "rtjn-kernel " [];;
  set_color VGA_COLOR_LIGHT_GREEN VGA_COLOR_BLACK;;
  say "%s\n" [str RTJN_VERSION];;
  set_color VGA_COLOR_LIGHT_GREY VGA_COLOR_BLACK;;
  print_logo_line (logo_line 2);;
  print_info_label (text "Host");;
  say "%s\n" [str RTJN_AUTHOR];;
  print_logo_line (logo_line 3);;
  print_info_label (text "Kernel");;
  say "rtjn-kernel-i686-" [];;
  say "%s\n" [str RTJN_VERSION];;
  print_logo_line (logo_line 4);;
  print_info_label (text "CPU");;
  say "%s\n" [str cpu];;
  print_logo_line (logo_line 5);;
  print_info_label (text "Memory");;
  say "%u" [Pk32 (used_kb / 1024)];;
  say " MiB / " [];;
  say "%u" [Pk32 (total_kb / 1024)];;
  set_color VGA_COLOR_LIGHT_GREY VGA_COLOR_BLACK;;
  say " MiB\n" [];;
  print_logo_line (logo_line 6);;
  print_info_label (text "Uptime");;
  uptime "%d minutes %d seconds\n";;
  each 8 12 (fun i => print_logo_line (logo_line (Z.to_nat i));; say "\n" []);;
  say "\n" [].

Definition cmd_fetch (argc : Z) (argv : list (list Z)) : C Z := print_banner;; mret 0.

(** * The table of commands *)

Record t_command : Type := mkCommand {
  c_name : list Z;
  c_help : list Z;
  c_func : Z -> list (list Z) -> C Z
}.
Definition command (nm hp : string) (f : Z -> list (list Z) -> C Z) : t_command := mkCommand (text nm) (text hp) f.

Definition g_commands : list t_command := [
  command "fetch" "Print the kernel fastfetch-style banner" cmd_fetch;
  command "history" "Print command history" cmd_history;
  command "echo" "Echo the given arguments" cmd_echo;
  command "sleep" "Sleep for N seconds" (cmd_sleep fuel);
  command "calc" "Simple arithmetic calculator" cmd_calc;
  command "hexdump" "Dump memory at an address" cmd_hexdump;
  command "cpuid" "Print CPU info" cmd_cpuid;
  command "gdt" "Dump the Global Descriptor Table" cmd_gdt;
  command "idt" "Dump the Interrupt Descriptor Table" cmd_idt;
  command "irq" "List registered IRQ handlers" cmd_irq;
  command "date" "Read the CMOS real-time clock" cmd_date;
  command "cpu" "Print the CPU brand string" cmd_cpu;
  command "ls" "List a directory" cmd_ls;
  command "cat" "Print a file" (cmd_cat fuel);
  command "cd" "Change working directory" cmd_cd;
  command "mount" "Mount a filesystem" cmd_mount;
  command "pwd" "Print working directory" cmd_pwd;
  command "df" "Show disk usage" cmd_df;
  command "touch" "Create an empty file" cmd_touch;
  command "mkdir" "Create a new directory" cmd_mkdir;
  command "echo_write" "Write text to a file" cmd_echo_write;
  command "rm" "Remove a file (-r for directories)" cmd_rm;
  command "rmdir" "Remove an empty directory" cmd_rmdir;
  command "mv" "Rename or move a file/directory" cmd_mv;
  command "nano" "Simple text editor" (cmd_nano fuel);
  command "vi" "Minimal vi editor" (cmd_vi fuel);
  command "usb" "List USB devices" cmd_usb;
  command "ps" "List running kernel tasks" cmd_ps;
  command "exec" "Spawn a ring3 user task" cmd_exec;
  command "ifconfig" "Show the network interface config" cmd_ifconfig;
  command "netstat" "Show network link/packet state" cmd_netstat;
  command "ping" "ICMP echo (default 4, or -c count)" (cmd_ping poll fuel tx_addr);
  command "curl" "Fetch a URL over the network" (cmd_curl poll fuel conn_addr tx_addr)].
Definition g_command_count : Z := lenZ g_commands.

(** The entry with the name [w], by comparison from the first on. *)
Fixpoint find_command (w : list Z) (cs : list t_command) : C (option t_command) :=
  match cs with
  | [] => mret None
  | c :: cs =>
      d ← strcmp w (c_name c);
      if d =? 0 then mret (Some c) else find_command w cs
  end.

Definition cmd_help (argc : Z) (argv : list (list Z)) : C Z :=
  if 1 <? argc then
    w ← arg argv 1;
    c ← find_command w g_commands;
    match c with
    | Some c => say "%s - %s\n" [str (c_name c); str (c_help c)];; mret 0
    | None => say "help: no such command '%s' (see 'help')\n" [str w];; mret 0
    end
  else
    maxlen ← locals (for_ (span 0 g_command_count) 0 1 (fun i maxlen =>
      l ← strlen (nth (Z.to_nat i) (map c_name g_commands) []);
      mret (Cont (if maxlen <? l then l else maxlen))));
    w ← gets (fun s => term_width (scr (con s)));
    let colwidth := maxlen + 3 in
    let cols := w / colwidth in
    let cols := if cols <? 1 then 1 else cols in
    say "shell commands(%u) - '" [Pk32 g_command_count];;
    set_color VGA_COLOR_LIGHT_CYAN VGA_COLOR_BLACK;;
    say "help <cmd>" [];;
    set_color VGA_COLOR_LIGHT_GREY VGA_COLOR_BLACK;;
    say "' for details:\n\n" [];;
    each 0 g_command_count (fun i =>
      let nm := nth (Z.to_nat i) (map c_name g_commands) [] in
      say "%s" [str nm];;
      l ← strlen nm;
      each 0 (colwidth - l) (fun _ => say " " []);;
      if (i + 1) mod cols =? 0 then say "\n" [] else mret tt);;
    say "\n" [];;
    mret 0.

(** * Dispatch *)

(** Port 0x64 until the controller takes a command; the processor is parked. *)
Definition reboot : C unit :=
  locals (while_ fuel 2 (fun st =>
    if negb (Z.land st 0x02 =? 0) then v ← pio_inb 0x64; mret (Cont v) else mret (Brk st)));;
  pio_outb 0x64 0xFE;;
  stuck Halted.

Definition shutdown : C unit := say "Powering off...\n" [];; acpi_shutdown.

(** [print_physical_memory] with its lines. *)
Definition show_physical_memory : C unit :=
  p ← gets (fun s => vpm (u_vmm (tasks s)));
  let pp := u32 (pm_blocks p / (MAX_MAP_HEIGHT * MAX_MAP_WIDTH) + 1) in
  let pp_char := u32 (pp + (32 - pp mod 32)) in
  say "1 char is equivalent to %d physical memory blocks (%d blocks in total).\n`.` = 0%% | `*` < 50%% | `#` >= 50%%\n"
    [Pk32 pp_char; Pk32 (pm_blocks p)];;
  out ← on_vmm (pm print_physical_memory);
  each 0 (lenZ out) (fun i => on_scr (puts (text (nth (Z.to_nat i) out ""%string)))).

(** The commands that are not in the table; the others go through it. *)
Definition run_command (esp : Z) (argc : Z) (argv : list (list Z)) : C unit :=
  w ← arg argv 0;
  let case (nm : string) (m rest : C unit) : C unit := b ← str_is w nm; if (b : bool) then m else rest in
  case "help" (cmd_help argc argv;; mret tt)
  (case "clear" (cmd_clear 0 [];; mret tt)
  (case "time" (uptime "Up time is %d minutes %d seconds.\n")
  (case "shutdown" shutdown
  (case "reboot" reboot
  (case "stacktrace" (print_stack fuel esp 1)
  (case "map" show_physical_memory
  (case "kmalloc" demo_kmalloc
  (case "vmalloc" demo_vmalloc
  (case "paging" demo_paging
  (case "page_panic" demo_page_panic
  (case "div_panic" demo_div_panic
    (c ← find_command w g_commands;
     match c with
     | Some c => c_func c argc argv;; mret tt
     | None => say "rtjn-kernel: Command not found.\n" []
     end)))))))))))).

Definition dispatch (esp : Z) (buf : list Z) : C unit :=
  r ← split_line buf;
  let '(buf, argv) := r in
  if lenZ argv =? 0 then mret tt else run_command esp (lenZ argv) (words_at buf argv).

(** One line: prompt, edit, record and run. *)
Definition shell_round (esp : Z) : C unit :=
  let buf := replicate (Z.to_nat (TERM_BUFF + 1)) 0 in
  c ← cwd;
  say "%s> " [str c];;
  r ← on_con (readline fuel buf TERM_BUFF);
  let buf := snd r in
  say "\n" [];;
  len ← strlen buf;
  if len =? 0 then mret tt
  else
    on_con (shell_record buf);;
    buf ← aset buf TERM_BUFF 0;
    dispatch esp buf.

(** [shell] never returns: [n] lines of it. *)
Fixpoint shell_lines (esp : Z) (n : nat) : C unit :=
  match n with
  | O => mret tt
  | S n => shell_round esp;; shell_lines esp n
  end.
Definition shell (esp : Z) (n : nat) : C unit := print_banner;; shell_lines esp n.
End Shell.
