(* ===== verification/ShellFacts.v ===== *)
(** Correctness of the shell's line: the words it is split into, and the
    command they run. *)
From Stdlib Require Import ZArith Lia List String.
From stdpp Require Import base tactics numbers list gmap strings option.
From S2P Require Import VfsFacts NetDemo Prelude Pmm Vmm Heap CString Sched UserTask Bytes Buffer Ata Disk Ext2 Vfs NetState Rtl8139 Net Fbcon Term TermFacts Printk PrintkFacts Keyboard Readline Text Words TextBuf Paths Machine MachineDemo SayFacts Commands FileCommands Nano Vi Acpi Usb Shell.
Open Scope Z_scope.

(** * The words of a line *)

Section Split.
Context {S : Type}.
Implicit Types s : S.

(** The array holds the word [w] at [p]. *)
Definition word_at (buf : list Z) (p : Z) (w : list Z) : Prop := 0 <= p <= lenZ buf /\ holds (drop (Z.to_nat p) buf) w.

Lemma wp_skip_while P buf run cur (Q : Z -> S -> Prop) s :
  0 <= cur -> cur + lenZ run < lenZ buf -> (forall i, 0 <= i < lenZ run -> rd buf (cur + i) = rd run i) ->
  Forall (fun c => P c = true) run -> P (rd buf (cur + lenZ run)) = false -> Q (cur + lenZ run) s ->
  wp (skip_while P buf cur) Q s.
Proof.
  intros Hc Hl Hr Hrun Hend HQ. pose proof (lenZ_nonneg run). unfold skip_while. apply wp_locals.
  apply (wp_while (fun k s' => s' = s /\ cur <= k <= cur + lenZ run) (fun k _ => Z.to_nat (cur + lenZ run - k))).
  - split; [done | lia].
  - unfold lenZ in *. lia.
  - intros k s' [-> Hk]. wp_step. apply wp_aget; [lia|]. destruct (decide (k = cur + lenZ run)) as [->|].
    + rewrite Hend. by wp_step.
    + replace k with (cur + (k - cur)) by lia. rewrite Hr by lia.
      pose proof (Forall_rd _ _ (k - cur) Hrun ltac:(lia)) as HP. simpl in HP. rewrite HP. wp_step. split; [|lia]. split; [done | lia].
Qed.

(** A word is not touched by a write behind it. *)
Lemma word_at_wr buf p w i v : word_at buf p w -> p + lenZ w < i < lenZ buf -> word_at (wr buf i v) p w.
Proof.
  intros [Hp (Hl & Hn & Hr & Hz)] Hi. pose proof (lenZ_nonneg w). rewrite lenZ_drop in Hl by lia.
  split; [by rewrite lenZ_wr|]. split; [rewrite lenZ_drop, lenZ_wr by (rewrite lenZ_wr; lia); lia|]. split; [done|]. split.
  - intros j Hj. rewrite rd_drop, rd_wr_ne by lia. rewrite <- Hr, rd_drop by lia. done.
  - rewrite rd_drop, rd_wr_ne by lia. rewrite <- Hz, rd_drop by lia. done.
Qed.

(** What is left of the line at [cur] is still the text. *)
Definition left_at (t buf : list Z) (cur : Z) : Prop :=
  lenZ t < lenZ buf /\ 0 <= cur <= lenZ t /\ (forall i, cur <= i < lenZ t -> rd buf i = rd t i) /\ rd buf (lenZ t) = 0.

Definition is_word (c : Z) : bool := negb (c =? 0) && negb (is_blank c).

Lemma wp_split_line buf t (Q : list Z * list Z -> S -> Prop) s :
  holds buf t ->
  (forall buf' argv, lenZ buf' = lenZ buf -> (bytes buf -> bytes buf') ->
     Forall2 (word_at buf') argv (take (Z.to_nat MAX_ARGS) (words is_blank t)) -> Q (buf', argv) s) ->
  wp (split_line buf) Q s.
Proof.
  intros (Hl & Hn & Hr & Hz) HQ. pose proof (lenZ_nonneg t). unfold split_line. apply wp_bind, wp_locals.
  apply (wp_while (fun '(b, cur, argv) s' => s' = s /\ (lenZ b = lenZ buf /\ (bytes buf -> bytes b)) /\ left_at t b cur /\ exists ws,
      Forall2 (fun p w => word_at b p w /\ (p + lenZ w < cur \/ cur = lenZ t)) argv ws /\ lenZ argv <= MAX_ARGS /\
      take (Z.to_nat MAX_ARGS) (words is_blank t) = ws ++ take (Z.to_nat (MAX_ARGS - lenZ argv)) (words is_blank (drop (Z.to_nat cur) t)))
    (fun '(_, cur, _) _ => Z.to_nat (lenZ t - cur))).
  - split; [done|]. split; [done|]. split; [split; [done|]; split; [lia|]; split; [|done]; intros; apply Hr; lia|].
    exists []. split; [constructor|]. split; [done|]. by rewrite drop_0.
  - unfold lenZ in *. lia.
  - intros [[b cur] argv] s' (-> & [Hlb Hbb] & (Hlt & Hcur & Hrb & Hzb) & ws & Hws & Hla & Hw).
    assert (Hdone : take (Z.to_nat (MAX_ARGS - lenZ argv)) (words is_blank (drop (Z.to_nat cur) t)) = [] -> Q (b, argv) s).
    { intros Hd. rewrite Hd, app_nil_r in Hw. apply HQ; [done | done|]. rewrite Hw. eapply Forall2_impl; [|exact Hws]. by intros p w [? _]. }
    wp_step. apply wp_aget; [lia|]. destruct (decide (cur = lenZ t)) as [->|].
    { rewrite Hzb. simpl. do 2 wp_step. apply Hdone. unfold lenZ. rewrite Nat2Z.id, drop_all.
      change (words is_blank []) with (@nil (list Z)). by rewrite take_nil. }
    rewrite Hrb by lia. pose proof (Forall_rd _ _ cur Hn ltac:(lia)) as Hnz. simpl in Hnz.
    destruct (Z.eqb_spec (rd t cur) 0); [done|]. destruct (Z.ltb_spec (lenZ argv) MAX_ARGS); simpl.
    2:{ do 2 wp_step. apply Hdone. replace (MAX_ARGS - lenZ argv) with 0 by lia. done. }
    (* The blanks. *)
    destruct (split_run (fun c => negb (is_blank c)) (drop (Z.to_nat cur) t)) as (bl & rest & Hd & Hbl & Hend).
    assert (Hlen : lenZ t - cur = lenZ bl + lenZ rest) by (rewrite <- (lenZ_drop t cur), Hd, lenZ_app by lia; done).
    pose proof (lenZ_nonneg bl). pose proof (lenZ_nonneg rest).
    assert (Hblank : Forall (fun c => is_blank c = true) bl).
    { eapply List.Forall_impl; [|exact Hbl]. intros c Hc. by apply negb_false_iff in Hc. }
    assert (Hrd : forall i, 0 <= i < lenZ (bl ++ rest) -> rd b (cur + i) = rd (bl ++ rest) i).
    { intros i Hi. rewrite lenZ_app in Hi. rewrite Hrb, <- Hd, rd_drop by lia. done. }
    rewrite lenZ_app in Hrd.
    rewrite Hd, words_skip in Hw by done.
    assert (Hdr : drop (Z.to_nat (cur + lenZ bl)) t = rest).
    { replace (Z.to_nat (cur + lenZ bl)) with (Z.to_nat cur + Datatypes.length bl)%nat by (unfold lenZ; lia).
      by rewrite <- drop_drop, Hd, drop_app_length. }
    assert (Hat : rd b (cur + lenZ bl) = match rest with [] => 0 | x :: _ => x end).
    { destruct rest as [|x rest]; [change (lenZ []) with 0 in *; by replace (cur + lenZ bl) with (lenZ t) by lia|].
      assert (lenZ (x :: rest) = 1 + lenZ rest) by (unfold lenZ; simpl; lia). pose proof (lenZ_nonneg rest).
      rewrite Hrd, rd_app_r, Z.sub_diag by lia. done. }
    wp_step. apply (wp_skip_while is_blank b bl); try done; try lia.
    { intros i Hi. rewrite Hrd by lia. by apply rd_app_l. }
    { rewrite Hat. destruct rest; [done|]. by apply negb_true_iff in Hend. }
    wp_step. apply wp_aget; [lia|]. rewrite Hat. destruct rest as [|x rest'] eqn:Erest.
    { simpl. wp_step. cbv zeta. wp_step. apply HQ; [done | done|]. change (words is_blank []) with (@nil (list Z)) in Hw.
      rewrite take_nil, app_nil_r in Hw. rewrite Hw. eapply Forall2_impl; [|exact Hws]. by intros p w [? _]. }
    (* The word. *)
    destruct (split_run is_blank (x :: rest')) as (wd & rest2 & Hwd & Hwsep & Hend2).
    assert (Hne : wd <> []) by (intros ->; simpl in Hwd; subst rest2; by rewrite Hend2 in Hend).
    rewrite Hwd, words_run, decide_False in Hw by done.
    assert (Hlw : lenZ (x :: rest') = lenZ wd + lenZ rest2) by (by rewrite Hwd, lenZ_app).
    pose proof (lenZ_nonneg rest2). assert (0 < lenZ wd) by (destruct wd; [done | unfold lenZ; simpl; lia]).
    assert (Hnx : x <> 0).
    { intros ->. pose proof (Forall_drop _ (Z.to_nat (cur + lenZ bl)) _ Hn) as Hnd. rewrite Hdr in Hnd. by apply Forall_inv in Hnd. }
    assert (Hnw : nonzeros wd).
    { pose proof (Forall_drop _ (Z.to_nat (cur + lenZ bl)) _ Hn) as Hnd. rewrite Hdr, Hwd in Hnd. by apply Forall_app in Hnd as [Hnd _]. }
    assert (Hrw : forall i, 0 <= i < lenZ wd -> rd b (cur + lenZ bl + i) = rd wd i).
    { intros i Hi. rewrite <- Z.add_assoc, Hrd, rd_app_r by lia. rewrite Hwd, rd_app_l by lia. f_equal. lia. }
    destruct (Z.eqb_spec x 0); [done|]. cbv zeta.
    set (cur2 := cur + lenZ bl + lenZ wd).
    assert (Hat2 : rd b cur2 = match rest2 with [] => 0 | y :: _ => y end).
    { unfold cur2. destruct rest2 as [|y rest2]; [change (lenZ []) with 0 in *; by replace (cur + lenZ bl + lenZ wd) with (lenZ t) by lia|].
      assert (lenZ (y :: rest2) = 1 + lenZ rest2) by (unfold lenZ; simpl; lia). pose proof (lenZ_nonneg rest2).
      rewrite <- Z.add_assoc, Hrd, rd_app_r by lia. rewrite Hwd, rd_app_r by lia.
      by replace (lenZ bl + lenZ wd - lenZ bl - lenZ wd) with 0 by lia. }
    assert (Hword : forall b', lenZ b' = lenZ b -> (forall i, 0 <= i < lenZ wd -> rd b' (cur + lenZ bl + i) = rd wd i) ->
      rd b' cur2 = 0 -> word_at b' (cur + lenZ bl) wd).
    { intros b' Hlb' Hrb' Hz'. split; [lia|]. split; [rewrite lenZ_drop; lia|]. split; [done|].
      split; [intros i Hi; rewrite rd_drop by lia; by apply Hrb' | by rewrite rd_drop by lia]. }
    wp_step. apply (wp_skip_while _ b wd); [lia | lia | done | | |].
    { apply List.Forall_forall. intros c Hc. pose proof (proj1 (List.Forall_forall _ _) Hnw c Hc) as Hc0.
      rewrite (proj1 (List.Forall_forall _ _) Hwsep c Hc). by destruct (Z.eqb_spec c 0). }
    { fold cur2. rewrite Hat2. destruct rest2 as [|y rest2]; [done|]. rewrite Hend2. apply andb_false_r. }
    fold cur2. wp_step. apply wp_aget; [lia|]. rewrite Hat2.
    assert (Hla' : lenZ (argv ++ [cur + lenZ bl]) = lenZ argv + 1) by (rewrite lenZ_app; done).
    assert (Hw' : take (Z.to_nat MAX_ARGS) (words is_blank t) = (ws ++ [wd]) ++ take (Z.to_nat (MAX_ARGS - lenZ (argv ++ [cur + lenZ bl])))
        (words is_blank match rest2 with [] => [] | _ :: r => r end)).
    { rewrite Hw, Hla', <- app_assoc. f_equal. replace (Z.to_nat (MAX_ARGS - lenZ argv)) with (Datatypes.S (Z.to_nat (MAX_ARGS - (lenZ argv + 1)))) by lia.
      done. }
    assert (Hdr2 : drop (Z.to_nat cur2) t = rest2).
    { unfold cur2. replace (Z.to_nat (cur + lenZ bl + lenZ wd)) with (Z.to_nat (cur + lenZ bl) + Datatypes.length wd)%nat by (unfold lenZ; lia).
      by rewrite <- drop_drop, Hdr, Hwd, drop_app_length. }
    destruct rest2 as [|y rest2].
    + simpl. wp_step. change (lenZ []) with 0 in *. split; [|unfold cur2; lia]. split; [done|]. split; [done|].
      replace cur2 with (lenZ t) in * by (unfold cur2; lia).
      split; [split; [done|]; split; [lia|]; split; [lia | done]|]. exists (ws ++ [wd]). split; [|split; [lia | by rewrite Hdr2]].
      apply Forall2_app; [eapply Forall2_impl; [|exact Hws]; intros p w [? _]; by split; [|right]|].
      constructor; [|constructor]. split; [by apply Hword | by right].
    + assert (lenZ (y :: rest2) = 1 + lenZ rest2) by (unfold lenZ; simpl; lia). pose proof (lenZ_nonneg rest2).
      assert (Hy : y <> 0).
      { intros ->. pose proof (Forall_drop _ (Z.to_nat cur2) _ Hn) as Hnd. rewrite Hdr2 in Hnd. by apply Forall_inv in Hnd. }
      destruct (Z.eqb_spec y 0); [done|]. simpl. wp_step. apply wp_aset; [unfold cur2; lia|]. wp_step.
      split; [|unfold cur2; lia]. split; [done|]. split; [split; [by rewrite lenZ_wr | intros; apply bytes_wr; [by apply Hbb | lia]]|].
      split; [split; [by rewrite lenZ_wr|]; split; [unfold cur2; lia|]; split; intros; rewrite rd_wr_ne by (unfold cur2 in *; lia); [apply Hrb; unfold cur2 in *; lia | done]|].
      exists (ws ++ [wd]). split; [|split; [lia|]].
      * apply Forall2_app; [|constructor; [|constructor]].
        -- eapply Forall2_impl; [|exact Hws]. intros p w [Hpw Hor]. split; [apply word_at_wr; [done | unfold cur2; lia] | left; unfold cur2; lia].
        -- split; [|left; unfold cur2; lia]. apply Hword; [by rewrite lenZ_wr | | apply rd_wr_eq; unfold cur2; lia].
           intros i Hi. rewrite rd_wr_ne by (unfold cur2; lia). by apply Hrw.
      * replace (drop (Z.to_nat (cur2 + 1)) t) with rest2; [done|].
        replace (Z.to_nat (cur2 + 1)) with (Z.to_nat cur2 + 1)%nat by (unfold cur2; lia). by rewrite <- drop_drop, Hdr2.
Qed.
End Split.

(** * The commands *)

Section Dispatch.
Context {P K D H N R : Type} `{Ports P, KbdHw K, BlockDevice D, DriveTable D, KernelHeap H, NicHw N, Ports R}
  `{Cpu, Locals, KernelLayout, SchedLayout, UserBinary, UsbLayout}.
Notation Mach := (machine P K D H N R).
Notation C := (M Mach).
Implicit Types s : Mach.

Variable poll : M (net N) unit.
Variable fuel : nat.
Variables conn_addr tx_addr : Z.

Notation g_commands := (g_commands poll fuel conn_addr tx_addr : list (@t_command P K D H N R)).

(** Every command with its name, in the order of comparison. *)
Definition entry : Type := list Z * (Z -> list (list Z) -> C unit).
Definition builtins (esp : Z) : list entry := [
  (text "help", fun argc argv => cmd_help poll fuel conn_addr tx_addr argc argv;; mret tt);
  (text "clear", fun _ _ => cmd_clear 0 [];; mret tt);
  (text "time", fun _ _ => uptime "Up time is %d minutes %d seconds.\n");
  (text "shutdown", fun _ _ => shutdown);
  (text "reboot", fun _ _ => reboot fuel);
  (text "stacktrace", fun _ _ => print_stack fuel esp 1);
  (text "map", fun _ _ => show_physical_memory);
  (text "kmalloc", fun _ _ => demo_kmalloc);
  (text "vmalloc", fun _ _ => demo_vmalloc);
  (text "paging", fun _ _ => demo_paging);
  (text "page_panic", fun _ _ => demo_page_panic);
  (text "div_panic", fun _ _ => demo_div_panic)]%string.
Definition commands (esp : Z) : list entry :=
  builtins esp ++ map (fun c => (c_name c, fun argc argv => c_func c argc argv;; mret tt)) g_commands.

Definition lookup_command (w : list Z) (es : list entry) : option entry := find (fun e => bool_decide (w = cstr (fst e))) es.

Lemma strcmp_runs l1 t1 l2 t2 s : holds l1 t1 -> holds l2 t2 -> bytes l1 -> bytes l2 ->
  exists v, strcmp l1 l2 s = Ok v s /\ (v = 0 <-> t1 = t2).
Proof.
  intros Hh1 Hh2 Hb1 Hb2. assert (Hw : wp (strcmp l1 l2) (fun v s' => s' = s /\ (v = 0 <-> t1 = t2)) s) by (by eapply wp_strcmp_holds).
  apply wp_ok in Hw as (v & s' & Heq & -> & Hv). eauto.
Qed.

Definition name_array (l : list Z) : Prop := terminated l /\ bytes l.

Lemma name_holds l : terminated l -> holds l (cstr l).
Proof.
  intros Ht. split; [exact Ht|]. split; [apply nonzeros_cstr|]. split; [intros i Hi; by rewrite rd_cstr | by apply cstr_end].
Qed.

Lemma str_is_runs l w nm s : holds l w -> bytes l -> name_array (text nm) ->
  str_is l nm s = Ok (bool_decide (w = cstr (text nm))) s.
Proof.
  intros Hl Hb [Ht Hbt]. destruct (strcmp_runs l w (text nm) _ s Hl (name_holds _ Ht) Hb Hbt) as (v & Hv & Hiff).
  unfold str_is. rewrite (bind_ok _ _ _ _ _ Hv). change (Ok (v =? 0) s = Ok (bool_decide (w = cstr (text nm))) s). f_equal.
  destruct (Z.eqb_spec v 0); symmetry; [apply bool_decide_true | apply bool_decide_false]; tauto.
Qed.

Lemma find_command_runs l w (cs : list (@t_command P K D H N R)) s : holds l w -> bytes l -> Forall (fun c => name_array (c_name c)) cs ->
  find_command l cs s = Ok (find (fun c => bool_decide (w = cstr (c_name c))) cs) s.
Proof.
  intros Hl Hb Hcs. induction Hcs as [|c cs [Ht Hbt] _ IH]; [done|]. cbn [find_command find].
  destruct (strcmp_runs l w (c_name c) _ s Hl (name_holds _ Ht) Hb Hbt) as (v & Hv & Hiff). rewrite (bind_ok _ _ _ _ _ Hv).
  destruct (Z.eqb_spec v 0).
  - by rewrite bool_decide_true by tauto.
  - by rewrite bool_decide_false by tauto.
Qed.

Lemma name_check l : (lenZ (cstr l) <? lenZ l) && forallb (fun v => (0 <=? v) && (v <? 256)) l = true -> name_array l.
Proof. intros Hc. apply andb_true_iff in Hc as [Ht Hb]. split; [by apply Z.ltb_lt | by apply bytes_by_compute]. Qed.

Lemma g_commands_named : Forall (fun c => name_array (c_name c)) g_commands.
Proof.
  apply List.Forall_map with (f := c_name). apply List.Forall_forall. intros l Hl. apply name_check. revert l Hl. apply forallb_forall.
  reflexivity.
Qed.

(** One comparison of the chain. *)
Lemma case_runs l w nm (m rest : C unit) s : holds l w -> bytes l -> name_array (text nm) ->
  (b ← str_is l nm; if (b : bool) then m else rest) s = if bool_decide (w = cstr (text nm)) then m s else rest s.
Proof. intros Hl Hb Hn. rewrite (bind_ok _ _ _ _ _ (str_is_runs l w nm s Hl Hb Hn)). by destruct (bool_decide _). Qed.

Lemma run_command_looks_up esp argv l w s : holds l w -> bytes l ->
  run_command poll fuel conn_addr tx_addr esp (lenZ (l :: argv)) (l :: argv) s =
  match lookup_command w (commands esp) with
  | Some (_, f) => f (lenZ (l :: argv)) (l :: argv) s
  | None => say "rtjn-kernel: Command not found.\n" [] s
  end.
Proof.
  intros Hl Hb. unfold run_command.
  assert (Harg : arg (l :: argv) 0 s = Ok l s) by done.
  rewrite (bind_ok _ _ _ _ _ Harg). cbv zeta. unfold lookup_command, commands, builtins. cbn [app find fst].
  repeat (rewrite (case_runs l w) by (done || by apply name_check); destruct (bool_decide _); [done|]).
  rewrite (bind_ok _ _ _ _ _ (find_command_runs l w g_commands s Hl Hb g_commands_named)).
  generalize g_commands. intros cs. induction cs as [|c cs IH]; [done|]. cbn [map find fst].
  destruct (bool_decide (w = cstr (c_name c))); [done | exact IH].
Qed.

(** C17: The shell runs the command a line names.  The line is split into its
    first sixteen words, the runs of characters other than blanks and tabs; a
    line without words does nothing; otherwise the command whose name is the
    first word - the first in the order of the built-in commands and the table -
    runs with the number of words and the words, and a name that is no command
    prints a message. *)
Theorem dispatch_looks_up esp buf t s : holds buf t -> bytes buf ->
  exists argv, Forall2 holds argv (take (Z.to_nat MAX_ARGS) (words is_blank t)) /\
    dispatch poll fuel conn_addr tx_addr esp buf s =
    match words is_blank t with
    | [] => Ok tt s
    | w :: _ =>
        match lookup_command w (commands esp) with
        | Some (_, f) => f (lenZ argv) argv s
        | None => say "rtjn-kernel: Command not found.\n" [] s
        end
    end.
Proof.
  intros Hb Hbb.
  assert (Hw : wp (split_line buf) (fun '(buf', argv) s' => s' = s /\ bytes buf' /\
    Forall2 (word_at buf') argv (take (Z.to_nat MAX_ARGS) (words is_blank t))) s).
  { apply (wp_split_line buf t); [done|]. intros buf' argv _ Hb' Hws. split_and!; [done | by apply Hb' | done]. }
  apply wp_ok in Hw as ([buf' argv] & s' & Heq & -> & Hb' & Hws). exists (words_at buf' argv).
  assert (Hargs : Forall2 holds (words_at buf' argv) (take (Z.to_nat MAX_ARGS) (words is_blank t))).
  { unfold words_at. apply Forall2_fmap_l. eapply Forall2_impl; [|exact Hws]. by intros p w [_ Hp]. }
  split; [exact Hargs|]. unfold dispatch. rewrite (bind_ok _ _ _ _ _ Heq).
  assert (Hlen : lenZ argv = lenZ (words_at buf' argv)) by (unfold words_at, lenZ; by rewrite length_map).
  destruct (words is_blank t) as [|w ws].
  - rewrite take_nil in Hargs. apply Forall2_nil_inv_r in Hargs. rewrite Hlen, Hargs. done.
  - change (take (Z.to_nat MAX_ARGS) (w :: ws)) with (w :: take 15 ws) in *. apply Forall2_cons_inv_r in Hws as (p & ps & [Hp Hpw] & Hps & ->).
    destruct (Z.eqb_spec (lenZ (p :: ps)) 0) as [He|]; [unfold lenZ in He; simpl in He; lia|]. rewrite Hlen.
    apply (run_command_looks_up esp (words_at buf' ps) (drop (Z.to_nat p) buf') w); [done|].
    intros j. unfold rd. rewrite nth_lookup, lookup_drop, <- nth_lookup. specialize (Hb' (p + Z.of_nat (Z.to_nat j))). unfold rd in Hb'.
    by replace (Z.to_nat (p + Z.of_nat (Z.to_nat j))) with (Z.to_nat p + Z.to_nat j)%nat in Hb' by lia.
Qed.
End Dispatch.

(** * Output *)

Section Output.
Context {P K D H N R : Type} `{Ports P}.
Notation Mach := (machine P K D H N R).
Implicit Types s : Mach.

(** What [echo] prints. *)
Definition echo_text (ws : list (list Z)) : list Z := match ws with [] => [] | w :: l => w ++ concat (map (cons 32) l) end.

(** [echo] writes its words on the screen, one space between two, and a new
    line; nothing else of the machine changes. *)
Theorem cmd_echo_prints W Ht t t' name argv ws s :
  Forall2 holds argv ws -> Forall (fun w => lenZ w < PRINTK_BUFF_LEN) ws ->
  shows W Ht t (screen_of s) -> tty_write W Ht (t_color (screen_of s)) (echo_text ws ++ [10]) t = Some t' ->
  exists v, cmd_echo (lenZ (name :: argv)) (name :: argv) s = Ok 0 (with_screen v s) /\ shows W Ht t' v.
Proof.
  intros Hargs Hlen Hs Hw.
  enough (Hwp : wp (cmd_echo (lenZ (name :: argv)) (name :: argv)) (fun r s' => r = 0 /\ exists v, s' = with_screen v s /\ shows W Ht t' v) s).
  { apply wp_ok in Hwp as (r & s' & Heq & -> & v & -> & Hv). eauto. }
  pose proof (Forall2_length Hargs) as Hl. assert (Hla : lenZ (name :: argv) = lenZ ws + 1) by (unfold lenZ; simpl; lia).
  rewrite tty_write_app in Hw. destruct (tty_write W Ht (t_color (screen_of s)) (echo_text ws) t) as [t2|] eqn:Hw2; [|done]. simpl in Hw.
  pose proof (lenZ_nonneg ws). unfold cmd_echo. wp_step. unfold each. apply wp_locals. rewrite Hla.
  set (rest := fun i : Z => if i =? 1 then echo_text ws else concat (map (cons 32) (drop (Z.to_nat (i - 1)) ws))).
  apply (wp_for (fun i _ s' => exists v ti, s' = with_screen v s /\ shows W Ht ti v /\ kept (screen_of s) v /\
    tty_write W Ht (t_color (screen_of s)) (rest i) ti = Some t2)).
  - exists (screen_of s), t. rewrite with_screen_id. split_and!; try done.
  - intros i [] s' Hi (v & ti & -> & Hv & Hk & Hr). unfold span in Hi.
    assert (Hin : exists l w, (name :: argv) !! Z.to_nat i = Some l /\ holds l w /\ lenZ w < PRINTK_BUFF_LEN /\
      rest i = (if 1 <? i then [32] else []) ++ w ++ rest (i + 1)).
    { destruct (lookup_lt_is_Some_2 argv (Z.to_nat (i - 1))) as [l Hal]; [unfold lenZ in *; lia|].
      destruct (Forall2_lookup_l _ _ _ _ _ Hargs Hal) as (w & Hwl & Hlw). exists l, w.
      pose proof (Forall_lookup_1 _ _ _ _ Hlen Hwl) as Hlt. simpl in Hlt.
      split; [replace (Z.to_nat i) with (S (Z.to_nat (i - 1))) by lia; done|]. split; [done|]. split; [done|].
      unfold rest. destruct (Z.eqb_spec (i + 1) 1); [lia|]. replace (i + 1 - 1) with i by lia.
      replace (Z.to_nat i) with (S (Z.to_nat (i - 1))) by lia. destruct (Z.eqb_spec i 1) as [->|].
      - destruct ws as [|w0 ws]; [done|]. injection Hwl as ->. done.
      - destruct (Z.ltb_spec 1 i); [|lia]. by rewrite (drop_S _ _ _ Hwl). }
    destruct Hin as (l & w & Hal & Hlw & Hlt & Hrest). destruct (holds_cstr _ _ Hlw) as [Hcl Htl].
    rewrite Hrest, tty_write_app in Hr. destruct Hk as [Hkc Hkl].
    destruct (tty_write W Ht (t_color (screen_of s)) (if 1 <? i then [32] else []) ti) as [t3|] eqn:Hw3; [|done]. simpl in Hr.
    rewrite tty_write_app in Hr. destruct (tty_write W Ht (t_color (screen_of s)) w t3) as [t4|] eqn:Hw4; [|done]. simpl in Hr.
    assert (Hword : forall v3, shows W Ht t3 v3 -> kept (screen_of s) v3 ->
      wp (w ← arg (name :: argv) i; say "%s" [str w]) (fun _ s' => exists v4, s' = with_screen v4 s /\ shows W Ht t4 v4 /\ kept (screen_of s) v4)
        (with_screen v3 s)).
    { intros v3 Hv3 Hk3. wp_step. unfold arg. wp_step. apply wp_guard; [unfold lenZ in *; simpl; lia|]. wp_step.
      rewrite (nth_lookup_Some _ _ _ _ Hal). apply (wp_say W Ht t3 t4 _ _ w); try done.
      - constructor; [done | constructor].
      - simpl. by rewrite Hcl, app_nil_r.
      - cbn. by rewrite (proj1 Hk3).
      - intros v4 Hv4 Hk4. exists v4. split; [done|]. split; [done|]. by eapply kept_trans. }
    wp_step. apply wp_bind. eapply (wp_mono _ (fun _ s' => exists v3, s' = with_screen v3 s /\ shows W Ht t3 v3 /\ kept (screen_of s) v3)).
    + intros [] s' (v3 & -> & Hv3 & Hk3). eapply wp_mono; [|by apply Hword]. intros [] s' (v4 & -> & Hv4 & Hk4). wp_step.
      exists v4, t4. by split_and!.
    + destruct (Z.ltb_spec 1 i).
      * apply (wp_say W Ht ti t3 _ _ [32]); try done.
        -- by cbn; rewrite Hkc.
        -- intros v3 Hv3 Hk3. exists v3. split; [done|]. split; [done|]. by eapply kept_trans.
      * wp_step. exists v. simpl in Hw3. injection Hw3 as <-. by split_and!.
  - intros [] s' (v & ti & -> & Hv & Hk & Hr). unfold span in Hr.
    assert (Hrest : rest (1 + Z.of_nat (Z.to_nat (lenZ ws + 1 - 1))) = []).
    { unfold rest. replace (1 + Z.of_nat (Z.to_nat (lenZ ws + 1 - 1))) with (lenZ ws + 1) by lia.
      destruct (Z.eqb_spec (lenZ ws + 1) 1); [destruct ws; [done | unfold lenZ in *; simpl in *; lia]|].
      replace (Z.to_nat (lenZ ws + 1 - 1)) with (Datatypes.length ws) by (unfold lenZ; lia). by rewrite drop_all. }
    rewrite Hrest in Hr. injection Hr as ->. wp_step. apply (wp_say W Ht t2 t' _ _ [10]); try done.
    + cbn. by rewrite (proj1 Hk).
    + intros v2 Hv2 Hk2. wp_step. split; [done|]. by exists v2.
Qed.
End Output.

(** * Examples *)

#[local] Instance no_drives : DriveTable ramdisk := fun _ => [].
#[local] Instance demo_cpu : Cpu.
Proof. refine {| cpuid := fun _ => (0, 0, 0, 0); gdtr := (0, 0); idtr := (0, 0); frame_pointer := 0; peek := fun _ => 0 |}. done. Defined.
#[local] Instance demo_usb_layout : UsbLayout.
Proof. refine {| ubuf := 0x300000; frame_list_addr := 0x310000; setup_phys_addr := 0x311000 |}; by vm_compute. Defined.

(** "  frob x" *)
Definition unknown_line : list Z := [32; 32; 102; 114; 111; 98; 32; 120].

Lemma dispatch_looks_up_witness :
  dispatch (mret tt) 0 0x1000 0x2000 0 (unknown_line ++ [0]) demo_machine =
  say "rtjn-kernel: Command not found.\n" [] demo_machine.
Proof.
  assert (Hb : holds (unknown_line ++ [0]) unknown_line) by (apply holds_of_app; by repeat constructor).
  assert (Hbb : bytes (unknown_line ++ [0])) by (by apply bytes_by_compute).
  assert (Hw : words is_blank unknown_line = [[102; 114; 111; 98]; [120]]) by done.
  assert (Hl : lookup_command [102; 114; 111; 98]
    (commands (P := unit) (K := unit) (D := ramdisk) (H := Z) (N := unit) (R := unit) (mret tt) 0 0x1000 0x2000 0) = None)
    by reflexivity.
  destruct (dispatch_looks_up (mret tt) 0 0x1000 0x2000 0 _ unknown_line demo_machine Hb Hbb) as (argv & _ & Hd).
  rewrite Hw, Hl in Hd. exact Hd.
Defined.

(** "echo ab c" *)
Lemma cmd_echo_prints_witness : exists s0 v t',
  term_init (screen_of demo_machine) = Ok tt s0 /\
  cmd_echo 3 [[101; 99; 104; 111; 0]; [97; 98; 0]; [99; 0]] (with_screen s0 demo_machine) = Ok 0 (with_screen v (with_screen s0 demo_machine)) /\
  shows VGA_WIDTH VGA_HEIGHT t' v /\ page t' 0 0 = vga_entry 97 7 /\ page t' 0 1 = vga_entry 98 7 /\ page t' 0 2 = vga_entry 32 7 /\
  page t' 0 3 = vga_entry 99 7 /\ row t' = 1 /\ col t' = 0.
Proof.
  destruct demo_screen as (s0 & Hinit & Hs & Hc & _).
  pose (t' := default (tty_blank 7) (tty_write VGA_WIDTH VGA_HEIGHT 7 (echo_text [[97; 98]; [99]] ++ [10]) (tty_blank 7))).
  assert (Hargs : Forall2 holds [[97; 98; 0]; [99; 0]] [[97; 98]; [99]]).
  { constructor; [|constructor; [|constructor]]; (apply (holds_of_app [97; 98] []) || apply (holds_of_app [99] [])); by repeat constructor. }
  assert (Hlen : Forall (fun w => lenZ w < PRINTK_BUFF_LEN) [[97; 98]; [99]]) by (by repeat constructor).
  assert (Hw : tty_write VGA_WIDTH VGA_HEIGHT (t_color (screen_of (with_screen s0 demo_machine))) (echo_text [[97; 98]; [99]] ++ [10]) (tty_blank 7)
    = Some t') by (change (t_color (screen_of (with_screen s0 demo_machine))) with (t_color s0); rewrite Hc; reflexivity).
  destruct (cmd_echo_prints VGA_WIDTH VGA_HEIGHT (tty_blank 7) t' [101; 99; 104; 111; 0] _ _ (with_screen s0 demo_machine) Hargs Hlen Hs Hw)
    as (v & He & Hv).
  exists s0, v, t'. split; [exact Hinit|]. split; [exact He|]. split; [exact Hv|]. split_and!; reflexivity.
Defined.
