(* ===== verification/UserShellFacts.v ===== *)
(** The shell of ring 3: its line editor against a reference editor, the words
    of a line, the history, and a whole round from the keys to the screen. *)
From Stdlib Require Import ZArith Lia List String.
From stdpp Require Import base tactics numbers list gmap strings option.
From S2P Require Import Prelude CString Bytes Buffer Text Words Shell ShellFacts UserProgram UserFacts.
Open Scope Z_scope.

(** The laws of the console calls: what is shown, and the keys that wait. *)
Class ConsoleLaws (U : Type) `{Syscalls U} := {
  shown : U -> list Z;
  keys : U -> list Z;
  show_law : forall l u, wp (sc_write l) (fun _ u' => shown u' = shown u ++ l /\ keys u' = keys u) u;
  key_law : forall c u k ks, keys u = k :: ks ->
    wp (sc_read_key c) (fun r u' => r = (1, k) /\ shown u' = shown u /\ keys u' = ks) u
}.

(** ** The reference editor *)

(** The line and what has been shown for it after one more key. *)
Definition edit1 (st : list Z * list Z) (k : Z) : list Z * list Z :=
  let '(t, o) := st in
  if k =? 8 then (if lenZ t =? 0 then (t, o) else (take (Z.to_nat (lenZ t - 1)) t, o ++ [8; 32; 8]))
  else if (0x20 <=? k) && (k <? 0x7F) && (lenZ t <? 254) then (t ++ [k], o ++ [k])
  else (t, o).
Definition edited (ks : list Z) : list Z * list Z := fold_left edit1 ks ([], []).

(** A key that is neither Enter nor one of the history keys. *)
Definition plain (k : Z) : Prop := 0 <= k < 256 /\ k <> 10 /\ k <> 0x10 /\ k <> 0x12.
Definition printable (t : list Z) : Prop := Forall (fun c => 32 <= c < 127) t.

Lemma edit1_line t o k : printable t -> lenZ t <= 254 -> printable (fst (edit1 (t, o) k)) /\ lenZ (fst (edit1 (t, o) k)) <= 254.
Proof.
  intros Ht Hl. unfold edit1. destruct (k =? 8).
  - destruct (Z.eqb_spec (lenZ t) 0); [done|]. cbn [fst]. pose proof (lenZ_nonneg t). rewrite lenZ_take by lia.
    split; [by apply Forall_take | lia].
  - destruct ((32 <=? k) && (k <? 127) && (lenZ t <? 254)) eqn:Hk; [|done]. bprop. cbn [fst]. rewrite lenZ_app.
    split; [apply Forall_app; split; [done | constructor; [lia | constructor]] | unfold lenZ in *; simpl; lia].
Qed.

Section Facts.
Context {U : Type} `{ConsoleLaws U} `{Locals}.
Implicit Types s : ushell U.
Variable fuel : nat.

(** ** Lifting *)

Lemma wp_call {A} (m : M U A) (Q : A -> ushell U -> Prop) s :
  wp m (fun a u => Q a (Ushell.set_sys u s)) (sys s) -> wp (Ushell.call m) Q s.
Proof. intros Hm. unfold Ushell.call. wp_step. exact Hm. Qed.

(** [s'] has shown [w] more than [s], with the keys and the history the same. *)
Definition prints s (w : list Z) s' : Prop :=
  shown (sys s') = shown (sys s) ++ w /\ keys (sys s') = keys (sys s) /\
  g_history s' = g_history s /\ g_hist_count s' = g_hist_count s /\ g_hist_pos s' = g_hist_pos s.

Lemma prints_nil s : prints s [] s.
Proof. split_and!; [by rewrite app_nil_r | done..]. Qed.
Lemma prints_app s v s1 w s2 : prints s v s1 -> prints s1 w s2 -> prints s (v ++ w) s2.
Proof. intros (A & B & C & D & E) (A' & B' & C' & D' & E'). split_and!; try congruence. by rewrite A', A, app_assoc. Qed.

Lemma wp_write l (Q : Z -> ushell U -> Prop) s : (forall r s', prints s l s' -> Q r s') -> wp (Ushell.call (sc_write l)) Q s.
Proof.
  intros HQ. apply wp_call. eapply wp_mono; [|apply show_law]. intros r u [Hs Hk]. apply HQ. by split_and!.
Qed.
Lemma wp_putch c (Q : unit -> ushell U -> Prop) s : (forall s', prints s [c] s' -> Q tt s') -> wp (Ushell.putch c) Q s.
Proof. intros HQ. unfold Ushell.putch. wp_step. apply wp_write. intros r s' Hp. wp_step. by apply HQ. Qed.

Lemma wp_uputstr t (Q : unit -> ushell U -> Prop) s :
  terminated t -> (forall s', prints s (cstr t) s' -> Q tt s') -> wp (Ushell.putstr t) Q s.
Proof.
  intros Ht HQ. pose proof (lenZ_nonneg (cstr t)). unfold Ushell.putstr. apply wp_call. unfold Demo.putstr. wp_step. apply wp_locals.
  apply (wp_while (fun k u' => u' = sys s /\ 0 <= k <= lenZ (cstr t)) (fun k _ => Z.to_nat (lenZ (cstr t) - k))).
  - split; [done | lia].
  - unfold terminated, lenZ in *. lia.
  - intros k u' [-> Hk]. unfold terminated in Ht. wp_step. apply wp_aget; [lia|]. destruct (decide (k = lenZ (cstr t))) as [->|].
    + assert (Hz : rd t (lenZ (cstr t)) = 0) by (by apply cstr_end). rewrite Hz. cbn [negb Z.eqb]. wp_step.
      rewrite <- cstr_take. wp_step. eapply wp_mono; [|apply show_law]. intros r u [Hs Hk']. wp_step. apply HQ. by split_and!.
    + assert (Hnz : rd t k <> 0) by (apply cstr_nonzero; lia). destruct (Z.eqb_spec (rd t k) 0); [done|]. cbn [negb]. wp_step.
      split; [split; [done | lia] | lia].
Qed.

(** ** The line editor *)

(** The array begins with the line. *)
Definition begins (buf t : list Z) : Prop := lenZ buf = 256 /\ forall j, 0 <= j < lenZ t -> rd buf j = rd t j.

(** The move of the one byte at the end of the line. *)
Lemma wp_umemmove1 buf dst src (Q : list Z -> ushell U -> Prop) s :
  0 <= src < lenZ buf -> 0 <= dst < lenZ buf -> Q (wr buf dst (rd buf src)) s -> wp (Ushell.umemmove buf dst src 1) Q s.
Proof.
  intros Hs Hd HQ. unfold Ushell.umemmove, Ushell.umemcpy. change (span 0 1) with 1%nat.
  destruct (Z.ltb_spec dst src); apply wp_locals; cbn [for_]; wp_step; wp_step;
    (apply wp_aget; [lia|]; wp_step; apply wp_aset; [lia|]; wp_step; wp_step).
  - by rewrite !Z.add_0_r.
  - by replace (dst + 1 - 1 - 0) with dst by lia; replace (src + 1 - 1 - 0) with src by lia.
Qed.

Lemma wp_plain_key buf t o k (Q : ctl (list Z * Z * Z) Z * list Z -> ushell U -> Prop) s :
  begins buf t -> printable t -> lenZ t <= 254 -> plain k ->
  (forall buf' w s', begins buf' (fst (edit1 (t, o) k)) -> prints s w s' -> snd (edit1 (t, o) k) = o ++ w ->
     Q (Cont (buf', lenZ (fst (edit1 (t, o) k)), lenZ (fst (edit1 (t, o) k))), buf') s') ->
  wp (Ushell.key buf SHELL_BUFF (lenZ t) (lenZ t) (s8 k)) Q s.
Proof.
  intros [Hb Hr] Ht Hl (Hk & H10 & Hup & Hdown) HQ. pose proof (lenZ_nonneg t) as Hnn.
  assert (Hs8 : s8 k = if k <? 128 then k else k - 256).
  { unfold s8. assert (u8 k = k) as -> by (by apply Z.mod_small). done. }
  unfold Ushell.key, SHELL_BUFF. unfold edit1 in HQ.
  rewrite Hs8. clear Hs8. destruct (Z.ltb_spec k 128).
  2:{ destruct (Z.eqb_spec (k - 256) 10), (Z.eqb_spec (k - 256) 8), (Z.eqb_spec (k - 256) 16),
        (Z.eqb_spec (k - 256) 18), (Z.leb_spec 32 (k - 256)); try lia. cbn [andb]. wp_step.
      destruct (Z.eqb_spec k 8); [lia|]. destruct (Z.ltb_spec k 127); [lia|]. rewrite andb_false_r in HQ. cbn [andb fst snd] in HQ.
      apply (HQ buf []); [by split | apply prints_nil | by rewrite app_nil_r]. }
  destruct (Z.eqb_spec k 10), (Z.eqb_spec k 16), (Z.eqb_spec k 18); try done.
  destruct (Z.eqb_spec k 8).
  - destruct (Z.eqb_spec (lenZ t) 0) as [Hz|Hz], (Z.ltb_spec 0 (lenZ t)); try lia; cbn [fst snd] in HQ.
    + wp_step. apply (HQ buf []); [by split | apply prints_nil | by rewrite app_nil_r].
    + rewrite lenZ_take in HQ by lia. replace (lenZ t - lenZ t + 1) with 1 by lia. wp_step.
      apply wp_umemmove1; [lia..|]. wp_step. apply wp_uputstr; [by vm_compute|]. intros s' Hp. wp_step.
      apply (HQ _ [8; 32; 8]); [|exact Hp | done]. split; [by rewrite lenZ_wr|]. intros j Hj. rewrite lenZ_take in Hj by lia.
      rewrite rd_wr_ne, rd_take by lia. apply Hr. lia.
  - destruct ((32 <=? k) && (k <? 127)) eqn:Hpr; cbn [andb] in *.
    + replace (255 - 1) with 254 by lia. destruct (Z.ltb_spec (lenZ t) 254); cbn [fst snd] in HQ.
      * rewrite lenZ_app in HQ. replace (lenZ t - lenZ t + 1) with 1 by lia. wp_step. apply wp_umemmove1; [lia..|]. wp_step.
        apply wp_aset; [rewrite lenZ_wr; lia|]. wp_step. apply wp_putch. intros s' Hp. wp_step.
        change (lenZ [k]) with 1 in HQ. apply (HQ _ [k]); [|exact Hp | done]. split; [by rewrite !lenZ_wr|].
        intros j Hj. rewrite lenZ_app in Hj. change (lenZ [k]) with 1 in Hj. rewrite !rd_wr by (rewrite ?lenZ_wr; lia).
        destruct (Z.eqb_spec (lenZ t) j) as [<-|].
        -- rewrite rd_app_r, Z.sub_diag by lia. done.
        -- destruct (Z.eqb_spec (lenZ t + 1) j); [lia|]. rewrite rd_app_l by lia. apply Hr. lia.
      * wp_step. apply (HQ buf []); [by split | apply prints_nil | by rewrite app_nil_r].
    + wp_step. apply (HQ buf []); [by split | apply prints_nil | by rewrite app_nil_r].
Qed.
Lemma edited_snoc d k : edited (d ++ [k]) = edit1 (edited d) k.
Proof. unfold edited. by rewrite fold_left_app. Qed.

Lemma edited_line d : printable (fst (edited d)) /\ lenZ (fst (edited d)) <= 254.
Proof.
  induction d as [|k d IH] using rev_ind; [split; [constructor | done]|]. rewrite edited_snoc.
  destruct (edited d) as [t o]. destruct IH. by apply edit1_line.
Qed.

Lemma printable_nonzeros t : printable t -> nonzeros t.
Proof. apply List.Forall_impl. lia. Qed.

(** The history is where it was. *)
Definition same_history s s' : Prop :=
  g_history s' = g_history s /\ g_hist_count s' = g_hist_count s /\ g_hist_pos s' = g_hist_pos s.

Lemma wp_ushell_readline buf ks rest (Q : Z * list Z -> ushell U -> Prop) s :
  lenZ buf = 256 -> Forall plain ks -> keys (sys s) = ks ++ 10 :: rest -> (length ks + 1 < fuel)%nat ->
  (forall buf' s', holds buf' (fst (edited ks)) -> lenZ buf' = 256 -> keys (sys s') = rest ->
     shown (sys s') = shown (sys s) ++ snd (edited ks) ++ [10] -> same_history s s' ->
     Q (lenZ (fst (edited ks)), buf') s') ->
  wp (Ushell.readline fuel buf SHELL_BUFF) Q s.
Proof.
  intros Hb Hks Hkeys Hf HQ. unfold Ushell.readline. wp_step.
  apply (wp_while (fun '(b, i, pos) s' => exists d r, ks = d ++ r /\ begins b (fst (edited d)) /\ i = lenZ (fst (edited d)) /\ pos = i /\
      shown (sys s') = shown (sys s) ++ snd (edited d) /\ keys (sys s') = r ++ 10 :: rest /\ same_history s s')
    (fun _ s' => (length (keys (sys s')) - length rest)%nat)).
  - exists [], ks. split; [done|]. split; [split; [done | intros j Hj; unfold lenZ in Hj; simpl in Hj; lia]|].
    split; [done|]. split; [done|]. split; [by rewrite app_nil_r|]. by split.
  - rewrite Hkeys, length_app. simpl. lia.
  - intros [[b i] pos] s' (d & r & Hd & Hbg & -> & -> & Hsh & Hk & Hh). destruct (edited_line d) as [Hpr Hlen].
    unfold SHELL_BUFF at 1. destruct (Z.ltb_spec (lenZ (fst (edited d))) 255); [|lia]. wp_step. apply wp_call.
    pose proof (lenZ_nonneg (fst (edited d))) as Hnn.
    destruct r as [|k r].
    + eapply wp_mono; [|by eapply key_law]. intros x u (-> & Hs1 & Hk1). change (1 <=? 0) with false. cbv beta iota.
      wp_step. change (s8 10) with 10. unfold Ushell.key. rewrite Z.eqb_refl. wp_step. apply wp_putch. intros s2 (P1 & P2 & P3 & P4 & P5).
      wp_step. apply wp_aset; [destruct Hbg; lia|]. do 2 (wp_step; cbv beta iota). wp_step.
      rewrite app_nil_r in Hd. subst d. destruct Hh as (Hh1 & Hh2 & Hh3). destruct Hbg as [Hl Hr].
      apply HQ.
      * split; [rewrite lenZ_wr; lia|]. split; [by apply printable_nonzeros|].
        split; [intros j Hj; rewrite rd_wr_ne by lia; by apply Hr | apply rd_wr_eq; lia].
      * by rewrite lenZ_wr.
      * by rewrite P2.
      * rewrite P1. cbn [sys Ushell.set_sys]. by rewrite Hs1, Hsh, app_assoc.
      * split; [by rewrite P3 | split; [by rewrite P4 | by rewrite P5]].
    + eapply wp_mono; [|by eapply key_law]. intros x u (-> & Hs1 & Hk1). change (1 <=? 0) with false. cbv beta iota. wp_step.
      assert (Hpl : plain k) by (subst ks; apply Forall_app in Hks as [_ Hks]; by apply Forall_inv in Hks).
      destruct (edited d) as [t o] eqn:Hed. cbn [fst snd] in *.
      apply (wp_plain_key b t o k); [done..|]. intros b' w s2 Hb' (P1 & P2 & P3 & P4 & P5) Ho. wp_step.
      cbn [sys Ushell.set_sys g_history g_hist_count g_hist_pos] in *. destruct Hh as (Hh1 & Hh2 & Hh3).
      split.
      * exists (d ++ [k]), r. rewrite edited_snoc, Hed. split; [by rewrite <- app_assoc|]. split; [done|]. split; [done|]. split; [done|].
        split; [by rewrite P1, Hs1, Hsh, Ho, app_assoc|]. split; [by rewrite P2|]. split; [by rewrite P3 | split; [by rewrite P4 | by rewrite P5]].
      * rewrite P2, Hk1, Hk, !length_app. simpl. lia.
Qed.

(** C21: the line editor of the shell of ring 3 against the reference editor:
    for any keys but the history ones, then Enter, it returns the length of
    the line the reference has, the array holds that line, the screen has
    received what the reference shows and a new line, and the keys after Enter
    still wait. *)
Theorem ushell_readline_edits buf ks rest s :
  lenZ buf = 256 -> Forall plain ks -> keys (sys s) = ks ++ 10 :: rest -> (length ks + 1 < fuel)%nat ->
  exists buf' s', Ushell.readline fuel buf SHELL_BUFF s = Ok (lenZ (fst (edited ks)), buf') s' /\
    holds buf' (fst (edited ks)) /\ keys (sys s') = rest /\
    shown (sys s') = shown (sys s) ++ snd (edited ks) ++ [10] /\ same_history s s'.
Proof.
  intros Hb Hks Hk Hf. cut (wp (Ushell.readline fuel buf SHELL_BUFF) (fun r s' => exists buf', r = (lenZ (fst (edited ks)), buf') /\
    holds buf' (fst (edited ks)) /\ keys (sys s') = rest /\ shown (sys s') = shown (sys s) ++ snd (edited ks) ++ [10] /\
    same_history s s') s).
  - intros (r & s' & -> & buf' & -> & Hr)%wp_ok. by exists buf', s'.
  - eapply wp_ushell_readline; [done..|]. intros buf' s' Hh _ Hk' Hs' Hsame. by exists buf'.
Qed.

(** ** The history *)

Record history_ok s : Prop := {
  ho_rows : length (g_history s) = 16%nat;
  ho_row : Forall (fun l => lenZ l = 64 /\ terminated l /\ bytes l) (g_history s);
  ho_count : 0 <= g_hist_count s <= 16;
  ho_pos : 0 <= g_hist_pos s <= g_hist_count s
}.

Lemma wp_history_row i (Q : list Z -> ushell U -> Prop) s : history_ok s -> 0 <= i < 16 ->
  (forall l, g_history s !! Z.to_nat i = Some l -> lenZ l = 64 -> terminated l -> bytes l -> Q l s) -> wp (Ushell.history_row i) Q s.
Proof.
  intros Hs Hi HQ. unfold wp, Ushell.history_row. pose proof (ho_rows s Hs).
  destruct (lookup_lt_is_Some_2 (g_history s) (Z.to_nat i)) as [l Hl]; [lia|]. rewrite Hl.
  pose proof (Forall_lookup_1 _ _ _ _ (ho_row s Hs) Hl) as (Hl64 & Hlt & Hlb). by apply HQ.
Qed.

Lemma wp_umemcmp a b n (Q : Z -> ushell U -> Prop) s : 0 <= n <= lenZ a -> n <= lenZ b ->
  (forall r, (r = 0 -> forall j, 0 <= j < n -> u8 (rd a j) = u8 (rd b j)) -> Q r s) -> wp (Ushell.umemcmp a b n) Q s.
Proof.
  intros Ha Hb HQ. unfold Ushell.umemcmp. wp_step.
  apply (wp_for (fun i _ s' => s' = s /\ forall j, 0 <= j < i -> u8 (rd a j) = u8 (rd b j))); [split; [done | lia] | |].
  - intros k [] s' Hk (-> & Heq). unfold span in Hk. wp_step. apply wp_aget; [lia|]. wp_step. apply wp_aget; [lia|].
    destruct (Z.eqb_spec (u8 (rd a k)) (u8 (rd b k))); cbn [negb]; wp_step.
    + split; [done|]. intros j Hj. destruct (decide (j = k)) as [->|]; [done | apply Heq; lia].
    + wp_step. apply HQ. lia.
  - intros [] s' (-> & Heq). wp_step. apply HQ. intros _ j Hj. apply Heq. unfold span. lia.
Qed.

(** The first 63 characters of the line. *)
Definition recorded (t : list Z) : list Z := take 63 t.

Lemma wp_fill_row n line row t (Q : list Z -> ushell U -> Prop) s :
  n <= 16 -> holds line t -> printable t -> 64 <= lenZ line -> lenZ row = 64 -> bytes row ->
  (forall row', lenZ row' = 64 -> terminated row' -> bytes row' -> cstr row' = recorded t -> Q row' s) -> wp (Ushell.fill_row n line row) Q s.
Proof.
  intros Hn16 (Hl & Hn & Hr & Hz) Hpr Hlen H64 Hrb HQ. pose proof (lenZ_nonneg t) as Hnn. unfold Ushell.fill_row.
  assert (Hrec : lenZ (recorded t) = Z.min 63 (lenZ t)) by (unfold recorded, lenZ; rewrite length_take; lia).
  wp_step. apply wp_locals.
  apply (wp_while (fun '(i, row) s' => s' = s /\ 0 <= i <= lenZ (recorded t) /\ lenZ row = 64 /\ bytes row /\ forall j, 0 <= j < i -> rd row j = rd t j)
    (fun '(i, _) _ => Z.to_nat (64 - i))).
  - split; [done|]. split; [split; [lia | apply lenZ_nonneg]|]. split; [done|]. split; [done | lia].
  - simpl. lia.
  - intros [i r] s' (-> & Hi & Hlr & Hbr & Hpre). rewrite Hrec in Hi. destruct (Z.ltb_spec (n - 1) 16); [|lia].
    wp_step. apply wp_aget; [lia|]. destruct (decide (i < Z.min 63 (lenZ t))).
    + rewrite Hr by lia. pose proof (Forall_rd _ _ i Hn ltac:(lia)) as Hnz. simpl in Hnz.
      destruct (Z.eqb_spec (rd t i) 0), (Z.ltb_spec i 63); try lia; cbn [andb negb]. wp_step. apply wp_aset; [lia|]. wp_step.
      split; [|lia]. split; [done|]. rewrite Hrec. split; [lia|]. split; [by rewrite lenZ_wr|].
      split; [apply bytes_wr; [done|]; pose proof (Forall_rd _ _ i Hpr ltac:(lia)) as Hpi; simpl in Hpi; lia|].
      intros j Hj. destruct (decide (j = i)) as [->|]; [by rewrite rd_wr_eq by lia | rewrite rd_wr_ne by lia; apply Hpre; lia].
    + assert (Hstop : negb (rd line i =? 0) && (i <? 63) = false).
      { destruct (decide (lenZ t < 63)); [|destruct (Z.ltb_spec i 63); [lia | by rewrite andb_false_r]].
        replace i with (lenZ t) by lia. by rewrite Hz. }
      rewrite Hstop. wp_step. cbv beta iota. apply wp_aset; [lia|].
      assert (Hcs : cstr (wr r i 0) = recorded t).
      { assert (Hi' : i = lenZ (recorded t)) by lia. apply cstr_unique; [rewrite lenZ_wr; lia | | rewrite <- Hi'; apply rd_wr_eq; lia].
        intros j Hj. rewrite rd_wr_ne by lia. unfold recorded. change 63%nat with (Z.to_nat 63). rewrite rd_take by lia.
        split; [apply Hpre; lia|]. exact (Forall_rd _ _ j Hn ltac:(lia)). }
      apply HQ; [by rewrite lenZ_wr | unfold terminated; rewrite Hcs, lenZ_wr; lia | by apply bytes_wr | done].
Qed.

(** A row that agrees with the line on 64 characters holds the line. *)
Lemma same_row row line t : lenZ row = 64 -> terminated row -> bytes row -> holds line t -> printable t -> 64 <= lenZ line ->
  (forall j, 0 <= j < 64 -> u8 (rd row j) = u8 (rd line j)) -> cstr row = recorded t.
Proof.
  intros Hl Ht Hb (Hlt & _ & Hr & Hz) Hpr Hll Heq.
  assert (Hpj : forall j, 0 <= j < lenZ t -> 32 <= rd t j < 127) by (intros j Hj; exact (Forall_rd _ _ j Hpr ltac:(lia))).
  assert (Hrow : forall j, 0 <= j < lenZ t -> j < 64 -> rd row j = rd t j).
  { intros j Hj Hj64. pose proof (Hpj j Hj). specialize (Heq j ltac:(lia)). rewrite Hr in Heq by lia.
    unfold u8 in Heq. pose proof (Hb j). rewrite !Z.mod_small in Heq by lia. done. }
  pose proof (lenZ_nonneg (cstr row)) as Hk. pose proof (cstr_end row Ht) as Hend. unfold terminated in Ht. rewrite Hl in Ht.
  assert (Hshort : lenZ t <= lenZ (cstr row)).
  { destruct (Z.leb_spec (lenZ t) (lenZ (cstr row))); [done|]. rewrite Hrow in Hend by lia. pose proof (Hpj (lenZ (cstr row)) ltac:(lia)). lia. }
  assert (Hzero : rd row (lenZ t) = 0).
  { pose proof (lenZ_nonneg t). specialize (Heq (lenZ t) ltac:(lia)). rewrite Hz in Heq. unfold u8 in Heq. pose proof (Hb (lenZ t)).
    rewrite !Z.mod_small in Heq by lia. done. }
  unfold recorded. rewrite take_ge by (unfold lenZ in *; lia). apply cstr_unique; [pose proof (lenZ_nonneg t); lia | | done].
  intros j Hj. split; [apply Hrow; lia|]. pose proof (Hpj j Hj). lia.
Qed.

(** The line is the last of the history and the position is behind it: either
    the last row held it already, or it was written to the row that follows,
    which is the last of the sixteen when they are used up. *)
Definition line_recorded (t : list Z) s s' : Prop :=
  0 < g_hist_count s' /\ g_hist_pos s' = g_hist_count s' /\
  exists row, g_history s' !! Z.to_nat (g_hist_count s' - 1) = Some row /\ cstr row = recorded t /\
    (g_hist_count s' = g_hist_count s /\ g_history s' = g_history s \/
     g_hist_count s' = Z.min 16 (g_hist_count s + 1) /\ g_history s' = <[Z.to_nat (g_hist_count s' - 1) := row]> (g_history s)).

(** Recording a line keeps the invariant and puts it at the end of the history. *)
Lemma wp_record_history line t (Q : unit -> ushell U -> Prop) s :
  history_ok s -> holds line t -> printable t -> 64 <= lenZ line ->
  (forall s', history_ok s' -> sys s' = sys s -> line_recorded t s s' -> Q tt s') ->
  wp (Ushell.record_history line) Q s.
Proof.
  intros Hs Hline Hpr Hlen HQ. pose proof (ho_count s Hs) as Hc. unfold Ushell.record_history. wp_step. wp_step. wp_step.
  apply (wp_mono _ (fun new s' => s' = s /\ (new = false -> 0 < g_hist_count s /\
    exists row, g_history s !! Z.to_nat (g_hist_count s - 1) = Some row /\ cstr row = recorded t))).
  2:{ destruct (Z.eqb_spec (g_hist_count s) 0); [by wp_step|]. wp_step. apply wp_history_row; [done | lia |]. intros l Hlk Hl64 Hlt Hlb.
      wp_step. apply wp_umemcmp; [lia | lia |]. intros r Hr. wp_step. split; [done|]. intros He.
      split; [lia|]. exists l. split; [done|]. apply (same_row l line t); try done. apply Hr.
      destruct (Z.eqb_spec r 0); [done | discriminate]. }
  intros new s' [-> Hnew]. wp_step. destruct new.
  2:{ do 4 wp_step. destruct (Hnew eq_refl) as (Hpos & row & Hrow & Hcs). apply HQ; [|done|].
      - destruct Hs. split; [done..|]. cbn. lia.
      - split; [done|]. split; [done|]. exists row. split; [done|]. split; [done | by left]. }
  wp_step.
  apply (wp_mono _ (fun _ s1 => s1 = Ushell.set_count (Z.min 16 (g_hist_count s + 1)) s)).
  2:{ destruct (Z.ltb_spec (g_hist_count s) 16); wp_step; [by rewrite Z.min_r by lia|].
      rewrite Z.min_l by lia. replace 16 with (g_hist_count s) by lia. by destruct s. }
  intros [] s1 ->. set (n := Z.min 16 (g_hist_count s + 1)). set (s1 := Ushell.set_count n s).
  assert (Hs1 : history_ok s1) by (destruct Hs; split; try done; cbn; lia).
  wp_step. wp_step. change (g_hist_count s1) with n. wp_step. apply wp_history_row; [done | lia |]. intros row0 Hrow0 H64 _ Hb0.
  wp_step. apply (wp_fill_row _ _ _ t); [lia | done..|]. intros row Hl' Ht' Hb' Hcs. do 3 wp_step. apply HQ; [|done|].
  - destruct Hs. split; cbn; [by rewrite length_insert | by apply Forall_insert | lia | lia].
  - split; [cbn; lia|]. split; [done|]. exists row. cbn [g_hist_count g_history Ushell.set_pos Ushell.set_history].
    change (g_hist_count s1) with n. split; [|split; [done | by right]].
    apply list_lookup_insert_eq. by eapply lookup_lt_Some.
Qed.

(** ** The words and the command *)

Lemma parse_is_split buf : Ushell.parse (U := U) buf 16 = split_line buf.
Proof. reflexivity. Qed.

Lemma wp_ustrcmp a b v w (Q : Z -> ushell U -> Prop) s :
  holds a v -> holds b w -> Forall (fun c => 0 < c < 256) v -> Forall (fun c => 0 < c < 256) w ->
  (forall d, (d = 0 <-> v = w) -> Q d s) -> wp (Ushell.ustrcmp a b) Q s.
Proof.
  intros (Hla & _ & Hra & Hza) (Hlb & _ & Hrb & Hzb) Hv Hw HQ. pose proof (lenZ_nonneg v). pose proof (lenZ_nonneg w).
  assert (Hga : forall j, 0 <= j <= lenZ v -> 0 <= rd a j < 256 /\ (rd a j = 0 <-> j = lenZ v)).
  { intros j Hj. destruct (decide (j = lenZ v)) as [->|]; [rewrite Hza; lia|]. rewrite Hra by lia.
    pose proof (Forall_rd _ _ j Hv ltac:(lia)) as Hc. simpl in Hc. lia. }
  assert (Hgb : forall j, 0 <= j <= lenZ w -> 0 <= rd b j < 256 /\ (rd b j = 0 <-> j = lenZ w)).
  { intros j Hj. destruct (decide (j = lenZ w)) as [->|]; [rewrite Hzb; lia|]. rewrite Hrb by lia.
    pose proof (Forall_rd _ _ j Hw ltac:(lia)) as Hc. simpl in Hc. lia. }
  unfold Ushell.ustrcmp. wp_step. apply wp_locals.
  apply (wp_while (fun k s' => s' = s /\ 0 <= k <= lenZ v /\ k <= lenZ w /\ forall j, 0 <= j < k -> rd v j = rd w j)
    (fun k _ => Z.to_nat (lenZ v - k))).
  - split; [done|]. split; [lia|]. split; [lia | lia].
  - unfold lenZ in *. lia.
  - intros k s' (-> & Hk1 & Hk2 & He). destruct (Hga k ltac:(lia)) as [Hra1 Hra2], (Hgb k ltac:(lia)) as [Hrb1 Hrb2].
    wp_step. apply wp_aget; [lia|]. wp_step. apply wp_aget; [lia|].
    destruct (negb (rd a k =? 0) && negb (rd b k =? 0) && (rd a k =? rd b k)) eqn:Hcond; wp_step.
    + bprop. assert (k < lenZ v /\ k < lenZ w) as [? ?] by lia. split; [|lia]. split; [done|]. split; [lia|]. split; [lia|].
      intros j Hj. destruct (decide (j = k)) as [->|]; [rewrite <- Hra, <- Hrb by lia; done | apply He; lia].
    + wp_step. apply wp_aget; [lia|]. wp_step. apply wp_aget; [lia|]. wp_step. apply HQ.
      unfold u8. rewrite !Z.mod_small by lia. apply andb_false_iff in Hcond. split.
      * intros Hd. assert (Heq : rd a k = rd b k) by lia. assert (k = lenZ v /\ k = lenZ w) as [Hkv Hkw].
        { destruct (Z.eqb_spec (rd a k) 0), (Z.eqb_spec (rd b k) 0), (Z.eqb_spec (rd a k) (rd b k)); simpl in Hcond; lia || (destruct Hcond; done). }
        apply rd_ext; [lia|]. intros j Hj. apply He. lia.
      * intros ->. destruct (decide (k = lenZ w)) as [->|]; [lia|]. rewrite Hra, Hrb by lia. lia.
Qed.
(** The words written, from the place [i] on. *)
Definition rest_text (ws : list (list Z)) (i : Z) : list Z :=
  if i =? 1 then echo_text ws else concat (map (cons 32) (drop (Z.to_nat (i - 1)) ws)).

Lemma rest_text_cons ws i w : 1 <= i -> ws !! Z.to_nat (i - 1) = Some w ->
  rest_text ws i = (if 1 <? i then [32] else []) ++ w ++ rest_text ws (i + 1).
Proof.
  intros Hi Hw. unfold rest_text. destruct (Z.eqb_spec (i + 1) 1); [lia|]. replace (i + 1 - 1) with i by lia.
  destruct (Z.eqb_spec i 1) as [->|].
  - destruct ws as [|w0 ws]; [done|]. by injection Hw as ->.
  - destruct (Z.ltb_spec 1 i); [|lia]. rewrite (drop_S _ _ _ Hw). by replace (Z.to_nat i) with (S (Z.to_nat (i - 1))) by lia.
Qed.
Lemma rest_text_end ws : rest_text ws (lenZ ws + 1) = [].
Proof.
  unfold rest_text. destruct (Z.eqb_spec (lenZ ws + 1) 1); [destruct ws; [done | unfold lenZ in *; simpl in *; lia]|].
  replace (Z.to_nat (lenZ ws + 1 - 1)) with (length ws) by (unfold lenZ; lia). by rewrite drop_all.
Qed.

Lemma wp_cmd_echo buf p argv ws (Q : unit -> ushell U -> Prop) s :
  Forall2 (word_at buf) argv ws -> (forall s', prints s (echo_text ws ++ [10]) s' -> Q tt s') ->
  wp (Ushell.cmd_echo buf (p :: argv)) Q s.
Proof.
  intros Hargs HQ. pose proof (Forall2_length Hargs) as Hl. unfold Ushell.cmd_echo. wp_step. apply wp_locals.
  assert (Hla : lenZ (p :: argv) = lenZ ws + 1) by (unfold lenZ; simpl; lia). rewrite Hla. pose proof (lenZ_nonneg ws).
  apply (wp_for (fun i _ s' => exists v, prints s v s' /\ v ++ rest_text ws i = echo_text ws)).
  - exists []. split; [apply prints_nil | done].
  - intros i [] s' Hi (v & Hp & Hv). unfold span in Hi.
    destruct (lookup_lt_is_Some_2 argv (Z.to_nat (i - 1))) as [q Hq]; [unfold lenZ in *; lia|].
    destruct (Forall2_lookup_l _ _ _ _ _ Hargs Hq) as (w & Hw & _ & Hat). destruct (holds_cstr _ _ Hat) as [Hcs Hts].
    wp_step. apply (wp_mono _ (fun _ s2 => prints s' (if 1 <? i then [32] else []) s2)).
    2:{ destruct (1 <? i); [by apply wp_putch | wp_step; apply prints_nil]. }
    intros [] s2 Hp2. wp_step. apply wp_aget; [lia|].
    assert (Hrd : rd (p :: argv) i = q).
    { unfold rd. replace (Z.to_nat i) with (S (Z.to_nat (i - 1))) by lia. cbn [nth]. by apply nth_lookup_Some. }
    rewrite Hrd. wp_step. apply wp_uputstr; [done|]. rewrite Hcs. intros s3 Hp3. wp_step.
    exists ((v ++ (if 1 <? i then [32] else [])) ++ w). split; [by eapply prints_app; [eapply prints_app|]|].
    rewrite (rest_text_cons ws i w) in Hv by (done || lia). by rewrite <- Hv, <- !app_assoc.
  - intros [] s' (v & Hp & Hv). unfold span in Hv. replace (1 + Z.of_nat (Z.to_nat (lenZ ws + 1 - 1))) with (lenZ ws + 1) in Hv by lia.
    rewrite rest_text_end, app_nil_r in Hv. subst v. apply wp_putch. intros s2 Hp2. apply HQ. by eapply prints_app.
Qed.

Lemma holds_text m : forallb (fun c => negb (c =? 0)) (chars m) = true -> holds (text m) (chars m).
Proof.
  intros Hs. apply holds_of_app. apply List.Forall_forall. intros c Hc. rewrite forallb_forall in Hs. specialize (Hs c Hc). by bprop.
Qed.

(** One test of the chain of commands. *)
Lemma wp_case w v m (A B : M (ushell U) unit) (Q : unit -> ushell U -> Prop) s :
  holds w v -> Forall (fun c => 0 < c < 256) v -> forallb (fun c => (0 <? c) && (c <? 256)) (chars m) = true ->
  wp (if decide (v = chars m) then A else B) Q s ->
  wp (d ← Ushell.ustrcmp w (text m); if d =? 0 then A else B) Q s.
Proof.
  intros Hw Hv Hm HQ. assert (Hm' : Forall (fun c => 0 < c < 256) (chars m)).
  { apply List.Forall_forall. intros c Hc. rewrite forallb_forall in Hm. specialize (Hm c Hc). bprop. lia. }
  wp_step. apply (wp_ustrcmp _ _ v (chars m)); [done | | done | done |].
  - apply holds_of_app. eapply List.Forall_impl; [|exact Hm']. intros c Hc. simpl in Hc. lia.
  - intros d Hd. destruct (Z.eqb_spec d 0) as [->|Hne]; case_decide as Hdec; try done; [by case Hdec; apply Hd | by case Hne; apply Hd].
Qed.

Lemma wp_dispatch_echo buf t ws (Q : list Z -> ushell U -> Prop) s :
  holds buf t -> lenZ buf = 256 -> printable t -> words is_blank t = chars "echo" :: ws -> lenZ ws <= 15 ->
  (forall buf' s', lenZ buf' = 256 -> prints s (echo_text ws ++ [10]) s' -> Q buf' s') -> wp (Ushell.cmd_dispatch buf) Q s.
Proof.
  intros Hb Hl Ht Hw Hws HQ. unfold Ushell.cmd_dispatch. wp_step. rewrite parse_is_split. eapply wp_split_line; [exact Hb|].
  intros buf' argv Hl' _ Hargs. rewrite Hw, take_ge in Hargs by (unfold lenZ in Hws; change (Z.to_nat MAX_ARGS) with 16%nat; simpl; lia).
  apply Forall2_cons_inv_r in Hargs as (p & argv' & [_ Hp] & Hrest & ->).
  assert (Hecho : Forall (fun c => 0 < c < 256) (chars "echo")) by (by repeat constructor).
  destruct (Z.eqb_spec (lenZ (p :: argv')) 0) as [He|_]; [unfold lenZ in He; simpl in He; lia|]. wp_step.
  unfold Ushell.run. wp_step. apply wp_aget; [unfold lenZ; simpl; lia|]. change (rd (p :: argv') 0) with p. cbv zeta.
  do 2 (apply (wp_case _ (chars "echo")); [exact Hp | exact Hecho | done |]; rewrite decide_False by done).
  apply (wp_case _ (chars "echo")); [exact Hp | exact Hecho | done |]. rewrite decide_True by done.
  eapply wp_cmd_echo; [exact Hrest|]. intros s' Hs'. wp_step. apply HQ; [congruence | done].
Qed.

(** C33: a round of the shell of ring 3 from the keys to the screen: for any
    keys but the history ones whose line is the word "echo" and at most fifteen
    further words, the screen receives the prompt, what the editor shows for the
    keys, and the further words with one space between two; the line, cut to its
    first 63 characters, is the last of the history, in the row that follows the
    former last one (the sixteenth row when all are used), or in the last row
    when that held the same line already; no other row changes, the position is
    behind the last line, the invariant of the history is kept, and the keys
    after Enter still wait. *)
Theorem ushell_echo_round buf ks rest ws s :
  lenZ buf = 256 -> history_ok s -> Forall plain ks -> keys (sys s) = ks ++ 10 :: rest -> (length ks + 1 < fuel)%nat ->
  words is_blank (fst (edited ks)) = chars "echo" :: ws -> lenZ ws <= 15 ->
  exists buf' s', Ushell.round fuel buf s = Ok buf' s' /\ lenZ buf' = 256 /\ history_ok s' /\ line_recorded (fst (edited ks)) s s' /\
    keys (sys s') = rest /\
    shown (sys s') = shown (sys s) ++ chars "> " ++ snd (edited ks) ++ [10] ++ echo_text ws ++ [10].
Proof.
  intros Hb Hh Hks Hk Hf Hw Hws. apply (wp_ok _ (fun buf' s' => lenZ buf' = 256 /\ history_ok s' /\ line_recorded (fst (edited ks)) s s' /\
    keys (sys s') = rest /\ shown (sys s') = shown (sys s) ++ chars "> " ++ snd (edited ks) ++ [10] ++ echo_text ws ++ [10])).
  destruct (edited_line ks) as [Hpr Hlen]. set (t := fst (edited ks)) in *.
  unfold Ushell.round. wp_step. apply wp_uputstr; [by vm_compute|]. change (cstr (text "> ")) with (chars "> ").
  intros s1 (P1 & P2 & P3 & P4 & P5). wp_step. eapply (wp_ushell_readline buf ks rest); [done | done | by rewrite P2 | done |].
  fold t. intros buf1 s2 Hb1 Hl1 Hk2 Hs2 (S1 & S2 & S3). pose proof (lenZ_nonneg t). destruct (Z.ltb_spec (lenZ t) 0); [lia|].
  wp_step. apply wp_aget; [lia|]. assert (Hne : rd buf1 0 <> 0).
  { destruct Hb1 as (_ & Hn & Hr & _). assert (0 < lenZ t).
    { destruct t as [|c t']; [by change (words is_blank []) with (@nil (list Z)) in Hw | unfold lenZ; simpl; lia]. }
    rewrite Hr by lia. exact (Forall_rd _ _ 0 Hn ltac:(lia)). }
  destruct (Z.eqb_spec (rd buf1 0) 0); [done|]. wp_step.
  assert (Hh2 : history_ok s2) by (destruct Hh; split; rewrite ?S1, ?S2, ?S3, ?P3, ?P4, ?P5; done).
  apply (wp_record_history buf1 t); [done | done | done | lia |]. intros s3 Hh3 Hsys Hrec.
  apply (wp_dispatch_echo buf1 t ws); [done..|]. intros buf' s4 Hl4 (E1 & E2 & E3 & E4 & E5). split; [done|]. split.
  - destruct Hh3. split; rewrite ?E3, ?E4, ?E5; done.
  - split; [by unfold line_recorded in *; rewrite E3, E4, E5, <- ?P3, <- ?P4, <- ?P5, <- ?S1, <- ?S2, <- ?S3|]. rewrite E1, E2, Hsys, Hk2, Hs2, P1. split; [done|]. by rewrite <- !app_assoc.
Qed.
End Facts.

(** * An example: the keys "echo hj", backspace, "i  x" and Enter *)

#[export, program] Instance clocked_console : ConsoleLaws clocked := {| shown := written; keys := typed |}.
Next Obligation. intros l u. done. Qed.
Next Obligation. intros c u k ks Hk. unfold wp, sc_read_key. cbn [clocked_calls]. by rewrite Hk. Qed.

Definition sample_keys : list Z := chars "echo hj" ++ [8] ++ chars "i  x".
Definition fresh_ushell (ks : list Z) : ushell clocked := mkUshell (mkClocked [] 3 0 ks) (replicate 16 (replicate 64 0)) 0 0.

Lemma fresh_keys ks : keys (sys (fresh_ushell ks)) = ks.
Proof. done. Qed.

Lemma sample_plain : Forall plain sample_keys.
Proof. apply (bool_decide_unpack _). by vm_compute. Qed.

Lemma ushell_readline_edits_witness : exists buf' s',
  Ushell.readline 100 (replicate 256 0) SHELL_BUFF (fresh_ushell (sample_keys ++ 10 :: [])) = Ok (10, buf') s' /\
  holds buf' (chars "echo hi  x").
Proof.
  destruct (ushell_readline_edits 100 (replicate 256 0) sample_keys [] (fresh_ushell (sample_keys ++ 10 :: []))
    eq_refl sample_plain (fresh_keys _) ltac:(simpl; lia)) as (buf' & s' & Hr & Hh & _).
  exists buf', s'. split; [exact Hr | exact Hh].
Defined.

Lemma fresh_history ks : history_ok (fresh_ushell ks).
Proof.
  split; [done | | cbn; lia | cbn; lia]. apply Forall_replicate. split; [done|]. split; [by vm_compute | by apply bytes_by_compute].
Qed.

Lemma ushell_echo_round_witness : exists buf' s',
  Ushell.round 100 (replicate 256 0) (fresh_ushell (sample_keys ++ 10 :: [])) = Ok buf' s' /\
  line_recorded (fst (edited sample_keys)) (fresh_ushell (sample_keys ++ 10 :: [])) s' /\
  written (sys s') = [] ++ chars "> " ++ snd (edited sample_keys) ++ [10] ++ echo_text [chars "hi"; chars "x"] ++ [10].
Proof.
  destruct (ushell_echo_round 100 (replicate 256 0) sample_keys [] [chars "hi"; chars "x"] (fresh_ushell (sample_keys ++ 10 :: []))
    eq_refl (fresh_history _) sample_plain (fresh_keys _) ltac:(simpl; lia) ltac:(by vm_compute) ltac:(done)) as (buf' & s' & Hr & _ & _ & Hrec & _ & Hs).
  exists buf', s'. split; [exact Hr|]. split; [exact Hrec | exact Hs].
Defined.
