(* ===== verification/Boot.v ===== *)
(** The start of the kernel: [kernel_main] of [src/kernel/kernel.c].

    [boot] is [kernel_main] up to the instruction that enables interrupts.  The
    disk of the file systems is the ATA driver itself.  The theorem composes the
    start of the tables, of the controllers, of the memory managers and of the
    scheduler: what the first interrupt finds. *)
From Stdlib Require Import ZArith Lia List String.
From stdpp Require Import base tactics numbers list gmap strings option.
From S2P Require Import NetDemo VfsFacts Prelude Pmm Vmm Heap CString Sched UserTask Bytes Ata Disk Ext2 Vfs NetState Rtl8139 Net Fbcon Term Printk Keyboard Readline Text TextBuf ViState Descriptors Machine MachineDemo SayFacts Commands Acpi Interrupts InterruptFacts Usb Shell.
Open Scope Z_scope.

Section Boot.
Context {P K P' H N R : Type} `{Ports P, KbdHw K, Ports P', KernelHeap H, NicHw N, Ports R}
  `{Cpu, Locals, layout : KernelLayout, SchedLayout, UserBinary, UsbLayout, KernelText}.
Notation G := (M (kernel P K (ata P') H N R)).

(** The poll and the handlers of the network, and the fuel of the loops that
    wait. *)
Variable poll : M (net N) unit.
Variable fuel : nat.
Variables conn_addr tx_addr : Z.

(** The information of the boot loader: [mbd] and [magic]. *)
Definition boot (mbd : multiboot_info_t) (magic : Z) : G unit :=
  on_dt gdt_init;;
  on_dt idt_init;;
  irq_init;;
  on_mc (on_vmm (pm (pm_init mbd magic)));;
  on_mc (on_vmm vm_init);;
  tss_init;;
  on_dt tss_load;;
  on_sc sched_init;;
  mret tt.

(** The shell with [n] lines: the code runs it for ever. *)
Definition kernel_main (mbd : multiboot_info_t) (magic : Z) (esp : Z) (n : nat) : G unit :=
  boot mbd magic;;
  on_mc (on_fs (ext (dev ata_init)));;
  on_mc (on_fs vfs_init);;
  on_mc (on_fs ext2_init);;
  on_mc usb_init;;
  on_mc (on_net net_init);;
  on_mc (on_net (net_driver_init fuel rtl8139_irq_handler_addr));;
  on_mc (on_scr term_init);;
  on_mc (shell poll fuel conn_addr tx_addr esp n).

(** The image the boot loader leaves: zeroed tables, memory of bytes, paging
    off, and the arrays of the size the linker gave them. *)
Definition vmm_of (s : kernel P K (ata P') H N R) : vmm := u_vmm (tasks (mc s)).
Record loaded (s : kernel P K (ata P') H N R) : Prop := {
  ld_gdt : lenZ (gdt_e (dt s)) = 8;
  ld_idt : idt (dt s) = replicate 256 null_idt_entry;
  ld_pm : pm_wf (vpm (vmm_of s));
  ld_paging : paging (vmm_of s) = false;
  ld_dir : lenZ (page_directory (vmm_of s)) = 1024;
  ld_mem : mem_wf (mem (vmm_of s));
  ld_stacks : kstacks_ok (sched_of s)
}.

Lemma wp_pm_boot mbd magic v (Q : unit -> vmm -> Prop) :
  pm_wf (vpm v) -> 0 <= mmap_length mbd -> mmap_length mbd + 24 <= 4294967296 -> IDENT_PAGES <= 32 * (init_blocks mbd / 32) ->
  paging v = false -> lenZ (page_directory v) = 1024 -> mem_wf (mem v) ->
  (forall p, boot_ready (set_vpm p v) -> Q tt (set_vpm p v)) ->
  wp (pm (pm_init mbd magic)) Q v.
Proof.
  intros Hp Hl Hl' Hb Hpg Hd Hm HQ. destruct (pm_init_inv mbd magic (vpm v)) as (p & Hr & Hi & Hu & Hn); [done..| |].
  { unfold IDENT_PAGES in Hb. word_lia. }
  unfold pm. wp_step. eapply wp_run; [exact Hr|]. apply HQ. split; try done. cbn [vpm set_vpm]. unfold nframes in *. lia.
Qed.

(** C3: what [kernel_main] has established when it enables interrupts.  From the
    image the boot loader leaves, with at least 8 MiB of memory, the start
    terminates; every vector has its gate, the selectors name their segments
    and the task register the segment that denies all ports; paging is on and
    the addresses below 8 MiB translate to themselves and no others do; the
    scheduler's invariant holds with the kernel as the only task; the lines of
    the timer and the keyboard have their handlers. *)
Theorem boot_establishes mbd magic s :
  loaded s -> 0 <= mmap_length mbd -> mmap_length mbd + 24 <= 4294967296 -> IDENT_PAGES <= 32 * (init_blocks mbd / 32) ->
  exists s', boot mbd magic s = Ok tt s' /\
    (forall v, 0 <= v < 256 -> vector_gate (dt s') v = installed v) /\
    selected (dt s') GDT_SEL_KERN_CODE = Some (flat 0 SEG_CODE) /\ selected (dt s') GDT_SEL_KERN_DATA = Some (flat 0 SEG_DATA) /\
    selected (dt s') GDT_SEL_USER_CODE = Some (flat 3 SEG_CODE) /\ selected (dt s') GDT_SEL_USER_DATA = Some (flat 3 SEG_DATA) /\
    selected (dt s') (r_tr (dt s')) = Some (mkSegment g_tss_addr 103 true 0 true TSS_AVAILABLE false) /\ tss_image (g_tss (dt s')) /\
    vm_inv (vmm_of s') /\
    (forall va, 0 <= va < 4294967296 -> translate (vmm_of s') va = if va <? IDENT_PAGES * 4096 then Some va else None) /\
    sched_inv (sched_of s') /\ g_cur (sched_of s') = 0 /\ (forall i, 1 <= i < 8 -> st (sched_of s') i = S_EMPTY) /\
    irq_routines (nt (mc s')) = wr (wr (irq_routines (nt (mc s))) 0 timer_int_addr) 1 keyboard_handler_addr.
Proof.
  intros [Hg Hi Hp Hpg Hd Hm Hk] Hl Hl' Hb. apply wp_unit. unfold boot.
  wp_step. apply wp_on_dt, wp_gdt_init; [done|]. change (set_r_gdtr _ _) with (with_gdt (dt s)). set (s1 := set_dt _ s).
  wp_step. eapply wp_mono; [|by apply (wp_gates (fun _ s2 => exists l, gates_of l /\ s2 = with_gates l s1)); [exact Hi | eauto]].
  intros [] s2 Hw. wp_step. eapply wp_mono; [|exact Hw]. intros [] ? (l & Hgl & ->). clear s2 Hw.
  wp_step. apply wp_on_mc. unfold on_vmm, on_tasks, vm. wp_step. wp_step. apply wp_pm_boot; [done..|]. intros p Hbr.
  wp_step. apply wp_on_mc. wp_step. wp_step. apply wp_vm_init; [exact Hbr|]. intros v Hv Hu _ Hz.
  wp_step. apply wp_tss_init. intros g Hgt. wp_step. apply wp_on_dt. unfold tss_load. wp_step.
  wp_step. apply wp_on_sc, wp_sched_init; [exact Hk|]. intros sc' Hsc Hc Hst. wp_step.
  pose proof addr_range as (Ht & _ & _).
  split; [exact Hgl|].
  assert (Hsel : forall sel e sg, gdt_image !! Z.to_nat (sel / 8) = Some e -> 0 <= sel < 64 -> segment_at (gdt_bytes e) 0 = sg ->
    selected (with_gdt (dt s)) sel = Some sg) by (intros; by eapply gdt_selects).
  split; [by eapply Hsel|]. split; [by eapply Hsel|]. split; [by eapply Hsel|]. split; [by eapply Hsel|].
  split; [eapply Hsel; [reflexivity | done | by rewrite gdt_entry_decodes by lia]|].
  split; [exact Hgt|]. split; [exact Hv|]. split; [|by split_and!].
  intros va Hva. change (translate v va = if va <? IDENT_PAGES * 4096 then Some va else None).
  destruct (Z.ltb_spec va (IDENT_PAGES * 4096)); [apply translate_ident; [done | lia]|].
  rewrite translate_pte by done. unfold mapped. rewrite Hz by (unfold IDENT_PAGES, NPAGES in *; Z.div_mod_to_equations; lia). done.
Qed.
End Boot.

(** * An example: the kernel as it is loaded, on the demonstration disk *)

Definition image_tasks : utask :=
  mkUtask (mkVmm pmm_bss (replicate (Z.to_nat 1024) 0) ∅ false []) sched_bss 0 (replicate 8 0).
Definition image_fs : vfs (ata unit) Z :=
  mkVfs (mkExt2 demo_ata 0 [] 0 [] 0 0 0 0 0 (replicate 8 zero_node) 0) 0 ∅ [] 0 [] [] NP_null.
Definition image : kernel unit unit (ata unit) Z unit unit :=
  mkKernel (mkMachine demo_console image_fs demo_net image_tasks tt demo_nano demo_usb demo_vi) tables_bss.

Lemma image_loaded : loaded image.
Proof.
  split; try done; [exact pmm_bss_wf | split; [done | by repeat constructor]].
Qed.

Lemma boot_establishes_witness : exists s', boot demo_mbi MULTIBOOT_BOOTLOADER_MAGIC image = Ok tt s' /\
  vector_gate (dt s') 0x80 = kernel_gate syscall_stub 3 /\ translate (vmm_of s') 0xB8000 = Some 0xB8000.
Proof.
  assert (Hl : 0 <= mmap_length demo_mbi) by (vm_compute; congruence).
  assert (Hl' : mmap_length demo_mbi + 24 <= 4294967296) by (vm_compute; congruence).
  assert (Hb : IDENT_PAGES <= 32 * (init_blocks demo_mbi / 32)) by (vm_compute; congruence).
  destruct (boot_establishes demo_mbi MULTIBOOT_BOOTLOADER_MAGIC image image_loaded Hl Hl' Hb)
    as (s' & Hr & Hg & _ & _ & _ & _ & _ & _ & _ & Ht & _).
  exists s'. split; [exact Hr|]. split; [exact (Hg 0x80 ltac:(lia)) | exact (Ht 0xB8000 ltac:(lia))].
Defined.
